(* ===== verification/_CoqProject ===== *)
-Q . S2P
Prelude.v
Status.v
Hart.v
Infra.v
Mmio.v
PcieCfg.v
PcieCap.v
PcieRegs.v
PcieTable.v
Memory.v
Bytes.v
Pgt.v
Iommu.v
Peripherals.v
Iovirt.v
IovirtBlocks.v
Smmu.v
SmmuQueue.v
SmmuMap.v
PcieEnum.v
PcieTree.v
PcieBars.v
Aia.v
Gic.v
GicIrq.v
Its.v
ItsMap.v
Timer.v
Suite.v
UefiPci.v
Exerciser.v
Firmware.v
BmPcie.v
Tests.v
PcieTests.v
PcieBusTests.v
AmlTest.v
IommuTests.v
IicTests.v
SystemTests.v
Heap.v
Console.v
DeviceTree.v
DtDevices.v
BmTables.v
BmExerciser.v
BmIovirt.v
BmPeripherals.v
Rdn2.v
Mmu.v
