(* ===== verification/Prelude.v ===== *)
(** * Verification of the RISC-V server SoC test suite

    The program under [src/] checks that a RISC-V server SoC conforms to its
    specification. An application ([uefi_app/], [baremetal_app/]) builds tables
    that describe the system and then runs tests ([test_pool/]) grouped in
    modules. The tests use the validation layer ([val/]), which uses the
    platform layer ([platform/]): the UEFI/ACPI port [pal_uefi_acpi] reads the
    firmware tables and accesses the devices; the bare-metal port
    [pal_baremetal] has tables of its own and enumerates the PCIe hierarchy. A
    false verdict of this program is a false statement about a chip, so the
    properties below are about what its verdicts, its tables and its register
    accesses mean.

    ** Files

    Foundations:
    - [Prelude.v]: machine integers as [Z] with their wrap-around ([u8] to
      [u64]), masks and shifts as arithmetic, the type [outcome] of a run
      (returns, undefined, does not end), the state monad [prog] with its loops,
      C arrays ([at_index]) and the searches the tables share.
    - [Bytes.v]: structures as the bytes they have in memory, for tables whose
      records have different sizes or overlap.
    - [Mmio.v]: the register accessors ([pal_uefi_acpi/src/pal_misc.c]) over the
      class [Hardware]; the class [RegisterFile] states what a device promises
      of its registers (read-only, read-write and write-1-to-clear bits), and
      [board] is an instance of both.

    The life of a test:
    - [Status.v]: the status word of a test, the record each hart shares, the
      globals [val_state] and the reports ([val/src/acs_status.c],
      [val/include/bsa_acs_common.h]).
    - [Hart.v]: the hart table from ACPI ([pal_uefi_acpi/src/pal_hart.c]), its
      accessors, starting harts, exception handlers and cache cleaning
      ([val/src/acs_hart_infra.c], [val/src/acs_hart.c]).
    - [Infra.v]: selection, running, waiting and verdict of a test
      ([val/src/acs_test_infra.c]); the class [SecondaryHarts] is what the other
      harts may do between two reads of the shared memory.
    - [Suite.v]: the options of the applications, the runners
      [val_*_execute_tests] of the modules and the sequence of a run
      ([uefi_app/BsaAcsMain.c], [baremetal_app/BsaAcsMain.c], [val/src/]).

    PCIe:
    - [PcieCfg.v], [PcieCap.v], [PcieRegs.v], [PcieTable.v]:
      [val/src/acs_pcie.c] in four parts: addresses of functions and access to
      configuration space; capabilities and header fields; control and status
      bits and the table-driven bit-field checks; the table of functions, root
      ports, downstream functions, ECAMs and BARs.
    - [PcieEnum.v], with its theorems in [PcieTree.v] and [PcieBars.v]: the
      enumeration of the bare-metal port
      ([pal_baremetal/common/src/pal_pcie_enumeration.c]).
    - [BmPcie.v] and [UefiPci.v]: the other PCIe services of the two ports
      ([pal_pcie.c] of each).
    - [Exerciser.v]: the exerciser and the table of DMA controllers
      ([val/src/acs_exerciser.c], [pal_uefi_acpi/src/pal_exerciser.c],
      [val/src/acs_dma.c]).

    Memory and translation:
    - [Memory.v]: the memory map ([val/src/acs_memory.c],
      [pal_uefi_acpi/src/pal_peripherals.c]).
    - [Pgt.v]: translation tables ([val/src/acs_pgt.c]) over a memory of words
      and a page allocator.
    - [Iommu.v]: the IOMMU table ([val/src/acs_iommu.c],
      [pal_uefi_acpi/src/pal_iommu.c]).
    - [Iovirt.v], with the blocks the walk leaves in [IovirtBlocks.v]: the I/O
      virtualisation table and its queries ([val/src/acs_iovirt.c],
      [pal_uefi_acpi/src/pal_iovirt.c]).
    - [Smmu.v], with its theorems in [SmmuQueue.v] (queues) and [SmmuMap.v]
      (tables and mappings): the SMMU driver ([val/sys_arch_src/smmu_v3/]).

    Interrupts, timers, peripherals, firmware:
    - [Gic.v], theorems in [GicIrq.v]: the interrupt controller
      ([val/src/acs_gic.c], [acs_gic_v2m.c], [acs_gic_support.c],
      [val/sys_arch_src/gic/]).
    - [Its.v], theorems in [ItsMap.v]: the interrupt translation service
      ([val/sys_arch_src/gic/its/]).
    - [Aia.v]: the incoming MSI controller ([val/sys_arch_src/aia/aia.c]).
    - [Timer.v]: timers, watchdogs and low-power states ([val/src/acs_timer.c],
      [acs_timer_support.c], [acs_wd.c], [acs_wakeup.c], [pal_timer_wd.c]).
    - [Peripherals.v]: PCI devices by class, the peripheral table and its queries
      ([val/src/acs_peripherals.c], [pal_uefi_acpi/src/pal_peripherals.c],
      [pal_uefi_acpi/src/pal_pcie_enumeration.c]).
    - [Firmware.v]: the search of the ACPI tables and the management information
      ([pal_uefi_acpi/src/pal_acpi.c], [pal_mng.c], [val/src/acs_mng.c]).

    The other ports:
    - [Heap.v], [Console.v]: the allocator and the memory functions of the
      bare-metal port ([pal_bm_misc.c], [pal_misc.c]), its serial port and
      [vprintf] ([pal_pl011_uart.c], [pal_misc.c]).
    - [Mmu.v]: the memory regions of the bare-metal port ([pal_bm_memory.c]) and
      the set-up of the MMU before the tests ([val/src/acs_mmu.c]).
    - [BmTables.v], [BmIovirt.v], [BmPeripherals.v]: how the bare-metal port fills
      the tables of the interrupt controller, of memory, of DMA controllers, of
      the I/O virtualisation and of the peripherals from the configuration of the
      platform ([pal_gic.c], [pal_peripherals.c], [pal_dma.c], [pal_iovirt.c]).
    - [BmExerciser.v]: the exerciser of the bare-metal port
      ([pal_bm_exerciser.c], [pal_exerciser.c]).
    - [Rdn2.v]: the configuration of the platform RDN2 ([platform_cfg_fvp.c],
      [platform_override_fvp.h]) and what the ports make of it with the memory
      that [baremetal_app/BsaAcsMain.c] allocates.
    - [DeviceTree.v], [DtDevices.v]: how [pal_uefi_dt/] builds its tables from the
      device tree; libfdt is a parameter.

    Tests ([test_pool/]):
    - [Tests.v]: the entry function that the tests of one hart share.
    - [PcieTests.v], [PcieBusTests.v], [AmlTest.v]: the PCIe tests of the RISC-V
      build, [test_pool/pcie/operating_system/test_os_p001.c] and [riscv/].
    - [IommuTests.v]: the tests of [test_pool/iommu/].
    - [IicTests.v]: the tests of [test_pool/iic/] and [test_pool/qos/].
    - [SystemTests.v]: the symmetry test of [test_pool/hart/], two tests of
      [test_pool/timer/] and the tests of [test_pool/mng/].

    ** How the code is modelled

    A C function is a [prog S A]: from a state it returns a value and a state,
    or is [Undefined] (a NULL pointer, an access outside an array, a shift past
    the width), or [Diverges]. Function and variable names are those of the
    source; a loop of a function is a definition of its own, named after the
    function. A global variable is a field of the state of its component. An
    uninitialised local is [uninit], an arbitrary value (class [Uninit]). What
    the source takes from outside (firmware tables and services, allocators, the
    answers of devices, the platform's list of valid devices) is an argument, a
    class or a section variable. A device that acts by itself (the consumer of a
    command queue, the producer of events) is a class with laws, proved against
    and instantiated by a concrete device. Printing is kept only where it changes
    state (the report of a test); messages are otherwise left out.

    ** What the theorems show

    - Verdicts ([Infra.v], [Status.v], [Suite.v]): a status word carries exactly
      one verdict; the tests that run are those the options select, in order; the
      verdict of a test that runs on many harts is justified by what the harts
      published, in every interleaving, unless a hart answers after its time-out:
      it can hide that another one timed out.
    - Tests ([Tests.v] and the files after it): a test returns the verdict of the
      status word its payload leaves; the PCIe tests that check the functions of
      the table one by one decide the rule of their code, and where a comment or a
      message says another rule a theorem shows by how much they differ; some
      tests are shown to pass, fail or hang whatever the device does.
    - Tables ([Hart.v], [PcieTable.v], [Memory.v], [Peripherals.v], [Iovirt.v],
      [IovirtBlocks.v], [Timer.v], [UefiPci.v], [Exerciser.v], [Firmware.v],
      [Iommu.v]): building a
      table returns, and the table lists exactly what the firmware or the scan of
      the hierarchy gives; its queries return the right entry. The IOMMU table
      does not: its ID mappings are overwritten.
    - Register access ([Mmio.v], [PcieCfg.v], [PcieRegs.v]): distinct functions
      have disjoint configuration spaces, a write reaches only its register, and
      each helper that sets, clears or checks bits does what it says on registers
      of every attribute, or the theorem says what else it does.
    - Searches ([PcieCap.v], [PcieTable.v], [Exerciser.v], [BmPcie.v]): the
      capability search ends and finds the first match on every list that ends,
      and the two searches of the program agree; the root port and the downstream
      function found are the right ones.
    - Enumeration ([PcieTree.v], [PcieBars.v]): after the numbering every function
      of the tree is reached by exactly the bus number it got; the ranges of the
      BARs of a function do not overlap.
    - Translation ([Pgt.v], [SmmuQueue.v], [SmmuMap.v]): mapping a region and
      walking to its addresses gives its attributes; every command is executed
      before the driver goes on and every event is reported once; mapping and
      unmapping a stream change exactly what the device decodes for it.
    - Interrupts ([GicIrq.v], [ItsMap.v], [Aia.v]): what installing a handler,
      mapping and unmapping an interrupt and updating a range of identities change.
    - Ports ([Heap.v], [Console.v], [Mmu.v], [BmTables.v], [BmIovirt.v],
      [BmPeripherals.v], [BmExerciser.v], [DeviceTree.v], [DtDevices.v]): blocks
      of the heap are aligned and apart; printing a text sends its characters; the set-up of the
      MMU creates tables for the regions of the platform in order; the tables of
      the bare-metal and of the device-tree port list what the configuration, the
      configuration space and the nodes of the tree say; the bare-metal and the
      UEFI port drive an exerciser alike.
    - Examples at a real platform ([Rdn2.v], [Mmu.v]): how much memory the tables
      of RDN2 need and what its mappings lead to.
    - Where the code does not do what it means to, a theorem states what it does
      instead, with the input that shows it.

    ** Bounds and fuel

    Loops that run over a list are structural. Loops bounded by a time-out count
    in binary ([rounds], [loop]); the poll of an ITS takes 10000 rounds. The
    others have fuel that is proved or seen to be enough: a capability list has
    at most 256 or 4096 distinct offsets (257 and 4097 rounds); the ECAM searches
    have one round per ECAM and one more, with an index of eight bits at most 257;
    a step of [fill_translation_table] covers at least a page; a walk of a 64-bit
    address passes at most six levels; the numbering of buses needs more fuel
    than the tree is deep; the search for controllers finds another device in
    each round but the last, and in the bare-metal port a later one, so that one
    round per device number of every bus and one more are enough; the walks of
    firmware tables and of AML code advance at least a byte a round, except
    where a theorem shows that they hang; the blocks of an IORT need more rounds
    than its longest chain of references. Running out of fuel is [Diverges], and
    the theorems that a function returns exclude it.

    ** Not modelled

    Functions of [val/] that only forward to the platform layer; the assembly
    files; the services of the UEFI firmware behind their interfaces; libfdt; the
    tables of harts, timers and watchdogs of the bare-metal port, which are
    copied field by field; the files of [pal_uefi_dt/] that
    repeat those of [pal_uefi_acpi/]; the Linux driver interface [linux_app];
    exceptions raised by an access of a test; the tests that the manifest lists as
    not modelled. *)

From Stdlib Require Export ZArith Lia Bool.
From stdpp Require Export base numbers list option strings gmap.
#[export] Set Default Goal Selector "!".

Ltac Zify.zify_post_hook ::= Z.div_mod_to_equations.

#[global] Open Scope Z_scope.

(** ** Machine integers

    A C value of width [w] is the integer [z] with [0 <= z < 2 ^ w]; every
    operation that can leave that range is followed by one of the wraps. *)

Definition u8 (z : Z) : Z := z mod 2 ^ 8.
Definition u16 (z : Z) : Z := z mod 2 ^ 16.
Definition u32 (z : Z) : Z := z mod 2 ^ 32.
Definition u64 (z : Z) : Z := z mod 2 ^ 64.

#[global] Arguments u8 : simpl never.
#[global] Arguments u16 : simpl never.
#[global] Arguments u32 : simpl never.
#[global] Arguments u64 : simpl never.

(** The conversion to [int32_t]. *)
Definition i32 (z : Z) : Z := let m := u32 z in if m <? 2 ^ 31 then m else m - 2 ^ 32.

Lemma u8_range z : 0 <= u8 z < 256.
Proof. unfold u8. lia. Qed.

Lemma u16_range z : 0 <= u16 z < 65536.
Proof. unfold u16. lia. Qed.

Lemma u32_range z : 0 <= u32 z < 4294967296.
Proof. unfold u32. lia. Qed.

Lemma u64_range z : 0 <= u64 z < 18446744073709551616.
Proof. unfold u64. lia. Qed.

Lemma u32_small z : 0 <= z < 4294967296 -> u32 z = z.
Proof. unfold u32. lia. Qed.

Lemma u64_small z : 0 <= z < 18446744073709551616 -> u64 z = z.
Proof. unfold u64. lia. Qed.

Lemma u16_small z : 0 <= z < 65536 -> u16 z = z.
Proof. unfold u16. lia. Qed.

Lemma u8_small z : 0 <= z < 256 -> u8 z = z.
Proof. unfold u8. lia. Qed.

Lemma u32_idem z : u32 (u32 z) = u32 z.
Proof. unfold u32. lia. Qed.

(** ** Bit fields *)

Create Rewrite HintDb cbits.
Create Rewrite HintDb tbits.

Lemma land_ones_mod x n : 0 <= n -> Z.land x (Z.ones n) = x mod 2 ^ n.
Proof. apply Z.land_ones. Qed.

Lemma land_1 x : Z.land x 1 = x mod 2.
Proof. exact (Z.land_ones x 1 ltac:(lia)). Qed.
Lemma land_3 x : Z.land x 3 = x mod 4.
Proof. exact (Z.land_ones x 2 ltac:(lia)). Qed.
Lemma land_15 x : Z.land x 15 = x mod 16.
Proof. exact (Z.land_ones x 4 ltac:(lia)). Qed.
Lemma land_127 x : Z.land x 127 = x mod 128.
Proof. exact (Z.land_ones x 7 ltac:(lia)). Qed.
Lemma land_255 x : Z.land x 255 = x mod 256.
Proof. exact (Z.land_ones x 8 ltac:(lia)). Qed.
Lemma land_4095 x : Z.land x 4095 = x mod 4096.
Proof. exact (Z.land_ones x 12 ltac:(lia)). Qed.
Lemma land_65535 x : Z.land x 65535 = x mod 65536.
Proof. exact (Z.land_ones x 16 ltac:(lia)). Qed.
Lemma land_ffffffff x : Z.land x 4294967295 = x mod 4294967296.
Proof. exact (Z.land_ones x 32 ltac:(lia)). Qed.

(** Packing: two fields that do not overlap are added. *)
Lemma lor_add a b : Z.land a b = 0 -> Z.lor a b = a + b.
Proof.
  intros H. rewrite Z.add_nocarry_lxor by done.
  symmetry. by apply Z.lxor_lor.
Qed.

Lemma lor_shiftl_add a b n :
  0 <= n -> 0 <= b < 2 ^ n -> Z.lor (Z.shiftl a n) b = a * 2 ^ n + b.
Proof.
  intros Hn Hb. rewrite <- Z.shiftl_mul_pow2 by done. apply lor_add.
  apply Z.bits_inj'. intros i Hi. rewrite Z.land_spec, Z.testbit_0_l.
  destruct (Z.ltb_spec i n).
  - by rewrite Z.shiftl_spec_low.
  - replace b with (b mod 2 ^ n) by (apply Z.mod_small; lia).
    by rewrite Z.mod_pow2_bits_high, andb_false_r by lia.
Qed.

(** Single bits of a 32-bit register. *)
Lemma testbit_u32 x i : Z.testbit (u32 x) i = (i <? 32) && Z.testbit x i.
Proof.
  unfold u32. destruct (Z.ltb_spec i 32); simpl.
  - by apply Z.mod_pow2_bits_low.
  - apply Z.mod_pow2_bits_high. lia.
Qed.

(** Two 32-bit words with the same 32 bits are equal. *)
Lemma bits_eq32 x y :
  0 <= x < 2 ^ 32 -> 0 <= y < 2 ^ 32 ->
  x = y <-> forall i, 0 <= i < 32 -> Z.testbit x i = Z.testbit y i.
Proof.
  intros Hx Hy. split; [by intros ->|]. intros Hb. apply Z.bits_inj'. intros i Hi.
  destruct (Z.ltb_spec i 32); [by apply Hb|].
  replace x with (x mod 2 ^ 32) by (apply Z.mod_small; lia).
  replace y with (y mod 2 ^ 32) by (apply Z.mod_small; lia).
  by rewrite !Z.mod_pow2_bits_high by lia.
Qed.

Lemma lxor_range32 x y : 0 <= x < 2 ^ 32 -> 0 <= y < 2 ^ 32 -> 0 <= Z.lxor x y < 2 ^ 32.
Proof.
  intros Hx Hy.
  assert (E : Z.lxor x y = Z.lxor x y mod 2 ^ 32).
  { apply Z.bits_inj'. intros i Hi. rewrite Z.lxor_spec. destruct (Z.ltb_spec i 32).
    - by rewrite Z.mod_pow2_bits_low, Z.lxor_spec by lia.
    - rewrite Z.mod_pow2_bits_high by lia.
      replace x with (x mod 2 ^ 32) by (apply Z.mod_small; lia).
      replace y with (y mod 2 ^ 32) by (apply Z.mod_small; lia).
      by rewrite !Z.mod_pow2_bits_high by lia. }
  rewrite E. apply Z.mod_pos_bound. lia.
Qed.

Lemma testbit_high x n i : 0 <= x < 2 ^ n -> 0 <= n <= i -> Z.testbit x i = false.
Proof.
  intros Hx Hn. replace x with (x mod 2 ^ n) by (apply Z.mod_small; lia).
  apply Z.mod_pow2_bits_high. lia.
Qed.

Lemma testbit_pow2 n i : 0 <= n -> Z.testbit (2 ^ n) i = (n =? i).
Proof. apply Z.pow2_bits_eqb. Qed.

Lemma testbit_shiftl_1 n i : 0 <= n -> Z.testbit (Z.shiftl 1 n) i = (n =? i).
Proof. intros. rewrite Z.shiftl_mul_pow2, Z.mul_1_l by done. by apply testbit_pow2. Qed.

Lemma field_bit x n : 0 <= n -> (Z.shiftr x n) mod 2 = Z.b2z (Z.testbit x n).
Proof. intros. rewrite Z.shiftr_div_pow2 by done. symmetry. by apply Z.testbit_spec'. Qed.

#[export] Hint Rewrite land_1 land_3 land_15 land_127 land_255 land_4095 land_65535
  land_ffffffff : cbits.
#[export] Hint Rewrite Z.land_spec Z.lor_spec Z.lxor_spec testbit_u32 : tbits.
#[export] Hint Rewrite testbit_shiftl_1 Z.lnot_spec Z.shiftr_spec using lia : tbits.

(** Turn masks and shifts by constants into arithmetic that [lia] reads. *)
Ltac arith_bits :=
  autorewrite with cbits in *;
  rewrite ?Z.shiftr_div_pow2, ?Z.shiftl_mul_pow2 in * by lia;
  unfold u8, u16, u32, u64 in *.

(** Decide an [if] on integers by its boolean test. *)
Ltac zcase :=
  match goal with
  | |- context [?a =? ?b] => destruct (Z.eqb_spec a b)
  | |- context [?a <? ?b] => destruct (Z.ltb_spec a b)
  | |- context [?a <=? ?b] => destruct (Z.leb_spec a b)
  end.

(** ** Outcomes and the state monad

    A run of C code returns, or has undefined behaviour (a NULL or
    out-of-range access), or does not stop within the iterations the model
    allows it. *)

Inductive outcome (A : Type) : Type :=
| Done (a : A)
| Undefined
| Diverges.
Arguments Done {A} a.
Arguments Undefined {A}.
Arguments Diverges {A}.

Definition prog (S A : Type) : Type := S -> outcome (A * S).

Section Prog.
Context {S : Type}.

Definition ret {A} (a : A) : prog S A := fun s => Done (a, s).

Definition bind {A B} (m : prog S A) (k : A -> prog S B) : prog S B :=
  fun s => match m s with
           | Done (a, s') => k a s'
           | Undefined => Undefined
           | Diverges => Diverges
           end.

Definition undef {A} : prog S A := fun _ => Undefined.
Definition diverge {A} : prog S A := fun _ => Diverges.
Definition gets {A} (f : S -> A) : prog S A := fun s => Done (f s, s).
Definition modify (f : S -> S) : prog S unit := fun s => Done (tt, f s).

(** A pointer or array access: [None] is an access outside the object. *)
Definition deref {A} (o : option A) : prog S A :=
  match o with Some a => ret a | None => undef end.

Definition when (b : bool) (m : prog S unit) : prog S unit :=
  if b then m else ret tt.

(** [for (x in l) body], where [body] returns [Some r] to leave the loop
    (a [break] or a [return] inside it) with [r]. *)
Fixpoint search {A R} (l : list A) (body : A -> prog S (option R)) : prog S (option R) :=
  match l with
  | [] => ret None
  | x :: l' => bind (body x) (fun r =>
      match r with Some _ => ret r | None => search l' body end)
  end.

(** A loop over [l] that never leaves early. *)
Fixpoint foreach {A} (l : list A) (body : A -> prog S unit) : prog S unit :=
  match l with
  | [] => ret tt
  | x :: l' => bind (body x) (fun _ => foreach l' body)
  end.

(** At most [p] rounds of [body], stopping at the first that returns
    [Some]; the rounds are counted in binary, so that a large timeout costs
    nothing when the loop leaves early. *)
Fixpoint rounds {R} (p : positive) (body : prog S (option R)) : prog S (option R) :=
  match p with
  | xH => body
  | xO q => bind (rounds q body) (fun r =>
      match r with Some _ => ret r | None => rounds q body end)
  | xI q => bind body (fun r =>
      match r with
      | Some _ => ret r
      | None => bind (rounds q body) (fun r' =>
          match r' with Some _ => ret r' | None => rounds q body end)
      end)
  end.

(** The same with a value carried from round to round: [inl] leaves the loop. *)
Fixpoint loop {R A} (p : positive) (body : A -> prog S (R + A)) (a : A) : prog S (R + A) :=
  match p with
  | xH => body a
  | xO q => bind (loop q body a) (fun r =>
      match r with inl _ => ret r | inr a' => loop q body a' end)
  | xI q => bind (body a) (fun r =>
      match r with
      | inl _ => ret r
      | inr a' => bind (loop q body a') (fun r' =>
          match r' with inl _ => ret r' | inr a'' => loop q body a'' end)
      end)
  end.

(** An unbounded [while] loop, cut after [fuel] rounds. *)
Fixpoint while_fuel {R} (fuel : nat) (body : prog S (option R)) : prog S R :=
  match fuel with
  | O => diverge
  | Datatypes.S f => bind body (fun r =>
      match r with Some x => ret x | None => while_fuel f body end)
  end.
End Prog.

Declare Scope prog_scope.
Delimit Scope prog_scope with prog.
Notation "'let*' p := m 'in' k" := (bind m (fun p => k))
  (at level 10, p pattern, m at level 200, k at level 200) : prog_scope.
Notation "m ;;; k" := (bind m (fun _ => k))
  (at level 100, right associativity) : prog_scope.
#[global] Open Scope prog_scope.

(** [returns m s a s']: the run of [m] from [s] returns [a] in state [s']. *)
Definition returns {S A} (m : prog S A) (s : S) (a : A) (s' : S) : Prop :=
  m s = Done (a, s').

Section ProgLemmas.
Context {S : Type}.

Lemma bind_done {A B} (m : prog S A) (k : A -> prog S B) s a s' :
  m s = Done (a, s') -> bind m k s = k a s'.
Proof. intros H. unfold bind. by rewrite H. Qed.

Lemma bind_inv {A B} (m : prog S A) (k : A -> prog S B) s b s'' :
  bind m k s = Done (b, s'') ->
  exists a s', m s = Done (a, s') /\ k a s' = Done (b, s'').
Proof.
  unfold bind. destruct (m s) as [[a s']| |] eqn:E; intros H; try done. by exists a, s'.
Qed.

(** Loops: an invariant of the body is an invariant of the loop; [After]
    is what a pass that does not leave the loop establishes. *)
Lemma rounds_after {R} (Inv After : S -> Prop) (Post : R -> S -> Prop) p
    (body : prog S (option R)) :
  (forall s, After s -> Inv s) ->
  (forall s, Inv s -> exists r s', body s = Done (r, s') /\
     match r with Some x => Post x s' | None => After s' end) ->
  forall s, Inv s -> exists r s', rounds p body s = Done (r, s') /\
     match r with Some x => Post x s' | None => After s' end.
Proof.
  intros Ha Hb. induction p as [p IH|p IH|]; intros s Hs; simpl.
  - destruct (Hb s Hs) as (r & s1 & E & H1). rewrite (bind_done _ _ _ _ _ E).
    destruct r as [x|]; [by exists (Some x), s1|].
    destruct (IH s1 (Ha _ H1)) as (r & s2 & E2 & H2). rewrite (bind_done _ _ _ _ _ E2).
    destruct r as [x|]; [by exists (Some x), s2|]. apply IH. by apply Ha.
  - destruct (IH s Hs) as (r & s1 & E & H1). rewrite (bind_done _ _ _ _ _ E).
    destruct r as [x|]; [by exists (Some x), s1|]. apply IH. by apply Ha.
  - by apply Hb.
Qed.

(** A loop that leaves in its first round. *)
Lemma rounds_first {R} (p : positive) (body : prog S (option R)) s x s' :
  body s = Done (Some x, s') -> rounds p body s = Done (Some x, s').
Proof.
  intros E. induction p as [p IH|p IH|]; simpl.
  - by rewrite (bind_done _ _ _ _ _ E).
  - by rewrite (bind_done _ _ _ _ _ IH).
  - done.
Qed.

Lemma loop_first {R A} (p : positive) (body : A -> prog S (R + A)) a s x s' :
  body a s = Done (inl x, s') -> loop p body a s = Done (inl x, s').
Proof.
  intros E. induction p as [p IH|p IH|]; simpl.
  - by rewrite (bind_done _ _ _ _ _ E).
  - by rewrite (bind_done _ _ _ _ _ IH).
  - done.
Qed.

Lemma loop_after {R A} (Inv After : A -> S -> Prop) (Post : R -> S -> Prop) p
    (body : A -> prog S (R + A)) :
  (forall a s, After a s -> Inv a s) ->
  (forall a s, Inv a s -> exists r s', body a s = Done (r, s') /\
     match r with inl x => Post x s' | inr a' => After a' s' end) ->
  forall a s, Inv a s -> exists r s', loop p body a s = Done (r, s') /\
     match r with inl x => Post x s' | inr a' => After a' s' end.
Proof.
  intros Ha Hb. induction p as [p IH|p IH|]; intros a s Hs; simpl.
  - destruct (Hb a s Hs) as (r & s1 & E & H1). rewrite (bind_done _ _ _ _ _ E).
    destruct r as [x|a1]; [by exists (inl x), s1|].
    destruct (IH a1 s1 (Ha _ _ H1)) as (r & s2 & E2 & H2). rewrite (bind_done _ _ _ _ _ E2).
    destruct r as [x|a2]; [by exists (inl x), s2|]. apply IH. by apply Ha.
  - destruct (IH a s Hs) as (r & s1 & E & H1). rewrite (bind_done _ _ _ _ _ E).
    destruct r as [x|a1]; [by exists (inl x), s1|]. apply IH. by apply Ha.
  - by apply Hb.
Qed.

(** Loops that end: every round that goes on decreases a measure, and the
    measure is below the number of rounds. *)
Lemma loop_decrease {R A} (Inv : A -> S -> Prop) (mu : A -> S -> nat) (Post : R -> S -> Prop) p
    (body : A -> prog S (R + A)) :
  (forall a s, Inv a s -> exists r s', body a s = Done (r, s') /\
     match r with inl x => Post x s' | inr a' => Inv a' s' /\ (mu a' s' < mu a s)%nat end) ->
  forall a s, Inv a s -> exists r s', loop p body a s = Done (r, s') /\
     match r with inl x => Post x s' | inr a' => Inv a' s' /\ (mu a' s' + Pos.to_nat p <= mu a s)%nat end.
Proof.
  intros Hb. induction p as [p IH|p IH|]; intros a s Hs; simpl.
  - destruct (Hb a s Hs) as (r & s1 & E & H1). rewrite (bind_done _ _ _ _ _ E).
    destruct r as [x|a1]; [by exists (inl x), s1|]. destruct H1 as [H1 M1].
    destruct (IH a1 s1 H1) as (r & s2 & E2 & H2). rewrite (bind_done _ _ _ _ _ E2).
    destruct r as [x|a2]; [by exists (inl x), s2|]. destruct H2 as [H2 M2].
    destruct (IH a2 s2 H2) as (r & s3 & E3 & H3). exists r, s3. split; [done|].
    destruct r; [done|]. destruct H3. split; [done|lia].
  - destruct (IH a s Hs) as (r & s1 & E & H1). rewrite (bind_done _ _ _ _ _ E).
    destruct r as [x|a1]; [by exists (inl x), s1|]. destruct H1 as [H1 M1].
    destruct (IH a1 s1 H1) as (r & s2 & E2 & H2). exists r, s2. split; [done|].
    destruct r; [done|]. destruct H2. split; [done|lia].
  - destruct (Hb a s Hs) as (r & s1 & E & H1). exists r, s1. split; [done|].
    destruct r; [done|]. destruct H1. split; [done|lia].
Qed.

Lemma loop_ends {R A} (Inv : A -> S -> Prop) (mu : A -> S -> nat) (Post : R -> S -> Prop) p
    (body : A -> prog S (R + A)) a s :
  (forall a s, Inv a s -> exists r s', body a s = Done (r, s') /\
     match r with inl x => Post x s' | inr a' => Inv a' s' /\ (mu a' s' < mu a s)%nat end) ->
  Inv a s -> (mu a s < Pos.to_nat p)%nat ->
  exists x s', loop p body a s = Done (inl x, s') /\ Post x s'.
Proof.
  intros Hb Hs Hm. destruct (loop_decrease Inv mu Post p body Hb a s Hs) as ([x|a'] & s' & E & Hr); [by exists x, s'|].
  destruct Hr. lia.
Qed.

Lemma rounds_decrease {R} (Inv : S -> Prop) (mu : S -> nat) (Post : R -> S -> Prop) p (body : prog S (option R)) :
  (forall s, Inv s -> exists r s', body s = Done (r, s') /\
     match r with Some x => Post x s' | None => Inv s' /\ (mu s' < mu s)%nat end) ->
  forall s, Inv s -> exists r s', rounds p body s = Done (r, s') /\
     match r with Some x => Post x s' | None => Inv s' /\ (mu s' + Pos.to_nat p <= mu s)%nat end.
Proof.
  intros Hb. induction p as [p IH|p IH|]; intros s Hs; simpl.
  - destruct (Hb s Hs) as (r & s1 & E & H1). rewrite (bind_done _ _ _ _ _ E).
    destruct r as [x|]; [by exists (Some x), s1|]. destruct H1 as [H1 M1].
    destruct (IH s1 H1) as (r & s2 & E2 & H2). rewrite (bind_done _ _ _ _ _ E2).
    destruct r as [x|]; [by exists (Some x), s2|]. destruct H2 as [H2 M2].
    destruct (IH s2 H2) as (r & s3 & E3 & H3). exists r, s3. split; [done|].
    destruct r; [done|]. destruct H3. split; [done|lia].
  - destruct (IH s Hs) as (r & s1 & E & H1). rewrite (bind_done _ _ _ _ _ E).
    destruct r as [x|]; [by exists (Some x), s1|]. destruct H1 as [H1 M1].
    destruct (IH s1 H1) as (r & s2 & E2 & H2). exists r, s2. split; [done|].
    destruct r; [done|]. destruct H2. split; [done|lia].
  - destruct (Hb s Hs) as (r & s1 & E & H1). exists r, s1. split; [done|].
    destruct r; [done|]. destruct H1. split; [done|lia].
Qed.

(** Fuel above the measure is enough. *)
Lemma while_ends {R} (Inv : S -> Prop) (mu : S -> nat) (Post : R -> S -> Prop) (body : prog S (option R)) :
  (forall s, Inv s -> exists r s', body s = Done (r, s') /\
     match r with Some x => Post x s' | None => Inv s' /\ (mu s' < mu s)%nat end) ->
  forall fuel s, Inv s -> (mu s < fuel)%nat ->
  exists x s', while_fuel fuel body s = Done (x, s') /\ Post x s'.
Proof.
  intros Hb. induction fuel as [|f IH]; intros s Hs Hf; [lia|]. simpl.
  destruct (Hb s Hs) as (r & s1 & E & H1). rewrite (bind_done _ _ _ _ _ E).
  destruct r as [x|]; [by exists x, s1|]. destruct H1. apply IH; [done|lia].
Qed.

Lemma search_inv {A R} (Inv : S -> Prop) (Post : R -> S -> Prop) (l : list A)
    (body : A -> prog S (option R)) :
  (forall x s, x ∈ l -> Inv s -> exists r s', body x s = Done (r, s') /\
     match r with Some y => Post y s' | None => Inv s' end) ->
  forall s, Inv s -> exists r s', search l body s = Done (r, s') /\
     match r with Some y => Post y s' | None => Inv s' end.
Proof.
  induction l as [|x l IH]; intros Hb s Hs; simpl.
  - by exists None, s.
  - destruct (Hb x s) as (r & s1 & E & H1); [by left|done|].
    rewrite (bind_done _ _ _ _ _ E).
    destruct r as [y|]; [by exists (Some y), s1|].
    apply IH; [|done]. intros z s' Hz. apply Hb. by right.
Qed.

Lemma foreach_inv {A} (Inv : S -> Prop) (l : list A) (body : A -> prog S unit) :
  (forall x s, x ∈ l -> Inv s -> exists s', body x s = Done (tt, s') /\ Inv s') ->
  forall s, Inv s -> exists s', foreach l body s = Done (tt, s') /\ Inv s'.
Proof.
  induction l as [|x l IH]; intros Hb s Hs; simpl.
  - by exists s.
  - destruct (Hb x s) as (s1 & E & H1); [by left|done|].
    rewrite (bind_done _ _ _ _ _ E). apply IH; [|done].
    intros z s' Hz. apply Hb. by right.
Qed.
End ProgLemmas.

#[global] Arguments rounds : simpl never.
#[global] Arguments loop : simpl never.

(** Symbolic execution of one step of a [prog]. *)
Ltac prog_unfold := unfold ret, gets, modify, when, deref, undef, diverge in *.
Ltac prog_step := unfold bind at 1; prog_unfold; simpl.

(** ** Lists *)

(** The first element that satisfies [p], with its index. *)
Fixpoint find_first {A} (p : A -> bool) (l : list A) (i : Z) : option (Z * A) :=
  match l with
  | [] => None
  | x :: l' => if p x then Some (i, x) else find_first p l' (i + 1)
  end.

(** C array access with an unsigned index. *)
Definition at_index {A} (l : list A) (i : Z) : option A :=
  if (0 <=? i) then l !! Z.to_nat i else None.

Lemma at_index_Some {A} (l : list A) i x :
  at_index l i = Some x -> 0 <= i < Z.of_nat (length l) /\ l !! Z.to_nat i = Some x.
Proof.
  unfold at_index. destruct (Z.leb_spec 0 i); [|done]. intros H1.
  pose proof (lookup_lt_Some _ _ _ H1). split; [lia|done].
Qed.

Lemma at_index_nat {A} (l : list A) (k : nat) : at_index l (Z.of_nat k) = l !! k.
Proof. unfold at_index. destruct (Z.leb_spec 0 (Z.of_nat k)); [|lia]. by rewrite Nat2Z.id. Qed.

Lemma at_index_lt {A} (l : list A) i :
  0 <= i < Z.of_nat (length l) -> exists x, at_index l i = Some x.
Proof.
  intros Hi. unfold at_index. destruct (Z.leb_spec 0 i); [|lia].
  apply lookup_lt_is_Some. lia.
Qed.

Lemma at_index_ge {A} (l : list A) i : Z.of_nat (length l) <= i -> at_index l i = None.
Proof.
  intros Hi. unfold at_index. destruct (Z.leb_spec 0 i); [|done].
  apply lookup_ge_None. lia.
Qed.

Lemma at_index_insert {A} (l : list A) i j x y :
  at_index l i = Some y ->
  at_index (<[Z.to_nat i := x]> l) j = if i =? j then Some x else at_index l j.
Proof.
  intros Hy. apply at_index_Some in Hy as [Hi _]. unfold at_index.
  destruct (Z.leb_spec 0 j), (Z.eqb_spec i j); subst; try done; try lia.
  - apply list_lookup_insert_eq. lia.
  - apply list_lookup_insert_ne. lia.
Qed.

Lemma find_first_Some {A} (p : A -> bool) l i j x :
  find_first p l i = Some (j, x) ->
  exists k : nat, j = i + Z.of_nat k /\ l !! k = Some x /\ p x = true /\
    forall m y, (m < k)%nat -> l !! m = Some y -> p y = false.
Proof.
  revert i. induction l as [|y l IH]; intros i H; simpl in *; [done|].
  destruct (p y) eqn:E.
  - injection H as <- <-. exists 0%nat. split_and!; [lia|done|done|]. intros m z Hm. lia.
  - destruct (IH _ H) as (k & -> & Hk & Hp & Hlt). exists (Datatypes.S k).
    split_and!; [lia|done|done|]. intros [|m] z Hm Hz; simpl in *; [congruence|].
    eapply Hlt; [|done]. lia.
Qed.

Lemma find_first_shift {A} (p : A -> bool) l i j :
  snd <$> find_first p l i = snd <$> find_first p l j.
Proof. revert i j. induction l as [|x l IH]; intros i j; simpl; [done|]. by destruct (p x). Qed.

Lemma find_first_None {A} (p : A -> bool) l i :
  find_first p l i = None <-> forall x, x ∈ l -> p x = false.
Proof.
  revert i. induction l as [|y l IH]; intros i; simpl.
  - split; [|done]. intros _ x Hx. by apply not_elem_of_nil in Hx.
  - destruct (p y) eqn:E.
    + split; [done|]. intros H. rewrite H in E by left. done.
    + rewrite IH. split; intros H x Hx.
      * apply elem_of_cons in Hx as [->|Hx]; [done|]. by apply H.
      * apply H. by right.
Qed.

(** A search whose body only looks at the state is a [find_first]. *)
Lemma search_find {S A R} (p : A -> bool) (g : A -> R) (l : list A)
    (body : A -> prog S (option R)) s i :
  (forall x, x ∈ l -> body x s = Done (if p x then Some (g x) else None, s)) ->
  search l body s =
    Done (match find_first p l i with Some (_, x) => Some (g x) | None => None end, s).
Proof.
  revert i. induction l as [|x l IH]; intros i Hb; [done|].
  cbn [search find_first]. rewrite (bind_done _ _ _ _ _ (Hb x ltac:(left))).
  destruct (p x); [done|]. apply IH. intros y Hy. apply Hb. by right.
Qed.

Lemma search_app {S A R} (l1 l2 : list A) (body : A -> prog S (option R)) s s' :
  search l1 body s = Done (None, s') -> search (l1 ++ l2) body s = search l2 body s'.
Proof.
  revert s. induction l1 as [|x l1 IH]; intros s Hs; cbn [search app] in *.
  - by injection Hs as <-.
  - apply bind_inv in Hs as (r & s1 & E & Hr). rewrite (bind_done _ _ _ _ _ E).
    destruct r; [done|]. by apply IH.
Qed.

(** A search that never stops and grows a result: [Inv s fs] says that [fs] has
    been produced, which is never longer than [cap]. *)
Lemma search_grow {S A B R} (Inv : S -> list B -> Prop) (cap : nat) (out : A -> list B)
    (l : list A) (body : A -> prog S (option R)) s fs :
  (forall x s fs, x ∈ l -> Inv s fs -> (length (fs ++ out x) <= cap)%nat ->
     exists s', body x s = Done (None, s') /\ Inv s' (fs ++ out x)) ->
  Inv s fs -> (length (fs ++ flat_map out l) <= cap)%nat ->
  exists s', search l body s = Done (None, s') /\ Inv s' (fs ++ flat_map out l).
Proof.
  revert s fs. induction l as [|x l IH]; intros s fs Hb Hs Hc; cbn [search flat_map] in *.
  - exists s. by rewrite app_nil_r.
  - rewrite app_assoc in *.
    destruct (Hb x s fs) as (s1 & E & H1); [left|done|rewrite length_app in Hc; lia|].
    rewrite (bind_done _ _ _ _ _ E). apply IH; [|done|done].
    intros y s2 fs2 Hy. apply Hb. by right.
Qed.

Lemma flat_map_lookup {A B} (g : A -> list B) (l : list A) :
  flat_map (fun k => match l !! k with Some x => g x | None => [] end) (seq 0 (length l)) =
  flat_map g l.
Proof.
  induction l as [|x l IH]; [done|]. cbn [length seq flat_map lookup list_lookup]. f_equal.
  rewrite <- IH, <- (fmap_S_seq 0 (length l)). clear IH. generalize (seq 0 (length l)).
  intros ks. induction ks as [|k ks IH]; [done|]. cbn [fmap list_fmap flat_map]. by f_equal.
Qed.

Lemma flat_map_fmap {A B C} (f : A -> B) (g : B -> list C) (l : list A) :
  flat_map g (f <$> l) = flat_map (fun x => g (f x)) l.
Proof. induction l as [|x l IH]; [done|]. cbn. by f_equal. Qed.

(** ** The n-th entry of a kind in a closed table *)

Fixpoint countb {A} (p : A -> bool) (l : list A) : nat :=
  match l with [] => 0 | x :: l' => (if p x then 1 else 0) + countb p l' end.

(** [while (!stop(info[i])) { if (p(info[i])) { if (k == 0) return i; else k--; } i++; } return none;]
    A table without a closing entry is read past its end. *)
Fixpoint instance_loop {S A} (stop p : A -> bool) (none : Z) (l : list A) (k i : Z) : prog S Z :=
  match l with
  | [] => undef
  | x :: l' =>
      if stop x then ret none
      else if p x then
        if k =? 0 then ret i else instance_loop stop p none l' (k - 1) (u32 (i + 1))
      else instance_loop stop p none l' k (u32 (i + 1))
  end.

Section Instance.
Context {S A : Type} (stop p : A -> bool) (none : Z) (s : S).

Lemma instance_hit xs rest i (j : nat) x :
  (forall y, y ∈ xs -> stop y = false) -> xs !! j = Some x -> p x = true ->
  0 <= i -> i + Z.of_nat (length xs) < 2 ^ 32 ->
  instance_loop stop p none (xs ++ rest) (Z.of_nat (countb p (take j xs))) i s = Done (i + Z.of_nat j, s).
Proof.
  revert i j. induction xs as [|y xs IH]; intros i j Hl Hj Hp Hi Hlen; [done|].
  cbn [app instance_loop length] in *. rewrite Hl by left.
  assert (Hx : forall z, z ∈ xs -> stop z = false) by (intros z Hz; apply Hl; by right).
  destruct j as [|j]; simpl in Hj.
  - simplify_eq. rewrite Hp. simpl. by rewrite Z.add_0_r.
  - cbn [take countb]. rewrite u32_small by lia. destruct (p y).
    + destruct (Z.eqb_spec (Z.of_nat (1 + countb p (take j xs))) 0); [lia|].
      replace (Z.of_nat (1 + countb p (take j xs)) - 1) with (Z.of_nat (countb p (take j xs))) by lia.
      rewrite IH by (done || lia). do 2 f_equal. lia.
    + cbn [Nat.add]. rewrite IH by (done || lia). do 2 f_equal. lia.
Qed.

Lemma instance_miss xs x rest k i :
  (forall y, y ∈ xs -> stop y = false) -> stop x = true -> Z.of_nat (countb p xs) <= k ->
  instance_loop stop p none (xs ++ x :: rest) k i s = Done (none, s).
Proof.
  revert i k. induction xs as [|y xs IH]; intros i k Hl Hx Hk; cbn [app instance_loop countb] in *.
  - by rewrite Hx.
  - rewrite Hl by left.
    assert (Hy : forall z, z ∈ xs -> stop z = false) by (intros z Hz; apply Hl; by right).
    destruct (p y); [destruct (Z.eqb_spec k 0); [lia|]|]; apply IH; done || lia.
Qed.
End Instance.

Lemma countb_app {A} (p : A -> bool) l1 l2 : countb p (l1 ++ l2) = (countb p l1 + countb p l2)%nat.
Proof. induction l1 as [|x l1 IH]; simpl; [done|]. rewrite IH. lia. Qed.
