(* ===== verification/Status.v ===== *)
(** * Status words, shared memory and status reports

    Models [val/include/bsa_acs_common.h] (the status word of a test),
    [val/include/bsa_acs_val.h] (the record each hart shares),
    [val/src/acs_status.c] and the print functions of
    [val/src/acs_test_infra.c].  The record [val_state] holds the globals of
    the validation layer that the test infrastructure reads and writes. *)

From S2P Require Import Prelude.

(** ** The status word: state in bits 31..28, test number from bit 12, status below *)

Definition STATE_BIT : Z := 28.
Definition STATE_MASK : Z := 0xF.
Definition TEST_START_VAL : Z := 0x1.
Definition TEST_END_VAL : Z := 0x2.
Definition TEST_PASS_VAL : Z := 0x4.
Definition TEST_FAIL_VAL : Z := 0x8.
Definition TEST_SKIP_VAL : Z := 0x9.
Definition TEST_PENDING_VAL : Z := 0xA.
Definition STATUS_MASK : Z := 0xFFF.
Definition TEST_NUM_BIT : Z := 12.

Definition status_word (state test_num status : Z) : Z :=
  u32 (Z.lor (Z.lor (Z.shiftl state STATE_BIT) (Z.shiftl test_num TEST_NUM_BIT)) status).

#[global] Arguments status_word : simpl never.

Definition BSA_ACS_START (test_num : Z) : Z := status_word TEST_START_VAL test_num 0.
Definition BSA_ACS_END (test_num : Z) : Z := status_word TEST_END_VAL test_num 0.
Definition RESULT_PASS (test_num status : Z) : Z := status_word TEST_PASS_VAL test_num status.
Definition RESULT_FAIL (test_num status : Z) : Z := status_word TEST_FAIL_VAL test_num status.
Definition RESULT_SKIP (test_num status : Z) : Z := status_word TEST_SKIP_VAL test_num status.
Definition RESULT_PENDING (test_num : Z) : Z := status_word TEST_PENDING_VAL test_num 0.

Definition state_of (value : Z) : Z := Z.land (Z.shiftr value STATE_BIT) STATE_MASK.

#[global] Arguments state_of : simpl never.

Definition IS_TEST_START (value : Z) : bool := state_of value =? TEST_START_VAL.
Definition IS_TEST_END (value : Z) : bool := state_of value =? TEST_END_VAL.
Definition IS_RESULT_PENDING (value : Z) : bool := state_of value =? TEST_PENDING_VAL.
Definition IS_TEST_PASS (value : Z) : bool := state_of value =? TEST_PASS_VAL.
Definition IS_TEST_FAIL (value : Z) : bool := state_of value =? TEST_FAIL_VAL.
Definition IS_TEST_SKIP (value : Z) : bool := state_of value =? TEST_SKIP_VAL.
Definition IS_TEST_FAIL_SKIP (value : Z) : bool := IS_TEST_FAIL value || IS_TEST_SKIP value.

(** ** Return codes and print levels ([val_interface.h]) *)

Definition ACS_PRINT_ERR : Z := 5.
Definition ACS_PRINT_WARN : Z := 4.
Definition ACS_PRINT_TEST : Z := 3.
Definition ACS_PRINT_DEBUG : Z := 2.
Definition ACS_PRINT_INFO : Z := 1.

Definition ACS_STATUS_FAIL : Z := 0x90000000.
Definition ACS_STATUS_ERR : Z := 0xEDCB1234.
Definition ACS_STATUS_SKIP : Z := 0x10000000.
Definition ACS_STATUS_PASS : Z := 0x0.
Definition ACS_INVALID_INDEX : Z := 0xFFFFFFFF.
Definition NOT_IMPLEMENTED : Z := 0x4B1D.

(** ** State of the validation layer *)

Record VAL_SHARED_MEM_t := mk_shared { data0 : Z; data1 : Z; status : Z }.

(** Strings of the hart table are NUL-terminated; the copy of the ISA string
    is bounded in [pal_hart_create_info_table] only. *)
Record HART_INFO_ENTRY := mk_hart {
  hart_num : Z;
  hart_id : Z;
  acpi_processor_uid : Z;
  ext_intc_id : Z;
  imsic_base : Z;
  imsic_size : Z;
  isa_string : string;
  mmu_type : Z }.

Record HART_INFO_TABLE := mk_hart_table {
  num_of_hart : Z;
  hart_info : list HART_INFO_ENTRY }.

Record ARM_SMC_ARGS := mk_smc { Arg0 : Z; Arg1 : Z }.

Record val_state := mk_val {
  g_print_level : Z;
  console : list (string * Z);   (* what reached the terminal, newest first *)
  g_override_skip : Z;
  g_skip_test_num : list Z;   (* -skip, [g_num_skip] entries *)
  g_execute_tests : list Z;   (* -t, [g_num_tests] entries *)
  g_execute_modules : list Z;   (* -m, [g_num_modules] entries *)
  g_bsa_tests_total : Z;
  g_bsa_tests_pass : Z;
  g_bsa_tests_fail : Z;
  g_curr_module : Z;
  g_hart_info_table : option HART_INFO_TABLE;
  g_primary_hart_index : Z;
  gPsciConduit : Z;
  g_smc_args : ARM_SMC_ARGS;
  smc_calls : nat;   (* calls made to the firmware so far *)
  handlers : gmap Z string;   (* exception type to the name of the handler *)
  shared_mem : list VAL_SHARED_MEM_t;   (* one record per hart *)
  tick : nat;   (* reads of the shared memory so far *)
  MPIDR : Z;   (* id register of the running hart *)
  CTR : Z }.   (* cache type register *)

Definition set_console (v : list (string * Z)) (s : val_state) : val_state :=
  mk_val (g_print_level s) v (g_override_skip s) (g_skip_test_num s) (g_execute_tests s)
    (g_execute_modules s) (g_bsa_tests_total s) (g_bsa_tests_pass s) (g_bsa_tests_fail s)
    (g_curr_module s) (g_hart_info_table s) (g_primary_hart_index s) (gPsciConduit s)
    (g_smc_args s) (smc_calls s) (handlers s) (shared_mem s) (tick s) (MPIDR s) (CTR s).
Definition set_g_override_skip (v : Z) (s : val_state) : val_state :=
  mk_val (g_print_level s) (console s) v (g_skip_test_num s) (g_execute_tests s)
    (g_execute_modules s) (g_bsa_tests_total s) (g_bsa_tests_pass s) (g_bsa_tests_fail s)
    (g_curr_module s) (g_hart_info_table s) (g_primary_hart_index s) (gPsciConduit s)
    (g_smc_args s) (smc_calls s) (handlers s) (shared_mem s) (tick s) (MPIDR s) (CTR s).
Definition set_g_bsa_tests_total (v : Z) (s : val_state) : val_state :=
  mk_val (g_print_level s) (console s) (g_override_skip s) (g_skip_test_num s)
    (g_execute_tests s) (g_execute_modules s) v (g_bsa_tests_pass s) (g_bsa_tests_fail s)
    (g_curr_module s) (g_hart_info_table s) (g_primary_hart_index s) (gPsciConduit s)
    (g_smc_args s) (smc_calls s) (handlers s) (shared_mem s) (tick s) (MPIDR s) (CTR s).
Definition set_g_bsa_tests_pass (v : Z) (s : val_state) : val_state :=
  mk_val (g_print_level s) (console s) (g_override_skip s) (g_skip_test_num s)
    (g_execute_tests s) (g_execute_modules s) (g_bsa_tests_total s) v (g_bsa_tests_fail s)
    (g_curr_module s) (g_hart_info_table s) (g_primary_hart_index s) (gPsciConduit s)
    (g_smc_args s) (smc_calls s) (handlers s) (shared_mem s) (tick s) (MPIDR s) (CTR s).
Definition set_g_bsa_tests_fail (v : Z) (s : val_state) : val_state :=
  mk_val (g_print_level s) (console s) (g_override_skip s) (g_skip_test_num s)
    (g_execute_tests s) (g_execute_modules s) (g_bsa_tests_total s) (g_bsa_tests_pass s) v
    (g_curr_module s) (g_hart_info_table s) (g_primary_hart_index s) (gPsciConduit s)
    (g_smc_args s) (smc_calls s) (handlers s) (shared_mem s) (tick s) (MPIDR s) (CTR s).
Definition set_g_curr_module (v : Z) (s : val_state) : val_state :=
  mk_val (g_print_level s) (console s) (g_override_skip s) (g_skip_test_num s)
    (g_execute_tests s) (g_execute_modules s) (g_bsa_tests_total s) (g_bsa_tests_pass s)
    (g_bsa_tests_fail s) v (g_hart_info_table s) (g_primary_hart_index s) (gPsciConduit s)
    (g_smc_args s) (smc_calls s) (handlers s) (shared_mem s) (tick s) (MPIDR s) (CTR s).
Definition set_g_hart_info_table (v : option HART_INFO_TABLE) (s : val_state) : val_state :=
  mk_val (g_print_level s) (console s) (g_override_skip s) (g_skip_test_num s)
    (g_execute_tests s) (g_execute_modules s) (g_bsa_tests_total s) (g_bsa_tests_pass s)
    (g_bsa_tests_fail s) (g_curr_module s) v (g_primary_hart_index s) (gPsciConduit s)
    (g_smc_args s) (smc_calls s) (handlers s) (shared_mem s) (tick s) (MPIDR s) (CTR s).
Definition set_g_primary_hart_index (v : Z) (s : val_state) : val_state :=
  mk_val (g_print_level s) (console s) (g_override_skip s) (g_skip_test_num s)
    (g_execute_tests s) (g_execute_modules s) (g_bsa_tests_total s) (g_bsa_tests_pass s)
    (g_bsa_tests_fail s) (g_curr_module s) (g_hart_info_table s) v (gPsciConduit s)
    (g_smc_args s) (smc_calls s) (handlers s) (shared_mem s) (tick s) (MPIDR s) (CTR s).
Definition set_gPsciConduit (v : Z) (s : val_state) : val_state :=
  mk_val (g_print_level s) (console s) (g_override_skip s) (g_skip_test_num s)
    (g_execute_tests s) (g_execute_modules s) (g_bsa_tests_total s) (g_bsa_tests_pass s)
    (g_bsa_tests_fail s) (g_curr_module s) (g_hart_info_table s) (g_primary_hart_index s) v
    (g_smc_args s) (smc_calls s) (handlers s) (shared_mem s) (tick s) (MPIDR s) (CTR s).
Definition set_g_smc_args (v : ARM_SMC_ARGS) (s : val_state) : val_state :=
  mk_val (g_print_level s) (console s) (g_override_skip s) (g_skip_test_num s)
    (g_execute_tests s) (g_execute_modules s) (g_bsa_tests_total s) (g_bsa_tests_pass s)
    (g_bsa_tests_fail s) (g_curr_module s) (g_hart_info_table s) (g_primary_hart_index s)
    (gPsciConduit s) v (smc_calls s) (handlers s) (shared_mem s) (tick s) (MPIDR s) (CTR s).
Definition set_smc_calls (v : nat) (s : val_state) : val_state :=
  mk_val (g_print_level s) (console s) (g_override_skip s) (g_skip_test_num s)
    (g_execute_tests s) (g_execute_modules s) (g_bsa_tests_total s) (g_bsa_tests_pass s)
    (g_bsa_tests_fail s) (g_curr_module s) (g_hart_info_table s) (g_primary_hart_index s)
    (gPsciConduit s) (g_smc_args s) v (handlers s) (shared_mem s) (tick s) (MPIDR s) (CTR s).
Definition set_handlers (v : gmap Z string) (s : val_state) : val_state :=
  mk_val (g_print_level s) (console s) (g_override_skip s) (g_skip_test_num s)
    (g_execute_tests s) (g_execute_modules s) (g_bsa_tests_total s) (g_bsa_tests_pass s)
    (g_bsa_tests_fail s) (g_curr_module s) (g_hart_info_table s) (g_primary_hart_index s)
    (gPsciConduit s) (g_smc_args s) (smc_calls s) v (shared_mem s) (tick s) (MPIDR s) (CTR s).
Definition set_shared_mem (v : list VAL_SHARED_MEM_t) (s : val_state) : val_state :=
  mk_val (g_print_level s) (console s) (g_override_skip s) (g_skip_test_num s)
    (g_execute_tests s) (g_execute_modules s) (g_bsa_tests_total s) (g_bsa_tests_pass s)
    (g_bsa_tests_fail s) (g_curr_module s) (g_hart_info_table s) (g_primary_hart_index s)
    (gPsciConduit s) (g_smc_args s) (smc_calls s) (handlers s) v (tick s) (MPIDR s) (CTR s).
Definition set_tick (v : nat) (s : val_state) : val_state :=
  mk_val (g_print_level s) (console s) (g_override_skip s) (g_skip_test_num s)
    (g_execute_tests s) (g_execute_modules s) (g_bsa_tests_total s) (g_bsa_tests_pass s)
    (g_bsa_tests_fail s) (g_curr_module s) (g_hart_info_table s) (g_primary_hart_index s)
    (gPsciConduit s) (g_smc_args s) (smc_calls s) (handlers s) (shared_mem s) v (MPIDR s)
    (CTR s).

Definition set_data (d0 d1 : Z) (m : VAL_SHARED_MEM_t) : VAL_SHARED_MEM_t :=
  mk_shared d0 d1 (status m).
Definition with_status (v : Z) (m : VAL_SHARED_MEM_t) : VAL_SHARED_MEM_t :=
  mk_shared (data0 m) (data1 m) v.

(** ** The harts that run beside this one

    [others n m] is the shared memory after what the other harts wrote into
    [m] between the [n]-th and the next read of it by this hart. *)

Class SecondaryHarts := others : nat -> list VAL_SHARED_MEM_t -> list VAL_SHARED_MEM_t.

(** ** Printing *)

Definition val_print (level : Z) (str : string) (data : Z) : prog val_state unit :=
  modify (fun s =>
    if g_print_level s <=? level then set_console ((str, data) :: console s) s else s).

Definition val_print_test_start (str : string) : prog val_state unit :=
  val_print ACS_PRINT_TEST "\n      *** Starting " 0 ;;;
  val_print ACS_PRINT_TEST str 0 ;;;
  val_print ACS_PRINT_TEST " tests ***\n" 0.

Definition val_print_test_end (st : Z) (str : string) : prog val_state unit :=
  val_print ACS_PRINT_TEST "\n      " 0 ;;;
  (if negb (st =? ACS_STATUS_PASS) then
     val_print ACS_PRINT_TEST "One or more " 0 ;;;
     val_print ACS_PRINT_TEST str 0 ;;;
     val_print ACS_PRINT_TEST " tests failed or were skipped." 0
   else
     val_print ACS_PRINT_TEST "All " 0 ;;;
     val_print ACS_PRINT_TEST str 0 ;;;
     val_print ACS_PRINT_TEST " tests passed." 0) ;;;
  val_print ACS_PRINT_TEST "\n" 0.

(** ** [acs_status.c] *)

(** A NULL [ruleid] is [None]. *)
Definition val_report_status (index st : Z) (ruleid : option string) : prog val_state unit :=
  let* ov := gets g_override_skip in
  if ov =? 0 then ret tt else
  (when (IS_TEST_FAIL st)
     (val_print ACS_PRINT_ERR "\n       Failed on HART - %4d" index)) ;;;
  if IS_TEST_PASS st then
    val_print ACS_PRINT_DEBUG "\n       " 0 ;;;
    (let* lvl := gets g_print_level in
     when (lvl <=? ACS_PRINT_DEBUG)
       (let* r := deref ruleid in val_print ACS_PRINT_DEBUG r 0)) ;;;
    val_print ACS_PRINT_DEBUG "\n                                  " 0 ;;;
    val_print ACS_PRINT_TEST "     : Result:  PASS\n" st
  else if IS_TEST_FAIL st then
    match ruleid with
    | Some r =>
        val_print ACS_PRINT_DEBUG "\n       " 0 ;;;
        val_print ACS_PRINT_DEBUG r 0 ;;;
        val_print ACS_PRINT_ERR "\n       Checkpoint -- %2d                      "
          (Z.land st STATUS_MASK)
    | None => ret tt
    end ;;;
    val_print ACS_PRINT_ERR "     : Result:  FAIL\n" 0
  else if IS_TEST_SKIP st then
    match ruleid with
    | Some r =>
        val_print ACS_PRINT_DEBUG "\n       " 0 ;;;
        val_print ACS_PRINT_DEBUG r 0 ;;;
        val_print ACS_PRINT_WARN "\n       Checkpoint -- %2d                      "
          (Z.land st STATUS_MASK)
    | None => ret tt
    end ;;;
    val_print ACS_PRINT_WARN "     : Result:  SKIPPED\n" 0
  else if IS_TEST_START st then val_print ACS_PRINT_INFO "\n       START" st
  else if IS_TEST_END st then val_print ACS_PRINT_INFO "       END\n\n" st
  else val_print ACS_PRINT_ERR ": Result:  %8x\n" st.

(** The shared record of hart [index]; an index past the allocated records is
    an access outside the shared memory. *)
Definition val_set_status (index st : Z) : prog val_state unit :=
  let* m := gets shared_mem in
  let* e := deref (at_index m index) in
  modify (set_shared_mem (<[Z.to_nat index := with_status st e]> m)).

(** A read of a shared record, after what the other harts wrote since the last one. *)
Definition read_shared `{SecondaryHarts} (index : Z) : prog val_state VAL_SHARED_MEM_t :=
  modify (fun s => set_tick (S (tick s)) (set_shared_mem (others (tick s) (shared_mem s)) s)) ;;;
  let* m := gets shared_mem in
  deref (at_index m index).

Definition val_get_status `{SecondaryHarts} (index : Z) : prog val_state Z :=
  let* e := read_shared index in ret (status e).

(** ** Lemmas *)

Lemma status_word_arith state test_num st :
  0 <= state < 16 -> 0 <= test_num < 65536 -> 0 <= st < 4096 ->
  status_word state test_num st = state * 2 ^ 28 + test_num * 2 ^ 12 + st.
Proof.
  intros Hs Ht Hst. unfold status_word, STATE_BIT, TEST_NUM_BIT.
  rewrite lor_shiftl_add by (rewrite ?Z.shiftl_mul_pow2; lia).
  replace (state * 2 ^ 28 + Z.shiftl test_num 12)
    with (Z.shiftl (state * 2 ^ 16 + test_num) 12)
    by (rewrite !Z.shiftl_mul_pow2 by lia; lia).
  rewrite lor_shiftl_add by lia. rewrite u32_small; lia.
Qed.

Lemma state_of_word state test_num st :
  0 <= state < 16 -> 0 <= test_num < 65536 -> 0 <= st < 4096 ->
  state_of (status_word state test_num st) = state.
Proof.
  intros. rewrite status_word_arith by done. unfold state_of, STATE_BIT, STATE_MASK.
  arith_bits. lia.
Qed.

(** *** Programs that only print *)

(** [quiet m]: a run of [m] returns and changes the console only. *)
Definition quiet {A} (m : prog val_state A) : Prop :=
  forall s, exists a c, m s = Done (a, set_console c s).

Create HintDb quiet.

Lemma set_console_id s : set_console (console s) s = s.
Proof. by destruct s. Qed.

Lemma quiet_ret {A} (a : A) : quiet (ret a).
Proof. intros s. exists a, (console s). by rewrite set_console_id. Qed.

Lemma quiet_gets {A} (f : val_state -> A) : quiet (gets f).
Proof. intros s. exists (f s), (console s). by rewrite set_console_id. Qed.

Lemma quiet_bind {A B} (m : prog val_state A) (k : A -> prog val_state B) :
  quiet m -> (forall a, quiet (k a)) -> quiet (bind m k).
Proof.
  intros Hm Hk s. destruct (Hm s) as (a & c & E). rewrite (bind_done _ _ _ _ _ E).
  destruct (Hk a (set_console c s)) as (b & c' & E'). by exists b, c'.
Qed.

Lemma quiet_when b m : quiet m -> quiet (when b m).
Proof. intros H. destruct b; [done|]. apply quiet_ret. Qed.

Lemma quiet_val_print level str data : quiet (val_print level str data).
Proof.
  intros s. unfold val_print, modify. destruct (g_print_level s <=? level).
  - eauto.
  - exists tt, (console s). by rewrite set_console_id.
Qed.

Lemma quiet_deref {A} (o : option A) : is_Some o -> quiet (deref o).
Proof. intros [a ->]. apply quiet_ret. Qed.

#[export] Hint Resolve quiet_ret quiet_gets quiet_when quiet_val_print : quiet.
#[export] Hint Extern 1 (quiet (bind _ _)) => apply quiet_bind; [|intros ?] : quiet.
#[export] Hint Extern 1 (quiet (if ?b then _ else _)) => destruct b : quiet.

(** A report prints, and does nothing else, unless it prints the rule of a
    passed test that has none. *)
Lemma quiet_report index st ruleid :
  is_Some ruleid \/ IS_TEST_PASS st = false -> quiet (val_report_status index st ruleid).
Proof.
  intros H. unfold val_report_status.
  destruct (IS_TEST_PASS st); (destruct H as [[r ->]|H]; [|try done]);
    unfold deref; try destruct ruleid; eauto 30 with quiet.
Qed.

(** The verdict a status word carries. *)
Inductive verdict := VStart | VEnd | VPass | VFail | VSkip | VPending.

#[export] Instance verdict_eq_dec : EqDecision verdict.
Proof. solve_decision. Defined.

Definition encode (v : verdict) (test_num st : Z) : Z :=
  match v with
  | VStart => BSA_ACS_START test_num
  | VEnd => BSA_ACS_END test_num
  | VPass => RESULT_PASS test_num st
  | VFail => RESULT_FAIL test_num st
  | VSkip => RESULT_SKIP test_num st
  | VPending => RESULT_PENDING test_num
  end.

Definition state_value (v : verdict) : Z :=
  match v with
  | VStart => 1 | VEnd => 2 | VPass => 4 | VFail => 8 | VSkip => 9 | VPending => 10
  end.

(** The status the word of a verdict carries: START, END and PENDING carry none. *)
Definition status_of (v : verdict) (st : Z) : Z :=
  match v with VPass | VFail | VSkip => st | _ => 0 end.

Lemma encode_word v test_num st :
  encode v test_num st = status_word (state_value v) test_num (status_of v st).
Proof. by destruct v. Qed.

Lemma state_value_range v : 0 <= state_value v < 16.
Proof. destruct v; simpl; lia. Qed.

Lemma status_of_range v st : 0 <= st < 4096 -> 0 <= status_of v st < 4096.
Proof. destruct v; simpl; lia. Qed.

(** Does the IS_* test of the verdict accept the word? *)
Definition accepts (v : verdict) (value : Z) : bool :=
  match v with
  | VStart => IS_TEST_START value | VEnd => IS_TEST_END value
  | VPass => IS_TEST_PASS value | VFail => IS_TEST_FAIL value
  | VSkip => IS_TEST_SKIP value | VPending => IS_RESULT_PENDING value
  end.

Lemma accepts_state v value : accepts v value = (state_of value =? state_value v).
Proof. by destruct v. Qed.

Lemma state_value_inj v w : state_value v = state_value w -> v = w.
Proof. by destruct v, w. Qed.

(** a status word carries exactly one verdict and gives back its fields:
    for every test number below 2^16 and status below 2^12, the word built by
    the BSA_ACS_START/RESULT_* macros is accepted by the matching IS_* test
    and by no other, its low bits are the status (0 for the words built
    without one) and the bits above them are the test number. *)
Theorem status_word_roundtrip v test_num st :
  0 <= test_num < 65536 -> 0 <= st < 4096 ->
  (forall w, accepts w (encode v test_num st) = true <-> w = v) /\
  Z.land (encode v test_num st) STATUS_MASK = status_of v st /\
  Z.land (Z.shiftr (encode v test_num st) TEST_NUM_BIT) 0xFFFF = test_num.
Proof.
  intros Ht Hs. pose proof (state_value_range v). pose proof (status_of_range v st Hs).
  rewrite encode_word. split.
  - intros w. rewrite accepts_state, state_of_word, Z.eqb_eq by done.
    split; [|by intros ->]. intros E. symmetry. by apply state_value_inj.
  - rewrite status_word_arith by done. unfold STATUS_MASK, TEST_NUM_BIT. arith_bits. lia.
Qed.

Lemma status_word_roundtrip_witness :
  accepts VFail (RESULT_FAIL 823 0xF) = true /\ Z.land (RESULT_FAIL 823 0xF) STATUS_MASK = 0xF.
Proof.
  destruct (status_word_roundtrip VFail 823 0xF) as (H1 & H2 & _); [lia|lia|].
  split; [by apply (H1 VFail)|exact H2].
Defined.
