(* ===== verification/Hart.v ===== *)
(** * The hart table and the PSCI start of secondary harts

    Models [val/src/acs_hart_infra.c], the table accessors of
    [val/src/acs_hart.c] and the ACPI walk that fills the table,
    [pal_hart_create_info_table] of [platform/pal_uefi_acpi/src/pal_hart.c].
    The memory of the table is [hart_info], whose length is the number of
    entries the caller allocated; [num_of_hart] counts the entries filled. *)

From S2P Require Import Prelude Status.

Definition MPIDR_AFF_MASK : Z := 0xFF00FFFFFF.
Definition TIMEOUT_LARGE : positive := 0x1000000.
Definition CONDUIT_SMC : Z := 0.
Definition CONDUIT_HVC : Z := 1.
Definition CONDUIT_SBI : Z := 2.
Definition CONDUIT_UNKNOWN : Z := -1.
Definition CONDUIT_NONE : Z := -2.
Definition ARM_SMC_ID_PSCI_CPU_ON_AARCH64 : Z := 0xc4000003.
Definition ARM_SMC_PSCI_RET_ALREADY_ON : Z := u64 (-4).
Definition EXCEPT_RISCV_ILLEGAL_INST : Z := 2.
Definition EXCEPT_RISCV_LOAD_ACCESS_PAGE_FAULT : Z := 13.
Definition EXCEPT_RISCV_MAX_EXCEPTIONS : Z := 23.

(** ** The ACPI tables, addressed by byte offset *)

Definition EFI_ACPI_6_5_RINTC : Z := 0x18.
Definition RHCT_ISA_STRING_NODE : Z := 0.
Definition RHCT_HART_INFO_NODE : Z := 65535.
Definition MADT_HEADER_SIZE : Z := 44.
Definition ISA_STRING_SIZE : Z := 512.

Record RINTC := mk_rintc {
  rType : Z; rLength : Z; rFlags : Z; rHartId : Z; rUid : Z;
  rExtId : Z; rImsicBase : Z; rImsicSize : Z }.

Record RHCT_NODE := mk_node {
  nType : Z; nLength : Z;
  nUid : Z; nOffsets : list Z;              (* a hart info node *)
  nISALength : Z; nISAString : string }.    (* an ISA string node *)

Record MADT := mk_madt { madt_length : Z; madt_at : gmap Z RINTC }.
Record RHCT := mk_rhct { rhct_node_offset : Z; rhct_node_number : nat; rhct_at : gmap Z RHCT_NODE }.

Definition ENABLED_BIT (flags : Z) : Z := Z.land flags 1.
Definition ONLINE_CAP_BIT (flags : Z) : Z := Z.land (Z.b2z (1 <? flags)) 1.
Definition usable (flags : Z) : bool := (ENABLED_BIT flags =? 1) || (ONLINE_CAP_BIT flags =? 1).

Definition set_isa (v : string) (e : HART_INFO_ENTRY) : HART_INFO_ENTRY :=
  mk_hart (hart_num e) (hart_id e) (acpi_processor_uid e) (ext_intc_id e) (imsic_base e)
    (imsic_size e) v (mmu_type e).

(** [CopyMem] of [len] characters over the start of the old contents. *)
Definition copy_string (len : Z) (src old : string) : string :=
  String.append (String.substring 0 (Z.to_nat len) src)
    (String.substring (Z.to_nat len) (String.length old) old).

(** The nodes a hart info node points to. *)
Fixpoint copy_nodes (r : RHCT) (offs : list Z) (e : HART_INFO_ENTRY) : outcome HART_INFO_ENTRY :=
  match offs with
  | [] => Done e
  | o :: offs' =>
      match rhct_at r !! o with
      | None => Undefined
      | Some n =>
          if nType n =? RHCT_ISA_STRING_NODE then
            if ISA_STRING_SIZE <? nISALength n then Undefined
            else copy_nodes r offs' (set_isa (copy_string (nISALength n) (nISAString n) (isa_string e)) e)
          else copy_nodes r offs' e
      end
  end.

(** The loop over the [RHCTNodeNumber] nodes for the processor [uid]. *)
Fixpoint scan_rhct (r : RHCT) (k : nat) (off uid : Z) (e : HART_INFO_ENTRY) : outcome HART_INFO_ENTRY :=
  match k with
  | O => Done e
  | S k' =>
      match rhct_at r !! off with
      | None => Undefined
      | Some n =>
          match (if (nType n =? RHCT_HART_INFO_NODE) && (nUid n =? uid)
                 then copy_nodes r (nOffsets n) e else Done e) with
          | Done e' => scan_rhct r k' (off + nLength n) uid e'
          | Undefined => Undefined
          | Diverges => Diverges
          end
      end
  end.

(** The entry filled from an RINTC structure, over the memory it had. *)
Definition fill_entry (n : Z) (r : RINTC) (old : HART_INFO_ENTRY) : HART_INFO_ENTRY :=
  mk_hart n (rHartId r) (rUid r) (rExtId r) (rImsicBase r) (rImsicSize r)
    (isa_string old) (mmu_type old).

(** One structure of the MADT: the table after it. *)
Definition madt_step (r : RHCT) (e : RINTC) (t : HART_INFO_TABLE) : outcome HART_INFO_TABLE :=
  if (rType e =? EFI_ACPI_6_5_RINTC) && usable (rFlags e) then
    match at_index (hart_info t) (num_of_hart t) with
    | None => Undefined
    | Some old =>
        match scan_rhct r (rhct_node_number r) (rhct_node_offset r) (rUid e)
                (fill_entry (num_of_hart t) e old) with
        | Done e' => Done (mk_hart_table (u32 (num_of_hart t + 1))
                             (<[Z.to_nat (num_of_hart t) := e']> (hart_info t)))
        | Undefined => Undefined
        | Diverges => Diverges
        end
    end
  else Done t.

(** The [do ... while (Length < MadtTableLength)] walk. *)
Fixpoint madt_walk (fuel : nat) (m : MADT) (r : RHCT) (len : Z) (t : HART_INFO_TABLE)
    : outcome HART_INFO_TABLE :=
  match fuel with
  | O => Diverges
  | S f =>
      match madt_at m !! len with
      | None => Undefined
      | Some e =>
          match madt_step r e t with
          | Done t' =>
              let len' := u32 (len + rLength e) in
              if len' <? madt_length m then madt_walk f m r len' t' else Done t'
          | Undefined => Undefined
          | Diverges => Diverges
          end
      end
  end.

(** [None] for a table the firmware does not provide. *)
Definition pal_hart_create_info_table (madt : option MADT) (rhct : option RHCT)
    (t : HART_INFO_TABLE) : outcome HART_INFO_TABLE :=
  let t0 := mk_hart_table 0 (hart_info t) in
  match madt, rhct with
  | Some m, Some r => madt_walk (Z.to_nat (madt_length m)) m r MADT_HEADER_SIZE t0
  | _, _ => Done t0
  end.

(** Bits of the ARM boot flags of the FADT (ACPI 6.1, table 5-36). *)
Definition EFI_ACPI_6_1_ARM_PSCI_COMPLIANT : Z := 1.
Definition EFI_ACPI_6_1_ARM_PSCI_USE_HVC : Z := 2.

(** [ArmBootArch] of the FADT, when there is one. *)
Definition pal_psci_get_conduit (fadt : option Z) : Z :=
  match fadt with
  | None => CONDUIT_UNKNOWN
  | Some arch => if Z.land arch EFI_ACPI_6_1_ARM_PSCI_COMPLIANT =? 0 then CONDUIT_NONE
                 else if negb (Z.land arch EFI_ACPI_6_1_ARM_PSCI_USE_HVC =? 0) then CONDUIT_HVC else CONDUIT_SMC
  end.

(** ** [acs_hart_infra.c] *)

Definition val_hart_get_num : prog val_state Z :=
  gets (fun s => match g_hart_info_table s with None => 0 | Some t => num_of_hart t end).

Definition val_hart_get_mpid : prog val_state Z :=
  gets (fun s => Z.land (MPIDR s) MPIDR_AFF_MASK).

(** The hart table, which the accessors read without a check. *)
Definition hart_table : prog val_state HART_INFO_TABLE :=
  let* o := gets g_hart_info_table in deref o.

Definition val_hart_get_mpid_index (index : Z) : prog val_state Z :=
  let* t := hart_table in
  if num_of_hart t <? index then
    val_report_status index (RESULT_FAIL 0 0xFF) None ;;; ret 0xFFFFFF
  else
    let* e := deref (at_index (hart_info t) index) in ret (hart_id e).

(** The [while (i > 0)] loop over the first [i] entries. *)
Fixpoint index_loop (i : nat) (l : list HART_INFO_ENTRY) (id : Z) : outcome Z :=
  match i with
  | O => Done 0
  | S i' => match l with
            | [] => Undefined
            | e :: l' => if hart_id e =? id then Done (hart_num e) else index_loop i' l' id
            end
  end.

Definition val_hart_get_index_mpid (id : Z) : prog val_state Z :=
  let* t := hart_table in
  fun s => match index_loop (Z.to_nat (num_of_hart t)) (hart_info t) id with
           | Done i => Done (i, s)
           | Undefined => Undefined
           | Diverges => Diverges
           end.

Definition val_hart_create_info_table (fadt : option Z) (madt : option MADT) (rhct : option RHCT)
    (hart_info_table : option HART_INFO_TABLE) : prog val_state Z :=
  (let c := pal_psci_get_conduit fadt in
   if c =? CONDUIT_UNKNOWN then
     val_print ACS_PRINT_WARN " FADT not found, assuming SBI as PSCI conduit\n" 0 ;;;
     modify (set_gPsciConduit CONDUIT_SBI)
   else if c =? CONDUIT_NONE then
     val_print ACS_PRINT_WARN " PSCI not supported, assuming SBI as conduit for tests\n Multi-HART and wakeup tests likely to fail\n" 0 ;;;
     modify (set_gPsciConduit CONDUIT_SMC)
   else if c =? CONDUIT_HVC then
     modify (set_gPsciConduit c) ;;;
     val_print ACS_PRINT_INFO " Using HVC as PSCI conduit\n" 0
   else
     modify (set_gPsciConduit c) ;;;
     val_print ACS_PRINT_INFO " Using SMC as PSCI conduit\n" 0) ;;;
  val_print ACS_PRINT_INFO " Creating HART INFO table\n" 0 ;;;
  match hart_info_table with
  | None =>
      val_print ACS_PRINT_ERR "Input memory for HART Info table cannot be NULL\n" 0 ;;;
      ret ACS_STATUS_ERR
  | Some t =>
      (fun s => match pal_hart_create_info_table madt rhct t with
                | Done t' => Done (tt, set_g_hart_info_table (Some t') s)
                | Undefined => Undefined
                | Diverges => Diverges
                end) ;;;
      let* n := val_hart_get_num in
      val_print ACS_PRINT_TEST " HART_INFO: Number of HART detected       : %4d\n" n ;;;
      if n =? 0 then
        val_print ACS_PRINT_ERR "\n *** CRITICAL ERROR: Num HART is 0x0 ***\n" 0 ;;;
        ret ACS_STATUS_ERR
      else
        let* id := val_hart_get_mpid in
        let* i := val_hart_get_index_mpid id in
        modify (set_g_primary_hart_index i) ;;;
        val_print ACS_PRINT_DEBUG " HART_INFO: Primary HART index       : %4d\n" i ;;;
        ret ACS_STATUS_PASS
  end.

Definition val_hart_get_primary_index : prog val_state Z := gets g_primary_hart_index.

(** *** Data handed to a secondary hart ([acs_test_infra.c]) *)

Definition val_set_test_data (index addr test_data : Z) : prog val_state unit :=
  let* n := val_hart_get_num in
  if n <? index then val_print ACS_PRINT_ERR "\n Incorrect HART index = %d" index
  else
    let* m := gets shared_mem in
    let* e := deref (at_index m index) in
    modify (set_shared_mem (<[Z.to_nat index := set_data addr test_data e]> m)).

(** The two out-parameters, [None] when they are left alone. *)
Definition val_get_test_data `{SecondaryHarts} (index : Z) : prog val_state (option (Z * Z)) :=
  let* n := val_hart_get_num in
  if n <? index then
    val_print ACS_PRINT_ERR "\n Incorrect HART index = %d" index ;;; ret None
  else
    let* e := read_shared index in
    ret (Some (data0 e, data1 e)).

(** *** Starting a hart *)

(** The firmware behind the PSCI conduit: the value the [n]-th call leaves in
    [Arg0] for the arguments it got. *)
Class Firmware := psci_call : nat -> ARM_SMC_ARGS -> Z.

Definition pal_hart_execute_payload `{Firmware} : prog val_state unit :=
  modify (fun s =>
    set_g_smc_args (mk_smc (u64 (psci_call (smc_calls s) (g_smc_args s))) (Arg1 (g_smc_args s)))
      (set_smc_calls (S (smc_calls s)) s)).

(** One pass of the [do] loop: [Some] result leaves it. *)
Definition cpu_on_once `{Firmware} (index payload test_input : Z) : prog val_state (option Z) :=
  let* mpid := val_hart_get_mpid_index index in
  modify (set_g_smc_args (mk_smc ARM_SMC_ID_PSCI_CPU_ON_AARCH64 mpid)) ;;;
  val_set_test_data index payload test_input ;;;
  pal_hart_execute_payload ;;;
  let* args := gets g_smc_args in
  ret (if Arg0 args =? ARM_SMC_PSCI_RET_ALREADY_ON then None else Some (Arg0 args)).

(** [timeout--] is tested after each pass, so [TIMEOUT_LARGE + 1] passes run at most. *)
Definition val_execute_on_pe `{Firmware} (index payload test_input : Z) : prog val_state unit :=
  let* t := hart_table in
  if num_of_hart t <? index then
    val_print ACS_PRINT_ERR "Input Index exceeds Num of HART %x\n" index ;;;
    val_report_status index (RESULT_FAIL 0 0xFF) None
  else
    let* r := rounds (Pos.succ TIMEOUT_LARGE) (cpu_on_once index payload test_input) in
    match r with
    | Some a0 =>
        if a0 =? 0 then val_print ACS_PRINT_INFO "\n       PSCI_CPU_ON: success" 0
        else
          val_print ACS_PRINT_ERR "\n       PSCI_CPU_ON: failure[%d]" a0 ;;;
          val_set_status index (RESULT_FAIL 0 (0x120 - i32 a0))
    | None =>
        val_print ACS_PRINT_ERR "\n       PSCI_CPU_ON: cpu already on" 0 ;;;
        val_set_status index (RESULT_FAIL 0 (0x120 - i32 ARM_SMC_PSCI_RET_ALREADY_ON))
    end.

(** The entry point of a secondary hart; [vector] calls the function at an
    address with an argument. *)
Definition val_test_entry `{SecondaryHarts, Firmware} (vector : Z -> Z -> prog val_state unit)
    (stale : Z * Z) : prog val_state unit :=
  let* id := val_hart_get_mpid in
  let* index := val_hart_get_index_mpid id in
  let* d := val_get_test_data index in
  (match d with
   | Some (addr, arg) => vector addr arg
   | None => vector stale.1 stale.2
   end) ;;;
  let* id := val_hart_get_mpid in
  modify (fun s => set_smc_calls (S (smc_calls s)) s).

(** *** Exception handlers *)

(** The CPU protocol of the firmware: whether it is present, and the status
    and the handler table after one registration ([None] unregisters). *)
Class CpuArchProtocol := {
  locate_protocol : Z;
  register_interrupt_handler : Z -> option string -> gmap Z string -> Z * gmap Z string }.

Definition EFI_SUCCESS : Z := 0.
Definition EFI_ERROR (st : Z) : bool := Z.testbit st 63.
Definition EFI_INVALID_PARAMETER : Z := 2 ^ 63 + 2.

Definition pal_hart_install_esr `{CpuArchProtocol} (ExceptionType : Z) (esr : string)
    : prog val_state Z :=
  if EFI_ERROR locate_protocol then ret (u32 locate_protocol) else
  let* st1 := (fun s => let r := register_interrupt_handler ExceptionType None (handlers s) in
                        Done (r.1, set_handlers r.2 s)) in
  if EFI_ERROR st1 && negb (st1 =? EFI_INVALID_PARAMETER) then ret (u32 st1) else
  let* st2 := (fun s => let r := register_interrupt_handler ExceptionType (Some esr) (handlers s) in
                        Done (r.1, set_handlers r.2 s)) in
  if EFI_ERROR st2 then ret (u32 st2) else ret EFI_SUCCESS.

Definition val_hart_install_esr `{CpuArchProtocol} (exception_type : Z) (esr : string)
    : prog val_state Z :=
  if EXCEPT_RISCV_MAX_EXCEPTIONS <? exception_type then
    val_print ACS_PRINT_ERR "Invalid Exception type %x\n" exception_type ;;;
    ret ACS_STATUS_ERR
  else pal_hart_install_esr exception_type esr ;;; ret 0.

Definition val_hart_initialize_default_exception_handler `{CpuArchProtocol} (esr : string)
    : prog val_state unit :=
  val_hart_install_esr EXCEPT_RISCV_ILLEGAL_INST esr ;;;
  val_hart_install_esr EXCEPT_RISCV_LOAD_ACCESS_PAGE_FAULT esr ;;;
  ret tt.

(** *** Cache maintenance: the addresses whose line is cleaned, in order *)

Fixpoint clean_loop (fuel : nat) (addr end_addr line : Z) : outcome (list Z) :=
  match fuel with
  | O => Diverges
  | S f =>
      if addr <? end_addr then
        match clean_loop f (u64 (addr + line)) end_addr line with
        | Done l => Done (addr :: l)
        | r => r
        end
      else Done []
  end.

Definition cache_line (ctr : Z) : Z := Z.shiftl 2 (Z.land (Z.shiftr ctr 16) 0xf).

Definition val_hart_cache_clean_range (ctr start_addr length : Z) : outcome (list Z) :=
  let line := cache_line ctr in
  let aligned := u64 (start_addr - Z.land start_addr (line - 1)) in
  let end_addr := u64 (start_addr + length) in
  clean_loop (Z.to_nat (length / line + 3)) aligned end_addr line.

(** ** Accessors of [acs_hart.c] *)

Definition val_hart_get_isa_string (index : Z) : prog val_state (option string) :=
  let* t := hart_table in
  if num_of_hart t <? index then
    val_report_status index (RESULT_FAIL 0 0xFF) None ;;; ret None
  else
    let* e := deref (at_index (hart_info t) index) in ret (Some (isa_string e)).

(** [index] is an [int32_t], converted to unsigned for the comparison. *)
Definition val_hart_get_imsic_base (index : Z) : prog val_state Z :=
  let* t := hart_table in
  if num_of_hart t <? u32 index then
    val_report_status (u32 index) (RESULT_FAIL 0 0xFF) None ;;; ret 0
  else
    let* e := deref (at_index (hart_info t) index) in ret (imsic_base e).

Definition val_hart_get_mmu_type (index : Z) : prog val_state Z :=
  let* t := hart_table in
  if num_of_hart t <? index then
    val_report_status index (RESULT_FAIL 0 0xFF) None ;;; ret 0
  else
    let* e := deref (at_index (hart_info t) index) in ret (mmu_type e).

(** ** The table holds exactly the usable harts *)

(** The structures that the table is to list: of type 0x18 with the enabled bit, or with a
    flag word above 1; and those that ACPI calls usable: enabled, or online capable. *)
Definition listed (e : RINTC) : bool := (rType e =? 0x18) && (Z.testbit (rFlags e) 0 || (2 <=? rFlags e)).
Definition acpi_usable (e : RINTC) : bool := (rType e =? 0x18) && (Z.testbit (rFlags e) 0 || Z.testbit (rFlags e) 1).

Lemma usable_bits flags : usable flags = Z.testbit flags 0 || (2 <=? flags).
Proof.
  unfold usable, ENABLED_BIT, ONLINE_CAP_BIT. f_equal.
  - change 1 with (Z.ones 1) at 1. rewrite Z.land_ones by lia. change (2 ^ 1) with 2.
    rewrite <- Z.bit0_mod. by destruct (Z.testbit flags 0).
  - destruct (Z.ltb_spec 1 flags), (Z.leb_spec 2 flags); try lia; done.
Qed.

Lemma listed_acpi e : 0 <= rFlags e < 4 -> listed e = acpi_usable e.
Proof.
  intros Hf. unfold listed, acpi_usable. f_equal.
  assert (Hc : rFlags e = 0 \/ rFlags e = 1 \/ rFlags e = 2 \/ rFlags e = 3) by lia.
  by destruct Hc as [->|[->|[->| ->]]].
Qed.

(** The structures [l] follow each other from offset [off] to the end of the MADT. *)
Fixpoint laid_out (m : MADT) (off : Z) (l : list RINTC) : Prop :=
  match l with
  | [] => off = madt_length m
  | e :: l' => madt_at m !! off = Some e /\ 0 < rLength e < 256 /\
               laid_out m (off + rLength e) l'
  end.

(** Every node is present and every ISA string fits. *)
Fixpoint rhct_ok (r : RHCT) (k : nat) (off : Z) : bool :=
  match k with
  | O => true
  | S k' =>
      match rhct_at r !! off with
      | None => false
      | Some n =>
          forallb (fun o => match rhct_at r !! o with
                            | None => false
                            | Some n' => negb (nType n' =? RHCT_ISA_STRING_NODE) ||
                                         (nISALength n' <=? ISA_STRING_SIZE)
                            end) (nOffsets n) && rhct_ok r k' (off + nLength n)
      end
  end.

(** [e] was filled from the [k]-th accepted structure. *)
Definition entry_of (k : nat) (r : RINTC) (e : HART_INFO_ENTRY) : Prop :=
  hart_num e = Z.of_nat k /\ hart_id e = rHartId r /\ acpi_processor_uid e = rUid r /\
  ext_intc_id e = rExtId r /\ imsic_base e = rImsicBase r /\ imsic_size e = rImsicSize r.

Definition filled (t : HART_INFO_TABLE) (rs : list RINTC) : Prop :=
  num_of_hart t = Z.of_nat (length rs) /\
  forall k r, rs !! k = Some r -> exists e, hart_info t !! k = Some e /\ entry_of k r e.

Lemma copy_nodes_entry r offs e k x :
  forallb (fun o => match rhct_at r !! o with
                    | None => false
                    | Some n' => negb (nType n' =? RHCT_ISA_STRING_NODE) ||
                                 (nISALength n' <=? ISA_STRING_SIZE)
                    end) offs = true ->
  entry_of k x e -> exists e', copy_nodes r offs e = Done e' /\ entry_of k x e'.
Proof.
  revert e. induction offs as [|o offs IH]; intros e Hok He; simpl in *; [by exists e|].
  destruct (rhct_at r !! o) as [n|]; [|done].
  apply andb_true_iff in Hok as [H1 H2].
  destruct (nType n =? RHCT_ISA_STRING_NODE); simpl in H1.
  - destruct (Z.ltb_spec ISA_STRING_SIZE (nISALength n)); [apply Z.leb_le in H1; lia|].
    by apply IH.
  - by apply IH.
Qed.

Lemma scan_rhct_entry r n off uid e k x :
  rhct_ok r n off = true -> entry_of k x e ->
  exists e', scan_rhct r n off uid e = Done e' /\ entry_of k x e'.
Proof.
  revert off e. induction n as [|n IH]; intros off e Hok He; simpl in *; [by exists e|].
  destruct (rhct_at r !! off) as [nd|]; [|done].
  apply andb_true_iff in Hok as [H1 H2].
  destruct ((nType nd =? RHCT_HART_INFO_NODE) && (nUid nd =? uid)).
  - destruct (copy_nodes_entry r (nOffsets nd) e k x H1 He) as (e' & -> & He'). by apply IH.
  - by apply IH.
Qed.

Lemma madt_step_filled r e t rs :
  rhct_ok r (rhct_node_number r) (rhct_node_offset r) = true ->
  filled t rs ->
  (length (rs ++ (if listed e then [e] else [])) <= length (hart_info t))%nat ->
  Z.of_nat (length (hart_info t)) < 2 ^ 32 ->
  exists t', madt_step r e t = Done t' /\ filled t' (rs ++ if listed e then [e] else []) /\
    length (hart_info t') = length (hart_info t).
Proof.
  intros Hr [Hn Hf] Hlen H32. unfold madt_step, listed in *. rewrite usable_bits. unfold EFI_ACPI_6_5_RINTC.
  destruct ((rType e =? 24) && (Z.testbit (rFlags e) 0 || (2 <=? rFlags e))).
  2:{ exists t. rewrite app_nil_r. done. }
  rewrite length_app in Hlen. simpl in Hlen.
  destruct (at_index_lt (hart_info t) (num_of_hart t)) as [old Hold]; [lia|]. rewrite Hold.
  destruct (scan_rhct_entry r (rhct_node_number r) (rhct_node_offset r) (rUid e)
              (fill_entry (num_of_hart t) e old) (length rs) e Hr) as (e' & -> & He').
  { unfold entry_of, fill_entry. simpl. by rewrite Hn. }
  eexists. split; [reflexivity|]. split; [split; simpl|].
  - rewrite length_app, u32_small; simpl; lia.
  - intros k x Hk. rewrite Hn, Nat2Z.id.
    apply lookup_app_Some in Hk as [Hk|[Hge Hk]].
    + pose proof (lookup_lt_Some _ _ _ Hk).
      rewrite list_lookup_insert_ne by lia. by apply Hf.
    + destruct (k - length rs)%nat eqn:Ek; [|done]. injection Hk as ->.
      replace k with (length rs) by lia. exists e'.
      rewrite list_lookup_insert_eq by lia. done.
  - simpl. by rewrite length_insert.
Qed.

Lemma laid_out_length m off l :
  laid_out m off l -> Z.of_nat (length l) <= madt_length m - off.
Proof.
  revert off. induction l as [|e l IH]; intros off; simpl; [lia|].
  intros (_ & H1 & H2). specialize (IH _ H2). lia.
Qed.

Lemma filter_listed e l :
  filter listed (e :: l) = (if listed e then [e] else []) ++ filter listed l.
Proof. rewrite filter_cons. by destruct (listed e). Qed.

Lemma madt_walk_filled m r l e off t rs fuel :
  rhct_ok r (rhct_node_number r) (rhct_node_offset r) = true ->
  laid_out m off (e :: l) -> 0 <= off -> madt_length m < 2 ^ 32 ->
  filled t rs ->
  (length (rs ++ filter listed (e :: l)) <= length (hart_info t))%nat ->
  Z.of_nat (length (hart_info t)) < 2 ^ 32 ->
  (length l < fuel)%nat ->
  exists t', madt_walk fuel m r off t = Done t' /\ filled t' (rs ++ filter listed (e :: l)).
Proof.
  intros Hr. revert e off t rs fuel.
  induction l as [|e' l IH]; intros e off t rs fuel Hl Hoff Hm Hf Hcap H32 Hfuel;
    (destruct fuel as [|fuel]; [lia|]); simpl madt_walk;
    pose proof (laid_out_length _ _ _ Hl) as Hll; simpl length in Hll;
    destruct Hl as (He & Hlen & Hl); rewrite He;
    pose proof (laid_out_length _ _ _ Hl) as Hll'; simpl length in Hll';
    rewrite filter_listed, app_assoc in *; rewrite !length_app in Hcap;
    (destruct (madt_step_filled r e t rs Hr Hf) as (t1 & -> & Hf1 & Hlen1);
      [rewrite ?length_app; lia|done|]);
    rewrite u32_small by lia.
  - simpl in Hl. destruct (Z.ltb_spec (off + rLength e) (madt_length m)); [lia|].
    exists t1. split; [done|]. by rewrite app_nil_r.
  - destruct (Z.ltb_spec (off + rLength e) (madt_length m)); [|lia].
    apply IH; try done; rewrite ?length_app, ?Hlen1; simpl in Hfuel; lia.
Qed.

Section HartTheorems.
Context (m : MADT) (r : RHCT) (rs : list RINTC) (t : HART_INFO_TABLE).

(** C20: the hart table lists exactly the harts whose flags the code takes for usable: when
    the MADT is a sequence of structures [rs] that fills it and every node of the RHCT is
    present, the ACPI walk returns (it does not run past the tables nor
    loop), the table counts the RINTC structures with the enabled bit or a flag word above 1,
    and entry [k] carries the number [k] and the ids and IMSIC of the [k]-th of them.  When
    no structure has a reserved flag these are the harts that ACPI calls usable, enabled
    or online capable; with a reserved flag alone a hart is listed that ACPI and the comment
    of the code do not call usable ([usable_flags]). *)
Theorem hart_table_exact :
  rs <> [] -> laid_out m MADT_HEADER_SIZE rs -> madt_length m < 2 ^ 32 ->
  rhct_ok r (rhct_node_number r) (rhct_node_offset r) = true ->
  (length (filter listed rs) <= length (hart_info t))%nat ->
  Z.of_nat (length (hart_info t)) < 2 ^ 32 ->
  exists t', pal_hart_create_info_table (Some m) (Some r) t = Done t' /\
    filled t' (filter listed rs) /\
    (Forall (fun e => 0 <= rFlags e < 4) rs -> filled t' (filter acpi_usable rs)).
Proof.
  intros Hne Hl Hm Hr Hcap H32. destruct rs as [|e l]; [done|].
  pose proof (laid_out_length _ _ _ Hl) as Hlen. simpl length in Hlen.
  unfold pal_hart_create_info_table, MADT_HEADER_SIZE in *.
  destruct (madt_walk_filled m r l e 44 (mk_hart_table 0 (hart_info t)) [] (Z.to_nat (madt_length m))) as (t' & E & Hf); try done; try lia.
  exists t'. split; [exact E|]. split; [exact Hf|]. intros Hfl.
  assert (filter acpi_usable (e :: l) = filter listed (e :: l)) as ->; [|exact Hf].
  clear -Hfl. induction Hfl as [|x l' Hx Hfl IH]; [done|]. rewrite !filter_cons, IH, (listed_acpi x Hx). done.
Qed.

Lemma index_loop_filled n l k x e :
  (k < n)%nat -> l !! k = Some e -> hart_id e = x ->
  (forall j e', (j < k)%nat -> l !! j = Some e' -> hart_id e' <> x) ->
  index_loop n l x = Done (hart_num e).
Proof.
  revert n k. induction l as [|y l IH]; intros n k Hk Hl Hx Hne; [done|].
  destruct n as [|n]; [lia|]. simpl. destruct k as [|k]; simpl in Hl.
  - injection Hl as ->. destruct (Z.eqb_spec (hart_id e) x); done.
  - destruct (Z.eqb_spec (hart_id y) x) as [Ey|].
    + by destruct (Hne 0%nat y ltac:(lia) eq_refl).
    + apply (IH n k); [lia|done|done|]. intros j e' Hj Hl'. apply (Hne (S j) e'); [lia|done].
Qed.

(** index and hart id are inverse: in a table filled from structures
    with distinct hart ids, the id of hart [k] is the id of its structure and
    looking that id up gives [k] back; neither call changes the state. *)
Theorem hart_index_roundtrip s k x :
  g_hart_info_table s = Some t -> filled t rs -> NoDup (rHartId <$> rs) ->
  rs !! k = Some x ->
  returns (val_hart_get_mpid_index (Z.of_nat k)) s (rHartId x) s /\
  returns (val_hart_get_index_mpid (rHartId x)) s (Z.of_nat k) s.
Proof.
  intros Ht [Hn Hf] Hnd Hk. pose proof (lookup_lt_Some _ _ _ Hk) as Hlt.
  destruct (Hf k x Hk) as (e & He & Hnum & Hid & _).
  unfold returns, val_hart_get_mpid_index, val_hart_get_index_mpid, hart_table, gets, bind.
  rewrite Ht. simpl. split.
  - destruct (Z.ltb_spec (num_of_hart t) (Z.of_nat k)); [lia|].
    unfold at_index. destruct (Z.leb_spec 0 (Z.of_nat k)); [|lia].
    rewrite Nat2Z.id, He. simpl. unfold ret. by rewrite Hid.
  - rewrite Hn, Nat2Z.id, (index_loop_filled _ _ k _ e); try done.
    + by rewrite Hnum.
    + intros j e' Hj He' Heq.
      destruct (lookup_lt_is_Some_2 rs j) as [y Hy]; [lia|].
      destruct (Hf j y Hy) as (e2 & He2 & _ & Hid2 & _).
      assert (e2 = e') as -> by congruence.
      assert (k = j) as ->; [|lia].
      apply (NoDup_lookup (rHartId <$> rs) k j (rHartId x)); [done| |];
        rewrite list_lookup_fmap; [by rewrite Hk|]. rewrite Hy. simpl. congruence.
Qed.
End HartTheorems.

Definition rintc0 (id : Z) : RINTC := mk_rintc EFI_ACPI_6_5_RINTC 36 1 id id 0 (id * 4096) 4096.
Definition entry0 : HART_INFO_ENTRY := mk_hart 0 0 0 0 0 0 EmptyString 0.
Definition madt2 : MADT := mk_madt 116 {[ 44 := rintc0 5; 80 := rintc0 9 ]}.
Definition rhct1 : RHCT := mk_rhct 56 1 {[ 56 := mk_node RHCT_HART_INFO_NODE 16 5 [72] 0 EmptyString;
                                          72 := mk_node RHCT_ISA_STRING_NODE 16 0 [] 8 "rv64imac" ]}.
Definition state0 : val_state :=
  mk_val 3 [] 1 [] [] [] 0 0 0 0 None 0 0 (mk_smc 0 0) 0 ∅ [] 0 0 0.

Lemma hart_table_exact_witness :
  exists t', pal_hart_create_info_table (Some madt2) (Some rhct1) (mk_hart_table 0 (replicate 4 entry0))
             = Done t' /\ filled t' [rintc0 5; rintc0 9].
Proof.
  destruct (hart_table_exact madt2 rhct1 [rintc0 5; rintc0 9] (mk_hart_table 0 (replicate 4 entry0))) as (t' & E & Hf & _).
  - discriminate.
  - repeat split; reflexivity.
  - reflexivity.
  - reflexivity.
  - vm_compute; lia.
  - reflexivity.
  - exists t'. split; [exact E|exact Hf].
Defined.

Definition table2 : HART_INFO_TABLE :=
  mk_hart_table 2 [fill_entry 0 (rintc0 5) entry0; fill_entry 1 (rintc0 9) entry0; entry0].
Definition state2 : val_state := set_g_hart_info_table (Some table2) state0.

Lemma table2_filled : filled table2 [rintc0 5; rintc0 9].
Proof.
  split; [done|]. intros [|[|k]] x Hx; simpl in Hx; try done; injection Hx as <-;
    eexists; split; try reflexivity; by vm_compute.
Qed.

Lemma hart_index_roundtrip_witness : returns (val_hart_get_index_mpid 9) state2 1 state2.
Proof.
  refine (proj2 (hart_index_roundtrip [rintc0 5; rintc0 9] table2 state2 1 (rintc0 9)
                   eq_refl table2_filled _ eq_refl)).
  apply (bool_decide_unpack _). vm_compute. exact I.
Defined.

(** ** Accessors past the table *)

(** the guards of the hart accessors let one index too many through: at
    [index = num_of_hart] none of them reports an error; each returns the field
    of the memory after the last hart, and has undefined behaviour when the
    allocation ends there.  From [num_of_hart + 1] on the id accessor reports
    FAIL and returns its error value. *)
Theorem hart_accessors_past_end s t :
  g_hart_info_table s = Some t -> 0 <= num_of_hart t ->
  (forall e, at_index (hart_info t) (num_of_hart t) = Some e ->
     returns (val_hart_get_mpid_index (num_of_hart t)) s (hart_id e) s /\
     returns (val_hart_get_isa_string (num_of_hart t)) s (Some (isa_string e)) s /\
     returns (val_hart_get_mmu_type (num_of_hart t)) s (mmu_type e) s) /\
  (at_index (hart_info t) (num_of_hart t) = None ->
     val_hart_get_mpid_index (num_of_hart t) s = Undefined /\
     val_hart_get_isa_string (num_of_hart t) s = Undefined /\
     val_hart_get_mmu_type (num_of_hart t) s = Undefined) /\
  (forall i, num_of_hart t < i ->
     exists c, returns (val_hart_get_mpid_index i) s 0xFFFFFF (set_console c s)).
Proof.
  intros Ht Hn.
  unfold returns, val_hart_get_mpid_index, val_hart_get_isa_string, val_hart_get_mmu_type,
    hart_table, gets, bind. rewrite Ht. simpl. rewrite Z.ltb_irrefl. split_and!.
  - intros e ->. done.
  - intros ->. done.
  - intros i Hi. destruct (Z.ltb_spec (num_of_hart t) i); [|lia].
    destruct (quiet_report i (RESULT_FAIL 0 0xFF) None ltac:(by right) s) as ([] & c & ->).
    by exists c.
Qed.

Lemma hart_accessors_past_end_witness : returns (val_hart_get_mpid_index 2) state2 0 state2.
Proof.
  exact (proj1 (proj1 (hart_accessors_past_end state2 table2 eq_refl ltac:(vm_compute; discriminate))
           entry0 eq_refl)).
Defined.

(** the usable test of an RINTC structure: for the flag words ACPI
    defines (bits 0 and 1) the walk accepts a hart exactly when it is enabled
    or online capable; [ONLINE_CAP_BIT] compares instead of shifting, so that a
    word with only a reserved bit set is accepted as well. *)
Theorem usable_flags flags :
  0 <= flags ->
  (flags < 4 -> usable flags = Z.testbit flags 0 || Z.testbit flags 1) /\
  (4 <= flags -> usable flags = true).
Proof.
  intros H0. unfold usable, ENABLED_BIT, ONLINE_CAP_BIT. split; intros H.
  - assert (flags = 0 \/ flags = 1 \/ flags = 2 \/ flags = 3) as [->|[->|[->| ->]]] by lia; done.
  - destruct (Z.ltb_spec 1 flags); [|lia]. simpl. by rewrite orb_true_r.
Qed.

Lemma usable_flags_witness : usable 2 = true /\ usable 0 = false /\ usable 4 = true.
Proof.
  split_and!.
  - exact (proj1 (usable_flags 2 ltac:(lia)) ltac:(lia)).
  - exact (proj1 (usable_flags 0 ltac:(lia)) ltac:(lia)).
  - exact (proj2 (usable_flags 4 ltac:(lia)) ltac:(lia)).
Defined.

(** ** Cleaning a range reaches every byte of it *)

Lemma cache_line_pow2 ctr : exists k, 1 <= k <= 16 /\ cache_line ctr = 2 ^ k.
Proof.
  unfold cache_line. rewrite land_15. exists (1 + Z.shiftr ctr 16 mod 16).
  pose proof (Z.mod_pos_bound (Z.shiftr ctr 16) 16 ltac:(lia)).
  split; [lia|]. rewrite Z.shiftl_mul_pow2, Z.pow_add_r by lia. done.
Qed.

Lemma clean_loop_covers fuel addr end_addr line :
  0 < line -> 0 <= addr -> end_addr + line < 2 ^ 64 ->
  end_addr - addr <= (Z.of_nat fuel - 1) * line -> (0 < fuel)%nat ->
  exists l, clean_loop fuel addr end_addr line = Done l /\
    (forall b, addr <= b < end_addr -> exists a, a ∈ l /\ a <= b < a + line) /\
    (forall a, a ∈ l -> addr <= a < end_addr /\ (line | a - addr)).
Proof.
  intros Hline. revert addr. induction fuel as [|fuel IH]; intros addr Ha He Hf Hpos; [lia|].
  simpl. destruct (Z.ltb_spec addr end_addr).
  - rewrite u64_small by lia. assert (0 < fuel)%nat by nia.
    destruct (IH (addr + line)) as (l & -> & Hcov & Hin); [lia|done|lia|done|].
    exists (addr :: l). split; [done|]. split.
    + intros b Hb. destruct (Z.ltb_spec b (addr + line)).
      * exists addr. split; [by left|lia].
      * destruct (Hcov b) as (a & Hl & Hab); [lia|]. exists a. split; [by right|lia].
    + intros a [->|Hl]%elem_of_cons; [split; [lia|exists 0; lia]|].
      destruct (Hin a Hl) as [? [j Hj]]. split; [lia|]. exists (j + 1). lia.
  - exists []. split; [done|]. split; [lia|]. intros a Hin. by apply not_elem_of_nil in Hin.
Qed.

(** cleaning the cache over a range terminates and reaches every byte of
    it: whatever the cache line the hart reports, if the range does not come
    within a line of the end of the address space, each byte lies in a line
    that is cleaned, and no line is cleaned that does not meet the range. *)
Theorem cache_clean_covers ctr start len :
  0 <= start -> 0 < len -> start + len + 2 ^ 16 < 2 ^ 64 ->
  exists l, val_hart_cache_clean_range ctr start len = Done l /\
    (forall b, start <= b < start + len -> exists a, a ∈ l /\ a <= b < a + cache_line ctr) /\
    (forall a, a ∈ l -> start - cache_line ctr < a < start + len /\ a mod cache_line ctr = 0).
Proof.
  intros Hs Hl Hmax. destruct (cache_line_pow2 ctr) as (k & Hk & Hline).
  unfold val_hart_cache_clean_range. rewrite Hline.
  assert (Hpos : 0 < 2 ^ k) by (apply Z.pow_pos_nonneg; lia).
  assert (Hle : 2 ^ k <= 2 ^ 16) by (apply Z.pow_le_mono_r; lia).
  replace (2 ^ k - 1) with (Z.ones k) by (rewrite Z.ones_equiv; lia).
  rewrite Z.land_ones by lia. pose proof (Z.mod_pos_bound start (2 ^ k) Hpos) as Hmod.
  pose proof (Z.mod_le start (2 ^ k) Hs Hpos).
  rewrite !u64_small by lia.
  pose proof (Z.div_pos len (2 ^ k) ltac:(lia) Hpos).
  pose proof (Z.div_mod len (2 ^ k) ltac:(lia)). pose proof (Z.mod_pos_bound len (2 ^ k) Hpos).
  destruct (clean_loop_covers (Z.to_nat (len / 2 ^ k + 3)) (start - start mod 2 ^ k)
              (start + len) (2 ^ k)) as (l & -> & Hcov & Hin); [lia|lia|lia|nia|lia|].
  exists l. split; [done|]. split.
  - intros b Hb. apply Hcov. lia.
  - intros a Ha. destruct (Hin a Ha) as [? [j Hj]]. split; [lia|].
    pose proof (Z.div_mod start (2 ^ k) ltac:(lia)).
    replace a with ((j + start / 2 ^ k) * 2 ^ k) by lia. apply Z.mod_mul. lia.
Qed.

Lemma cache_clean_covers_witness :
  exists l, val_hart_cache_clean_range 0x50000 0x8010 0x90 = Done l /\
    (forall b, 0x8010 <= b < 0x8010 + 0x90 -> exists a, a ∈ l /\ a <= b < a + cache_line 0x50000) /\
    (forall a, a ∈ l -> 0x8010 - cache_line 0x50000 < a < 0x8010 + 0x90 /\
                       a mod cache_line 0x50000 = 0).
Proof. apply (cache_clean_covers 0x50000 0x8010 0x90); lia. Defined.

(** ** Starting a secondary hart *)

Section Start.
Context `{Firmware} (index payload test_input : Z) (t : HART_INFO_TABLE)
  (e0 : VAL_SHARED_MEM_t) (m0 : list VAL_SHARED_MEM_t).

(** The hart exists, and [m0] is the shared memory, [e0] its record. *)
Definition startable : Prop :=
  0 <= index < num_of_hart t /\ num_of_hart t <= Z.of_nat (length (hart_info t)) /\
  at_index m0 index = Some e0.

(** The shared memory with the test data of the hart filled in. *)
Definition handed : list VAL_SHARED_MEM_t :=
  <[Z.to_nat index := set_data payload test_input e0]> m0.

Definition ready (s : val_state) : Prop :=
  g_hart_info_table s = Some t /\ (shared_mem s = m0 \/ shared_mem s = handed).

Lemma at_index_handed : startable -> at_index handed index = Some (set_data payload test_input e0).
Proof.
  intros (Hi & _ & He). apply at_index_Some in He as [Hl He]. unfold at_index, handed.
  destruct (Z.leb_spec 0 index); [|lia]. apply list_lookup_insert_eq. lia.
Qed.

Lemma cpu_on_once_spec s :
  startable -> ready s ->
  exists r s', cpu_on_once index payload test_input s = Done (r, s') /\
    g_hart_info_table s' = Some t /\ shared_mem s' = handed /\
    match r with
    | Some a => a = Arg0 (g_smc_args s') /\ a <> ARM_SMC_PSCI_RET_ALREADY_ON
    | None => Arg0 (g_smc_args s') = ARM_SMC_PSCI_RET_ALREADY_ON
    end.
Proof.
  intros Hst [Ht Hm]. pose proof (at_index_handed Hst) as Hh. destruct Hst as (Hi & Hlen & He).
  destruct (at_index_lt (hart_info t) index ltac:(lia)) as [x Hx].
  unfold cpu_on_once, val_hart_get_mpid_index, hart_table, val_set_test_data, val_hart_get_num,
    pal_hart_execute_payload, bind, gets, modify. rewrite Ht. simpl.
  destruct (Z.ltb_spec (num_of_hart t) index); [lia|]. rewrite Hx. simpl. rewrite Ht.
  destruct (Z.ltb_spec (num_of_hart t) index); [lia|].
  assert (Hd : exists e, at_index (shared_mem s) index = Some e /\
    <[Z.to_nat index := set_data payload test_input e]> (shared_mem s) = handed).
  { destruct Hm as [-> | ->]; [by exists e0|]. exists (set_data payload test_input e0).
    split; [done|]. unfold handed. by rewrite list_insert_insert_eq. }
  destruct Hd as (e & He' & Hins). simpl. rewrite He'. simpl. rewrite Hins.
  eexists _, _. split; [reflexivity|]. simpl. split; [done|]. split; [done|].
  destruct (Z.eqb_spec (u64 (psci_call (smc_calls s) (mk_smc ARM_SMC_ID_PSCI_CPU_ON_AARCH64
    (hart_id x)))) ARM_SMC_PSCI_RET_ALREADY_ON); done.
Qed.

Lemma print_set_status level str data v s :
  startable -> shared_mem s = handed ->
  exists s', (val_print level str data ;;; val_set_status index v) s = Done (tt, s') /\
    g_smc_args s' = g_smc_args s /\
    shared_mem s' = <[Z.to_nat index := mk_shared payload test_input v]> m0.
Proof.
  intros Hst Hm. unfold bind at 1.
  destruct (quiet_val_print level str data s) as ([] & c & ->).
  unfold val_set_status, bind, gets. simpl. rewrite Hm, (at_index_handed Hst). simpl.
  eexists. split; [reflexivity|]. split; [done|]. simpl.
  unfold handed. by rewrite list_insert_insert_eq.
Qed.

(** starting a hart of the table always returns; its shared record
    carries the payload and its argument, no other record changes, and the
    record's status is left as it was exactly when the firmware's last answer
    is success; otherwise it becomes the FAIL word of that answer. *)
Theorem execute_on_pe_spec s :
  startable -> g_hart_info_table s = Some t -> shared_mem s = m0 ->
  exists s', returns (val_execute_on_pe index payload test_input) s tt s' /\
    let a := Arg0 (g_smc_args s') in
    shared_mem s' = <[Z.to_nat index :=
      mk_shared payload test_input
        (if a =? 0 then status e0 else RESULT_FAIL 0 (0x120 - i32 a))]> m0.
Proof.
  intros Hst Ht Hm. unfold returns, val_execute_on_pe, hart_table, gets.
  unfold bind at 1 2. rewrite Ht. cbn [deref ret].
  destruct (Z.ltb_spec (num_of_hart t) index); [destruct Hst; lia|].
  destruct (rounds_after ready
    (fun s' => ready s' /\ shared_mem s' = handed /\
               Arg0 (g_smc_args s') = ARM_SMC_PSCI_RET_ALREADY_ON)
    (fun a s' => shared_mem s' = handed /\ a = Arg0 (g_smc_args s'))
    (Pos.succ TIMEOUT_LARGE) (cpu_on_once index payload test_input)) with (s := s)
    as (r & s1 & E & H1).
  - by intros s' [? _].
  - intros s' Hr. destruct (cpu_on_once_spec s' Hst Hr) as (r & s1 & E & Ht1 & Hs1 & Hr1).
    exists r, s1. split; [done|]. destruct r as [a|]; [by destruct Hr1|].
    split_and!; try done. split; [done|by right].
  - split; [done|by left].
  - rewrite (bind_done _ _ _ _ _ E). pose proof (at_index_handed Hst) as Hh.
    assert (Hi : shared_mem s1 = handed) by (destruct r; [by destruct H1|by destruct H1 as (_ & ? & _)]).
    destruct r as [a|]; [destruct H1 as [_ ->]|destruct H1 as (_ & _ & Ha)].
    + destruct (Z.eqb_spec (Arg0 (g_smc_args s1)) 0) as [E0|Hne].
      * destruct (quiet_val_print ACS_PRINT_INFO "\n       PSCI_CPU_ON: success" 0 s1)
          as ([] & c & ->).
        eexists. split; [reflexivity|]. simpl. rewrite E0. by rewrite Hi.
      * destruct (print_set_status ACS_PRINT_ERR "\n       PSCI_CPU_ON: failure[%d]"
          (Arg0 (g_smc_args s1)) (RESULT_FAIL 0 (0x120 - i32 (Arg0 (g_smc_args s1)))) s1 Hst Hi)
          as (s' & -> & Ha' & Hs').
        exists s'. split; [done|]. cbv zeta. rewrite Ha'.
        by destruct (Z.eqb_spec (Arg0 (g_smc_args s1)) 0).
    + destruct (print_set_status ACS_PRINT_ERR "\n       PSCI_CPU_ON: cpu already on" 0
        (RESULT_FAIL 0 (0x120 - i32 ARM_SMC_PSCI_RET_ALREADY_ON)) s1 Hst Hi)
        as (s' & -> & Ha' & Hs').
      exists s'. split; [done|]. cbv zeta. by rewrite Ha', Ha.
Qed.
End Start.

(** The hart is on at the first call and answers the second. *)
Definition firmware0 : Firmware := fun n _ => match n with O => -4 | _ => 0 end.

Definition shared2 : list VAL_SHARED_MEM_t :=
  [mk_shared 0 0 (RESULT_PENDING 823); mk_shared 0 0 (RESULT_PENDING 823)].

Lemma execute_on_pe_spec_witness :
  exists s', returns (@val_execute_on_pe firmware0 1 0x8000 7) (set_shared_mem shared2 state2) tt s' /\
    let a := Arg0 (g_smc_args s') in
    shared_mem s' = <[1%nat := mk_shared 0x8000 7
      (if a =? 0 then RESULT_PENDING 823 else RESULT_FAIL 0 (0x120 - i32 a))]> shared2.
Proof.
  apply (@execute_on_pe_spec firmware0 1 0x8000 7 table2 (mk_shared 0 0 (RESULT_PENDING 823)) shared2).
  - split; [vm_compute; split; congruence|]. split; [vm_compute; congruence|reflexivity].
  - reflexivity.
  - reflexivity.
Defined.
