(* ===== verification/Infra.v ===== *)
(** * The test life cycle

    Models [val/src/acs_test_infra.c]: which tests run
    ([val_check_skip_module], [val_initialize_test]), running a payload on
    every hart and waiting for it, and the verdict and counters
    ([val_check_for_error]).  The other harts act between two reads of the
    shared memory, as [SecondaryHarts] says. *)

From S2P Require Import Prelude Status Hart.

(** ** Selection *)

Definition b2n (b : bool) : Z := if b then 1 else 0.

(** The counting loops [for (i = 0; i < n; i++) if (p(a[i])) c++;]. *)
Fixpoint count_if (p : Z -> bool) (l : list Z) (c : Z) : Z :=
  match l with
  | [] => c
  | x :: l' => count_if p l' (if p x then u32 (c + 1) else c)
  end.

Definition nonempty {A} (l : list A) : bool := match l with [] => false | _ => true end.

Definition val_check_skip_module (module_base : Z) : prog val_state Z :=
  let* modules := gets g_execute_modules in
  let* tests := gets g_execute_tests in
  let skip_module := count_if (fun m => m =? module_base) modules 0 in
  let skip_module := count_if (fun t => u32 (t - module_base) <? 100) tests skip_module in
  if (skip_module =? 0) && (nonempty tests || nonempty modules)
  then ret ACS_STATUS_SKIP else ret ACS_STATUS_PASS.

Definition indices (n : Z) : list Z := Z.of_nat <$> seq 0 (Z.to_nat n).

Definition my_index : prog val_state Z :=
  let* id := val_hart_get_mpid in val_hart_get_index_mpid id.

Definition bump_skip (p : Z -> bool) (l : list Z) : prog val_state unit :=
  modify (fun s => set_g_override_skip (count_if p l (g_override_skip s)) s).

Definition val_initialize_test `{CpuArchProtocol} (test_num : Z) (desc : string) (num_hart : Z)
    : prog val_state Z :=
  let* index := my_index in
  modify (set_g_override_skip 0) ;;;
  foreach (indices num_hart) (fun i => val_set_status i (RESULT_PENDING test_num)) ;;;
  let* skips := gets g_skip_test_num in
  let* tests := gets g_execute_tests in
  let* modules := gets g_execute_modules in
  if existsb (fun k => k =? test_num) skips then
    val_set_status index (RESULT_SKIP test_num 0) ;;; ret ACS_STATUS_SKIP
  else
    bump_skip (fun t => test_num =? t) tests ;;;
    bump_skip (fun m => (0 <? u32 (test_num - m)) && (u32 (test_num - m) <? 100)) modules ;;;
    let* ov := gets g_override_skip in
    if (ov =? 0) && (nonempty tests || nonempty modules) then
      val_set_status index (RESULT_SKIP test_num 0) ;;; ret ACS_STATUS_SKIP
    else
      modify (set_g_override_skip 1) ;;;
      val_print ACS_PRINT_ERR "%4d : " test_num ;;;
      val_print ACS_PRINT_TEST desc 0 ;;;
      val_report_status 0 (BSA_ACS_START test_num) None ;;;
      val_hart_initialize_default_exception_handler "val_hart_default_esr" ;;;
      modify (fun s => set_g_bsa_tests_total (u32 (g_bsa_tests_total s + 1)) s) ;;;
      ret ACS_STATUS_PASS.

(** The memory is the memory [pal_mem_allocate_shared] returns, one record per hart. *)
Definition val_allocate_shared_mem (alloc : Z -> list VAL_SHARED_MEM_t) : prog val_state unit :=
  let* n := val_hart_get_num in modify (set_shared_mem (alloc n)).

(** ** Running *)

(** One scan of the statuses: [1 +] the index of the last pending hart, 0 if none is. *)
Fixpoint scan_pending `{SecondaryHarts} (l : list Z) (j : Z) : prog val_state Z :=
  match l with
  | [] => ret j
  | i :: l' => let* st := val_get_status i in
               scan_pending l' (if IS_RESULT_PENDING st then u32 (i + 1) else j)
  end.

(** One pass of [while (--timeout)]: [inl] returns from the function, [inr j]
    keeps the index of the last pending hart. *)
Definition wait_once `{SecondaryHarts} (num_hart : Z) (_ : Z) : prog val_state (unit + Z) :=
  let* j := scan_pending (indices num_hart) 0 in
  ret (if j =? 0 then inl tt else inr j).

(** [timeout] is decremented before its first test, so that [timeout - 1]
    passes run at most, none when it is 1. *)
Definition val_wait_for_test_completion `{SecondaryHarts} (test_num num_hart timeout : Z)
    : prog val_state unit :=
  if num_hart =? 1 then ret tt else
  let* r := match u32 (timeout - 1) with
            | Z.pos p => loop p (wait_once num_hart) 0
            | _ => ret (inr 0)
            end in
  match r with
  | inl _ => ret tt
  | inr j => val_set_status (u32 (j - 1)) (RESULT_FAIL test_num 0xF)
  end.

Definition val_run_test_payload `{SecondaryHarts, Firmware} (test_num num_hart : Z)
    (payload : prog val_state unit) (payload_addr test_input : Z) : prog val_state unit :=
  let* me := my_index in
  payload ;;;
  if num_hart =? 1 then ret tt else
  foreach (indices num_hart) (fun i =>
    when (negb (i =? me)) (val_execute_on_pe i payload_addr test_input)) ;;;
  val_wait_for_test_completion test_num num_hart (Z.pos TIMEOUT_LARGE).

(** ** Verdict *)

(** The tail both branches share. *)
Definition settle (st : Z) : prog val_state Z :=
  if IS_TEST_PASS st then
    modify (fun s => set_g_bsa_tests_pass (u32 (g_bsa_tests_pass s + 1)) s) ;;; ret ACS_STATUS_PASS
  else if IS_TEST_SKIP st then ret ACS_STATUS_SKIP
  else
    modify (fun s => set_g_bsa_tests_fail (u32 (g_bsa_tests_fail s + 1)) s) ;;; ret ACS_STATUS_FAIL.

(** The loop up to the first FAIL or SKIP: the last status read and whether it broke. *)
Fixpoint first_error `{SecondaryHarts} (l : list Z) (st : Z) (ruleid : option string)
    : prog val_state (Z * bool) :=
  match l with
  | [] => ret (st, false)
  | i :: l' => let* st' := val_get_status i in
               if IS_TEST_FAIL_SKIP st' then val_report_status i st' ruleid ;;; ret (st', true)
               else first_error l' st' ruleid
  end.

Definition val_check_for_error `{SecondaryHarts} (test_num num_hart : Z) (ruleid : option string)
    : prog val_state Z :=
  let* me := my_index in
  if num_hart =? 1 then
    let* st := val_get_status me in
    val_report_status me st ruleid ;;;
    settle st
  else
    let* r := first_error (indices num_hart) 0 ruleid in
    when (negb (r.2)) (val_report_status me (r.1) ruleid) ;;;
    settle (r.1).

(** ** Lemmas *)

Lemma elem_of_indices i n : i ∈ indices n <-> 0 <= i < n.
Proof.
  unfold indices. rewrite list_elem_of_fmap. split.
  - intros (k & -> & Hk%elem_of_seq). lia.
  - intros Hi. exists (Z.to_nat i). split; [lia|]. apply elem_of_seq. lia.
Qed.

Lemma count_if_mono p l c : 0 <= c -> Z.of_nat (length l) + c < 2 ^ 32 ->
  c <= count_if p l c <= c + Z.of_nat (length l) /\
  (count_if p l c = c <-> forall x, x ∈ l -> p x = false).
Proof.
  revert c. induction l as [|x l IH]; intros c Hc Hl; simpl in *.
  - split; [lia|]. split; [|done]. intros _ x Hx. by apply not_elem_of_nil in Hx.
  - destruct (p x) eqn:Ep.
    + rewrite u32_small by lia. destruct (IH (c + 1)) as [Hb _]; [lia|lia|].
      split; [lia|]. split; [lia|]. intros H. specialize (H x ltac:(left)). congruence.
    + destruct (IH c) as [Hb Hi]; [lia|lia|]. split; [lia|]. rewrite Hi. split.
      * intros H y [->|Hy]%elem_of_cons; [done|by apply H].
      * intros H y Hy. apply H. by right.
Qed.

(** Zero exactly when no element satisfies the test. *)
Lemma count_if_zero p l :
  Z.of_nat (length l) < 2 ^ 32 -> (count_if p l 0 = 0 <-> forall x, x ∈ l -> p x = false).
Proof. intros H. apply count_if_mono; lia. Qed.

Lemma count_if_pos p l c :
  0 <= c -> Z.of_nat (length l) + c < 2 ^ 32 -> count_if p l c = 0 ->
  c = 0 /\ forall x, x ∈ l -> p x = false.
Proof.
  intros Hc Hl Hz0. destruct (count_if_mono p l c Hc Hl) as [Hb Hi].
  assert (c = 0) as -> by lia. split; [done|]. by apply Hi.
Qed.

(** ** Harts that publish their results *)

Definition concluded (st : Z) : bool := IS_TEST_PASS st || IS_TEST_FAIL st || IS_TEST_SKIP st.

(** The words of [late] that a hart may still replace: none, or the one with which the
    wait of the test marks a hart whose time ran out, if harts may answer late. *)
Definition never (st : Z) : bool := false.
Definition late_word (late : bool) (test_num st : Z) : bool := late && (st =? RESULT_FAIL test_num 0xF).

(** A hart's word is kept, or goes from PENDING or a word of [late] to a result. *)
Definition progress (late : Z -> bool) (a b : VAL_SHARED_MEM_t) : Prop :=
  status b = status a \/ (IS_RESULT_PENDING (status a) || late (status a) = true /\ concluded (status b) = true).

Definition evolves (late : Z -> bool) : relation (list VAL_SHARED_MEM_t) := Forall2 (progress late).

(** A hart that runs a payload publishes a result, and a published result stays
    unless it is a word of [late]. *)
Class HartsUpTo (late : Z -> bool) `{SecondaryHarts} : Prop :=
  others_evolve : forall n m, evolves late m (others n m).

(** Harts that publish one result each and never after the wait marked them. *)
Class LawfulHarts `{SecondaryHarts} : Prop := others_lawful : forall n m, evolves never m (others n m).
#[export] Instance lawful_upto `{LawfulHarts} : HartsUpTo never.
Proof. exact others_lawful. Qed.

Definition known (st : Z) : bool := IS_RESULT_PENDING st || concluded st.

Lemma pending_not_concluded st : IS_RESULT_PENDING st = true -> concluded st = false.
Proof.
  unfold IS_RESULT_PENDING, concluded, IS_TEST_PASS, IS_TEST_FAIL, IS_TEST_SKIP.
  intros ->%Z.eqb_eq. done.
Qed.

Lemma fail_concluded st : IS_TEST_FAIL st = true -> concluded st = true.
Proof. unfold concluded. intros ->. by rewrite orb_true_r. Qed.

Lemma concluded_not_pending st : concluded st = true -> IS_RESULT_PENDING st = false.
Proof.
  intros H. destruct (IS_RESULT_PENDING st) eqn:E; [|done].
  apply pending_not_concluded in E. congruence.
Qed.

#[export] Instance progress_preorder late : PreOrder (progress late).
Proof.
  split.
  - intros a. by left.
  - intros a b c [H1|[P1 C1]] [H2|[P2 C2]].
    + left. congruence.
    + right. by rewrite <- H1.
    + right. by rewrite H2.
    + by right.
Qed.

#[export] Instance evolves_preorder late : PreOrder (evolves late).
Proof. unfold evolves. apply _. Qed.

Lemma evolves_length late m m' : evolves late m m' -> length m' = length m.
Proof. intros H. symmetry. by eapply Forall2_length. Qed.

Lemma evolves_at late m m' i a :
  evolves late m m' -> at_index m i = Some a -> exists b, at_index m' i = Some b /\ progress late a b.
Proof.
  unfold at_index. destruct (0 <=? i); [|done]. intros H Ha.
  by apply (Forall2_lookup_l _ _ _ _ _ H).
Qed.

(** The status of hart [i] in the shared memory [m] satisfies [p]. *)
Definition hart_is (p : Z -> bool) (m : list VAL_SHARED_MEM_t) (i : Z) : Prop :=
  exists e, at_index m i = Some e /\ p (status e) = true.

(** What is published is still there later, unless the hart may replace it; then it has
    another result. *)
Lemma hart_is_kept late p m m' i :
  evolves late m m' -> (forall st, p st = true -> IS_RESULT_PENDING st = false) ->
  (forall st st', p st = true -> late st = true -> concluded st' = true -> p st' = true) ->
  hart_is p m i -> hart_is p m' i.
Proof.
  intros Hev Hp Hl (e & He & Hpe). destruct (evolves_at _ _ _ _ _ Hev He) as (b & Hb & [Hs|[Hpend Hc]]).
  - exists b. by rewrite Hs.
  - rewrite (Hp _ Hpe) in Hpend. exists b. split; [done|]. by apply (Hl (status e)).
Qed.

Lemma hart_is_stable p m m' i :
  evolves never m m' -> (forall st, p st = true -> IS_RESULT_PENDING st = false) ->
  hart_is p m i -> hart_is p m' i.
Proof. intros Hev Hp. by apply (hart_is_kept never). Qed.

Lemma hart_is_concluded late m m' i : evolves late m m' -> hart_is concluded m i -> hart_is concluded m' i.
Proof. intros Hev. apply (hart_is_kept late); [done|exact concluded_not_pending|done]. Qed.

Lemma hart_is_known late m m' i : evolves late m m' -> hart_is known m i -> hart_is known m' i.
Proof.
  intros Hev (e & He & Hk). destruct (evolves_at _ _ _ _ _ Hev He) as (b & Hb & [Hs|[_ Hc]]).
  - exists b. by rewrite Hs.
  - exists b. split; [done|]. unfold known. by rewrite Hc, orb_true_r.
Qed.

Lemma pass_not_pending st : IS_TEST_PASS st = true -> IS_RESULT_PENDING st = false.
Proof. unfold IS_TEST_PASS, IS_RESULT_PENDING. by intros ->%Z.eqb_eq. Qed.
Lemma fail_not_pending st : IS_TEST_FAIL st = true -> IS_RESULT_PENDING st = false.
Proof. unfold IS_TEST_FAIL, IS_RESULT_PENDING. by intros ->%Z.eqb_eq. Qed.
Lemma skip_not_pending st : IS_TEST_SKIP st = true -> IS_RESULT_PENDING st = false.
Proof. unfold IS_TEST_SKIP, IS_RESULT_PENDING. by intros ->%Z.eqb_eq. Qed.
(** Only the clock, the shared memory and the console change. *)
Definition upd (k : nat) (m : list VAL_SHARED_MEM_t) (c : list (string * Z)) (s : val_state) :=
  set_tick k (set_shared_mem m (set_console c s)).

Section Verdict.
Context {late : Z -> bool} `{HartsUpTo late} (num_hart : Z) (Hnum : 2 <= num_hart < 2 ^ 32).
Local Abbreviation evolves := (evolves late).

(** Every hart of the test is there, pending or with a result. *)
Definition harts_known (m : list VAL_SHARED_MEM_t) : Prop :=
  forall i, 0 <= i < num_hart -> hart_is known m i.

Lemma harts_known_evolves m m' : evolves m m' -> harts_known m -> harts_known m'.
Proof. intros Hev Hk i Hi. by apply (hart_is_known _ _ _ _ Hev), Hk. Qed.

Lemma get_status_spec s i :
  hart_is known (shared_mem s) i ->
  exists k m e, val_get_status i s = Done (status e, upd k m (console s) s) /\
    evolves (shared_mem s) m /\ at_index m i = Some e /\ known (status e) = true.
Proof.
  intros Hk. set (m := others (tick s) (shared_mem s)).
  assert (Hev : evolves (shared_mem s) m) by apply others_evolve.
  destruct (hart_is_known _ _ _ _ Hev Hk) as (e & He & Hke).
  exists (S (tick s)), m, e. split_and!; [|done|done|done].
  unfold val_get_status, read_shared, bind, modify, gets. simpl. fold m. rewrite He.
  by destruct s.
Qed.

(** A scan: if it reports 0, every hart it read had a result; otherwise it
    names a hart of the test. *)
Lemma scan_pending_spec l j s :
  (forall i, i ∈ l -> 0 <= i < num_hart) -> harts_known (shared_mem s) -> 0 <= j <= num_hart ->
  exists j' k m, scan_pending l j s = Done (j', upd k m (console s) s) /\
    evolves (shared_mem s) m /\ 0 <= j' <= num_hart /\
    (j' = 0 -> j = 0 /\ forall i, i ∈ l -> hart_is concluded m i).
Proof.
  revert j s. induction l as [|i l IH]; intros j s Hl Hk Hj.
  - exists j, (tick s), (shared_mem s). split; [by destruct s|]. split; [done|].
    split; [done|]. intros ->. split; [done|]. intros i Hi. by apply not_elem_of_nil in Hi.
  - assert (Hi : 0 <= i < num_hart) by (apply Hl; left).
    destruct (get_status_spec s i (Hk i Hi)) as (k & m & e & E & Hev & He & Hke).
    cbn [scan_pending]. rewrite (bind_done _ _ _ _ _ E).
    destruct (IH (if IS_RESULT_PENDING (status e) then u32 (i + 1) else j) (upd k m (console s) s))
      as (j' & k' & m' & -> & Hev' & Hj' & Hz0).
    + intros x Hx. apply Hl. by right.
    + by apply (harts_known_evolves (shared_mem s)).
    + destruct (IS_RESULT_PENDING (status e)); [rewrite u32_small|]; lia.
    + exists j', k', m'. split; [done|]. split; [by transitivity m|]. split; [done|].
      intros Hz. destruct (Hz0 Hz) as [Hj0 Hall].
      destruct (IS_RESULT_PENDING (status e)) eqn:Ep; [rewrite u32_small in Hj0; lia|].
      split; [done|]. intros x [->|Hx]%elem_of_cons; [|by apply Hall].
      apply (hart_is_concluded _ m _ _ Hev'). exists e. split; [done|].
      unfold known in Hke. by rewrite Ep in Hke.
Qed.

Definition all_concluded (m : list VAL_SHARED_MEM_t) : Prop :=
  forall i, 0 <= i < num_hart -> hart_is concluded m i.
Definition some_failed (m : list VAL_SHARED_MEM_t) : Prop :=
  exists i, 0 <= i < num_hart /\ hart_is IS_TEST_FAIL m i.

Lemma fail_word_is_fail test_num : 0 <= test_num < 65536 ->
  IS_TEST_FAIL (RESULT_FAIL test_num 0xF) = true.
Proof.
  intros Ht. unfold IS_TEST_FAIL, RESULT_FAIL, TEST_FAIL_VAL. rewrite state_of_word; lia.
Qed.

Lemma set_status_spec s i v e :
  at_index (shared_mem s) i = Some e ->
  val_set_status i v s = Done (tt, upd (tick s)
    (<[Z.to_nat i := with_status v e]> (shared_mem s)) (console s) s).
Proof.
  intros He. unfold val_set_status, bind, gets. rewrite He. simpl. by destruct s.
Qed.

Lemma mark_failed m i e test_num :
  0 <= test_num < 65536 -> 0 <= i < num_hart -> at_index m i = Some e -> harts_known m ->
  let m' := <[Z.to_nat i := with_status (RESULT_FAIL test_num 0xF) e]> m in
  harts_known m' /\ some_failed m'.
Proof.
  intros Ht Hi He Hk m'. pose proof (fail_word_is_fail test_num Ht) as Hf. split.
  - intros j Hj. destruct (Hk j Hj) as (x & Hx & Hkx). unfold hart_is, m'.
    rewrite (at_index_insert m i j _ e He). destruct (Z.eqb_spec i j).
    + eexists. split; [reflexivity|]. unfold known, concluded. cbn [status with_status].
      by rewrite Hf, !orb_true_r.
    + by exists x.
  - exists i. split; [done|]. unfold hart_is, m'. rewrite (at_index_insert m i i _ e He), Z.eqb_refl.
    by eexists.
Qed.

(** The wait returns; afterwards every hart has a result, or one has been
    marked FAIL. *)
Lemma wait_spec test_num timeout s :
  0 <= test_num < 65536 -> 2 <= timeout < 2 ^ 32 -> harts_known (shared_mem s) ->
  exists k m, val_wait_for_test_completion test_num num_hart timeout s =
      Done (tt, upd k m (console s) s) /\
    harts_known m /\ length m = length (shared_mem s) /\ (all_concluded m \/ some_failed m).
Proof.
  intros Ht Hto Hk. unfold val_wait_for_test_completion.
  destruct (Z.eqb_spec num_hart 1); [lia|].
  rewrite u32_small by lia. destruct (timeout - 1) as [|p|p] eqn:Ep; [lia| |lia].
  pose (Inv := fun (_ : Z) s' => exists k m, s' = upd k m (console s) s /\ evolves (shared_mem s) m).
  destruct (loop_after Inv (fun j s' => Inv j s' /\ 1 <= j <= num_hart)
    (fun (_ : unit) s' => exists k m, s' = upd k m (console s) s /\ evolves (shared_mem s) m /\
                          all_concluded m) p (wait_once num_hart)) with (a := 0) (s := s)
    as (r & s1 & E & H1).
  - by intros a s' [? _].
  - intros a s' (k & m & -> & Hev). unfold wait_once.
    destruct (scan_pending_spec (indices num_hart) 0 (upd k m (console s) s))
      as (j' & k' & m' & E & Hev' & Hj' & Hz0).
    + intros i. apply elem_of_indices.
    + by apply (harts_known_evolves (shared_mem s)).
    + lia.
    + rewrite (bind_done _ _ _ _ _ E). eexists _, _. split; [reflexivity|].
      assert (Hall : evolves (shared_mem s) m') by (by transitivity m).
      destruct (Z.eqb_spec j' 0) as [Hz|].
      * destruct (Hz0 Hz) as [_ Hc]. exists k', m'. split_and!; [done|done|].
        intros i Hi. apply Hc. by apply elem_of_indices.
      * split; [by exists k', m'|lia].
  - exists (tick s), (shared_mem s). split; [by destruct s|done].
  - rewrite (bind_done _ _ _ _ _ E). destruct r as [[]|j].
    + destruct H1 as (k & m & -> & Hev & Hc). exists k, m. split; [done|].
      split; [by apply (harts_known_evolves (shared_mem s))|].
      split; [by apply (evolves_length late)|by left].
    + destruct H1 as [(k & m & -> & Hev) Hj]. rewrite u32_small by lia.
      destruct (harts_known_evolves _ _ Hev Hk (j - 1) ltac:(lia)) as (e & He & _).
      rewrite (set_status_spec (upd k m (console s) s) _ _ e He).
      exists k, (<[Z.to_nat (j - 1) := with_status (RESULT_FAIL test_num 0xF) e]> m).
      split; [reflexivity|].
      destruct (mark_failed m (j - 1) e test_num Ht ltac:(lia) He) as [Hk' Hf].
      { by apply (harts_known_evolves (shared_mem s)). }
      split; [done|]. split; [|by right]. rewrite length_insert. by apply (evolves_length late).
Qed.

Lemma fail_skip_cases st :
  IS_TEST_FAIL_SKIP st = true -> IS_TEST_FAIL st = true \/ IS_TEST_SKIP st = true.
Proof. unfold IS_TEST_FAIL_SKIP. apply orb_true_iff. Qed.

Lemma concluded_pass st :
  concluded st = true -> IS_TEST_FAIL_SKIP st = false -> IS_TEST_PASS st = true.
Proof.
  unfold concluded, IS_TEST_FAIL_SKIP.
  by destruct (IS_TEST_PASS st), (IS_TEST_FAIL st), (IS_TEST_SKIP st).
Qed.

(** The words of [late] are FAIL words. *)
Context (Hlate : forall st, late st = true -> IS_TEST_FAIL st = true).

Lemma pass_not_fail st : IS_TEST_PASS st = true -> IS_TEST_FAIL_SKIP st = false.
Proof. unfold IS_TEST_PASS, IS_TEST_FAIL_SKIP, IS_TEST_FAIL, IS_TEST_SKIP. by intros ->%Z.eqb_eq. Qed.

Lemma hart_is_pass_kept m m' i : evolves m m' -> hart_is IS_TEST_PASS m i -> hart_is IS_TEST_PASS m' i.
Proof.
  intros Hev. apply (hart_is_kept late); [done|exact pass_not_pending|]. intros st st' Hp%pass_not_fail Hl%Hlate.
  unfold IS_TEST_FAIL_SKIP in Hp. by rewrite Hl in Hp.
Qed.

(** A hart of [m] with a word that it could replace, and that replaced it with PASS. *)
Definition answered (m m' : list VAL_SHARED_MEM_t) (i : Z) : Prop := hart_is late m i /\ hart_is IS_TEST_PASS m' i.

Lemma failed_answered m m' i : evolves m m' -> hart_is IS_TEST_FAIL m i -> hart_is IS_TEST_PASS m' i -> answered m m' i.
Proof.
  intros Hev (a & Ha & Hf) Hp. split; [|done]. exists a. split; [done|].
  destruct (evolves_at _ _ _ _ _ Hev Ha) as (b & Hb & [Hs|[Hl _]]).
  - destruct Hp as (e & He & Hp). assert (e = b) as -> by congruence. rewrite Hs in Hp.
    unfold IS_TEST_PASS in Hp. unfold IS_TEST_FAIL in Hf. apply Z.eqb_eq in Hp, Hf. by rewrite Hp in Hf.
  - by rewrite (fail_not_pending _ Hf) in Hl.
Qed.

(** The loop of the check: it stops at a hart with a FAIL or SKIP result; if it does
    not, every hart that had a result has PASS, and so has the status of the last hart. *)
Lemma first_error_spec l st0 rule s :
  (forall i, i ∈ l -> 0 <= i < num_hart) -> harts_known (shared_mem s) ->
  exists st b k m c, first_error l st0 (Some rule) s = Done ((st, b), upd k m c s) /\
    evolves (shared_mem s) m /\
    if b then IS_TEST_FAIL_SKIP st = true /\ exists i, i ∈ l /\ hart_is (Z.eqb st) m i
    else (forall i, i ∈ l -> hart_is concluded (shared_mem s) i -> hart_is IS_TEST_PASS m i) /\
         ((forall i, i ∈ l -> hart_is concluded (shared_mem s) i) ->
          IS_TEST_PASS st0 = true \/ l <> [] -> IS_TEST_PASS st = true) /\
         IS_TEST_FAIL_SKIP st = IS_TEST_FAIL_SKIP st0 && bool_decide (l = []).
Proof.
  revert st0 s. induction l as [|i l IH]; intros st0 s Hl Hk.
  - exists st0, false, (tick s), (shared_mem s), (console s).
    split; [by destruct s|]. split; [done|].
    split; [intros i Hi; by apply not_elem_of_nil in Hi|]. split; [by intros _ [?|?]|by rewrite andb_true_r].
  - assert (Hi : 0 <= i < num_hart) by (apply Hl; left).
    destruct (get_status_spec s i (Hk i Hi)) as (k & m & e & E & Hev & He & Hke).
    cbn [first_error]. rewrite (bind_done _ _ _ _ _ E).
    destruct (IS_TEST_FAIL_SKIP (status e)) eqn:Efs.
    + destruct (quiet_report i (status e) (Some rule) ltac:(left; by eexists) (upd k m (console s) s))
        as ([] & c & Er). rewrite (bind_done _ _ _ _ _ Er).
      exists (status e), true, k, m, c. split; [by destruct s|]. split; [done|].
      split; [done|]. exists i. split; [left|]. exists e. by rewrite Z.eqb_refl.
    + destruct (IH (status e) (upd k m (console s) s)) as (st & b & k' & m' & c & -> & Hev' & Hb).
      { intros x Hx. apply Hl. by right. }
      { by apply (harts_known_evolves (shared_mem s)). }
      exists st, b, k', m', c. split; [done|]. split; [by transitivity m|].
      destruct b.
      * destruct Hb as (Hs & x & Hx & Hm). split; [done|]. exists x. split; [by right|done].
      * destruct Hb as (Hpass & Hlast & Hst).
        assert (Hpe : hart_is concluded (shared_mem s) i -> IS_TEST_PASS (status e) = true).
        { intros Hc. destruct (hart_is_concluded _ _ m _ Hev Hc) as (e' & He' & Hce).
          assert (e' = e) as -> by congruence. by apply concluded_pass. }
        split_and!.
        -- intros x [->|Hx]%elem_of_cons Hc; [|by apply Hpass, (hart_is_concluded late (shared_mem s))].
           apply (hart_is_pass_kept m m' _ Hev'). exists e. split; [done|by apply Hpe].
        -- intros Hc _. apply Hlast; [|left; apply Hpe, Hc; left].
           intros x Hx. apply (hart_is_concluded late (shared_mem s)); [done|]. apply Hc. by right.
        -- rewrite Hst, Efs. by rewrite andb_false_r.
Qed.

(** A verdict and the shared memory that justifies it. *)
Definition justified (r : Z) (m : list VAL_SHARED_MEM_t) : Prop :=
  (r = ACS_STATUS_PASS /\ forall i, 0 <= i < num_hart -> hart_is IS_TEST_PASS m i) \/
  (r = ACS_STATUS_SKIP /\ exists i, 0 <= i < num_hart /\ hart_is IS_TEST_SKIP m i) \/
  (r = ACS_STATUS_FAIL /\ exists i, 0 <= i < num_hart /\ hart_is IS_TEST_FAIL m i).

(** The counters after a verdict. *)
Definition counted (r : Z) (s s' : val_state) : Prop :=
  g_bsa_tests_total s' = g_bsa_tests_total s /\
  g_bsa_tests_pass s' = (if r =? ACS_STATUS_PASS then u32 (g_bsa_tests_pass s + 1)
                         else g_bsa_tests_pass s) /\
  g_bsa_tests_fail s' = (if r =? ACS_STATUS_FAIL then u32 (g_bsa_tests_fail s + 1)
                         else g_bsa_tests_fail s).

Lemma settle_spec st s :
  exists r s', settle st s = Done (r, s') /\ shared_mem s' = shared_mem s /\ counted r s s' /\
    ((r = ACS_STATUS_PASS /\ IS_TEST_PASS st = true) \/
     (r = ACS_STATUS_SKIP /\ IS_TEST_SKIP st = true) \/
     (r = ACS_STATUS_FAIL /\ IS_TEST_PASS st = false /\ IS_TEST_SKIP st = false)).
Proof.
  unfold settle, counted. destruct (IS_TEST_PASS st), (IS_TEST_SKIP st);
    eexists _, _; (split; [reflexivity|]); simpl; naive_solver.
Qed.

Lemma hart_is_impl (p q : Z -> bool) m i :
  (forall st, p st = true -> q st = true) -> hart_is p m i -> hart_is q m i.
Proof. intros Hpq (e & He & Hp). exists e. split; [done|by apply Hpq]. Qed.

Lemma indices_nonempty : indices num_hart <> [].
Proof.
  intros E. assert (H1 : 0 ∈ indices num_hart) by (apply elem_of_indices; lia).
  rewrite E in H1. by apply not_elem_of_nil in H1.
Qed.

(** The check stopped at a hart. *)
Lemma stopped_justified st r m : IS_TEST_FAIL_SKIP st = true -> (exists i, i ∈ indices num_hart /\ hart_is (Z.eqb st) m i) ->
  ((r = ACS_STATUS_PASS /\ IS_TEST_PASS st = true) \/ (r = ACS_STATUS_SKIP /\ IS_TEST_SKIP st = true) \/
   (r = ACS_STATUS_FAIL /\ IS_TEST_PASS st = false /\ IS_TEST_SKIP st = false)) -> justified r m.
Proof.
  intros Hfs (i & Hi%elem_of_indices & He) Hr.
  assert (Hcl : forall p, p st = true -> hart_is p m i).
  { intros p Hps. apply (hart_is_impl (Z.eqb st)); [|done]. by intros x ->%Z.eqb_eq. }
  destruct Hr as [[_ Hx%pass_not_fail]|[[-> Hx]|(-> & _ & Hx)]]; [congruence| |].
  - right; left. split; [done|]. exists i. auto.
  - right; right. split; [done|]. exists i. split; [done|]. apply Hcl.
    destruct (fail_skip_cases st Hfs); [done|congruence].
Qed.

(** A verdict that no result justifies: the wait marked a hart FAIL, and the hart answered
    PASS before the check read its word. *)
Definition hidden_timeout (r : Z) (m m' : list VAL_SHARED_MEM_t) : Prop :=
  (r = ACS_STATUS_PASS \/ r = ACS_STATUS_FAIL) /\ exists i, 0 <= i < num_hart /\ answered m m' i.

(** The check found no FAIL and no SKIP. *)
Lemma passed_justified st r m m' : evolves m m' ->
  (forall i, i ∈ indices num_hart -> hart_is concluded m i -> hart_is IS_TEST_PASS m' i) ->
  ((forall i, i ∈ indices num_hart -> hart_is concluded m i) -> IS_TEST_PASS st = true) ->
  IS_TEST_FAIL_SKIP st = false -> all_concluded m \/ some_failed m ->
  ((r = ACS_STATUS_PASS /\ IS_TEST_PASS st = true) \/ (r = ACS_STATUS_SKIP /\ IS_TEST_SKIP st = true) \/
   (r = ACS_STATUS_FAIL /\ IS_TEST_PASS st = false /\ IS_TEST_SKIP st = false)) ->
  justified r m' \/ hidden_timeout r m m'.
Proof.
  intros Hev Hpass Hlast Hfs Hm Hr.
  assert (Hall : forall i, i ∈ indices num_hart <-> 0 <= i < num_hart) by (intros x; apply elem_of_indices).
  destruct Hr as [[-> Hp]|[[_ Hx]|(-> & Hp & _)]].
  - destruct Hm as [Hm|(i & Hi & Hf)].
    + left. left. split; [done|]. intros i Hi%Hall. by apply Hpass, Hm, Hall.
    + right. split; [by left|]. exists i. split; [done|]. apply failed_answered; [done|done|].
      apply Hpass; [by apply Hall|]. apply (hart_is_impl IS_TEST_FAIL); [|done]. intros x. apply fail_concluded.
  - unfold IS_TEST_FAIL_SKIP in Hfs. by rewrite Hx, orb_true_r in Hfs.
  - destruct Hm as [Hm|(i & Hi & Hf)].
    + rewrite Hlast in Hp; [done|]. intros i Hi. by apply Hm, Hall.
    + right. split; [by right|]. exists i. split; [done|]. apply failed_answered; [done|done|].
      apply Hpass; [by apply Hall|]. apply (hart_is_impl IS_TEST_FAIL); [|done]. intros x. apply fail_concluded.
Qed.
End Verdict.

Lemma late_word_fail late test_num st : 0 <= test_num < 65536 -> late_word late test_num st = true -> IS_TEST_FAIL st = true.
Proof. intros Ht [_ ->%Z.eqb_eq]%andb_prop. by apply fail_word_is_fail. Qed.

(** C1: waiting for the harts of a test and then checking them returns, however their
    results interleave with the reads, and the counters move with the verdict.  When every
    hart publishes one result and none after its time ran out ([late] is false), the verdict
    is justified by the harts: PASS only if every hart ended with PASS, SKIP and FAIL only if
    some hart has that result.  When harts may also answer after the wait marked them, there is
    one more case: a hart that the wait marked FAIL answered PASS before the check read it;
    then the verdict can be PASS with another hart pending ([late_hart_hides_timeout]). *)
Theorem run_verdict_justified (late : bool) (test_num num_hart timeout : Z) `{HartsUpTo (late_word late test_num)} rule me s :
  2 <= num_hart < 2 ^ 32 -> 0 <= test_num < 65536 -> 2 <= timeout < 2 ^ 32 -> harts_known num_hart (shared_mem s) ->
  (forall k m c, my_index (upd k m c s) = Done (me, upd k m c s)) ->
  exists s1 r s',
    val_wait_for_test_completion test_num num_hart timeout s = Done (tt, s1) /\
    val_check_for_error test_num num_hart (Some rule) s1 = Done (r, s') /\ counted r s s' /\
    (justified num_hart r (shared_mem s') \/
     late = true /\ hidden_timeout (late := late_word late test_num) num_hart r (shared_mem s1) (shared_mem s')).
Proof.
  intros Hnum Ht Hto Hk Hme. pose proof (late_word_fail late test_num) as Hlw.
  assert (Hlate : forall st, late_word late test_num st = true -> IS_TEST_FAIL st = true) by (intros st; by apply Hlw).
  destruct (wait_spec num_hart Hnum test_num timeout s Ht Hto Hk) as (k & m & E & Hk1 & _ & Hm).
  exists (upd k m (console s) s). unfold val_check_for_error.
  rewrite (bind_done _ _ _ _ _ (Hme _ _ _)). destruct (Z.eqb_spec num_hart 1); [lia|].
  destruct (first_error_spec num_hart Hlate (indices num_hart) 0 rule (upd k m (console s) s))
    as (st & b & k' & m' & c & E' & Hev & Hb); [intros i; apply elem_of_indices|done|].
  rewrite (bind_done _ _ _ _ _ E'). cbn [fst snd].
  assert (Hq : exists c', when (negb b) (val_report_status me st (Some rule))
                 (upd k' m' c (upd k m (console s) s)) = Done (tt, upd k' m' c' s)).
  { destruct (quiet_when (negb b) _ (quiet_report me st (Some rule) ltac:(left; by eexists))
      (upd k' m' c (upd k m (console s) s))) as ([] & c' & ->). by exists c'. }
  destruct Hq as (c' & Eq). rewrite (bind_done _ _ _ _ _ Eq).
  destruct (settle_spec num_hart Hnum st (upd k' m' c' s)) as (r & s' & -> & Hs & Hc & Hr).
  exists r, s'. split; [done|]. split; [done|]. split; [by destruct s|]. rewrite Hs.
  cbn [shared_mem upd set_tick set_shared_mem] in *. destruct b.
  - left. destruct Hb. by apply (stopped_justified num_hart st).
  - destruct Hb as (Hpass & Hlast & Hst). destruct (passed_justified (late := late_word late test_num) num_hart st r m m') as [|Hh]; try done.
    + intros Hall. apply Hlast; [done|]. right. by apply indices_nonempty.
    + by left.
    + right. split; [|done]. destruct Hh as (_ & i & _ & (e & _ & Hl) & _). by apply andb_prop in Hl as [Hl _].
Qed.

(** A hart that publishes [v] at the [n0]-th read, if it is still pending or has a word of
    [late]. *)
Definition answer_at (late : Z -> bool) (n0 i : nat) (v : Z) : SecondaryHarts := fun n m =>
  if decide (n = n0) then
    match m !! i with
    | Some e => if IS_RESULT_PENDING (status e) || late (status e) then <[i := with_status v e]> m else m
    | None => m
    end
  else m.
Definition finish_at : nat -> nat -> Z -> SecondaryHarts := answer_at never.

Lemma answer_at_upto late n0 i v : concluded v = true -> @HartsUpTo late (answer_at late n0 i v).
Proof.
  intros Hv n m. unfold others, answer_at.
  destruct (decide (n = n0)) as [Hn|]; [|reflexivity].
  destruct (m !! i) as [e|] eqn:He; [|reflexivity].
  destruct (IS_RESULT_PENDING (status e) || late (status e)) eqn:Hp; [|reflexivity].
  apply Forall2_same_length_lookup_2; [by rewrite length_insert|].
  intros j x y Hx Hy. destruct (decide (i = j)) as [<-|Hne].
  - rewrite list_lookup_insert_eq in Hy by (by eapply lookup_lt_Some).
    injection Hy as <-. assert (x = e) as -> by congruence. right. done.
  - rewrite list_lookup_insert_ne in Hy by done. left. congruence.
Qed.

Lemma finish_at_lawful n0 i v : concluded v = true -> @LawfulHarts (finish_at n0 i v).
Proof. exact (answer_at_upto never n0 i v). Qed.

Definition state_run : val_state :=
  set_shared_mem [mk_shared 0 0 (RESULT_PASS 1 1); mk_shared 0 0 (RESULT_PENDING 1)] state2.

(** Hart 2 answers after it was marked FAIL, hart 1 never answers. *)
Definition late_hart : SecondaryHarts := answer_at (late_word true 1) 9 2 (RESULT_PASS 1 1).
Definition state_late : val_state :=
  set_shared_mem [mk_shared 0 0 (RESULT_PASS 1 1); mk_shared 0 0 (RESULT_PENDING 1); mk_shared 0 0 (RESULT_PENDING 1)] state2.

(** A hart that answers in time, and one that answers late. *)
Lemma run_verdict_justified_witness :
  (exists s1 r s',
    @val_wait_for_test_completion (finish_at 5 1 (RESULT_PASS 1 1)) 1 2 100 state_run = Done (tt, s1) /\
    @val_check_for_error (finish_at 5 1 (RESULT_PASS 1 1)) 1 2 (Some "B_PE_01"%string) s1 = Done (r, s') /\
    justified 2 r (shared_mem s') /\ counted r state_run s') /\
  (exists s1 r s',
    @val_wait_for_test_completion late_hart 1 3 4 state_late = Done (tt, s1) /\
    @val_check_for_error late_hart 1 3 (Some "B_PE_01"%string) s1 = Done (r, s') /\
    (justified 3 r (shared_mem s') \/ hidden_timeout (late := late_word true 1) 3 r (shared_mem s1) (shared_mem s'))).
Proof.
  split.
  - destruct (@run_verdict_justified false 1 2 100 (finish_at 5 1 (RESULT_PASS 1 1))
      (finish_at_lawful 5 1 (RESULT_PASS 1 1) eq_refl) "B_PE_01"%string 0 state_run) as (s1 & r & s' & E1 & E2 & Hc & [Hj|[[=] _]]); try lia.
    + intros i Hi. assert (i = 0 \/ i = 1) as [-> | ->] by lia; eexists; split; reflexivity.
    + reflexivity.
    + exists s1, r, s'. auto.
  - destruct (@run_verdict_justified true 1 3 4 late_hart (answer_at_upto _ 9 2 (RESULT_PASS 1 1) eq_refl)
      "B_PE_01"%string 0 state_late) as (s1 & r & s' & E1 & E2 & _ & Hj); try lia.
    + intros i Hi. assert (i = 0 \/ i = 1 \/ i = 2) as [->|[->| ->]] by lia; eexists; split; reflexivity.
    + reflexivity.
    + exists s1, r, s'. destruct Hj as [Hj|[_ Hj]]; auto.
Defined.

(** the second case of the verdict occurs: with three harts, a wait that times out marks
    only the last pending hart; when that hart then publishes PASS before the check reads
    it, the check returns PASS although hart 1 is still pending. *)
Theorem late_hart_hides_timeout :
  exists s1 s',
    @val_wait_for_test_completion late_hart 1 3 4 state_late = Done (tt, s1) /\
    @val_check_for_error late_hart 1 3 (Some "B_PE_01"%string) s1 = Done (ACS_STATUS_PASS, s') /\
    (status <$> shared_mem s1) = [RESULT_PASS 1 1; RESULT_PENDING 1; RESULT_FAIL 1 0xF] /\
    (status <$> shared_mem s') = [RESULT_PASS 1 1; RESULT_PENDING 1; RESULT_PASS 1 1].
Proof. eexists _, _. split; [vm_compute; reflexivity|]. split_and!; vm_compute; reflexivity. Qed.

(** ** Selection of tests *)

Definition in_module (m t : Z) : bool := (0 <? u32 (t - m)) && (u32 (t - m) <? 100).

(** Is the test selected by the -skip, -t and -m options? *)
Definition selected (skips tests modules : list Z) (t : Z) : bool :=
  negb (existsb (fun k => k =? t) skips) &&
  (negb (nonempty tests || nonempty modules) ||
   existsb (fun x => t =? x) tests || existsb (fun m => in_module m t) modules).

Definition runs (s : val_state) (t : Z) : bool :=
  selected (g_skip_test_num s) (g_execute_tests s) (g_execute_modules s) t.

Lemma existsb_elem {A} (p : A -> bool) l : existsb p l = false <-> forall x, x ∈ l -> p x = false.
Proof.
  induction l as [|y l IH]; simpl.
  - split; [|done]. intros _ x Hx. by apply not_elem_of_nil in Hx.
  - rewrite orb_false_iff, IH. split.
    + intros [H1 H2] x [->|Hx]%elem_of_cons; auto.
    + intros H. split; [apply H; left|]. intros x Hx. apply H. by right.
Qed.

Lemma count_if_existsb p q l l' :
  Z.of_nat (length l) + Z.of_nat (length l') < 2 ^ 32 ->
  (count_if q l' (count_if p l 0) =? 0) = negb (existsb p l) && negb (existsb q l').
Proof.
  intros Hl. destruct (count_if_mono p l 0) as [Hb Hz]; [lia|lia|].
  destruct (count_if_mono q l' (count_if p l 0)) as [Hb' Hz']; [lia|lia|].
  rewrite <- existsb_elem in Hz, Hz'.
  destruct (Z.eqb_spec (count_if q l' (count_if p l 0)) 0),
    (existsb p l), (existsb q l'); simpl; try done; exfalso.
  all: try (assert (count_if p l 0 = 0) by lia; intuition lia || (intuition congruence)).
  all: intuition lia.
Qed.

(** The option lists are bounded by their arrays, far below 2^32. *)
Definition options_small (s : val_state) : Prop :=
  Z.of_nat (length (g_execute_tests s)) + Z.of_nat (length (g_execute_modules s)) < 2 ^ 32.

Lemma check_skip_module_spec base s :
  options_small s ->
  returns (val_check_skip_module base) s
    (if negb (nonempty (g_execute_tests s) || nonempty (g_execute_modules s)) ||
        existsb (fun m => m =? base) (g_execute_modules s) ||
        existsb (fun t => u32 (t - base) <? 100) (g_execute_tests s)
     then ACS_STATUS_PASS else ACS_STATUS_SKIP) s.
Proof.
  intros Hs. unfold returns, val_check_skip_module, bind, gets. simpl.
  rewrite count_if_existsb by (unfold options_small in Hs; lia).
  destruct (existsb (fun m => m =? base) _), (existsb _ (g_execute_tests s)),
    (nonempty _ || nonempty _); done.
Qed.

(** the module filter never drops a selected test: if the -m arguments
    are module bases, and a test of the module at [base] is selected by the
    options, then the module is not skipped. *)
Theorem module_filter_complete s base t :
  options_small s -> base mod 100 = 0 -> 0 <= base -> base < t < base + 100 -> t < 2 ^ 32 ->
  (forall m, m ∈ g_execute_modules s -> m mod 100 = 0 /\ 0 <= m < 2 ^ 32 - 100) ->
  runs s t = true -> returns (val_check_skip_module base) s ACS_STATUS_PASS s.
Proof.
  intros Hs Hb Hb0 Ht Ht32 Hm Hr. pose proof (check_skip_module_spec base s Hs) as Hc.
  unfold runs, selected in Hr. apply andb_true_iff in Hr as [_ Hr].
  destruct (negb (nonempty (g_execute_tests s) || nonempty (g_execute_modules s))); [exact Hc|].
  simpl in Hr, Hc.
  destruct (existsb (fun m => m =? base) (g_execute_modules s)) eqn:Em; [exact Hc|].
  destruct (existsb (fun x => u32 (x - base) <? 100) (g_execute_tests s)) eqn:Et; [exact Hc|].
  exfalso. rewrite existsb_elem in Em, Et. apply orb_true_iff in Hr as [Hx|Hx].
  - apply existsb_exists in Hx as (x & Hin%list_elem_of_In & ->%Z.eqb_eq).
    specialize (Et x Hin). rewrite u32_small in Et by lia. lia.
  - apply existsb_exists in Hx as (m & Hin%list_elem_of_In & Hx).
    destruct (Hm m Hin) as [Hm0 Hmr]. specialize (Em m Hin).
    unfold in_module in Hx. apply andb_true_iff in Hx as [H1%Z.ltb_lt H2%Z.ltb_lt].
    apply Z.eqb_neq in Em. apply Em. unfold u32 in *. lia.
Qed.

(** A state with the options of [-t 850 -m 600]. *)
Definition options1 (s : val_state) : val_state :=
  mk_val 3 [] 0 [] [850] [600] 0 0 0 0 (g_hart_info_table s) 0 0 (mk_smc 0 0) 0 ∅
    (shared_mem s) 0 0 0.

Lemma module_filter_complete_witness :
  returns (val_check_skip_module 600) (options1 state2) ACS_STATUS_PASS (options1 state2).
Proof.
  apply (module_filter_complete (options1 state2) 600 642); try reflexivity; try lia.
  intros m Hm%list_elem_of_singleton. subst. lia.
Defined.

(** *** [val_initialize_test] *)

Lemma set_statuses l v s :
  (forall i, i ∈ l -> 0 <= i < Z.of_nat (length (shared_mem s))) ->
  exists m, foreach l (fun i => val_set_status i v) s = Done (tt, set_shared_mem m s) /\
    length m = length (shared_mem s) /\
    (forall i, i ∈ l -> hart_is (Z.eqb v) m i) /\
    (forall i, i ∉ l -> at_index m i = at_index (shared_mem s) i).
Proof.
  revert s. induction l as [|x l IH]; intros s Hl.
  - exists (shared_mem s). split; [by destruct s|]. split; [done|]. split; [|done].
    intros i Hi. by apply not_elem_of_nil in Hi.
  - destruct (at_index_lt (shared_mem s) x) as [e He]; [apply Hl; left|].
    cbn [foreach]. rewrite (bind_done _ _ _ _ _ (set_status_spec s x v e He)).
    set (m0 := <[Z.to_nat x := with_status v e]> (shared_mem s)).
    destruct (IH (upd (tick s) m0 (console s) s)) as (m & E & Hlen & Hin & Hout).
    { intros i Hi. cbn. unfold m0. rewrite length_insert. apply Hl. by right. }
    rewrite E. exists m. split; [by destruct s|].
    cbn [shared_mem upd set_tick set_shared_mem] in *. unfold m0 in *.
    split; [by rewrite Hlen, length_insert|]. split.
    + intros i Hi. destruct (decide (i ∈ l)) as [Hil|Hil]; [by apply Hin|].
      apply elem_of_cons in Hi as [->|Hi]; [|done].
      exists (with_status v e). rewrite Hout, (at_index_insert _ _ _ _ e He), Z.eqb_refl by done.
      split; [done|]. cbn [status with_status]. apply Z.eqb_refl.
    + intros i [Hne Hi]%not_elem_of_cons. rewrite Hout by done.
      rewrite (at_index_insert _ _ _ _ e He). by destruct (Z.eqb_spec x i).
Qed.

(** Installing a handler of a valid exception type changes the handler table only. *)
Lemma install_esr_frame `{CpuArchProtocol} t esr s :
  t <= EXCEPT_RISCV_MAX_EXCEPTIONS ->
  exists r h, val_hart_install_esr t esr s = Done (r, set_handlers h s).
Proof.
  intros Ht. unfold val_hart_install_esr.
  destruct (Z.ltb_spec EXCEPT_RISCV_MAX_EXCEPTIONS t); [lia|].
  unfold pal_hart_install_esr, bind. destruct (EFI_ERROR locate_protocol).
  { exists 0, (handlers s). by destruct s. }
  destruct (EFI_ERROR (register_interrupt_handler t None (handlers s)).1 &&
    negb ((register_interrupt_handler t None (handlers s)).1 =? EFI_INVALID_PARAMETER)).
  { eexists _, _. reflexivity. }
  destruct (EFI_ERROR _); eexists _, _; reflexivity.
Qed.

Lemma default_handler_frame `{CpuArchProtocol} esr s :
  exists h, val_hart_initialize_default_exception_handler esr s = Done (tt, set_handlers h s).
Proof.
  unfold val_hart_initialize_default_exception_handler.
  destruct (install_esr_frame EXCEPT_RISCV_ILLEGAL_INST esr s) as (r & h & E);
    [vm_compute; congruence|]. rewrite (bind_done _ _ _ _ _ E).
  destruct (install_esr_frame EXCEPT_RISCV_LOAD_ACCESS_PAGE_FAULT esr (set_handlers h s))
    as (r' & h' & E'); [vm_compute; congruence|]. rewrite (bind_done _ _ _ _ _ E').
  by exists h'.
Qed.

(** Bit 28 of a START word is set whatever the test number, bit 28 of PASS is clear. *)
Lemma start_not_pass t : IS_TEST_PASS (BSA_ACS_START t) = false.
Proof.
  unfold IS_TEST_PASS. apply Z.eqb_neq. intros H.
  assert (Hb : Z.testbit (state_of (BSA_ACS_START t)) 0 = true).
  { unfold state_of, BSA_ACS_START, status_word, STATE_BIT, TEST_START_VAL.
    autorewrite with tbits. simpl. by rewrite !orb_true_r || done. }
  by rewrite H in Hb.
Qed.

(** The two endings of [val_initialize_test]. *)
Lemma excluded_ending me v s e :
  at_index (shared_mem s) me = Some e ->
  (val_set_status me v ;;; ret ACS_STATUS_SKIP) s =
    Done (ACS_STATUS_SKIP, set_shared_mem (<[Z.to_nat me := with_status v e]> (shared_mem s)) s).
Proof. intros He. rewrite (bind_done _ _ _ _ _ (set_status_spec s me v e He)). by destruct s. Qed.

Lemma accepted_ending `{CpuArchProtocol} t desc s :
  exists c h, (modify (set_g_override_skip 1) ;;;
      val_print ACS_PRINT_ERR "%4d : " t ;;;
      val_print ACS_PRINT_TEST desc 0 ;;;
      val_report_status 0 (BSA_ACS_START t) None ;;;
      val_hart_initialize_default_exception_handler "val_hart_default_esr" ;;;
      modify (fun s => set_g_bsa_tests_total (u32 (g_bsa_tests_total s + 1)) s) ;;;
      ret ACS_STATUS_PASS) s =
    Done (ACS_STATUS_PASS, set_g_bsa_tests_total (u32 (g_bsa_tests_total s + 1))
            (set_handlers h (set_console c (set_g_override_skip 1 s)))).
Proof.
  assert (Hq := quiet_report 0 (BSA_ACS_START t) None (or_intror (start_not_pass t))).
  set (s0 := set_g_override_skip 1 s).
  destruct (quiet_val_print ACS_PRINT_ERR "%4d : " t s0) as ([] & c1 & E1).
  destruct (quiet_val_print ACS_PRINT_TEST desc 0 (set_console c1 s0)) as ([] & c2 & E2).
  destruct (Hq (set_console c2 s0)) as ([] & c & E3).
  destruct (default_handler_frame "val_hart_default_esr" (set_console c s0)) as (h & E4).
  exists c, h. unfold bind at 1, modify at 1. fold s0.
  by rewrite (bind_done _ _ _ _ _ E1), (bind_done _ _ _ _ _ E2), (bind_done _ _ _ _ _ E3),
    (bind_done _ _ _ _ _ E4).
Qed.

Lemma hart_is_eqb_insert m me e v w i :
  at_index m me = Some e -> hart_is (Z.eqb w) m i -> i <> me ->
  hart_is (Z.eqb w) (<[Z.to_nat me := with_status v e]> m) i.
Proof.
  intros He (x & Hx & Hw) Hne. exists x. split; [|done].
  rewrite (at_index_insert _ _ _ _ e He). by destruct (Z.eqb_spec me i).
Qed.

(** The running hart, the hart table and the two result counters are the same. *)
Definition same_run (s s' : val_state) : Prop :=
  MPIDR s' = MPIDR s /\ g_hart_info_table s' = g_hart_info_table s /\
  g_bsa_tests_pass s' = g_bsa_tests_pass s /\ g_bsa_tests_fail s' = g_bsa_tests_fail s.

(** What [val_initialize_test] leaves behind for a test that runs ([ok]) or not. *)
Definition initialized (t num_hart me : Z) (ok : bool) (s s' : val_state) : Prop :=
  g_override_skip s' = b2n ok /\
  g_bsa_tests_total s' = (if ok then u32 (g_bsa_tests_total s + 1) else g_bsa_tests_total s) /\
  length (shared_mem s') = length (shared_mem s) /\
  (ok = false -> console s' = console s /\ hart_is (Z.eqb (RESULT_SKIP t 0)) (shared_mem s') me) /\
  (forall i, 0 <= i < num_hart -> ok = true \/ i <> me ->
     hart_is (Z.eqb (RESULT_PENDING t)) (shared_mem s') i) /\
  same_run s s'.

(** The state after the loop that marks the harts PENDING. *)
Definition marked (t num_hart : Z) (s : val_state) (m : list VAL_SHARED_MEM_t) : Prop :=
  length m = length (shared_mem s) /\
  forall i, 0 <= i < num_hart -> hart_is (Z.eqb (RESULT_PENDING t)) m i.

Lemma excluded_post t num_hart me s m :
  marked t num_hart s m -> 0 <= me < Z.of_nat (length (shared_mem s)) ->
  exists s', (val_set_status me (RESULT_SKIP t 0) ;;; ret ACS_STATUS_SKIP)
      (set_shared_mem m (set_g_override_skip 0 s)) = Done (ACS_STATUS_SKIP, s') /\
    initialized t num_hart me false s s'.
Proof.
  intros [Hlen Hp] Hme. destruct (at_index_lt m me) as [e He]; [lia|].
  rewrite (excluded_ending me _ (set_shared_mem m (set_g_override_skip 0 s)) e He).
  eexists. split; [reflexivity|]. unfold initialized. cbn -[Z.eqb RESULT_SKIP RESULT_PENDING].
  split_and!; [done|done|by rewrite length_insert| | |done..].
  - intros _. split; [done|]. exists (with_status (RESULT_SKIP t 0) e).
    rewrite (at_index_insert _ _ _ _ e He), Z.eqb_refl. split; [done|]. apply Z.eqb_refl.
  - intros i Hi [?|Hne]; [done|]. apply hart_is_eqb_insert; [done|by apply Hp|done].
Qed.

Lemma options_count t s :
  options_small s ->
  (count_if (fun m => (0 <? u32 (t - m)) && (u32 (t - m) <? 100)) (g_execute_modules s)
     (count_if (fun x => t =? x) (g_execute_tests s) 0) =? 0) &&
  (nonempty (g_execute_tests s) || nonempty (g_execute_modules s)) =
  negb (negb (nonempty (g_execute_tests s) || nonempty (g_execute_modules s)) ||
   existsb (fun x => t =? x) (g_execute_tests s) ||
   existsb (fun m => in_module m t) (g_execute_modules s)).
Proof.
  intros Hs. rewrite count_if_existsb by done. unfold in_module.
  by destruct (nonempty _ || nonempty _), (existsb (fun x => t =? x) _), (existsb _ _).
Qed.

(** [val_initialize_test] runs exactly the selected tests: it returns
    PASS for a test the options select and SKIP otherwise; a selected test is
    counted, reporting is switched on and every hart is PENDING; an excluded
    one is not counted and prints nothing, reporting is switched off, the
    running hart is marked SKIP and the other harts of the test are PENDING. *)
Theorem initialize_test_selects `{CpuArchProtocol} t desc num_hart me s :
  options_small s -> 0 <= me < Z.of_nat (length (shared_mem s)) ->
  0 <= num_hart <= Z.of_nat (length (shared_mem s)) -> my_index s = Done (me, s) ->
  exists s', returns (val_initialize_test t desc num_hart) s
      (if runs s t then ACS_STATUS_PASS else ACS_STATUS_SKIP) s' /\
    initialized t num_hart me (runs s t) s s'.
Proof.
  intros Hopt Hme Hn Hmy. unfold returns, val_initialize_test.
  rewrite (bind_done _ _ _ _ _ Hmy). unfold bind at 1, modify at 1.
  destruct (set_statuses (indices num_hart) (RESULT_PENDING t) (set_g_override_skip 0 s))
    as (m & E & Hlen & Hin & _).
  { intros i Hi%elem_of_indices. simpl. lia. }
  rewrite (bind_done _ _ _ _ _ E).
  assert (Hm : marked t num_hart s m).
  { split; [done|]. intros i Hi. by apply Hin, elem_of_indices. }
  destruct (excluded_post t num_hart me s m Hm Hme) as (sx & Ex & Hx).
  unfold runs, selected. unfold bind at 1 2 3. unfold gets.
  cbn [g_skip_test_num g_execute_tests g_execute_modules set_shared_mem set_g_override_skip].
  destruct (existsb (fun k => k =? t) (g_skip_test_num s)); [by exists sx|].
  unfold bump_skip, modify. unfold bind at 1 2 3.
  cbn [g_override_skip set_g_override_skip set_shared_mem negb andb].
  pose proof (options_count t s Hopt) as Hc. set (c := count_if _ (g_execute_modules s) _) in *.
  destruct ((c =? 0) && _) eqn:Ec.
  - symmetry in Hc. apply negb_true_iff in Hc. rewrite Hc.
    apply andb_true_iff in Ec as [->%Z.eqb_eq _]. by exists sx.
  - symmetry in Hc. apply negb_false_iff in Hc. rewrite Hc.
    destruct (accepted_ending t desc (set_g_override_skip c (set_shared_mem m s))) as (co & h & Ea).
    eexists. split; [exact Ea|]. destruct Hm as [Hl Hp].
    unfold initialized. cbn -[Z.eqb RESULT_SKIP RESULT_PENDING].
    split_and!; try done. intros i Hi _. by apply Hp.
Qed.

#[export] Instance no_protocol : CpuArchProtocol :=
  {| locate_protocol := 2 ^ 63 + 14; register_interrupt_handler := fun _ _ h => (0, h) |}.

Definition state_opt : val_state := options1 state_run.

Lemma initialize_test_selects_witness :
  runs state_opt 642 = true /\ runs state_opt 851 = false /\
  exists s', returns (val_initialize_test 851 "desc" 2) state_opt ACS_STATUS_SKIP s' /\
    initialized 851 2 0 false state_opt s'.
Proof.
  split; [reflexivity|]. split; [reflexivity|].
  apply (initialize_test_selects 851 "desc" 2 0 state_opt); [reflexivity| | |reflexivity];
    simpl; lia.
Defined.
