(* ===== verification/Mmio.v ===== *)
(** * Memory-mapped access

    Models [pal_mmio_*] of [platform/pal_uefi_acpi/src/pal_misc.c] over an
    abstract hardware: [Hardware] is what a volatile access does, [RegisterFile]
    is what the PCIe register attributes promise about 32-bit registers (RO, RW
    and RW1C bits), which the theorems on register updates rely on. *)

From S2P Require Import Prelude.

Inductive width := W8 | W16 | W32 | W64.

#[export] Instance width_eq_dec : EqDecision width.
Proof. solve_decision. Defined.

(** A volatile load can change the hardware; a store does. *)
Class Hardware (H : Type) := {
  hw_read : width -> Z -> H -> Z * H;
  hw_write : width -> Z -> Z -> H -> H }.

(** The values of uninitialised local variables, by name. *)
Class Uninit := uninit : string -> Z.

Section Access.
Context {H : Type} `{Hardware H}.

Definition pal_mmio_read8 (addr : Z) : prog H Z :=
  fun h => let r := hw_read W8 addr h in Done (u8 r.1, r.2).
Definition pal_mmio_read16 (addr : Z) : prog H Z :=
  fun h => let r := hw_read W16 addr h in Done (u16 r.1, r.2).
Definition pal_mmio_read64 (addr : Z) : prog H Z :=
  fun h => let r := hw_read W64 addr h in Done (u64 r.1, r.2).

(** The 32-bit read masks the last two bits of an unaligned address. *)
Definition pal_mmio_read (addr : Z) : prog H Z :=
  let addr := if negb (Z.land addr 0x3 =? 0) then Z.land addr (Z.lnot 0x3) else addr in
  fun h => let r := hw_read W32 addr h in Done (u32 r.1, r.2).

Definition pal_mmio_write8 (addr data : Z) : prog H unit :=
  fun h => Done (tt, hw_write W8 addr (u8 data) h).
Definition pal_mmio_write16 (addr data : Z) : prog H unit :=
  fun h => Done (tt, hw_write W16 addr (u16 data) h).
Definition pal_mmio_write (addr data : Z) : prog H unit :=
  fun h => Done (tt, hw_write W32 addr (u32 data) h).
Definition pal_mmio_write64 (addr data : Z) : prog H unit :=
  fun h => Done (tt, hw_write W64 addr (u64 data) h).

(** The 32-bit accesses of the bare-metal port: there the write masks the last two bits
    of an unaligned address, and the read does not. *)
Definition bm_pal_mmio_read (addr : Z) : prog H Z :=
  fun h => let r := hw_read W32 addr h in Done (u32 r.1, r.2).
Definition bm_pal_mmio_write (addr data : Z) : prog H unit :=
  let addr := if negb (Z.land addr 0x3 =? 0) then Z.land addr (Z.lnot 0x3) else addr in
  fun h => Done (tt, hw_write W32 addr (u32 data) h).
End Access.

(** ** Registers with attributes *)

(** A register after a write of [new]: the bits of [rw] take the written
    value, the bits of [w1c] are cleared by a written 1, the others are read
    only. *)
Definition after (rw w1c old new : Z) : Z :=
  Z.lor (Z.land new rw)
        (Z.land (Z.land old (Z.lnot rw)) (Z.lnot (Z.land w1c new))).

(** [reg h a] is the 32-bit register at the aligned address [a]. *)
Class RegisterFile (H : Type) `{Hardware H} := {
  reg : H -> Z -> Z;
  rw_bits : Z -> Z;
  w1c_bits : Z -> Z;
  reg_range : forall h a, 0 <= reg h a < 2 ^ 32;
  reg_read : forall h a, a mod 4 = 0 -> hw_read W32 a h = (reg h a, h);
  reg_write : forall h a v b, a mod 4 = 0 -> b mod 4 = 0 -> 0 <= v < 2 ^ 32 ->
    reg (hw_write W32 a v h) b =
      if a =? b then u32 (after (rw_bits a) (w1c_bits a) (reg h a) v) else reg h b }.

Lemma testbit_after rw w1c old new i :
  0 <= i ->
  Z.testbit (after rw w1c old new) i =
    if Z.testbit rw i then Z.testbit new i
    else Z.testbit old i && negb (Z.testbit w1c i && Z.testbit new i).
Proof.
  intros Hi. unfold after. autorewrite with tbits.
  destruct (Z.testbit rw i), (Z.testbit new i), (Z.testbit old i), (Z.testbit w1c i); done.
Qed.

Lemma u32_mask_aligned a : 0 <= a -> a mod 4 = 0 -> Z.land a 3 = 0.
Proof. intros. by rewrite land_3. Qed.

Lemma mask_unaligned a : Z.land a (Z.lnot 3) = a - a mod 4.
Proof.
  replace (Z.land a (Z.lnot 3)) with (Z.ldiff a (Z.ones 2)) by (by rewrite Z.ldiff_land).
  rewrite Z.ldiff_ones_r, Z.shiftl_mul_pow2, Z.shiftr_div_pow2 by lia. simpl. lia.
Qed.

(** A 32-bit read returns the register that holds the address and changes nothing. *)
Lemma read_reg {H} `{RegisterFile H} a h :
  pal_mmio_read a h = Done (reg h (a - a mod 4), h).
Proof.
  unfold pal_mmio_read. rewrite land_3, mask_unaligned.
  assert (Ha : (if negb (a mod 4 =? 0) then a - a mod 4 else a) = a - a mod 4)
    by (destruct (Z.eqb_spec (a mod 4) 0); simpl; lia).
  rewrite Ha, reg_read by lia. simpl. by rewrite u32_small by apply reg_range.
Qed.

(** ** A concrete board: registers in a map, absent ones read all ones *)

Abbreviation board := (gmap Z Z).

Section Board.
Context (rwm w1cm : Z -> Z).

Definition board_reg (b : board) (a : Z) : Z := u32 (default 0xFFFFFFFF (b !! a)).

#[local] Instance board_hw : Hardware board := {
  hw_read := fun _ a b => (board_reg b a, b);
  hw_write := fun _ a v b => <[a := u32 (after (rwm a) (w1cm a) (board_reg b a) v)]> b }.

#[local, refine] Instance board_file : RegisterFile board := {
  reg := board_reg; rw_bits := rwm; w1c_bits := w1cm }.
Proof.
  - intros h a. apply u32_range.
  - done.
  - intros h a v b _ _ _. cbn [hw_write board_hw].
    destruct (Z.eqb_spec a b) as [->|Hne]; unfold board_reg at 1.
    + rewrite lookup_insert_eq. apply u32_idem.
    + by rewrite lookup_insert_ne.
Defined.
End Board.
