(* ===== verification/PcieCfg.v ===== *)
(** * PCIe configuration space

    Models the configuration accesses of [val/src/acs_pcie.c], the BDF macros
    of [val/include/bsa_acs_pcie.h] and the walk over BDFs
    ([val_pcie_increment_bdf], [val_pcie_increment_busdev]).  Messages on the
    console are left out.  A read into a variable takes the old value of the
    variable, which stays when the access fails. *)

From S2P Require Import Prelude Mmio.

Definition PCIE_MAX_BUS : Z := 256.
Definition PCIE_MAX_DEV : Z := 32.
Definition PCIE_MAX_FUNC : Z := 8.
Definition PCIE_SUCCESS : Z := 0.
Definition PCIE_NO_MAPPING : Z := 0x10000001.
Definition PCIE_CAP_NOT_FOUND : Z := 0x10000010.
Definition PCIE_UNKNOWN_RESPONSE : Z := 0xFFFFFFFF.

(** ** BDF words *)

Definition PCIE_EXTRACT_BDF_SEG (bdf : Z) : Z := Z.land (Z.shiftr bdf 24) 0xFF.
Definition PCIE_EXTRACT_BDF_BUS (bdf : Z) : Z := Z.land (Z.shiftr bdf 16) 0xFF.
Definition PCIE_EXTRACT_BDF_DEV (bdf : Z) : Z := Z.land (Z.shiftr bdf 8) 0xFF.
Definition PCIE_EXTRACT_BDF_FUNC (bdf : Z) : Z := Z.land bdf 0xFF.

Definition PCIE_CREATE_BDF_PACKED (bdf : Z) : Z :=
  Z.lor (Z.lor (PCIE_EXTRACT_BDF_FUNC bdf) (Z.shiftl (PCIE_EXTRACT_BDF_DEV bdf) 3))
        (Z.shiftl (PCIE_EXTRACT_BDF_BUS bdf) 8).

Definition PCIE_CREATE_BDF (seg bus dev func : Z) : Z :=
  u32 (Z.lor (Z.lor (Z.lor (Z.shiftl seg 24) (Z.shiftl (Z.land bus 0xFF) 16))
                    (Z.shiftl (Z.land dev 0xFF) 8)) func).

Definition GET_DEVICE_ID (bus dev func : Z) : Z :=
  Z.lor (Z.lor (Z.shiftl bus 8) (Z.shiftl dev 3)) func.

#[global] Arguments PCIE_CREATE_BDF : simpl never.

(** ** State *)

Record PCIE_INFO_BLOCK := mk_block {
  ecam_base : Z; segment_num : Z; start_bus_num : Z; end_bus_num : Z }.

Record PCIE_INFO_TABLE := mk_info { info_num_entries : Z; block : list PCIE_INFO_BLOCK }.

Record pcie_device_attr := mk_attr { bdf : Z; rp_bdf : Z }.

(** [device] is the memory of the table, [num_entries] the entries in use. *)
Record pcie_device_bdf_table := mk_bdf_table { num_entries : Z; device : list pcie_device_attr }.

Record pcie_state {H : Type} := mk_pcie {
  g_pcie_info_table : option PCIE_INFO_TABLE;
  g_pcie_bdf_table : option pcie_device_bdf_table;
  pcie_bdf_table_list_flag : Z;
  hw : H }.
Arguments pcie_state : clear implicits.
Arguments mk_pcie {H}.

Section Cfg.
Context {H : Type} `{Hardware H}.
Local Abbreviation P := (prog (pcie_state H)).

Definition set_hw (h : H) (s : pcie_state H) : pcie_state H :=
  mk_pcie (g_pcie_info_table s) (g_pcie_bdf_table s) (pcie_bdf_table_list_flag s) h.
Definition set_bdf_table (t : option pcie_device_bdf_table) (s : pcie_state H) : pcie_state H :=
  mk_pcie (g_pcie_info_table s) t (pcie_bdf_table_list_flag s) (hw s).
Definition set_info_table (t : option PCIE_INFO_TABLE) (s : pcie_state H) : pcie_state H :=
  mk_pcie t (g_pcie_bdf_table s) (pcie_bdf_table_list_flag s) (hw s).
Definition set_list_flag (v : Z) (s : pcie_state H) : pcie_state H :=
  mk_pcie (g_pcie_info_table s) (g_pcie_bdf_table s) v (hw s).

(** An access to the hardware from the PCIe code. *)
Definition on_hw {A} (m : prog H A) : P A :=
  fun s => match m (hw s) with
           | Done (a, h) => Done (a, set_hw h s)
           | Undefined => Undefined
           | Diverges => Diverges
           end.

(** ** [val_pcie_get_info]

    The two selectors that only forward to the port, [PCIE_INFO_MCFG_ECAM] and
    [PCIE_INFO_DSDT_PTR], are left out. *)

Inductive PCIE_INFO_e := PCIE_INFO_NUM_ECAM | PCIE_INFO_ECAM | PCIE_INFO_START_BUS
  | PCIE_INFO_END_BUS | PCIE_INFO_SEGMENT.

Definition val_pcie_get_info (type : PCIE_INFO_e) (index : Z) : P Z :=
  let* o := gets g_pcie_info_table in
  match o with
  | None => ret 0
  | Some t =>
      if info_num_entries t <=? index then ret 0 else
      match type with
      | PCIE_INFO_NUM_ECAM => ret (info_num_entries t)
      | PCIE_INFO_ECAM => let* b := deref (at_index (block t) index) in ret (ecam_base b)
      | PCIE_INFO_START_BUS => let* b := deref (at_index (block t) index) in ret (start_bus_num b)
      | PCIE_INFO_END_BUS => let* b := deref (at_index (block t) index) in ret (end_bus_num b)
      | PCIE_INFO_SEGMENT => let* b := deref (at_index (block t) index) in ret (segment_num b)
      end
  end.

(** ** Accesses *)

(** The ECAM of a bus and segment: the loop of the four access functions over
    the indices [i], [i + 1], ... below the number of ECAMs; 0 if none matches. *)
Fixpoint ecam_search (fuel : nat) (bus segment i : Z) : P Z :=
  match fuel with
  | O => diverge
  | S f =>
      let* n := val_pcie_get_info PCIE_INFO_NUM_ECAM 0 in
      if i <? u32 n then
        let* sb := val_pcie_get_info PCIE_INFO_START_BUS i in
        if negb (u32 sb <=? bus) then ecam_search f bus segment (u32 (i + 1)) else
        let* eb := val_pcie_get_info PCIE_INFO_END_BUS i in
        if negb (bus <=? u32 eb) then ecam_search f bus segment (u32 (i + 1)) else
        let* sg := val_pcie_get_info PCIE_INFO_SEGMENT i in
        if segment =? u32 sg then val_pcie_get_info PCIE_INFO_ECAM i
        else ecam_search f bus segment (u32 (i + 1))
      else ret 0
  end.

(** One round per ECAM and the last test. *)
Definition ecam_fuel (s : pcie_state H) : nat :=
  match g_pcie_info_table s with None => 1 | Some t => S (Z.to_nat (info_num_entries t)) end.

Definition bad_bdf (bdf : Z) : bool :=
  (PCIE_MAX_BUS <=? PCIE_EXTRACT_BDF_BUS bdf) || (PCIE_MAX_DEV <=? PCIE_EXTRACT_BDF_DEV bdf) ||
  (PCIE_MAX_FUNC <=? PCIE_EXTRACT_BDF_FUNC bdf).

Definition cfg_offset (bdf : Z) : Z :=
  u32 (PCIE_EXTRACT_BDF_BUS bdf * PCIE_MAX_DEV * PCIE_MAX_FUNC * 4096 +
       PCIE_EXTRACT_BDF_DEV bdf * PCIE_MAX_FUNC * 4096 + PCIE_EXTRACT_BDF_FUNC bdf * 4096).

(** The configuration address of a function, [None] when the access fails:
    the part the read, the two writes and [val_pcie_get_bdf_config_addr] share. *)
Definition cfg_addr (bdf : Z) : P (option Z) :=
  if bad_bdf bdf then ret None else
  let* o := gets g_pcie_info_table in
  match o with
  | None => ret None
  | Some _ =>
      let* fuel := gets ecam_fuel in
      let* base := ecam_search fuel (PCIE_EXTRACT_BDF_BUS bdf) (PCIE_EXTRACT_BDF_SEG bdf) 0 in
      if base =? 0 then ret None else ret (Some (u64 (base + cfg_offset bdf)))
  end.

Definition mmio_read_width (w : width) (addr : Z) : prog H Z :=
  match w with
  | W8 => pal_mmio_read8 addr | W16 => pal_mmio_read16 addr
  | W32 => pal_mmio_read addr | W64 => pal_mmio_read64 addr
  end.

Definition mmio_write_width (w : width) (addr data : Z) : prog H unit :=
  match w with
  | W8 => pal_mmio_write8 addr data | W16 => pal_mmio_write16 addr data
  | W32 => pal_mmio_write addr data | W64 => pal_mmio_write64 addr data
  end.

(** Status and the new value of [*data]. *)
Definition val_pcie_read_cfg_width (bdf offset data : Z) (w : width) : P (Z * Z) :=
  let* a := cfg_addr bdf in
  match a with
  | None => ret (PCIE_NO_MAPPING, data)
  | Some addr => let* v := on_hw (mmio_read_width w (u64 (addr + offset))) in ret (0, v)
  end.

Definition val_pcie_read_cfg (bdf offset data : Z) : P (Z * Z) :=
  val_pcie_read_cfg_width bdf offset data W32.

Definition val_pcie_write_cfg (bdf offset data : Z) : P unit :=
  let* a := cfg_addr bdf in
  match a with
  | None => ret tt
  | Some addr => on_hw (pal_mmio_write (u64 (addr + offset)) data)
  end.

Definition val_pcie_write_cfg_width (bdf offset data : Z) (w : width) : P unit :=
  let* a := cfg_addr bdf in
  match a with
  | None => ret tt
  | Some addr => on_hw (mmio_write_width w (u64 (addr + offset)) data)
  end.

Definition val_pcie_get_bdf_config_addr (bdf : Z) : P Z :=
  let* a := cfg_addr bdf in
  match a with None => ret 0 | Some addr => ret addr end.

(** ** Walking the BDFs *)

Definition val_pcie_increment_busdev (start_bdf : Z) : Z :=
  let seg := PCIE_EXTRACT_BDF_SEG start_bdf in
  let bus := PCIE_EXTRACT_BDF_BUS start_bdf in
  let dev := PCIE_EXTRACT_BDF_DEV start_bdf in
  if negb (dev =? PCIE_MAX_DEV) then PCIE_CREATE_BDF seg bus (dev + 1) 0
  else PCIE_CREATE_BDF seg (bus + 1) 0 0.

(** [while (ecam_cnt--)]: the last ECAM of the segment, [None] if there is none. *)
Fixpoint last_ecam (n : nat) (seg : Z) : P (option Z) :=
  match n with
  | O => ret None
  | S k => let* sg := val_pcie_get_info PCIE_INFO_SEGMENT (Z.of_nat k) in
           if seg =? u32 sg then ret (Some (Z.of_nat k)) else last_ecam k seg
  end.

Definition val_pcie_increment_bdf (b : Z) : P Z :=
  let seg := PCIE_EXTRACT_BDF_SEG b in
  let bus := PCIE_EXTRACT_BDF_BUS b in
  let dev := PCIE_EXTRACT_BDF_DEV b in
  let func := PCIE_EXTRACT_BDF_FUNC b in
  let* n := val_pcie_get_info PCIE_INFO_NUM_ECAM 0 in
  let* e := last_ecam (Z.to_nat n) seg in
  match e with
  | None => ret 0
  | Some ecam_index =>
      if func <? PCIE_MAX_FUNC - 1 then ret (PCIE_CREATE_BDF seg bus dev (func + 1))
      else if dev <? PCIE_MAX_DEV - 1 then ret (PCIE_CREATE_BDF seg bus (dev + 1) 0)
      else
        let* eb := val_pcie_get_info PCIE_INFO_END_BUS ecam_index in
        if bus <? u32 eb then ret (PCIE_CREATE_BDF seg (bus + 1) 0 0)
        else
          let* n := val_pcie_get_info PCIE_INFO_NUM_ECAM 0 in
          if ecam_index + 1 <? u32 n then
            let* bus' := val_pcie_get_info PCIE_INFO_START_BUS (ecam_index + 1) in
            let* seg' := val_pcie_get_info PCIE_INFO_SEGMENT (ecam_index + 1) in
            ret (PCIE_CREATE_BDF (u32 seg') (u32 bus') 0 0)
          else ret 0
  end.
End Cfg.

(** ** BDF words: round trip *)

Lemma create_bdf_arith seg bus dev func :
  0 <= seg < 256 -> 0 <= bus < 256 -> 0 <= dev < 256 -> 0 <= func < 256 ->
  PCIE_CREATE_BDF seg bus dev func = seg * 2 ^ 24 + bus * 2 ^ 16 + dev * 2 ^ 8 + func.
Proof.
  intros. unfold PCIE_CREATE_BDF. rewrite !land_255, !Z.mod_small by lia.
  rewrite lor_shiftl_add by (rewrite ?Z.shiftl_mul_pow2; lia).
  replace (seg * 2 ^ 24 + Z.shiftl bus 16) with (Z.shiftl (seg * 2 ^ 8 + bus) 16)
    by (rewrite !Z.shiftl_mul_pow2 by lia; lia).
  rewrite lor_shiftl_add by (rewrite ?Z.shiftl_mul_pow2; lia).
  replace ((seg * 2 ^ 8 + bus) * 2 ^ 16 + Z.shiftl dev 8)
    with (Z.shiftl ((seg * 2 ^ 8 + bus) * 2 ^ 8 + dev) 8)
    by (rewrite !Z.shiftl_mul_pow2 by lia; lia).
  rewrite lor_shiftl_add by lia. rewrite u32_small; lia.
Qed.

Lemma extract_arith b :
  PCIE_EXTRACT_BDF_SEG b = b / 2 ^ 24 mod 256 /\ PCIE_EXTRACT_BDF_BUS b = b / 2 ^ 16 mod 256 /\
  PCIE_EXTRACT_BDF_DEV b = b / 2 ^ 8 mod 256 /\ PCIE_EXTRACT_BDF_FUNC b = b mod 256.
Proof.
  unfold PCIE_EXTRACT_BDF_SEG, PCIE_EXTRACT_BDF_BUS, PCIE_EXTRACT_BDF_DEV, PCIE_EXTRACT_BDF_FUNC.
  by rewrite !land_255, !Z.shiftr_div_pow2 by lia.
Qed.

Lemma extract_create seg bus dev func :
  0 <= seg < 256 -> 0 <= bus < 256 -> 0 <= dev < 256 -> 0 <= func < 256 ->
  PCIE_EXTRACT_BDF_SEG (PCIE_CREATE_BDF seg bus dev func) = seg /\
  PCIE_EXTRACT_BDF_BUS (PCIE_CREATE_BDF seg bus dev func) = bus /\
  PCIE_EXTRACT_BDF_DEV (PCIE_CREATE_BDF seg bus dev func) = dev /\
  PCIE_EXTRACT_BDF_FUNC (PCIE_CREATE_BDF seg bus dev func) = func.
Proof.
  intros. destruct (extract_arith (PCIE_CREATE_BDF seg bus dev func)) as (-> & -> & -> & ->).
  rewrite create_bdf_arith by done. lia.
Qed.

Lemma create_extract b :
  0 <= b < 2 ^ 32 ->
  PCIE_CREATE_BDF (PCIE_EXTRACT_BDF_SEG b) (PCIE_EXTRACT_BDF_BUS b) (PCIE_EXTRACT_BDF_DEV b)
    (PCIE_EXTRACT_BDF_FUNC b) = b.
Proof.
  intros. destruct (extract_arith b) as (-> & -> & -> & ->).
  rewrite create_bdf_arith by lia. lia.
Qed.

(** a BDF word packs and unpacks without loss: the four fields below 256
    come back from the word, every 32-bit word is rebuilt from its fields, and
    for a device below 32 and a function below 8 the packed requester id of the
    word is the device id of its fields. *)
Theorem bdf_roundtrip seg bus dev func b :
  0 <= seg < 256 -> 0 <= bus < 256 -> 0 <= dev < 32 -> 0 <= func < 8 -> 0 <= b < 2 ^ 32 ->
  let w := PCIE_CREATE_BDF seg bus dev func in
  (PCIE_EXTRACT_BDF_SEG w, PCIE_EXTRACT_BDF_BUS w, PCIE_EXTRACT_BDF_DEV w, PCIE_EXTRACT_BDF_FUNC w)
    = (seg, bus, dev, func) /\
  PCIE_CREATE_BDF (PCIE_EXTRACT_BDF_SEG b) (PCIE_EXTRACT_BDF_BUS b) (PCIE_EXTRACT_BDF_DEV b)
    (PCIE_EXTRACT_BDF_FUNC b) = b /\
  PCIE_CREATE_BDF_PACKED w = GET_DEVICE_ID bus dev func.
Proof.
  intros Hs Hb Hd Hf Hw. cbv zeta. unfold PCIE_CREATE_BDF_PACKED, GET_DEVICE_ID.
  destruct (extract_create seg bus dev func) as (-> & -> & -> & ->); try lia.
  split; [done|]. split; [by apply create_extract|].
  rewrite (Z.lor_comm func), (Z.lor_comm (Z.lor _ func)), Z.lor_assoc. done.
Qed.

Lemma bdf_roundtrip_witness :
  PCIE_EXTRACT_BDF_DEV (PCIE_CREATE_BDF 1 2 31 7) = 31.
Proof.
  destruct (bdf_roundtrip 1 2 31 7 0) as [E _]; try lia.
  exact (f_equal (fun t => t.1.2) E).
Defined.

(** ** Where a function's configuration space is *)

Definition covers (bus seg : Z) (b : PCIE_INFO_BLOCK) : bool :=
  (start_bus_num b <=? bus) && (bus <=? end_bus_num b) && (seg =? segment_num b).

(** The address of the configuration space of a function, from the ECAM list. *)
Definition cfg_lookup (bs : list PCIE_INFO_BLOCK) (b : Z) : option Z :=
  if bad_bdf b then None else
  match find_first (covers (PCIE_EXTRACT_BDF_BUS b) (PCIE_EXTRACT_BDF_SEG b)) bs 0 with
  | Some (_, e) => if ecam_base e =? 0 then None else Some (u64 (ecam_base e + cfg_offset b))
  | None => None
  end.

(** An ECAM entry as ACPI describes it: buses below 256, a base aligned to a
    megabyte with room for its buses. *)
Definition block_ok (b : PCIE_INFO_BLOCK) : Prop :=
  0 <= segment_num b < 256 /\ 0 <= start_bus_num b <= end_bus_num b /\ end_bus_num b < 256 /\
  ecam_base b mod 2 ^ 20 = 0 /\ 0 <= ecam_base b /\ ecam_base b + 2 ^ 28 <= 2 ^ 64.

(** The list of ECAMs the state knows. *)
Definition has_ecams {H} (s : pcie_state H) (bs : list PCIE_INFO_BLOCK) : Prop :=
  g_pcie_info_table s = Some (mk_info (Z.of_nat (length bs)) bs) /\
  Z.of_nat (length bs) < 2 ^ 32 /\ Forall block_ok bs.

Section CfgLemmas.
Context {H : Type} `{RegisterFile H}.

Lemma get_info_block (s : pcie_state H) bs i b :
  has_ecams s bs -> bs !! i = Some b ->
  val_pcie_get_info PCIE_INFO_ECAM (Z.of_nat i) s = Done (ecam_base b, s) /\
  val_pcie_get_info PCIE_INFO_START_BUS (Z.of_nat i) s = Done (start_bus_num b, s) /\
  val_pcie_get_info PCIE_INFO_END_BUS (Z.of_nat i) s = Done (end_bus_num b, s) /\
  val_pcie_get_info PCIE_INFO_SEGMENT (Z.of_nat i) s = Done (segment_num b, s).
Proof.
  intros (Ht & _ & _) Hb. pose proof (lookup_lt_Some _ _ _ Hb) as Hi.
  unfold val_pcie_get_info, bind, gets. rewrite Ht. simpl.
  destruct (Z.leb_spec (Z.of_nat (length bs)) (Z.of_nat i)); [lia|].
  unfold at_index. destruct (Z.leb_spec 0 (Z.of_nat i)); [|lia]. by rewrite Nat2Z.id, Hb.
Qed.

Lemma get_info_num (s : pcie_state H) bs :
  has_ecams s bs -> val_pcie_get_info PCIE_INFO_NUM_ECAM 0 s = Done (Z.of_nat (length bs), s).
Proof.
  intros (Ht & _ & _). unfold val_pcie_get_info, bind, gets. rewrite Ht. simpl.
  destruct (Z.leb_spec (Z.of_nat (length bs)) 0); [|done].
  assert (length bs = 0%nat) as -> by lia. done.
Qed.

Lemma ecam_search_spec (s : pcie_state H) bs bus seg fuel i :
  has_ecams s bs -> (length bs - i < fuel)%nat -> (i <= length bs)%nat ->
  ecam_search fuel bus seg (Z.of_nat i) s =
    Done (match find_first (covers bus seg) (drop i bs) (Z.of_nat i) with
          | Some (_, b) => ecam_base b | None => 0 end, s).
Proof.
  intros He. revert i. induction fuel as [|f IH]; intros i Hf Hi; [lia|].
  cbn [ecam_search]. rewrite (bind_done _ _ _ _ _ (get_info_num s bs He)).
  pose proof He as (Ht & Hlen & Hok). rewrite u32_small by lia.
  destruct (Z.ltb_spec (Z.of_nat i) (Z.of_nat (length bs))) as [Hlt|Hge].
  - destruct (lookup_lt_is_Some_2 bs i) as [b Hb]; [lia|].
    destruct (get_info_block s bs i b He Hb) as (E1 & E2 & E3 & E4).
    assert (Hbok : block_ok b) by (by eapply Forall_lookup_1).
    destruct Hbok as (Hsg & Hse & Hend & _).
    rewrite (drop_S bs b i Hb). cbn [find_first]. unfold covers at 1.
    rewrite (bind_done _ _ _ _ _ E2), (u32_small (start_bus_num b)) by lia.
    rewrite u32_small by lia. replace (Z.of_nat i + 1) with (Z.of_nat (S i)) by lia.
    destruct (start_bus_num b <=? bus); cbn [negb andb]; [|apply IH; lia].
    rewrite (bind_done _ _ _ _ _ E3), (u32_small (end_bus_num b)) by lia.
    destruct (bus <=? end_bus_num b); cbn [negb andb]; [|apply IH; lia].
    rewrite (bind_done _ _ _ _ _ E4), (u32_small (segment_num b)) by lia.
    destruct (seg =? segment_num b); [exact E1|apply IH; lia].
  - by rewrite drop_ge by lia.
Qed.

(** The address computation reads the table only. *)
Lemma cfg_addr_spec (s : pcie_state H) bs b :
  has_ecams s bs -> cfg_addr b s = Done (cfg_lookup bs b, s).
Proof.
  intros He. pose proof He as (Ht & Hlen & Hok). unfold cfg_addr, cfg_lookup.
  destruct (bad_bdf b); [done|]. unfold bind at 1, gets at 1. rewrite Ht.
  unfold bind at 1, gets, ecam_fuel. rewrite Ht. cbn [info_num_entries].
  rewrite Nat2Z.id. change 0 with (Z.of_nat 0) at 1.
  rewrite (bind_done _ _ _ _ _ (ecam_search_spec s bs _ _ (S (length bs)) 0 He ltac:(lia) ltac:(lia))).
  rewrite drop_0. destruct (find_first _ bs _) as [[j e]|]; [|done].
  by destruct (ecam_base e =? 0).
Qed.

(** ** Registers of a function *)

(** The 32-bit register of function [b] that holds offset [off]. *)
Definition creg (h : H) (bs : list PCIE_INFO_BLOCK) (b off : Z) : Z :=
  match cfg_lookup bs b with Some a => reg h (a + (off - off mod 4)) | None => 0 end.

(** Function [b] is reachable through an ECAM. *)
Definition mapped (bs : list PCIE_INFO_BLOCK) (b : Z) : Prop := is_Some (cfg_lookup bs b).

(** The buses of two ECAMs occupy different addresses. *)
Definition window (b : PCIE_INFO_BLOCK) (a : Z) : Prop :=
  ecam_base b + start_bus_num b * 2 ^ 20 <= a < ecam_base b + (end_bus_num b + 1) * 2 ^ 20.

Definition ecams_disjoint (bs : list PCIE_INFO_BLOCK) : Prop :=
  forall i j bi bj a, bs !! i = Some bi -> bs !! j = Some bj -> window bi a -> window bj a -> i = j.

Lemma good_bdf_fields b :
  bad_bdf b = false -> 0 <= PCIE_EXTRACT_BDF_SEG b < 256 /\ 0 <= PCIE_EXTRACT_BDF_BUS b < 256 /\
    0 <= PCIE_EXTRACT_BDF_DEV b < 32 /\ 0 <= PCIE_EXTRACT_BDF_FUNC b < 8.
Proof.
  unfold bad_bdf, PCIE_MAX_BUS, PCIE_MAX_DEV, PCIE_MAX_FUNC. rewrite !orb_false_iff, !Z.leb_gt.
  destruct (extract_arith b) as (-> & -> & -> & ->). lia.
Qed.

Lemma cfg_offset_arith b :
  bad_bdf b = false ->
  cfg_offset b = PCIE_EXTRACT_BDF_BUS b * 2 ^ 20 + PCIE_EXTRACT_BDF_DEV b * 2 ^ 15 +
                 PCIE_EXTRACT_BDF_FUNC b * 2 ^ 12.
Proof.
  intros Hb. pose proof (good_bdf_fields b Hb).
  unfold cfg_offset, PCIE_MAX_DEV, PCIE_MAX_FUNC. rewrite u32_small; lia.
Qed.

(** Where a mapped function lies. *)
Lemma cfg_lookup_Some bs b a :
  Forall block_ok bs -> cfg_lookup bs b = Some a ->
  bad_bdf b = false /\ exists j e, bs !! j = Some e /\ block_ok e /\
    segment_num e = PCIE_EXTRACT_BDF_SEG b /\ window e a /\ window e (a + 4095) /\
    a = ecam_base e + cfg_offset b /\ 0 <= a /\ a + 4096 <= 2 ^ 64 /\ a mod 4096 = 0.
Proof.
  intros Hok. unfold cfg_lookup. destruct (bad_bdf b) eqn:Hb; [done|].
  destruct (find_first _ bs 0) as [[i e]|] eqn:E; [|done].
  destruct (find_first_Some _ _ _ _ _ E) as (j & -> & Hj & Hc & _).
  destruct (Z.eqb_spec (ecam_base e) 0); [done|]. intros [= <-]. split; [done|].
  assert (He : block_ok e) by (by eapply Forall_lookup_1).
  pose proof He as (Hsg & Hse & Hend & Hal & Hb0 & Hb64).
  pose proof (good_bdf_fields b Hb) as (Fs & Fb & Fd & Ff).
  unfold covers in Hc. rewrite !andb_true_iff, !Z.leb_le, Z.eqb_eq in Hc.
  destruct Hc as [[Hc1 Hc2] Hc3]. pose proof (cfg_offset_arith b Hb) as Ho.
  rewrite u64_small by lia. exists j, e. unfold window. rewrite Ho. split_and!; try done; lia.
Qed.

(** Two different functions, or two offsets of one function, are different addresses. *)
Lemma cfg_lookup_disjoint bs b1 b2 a1 a2 :
  Forall block_ok bs -> ecams_disjoint bs -> 0 <= b1 < 2 ^ 32 -> 0 <= b2 < 2 ^ 32 -> b1 <> b2 ->
  cfg_lookup bs b1 = Some a1 -> cfg_lookup bs b2 = Some a2 ->
  a1 + 4096 <= a2 \/ a2 + 4096 <= a1.
Proof.
  intros Hok Hd Hr1 Hr2 Hne L1 L2.
  destruct (cfg_lookup_Some _ _ _ Hok L1) as (G1 & i & e1 & E1 & _ & S1 & W1 & W1' & A1 & _ & _ & M1).
  destruct (cfg_lookup_Some _ _ _ Hok L2) as (G2 & j & e2 & E2 & _ & S2 & W2 & W2' & A2 & _ & _ & M2).
  assert (Hov : a1 + 4096 <= a2 \/ a2 + 4096 <= a1 \/ a1 = a2) by lia.
  destruct Hov as [?|[?|Heq]]; [by left|by right|]. exfalso. rewrite <- Heq in W2.
  assert (i = j) as -> by (by apply (Hd i j e1 e2 a1)).
  assert (e1 = e2) as -> by congruence. apply Hne.
  rewrite <- (create_extract b1), <- (create_extract b2) by done.
  rewrite (cfg_offset_arith b1 G1), (cfg_offset_arith b2 G2) in *.
  pose proof (good_bdf_fields b1 G1). pose proof (good_bdf_fields b2 G2).
  assert (PCIE_EXTRACT_BDF_BUS b1 = PCIE_EXTRACT_BDF_BUS b2) by lia.
  assert (PCIE_EXTRACT_BDF_DEV b1 = PCIE_EXTRACT_BDF_DEV b2) by lia.
  assert (PCIE_EXTRACT_BDF_FUNC b1 = PCIE_EXTRACT_BDF_FUNC b2) by lia.
  congruence.
Qed.

Lemma read_cfg_spec (s : pcie_state H) bs b off d :
  has_ecams s bs -> mapped bs b -> 0 <= off < 4096 ->
  val_pcie_read_cfg b off d s = Done ((0, creg (hw s) bs b off), s).
Proof.
  intros He [a Ha] Ho. pose proof He as (_ & _ & Hok).
  destruct (cfg_lookup_Some _ _ _ Hok Ha) as (_ & _ & _ & _ & _ & _ & _ & _ & _ & Ha0 & Ha1 & Ham).
  unfold val_pcie_read_cfg, val_pcie_read_cfg_width, creg.
  rewrite (bind_done _ _ _ _ _ (cfg_addr_spec s bs b He)), Ha.
  rewrite u64_small by lia. unfold bind, on_hw, mmio_read_width. rewrite read_reg.
  replace (a + off - (a + off) mod 4) with (a + (off - off mod 4)) by lia.
  by destruct s.
Qed.

Lemma write_cfg_spec (s : pcie_state H) bs b off v :
  has_ecams s bs -> ecams_disjoint bs -> mapped bs b -> 0 <= b < 2 ^ 32 ->
  0 <= off < 4096 -> off mod 4 = 0 ->
  exists h rw w1c, val_pcie_write_cfg b off v s = Done (tt, set_hw h s) /\
    has_ecams (set_hw h s) bs /\
    (forall a, cfg_lookup bs b = Some a -> rw = rw_bits (a + off) /\ w1c = w1c_bits (a + off)) /\
    (forall b' off', 0 <= b' < 2 ^ 32 -> 0 <= off' < 4096 -> mapped bs b' ->
       creg h bs b' off' =
         if (b =? b') && (off =? off' - off' mod 4)
         then u32 (after rw w1c (creg (hw s) bs b off) (u32 v)) else creg (hw s) bs b' off').
Proof.
  intros He Hd [a Ha] Hb Ho Hal. pose proof He as (_ & _ & Hok).
  destruct (cfg_lookup_Some _ _ _ Hok Ha) as (_ & _ & _ & _ & _ & _ & _ & _ & _ & Ha0 & Ha1 & Ham).
  exists (hw_write W32 (a + off) (u32 v) (hw s)), (rw_bits (a + off)), (w1c_bits (a + off)).
  split_and!.
  - unfold val_pcie_write_cfg. rewrite (bind_done _ _ _ _ _ (cfg_addr_spec s bs b He)), Ha.
    by rewrite u64_small by lia.
  - exact He.
  - intros a' Ha'. by replace a' with a by congruence.
  - intros b' off' Hb' Ho' [a' Ha']. unfold creg. rewrite Ha'.
    destruct (cfg_lookup_Some _ _ _ Hok Ha') as (_ & _ & _ & _ & _ & _ & _ & _ & _ & Ha0' & Ha1' & Ham').
    rewrite reg_write by (try apply u32_range; lia).
    destruct (Z.eqb_spec b b') as [<-|Hne]; cbn [andb].
    + assert (a' = a) as -> by congruence. rewrite Ha.
      replace (a + (off - off mod 4)) with (a + off) by lia.
      destruct (Z.eqb_spec (a + off) (a + (off' - off' mod 4))), (Z.eqb_spec off (off' - off' mod 4));
        try lia; done.
    + destruct (cfg_lookup_disjoint bs b b' a a') as [?|?]; try done;
        (destruct (Z.eqb_spec (a + off) (a' + (off' - off' mod 4))); [lia|done]).
Qed.
End CfgLemmas.

(** ** Properties of the accesses *)

Section CfgTheorems.
Context {H : Type} `{RegisterFile H} (s : pcie_state H) (bs : list PCIE_INFO_BLOCK)
  (Hecam : has_ecams s bs) (Hdis : ecams_disjoint bs).

(** the configuration spaces of two functions never overlap: if the
    ECAM windows are disjoint, the addresses [val_pcie_get_bdf_config_addr]
    returns for two different reachable functions are 4 KB aligned and at
    least 4 KB apart, and the call changes nothing. *)
Theorem cfg_spaces_disjoint b1 b2 :
  0 <= b1 < 2 ^ 32 -> 0 <= b2 < 2 ^ 32 -> b1 <> b2 -> mapped bs b1 -> mapped bs b2 ->
  exists a1 a2,
    returns (val_pcie_get_bdf_config_addr b1) s a1 s /\
    returns (val_pcie_get_bdf_config_addr b2) s a2 s /\
    a1 mod 4096 = 0 /\ a2 mod 4096 = 0 /\ (a1 + 4096 <= a2 \/ a2 + 4096 <= a1).
Proof.
  intros Hr1 Hr2 Hne [a1 L1] [a2 L2]. pose proof Hecam as (_ & _ & Hok). exists a1, a2.
  unfold returns, val_pcie_get_bdf_config_addr.
  rewrite (bind_done _ _ _ _ _ (cfg_addr_spec s bs b1 Hecam)), L1.
  rewrite (bind_done _ _ _ _ _ (cfg_addr_spec s bs b2 Hecam)), L2.
  split; [done|]. split; [done|].
  destruct (cfg_lookup_Some _ _ _ Hok L1) as (_ & _ & _ & _ & _ & _ & _ & _ & _ & _ & _ & M1).
  destruct (cfg_lookup_Some _ _ _ Hok L2) as (_ & _ & _ & _ & _ & _ & _ & _ & _ & _ & _ & M2).
  split; [done|]. split; [done|]. by apply (cfg_lookup_disjoint bs b1 b2).
Qed.

(** C26: a configuration write changes the register it names, as the
    attributes of its bits allow, and no other register of any function: a
    later read at the same place returns the written value in the RW bits and
    the old value in the others, with RW1C bits cleared where 1 was written;
    a read anywhere else returns what it did before. *)
Theorem cfg_write_then_read b off v a :
  0 <= b < 2 ^ 32 -> cfg_lookup bs b = Some a -> 0 <= off < 4096 -> off mod 4 = 0 ->
  exists s', returns (val_pcie_write_cfg b off v) s tt s' /\
    (forall d, returns (val_pcie_read_cfg b off d) s'
       (0, u32 (after (rw_bits (a + off)) (w1c_bits (a + off)) (reg (hw s) (a + off)) (u32 v))) s') /\
    (forall b' off' d r, 0 <= b' < 2 ^ 32 -> 0 <= off' < 4096 -> mapped bs b' ->
       b' <> b \/ off' - off' mod 4 <> off ->
       returns (val_pcie_read_cfg b' off' d) s r s -> returns (val_pcie_read_cfg b' off' d) s' r s').
Proof.
  intros Hb Ha Ho Hal. assert (Hm : mapped bs b) by (by eexists).
  destruct (write_cfg_spec s bs b off v Hecam Hdis Hm Hb Ho Hal)
    as (h & rw & w1c & E & He' & Hmask & Hreg).
  destruct (Hmask a Ha) as [-> ->]. exists (set_hw h s). split; [done|]. split.
  - intros d. unfold returns. rewrite (read_cfg_spec _ bs) by done. cbn [hw set_hw].
    rewrite (Hreg b off) by done. rewrite Z.eqb_refl.
    replace (off - off mod 4) with off by lia. rewrite Z.eqb_refl. cbn [andb].
    unfold creg. rewrite Ha. by replace (a + (off - off mod 4)) with (a + off) by lia.
  - intros b' off' d r Hb' Ho' Hm' Hne. unfold returns.
    rewrite (read_cfg_spec s bs), (read_cfg_spec (set_hw h s) bs) by done.
    intros [= <-]. cbn [hw set_hw]. rewrite (Hreg b' off') by done.
    destruct (Z.eqb_spec b b'), (Z.eqb_spec off (off' - off' mod 4)); cbn [andb]; try done. lia.
Qed.

(** ** The walk over BDFs *)

(** The functions of an ECAM, numbered bus by bus, device by device. *)
Definition bdf_at (e : PCIE_INFO_BLOCK) (k : Z) : Z :=
  PCIE_CREATE_BDF (segment_num e) (start_bus_num e + k / 256) ((k / 8) mod 32) (k mod 8).

Definition functions_of (e : PCIE_INFO_BLOCK) : Z := (end_bus_num e - start_bus_num e + 1) * 256.

Lemma bdf_at_fields e q d f :
  0 <= d < 32 -> 0 <= f < 8 ->
  bdf_at e (256 * q + 8 * d + f) = PCIE_CREATE_BDF (segment_num e) (start_bus_num e + q) d f.
Proof.
  intros Hd Hf. unfold bdf_at.
  replace ((256 * q + 8 * d + f) / 256) with q by lia.
  replace ((256 * q + 8 * d + f) / 8) with (32 * q + d) by lia.
  replace ((32 * q + d) mod 32) with d by lia.
  by replace ((256 * q + 8 * d + f) mod 8) with f by lia.
Qed.

Lemma split_function k : exists q d f, 0 <= d < 32 /\ 0 <= f < 8 /\ k = 256 * q + 8 * d + f.
Proof. exists (k / 256), (k / 8 mod 32), (k mod 8). lia. Qed.

Lemma last_ecam_spec n seg i e :
  (n <= length bs)%nat -> bs !! i = Some e -> segment_num e = seg -> (i < n)%nat ->
  (forall j e', (i < j < n)%nat -> bs !! j = Some e' -> segment_num e' <> seg) ->
  last_ecam n seg s = Done (Some (Z.of_nat i), s).
Proof.
  pose proof Hecam as (_ & _ & Hok). intros Hn He Hs. revert Hn.
  induction n as [|n IH]; intros Hn Hi Hne; [lia|].
  destruct (lookup_lt_is_Some_2 bs n) as [e' He']; [lia|].
  destruct (get_info_block s bs n e' Hecam He') as (_ & _ & _ & E4).
  assert (Hbok : block_ok e') by (by eapply Forall_lookup_1). destruct Hbok as (Hsg & _).
  cbn [last_ecam]. rewrite (bind_done _ _ _ _ _ E4), u32_small by lia.
  destruct (decide (i = n)) as [->|Hneq].
  - assert (e' = e) as -> by congruence. by rewrite Hs, Z.eqb_refl.
  - destruct (Z.eqb_spec seg (segment_num e')) as [Eq|].
    + by destruct (Hne n e' ltac:(lia) He').
    + apply IH; [lia|lia|]. intros j e2 Hj. apply Hne. lia.
Qed.

(** [val_pcie_increment_bdf] visits the functions in order: from the
    [k]-th function of ECAM [i] it goes to the next one of that ECAM, from the
    last to the first function of the next ECAM, and from the last function of
    the last ECAM it returns 0, for ECAMs of different segments. *)
Theorem increment_bdf_next i e k :
  bs !! i = Some e -> 0 <= k < functions_of e ->
  (forall j e', bs !! j = Some e' -> segment_num e' = segment_num e -> j = i) ->
  returns (val_pcie_increment_bdf (bdf_at e k)) s
    (if k + 1 <? functions_of e then bdf_at e (k + 1)
     else match bs !! S i with Some e' => bdf_at e' 0 | None => 0 end) s.
Proof.
  intros He Hk Hseg. pose proof Hecam as (_ & Hlen & Hok).
  assert (Hbok : block_ok e) by (by eapply Forall_lookup_1).
  destruct Hbok as (Hsg & Hse & Hend & _). pose proof (lookup_lt_Some _ _ _ He) as Hi.
  destruct (split_function k) as (q & d & f & Hd & Hf & ->).
  unfold functions_of in *. unfold returns, val_pcie_increment_bdf.
  destruct (get_info_block s bs i e Hecam He) as (_ & _ & E5 & _).
  rewrite (bdf_at_fields e q d f) by done.
  destruct (extract_create (segment_num e) (start_bus_num e + q) d f) as (-> & -> & -> & ->);
    [lia..|]. rewrite (bind_done _ _ _ _ _ (get_info_num s bs Hecam)), Nat2Z.id.
  erewrite bind_done; [|apply (last_ecam_spec (length bs) (segment_num e) i e); try done].
  2:{ intros j e' Hj Hj' Heq. rewrite (Hseg j e' Hj' Heq) in Hj. lia. }
  unfold PCIE_MAX_FUNC, PCIE_MAX_DEV.
  destruct (Z.ltb_spec (256 * q + 8 * d + f + 1) ((end_bus_num e - start_bus_num e + 1) * 256)).
  - destruct (Z.ltb_spec f (8 - 1)).
    { rewrite <- Z.add_assoc, bdf_at_fields by lia. done. }
    destruct (Z.ltb_spec d (32 - 1)).
    { replace (256 * q + 8 * d + f + 1) with (256 * q + 8 * (d + 1) + 0) by lia.
      by rewrite bdf_at_fields by lia. }
    rewrite (bind_done _ _ _ _ _ E5), u32_small by lia.
    destruct (Z.ltb_spec (start_bus_num e + q) (end_bus_num e)); [|lia].
    replace (256 * q + 8 * d + f + 1) with (256 * (q + 1) + 8 * 0 + 0) by lia.
    by rewrite bdf_at_fields, Z.add_assoc by lia.
  - destruct (Z.ltb_spec f (8 - 1)); [lia|]. destruct (Z.ltb_spec d (32 - 1)); [lia|].
    rewrite (bind_done _ _ _ _ _ E5), u32_small by lia.
    destruct (Z.ltb_spec (start_bus_num e + q) (end_bus_num e)); [lia|].
    rewrite (bind_done _ _ _ _ _ (get_info_num s bs Hecam)), u32_small by lia.
    replace (Z.of_nat i + 1) with (Z.of_nat (S i)) by lia.
    destruct (bs !! S i) as [e'|] eqn:He'.
    + pose proof (lookup_lt_Some _ _ _ He').
      destruct (Z.ltb_spec (Z.of_nat (S i)) (Z.of_nat (length bs))); [|lia].
      destruct (get_info_block s bs (S i) e' Hecam He') as (_ & E6 & _ & E7).
      assert (Hbok : block_ok e') by (by eapply Forall_lookup_1).
      destruct Hbok as (Hsg' & Hse' & Hend' & _).
      rewrite (bind_done _ _ _ _ _ E6), (bind_done _ _ _ _ _ E7), !u32_small by lia.
      change 0 with (256 * 0 + 8 * 0 + 0) at 3. by rewrite bdf_at_fields, Z.add_0_r by lia.
    + apply lookup_ge_None_1 in He'.
      destruct (Z.ltb_spec (Z.of_nat (S i)) (Z.of_nat (length bs))); [lia|done].
Qed.
End CfgTheorems.

(** [val_pcie_increment_busdev] leaves the valid devices: below device 31
    it goes to the next device, but from device 31 it goes to device 32 of the
    same bus, which every configuration access rejects, and only from there to
    device 0 of the next bus. *)
Theorem increment_busdev_overrun seg bus dev :
  0 <= seg < 256 -> 0 <= bus < 255 -> 0 <= dev < 31 ->
  val_pcie_increment_busdev (PCIE_CREATE_BDF seg bus dev 0) = PCIE_CREATE_BDF seg bus (dev + 1) 0 /\
  bad_bdf (PCIE_CREATE_BDF seg bus (dev + 1) 0) = false /\
  val_pcie_increment_busdev (PCIE_CREATE_BDF seg bus 31 0) = PCIE_CREATE_BDF seg bus 32 0 /\
  bad_bdf (PCIE_CREATE_BDF seg bus 32 0) = true /\
  val_pcie_increment_busdev (PCIE_CREATE_BDF seg bus 32 0) = PCIE_CREATE_BDF seg (bus + 1) 0 0.
Proof.
  intros Hs Hb Hd. unfold val_pcie_increment_busdev, bad_bdf, PCIE_MAX_DEV, PCIE_MAX_BUS, PCIE_MAX_FUNC.
  destruct (extract_create seg bus dev 0) as (-> & -> & -> & _); try lia.
  destruct (extract_create seg bus (dev + 1) 0) as (_ & -> & -> & ->); try lia.
  destruct (extract_create seg bus 31 0) as (-> & -> & -> & _); try lia.
  destruct (extract_create seg bus 32 0) as (-> & -> & -> & ->); try lia.
  destruct (Z.eqb_spec dev 32); [lia|].
  destruct (Z.leb_spec 256 bus), (Z.leb_spec 32 (dev + 1)); try lia. done.
Qed.

Lemma increment_busdev_overrun_witness :
  val_pcie_increment_busdev (PCIE_CREATE_BDF 0 3 31 0) = PCIE_CREATE_BDF 0 3 32 0.
Proof. exact (proj1 (proj2 (proj2 (increment_busdev_overrun 0 3 0 ltac:(lia) ltac:(lia) ltac:(lia))))). Defined.

(** ** A concrete system: two ECAMs, all registers RW but the vendor word *)

Definition ecams0 : list PCIE_INFO_BLOCK :=
  [mk_block 0x30000000 0 0 1; mk_block 0x40000000 1 0 0].
Definition rw0 (a : Z) : Z := if a mod 4096 =? 0 then 0 else 0xFFFFFFFF.
#[export] Instance hw0 : Hardware board := board_hw rw0 (fun _ => 0).
#[export] Instance file0 : RegisterFile board := board_file rw0 (fun _ => 0).
Definition pcie0 : pcie_state board := mk_pcie (Some (mk_info 2 ecams0)) None 0 ∅.

Lemma pcie0_ecams (h : board) : has_ecams (set_hw h pcie0) ecams0.
Proof. split; [done|]. split; [done|]. unfold ecams0, block_ok. repeat constructor; simpl; lia. Qed.

Lemma ecams0_disjoint : ecams_disjoint ecams0.
Proof.
  intros [|[|i]] [|[|j]] bi bj a; simpl; intros; simplify_eq; try done;
    unfold window in *; simpl in *; lia.
Qed.

Lemma cfg_spaces_disjoint_witness :
  exists a1 a2, returns (val_pcie_get_bdf_config_addr 0x00010200) pcie0 a1 pcie0 /\
    returns (val_pcie_get_bdf_config_addr 0x01000000) pcie0 a2 pcie0 /\
    a1 mod 4096 = 0 /\ a2 mod 4096 = 0 /\ (a1 + 4096 <= a2 \/ a2 + 4096 <= a1).
Proof.
  apply (cfg_spaces_disjoint pcie0 ecams0 (pcie0_ecams ∅) ecams0_disjoint 0x00010200 0x01000000);
    try lia; vm_compute; by eexists.
Defined.

Lemma cfg_write_then_read_witness :
  exists s', returns (val_pcie_write_cfg 0x00010200 4 6) pcie0 tt s' /\
    returns (val_pcie_read_cfg 0x00010200 4 0) s' (0, 6) s'.
Proof.
  destruct (cfg_write_then_read pcie0 ecams0 (pcie0_ecams ∅) ecams0_disjoint
    0x00010200 4 6 0x30110000) as (s' & E & R & _); [lia|reflexivity|lia|reflexivity|].
  exists s'. split; [exact E|]. exact (R 0).
Defined.

Lemma increment_bdf_next_witness :
  returns (val_pcie_increment_bdf 0x00011F07) pcie0 0x01000000 pcie0.
Proof.
  refine (increment_bdf_next pcie0 ecams0 (pcie0_ecams ∅) 0 (mk_block 0x30000000 0 0 1) 511 eq_refl _ _).
  - vm_compute. split; congruence.
  - intros [|[|j]] e'; simpl; intros; simplify_eq; done.
Defined.
