(* ===== verification/PcieCap.v ===== *)
(** * Capability lists and what they tell about a function

    Models [val_pcie_find_capability] and the functions of
    [val/src/acs_pcie.c] that classify a function or read a field of its
    capabilities. *)

From S2P Require Import Prelude Mmio PcieCfg.

(** Register offsets and fields of [bsa_acs_pcie_spec.h]. *)
Definition TYPE01_VIDR : Z := 0x0.
Definition TYPE01_CR : Z := 0x4.
Definition TYPE01_RIDR : Z := 0x8.
Definition TYPE01_CLSR : Z := 0xc.
Definition TYPE01_BAR : Z := 0x10.
Definition TYPE01_CPR : Z := 0x34.
Definition TYPE1_PBN : Z := 0x18.
Definition TYPE1_SEC_STA : Z := 0x1C.
Definition TYPE01_HTR_SHIFT : Z := 16.
Definition TYPE0_HEADER : Z := 0.
Definition TYPE1_HEADER : Z := 1.
Definition CC_SUB_SHIFT : Z := 16.
Definition CC_BASE_SHIFT : Z := 24.
Definition HB_BASE_CLASS : Z := 0x06.
Definition HB_SUB_CLASS : Z := 0x00.
Definition SECBN_SHIFT : Z := 8.
Definition SUBBN_SHIFT : Z := 16.
Definition PCIE_ECAP_START : Z := 0x100.
Definition PCIE_NCPR_SHIFT : Z := 8.
Definition PCIE_ECAP_NCPR_SHIFT : Z := 20.
Definition CID_PCIECS : Z := 0x10.
Definition ECID_PASID : Z := 0x1B.
Definition CIDR_OFFSET : Z := 0x0.
Definition PCIECR_OFFSET : Z := 0x2.
Definition DCTLR_OFFSET : Z := 0x8.
Definition LCAPR_OFFSET : Z := 0xC.
Definition LCTRLR_OFFSET : Z := 0x10.
Definition LCAP2R_OFFSET : Z := 0x2C.
Definition LCTL2R_OFFSET : Z := 0x30.
Definition PCIECR_DPT_SHIFT : Z := 4.
Definition PASID_CAPABILITY_OFFSET : Z := 0x4.
Definition MAX_PASID_MASK : Z := 0x1F00.
Definition MAX_PASID_SHIFT : Z := 8.
Definition LCAPR_DLLLARC_MASK : Z := 0x100000.
Definition LCAPR_DLLLARC_SHIFT : Z := 20.
Definition LSTAT_DLLLA_MASK : Z := 0x20000000.
Definition LSTAT_DLLLA_SHIFT : Z := 29.
Definition PCIE_DLL_LINK_ACTIVE_NOT_SUPPORTED : Z := 2.
Definition DCTLR_DSR_SHIFT : Z := 16.
Definition DSR_TP_SHIFT : Z := 5.
Definition RCiEP : Z := Z.shiftl 1 9.
Definition RCEC : Z := Z.shiftl 1 10.
Definition EP : Z := Z.shiftl 1 0.
Definition RP : Z := Z.shiftl 1 4.
Definition iEP_EP : Z := Z.shiftl 1 12.
Definition iEP_RP : Z := Z.shiftl 1 11.

(** The hooks a platform port fills in. *)
Class Platform := {
  pal_pcie_is_onchip_peripheral : Z -> Z;
  pal_pcie_check_device_valid : Z -> Z;
  pal_pcie_check_device_list : Z }.

(** The UEFI port: nothing is on chip, every device is valid. *)
Definition uefi_platform : Platform := {|
  pal_pcie_is_onchip_peripheral := fun _ => 0;
  pal_pcie_check_device_valid := fun _ => 0;
  pal_pcie_check_device_list := 0 |}.

Inductive BITFIELD_REGISTER_TYPE := HEADER | PCIE_CAP | PCIE_ECAP.

Section Cap.
Context {H : Type} `{Hardware H, Uninit, Platform}.
Local Abbreviation P := (prog (pcie_state H)).

(** ** [val_pcie_find_capability] *)

(** How a capability word names its id and the next capability. *)
Definition cap_id (t : BITFIELD_REGISTER_TYPE) (w : Z) : Z :=
  match t with PCIE_CAP => Z.land w 0xff | _ => Z.land w 0xffff end.
Definition cap_next (t : BITFIELD_REGISTER_TYPE) (w : Z) : Z :=
  match t with
  | PCIE_CAP => Z.land (Z.shiftr w PCIE_NCPR_SHIFT) 0xff
  | _ => Z.land (Z.shiftr w PCIE_ECAP_NCPR_SHIFT) 0xfff
  end.

(** The [while (next_cap_offset)] loop; [reg_value] is the local the reads fill. *)
Fixpoint cap_walk (fuel : nat) (t : BITFIELD_REGISTER_TYPE) (b cid next reg_value : Z)
    : P (Z * option Z) :=
  match fuel with
  | O => diverge
  | S f =>
      if next =? 0 then ret (PCIE_CAP_NOT_FOUND, None) else
      let* r := val_pcie_read_cfg b next reg_value in
      if cap_id t r.2 =? cid then ret (PCIE_SUCCESS, Some next)
      else cap_walk f t b cid (cap_next t r.2) r.2
  end.

(** Offsets are 8 and 12 bits wide, and 0 ends the list. *)
Definition cap_fuel (t : BITFIELD_REGISTER_TYPE) : nat :=
  match t with PCIE_CAP => 257 | _ => 4097 end.

(** The status, and the offset when [*cid_offset] is written. *)
Definition val_pcie_find_capability (b : Z) (cid_type : BITFIELD_REGISTER_TYPE) (cid : Z)
    : P (Z * option Z) :=
  match cid_type with
  | PCIE_CAP =>
      let* r := val_pcie_read_cfg b TYPE01_CPR (uninit "reg_value") in
      if (r.1 =? PCIE_NO_MAPPING) || (r.2 =? PCIE_UNKNOWN_RESPONSE) then ret (r.1, None)
      else cap_walk (cap_fuel PCIE_CAP) PCIE_CAP b cid (Z.land r.2 0xff) r.2
  | PCIE_ECAP =>
      cap_walk (cap_fuel PCIE_ECAP) PCIE_ECAP b cid PCIE_ECAP_START (uninit "reg_value")
  | HEADER => ret (PCIE_CAP_NOT_FOUND, None)
  end.

(** The callers that ignore the status use whatever [pciecs_base] holds. *)
Definition find_pciecs (b : Z) : P Z :=
  let* r := val_pcie_find_capability b PCIE_CAP CID_PCIECS in
  ret (default (uninit "pciecs_base") r.2).

(** ** Fields of the header *)

Definition val_pcie_function_header_type (b : Z) : P Z :=
  let* r := val_pcie_read_cfg b TYPE01_CLSR (uninit "reg_value") in
  ret (Z.land (Z.land (Z.shiftr r.2 TYPE01_HTR_SHIFT) 0xff) 0x7f).

Definition val_pcie_multifunction_support (b : Z) : P Z :=
  let* r := val_pcie_read_cfg b TYPE01_CLSR (uninit "reg_data") in
  let htr := Z.land (Z.shiftr r.2 TYPE01_HTR_SHIFT) 0xff in
  ret (if Z.land (Z.shiftr htr 7) 1 =? 0 then 1 else 0).

Definition is_bridge_class (w : Z) : bool :=
  (Z.land (Z.shiftr w CC_BASE_SHIFT) 0xFF =? HB_BASE_CLASS) &&
  (Z.land (Z.shiftr w CC_SUB_SHIFT) 0xFF =? HB_SUB_CLASS).

Definition val_pcie_is_host_bridge (b : Z) : P Z :=
  let* r := val_pcie_read_cfg b TYPE01_RIDR (uninit "reg_value") in
  ret (if is_bridge_class r.2 then 1 else 0).

Definition PCIE_HEADER_TYPE (w : Z) : Z := Z.land (Z.shiftr w 16) 0x3.

Definition val_pcie_get_device_type (b : Z) : P Z :=
  let* r := val_pcie_read_cfg b TYPE01_CLSR (uninit "header_type") in
  if negb (PCIE_HEADER_TYPE r.2 =? TYPE0_HEADER) then
    let* c := val_pcie_read_cfg b TYPE01_RIDR (uninit "class_code") in
    if is_bridge_class c.2 then ret 2 else ret 3
  else ret 1.

Definition val_pcie_check_interrupt_status (b : Z) : P Z :=
  let* r := val_pcie_read_cfg b TYPE01_CR (uninit "reg_value") in
  ret (Z.land (Z.shiftr r.2 19) 1).

(** ** Fields of the PCI Express capability *)

Definition val_pcie_device_port_type (b : Z) : P Z :=
  let* base := find_pciecs b in
  let* r := val_pcie_read_cfg b (u32 (base + CIDR_OFFSET)) (uninit "reg_value") in
  if negb (r.1 =? 0) then ret PCIE_UNKNOWN_RESPONSE else
  let dp_type := Z.shiftl 1 (Z.land (Z.shiftr r.2 ((PCIECR_OFFSET - CIDR_OFFSET) * 8 +
                                                   PCIECR_DPT_SHIFT)) 0xf) in
  if negb (pal_pcie_is_onchip_peripheral b =? 0) then
    if dp_type =? EP then ret iEP_EP
    else if dp_type =? RP then ret iEP_RP else ret dp_type
  else ret dp_type.

Definition val_pcie_data_link_layer_status (b : Z) : P Z :=
  let* base := find_pciecs b in
  let* r := val_pcie_read_cfg b (u32 (base + LCAPR_OFFSET)) (uninit "data_link_report") in
  if negb (Z.shiftr (Z.land r.2 LCAPR_DLLLARC_MASK) LCAPR_DLLLARC_SHIFT =? 0) then
    let* base := find_pciecs b in
    let* r := val_pcie_read_cfg b (u32 (base + LCTRLR_OFFSET)) (uninit "dll_status") in
    ret (Z.shiftr (Z.land r.2 LSTAT_DLLLA_MASK) LSTAT_DLLLA_SHIFT)
  else ret PCIE_DLL_LINK_ACTIVE_NOT_SUPPORTED.

Definition val_pcie_link_cap_support (b : Z) : P Z :=
  let* base := find_pciecs b in
  let* r := val_pcie_read_cfg b (u32 (base + LCAPR_OFFSET)) 0xFFFFFFFF in
  if negb (r.2 =? 0) then ret 1 else
  let* r := val_pcie_read_cfg b (u32 (base + LCTRLR_OFFSET)) 0xFFFFFFFF in
  if negb (r.2 =? 0) then ret 1 else
  let* r := val_pcie_read_cfg b (u32 (base + LCAP2R_OFFSET)) 0xFFFFFFFF in
  if negb (r.2 =? 0) then ret 1 else
  let* r := val_pcie_read_cfg b (u32 (base + LCTL2R_OFFSET)) 0xFFFFFFFF in
  if negb (r.2 =? 0) then ret 1 else ret 0.

Definition val_is_transaction_pending_set (b : Z) : P Z :=
  let* base := find_pciecs b in
  let* r := val_pcie_read_cfg b (u32 (base + DCTLR_OFFSET)) (uninit "reg_value") in
  if negb (r.1 =? 0) then ret 1
  else if negb (Z.land r.2 (Z.shiftl 1 (DCTLR_DSR_SHIFT + DSR_TP_SHIFT)) =? 0) then ret 1
  else ret 0.

(** Status and the value stored through [max_pasid_width]; [old] is what it held. *)
Definition val_pcie_get_max_pasid_width (b old : Z) : P (Z * Z) :=
  let* r := val_pcie_find_capability b PCIE_ECAP ECID_PASID in
  if negb (r.1 =? 0) then ret (r.1, old) else
  let* v := val_pcie_read_cfg b (u32 (default (uninit "pciecs_base") r.2 + PASID_CAPABILITY_OFFSET)) old in
  ret (0, Z.shiftr (Z.land v.2 MAX_PASID_MASK) MAX_PASID_SHIFT).
End Cap.

(** ** The search finds the first capability of the list *)

Section CapTheorems.
Context {H : Type} `{RegisterFile H, Uninit, Platform}.
Context (s : pcie_state H) (bs : list PCIE_INFO_BLOCK) (b : Z)
  (Hecam : has_ecams s bs) (Hmap : mapped bs b).

(** The word at an offset of the function. *)
Definition word (off : Z) : Z := creg (hw s) bs b off.

(** The offsets of the list that starts at an offset, up to its end. *)
Inductive cap_chain (t : BITFIELD_REGISTER_TYPE) : Z -> list Z -> Prop :=
| chain_end : cap_chain t 0 []
| chain_next off l : off <> 0 -> cap_chain t (cap_next t (word off)) l -> cap_chain t off (off :: l).

Lemma chain_unique t off l l' : cap_chain t off l -> cap_chain t off l' -> l = l'.
Proof.
  intros Hl. revert l'. induction Hl as [|off l Hne Hl IH]; intros l' Hl'; inversion Hl'; subst; try done.
  f_equal. by apply IH.
Qed.

Lemma chain_suffix t off l x : cap_chain t off l -> x ∈ l -> exists l', cap_chain t x l' /\ (length l' <= length l)%nat.
Proof.
  induction 1 as [|off l Hne Hl IH]; intros Hx; [by apply not_elem_of_nil in Hx|].
  apply elem_of_cons in Hx as [->|Hx].
  - exists (off :: l). split; [by constructor|done].
  - destruct (IH Hx) as (l' & Hl' & Hlen). exists l'. split; [done|]. simpl. lia.
Qed.

(** A list that ends visits no offset twice. *)
Lemma chain_NoDup t off l : cap_chain t off l -> NoDup l.
Proof.
  induction 1 as [|off l Hne Hl IH]; constructor; [|done]. intros Hin.
  destruct (chain_suffix _ _ _ _ Hl Hin) as (l' & Hl' & Hlen).
  assert (E : l' = off :: l) by (eapply chain_unique; [done|by constructor]).
  rewrite E in Hlen. simpl in Hlen. lia.
Qed.

Definition cap_limit (t : BITFIELD_REGISTER_TYPE) : Z :=
  match t with PCIE_CAP => 256 | _ => 4096 end.

Lemma cap_next_range t w : 0 <= cap_next t w < cap_limit t.
Proof.
  destruct t; unfold cap_next, cap_limit; rewrite ?land_255, ?land_4095; lia.
Qed.

Lemma chain_range t off l :
  cap_chain t off l -> 0 <= off < cap_limit t -> forall x, x ∈ l -> 0 < x < cap_limit t.
Proof.
  induction 1 as [|off l Hne Hl IH]; intros Ho x Hx; [by apply not_elem_of_nil in Hx|].
  apply elem_of_cons in Hx as [->|Hx]; [lia|]. apply IH; [apply cap_next_range|done].
Qed.

(** So a list that ends is shorter than the fuel of the search. *)
Lemma chain_length t off l :
  cap_chain t off l -> 0 <= off < cap_limit t -> (length l < cap_fuel t)%nat.
Proof.
  intros Hl Ho.
  assert (Hsub : l ⊆+ (Z.of_nat <$> seq 1 (Z.to_nat (cap_limit t) - 1))).
  { apply NoDup_submseteq; [by eapply chain_NoDup|]. intros x Hx.
    pose proof (chain_range _ _ _ Hl Ho x Hx). apply list_elem_of_fmap.
    exists (Z.to_nat x). split; [lia|]. apply elem_of_seq. lia. }
  apply submseteq_length in Hsub. rewrite length_fmap, length_seq in Hsub.
  destruct t; unfold cap_fuel, cap_limit in *; lia.
Qed.

Definition search_result (t : BITFIELD_REGISTER_TYPE) (cid : Z) (l : list Z) : Z * option Z :=
  match find_first (fun off => cap_id t (word off) =? cid) l 0 with
  | Some (_, off) => (PCIE_SUCCESS, Some off)
  | None => (PCIE_CAP_NOT_FOUND, None)
  end.

Lemma cap_walk_spec t cid off l fuel d :
  cap_chain t off l -> 0 <= off < cap_limit t -> (length l < fuel)%nat ->
  cap_walk fuel t b cid off d s = Done (search_result t cid l, s).
Proof.
  intros Hl. revert fuel d. induction Hl as [|off l Hne Hl IH]; intros fuel d Ho Hf;
    (destruct fuel as [|fuel]; [simpl in Hf; lia|]); cbn [cap_walk].
  - done.
  - destruct (Z.eqb_spec off 0); [done|].
    erewrite bind_done; [|apply (read_cfg_spec s bs); [done|done|destruct t; simpl in Ho; lia]].
    cbn [snd]. change (creg (hw s) bs b off) with (word off).
    unfold search_result. cbn [find_first]. destruct (cap_id t (word off) =? cid); [done|].
    rewrite IH; [|apply cap_next_range|simpl in Hf; lia]. unfold search_result.
    pose proof (find_first_shift (fun o => cap_id t (word o) =? cid) l 0 (0 + 1)) as E.
    destruct (find_first _ l 0) as [[]|], (find_first _ l (0 + 1)) as [[]|]; simplify_eq/=; done.
Qed.

(** Where the search starts. *)
Definition cap_start (t : BITFIELD_REGISTER_TYPE) : Z :=
  match t with PCIE_CAP => Z.land (word TYPE01_CPR) 0xff | _ => PCIE_ECAP_START end.

Lemma find_cap_chain t cid l :
  t <> HEADER -> (t = PCIE_CAP -> word TYPE01_CPR <> PCIE_UNKNOWN_RESPONSE) ->
  cap_chain t (cap_start t) l ->
  val_pcie_find_capability b t cid s = Done (search_result t cid l, s).
Proof.
  intros Ht Hw Hl. unfold val_pcie_find_capability.
  assert (Hr : 0 <= cap_start t < cap_limit t).
  { destruct t; [done| |vm_compute; by split]. unfold cap_start, cap_limit.
    rewrite land_255. lia. }
  destruct t; [done| |].
  - erewrite bind_done; [|apply (read_cfg_spec s bs); [done|done|vm_compute; by split]].
    cbn [fst snd]. change (creg (hw s) bs b TYPE01_CPR) with (word TYPE01_CPR).
    destruct (Z.eqb_spec (word TYPE01_CPR) PCIE_UNKNOWN_RESPONSE); [by destruct Hw|].
    cbn [Z.eqb PCIE_NO_MAPPING orb]. apply cap_walk_spec; [done|done|]. by apply chain_length in Hl.
  - apply cap_walk_spec; [done|done|]. by apply chain_length in Hl.
Qed.

(** C27: the capability search terminates on every list that ends and returns
    the first match: if the offsets [l] are those the function's (extended)
    capability list visits before its end, the search returns SUCCESS and the
    first offset of [l] whose id is [cid], or CAP_NOT_FOUND when none has it;
    it changes nothing. *)
Theorem find_capability_first t cid l :
  t <> HEADER -> (t = PCIE_CAP -> word TYPE01_CPR <> PCIE_UNKNOWN_RESPONSE) ->
  cap_chain t (cap_start t) l ->
  returns (val_pcie_find_capability b t cid) s (search_result t cid l) s.
Proof.
  intros Ht Hw Hl. apply (find_cap_chain t cid l Ht Hw Hl).
Qed.

(** a function whose registers read all ones is not handled alike: the
    search of the standard list returns SUCCESS and leaves the offset unset,
    and the search of the extended list never ends (no number of rounds is
    enough), for every id but 0xFFFF. *)
Theorem find_capability_all_ones cid :
  (forall off, word off = PCIE_UNKNOWN_RESPONSE) -> cid <> 0xFFFF ->
  returns (val_pcie_find_capability b PCIE_CAP cid) s (PCIE_SUCCESS, None) s /\
  forall fuel d, cap_walk fuel PCIE_ECAP b cid PCIE_ECAP_START d s = Diverges.
Proof.
  intros Hw Hcid. split.
  - unfold returns, val_pcie_find_capability.
    erewrite bind_done; [|apply (read_cfg_spec s bs); [done|done|vm_compute; by split]].
    cbn [fst snd]. change (creg (hw s) bs b TYPE01_CPR) with (word TYPE01_CPR).
    by rewrite Hw, Z.eqb_refl, orb_true_r.
  - assert (Hstep : forall fuel off d, off = PCIE_ECAP_START \/ off = 0xFFF ->
      cap_walk fuel PCIE_ECAP b cid off d s = Diverges).
    { induction fuel as [|fuel IH]; intros off d Ho; [done|]. cbn [cap_walk].
      destruct (Z.eqb_spec off 0) as [->|]; [by destruct Ho|].
      erewrite bind_done; [|apply (read_cfg_spec s bs); [done|done|]].
      2:{ destruct Ho as [-> | ->]; vm_compute; by split. }
      cbn [snd]. change (creg (hw s) bs b off) with (word off). rewrite Hw.
      change (cap_id PCIE_ECAP PCIE_UNKNOWN_RESPONSE) with 0xFFFF.
      destruct (Z.eqb_spec 0xFFFF cid); [congruence|]. apply IH. by right. }
    intros fuel d. apply Hstep. by left.
Qed.
End CapTheorems.

(** ** The search depends on the words of the list only *)

Section CapExt.
Context {H : Type} `{RegisterFile H, Uninit, Platform} (bs : list PCIE_INFO_BLOCK) (b : Z).

Lemma chain_ext (s s' : pcie_state H) t off l :
  (forall o, o ∈ l -> word s' bs b o = word s bs b o) ->
  cap_chain s bs b t off l -> cap_chain s' bs b t off l.
Proof.
  intros Hw Hl. induction Hl as [|off l Hne Hl IH]; [constructor|]. constructor; [done|].
  rewrite Hw by left. apply IH. intros o Ho. apply Hw. by right.
Qed.

Lemma search_result_ext (s s' : pcie_state H) t cid l :
  (forall o, o ∈ l -> word s' bs b o = word s bs b o) ->
  search_result s' bs b t cid l = search_result s bs b t cid l.
Proof.
  intros Hw. unfold search_result. generalize 0.
  induction l as [|x l IH]; intros z; [done|]. cbn [find_first]. rewrite Hw by left.
  destruct (cap_id t (word s bs b x) =? cid); [done|]. apply IH. intros y Hy. apply Hw. by right.
Qed.

(** The match is an offset of the list. *)
Lemma search_result_in (s : pcie_state H) t cid l st off :
  search_result s bs b t cid l = (st, Some off) -> off ∈ l.
Proof.
  unfold search_result. destruct (find_first _ l 0) as [[i o]|] eqn:E; [|done].
  intros [= _ <-]. destruct (find_first_Some _ _ _ _ _ E) as (k & _ & Hk & _).
  by eapply list_elem_of_lookup_2.
Qed.
End CapExt.

(** ** A function with two capabilities, and one that does not answer *)

#[export] Instance uninit0 : Uninit := fun _ => 0.
#[export] Instance platform0 : Platform := uefi_platform.

(** An endpoint at 0:01:02.0: power management at 0x40, PCI Express at 0x60. *)
Definition board1 : board :=
  {[ 0x30110034 := 0x40; 0x30110040 := 0x6001; 0x30110060 := 0x00020010 ]}.
Definition pcie1 : pcie_state board := set_hw board1 pcie0.
Definition ep1 : Z := 0x00010200.

Lemma ep1_mapped : mapped ecams0 ep1.
Proof. vm_compute. by eexists. Qed.

Lemma find_capability_first_witness :
  returns (val_pcie_find_capability ep1 PCIE_CAP CID_PCIECS) pcie1 (PCIE_SUCCESS, Some 0x60) pcie1.
Proof.
  refine (find_capability_first pcie1 ecams0 ep1 (pcie0_ecams board1) ep1_mapped
    PCIE_CAP CID_PCIECS [0x40; 0x60] _ _ _).
  - discriminate.
  - intros _. vm_compute. discriminate.
  - apply chain_next; [vm_compute; discriminate|]. apply chain_next; [vm_compute; discriminate|].
    apply chain_end.
Defined.

Lemma find_capability_all_ones_witness :
  returns (val_pcie_find_capability ep1 PCIE_CAP CID_PCIECS) pcie0 (PCIE_SUCCESS, None) pcie0.
Proof.
  refine (proj1 (find_capability_all_ones pcie0 ecams0 ep1 (pcie0_ecams ∅) ep1_mapped CID_PCIECS _ _)).
  - intros off. unfold word, creg. destruct ep1_mapped as [a Ha].
    change (cfg_lookup ecams0 ep1) with (Some 0x30110000). reflexivity.
  - discriminate.
Defined.
