(* ===== verification/PcieRegs.v ===== *)
(** * Register updates and the bit-field check

    Models the read-modify-write functions of [val/src/acs_pcie.c] on the
    command, device control and device status registers, and
    [val_pcie_bitfield_check] with [val_pcie_register_bitfields_check]. *)

From S2P Require Import Prelude Mmio PcieCfg PcieCap.

Definition CR_MSE_SHIFT : Z := 1.
Definition CR_BME_SHIFT : Z := 2.
Definition CR_SERRE_SHIFT : Z := 8.
Definition SR_STA_SHIFT : Z := 27.
Definition SSR_STA_SHIFT : Z := 27.
Definition DCTLR_MASK : Z := 0xffff.
Definition DSR_URD_SHIFT : Z := 3.
Definition ACS_STATUS_SKIP : Z := 0x10000000.

Section Regs.
Context {H : Type} `{Hardware H, Uninit, Platform}.
Local Abbreviation P := (prog (pcie_state H)).

(** ** Command register *)

Definition val_pcie_disable_bme (b : Z) : P unit :=
  let* r := val_pcie_read_cfg b TYPE01_CR (uninit "reg_value") in
  let dis_mask := u32 (Z.lnot (Z.shiftl 1 CR_BME_SHIFT)) in
  val_pcie_write_cfg b TYPE01_CR (Z.land r.2 dis_mask).

Definition val_pcie_enable_bme (b : Z) : P unit :=
  let* r := val_pcie_read_cfg b TYPE01_CR (uninit "reg_value") in
  val_pcie_write_cfg b TYPE01_CR (Z.lor r.2 (Z.shiftl 1 CR_BME_SHIFT)).

Definition val_pcie_disable_msa (b : Z) : P unit :=
  let* r := val_pcie_read_cfg b TYPE01_CR (uninit "reg_value") in
  let dis_mask := u32 (Z.lnot (Z.shiftl 1 CR_MSE_SHIFT)) in
  val_pcie_write_cfg b TYPE01_CR (Z.land r.2 dis_mask).

Definition val_pcie_enable_msa (b : Z) : P unit :=
  let* r := val_pcie_read_cfg b TYPE01_CR (uninit "reg_value") in
  val_pcie_write_cfg b TYPE01_CR (Z.lor r.2 (Z.shiftl 1 CR_MSE_SHIFT)).

Definition val_pcie_is_msa_enabled (b : Z) : P Z :=
  let* r := val_pcie_read_cfg b TYPE01_CR (uninit "reg_value") in
  ret (if negb (Z.land r.2 (Z.shiftl 1 CR_MSE_SHIFT) =? 0) then 0 else 1).

(** ** Device status *)

Definition val_pcie_clear_urd (b : Z) : P unit :=
  let* base := find_pciecs b in
  let* r := val_pcie_read_cfg b (u32 (base + DCTLR_OFFSET)) (uninit "reg_value") in
  let v := Z.lor (Z.land r.2 DCTLR_MASK) (Z.shiftl 1 (DCTLR_DSR_SHIFT + DSR_URD_SHIFT)) in
  val_pcie_write_cfg b (u32 (base + DCTLR_OFFSET)) v.

Definition val_pcie_is_urd (b : Z) : P Z :=
  let* base := find_pciecs b in
  let* r := val_pcie_read_cfg b (u32 (base + DCTLR_OFFSET)) (uninit "reg_value") in
  let v := Z.land (Z.shiftr r.2 DCTLR_DSR_SHIFT) 0xffff in
  ret (if negb (Z.land (Z.shiftr v DSR_URD_SHIFT) 1 =? 0) then 1 else 0).

Definition val_pcie_clear_device_status_error (b : Z) : P unit :=
  let* base := find_pciecs b in
  let* r := val_pcie_read_cfg b (u32 (base + DCTLR_OFFSET)) (uninit "reg_value") in
  val_pcie_write_cfg b (u32 (base + DCTLR_OFFSET)) (Z.lor r.2 (Z.shiftl 0xF DCTLR_DSR_SHIFT)).

Definition val_pcie_is_device_status_error (b : Z) : P Z :=
  let* base := find_pciecs b in
  let* r := val_pcie_read_cfg b (u32 (base + DCTLR_OFFSET)) (uninit "reg_value") in
  ret (if negb (Z.land r.2 (Z.shiftl 0xF DCTLR_DSR_SHIFT) =? 0) then 1 else 0).

Definition val_pcie_clear_sig_target_abort (b : Z) : P unit :=
  let* r := val_pcie_read_cfg b TYPE01_CR (uninit "status_val") in
  val_pcie_write_cfg b TYPE01_CR (Z.lor r.2 (Z.shiftl 1 SR_STA_SHIFT)) ;;;
  let* r := val_pcie_read_cfg b TYPE1_SEC_STA (uninit "sec_status_val") in
  val_pcie_write_cfg b TYPE1_SEC_STA (Z.lor r.2 (Z.shiftl 1 SSR_STA_SHIFT)).

Definition val_pcie_is_sig_target_abort (b : Z) : P Z :=
  let* r1 := val_pcie_read_cfg b TYPE01_CR (uninit "status_val") in
  let* r2 := val_pcie_read_cfg b TYPE1_SEC_STA (uninit "sec_status_val") in
  ret (if negb (Z.land (Z.shiftr r1.2 SR_STA_SHIFT) 1 =? 0) ||
          negb (Z.land (Z.shiftr r2.2 SSR_STA_SHIFT) 1 =? 0) then 1 else 0).

(** ** Error reporting *)

(** CERE, NFERE, FERE and URRE, bits 0 to 3 of device control. *)
Definition ERU_BITS : Z :=
  Z.lor (Z.lor (Z.lor (Z.shiftl 1 0) (Z.shiftl 1 1)) (Z.shiftl 1 2)) (Z.shiftl 1 3).

Definition val_pcie_enable_eru (b : Z) : P unit :=
  let* r := val_pcie_read_cfg b TYPE01_CR (uninit "reg_value") in
  val_pcie_write_cfg b TYPE01_CR (Z.lor r.2 (Z.shiftl 1 CR_SERRE_SHIFT)) ;;;
  let* base := find_pciecs b in
  let* r := val_pcie_read_cfg b (u32 (base + DCTLR_OFFSET)) r.2 in
  val_pcie_write_cfg b (u32 (base + DCTLR_OFFSET)) (Z.lor r.2 ERU_BITS).

Definition val_pcie_disable_eru (b : Z) : P unit :=
  let* r := val_pcie_read_cfg b TYPE01_CR (uninit "reg_value") in
  let dis_mask := u32 (Z.lnot (Z.shiftl 1 CR_SERRE_SHIFT)) in
  val_pcie_write_cfg b TYPE01_CR (Z.land r.2 dis_mask) ;;;
  let* base := find_pciecs b in
  let* r := val_pcie_read_cfg b (u32 (base + DCTLR_OFFSET)) r.2 in
  val_pcie_write_cfg b (u32 (base + DCTLR_OFFSET)) (Z.land r.2 (u32 (Z.lnot ERU_BITS))).

(** ** The bit-field check *)

Inductive BITFIELD_ATTR_TYPE :=
  HW_INIT | READ_ONLY | STICKY_RO | RSVDP_RO | RSVDZ_RO | READ_WRITE | STICKY_RW.

Record pcie_cfgreg_bitfield_entry := mk_bf {
  reg_type : BITFIELD_REGISTER_TYPE;
  bf_cap_id : Z;
  bf_ecap_id : Z;
  reg_offset : Z;
  dev_port_bitmask : Z;
  bf_start : Z;
  bf_end : Z;
  cfg_value : Z;
  attr : BITFIELD_ATTR_TYPE;
  err_str1 : string;
  err_str2 : string }.

Definition REG_MASK (e st : Z) : Z :=
  Z.shiftr (Z.land (u32 (Z.shiftl 0xFFFFFFFF st)) (u32 (u32 (Z.shiftl 1 (e + 1)) - 1))) st.
Definition REG_SHIFT (align st : Z) : Z := align * 8 + st.

Definition is_warning (str : string) : bool := String.prefix "WARNING" str.

(** The base the entry is relative to: status and [cap_base]. *)
Definition bf_base (b : Z) (bf : pcie_cfgreg_bitfield_entry) : P (Z * Z) :=
  match reg_type bf with
  | HEADER => ret (PCIE_SUCCESS, 0)
  | PCIE_CAP => let* r := val_pcie_find_capability b PCIE_CAP (bf_cap_id bf) in
                ret (r.1, default (uninit "cap_base") r.2)
  | PCIE_ECAP => let* r := val_pcie_find_capability b PCIE_ECAP (bf_ecap_id bf) in
                 ret (r.1, default (uninit "cap_base") r.2)
  end.

(** The attribute test at register [off]: the two values compared, from the
    register value, the mask of the field in place, the field mask and shift. *)
Definition attr_check (b off v placed mask shift : Z) (a : BITFIELD_ATTR_TYPE) : P (Z * Z) :=
  match a with
  | HW_INIT | READ_ONLY | STICKY_RO =>
      val_pcie_write_cfg b off (Z.lxor v placed) ;;;
      let* r := val_pcie_read_cfg b off (Z.lxor v placed) in ret (r.2, v)
  | RSVDP_RO =>
      val_pcie_write_cfg b off v ;;;
      let* r := val_pcie_read_cfg b off v in ret (Z.land (Z.shiftr r.2 shift) mask, 0)
  | RSVDZ_RO =>
      val_pcie_write_cfg b off (Z.land v (u32 (Z.lnot placed))) ;;;
      let* r := val_pcie_read_cfg b off (Z.land v (u32 (Z.lnot placed))) in ret (r.2, v)
  | READ_WRITE | STICKY_RW =>
      val_pcie_write_cfg b off (Z.lxor v placed) ;;;
      let* r := val_pcie_read_cfg b off v in
      val_pcie_write_cfg b off v ;;; ret (Z.lxor v placed, r.2)
  end.

(** Shifting by 32 or more is undefined. *)
Definition val_pcie_bitfield_check (b : Z) (bf : pcie_cfgreg_bitfield_entry) : P Z :=
  let align := Z.land (reg_offset bf) 0x3 in
  let offset := reg_offset bf - align in
  let* base := bf_base b bf in
  if negb (base.1 =? PCIE_SUCCESS) then ret base.1 else
  let off := u32 (base.2 + offset) in
  let* r := val_pcie_read_cfg b off (uninit "reg_value") in
  val_pcie_write_cfg b off r.2 ;;;
  let* r := val_pcie_read_cfg b off r.2 in
  let shift := REG_SHIFT align (bf_start bf) in
  if (31 <=? bf_end bf) || (32 <=? shift) then undef else
  let mask := REG_MASK (bf_end bf) (bf_start bf) in
  if negb (Z.land (Z.shiftr r.2 shift) mask =? cfg_value bf) then
    ret (if is_warning (err_str1 bf) then 0 else 1)
  else
    let* c := attr_check b off r.2 (u32 (Z.shiftl mask shift)) mask shift (attr bf) in
    if negb (c.1 =? c.2) then ret (if is_warning (err_str2 bf) then 0 else 1) else ret 0.

(** The loop over the entries of the table: fails and passes. *)
Fixpoint bf_entries (b dp_type : Z) (l : list pcie_cfgreg_bitfield_entry) (f p : Z) : P (Z * Z) :=
  match l with
  | [] => ret (f, p)
  | bf :: l' =>
      if Z.land dp_type (dev_port_bitmask bf) =? 0 then bf_entries b dp_type l' f p else
      let* r := val_pcie_bitfield_check b bf in
      if negb (r =? 0) then bf_entries b dp_type l' (u32 (f + 1)) p
      else bf_entries b dp_type l' f (u32 (p + 1))
  end.

Fixpoint bf_functions (devs : list pcie_device_attr) (l : list pcie_cfgreg_bitfield_entry)
    (f p : Z) : P (Z * Z) :=
  match devs with
  | [] => ret (f, p)
  | d :: devs' =>
      val_pcie_disable_eru (bdf d) ;;;
      let* dp_type := val_pcie_device_port_type (bdf d) in
      let* r := bf_entries (bdf d) dp_type l f p in
      bf_functions devs' l r.1 r.2
  end.

(** The first [n] entries of the memory of the table. *)
Definition table_entries (t : pcie_device_bdf_table) : P (list pcie_device_attr) :=
  if Z.of_nat (length (device t)) <? num_entries t then undef
  else ret (take (Z.to_nat (num_entries t)) (device t)).

Definition val_pcie_register_bitfields_check (l : list pcie_cfgreg_bitfield_entry) : P Z :=
  let* o := gets g_pcie_bdf_table in
  let* t := deref o in
  let* devs := table_entries t in
  let* r := bf_functions devs l 0 0 in
  ret (if (0 <? r.2) || (0 <? r.1) then r.1 else ACS_STATUS_SKIP).
End Regs.

(** ** What the updates do to the registers *)

Section RegTheorems.
Context {H : Type} `{RegisterFile H, Uninit, Platform}.
Context (bs : list PCIE_INFO_BLOCK) (b : Z)
  (Hdis : ecams_disjoint bs) (Hmap : mapped bs b) (Hb : 0 <= b < 2 ^ 32).

(** The attributes of a register of the function. *)
Definition rw_of (off : Z) : Z :=
  match cfg_lookup bs b with Some a => rw_bits (a + off) | None => 0 end.
Definition w1c_of (off : Z) : Z :=
  match cfg_lookup bs b with Some a => w1c_bits (a + off) | None => 0 end.

(** Every register but the one at [off] of the function is the same. *)
Definition same_elsewhere (off : Z) (s s' : pcie_state H) : Prop :=
  forall b' off', 0 <= b' < 2 ^ 32 -> 0 <= off' < 4096 -> mapped bs b' ->
    b' <> b \/ off' - off' mod 4 <> off -> creg (hw s') bs b' off' = creg (hw s) bs b' off'.

Lemma write_word s off v :
  has_ecams s bs -> 0 <= off < 4096 -> off mod 4 = 0 ->
  exists s', val_pcie_write_cfg b off v s = Done (tt, s') /\ has_ecams s' bs /\
    word s' bs b off = u32 (after (rw_of off) (w1c_of off) (word s bs b off) (u32 v)) /\
    same_elsewhere off s s'.
Proof.
  intros He Ho Hal. destruct (write_cfg_spec s bs b off v He Hdis Hmap Hb Ho Hal)
    as (h & rw & w1c & E & He' & Hm & Hr).
  exists (set_hw h s). split; [done|]. split; [done|].
  assert (rw = rw_of off /\ w1c = w1c_of off) as [-> ->].
  { unfold rw_of, w1c_of. destruct Hmap as [a Ha]. rewrite Ha. by apply Hm. }
  split.
  - unfold word. cbn [hw set_hw]. rewrite (Hr b off) by done.
    replace (off - off mod 4) with off by lia. by rewrite !Z.eqb_refl.
  - intros b' off' Hb' Ho' Hm' Hne. cbn [hw set_hw]. rewrite (Hr b' off') by done.
    destruct (Z.eqb_spec b b'), (Z.eqb_spec off (off' - off' mod 4)); cbn [andb]; try done. lia.
Qed.

Lemma read_word s off d :
  has_ecams s bs -> 0 <= off < 4096 -> val_pcie_read_cfg b off d s = Done ((0, word s bs b off), s).
Proof. intros He Ho. by apply read_cfg_spec. Qed.

Lemma word_range s off : 0 <= word s bs b off < 2 ^ 32.
Proof. unfold word, creg. destruct (cfg_lookup bs b); [apply reg_range|lia]. Qed.

(** No bit is both RW and RW1C. *)
Definition attributes_ok (off : Z) : Prop :=
  forall i, 0 <= i -> Z.testbit (rw_of off) i && Z.testbit (w1c_of off) i = false.

(** A write that changes a set [m] of bits to those of [v] and writes the rest back. *)
Lemma after_bits rw w1c old v i :
  0 <= i < 32 -> Z.testbit rw i && Z.testbit w1c i = false -> 0 <= v < 2 ^ 32 ->
  Z.testbit (u32 (after rw w1c old v)) i =
    if Z.testbit rw i then Z.testbit v i
    else Z.testbit old i && negb (Z.testbit w1c i && Z.testbit v i).
Proof.
  intros Hi Hd Hv. rewrite testbit_u32, testbit_after by lia.
  destruct (Z.ltb_spec i 32); [done|lia].
Qed.

(** The four updates of a command bit: the function, the bit and its new value. *)
Definition command_updates : list ((Z -> prog (pcie_state H) unit) * Z * bool) :=
  [(val_pcie_enable_bme, 2, true); (val_pcie_disable_bme, 2, false);
   (val_pcie_enable_msa, 1, true); (val_pcie_disable_msa, 1, false)].

Lemma update_bit s n (set : bool) :
  has_ecams s bs -> attributes_ok TYPE01_CR -> 0 <= n < 32 -> Z.testbit (rw_of TYPE01_CR) n = true ->
  let w := word s bs b TYPE01_CR in
  let v := if set then Z.lor w (Z.shiftl 1 n) else Z.land w (u32 (Z.lnot (Z.shiftl 1 n))) in
  exists s', val_pcie_write_cfg b TYPE01_CR v s = Done (tt, s') /\
    (forall i, 0 <= i < 32 ->
       Z.testbit (word s' bs b TYPE01_CR) i =
         if i =? n then set
         else Z.testbit w i && negb (Z.testbit (w1c_of TYPE01_CR) i)) /\
    same_elsewhere TYPE01_CR s s'.
Proof.
  intros He Ha Hn Hrw w v. pose proof (word_range s TYPE01_CR) as Hw. fold w in Hw.
  destruct (write_word s TYPE01_CR v He) as (s' & E & _ & Hnew & Hsame);
    [vm_compute; by split|done|].
  exists s'. split; [done|]. split; [|done]. intros i Hi. rewrite Hnew.
  rewrite after_bits by (try apply u32_range; try apply Ha; lia). fold w.
  rewrite testbit_u32. destruct (Z.ltb_spec i 32); [|lia]. cbn [andb].
  assert (Hv : Z.testbit v i = if i =? n then set else Z.testbit w i).
  { unfold v. destruct set.
    - rewrite Z.lor_spec, testbit_shiftl_1 by lia. rewrite (Z.eqb_sym n i).
      destruct (i =? n); [by rewrite orb_true_r|by rewrite orb_false_r].
    - rewrite Z.land_spec, testbit_u32, Z.lnot_spec, testbit_shiftl_1 by lia.
      destruct (Z.ltb_spec i 32); [|lia]. rewrite (Z.eqb_sym n i).
      destruct (i =? n); [by rewrite andb_false_r|by rewrite andb_true_r]. }
  rewrite Hv. specialize (Ha i ltac:(lia)). destruct (Z.eqb_spec i n) as [->|Hne].
  - by rewrite Hrw.
  - destruct (Z.testbit (rw_of TYPE01_CR) i), (Z.testbit (w1c_of TYPE01_CR) i), (Z.testbit w i); done.
Qed.

(** enabling or disabling bus mastering or memory decoding sets or clears
    exactly that bit of the command register, keeps every other bit but the
    RW1C bits of the status half, which all end up 0 since the whole 32-bit
    word is written back, and changes no other register of any function. *)
Theorem command_bit_update s f n v :
  has_ecams s bs -> attributes_ok TYPE01_CR -> (f, n, v) ∈ command_updates ->
  Z.testbit (rw_of TYPE01_CR) n = true ->
  exists s', returns (f b) s tt s' /\
    (forall i, 0 <= i < 32 ->
       Z.testbit (word s' bs b TYPE01_CR) i =
         if i =? n then v
         else Z.testbit (word s bs b TYPE01_CR) i && negb (Z.testbit (w1c_of TYPE01_CR) i)) /\
    same_elsewhere TYPE01_CR s s'.
Proof.
  intros He Ha Hin Hrw.
  assert (Hr : forall d, val_pcie_read_cfg b TYPE01_CR d s = Done ((0, word s bs b TYPE01_CR), s))
    by (intros d; apply read_word; [done|vm_compute; by split]).
  unfold command_updates in Hin.
  repeat (apply elem_of_cons in Hin as [Hin|Hin]); [..|by apply not_elem_of_nil in Hin];
    injection Hin as -> -> ->; unfold returns, val_pcie_enable_bme, val_pcie_disable_bme,
      val_pcie_enable_msa, val_pcie_disable_msa; rewrite (bind_done _ _ _ _ _ (Hr _)).
  - by apply (update_bit s CR_BME_SHIFT true).
  - by apply (update_bit s CR_BME_SHIFT false).
  - by apply (update_bit s CR_MSE_SHIFT true).
  - by apply (update_bit s CR_MSE_SHIFT false).
Qed.

(** ** Unsupported-request status *)

(** The function has a PCI Express capability at [base]: [l] is its
    capability list, and no capability header lies in the device control word. *)
Definition pciecs_at (s : pcie_state H) (base : Z) : Prop :=
  exists l, cap_chain s bs b PCIE_CAP (cap_start s bs b PCIE_CAP) l /\
    word s bs b TYPE01_CPR <> PCIE_UNKNOWN_RESPONSE /\
    search_result s bs b PCIE_CAP CID_PCIECS l = (PCIE_SUCCESS, Some base) /\
    base mod 4 = 0 /\ 0x40 <= base < 256 /\
    forall off, off ∈ l -> off - off mod 4 <> base + DCTLR_OFFSET.

Lemma find_pciecs_spec s base :
  has_ecams s bs -> pciecs_at s base -> find_pciecs b s = Done (base, s).
Proof.
  intros He (l & Hl & Hw & Hs & _). unfold find_pciecs.
  erewrite bind_done; [|apply (find_cap_chain s bs b He Hmap PCIE_CAP CID_PCIECS l);
    [discriminate|done|done]].
  by rewrite Hs.
Qed.

Lemma chain_range_256 s l off :
  cap_chain s bs b PCIE_CAP (cap_start s bs b PCIE_CAP) l -> off ∈ l -> 0 <= off < 4096.
Proof.
  intros Hl Ho.
  assert (0 < off < cap_limit PCIE_CAP); [|unfold cap_limit in *; lia].
  eapply (chain_range s bs b PCIE_CAP); [exact Hl| |done].
  unfold cap_start, cap_limit. rewrite land_255. lia.
Qed.

(** The list is the same after a change of the device control word. *)
Lemma pciecs_at_stable s s' base :
  pciecs_at s base -> same_elsewhere (base + DCTLR_OFFSET) s s' -> pciecs_at s' base.
Proof.
  intros (l & Hl & Hw & Hs & Hal & Hbase & Hne) Hsame.
  assert (Hcpr : word s' bs b TYPE01_CPR = word s bs b TYPE01_CPR).
  { apply Hsame; try done. right. unfold TYPE01_CPR, DCTLR_OFFSET. lia. }
  assert (Hall : forall off, off ∈ l -> word s' bs b off = word s bs b off).
  { intros off Ho. apply Hsame; [done|by eapply chain_range_256|done|]. right. by apply Hne. }
  exists l. split; [|split; [by rewrite Hcpr|split; [|done]]].
  - unfold cap_start in *. rewrite Hcpr. by apply (chain_ext bs b s).
  - rewrite <- Hs. by apply search_result_ext.
Qed.

(** clearing the unsupported-request status works and touches nothing
    else: on a function whose URD bit is RW1C, [val_pcie_clear_urd] returns,
    after it [val_pcie_is_urd] reports 0, the device control half keeps its
    value, the other status bits keep theirs (they are written as 0), and no
    other register changes. *)
Theorem clear_urd_clears s base :
  has_ecams s bs -> pciecs_at s base ->
  let o := base + DCTLR_OFFSET in
  attributes_ok o -> Z.testbit (w1c_of o) 19 = true ->
  exists s', returns (val_pcie_clear_urd b) s tt s' /\ returns (val_pcie_is_urd b) s' 0 s' /\
    (forall i, 0 <= i < 16 -> Z.testbit (w1c_of o) i = false ->
       Z.testbit (word s' bs b o) i = Z.testbit (word s bs b o) i) /\
    (forall i, 16 <= i < 32 -> i <> 19 -> Z.testbit (rw_of o) i = false ->
       Z.testbit (word s' bs b o) i = Z.testbit (word s bs b o) i) /\
    same_elsewhere o s s'.
Proof.
  intros He Hp o Ha Hc. pose proof Hp as (_ & _ & _ & _ & Hal & Hbase & _).
  assert (Ho : 0 <= o < 4096 /\ o mod 4 = 0) by (unfold o, DCTLR_OFFSET; lia). destruct Ho as [Ho Hoal].
  unfold returns, val_pcie_clear_urd, val_pcie_is_urd.
  rewrite (bind_done _ _ _ _ _ (find_pciecs_spec s base He Hp)).
  rewrite (u32_small (base + DCTLR_OFFSET)) by (unfold DCTLR_OFFSET; lia). fold o.
  rewrite (bind_done _ _ _ _ _ (read_word s o _ He Ho)). cbn [snd].
  set (v := Z.lor (Z.land (word s bs b o) DCTLR_MASK) (Z.shiftl 1 (DCTLR_DSR_SHIFT + DSR_URD_SHIFT))).
  destruct (write_word s o v He Ho Hoal) as (s' & E & He' & Hnew & Hsame).
  assert (Hbit : forall i, 0 <= i < 32 -> Z.testbit (word s' bs b o) i =
    if Z.testbit (rw_of o) i then (i <? 16) && Z.testbit (word s bs b o) i || (i =? 19)
    else Z.testbit (word s bs b o) i &&
         negb (Z.testbit (w1c_of o) i && ((i <? 16) && Z.testbit (word s bs b o) i || (i =? 19)))).
  { intros i Hi. rewrite Hnew, after_bits by (try apply u32_range; try apply Ha; lia).
    assert (Hv : Z.testbit (u32 v) i = (i <? 16) && Z.testbit (word s bs b o) i || (i =? 19)).
    { rewrite testbit_u32. destruct (Z.ltb_spec i 32); [|lia]. cbn [andb]. unfold v.
      rewrite Z.lor_spec, testbit_shiftl_1 by (vm_compute; congruence).
      change DCTLR_MASK with (Z.ones 16). rewrite Z.land_ones by lia.
      change (DCTLR_DSR_SHIFT + DSR_URD_SHIFT) with 19. rewrite (Z.eqb_sym 19 i). f_equal.
      destruct (Z.ltb_spec i 16); [by apply Z.mod_pow2_bits_low|].
      rewrite Z.mod_pow2_bits_high by lia. done. }
    by rewrite Hv. }
  assert (H19 : Z.testbit (word s' bs b o) 19 = false).
  { rewrite Hbit by lia. specialize (Ha 19 ltac:(lia)). rewrite Hc, andb_true_r in Ha.
    rewrite Ha, Hc. by rewrite andb_false_r. }
  exists s'. split; [exact E|]. split.
  - rewrite (bind_done _ _ _ _ _ (find_pciecs_spec s' base He' (pciecs_at_stable _ _ _ Hp Hsame))).
    rewrite (u32_small (base + DCTLR_OFFSET)) by (unfold DCTLR_OFFSET; lia). fold o.
    rewrite (bind_done _ _ _ _ _ (read_word s' o _ He' Ho)). cbn [snd].
    rewrite land_1, field_bit by (vm_compute; congruence). rewrite Z.land_spec, Z.shiftr_spec by done.
    change (DSR_URD_SHIFT + DCTLR_DSR_SHIFT) with 19. by rewrite H19.
  - split_and!; [| |done].
    + intros i Hi Hw. rewrite Hbit, Hw by lia. destruct (Z.ltb_spec i 16); [|lia].
      destruct (Z.eqb_spec i 19); [lia|].
      destruct (Z.testbit (rw_of o) i), (Z.testbit (word s bs b o) i); done.
    + intros i Hi Hne Hrw. rewrite Hbit, Hrw by lia. destruct (Z.ltb_spec i 16); [lia|].
      destruct (Z.eqb_spec i 19); [lia|]. by rewrite andb_false_r, andb_true_r.
Qed.

(** ** The bit-field check tells RO from RW bits *)

(** The field in place, as a set of bits of the 32-bit register. *)
Definition in_field (bf : pcie_cfgreg_bitfield_entry) (i : Z) : bool :=
  let shift := REG_SHIFT (Z.land (reg_offset bf) 0x3) (bf_start bf) in
  (shift <=? i) && (i <=? shift + (bf_end bf - bf_start bf)).

Definition placed (bf : pcie_cfgreg_bitfield_entry) : Z :=
  u32 (Z.shiftl (REG_MASK (bf_end bf) (bf_start bf))
                (REG_SHIFT (Z.land (reg_offset bf) 0x3) (bf_start bf))).

(** The entry describes bits of one aligned 32-bit register, not up to bit 31
    of its own register. *)
Definition entry_ok (bf : pcie_cfgreg_bitfield_entry) : Prop :=
  0 <= bf_start bf <= bf_end bf /\ bf_end bf <= 30 /\ 0 <= reg_offset bf /\
  Z.land (reg_offset bf) 0x3 * 8 + bf_end bf <= 31.

Lemma reg_mask_ones e st : 0 <= st <= e -> e <= 30 -> REG_MASK e st = Z.ones (e - st + 1).
Proof.
  intros Hs He. unfold REG_MASK. apply Z.bits_inj'. intros i Hi.
  assert (E1 : u32 (Z.shiftl 1 (e + 1)) = 2 ^ (e + 1)).
  { rewrite Z.shiftl_mul_pow2, Z.mul_1_l by lia. apply u32_small. split; [lia|].
    change 4294967296 with (2 ^ 32). apply Z.pow_lt_mono_r; lia. }
  assert (Hp : 0 < 2 ^ (e + 1) < 2 ^ 32).
  { split; [apply Z.pow_pos_nonneg; lia|apply Z.pow_lt_mono_r; lia]. }
  rewrite E1, (u32_small (2 ^ (e + 1) - 1)) by lia.
  replace (2 ^ (e + 1) - 1) with (Z.ones (e + 1)) by (rewrite Z.ones_equiv; lia).
  rewrite Z.shiftr_spec, Z.land_spec, testbit_u32, Z.shiftl_spec by lia.
  change 4294967295 with (Z.ones 32).
  rewrite !Z.testbit_ones_nonneg by lia.
  destruct (Z.ltb_spec (i + st) 32), (Z.ltb_spec (i + st - st) 32), (Z.ltb_spec (i + st) (e + 1)),
    (Z.ltb_spec i (e - st + 1)); simpl; try done; lia.
Qed.

Lemma placed_bits bf i :
  entry_ok bf -> 0 <= i < 32 -> Z.testbit (placed bf) i = in_field bf i.
Proof.
  intros (Hs & He & Ho & Ha) Hi. unfold placed, in_field, REG_SHIFT in *.
  rewrite reg_mask_ones, testbit_u32 by lia. destruct (Z.ltb_spec i 32); [|lia]. cbn [andb].
  assert (0 <= Z.land (reg_offset bf) 0x3) by (rewrite land_3; lia).
  rewrite Z.shiftl_spec by lia.
  destruct (Z.leb_spec (Z.land (reg_offset bf) 3 * 8 + bf_start bf) i); cbn [andb].
  - rewrite Z.testbit_ones_nonneg by lia.
    destruct (Z.ltb_spec (i - (Z.land (reg_offset bf) 3 * 8 + bf_start bf)) (bf_end bf - bf_start bf + 1)),
      (Z.leb_spec i (Z.land (reg_offset bf) 3 * 8 + bf_start bf + (bf_end bf - bf_start bf)));
      try done; lia.
  - apply Z.testbit_neg_r. lia.
Qed.

(** The register once its RW1C bits were written back. *)
Definition settled (s : pcie_state H) (o : Z) : Z :=
  u32 (after (rw_of o) (w1c_of o) (word s bs b o) (word s bs b o)).

Lemma settled_no_w1c s o i :
  attributes_ok o -> 0 <= i < 32 -> Z.testbit (settled s o) i && Z.testbit (w1c_of o) i = false.
Proof.
  intros Ha Hi. unfold settled. rewrite after_bits by (try apply word_range; try apply Ha; lia).
  specialize (Ha i ltac:(lia)).
  destruct (Z.testbit (rw_of o) i), (Z.testbit (w1c_of o) i), (Z.testbit (word s bs b o) i); done.
Qed.

(** What reading back the toggled field gives. *)
Lemma toggled_back o v bf i :
  attributes_ok o -> entry_ok bf -> 0 <= v < 2 ^ 32 -> 0 <= i < 32 ->
  Z.testbit v i && Z.testbit (w1c_of o) i = false ->
  Z.testbit (u32 (after (rw_of o) (w1c_of o) v (u32 (Z.lxor v (placed bf))))) i =
    if Z.testbit (rw_of o) i then xorb (Z.testbit v i) (in_field bf i) else Z.testbit v i.
Proof.
  intros Ha He Hv Hi Hc. rewrite after_bits by (try apply u32_range; try apply Ha; lia).
  rewrite testbit_u32, Z.lxor_spec, placed_bits by done.
  destruct (Z.ltb_spec i 32); [|lia]. specialize (Ha i ltac:(lia)).
  destruct (Z.testbit (rw_of o) i), (Z.testbit (w1c_of o) i), (Z.testbit v i), (in_field bf i); done.
Qed.

(** Does a bit of a field behave as the attribute says, [rw] being whether the hardware
    lets software write it and [x] its value?  A reserved bit of the first kind must
    read 0, and one of the second kind must not lose a 1 when 0 is written. *)
Definition attr_bit (a : BITFIELD_ATTR_TYPE) (rw x : bool) : bool :=
  match a with
  | HW_INIT | READ_ONLY | STICKY_RO => negb rw
  | READ_WRITE | STICKY_RW => rw
  | RSVDP_RO => negb x
  | RSVDZ_RO => negb (rw && x)
  end.

(** The attributes whose check leaves the register as it found it in any case. *)
Definition restores (a : BITFIELD_ATTR_TYPE) : bool :=
  match a with RSVDP_RO | READ_WRITE | STICKY_RW => true | _ => false end.

(** The attribute the entry claims is the one of the hardware, for the register value [v]. *)
Definition attr_holds (bf : pcie_cfgreg_bitfield_entry) (o v : Z) : Prop :=
  forall i, 0 <= i < 32 -> in_field bf i = true -> attr_bit (attr bf) (Z.testbit (rw_of o) i) (Z.testbit v i) = true.

(** A field of a register is 0 when its bits are. *)
Lemma field_zero bf v : entry_ok bf -> 0 <= v < 2 ^ 32 ->
  Z.land (Z.shiftr v (REG_SHIFT (Z.land (reg_offset bf) 0x3) (bf_start bf))) (REG_MASK (bf_end bf) (bf_start bf)) = 0 <->
  forall i, 0 <= i < 32 -> in_field bf i = true -> Z.testbit v i = false.
Proof.
  intros (Hs & He & Ho & Ha) Hv. rewrite reg_mask_ones by lia. unfold in_field, REG_SHIFT.
  assert (Hal0 : 0 <= Z.land (reg_offset bf) 0x3) by (rewrite land_3; lia).
  set (sh := Z.land (reg_offset bf) 3 * 8 + bf_start bf) in *. assert (0 <= sh) by lia. split.
  - intros Hz i Hi Hf. assert (Hbit : Z.testbit 0 (i - sh) = Z.testbit v i && true); [|by rewrite andb_true_r, Z.testbit_0_l in Hbit].
    rewrite <- Hz, Z.land_spec, Z.shiftr_spec, Z.testbit_ones_nonneg by lia. f_equal; [f_equal; lia|]. lia.
  - intros Hz. apply Z.bits_inj'. intros j Hj. rewrite Z.land_spec, Z.shiftr_spec, Z.testbit_0_l, Z.testbit_ones_nonneg by lia.
    destruct (Z.ltb_spec j (bf_end bf - bf_start bf + 1)); [|by rewrite andb_false_r].
    rewrite Hz; [done|lia|lia].
Qed.

Section AttrCheck.
Context (s : pcie_state H) (o v : Z) (bf : pcie_cfgreg_bitfield_entry).
Context (He : has_ecams s bs) (Ho : 0 <= o < 4096) (Hal : o mod 4 = 0) (Ha : attributes_ok o) (Hbf : entry_ok bf).
Context (Hv : word s bs b o = v) (Hc : forall i, 0 <= i < 32 -> Z.testbit v i && Z.testbit (w1c_of o) i = false).

Lemma settled_range : 0 <= v < 2 ^ 32.
Proof. rewrite <- Hv. apply word_range. Qed.

(** The word written first, and what the register holds then. *)
Lemma write_toggled : exists s1, val_pcie_write_cfg b o (Z.lxor v (placed bf)) s = Done (tt, s1) /\ has_ecams s1 bs /\ same_elsewhere o s s1 /\
  forall i, 0 <= i < 32 -> Z.testbit (word s1 bs b o) i = if Z.testbit (rw_of o) i then xorb (Z.testbit v i) (in_field bf i) else Z.testbit v i.
Proof.
  pose proof settled_range as Hr. assert (Hrp : 0 <= placed bf < 2 ^ 32) by apply u32_range.
  pose proof (lxor_range32 v (placed bf) Hr Hrp) as Hrx.
  destruct (write_word s o (Z.lxor v (placed bf)) He Ho Hal) as (s1 & E1 & He1 & Hw1 & Hs1). rewrite Hv in Hw1.
  exists s1. split_and!; [done..|]. intros i Hi. rewrite Hw1. apply toggled_back; auto.
Qed.

Lemma ro_check a : attr bf = a -> a = HW_INIT \/ a = READ_ONLY \/ a = STICKY_RO ->
  exists c s', attr_check b o v (placed bf) (REG_MASK (bf_end bf) (bf_start bf))
      (REG_SHIFT (Z.land (reg_offset bf) 0x3) (bf_start bf)) a s = Done (c, s') /\
    (c.1 = c.2 <-> attr_holds bf o v) /\ (attr_holds bf o v -> word s' bs b o = v) /\ same_elsewhere o s s'.
Proof.
  intros Ea Hro. pose proof settled_range as Hr. destruct write_toggled as (s1 & E1 & He1 & Hs1 & Hb1).
  assert (Hholds : word s1 bs b o = v <-> attr_holds bf o v).
  { rewrite bits_eq32 by (try done; apply word_range). unfold attr_holds. rewrite Ea.
    split; intros Hx i Hi; specialize (Hx i Hi); rewrite Hb1 in * by done; destruct Hro as [->|[->| ->]]; cbn [attr_bit] in *;
      destruct (Z.testbit (rw_of o) i), (in_field bf i), (Z.testbit v i); simpl in *; intuition congruence. }
  exists (word s1 bs b o, v), s1. split.
  { destruct Hro as [->|[->| ->]]; unfold attr_check; by rewrite (bind_done _ _ _ _ _ E1), (bind_done _ _ _ _ _ (read_word s1 o _ He1 Ho)). }
  split; [done|]. split; [|done]. intros Hx. by apply Hholds.
Qed.

Lemma rw_check a : attr bf = a -> a = READ_WRITE \/ a = STICKY_RW ->
  exists c s', attr_check b o v (placed bf) (REG_MASK (bf_end bf) (bf_start bf))
      (REG_SHIFT (Z.land (reg_offset bf) 0x3) (bf_start bf)) a s = Done (c, s') /\
    (c.1 = c.2 <-> attr_holds bf o v) /\ word s' bs b o = v /\ same_elsewhere o s s'.
Proof.
  intros Ea Hrw. pose proof settled_range as Hr. destruct write_toggled as (s1 & E1 & He1 & Hs1 & Hb1).
  assert (Hrp : 0 <= placed bf < 2 ^ 32) by apply u32_range. pose proof (lxor_range32 v (placed bf) Hr Hrp) as Hrx.
  destruct (write_word s1 o v He1 Ho Hal) as (s2 & E2 & He2 & Hw2 & Hs2).
  exists (Z.lxor v (placed bf), word s1 bs b o), s2. split.
  { destruct Hrw as [->| ->]; unfold attr_check;
      by rewrite (bind_done _ _ _ _ _ E1), (bind_done _ _ _ _ _ (read_word s1 o _ He1 Ho)), (bind_done _ _ _ _ _ E2). }
  split; [|split].
  - cbn [fst snd]. rewrite bits_eq32 by (try done; apply word_range). unfold attr_holds. rewrite Ea.
    split; intros Hx i Hi; specialize (Hx i Hi); rewrite Hb1, Z.lxor_spec, placed_bits in * by done; destruct Hrw as [->| ->]; cbn [attr_bit] in *;
      destruct (Z.testbit (rw_of o) i), (in_field bf i), (Z.testbit v i); simpl in *; intuition congruence.
  - apply bits_eq32; [apply word_range|done|]. intros i Hi. rewrite Hw2, (u32_small v), after_bits by (try apply Ha; lia). rewrite Hb1 by done.
    specialize (Hc i Hi). destruct (Z.testbit (rw_of o) i), (Z.testbit v i), (Z.testbit (w1c_of o) i); done.
  - intros b' off' Hb' Ho' Hm Hne. rewrite (Hs2 b' off'), (Hs1 b' off') by done. done.
Qed.

Lemma rsvdp_check : attr bf = RSVDP_RO ->
  exists c s', attr_check b o v (placed bf) (REG_MASK (bf_end bf) (bf_start bf))
      (REG_SHIFT (Z.land (reg_offset bf) 0x3) (bf_start bf)) RSVDP_RO s = Done (c, s') /\
    (c.1 = c.2 <-> attr_holds bf o v) /\ word s' bs b o = v /\ same_elsewhere o s s'.
Proof.
  intros Ea. pose proof settled_range as Hr. destruct (write_word s o v He Ho Hal) as (s1 & E1 & He1 & Hw1 & Hs1). rewrite Hv in Hw1.
  assert (Hsame : word s1 bs b o = v).
  { apply bits_eq32; [apply word_range|done|]. intros i Hi. rewrite Hw1, (u32_small v), after_bits by (try apply Ha; lia).
    specialize (Hc i Hi). destruct (Z.testbit (rw_of o) i), (Z.testbit v i), (Z.testbit (w1c_of o) i); done. }
  eexists (_, _), s1. split; [|split; [|by split]].
  { unfold attr_check. by rewrite (bind_done _ _ _ _ _ E1), (bind_done _ _ _ _ _ (read_word s1 o _ He1 Ho)). }
  cbn [fst snd]. rewrite Hsame, (field_zero bf v Hbf Hr). unfold attr_holds. rewrite Ea. cbn [attr_bit].
  split; intros Hx i Hi Hf; specialize (Hx i Hi Hf); by destruct (Z.testbit v i).
Qed.

Lemma rsvdz_check : attr bf = RSVDZ_RO ->
  exists c s', attr_check b o v (placed bf) (REG_MASK (bf_end bf) (bf_start bf))
      (REG_SHIFT (Z.land (reg_offset bf) 0x3) (bf_start bf)) RSVDZ_RO s = Done (c, s') /\
    (c.1 = c.2 <-> attr_holds bf o v) /\ (attr_holds bf o v -> word s' bs b o = v) /\ same_elsewhere o s s'.
Proof.
  intros Ea. pose proof settled_range as Hr. set (x := Z.land v (u32 (Z.lnot (placed bf)))).
  assert (Hx : forall i, 0 <= i < 32 -> Z.testbit x i = Z.testbit v i && negb (in_field bf i)).
  { intros i Hi. subst x. rewrite Z.land_spec, testbit_u32, Z.lnot_spec, placed_bits by (done || lia). by replace (i <? 32) with true by lia. }
  assert (Hxr : 0 <= x < 2 ^ 32).
  { assert (Hu : u32 x = x); [|rewrite <- Hu; apply u32_range].
    apply Z.bits_inj'. intros i Hi. rewrite testbit_u32 by lia. subst x. rewrite Z.land_spec, testbit_u32 by lia.
    by destruct (i <? 32), (Z.testbit v i), (Z.testbit (Z.lnot _) i). }
  destruct (write_word s o x He Ho Hal) as (s1 & E1 & He1 & Hw1 & Hs1). rewrite Hv in Hw1.
  assert (Hb1 : forall i, 0 <= i < 32 -> Z.testbit (word s1 bs b o) i = Z.testbit v i && negb (Z.testbit (rw_of o) i && in_field bf i)).
  { intros i Hi. rewrite Hw1, (u32_small x), after_bits, Hx by (try apply Ha; lia). specialize (Hc i Hi).
    destruct (Z.testbit (rw_of o) i), (Z.testbit v i), (Z.testbit (w1c_of o) i), (in_field bf i); done. }
  assert (Hholds : word s1 bs b o = v <-> attr_holds bf o v).
  { rewrite bits_eq32 by (try done; apply word_range). unfold attr_holds. rewrite Ea. cbn [attr_bit].
    split; intros Hy i Hi; specialize (Hy i Hi); rewrite Hb1 in * by done;
      destruct (Z.testbit (rw_of o) i), (in_field bf i), (Z.testbit v i); simpl in *; intuition congruence. }
  exists (word s1 bs b o, v), s1. split.
  { unfold attr_check. fold x. by rewrite (bind_done _ _ _ _ _ E1), (bind_done _ _ _ _ _ (read_word s1 o _ He1 Ho)). }
  split; [done|]. split; [|done]. intros Hy. by apply Hholds.
Qed.

Lemma attr_check_spec :
  exists c s', attr_check b o v (placed bf) (REG_MASK (bf_end bf) (bf_start bf))
      (REG_SHIFT (Z.land (reg_offset bf) 0x3) (bf_start bf)) (attr bf) s = Done (c, s') /\
    (c.1 = c.2 <-> attr_holds bf o v) /\
    (restores (attr bf) = true \/ attr_holds bf o v -> word s' bs b o = v) /\ same_elsewhere o s s'.
Proof.
  destruct (attr bf) eqn:Ea.
  1-3: destruct (ro_check _ Ea ltac:(tauto)) as (c & s' & E & Hq & Hw & Hs); exists c, s'; split_and!; [done|done|by intros [[=]|?]; auto|done].
  - destruct (rsvdp_check Ea) as (c & s' & E & Hq & Hw & Hs). by exists c, s'.
  - destruct (rsvdz_check Ea) as (c & s' & E & Hq & Hw & Hs). exists c, s'. split_and!; [done|done|by intros [[=]|?]; auto|done].
  - destruct (rw_check _ Ea ltac:(tauto)) as (c & s' & E & Hq & Hw & Hs). by exists c, s'.
  - destruct (rw_check _ Ea ltac:(tauto)) as (c & s' & E & Hq & Hw & Hs). by exists c, s'.
Qed.
End AttrCheck.

(** C28: the bit-field check is right about values and attributes.  For an entry of any of
    the seven attributes, with a field below bit 31 of a register of the function, the check
    first writes the register back, which clears its RW1C bits; the value it has then is
    [settled].  If the field differs from the configured value, the check fails, unless the
    first message is a warning.  If it does not, the check fails exactly when some bit of the field
    does not behave as the attribute says, unless the second message is a warning: for the
    read-only and the read-write attributes by being writable or not, for the
    reserved ones by being 1, or by being writable and 1.  The register has its settled value
    back, except after an attribute that does not hold and is not a read-write or the
    first reserved one; no other register changes. *)
Theorem bitfield_check_verdict s bf base :
  has_ecams s bs -> bf_base b bf s = Done ((PCIE_SUCCESS, base), s) -> entry_ok bf ->
  let o := base + (reg_offset bf - Z.land (reg_offset bf) 0x3) in
  0 <= base -> base mod 4 = 0 -> o < 4096 -> attributes_ok o ->
  let v := settled s o in
  let field := Z.land (Z.shiftr v (REG_SHIFT (Z.land (reg_offset bf) 0x3) (bf_start bf)))
                      (REG_MASK (bf_end bf) (bf_start bf)) in
  exists r s', returns (val_pcie_bitfield_check b bf) s r s' /\ (r = 0 \/ r = 1) /\
    (r = 0 <-> if field =? cfg_value bf then attr_holds bf o v \/ is_warning (err_str2 bf) = true
               else is_warning (err_str1 bf) = true) /\
    (field <> cfg_value bf \/ attr_holds bf o v \/ restores (attr bf) = true -> word s' bs b o = v) /\ same_elsewhere o s s'.
Proof.
  intros He Hbase Hbf o Hb0 Hba Ho1 Ha v field.
  pose proof Hbf as (Hst & Hen & Hro & Hsh).
  assert (Ho : 0 <= o < 4096) by (split; [unfold o; rewrite land_3|]; lia).
  assert (Hal : o mod 4 = 0) by (unfold o; rewrite land_3; lia).
  unfold returns, val_pcie_bitfield_check. rewrite (bind_done _ _ _ _ _ Hbase). cbn [fst snd].
  rewrite Z.eqb_refl. cbn [negb]. fold o. rewrite (u32_small o) by lia.
  rewrite (bind_done _ _ _ _ _ (read_word s o _ He Ho)). cbn [snd].
  destruct (write_word s o (word s bs b o) He Ho Hal) as (s1 & E1 & He1 & Hw1 & Hs1).
  rewrite (u32_small (word s bs b o)) in Hw1 by apply word_range. fold (settled s o) in Hw1. fold v in Hw1.
  rewrite (bind_done _ _ _ _ _ E1), (bind_done _ _ _ _ _ (read_word s1 o _ He1 Ho)), Hw1. cbn [snd].
  destruct (Z.leb_spec 31 (bf_end bf)); [lia|].
  destruct (Z.leb_spec 32 (REG_SHIFT (Z.land (reg_offset bf) 3) (bf_start bf)));
    [unfold REG_SHIFT in *; lia|].
  cbn [orb]. fold field. destruct (Z.eqb_spec field (cfg_value bf)) as [Hf|Hf]; cbn [negb].
  - destruct (attr_check_spec s1 o v bf He1 Ho Hal Ha Hbf Hw1 (fun i Hi => settled_no_w1c s o i Ha Hi)) as (c & s2 & E2 & Hc & Hval & Hs2).
    unfold placed in E2. rewrite (bind_done _ _ _ _ _ E2).
    exists (if negb (c.1 =? c.2) then if is_warning (err_str2 bf) then 0 else 1 else 0), s2.
    split; [by destruct (c.1 =? c.2)|]. split; [destruct (negb _), (is_warning (err_str2 bf)); auto|]. split; [|split].
    + destruct (Z.eqb_spec c.1 c.2) as [Hq|Hq]; cbn [negb]; [split; [intros _; left; by apply Hc|done]|].
      destruct (is_warning (err_str2 bf)); split; try done; [intros _; by right|]. intros [Hx|[=]]. by apply Hc in Hx.
    + intros [Hx|[Hx|Hx]]; [done|by apply Hval; right|by apply Hval; left].
    + intros b' off' Hb' Ho' Hm Hne. rewrite (Hs2 b' off'), (Hs1 b' off') by done. done.
  - exists (if is_warning (err_str1 bf) then 0 else 1), s1. split; [done|]. destruct (is_warning (err_str1 bf)); (split; [auto|]; split; [done|]; by split).
Qed.
End RegTheorems.

(** ** The endpoint with its attributes *)

Definition rw1 (a : Z) : Z :=
  if a =? 0x30110004 then 0x107 else if a =? 0x30110068 then 0xFFFF else 0.
Definition w1c1 (a : Z) : Z :=
  if a =? 0x30110004 then 0xF9000000 else if a =? 0x30110068 then 0x000F0000 else 0.
Definition hw1 : Hardware board := board_hw rw1 w1c1.
Definition file1 : @RegisterFile board hw1 := board_file rw1 w1c1.

(** Memory decoding on, a received master abort and an unsupported request logged. *)
Definition board2 : board :=
  <[0x30110004 := 0x20000002]> (<[0x30110068 := 0x00082810]> board1).
Definition pcie2 : pcie_state board := set_hw board2 pcie0.

(** Two masks share no bit. *)
Lemma masks_disjoint x y :
  Z.land x y = 0 -> forall i, 0 <= i -> Z.testbit x i && Z.testbit y i = false.
Proof. intros Hl i Hi. by rewrite <- Z.land_spec, Hl, Z.testbit_0_l. Qed.

Lemma command_bit_update_witness :
  exists s', returns (@val_pcie_enable_bme board hw1 uninit0 ep1) pcie2 tt s' /\
    Z.testbit (@word board hw1 file1 s' ecams0 ep1 TYPE01_CR) 2 = true /\
    Z.testbit (@word board hw1 file1 s' ecams0 ep1 TYPE01_CR) 29 = false.
Proof.
  destruct (@command_bit_update board hw1 file1 uninit0 ecams0 ep1 ecams0_disjoint ep1_mapped
    ltac:(vm_compute; by split) pcie2 (@val_pcie_enable_bme board hw1 uninit0) 2 true) as (s' & E & Hbits & _).
  - apply (pcie0_ecams board2).
  - intros i. apply masks_disjoint. reflexivity.
  - left.
  - reflexivity.
  - exists s'. split; [exact E|]. split.
    + rewrite (Hbits 2) by lia. reflexivity.
    + rewrite (Hbits 29) by lia. reflexivity.
Defined.

Lemma pciecs_at_board2 : @pciecs_at board hw1 file1 ecams0 ep1 pcie2 0x60.
Proof.
  exists [0x40; 0x60]. split; [|split; [vm_compute; discriminate|split; [reflexivity|]]].
  - apply chain_next; [vm_compute; discriminate|]. apply chain_next; [vm_compute; discriminate|].
    apply chain_end.
  - split; [done|]. split; [lia|]. intros off Ho.
    repeat (apply elem_of_cons in Ho as [->|Ho]); [..|by apply not_elem_of_nil in Ho];
      vm_compute; discriminate.
Qed.

Lemma clear_urd_clears_witness :
  exists s', returns (@val_pcie_clear_urd board hw1 uninit0 ep1) pcie2 tt s' /\
    returns (@val_pcie_is_urd board hw1 uninit0 ep1) s' 0 s'.
Proof.
  destruct (@clear_urd_clears board hw1 file1 uninit0 ecams0 ep1 ecams0_disjoint ep1_mapped
    ltac:(vm_compute; by split) pcie2 0x60) as (s' & E1 & E2 & _).
  - apply (pcie0_ecams board2).
  - exact pciecs_at_board2.
  - intros i. apply masks_disjoint. reflexivity.
  - reflexivity.
  - by exists s'.
Defined.

(** Bus master enable, bit 2 of the command register, claimed read-write. *)
Definition bf_bme : pcie_cfgreg_bitfield_entry :=
  mk_bf HEADER 0 0 0x04 0 2 2 0 READ_WRITE "value" "attribute".

(** Memory access enable, bit 1, which is set and writable, claimed reserved. *)
Definition bf_msa : pcie_cfgreg_bitfield_entry :=
  mk_bf HEADER 0 0 0x04 0 1 1 1 RSVDZ_RO "value" "attribute".

(** The first entry passes, the second fails. *)
Lemma bitfield_check_verdict_witness :
  (exists s', returns (@val_pcie_bitfield_check board hw1 uninit0 ep1 bf_bme) pcie2 0 s') /\
  (exists s', returns (@val_pcie_bitfield_check board hw1 uninit0 ep1 bf_msa) pcie2 1 s').
Proof.
  split.
  - destruct (@bitfield_check_verdict board hw1 file1 uninit0 ecams0 ep1 ecams0_disjoint ep1_mapped
      ltac:(vm_compute; by split) pcie2 bf_bme 0) as (r & s' & E & _ & Hr & _);
      [apply (pcie0_ecams board2)|reflexivity|vm_compute; repeat split; congruence|lia|reflexivity|vm_compute; reflexivity
      |intros i; apply masks_disjoint; reflexivity|].
    assert (r = 0) as ->; [|by exists s']. apply Hr. left. intros i Hi Hf.
    assert (i = 2) as -> by (change (in_field bf_bme i) with ((2 <=? i) && (i <=? 2)) in Hf; lia). reflexivity.
  - destruct (@bitfield_check_verdict board hw1 file1 uninit0 ecams0 ep1 ecams0_disjoint ep1_mapped
      ltac:(vm_compute; by split) pcie2 bf_msa 0) as (r & s' & E & Hr01 & Hr & _);
      [apply (pcie0_ecams board2)|reflexivity|vm_compute; repeat split; congruence|lia|reflexivity|vm_compute; reflexivity
      |intros i; apply masks_disjoint; reflexivity|].
    destruct Hr01 as [-> | ->]; [|by exists s']. exfalso. destruct (proj1 Hr eq_refl) as [Hx|[=]].
    specialize (Hx 1 ltac:(lia) eq_refl). vm_compute in Hx. discriminate Hx.
Defined.
