(* ===== verification/PcieTable.v ===== *)
(** * The table of PCIe functions and the hierarchy it describes

    Models the part of [val/src/acs_pcie.c] that scans every ECAM into
    [g_pcie_bdf_table], finds root ports and downstream functions in it, and
    decodes base address registers. *)

From S2P Require Import Prelude Mmio PcieCfg PcieCap PcieRegs.

(** 8192 bytes hold a 4-byte count and 8-byte entries. *)
Definition PCIE_DEVICE_BDF_TABLE_SZ : Z := 8192.
Definition bdf_capacity : Z := (PCIE_DEVICE_BDF_TABLE_SZ - 4) / 8.
Definition TYPE0_MAX_BARS : Z := 6.
Definition TYPE1_MAX_BARS : Z := 2.

(** [a, a + 1, ..., b]. *)
Definition range (a b : Z) : list Z := (fun k => a + Z.of_nat k) <$> seq 0 (Z.to_nat (b - a + 1)).

Definition SECBN (w : Z) : Z := Z.land (Z.shiftr w SECBN_SHIFT) 0xff.
Definition SUBBN (w : Z) : Z := Z.land (Z.shiftr w SUBBN_SHIFT) 0xff.

Definition set_rp (rp : Z) (d : pcie_device_attr) : pcie_device_attr := mk_attr (bdf d) rp.
Definition set_bdf (b : Z) (d : pcie_device_attr) : pcie_device_attr := mk_attr b (rp_bdf d).

Section Table.
Context {H : Type} `{Hardware H, Uninit, Platform}.
Local Abbreviation P := (prog (pcie_state H)).

(** The table, which the functions below read without a check. *)
Definition bdf_table : P pcie_device_bdf_table :=
  let* o := gets g_pcie_bdf_table in deref o.

Definition entry_at (t : pcie_device_bdf_table) (i : Z) : P pcie_device_attr :=
  deref (at_index (device t) i).

Definition val_pcie_bdf_table_ptr : P (option pcie_device_bdf_table) := gets g_pcie_bdf_table.

(** ** Root ports *)

Definition is_rp (dp_type : Z) : bool := (dp_type =? RP) || (dp_type =? iEP_RP).

(** One entry of the search: [Some] ends it. *)
Definition rootport_at (b : Z) (d : pcie_device_attr) : P (option Z) :=
  let* r := val_pcie_read_cfg (bdf d) TYPE1_PBN (uninit "reg_value") in
  let* dp := val_pcie_device_port_type (bdf d) in
  ret (if is_rp dp && (SECBN r.2 <=? PCIE_EXTRACT_BDF_BUS b) &&
          (PCIE_EXTRACT_BDF_BUS b <=? SUBBN r.2) &&
          (PCIE_EXTRACT_BDF_SEG (bdf d) =? PCIE_EXTRACT_BDF_SEG b)
       then Some (bdf d) else None).

(** Status and the value stored through [rp_bdf]. *)
Definition val_pcie_get_rootport (b : Z) : P (Z * Z) :=
  let* dp_type := val_pcie_device_port_type b in
  if is_rp dp_type then ret (0, b)
  else if (dp_type =? RCiEP) || (dp_type =? RCEC) then ret (1, 0xffffffff)
  else
    let* t := bdf_table in
    let* devs := table_entries t in
    let* r := search devs (rootport_at b) in
    match r with Some rp => ret (0, rp) | None => ret (1, 0) end.

Definition val_pcie_parent_is_rootport (dsf_bdf rp_bdf : Z) : P (Z * Z) :=
  let* t := bdf_table in
  let* devs := table_entries t in
  let* r := search devs (fun d =>
    let* dp := val_pcie_device_port_type (bdf d) in
    if is_rp dp then
      let* w := val_pcie_read_cfg (bdf d) TYPE1_PBN (uninit "reg_value") in
      ret (if (PCIE_EXTRACT_BDF_BUS dsf_bdf =? SECBN w.2) &&
              (PCIE_EXTRACT_BDF_BUS dsf_bdf <=? SUBBN w.2) then Some (bdf d) else None)
    else ret None) in
  match r with Some rp => ret (0, rp) | None => ret (1, rp_bdf) end.

(** ** Downstream functions *)

(** The loop: [inl] is the type 0 function found, [inr] the first type 1 one. *)
Fixpoint downstream_loop (sec sub seg : Z) (devs : list pcie_device_attr) (t1 : option Z)
    : P (Z + option Z) :=
  match devs with
  | [] => ret (inr t1)
  | d :: devs' =>
      if (sec <=? PCIE_EXTRACT_BDF_BUS (bdf d)) && (PCIE_EXTRACT_BDF_BUS (bdf d) <=? sub) &&
         (PCIE_EXTRACT_BDF_SEG (bdf d) =? seg) then
        let* ty := val_pcie_function_header_type (bdf d) in
        if ty =? TYPE0_HEADER then ret (inl (bdf d))
        else downstream_loop sec sub seg devs'
               (match t1 with None => Some (bdf d) | _ => t1 end)
      else downstream_loop sec sub seg devs' t1
  end.

(** On failure [*dsf_bdf] is 0: every function in range is of type 0 or sets [t1]. *)
Definition val_pcie_get_downstream_function (b : Z) : P (Z * Z) :=
  let* r := val_pcie_read_cfg b TYPE1_PBN (uninit "reg_value") in
  let* t := bdf_table in
  let* devs := table_entries t in
  let* x := downstream_loop (SECBN r.2) (SUBBN r.2) (PCIE_EXTRACT_BDF_SEG b) devs None in
  match x with
  | inl d => ret (0, d)
  | inr (Some d) => ret (0, d)
  | inr None => ret (1, 0)
  end.

(** ** The ECAM of a function *)

(** The bus window of a type 1 function lies in the ECAM. *)
Definition bridge_window_in (b i : Z) : P bool :=
  let* r := val_pcie_read_cfg b TYPE1_PBN (uninit "reg_value") in
  let* sb := val_pcie_get_info PCIE_INFO_START_BUS i in
  if negb (u32 sb <=? SECBN r.2) then ret false else
  let* eb := val_pcie_get_info PCIE_INFO_END_BUS i in
  ret (SUBBN r.2 <=? u32 eb).

(** [ecam_index] is a byte: with 256 ECAMs or more it never reaches their number. *)
Fixpoint ecam_base_loop (fuel : nat) (b seg i : Z) : P Z :=
  match fuel with
  | O => diverge
  | S f =>
      let* n := val_pcie_get_info PCIE_INFO_NUM_ECAM 0 in
      if i <? u32 n then
        let* sg := val_pcie_get_info PCIE_INFO_SEGMENT i in
        if seg =? u32 sg then
          let* ty := val_pcie_function_header_type b in
          if ty =? TYPE0_HEADER then val_pcie_get_info PCIE_INFO_ECAM i
          else
            let* ok := bridge_window_in b i in
            if ok then val_pcie_get_info PCIE_INFO_ECAM i else ecam_base_loop f b seg (u8 (i + 1))
        else ecam_base_loop f b seg (u8 (i + 1))
      else ret 0
  end.

Definition val_pcie_get_ecam_base (b : Z) : P Z :=
  ecam_base_loop 256 b (PCIE_EXTRACT_BDF_SEG b) 0.

Fixpoint ecam_index_loop (fuel : nat) (b seg bus i : Z) : P (option Z) :=
  match fuel with
  | O => diverge
  | S f =>
      let* n := val_pcie_get_info PCIE_INFO_NUM_ECAM 0 in
      if i <? u32 n then
        let* sg := val_pcie_get_info PCIE_INFO_SEGMENT i in
        if negb (seg =? u32 sg) then ecam_index_loop f b seg bus (u32 (i + 1)) else
        let* sb := val_pcie_get_info PCIE_INFO_START_BUS i in
        if negb (u32 sb <=? bus) then ecam_index_loop f b seg bus (u32 (i + 1)) else
        let* eb := val_pcie_get_info PCIE_INFO_END_BUS i in
        if negb (bus <=? u32 eb) then ecam_index_loop f b seg bus (u32 (i + 1)) else
        let* ty := val_pcie_function_header_type b in
        if ty =? TYPE0_HEADER then ret (Some i)
        else
          let* ok := bridge_window_in b i in
          if ok then ret (Some i) else ecam_index_loop f b seg bus (u32 (i + 1))
      else ret None
  end.

(** Status, and the index when it is stored. *)
Definition val_pcie_get_ecam_index (b : Z) : P (Z * option Z) :=
  let* fuel := gets ecam_fuel in
  let* r := ecam_index_loop fuel b (PCIE_EXTRACT_BDF_SEG b) (PCIE_EXTRACT_BDF_BUS b) 0 in
  ret (match r with Some i => (0, Some i) | None => (1, None) end).

(** ** The first memory BAR *)

(** The address in two halves; [exerciser] is what the platform says of an
    exerciser function, whose BAR it reports itself. *)
Fixpoint bar_loop (fuel : nat) (b index high : Z) : P (Z * Z) :=
  match fuel with
  | O => diverge
  | S f =>
      if index <? TYPE0_MAX_BARS then
        let* r := val_pcie_read_cfg b (TYPE01_BAR + index * 4) (uninit "bar_low32bits") in
        let low := r.2 in
        if Z.land low 1 =? 0 then
          let base := u32 (Z.shiftl (Z.land (Z.shiftr low 4) 0xfffffff) 4) in
          let mdt := Z.land (Z.shiftr low 1) 3 in
          if mdt =? 2 then
            let* r2 := val_pcie_read_cfg b (TYPE01_BAR + (index + 1) * 4) (uninit "bar_high32bits") in
            ret (base, r2.2)
          else ret (base, if mdt =? 0 then 0 else high)
        else
          let index := index + 1 in
          let* ty := val_pcie_function_header_type b in
          if (ty =? TYPE1_HEADER) && (index =? TYPE1_MAX_BARS) then ret (0, 0)
          else bar_loop f b index high
      else ret (0, 0)
  end.

(** [exerciser b] is the base the platform reports for an exerciser function,
    [old] the contents of the 64 bits at [base] before. *)
Definition val_pcie_get_mmio_bar (exerciser : Z -> option Z) (b old : Z) : P Z :=
  match exerciser b with
  | Some addr => let* _ := val_pcie_get_ecam_base b in ret addr
  | None => let* r := bar_loop 7 b 0 (Z.shiftr old 32) in
            ret (u64 (r.1 + r.2 * 2 ^ 32))
  end.

(** ** The memory type below a bridge *)

(** The innermost body; [Some 1] is its [break] with [status = 1]. *)
Definition memtype_func (b : Z) : P (option Z) :=
  let* ty := val_pcie_function_header_type b in
  if ty =? TYPE0_HEADER then
    let* d := val_pcie_read_cfg b TYPE01_BAR (uninit "data") in
    ret (if negb (d.2 =? 0) && negb (Z.land (Z.shiftr d.2 1) 3 =? 0) then Some 1 else None)
  else ret None.

(** The loops over devices and buses; the [break] leaves the function loop only. *)
Fixpoint memtype_devs (b : Z) (l : list Z) (st : Z) : P Z :=
  match l with
  | [] => ret st
  | _ :: l' => let* x := search (range 0 (PCIE_MAX_FUNC - 1)) (fun _ => memtype_func b) in
               memtype_devs b l' (default st x)
  end.

Fixpoint memtype_buses (b : Z) (l : list Z) (st : Z) : P Z :=
  match l with
  | [] => ret st
  | _ :: l' => let* st' := memtype_devs b (range 0 (PCIE_MAX_DEV - 1)) st in
               memtype_buses b l' st'
  end.

Definition val_pcie_scan_bridge_devices_and_check_memtype (b : Z) : P Z :=
  let* r := val_pcie_read_cfg b TYPE1_PBN (uninit "reg_value") in
  memtype_buses b (range (SECBN r.2) (SUBBN r.2)) 0.

(** ** Building the table *)

(** [device[num_entries++].bdf = bdf] *)
Definition append_bdf (b : Z) : P unit :=
  let* t := bdf_table in
  let* old := entry_at t (num_entries t) in
  modify (set_bdf_table (Some (mk_bdf_table (u32 (num_entries t + 1))
    (<[Z.to_nat (num_entries t) := set_bdf b old]> (device t))))).

(** One function of the scan; [Some 1] is the [return 1] on a mapping error. *)
Definition probe (b : Z) : P (option Z) :=
  let* r := val_pcie_read_cfg b TYPE01_VIDR (uninit "reg_value") in
  if r.1 =? PCIE_NO_MAPPING then ret (Some 1) else
  if negb (r.2 =? PCIE_UNKNOWN_RESPONSE) then
    let* hb := val_pcie_is_host_bridge b in
    if negb (hb =? 0) then ret None else
    val_pcie_enable_bme b ;;;
    val_pcie_enable_msa b ;;;
    let* c := val_pcie_find_capability b PCIE_CAP CID_PCIECS in
    if negb (c.1 =? PCIE_SUCCESS) then ret None else
    if negb (pal_pcie_check_device_valid b =? 0) then ret None else
    append_bdf b ;;; ret None
  else ret None.

Definition scan_ecam (i : Z) : P (option Z) :=
  let* seg := val_pcie_get_info PCIE_INFO_SEGMENT i in
  let* sb := val_pcie_get_info PCIE_INFO_START_BUS i in
  let* eb := val_pcie_get_info PCIE_INFO_END_BUS i in
  search (range (u32 sb) (u32 eb)) (fun bus =>
    search (range 0 (PCIE_MAX_DEV - 1)) (fun dev =>
      search (range 0 (PCIE_MAX_FUNC - 1)) (fun func =>
        probe (PCIE_CREATE_BDF (u32 seg) bus dev func)))).

(** The rootport of entry [i], stored in the table. *)
Definition populate_one (i : Z) : P unit :=
  let* t := bdf_table in
  let* d := entry_at t i in
  let* r := val_pcie_get_rootport (bdf d) in
  let* t := bdf_table in
  let* d := entry_at t i in
  modify (set_bdf_table (Some (mk_bdf_table (num_entries t)
    (<[Z.to_nat i := set_rp r.2 d]> (device t))))).

Definition val_pcie_populate_device_rootport : P Z :=
  let* t := bdf_table in
  foreach (range 0 (num_entries t - 1)) populate_one ;;; ret 0.

(** [alloc] is the memory the allocator returns, [None] when it fails. *)
Definition val_pcie_create_device_bdf_table (alloc : option (list pcie_device_attr)) : P Z :=
  let* o := gets g_pcie_bdf_table in
  match o with
  | Some _ => ret PCIE_SUCCESS
  | None =>
      match alloc with
      | None => ret 1
      | Some mem =>
          modify (set_bdf_table (Some (mk_bdf_table 0 mem))) ;;;
          let* n := val_pcie_get_info PCIE_INFO_NUM_ECAM 0 in
          if u32 n =? 0 then ret 1 else
          let* r := search (range 0 (u32 n - 1)) scan_ecam in
          match r with
          | Some st => ret st
          | None => val_pcie_populate_device_rootport ;;; ret 0
          end
      end
  end.

(** [fill] and [enumerate] are the platform's table and enumeration. *)
Definition val_pcie_create_info_table (fill : PCIE_INFO_TABLE -> PCIE_INFO_TABLE)
    (enumerate : P unit) (alloc : option (list pcie_device_attr))
    (pcie_info_table : option PCIE_INFO_TABLE) : P unit :=
  match pcie_info_table with
  | None => ret tt
  | Some t =>
      modify (set_info_table (Some (fill t))) ;;;
      let* n := val_pcie_get_info PCIE_INFO_NUM_ECAM 0 in
      if u32 n =? 0 then ret tt else
      enumerate ;;;
      let* r := val_pcie_create_device_bdf_table alloc in
      if negb (r =? 0) then ret tt else
      when (negb (pal_pcie_check_device_list =? 0)) (modify (set_list_flag 1))
  end.
End Table.

(** ** The hierarchy a table describes *)

Section TableTheorems.
Context {H : Type} `{RegisterFile H, Uninit, Platform}.
Context (s : pcie_state H) (bs : list PCIE_INFO_BLOCK) (devs : list pcie_device_attr).

(** The functions of the table are [devs], all reachable. *)
Definition table_is : Prop :=
  has_ecams s bs /\
  (exists t, g_pcie_bdf_table s = Some t /\ 0 <= num_entries t <= Z.of_nat (length (device t)) /\
     take (Z.to_nat (num_entries t)) (device t) = devs) /\
  forall d, d ∈ devs -> mapped bs (bdf d).

(** [port b] is the device/port type of every function of the table. *)
Definition port_types (port : Z -> Z) : Prop :=
  forall d, d ∈ devs -> returns (val_pcie_device_port_type (bdf d)) s (port (bdf d)) s.

Lemma read_table {A} (k : list pcie_device_attr -> prog (pcie_state H) A) :
  table_is -> (let* t := bdf_table in let* l := table_entries t in k l) s = k devs s.
Proof.
  intros (_ & (t & Ht & Hn & Hd) & _). unfold bdf_table, table_entries, bind, gets. rewrite Ht. simpl.
  destruct (Z.ltb_spec (Z.of_nat (length (device t))) (num_entries t)); [lia|]. simpl. by rewrite Hd.
Qed.

(** Function [d] is a root port whose buses include that of [b]. *)
Definition root_of (port : Z -> Z) (b : Z) (d : pcie_device_attr) : bool :=
  let w := word s bs (bdf d) TYPE1_PBN in
  is_rp (port (bdf d)) && (SECBN w <=? PCIE_EXTRACT_BDF_BUS b) && (PCIE_EXTRACT_BDF_BUS b <=? SUBBN w) &&
  (PCIE_EXTRACT_BDF_SEG (bdf d) =? PCIE_EXTRACT_BDF_SEG b).

Lemma rootport_at_spec port b d :
  table_is -> port_types port -> d ∈ devs ->
  rootport_at b d s = Done (if root_of port b d then Some (bdf d) else None, s).
Proof.
  intros (He & _ & Hm) Hp Hd. unfold rootport_at, root_of.
  erewrite bind_done; [|apply (read_cfg_spec s bs); [done|by apply Hm|vm_compute; by split]].
  rewrite (bind_done _ _ _ _ _ (Hp d Hd)). done.
Qed.

(** The search for a root port ends in the state it starts in. *)
Lemma get_rootport_done port b :
  table_is -> port_types port -> returns (val_pcie_device_port_type b) s (port b) s ->
  exists r, val_pcie_get_rootport b s = Done (r, s).
Proof.
  intros Ht Hp Hb. unfold val_pcie_get_rootport. rewrite (bind_done _ _ _ _ _ Hb).
  destruct (is_rp (port b)); [by eexists|]. destruct (_ || _); [by eexists|].
  rewrite (read_table _ Ht).
  rewrite (bind_done _ _ _ _ _ (search_find (root_of port b) bdf devs (rootport_at b) s 0
    (fun d Hd => rootport_at_spec port b d Ht Hp Hd))).
  destruct (find_first (root_of port b) devs 0) as [[]|]; by eexists.
Qed.

(** [val_pcie_get_rootport] finds the root port above a function: a root
    port is its own; an integrated endpoint or event collector has none
    (status 1, all ones); otherwise, if a root port of the table covers the
    bus of the function in its segment, the result is such a root port, the
    first of the table, with status 0, and if none does the status is 1 and the
    result 0. *)
Theorem get_rootport_correct port b :
  table_is -> port_types port -> returns (val_pcie_device_port_type b) s (port b) s ->
  exists st rp, returns (val_pcie_get_rootport b) s (st, rp) s /\
    (is_rp (port b) = true -> (st, rp) = (0, b)) /\
    (port b = RCiEP \/ port b = RCEC -> (st, rp) = (1, 0xffffffff)) /\
    (is_rp (port b) = false -> port b <> RCiEP -> port b <> RCEC ->
       (st = 0 -> exists k d, devs !! k = Some d /\ rp = bdf d /\ root_of port b d = true /\
          forall j d', (j < k)%nat -> devs !! j = Some d' -> root_of port b d' = false) /\
       (st <> 0 -> (st, rp) = (1, 0) /\ forall d, d ∈ devs -> root_of port b d = false)).
Proof.
  intros Ht Hp Hb. unfold returns, val_pcie_get_rootport. rewrite (bind_done _ _ _ _ _ Hb).
  destruct (is_rp (port b)) eqn:Erp.
  { exists 0, b. split; [done|]. split; [done|]. split; [|done].
    intros [E|E]; rewrite E in Erp; by vm_compute in Erp. }
  destruct (Z.eqb_spec (port b) RCiEP) as [E1|N1]; cbn [orb].
  { exists 1, 0xffffffff. split; [done|]. by rewrite E1. }
  destruct (Z.eqb_spec (port b) RCEC) as [E2|N2].
  { exists 1, 0xffffffff. split; [done|]. by rewrite E2. }
  rewrite (read_table _ Ht).
  rewrite (bind_done _ _ _ _ _ (search_find (root_of port b) bdf devs (rootport_at b) s 0
    (fun d Hd => rootport_at_spec port b d Ht Hp Hd))).
  destruct (find_first (root_of port b) devs 0) as [[i d]|] eqn:Ef.
  - exists 0, (bdf d). split; [done|]. split; [done|]. split; [tauto|]. intros _ _ _. split; [|done].
    intros _. destruct (find_first_Some _ _ _ _ _ Ef) as (k & _ & Hk & Hr & Hlt).
    exists k, d. by split_and!.
  - exists 1, 0. split; [done|]. split; [done|]. split; [tauto|]. intros _ _ _. split; [done|].
    intros _. split; [done|]. by apply find_first_None with (i := 0).
Qed.

(** ** Downstream functions *)

Definition below (b : Z) (d : pcie_device_attr) : bool :=
  let w := word s bs b TYPE1_PBN in
  (SECBN w <=? PCIE_EXTRACT_BDF_BUS (bdf d)) && (PCIE_EXTRACT_BDF_BUS (bdf d) <=? SUBBN w) &&
  (PCIE_EXTRACT_BDF_SEG (bdf d) =? PCIE_EXTRACT_BDF_SEG b).

Definition header_of (b : Z) : Z :=
  Z.land (Z.land (Z.shiftr (word s bs b TYPE01_CLSR) TYPE01_HTR_SHIFT) 0xff) 0x7f.

Lemma header_type_spec b :
  has_ecams s bs -> mapped bs b -> val_pcie_function_header_type b s = Done (header_of b, s).
Proof.
  intros He Hm. unfold val_pcie_function_header_type.
  by erewrite bind_done; [|apply (read_cfg_spec s bs); [done|done|vm_compute; by split]].
Qed.

Lemma downstream_loop_spec b l t1 :
  has_ecams s bs -> (forall d, d ∈ l -> mapped bs (bdf d)) ->
  let w := word s bs b TYPE1_PBN in
  downstream_loop (SECBN w) (SUBBN w) (PCIE_EXTRACT_BDF_SEG b) l t1 s =
    Done (match find_first (fun d => below b d && (header_of (bdf d) =? TYPE0_HEADER)) l 0 with
          | Some (_, d) => inl (bdf d)
          | None => inr (match t1 with
                         | Some _ => t1
                         | None => bdf ∘ snd <$> find_first (below b) l 0
                         end)
          end, s).
Proof.
  intros He Hm. cbv zeta. revert t1. induction l as [|d l IH]; intros t1; [by destruct t1|].
  cbn [downstream_loop find_first]. fold (below b d).
  assert (IH' := IH (fun x Hx => Hm x (list_elem_of_further _ _ _ Hx))). clear IH.
  pose proof (find_first_shift (fun d => below b d && (header_of (bdf d) =? TYPE0_HEADER)) l 0 (0 + 1)) as Sh.
  pose proof (find_first_shift (below b) l 0 (0 + 1)) as Sh2.
  change ((SECBN (word s bs b TYPE1_PBN) <=? PCIE_EXTRACT_BDF_BUS (bdf d)) &&
    (PCIE_EXTRACT_BDF_BUS (bdf d) <=? SUBBN (word s bs b TYPE1_PBN)) &&
    (PCIE_EXTRACT_BDF_SEG (bdf d) =? PCIE_EXTRACT_BDF_SEG b)) with (below b d).
  assert (Hd : mapped bs (bdf d)) by (apply Hm; left).
  destruct (below b d); cbn [andb].
  - rewrite (bind_done _ _ _ _ _ (header_type_spec (bdf d) He Hd)).
    destruct (header_of (bdf d) =? TYPE0_HEADER); [done|]. rewrite IH'.
    destruct (find_first _ l 0) as [[]|], (find_first _ l (0 + 1)) as [[]|]; simplify_eq/=; try done;
      by destruct t1.
  - rewrite IH'.
    destruct (find_first (fun d => below b d && _) l 0) as [[]|],
      (find_first (fun d => below b d && _) l (0 + 1)) as [[]|]; simplify_eq/=; try done.
    destruct t1; [done|].
    destruct (find_first (below b) l 0) as [[]|], (find_first (below b) l (0 + 1)) as [[]|];
      simplify_eq/=; done.
Qed.

(** [val_pcie_get_downstream_function] prefers endpoints: status 0 is
    returned exactly when some function of the table lies below the bridge; the
    function returned lies below it, and has a type 0 header whenever any
    function below it has; on failure 0 is stored. *)
Theorem get_downstream_correct b :
  table_is -> mapped bs b ->
  exists st x, returns (val_pcie_get_downstream_function b) s (st, x) s /\
    (st = 0 <-> exists d, d ∈ devs /\ below b d = true) /\
    (st = 0 -> exists d, d ∈ devs /\ below b d = true /\ x = bdf d /\
       ((exists d', d' ∈ devs /\ below b d' = true /\ header_of (bdf d') = TYPE0_HEADER) ->
        header_of x = TYPE0_HEADER)) /\
    (st <> 0 -> (st, x) = (1, 0)).
Proof.
  intros Ht Hb. pose proof Ht as (He & _ & Hm).
  unfold returns, val_pcie_get_downstream_function.
  erewrite bind_done; [|apply (read_cfg_spec s bs); [done|done|vm_compute; by split]]. cbn [snd].
  rewrite (read_table _ Ht). rewrite (bind_done _ _ _ _ _ (downstream_loop_spec b devs None He Hm)).
  destruct (find_first (fun d => below b d && _) devs 0) as [[i d]|] eqn:E0.
  - destruct (find_first_Some _ _ _ _ _ E0) as (k & _ & Hk & Hr & _).
    apply andb_true_iff in Hr as [Hr Hty%Z.eqb_eq]. apply list_elem_of_lookup_2 in Hk.
    exists 0, (bdf d). split; [done|]. split; [|split; [|done]].
    + split; [|done]. intros _. by exists d.
    + intros _. exists d. by split_and!.
  - rewrite find_first_None in E0.
    destruct (find_first (below b) devs 0) as [[i d]|] eqn:E1; cbn.
    + destruct (find_first_Some _ _ _ _ _ E1) as (k & _ & Hk & Hr & _).
      apply list_elem_of_lookup_2 in Hk.
      exists 0, (bdf d). split; [done|]. split; [|split; [|done]].
      * split; [|done]. intros _. by exists d.
      * intros _. exists d. split_and!; try done. intros (d' & Hd' & Hb' & Hty).
        specialize (E0 d' Hd'). rewrite Hb', Hty in E0. done.
    + rewrite find_first_None in E1. exists 1, 0. split; [done|]. split; [|split; [done|done]].
      split; [done|]. intros (d & Hd & Hbd). by rewrite (E1 d Hd) in Hbd.
Qed.

(** [val_pcie_scan_bridge_devices_and_check_memtype] never looks below
    the bridge: for every function that does not have a type 0 header it
    returns 0, whatever the functions on its secondary buses are. *)
Theorem scan_bridge_blind b :
  has_ecams s bs -> mapped bs b -> header_of b <> TYPE0_HEADER ->
  returns (val_pcie_scan_bridge_devices_and_check_memtype b) s 0 s.
Proof.
  intros He Hm Hty. unfold returns, val_pcie_scan_bridge_devices_and_check_memtype.
  erewrite bind_done; [|apply (read_cfg_spec s bs); [done|done|vm_compute; by split]]. cbn [snd].
  assert (Hf : forall A (l : list A), search l (fun _ => memtype_func b) s = Done (None, s)).
  { intros A l. induction l as [|x l IH]; [done|]. cbn [search].
    assert (E : memtype_func b s = Done (None, s)).
    { unfold memtype_func. rewrite (bind_done _ _ _ _ _ (header_type_spec b He Hm)).
      by destruct (Z.eqb_spec (header_of b) TYPE0_HEADER). }
    by rewrite (bind_done _ _ _ _ _ E). }
  assert (Hd : forall l st, memtype_devs b l st s = Done (st, s)).
  { induction l as [|x l IH]; intros st; [done|]. cbn [memtype_devs].
    by rewrite (bind_done _ _ _ _ _ (Hf _ _)). }
  generalize (range (SECBN (creg (hw s) bs b TYPE1_PBN)) (SUBBN (creg (hw s) bs b TYPE1_PBN))).
  intros l. induction l as [|x l IH]; [done|]. cbn [memtype_buses].
  by rewrite (bind_done _ _ _ _ _ (Hd _ _)).
Qed.
End TableTheorems.

(** ** The table lists exactly the PCI Express functions *)

(** Every function of every ECAM, in the order of the scan. *)
Definition all_functions (bs : list PCIE_INFO_BLOCK) : list Z :=
  flat_map (fun e => flat_map (fun bus => flat_map (fun dev => flat_map (fun func =>
    [PCIE_CREATE_BDF (segment_num e) bus dev func]) (range 0 (PCIE_MAX_FUNC - 1)))
    (range 0 (PCIE_MAX_DEV - 1))) (range (start_bus_num e) (end_bus_num e))) bs.

Lemma elem_of_range x a b : x ∈ range a b <-> a <= x <= b.
Proof.
  unfold range. rewrite list_elem_of_fmap. split.
  - intros (k & -> & Hk%elem_of_seq). lia.
  - intros Hx. exists (Z.to_nat (x - a)). split; [lia|]. apply elem_of_seq. lia.
Qed.

Section Scan.
Context {H : Type} `{RegisterFile H, Uninit, Platform}.
Context (s0 : pcie_state H) (bs : list PCIE_INFO_BLOCK) (mem : list pcie_device_attr)
  (Hecam : has_ecams s0 bs) (Hdis : ecams_disjoint bs)
  (Hbase : forall e, e ∈ bs -> ecam_base e <> 0).

(** What the scan asks of a function, in the state before it. *)
Definition cap_found (b : Z) : bool :=
  match val_pcie_find_capability b PCIE_CAP CID_PCIECS s0 with
  | Done ((st, _), _) => st =? PCIE_SUCCESS
  | _ => false
  end.
Definition pcie_function (b : Z) : bool :=
  negb (word s0 bs b TYPE01_VIDR =? PCIE_UNKNOWN_RESPONSE) &&
  negb (is_bridge_class (word s0 bs b TYPE01_RIDR)) && cap_found b &&
  (pal_pcie_check_device_valid b =? 0).

(** A function that answers has a capability list that ends and does not lie
    in the command register. *)
Definition function_ok (b : Z) : Prop :=
  word s0 bs b TYPE01_VIDR <> PCIE_UNKNOWN_RESPONSE ->
  word s0 bs b TYPE01_CPR <> PCIE_UNKNOWN_RESPONSE /\
  exists l, cap_chain s0 bs b PCIE_CAP (cap_start s0 bs b PCIE_CAP) l /\
    forall off, off ∈ l -> off - off mod 4 <> TYPE01_CR.

(** Only command registers differ from the state before the scan. *)
Definition untouched (s : pcie_state H) : Prop :=
  has_ecams s bs /\
  forall b off, 0 <= b < 2 ^ 32 -> 0 <= off < 4096 -> mapped bs b -> off - off mod 4 <> TYPE01_CR ->
    word s bs b off = word s0 bs b off.

(** [fs] is what the table lists. *)
Definition lists (s : pcie_state H) (fs : list Z) : Prop :=
  exists t, g_pcie_bdf_table s = Some t /\ num_entries t = Z.of_nat (length fs) /\
    length (device t) = length mem /\ bdf <$> take (length fs) (device t) = fs.

Definition scanned (s : pcie_state H) (fs : list Z) : Prop := untouched s /\ lists s fs.

Lemma write_cr_scanned s fs b v :
  scanned s fs -> 0 <= b < 2 ^ 32 -> mapped bs b ->
  exists s', val_pcie_write_cfg b TYPE01_CR v s = Done (tt, s') /\ scanned s' fs.
Proof.
  intros [[He Hw] (t & Ht)] Hb Hm.
  destruct (write_cfg_spec s bs b TYPE01_CR v He Hdis Hm Hb ltac:(vm_compute; by split) eq_refl)
    as (h & rw & w1c & E & He' & _ & Hreg).
  exists (set_hw h s). split; [done|]. split; [|by exists t]. split; [done|].
  intros b' off Hb' Ho Hm' Hne. rewrite <- Hw by done. unfold word. cbn [hw set_hw].
  rewrite Hreg by done. destruct (Z.eqb_spec TYPE01_CR (off - off mod 4)); [congruence|].
  by rewrite andb_false_r.
Qed.

(** The search gives the same answer in every state of the scan. *)
Lemma find_pciecs_scanned s b :
  untouched s -> 0 <= b < 2 ^ 32 -> mapped bs b -> function_ok b ->
  word s0 bs b TYPE01_VIDR <> PCIE_UNKNOWN_RESPONSE ->
  exists st o, val_pcie_find_capability b PCIE_CAP CID_PCIECS s = Done ((st, o), s) /\
    (st =? PCIE_SUCCESS) = cap_found b /\
    (st = PCIE_SUCCESS -> exists off, o = Some off /\ 0 <= off < 256).
Proof.
  intros [He Hw] Hb Hm Hok Hv. destruct (Hok Hv) as (Hcpr & l & Hl & Hne).
  assert (Hr : forall off, off ∈ l -> 0 <= off < 256).
  { intros off Ho. assert (0 < off < cap_limit PCIE_CAP); [|unfold cap_limit in *; lia].
    eapply (chain_range s0 bs b PCIE_CAP); [exact Hl| |done].
    unfold cap_start, cap_limit. rewrite land_255. lia. }
  assert (Hlw : forall off, off ∈ l -> word s bs b off = word s0 bs b off).
  { intros off Ho. pose proof (Hr off Ho). apply Hw; [done|lia|done|by apply Hne]. }
  assert (Hc : word s bs b TYPE01_CPR = word s0 bs b TYPE01_CPR)
    by (apply Hw; try done; vm_compute; discriminate).
  assert (E0 := find_cap_chain s0 bs b Hecam Hm PCIE_CAP CID_PCIECS l ltac:(done) (fun _ => Hcpr) Hl).
  assert (E : val_pcie_find_capability b PCIE_CAP CID_PCIECS s =
    Done (search_result s bs b PCIE_CAP CID_PCIECS l, s)).
  { apply find_cap_chain; try done; [by rewrite Hc|]. unfold cap_start in *. rewrite Hc.
    by apply (chain_ext bs b s0). }
  rewrite (search_result_ext bs b s0) in E by done. unfold cap_found. rewrite E0.
  destruct (search_result s0 bs b PCIE_CAP CID_PCIECS l) as [st o] eqn:Es.
  exists st, o. split; [done|]. split; [done|]. intros ->. revert Es. unfold search_result.
  destruct (find_first _ l 0) as [[i off]|] eqn:Ef; [|done]. intros [= <-].
  exists off. split; [done|]. apply Hr.
  destruct (find_first_Some _ _ _ _ _ Ef) as (k & _ & Hk & _). by eapply list_elem_of_lookup_2.
Qed.

Lemma append_scanned s fs b :
  scanned s fs -> (length fs < length mem)%nat -> Z.of_nat (length mem) < 2 ^ 32 ->
  exists s', append_bdf b s = Done (tt, s') /\ scanned s' (fs ++ [b]).
Proof.
  intros [Hu (t & Ht & Hn & Hlen & Htake)] Hroom H32.
  destruct (at_index_lt (device t) (num_entries t)) as [old Hold]; [lia|].
  unfold append_bdf, bdf_table, entry_at, bind, gets, modify. rewrite Ht. simpl. rewrite Hold. simpl.
  eexists. split; [reflexivity|]. split; [exact Hu|]. eexists. split; [reflexivity|]. simpl.
  rewrite length_app, length_insert, Hn. split; [rewrite u32_small; simpl; lia|]. split; [done|].
  rewrite Nat2Z.id. simpl. replace (length fs + 1)%nat with (S (length fs)) by lia.
  rewrite (take_S_r _ _ (set_bdf b old)) by (rewrite list_lookup_insert_eq; [done|lia]).
  rewrite take_insert_ge by lia. rewrite fmap_app, Htake. done.
Qed.

(** One function of the scan. *)
Lemma probe_scanned s fs b :
  scanned s fs -> 0 <= b < 2 ^ 32 -> mapped bs b -> function_ok b ->
  (length (fs ++ if pcie_function b then [b] else []) <= length mem)%nat ->
  Z.of_nat (length mem) < 2 ^ 32 ->
  exists s', probe b s = Done (None, s') /\ scanned s' (fs ++ if pcie_function b then [b] else []).
Proof.
  intros Hs Hb Hm Hok Hroom H32. pose proof Hs as [[He Hw] _]. unfold probe.
  erewrite bind_done; [|apply (read_cfg_spec s bs); [done|done|vm_compute; by split]]. cbn [fst snd].
  change (0 =? PCIE_NO_MAPPING) with false. cbv iota.
  change (creg (hw s) bs b TYPE01_VIDR) with (word s bs b TYPE01_VIDR).
  rewrite (Hw b TYPE01_VIDR) by (try done; vm_compute; discriminate).
  unfold pcie_function in *.
  destruct (Z.eqb_spec (word s0 bs b TYPE01_VIDR) PCIE_UNKNOWN_RESPONSE) as [Hv|Hv]; cbn [negb andb] in *.
  { exists s. by rewrite app_nil_r. }
  unfold val_pcie_is_host_bridge.
  assert (Er : val_pcie_read_cfg b TYPE01_RIDR (uninit "reg_value") s =
    Done ((0, word s0 bs b TYPE01_RIDR), s)).
  { rewrite <- (Hw b TYPE01_RIDR) by (try done; vm_compute; discriminate).
    apply (read_cfg_spec s bs); [done|done|vm_compute; by split]. }
  unfold bind at 1. unfold bind at 1. rewrite Er. unfold ret at 1. cbn [snd].
  destruct (is_bridge_class (word s0 bs b TYPE01_RIDR)); cbn [negb andb Z.eqb] in *.
  { exists s. by rewrite app_nil_r. }
  assert (Hen : exists s1, (val_pcie_enable_bme b ;;; val_pcie_enable_msa b) s = Done (tt, s1) /\
    scanned s1 fs).
  { unfold val_pcie_enable_bme, val_pcie_enable_msa.
    destruct (write_cr_scanned s fs b (Z.lor (word s bs b TYPE01_CR) (Z.shiftl 1 CR_BME_SHIFT)) Hs Hb Hm)
      as (s1 & E1 & Hs1).
    destruct (write_cr_scanned s1 fs b (Z.lor (word s1 bs b TYPE01_CR) (Z.shiftl 1 CR_MSE_SHIFT)) Hs1 Hb Hm)
      as (s2 & E2 & Hs2).
    exists s2. split; [|done]. unfold bind at 1.
    erewrite bind_done; [|apply (read_cfg_spec s bs); [done|done|vm_compute; by split]]. cbn [snd].
    change (creg (hw s) bs b TYPE01_CR) with (word s bs b TYPE01_CR). rewrite E1.
    erewrite bind_done; [|apply (read_cfg_spec s1 bs); [by apply Hs1|done|vm_compute; by split]].
    done. }
  destruct Hen as (s1 & E1 & Hs1). apply bind_inv in E1 as (u & s2 & E2 & E3).
  rewrite (bind_done _ _ _ _ _ E2), (bind_done _ _ _ _ _ E3).
  destruct (find_pciecs_scanned s1 b (proj1 Hs1) Hb Hm Hok Hv) as (st & o & Ef & Hst & _).
  rewrite (bind_done _ _ _ _ _ Ef). cbn [fst]. rewrite Hst.
  destruct (cap_found b); cbn [negb andb] in *; [|exists s1; by rewrite app_nil_r].
  destruct (pal_pcie_check_device_valid b =? 0); cbn [negb] in *; [|exists s1; by rewrite app_nil_r].
  destruct (append_scanned s1 fs b Hs1) as (s3 & E4 & Hs3); [rewrite length_app in Hroom; simpl in Hroom; lia|done|].
  exists s3. by rewrite (bind_done _ _ _ _ _ E4).
Qed.

(** Every function the scan probes is reachable. *)
Lemma function_mapped e bus dev func :
  e ∈ bs -> start_bus_num e <= bus <= end_bus_num e -> 0 <= dev <= 31 -> 0 <= func <= 7 ->
  let b := PCIE_CREATE_BDF (segment_num e) bus dev func in 0 <= b < 2 ^ 32 /\ mapped bs b.
Proof.
  intros He Hbus Hdev Hfunc b. pose proof Hecam as (_ & _ & Hok).
  rewrite Forall_forall in Hok. pose proof (Hok e He) as (Hsg & Hse & Hend & _).
  split; [apply u32_range|]. unfold mapped, cfg_lookup.
  destruct (extract_create (segment_num e) bus dev func) as (E1 & E2 & E3 & E4); try lia. fold b in E1, E2, E3, E4.
  unfold bad_bdf. rewrite E1, E2, E3, E4. unfold PCIE_MAX_BUS, PCIE_MAX_DEV, PCIE_MAX_FUNC.
  destruct (Z.leb_spec 256 bus), (Z.leb_spec 32 dev), (Z.leb_spec 8 func); try lia. cbn [orb].
  destruct (find_first (covers bus (segment_num e)) bs 0) as [[i e']|] eqn:Ef.
  - destruct (find_first_Some _ _ _ _ _ Ef) as (k & _ & Hk & _). apply list_elem_of_lookup_2 in Hk.
    destruct (Z.eqb_spec (ecam_base e') 0); [by destruct (Hbase e' Hk)|by eexists].
  - rewrite find_first_None in Ef. specialize (Ef e He). unfold covers in Ef.
    rewrite Z.eqb_refl, andb_true_r in Ef. lia.
Qed.

(** The functions of a list that the table will list. *)
Definition keep (b : Z) : list Z := if pcie_function b then [b] else [].

Definition ecam_functions (f : Z -> list Z) (e : PCIE_INFO_BLOCK) : list Z :=
  flat_map (fun bus => flat_map (fun dev => flat_map (fun func =>
    f (PCIE_CREATE_BDF (segment_num e) bus dev func)) (range 0 (PCIE_MAX_FUNC - 1)))
    (range 0 (PCIE_MAX_DEV - 1))) (range (start_bus_num e) (end_bus_num e)).

Lemma flat_map_keep {A} (g : A -> list Z) l :
  flat_map (fun x => filter pcie_function (g x)) l = filter pcie_function (flat_map g l).
Proof. induction l as [|x l IH]; [done|]. cbn [flat_map]. by rewrite filter_app, IH. Qed.

Lemma ecam_functions_keep e :
  ecam_functions keep e = filter pcie_function (ecam_functions (fun b => [b]) e).
Proof.
  unfold ecam_functions. rewrite <- flat_map_keep. apply flat_map_ext. intros bus.
  rewrite <- flat_map_keep. apply flat_map_ext. intros dev.
  rewrite <- flat_map_keep. apply flat_map_ext. intros func. unfold keep.
  rewrite filter_cons. by destruct (pcie_function _).
Qed.

Context (H32 : Z.of_nat (length mem) < 2 ^ 32)
  (Hfun : forall b, b ∈ all_functions bs -> function_ok b).

Lemma in_all_functions e bus dev func :
  e ∈ bs -> bus ∈ range (start_bus_num e) (end_bus_num e) -> dev ∈ range 0 (PCIE_MAX_DEV - 1) ->
  func ∈ range 0 (PCIE_MAX_FUNC - 1) -> PCIE_CREATE_BDF (segment_num e) bus dev func ∈ all_functions bs.
Proof.
  rewrite !list_elem_of_In. intros He Hb Hd Hf. unfold all_functions.
  apply in_flat_map. exists e. split; [done|]. apply in_flat_map. exists bus. split; [done|].
  apply in_flat_map. exists dev. split; [done|]. apply in_flat_map. exists func. split; [done|by left].
Qed.

Lemma scan_ecam_scanned s fs i e :
  bs !! i = Some e -> scanned s fs -> (length (fs ++ ecam_functions keep e) <= length mem)%nat ->
  exists s', scan_ecam (Z.of_nat i) s = Done (None, s') /\ scanned s' (fs ++ ecam_functions keep e).
Proof.
  intros Hi Hs Hroom. pose proof Hs as [[He _] _].
  assert (Hin : e ∈ bs) by (by eapply list_elem_of_lookup_2).
  pose proof Hecam as (_ & _ & Hok). rewrite Forall_forall in Hok.
  pose proof (Hok e Hin) as (Hsg & Hse & Hend & _).
  destruct (get_info_block s bs i e He Hi) as (_ & E1 & E2 & E3).
  unfold scan_ecam. rewrite (bind_done _ _ _ _ _ E3), (bind_done _ _ _ _ _ E1), (bind_done _ _ _ _ _ E2).
  rewrite !u32_small by lia.
  apply (search_grow scanned (length mem) (fun bus => flat_map (fun dev => flat_map (fun func =>
    keep (PCIE_CREATE_BDF (segment_num e) bus dev func)) (range 0 (PCIE_MAX_FUNC - 1)))
    (range 0 (PCIE_MAX_DEV - 1)))); [|done|done].
  intros bus s1 fs1 Hbus Hs1 Hr1.
  apply (search_grow scanned (length mem) (fun dev => flat_map (fun func =>
    keep (PCIE_CREATE_BDF (segment_num e) bus dev func)) (range 0 (PCIE_MAX_FUNC - 1)))); [|done|done].
  intros dev s2 fs2 Hdev Hs2 Hr2.
  apply (search_grow scanned (length mem) (fun func =>
    keep (PCIE_CREATE_BDF (segment_num e) bus dev func))); [|done|done].
  intros func s3 fs3 Hfunc Hs3 Hr3.
  assert (Hf : function_ok (PCIE_CREATE_BDF (segment_num e) bus dev func))
    by (by apply Hfun, in_all_functions).
  apply elem_of_range in Hbus, Hdev, Hfunc.
  destruct (function_mapped e bus dev func Hin Hbus) as [Hb Hm]; [unfold PCIE_MAX_DEV in *; lia|
    unfold PCIE_MAX_FUNC in *; lia|].
  by apply probe_scanned.
Qed.

Lemma scan_all_scanned s :
  scanned s [] -> (length (filter pcie_function (all_functions bs)) <= length mem)%nat ->
  exists s', search (range 0 (Z.of_nat (length bs) - 1)) scan_ecam s = Done (None, s') /\
    scanned s' (filter pcie_function (all_functions bs)).
Proof.
  intros Hs Hroom.
  assert (Hall : filter pcie_function (all_functions bs) =
    flat_map (fun i => match bs !! Z.to_nat i with Some e => ecam_functions keep e | None => [] end)
      (range 0 (Z.of_nat (length bs) - 1))).
  { unfold range. rewrite flat_map_fmap.
    replace (Z.to_nat (Z.of_nat (length bs) - 1 - 0 + 1)) with (length bs) by lia.
    rewrite (flat_map_ext _ (fun k => match bs !! k with Some e => ecam_functions keep e | None => [] end))
      by (intros k; by replace (Z.to_nat (0 + Z.of_nat k)) with k by lia).
    rewrite flat_map_lookup. rewrite (flat_map_ext _ _ ecam_functions_keep).
    by rewrite flat_map_keep. }
  rewrite Hall in *.
  apply (search_grow scanned (length mem) _ _ scan_ecam s []); [|done|done].
  intros i s1 fs Hi Hs1 Hr. apply elem_of_range in Hi.
  destruct (lookup_lt_is_Some_2 bs (Z.to_nat i)) as [e He]; [lia|]. rewrite He in *.
  destruct (scan_ecam_scanned s1 fs (Z.to_nat i) e He Hs1 Hr) as (s' & E & Hs').
  rewrite Z2Nat.id in E by lia. by exists s'.
Qed.

(** ** Root ports of the listed functions *)

Definition listed (b : Z) : Prop := b ∈ filter pcie_function (all_functions bs).

Lemma listed_facts b :
  listed b -> 0 <= b < 2 ^ 32 /\ mapped bs b /\ function_ok b /\
  word s0 bs b TYPE01_VIDR <> PCIE_UNKNOWN_RESPONSE /\ cap_found b = true.
Proof.
  unfold listed. rewrite list_elem_of_filter. intros [Hp Hin]. pose proof (Hfun b Hin) as Hok.
  assert (Hr : 0 <= b < 2 ^ 32 /\ mapped bs b).
  { revert Hin. unfold all_functions. rewrite list_elem_of_In, in_flat_map. intros (e & He & Hin).
    apply in_flat_map in Hin as (bus & Hbus & Hin). apply in_flat_map in Hin as (dev & Hdev & Hin).
    apply in_flat_map in Hin as (func & Hfunc & [<-|[]]).
    apply list_elem_of_In in He, Hbus, Hdev, Hfunc. apply elem_of_range in Hbus, Hdev, Hfunc.
    unfold PCIE_MAX_DEV, PCIE_MAX_FUNC in *. apply function_mapped; [done|done|lia|lia]. }
  destruct Hr. unfold pcie_function in Hp. apply Is_true_true in Hp.
  rewrite !andb_true_iff, negb_true_iff, Z.eqb_neq in Hp. tauto.
Qed.

Lemma port_type_done s b :
  untouched s -> listed b -> exists p, val_pcie_device_port_type b s = Done (p, s).
Proof.
  intros Hu Hl. destruct (listed_facts b Hl) as (Hb & Hm & Hok & Hv & Hc).
  destruct (find_pciecs_scanned s b Hu Hb Hm Hok Hv) as (st & o & E & Hst & Ho).
  rewrite Hc in Hst. destruct (Ho (proj1 (Z.eqb_eq _ _) Hst)) as (off & -> & Hoff).
  unfold val_pcie_device_port_type, find_pciecs. unfold bind at 1.
  rewrite (bind_done _ _ _ _ _ E). unfold ret at 1. cbn [snd]. change (default (uninit "pciecs_base") (Some off)) with off.
  erewrite bind_done; [|apply (read_cfg_spec s bs); [by apply Hu|done|]].
  - cbn [fst]. change (0 =? 0) with true. cbn [negb]. repeat case_match; by eexists.
  - unfold CIDR_OFFSET. rewrite Z.add_0_r, u32_small; lia.
Qed.

(** The type the code sees in state [s]. *)
Definition port_in (s : pcie_state H) (b : Z) : Z :=
  match val_pcie_device_port_type b s with Done (p, _) => p | _ => 0 end.

Lemma rootport_done s b :
  scanned s (filter pcie_function (all_functions bs)) -> listed b ->
  exists r, val_pcie_get_rootport b s = Done (r, s).
Proof.
  intros [Hu (t & Ht & Hn & Hlen & Htake)] Hl.
  assert (Hin : forall d, d ∈ take (length (filter pcie_function (all_functions bs))) (device t) ->
    listed (bdf d)).
  { intros d Hd. unfold listed. rewrite <- Htake. by apply list_elem_of_fmap_2. }
  assert (Hp : forall b, listed b -> val_pcie_device_port_type b s = Done (port_in s b, s)).
  { intros b' Hb'. unfold port_in. by destruct (port_type_done s b' Hu Hb') as [p ->]. }
  assert (Hcap : (length (filter pcie_function (all_functions bs)) <= length (device t))%nat).
  { rewrite <- Htake at 1. rewrite length_fmap, length_take. lia. }
  apply (get_rootport_done s bs (take (length (filter pcie_function (all_functions bs))) (device t))
    (port_in s)).
  - split; [by apply Hu|]. split.
    + exists t. rewrite Hn, Nat2Z.id. split; [done|]. split; [|done]. apply Nat2Z.inj_le in Hcap. split; [apply Nat2Z.is_nonneg|exact Hcap].
    + intros d Hd. by destruct (listed_facts _ (Hin d Hd)) as (_ & ? & _).
  - intros d Hd. by apply Hp, Hin.
  - by apply Hp.
Qed.

Lemma populate_one_scanned s i :
  let fs := filter pcie_function (all_functions bs) in
  scanned s fs -> 0 <= i < Z.of_nat (length fs) ->
  exists s', populate_one i s = Done (tt, s') /\ scanned s' fs.
Proof.
  intros fs Hs Hi. pose proof Hs as [Hu (t & Ht & Hn & Hlen & Htake)].
  assert (Hcap : (length fs <= length (device t))%nat).
  { rewrite <- Htake at 1. rewrite length_fmap, length_take. lia. }
  destruct (at_index_lt (device t) i) as [d E]; [lia|].
  destruct (at_index_Some _ _ _ E) as [Hi0 Hd].
  assert (Hfs : fs !! Z.to_nat i = Some (bdf d)).
  { rewrite <- Htake, list_lookup_fmap, lookup_take_lt by lia. by rewrite Hd. }
  destruct (rootport_done s (bdf d) Hs) as [r Er]; [by eapply list_elem_of_lookup_2|].
  unfold populate_one, bdf_table, entry_at, bind, gets, modify. rewrite Ht. simpl.
  rewrite E. simpl. rewrite Er, Ht. simpl. rewrite E. simpl.
  eexists. split; [reflexivity|]. split; [exact Hu|]. eexists. split; [reflexivity|]. simpl.
  rewrite length_insert. split_and!; [done|done|].
  rewrite <- Htake at 2. apply list_eq. intros j. rewrite !list_lookup_fmap.
  destruct (decide (j < length fs)%nat); [|by rewrite !lookup_take_ge by lia].
  rewrite !lookup_take_lt by lia. destruct (decide (j = Z.to_nat i)) as [->|Hne].
  - rewrite list_lookup_insert_eq by lia. by rewrite Hd.
  - by rewrite list_lookup_insert_ne.
Qed.

(** C7: The scan finds every PCI Express function and nothing else: when the
    memory allocated holds them all, and every function that answers has a
    capability list that ends, [val_pcie_create_device_bdf_table] returns 0 and
    the table lists, in the order of the scan, exactly the functions that
    answer, are no host bridge, have the PCI Express capability and that the
    platform accepts; the configuration words other than the command
    registers are as before. *)
Theorem bdf_table_exact :
  g_pcie_bdf_table s0 = None -> bs <> [] ->
  (length (filter pcie_function (all_functions bs)) <= length mem)%nat ->
  exists s', returns (val_pcie_create_device_bdf_table (Some mem)) s0 0 s' /\
    untouched s' /\ lists s' (filter pcie_function (all_functions bs)).
Proof.
  intros Hnone Hbs Hroom. unfold returns, val_pcie_create_device_bdf_table, bind at 1, gets.
  rewrite Hnone. erewrite bind_done; [|reflexivity].
  set (s1 := set_bdf_table _ s0).
  assert (Hs1 : scanned s1 []).
  { split; [by split|]. exists (mk_bdf_table 0 mem). by split_and!. }
  rewrite (bind_done _ _ _ _ _ (get_info_num s1 bs (proj1 (proj1 Hs1)))).
  pose proof Hecam as (_ & Hlt & _).
  assert (Hlen : length bs <> 0%nat) by (by destruct bs).
  rewrite u32_small by lia. destruct (Z.eqb_spec (Z.of_nat (length bs)) 0); [lia|].
  destruct (scan_all_scanned s1 Hs1 Hroom) as (s2 & E2 & Hs2).
  rewrite (bind_done _ _ _ _ _ E2).
  pose proof Hs2 as [_ (t & Ht & Hn & _)].
  destruct (foreach_inv (fun s => scanned s (filter pcie_function (all_functions bs)))
    (range 0 (num_entries t - 1)) populate_one) with (s := s2) as (s3 & E3 & Hs3); [|done|].
  { intros i s Hi Hs. apply elem_of_range in Hi. apply populate_one_scanned; [done|lia]. }
  exists s3. split; [|done]. unfold val_pcie_populate_device_rootport, bdf_table, bind, gets.
  rewrite Ht. simpl. by rewrite E3.
Qed.
End Scan.

(** ** A small hierarchy *)

(** A root port at 0:00:01.0 with secondary bus 1 and an endpoint at 0:01:02.0. *)
Definition board3 : board :=
  {[ 0x30008000 := 0x00011234; 0x30008008 := 0x06040000; 0x3000800C := 0x00010000;
     0x30008018 := 0x00010100; 0x30008034 := 0x40; 0x30008040 := 0x00420010;
     0x30110000 := 0x00021234; 0x30110008 := 0x02000000; 0x3011000C := 0x00000000;
     0x30110034 := 0x40; 0x30110040 := 0x00020010; 0x30110010 := 0x8000000C;
     0x30110014 := 0x00000001 ]}.
Definition rp3 : Z := 0x00000100.
Definition ep3 : Z := 0x00010200.
Definition pcie3 : pcie_state board := set_hw board3 pcie0.
Definition devs3 : list pcie_device_attr := [mk_attr rp3 0; mk_attr ep3 0].
Definition pcie3t : pcie_state board := set_bdf_table (Some (mk_bdf_table 2 devs3)) pcie3.
Definition port3 (b : Z) : Z := if b =? rp3 then RP else EP.

Lemma rp3_chain : cap_chain pcie3 ecams0 rp3 PCIE_CAP (cap_start pcie3 ecams0 rp3 PCIE_CAP) [0x40].
Proof. apply chain_next; [vm_compute; discriminate|]. apply chain_end. Qed.

Lemma ep3_chain : cap_chain pcie3 ecams0 ep3 PCIE_CAP (cap_start pcie3 ecams0 ep3 PCIE_CAP) [0x40].
Proof. apply chain_next; [vm_compute; discriminate|]. apply chain_end. Qed.

Lemma devs3_table : table_is pcie3t ecams0 devs3.
Proof.
  split; [apply (pcie0_ecams board3)|]. split; [by exists (mk_bdf_table 2 devs3)|].
  unfold devs3. intros d Hd. apply elem_of_cons in Hd as [->|Hd]; [vm_compute; by eexists|].
  apply list_elem_of_singleton in Hd as ->. vm_compute. by eexists.
Qed.

Lemma devs3_ports : port_types pcie3t devs3 port3.
Proof.
  unfold devs3. intros d Hd. apply elem_of_cons in Hd as [->|Hd]; [vm_compute; reflexivity|].
  apply list_elem_of_singleton in Hd as ->. vm_compute. reflexivity.
Qed.

Lemma get_rootport_correct_witness :
  exists st rp, returns (val_pcie_get_rootport ep3) pcie3t (st, rp) pcie3t /\ st = 0 /\ rp = rp3.
Proof.
  destruct (get_rootport_correct pcie3t ecams0 devs3 port3 ep3 devs3_table devs3_ports)
    as (st & rp & E & _ & _ & Hs & Hn); [vm_compute; reflexivity..|vm_compute; discriminate|
    vm_compute; discriminate|].
  exists st, rp. split; [exact E|]. revert E. vm_compute. intros [= <- <-]. done.
Defined.

Lemma get_downstream_correct_witness :
  exists st x, returns (val_pcie_get_downstream_function rp3) pcie3t (st, x) pcie3t /\ st = 0.
Proof.
  destruct (get_downstream_correct pcie3t ecams0 devs3 rp3 devs3_table)
    as (st & x & E & [_ Hs] & _); [vm_compute; by eexists|].
  exists st, x. split; [exact E|]. apply Hs. exists (mk_attr ep3 0).
  split; [right; left|vm_compute; reflexivity].
Defined.

Lemma scan_bridge_blind_witness :
  returns (val_pcie_scan_bridge_devices_and_check_memtype rp3) pcie3t 0 pcie3t.
Proof.
  apply (scan_bridge_blind pcie3t ecams0 rp3 (pcie0_ecams board3)); [vm_compute; by eexists|].
  vm_compute. discriminate.
Defined.

(** Absent functions read all ones; the other two have one capability. *)
Lemma functions3_ok b : b ∈ all_functions ecams0 -> function_ok pcie3 ecams0 b.
Proof.
  assert (E : forallb (fun b => (word pcie3 ecams0 b TYPE01_VIDR =? PCIE_UNKNOWN_RESPONSE) ||
    (b =? rp3) || (b =? ep3)) (all_functions ecams0) = true) by (vm_compute; reflexivity).
  rewrite forallb_forall in E. intros Hb%list_elem_of_In. specialize (E b Hb). intros Hv.
  rewrite !orb_true_iff, !Z.eqb_eq in E. destruct E as [[E| ->]| ->]; [done|..];
    (split; [vm_compute; discriminate|]; exists [0x40]; split;
     [first [exact rp3_chain|exact ep3_chain]|];
     intros off ->%list_elem_of_singleton; vm_compute; discriminate).
Qed.

Lemma bdf_table_exact_witness :
  exists s' t, returns (val_pcie_create_device_bdf_table (Some [mk_attr 0 0; mk_attr 0 0; mk_attr 0 0]))
    pcie3 0 s' /\ g_pcie_bdf_table s' = Some t /\ num_entries t = 2.
Proof.
  destruct (bdf_table_exact pcie3 ecams0 [mk_attr 0 0; mk_attr 0 0; mk_attr 0 0] (pcie0_ecams board3)
    ecams0_disjoint) as (s' & E & _ & (t & Ht & Hn & _)).
  - intros e He. apply elem_of_cons in He as [->|He]; [discriminate|].
    apply list_elem_of_singleton in He as ->. discriminate.
  - reflexivity.
  - apply functions3_ok.
  - reflexivity.
  - discriminate.
  - vm_compute. lia.
  - exists s', t. split; [exact E|]. split; [exact Ht|]. rewrite Hn. vm_compute. reflexivity.
Defined.

(** ** Limits of the table and of the searches *)

(** The table is never checked for room: the 8192 bytes allocated hold
    1023 entries (the comment in the header says 2048), and appending to a
    table whose memory is used up writes outside it, for every function. *)
Theorem bdf_table_capacity {H : Type} (s : pcie_state H) t b :
  g_pcie_bdf_table s = Some t -> num_entries t = Z.of_nat (length (device t)) ->
  bdf_capacity = 1023 /\ append_bdf b s = Undefined.
Proof.
  intros Ht Hn. split; [reflexivity|].
  unfold append_bdf, bdf_table, entry_at, bind, gets. rewrite Ht. simpl.
  by rewrite at_index_ge by lia.
Qed.

Lemma bdf_table_capacity_witness :
  append_bdf ep3 pcie3t = Undefined.
Proof. exact (proj2 (bdf_table_capacity pcie3t (mk_bdf_table 2 devs3) ep3 eq_refl eq_refl)). Defined.

(** [val_pcie_parent_is_rootport] compares bus numbers only: the function
    1:01:00.0 has no root port, and the one of segment 0 is reported. *)
Lemma parent_ignores_segment :
  val_pcie_parent_is_rootport 0x01010000 0 pcie3t = Done ((0, rp3), pcie3t) /\
  rootport_at 0x01010000 (mk_attr rp3 0) pcie3t = Done (None, pcie3t).
Proof. split; vm_compute; reflexivity. Qed.

(** With two ECAMs in segment 0, [val_pcie_get_ecam_base] gives the first for
    an endpoint whose bus is in the second, which [val_pcie_get_ecam_index] finds. *)
Definition ecams4 : list PCIE_INFO_BLOCK := [mk_block 0x20000000 0 0 0; mk_block 0x30000000 0 1 1].
Definition pcie4 : pcie_state board :=
  mk_pcie (Some (mk_info 2 ecams4)) None 0 {[ 0x3011000C := 0 ]}.

Lemma ecam_base_ignores_bus :
  val_pcie_get_ecam_base ep3 pcie4 = Done (0x20000000, pcie4) /\
  val_pcie_get_ecam_index ep3 pcie4 = Done ((0, Some 1), pcie4).
Proof. split; vm_compute; reflexivity. Qed.

(** A 64-bit BAR is put together from two registers. *)
Lemma mmio_bar_64 :
  val_pcie_get_mmio_bar (fun _ => None) ep3 0 pcie3t = Done (0x180000000, pcie3t).
Proof. vm_compute. reflexivity. Qed.
