(* ===== verification/Memory.v ===== *)
(** * The memory map

    Models [val/src/acs_memory.c] and the part of
    [platform/pal_uefi_acpi/src/pal_peripherals.c] that turns the UEFI memory
    map into [g_memory_info_table]. *)

From S2P Require Import Prelude.

Inductive MEM_INFO_TYPE_e :=
  MEMORY_TYPE_DEVICE | MEMORY_TYPE_NORMAL | MEMORY_TYPE_RESERVED | MEMORY_TYPE_NOT_POPULATED
| MEMORY_TYPE_LAST_ENTRY.

#[export] Instance mem_type_eq_dec : EqDecision MEM_INFO_TYPE_e.
Proof. solve_decision. Defined.

Definition mem_type_code (t : MEM_INFO_TYPE_e) : Z :=
  match t with
  | MEMORY_TYPE_DEVICE => 0x1000 | MEMORY_TYPE_NORMAL => 0x1001 | MEMORY_TYPE_RESERVED => 0x1002
  | MEMORY_TYPE_NOT_POPULATED => 0x1003 | MEMORY_TYPE_LAST_ENTRY => 0x1004
  end.

Record MEM_INFO_BLOCK := mk_mem {
  type : MEM_INFO_TYPE_e; phy_addr : Z; virt_addr : Z; size : Z; flags : Z }.

(** The blocks the table has memory for. *)
Record MEMORY_INFO_TABLE := mk_mem_table { dram_base : Z; dram_size : Z; info : list MEM_INFO_BLOCK }.

(** The state is the pointer [g_memory_info_table]. *)
Abbreviation mem_state := (option MEMORY_INFO_TABLE).

(** ** The UEFI memory map *)

Inductive EFI_MEMORY_TYPE :=
  EfiReservedMemoryType | EfiLoaderCode | EfiLoaderData | EfiBootServicesCode | EfiBootServicesData
| EfiRuntimeServicesCode | EfiRuntimeServicesData | EfiConventionalMemory | EfiUnusableMemory
| EfiACPIReclaimMemory | EfiACPIMemoryNVS | EfiMemoryMappedIO | EfiMemoryMappedIOPortSpace
| EfiPalCode | EfiPersistentMemory | EfiOtherMemory (n : Z).

Record EFI_MEMORY_DESCRIPTOR := mk_desc {
  Type_ : EFI_MEMORY_TYPE; PhysicalStart : Z; VirtualStart : Z; NumberOfPages : Z }.

Definition EFI_PAGE_SIZE : Z := 4096.
Definition MEM_INFO_TBL_MAX_ENTRY : Z := 500.

Definition IsUefiMemory (t : EFI_MEMORY_TYPE) : bool :=
  match t with
  | EfiReservedMemoryType | EfiLoaderCode | EfiLoaderData | EfiBootServicesCode
  | EfiBootServicesData | EfiRuntimeServicesCode | EfiRuntimeServicesData
  | EfiACPIReclaimMemory | EfiACPIMemoryNVS => true
  | _ => false
  end.

Definition IsNormalMemory (t : EFI_MEMORY_TYPE) : bool :=
  match t with EfiConventionalMemory => true | _ => false end.

Definition IsDeviceMemory (t : EFI_MEMORY_TYPE) : bool :=
  match t with
  | EfiMemoryMappedIO | EfiMemoryMappedIOPortSpace | EfiPersistentMemory => true
  | _ => false
  end.

Definition memory_class (t : EFI_MEMORY_TYPE) : MEM_INFO_TYPE_e :=
  if IsUefiMemory t then MEMORY_TYPE_RESERVED
  else if IsNormalMemory t then MEMORY_TYPE_NORMAL
  else if IsDeviceMemory t then MEMORY_TYPE_DEVICE
  else MEMORY_TYPE_NOT_POPULATED.

(** The entry a descriptor fills; [flags] keeps what the memory held. *)
Definition fill_block (d : EFI_MEMORY_DESCRIPTOR) (old : MEM_INFO_BLOCK) : MEM_INFO_BLOCK :=
  mk_mem (memory_class (Type_ d)) (PhysicalStart d) (VirtualStart d)
    (u64 (NumberOfPages d * EFI_PAGE_SIZE)) (flags old).

Definition set_type (t : MEM_INFO_TYPE_e) (b : MEM_INFO_BLOCK) : MEM_INFO_BLOCK :=
  mk_mem t (phy_addr b) (virt_addr b) (size b) (flags b).

Definition set_info (l : list MEM_INFO_BLOCK) (t : MEMORY_INFO_TABLE) : MEMORY_INFO_TABLE :=
  mk_mem_table (dram_base t) (dram_size t) l.

(** [info[i] = f(info[i])]; an index outside the allocation is undefined. *)
Definition update_block (i : Z) (f : MEM_INFO_BLOCK -> MEM_INFO_BLOCK) (l : list MEM_INFO_BLOCK)
    : outcome (list MEM_INFO_BLOCK) :=
  match at_index l i with
  | Some b => Done (<[Z.to_nat i := f b]> l)
  | None => Undefined
  end.

(** The loop over the descriptors: the entries, and the index [i] after it. *)
Fixpoint fill_loop (ds : list EFI_MEMORY_DESCRIPTOR) (i : Z) (l : list MEM_INFO_BLOCK)
    : outcome (list MEM_INFO_BLOCK * Z) :=
  match ds with
  | [] => Done (l, i)
  | d :: ds' =>
      match update_block i (fill_block d) l with
      | Done l' => if MEM_INFO_TBL_MAX_ENTRY <=? i + 1 then Done (l', i + 1)
                   else fill_loop ds' (i + 1) l'
      | Undefined => Undefined
      | Diverges => Diverges
      end
  end.

(** [map] is what [GetMemoryMap] returns: [None] for an error status or when
    no page can be allocated for it. *)
Definition pal_memory_create_info_table (map : option (list EFI_MEMORY_DESCRIPTOR))
    (memoryInfoTable : option MEMORY_INFO_TABLE) : outcome (option MEMORY_INFO_TABLE) :=
  match memoryInfoTable, map with
  | None, _ => Done None
  | Some t, None => Done (Some t)
  | Some t, Some ds =>
      match fill_loop ds 0 (info t) with
      | Done (l, i) =>
          match update_block i (set_type MEMORY_TYPE_LAST_ENTRY) l with
          | Done l' => Done (Some (set_info l' t))
          | Undefined => Undefined
          | Diverges => Diverges
          end
      | Undefined => Undefined
      | Diverges => Diverges
      end
  end.

Definition val_memory_create_info_table (map : option (list EFI_MEMORY_DESCRIPTOR))
    (memory_info_table : option MEMORY_INFO_TABLE) : prog mem_state unit :=
  fun _ => match pal_memory_create_info_table map memory_info_table with
           | Done t => Done (tt, t)
           | Undefined => Undefined
           | Diverges => Diverges
           end.

(** The regions the Global Coherency Domain knows: [true] for non-existent
    memory, and the base. The pointer argument [addr] keeps its last value. *)
Fixpoint unpopulated_loop (ds : list (bool * Z)) (k instance addr : Z) : Z * option Z :=
  match ds with
  | [] => (addr, None)
  | (nonexistent, base) :: ds' =>
      if nonexistent then
        if k =? instance then
          if base =? 0 then unpopulated_loop ds' k instance base else (base, Some base)
        else unpopulated_loop ds' (u32 (k + 1)) instance addr
      else unpopulated_loop ds' k instance addr
  end.

(** ** The table *)

Section Table.
Local Abbreviation P := (prog mem_state).

Definition mem_info : P (list MEM_INFO_BLOCK) :=
  let* o := gets id in let* t := deref o in ret (info t).

(** The [while] loops stop at the last entry, and run off a table without one. *)
Definition is_last (b : MEM_INFO_BLOCK) : bool := bool_decide (type b = MEMORY_TYPE_LAST_ENTRY).
Definition has_type (ty : MEM_INFO_TYPE_e) (b : MEM_INFO_BLOCK) : bool := bool_decide (type b = ty).

Definition entry_index_loop (l : list MEM_INFO_BLOCK) (ty : MEM_INFO_TYPE_e) (instance i : Z) : P Z :=
  instance_loop is_last (has_type ty) 0xFF l instance i.

Definition val_memory_get_entry_index (ty : MEM_INFO_TYPE_e) (instance : Z) : P Z :=
  let* l := mem_info in entry_index_loop l ty instance 0.

(** The address, and the attributes when they are stored. *)
Definition val_memory_get_addr (mem_type : MEM_INFO_TYPE_e) (instance : Z) : P (Z * option Z) :=
  let* o := gets id in
  match o with
  | None => ret (0, None)
  | Some t =>
      let* i := match mem_type with
                | MEMORY_TYPE_DEVICE => val_memory_get_entry_index MEMORY_TYPE_DEVICE instance
                | MEMORY_TYPE_NORMAL => val_memory_get_entry_index MEMORY_TYPE_NORMAL instance
                | _ => ret 0xFF
                end in
      if negb (i =? 0xFF) then
        let* b := deref (at_index (info t) i) in ret (phy_addr b, Some (flags b))
      else ret (0, None)
  end.

Definition in_block (addr : Z) (b : MEM_INFO_BLOCK) : bool :=
  (phy_addr b <=? addr) && (addr <? u64 (phy_addr b + size b)).

Fixpoint get_info_loop (l : list MEM_INFO_BLOCK) (addr : Z) : P (Z * option Z) :=
  match l with
  | [] => undef
  | b :: l' =>
      if decide (type b = MEMORY_TYPE_LAST_ENTRY) then
        ret (mem_type_code MEMORY_TYPE_NOT_POPULATED, None)
      else if in_block addr b then ret (mem_type_code (type b), Some (flags b))
      else get_info_loop l' addr
  end.

Definition val_memory_get_info (addr : Z) : P (Z * option Z) :=
  let* l := mem_info in get_info_loop l addr.

Fixpoint max_memory_loop (l : list MEM_INFO_BLOCK) (addr : Z) : P Z :=
  match l with
  | [] => undef
  | b :: l' =>
      if decide (type b = MEMORY_TYPE_LAST_ENTRY) then ret addr
      else max_memory_loop l' (if addr <? phy_addr b then u64 (phy_addr b + size b) else addr)
  end.

Definition val_get_max_memory : P Z := let* l := mem_info in max_memory_loop l 0.

(** [gcd] is what [GetMemorySpaceMap] returns, or its error status. *)
Definition val_memory_get_unpopulated_addr (gcd : Z + list (bool * Z)) (addr instance : Z) : Z * Z :=
  match gcd with
  | inl status => (status, addr)
  | inr ds => let r := unpopulated_loop ds 0 instance addr in
              (match r.2 with Some _ => 0 | None => 0x10000001 end, r.1)
  end.
End Table.

(** ** What the table holds *)

(** The table is [bs], ended by a last entry. *)
Definition blocks_are (s : mem_state) (bs : list MEM_INFO_BLOCK) : Prop :=
  exists t b rest, s = Some t /\ info t = bs ++ set_type MEMORY_TYPE_LAST_ENTRY b :: rest /\
    forall x, x ∈ bs -> type x <> MEMORY_TYPE_LAST_ENTRY.

Lemma memory_class_last t : memory_class t <> MEMORY_TYPE_LAST_ENTRY.
Proof. by destruct t. Qed.

Lemma update_block_app pre b l f :
  update_block (Z.of_nat (length pre)) f (pre ++ b :: l) = Done (pre ++ f b :: l).
Proof.
  unfold update_block, at_index. rewrite Nat2Z.id. destruct (Z.leb_spec 0 (Z.of_nat (length pre))); [|lia].
  rewrite list_lookup_middle by done. rewrite insert_app_r_alt by lia.
  by rewrite Nat.sub_diag.
Qed.

(** The loop fills one entry per descriptor, up to the limit. *)
Lemma fill_loop_spec ds pre l :
  let k := (length ds `min` (500 - length pre))%nat in
  (length pre < 500)%nat -> (k <= length l)%nat ->
  fill_loop ds (Z.of_nat (length pre)) (pre ++ l) =
    Done (pre ++ zip_with fill_block (take k ds) l ++ drop k l, Z.of_nat (length pre + k)).
Proof.
  revert pre l. induction ds as [|d ds IH]; intros pre l k Hpre Hk; cbn [fill_loop].
  { by rewrite Nat.add_0_r. }
  assert (Ek : k = S (length ds `min` (500 - (length pre + 1)))) by (unfold k; cbn [length]; lia).
  destruct l as [|b l]; [rewrite Ek in Hk; simpl in Hk; lia|].
  rewrite update_block_app. unfold MEM_INFO_TBL_MAX_ENTRY.
  destruct (Z.leb_spec 500 (Z.of_nat (length pre) + 1)) as [Hle|Hlt].
  - assert (k = 1%nat) as -> by (unfold k; cbn [length]; lia).
    cbn. do 2 f_equal; lia.
  - replace (Z.of_nat (length pre) + 1) with (Z.of_nat (length (pre ++ [fill_block d b])))
      by (rewrite length_app; simpl; lia).
    replace (pre ++ fill_block d b :: l) with ((pre ++ [fill_block d b]) ++ l)
      by (by rewrite <- app_assoc).
    rewrite Ek in *. simpl in Hk.
    rewrite IH; rewrite length_app; simpl; [|lia|lia].
    cbn [take zip_with drop]. rewrite <- app_assoc. cbn [app].
    do 2 f_equal. lia.
Qed.

(** The entries the firmware map gives, in a table with room for all. *)
Lemma create_table_spec ds t s :
  let bs := zip_with fill_block (take 500 ds) (info t) in
  (500 < length (info t))%nat ->
  exists t', val_memory_create_info_table (Some ds) (Some t) s = Done (tt, Some t') /\
    blocks_are (Some t') bs.
Proof.
  intros bs Hroom. unfold val_memory_create_info_table, pal_memory_create_info_table.
  pose proof (fill_loop_spec ds [] (info t)) as E. cbn [length app] in E. change (Z.of_nat 0) with 0 in E.
  rewrite Nat.sub_0_r, Nat.add_0_l in E. rewrite E by lia. clear E.
  set (k := (length ds `min` 500)%nat).
  assert (Hbs : bs = zip_with fill_block (take k ds) (info t)).
  { unfold bs. f_equal. unfold k. destruct (decide (length ds <= 500)%nat).
    - rewrite Nat.min_l by done. by rewrite !take_ge by lia.
    - by rewrite Nat.min_r by lia. }
  assert (Hlen : length bs = k).
  { rewrite Hbs, length_zip_with, length_take. lia. }
  destruct (drop k (info t)) as [|b rest] eqn:Ed.
  { apply (f_equal length) in Ed. rewrite length_drop in Ed. simpl in Ed. lia. }
  rewrite <- Hbs. rewrite <- Hlen. rewrite update_block_app.
  eexists. split; [reflexivity|]. exists (set_info (bs ++ set_type MEMORY_TYPE_LAST_ENTRY b :: rest) t), b, rest.
  split; [done|]. split; [done|]. intros x Hx. unfold bs in Hx.
  apply elem_of_lookup_zip_with_1 in Hx as (i & d & o & -> & _). apply memory_class_last.
Qed.

Section Lookup.
Context (s : mem_state) (bs : list MEM_INFO_BLOCK) (Hbs : blocks_are s bs).

Lemma get_info_spec addr :
  val_memory_get_info addr s =
    Done (match find_first (in_block addr) bs 0 with
          | Some (_, b) => (mem_type_code (type b), Some (flags b))
          | None => (mem_type_code MEMORY_TYPE_NOT_POPULATED, None)
          end, s).
Proof.
  destruct Hbs as (t & b & rest & -> & Hi & Hl). clear Hbs.
  unfold val_memory_get_info, mem_info, bind, gets, id. cbn [deref]. unfold ret. rewrite Hi. clear Hi.
  generalize 0 as i. induction bs as [|x xs IH]; intros i; cbn [app get_info_loop find_first].
  - by rewrite decide_True by done.
  - rewrite decide_False by (apply Hl; left). destruct (in_block addr x); [done|].
    apply IH. intros y Hy. apply Hl. by right.
Qed.

End Lookup.

(** The bytes a descriptor covers. *)
Definition contains (addr : Z) (d : EFI_MEMORY_DESCRIPTOR) : bool :=
  (PhysicalStart d <=? addr) && (addr <? PhysicalStart d + NumberOfPages d * EFI_PAGE_SIZE).

Definition desc_ok (d : EFI_MEMORY_DESCRIPTOR) : Prop :=
  0 <= PhysicalStart d /\ 0 <= NumberOfPages d /\
  PhysicalStart d + NumberOfPages d * EFI_PAGE_SIZE < 2 ^ 64.

Lemma in_fill_block addr d o : desc_ok d -> in_block addr (fill_block d o) = contains addr d.
Proof.
  intros (H1 & H2 & H3). unfold EFI_PAGE_SIZE in *. unfold in_block, contains, fill_block, EFI_PAGE_SIZE. simpl.
  by rewrite !u64_small by (rewrite ?u64_small; lia).
Qed.

Lemma find_first_fill addr ds l i :
  Forall desc_ok ds -> (length ds <= length l)%nat ->
  (type ∘ snd <$> find_first (in_block addr) (zip_with fill_block ds l) i) =
  (memory_class ∘ Type_ ∘ snd <$> find_first (contains addr) ds i).
Proof.
  intros Hok. revert l i. induction Hok as [|d ds Hd Hds IH]; intros l i Hlen; [done|].
  destruct l as [|o l]; simpl in Hlen; [lia|]. cbn [zip_with find_first].
  rewrite in_fill_block by done. destruct (contains addr d); [done|]. apply IH. lia.
Qed.

(** C23: The memory table answers for the firmware map: building the table
    from a UEFI map succeeds, and then [val_memory_get_info] gives for every
    address the class of the first of the first 500 descriptors whose pages
    contain it, and "not populated" when none does. *)
Theorem memory_lookup_exact ds t s :
  Forall desc_ok ds -> (500 < length (info t))%nat ->
  exists t', returns (val_memory_create_info_table (Some ds) (Some t)) s tt (Some t') /\
    forall addr, exists ty attr, returns (val_memory_get_info addr) (Some t') (mem_type_code ty, attr) (Some t') /\
      ty = match find_first (contains addr) (take 500 ds) 0 with
           | Some (_, d) => memory_class (Type_ d)
           | None => MEMORY_TYPE_NOT_POPULATED
           end.
Proof.
  intros Hok Hroom. destruct (create_table_spec ds t s Hroom) as (t' & E & Hb).
  exists t'. split; [exact E|]. intros addr.
  pose proof (get_info_spec _ _ Hb addr) as G.
  assert (Hlen : (length (take 500 ds) <= length (info t))%nat) by (rewrite length_take; lia).
  pose proof (find_first_fill addr (take 500 ds) (info t) 0 (Forall_take _ _ _ Hok) Hlen) as F.
  destruct (find_first (in_block addr) _ 0) as [[j b]|], (find_first (contains addr) _ 0) as [[j' d]|];
    simpl in F; simplify_eq.
  - exists (type b), (Some (flags b)). by split.
  - exists MEMORY_TYPE_NOT_POPULATED, None. by split.
Qed.

(** [val_memory_get_addr] enumerates the regions of a type: the entry at
    index [j], preceded by [k] entries of its type, is what instance [k]
    returns, and an instance past the last region gives address 0. The
    exception is the entry at index 255, which the "not found" code 0xFF
    hides. *)
Theorem memory_get_addr_instances s bs ty :
  blocks_are s bs -> Z.of_nat (length bs) < 2 ^ 32 ->
  ty = MEMORY_TYPE_DEVICE \/ ty = MEMORY_TYPE_NORMAL ->
  (forall (j : nat) b, bs !! j = Some b -> type b = ty ->
     returns (val_memory_get_addr ty (Z.of_nat (countb (has_type ty) (take j bs)))) s
       (if decide (j = 255%nat) then (0, None) else (phy_addr b, Some (flags b))) s) /\
  (forall k, Z.of_nat (countb (has_type ty) bs) <= k -> returns (val_memory_get_addr ty k) s (0, None) s).
Proof.
  intros Hb H32 Hty. pose proof Hb as (t & last & rest & -> & Hi & Hl).
  assert (Hl' : forall y, y ∈ bs -> is_last y = false) by (intros y Hy; by apply bool_decide_eq_false, Hl).
  assert (Hidx : forall k r, entry_index_loop (info t) ty k 0 (Some t) = Done (r, Some t) ->
    val_memory_get_addr ty k (Some t) =
      (if negb (r =? 0xFF) then let* b := deref (at_index (info t) r) in ret (phy_addr b, Some (flags b))
       else ret (0, None)) (Some t)).
  { intros k r E. unfold val_memory_get_addr, val_memory_get_entry_index, mem_info, bind, gets, id.
    destruct Hty as [-> | ->]; cbn [deref]; unfold ret; by rewrite E. }
  split.
  - intros j b Hj Ht. unfold returns. pose proof (lookup_lt_Some _ _ _ Hj) as Hlt.
    rewrite (Hidx _ (Z.of_nat j)).
    + destruct (decide (j = 255%nat)) as [->|Hne]; [done|].
      destruct (Z.eqb_spec (Z.of_nat j) 255); [lia|]. cbn [negb].
      unfold at_index. destruct (Z.leb_spec 0 (Z.of_nat j)); [|lia]. rewrite Nat2Z.id, Hi.
      by rewrite lookup_app_l, Hj by done.
    + rewrite Hi. unfold entry_index_loop.
      rewrite (instance_hit _ _ _ _ bs _ 0 j b) by (done || lia || by apply bool_decide_eq_true). done.
  - intros k Hk. unfold returns. rewrite (Hidx k 0xFF); [done|]. rewrite Hi. by apply instance_miss.
Qed.

(** ** The highest address *)

Definition block_end (b : MEM_INFO_BLOCK) : Z := phy_addr b + size b.

(** Each region starts after the end of the one before, with a gap. *)
Fixpoint gapped (a : Z) (bs : list MEM_INFO_BLOCK) : Prop :=
  match bs with
  | [] => True
  | b :: bs' => a < phy_addr b /\ 0 <= block_end b < 2 ^ 64 /\ gapped (block_end b) bs'
  end.

Definition last_end (bs : list MEM_INFO_BLOCK) : Z := foldl (fun _ b => block_end b) 0 bs.

Lemma max_memory_loop_gapped bs a l rest :
  0 <= a -> gapped a bs -> (forall x, x ∈ bs -> type x <> MEMORY_TYPE_LAST_ENTRY) ->
  max_memory_loop (bs ++ rest) a l = max_memory_loop rest (foldl (fun _ b => block_end b) a bs) l.
Proof.
  revert a. induction bs as [|b bs IH]; intros a Ha Hg Hl; [done|].
  destruct Hg as (Hlt & Hend & Hg). cbn [app max_memory_loop foldl].
  rewrite decide_False by (apply Hl; left). destruct (Z.ltb_spec a (phy_addr b)); [|lia].
  rewrite u64_small by (unfold block_end in *; lia).
  apply IH; [lia|done|]. intros x Hx. apply Hl. by right.
Qed.

(** [val_get_max_memory] is right on regions separated by gaps, in
    ascending order and above address 0, where it returns the end of the
    last; a further region that starts exactly where the last one ends is
    ignored, and the result is below the highest populated address. *)
Theorem max_memory_gaps s bs :
  gapped 0 bs ->
  (blocks_are s bs -> returns val_get_max_memory s (last_end bs) s) /\
  (forall b, phy_addr b = last_end bs -> 0 < size b -> blocks_are s (bs ++ [b]) ->
     returns val_get_max_memory s (last_end bs) s /\ last_end bs < block_end b).
Proof.
  intros Hg. unfold returns, val_get_max_memory, mem_info, bind, gets, id. split.
  - intros (t & b & rest & -> & Hi & Hl). cbn [deref]. unfold ret. rewrite Hi.
    rewrite max_memory_loop_gapped by done. cbn [max_memory_loop]. by rewrite decide_True.
  - intros b Hb Hsz (t & o & rest & -> & Hi & Hl). cbn [deref]. unfold ret. rewrite Hi, <- app_assoc.
    split; [|unfold block_end; lia].
    rewrite max_memory_loop_gapped by (done || (intros; apply Hl, elem_of_app; by left)).
    cbn [app max_memory_loop]. rewrite decide_False by (apply Hl, elem_of_app; right; left).
    fold (last_end bs). destruct (Z.ltb_spec (last_end bs) (phy_addr b)); [lia|].
    by rewrite decide_True by done.
Qed.

(** ** A small memory map *)

Definition desc0 : list EFI_MEMORY_DESCRIPTOR :=
  [mk_desc EfiConventionalMemory 0x80000000 0 16; mk_desc EfiMemoryMappedIO 0x80010000 0 1;
   mk_desc EfiBootServicesData 0x90000000 0 2].
Definition mem0 : MEMORY_INFO_TABLE :=
  mk_mem_table 0 0 (replicate 818 (mk_mem MEMORY_TYPE_DEVICE 0 0 0 7)).

Lemma memory_lookup_exact_witness :
  exists t', returns (val_memory_create_info_table (Some desc0) (Some mem0)) None tt (Some t') /\
    exists attr, returns (val_memory_get_info 0x80010800) (Some t') (0x1000, attr) (Some t').
Proof.
  destruct (memory_lookup_exact desc0 mem0 None) as (t' & E & L).
  - repeat constructor; simpl; lia.
  - vm_compute. lia.
  - exists t'. split; [exact E|]. destruct (L 0x80010800) as (ty & attr & R & Ht).
    exists attr. rewrite Ht in R. exact R.
Defined.

Definition block0 : MEM_INFO_BLOCK := mk_mem MEMORY_TYPE_NORMAL 0x80000000 0 0x10000 1.
Definition block1 : MEM_INFO_BLOCK := mk_mem MEMORY_TYPE_DEVICE 0x80010000 0 0x1000 2.
Definition table_of (bs : list MEM_INFO_BLOCK) : mem_state :=
  Some (mk_mem_table 0 0 (bs ++ [mk_mem MEMORY_TYPE_LAST_ENTRY 0 0 0 0])).

Lemma table_of_blocks bs :
  forallb (fun b => bool_decide (type b <> MEMORY_TYPE_LAST_ENTRY)) bs = true ->
  blocks_are (table_of bs) bs.
Proof.
  intros Hb. exists (mk_mem_table 0 0 (bs ++ [mk_mem MEMORY_TYPE_LAST_ENTRY 0 0 0 0])).
  exists (mk_mem MEMORY_TYPE_DEVICE 0 0 0 0), []. split; [done|]. split; [done|].
  rewrite forallb_forall in Hb. intros x Hx%list_elem_of_In. specialize (Hb x Hx).
  by apply bool_decide_eq_true in Hb.
Qed.

(** A region at index 255 cannot be found. *)
Lemma memory_get_addr_instances_witness :
  returns (val_memory_get_addr MEMORY_TYPE_DEVICE 0) (table_of (replicate 255 block0 ++ [block1])) (0, None)
    (table_of (replicate 255 block0 ++ [block1])) /\
  returns (val_memory_get_addr MEMORY_TYPE_DEVICE 0) (table_of [block0; block1]) (0x80010000, Some 2)
    (table_of [block0; block1]).
Proof.
  split.
  - refine (proj1 (memory_get_addr_instances _ (replicate 255 block0 ++ [block1]) MEMORY_TYPE_DEVICE
      (table_of_blocks _ _) _ _) 255%nat block1 _ _); vm_compute; auto.
  - refine (proj1 (memory_get_addr_instances _ [block0; block1] MEMORY_TYPE_DEVICE
      (table_of_blocks _ _) _ _) 1%nat block1 _ _); vm_compute; auto.
Defined.

Lemma max_memory_gaps_witness :
  returns val_get_max_memory (table_of [block0; block1]) 0x80010000 (table_of [block0; block1]).
Proof.
  refine (proj1 (proj2 (max_memory_gaps (table_of [block0; block1]) [block0] _) block1 _ _ _)).
  - simpl. unfold block_end. simpl. lia.
  - reflexivity.
  - reflexivity.
  - apply table_of_blocks. reflexivity.
Defined.

(** The n-th hole of the address space: a hole at 0 is passed over. *)
Lemma unpopulated_skips_zero :
  val_memory_get_unpopulated_addr (inr [(true, 0); (false, 0x1000); (true, 0x2000); (true, 0x9000)]) 5 0 = (0, 0x2000) /\
  val_memory_get_unpopulated_addr (inr [(true, 0); (false, 0x1000); (true, 0x2000); (true, 0x9000)]) 5 1 = (0, 0x2000).
Proof. by split. Qed.
