(* ===== verification/Bytes.v ===== *)
(** * Structures as bytes

    Where the program reaches a structure through pointers that overlap, or
    walks records of different sizes, the structure is the bytes it has in
    memory: little-endian loads and stores over a finite map, [ld] and [st],
    undefined outside the object, and what a run leaves alone ([keeps]). *)

From S2P Require Import Prelude.

(** ** Loads and stores *)

Abbreviation bytes := (gmap Z Z).

Fixpoint load_le (n : nat) (a : Z) (m : bytes) : option Z :=
  match n with
  | O => Some 0
  | S k => match m !! a, load_le k (a + 1) m with
           | Some b, Some r => Some (b + 256 * r)
           | _, _ => None
           end
  end.

Fixpoint store_le (n : nat) (a v : Z) (m : bytes) : option bytes :=
  match n with
  | O => Some m
  | S k => match m !! a with
           | Some _ => store_le k (a + 1) (v / 256) (<[a := v mod 256]> m)
           | None => None
           end
  end.

Definition ld (n : nat) (a : Z) : prog bytes Z := fun m =>
  match load_le n a m with Some v => Done (v, m) | None => Undefined end.
Definition st (n : nat) (a v : Z) : prog bytes unit := fun m =>
  match store_le n a v m with Some m' => Done (tt, m') | None => Undefined end.

(** ** Bytes that a run leaves alone *)

Lemma store_le_frame n a v m m' x :
  store_le n a v m = Some m' -> x < a \/ a + Z.of_nat n <= x -> m' !! x = m !! x.
Proof.
  revert a v m. induction n as [|n IH]; intros a v m E Hx; cbn [store_le] in E; [congruence|].
  destruct (m !! a); [|done]. rewrite (IH _ _ _ E) by lia. apply lookup_insert_ne. lia.
Qed.

Lemma load_le_ext n a m m' :
  (forall x, a <= x < a + Z.of_nat n -> m' !! x = m !! x) -> load_le n a m' = load_le n a m.
Proof.
  revert a. induction n as [|n IH]; intros a Hx; [done|]. cbn [load_le].
  rewrite Hx, IH by (intros; try apply Hx; lia). done.
Qed.

Lemma store_le_load n a v m m' :
  store_le n a v m = Some m' -> 0 <= v -> load_le n a m' = Some (v mod 256 ^ Z.of_nat n).
Proof.
  revert a v m. induction n as [|n IH]; intros a v m E Hv; cbn [store_le load_le] in *.
  { by rewrite Z.mod_1_r. }
  destruct (m !! a) eqn:Ea; [|done].
  rewrite (store_le_frame _ _ _ _ _ a E) by lia. rewrite lookup_insert_eq.
  rewrite (IH _ _ _ E) by lia. f_equal.
  rewrite Nat2Z.inj_succ, Z.pow_succ_r by lia. rewrite Z.rem_mul_r by lia. done.
Qed.

(** [keeps lo hi p]: a run of [p] that returns leaves the bytes in [lo, hi). *)
Definition keeps {A} (lo hi : Z) (p : prog bytes A) : Prop :=
  forall m r m', p m = Done (r, m') -> forall x, lo <= x < hi -> m' !! x = m !! x.

Section Keeps.
Context (lo hi : Z).

Lemma keeps_ret {A} (a : A) : keeps lo hi (ret a).
Proof. by intros m r m' [= <- <-]. Qed.

Lemma keeps_bind {A B} (p : prog bytes A) (k : A -> prog bytes B) :
  keeps lo hi p -> (forall a, keeps lo hi (k a)) -> keeps lo hi (bind p k).
Proof.
  intros Hp Hk m r m' E x Hx. apply bind_inv in E as (a & m1 & E1 & E2).
  rewrite (Hk a _ _ _ E2 x Hx). by apply (Hp _ _ _ E1).
Qed.

Lemma keeps_ld n a : keeps lo hi (ld n a).
Proof. intros m r m'. unfold ld. destruct (load_le n a m); [|done]. by intros [= <- <-]. Qed.

Lemma keeps_st n a v : hi <= a \/ a + Z.of_nat n <= lo -> keeps lo hi (st n a v).
Proof.
  intros Ha m r m'. unfold st. destruct (store_le n a v m) as [m1|] eqn:E; [|done].
  intros [= _ <-] x Hx. apply (store_le_frame _ _ _ _ _ _ E). lia.
Qed.

Lemma keeps_deref {A} (o : option A) : keeps lo hi (deref o).
Proof. destruct o; [apply keeps_ret|done]. Qed.
End Keeps.

(** ** Bytes in range *)

Definition bytes_ok (m : bytes) : Prop := forall a v, m !! a = Some v -> 0 <= v < 256.

Lemma store_le_ok n a v m m' : store_le n a v m = Some m' -> bytes_ok m -> bytes_ok m'.
Proof.
  revert a v m. induction n as [|n IH]; intros a v m E Hm; cbn [store_le] in E; [by simplify_eq|].
  destruct (m !! a); [|done]. apply (IH _ _ _ E). intros b w Hb.
  destruct (decide (a = b)) as [->|]; [rewrite lookup_insert_eq in Hb|rewrite lookup_insert_ne in Hb by done].
  - simplify_eq. apply Z.mod_pos_bound. lia.
  - by apply Hm in Hb.
Qed.

Lemma load_le_range n a m v : load_le n a m = Some v -> bytes_ok m -> 0 <= v < 256 ^ Z.of_nat n.
Proof.
  revert a v. induction n as [|n IH]; intros a v E Hm; cbn [load_le] in E; [by simplify_eq|].
  destruct (m !! a) as [b|] eqn:Eb; [|done]. destruct (load_le n (a + 1) m) as [r|] eqn:Er; [|done].
  apply Hm in Eb. apply IH in Er; [|done]. simplify_eq. rewrite Nat2Z.inj_succ, Z.pow_succ_r by lia. lia.
Qed.

(** ** Triples

    [triple I p Q]: a run of [p] that returns keeps [I] and its result
    satisfies [Q]. *)
Definition triple {A} (I : bytes -> Prop) (p : prog bytes A) (Q : A -> Prop) : Prop :=
  forall m r m', I m -> p m = Done (r, m') -> I m' /\ Q r.

Section Triple.
Context (I : bytes -> Prop).

Lemma triple_ret {A} (a : A) (Q : A -> Prop) : Q a -> triple I (ret a) Q.
Proof. intros Ha m r m' Hm [= <- <-]. done. Qed.

Lemma triple_bind {A B} (p : prog bytes A) (k : A -> prog bytes B) Q1 Q :
  triple I p Q1 -> (forall a, Q1 a -> triple I (k a) Q) -> triple I (bind p k) Q.
Proof.
  intros Hp Hk m r m' Hm E. apply bind_inv in E as (a & m1 & E1 & E2).
  destruct (Hp _ _ _ Hm E1) as [H1 Ha]. by apply (Hk a Ha _ _ _ H1 E2).
Qed.

Lemma triple_undef {A} (Q : A -> Prop) : triple I undef Q.
Proof. by intros m r m' _. Qed.

Lemma triple_diverge {A} (Q : A -> Prop) : triple I diverge Q.
Proof. by intros m r m' _. Qed.

Lemma triple_weaken {A} (p : prog bytes A) (Q Q' : A -> Prop) :
  triple I p Q -> (forall a, Q a -> Q' a) -> triple I p Q'.
Proof. intros Hp HQ m r m' Hm E. destruct (Hp _ _ _ Hm E). auto. Qed.

Lemma triple_deref {A} (o : option A) : triple I (deref o) (fun a => o = Some a).
Proof. destruct o; [by apply triple_ret|apply triple_undef]. Qed.
End Triple.

Create HintDb triple.
#[export] Hint Resolve triple_ret triple_undef triple_diverge : triple.

(** ** Words

    Memory of 64-bit words by address: an object of [n] words from [a] with
    contents [f]. *)
Fixpoint fill_words (n : nat) (a : Z) (f : Z -> Z) (m : gmap Z Z) : gmap Z Z :=
  match n with O => m | S k => <[a := f a]> (fill_words k (a + 8) f m) end.

Lemma lookup_fill_words n a f m x :
  fill_words n a f m !! x =
  if (a <=? x) && (x <? a + 8 * Z.of_nat n) && ((x - a) mod 8 =? 0) then Some (f x) else m !! x.
Proof.
  revert a. induction n as [|n IH]; intros a; cbn [fill_words].
  - destruct (Z.leb_spec a x), (Z.ltb_spec x (a + 8 * Z.of_nat 0)); try done. lia.
  - destruct (decide (a = x)) as [->|Hne].
    + rewrite lookup_insert_eq, Z.leb_refl, Z.sub_diag. destruct (Z.ltb_spec x (x + 8 * Z.of_nat (S n))); [done|lia].
    + rewrite lookup_insert_ne, IH by done. replace (x - (a + 8)) with (x - a + (-1) * 8) by lia.
      rewrite Z.mod_add by lia. destruct (Z.eqb_spec ((x - a) mod 8) 0); [|by rewrite !andb_false_r].
      rewrite !andb_true_r. destruct (Z.leb_spec a x), (Z.leb_spec (a + 8) x),
        (Z.ltb_spec x (a + 8 * Z.of_nat (S n))), (Z.ltb_spec x (a + 8 + 8 * Z.of_nat n)); try done; lia.
Qed.
