(* ===== verification/Pgt.v ===== *)
(** * Translation tables

    Models [val/src/acs_pgt.c]: building a stage 1 or stage 2 table from
    memory regions, reading the attributes of a page back, and freeing the
    tables. Memory is a map from the addresses of 64-bit words; an access to a
    word that is not there is undefined. *)

From S2P Require Import Prelude Status.

Definition PGT_ENTRY_TABLE_MASK : Z := 2.
Definition PGT_ENTRY_VALID_MASK : Z := 1.
Definition PGT_ENTRY_PAGE_MASK : Z := 2.
Definition PGT_ENTRY_BLOCK_MASK : Z := 0.
Definition IS_PGT_ENTRY_PAGE (v : Z) : bool := Z.land v 3 =? 3.
Definition IS_PGT_ENTRY_BLOCK (v : Z) : bool := Z.land v 3 =? 1.
Definition PGT_DESC_ATTRIBUTES_MASK : Z := Z.lor (Z.shiftl (2 ^ 12 - 1) 52) (Z.shiftl (2 ^ 10 - 1) 2).
Definition PGT_DESC_ATTRIBUTES (v : Z) : Z := Z.land v PGT_DESC_ATTRIBUTES_MASK.
Definition PAGE_SIZE_4K : Z := 0x1000.
Definition PAGE_SIZE_16K : Z := 4 * 0x1000.
Definition PAGE_SIZE_64K : Z := 16 * 0x1000.

Record tt_descriptor_t := mk_tt {
  tt_base : Z; input_base : Z; input_top : Z; output_base : Z; level : Z; size_log2 : Z; nbits : Z }.

(** The counters of filled tables; [size_used] is never read. *)
Record acs_pgt_t := mk_pgt_info {
  l0_index : Z; l1_index : Z; l2_index : Z; l3_index : Z; size_used : Z }.

Record memory_region_descriptor_t := mk_region {
  virtual_address : Z; physical_address : Z; length_ : Z; attributes : Z }.

(** Of the translation control only the fields the walk reads. *)
Record pgt_descriptor_t := mk_pgt_desc {
  pgt_base : Z; ias : Z; oas : Z; tg_size_log2 : Z; tsz : Z }.

(** [pages] is what the allocator will return, [None] for a failure; [freed]
    the pages given back, the last first. *)
Record pgt_state := mk_pgt {
  mem : gmap Z Z; pages : list (option Z); freed : list Z;
  page_size : Z; bits_per_level : Z; pgt_addr_mask : Z;
  is_values_init : Z; offset : Z; acs_pgt_info : acs_pgt_t }.

Definition set_mem m s := mk_pgt m (pages s) (freed s) (page_size s) (bits_per_level s)
  (pgt_addr_mask s) (is_values_init s) (offset s) (acs_pgt_info s).
Definition set_pages p s := mk_pgt (mem s) p (freed s) (page_size s) (bits_per_level s)
  (pgt_addr_mask s) (is_values_init s) (offset s) (acs_pgt_info s).
Definition set_freed f s := mk_pgt (mem s) (pages s) f (page_size s) (bits_per_level s)
  (pgt_addr_mask s) (is_values_init s) (offset s) (acs_pgt_info s).
Definition set_page_size v s := mk_pgt (mem s) (pages s) (freed s) v (bits_per_level s)
  (pgt_addr_mask s) (is_values_init s) (offset s) (acs_pgt_info s).
Definition set_bits_per_level v s := mk_pgt (mem s) (pages s) (freed s) (page_size s) v
  (pgt_addr_mask s) (is_values_init s) (offset s) (acs_pgt_info s).
Definition set_pgt_addr_mask v s := mk_pgt (mem s) (pages s) (freed s) (page_size s) (bits_per_level s)
  v (is_values_init s) (offset s) (acs_pgt_info s).
Definition set_is_values_init v s := mk_pgt (mem s) (pages s) (freed s) (page_size s) (bits_per_level s)
  (pgt_addr_mask s) v (offset s) (acs_pgt_info s).
Definition set_offset v s := mk_pgt (mem s) (pages s) (freed s) (page_size s) (bits_per_level s)
  (pgt_addr_mask s) (is_values_init s) v (acs_pgt_info s).
Definition set_pgt_info v s := mk_pgt (mem s) (pages s) (freed s) (page_size s) (bits_per_level s)
  (pgt_addr_mask s) (is_values_init s) (offset s) v.

Local Abbreviation P := (prog pgt_state).

(** ** Memory *)

Definition load (a : Z) : P Z := let* m := gets mem in deref (m !! a).
Definition store (a v : Z) : P unit :=
  let* m := gets mem in let* _ := deref (m !! a) in modify (set_mem (<[a := v]> m)).

(** [val_memory_alloc_pages(1)], and [val_memory_set] of [n] words to 0. *)
Definition alloc_page : P (option Z) :=
  let* l := gets pages in
  match l with
  | [] => ret None
  | p :: l' => modify (set_pages l') ;;; ret p
  end.

Fixpoint zero_words (n : nat) (a : Z) (m : gmap Z Z) : gmap Z Z :=
  match n with O => m | S k => <[a := 0]> (zero_words k (a + 8) m) end.

Definition zero_page (a : Z) : P unit :=
  let* ps := gets page_size in
  let* m := gets mem in modify (set_mem (zero_words (Z.to_nat (ps / 8)) a m)).

Definition free_page (a : Z) : P unit := let* f := gets freed in modify (set_freed (a :: f)).

(** The UEFI port maps every address to itself and has pages of 4 KB. *)
Definition val_memory_virt_to_phys (a : Z) : Z := a.
Definition val_memory_phys_to_virt (a : Z) : Z := a.
Definition val_memory_page_size : Z := PAGE_SIZE_4K.

(** [0x1ull << n], undefined past the width. *)
Definition bit64 (n : Z) : P Z := if (0 <=? n) && (n <? 64) then ret (2 ^ n) else undef.
Definition bit32 (n : Z) : P Z := if (0 <=? n) && (n <? 32) then ret (2 ^ n) else undef.
(** [x >> n] of a 64-bit value. *)
Definition shr64 (x n : Z) : P Z := if (0 <=? n) && (n <? 64) then ret (Z.shiftr x n) else undef.

(** ** The counters *)

Definition setup_acs_pgt_values : P unit := modify (set_pgt_info (mk_pgt_info 0 0 0 0 0)).

Definition get_pgt_index (lv : Z) : P Z :=
  let* i := gets acs_pgt_info in
  ret (if lv =? 0 then l0_index i else if lv =? 1 then l1_index i
       else if lv =? 2 then l2_index i else if lv =? 3 then l3_index i else 0).

Definition bump_index (lv max_index : Z) (i : acs_pgt_t) : acs_pgt_t :=
  if lv =? 1 then
    if l1_index i =? u32 (max_index - 1) then
      mk_pgt_info (u32 (l0_index i + 1)) 0 (l2_index i) (l3_index i) (size_used i) else i
  else if lv =? 2 then
    if l2_index i =? u32 (max_index - 1) then
      mk_pgt_info (l0_index i) (u32 (l1_index i + 1)) 0 (l3_index i) (size_used i) else i
  else if lv =? 3 then
    if l3_index i =? u32 (max_index - 1) then
      mk_pgt_info (l0_index i) (l1_index i) (u32 (l2_index i + 1)) 0 (size_used i)
    else mk_pgt_info (l0_index i) (l1_index i) (l2_index i) (u32 (l3_index i + 1)) (size_used i)
  else i.

Definition increment_pgt_index (lv max_index : Z) : P unit :=
  let* i := gets acs_pgt_info in modify (set_pgt_info (bump_index lv max_index i)).

Definition get_entries_per_level (ps : Z) : Z :=
  if ps =? PAGE_SIZE_4K then 512 else if ps =? PAGE_SIZE_16K then 2048
  else if ps =? PAGE_SIZE_64K then 8192 else 0.

(** The products are taken in 32 bits before they are widened. *)
Definition block_size_of (ps lv : Z) : Z :=
  let entries := get_entries_per_level ps in
  if lv =? 0 then
    if ps =? PAGE_SIZE_4K then u32 (ps * entries * entries * entries)
    else if ps =? PAGE_SIZE_16K then u32 (ps * entries * entries * 2) else 0
  else if lv =? 1 then
    if (ps =? PAGE_SIZE_4K) || (ps =? PAGE_SIZE_16K) then u32 (ps * entries * entries)
    else u32 (ps * entries * 64)
  else if lv =? 2 then u32 (ps * entries)
  else if lv =? 3 then u32 ps else 0.

Definition get_block_size (lv : Z) : P Z := let* ps := gets page_size in ret (block_size_of ps lv).

(** ** Filling a table *)

Definition mask_low (x ps : Z) : Z := Z.land x (Z.lnot (ps - 1)).

(** The table below an entry: a new page, or the one the entry points to;
    [None] when no page is left. *)
Definition next_table (desc : Z) : P (option Z) :=
  if (desc =? 0) || IS_PGT_ENTRY_BLOCK desc then
    let* p := alloc_page in
    match p with
    | None => ret None
    | Some a => zero_page a ;;; ret (Some a)
    end
  else let* mask := gets pgt_addr_mask in ret (Some (val_memory_phys_to_virt (Z.land desc mask))).

Section Fill.
Context (next : tt_descriptor_t -> Z -> P Z) (d : tt_descriptor_t) (attrs : Z).

(** One pass of the loop at [ia] and [oa]: [Some] is an error status. *)
Definition fill_one (block_size ia oa : Z) : P (option Z) :=
  let* sh := shr64 ia (size_log2 d) in
  let* nb := bit64 (nbits d) in
  let table_index := Z.land sh (nb - 1) in
  let table_desc := tt_base d + 8 * table_index in
  let* ps := gets page_size in
  if level d =? 3 then
    store table_desc (Z.lor (Z.lor (Z.lor PGT_ENTRY_PAGE_MASK PGT_ENTRY_VALID_MASK) (mask_low oa ps)) attrs) ;;;
    increment_pgt_index (level d) (get_entries_per_level ps) ;;;
    modify (set_offset 0) ;;; ret None
  else if (Z.land ia (block_size - 1) =? 0) && (Z.land oa (block_size - 1) =? 0) &&
          (u64 (ia + block_size - 1) <=? input_top d) then
    store table_desc (Z.lor (Z.lor (Z.lor PGT_ENTRY_BLOCK_MASK PGT_ENTRY_VALID_MASK)
      (mask_low oa block_size)) attrs) ;;;
    increment_pgt_index (level d) (get_entries_per_level ps) ;;;
    modify (set_offset 0) ;;; ret None
  else
    let* desc := load table_desc in
    let* p := next_table desc in
    match p with
    | None => ret (Some ACS_STATUS_ERR)
    | Some tt_base_next_level =>
        let* filled_tables := get_pgt_index (u32 (level d + 1)) in
        let* bs := get_block_size (u32 (level d + 1)) in
        modify (set_offset (u64 (filled_tables * bs))) ;;;
        let* off := gets offset in
        let* bpl := gets bits_per_level in
        let max_allowed_mem := u64 (ia + block_size - off - 1) in
        let d' := mk_tt tt_base_next_level ia
          (if input_top d <? max_allowed_mem then input_top d else max_allowed_mem)
          oa (u32 (level d + 1)) (u32 (size_log2 d - bpl)) bpl in
        increment_pgt_index (level d) (get_entries_per_level ps) ;;;
        let* st := next d' attrs in
        if negb (st =? 0) then free_page tt_base_next_level ;;; ret (Some ACS_STATUS_ERR)
        else
          store table_desc (Z.lor (Z.lor PGT_ENTRY_TABLE_MASK PGT_ENTRY_VALID_MASK)
            (mask_low (val_memory_virt_to_phys tt_base_next_level) ps)) ;;;
          ret None
    end.

Fixpoint fill_loop (fuel : nat) (block_size ia oa : Z) : P Z :=
  match fuel with
  | O => diverge
  | S f =>
      if ia <? input_top d then
        let* r := fill_one block_size ia oa in
        match r with
        | Some st => ret st
        | None => let* off := gets offset in
                  fill_loop f block_size (u64 (ia + u64 (block_size - off))) (u64 (oa + u64 (block_size - off)))
        end
      else ret 0
  end.
End Fill.

(** A step of the loop covers at least one page. *)
Definition fill_fuel (d : tt_descriptor_t) (ps : Z) : nat :=
  Z.to_nat ((input_top d - input_base d) / ps + 2).

(** [depth] levels below this one at most. *)
Fixpoint fill_translation_table (depth : nat) (d : tt_descriptor_t) (attrs : Z) : P Z :=
  let* block_size := bit64 (size_log2 d) in
  let* init := gets is_values_init in
  when (init =? 0) (setup_acs_pgt_values ;;; modify (set_is_values_init 1)) ;;;
  let* ps := gets page_size in
  fill_loop (match depth with O => fun _ _ => diverge | S k => fill_translation_table k end)
    d attrs (fill_fuel d ps) block_size (input_base d) (output_base d).

(** ** Creating a table *)

(** The loop finds the lowest bit that is set; 64 rounds are enough. *)
Fixpoint log2_loop (fuel : nat) (size bit : Z) : Z :=
  match fuel with
  | O => 0
  | S f => if size =? 0 then 0
           else if Z.land size 1 =? 1 then bit else log2_loop f (Z.shiftr size 1) (bit + 1)
  end.
Definition log2_page_size (size : Z) : Z := log2_loop 65 size 0.

Definition set_va (va : Z) (r : memory_region_descriptor_t) : memory_region_descriptor_t :=
  mk_region va (physical_address r) (length_ r) (attributes r).

(** The translation of [first], which is [mem_desc] in the source: the loop
    variable [mem_desc_iter] is only tested for the end of the array. The
    result is [inl] the status of an error. *)
Definition create_one (desc : pgt_descriptor_t) (base num_pgt_levels page_size_log2 : Z)
    (first : memory_region_descriptor_t) : P (Z + memory_region_descriptor_t) :=
  let* ps := gets page_size in
  if negb (Z.land (virtual_address first) (ps - 1) =? 0) ||
     negb (Z.land (physical_address first) (ps - 1) =? 0) then ret (inl ACS_STATUS_ERR) else
  let* ob := bit64 (oas desc) in
  if ob <=? physical_address first then ret (inl ACS_STATUS_ERR) else
  let* ib := bit64 (ias desc) in
  let first := if ib <=? virtual_address first
               then set_va (Z.land (virtual_address first) (ib - 1)) first else first in
  let* bpl := gets bits_per_level in
  let ibase := Z.land (virtual_address first) (ib - 1) in
  let slog := u32 (u32 (num_pgt_levels - 1) * bpl + page_size_log2) in
  let d := mk_tt base ibase (u64 (ibase + length_ first - 1))
    (Z.land (physical_address first) (ob - 1)) (u32 (4 - num_pgt_levels)) slog (u32 (ias desc - slog)) in
  let* st := fill_translation_table 3 d (attributes first) in
  if negb (st =? 0) then free_page base ;;; ret (inl ACS_STATUS_ERR) else ret (inr first).

(** The loop; an array without a closing entry is read past its end. *)
Fixpoint create_loop (desc : pgt_descriptor_t) (base num_pgt_levels page_size_log2 : Z)
    (iter : list memory_region_descriptor_t) (first : memory_region_descriptor_t)
    : P (Z + memory_region_descriptor_t) :=
  match iter with
  | [] => undef
  | r :: iter' =>
      if negb (length_ r =? 0) then
        let* x := create_one desc base num_pgt_levels page_size_log2 first in
        match x with
        | inl st => ret (inl st)
        | inr first' => create_loop desc base num_pgt_levels page_size_log2 iter' first'
        end
      else ret (inr first)
  end.

Definition levels_for (ias page_size_log2 bpl : Z) : Z :=
  u32 (u32 (ias - page_size_log2) + bpl - 1) / bpl.

(** Status, and the new [pgt_base] when it is stored. *)
Definition val_pgt_create (mem_desc : list memory_region_descriptor_t) (desc : pgt_descriptor_t)
    : P (Z * option Z) :=
  modify (set_page_size val_memory_page_size) ;;;
  let* ps := gets page_size in
  let page_size_log2 := log2_page_size ps in
  modify (set_bits_per_level (u32 (page_size_log2 - 3))) ;;;
  let* bpl := gets bits_per_level in
  let n := levels_for (ias desc) page_size_log2 bpl in
  let num_pgt_levels := if 4 <? n then 4 else n in
  let* base :=
    (if pgt_base desc =? 0 then
       let* p := alloc_page in
       match p with None => ret None | Some a => zero_page a ;;; ret (Some a) end
     else ret (Some (pgt_base desc))) in
  match base with
  | None => ret (ACS_STATUS_ERR, None)
  | Some tt_base =>
      let* b := bit64 (u32 (ias desc - page_size_log2)) in
      modify (set_pgt_addr_mask (u64 (Z.shiftl (b - 1) page_size_log2))) ;;;
      let* first := deref (head mem_desc) in
      let* r := create_loop desc tt_base num_pgt_levels page_size_log2 mem_desc first in
      match r with
      | inl st => ret (st, None)
      | inr _ => ret (0, Some (val_memory_virt_to_phys tt_base))
      end
  end.

(** ** Reading a table *)

(** The walk; [inl] is an error status, [inr] the attributes. A 64-bit address
    needs at most six levels of 4 KB tables, hence six rounds. *)
Fixpoint walk (fuel : nat) (ias page_size_log2 va base this_level bits_remaining bits_here : Z) : P (Z + Z) :=
  match fuel with
  | O => diverge
  | S f =>
      let* sh := shr64 va bits_remaining in
      let* b := bit32 bits_here in
      let index := Z.land (u32 sh) (b - 1) in
      let* val64 := load (val_memory_phys_to_virt base + 8 * index) in
      if this_level =? 3 then
        if negb (IS_PGT_ENTRY_PAGE val64) then ret (inl ACS_STATUS_ERR)
        else ret (inr (PGT_DESC_ATTRIBUTES val64))
      else if IS_PGT_ENTRY_BLOCK val64 then ret (inr (PGT_DESC_ATTRIBUTES val64))
      else
        let* m := bit64 (u32 (ias - page_size_log2)) in
        let* bpl := gets bits_per_level in
        walk f ias page_size_log2 va (Z.land val64 (u64 (Z.shiftl (m - 1) page_size_log2)))
          (u32 (this_level + 1)) (u32 (bits_remaining - bits_here)) bpl
  end.

(** The caller's pointer [attributes] is not NULL. *)
Definition val_pgt_get_attributes (desc : pgt_descriptor_t) (va : Z) : P (Z + Z) :=
  let page_size_log2 := tg_size_log2 desc in
  if pgt_base desc =? 0 then ret (inl ACS_STATUS_ERR) else
  let ias := u32 (64 - tsz desc) in
  modify (set_bits_per_level (u32 (page_size_log2 - 3))) ;;;
  let* bpl := gets bits_per_level in
  let n := levels_for ias page_size_log2 bpl in
  let bits_remaining := u32 (u32 (n - 1) * bpl + page_size_log2) in
  walk 6 ias page_size_log2 va (pgt_base desc) (u32 (4 - n)) bits_remaining (u32 (ias - bits_remaining)).

(** ** Freeing a table *)

Fixpoint free_translation_table (depth : nat) (base bits_here this_level : Z) : P unit :=
  if this_level =? 3 then ret tt else
  let* n := bit64 bits_here in
  foreach (seq 0 (Z.to_nat n)) (fun index =>
    let* e := load (base + 8 * Z.of_nat index) in
    if negb (e =? 0) then
      if IS_PGT_ENTRY_BLOCK e then ret tt else
      let* mask := gets pgt_addr_mask in
      let next := val_memory_phys_to_virt (Z.land e mask) in
      if next =? 0 then ret tt else
      let* bpl := gets bits_per_level in
      match depth with
      | O => diverge
      | S k => free_translation_table k next bpl (u32 (this_level + 1))
      end ;;;
      free_page next
    else ret tt).

Definition val_pgt_destroy (desc : pgt_descriptor_t) : P unit :=
  if pgt_base desc =? 0 then ret tt else
  let base := val_memory_phys_to_virt (pgt_base desc) in
  modify (set_page_size val_memory_page_size) ;;;
  let* ps := gets page_size in
  let page_size_log2 := log2_page_size ps in
  modify (set_bits_per_level (u32 (page_size_log2 - 3))) ;;;
  let* bpl := gets bits_per_level in
  let* b := bit64 (u32 (ias desc - page_size_log2)) in
  modify (set_pgt_addr_mask (u64 (Z.shiftl (b - 1) page_size_log2))) ;;;
  let n := levels_for (ias desc) page_size_log2 bpl in
  free_translation_table 4 base (u32 (ias desc - u32 (u32 (n - 1) * bpl + page_size_log2))) (u32 (4 - n)) ;;;
  free_page base.

(** ** Mapping a region and walking to it

    A process that has mapped nothing maps a region that lies within one 2 MB
    window through three levels of 4 KB tables. *)

Lemma lookup_zero_words n a m x :
  zero_words n a m !! x =
    if (a <=? x) && (x <? a + 8 * Z.of_nat n) && ((x - a) mod 8 =? 0) then Some 0 else m !! x.
Proof.
  revert a. induction n as [|n IH]; intros a; cbn [zero_words].
  - repeat zcase; simpl; (done || lia).
  - destruct (decide (x = a)) as [->|Hne].
    + rewrite lookup_insert_eq, Z.sub_diag. repeat zcase; simpl; (done || lia).
    + rewrite lookup_insert_ne, IH by done. repeat zcase; simpl; (done || lia).
Qed.

Lemma mask_low_4096 x : 0 <= x -> x mod 4096 = 0 -> mask_low x 4096 = x.
Proof.
  intros Hx Hm. unfold mask_low. change (4096 - 1) with (Z.ones 12). rewrite <- Z.ldiff_land.
  rewrite Z.ldiff_ones_r, Z.shiftr_div_pow2, Z.shiftl_mul_pow2 by lia. simpl. lia.
Qed.

(** A page entry: the output address and the attributes around the type. *)
Definition page_entry (oa attrs : Z) : Z := Z.lor (Z.lor 3 (mask_low oa 4096)) attrs.

(** The field of [b] bits above bit [a]. *)
Lemma index_field x a b : 0 <= a -> 0 <= b -> Z.land (Z.shiftr x a) (2 ^ b - 1) = (x / 2 ^ a) mod 2 ^ b.
Proof.
  intros. replace (2 ^ b - 1) with (Z.ones b) by (rewrite Z.ones_equiv; lia).
  by rewrite Z.land_ones, Z.shiftr_div_pow2 by lia.
Qed.

Section Map.
Context (fr : list Z) (mask attrs : Z).

Definition St (m : gmap Z Z) (pg : list (option Z)) (l3 off : Z) : pgt_state :=
  mk_pgt m pg fr 4096 9 mask 1 off (mk_pgt_info 0 0 0 l3 0).

(** The entries [t0, t0 + k) of the table at [a] map the pages from [oa]. *)
Definition mapped_words (a t0 oa k : Z) (m m' : gmap Z Z) : Prop :=
  forall x, m' !! x =
    if (a + 8 * t0 <=? x) && (x <? a + 8 * (t0 + k)) && ((x - a) mod 8 =? 0)
    then Some (page_entry (oa + 4096 * ((x - a) / 8 - t0)) attrs) else m !! x.

Lemma fill_one_page nx d ia oa m pg l3 off :
  level d = 3 -> size_log2 d = 12 -> nbits d = 9 ->
  let e := tt_base d + 8 * ((ia / 4096) mod 512) in
  is_Some (m !! e) -> 0 <= l3 < 511 ->
  fill_one nx d attrs 4096 ia oa (St m pg l3 off) =
    Done (None, St (<[e := page_entry oa attrs]> m) pg (l3 + 1) 0).
Proof.
  intros Hl Hs Hn e [v Hv] Hl3. unfold fill_one. rewrite Hl, Hs, Hn.
  erewrite bind_done; [|reflexivity]. erewrite bind_done; [|reflexivity].
  erewrite bind_done; [|reflexivity]. rewrite index_field by lia. cbn [page_size St].
  change (2 ^ 12) with 4096. change (2 ^ 9) with 512. fold e. cbn [Z.eqb Pos.eqb].
  unfold store, bind, gets, modify, deref, ret, increment_pgt_index. cbn [mem St]. rewrite Hv.
  unfold bump_index, set_offset, set_pgt_info, set_mem. cbn [acs_pgt_info l3_index Z.eqb Pos.eqb].
  change (u32 (get_entries_per_level 4096 - 1)) with 511.
  cbn. destruct (Z.eqb_spec l3 511); [lia|]. by rewrite u32_small by lia.
Qed.

Lemma fill_level3 nx d oa (k : nat) ia fuel m pg l3 off :
  level d = 3 -> size_log2 d = 12 -> nbits d = 9 -> input_top d = ia + 4096 * Z.of_nat k - 1 ->
  0 <= ia -> ia + 4096 * Z.of_nat k < 2 ^ 60 -> ia mod 4096 = 0 ->
  0 <= oa -> oa + 4096 * Z.of_nat k < 2 ^ 60 ->
  let t0 := (ia / 4096) mod 512 in
  t0 + Z.of_nat k <= 512 -> (k < fuel)%nat -> 0 <= l3 -> l3 + Z.of_nat k <= 511 ->
  (forall i, 0 <= i < 512 -> is_Some (m !! (tt_base d + 8 * i))) ->
  exists m', fill_loop nx d attrs fuel 4096 ia oa (St m pg l3 off) =
      Done (0, St m' pg (l3 + Z.of_nat k) (if decide (k = 0%nat) then off else 0)) /\
    mapped_words (tt_base d) t0 oa (Z.of_nat k) m m'.
Proof.
  intros Hd1 Hd2 Hd3. revert ia oa fuel m l3 off.
  induction k as [|k IH]; intros ia oa fuel m l3 off Htop Hia Hmax Hal Hoa Hoam t0 Ht Hf Hl3 Hl3k Hm;
    (destruct fuel as [|fuel]; [lia|]); cbn [fill_loop]; rewrite Htop.
  - exists m. destruct (Z.ltb_spec ia (ia + 4096 * Z.of_nat 0 - 1)); [lia|]. split.
    + by rewrite decide_True, Z.add_0_r.
    + intros x. repeat zcase; simpl; (done || lia).
  - destruct (Z.ltb_spec ia (ia + 4096 * Z.of_nat (S k) - 1)); [|lia].
    assert (Hw : is_Some (m !! (tt_base d + 8 * ((ia / 4096) mod 512)))) by (apply Hm; lia).
    rewrite (bind_done _ _ _ _ _ (fill_one_page nx d ia oa m pg l3 off Hd1 Hd2 Hd3 Hw ltac:(lia))).
    erewrite bind_done; [|reflexivity]. cbn [offset St]. rewrite Z.sub_0_r.
    change (u64 4096) with 4096. rewrite !u64_small by lia. fold t0 in Hw |- *.
    destruct (decide (k = 0%nat)) as [->|Hk].
    + destruct fuel as [|fuel]; [lia|]. cbn [fill_loop]. rewrite Htop.
      destruct (Z.ltb_spec (ia + 4096) (ia + 4096 * Z.of_nat 1 - 1)); [lia|].
      eexists. split; [reflexivity|]. intros x.
      destruct (decide (x = tt_base d + 8 * t0)) as [->|Hne].
      * rewrite lookup_insert_eq. repeat zcase; simpl; (done || lia) || (do 2 f_equal; lia).
      * rewrite lookup_insert_ne by done. repeat zcase; simpl; (done || lia).
    + assert (Et : ((ia + 4096) / 4096) mod 512 = t0 + 1).
      { unfold t0 in *. replace (ia + 4096) with (ia + 1 * 4096) by lia. rewrite Z.div_add by lia. lia. }
      destruct (IH (ia + 4096) (oa + 4096) fuel (<[tt_base d + 8 * t0 := page_entry oa attrs]> m) (l3 + 1) 0)
        as (m' & E & Hm'); try lia.
      { intros i Hi. destruct (decide (tt_base d + 8 * i = tt_base d + 8 * t0)) as [->|Hne];
          [rewrite lookup_insert_eq; by eexists|]. rewrite lookup_insert_ne by done. by apply Hm. }
      exists m'. rewrite E. split; [by rewrite decide_False by done; do 3 f_equal; lia|].
      intros x. rewrite Hm', Et.
      destruct (decide (x = tt_base d + 8 * t0)) as [->|Hne].
      * rewrite lookup_insert_eq. repeat zcase; simpl; (done || lia) || (do 2 f_equal; lia).
      * rewrite lookup_insert_ne by done.
        replace (oa + 4096 + 4096 * ((x - tt_base d) / 8 - (t0 + 1)))
          with (oa + 4096 * ((x - tt_base d) / 8 - t0)) by lia.
        repeat zcase; simpl; (done || lia).
Qed.

(** A level above: one pass makes the next table, fills it and links it. *)
Lemma fill_upper nx d lv sl ia oa m a pg pg' off m' l3' f :
  (lv = 1 /\ sl = 30 \/ lv = 2 /\ sl = 21) ->
  level d = lv -> size_log2 d = sl -> 0 <= nbits d <= 9 ->
  0 <= ia < input_top d -> input_top d < ia + 2 ^ 21 - 1 -> ia < 2 ^ 60 -> 0 <= oa < 2 ^ 60 ->
  let e := tt_base d + 8 * ((ia / 2 ^ sl) mod 2 ^ nbits d) in
  m !! e = Some 0 -> is_Some (m' !! e) ->
  nx (mk_tt a ia (input_top d) oa (lv + 1) (sl - 9) 9) attrs (St (zero_words 512 a m) pg 0 0) =
    Done (0, St m' pg' l3' 0) ->
  fill_loop nx d attrs (S (S f)) (2 ^ sl) ia oa (St m (Some a :: pg) 0 off) =
    Done (0, St (<[e := Z.lor 3 (mask_low a 4096)]> m') pg' l3' 0).
Proof.
  intros Hlv Hl Hs Hn Hia Htop Hia60 Hoa e He [v Hv] Hnx.
  assert (Hsl : 2 ^ 21 <= 2 ^ sl <= 2 ^ 30) by (destruct Hlv as [[-> ->]|[-> ->]]; lia).
  cbn [fill_loop]. destruct (Z.ltb_spec ia (input_top d)); [|lia].
  assert (E : fill_one nx d attrs (2 ^ sl) ia oa (St m (Some a :: pg) 0 off) =
    Done (None, St (<[e := Z.lor 3 (mask_low a 4096)]> m') pg' l3' 0)).
  { unfold fill_one. rewrite Hl, Hs. unfold shr64, bit64.
    replace ((0 <=? sl) && (sl <? 64)) with true by (destruct Hlv as [[_ ->]|[_ ->]]; done).
    replace ((0 <=? nbits d) && (nbits d <? 64)) with true by (repeat zcase; simpl; (done || lia)).
    erewrite bind_done; [|reflexivity]. erewrite bind_done; [|reflexivity].
    erewrite bind_done; [|reflexivity]. rewrite index_field by (lia || destruct Hlv as [[_ ->]|[_ ->]]; lia).
    fold e. replace (lv =? 3) with false by (destruct Hlv as [[-> _]|[-> _]]; done).
    rewrite u64_small by lia. destruct (Z.leb_spec (ia + 2 ^ sl - 1) (input_top d)); [lia|].
    rewrite andb_false_r.
    erewrite bind_done; [|unfold load, bind, gets, deref; cbn [mem St]; rewrite He; reflexivity].
    erewrite bind_done; [|reflexivity]. cbn [val_memory_phys_to_virt].
    unfold get_pgt_index. erewrite bind_done; [|reflexivity].
    erewrite bind_done; [|reflexivity].
    replace (u32 (lv + 1)) with (lv + 1) by (destruct Hlv as [[-> _]|[-> _]]; done).
    erewrite bind_done; [|reflexivity]. erewrite bind_done; [|reflexivity]. erewrite bind_done; [|reflexivity].
    cbn [offset set_offset acs_pgt_info set_mem set_pages St bits_per_level l0_index l1_index l2_index l3_index].
    replace (u64 ((if lv + 1 =? 0 then 0 else if lv + 1 =? 1 then 0 else if lv + 1 =? 2 then 0 else
      if lv + 1 =? 3 then 0 else 0) * _)) with 0 by (destruct Hlv as [[-> _]|[-> _]]; done).
    rewrite u64_small by lia. destruct (Z.ltb_spec (input_top d) (ia + 2 ^ sl - 0 - 1)); [|lia].
    erewrite bind_done; [|reflexivity].
    match goal with |- context [set_pgt_info ?i ?s0] =>
      replace (set_pgt_info i s0) with (St (zero_words 512 a m) pg 0 0)
        by (destruct Hlv as [[-> _]|[-> _]]; reflexivity) end.
    replace (u32 (sl - 9)) with (sl - 9) by (destruct Hlv as [[_ ->]|[_ ->]]; done).
    rewrite (bind_done _ _ _ _ _ Hnx). cbn [Z.eqb negb].
    unfold store, bind, gets, modify, deref. cbn [mem St]. by rewrite Hv. }
  rewrite (bind_done _ _ _ _ _ E). erewrite bind_done; [|reflexivity]. cbn [offset St].
  rewrite Z.sub_0_r. rewrite (u64_small (2 ^ sl)), !u64_small by lia.
  destruct (Z.ltb_spec (ia + 2 ^ sl) (input_top d)); [lia|done].
Qed.

Definition fill_below (depth : nat) : tt_descriptor_t -> Z -> P Z :=
  match depth with O => fun _ _ => diverge | S k => fill_translation_table k end.

Lemma fill_table_unfold depth d m pg l3 off :
  0 <= size_log2 d < 64 ->
  fill_translation_table depth d attrs (St m pg l3 off) =
    fill_loop (fill_below depth) d attrs (fill_fuel d 4096) (2 ^ size_log2 d) (input_base d) (output_base d)
      (St m pg l3 off).
Proof.
  intros Hs. destruct depth; cbn [fill_translation_table]; unfold bit64;
    replace ((0 <=? size_log2 d) && (size_log2 d <? 64)) with true by (repeat zcase; simpl; (done || lia)); done.
Qed.

(** The three levels of a region in one 2 MB window. *)
Lemma fill_three_levels a0 a1 a2 va pa (k : nat) nb m pg off :
  let t1 := (va / 2 ^ 30) mod 2 ^ nb in
  let t2 := (va / 2 ^ 21) mod 512 in
  let t3 := (va / 4096) mod 512 in
  0 <= va < 2 ^ 50 -> 0 <= pa < 2 ^ 50 -> va mod 4096 = 0 -> (0 < k <= 511)%nat ->
  t3 + Z.of_nat k <= 512 -> 0 <= nb <= 9 ->
  a0 + 4096 <= a1 \/ a1 + 4096 <= a0 -> a0 + 4096 <= a2 \/ a2 + 4096 <= a0 ->
  a1 + 4096 <= a2 \/ a2 + 4096 <= a1 ->
  m !! (a0 + 8 * t1) = Some 0 ->
  exists m' l3, fill_translation_table 3 (mk_tt a0 va (va + 4096 * Z.of_nat k - 1) pa 1 30 nb) attrs
      (St m (Some a1 :: Some a2 :: pg) 0 off) = Done (0, St m' pg l3 0) /\
    m' !! (a0 + 8 * t1) = Some (Z.lor 3 (mask_low a1 4096)) /\
    m' !! (a1 + 8 * t2) = Some (Z.lor 3 (mask_low a2 4096)) /\
    forall i, 0 <= i < 512 -> m' !! (a2 + 8 * i) =
      Some (if (t3 <=? i) && (i <? t3 + Z.of_nat k) then page_entry (pa + 4096 * (i - t3)) attrs else 0).
Proof.
  intros t1 t2 t3 Hva Hpa Hal Hk Ht3 Hnb H01 H02 H12 He0.
  set (top := va + 4096 * Z.of_nat k - 1).
  set (m1 := zero_words 512 a1 m). set (m2 := zero_words 512 a2 m1).
  assert (Ht1 : 0 <= t1 < 512).
  { unfold t1. pose proof (Z.pow_le_mono_r 2 nb 9). pose proof (Z.mod_pos_bound (va / 2 ^ 30) (2 ^ nb)). lia. }
  assert (Ht2 : 0 <= t2 < 512) by (unfold t2; lia).
  set (d3 := mk_tt a2 va top pa 3 12 9).
  assert (Hz2 : forall i, 0 <= i < 512 -> is_Some (m2 !! (tt_base d3 + 8 * i))).
  { intros i Hi. unfold m2. rewrite lookup_zero_words. cbn [tt_base d3].
    repeat zcase; simpl; (by eexists) || lia. }
  assert (Hfuel : (k < fill_fuel d3 4096)%nat) by (unfold fill_fuel, d3, top; cbn [input_top input_base]; lia).
  destruct (fill_level3 (fill_below 1) d3 pa k va (fill_fuel d3 4096) m2 pg 0 0 eq_refl eq_refl eq_refl eq_refl
    ltac:(lia) ltac:(lia) Hal ltac:(lia) ltac:(lia) Ht3 Hfuel ltac:(lia) ltac:(lia) Hz2) as (m3 & E3 & Hm3).
  rewrite decide_False in E3 by lia. cbn [tt_base d3] in Hm3. fold t3 in Hm3.
  assert (Hm3e : forall x, x < a2 \/ a2 + 4096 <= x -> m3 !! x = m1 !! x).
  { intros x Hx. rewrite Hm3. unfold m2. rewrite lookup_zero_words.
    repeat zcase; simpl; (done || lia). }
  assert (Hm1 : m1 !! (a1 + 8 * t2) = Some 0).
  { unfold m1. rewrite lookup_zero_words. repeat zcase; simpl; (done || lia). }
  set (d2 := mk_tt a1 va top pa 2 21 9). set (d1 := mk_tt a0 va top pa 1 30 nb).
  assert (F : forall d, input_base d = va -> input_top d = top -> exists f, fill_fuel d 4096 = S (S f)).
  { intros d Hd1 Hd2. exists (Z.to_nat ((top - va) / 4096)). unfold fill_fuel. rewrite Hd1, Hd2. unfold top. lia. }
  destruct (F d2 eq_refl eq_refl) as [f2 F2]. destruct (F d1 eq_refl eq_refl) as [f1 F1].
  set (m4 := <[a1 + 8 * t2 := Z.lor 3 (mask_low a2 4096)]> m3).
  assert (E2 : fill_translation_table 2 d2 attrs (St m1 (Some a2 :: pg) 0 0) = Done (0, St m4 pg (0 + Z.of_nat k) 0)).
  { rewrite fill_table_unfold by (cbn; lia). rewrite F2.
    apply (fill_upper (fill_below 2) d2 2 21 va pa m1 a2 pg pg 0 m3 (0 + Z.of_nat k) f2);
      [tauto|done|done|cbn; lia|cbn; unfold top; lia|cbn; unfold top; lia|lia|lia|exact Hm1| |].
    - change (is_Some (m3 !! (a1 + 8 * t2))). rewrite Hm3e by lia. rewrite Hm1. by eexists.
    - cbn [fill_below]. rewrite fill_table_unfold by (cbn; lia). exact E3. }
  assert (Hm4 : m4 !! (a0 + 8 * t1) = Some 0).
  { unfold m4. rewrite lookup_insert_ne by lia. rewrite Hm3e by lia. unfold m1.
    rewrite lookup_zero_words. repeat zcase; simpl; (done || lia). }
  exists (<[a0 + 8 * t1 := Z.lor 3 (mask_low a1 4096)]> m4), (0 + Z.of_nat k). split_and!.
  - fold d1. rewrite fill_table_unfold by (cbn; lia). rewrite F1.
    apply (fill_upper (fill_below 3) d1 1 30 va pa m a1 (Some a2 :: pg) pg off m4 (0 + Z.of_nat k) f1);
      [tauto|done|done|done|cbn; unfold top; lia|cbn; unfold top; lia|lia|lia|exact He0| |exact E2].
    change (is_Some (m4 !! (a0 + 8 * t1))). rewrite Hm4. by eexists.
  - by rewrite lookup_insert_eq.
  - rewrite lookup_insert_ne by lia. unfold m4. by rewrite lookup_insert_eq.
  - intros i Hi. rewrite lookup_insert_ne by lia. unfold m4. rewrite lookup_insert_ne by lia.
    rewrite Hm3. unfold m2. rewrite lookup_zero_words.
    replace ((a2 + 8 * i - a2) / 8) with i by lia.
    repeat zcase; simpl; (done || lia).
Qed.
End Map.

(** ** Entries *)

Lemma testbit_aligned a i : a mod 4096 = 0 -> 0 <= i < 12 -> Z.testbit a i = false.
Proof.
  intros Ha Hi. rewrite (Z.div_mod a 4096), Ha, Z.add_0_r by lia.
  rewrite Z.mul_comm. change 4096 with (2 ^ 12). rewrite <- Z.shiftl_mul_pow2 by lia.
  rewrite Z.shiftl_spec by lia. apply Z.testbit_neg_r. lia.
Qed.

Lemma testbit_3 i : 0 <= i -> Z.testbit 3 i = (i <? 2).
Proof. intros. change 3 with (Z.ones 2). rewrite Z.testbit_ones by lia. repeat zcase; (done || lia). Qed.

Lemma land_lor_3 x : Z.land (Z.lor 3 x) 3 = 3.
Proof.
  apply Z.bits_inj'. intros i Hi. rewrite Z.land_spec, Z.lor_spec.
  by destruct (Z.testbit 3 i), (Z.testbit x i).
Qed.

Lemma testbit_attr_mask i :
  0 <= i -> Z.testbit PGT_DESC_ATTRIBUTES_MASK i = (2 <=? i) && (i <? 12) || (52 <=? i) && (i <? 64).
Proof.
  intros Hi. unfold PGT_DESC_ATTRIBUTES_MASK. change (2 ^ 12 - 1) with (Z.ones 12).
  change (2 ^ 10 - 1) with (Z.ones 10). rewrite Z.lor_spec, !Z.shiftl_spec, !Z.testbit_ones by lia.
  repeat zcase; simpl; (done || lia).
Qed.

Definition addr_mask (ias : Z) : Z := u64 (Z.shiftl (2 ^ (ias - 12) - 1) 12).

Lemma testbit_addr_mask ias i : 12 <= ias <= 64 -> 0 <= i -> Z.testbit (addr_mask ias) i = (12 <=? i) && (i <? ias).
Proof.
  intros Hs Hi. unfold addr_mask. replace (2 ^ (ias - 12) - 1) with (Z.ones (ias - 12)) by (rewrite Z.ones_equiv; lia).
  unfold u64. change 18446744073709551616 with (2 ^ 64). rewrite <- Z.land_ones by lia.
  rewrite Z.land_spec, Z.shiftl_spec, !Z.testbit_ones by lia. repeat zcase; simpl; (done || lia).
Qed.

Lemma table_entry a ias :
  a mod 4096 = 0 -> 0 <= a < 2 ^ ias -> 12 <= ias <= 64 ->
  Z.land (Z.lor 3 (mask_low a 4096)) (addr_mask ias) = a /\
  IS_PGT_ENTRY_BLOCK (Z.lor 3 (mask_low a 4096)) = false.
Proof.
  intros Ha Hr Hs. rewrite mask_low_4096 by lia. split.
  - apply Z.bits_inj'. intros i Hi. rewrite Z.land_spec, Z.lor_spec, testbit_addr_mask, testbit_3 by lia.
    destruct (Z.leb_spec 12 i), (Z.ltb_spec i ias), (Z.ltb_spec i 2); try lia; cbn [andb orb]; try done;
      rewrite ?andb_true_r, ?andb_false_r; try done; symmetry;
      (apply testbit_aligned; (done || lia)) || (apply (testbit_high a ias); lia).
  - unfold IS_PGT_ENTRY_BLOCK. by rewrite land_lor_3.
Qed.

Lemma page_entry_fields oa attrs :
  oa mod 4096 = 0 -> 0 <= oa < 2 ^ 52 -> Z.land attrs PGT_DESC_ATTRIBUTES_MASK = attrs ->
  IS_PGT_ENTRY_PAGE (page_entry oa attrs) = true /\ PGT_DESC_ATTRIBUTES (page_entry oa attrs) = attrs.
Proof.
  intros Ha Hr Hat. unfold page_entry. rewrite mask_low_4096 by lia. split.
  - unfold IS_PGT_ENTRY_PAGE. apply Z.eqb_eq.
    rewrite <- Z.lor_assoc. apply land_lor_3.
  - unfold PGT_DESC_ATTRIBUTES. apply Z.bits_inj'. intros i Hi.
    assert (Hb : Z.testbit attrs i = Z.testbit attrs i && Z.testbit PGT_DESC_ATTRIBUTES_MASK i)
      by (rewrite <- Z.land_spec; by rewrite Hat).
    rewrite testbit_attr_mask in Hb by lia.
    rewrite Z.land_spec, !Z.lor_spec, testbit_attr_mask, testbit_3 by lia.
    assert (Ho : 2 <= i -> (i < 12 \/ 52 <= i) -> Z.testbit oa i = false).
    { intros H1 [H2|H2]; [apply testbit_aligned; (done || lia)|apply (testbit_high oa 52); lia]. }
    rewrite Hb. destruct (Z.leb_spec 2 i), (Z.ltb_spec i 12), (Z.leb_spec 52 i), (Z.ltb_spec i 64),
      (Z.ltb_spec i 2); try lia; cbn [andb orb]; rewrite ?andb_true_r, ?andb_false_r, ?orb_false_r; try done;
      rewrite Ho by lia; done.
Qed.

(** ** The round trip *)

Section RoundTrip.
Context (a0 a1 a2 va pa len attrs iasv oasv : Z) (s : pgt_state) (rest : list (option Z)).

Definition page_ok (a : Z) : Prop := a mod 4096 = 0 /\ 0 < a < 2 ^ iasv.

(** A region of whole pages in one 2 MB window, smaller than a block. *)
Definition region_ok : Prop :=
  va mod 4096 = 0 /\ pa mod 4096 = 0 /\ len mod 4096 = 0 /\ 0 < len < 2 ^ 21 /\
  0 <= va < 2 ^ iasv /\ va mod 2 ^ 21 + len <= 2 ^ 21 /\ 0 <= pa /\ pa + len <= 2 ^ oasv /\
  Z.land attrs PGT_DESC_ATTRIBUTES_MASK = attrs.

(** The entry that closes an array of regions. *)
Definition region_end : memory_region_descriptor_t := mk_region 0 0 0 0.
Definition region : memory_region_descriptor_t := mk_region va pa len attrs.
Definition table_desc (base : Z) : pgt_descriptor_t := mk_pgt_desc base iasv oasv 12 (64 - iasv).

Context (Hias : 31 <= iasv <= 39) (Hoas : 12 <= oasv <= 48) (Hreg : region_ok)
  (Ha0 : page_ok a0) (Ha1 : page_ok a1) (Ha2 : page_ok a2) (Hne : NoDup [a0; a1; a2])
  (Hinit : is_values_init s = 0) (Hpages : pages s = Some a0 :: Some a1 :: Some a2 :: rest).

Lemma three_levels : levels_for iasv 12 9 = 3.
Proof. unfold levels_for, u32. lia. Qed.

(** The first call resets the counters. *)
Lemma fill_first_call depth d m pg off info fr mask :
  fill_translation_table depth d attrs (mk_pgt m pg fr 4096 9 mask 0 off info) =
  fill_translation_table depth d attrs (St fr mask m pg 0 off).
Proof.
  destruct depth; cbn [fill_translation_table]; unfold bind, bit64, ret, undef; by destruct (_ && _).
Qed.

(** What the table holds after the region is mapped. *)
Definition maps_region (m : gmap Z Z) : Prop :=
  let t3 := (va / 4096) mod 512 in
  m !! (a0 + 8 * ((va / 2 ^ 30) mod 2 ^ (iasv - 30))) = Some (Z.lor 3 (mask_low a1 4096)) /\
  m !! (a1 + 8 * ((va / 2 ^ 21) mod 512)) = Some (Z.lor 3 (mask_low a2 4096)) /\
  forall i, 0 <= i < 512 -> m !! (a2 + 8 * i) =
    Some (if (t3 <=? i) && (i <? t3 + len / 4096) then page_entry (pa + 4096 * (i - t3)) attrs else 0).

Lemma create_one_maps m0 pg off info m l3 :
  fill_translation_table 3 (mk_tt a0 va (va + 4096 * (len / 4096) - 1) pa 1 30 (iasv - 30)) attrs
    (St (freed s) (addr_mask iasv) m0 pg 0 off) = Done (0, St (freed s) (addr_mask iasv) m rest l3 0) ->
  create_one (table_desc 0) a0 3 12 region (mk_pgt m0 pg (freed s) 4096 9 (addr_mask iasv) 0 off info) =
    Done (inr region, St (freed s) (addr_mask iasv) m rest l3 0).
Proof.
  intros E. destruct Hreg as (Hva4 & Hpa4 & Hlen4 & Hlen & Hva & Hwin & Hpa & Hpal & Hat).
  assert (Hp39 : 2 ^ iasv <= 2 ^ 39) by (apply Z.pow_le_mono_r; lia).
  unfold create_one. erewrite bind_done; [|reflexivity].
  cbn [page_size virtual_address physical_address region length_ attributes oas ias table_desc].
  change (4096 - 1) with 4095. rewrite !land_4095, Hva4, Hpa4. cbn [Z.eqb negb orb].
  unfold bit64. replace ((0 <=? oasv) && (oasv <? 64)) with true by (repeat zcase; simpl; (done || lia)).
  erewrite bind_done; [|reflexivity]. destruct (Z.leb_spec (2 ^ oasv) pa); [lia|].
  replace ((0 <=? iasv) && (iasv <? 64)) with true by (repeat zcase; simpl; (done || lia)).
  erewrite bind_done; [|reflexivity]. destruct (Z.leb_spec (2 ^ iasv) va); [lia|].
  erewrite bind_done; [|reflexivity]. cbn [bits_per_level].
  change (u32 (u32 (3 - 1) * 9 + 12)) with 30. change (u32 (4 - 3)) with 1.
  replace (2 ^ iasv - 1) with (Z.ones iasv) by (rewrite Z.ones_equiv; lia).
  replace (2 ^ oasv - 1) with (Z.ones oasv) by (rewrite Z.ones_equiv; lia).
  rewrite !Z.land_ones by lia. rewrite (Z.mod_small va), (Z.mod_small pa) by lia.
  change (length_ region) with len. change (attributes region) with attrs.
  rewrite u64_small, (u32_small (iasv - 30)) by lia.
  replace (va + len - 1) with (va + 4096 * (len / 4096) - 1) by lia.
  cbn [virtual_address physical_address length_ attributes region].
  rewrite (bind_done _ _ _ _ _ (eq_trans (fill_first_call 3 _ _ _ _ _ _ _) E)). done.
Qed.

Lemma create_maps :
  exists m l3, val_pgt_create [region; region_end] (table_desc 0) s =
      Done ((0, Some a0), St (freed s) (addr_mask iasv) m rest l3 0) /\ maps_region m.
Proof.
  destruct Hreg as (Hva4 & Hpa4 & Hlen4 & Hlen & Hva & Hwin & Hpa & Hpal & Hat).
  destruct Ha0 as [Ha04 Ha0r], Ha1 as [Ha14 Ha1r], Ha2 as [Ha24 Ha2r].
  assert (Hd : a0 <> a1 /\ a0 <> a2 /\ a1 <> a2).
  { clear -Hne. apply NoDup_cons in Hne as [H1 Hne]. apply NoDup_cons in Hne as [H2 _].
    rewrite !not_elem_of_cons in H1. rewrite not_elem_of_cons in H2. tauto. }
  assert (Hp39 : 2 ^ iasv <= 2 ^ 39) by (apply Z.pow_le_mono_r; lia).
  assert (Hp48 : 2 ^ oasv <= 2 ^ 48) by (apply Z.pow_le_mono_r; lia).
  set (k := Z.to_nat (len / 4096)). set (m0 := zero_words 512 a0 (mem s)).
  destruct (fill_three_levels (freed s) (addr_mask iasv) attrs a0 a1 a2 va pa k (iasv - 30) m0 rest (offset s))
    as (m & l3 & E & Hm0 & Hm1 & Hm2); try lia.
  { unfold m0. rewrite lookup_zero_words.
    assert (0 <= (va / 2 ^ 30) mod 2 ^ (iasv - 30) < 512).
    { pose proof (Z.pow_le_mono_r 2 (iasv - 30) 9). pose proof (Z.mod_pos_bound (va / 2 ^ 30) (2 ^ (iasv - 30))). lia. }
    repeat zcase; simpl; (done || lia). }
  replace (Z.of_nat k) with (len / 4096) in * by lia.
  exists m, l3. split; [|by split_and!].
  unfold val_pgt_create, alloc_page, bind at 1, modify at 1.
  erewrite bind_done; [|reflexivity]. change (log2_page_size (page_size (set_page_size val_memory_page_size s))) with 12.
  unfold bind at 1, modify at 1. change (u32 (12 - 3)) with 9. erewrite bind_done; [|reflexivity].
  cbn [bits_per_level set_bits_per_level ias pgt_base table_desc]. rewrite three_levels.
  change (4 <? 3) with false. change (0 =? 0) with true. cbv iota.
  erewrite bind_done.
  2: { unfold bind, gets, modify, ret, zero_page. cbn [pages set_bits_per_level set_page_size]. rewrite Hpages. reflexivity. }
  cbv beta iota. unfold bit64. rewrite (u32_small (iasv - 12)) by lia.
  replace ((0 <=? iasv - 12) && (iasv - 12 <? 64)) with true by (repeat zcase; simpl; (done || lia)).
  erewrite bind_done; [|reflexivity]. erewrite bind_done; [|reflexivity]. fold (addr_mask iasv).
  set (s1 := set_pgt_addr_mask _ _).
  assert (Hs1 : s1 = mk_pgt m0 (Some a1 :: Some a2 :: rest) (freed s) 4096 9 (addr_mask iasv) 0 (offset s)
    (acs_pgt_info s)) by (by rewrite <- Hinit).
  erewrite bind_done; [|reflexivity]. rewrite Hs1. clear s1 Hs1.
  erewrite bind_done; [|cbn [create_loop region length_]; destruct (Z.eqb_spec len 0); [lia|]; cbn [negb];
    rewrite (bind_done _ _ _ _ _ (create_one_maps m0 _ (offset s) (acs_pgt_info s) m l3 E)); reflexivity].
  reflexivity.
Qed.

(** One step of a walk to the table at [a]. *)
Lemma walk_table a f v base lv rem bits s' :
  page_ok a -> 0 <= rem < 64 -> 0 <= bits < 32 -> lv <> 3 -> 0 <= v < 2 ^ 40 -> 8 <= rem ->
  bits_per_level s' = 9 ->
  mem s' !! (base + 8 * ((v / 2 ^ rem) mod 2 ^ bits)) = Some (Z.lor 3 (mask_low a 4096)) ->
  walk (S f) iasv 12 v base lv rem bits s' = walk f iasv 12 v a (u32 (lv + 1)) (u32 (rem - bits)) 9 s'.
Proof.
  intros [Ha Har] Hr Hb Hl Hv Hr8 Hbpl Hm. cbn [walk]. unfold shr64, bit32, bit64.
  destruct (table_entry a iasv Ha ltac:(lia) ltac:(lia)) as [Et Eb].
  replace ((0 <=? rem) && (rem <? 64)) with true by (repeat zcase; simpl; (done || lia)).
  replace ((0 <=? bits) && (bits <? 32)) with true by (repeat zcase; simpl; (done || lia)).
  erewrite bind_done; [|reflexivity]. erewrite bind_done; [|reflexivity].
  assert (Hsh : 0 <= v / 2 ^ rem < 2 ^ 32).
  { pose proof (Z.pow_le_mono_r 2 8 rem). split; [apply Z.div_pos; lia|].
    apply Z.div_lt_upper_bound; [lia|]. nia. }
  rewrite Z.shiftr_div_pow2, u32_small by lia.
  replace (2 ^ bits - 1) with (Z.ones bits) by (rewrite Z.ones_equiv; lia). rewrite Z.land_ones by lia.
  unfold load. erewrite bind_done; [|unfold bind, gets, deref, val_memory_phys_to_virt; rewrite Hm; reflexivity].
  destruct (Z.eqb_spec lv 3); [done|]. rewrite Eb.
  rewrite (u32_small (iasv - 12)) by lia.
  replace ((0 <=? iasv - 12) && (iasv - 12 <? 64)) with true by (repeat zcase; simpl; (done || lia)).
  erewrite bind_done; [|reflexivity]. erewrite bind_done; [|reflexivity].
  fold (addr_mask iasv). by rewrite Et, Hbpl.
Qed.

(** The walk through the three levels to the last entry. *)
Lemma walk_three m l3 v :
  iasv = 39 ->
  maps_region m -> v / 2 ^ 21 = va / 2 ^ 21 ->
  let i := (v / 4096) mod 512 in
  let t3 := (va / 4096) mod 512 in
  let s' := St (freed s) (addr_mask iasv) m rest l3 0 in
  val_pgt_get_attributes (table_desc a0) v s' =
    Done (if (t3 <=? i) && (i <? t3 + len / 4096) then inr attrs else inl ACS_STATUS_ERR, s').
Proof.
  intros H39 (Hm0 & Hm1 & Hm2) Hv i t3 s'. unfold maps_region in *.
  destruct Hreg as (Hva4 & Hpa4 & Hlen4 & Hlen & Hva & Hwin & Hpa & Hpal & Hat).
  destruct Ha0 as [Ha04 Ha0r], Ha1 as [Ha14 Ha1r], Ha2 as [Ha24 Ha2r].
  assert (Hp39 : 2 ^ iasv <= 2 ^ 39) by (apply Z.pow_le_mono_r; lia).
  assert (Hp48 : 2 ^ oasv <= 2 ^ 48) by (apply Z.pow_le_mono_r; lia).
  destruct (table_entry a1 iasv Ha14 ltac:(lia) ltac:(lia)) as [Et1 Eb1].
  destruct (table_entry a2 iasv Ha24 ltac:(lia) ltac:(lia)) as [Et2 Eb2].
  assert (Hv30 : v / 2 ^ 30 = va / 2 ^ 30) by lia.
  assert (Hst : 0 <= v < 2 ^ 40) by lia.
  unfold val_pgt_get_attributes. cbn [pgt_base table_desc tg_size_log2 tsz].
  destruct (Z.eqb_spec a0 0); [lia|]. unfold bind at 1, modify at 1. change (u32 (12 - 3)) with 9.
  change (set_bits_per_level 9 s') with s'. erewrite bind_done; [|reflexivity].
  change (bits_per_level s') with 9. replace (u32 (64 - (64 - iasv))) with iasv by (rewrite u32_small; lia).
  rewrite three_levels. change (u32 (u32 (3 - 1) * 9 + 12)) with 30. change (u32 (4 - 3)) with 1.
  rewrite (u32_small (iasv - 30)) by lia.
  rewrite (walk_table a1 5 v a0 1 30 (iasv - 30) s') by (done || lia || (rewrite Hv30; exact Hm0)).
  rewrite H39. change (u32 (1 + 1)) with 2. change (u32 (30 - (39 - 30))) with 21. rewrite <- H39.
  rewrite (walk_table a2 4 v a1 2 21 9 s') by (done || lia || (rewrite Hv; exact Hm1)).
  change (u32 (2 + 1)) with 3. change (u32 (21 - 9)) with 12.
  cbn [walk]. unfold shr64, bit32. cbn [Z.leb Z.ltb Z.compare Pos.compare Pos.compare_cont andb].
  erewrite bind_done; [|reflexivity]. erewrite bind_done; [|reflexivity].
  rewrite Z.shiftr_div_pow2, u32_small by lia.
  change (2 ^ 9 - 1) with (Z.ones 9). rewrite Z.land_ones by lia. change (2 ^ 12) with 4096. change (2 ^ 9) with 512.
  fold i. unfold load. assert (Hi : 0 <= i < 512) by (unfold i; lia).
  erewrite bind_done; [|unfold bind, gets, deref, val_memory_phys_to_virt; cbn [mem s' St];
    rewrite (Hm2 i Hi); reflexivity]. fold t3. cbn [Z.eqb Pos.eqb].
  destruct (Z.leb_spec t3 i), (Z.ltb_spec i (t3 + len / 4096)); cbn [andb]; try done.
  destruct (page_entry_fields (pa + 4096 * (i - t3)) attrs) as [Ep Ea];
    [lia|lia|done|by rewrite Ep, Ea].
Qed.

End RoundTrip.

(** ** What [val_pgt_create] leaves out *)

Lemma create_loop_lengths desc base n l2 iter iter' first :
  map (fun r => length_ r =? 0) iter = map (fun r => length_ r =? 0) iter' ->
  forall s, create_loop desc base n l2 iter first s = create_loop desc base n l2 iter' first s.
Proof.
  revert iter' first. induction iter as [|r iter IH]; intros [|r' iter'] first E s; try done.
  injection E as E1 E2. cbn [create_loop]. rewrite E1. destruct (length_ r' =? 0); [done|].
  cbn [negb]. unfold bind. destruct (create_one _ _ _ _ _ s) as [[[st|f] s1]| |]; try done. by apply IH.
Qed.

(** Only the first region of the array is mapped: two arrays with the
    same first region and the same number of entries give the same run of
    [val_pgt_create], whatever their other regions are. *)
Theorem pgt_create_first_only r l l' desc s :
  map (fun r => length_ r =? 0) l = map (fun r => length_ r =? 0) l' ->
  val_pgt_create (r :: l) desc s = val_pgt_create (r :: l') desc s.
Proof.
  intros E. unfold val_pgt_create.
  assert (Hk : forall b n p s1,
    (let* x := create_loop desc b n p (r :: l) r in
     match x with inl st => ret (st, None) | inr _ => ret (0, Some (val_memory_virt_to_phys b)) end) s1 =
    (let* x := create_loop desc b n p (r :: l') r in
     match x with inl st => ret (st, None) | inr _ => ret (0, Some (val_memory_virt_to_phys b)) end) s1).
  { intros. unfold bind. rewrite (create_loop_lengths _ _ _ _ (r :: l) (r :: l')); [done|].
    cbn [map]. by rewrite E. }
  unfold bind, modify, gets, ret. destruct (pgt_base desc =? 0).
  - destruct (alloc_page _) as [[[a|] s1]| |]; try done.
    destruct (zero_page _ _) as [[u s2]| |]; try done. unfold bit64. destruct (_ && _); [|done].
    cbn [head deref]. unfold ret. apply Hk.
  - unfold bit64. destruct (_ && _); [|done]. cbn [head deref]. unfold ret. apply Hk.
Qed.

(** ** Concrete tables *)

Definition pgt0 : pgt_state :=
  mk_pgt ∅ [Some 0x100000; Some 0x101000; Some 0x102000; Some 0x103000] [] 0 0 0 0 0 (mk_pgt_info 0 0 0 0 0).
(** Attributes in the low field: an access flag, shareability and a memory type. *)
Definition attrs0 : Z := 0x704.


Lemma pgt_create_first_only_witness :
  val_pgt_create [region 0x40001000 0x80001000 0x1000 attrs0; region 0x50000000 0x90000000 0x1000 attrs0; region_end]
    (table_desc 39 40 0) pgt0 =
  val_pgt_create [region 0x40001000 0x80001000 0x1000 attrs0; region 0x60000000 0xA0000000 0x4000 0; region_end]
    (table_desc 39 40 0) pgt0.
Proof. apply pgt_create_first_only. reflexivity. Defined.

(** The result of a run, without the state. *)
Definition result_of {S A} (m : prog S A) (s : S) : outcome A :=
  match m s with Done (a, _) => Done a | Undefined => Undefined | Diverges => Diverges end.

(** Create a table for a region and read the attributes of an address. *)
Definition map_and_read (iasv va pa len v : Z) : prog pgt_state (Z + Z) :=
  let* r := val_pgt_create [region va pa len attrs0; region_end] (table_desc iasv 40 0) in
  match r.2 with
  | Some base => val_pgt_get_attributes (table_desc iasv 40 base) v
  | None => ret (inl r.1)
  end.

(** Two ways in which a mapping that succeeds is wrong. A region of two
    pages that crosses a 2 MB boundary is put into one last-level table: the
    address of its second page is not translated (the walk leaves the
    tables), and the start of the window, which is not in the region, is.
    With 35-bit input addresses the walk of [val_pgt_get_attributes] takes the
    wrong bits after the first level and misses the page just mapped. *)
Theorem pgt_wrong_windows :
  result_of (map_and_read 39 0x401FF000 0x80001000 0x2000 0x401FF000) pgt0 = Done (inr attrs0) /\
  result_of (map_and_read 39 0x401FF000 0x80001000 0x2000 0x40200000) pgt0 = Undefined /\
  result_of (map_and_read 39 0x401FF000 0x80001000 0x2000 0x40000000) pgt0 = Done (inr attrs0) /\
  result_of (map_and_read 35 0x40201000 0x80001000 0x1000 0x40201000) pgt0 = Undefined /\
  result_of (map_and_read 39 0x40201000 0x80001000 0x1000 0x40201000) pgt0 = Done (inr attrs0).
Proof. vm_compute. repeat split. Qed.

(** Destroying the table gives back every page it took. *)
Lemma pgt_destroy_all :
  match (let* r := val_pgt_create [region 0x40001000 0x80001000 0x3000 attrs0; region_end] (table_desc 39 40 0) in
         val_pgt_destroy (table_desc 39 40 (default 0 r.2))) pgt0 with
  | Done (_, s) => freed s = [0x100000; 0x101000; 0x102000] /\ pages s = [Some 0x103000]
  | _ => False
  end.
Proof. vm_compute. by split. Qed.
