(* ===== verification/Iommu.v ===== *)
(** * The IOMMU table

    Models [val/src/acs_iommu.c] and the walk of the RISC-V I/O mapping table
    (RIMT) in [platform/pal_uefi_acpi/src/pal_iommu.c]. The entries of
    [g_iommu_info_table] end in an array without a size, so the ID mappings of
    an entry lie in the memory of the entries after it: the table is modelled as
    the bytes it has in memory ([Bytes.v]), with the layout of the 64-bit ABI. *)

From S2P Require Import Prelude Bytes Mmio PcieCfg PcieCap PcieTable.

(** ** Layout *)

Definition RIMT_IOMMU : Z := 0.
Definition RIMT_PCIE_ROOT_COMPLEX : Z := 1.
Definition RIMT_PLATFORM_DEVICE : Z := 2.

(** [sizeof(IOMMU_INFO_ENTRY)] does not count the ID mappings. *)
Definition entry_size : Z := 48.
Definition entry (i : Z) : Z := 8 + entry_size * i.
Definition f_iommu_num (e : Z) : Z := e.
Definition f_type (e : Z) : Z := e + 4.
Definition f_id (e : Z) : Z := e + 6.
Definition f_iommu_offset (e : Z) : Z := e + 8.
Definition f_hardware_id (e : Z) : Z := e + 16.
Definition f_base_address (e : Z) : Z := e + 24.
Definition f_flags (e : Z) : Z := e + 32.
Definition f_pcie_seg (e : Z) : Z := e + 36.
Definition f_pcie_bdf (e : Z) : Z := e + 38.
Definition f_idmap_offset (e : Z) : Z := e + 40.
Definition f_idmap_num (e : Z) : Z := e + 42.
Definition f_pcie_rc_seg (e : Z) : Z := e + 44.
(** [id_mapping_table[k]] *)
Definition f_map (e k : Z) : Z := e + entry_size + 16 * k.

(** ** The firmware table *)

Record EFI_ACPI_6_5_RIMT_ID_MAPPING_STRUCTURE := mk_idmap {
  SourceIdBase : Z; IdNumber : Z; DestDeviceIdBase : Z; DestIommuOffset : Z }.
Definition sizeof_idmap : Z := 20.

(** A device structure with the fields of its type. *)
Record rimt_device := mk_rimt {
  d_type : Z; d_id : Z; d_length : Z;
  HardwareID : Z; BaseAddress : Z; Flags : Z; PcieSegmentNumber : Z; PcieBDF : Z;
  IdMappingOffset : Z; IdMappings : list EFI_ACPI_6_5_RIMT_ID_MAPPING_STRUCTURE }.

Record rimt_table := mk_rimt_table {
  rimt_length : Z; RimtDeviceOffset : Z; rimt_devices : list rimt_device }.

Section Create.
Local Abbreviation P := (prog bytes).

(** The [do ... while] over the mappings: [IdMapEntry] stays at the first. *)
Fixpoint idmap_loop (fuel : nat) (e k node len : Z) (x : EFI_ACPI_6_5_RIMT_ID_MAPPING_STRUCTURE) : P unit :=
  match fuel with
  | O => diverge
  | S f =>
      st 4 (f_map e k) (SourceIdBase x) ;;;
      st 4 (f_map e k + 4) (IdNumber x) ;;;
      st 4 (f_map e k + 8) (DestDeviceIdBase x) ;;;
      st 4 (f_map e k + 12) (DestIommuOffset x) ;;;
      (let* n := ld 2 (f_idmap_num e) in st 2 (f_idmap_num e) (u16 (n + 1))) ;;;
      if node + sizeof_idmap <? len then idmap_loop f e (k + 1) (node + sizeof_idmap) len x else ret tt
  end.

Definition idmap_fuel (d : rimt_device) : nat := Z.to_nat (d_length d / sizeof_idmap + 2).

Definition fill_mappings (e : Z) (d : rimt_device) : P unit :=
  st 2 (f_idmap_offset e) (IdMappingOffset d) ;;;
  st 2 (f_idmap_num e) 0 ;;;
  let* x := deref (head (IdMappings d)) in
  idmap_loop (idmap_fuel d) e 0 (IdMappingOffset d) (d_length d) x.

Definition fill_device (e off : Z) (d : rimt_device) : P unit :=
  if d_type d =? RIMT_IOMMU then
    st 4 (f_iommu_offset e) off ;;; st 8 (f_hardware_id e) (HardwareID d) ;;;
    st 8 (f_base_address e) (BaseAddress d) ;;; st 4 (f_flags e) (Flags d) ;;;
    st 2 (f_pcie_seg e) (PcieSegmentNumber d) ;;; st 2 (f_pcie_bdf e) (PcieBDF d)
  else if d_type d =? RIMT_PCIE_ROOT_COMPLEX then
    st 2 (f_pcie_rc_seg e) (PcieSegmentNumber d) ;;; fill_mappings e d
  else if d_type d =? RIMT_PLATFORM_DEVICE then fill_mappings e d
  else ret tt.

(** The walk; structures that end before [TableLength] are read past. *)
Fixpoint rimt_walk (ds : list rimt_device) (i off table_length : Z) : P unit :=
  match ds with
  | [] => undef
  | d :: ds' =>
      let e := entry i in
      (let* n := ld 4 0 in st 4 (f_iommu_num e) n) ;;;
      st 1 (f_type e) (d_type d) ;;;
      st 2 (f_id e) (d_id d) ;;;
      fill_device e off d ;;;
      (let* n := ld 4 0 in st 4 0 (u32 (n + 1))) ;;;
      if u32 (off + d_length d) <? table_length
      then rimt_walk ds' (i + 1) (u32 (off + d_length d)) table_length else ret tt
  end.

(** [rimt] is the table the firmware provides, [None] when there is none. *)
Definition pal_iommu_create_info_table (rimt : option rimt_table) : P unit :=
  match rimt with
  | None => ret tt
  | Some t =>
      st 4 0 0 ;;; rimt_walk (rimt_devices t) 0 (RimtDeviceOffset t) (rimt_length t)
  end.
End Create.

(** ** Reading the table; the state is the pointer [g_iommu_info_table] *)

Abbreviation iommu_state := (option bytes).

(** Status [ACS_STATUS_ERR] or [ACS_STATUS_PASS]; the argument is the memory of
    the table. *)
Definition val_iommu_create_info_table (rimt : option rimt_table) (iommu_info_table : option bytes)
    : prog iommu_state Z :=
  match iommu_info_table with
  | None => ret 0xEDCB1234
  | Some m => fun _ =>
      match pal_iommu_create_info_table rimt m with
      | Done (_, m') => Done (0, Some m')
      | Undefined => Undefined
      | Diverges => Diverges
      end
  end.

Inductive IOMMU_INFO_e :=
  IOMMU_INFO_TYPE | IOMMU_INFO_BASE_ADDRESS | IOMMU_INFO_FLAGS | IOMMU_INFO_PCIE_SEG
| IOMMU_INFO_PCIE_BDF | IOMMU_INFO_IOMMU_OFFSET.
Inductive PCIERC_PLATFORM_INFO_e :=
  IOMMU_INFO_PCIE_RC_SEG | IOMMU_INFO_SOURCE_ID_BASE | IOMMU_INFO_NUM_IDS | IOMMU_INFO_DEST_ID_BASE
| IOMMU_INFO_DEST_IOMMU_OFFSET.

Section Access.
Context {S : Type} (tbl : iommu_state).
Local Abbreviation P := (prog S).

(** A read of the table by any other component. *)
Definition rd (n : nat) (a : Z) : P Z :=
  match tbl with Some m => deref (load_le n a m) | None => undef end.

Definition val_iommu_get_num : P Z :=
  match tbl with None => ret 0 | Some _ => rd 4 0 end.

Definition val_iommu_get_idmap_num (index : Z) : P Z :=
  match tbl with None => ret 0 | Some _ => rd 2 (f_idmap_num (entry index)) end.

Definition val_iommu_get_info (index : Z) (info_type : IOMMU_INFO_e) : P Z :=
  match tbl with
  | None => ret 0
  | Some _ =>
      let e := entry index in
      match info_type with
      | IOMMU_INFO_TYPE => rd 1 (f_type e)
      | IOMMU_INFO_BASE_ADDRESS => rd 8 (f_base_address e)
      | IOMMU_INFO_FLAGS => rd 4 (f_flags e)
      | IOMMU_INFO_PCIE_SEG => rd 2 (f_pcie_seg e)
      | IOMMU_INFO_PCIE_BDF => rd 2 (f_pcie_bdf e)
      | IOMMU_INFO_IOMMU_OFFSET => rd 4 (f_iommu_offset e)
      end
  end.

Definition val_iommu_get_pcierc_platform_info (index idmap_index : Z) (info_type : PCIERC_PLATFORM_INFO_e) : P Z :=
  match tbl with
  | None => ret 0
  | Some _ =>
      let e := entry index in
      match info_type with
      | IOMMU_INFO_PCIE_RC_SEG => rd 2 (f_pcie_rc_seg e)
      | IOMMU_INFO_SOURCE_ID_BASE => rd 4 (f_map e idmap_index)
      | IOMMU_INFO_NUM_IDS => rd 4 (f_map e idmap_index + 4)
      | IOMMU_INFO_DEST_ID_BASE => rd 4 (f_map e idmap_index + 8)
      | IOMMU_INFO_DEST_IOMMU_OFFSET => rd 4 (f_map e idmap_index + 12)
      end
  end.

(** ** The IOMMU that governs a function *)

(** The index when one is found. *)
Definition val_iommu_check_governing_iommu_offset (destiommu_offset : Z) : P (option Z) :=
  let* iommu_num := val_iommu_get_num in
  search (range 0 (iommu_num - 1)) (fun index =>
    let* ty := val_iommu_get_info index IOMMU_INFO_TYPE in
    if ty =? RIMT_IOMMU then
      let* off := val_iommu_get_info index IOMMU_INFO_IOMMU_OFFSET in
      ret (if destiommu_offset =? u32 off then Some index else None)
    else ret None).

(** One mapping of root complex [index]: [Some] is the [return]. *)
Definition governing_map (index prid : Z) (idmap_index : Z) : P (option (option Z)) :=
  let* base := val_iommu_get_pcierc_platform_info index idmap_index IOMMU_INFO_SOURCE_ID_BASE in
  let* num := val_iommu_get_pcierc_platform_info index idmap_index IOMMU_INFO_NUM_IDS in
  if prid <=? u32 (u32 base + u32 num) then
    let* dest := val_iommu_get_pcierc_platform_info index idmap_index IOMMU_INFO_DEST_IOMMU_OFFSET in
    let* r := val_iommu_check_governing_iommu_offset (u32 dest) in
    ret (Some r)
  else ret None.

Definition governing_entry (segment prid index : Z) : P (option (option Z)) :=
  let* ty := val_iommu_get_info index IOMMU_INFO_TYPE in
  if ty =? RIMT_PCIE_ROOT_COMPLEX then
    let* seg := val_iommu_get_pcierc_platform_info index 0 IOMMU_INFO_PCIE_RC_SEG in
    let* idmap_num := val_iommu_get_idmap_num index in
    if negb (u16 seg =? segment) || (idmap_num =? 0) then ret None
    else search (range 0 (idmap_num - 1)) (governing_map index prid)
  else ret None.

Definition bdf_prid (bdf : Z) : Z :=
  u16 (Z.lor (Z.lor (Z.shiftr (Z.land bdf 0x00ff0000) 8) (Z.shiftr (Z.land bdf 0x0000ff00) 5)) (Z.land bdf 0xff)).

(** The result (1 when an IOMMU is found) and the index stored. *)
Definition val_iommu_check_governing_iommu (bdf : Z) : P (Z * option Z) :=
  let* iommu_num := val_iommu_get_num in
  match tbl with
  | None => ret (0, None)
  | Some _ =>
      if iommu_num =? 0 then ret (0, None) else
      let segment := u16 (Z.shiftr (Z.land bdf 0xff000000) 24) in
      let* r := search (range 0 (iommu_num - 1)) (governing_entry segment (bdf_prid bdf)) in
      match r with
      | Some (Some index) => ret (1, Some index)
      | _ => ret (0, None)
      end
  end.
End Access.

(** ** Registers *)

Section Registers.
Context {H : Type} `{Hardware H, Uninit, Platform} (tbl : iommu_state) (exerciser : Z -> option Z).
(** [bar_read b a] and [bar_write b a v] are the root bridge protocol of the
    firmware: [None] when it has no mapping and stores nothing. *)
Context (bar_read : Z -> Z -> prog (pcie_state H) (option Z)) (bar_write : Z -> Z -> Z -> prog (pcie_state H) unit).
Local Abbreviation P := (prog (pcie_state H)).

(** The BDF of an IOMMU that is a PCIe device. *)
Definition iommu_bdf (seg rid : Z) : Z :=
  u32 (Z.lor (Z.lor (Z.lor (Z.shiftl seg 24) (Z.shiftl (Z.land rid 0xff00) 8))
    (Z.shiftl (Z.land rid 0x00f8) 5)) (Z.land rid 0x0007)).

Definition read_low (old : Z) (o : option Z) : Z :=
  match o with Some v => Z.shiftl (Z.shiftr old 32) 32 + u32 v | None => old end.

(** The mapping of the register page into the address space
    ([val_memory_map_add_mmio]) leaves the registers as they are. *)
Definition val_iommu_read_iommu_reg (index off num : Z) : P Z :=
  match tbl with
  | None => ret 0
  | Some _ =>
      if (1024 <? off) || (2 <? num) then ret 0 else
      let* ty := val_iommu_get_info tbl index IOMMU_INFO_TYPE in
      if ty =? RIMT_IOMMU then
        let* flags := val_iommu_get_info tbl index IOMMU_INFO_FLAGS in
        if Z.land flags 1 =? 0 then
          let* base := val_iommu_get_info tbl index IOMMU_INFO_BASE_ADDRESS in
          if num =? 1 then on_hw (pal_mmio_read (u64 (base + off)))
          else if num =? 2 then on_hw (pal_mmio_read64 (u64 (base + off)))
          else ret 0
        else
          let* seg := val_iommu_get_info tbl index IOMMU_INFO_PCIE_SEG in
          let* rid := val_iommu_get_info tbl index IOMMU_INFO_PCIE_BDF in
          let b := iommu_bdf seg rid in
          let* base := val_pcie_get_mmio_bar exerciser b 0 in
          if num =? 1 then let* v := bar_read b (u64 (base + off)) in ret (read_low 0 v)
          else if num =? 2 then
            let* lo := bar_read b (u64 (base + off)) in
            let* hi := bar_read b (u64 (base + off + 4)) in
            ret (Z.lor (Z.shiftl (Z.land (read_low (uninit "datahigh") hi) 0xffffffff) 32)
                       (Z.land (read_low (uninit "datalow") lo) 0xffffffff))
          else ret 0
      else ret 0
  end.

Definition val_iommu_write_iommu_reg (index off num data : Z) : P unit :=
  match tbl with
  | None => ret tt
  | Some _ =>
      if (1024 <? off) || (2 <? num) then ret tt else
      let* ty := val_iommu_get_info tbl index IOMMU_INFO_TYPE in
      if ty =? RIMT_IOMMU then
        let* flags := val_iommu_get_info tbl index IOMMU_INFO_FLAGS in
        if Z.land flags 1 =? 0 then
          let* base := val_iommu_get_info tbl index IOMMU_INFO_BASE_ADDRESS in
          if num =? 1 then on_hw (pal_mmio_write (u64 (base + off)) (u32 data))
          else if num =? 2 then on_hw (pal_mmio_write64 (u64 (base + off)) data)
          else ret tt
        else
          let* seg := val_iommu_get_info tbl index IOMMU_INFO_PCIE_SEG in
          let* rid := val_iommu_get_info tbl index IOMMU_INFO_PCIE_BDF in
          let b := iommu_bdf seg rid in
          let* base := val_pcie_get_mmio_bar exerciser b 0 in
          if num =? 1 then bar_write b (u64 (base + off)) (u32 data)
          else if num =? 2 then
            bar_write b (u64 (base + off)) (u32 data) ;;;
            bar_write b (u64 (base + off + 4)) (Z.shiftr (Z.land data 0xffffffff00000000) 32)
          else ret tt
      else ret tt
  end.
End Registers.

(** Every write to the fields of an entry and its mappings is above its start. *)
Ltac keeps_tac :=
  repeat first
    [ apply keeps_ret | apply keeps_ld | apply keeps_deref
    | apply keeps_st; unfold f_map, entry_size, f_iommu_num, f_type, f_id, f_iommu_offset, f_hardware_id,
        f_base_address, f_flags, f_pcie_seg, f_pcie_bdf, f_idmap_offset, f_idmap_num, f_pcie_rc_seg; cbn; lia
    | apply keeps_bind; [|intros ?] ].

Lemma idmap_loop_keeps lo hi fuel e k node len x :
  hi <= e + 4 -> 0 <= k -> keeps lo hi (idmap_loop fuel e k node len x).
Proof.
  intros He. revert k node. induction fuel as [|f IH]; intros k node Hk; [done|]. cbn [idmap_loop].
  keeps_tac. destruct (_ <? _); [apply IH; lia|keeps_tac].
Qed.

Lemma fill_device_keeps lo hi e off d : hi <= e + 4 -> keeps lo hi (fill_device e off d).
Proof.
  intros He. unfold fill_device, fill_mappings.
  destruct (_ =? _); [keeps_tac|]. destruct (_ =? _); [keeps_tac; by apply idmap_loop_keeps|].
  destruct (_ =? _); [keeps_tac; by apply idmap_loop_keeps|keeps_tac].
Qed.

Lemma rimt_walk_keeps lo hi ds i off tl :
  4 <= lo -> hi <= entry i -> keeps lo hi (rimt_walk ds i off tl).
Proof.
  intros Hlo. revert i off. induction ds as [|d ds IH]; intros i off Hhi; [done|]. cbn [rimt_walk].
  unfold entry, entry_size in *. keeps_tac; [apply fill_device_keeps; lia|].
  destruct (_ <? _); [apply IH; lia|keeps_tac].
Qed.

(** Each entry keeps its number, whatever is written after it. *)
Lemma rimt_walk_numbers ds i off tl m m' :
  rimt_walk ds i off tl m = Done (tt, m') -> load_le 4 0 m = Some i -> 0 <= i ->
  i + Z.of_nat (length ds) < 2 ^ 32 ->
  exists n, load_le 4 0 m' = Some n /\ i < n /\
    forall j, i <= j < n -> load_le 4 (f_iommu_num (entry j)) m' = Some j.
Proof.
  revert i off m. induction ds as [|d ds IH]; intros i off m E Hi H0 Hlen; [done|]. cbn [rimt_walk length] in *.
  apply bind_inv in E as ([] & m1 & E1 & E). apply bind_inv in E1 as (n1 & m1' & El & E1).
  unfold ld in El. rewrite Hi in El. injection El as <- <-.
  unfold st in E1. destruct (store_le 4 (f_iommu_num (entry i)) i m) as [m1''|] eqn:Es; [|done].
  injection E1 as ->.
  assert (Hnum : load_le 4 (f_iommu_num (entry i)) m1 = Some i).
  { rewrite (store_le_load _ _ _ _ _ Es) by lia. rewrite Z.mod_small by (cbn; lia). done. }
  assert (Hhdr : load_le 4 0 m1 = Some i).
  { rewrite <- Hi. apply load_le_ext. intros x Hx. apply (store_le_frame _ _ _ _ _ _ Es).
    unfold f_iommu_num, entry, entry_size. cbn in Hx. lia. }
  apply bind_inv in E as ([] & m2 & E2 & E). apply bind_inv in E as ([] & m3 & E3 & E).
  apply bind_inv in E as ([] & m4 & E4 & E).
  assert (Hkeep : forall lo hi, hi <= entry i + 4 -> forall x, lo <= x < hi -> m4 !! x = m1 !! x).
  { intros lo hi Hhi x Hx. rewrite (fill_device_keeps lo hi _ _ _ Hhi _ _ _ E4 x Hx).
    rewrite (keeps_st lo hi 2 (f_id (entry i)) (d_id d) ltac:(unfold f_id; lia) _ _ _ E3 x Hx).
    by rewrite (keeps_st lo hi 1 (f_type (entry i)) (d_type d) ltac:(unfold f_type; lia) _ _ _ E2 x Hx). }
  apply bind_inv in E as ([] & m5 & E5 & E). apply bind_inv in E5 as (n5 & m4' & El & E5).
  assert (Hhdr4 : load_le 4 0 m4 = Some i).
  { rewrite <- Hhdr. apply load_le_ext. intros x Hx.
    apply (Hkeep 0 (entry i + 4)); unfold entry, entry_size in *; cbn in Hx; lia. }
  unfold ld in El. rewrite Hhdr4 in El. injection El as <- <-.
  unfold st in E5. destruct (store_le 4 0 (u32 (i + 1)) m4) as [m5'|] eqn:Es5; [|done]. injection E5 as ->.
  rewrite u32_small in Es5 by lia.
  assert (Hhdr5 : load_le 4 0 m5 = Some (i + 1)).
  { rewrite (store_le_load _ _ _ _ _ Es5) by lia. rewrite Z.mod_small by (cbn; lia). done. }
  assert (Hnum5 : load_le 4 (f_iommu_num (entry i)) m5 = Some i).
  { rewrite <- Hnum. apply load_le_ext. unfold f_iommu_num. intros x Hx. cbn in Hx.
    rewrite (store_le_frame _ _ _ _ _ x Es5) by (unfold entry, entry_size in *; lia).
    apply (Hkeep (entry i) (entry i + 4)); lia. }
  destruct (_ <? _).
  - destruct (IH _ _ _ E Hhdr5 ltac:(lia) ltac:(lia)) as (n & Hn & Hin & Hj).
    exists n. split; [done|]. split; [lia|]. intros j Hjr. destruct (decide (j = i)) as [->|]; [|apply Hj; lia].
    rewrite <- Hnum5. apply load_le_ext. unfold f_iommu_num. intros x Hx. cbn in Hx.
    apply (rimt_walk_keeps (entry i) (entry (i + 1)) ds (i + 1) _ _ ltac:(unfold entry, entry_size; lia) ltac:(lia) _ _ _ E).
    unfold entry, entry_size in *. lia.
  - injection E as <-. exists (i + 1). split; [done|]. split; [lia|]. intros j Hjr.
    by replace j with i by lia.
Qed.

(** The ID mappings of an entry are overwritten by the entries after it:
    after [pal_iommu_create_info_table] has returned, the first mapping of every
    entry but the last reads back the number of the next entry as its source
    ID base, whatever the firmware table says. *)
Theorem idmap_overwritten t m m' :
  pal_iommu_create_info_table (Some t) m = Done (tt, m') ->
  Z.of_nat (length (rimt_devices t)) < 2 ^ 32 - 1 ->
  exists n, returns (val_iommu_get_num (Some m')) tt n tt /\ 0 < n /\
    forall j, 0 <= j < n - 1 ->
      returns (val_iommu_get_pcierc_platform_info (Some m') j 0 IOMMU_INFO_SOURCE_ID_BASE) tt (j + 1) tt.
Proof.
  unfold pal_iommu_create_info_table. intros E Hlen. apply bind_inv in E as ([] & m1 & E1 & E).
  unfold st in E1. destruct (store_le 4 0 0 m) as [m1'|] eqn:Es; [|done]. injection E1 as ->.
  pose proof (store_le_load _ _ _ _ _ Es ltac:(lia)) as Hh. cbn in Hh.
  destruct (rimt_walk_numbers _ _ _ _ _ _ E Hh) as (n & Hn & Hpos & Hj); [lia|lia|].
  exists n. split; [unfold returns, val_iommu_get_num, rd; by rewrite Hn|]. split; [done|].
  intros j Hjr. specialize (Hj (j + 1) ltac:(lia)).
  replace (f_iommu_num (entry (j + 1))) with (f_map (entry j) 0) in Hj
    by (unfold f_iommu_num, f_map, entry, entry_size; lia).
  unfold returns, val_iommu_get_pcierc_platform_info, rd. by rewrite Hj.
Qed.

(** ** The governing IOMMU *)

Lemma range_split a j b : a <= j <= b -> range a b = range a (j - 1) ++ j :: range (j + 1) b.
Proof.
  intros Hj. unfold range. replace (Z.to_nat (b - a + 1)) with (Z.to_nat (j - a) + S (Z.to_nat (b - j)))%nat by lia.
  rewrite seq_app, fmap_app. replace (j - 1 - a + 1) with (j - a) by lia. f_equal.
  cbn [seq]. rewrite fmap_cons. f_equal; [lia|]. replace (b - (j + 1) + 1) with (b - j) by lia.
  rewrite <- (Nat.add_0_r (S _)), <- fmap_add_seq, <- list_fmap_compose.
  apply list_fmap_ext. intros _ k _. simpl. lia.
Qed.

Lemma search_none {S A R} (l : list A) (body : A -> prog S (option R)) s :
  (forall x, x ∈ l -> body x s = Done (None, s)) -> search l body s = Done (None, s).
Proof.
  induction l as [|x l IH]; intros Hb; [done|]. cbn [search].
  rewrite (bind_done _ _ _ _ _ (Hb x ltac:(left))). apply IH. intros y Hy. apply Hb. by right.
Qed.

(** The first element for which the body returns [Some] decides a search. *)
Lemma search_range_hit {S R} (body : Z -> prog S (option R)) s j n r :
  0 <= j < n -> (forall i, 0 <= i < j -> body i s = Done (None, s)) ->
  body j s = Done (Some r, s) -> search (range 0 (n - 1)) body s = Done (Some r, s).
Proof.
  intros Hj Hlt Hr. rewrite (range_split 0 j (n - 1)) by lia.
  rewrite (search_app _ _ _ _ s).
  - cbn [search]. by rewrite (bind_done _ _ _ _ _ Hr).
  - apply search_none. intros x Hx. apply elem_of_range in Hx. apply Hlt. lia.
Qed.

Lemma rd_some {S} (s : S) m n a v : load_le n a m = Some v -> rd (Some m) n a s = Done (v, s).
Proof. intros E. unfold rd. by rewrite E. Qed.

(** [val_iommu_check_governing_iommu] does not check the start of an ID
    range: for the first root complex of the segment, every requester ID up
    to the end of its first mapping gets the answer of that mapping, also an
    ID below the source ID base. *)
Theorem governing_ignores_range_start {S} (s : S) m n j seg maps base num dest bdf k :
  let tbl := Some m in
  load_le 4 0 m = Some n -> 0 <= j < n ->
  load_le 1 (f_type (entry j)) m = Some RIMT_PCIE_ROOT_COMPLEX ->
  load_le 2 (f_pcie_rc_seg (entry j)) m = Some seg -> u16 seg = seg ->
  load_le 2 (f_idmap_num (entry j)) m = Some maps -> 0 < maps ->
  load_le 4 (f_map (entry j) 0) m = Some base -> load_le 4 (f_map (entry j) 0 + 4) m = Some num ->
  load_le 4 (f_map (entry j) 0 + 12) m = Some dest ->
  0 <= base -> 0 <= num -> base + num < 2 ^ 32 -> 0 <= dest < 2 ^ 32 ->
  u16 (Z.shiftr (Z.land bdf 0xff000000) 24) = seg ->
  (forall i, 0 <= i < j -> returns (governing_entry tbl seg (bdf_prid bdf) i) s None s) ->
  bdf_prid bdf <= base + num ->
  returns (val_iommu_check_governing_iommu_offset tbl dest) s k s ->
  returns (val_iommu_check_governing_iommu tbl bdf) s
    (match k with Some i => (1, Some i) | None => (0, None) end) s.
Proof.
  intros tbl Hn Hj Hty Hseg Hsegr Hmaps Hmpos Hbase Hnum Hdest Hb0 Hn0 Hbn Hd Hs Hbefore Hp Hk.
  assert (E0 : governing_map tbl j (bdf_prid bdf) 0 s = Done (Some k, s)).
  { unfold governing_map, val_iommu_get_pcierc_platform_info, rd, tbl, bind, deref.
    rewrite Hbase, Hnum. unfold ret. rewrite (u32_small base), (u32_small num), u32_small by lia.
    destruct (Z.leb_spec (bdf_prid bdf) (base + num)); [|lia].
    rewrite Hdest, u32_small by lia. fold tbl. by rewrite Hk. }
  assert (E1 : governing_entry tbl seg (bdf_prid bdf) j s = Done (Some k, s)).
  { unfold governing_entry. rewrite (bind_done _ _ _ _ _ (rd_some s m 1 _ _ Hty)).
    cbn [Z.eqb RIMT_PCIE_ROOT_COMPLEX Pos.eqb].
    rewrite (bind_done _ _ _ _ _ (rd_some s m 2 _ _ Hseg)).
    rewrite (bind_done _ _ _ _ _ (rd_some s m 2 _ _ Hmaps)).
    rewrite Hsegr, Z.eqb_refl. destruct (Z.eqb_spec maps 0); [lia|]. cbn [negb orb].
    apply (search_range_hit _ s 0); [lia|lia|exact E0]. }
  unfold returns, val_iommu_check_governing_iommu.
  rewrite (bind_done _ _ _ _ _ (rd_some s m 4 _ _ Hn)). unfold tbl at 1.
  destruct (Z.eqb_spec n 0); [lia|]. rewrite Hs.
  rewrite (bind_done _ _ _ _ _ (search_range_hit _ s j n k Hj Hbefore E1)). by destruct k.
Qed.

(** ** A firmware table with an IOMMU and a root complex *)

Definition mem2048 : bytes := list_to_map ((fun i => (Z.of_nat i, 0)) <$> seq 0 2048).
Definition dev_iommu : rimt_device := mk_rimt RIMT_IOMMU 7 36 0x55 0x10008000 0 0 0 0 [].
Definition dev_rc : rimt_device :=
  mk_rimt RIMT_PCIE_ROOT_COMPLEX 9 60 0 0 0 0 0 20 [mk_idmap 0x100 0x50 0 48; mk_idmap 0x200 0x50 0 48].
Definition created (t : rimt_table) : bytes :=
  match pal_iommu_create_info_table (Some t) mem2048 with Done (_, m) => m | _ => ∅ end.
Definition rimt_rc_first : rimt_table := mk_rimt_table 144 48 [dev_rc; dev_iommu].
Definition rimt_rc_last : rimt_table := mk_rimt_table 144 48 [dev_iommu; dev_rc].

Lemma idmap_overwritten_witness :
  returns (val_iommu_get_pcierc_platform_info (Some (created rimt_rc_first)) 0 0 IOMMU_INFO_SOURCE_ID_BASE) tt 1 tt.
Proof.
  destruct (idmap_overwritten rimt_rc_first mem2048 (created rimt_rc_first)) as (n & En & _ & Hj).
  - vm_compute. reflexivity.
  - reflexivity.
  - apply (Hj 0). assert (En2 : n = 2) by (revert En; vm_compute; congruence). lia.
Defined.

Lemma governing_ignores_range_start_witness :
  returns (val_iommu_check_governing_iommu (Some (created rimt_rc_last)) 0x00000100) tt (1, Some 0) tt /\
  bdf_prid 0x00000100 < 0x100.
Proof.
  split; [|reflexivity].
  apply (governing_ignores_range_start tt (created rimt_rc_last) 2 1 0 2 0x100 0x50 48 0x00000100 (Some 0));
    [vm_compute; reflexivity|split; discriminate || reflexivity|vm_compute; reflexivity|vm_compute; reflexivity
    |reflexivity|vm_compute; reflexivity|reflexivity|vm_compute; reflexivity|vm_compute; reflexivity
    |vm_compute; reflexivity|discriminate|discriminate|reflexivity|split; discriminate || reflexivity
    |reflexivity| |vm_compute; discriminate|vm_compute; reflexivity].
  intros i Hi. replace i with 0 by lia. vm_compute. reflexivity.
Defined.

(** The second mapping of a root complex repeats the first: the loop that
    copies the mappings does not advance in the firmware table. *)
Lemma idmap_repeats_first :
  val_iommu_get_pcierc_platform_info (Some (created rimt_rc_last)) 1 1 IOMMU_INFO_SOURCE_ID_BASE tt = Done (0x100, tt) /\
  val_iommu_get_idmap_num (Some (created rimt_rc_last)) 1 tt = Done (2, tt).
Proof. vm_compute. by split. Qed.
