(* ===== verification/Peripherals.v ===== *)
(** * Peripherals

    Models the peripheral table: [val/src/acs_peripherals.c],
    [pal_peripheral_create_info_table] of
    [platform/pal_uefi_acpi/src/pal_peripherals.c], and the search for PCI
    devices by class of [platform/pal_uefi_acpi/src/pal_pcie_enumeration.c]. *)

From S2P Require Import Prelude Mmio PcieCfg PcieTable.

Definition PERIPHERAL_TYPE_USB : Z := 0x2000.
Definition PERIPHERAL_TYPE_SATA : Z := 0x2001.
Definition PERIPHERAL_TYPE_UART : Z := 0x2002.
Definition PERIPHERAL_TYPE_NONE : Z := 0x2004.
Definition PERIPHERAL_END : Z := 0xFF.
Definition USB_CLASSCODE : Z := 0x0C0300.
Definition SATA_CLASSCODE : Z := 0x010600.
Definition PCI_MAX_BUS : Z := 255.
Definition PCI_MAX_DEVICE : Z := 31.

Record PERIPHERAL_INFO_BLOCK := mk_per {
  type : Z; bdf : Z; base0 : Z; base1 : Z; width : Z; irq : Z; flags : Z; msi : Z; msix : Z;
  max_pasids : Z; baud_rate : Z; interface_type : Z; platform_type : Z }.

Record PERIPHERAL_INFO_TABLE := mk_per_table {
  num_usb : Z; num_sata : Z; num_uart : Z; num_all : Z; info : list PERIPHERAL_INFO_BLOCK }.

(** ** PCI devices by class *)

(** A device the firmware has a PciIo handle for: where it is, the two upper
    bytes of its class code and its base address registers. *)
Record pci_handle := mk_pci {
  h_seg : Z; h_bus : Z; h_dev : Z; h_func : Z; ClassCode2 : Z; ClassCode1 : Z; Bar : list Z }.

(** This file has its own [PCIE_CREATE_BDF], without masks. *)
Definition pal_create_bdf (seg bus dev func : Z) : Z :=
  u32 (Z.lor (Z.lor (Z.lor (Z.shiftl seg 24) (Z.shiftl bus 16)) (Z.shiftl dev 8)) func).

Definition incrementBusDev (StartBdf : Z) : Z :=
  let Seg := PCIE_EXTRACT_BDF_SEG StartBdf in
  let Bus := PCIE_EXTRACT_BDF_BUS StartBdf in
  let Dev := PCIE_EXTRACT_BDF_DEV StartBdf in
  if negb (Dev =? PCI_MAX_DEVICE) then pal_create_bdf Seg Bus (Dev + 1) 0
  else pal_create_bdf Seg (Bus + 1) 0 0.

Definition has_class (ClassCode : Z) (h : pci_handle) : bool :=
  (ClassCode2 h =? Z.land (Z.shiftr ClassCode 16) 0xFF) &&
  (ClassCode1 h =? Z.land (Z.shiftr ClassCode 8) 0xFF).

Definition at_slot (bus dev : Z) (h : pci_handle) : bool := (bus =? h_bus h) && (dev =? h_dev h).

Definition bdf_of (h : pci_handle) : Z := pal_create_bdf (h_seg h) (h_bus h) (h_dev h) (h_func h).

(** The three loops; both outer ones start at the input bus and device. *)
Definition find_device (handles : list pci_handle) (ClassCode bus0 dev0 : Z) : option pci_handle :=
  head (flat_map (fun ThisBus => flat_map (fun ThisDev =>
    filter (fun h => at_slot ThisBus ThisDev h && has_class ClassCode h) handles)
    (range dev0 PCI_MAX_DEVICE)) (range bus0 PCI_MAX_BUS)).

(** [handles] is what [LocateHandleBuffer] finds. *)
Definition palPcieGetBdf (handles : list pci_handle) (ClassCode StartBdf : Z) : Z :=
  match find_device handles ClassCode (PCIE_EXTRACT_BDF_BUS StartBdf) (PCIE_EXTRACT_BDF_DEV StartBdf) with
  | Some h => bdf_of h
  | None => 0
  end.

(** The BAR of a device; index 6 for the upper half of the last one is outside. *)
Definition palPcieGetBase (handles : list pci_handle) (b bar_index : Z) : outcome Z :=
  match find_first (fun h => (h_seg h =? PCIE_EXTRACT_BDF_SEG b) && (h_bus h =? PCIE_EXTRACT_BDF_BUS b) &&
                             (h_dev h =? PCIE_EXTRACT_BDF_DEV b) && (h_func h =? PCIE_EXTRACT_BDF_FUNC b)) handles 0 with
  | None => Done 0
  | Some (_, h) =>
      match at_index (Bar h) bar_index with
      | None => Undefined
      | Some lo =>
          if Z.land (Z.shiftr lo 1) 3 =? 2 then
            match at_index (Bar h) (bar_index + 1) with
            | Some hi => Done (Z.lor (Z.shiftl hi 32) lo)
            | None => Undefined
            end
          else Done lo
      end
  end.

(** ** Filling the table *)

(** The pointer [per_info] is the index of the entry being filled. *)
Record fill_state := mk_fill { tbl : PERIPHERAL_INFO_TABLE; cur : Z }.
Local Abbreviation P := (prog fill_state).

Definition set_entries (l : list PERIPHERAL_INFO_BLOCK) (t : PERIPHERAL_INFO_TABLE) : PERIPHERAL_INFO_TABLE :=
  mk_per_table (num_usb t) (num_sata t) (num_uart t) (num_all t) l.

(** An assignment to fields of [*per_info]. *)
Definition update (f : PERIPHERAL_INFO_BLOCK -> PERIPHERAL_INFO_BLOCK) : P unit := fun s =>
  match at_index (info (tbl s)) (cur s) with
  | Some x => Done (tt, mk_fill (set_entries (<[Z.to_nat (cur s) := f x]> (info (tbl s))) (tbl s)) (cur s))
  | None => Undefined
  end.
Definition header (f : PERIPHERAL_INFO_TABLE -> PERIPHERAL_INFO_TABLE) : P unit :=
  modify (fun s => mk_fill (f (tbl s)) (cur s)).
Definition next_entry : P unit := modify (fun s => mk_fill (tbl s) (cur s + 1)).

Definition set_type ty (x : PERIPHERAL_INFO_BLOCK) := mk_per ty (bdf x) (base0 x) (base1 x) (width x) (irq x)
  (flags x) (msi x) (msix x) (max_pasids x) (baud_rate x) (interface_type x) (platform_type x).
Definition set_base0 v (x : PERIPHERAL_INFO_BLOCK) := mk_per (type x) (bdf x) v (base1 x) (width x) (irq x)
  (flags x) (msi x) (msix x) (max_pasids x) (baud_rate x) (interface_type x) (platform_type x).
Definition set_pci b (x : PERIPHERAL_INFO_BLOCK) := mk_per (type x) b (base0 x) (base1 x) (width x) (irq x)
  (flags x) (msi x) (msix x) (max_pasids x) (baud_rate x) (interface_type x) 0.
Definition set_uart base w q baud ift (x : PERIPHERAL_INFO_BLOCK) :=
  mk_per PERIPHERAL_TYPE_UART (bdf x) base (base1 x) w q (flags x) (msi x) (msix x) (max_pasids x)
    baud ift (platform_type x).
Definition set_uart_generic base q (x : PERIPHERAL_INFO_BLOCK) :=
  mk_per PERIPHERAL_TYPE_UART (bdf x) base (base1 x) (width x) q (flags x) (msi x) (msix x)
    (max_pasids x) (baud_rate x) (interface_type x) (platform_type x).

Definition count_usb (t : PERIPHERAL_INFO_TABLE) :=
  mk_per_table (u32 (num_usb t + 1)) (num_sata t) (num_uart t) (u32 (num_all t + 1)) (info t).
Definition count_sata (t : PERIPHERAL_INFO_TABLE) :=
  mk_per_table (num_usb t) (u32 (num_sata t + 1)) (num_uart t) (u32 (num_all t + 1)) (info t).
Definition count_uart (t : PERIPHERAL_INFO_TABLE) :=
  mk_per_table (num_usb t) (num_sata t) (u32 (num_uart t + 1)) (u32 (num_all t + 1)) (info t).

Section Create.
Context (handles : list pci_handle).

(** The first BAR that is not 0; [base0] holds the last one read. *)
Definition fill_bars (b : Z) : P unit :=
  let* _ := search (range 0 (TYPE0_MAX_BARS - 1)) (fun bar_index =>
    match palPcieGetBase handles b bar_index with
    | Done v => update (set_base0 v) ;;; ret (if negb (v =? 0) then Some tt else None)
    | Undefined => undef
    | Diverges => diverge
    end) in ret tt.

(** One controller. *)
Definition add_controller (ty : Z) (count : PERIPHERAL_INFO_TABLE -> PERIPHERAL_INFO_TABLE) (DeviceBdf : Z) : P unit :=
  update (set_type ty) ;;; fill_bars DeviceBdf ;;; update (set_pci DeviceBdf) ;;; header count ;;; next_entry.

(** The [do ... while] loop over the controllers of a class. A search can
    start over at bus 0 and never end, so the rounds are counted. *)
Fixpoint controllers (fuel : nat) (cc ty : Z) (count : PERIPHERAL_INFO_TABLE -> PERIPHERAL_INFO_TABLE)
    (StartBdf : Z) : P unit :=
  match fuel with
  | O => diverge
  | S f =>
      let DeviceBdf := palPcieGetBdf handles cc StartBdf in
      if negb (DeviceBdf =? 0) then
        add_controller ty count DeviceBdf ;;; controllers f cc ty count (incrementBusDev DeviceBdf)
      else ret tt
  end.

(** What the SPCR table says of the UART. *)
Record spcr := mk_spcr { Address : Z; AccessSize : Z; GlobalSystemInterrupt : Z; BaudRate : Z; InterfaceType : Z }.

Definition spcr_baudrate_id : list Z := [0; 0; 0; 9600; 19200; 0; 57600; 115200].
Definition baud_of (r : Z) : Z := if r <? 8 then default 0 (at_index spcr_baudrate_id r) else 0.

Definition add_spcr (u : spcr) : P unit :=
  header count_uart ;;;
  update (set_uart (Address u) (2 ^ (AccessSize u + 2)) (GlobalSystemInterrupt u) (baud_of (BaudRate u))
    (InterfaceType u)) ;;;
  next_entry.

(** Each round but the last finds another device, unless the search starts over. *)
Definition rounds_max : nat := S (length handles).

Definition pal_peripheral_create_info_table (spcr_ptr : option spcr) (PLATFORM_GENERIC_UART_BASE
    PLATFORM_GENERIC_UART_INTID : Z) : P unit :=
  header (fun t => mk_per_table 0 0 0 0 (info t)) ;;;
  update (set_base0 0) ;;;
  controllers rounds_max USB_CLASSCODE PERIPHERAL_TYPE_USB count_usb 0 ;;;
  controllers rounds_max SATA_CLASSCODE PERIPHERAL_TYPE_SATA count_sata 0 ;;;
  match spcr_ptr with Some u => add_spcr u | None => ret tt end ;;;
  when (negb (PLATFORM_GENERIC_UART_BASE =? 0))
    (header count_uart ;;;
     update (set_uart_generic PLATFORM_GENERIC_UART_BASE PLATFORM_GENERIC_UART_INTID) ;;; next_entry) ;;;
  update (set_type PERIPHERAL_END).
End Create.

(** ** Queries; the state is the pointer [g_peripheral_info_table] *)

Inductive PERIPHERAL_INFO_e :=
  NUM_USB | NUM_SATA | NUM_UART | NUM_ALL
| USB_BASE0 | USB_FLAGS | USB_GSIV | USB_BDF | USB_INTERFACE_TYPE | USB_PLATFORM_TYPE
| SATA_BASE0 | SATA_BASE1 | SATA_FLAGS | SATA_GSIV | SATA_BDF | SATA_INTERFACE_TYPE | SATA_PLATFORM_TYPE
| UART_BASE0 | UART_BASE1 | UART_WIDTH | UART_GSIV | UART_FLAGS | UART_BAUDRATE | UART_INTERFACE_TYPE
| ANY_FLAGS | ANY_GSIV | ANY_BDF | MAX_PASIDS.

Section Query.
Local Abbreviation Q := (prog (option PERIPHERAL_INFO_TABLE)).

Definition is_end (x : PERIPHERAL_INFO_BLOCK) : bool := type x =? PERIPHERAL_END.
Definition of_type (ty : Z) (x : PERIPHERAL_INFO_BLOCK) : bool :=
  (ty =? PERIPHERAL_TYPE_NONE) || (type x =? ty).

Definition val_peripheral_get_entry_index (t : PERIPHERAL_INFO_TABLE) (ty instance : Z) : Q Z :=
  instance_loop is_end (of_type ty) 0xFFFF (info t) instance 0.

(** A field of the entry of a type, 0 when there is no such entry. *)
Definition field (t : PERIPHERAL_INFO_TABLE) (ty : Z) (f : PERIPHERAL_INFO_BLOCK -> Z) (instance : Z) : Q Z :=
  let* i := val_peripheral_get_entry_index t ty instance in
  if negb (i =? 0xFFFF) then let* x := deref (at_index (info t) i) in ret (f x) else ret 0.

Definition val_peripheral_get_info (info_type : PERIPHERAL_INFO_e) (instance : Z) : Q Z :=
  let* o := gets id in
  match o with
  | None => ret 0
  | Some t =>
      match info_type with
      | NUM_USB => ret (num_usb t) | NUM_SATA => ret (num_sata t)
      | NUM_UART => ret (num_uart t) | NUM_ALL => ret (num_all t)
      | USB_BASE0 => field t PERIPHERAL_TYPE_USB base0 instance
      | USB_FLAGS => field t PERIPHERAL_TYPE_USB flags instance
      | USB_GSIV => field t PERIPHERAL_TYPE_USB irq instance
      | USB_BDF => field t PERIPHERAL_TYPE_USB bdf instance
      | USB_INTERFACE_TYPE => field t PERIPHERAL_TYPE_USB interface_type instance
      | USB_PLATFORM_TYPE => field t PERIPHERAL_TYPE_USB platform_type instance
      | SATA_BASE0 => field t PERIPHERAL_TYPE_SATA base0 instance
      | SATA_BASE1 => field t PERIPHERAL_TYPE_SATA base1 instance
      | SATA_FLAGS => field t PERIPHERAL_TYPE_SATA flags instance
      | SATA_BDF => field t PERIPHERAL_TYPE_SATA bdf instance
      | SATA_GSIV => field t PERIPHERAL_TYPE_SATA irq instance
      | SATA_INTERFACE_TYPE => field t PERIPHERAL_TYPE_SATA interface_type instance
      | SATA_PLATFORM_TYPE => field t PERIPHERAL_TYPE_SATA platform_type instance
      | UART_BASE0 => field t PERIPHERAL_TYPE_UART base0 instance
      | UART_WIDTH => field t PERIPHERAL_TYPE_UART width instance
      | UART_GSIV => field t PERIPHERAL_TYPE_UART irq instance
      | UART_FLAGS => field t PERIPHERAL_TYPE_UART flags instance
      | UART_BAUDRATE => field t PERIPHERAL_TYPE_UART baud_rate instance
      | UART_INTERFACE_TYPE => field t PERIPHERAL_TYPE_UART interface_type instance
      | ANY_FLAGS => field t PERIPHERAL_TYPE_NONE flags instance
      | ANY_GSIV => field t PERIPHERAL_TYPE_NONE irq instance
      | ANY_BDF => field t PERIPHERAL_TYPE_NONE bdf instance
      | MAX_PASIDS => field t PERIPHERAL_TYPE_NONE max_pasids instance
      | UART_BASE1 => ret 0
      end
  end.
End Query.

(** ** The search by class *)

Lemma elem_of_find_range h handles cc bus0 dev0 :
  h ∈ flat_map (fun ThisBus => flat_map (fun ThisDev =>
    filter (fun h => at_slot ThisBus ThisDev h && has_class cc h) handles)
    (range dev0 PCI_MAX_DEVICE)) (range bus0 PCI_MAX_BUS) <->
  h ∈ handles /\ has_class cc h = true /\ bus0 <= h_bus h <= PCI_MAX_BUS /\ dev0 <= h_dev h <= PCI_MAX_DEVICE.
Proof.
  rewrite list_elem_of_In, in_flat_map. split.
  - intros (bus & Hbus & Hin). apply in_flat_map in Hin as (dev & Hdev & Hin).
    apply list_elem_of_In, list_elem_of_filter in Hin as [Hp Hin]. apply Is_true_true in Hp.
    apply list_elem_of_In, elem_of_range in Hbus, Hdev. unfold at_slot in Hp.
    rewrite !andb_true_iff, !Z.eqb_eq in Hp. destruct Hp as [[-> ->] Hc]. done.
  - intros (Hin & Hc & Hb & Hd). exists (h_bus h). split; [by apply list_elem_of_In, elem_of_range|].
    apply in_flat_map. exists (h_dev h). split; [by apply list_elem_of_In, elem_of_range|].
    apply list_elem_of_In, list_elem_of_filter. split; [|done].
    unfold at_slot. by rewrite !Z.eqb_refl, Hc.
Qed.

(** [palPcieGetBdf] searches a rectangle, not the rest of the hierarchy:
    it finds a device exactly when some device of the class has a bus number
    and a device number that are both at least those of the start, and then
    returns such a device; on every later bus the devices below the device
    number of the start are passed over. *)
Theorem get_bdf_rectangle handles cc start :
  let bus0 := PCIE_EXTRACT_BDF_BUS start in
  let dev0 := PCIE_EXTRACT_BDF_DEV start in
  let found h := h ∈ handles /\ has_class cc h = true /\
    bus0 <= h_bus h <= PCI_MAX_BUS /\ dev0 <= h_dev h <= PCI_MAX_DEVICE in
  ((exists h, found h) -> exists h, found h /\ palPcieGetBdf handles cc start = bdf_of h) /\
  (~ (exists h, found h) -> palPcieGetBdf handles cc start = 0).
Proof.
  intros bus0 dev0 found. unfold palPcieGetBdf, find_device. fold bus0 dev0.
  pose proof (fun h => elem_of_find_range h handles cc bus0 dev0) as Hin.
  destruct (flat_map _ (range bus0 PCI_MAX_BUS)) as [|h l] eqn:E; simpl.
  - split; [|done]. intros [h Hh]. apply Hin in Hh. by apply not_elem_of_nil in Hh.
  - split; [intros _; exists h|intros Hn; destruct Hn; exists h]; [split; [|done]|]; apply Hin; left.
Qed.

(** ** The table lists what the header counts *)

Section Counts.
Context (handles : list pci_handle).

(** A device as PCI has it: the last slot of the last bus is not used, since
    the search would start over after it, and a 64-bit BAR has its upper half. *)
Definition handle_ok (h : pci_handle) : Prop :=
  0 <= h_seg h < 256 /\ 0 <= h_bus h /\ 0 <= h_dev h /\ 0 <= h_func h < 256 /\
  32 * h_bus h + h_dev h < 8191 /\ h_dev h <= 31 /\
  length (Bar h) = 6%nat /\ forall lo, Bar h !! 5%nat = Some lo -> Z.land (Z.shiftr lo 1) 3 <> 2.

Context (Hok : Forall handle_ok handles).

Lemma get_base_done b i : 0 <= i < 6 -> exists v, palPcieGetBase handles b i = Done v.
Proof.
  intros Hi. unfold palPcieGetBase. destruct (find_first _ handles 0) as [[j h]|] eqn:E; [|by eexists].
  apply find_first_Some in E as (k & _ & Hk & _). apply list_elem_of_lookup_2 in Hk.
  rewrite Forall_forall in Hok. destruct (Hok h Hk) as (_ & _ & _ & _ & _ & _ & Hlen & H5).
  destruct (at_index_lt (Bar h) i) as [lo El]; [lia|]. rewrite El.
  destruct (Z.eqb_spec (Z.land (Z.shiftr lo 1) 3) 2) as [E2|]; [|by eexists].
  destruct (at_index_lt (Bar h) (i + 1)) as [hi ->]; [|by eexists].
  apply at_index_Some in El as [_ El]. destruct (decide (i = 5)) as [->|]; [|lia]. by destruct (H5 lo El).
Qed.

(** The table with [xs] filled and [y] the current entry. *)
Definition filling (a b c d : Z) (xs : list PERIPHERAL_INFO_BLOCK) (y : PERIPHERAL_INFO_BLOCK)
    (rest : list PERIPHERAL_INFO_BLOCK) : fill_state :=
  mk_fill (mk_per_table a b c d (xs ++ y :: rest)) (Z.of_nat (length xs)).

Lemma update_current f a b c d xs y rest :
  update f (filling a b c d xs y rest) = Done (tt, filling a b c d xs (f y) rest).
Proof.
  unfold update, filling, at_index. cbn [tbl cur info]. rewrite Nat2Z.id.
  destruct (Z.leb_spec 0 (Z.of_nat (length xs))); [|lia]. rewrite list_lookup_middle by done.
  unfold set_entries. cbn. by rewrite insert_app_r_alt, Nat.sub_diag by lia.
Qed.

Lemma fill_bars_done b a0 b0 c0 d0 xs y rest :
  exists v, fill_bars handles b (filling a0 b0 c0 d0 xs y rest) =
    Done (tt, filling a0 b0 c0 d0 xs (set_base0 v y) rest).
Proof.
  unfold fill_bars.
  assert (Hs : forall l, (forall i, i ∈ l -> 0 <= i < 6) -> forall v, exists r w,
    search l (fun bar_index => match palPcieGetBase handles b bar_index with
      | Done v => update (set_base0 v) ;;; ret (if negb (v =? 0) then Some tt else None)
      | Undefined => undef | Diverges => diverge end) (filling a0 b0 c0 d0 xs (set_base0 v y) rest) =
    Done (r, filling a0 b0 c0 d0 xs (set_base0 w y) rest)).
  { induction l as [|i l IH]; intros Hl v; [by exists None, v|]. cbn [search].
    destruct (get_base_done b i) as [w Ew]; [apply Hl; left|]. rewrite Ew.
    erewrite bind_done; [|erewrite bind_done; [|apply update_current]; reflexivity].
    destruct (negb (w =? 0)); [by exists (Some tt), w|].
    apply (IH (fun z Hz => Hl z (list_elem_of_further _ _ _ Hz)) w). }
  destruct (Hs (range 0 (TYPE0_MAX_BARS - 1))) with (v := base0 y) as (r & w & E).
  { intros i Hi. apply elem_of_range in Hi. unfold TYPE0_MAX_BARS in Hi. lia. }
  replace (set_base0 (base0 y) y) with y in E by (by destruct y).
  exists w. by rewrite (bind_done _ _ _ _ _ E).
Qed.

(** [xs] are the entries filled, the header counts them, and there is room. *)
Definition tallied (xs : list PERIPHERAL_INFO_BLOCK) (room : nat) (s : fill_state) : Prop :=
  exists rest, (room <= length rest)%nat /\ Z.of_nat (length xs + length rest) < 2 ^ 32 /\
    s = mk_fill (mk_per_table (Z.of_nat (countb (of_type PERIPHERAL_TYPE_USB) xs))
      (Z.of_nat (countb (of_type PERIPHERAL_TYPE_SATA) xs)) (Z.of_nat (countb (of_type PERIPHERAL_TYPE_UART) xs))
      (Z.of_nat (length xs)) (xs ++ rest)) (Z.of_nat (length xs)) /\
    Forall (fun x => type x <> PERIPHERAL_END) xs.

(** The counter that goes with a type. *)
Definition counter (ty : Z) : PERIPHERAL_INFO_TABLE -> PERIPHERAL_INFO_TABLE :=
  if ty =? PERIPHERAL_TYPE_USB then count_usb else if ty =? PERIPHERAL_TYPE_SATA then count_sata else count_uart.

Lemma countb_le {A} (p : A -> bool) l : (countb p l <= length l)%nat.
Proof. induction l as [|x l IH]; simpl; [lia|]. destruct (p x); lia. Qed.

Lemma tally_one ty x xs rest :
  ty = PERIPHERAL_TYPE_USB \/ ty = PERIPHERAL_TYPE_SATA \/ ty = PERIPHERAL_TYPE_UART -> type x = ty ->
  Z.of_nat (length xs + S (length rest)) < 2 ^ 32 -> Forall (fun x => type x <> PERIPHERAL_END) xs ->
  tallied (xs ++ [x]) (length rest)
    (mk_fill (counter ty (mk_per_table (Z.of_nat (countb (of_type PERIPHERAL_TYPE_USB) xs))
      (Z.of_nat (countb (of_type PERIPHERAL_TYPE_SATA) xs)) (Z.of_nat (countb (of_type PERIPHERAL_TYPE_UART) xs))
      (Z.of_nat (length xs)) (xs ++ x :: rest))) (Z.of_nat (length xs) + 1)).
Proof.
  intros Hty Hx Hlen Hne. pose proof (countb_le (of_type PERIPHERAL_TYPE_USB) xs).
  pose proof (countb_le (of_type PERIPHERAL_TYPE_SATA) xs). pose proof (countb_le (of_type PERIPHERAL_TYPE_UART) xs).
  assert (Hof : forall t, (t =? PERIPHERAL_TYPE_NONE) = false -> of_type t x = (ty =? t))
    by (intros t Ht; unfold of_type; by rewrite Ht, Hx).
  exists rest. rewrite length_app, !countb_app. cbn [length countb]. rewrite !Hof by done.
  split; [done|]. split; [lia|]. split.
  - unfold counter. destruct Hty as [-> | [-> | ->]]; cbn -[u32 countb app Z.of_nat];
      unfold count_usb, count_sata, count_uart; cbn -[u32 countb app Z.of_nat];
      rewrite !u32_small by lia; rewrite <- app_assoc; cbn [app]; f_equal; try lia; f_equal; lia.
  - apply Forall_app. split; [done|]. constructor; [|done]. rewrite Hx.
    destruct Hty as [-> | [-> | ->]]; discriminate.
Qed.

Lemma add_controller_done ty b xs room s :
  ty = PERIPHERAL_TYPE_USB \/ ty = PERIPHERAL_TYPE_SATA -> tallied xs (S room) s ->
  exists s' x, add_controller handles ty (counter ty) b s = Done (tt, s') /\
    type x = ty /\ bdf x = b /\ tallied (xs ++ [x]) room s'.
Proof.
  intros Hty (rest & Hroom & Hlen & -> & Hne). destruct rest as [|y rest]; [simpl in Hroom; lia|].
  unfold add_controller.
  destruct (fill_bars_done b (Z.of_nat (countb (of_type PERIPHERAL_TYPE_USB) xs))
    (Z.of_nat (countb (of_type PERIPHERAL_TYPE_SATA) xs)) (Z.of_nat (countb (of_type PERIPHERAL_TYPE_UART) xs))
    (Z.of_nat (length xs)) xs (set_type ty y) rest) as [v Ev].
  match goal with |- context [mk_fill (mk_per_table ?a ?c ?d ?e (xs ++ y :: rest)) _] =>
    change (mk_fill (mk_per_table a c d e (xs ++ y :: rest)) _) with (filling a c d e xs y rest) end.
  rewrite (bind_done _ _ _ _ _ (update_current (set_type ty) _ _ _ _ xs y rest)).
  rewrite (bind_done _ _ _ _ _ Ev), (bind_done _ _ _ _ _ (update_current (set_pci b) _ _ _ _ xs _ rest)).
  unfold header, next_entry, bind, modify, filling. cbn [tbl cur].
  eexists _, (set_pci b (set_base0 v (set_type ty y))). split; [reflexivity|]. split; [done|]. split; [done|].
  destruct (tally_one ty (set_pci b (set_base0 v (set_type ty y))) xs rest) as (rest' & H1 & H2 & H3 & H4);
    [tauto|done|simpl in Hlen; lia|done|]. exists rest'. simpl in Hroom. split_and!; [lia|lia|done|done].
Qed.

(** ** The loop over the controllers *)

Definition slot (bus dev : Z) : Z := 32 * bus + dev.

(** Devices of the class at or after a slot. *)
Definition left_from (cc k : Z) (h : pci_handle) : bool := has_class cc h && (k <=? slot (h_bus h) (h_dev h)).

Lemma countb_lt {A} (p q : A -> bool) l x :
  x ∈ l -> (forall y, q y = true -> p y = true) -> p x = true -> q x = false -> (countb q l < countb p l)%nat.
Proof.
  intros Hx Hqp Hp Hq. assert (Hle : forall l, (countb q l <= countb p l)%nat).
  { induction l0 as [|y l0 IH]; simpl; [lia|]. specialize (Hqp y). destruct (q y), (p y); naive_solver lia. }
  induction l as [|y l IH]; [by apply not_elem_of_nil in Hx|]. simpl. apply elem_of_cons in Hx as [->|Hx].
  - rewrite Hp, Hq. specialize (Hle l). lia.
  - specialize (IH Hx). specialize (Hqp y). destruct (q y), (p y); naive_solver lia.
Qed.

Lemma create_bdf_fields seg bus dev func :
  0 <= seg < 256 -> 0 <= bus < 256 -> 0 <= dev < 256 -> 0 <= func < 256 ->
  PCIE_EXTRACT_BDF_BUS (pal_create_bdf seg bus dev func) = bus /\
  PCIE_EXTRACT_BDF_DEV (pal_create_bdf seg bus dev func) = dev.
Proof.
  intros Hs Hb Hd Hf.
  assert (E : pal_create_bdf seg bus dev func = PCIE_CREATE_BDF seg bus dev func).
  { unfold pal_create_bdf, PCIE_CREATE_BDF. by rewrite !land_255, !Z.mod_small by lia. }
  rewrite E. by destruct (extract_create seg bus dev func) as (_ & ? & ? & _); try lia.
Qed.

(** From the first slot every device of the class is left. *)
Lemma left_from_start cc : countb (left_from cc (slot 0 0)) handles = countb (has_class cc) handles.
Proof.
  assert (Hl : forall h, h ∈ handles -> left_from cc (slot 0 0) h = has_class cc h).
  { intros h Hh. destruct (proj1 (Forall_forall _ _) Hok h Hh) as (_ & ? & ? & _). unfold left_from, slot.
    destruct (Z.leb_spec (32 * 0 + 0) (32 * h_bus h + h_dev h)); [by rewrite andb_true_r|lia]. }
  clear Hok. induction handles as [|h hs IH]; [done|]. cbn [countb]. rewrite Hl by left.
  rewrite IH; [done|]. intros z Hz. apply Hl. by right.
Qed.

Lemma tallied_less xs r r' s : (r' <= r)%nat -> tallied xs r s -> tallied xs r' s.
Proof. intros Hr (rest & H1 & H2). exists rest. split; [lia|done]. Qed.

(** The slot after a device is where the next search starts. *)
Lemma increment_slot h :
  handle_ok h ->
  let b := incrementBusDev (bdf_of h) in
  slot (PCIE_EXTRACT_BDF_BUS b) (PCIE_EXTRACT_BDF_DEV b) = slot (h_bus h) (h_dev h) + 1 /\
  0 <= PCIE_EXTRACT_BDF_DEV b <= 31.
Proof.
  intros (Hs & Hb & Hd & Hf & Hslot & Hd31 & _). unfold incrementBusDev.
  destruct (create_bdf_fields (h_seg h) (h_bus h) (h_dev h) (h_func h)) as [E1 E2]; try lia.
  fold (bdf_of h) in E1, E2. rewrite E1, E2.
  assert (Hseg : 0 <= PCIE_EXTRACT_BDF_SEG (bdf_of h) < 256)
    by (unfold PCIE_EXTRACT_BDF_SEG; rewrite land_255; lia).
  unfold PCI_MAX_DEVICE, slot. destruct (Z.eqb_spec (h_dev h) 31); cbn [negb].
  - destruct (create_bdf_fields (PCIE_EXTRACT_BDF_SEG (bdf_of h)) (h_bus h + 1) 0 0) as [-> ->]; lia.
  - destruct (create_bdf_fields (PCIE_EXTRACT_BDF_SEG (bdf_of h)) (h_bus h) (h_dev h + 1) 0) as [-> ->]; lia.
Qed.

Lemma get_bdf_found cc start :
  palPcieGetBdf handles cc start <> 0 -> 0 <= PCIE_EXTRACT_BDF_DEV start ->
  exists h, h ∈ handles /\ has_class cc h = true /\ palPcieGetBdf handles cc start = bdf_of h /\
    slot (PCIE_EXTRACT_BDF_BUS start) (PCIE_EXTRACT_BDF_DEV start) <= slot (h_bus h) (h_dev h).
Proof.
  unfold palPcieGetBdf, find_device. intros H0 Hd.
  pose proof (fun h => elem_of_find_range h handles cc (PCIE_EXTRACT_BDF_BUS start) (PCIE_EXTRACT_BDF_DEV start)) as Hin.
  destruct (flat_map _ (range (PCIE_EXTRACT_BDF_BUS start) PCI_MAX_BUS)) as [|h l]; [done|]. simpl in *.
  destruct (proj1 (Hin h) ltac:(left)) as (H1 & H2 & H3 & H4). exists h. unfold slot. split_and!; try done. lia.
Qed.

Lemma controllers_done cc ty fuel start xs room s :
  ty = PERIPHERAL_TYPE_USB \/ ty = PERIPHERAL_TYPE_SATA -> 0 <= PCIE_EXTRACT_BDF_DEV start ->
  let n := countb (left_from cc (slot (PCIE_EXTRACT_BDF_BUS start) (PCIE_EXTRACT_BDF_DEV start))) handles in
  (n < fuel)%nat -> tallied xs (n + room) s ->
  exists s' ys, controllers handles fuel cc ty (counter ty) start s = Done (tt, s') /\
    Forall (fun x => type x = ty) ys /\ tallied (xs ++ ys) room s'.
Proof.
  intros Hty. revert start xs s. induction fuel as [|f IH]; intros start xs s Hd n Hn Hs; [lia|].
  cbn [controllers]. destruct (Z.eqb_spec (palPcieGetBdf handles cc start) 0) as [E0|N0]; cbn [negb].
  { exists s, []. rewrite app_nil_r. split_and!; [done|done|]. by apply (tallied_less xs (n + room)); [lia|]. }
  destruct (get_bdf_found cc start N0 Hd) as (h & Hh & Hc & Eb & Hle).
  destruct (increment_slot h (proj1 (Forall_forall _ _) Hok h Hh)) as [Eslot Hd31].
  set (n' := countb (left_from cc (slot (h_bus h) (h_dev h) + 1)) handles).
  assert (Hlt : (n' < n)%nat).
  { apply (countb_lt _ _ _ h Hh).
    - intros y. unfold left_from. rewrite !andb_true_iff, !Z.leb_le. intros [? ?]. split; [done|lia].
    - unfold left_from. rewrite Hc. by apply Z.leb_le.
    - unfold left_from. rewrite Hc. apply Z.leb_gt. lia. }
  destruct (add_controller_done ty (bdf_of h) xs (n' + room) s Hty) as (s1 & x & E1 & Hx & _ & Hs1).
  { by apply (tallied_less xs (n + room)); [lia|]. }
  rewrite Eb, (bind_done _ _ _ _ _ E1).
  destruct (IH (incrementBusDev (bdf_of h)) (xs ++ [x]) s1) as (s' & ys & E2 & Hys & Hs2);
    [lia|rewrite Eslot; fold n'; lia|rewrite Eslot; done|].
  exists s', (x :: ys). rewrite E2. split_and!; [done|by constructor|]. by rewrite <- app_assoc in Hs2.
Qed.

(** The table is [xs], closed, and the header counts it. *)
Definition table_counts (xs : list PERIPHERAL_INFO_BLOCK) (t : PERIPHERAL_INFO_TABLE) : Prop :=
  exists e rest, info t = xs ++ e :: rest /\ is_end e = true /\ (forall x, x ∈ xs -> is_end x = false) /\
    num_usb t = Z.of_nat (countb (of_type PERIPHERAL_TYPE_USB) xs) /\
    num_sata t = Z.of_nat (countb (of_type PERIPHERAL_TYPE_SATA) xs) /\
    num_uart t = Z.of_nat (countb (of_type PERIPHERAL_TYPE_UART) xs) /\
    num_all t = Z.of_nat (length xs).

Lemma close_table xs s :
  tallied xs 1 s -> exists s', update (set_type PERIPHERAL_END) s = Done (tt, s') /\ table_counts xs (tbl s').
Proof.
  intros ([|y rest] & Hr & Hlen & -> & Hne); [simpl in Hr; lia|]. eexists. split; [apply update_current|].
  eexists _, rest. split; [reflexivity|]. split; [done|]. split; [|done].
  intros x Hx. rewrite Forall_forall in Hne. unfold is_end. apply Z.eqb_neq. by apply Hne.
Qed.

Lemma add_uart_done f xs room s :
  (forall x, type (f x) = PERIPHERAL_TYPE_UART) -> tallied xs (S room) s ->
  exists s' x, (header count_uart ;;; update f ;;; next_entry) s = Done (tt, s') /\
    type x = PERIPHERAL_TYPE_UART /\ tallied (xs ++ [x]) room s'.
Proof.
  intros Hf (rest & Hroom & Hlen & -> & Hne). destruct rest as [|y rest]; [simpl in Hroom; lia|].
  erewrite bind_done; [|reflexivity]. unfold count_uart. cbn [tbl cur num_usb num_sata num_uart num_all info].
  erewrite bind_done; [|apply update_current]. eexists _, (f y). split; [reflexivity|]. split; [done|].
  destruct (tally_one PERIPHERAL_TYPE_UART (f y) xs rest) as (rest' & H1 & H2 & H3 & H4);
    [tauto|done|simpl in Hlen; lia|done|]. exists rest'. simpl in Hroom. split_and!; [lia|lia|exact H3|done].
Qed.

(** Building the peripheral table returns, whatever the firmware finds,
    and leaves a closed table that the header describes: with room for the
    controllers and two UARTs, the loops over the USB and SATA controllers end,
    and the four counters are the numbers of entries of each kind and of all. *)
Theorem peripheral_table_counts spcr_ptr uart_base uart_irq t c :
  let n := (countb (has_class USB_CLASSCODE) handles + countb (has_class SATA_CLASSCODE) handles)%nat in
  (n + 3 <= length (info t))%nat -> Z.of_nat (length (info t)) < 2 ^ 32 -> c = 0 ->
  exists s' xs, returns (pal_peripheral_create_info_table handles spcr_ptr uart_base uart_irq) (mk_fill t c) tt s' /\
    table_counts xs (tbl s').
Proof.
  intros n Hroom H32 ->. destruct t as [a b c d mem]. cbn [info] in *.
  destruct mem as [|y mem]; [simpl in Hroom; lia|]. unfold returns, pal_peripheral_create_info_table.
  erewrite bind_done; [|reflexivity]. cbn [tbl cur info].
  change (mk_fill (mk_per_table 0 0 0 0 (y :: mem)) 0) with (filling 0 0 0 0 [] y mem).
  rewrite (bind_done _ _ _ _ _ (update_current (set_base0 0) 0 0 0 0 [] y mem)).
  assert (H0 : tallied [] (n + 3) (filling 0 0 0 0 [] (set_base0 0 y) mem)).
  { exists (set_base0 0 y :: mem). split; [simpl in *; lia|]. split; [simpl in *; lia|]. by split. }
  assert (Hc : forall cc, countb (left_from cc (slot 0 0)) handles = countb (has_class cc) handles).
  { intros cc. apply left_from_start. }
  assert (Hle : forall cc, (countb (has_class cc) handles < rounds_max handles)%nat).
  { intros cc. unfold rounds_max. pose proof (countb_le (has_class cc) handles). lia. }
  destruct (controllers_done USB_CLASSCODE PERIPHERAL_TYPE_USB (rounds_max handles) 0 []
    (countb (has_class SATA_CLASSCODE) handles + 3) (filling 0 0 0 0 [] (set_base0 0 y) mem)) as (s1 & u & E1 & _ & Hs1).
  { tauto. } { done. } { by rewrite Hc. } { rewrite Hc. by apply (tallied_less [] (n + 3)); [lia|]. }
  rewrite (bind_done _ _ _ _ _ E1).
  destruct (controllers_done SATA_CLASSCODE PERIPHERAL_TYPE_SATA (rounds_max handles) 0 ([] ++ u) 3 s1)
    as (s2 & v & E2 & _ & Hs2).
  { tauto. } { done. } { by rewrite Hc. } { by rewrite Hc. }
  rewrite (bind_done _ _ _ _ _ E2). set (xs := ([] ++ u) ++ v) in *.
  assert (Hs3 : exists s3 ys, match spcr_ptr with Some u => add_spcr u | None => ret tt end s2 = Done (tt, s3) /\
    tallied (xs ++ ys) 2 s3).
  { destruct spcr_ptr as [r|].
    - destruct (add_uart_done (set_uart (Address r) (2 ^ (AccessSize r + 2)) (GlobalSystemInterrupt r)
        (baud_of (BaudRate r)) (InterfaceType r)) xs 2 s2 ltac:(done) Hs2) as (s3 & x & E & _ & Ht). by exists s3, [x].
    - exists s2, []. rewrite app_nil_r. split; [done|]. by apply (tallied_less xs 3); [lia|]. }
  destruct Hs3 as (s3 & ys & E3 & Hs3). rewrite (bind_done _ _ _ _ _ E3).
  assert (Hs4 : exists s4 zs, when (negb (uart_base =? 0)) (header count_uart ;;;
      update (set_uart_generic uart_base uart_irq) ;;; next_entry) s3 = Done (tt, s4) /\ tallied ((xs ++ ys) ++ zs) 1 s4).
  { destruct (negb (uart_base =? 0)); cbn [when].
    - destruct (add_uart_done (set_uart_generic uart_base uart_irq) (xs ++ ys) 1 s3 ltac:(done) Hs3)
        as (s4 & x & E & _ & Ht). by exists s4, [x].
    - exists s3, []. rewrite app_nil_r. split; [done|]. by apply (tallied_less (xs ++ ys) 2); [lia|]. }
  destruct Hs4 as (s4 & zs & E4 & Hs4). rewrite (bind_done _ _ _ _ _ E4).
  destruct (close_table _ _ Hs4) as (s5 & E5 & Ht). by exists s5, ((xs ++ ys) ++ zs).
Qed.
End Counts.

(** ** Queries on a closed table *)

(** What each query asks for: a field of the entries of a type. *)
Definition query_of (q : PERIPHERAL_INFO_e) : option (Z * (PERIPHERAL_INFO_BLOCK -> Z)) :=
  match q with
  | NUM_USB | NUM_SATA | NUM_UART | NUM_ALL | UART_BASE1 => None
  | USB_BASE0 => Some (PERIPHERAL_TYPE_USB, base0) | USB_FLAGS => Some (PERIPHERAL_TYPE_USB, flags)
  | USB_GSIV => Some (PERIPHERAL_TYPE_USB, irq) | USB_BDF => Some (PERIPHERAL_TYPE_USB, bdf)
  | USB_INTERFACE_TYPE => Some (PERIPHERAL_TYPE_USB, interface_type)
  | USB_PLATFORM_TYPE => Some (PERIPHERAL_TYPE_USB, platform_type)
  | SATA_BASE0 => Some (PERIPHERAL_TYPE_SATA, base0) | SATA_BASE1 => Some (PERIPHERAL_TYPE_SATA, base1)
  | SATA_FLAGS => Some (PERIPHERAL_TYPE_SATA, flags) | SATA_GSIV => Some (PERIPHERAL_TYPE_SATA, irq)
  | SATA_BDF => Some (PERIPHERAL_TYPE_SATA, bdf)
  | SATA_INTERFACE_TYPE => Some (PERIPHERAL_TYPE_SATA, interface_type)
  | SATA_PLATFORM_TYPE => Some (PERIPHERAL_TYPE_SATA, platform_type)
  | UART_BASE0 => Some (PERIPHERAL_TYPE_UART, base0) | UART_WIDTH => Some (PERIPHERAL_TYPE_UART, width)
  | UART_GSIV => Some (PERIPHERAL_TYPE_UART, irq) | UART_FLAGS => Some (PERIPHERAL_TYPE_UART, flags)
  | UART_BAUDRATE => Some (PERIPHERAL_TYPE_UART, baud_rate)
  | UART_INTERFACE_TYPE => Some (PERIPHERAL_TYPE_UART, interface_type)
  | ANY_FLAGS => Some (PERIPHERAL_TYPE_NONE, flags) | ANY_GSIV => Some (PERIPHERAL_TYPE_NONE, irq)
  | ANY_BDF => Some (PERIPHERAL_TYPE_NONE, bdf) | MAX_PASIDS => Some (PERIPHERAL_TYPE_NONE, max_pasids)
  end.

(** Every query of [val_peripheral_get_info] for a field of a type reads
    the field of the right entry: instance [k] is the entry of the type with
    [k] such entries before it, and an instance beyond the last gives 0. *)
Theorem peripheral_instances t xs q ty f :
  table_counts xs t -> Z.of_nat (length xs) < 0xFFFF -> query_of q = Some (ty, f) ->
  (forall (j : nat) x, xs !! j = Some x -> of_type ty x = true ->
     returns (val_peripheral_get_info q (Z.of_nat (countb (of_type ty) (take j xs)))) (Some t) (f x) (Some t)) /\
  (forall k, Z.of_nat (countb (of_type ty) xs) <= k ->
     returns (val_peripheral_get_info q k) (Some t) 0 (Some t)).
Proof.
  intros (e & rest & Hi & He & Hx & _) Hlen Hq.
  assert (Hf : forall k, val_peripheral_get_info q k (Some t) = field t ty f k (Some t))
    by (intros k; destruct q; simpl in Hq; congruence || (injection Hq as <- <-; reflexivity)).
  unfold returns. setoid_rewrite Hf. unfold field, val_peripheral_get_entry_index. rewrite Hi. split.
  - intros j x Hj Hty. pose proof (lookup_lt_Some _ _ _ Hj).
    erewrite bind_done; [|apply (instance_hit is_end (of_type ty) 0xFFFF (Some t) xs (e :: rest) 0 j x); done || lia].
    destruct (Z.eqb_spec (0 + Z.of_nat j) 0xFFFF); [lia|]. cbn [negb]. unfold at_index.
    destruct (Z.leb_spec 0 (0 + Z.of_nat j)); [|lia]. rewrite Z.add_0_l, Nat2Z.id.
    by rewrite lookup_app_l, Hj by done.
  - intros k Hk. by rewrite (bind_done _ _ _ _ _ (instance_miss is_end (of_type ty) 0xFFFF (Some t) xs e rest k 0 Hx He Hk)).
Qed.

(** ** A system with three USB controllers *)

Definition usb (bus dev : Z) : pci_handle := mk_pci 0 bus dev 0 0x0C 0x03 [0x40000000; 0; 0; 0; 0; 0].
Definition handles0 : list pci_handle := [usb 1 5; usb 2 3; usb 3 7].
Definition blank : PERIPHERAL_INFO_BLOCK := mk_per 0 0 0 0 0 0 0 0 0 0 0 0 0.
Definition per0 : PERIPHERAL_INFO_TABLE := mk_per_table 9 9 9 9 (replicate 20 blank).

Lemma handles0_ok : Forall handle_ok handles0.
Proof. repeat constructor; simpl; try lia; intros lo [= <-]; discriminate. Qed.

Lemma peripheral_table_counts_witness :
  exists s' xs, returns (pal_peripheral_create_info_table handles0 None 0x10000000 33) (mk_fill per0 0) tt s' /\
    table_counts xs (tbl s').
Proof.
  apply (peripheral_table_counts handles0 handles0_ok None 0x10000000 33 per0 0).
  - vm_compute. lia.
  - reflexivity.
  - reflexivity.
Defined.

(** The table of that system: the controller at 2:03.0 is missing. *)
Definition per1 : PERIPHERAL_INFO_TABLE :=
  match pal_peripheral_create_info_table handles0 None 0x10000000 33 (mk_fill per0 0) with
  | Done (_, s) => tbl s
  | _ => per0
  end.

Lemma usb_at_lower_device_missed : num_usb per1 = 2 /\ (bdf <$> take 2 (info per1)) = [0x00010500; 0x00030700].
Proof. vm_compute. by split. Qed.

Lemma peripheral_instances_witness :
  returns (val_peripheral_get_info USB_BDF 1) (Some per1) 0x00030700 (Some per1) /\
  returns (val_peripheral_get_info SATA_BDF 0) (Some per1) 0 (Some per1).
Proof.
  assert (Ht : table_counts (take 3 (info per1)) per1).
  { exists (set_type PERIPHERAL_END blank), (replicate 16 blank). split; [vm_compute; reflexivity|].
    split; [reflexivity|]. split; [|vm_compute; by split_and!].
    intros x Hx. assert (E : forallb (fun x => negb (is_end x)) (take 3 (info per1)) = true) by (vm_compute; reflexivity).
    rewrite forallb_forall in E. apply list_elem_of_In in Hx. specialize (E x Hx). by apply negb_true_iff in E. }
  split.
  - exact (proj1 (peripheral_instances per1 (take 3 (info per1)) USB_BDF PERIPHERAL_TYPE_USB bdf Ht
      ltac:(vm_compute; reflexivity) eq_refl) 1%nat (mk_per 0x2000 0x30700 0x40000000 0 0 0 0 0 0 0 0 0 0)
      ltac:(vm_compute; reflexivity) eq_refl).
  - refine (proj2 (peripheral_instances per1 (take 3 (info per1)) SATA_BDF PERIPHERAL_TYPE_SATA bdf Ht _ _) 0 _);
      vm_compute; congruence.
Defined.

(** The search that goes on after 1:05.0 finds 3:07.0. *)
Lemma get_bdf_rectangle_witness :
  exists h, has_class USB_CLASSCODE h = true /\ palPcieGetBdf handles0 USB_CLASSCODE 0x00010600 = bdf_of h.
Proof.
  destruct (proj1 (get_bdf_rectangle handles0 USB_CLASSCODE 0x00010600)) as (h & (_ & Hc & _) & E).
  - exists (usb 3 7). split; [right; right; left|]. vm_compute. repeat split; congruence.
  - by exists h.
Defined.
