(* ===== verification/Iovirt.v ===== *)
(** * The I/O virtualisation table

    Models [val/src/acs_iovirt.c] and the walk of the ACPI I/O remapping table
    (IORT) in [platform/pal_uefi_acpi/src/pal_iovirt.c]. The table is a header of
    counters followed by blocks of different sizes, which refer to each other by
    byte offset and are filled in place while the blocks they refer to are added
    behind them: it is modelled as the bytes it has in memory, with the layout of
    the 64-bit ABI. *)

From S2P Require Import Prelude Status Bytes.

(** ** Layout *)

Definition IOVIRT_NODE_ITS_GROUP : Z := 0.
Definition IOVIRT_NODE_NAMED_COMPONENT : Z := 1.
Definition IOVIRT_NODE_PCI_ROOT_COMPLEX : Z := 2.
Definition IOVIRT_NODE_SMMU : Z := 3.
Definition IOVIRT_NODE_SMMU_V3 : Z := 4.
Definition IOVIRT_NODE_PMCG : Z := 5.

Definition IOVIRT_FLAG_DEVID_OVERLAP_SHIFT : Z := 0.
Definition IOVIRT_FLAG_STRID_OVERLAP_SHIFT : Z := 1.
Definition IOVIRT_FLAG_SMMU_CTX_INT_SHIFT : Z := 2.

Definition MAX_NAMED_COMP_LENGTH : Z := 256.

(** [IOVIRT_INFO_TABLE] at [t] *)
Definition t_num_blocks (t : Z) : Z := t.
Definition t_num_smmus (t : Z) : Z := t + 4.
Definition t_num_pci_rcs (t : Z) : Z := t + 8.
Definition t_num_named_components (t : Z) : Z := t + 12.
Definition t_num_its_groups (t : Z) : Z := t + 16.
Definition t_num_pmcgs (t : Z) : Z := t + 20.
Definition t_blocks (t : Z) : Z := t + 24.

(** [IOVIRT_BLOCK] at [b]; [NODE_DATA] is a union of 256 bytes. *)
Definition b_type (b : Z) : Z := b.
Definition b_num_data_map (b : Z) : Z := b + 4.
Definition b_data (b : Z) : Z := b + 8.
Definition b_flags (b : Z) : Z := b + 264.
Definition b_data_map (b : Z) : Z := b + 268.
Definition sizeof_NODE_DATA_MAP : Z := 16.

Definition d_its_count (b : Z) : Z := b_data b.
Definition d_rc_segment (b : Z) : Z := b_data b.
Definition d_rc_ats_attr (b : Z) : Z := b_data b + 4.
Definition d_rc_cca (b : Z) : Z := b_data b + 8.
Definition d_rc_smmu_base (b : Z) : Z := b_data b + 16.
Definition d_pmcg_base (b : Z) : Z := b_data b.
Definition d_pmcg_overflow_gsiv (b : Z) : Z := b_data b + 8.
Definition d_pmcg_node_ref (b : Z) : Z := b_data b + 12.
Definition d_smmu_arch_major_rev (b : Z) : Z := b_data b.
Definition d_smmu_base (b : Z) : Z := b_data b + 8.

(** Fields of the mapping at [p]. *)
Definition m_input_base (p : Z) : Z := p.
Definition m_id_count (p : Z) : Z := p + 4.
Definition m_output_base (p : Z) : Z := p + 8.
Definition m_output_ref (p : Z) : Z := p + 12.
(** [data_map[0].id[k]] of the block at [b] *)
Definition b_id (b k : Z) : Z := b_data_map b + 4 * k.

Definition IOVIRT_NEXT_BLOCK (b : Z) : prog bytes Z :=
  let* n := ld 4 (b_num_data_map b) in
  ret (b_data_map b + n * sizeof_NODE_DATA_MAP).

Definition ALIGN_MEMORY (b bound : Z) : Z := Z.land (b + bound - 1) (Z.lnot (bound - 1)).

(** ** The firmware table *)

Record IORT_ID_MAPPING := mk_mapping {
  input_base : Z; id_count : Z; output_base : Z; output_reference : Z }.

(** A node with the fields of its type. *)
Record IORT_NODE := mk_node {
  n_type : Z; n_length : Z; mappings : list IORT_ID_MAPPING;
  identifiers : list Z;                                   (** ITS group *)
  device_name : list Z;                                   (** named component, up to its NUL *)
  memory_properties : Z; ats_attribute : Z; pci_segment_number : Z;   (** root complex *)
  base_address : Z; context_interrupts : list Z;          (** SMMU, PMCG *)
  overflow_interrupt_gsiv : Z; node_reference : Z }.      (** PMCG *)

Record IORT_TABLE := mk_iort {
  iort_length : Z; node_count : Z; node_offset : Z;
  nodes : gmap Z IORT_NODE                                (** by offset in the table *) }.

Section Build.
Local Abbreviation P := (prog bytes).

(** [PLATFORM_OVERRIDE_SMMU_BASE] and [PLATFORM_OVERRIDE_SMMU_ARCH_MAJOR]. *)
Context (override_base override_major : Z).

Definition iovirt_create_override_table (t : Z) : P unit :=
  st 4 (t_num_blocks t) 1 ;;;
  st 4 (t_num_smmus t) 1 ;;;
  st 8 (d_smmu_base (t_blocks t)) override_base ;;;
  st 4 (d_smmu_arch_major_rev (t_blocks t)) override_major.

Fixpoint int_in (x : Z) (l : list Z) : bool :=
  match l with [] => false | y :: l' => (x =? y) || int_in x l' end.

(** The low 32 bits of the entries are compared. *)
Fixpoint smmu_ctx_int_distinct (ctx_int : list Z) : bool :=
  match ctx_int with
  | [] => true
  | x :: l => if int_in (u32 x) (u32 <$> l) then false else smmu_ctx_int_distinct l
  end.

Fixpoint set_mem (n : nat) (a v : Z) : P unit :=
  match n with O => ret tt | S k => st 1 a v ;;; set_mem k (a + 1) v end.

(** [CopyMem] of 32-bit identifiers and of characters. *)
Fixpoint copy_words (l : list Z) (a : Z) : P unit :=
  match l with [] => ret tt | x :: l' => st 4 a x ;;; copy_words l' (a + 4) end.
Fixpoint copy_bytes (l : list Z) (a : Z) : P unit :=
  match l with [] => ret tt | x :: l' => st 1 a x ;;; copy_bytes l' (a + 1) end.

(** [CompareMem(a, b, n) == 0] *)
Fixpoint same_mem (n : nat) (a b : Z) : P bool :=
  match n with
  | O => ret true
  | S k => let* x := ld 1 a in let* y := ld 1 b in
           if x =? y then same_mem k (a + 1) (b + 1) else ret false
  end.

Fixpoint find_block_loop (n : nat) (key t block : Z) : P Z :=
  match n with
  | O => ret 0
  | S k =>
      let* kt := ld 4 (b_type key) in
      let* bt := ld 4 (b_type block) in
      let* hit :=
        (if kt =? bt then
           let* cmp_size :=
             (if bt =? IOVIRT_NODE_ITS_GROUP
              then let* c := ld 4 (d_its_count block) in ret (u32 (b_flags 0 + (c * 4 + 4)))
              else ret (b_flags 0)) in
           same_mem (Z.to_nat cmp_size) key block
         else ret false) in
      if (hit : bool) then ret (block - t)
      else let* next := IOVIRT_NEXT_BLOCK block in find_block_loop k key t next
  end.

(** The offset of a block equal to [key], 0 when there is none. *)
Definition find_block (key t : Z) : P Z :=
  let* n := ld 4 (t_num_blocks t) in
  find_block_loop (Z.to_nat n) key t (t_blocks t).

Definition incr (a : Z) : P unit := let* n := ld 4 a in st 4 a (u32 (n + 1)).
Definition set_flag (b shift : Z) : P unit :=
  let* f := ld 4 (b_flags b) in st 4 (b_flags b) (Z.lor f (Z.shiftl 1 shift)).

Section AddBlock.
(** The recursive call of [iort_add_block]: a node offset and the address for a
    new block give the offset of its block and the next free address. *)
Context (add : Z -> Z -> P (Z * Z)) (t block : Z) (ty : Z).

(** The mappings of the block: [data_map] and [next_block] advance. *)
Fixpoint add_mappings (l : list IORT_ID_MAPPING) (data_map next_block : Z) : P Z :=
  match l with
  | [] => ret next_block
  | m :: l' =>
      st 4 (m_input_base data_map) (input_base m) ;;;
      st 4 (m_id_count data_map) (id_count m) ;;;
      st 4 (m_output_base data_map) (output_base m) ;;;
      let* r := add (output_reference m) next_block in
      st 4 (m_output_ref data_map) r.1 ;;;
      st 8 (d_rc_smmu_base block) 0 ;;;
      (if ty =? IOVIRT_NODE_PCI_ROOT_COMPLEX then
         let temp_block := t + r.1 in
         let* tt' := ld 4 (b_type temp_block) in
         if (tt' =? IOVIRT_NODE_SMMU) || (tt' =? IOVIRT_NODE_SMMU_V3)
         then let* base := ld 8 (d_smmu_base temp_block) in st 8 (d_rc_smmu_base block) base
         else ret tt
       else ret tt) ;;;
      add_mappings l' (data_map + sizeof_NODE_DATA_MAP) r.2
  end.

(** The fields that depend on the type, and the counter of the type; [None] for
    an invalid type. *)
Definition fill_data (node : IORT_NODE) : P (option Z) :=
  if ty =? IOVIRT_NODE_ITS_GROUP then
    let its_count := Z.of_nat (length (identifiers node)) in
    st 4 (d_its_count block) its_count ;;;
    copy_words (identifiers node) (b_data_map block) ;;;
    st 4 (b_num_data_map block) (u32 (its_count + 3) / 4) ;;;
    ret (Some (t_num_its_groups t))
  else if ty =? IOVIRT_NODE_NAMED_COMPONENT then
    copy_bytes (take (Z.to_nat (MAX_NAMED_COMP_LENGTH - 1)) (device_name node) ++ [0]) (b_data block) ;;;
    ret (Some (t_num_named_components t))
  else if ty =? IOVIRT_NODE_PCI_ROOT_COMPLEX then
    st 4 (d_rc_segment block) (pci_segment_number node) ;;;
    st 4 (d_rc_cca block) (u32 (memory_properties node)) ;;;
    st 4 (d_rc_ats_attr block) (ats_attribute node) ;;;
    ret (Some (t_num_pci_rcs t))
  else if ty =? IOVIRT_NODE_SMMU then
    st 8 (d_smmu_base block) (base_address node) ;;;
    st 4 (d_smmu_arch_major_rev block) 2 ;;;
    ret (Some (t_num_smmus t))
  else if ty =? IOVIRT_NODE_SMMU_V3 then
    st 8 (d_smmu_base block) (base_address node) ;;;
    st 4 (d_smmu_arch_major_rev block) 3 ;;;
    ret (Some (t_num_smmus t))
  else if ty =? IOVIRT_NODE_PMCG then
    st 8 (d_pmcg_base block) (base_address node) ;;;
    st 4 (d_pmcg_overflow_gsiv block) (overflow_interrupt_gsiv node) ;;;
    st 4 (d_pmcg_node_ref block) (node_reference node) ;;;
    let* next_block := IOVIRT_NEXT_BLOCK block in
    let* r := add (node_reference node) next_block in
    st 4 (d_pmcg_node_ref block) r.1 ;;;
    ret (Some (t_num_pmcgs t))
  else ret None.

(** The offset returned and the new value of [*block]. *)
Definition add_node (node : IORT_NODE) : P (Z * Z) :=
  set_mem 256 (b_data block) 0 ;;;
  st 4 (b_type block) ty ;;;
  st 4 (b_num_data_map block) (Z.of_nat (length (mappings node))) ;;;
  let* counter := fill_data node in
  match counter with
  | None => ret (0xFFFFFFFF, block)
  | Some count =>
      st 4 (b_flags block) 0 ;;;
      let* offset := find_block block t in
      if negb (offset =? 0) then ret (offset, block) else
      let* next_block := IOVIRT_NEXT_BLOCK block in
      (if ty =? IOVIRT_NODE_SMMU then
         when (negb (smmu_ctx_int_distinct (context_interrupts node)))
           (set_flag block IOVIRT_FLAG_SMMU_CTX_INT_SHIFT)
       else ret tt) ;;;
      let* next_block :=
        (if negb (ty =? IOVIRT_NODE_ITS_GROUP)
         then add_mappings (mappings node) (b_data_map block) next_block
         else ret next_block) in
      incr (t_num_blocks t) ;;;
      incr count ;;;
      ret (block - t, next_block)
  end.
End AddBlock.

(** A chain of references longer than [fuel] does not end. *)
Fixpoint iort_add_block (fuel : nat) (iort : IORT_TABLE) (t iort_node block : Z) : P (Z * Z) :=
  match fuel with
  | O => diverge
  | S f =>
      let* node := deref (nodes iort !! iort_node) in
      add_node (iort_add_block f iort t) t block (n_type node) node
  end.

Fixpoint create_nodes (n : nat) (fuel : nat) (iort : IORT_TABLE) (t iort_node next_block : Z) : P bool :=
  match n with
  | O => ret true
  | S k =>
      if iort_length iort <=? iort_node then ret false else
      let* r := iort_add_block fuel iort t iort_node next_block in
      let* node := deref (nodes iort !! iort_node) in
      create_nodes k fuel iort t (iort_node + n_length node) r.2
  end.

(** ** Overlapping mappings *)

Definition ranges_overlap (key_start key_end start end_ : Z) : bool :=
  ((start <=? key_start) && (key_start <=? end_)) ||
  ((start <=? key_end) && (key_end <=? end_)) ||
  ((key_start <? start) && (end_ <? key_end)).

Definition map_range (p : Z) : P (Z * Z) :=
  let* base := ld 4 (m_output_base p) in
  let* count := ld 4 (m_id_count p) in
  ret (base, u32 (base + count - 1)).

Fixpoint overlap_maps (n : nat) (t key_block key_map : Z) (key : Z * Z) (block map : Z) : P unit :=
  match n with
  | O => ret tt
  | S k =>
      let* ref := ld 4 (m_output_ref map) in
      let* key_ref := ld 4 (m_output_ref key_map) in
      (if ref =? key_ref then
         let* r := map_range map in
         when (ranges_overlap key.1 key.2 r.1 r.2)
           (let* ty := ld 4 (b_type (t + ref)) in
            let shift := if ty =? IOVIRT_NODE_ITS_GROUP then IOVIRT_FLAG_DEVID_OVERLAP_SHIFT
                         else IOVIRT_FLAG_STRID_OVERLAP_SHIFT in
            set_flag key_block shift ;;; set_flag block shift)
       else ret tt) ;;;
      overlap_maps k t key_block key_map key block (map + sizeof_NODE_DATA_MAP)
  end.

Fixpoint overlap_blocks (n : nat) (t key_block key_map : Z) (key : Z * Z) (block : Z) : P unit :=
  match n with
  | O => ret tt
  | S k =>
      let* ty := ld 4 (b_type block) in
      (if ty =? IOVIRT_NODE_ITS_GROUP then ret tt
       else
         let* n_maps := ld 4 (b_num_data_map block) in
         if block =? key_block
         then overlap_maps (Z.to_nat (u32 (n_maps - 1))) t key_block key_map key block (key_map + sizeof_NODE_DATA_MAP)
         else overlap_maps (Z.to_nat n_maps) t key_block key_map key block (b_data_map block)) ;;;
      let* next := IOVIRT_NEXT_BLOCK block in
      overlap_blocks k t key_block key_map key next
  end.

Fixpoint overlap_keys (n : nat) (n_blocks : nat) (t key_block key_map : Z) : P unit :=
  match n with
  | O => ret tt
  | S k =>
      let* key := map_range key_map in
      overlap_blocks n_blocks t key_block key_map key key_block ;;;
      overlap_keys k n_blocks t key_block (key_map + sizeof_NODE_DATA_MAP)
  end.

Fixpoint overlap_key_blocks (n : nat) (t key_block : Z) : P unit :=
  match n with
  | O => ret tt
  | S k =>
      let* ty := ld 4 (b_type key_block) in
      (if ty =? IOVIRT_NODE_ITS_GROUP then ret tt
       else let* n_maps := ld 4 (b_num_data_map key_block) in
            overlap_keys (Z.to_nat n_maps) n t key_block (b_data_map key_block)) ;;;
      let* next := IOVIRT_NEXT_BLOCK key_block in
      overlap_key_blocks k t next
  end.

Definition check_mapping_overlap (t : Z) : P unit :=
  let* n := ld 4 (t_num_blocks t) in overlap_key_blocks (Z.to_nat n) t (t_blocks t).

(** [iort] is the table the firmware provides, [None] when there is none. *)
Definition pal_iovirt_create_info_table (fuel : nat) (iort : option IORT_TABLE) (t : Z) : P unit :=
  if t =? 0 then ret tt else
  st 4 (t_num_blocks t) 0 ;;; st 4 (t_num_smmus t) 0 ;;; st 4 (t_num_pci_rcs t) 0 ;;;
  st 4 (t_num_named_components t) 0 ;;; st 4 (t_num_its_groups t) 0 ;;; st 4 (t_num_pmcgs t) 0 ;;;
  if negb (override_base =? 0) then iovirt_create_override_table t else
  match iort with
  | None => ret tt
  | Some i =>
      let* ok := create_nodes (Z.to_nat (node_count i)) fuel i t (node_offset i) (t_blocks t) in
      when ok (check_mapping_overlap t)
  end.
End Build.

(** ** Queries *)

Section Query.
Local Abbreviation P := (prog bytes).

(** [bound] is the alignment of the blocks: 8 when the suite boots on bare metal. *)
Context (bound : Z).

(** The blocks in order: [body] gets each block, [Some] leaves the walk. *)
Fixpoint walk_blocks {A R} (n : nat) (block : Z) (acc : A) (body : Z -> A -> P (R + A)) : P (R + A) :=
  match n with
  | O => ret (inr acc)
  | S k =>
      let block := ALIGN_MEMORY block bound in
      let* r := body block acc in
      match r with
      | inl x => ret (inl x)
      | inr acc' => let* next := IOVIRT_NEXT_BLOCK block in walk_blocks k next acc' body
      end
  end.

(** The first of [n] mappings from [map] whose input range holds [id]: the
    output ID and the reference. *)
Fixpoint find_map (n : nat) (map id : Z) : P (option (Z * Z)) :=
  match n with
  | O => ret None
  | S k =>
      let* ib := ld 4 (m_input_base map) in
      let* cnt := ld 4 (m_id_count map) in
      if (ib <=? id) && (id <=? u32 (ib + cnt)) then
        let* ob := ld 4 (m_output_base map) in
        let* oref := ld 4 (m_output_ref map) in
        ret (Some (u32 (u32 (id - ib) + ob), oref))
      else find_map k (map + sizeof_NODE_DATA_MAP) id
  end.

(** The search over the root complexes of a segment; a later block replaces what
    an earlier one gave. *)
Definition find_rc_map (t segment rid : Z) : P (option (Z * Z)) :=
  let* n := ld 4 (t_num_blocks t) in
  let* r := walk_blocks (R := unit) (Z.to_nat n) (t_blocks t) None (fun block acc =>
    let* ty := ld 4 (b_type block) in
    if ty =? IOVIRT_NODE_PCI_ROOT_COMPLEX then
      let* seg := ld 4 (d_rc_segment block) in
      if seg =? segment then
        let* nm := ld 4 (b_num_data_map block) in
        let* m := find_map (Z.to_nat nm) (b_data_map block) rid in
        ret (inr (match m with Some x => Some x | None => acc end))
      else ret (inr acc)
    else ret (inr acc)) in
  match r with inr acc => ret acc | inl _ => ret None end.

Definition pal_iovirt_get_rc_smmu_base (t RcSegmentNum rid : Z) : P Z :=
  let* m := find_rc_map t RcSegmentNum rid in
  match m with
  | None => ret 0xFFFFFFFF
  | Some (sid, oref) =>
      let block := t + oref in
      let* ty := ld 4 (b_type block) in
      if (ty =? IOVIRT_NODE_SMMU) || (ty =? IOVIRT_NODE_SMMU_V3) then
        let* nm := ld 4 (b_num_data_map block) in
        let* m' := find_map (Z.to_nat nm) (b_data_map block) sid in
        match m' with
        | Some _ => ld 8 (d_smmu_base block)
        | None => ret 0
        end
      else ret 0
  end.

Definition pal_iovirt_check_unique_ctx_intid (smmu_block : Z) : P Z :=
  let* f := ld 4 (b_flags smmu_block) in
  ret (if negb (Z.land f (Z.shiftl 1 IOVIRT_FLAG_SMMU_CTX_INT_SHIFT) =? 0) then 0 else 1).

Definition pal_iovirt_unique_rid_strid_map (rc_block : Z) : P Z :=
  let* f := ld 4 (b_flags rc_block) in
  ret (if negb (Z.land f (Z.shiftl 1 IOVIRT_FLAG_STRID_OVERLAP_SHIFT) =? 0) then 0 else 1).

Inductive SMMU_INFO_e :=
  SMMU_NUM_CTRL | SMMU_CTRL_BASE | SMMU_CTRL_ARCH_MAJOR_REV | SMMU_IOVIRT_BLOCK
| SMMU_SSID_BITS | SMMU_IN_ADDR_SIZE | SMMU_OUT_ADDR_SIZE.
Inductive PCIE_RC_INFO_e :=
  NUM_PCIE_RC | RC_SEGMENT_NUM | RC_ATS_ATTRIBUTE | RC_MEM_ATTRIBUTE | RC_IOVIRT_BLOCK.

Definition is_smmu (ty : Z) : bool := (ty =? IOVIRT_NODE_SMMU) || (ty =? IOVIRT_NODE_SMMU_V3).
Definition is_rc (ty : Z) : bool := ty =? IOVIRT_NODE_PCI_ROOT_COMPLEX.

(** The block number [index] among those whose type satisfies [kind], given to
    [get]; past the last one the result is 0. *)
Definition nth_block (kind : Z -> bool) (t index : Z) (get : Z -> P Z) : P Z :=
  let* n := ld 4 (t_num_blocks t) in
  let* r := walk_blocks (Z.to_nat n) (t_blocks t) 0 (fun block j =>
    let* ty := ld 4 (b_type block) in
    if kind ty then
      if j =? index then let* v := get block in ret (inl v) else ret (inr (u32 (j + 1)))
    else ret (inr j)) in
  match r with
  | inl v => ret v
  | inr j => ret (if u32 (j - 1) <? index then 0 else j)
  end.

(** [g_iovirt_info_table] is the argument [t], 0 when there is no table. *)
Definition val_iovirt_get_smmu_info (t : Z) (type : SMMU_INFO_e) (index : Z) : P Z :=
  if t =? 0 then ret 0 else
  match type with
  | SMMU_NUM_CTRL => ld 4 (t_num_smmus t)
  | _ => nth_block is_smmu t index (fun block =>
      match type with
      | SMMU_CTRL_ARCH_MAJOR_REV => ld 4 (d_smmu_arch_major_rev block)
      | SMMU_CTRL_BASE => ld 8 (d_smmu_base block)
      | SMMU_IOVIRT_BLOCK => ret block
      | _ => ret 0
      end)
  end.

Definition val_iovirt_get_pcie_rc_info (t : Z) (type : PCIE_RC_INFO_e) (index : Z) : P Z :=
  if t =? 0 then ret 0 else
  match type with
  | NUM_PCIE_RC => ld 4 (t_num_pci_rcs t)
  | _ => nth_block is_rc t index (fun block =>
      match type with
      | RC_SEGMENT_NUM => ld 4 (d_rc_segment block)
      | RC_MEM_ATTRIBUTE => ld 4 (d_rc_cca block)
      | RC_ATS_ATTRIBUTE => ld 4 (d_rc_ats_attr block)
      | RC_IOVIRT_BLOCK => ret block
      | NUM_PCIE_RC => ret 0
      end)
  end.

Definition ITS_NUM_GROUPS : Z := 1.
Definition ITS_GROUP_NUM_BLOCKS : Z := 2.
Definition ITS_GET_ID_FOR_BLK_INDEX : Z := 3.
Definition ITS_GET_GRP_INDEX_FOR_ID : Z := 4.
Definition ITS_GET_BLK_INDEX_FOR_ID : Z := 5.

(** The first of the identifiers from number [it] that equals [param]. *)
Fixpoint find_its (n : nat) (block it param : Z) : P (option Z) :=
  match n with
  | O => ret None
  | S k => let* id := ld 4 (b_id block it) in
           if id =? param then ret (Some it) else find_its k block (it + 1) param
  end.

(** The status and what is stored in [*return_value]. *)
Definition its_group_info (type block param : Z) : P (Z * option Z) :=
  let* its_count := ld 4 (d_its_count block) in
  if type =? ITS_GROUP_NUM_BLOCKS then ret (ACS_STATUS_PASS, Some its_count)
  else if type =? ITS_GET_ID_FOR_BLK_INDEX then
    if param <? its_count
    then let* id := ld 4 (b_id block param) in ret (ACS_STATUS_PASS, Some id)
    else ret (ACS_INVALID_INDEX, None)
  else if type =? ITS_GET_BLK_INDEX_FOR_ID then
    let* r := find_its (Z.to_nat its_count) block 0 param in
    match r with
    | Some it => ret (ACS_STATUS_PASS, Some it)
    | None => ret (ACS_INVALID_INDEX, None)
    end
  else ret (ACS_STATUS_ERR, None).

(** [stored] is whether the caller passes a [return_value]. *)
Definition val_iovirt_get_its_info (t type group_index param : Z) (stored : bool) : P (Z * option Z) :=
  if t =? 0 then ret (ACS_STATUS_ERR, None) else
  if negb stored then ret (ACS_STATUS_ERR, None) else
  if type =? ITS_NUM_GROUPS then
    let* n := ld 4 (t_num_its_groups t) in ret (ACS_STATUS_PASS, Some n)
  else
    let* n := ld 4 (t_num_blocks t) in
    let* r := walk_blocks (Z.to_nat n) (t_blocks t) 0 (fun block j =>
      let* ty := ld 4 (b_type block) in
      if ty =? IOVIRT_NODE_ITS_GROUP then
        if type =? ITS_GET_GRP_INDEX_FOR_ID then
          let* c := ld 4 (d_its_count block) in
          let* f := find_its (Z.to_nat c) block 0 param in
          match f with
          | Some _ => ret (inl (ACS_STATUS_PASS, Some j))
          | None => ret (inr (u32 (j + 1)))
          end
        else if group_index =? j then let* v := its_group_info type block param in ret (inl v)
        else ret (inr (u32 (j + 1)))
      else ret (inr j)) in
    match r with inl v => ret v | inr _ => ret (ACS_INVALID_INDEX, None) end.

Definition val_iovirt_unique_rid_strid_map (t rc_index : Z) : P Z :=
  let* block := val_iovirt_get_pcie_rc_info t RC_IOVIRT_BLOCK rc_index in
  pal_iovirt_unique_rid_strid_map block.

Definition val_iovirt_check_unique_ctx_intid (t smmu_index : Z) : P Z :=
  let* block := val_iovirt_get_smmu_info t SMMU_IOVIRT_BLOCK smmu_index in
  pal_iovirt_check_unique_ctx_intid block.

(** The ITS identifier of the block at [block], or [itsid]. *)
Definition its_of (block itsid : Z) : P Z :=
  let* ty := ld 4 (b_type block) in
  if ty =? IOVIRT_NODE_ITS_GROUP then ld 4 (b_id block 0) else ret itsid.

(** The status and, when it is 0, the device, stream and ITS identifiers;
    [wanted] is whether the caller passes a [device_id]. *)
Definition val_iovirt_get_device_info (t rid segment : Z) (wanted : bool) : P (Z * option (Z * Z * Z)) :=
  if t =? 0 then ret (ACS_STATUS_ERR, None) else
  if negb wanted then ret (ACS_STATUS_ERR, None) else
  let* m := find_rc_map t segment rid in
  match m with
  | None => ret (ACS_STATUS_ERR, None)
  | Some (id, oref) =>
      let block := t + oref in
      let* ty := ld 4 (b_type block) in
      if ty =? IOVIRT_NODE_ITS_GROUP then
        let* itsid := ld 4 (b_id block 0) in
        ret (0, Some (id, 0xFFFFFFFF, itsid))
      else if is_smmu ty then
        let* nm := ld 4 (b_num_data_map block) in
        let* m' := find_map (Z.to_nat nm) (b_data_map block) id in
        let* itsid := its_of (t + match m' with Some (_, r) => r | None => oref end) 0 in
        match m' with
        | Some (did, _) => ret (0, Some (did, id, itsid))
        | None => ret (ACS_STATUS_ERR, None)
        end
      else ret (ACS_STATUS_ERR, None)
  end.
End Query.

(** ** What the bytes of a table say *)

Inductive node_data :=
| ItsData (ids : list Z)
| RcData (segment ats_attr cca : Z)
| SmmuData (arch_major_rev base : Z)
| OtherData.

(** A block: its type, its number of 16-byte mapping slots, its mappings
    ([output_reference] is the offset of a block) and its data. *)
Record ablock := mk_ablock {
  a_type : Z; a_slots : nat; a_maps : list IORT_ID_MAPPING; a_data : node_data }.

Definition a_size (x : ablock) : Z := 268 + 16 * Z.of_nat (a_slots x).

Definition map_at (m : bytes) (p : Z) (x : IORT_ID_MAPPING) : Prop :=
  load_le 4 (m_input_base p) m = Some (input_base x) /\
  load_le 4 (m_id_count p) m = Some (id_count x) /\
  load_le 4 (m_output_base p) m = Some (output_base x) /\
  load_le 4 (m_output_ref p) m = Some (output_reference x).

Fixpoint maps_at (m : bytes) (p : Z) (l : list IORT_ID_MAPPING) : Prop :=
  match l with [] => True | x :: l' => map_at m p x /\ maps_at m (p + 16) l' end.

Fixpoint words_at (m : bytes) (p : Z) (l : list Z) : Prop :=
  match l with [] => True | x :: l' => load_le 4 p m = Some x /\ words_at m (p + 4) l' end.

Definition data_at (m : bytes) (b : Z) (ty : Z) (d : node_data) : Prop :=
  match d with
  | ItsData ids => ty = IOVIRT_NODE_ITS_GROUP /\
      load_le 4 (d_its_count b) m = Some (Z.of_nat (length ids)) /\ words_at m (b_id b 0) ids
  | RcData seg ats cca => ty = IOVIRT_NODE_PCI_ROOT_COMPLEX /\
      load_le 4 (d_rc_segment b) m = Some seg /\ load_le 4 (d_rc_ats_attr b) m = Some ats /\
      load_le 4 (d_rc_cca b) m = Some cca
  | SmmuData rev base => is_smmu ty = true /\
      load_le 4 (d_smmu_arch_major_rev b) m = Some rev /\ load_le 8 (d_smmu_base b) m = Some base
  | OtherData => ty = IOVIRT_NODE_NAMED_COMPONENT \/ ty = IOVIRT_NODE_PMCG
  end.

Definition block_at (m : bytes) (b : Z) (x : ablock) : Prop :=
  load_le 4 (b_type b) m = Some (a_type x) /\
  load_le 4 (b_num_data_map b) m = Some (Z.of_nat (a_slots x)) /\
  (a_type x <> IOVIRT_NODE_ITS_GROUP -> length (a_maps x) = a_slots x) /\
  maps_at m (b_data_map b) (a_maps x) /\
  data_at m b (a_type x) (a_data x).

Fixpoint blocks_at (m : bytes) (b : Z) (bl : list ablock) : Prop :=
  match bl with [] => True | x :: bl' => block_at m b x /\ blocks_at m (b + a_size x) bl' end.

(** The table at [t] holds the blocks [bl]. *)
Definition table_at (m : bytes) (t : Z) (bl : list ablock) : Prop :=
  t <> 0 /\ load_le 4 (t_num_blocks t) m = Some (Z.of_nat (length bl)) /\
  blocks_at m (t_blocks t) bl.

(** *** Walks *)

Lemma ALIGN_MEMORY_1 b : ALIGN_MEMORY b 1 = b.
Proof. unfold ALIGN_MEMORY. replace (b + 1 - 1) with b by lia. by rewrite Z.land_m1_r. Qed.

Lemma ld_done n a m v : load_le n a m = Some v -> ld n a m = Done (v, m).
Proof. intros E. unfold ld. by rewrite E. Qed.

Lemma next_block m b x : block_at m b x -> IOVIRT_NEXT_BLOCK b m = Done (b + a_size x, m).
Proof.
  intros (_ & Hn & _). unfold IOVIRT_NEXT_BLOCK. rewrite (bind_done _ _ _ _ _ (ld_done _ _ _ _ Hn)).
  unfold ret, a_size, b_data_map, sizeof_NODE_DATA_MAP. do 2 f_equal. lia.
Qed.

(** The walk over the blocks as a fold that carries the address of the block. *)
Fixpoint awalk {A R} (f : Z -> ablock -> A -> R + A) (b : Z) (bl : list ablock) (acc : A) : R + A :=
  match bl with
  | [] => inr acc
  | x :: bl' => match f b x acc with inl r => inl r | inr acc' => awalk f (b + a_size x) bl' acc' end
  end.

Lemma walk_blocks_awalk {A R} (f : Z -> ablock -> A -> R + A) body m bl b acc :
  blocks_at m b bl ->
  (forall b x acc, block_at m b x -> body b acc m = Done (f b x acc, m)) ->
  walk_blocks 1 (length bl) b acc body m = Done (awalk f b bl acc, m).
Proof.
  revert b acc. induction bl as [|x bl IH]; intros b acc Hb Hf; [done|].
  cbn [length walk_blocks awalk]. rewrite ALIGN_MEMORY_1. destruct Hb as [Hx Hb].
  rewrite (bind_done _ _ _ _ _ (Hf b x acc Hx)). destruct (f b x acc) as [r|acc']; [done|].
  rewrite (bind_done _ _ _ _ _ (next_block _ _ _ Hx)). by apply IH.
Qed.

(** Step a load whose value is known. *)
Ltac load_step H := rewrite (bind_done _ _ _ _ _ (ld_done _ _ _ _ H)).

(** *** The block number [index] of a kind *)

(** The blocks with their addresses. *)
Fixpoint placed (b : Z) (bl : list ablock) : list (Z * ablock) :=
  match bl with [] => [] | x :: bl' => (b, x) :: placed (b + a_size x) bl' end.

Definition of_kind (kind : Z -> bool) (p : Z * ablock) : Prop := kind (a_type p.2) = true.
#[export] Instance of_kind_dec kind p : Decision (of_kind kind p).
Proof. unfold of_kind. apply _. Defined.

Definition kind_step {R} (kind : Z -> bool) (index : Z) (g : Z -> ablock -> R) (b : Z) (x : ablock) (j : Z) : R + Z :=
  if kind (a_type x) then if j =? index then inl (g b x) else inr (u32 (j + 1)) else inr j.

Lemma awalk_kind {R} kind (g : Z -> ablock -> R) bl b j (k : nat) :
  0 <= j -> j + Z.of_nat (length bl) < 2 ^ 32 ->
  awalk (kind_step kind (j + Z.of_nat k) g) b bl j =
  match filter (of_kind kind) (placed b bl) !! k with
  | Some (a, x) => inl (g a x)
  | None => inr (j + Z.of_nat (length (filter (of_kind kind) (placed b bl))))
  end.
Proof.
  revert b j k. induction bl as [|x bl IH]; intros b j k Hj Hlen; cbn [awalk placed length] in *.
  { cbn. f_equal. lia. }
  rewrite filter_cons. unfold kind_step at 1.
  destruct (decide (of_kind kind (b, x))) as [Hk|Hk]; unfold of_kind in Hk; cbn [snd] in Hk.
  - rewrite Hk. destruct k as [|k].
    + rewrite Z.add_0_r, Z.eqb_refl. done.
    + destruct (Z.eqb_spec j (j + Z.of_nat (S k))); [lia|]. rewrite u32_small by lia.
      replace (j + Z.of_nat (S k)) with (j + 1 + Z.of_nat k) by lia. rewrite IH by lia.
      cbn [lookup list_lookup length]. destruct (_ !! k) as [[]|]; [done|]. f_equal. lia.
  - destruct (kind (a_type x)); [done|]. apply IH; lia.
Qed.

Lemma nth_block_spec kind m t bl index g get :
  table_at m t bl -> 0 <= index < 2 ^ 32 -> Z.of_nat (length bl) < 2 ^ 32 - 1 ->
  (forall b x, block_at m b x -> kind (a_type x) = true -> get b m = Done (g b x, m)) ->
  nth_block 1 kind t index get m =
  Done (match filter (of_kind kind) (placed (t_blocks t) bl) !! Z.to_nat index with
        | Some (b, x) => g b x | None => 0 end, m).
Proof.
  intros (_ & Hn & Hbl) Hi Hlen Hg. unfold nth_block. load_step Hn. rewrite Nat2Z.id.
  erewrite bind_done; [|apply (walk_blocks_awalk (kind_step kind index g)); [done|]].
  - pose proof (awalk_kind kind g bl (t_blocks t) 0 (Z.to_nat index)) as Ha.
    rewrite Z2Nat.id, ?Z.add_0_l in Ha by lia. rewrite Ha by lia.
    destruct (_ !! Z.to_nat index) as [[a x]|] eqn:E; [done|]. unfold ret.
    apply lookup_ge_None in E. set (n := length (filter (of_kind kind) (placed (t_blocks t) bl))) in *.
    assert (Hf : (n <= length bl)%nat).
    { subst n. etransitivity; [apply length_filter|]. clear. generalize (t_blocks t).
      induction bl; intros z; simpl; [lia|]. by apply le_n_S. }
    destruct n as [|n].
    + by destruct (_ <? _).
    + rewrite u32_small by lia. destruct (Z.ltb_spec (Z.of_nat (S n) - 1) index); [done|lia].
  - intros b x j Hx. destruct Hx as (Ht & Hx). load_step Ht. unfold kind_step.
    destruct (kind (a_type x)) eqn:Ek; [|done]. destruct (j =? index); [|done].
    by rewrite (bind_done _ _ _ _ _ (Hg b x (conj Ht Hx) Ek)).
Qed.

(** The base address of the SMMU number [index], and 0 past the last one. *)
Lemma smmu_base_spec m t bl index :
  table_at m t bl -> 0 <= index < 2 ^ 32 -> Z.of_nat (length bl) < 2 ^ 32 - 1 ->
  val_iovirt_get_smmu_info 1 t SMMU_CTRL_BASE index m =
  Done (match filter (of_kind is_smmu) (placed (t_blocks t) bl) !! Z.to_nat index with
        | Some (_, x) => match a_data x with SmmuData _ base => base | _ => 0 end
        | None => 0 end, m).
Proof.
  intros Ht Hi Hl. unfold val_iovirt_get_smmu_info. destruct Ht as (H0 & Ht).
  destruct (Z.eqb_spec t 0); [done|].
  rewrite (nth_block_spec is_smmu m t bl index
    (fun _ x => match a_data x with SmmuData _ base => base | _ => 0 end)); try done.
  intros b x (_ & _ & _ & _ & Hd) Hk. unfold data_at, is_smmu in *.
  destruct (a_data x).
  - destruct Hd as (Hd & _). rewrite Hd in Hk. done.
  - destruct Hd as (Hd & _). rewrite Hd in Hk. done.
  - destruct Hd as (_ & _ & Hd). by apply ld_done.
  - destruct Hd as [Hd|Hd]; rewrite Hd in Hk; done.
Qed.

(** *** From a requester to its device, stream and ITS identifiers *)

Definition in_map (x : IORT_ID_MAPPING) (id : Z) : bool :=
  (input_base x <=? id) && (id <=? u32 (input_base x + id_count x)).
Definition through (x : IORT_ID_MAPPING) (id : Z) : Z * Z :=
  (u32 (u32 (id - input_base x) + output_base x), output_reference x).

(** The first mapping that holds [id]. *)
Fixpoint map_id (l : list IORT_ID_MAPPING) (id : Z) : option (Z * Z) :=
  match l with [] => None | x :: l' => if in_map x id then Some (through x id) else map_id l' id end.

(** What one block says of requester [rid] of [segment]. *)
Definition rc_map (segment rid : Z) (x : ablock) : option (Z * Z) :=
  match a_data x with
  | RcData seg _ _ => if seg =? segment then map_id (a_maps x) rid else None
  | _ => None
  end.

Fixpoint block_of (b : Z) (bl : list ablock) (a : Z) : option ablock :=
  match bl with
  | [] => None
  | x :: bl' => if b =? a then Some x else block_of (b + a_size x) bl' a
  end.

Definition its_id_of (o : option ablock) : Z :=
  match o with Some x => match a_data x with ItsData ids => hd 0 ids | _ => 0 end | None => 0 end.

(** The reference definition, on the list of blocks: the last root complex of the
    segment that maps [rid] decides; its mapping leads to an ITS group, or to an
    SMMU whose first matching mapping gives the device. *)
Definition device_of (t : Z) (bl : list ablock) (rid segment : Z) : Z * option (Z * Z * Z) :=
  let at_ref r := block_of (t_blocks t) bl (t + r) in
  match last (omap (rc_map segment rid) bl) with
  | None => (ACS_STATUS_ERR, None)
  | Some (id, oref) =>
      match at_ref oref with
      | None => (ACS_STATUS_ERR, None)
      | Some x =>
          match a_data x with
          | ItsData ids => (0, Some (id, 0xFFFFFFFF, hd 0 ids))
          | SmmuData _ _ =>
              match map_id (a_maps x) id with
              | Some (did, r) => (0, Some (did, id, its_id_of (at_ref r)))
              | None => (ACS_STATUS_ERR, None)
              end
          | _ => (ACS_STATUS_ERR, None)
          end
      end
  end.

(** Every reference leads to a block, every ITS group has an identifier. *)
Definition refs_ok (t : Z) (bl : list ablock) : Prop :=
  (forall x mp, x ∈ bl -> mp ∈ a_maps x -> is_Some (block_of (t_blocks t) bl (t + output_reference mp))) /\
  (forall x, x ∈ bl -> a_data x <> ItsData []).

Lemma find_map_spec m p l id : maps_at m p l -> find_map (length l) p id m = Done (map_id l id, m).
Proof.
  revert p. induction l as [|x l IH]; intros p Hp; [done|]. destruct Hp as ((H1 & H2 & H3 & H4) & Hp).
  cbn [length find_map map_id]. load_step H1. load_step H2. unfold in_map.
  destruct (_ && _); [|by apply IH]. load_step H3. load_step H4. done.
Qed.

Lemma block_of_at m b bl a x : blocks_at m b bl -> block_of b bl a = Some x -> block_at m a x /\ x ∈ bl.
Proof.
  revert b. induction bl as [|y bl IH]; intros b Hb E; [done|]. destruct Hb as [Hy Hb]. cbn in E.
  destruct (Z.eqb_spec b a).
  - simplify_eq. split; [done|left].
  - destruct (IH _ Hb E). split; [done|by right].
Qed.

Lemma map_id_ref l id v r : map_id l id = Some (v, r) -> exists mp, mp ∈ l /\ output_reference mp = r.
Proof.
  induction l as [|x l IH]; [done|]. cbn. destruct (in_map x id).
  - intros [= _ <-]. exists x. split; [left|done].
  - intros E. destruct (IH E) as (mp & Hm & Hr). exists mp. split; [by right|done].
Qed.

Lemma block_maps m b x id :
  block_at m b x -> a_type x <> IOVIRT_NODE_ITS_GROUP ->
  (let* nm := ld 4 (b_num_data_map b) in find_map (Z.to_nat nm) (b_data_map b) id) m = Done (map_id (a_maps x) id, m).
Proof.
  intros (_ & Hn & Hl & Hm & _) Ht. load_step Hn. rewrite Nat2Z.id, <- (Hl Ht). by apply find_map_spec.
Qed.

Lemma data_types m b ty d : data_at m b ty d ->
  (ty =? IOVIRT_NODE_ITS_GROUP) = (match d with ItsData _ => true | _ => false end) /\
  (ty =? IOVIRT_NODE_PCI_ROOT_COMPLEX) = (match d with RcData _ _ _ => true | _ => false end) /\
  is_smmu ty = (match d with SmmuData _ _ => true | _ => false end).
Proof.
  unfold data_at, is_smmu. destruct d.
  - intros (-> & _). done.
  - intros (-> & _). done.
  - intros (H & _). apply orb_true_iff in H. rewrite !Z.eqb_eq in H. destruct H as [-> | ->]; done.
  - intros [-> | ->]; done.
Qed.

(** One block of the search over the root complexes. *)
Definition rc_step (segment rid : Z) (b : Z) (x : ablock) (acc : option (Z * Z)) : unit + option (Z * Z) :=
  inr (match rc_map segment rid x with Some r => Some r | None => acc end).

Lemma awalk_rc segment rid b bl acc :
  awalk (rc_step segment rid) b bl acc =
  inr (match last (omap (rc_map segment rid) bl) with Some r => Some r | None => acc end).
Proof.
  revert b acc. induction bl as [|x bl IH]; intros b acc; [done|]. cbn [awalk rc_step]. rewrite IH. f_equal.
  cbn [omap list_omap]. destruct (rc_map segment rid x) as [r|]; [|done].
  rewrite last_cons. by destruct (last _).
Qed.

Lemma find_rc_map_spec m t bl segment rid :
  table_at m t bl ->
  find_rc_map 1 t segment rid m = Done (last (omap (rc_map segment rid) bl), m).
Proof.
  intros (_ & Hn & Hbl). unfold find_rc_map. load_step Hn. rewrite Nat2Z.id.
  erewrite bind_done; [|apply (walk_blocks_awalk (rc_step segment rid)); [done|]].
  - rewrite awalk_rc. by destruct (last _).
  - intros b x acc Hx. pose proof Hx as (Ht & _ & _ & _ & Hd). load_step Ht.
    destruct (data_types _ _ _ _ Hd) as (_ & -> & _). unfold rc_step, rc_map.
    destruct (a_data x) as [|seg ats cca| |] eqn:Ed; try done. destruct Hd as (Hty & Hs & _). load_step Hs.
    destruct (seg =? segment); [|done].
    pose proof (block_maps m b x rid Hx) as Hm. rewrite Hty in Hm. specialize (Hm ltac:(done)).
    unfold bind in Hm |- *. destruct (ld _ _ m) as [[nm m1]| |]; [|done|done]. rewrite Hm.
    by destruct (map_id _ _).
Qed.

Lemma rc_map_ref segment rid bl id oref :
  last (omap (rc_map segment rid) bl) = Some (id, oref) ->
  exists x mp, x ∈ bl /\ mp ∈ a_maps x /\ output_reference mp = oref.
Proof.
  intros E. apply last_Some_elem_of in E. apply list_elem_of_omap in E as (x & Hx & E).
  unfold rc_map in E. destruct (a_data x); try done. destruct (_ =? _); [|done].
  apply map_id_ref in E as (mp & Hmp & Hr). by exists x, mp.
Qed.

Lemma its_of_spec m b x d :
  block_at m b x -> a_data x <> ItsData [] ->
  its_of b d m = Done (match a_data x with ItsData ids => hd 0 ids | _ => d end, m).
Proof.
  intros (Ht & _ & _ & _ & Hd) Hne. unfold its_of. load_step Ht.
  destruct (data_types _ _ _ _ Hd) as (-> & _ & _). destruct (a_data x) as [ids| | |] eqn:E; try done.
  destruct Hd as (_ & _ & Hw). destruct ids as [|i ids]; [done|]. destruct Hw as [Hw _]. by apply ld_done.
Qed.

(** C16: Looking up the device, stream and ITS identifiers of a requester refines
    the lookup on the list of blocks the memory holds: for every table whose
    references lead to blocks and every requester and segment,
    [val_iovirt_get_device_info] returns what [device_of] says and leaves the
    memory unchanged. *)
Theorem device_info_refines m t bl rid segment :
  table_at m t bl -> refs_ok t bl ->
  returns (val_iovirt_get_device_info 1 t rid segment true) m (device_of t bl rid segment) m.
Proof.
  intros Ht [Hrefs Hits]. unfold returns, val_iovirt_get_device_info, device_of.
  pose proof Ht as (H0 & _ & Hbl). destruct (Z.eqb_spec t 0); [done|]. cbn [negb].
  rewrite (bind_done _ _ _ _ _ (find_rc_map_spec _ _ _ _ _ Ht)).
  destruct (last _) as [[id oref]|] eqn:El; [|done].
  destruct (rc_map_ref _ _ _ _ _ El) as (x0 & mp & Hx0 & Hmp & <-).
  destruct (Hrefs _ _ Hx0 Hmp) as [x Ex]. rewrite Ex.
  destruct (block_of_at _ _ _ _ _ Hbl Ex) as [Hx Hin]. pose proof Hx as (Hty & _ & _ & _ & Hd).
  load_step Hty. destruct (data_types _ _ _ _ Hd) as (-> & _ & ->).
  destruct (a_data x) as [ids|? ? ?|rev base|] eqn:Ed; try done.
  - destruct ids as [|i ids]; [by destruct (Hits _ Hin)|]. destruct Hd as (_ & _ & Hw & _). load_step Hw. done.
  - assert (Hnt : a_type x <> IOVIRT_NODE_ITS_GROUP) by (intros Hc; destruct Hd as (Hd & _); rewrite Hc in Hd; done).
    pose proof (block_maps m _ x id Hx Hnt) as Hm. unfold bind in Hm |- * at 1.
    destruct (ld _ _ m) as [[nm m1]| |]; [|done|done]. rewrite (bind_done _ _ _ _ _ Hm).
    destruct (map_id _ _) as [[did r]|] eqn:Em.
    + destruct (map_id_ref _ _ _ _ Em) as (mp' & Hmp' & <-). destruct (Hrefs _ _ Hin Hmp') as [y Ey].
      rewrite Ey. destruct (block_of_at _ _ _ _ _ Hbl Ey) as [Hy Hyin].
      rewrite (bind_done _ _ _ _ _ (its_of_spec _ _ _ _ Hy (Hits _ Hyin))). done.
    + by rewrite (bind_done _ _ _ _ _ (its_of_spec _ _ _ _ Hx ltac:(rewrite Ed; done))).
Qed.

(** ** The counters *)

Section Counters.
Context (t : Z).

(** The words of the header: the number of blocks, then a counter per type. *)
Definition header_at (m : bytes) (f : Z -> Z) : Prop :=
  forall k, 0 <= k < 6 -> load_le 4 (t + 4 * k) m = Some (f k).

(** The number of blocks is the sum of the counters. *)
Definition counters_ok (m : bytes) : Prop :=
  exists f, header_at m f /\ f 0 = u32 (f 1 + f 2 + f 3 + f 4 + f 5).

Definition table_inv (m : bytes) : Prop := bytes_ok m /\ counters_ok m.

Definition counter (a : Z) : Prop := exists k, 1 <= k < 6 /\ a = t + 4 * k.

Lemma header_frame m m' f :
  (forall x, t <= x < t + 24 -> m' !! x = m !! x) -> header_at m f -> header_at m' f.
Proof. intros Hx Hf k Hk. rewrite <- (Hf k Hk). apply load_le_ext. cbn. intros. apply Hx. lia. Qed.

Lemma inv_ld n a : triple table_inv (ld n a) (fun v => 0 <= v).
Proof.
  intros m r m' [Hb Hc] E. unfold ld in E. destruct (load_le n a m) as [v|] eqn:El; [|done].
  simplify_eq. split; [done|]. by apply load_le_range in El as [].
Qed.

Lemma inv_st n a v : t + 24 <= a -> triple table_inv (st n a v) (fun _ => True).
Proof.
  intros Ha m r m' [Hb (f & Hf & Hs)] E. unfold st in E. destruct (store_le n a v m) as [m1|] eqn:Es; [|done].
  simplify_eq. split; [|done]. split; [by apply (store_le_ok _ _ _ _ _ Es)|]. exists f. split; [|done].
  apply (header_frame m); [|done]. intros x Hx. apply (store_le_frame _ _ _ _ _ _ Es). lia.
Qed.

Lemma incr_header k m m' f :
  0 <= k < 6 -> bytes_ok m -> header_at m f -> incr (t + 4 * k) m = Done (tt, m') ->
  bytes_ok m' /\ header_at m' (fun i => if i =? k then u32 (f k + 1) else f i).
Proof.
  intros Hk Hb Hf E. unfold incr in E. apply bind_inv in E as (v & m0 & El & E). unfold ld in El.
  rewrite Hf in El by done. simplify_eq. unfold st in E.
  destruct (store_le _ _ _ _) as [m1|] eqn:Es in E; [|done]. simplify_eq.
  split; [by apply (store_le_ok _ _ _ _ _ Es)|]. intros i Hi. destruct (Z.eqb_spec i k) as [->|].
  - rewrite (store_le_load _ _ _ _ _ Es) by apply u32_range. by rewrite Z.mod_small by apply u32_range.
  - rewrite <- (Hf i Hi). apply load_le_ext. intros x Hx. apply (store_le_frame _ _ _ _ _ _ Es). cbn in *. lia.
Qed.

(** The last steps of [iort_add_block]. *)
Lemma inv_incr_both a : counter a -> triple table_inv (incr (t_num_blocks t) ;;; incr a) (fun _ => True).
Proof.
  intros (k & Hk & ->) m [] m' [Hb (f & Hf & Hs)] E. apply bind_inv in E as ([] & m1 & E1 & E2).
  unfold t_num_blocks in E1. replace t with (t + 4 * 0) in E1 by lia.
  destruct (incr_header 0 _ _ _ ltac:(lia) Hb Hf E1) as [Hb1 Hf1].
  destruct (incr_header k _ _ _ ltac:(lia) Hb1 Hf1 E2) as [Hb2 Hf2].
  split; [|done]. split; [done|]. eexists. split; [exact Hf2|]. cbn beta.
  assert (k = 1 \/ k = 2 \/ k = 3 \/ k = 4 \/ k = 5) as [-> | [-> | [-> | [-> | ->]]]] by lia;
    cbn [Z.eqb Pos.eqb]; rewrite Hs; unfold u32; lia.
Qed.

#[local] Hint Resolve inv_ld inv_st : triple.

(** Split a run into its steps, with the obvious results. *)
Ltac triple_step :=
  first
    [ apply triple_ret; try done | apply triple_undef | apply triple_diverge
    | eapply triple_weaken; [apply inv_ld|intros; done]
    | apply inv_st; unfold b_type, b_num_data_map, b_data, b_flags, b_data_map, d_its_count, d_rc_segment,
        d_rc_cca, d_rc_ats_attr, d_rc_smmu_base, d_smmu_base, d_smmu_arch_major_rev, d_pmcg_base,
        d_pmcg_overflow_gsiv, d_pmcg_node_ref, m_input_base, m_id_count, m_output_base, m_output_ref, b_data; lia
    | eapply triple_bind; [first [apply inv_ld | apply triple_deref | triple_step]|intros ? ?; cbv beta in *] ].

Lemma inv_set_mem n a v : t + 24 <= a -> triple table_inv (set_mem n a v) (fun _ => True).
Proof. revert a. induction n as [|n IH]; intros a Ha; cbn; repeat triple_step. apply IH. lia. Qed.

Lemma inv_copy_words l a : t + 24 <= a -> triple table_inv (copy_words l a) (fun _ => True).
Proof. revert a. induction l as [|x l IH]; intros a Ha; cbn; repeat triple_step. apply IH. lia. Qed.

Lemma inv_copy_bytes l a : t + 24 <= a -> triple table_inv (copy_bytes l a) (fun _ => True).
Proof. revert a. induction l as [|x l IH]; intros a Ha; cbn; repeat triple_step. apply IH. lia. Qed.

Lemma inv_same_mem n a b : triple table_inv (same_mem n a b) (fun _ => True).
Proof.
  revert a b. induction n as [|n IH]; intros a b; cbn; repeat triple_step. destruct (_ =? _); [apply IH|triple_step].
Qed.

Lemma inv_next b : triple table_inv (IOVIRT_NEXT_BLOCK b) (fun a => b <= a).
Proof.
  unfold IOVIRT_NEXT_BLOCK, b_data_map, sizeof_NODE_DATA_MAP. eapply triple_bind; [apply inv_ld|].
  intros n Hn. cbv beta in Hn. apply triple_ret. lia.
Qed.

Lemma inv_set_flag b s : t + 24 <= b -> triple table_inv (set_flag b s) (fun _ => True).
Proof. intros Hb. unfold set_flag. repeat triple_step. Qed.

Lemma inv_find_block key : triple table_inv (find_block key t) (fun _ => True).
Proof.
  unfold find_block. eapply triple_bind; [apply inv_ld|]. intros n _. generalize (t_blocks t).
  induction (Z.to_nat n) as [|k IH]; intros b; cbn [find_block_loop]; [by apply triple_ret|].
  repeat (eapply triple_bind; [apply inv_ld|intros ? _]).
  eapply triple_bind with (Q1 := fun _ => True).
  - destruct (_ =? _); [|by apply triple_ret]. eapply triple_bind with (Q1 := fun _ => True).
    + destruct (_ =? _); repeat triple_step.
    + intros ? _. apply inv_same_mem.
  - intros [] _; [by apply triple_ret|]. eapply triple_bind; [apply inv_next|]. intros ? _. apply IH.
Qed.

Section Add.
Context (add : Z -> Z -> prog bytes (Z * Z)).
Context (Hadd : forall n b, t + 24 <= b -> triple table_inv (add n b) (fun r => b <= r.2)).

Lemma inv_add_mappings block ty l p b :
  t + 24 <= block -> t + 24 <= p -> t + 24 <= b ->
  triple table_inv (add_mappings add t block ty l p b) (fun r => b <= r).
Proof.
  intros Hblock. revert p b. induction l as [|x l IH]; intros p b Hp Hb; cbn [add_mappings]; [by apply triple_ret|].
  do 3 (eapply triple_bind; [triple_step|intros _ _]).
  eapply triple_bind; [by apply Hadd|]. intros r Hr. cbv beta in Hr.
  do 2 (eapply triple_bind; [triple_step|intros _ _]).
  eapply triple_bind with (Q1 := fun _ => True).
  - destruct (_ =? _); [|by apply triple_ret]. eapply triple_bind; [apply inv_ld|intros ? _].
    destruct (_ || _); repeat triple_step.
  - intros _ _. eapply triple_weaken; [apply IH; unfold sizeof_NODE_DATA_MAP; lia|]. cbv beta. lia.
Qed.

Lemma inv_fill_data block ty node :
  t + 24 <= block ->
  triple table_inv (fill_data add t block ty node) (fun o => match o with Some a => counter a | None => True end).
Proof.
  intros Hb. assert (Hc : counter (t_num_its_groups t) /\ counter (t_num_named_components t) /\
    counter (t_num_pci_rcs t) /\ counter (t_num_smmus t) /\ counter (t_num_pmcgs t)).
  { unfold counter, t_num_its_groups, t_num_named_components, t_num_pci_rcs, t_num_smmus, t_num_pmcgs.
    split_and!; [exists 4|exists 3|exists 2|exists 1|exists 5]; lia. }
  destruct Hc as (C1 & C2 & C3 & C4 & C5). unfold fill_data.
  repeat match goal with |- triple _ (if ?c then _ else _) _ => destruct c end.
  - eapply triple_bind; [triple_step|intros _ _].
    eapply triple_bind; [apply inv_copy_words; unfold b_data_map; lia|intros _ _]. repeat triple_step.
  - eapply triple_bind; [apply inv_copy_bytes; unfold b_data; lia|intros _ _]. repeat triple_step.
  - repeat triple_step.
  - repeat triple_step.
  - repeat triple_step.
  - do 3 (eapply triple_bind; [triple_step|intros _ _]). eapply triple_bind; [apply inv_next|].
    intros b Hn. cbv beta in Hn. eapply triple_bind; [apply Hadd; lia|intros ? _]. repeat triple_step.
  - repeat triple_step.
Qed.

Lemma inv_add_node block ty node :
  t + 24 <= block -> triple table_inv (add_node add t block ty node) (fun r => block <= r.2).
Proof.
  intros Hb. unfold add_node. eapply triple_bind; [apply inv_set_mem; unfold b_data; lia|intros _ _].
  do 2 (eapply triple_bind; [triple_step|intros _ _]).
  eapply triple_bind; [by apply inv_fill_data|]. intros [a|] Ha; [|by apply triple_ret].
  eapply triple_bind; [triple_step|intros _ _]. eapply triple_bind; [apply inv_find_block|intros off _].
  destruct (negb _); [by apply triple_ret|]. eapply triple_bind; [apply inv_next|]. intros nb Hn. cbv beta in Hn.
  eapply triple_bind with (Q1 := fun _ => True).
  { destruct (_ =? _); [|by apply triple_ret]. unfold when. destruct (negb _); [by apply inv_set_flag|by apply triple_ret]. }
  intros _ _. eapply triple_bind with (Q1 := fun r => block <= r).
  { destruct (negb _); [|by apply triple_ret]. eapply triple_weaken; [apply inv_add_mappings; unfold b_data_map; lia|].
    cbv beta. lia. }
  intros r Hr m v m' Hm E. apply bind_inv in E as ([] & m1 & E1 & E). apply bind_inv in E as ([] & m2 & E2 & E).
  destruct (inv_incr_both a Ha m tt m2 Hm) as [Hm2 _]; [by rewrite (bind_done _ _ _ _ _ E1)|].
  unfold ret in E. simplify_eq. done.
Qed.
End Add.

Lemma inv_iort_add_block fuel iort n b :
  t + 24 <= b -> triple table_inv (iort_add_block fuel iort t n b) (fun r => b <= r.2).
Proof.
  revert n b. induction fuel as [|f IH]; intros n b Hb; cbn [iort_add_block]; [apply triple_diverge|].
  eapply triple_bind; [apply triple_deref|intros node _]. apply inv_add_node; [|done]. apply IH.
Qed.

Lemma inv_create_nodes k fuel iort n b :
  t + 24 <= b -> triple table_inv (create_nodes k fuel iort t n b) (fun _ => True).
Proof.
  revert n b. induction k as [|k IH]; intros n b Hb; cbn [create_nodes]; [by apply triple_ret|].
  destruct (_ <=? _); [by apply triple_ret|].
  eapply triple_bind; [by apply inv_iort_add_block|]. intros r Hr. cbv beta in Hr.
  eapply triple_bind; [apply triple_deref|intros node _]. apply IH. lia.
Qed.

Lemma inv_map_range p : triple table_inv (map_range p) (fun _ => True).
Proof. unfold map_range. repeat triple_step. Qed.

Lemma inv_overlap_maps n kb km key b p :
  t + 24 <= kb -> t + 24 <= b -> triple table_inv (overlap_maps n t kb km key b p) (fun _ => True).
Proof.
  intros Hkb Hb. revert p. induction n as [|n IH]; intros p; cbn [overlap_maps]; [by apply triple_ret|].
  do 2 (eapply triple_bind; [apply inv_ld|intros ? _]). eapply triple_bind with (Q1 := fun _ => True); [|intros _ _; apply IH].
  destruct (_ =? _); [|by apply triple_ret]. eapply triple_bind; [apply inv_map_range|intros ? _].
  unfold when. destruct (ranges_overlap _ _ _ _); [|by apply triple_ret].
  eapply triple_bind; [apply inv_ld|intros ? _].
  eapply triple_bind; [by apply inv_set_flag|intros _ _; by apply inv_set_flag].
Qed.

Lemma inv_overlap_blocks n kb km key b :
  t + 24 <= kb -> t + 24 <= b -> triple table_inv (overlap_blocks n t kb km key b) (fun _ => True).
Proof.
  intros Hkb. revert b. induction n as [|n IH]; intros b Hb; cbn [overlap_blocks]; [by apply triple_ret|].
  eapply triple_bind; [apply inv_ld|intros ? _]. eapply triple_bind with (Q1 := fun _ => True).
  - destruct (_ =? _); [by apply triple_ret|]. eapply triple_bind; [apply inv_ld|intros ? _].
    destruct (_ =? _); by apply inv_overlap_maps.
  - intros _ _. eapply triple_bind; [apply inv_next|]. intros nx Hn. cbv beta in Hn. apply IH. lia.
Qed.

Lemma inv_overlap_keys n nb kb km :
  t + 24 <= kb -> triple table_inv (overlap_keys n nb t kb km) (fun _ => True).
Proof.
  intros Hkb. revert km. induction n as [|n IH]; intros km; cbn [overlap_keys]; [by apply triple_ret|].
  eapply triple_bind; [apply inv_map_range|intros ? _].
  eapply triple_bind; [by apply inv_overlap_blocks|intros _ _; apply IH].
Qed.

Lemma inv_overlap_key_blocks n kb :
  t + 24 <= kb -> triple table_inv (overlap_key_blocks n t kb) (fun _ => True).
Proof.
  revert kb. induction n as [|n IH]; intros kb Hkb; cbn [overlap_key_blocks]; [by apply triple_ret|].
  eapply triple_bind; [apply inv_ld|intros ? _]. eapply triple_bind with (Q1 := fun _ => True).
  - destruct (_ =? _); [by apply triple_ret|]. eapply triple_bind; [apply inv_ld|intros ? _]. by apply inv_overlap_keys.
  - intros _ _. eapply triple_bind; [apply inv_next|]. intros nx Hn. cbv beta in Hn. apply IH. lia.
Qed.
End Counters.

Lemma zero_header t m m' :
  bytes_ok m ->
  (st 4 (t_num_blocks t) 0 ;;; st 4 (t_num_smmus t) 0 ;;; st 4 (t_num_pci_rcs t) 0 ;;;
   st 4 (t_num_named_components t) 0 ;;; st 4 (t_num_its_groups t) 0 ;;; st 4 (t_num_pmcgs t) 0) m = Done (tt, m') ->
  bytes_ok m' /\ header_at t m' (fun _ => 0).
Proof.
  intros Hb E.
  assert (Hst : forall k a m0 m1, 0 <= k < 6 -> a = t + 4 * k -> bytes_ok m0 ->
    (forall i, 0 <= i < k -> load_le 4 (t + 4 * i) m0 = Some 0) -> st 4 a 0 m0 = Done (tt, m1) ->
    bytes_ok m1 /\ forall i, 0 <= i < k + 1 -> load_le 4 (t + 4 * i) m1 = Some 0).
  { intros k a m0 m1 Hk -> Hb0 H0 Es. unfold st in Es. destruct (store_le _ _ _ _) as [m1'|] eqn:S in Es; [|done].
    simplify_eq. split; [by apply (store_le_ok _ _ _ _ _ S)|]. intros i Hi. destruct (decide (i = k)) as [->|].
    - by rewrite (store_le_load _ _ _ _ _ S) by lia.
    - rewrite <- (H0 i) by lia. apply load_le_ext. intros x Hx. apply (store_le_frame _ _ _ _ _ _ S). cbn in *. lia. }
  apply bind_inv in E as ([] & m1 & E1 & E). apply bind_inv in E as ([] & m2 & E2 & E).
  apply bind_inv in E as ([] & m3 & E3 & E). apply bind_inv in E as ([] & m4 & E4 & E).
  apply bind_inv in E as ([] & m5 & E5 & E6).
  unfold t_num_blocks, t_num_smmus, t_num_pci_rcs, t_num_named_components, t_num_its_groups, t_num_pmcgs in *.
  assert (H0 : forall i, 0 <= i < 0 -> load_le 4 (t + 4 * i) m = Some 0) by lia.
  destruct (Hst 0 t _ _ ltac:(lia) ltac:(lia) Hb H0 E1) as [B1 L1].
  destruct (Hst 1 (t + 4) _ _ ltac:(lia) ltac:(lia) B1 L1 E2) as [B2 L2].
  destruct (Hst 2 (t + 8) _ _ ltac:(lia) ltac:(lia) B2 L2 E3) as [B3 L3].
  destruct (Hst 3 (t + 12) _ _ ltac:(lia) ltac:(lia) B3 L3 E4) as [B4 L4].
  destruct (Hst 4 (t + 16) _ _ ltac:(lia) ltac:(lia) B4 L4 E5) as [B5 L5].
  destruct (Hst 5 (t + 20) _ _ ltac:(lia) ltac:(lia) B5 L5 E6) as [B6 L6].
  split; [done|]. intros k Hk. apply L6. lia.
Qed.

(** For every IORT, also a malformed one, a run of [pal_iovirt_create_info_table] that
    returns leaves a header whose number of blocks is the sum of its five counters. *)
Lemma counters_sum fuel iort t m m' :
  t <> 0 -> bytes_ok m -> pal_iovirt_create_info_table 0 0 fuel iort t m = Done (tt, m') -> counters_ok t m'.
Proof.
  intros Ht Hb E. unfold pal_iovirt_create_info_table in E. destruct (Z.eqb_spec t 0); [done|].
  apply bind_inv in E as ([] & m1 & E1 & E). apply bind_inv in E as ([] & m2 & E2 & E).
  apply bind_inv in E as ([] & m3 & E3 & E). apply bind_inv in E as ([] & m4 & E4 & E).
  apply bind_inv in E as ([] & m5 & E5 & E). apply bind_inv in E as ([] & m6 & E6 & E).
  destruct (zero_header t m m6 Hb) as [Hb6 Hh].
  { rewrite (bind_done _ _ _ _ _ E1), (bind_done _ _ _ _ _ E2), (bind_done _ _ _ _ _ E3),
      (bind_done _ _ _ _ _ E4), (bind_done _ _ _ _ _ E5). done. }
  assert (Hi : table_inv t m6) by (split; [done|]; by exists (fun _ => 0)).
  cbn [Z.eqb negb] in E. destruct iort as [i|]; [|by unfold ret in E; simplify_eq; destruct Hi].
  apply bind_inv in E as (ok & m7 & E7 & E).
  destruct (inv_create_nodes t _ _ _ _ (t_blocks t) ltac:(unfold t_blocks; lia) _ _ _ Hi E7) as [H7 _].
  destruct ok; cbn [when] in E; [|by unfold ret in E; simplify_eq; destruct H7].
  unfold check_mapping_overlap in E. apply bind_inv in E as (n' & m8 & E8 & E).
  destruct (inv_ld t _ _ _ _ _ H7 E8) as [H8 _].
  by destruct (inv_overlap_key_blocks t _ (t_blocks t) ltac:(unfold t_blocks; lia) _ _ _ H8 E) as [[_ ?] _].
Qed.

(** ** Examples *)

Fixpoint zero_bytes (n : nat) (a : Z) : bytes :=
  match n with O => ∅ | S k => <[a := 0]> (zero_bytes k (a + 1)) end.

Lemma zero_bytes_ok n a : bytes_ok (zero_bytes n a).
Proof.
  revert a. induction n as [|n IH]; intros a b v; cbn; [by rewrite lookup_empty|].
  destruct (decide (a = b)) as [->|]; [rewrite lookup_insert_eq; intros; simplify_eq; lia|].
  rewrite lookup_insert_ne by done. apply IH.
Qed.

(** The table at 0x1000 after the IORT has been read. *)
Definition build (i : IORT_TABLE) : outcome (unit * bytes) :=
  pal_iovirt_create_info_table 0 0 10 (Some i) 0x1000 (zero_bytes 1200 0x1000).
Definition built (i : IORT_TABLE) : option bytes :=
  match build i with Done (_, m) => Some m | _ => None end.
Definition is_done {A} (o : outcome A) : bool := match o with Done _ => true | _ => false end.

Lemma is_done_inv (o : outcome (unit * bytes)) : is_done o = true -> exists m, o = Done (tt, m).
Proof. destruct o as [[[] m]| |]; [by exists m|done..]. Qed.

Definition its_node : IORT_NODE := mk_node 0 52 [] [7] [] 0 0 0 0 [] 0 0.
Definition rc_node (l : list IORT_ID_MAPPING) : IORT_NODE := mk_node 2 80 l [] [] 1 0 0 0 [] 0 0.

(** An ITS group and a root complex, in this order or the other. *)
Definition its_first (l : list IORT_ID_MAPPING) : IORT_TABLE :=
  mk_iort 400 2 48 {[ 48 := its_node; 100 := rc_node l ]}.
Definition rc_first (l : list IORT_ID_MAPPING) : IORT_TABLE :=
  mk_iort 400 2 48 {[ 48 := rc_node ((fun x => mk_mapping (input_base x) (id_count x) (output_base x) 128) <$> l); 128 := its_node ]}.

(** Two windows of requesters, ten identifiers each, that share device ID 9. *)
Definition windows : list IORT_ID_MAPPING := [mk_mapping 0 9 0 48; mk_mapping 0x100 9 9 48].

Definition ask {A} (q : prog bytes A) (m : option bytes) : option A :=
  match m with Some m => match q m with Done (a, _) => Some a | _ => None end | None => None end.

(** Two windows that send different requesters to the same device ID are
    found not to overlap: the lookup counts [id_count] as the number of
    identifiers minus one and the overlap check as the number, so requesters 9
    and 0x100 both have device ID 9 while the flags of the root complex stay
    clear. *)
Theorem overlap_misses_last_id :
  ask (val_iovirt_get_device_info 1 0x1000 9 0 true) (built (its_first windows)) = Some (0, Some (9, 0xFFFFFFFF, 7)) /\
  ask (val_iovirt_get_device_info 1 0x1000 0x100 0 true) (built (its_first windows)) = Some (0, Some (9, 0xFFFFFFFF, 7)) /\
  ask (val_iovirt_unique_rid_strid_map 1 0x1000 0) (built (its_first windows)) = Some 1 /\
  ask (ld 4 (b_flags (t_blocks 0x1000 + 284))) (built (its_first windows)) = Some 0.
Proof. split_and!; vm_compute; reflexivity. Qed.

(** The table depends on the order of the nodes in the IORT: with one ITS group
    to which two windows of a root complex lead, the table has one group when the
    group comes first and two equal groups when the root complex comes first,
    because [find_block] does not see the blocks that are being added. *)
Theorem its_group_duplicated :
  ask (val_iovirt_get_its_info 1 0x1000 ITS_NUM_GROUPS 0 0 true) (built (its_first windows)) = Some (0, Some 1) /\
  ask (val_iovirt_get_its_info 1 0x1000 ITS_NUM_GROUPS 0 0 true) (built (rc_first windows)) = Some (0, Some 2) /\
  ask (val_iovirt_get_its_info 1 0x1000 ITS_GET_ID_FOR_BLK_INDEX 0 0 true) (built (rc_first windows)) = Some (0, Some 7) /\
  ask (val_iovirt_get_its_info 1 0x1000 ITS_GET_ID_FOR_BLK_INDEX 1 0 true) (built (rc_first windows)) = Some (0, Some 7).
Proof. split_and!; vm_compute; reflexivity. Qed.

Definition blocks0 : list ablock :=
  [ mk_ablock 0 1 [] (ItsData [7]);
    mk_ablock 2 2 [mk_mapping 0 9 0 24; mk_mapping 0x100 9 9 24] (RcData 0 0 1) ].

(** The words of [blocks0] in memory: a group at 0x1018, a root complex at 0x1134. *)
Definition put32 (p : Z * Z) (m : bytes) : bytes :=
  <[p.1 := p.2 mod 256]> (<[p.1 + 1 := p.2 / 256 mod 256]> (<[p.1 + 2 := 0]> (<[p.1 + 3 := 0]> m))).
Definition table0 : bytes :=
  foldr put32 ∅ [(0x1000, 2); (0x1018, 0); (0x101C, 1); (0x1020, 1); (0x1124, 7);
    (0x1134, 2); (0x1138, 2); (0x113C, 0); (0x1140, 0); (0x1144, 1);
    (0x1240, 0); (0x1244, 9); (0x1248, 0); (0x124C, 24); (0x1250, 0x100); (0x1254, 9); (0x1258, 9); (0x125C, 24)].

Lemma blocks0_at : table_at table0 0x1000 blocks0.
Proof.
  split; [done|]. split; [vm_compute; reflexivity|]. cbn [blocks0 blocks_at]. split_and!; [| |done].
  - split_and!; [vm_compute; reflexivity..|done|done|]. split_and!; [done|vm_compute; reflexivity|]. split; [vm_compute; reflexivity|done].
  - split_and!; [vm_compute; reflexivity..| |]; [split_and!; [split_and!; vm_compute; reflexivity..|done]|].
    split_and!; [done|vm_compute; reflexivity..].
Qed.

Lemma blocks0_refs : refs_ok 0x1000 blocks0.
Proof.
  split.
  - intros x mp Hx Hm. apply elem_of_cons in Hx as [-> | Hx]; [by apply not_elem_of_nil in Hm|].
    apply elem_of_cons in Hx as [-> | Hx]; [|by apply not_elem_of_nil in Hx].
    assert (output_reference mp = 24) as ->; [|vm_compute; eauto].
    repeat (apply elem_of_cons in Hm as [-> | Hm]; [done|]). by apply not_elem_of_nil in Hm.
  - intros x Hx. repeat (apply elem_of_cons in Hx as [-> | Hx]; [done|]). by apply not_elem_of_nil in Hx.
Qed.

Lemma device_info_refines_witness :
  returns (val_iovirt_get_device_info 1 0x1000 4 0 true) table0 (0, Some (4, 0xFFFFFFFF, 7)) table0.
Proof. exact (device_info_refines table0 0x1000 blocks0 4 0 blocks0_at blocks0_refs). Defined.
