(* ===== verification/IovirtBlocks.v ===== *)
(** * The blocks of the I/O virtualisation table

    What [pal_iovirt_create_info_table], in [Iovirt], leaves in memory for an IORT
    without performance counter groups: a chain of blocks behind the header, each found from
    the one before it as [IOVIRT_NEXT_BLOCK] does, and counters that count the blocks of
    the chain by their types.  The run does not diverge when the references between the
    nodes of the IORT end. *)

From S2P Require Import Prelude Status Bytes Iovirt.

(** ** The blocks in memory *)

(** A block as its type and the length of its [data_map]. *)
Definition next_of (b : Z) (x : Z * Z) : Z := b_data_map b + x.2 * sizeof_NODE_DATA_MAP.
Fixpoint end_of (b : Z) (l : list (Z * Z)) : Z :=
  match l with [] => b | x :: l' => end_of (next_of b x) l' end.
Fixpoint chain (m : bytes) (b : Z) (l : list (Z * Z)) : Prop :=
  match l with
  | [] => True
  | x :: l' => load_le 4 (b_type b) m = Some x.1 /\ load_le 4 (b_num_data_map b) m = Some x.2 /\ 0 <= x.2 /\
               chain m (next_of b x) l'
  end.

(** How many blocks have one of the types. *)
Definition of_types (tys : list Z) (l : list (Z * Z)) : Z :=
  Z.of_nat (length (List.filter (fun x => existsb (Z.eqb x.1) tys) l)).

(** The words of the header, in the order of [header_at]: all blocks, SMMUs of both
    kinds, root complexes, named components, ITS groups and counter groups. *)
Definition tally (l : list (Z * Z)) (k : Z) : Z :=
  u32 (if k =? 0 then Z.of_nat (length l)
       else if k =? 1 then of_types [IOVIRT_NODE_SMMU; IOVIRT_NODE_SMMU_V3] l
       else if k =? 2 then of_types [IOVIRT_NODE_PCI_ROOT_COMPLEX] l
       else if k =? 3 then of_types [IOVIRT_NODE_NAMED_COMPONENT] l
       else if k =? 4 then of_types [IOVIRT_NODE_ITS_GROUP] l
       else of_types [IOVIRT_NODE_PMCG] l).

(** No counter groups, and lengths that fit their fields. *)
Definition plain (iort : IORT_TABLE) : Prop :=
  forall o node, nodes iort !! o = Some node ->
  n_type node <> IOVIRT_NODE_PMCG /\ Z.of_nat (length (mappings node)) < 2 ^ 32 /\
  Z.of_nat (length (identifiers node)) + 3 < 2 ^ 32.

(** The references from a node end after less than [fuel] steps. *)
Definition references (node : IORT_NODE) : list Z :=
  (if n_type node =? IOVIRT_NODE_PMCG then [node_reference node] else []) ++
  (if n_type node =? IOVIRT_NODE_ITS_GROUP then [] else output_reference <$> mappings node).
Fixpoint refs_end (fuel : nat) (iort : IORT_TABLE) (o : Z) : bool :=
  match fuel with
  | O => false
  | S f => match nodes iort !! o with None => true | Some node => forallb (refs_end f iort) (references node) end
  end.

Lemma next_of_ge b x : 0 <= x.2 -> b + 268 <= next_of b x.
Proof. unfold next_of, b_data_map, sizeof_NODE_DATA_MAP. lia. Qed.

Lemma end_of_app b l1 l2 : end_of b (l1 ++ l2) = end_of (end_of b l1) l2.
Proof. revert b. induction l1 as [|x l IH]; intros b; [done|]. apply IH. Qed.

Lemma chain_end m b l : chain m b l -> b <= end_of b l.
Proof.
  revert b. induction l as [|x l IH]; intros b; cbn [chain end_of]; [lia|]. intros (_ & _ & Hx & Hl). apply IH in Hl.
  pose proof (next_of_ge b x Hx). lia.
Qed.

Lemma chain_app m b l1 l2 : chain m b (l1 ++ l2) <-> chain m b l1 /\ chain m (end_of b l1) l2.
Proof. revert b. induction l1 as [|x l IH]; intros b; cbn [chain end_of app]; [tauto|]. rewrite IH. tauto. Qed.

Lemma chain_frame m m' b l : chain m b l -> (forall x, b <= x < end_of b l -> m' !! x = m !! x) -> chain m' b l.
Proof.
  revert b. induction l as [|x l IH]; intros b; [done|]. cbn [chain end_of]. intros (Ht & Hn & Hx & Hl) Hf.
  pose proof (next_of_ge b x Hx). pose proof (chain_end _ _ _ Hl). unfold b_type, b_num_data_map in *. split_and!.
  - rewrite <- Ht. apply load_le_ext. intros y Hy. apply Hf. cbn in Hy. lia.
  - rewrite <- Hn. apply load_le_ext. intros y Hy. apply Hf. cbn in Hy. lia.
  - done.
  - apply IH; [done|]. intros y Hy. apply Hf. lia.
Qed.

Lemma of_types_add tys l0 x ls :
  of_types tys (l0 ++ x :: ls) = of_types tys (l0 ++ ls) + (if existsb (Z.eqb x.1) tys then 1 else 0).
Proof.
  unfold of_types. rewrite !List.filter_app, !length_app. cbn [List.filter].
  destruct (existsb _ _); cbn [length]; lia.
Qed.

(** The counter of a type, by its place in the header. *)
Definition kind (ty : Z) : Z :=
  if ty =? 0 then 4 else if ty =? 1 then 3 else if ty =? 2 then 2 else if (ty =? 3) || (ty =? 4) then 1 else 5.

Lemma tally_add l0 x ls k : 0 <= k < 6 -> 0 <= x.1 < 6 ->
  tally (l0 ++ x :: ls) k = u32 (tally (l0 ++ ls) k + (if (k =? 0) || (k =? kind x.1) then 1 else 0)).
Proof.
  intros Hk Hx. assert (Hu : forall a c, u32 (u32 a + c) = u32 (a + c)) by (intros; unfold u32; by rewrite Zplus_mod_idemp_l).
  unfold tally. rewrite Hu. f_equal.
  assert (k = 0 \/ k = 1 \/ k = 2 \/ k = 3 \/ k = 4 \/ k = 5) as [->|[->|[->|[->|[->| ->]]]]] by lia; cbn [Z.eqb Pos.eqb orb];
    [rewrite !length_app; cbn [length]; lia|..]; rewrite of_types_add; f_equal; destruct x as [ty n]; cbn [fst] in *;
    assert (ty = 0 \/ ty = 1 \/ ty = 2 \/ ty = 3 \/ ty = 4 \/ ty = 5) as [->|[->|[->|[->|[->| ->]]]]] by lia; done.
Qed.

(** ** Where a run writes *)

(** A run that returns keeps the bytes outside of [lo, hi), and bytes stay bytes. *)
Definition writes {A} (lo hi : Z) (p : prog bytes A) : Prop :=
  forall m r m', bytes_ok m -> p m = Done (r, m') ->
  bytes_ok m' /\ forall x, x < lo \/ hi <= x -> m' !! x = m !! x.

Section Writes.
Context (lo hi : Z).

Lemma writes_ret {A} (a : A) : writes lo hi (ret a).
Proof. by intros m r m' Hm [= <- <-]. Qed.
Lemma writes_undef {A} : writes lo hi (undef (A := A)).
Proof. done. Qed.
Lemma writes_bind {A B} (p : prog bytes A) (k : A -> prog bytes B) :
  writes lo hi p -> (forall a, writes lo hi (k a)) -> writes lo hi (bind p k).
Proof.
  intros Hp Hk m r m' Hm E. apply bind_inv in E as (a & m1 & E1 & E2). destruct (Hp _ _ _ Hm E1) as [H1 F1].
  destruct (Hk a _ _ _ H1 E2) as [H2 F2]. split; [done|]. intros x Hx. by rewrite F2, F1.
Qed.
Lemma writes_ld n a : writes lo hi (ld n a).
Proof. intros m r m' Hm. unfold ld. destruct (load_le n a m); [|done]. by intros [= <- <-]. Qed.
Lemma writes_st n a v : lo <= a -> a + Z.of_nat n <= hi -> writes lo hi (st n a v).
Proof.
  intros Hl Hh m r m' Hm. unfold st. destruct (store_le n a v m) as [m1|] eqn:E; [|done]. intros [= _ <-].
  split; [by apply (store_le_ok _ _ _ _ _ E)|]. intros x Hx. apply (store_le_frame _ _ _ _ _ _ E). lia.
Qed.
Lemma writes_deref {A} (o : option A) : writes lo hi (deref o).
Proof. destruct o; [apply writes_ret|done]. Qed.

End Writes.

Ltac write_step :=
  first
    [ apply writes_ret | apply writes_undef | apply writes_ld | apply writes_deref
    | apply writes_st; unfold b_type, b_num_data_map, b_flags, b_data_map, d_its_count, d_rc_segment,
        d_rc_cca, d_rc_ats_attr, d_rc_smmu_base, d_smmu_base, d_smmu_arch_major_rev,
        m_input_base, m_id_count, m_output_base, m_output_ref, b_data in *; lia
    | apply writes_bind; [|intros ?] ].

Section Blocks.
Context (lo hi : Z).

Lemma writes_set_mem n a v : lo <= a -> a + Z.of_nat n <= hi -> writes lo hi (set_mem n a v).
Proof. revert a. induction n as [|n IH]; intros a Hl Hh; cbn [set_mem]; repeat write_step. apply IH; lia. Qed.
Lemma writes_copy_words l a : lo <= a -> a + 4 * Z.of_nat (length l) <= hi -> writes lo hi (copy_words l a).
Proof.
  revert a. induction l as [|x l IH]; intros a Hl Hh; cbn [copy_words length] in *; repeat write_step. apply IH; lia.
Qed.
Lemma writes_copy_bytes l a : lo <= a -> a + Z.of_nat (length l) <= hi -> writes lo hi (copy_bytes l a).
Proof.
  revert a. induction l as [|x l IH]; intros a Hl Hh; cbn [copy_bytes length] in *; repeat write_step. apply IH; lia.
Qed.
Lemma writes_same_mem n a b : writes lo hi (same_mem n a b).
Proof. revert a b. induction n as [|n IH]; intros a b; cbn [same_mem]; repeat write_step. destruct (_ =? _); [apply IH|write_step]. Qed.
Lemma writes_next b : writes lo hi (IOVIRT_NEXT_BLOCK b).
Proof. unfold IOVIRT_NEXT_BLOCK. repeat write_step. Qed.
Lemma writes_find_block key t : writes lo hi (find_block key t).
Proof.
  unfold find_block. write_step; [write_step|]. generalize (t_blocks t). induction (Z.to_nat a) as [|k IH]; intros b; cbn [find_block_loop]; [write_step|].
  do 2 (write_step; [write_step|]). write_step.
  - destruct (_ =? _); [|write_step]. write_step; [destruct (_ =? _); repeat write_step|apply writes_same_mem].
  - destruct a2; [write_step|]. write_step; [apply writes_next|apply IH].
Qed.
Lemma writes_set_flag b s : lo <= b_flags b -> b_flags b + 4 <= hi -> writes lo hi (set_flag b s).
Proof. intros Hl Hh. unfold set_flag. repeat write_step. Qed.

(** The fields of a block behind its type; for a type other than a group of ITSs they
    are behind the length of [data_map] as well. *)
Lemma writes_fill add t block ty node :
  ty <> IOVIRT_NODE_PMCG -> lo <= b_num_data_map block \/ (ty <> IOVIRT_NODE_ITS_GROUP /\ lo <= b_data block) ->
  b_data_map block + 4 * Z.of_nat (length (identifiers node)) <= hi -> writes lo hi (fill_data add t block ty node).
Proof.
  unfold IOVIRT_NODE_PMCG, IOVIRT_NODE_ITS_GROUP, b_data_map, b_num_data_map, b_data. intros Hty Hlo Hhi. unfold fill_data.
  destruct (Z.eqb_spec ty IOVIRT_NODE_ITS_GROUP) as [->|].
  - destruct Hlo as [Hlo|[[] _]]; [|done]. write_step; [write_step|]. write_step; [apply writes_copy_words; unfold b_data_map; lia|]. repeat write_step.
  - assert (lo <= block + 8) by lia. repeat match goal with |- writes _ _ (if ?c then _ else _) => destruct c eqn:? end; try by repeat write_step.
    + write_step; [|write_step]. apply writes_copy_bytes; [unfold b_data; lia|]. rewrite length_app, length_take. cbn [length].
      unfold b_data, MAX_NAMED_COMP_LENGTH. lia.
    + by match goal with Hp : (ty =? IOVIRT_NODE_PMCG) = true |- _ => apply Z.eqb_eq in Hp end.
Qed.
End Blocks.

(** ** One block *)

Section Add.
Context (t : Z).

Lemma header_writes lo hi {A} (p : prog bytes A) m r m' f :
  bytes_ok m -> header_at t m f -> p m = Done (r, m') -> t + 24 <= lo -> writes lo hi p ->
  bytes_ok m' /\ header_at t m' f /\ (forall x, x < lo \/ hi <= x -> m' !! x = m !! x).
Proof.
  intros Hm Hh E Hlo Hp. destruct (Hp _ _ _ Hm E) as [Hm' Hf]. split; [done|]. split; [|done].
  apply (header_frame t m); [|done]. intros x Hx. apply Hf. lia.
Qed.

Lemma incr_both m m' l0 x ls a :
  0 <= x.1 < 6 -> a = t + 4 * kind x.1 -> bytes_ok m -> header_at t m (tally (l0 ++ ls)) ->
  (incr (t_num_blocks t) ;;; incr a) m = Done (tt, m') ->
  bytes_ok m' /\ header_at t m' (tally (l0 ++ x :: ls)) /\ (forall y, t + 24 <= y -> m' !! y = m !! y).
Proof.
  intros Hx -> Hm Hh E. apply bind_inv in E as ([] & m1 & E1 & E2).
  assert (Hw : forall k, 0 <= k < 6 -> writes t (t + 24) (incr (t + 4 * k))).
  { intros k Hk. unfold incr. write_step; [write_step|]. apply writes_st; lia. }
  assert (Hk : 1 <= kind x.1 < 6).
  { unfold kind. repeat match goal with |- context [if ?c then _ else _] => destruct c end; lia. }
  unfold t_num_blocks in E1. replace t with (t + 4 * 0) in E1 by lia.
  destruct (incr_header t 0 _ _ _ ltac:(lia) Hm Hh E1) as [Hm1 Hh1].
  destruct (incr_header t (kind x.1) _ _ _ ltac:(lia) Hm1 Hh1 E2) as [Hm2 Hh2].
  split; [done|]. split.
  - intros k Hk6. rewrite (Hh2 k Hk6), (tally_add l0 x ls k Hk6 Hx). f_equal. cbn beta.
    destruct (Z.eqb_spec k (kind x.1)) as [Ek|Ek].
    + subst k. by replace (kind x.1 =? 0) with false by lia.
    + destruct (k =? 0) eqn:E0; cbn [orb]; [by apply Z.eqb_eq in E0 as ->|]. rewrite Z.add_0_r. unfold tally, u32. by rewrite Zmod_mod.
  - intros y Hy. destruct (Hw 0 ltac:(lia) _ _ _ Hm E1) as [_ F1]. destruct (Hw (kind x.1) ltac:(lia) _ _ _ Hm1 E2) as [_ F2].
    rewrite F2, F1 by lia. done.
Qed.

(** A run adds blocks from [b] on, up to [e r], counts them and leaves what is before. *)
Definition appends {A} (b : Z) (e : A -> Z) (p : prog bytes A) : Prop :=
  forall l0 m r m', bytes_ok m -> header_at t m (tally l0) -> p m = Done (r, m') ->
  exists l, bytes_ok m' /\ header_at t m' (tally (l0 ++ l)) /\ chain m' b l /\ end_of b l = e r /\
    forall x, t + 24 <= x < b -> m' !! x = m !! x.

Context (add : Z -> Z -> prog bytes (Z * Z)) (Hadd : forall o b, t + 24 <= b -> appends b snd (add o b)).

(** What follows the recursive call for a mapping. *)
Lemma writes_mapping block nb0 p a ty :
  b_data_map block <= p -> p + sizeof_NODE_DATA_MAP <= nb0 ->
  writes (b_data block) nb0 (
    st 4 (m_output_ref p) a ;;; st 8 (d_rc_smmu_base block) 0 ;;;
    (if ty =? IOVIRT_NODE_PCI_ROOT_COMPLEX then
       let temp_block := t + a in
       let* tt' := ld 4 (b_type temp_block) in
       if (tt' =? IOVIRT_NODE_SMMU) || (tt' =? IOVIRT_NODE_SMMU_V3)
       then let* base := ld 8 (d_smmu_base temp_block) in st 8 (d_rc_smmu_base block) base
       else ret tt
     else ret tt)).
Proof.
  unfold sizeof_NODE_DATA_MAP. intros Hp Hn. repeat write_step. destruct (_ =? _); [|write_step]. write_step; [write_step|].
  destruct (_ || _); repeat write_step.
Qed.

Lemma mappings_append block ty nb0 lst :
  t + 24 <= block -> forall p nb l0 m r m', b_data_map block <= p ->
  p + sizeof_NODE_DATA_MAP * Z.of_nat (length lst) <= nb0 -> nb0 <= nb -> bytes_ok m -> header_at t m (tally l0) ->
  add_mappings add t block ty lst p nb m = Done (r, m') ->
  exists l, bytes_ok m' /\ header_at t m' (tally (l0 ++ l)) /\ chain m' nb l /\ end_of nb l = r /\
    forall x, t + 24 <= x < nb -> x < b_data block \/ nb0 <= x -> m' !! x = m !! x.
Proof.
  intros Hb. induction lst as [|y lst IH]; intros p nb l0 m r m' Hp Hn0 Hn Hm Hh E; cbn [add_mappings length] in E, Hn0.
  { injection E as <- <-. exists []. rewrite app_nil_r. by cbn. }
  assert (Hd : b_data block = block + 8) by done. assert (Hdm : b_data_map block = block + 268) by done.
  assert (Hz : sizeof_NODE_DATA_MAP = 16) by done.
  apply bind_inv in E as (u1 & m1 & E1 & E). apply bind_inv in E as (u2 & m2 & E2 & E). apply bind_inv in E as (u3 & m3 & E3 & E).
  destruct (header_writes (b_data block) nb0 _ _ _ _ _ Hm Hh E1 ltac:(lia) ltac:(write_step)) as (Hm1 & Hh1 & F1).
  destruct (header_writes (b_data block) nb0 _ _ _ _ _ Hm1 Hh1 E2 ltac:(lia) ltac:(write_step)) as (Hm2 & Hh2 & F2).
  destruct (header_writes (b_data block) nb0 _ _ _ _ _ Hm2 Hh2 E3 ltac:(lia) ltac:(write_step)) as (Hm3 & Hh3 & F3).
  apply bind_inv in E as (a & m4 & E4 & E). destruct (Hadd _ nb ltac:(lia) _ _ _ _ Hm3 Hh3 E4) as (l1 & Hm4 & Hh4 & C4 & Ee4 & F4).
  apply bind_inv in E as (u5 & m5 & E5 & E). apply bind_inv in E as (u6 & m6 & E6 & E). apply bind_inv in E as (u7 & m7 & E7 & E).
  pose proof (writes_mapping block nb0 p a.1 ty Hp ltac:(lia)) as Hw.
  destruct (header_writes (b_data block) nb0 _ m4 u7 m7 _ Hm4 Hh4
    (eq_trans (bind_done _ _ _ _ _ E5) (eq_trans (bind_done _ _ _ _ _ E6) E7)) ltac:(lia) Hw) as (Hm7 & Hh7 & F7).
  pose proof (chain_end _ _ _ C4) as Hge. cbn in Ee4.
  destruct (IH (p + sizeof_NODE_DATA_MAP) a.2 (l0 ++ l1) m7 r m' ltac:(lia) ltac:(lia) ltac:(lia) Hm7 Hh7 E) as (l2 & Hm' & Hh' & C2 & E2' & F').
  exists (l1 ++ l2). rewrite app_assoc. split_and!; [done|done| | |].
  - apply chain_app. rewrite Ee4. split; [|done]. apply (chain_frame m4); [done|]. intros x Hx.
    rewrite F', F7 by lia. done.
  - by rewrite end_of_app, Ee4.
  - intros x Hx Hx'. rewrite F', F7, F4, F3, F2, F1 by lia. done.
Qed.

Lemma ld_st_done n a v m r m' : bytes_ok m -> st n a v m = Done (r, m') -> 0 <= v -> load_le n a m' = Some (v mod 256 ^ Z.of_nat n).
Proof. intros Hm. unfold st. destruct (store_le n a v m) as [m1|] eqn:E; [|done]. intros [= _ <-] Hv. by apply (store_le_load _ _ _ _ _ E). Qed.

(** The counter that [fill_data] gives is that of the type, and the length of
    [data_map] is that of the mappings but for a group of ITSs. *)
Lemma fill_data_counts block ty node m a m' n :
  ty <> IOVIRT_NODE_PMCG -> bytes_ok m -> load_le 4 (b_num_data_map block) m = Some n -> 0 <= n ->
  fill_data add t block ty node m = Done (Some a, m') ->
  0 <= ty < 6 /\ a = t + 4 * kind ty /\ exists n', load_le 4 (b_num_data_map block) m' = Some n' /\ 0 <= n' /\ (ty <> IOVIRT_NODE_ITS_GROUP -> n' = n).
Proof.
  intros Hty Hm Hn Hn0 E.
  assert (Hkeep : ty <> IOVIRT_NODE_ITS_GROUP -> load_le 4 (b_num_data_map block) m' = Some n).
  { intros Hi. rewrite <- Hn. apply load_le_ext. intros x Hx.
    destruct (writes_fill (b_data block) (b_data_map block + 4 * Z.of_nat (length (identifiers node))) add t block ty node Hty
      ltac:(right; split; [exact Hi|lia]) ltac:(lia) _ _ _ Hm E) as [_ F].
    apply F. unfold b_data, b_num_data_map in *. cbn in Hx. lia. }
  unfold fill_data in E. revert E Hkeep. destruct (Z.eqb_spec ty IOVIRT_NODE_ITS_GROUP) as [->|Hi].
  - intros E _. apply bind_inv in E as (u1 & m1 & E1 & E). apply bind_inv in E as (u2 & m2 & E2 & E). apply bind_inv in E as (u3 & m3 & E3 & E).
    injection E as <- <-. split; [done|]. split; [done|].
    destruct (writes_st (b_data block) (b_data_map block) 4 (d_its_count block) _ ltac:(done) ltac:(unfold d_its_count, b_data_map, b_data; lia) _ _ _ Hm E1) as [Hm1 _].
    destruct (writes_copy_words (b_data_map block) _ (identifiers node) (b_data_map block) ltac:(lia) ltac:(apply Z.le_refl) _ _ _ Hm1 E2) as [Hm2 _].
    apply (ld_st_done _ _ _ _ _ _ Hm2) in E3; [|apply Z.div_pos; [apply u32_range|lia]].
    eexists. split; [exact E3|]. split; [|done]. by apply Z.mod_pos_bound.
  - intros E Hkeep. specialize (Hkeep Hi).
    assert (Hgo : 0 <= ty < 6 /\ a = t + 4 * kind ty).
    { clear Hn Hkeep. revert E. repeat match goal with |- context [if ?c then _ else _] => destruct c eqn:? end; intros E;
        repeat match goal with H : (ty =? _) = true |- _ => apply Z.eqb_eq in H as -> end; try done;
        repeat (apply bind_inv in E as (? & ? & _ & E)); first [discriminate E|injection E as <- _; split; [split|]; done]. }
    destruct Hgo as [H1 H2]. split; [exact H1|]. split; [exact H2|]. by exists n.
Qed.

(** The first part of [iort_add_block]: the words of the block and the counter of its type. *)
Lemma node_written block node l0 m o m4 :
  t + 24 <= block -> n_type node <> IOVIRT_NODE_PMCG -> Z.of_nat (length (mappings node)) < 2 ^ 32 -> bytes_ok m -> header_at t m (tally l0) ->
  (set_mem 256 (b_data block) 0 ;;; st 4 (b_type block) (n_type node) ;;;
   st 4 (b_num_data_map block) (Z.of_nat (length (mappings node))) ;;; fill_data add t block (n_type node) node) m = Done (o, m4) ->
  bytes_ok m4 /\ header_at t m4 (tally l0) /\ (forall x, x < block -> m4 !! x = m !! x) /\
  match o with
  | None => True
  | Some a => 0 <= n_type node < 6 /\ a = t + 4 * kind (n_type node) /\ load_le 4 (b_type block) m4 = Some (n_type node) /\
      exists n, load_le 4 (b_num_data_map block) m4 = Some n /\ 0 <= n /\
        (n_type node <> IOVIRT_NODE_ITS_GROUP -> n = Z.of_nat (length (mappings node)))
  end.
Proof.
  intros Hb Hty Hlen Hm Hh E. set (ty := n_type node) in *.
  assert (Hd : b_data block = block + 8) by done. assert (Hdm : b_data_map block = block + 268) by done.
  assert (Hnm : b_num_data_map block = block + 4) by done.
  set (hi := block + 268 + 4 * Z.of_nat (length (identifiers node))).
  apply bind_inv in E as (u1 & m1 & E1 & E). apply bind_inv in E as (u2 & m2 & E2 & E). apply bind_inv in E as (u3 & m3 & E3 & E4).
  destruct (header_writes block hi _ _ _ _ _ Hm Hh E1 ltac:(lia) ltac:(apply writes_set_mem; lia)) as (Hm1 & Hh1 & F1).
  destruct (header_writes block hi _ _ _ _ _ Hm1 Hh1 E2 ltac:(lia) ltac:(write_step)) as (Hm2 & Hh2 & F2).
  destruct (header_writes block hi _ _ _ _ _ Hm2 Hh2 E3 ltac:(lia) ltac:(write_step)) as (Hm3 & Hh3 & F3).
  destruct (header_writes (block + 4) hi _ _ _ _ _ Hm3 Hh3 E4 ltac:(lia) ltac:(apply writes_fill; [done|left; lia|lia])) as (Hm4 & Hh4 & F4).
  split; [done|]. split; [done|]. split; [intros x Hx; rewrite F4, F3, F2, F1 by lia; done|]. destruct o as [a|]; [|done].
  pose proof (ld_st_done _ _ _ _ _ _ Hm2 E3 ltac:(lia)) as Ln. change (256 ^ Z.of_nat 4) with (2 ^ 32) in Ln. rewrite Z.mod_small in Ln by lia.
  destruct (fill_data_counts block ty node m3 a m4 _ Hty Hm3 Ln ltac:(lia) E4) as (Hrng & Ha & Hn).
  split; [done|]. split; [done|]. split; [|exact Hn].
  pose proof (ld_st_done _ _ _ _ _ _ Hm1 E2 ltac:(lia)) as Lt. change (256 ^ Z.of_nat 4) with (2 ^ 32) in Lt. rewrite Z.mod_small in Lt by lia.
  rewrite <- Lt. apply load_le_ext. unfold b_type. cbn. intros x Hx. rewrite F4 by lia.
  destruct (writes_st (block + 4) (block + 8) 4 (b_num_data_map block) (Z.of_nat (length (mappings node))) ltac:(lia) ltac:(lia) _ _ _ Hm2 E3) as [_ F].
  apply F. lia.
Qed.

(** The mappings of a block that is not a group of ITSs. *)
Lemma node_mapped block ty n maps l0 m e m' :
  t + 24 <= block -> 0 <= n -> (ty <> IOVIRT_NODE_ITS_GROUP -> n = Z.of_nat (length maps)) -> bytes_ok m -> header_at t m (tally l0) ->
  (if negb (ty =? IOVIRT_NODE_ITS_GROUP) then add_mappings add t block ty maps (b_data_map block) (next_of block (ty, n))
   else ret (next_of block (ty, n))) m = Done (e, m') ->
  exists l, bytes_ok m' /\ header_at t m' (tally (l0 ++ l)) /\ chain m' (next_of block (ty, n)) l /\
    end_of (next_of block (ty, n)) l = e /\ forall x, t + 24 <= x < block + 8 -> m' !! x = m !! x.
Proof.
  intros Hb Hn0 Hn Hm Hh E. pose proof (next_of_ge block (ty, n) Hn0) as Hnx.
  assert (Hd : b_data block = block + 8) by done.
  destruct (Z.eqb_spec ty IOVIRT_NODE_ITS_GROUP) as [Hi|Hi]; cbn [negb] in E.
  - injection E as <- <-. exists []. rewrite app_nil_r. by cbn.
  - specialize (Hn Hi). subst n. set (nb := next_of block (ty, Z.of_nat (length maps))) in *.
    destruct (mappings_append block ty nb maps Hb (b_data_map block) nb l0 m e m' ltac:(lia)
      ltac:(subst nb; unfold next_of, sizeof_NODE_DATA_MAP; cbn [snd]; lia) ltac:(lia) Hm Hh E) as (l & H1 & H2 & H3 & H4 & F).
    exists l. split_and!; try done. intros x Hx. apply F; lia.
Qed.

Lemma add_node_appends block node :
  t + 24 <= block -> n_type node <> IOVIRT_NODE_PMCG -> Z.of_nat (length (mappings node)) < 2 ^ 32 ->
  appends block snd (add_node add t block (n_type node) node).
Proof.
  intros Hb Hty Hlen l0 m r m' Hm Hh E. unfold add_node in E.
  assert (Hdm : b_data_map block = block + 268) by done. assert (Hnm : b_num_data_map block = block + 4) by done.
  apply bind_inv in E as (u1 & m1 & E1 & E). apply bind_inv in E as (u2 & m2 & E2 & E). apply bind_inv in E as (u3 & m3 & E3 & E).
  apply bind_inv in E as (o & m4 & E4 & E).
  destruct (node_written block node l0 m o m4 Hb Hty Hlen Hm Hh) as (Hm4 & Hh4 & Hbelow & Ho).
  { by rewrite (bind_done _ _ _ _ _ E1), (bind_done _ _ _ _ _ E2), (bind_done _ _ _ _ _ E3). }
  set (ty := n_type node) in *.
  destruct o as [a|]; [|injection E as <- <-; exists []; rewrite app_nil_r; split_and!; try done; intros; apply Hbelow; lia].
  destruct Ho as (Hrng & Ha & Lt4 & n & Ln4 & Hn0 & Hn).
  apply bind_inv in E as (u5 & m5 & E5 & E). apply bind_inv in E as (off & m6 & E6 & E).
  destruct (header_writes (block + 264) (block + 268) _ _ _ _ _ Hm4 Hh4 E5 ltac:(lia) ltac:(write_step)) as (Hm5 & Hh5 & F5).
  destruct (header_writes (block + 264) (block + 268) _ _ _ _ _ Hm5 Hh5 E6 ltac:(lia) ltac:(apply writes_find_block)) as (Hm6 & Hh6 & F6).
  destruct (negb (off =? 0)).
  { injection E as <- <-. exists []. rewrite app_nil_r. split_and!; try done. intros x Hx. rewrite F6, F5 by lia. apply Hbelow. lia. }
  apply bind_inv in E as (nb & m7 & E7 & E). apply bind_inv in E as (u8 & m8 & E8 & E). apply bind_inv in E as (e & m9 & E9 & E).
  assert (Ln6 : load_le 4 (b_num_data_map block) m6 = Some n).
  { rewrite <- Ln4. apply load_le_ext. cbn. intros x Hx. rewrite F6, F5 by lia. done. }
  assert (nb = next_of block (ty, n) /\ m7 = m6) as [-> ->].
  { unfold IOVIRT_NEXT_BLOCK, ld, bind in E7. rewrite Ln6 in E7. by injection E7 as <- <-. }
  assert (Hw8 : writes (block + 264) (block + 268) (if ty =? IOVIRT_NODE_SMMU
      then when (negb (smmu_ctx_int_distinct (context_interrupts node))) (set_flag block IOVIRT_FLAG_SMMU_CTX_INT_SHIFT) else ret tt)).
  { destruct (_ =? _); [|apply writes_ret]. unfold when. destruct (negb _); [|apply writes_ret]. apply writes_set_flag; unfold b_flags; lia. }
  destruct (header_writes (block + 264) (block + 268) _ _ _ _ _ Hm6 Hh6 E8 ltac:(lia) Hw8) as (Hm8 & Hh8 & F8).
  pose proof (next_of_ge block (ty, n) Hn0) as Hnx.
  pose proof (node_mapped block ty n (mappings node) l0 m8 e m9 Hb Hn0 Hn Hm8 Hh8 E9) as Hmap.
  destruct Hmap as (l & Hm9 & Hh9 & C9 & Ee & F9).
  apply bind_inv in E as ([] & m10 & E10 & E). apply bind_inv in E as ([] & m11 & E11 & E). injection E as <- <-.
  destruct (incr_both m9 m11 l0 (ty, n) l a Hrng Ha Hm9 Hh9 ltac:(by rewrite (bind_done _ _ _ _ _ E10))) as (Hm11 & Hh11 & F11).
  exists ((ty, n) :: l). cbn [chain end_of fst snd].
  assert (Hsame : forall x, t + 24 <= x < block + 8 -> m11 !! x = m4 !! x).
  { intros x Hx. rewrite F11, F9, F8, F6, F5 by lia. done. }
  split_and!; [done|done| | |done| |done|].
  - rewrite <- Lt4. apply load_le_ext. unfold b_type. cbn. intros x Hx. apply Hsame. lia.
  - rewrite <- Ln4. apply load_le_ext. cbn. intros x Hx. apply Hsame. lia.
  - apply (chain_frame m9); [done|]. intros x Hx. apply F11. lia.
  - intros x Hx. rewrite Hsame by lia. apply Hbelow. lia.
Qed.
End Add.

(** ** All blocks *)

Section Build.
Context (t : Z) (iort : IORT_TABLE) (Hplain : plain iort).

Lemma add_block_appends fuel o b : t + 24 <= b -> appends t b snd (iort_add_block fuel iort t o b).
Proof.
  revert o b. induction fuel as [|f IH]; intros o b Hb; [done|]. intros l0 m r m' Hm Hh E. cbn [iort_add_block] in E.
  destruct (nodes iort !! o) as [node|] eqn:En; [|discriminate E]. destruct (Hplain o node En) as (Hty & Hlen & _).
  by apply (add_node_appends t (iort_add_block f iort t) IH b node Hb Hty Hlen l0 m r m' Hm Hh E).
Qed.

Lemma create_nodes_append n fuel o b l0 m ok m' :
  t + 24 <= b -> bytes_ok m -> header_at t m (tally l0) -> create_nodes n fuel iort t o b m = Done (ok, m') ->
  exists l, bytes_ok m' /\ header_at t m' (tally (l0 ++ l)) /\ chain m' b l /\ forall x, t + 24 <= x < b -> m' !! x = m !! x.
Proof.
  revert o b l0 m. induction n as [|n IH]; intros o b l0 m Hb Hm Hh E; cbn [create_nodes] in E.
  { injection E as <- <-. exists []. by rewrite app_nil_r. }
  destruct (_ <=? _); [injection E as <- <-; exists []; by rewrite app_nil_r|].
  apply bind_inv in E as (r & m1 & E1 & E).
  destruct (add_block_appends fuel o b Hb _ _ _ _ Hm Hh E1) as (l1 & Hm1 & Hh1 & C1 & Ee & F1).
  destruct (nodes iort !! o) as [node|]; [|discriminate E]. pose proof (chain_end _ _ _ C1) as Hge.
  destruct (IH (o + n_length node) r.2 (l0 ++ l1) m1 ltac:(cbn in Ee; lia) Hm1 Hh1 E) as (l2 & Hm2 & Hh2 & C2 & F2).
  exists (l1 ++ l2). rewrite app_assoc. split_and!; [done|done| |].
  - apply chain_app. split; [|by rewrite Ee]. apply (chain_frame m1); [done|]. intros x Hx. apply F2. rewrite Ee in Hx. lia.
  - intros x Hx. rewrite F2, F1; [done|lia|]. rewrite Ee in Hge. lia.
Qed.
End Build.

(** ** The check of the mappings writes flags only *)

Section Overlap.
Context (t : Z) (l : list (Z * Z)).

(** The header, and the chain of the blocks [l] behind it. *)
Definition listed_blocks (m : bytes) : Prop :=
  bytes_ok m /\ header_at t m (tally l) /\ chain m (t_blocks t) l.
(** [b] is the block behind the blocks [l1], and [l2] are the blocks from it on. *)
Definition at_block (b : Z) (l2 : list (Z * Z)) : Prop := exists l1, l = l1 ++ l2 /\ b = end_of (t_blocks t) l1.

Lemma at_block_next b x l2 : at_block b (x :: l2) -> at_block (next_of b x) l2.
Proof. intros (l1 & -> & ->). exists (l1 ++ [x]). by rewrite <- app_assoc, end_of_app. Qed.

Lemma listed_ld n a : triple listed_blocks (ld n a) (fun _ => True).
Proof. intros m r m' Hm. unfold ld. destruct (load_le n a m); [|done]. by intros [= <- <-]. Qed.

Lemma listed_next b x l2 : at_block b (x :: l2) -> triple listed_blocks (IOVIRT_NEXT_BLOCK b) (fun r => r = next_of b x).
Proof.
  intros (l1 & El & ->) m r m' Hm E. pose proof Hm as (_ & _ & Hc). rewrite El in Hc. apply chain_app in Hc as [_ (_ & Hn & _)].
  unfold IOVIRT_NEXT_BLOCK, bind, ld in E. rewrite Hn in E. by injection E as <- <-.
Qed.

Lemma listed_set_flag b x l2 s : at_block b (x :: l2) -> triple listed_blocks (set_flag b s) (fun _ => True).
Proof.
  intros (l1 & El & Eb) m r m' (Hm & Hh & Hc) E. split; [|done]. pose proof Hc as Hc0. rewrite El in Hc0.
  apply chain_app in Hc0 as [C1 (Ht & Hn & Hx & C2)]. rewrite <- Eb in *. pose proof (chain_end _ _ _ C1) as Hge. rewrite <- Eb in Hge. unfold t_blocks in Hge.
  destruct (writes_set_flag (b + 264) (b + 268) b s ltac:(unfold b_flags; lia) ltac:(unfold b_flags; lia) _ _ _ Hm E) as [Hm' F].
  split; [done|]. split; [apply (header_frame t m); [|done]; intros y Hy; apply F; lia|].
  pose proof (next_of_ge b x Hx). rewrite El. apply chain_app. rewrite <- Eb. split.
  - apply (chain_frame m); [done|]. rewrite <- Eb. intros y Hy. apply F. lia.
  - cbn [chain]. split_and!; [| |done|].
    + rewrite <- Ht. apply load_le_ext. unfold b_type. cbn. intros y Hy. apply F. lia.
    + rewrite <- Hn. apply load_le_ext. unfold b_num_data_map. cbn. intros y Hy. apply F. lia.
    + apply (chain_frame m); [done|]. intros y Hy. apply F. lia.
Qed.

Lemma listed_map_range p : triple listed_blocks (map_range p) (fun _ => True).
Proof. unfold map_range. do 2 (eapply triple_bind; [apply listed_ld|intros ? _]). by apply triple_ret. Qed.

Lemma listed_overlap_maps n kb x kl km key b y bl p :
  at_block kb (x :: kl) -> at_block b (y :: bl) -> triple listed_blocks (overlap_maps n t kb km key b p) (fun _ => True).
Proof.
  intros Hkb Hb. revert p. induction n as [|n IH]; intros p; cbn [overlap_maps]; [by apply triple_ret|].
  do 2 (eapply triple_bind; [apply listed_ld|intros ? _]). eapply triple_bind with (Q1 := fun _ => True); [|intros _ _; apply IH].
  destruct (_ =? _); [|by apply triple_ret]. eapply triple_bind; [apply listed_map_range|intros ? _].
  unfold when. destruct (ranges_overlap _ _ _ _); [|by apply triple_ret]. eapply triple_bind; [apply listed_ld|intros ? _].
  eapply triple_bind; [by eapply listed_set_flag|intros _ _; by eapply listed_set_flag].
Qed.

Lemma listed_overlap_blocks n kb x kl km key b bl :
  at_block kb (x :: kl) -> at_block b bl -> (n <= length bl)%nat -> triple listed_blocks (overlap_blocks n t kb km key b) (fun _ => True).
Proof.
  intros Hkb. revert b bl. induction n as [|n IH]; intros b bl Hb Hn; cbn [overlap_blocks]; [by apply triple_ret|].
  destruct bl as [|y bl]; [cbn in Hn; lia|]. eapply triple_bind; [apply listed_ld|intros ? _]. eapply triple_bind with (Q1 := fun _ => True).
  - destruct (_ =? _); [by apply triple_ret|]. eapply triple_bind; [apply listed_ld|intros ? _]. destruct (_ =? _); by eapply listed_overlap_maps.
  - intros _ _. eapply triple_bind; [by eapply listed_next|]. intros nx ->. apply (IH _ bl); [by apply at_block_next|cbn in Hn; lia].
Qed.

Lemma listed_overlap_keys n nb kb x kl km :
  at_block kb (x :: kl) -> (nb <= length (x :: kl))%nat -> triple listed_blocks (overlap_keys n nb t kb km) (fun _ => True).
Proof.
  intros Hkb Hn. revert km. induction n as [|n IH]; intros km; cbn [overlap_keys]; [by apply triple_ret|].
  eapply triple_bind; [apply listed_map_range|intros ? _]. eapply triple_bind; [by eapply listed_overlap_blocks|intros _ _; apply IH].
Qed.

Lemma listed_overlap_key_blocks n kb bl :
  at_block kb bl -> (n <= length bl)%nat -> triple listed_blocks (overlap_key_blocks n t kb) (fun _ => True).
Proof.
  revert kb bl. induction n as [|n IH]; intros kb bl Hkb Hn; cbn [overlap_key_blocks]; [by apply triple_ret|].
  destruct bl as [|y bl]; [cbn in Hn; lia|]. eapply triple_bind; [apply listed_ld|intros ? _]. eapply triple_bind with (Q1 := fun _ => True).
  - destruct (_ =? _); [by apply triple_ret|]. eapply triple_bind; [apply listed_ld|intros ? _]. by eapply listed_overlap_keys.
  - intros _ _. eapply triple_bind; [by eapply listed_next|]. intros nx ->. apply (IH _ bl); [by apply at_block_next|cbn in Hn; lia].
Qed.

Lemma listed_check : triple listed_blocks (check_mapping_overlap t) (fun _ => True).
Proof.
  intros m r m' Hm E. unfold check_mapping_overlap in E. apply bind_inv in E as (n & m1 & E1 & E). pose proof Hm as (_ & Hh & _).
  unfold ld, t_num_blocks in E1. pose proof (Hh 0 ltac:(lia)) as H0. replace (t + 4 * 0) with t in H0 by lia. rewrite H0 in E1. injection E1 as <- <-.
  refine (listed_overlap_key_blocks _ _ l _ _ m r m' Hm E); [by exists []|].
  unfold tally. cbn [Z.eqb]. pose proof (u32_range (Z.of_nat (length l))). assert (u32 (Z.of_nat (length l)) <= Z.of_nat (length l)) by (apply Z.mod_le; lia). lia.
Qed.
End Overlap.

(** ** The run ends when the references end *)

Definition halts {A} (p : prog bytes A) : Prop := forall m, p m <> Diverges.

Lemma halts_ret {A} (a : A) : halts (ret (S := bytes) a).
Proof. done. Qed.
Lemma halts_bind {A B} (p : prog bytes A) (k : A -> prog bytes B) : halts p -> (forall a, halts (k a)) -> halts (bind p k).
Proof. intros Hp Hk m. unfold bind. specialize (Hp m). destruct (p m) as [[a m1]| |]; [apply Hk|done|done]. Qed.
Lemma halts_ld n a : halts (ld n a).
Proof. intros m. unfold ld. by destruct (load_le n a m). Qed.
Lemma halts_st n a v : halts (st n a v).
Proof. intros m. unfold st. by destruct (store_le n a v m). Qed.
Lemma halts_deref {A} (o : option A) : halts (deref (S := bytes) o).
Proof. by destruct o. Qed.

Create HintDb halts.
#[export] Hint Resolve halts_ret halts_ld halts_st halts_deref : halts.
Ltac halts_step := first [solve [auto with halts] | apply halts_bind; [|intros ?] | match goal with |- halts (if ?c then _ else _) => destruct c end].

Lemma halts_set_mem n a v : halts (set_mem n a v).
Proof. revert a. induction n as [|n IH]; intros a; cbn [set_mem]; repeat halts_step. Qed.
Lemma halts_copy_words l a : halts (copy_words l a).
Proof. revert a. induction l as [|x l IH]; intros a; cbn [copy_words]; repeat halts_step. Qed.
Lemma halts_copy_bytes l a : halts (copy_bytes l a).
Proof. revert a. induction l as [|x l IH]; intros a; cbn [copy_bytes]; repeat halts_step. Qed.
Lemma halts_same_mem n a b : halts (same_mem n a b).
Proof. revert a b. induction n as [|n IH]; intros a b; cbn [same_mem]; repeat halts_step. Qed.
Lemma halts_next b : halts (IOVIRT_NEXT_BLOCK b).
Proof. unfold IOVIRT_NEXT_BLOCK. repeat halts_step. Qed.
Lemma halts_set_flag b s : halts (set_flag b s).
Proof. unfold set_flag. repeat halts_step. Qed.
Lemma halts_map_range p : halts (map_range p).
Proof. unfold map_range. repeat halts_step. Qed.
#[export] Hint Resolve halts_set_mem halts_copy_words halts_copy_bytes halts_same_mem halts_next halts_set_flag halts_map_range : halts.
Lemma halts_find_block key t : halts (find_block key t).
Proof.
  unfold find_block. halts_step; [halts_step|]. generalize (t_blocks t). induction (Z.to_nat _) as [|k IH]; intros b; cbn [find_block_loop]; repeat halts_step.
Qed.
Lemma halts_incr a : halts (incr a).
Proof. unfold incr. repeat halts_step. Qed.
#[export] Hint Resolve halts_find_block halts_incr : halts.

Lemma halts_overlap_maps n t kb km key b p : halts (overlap_maps n t kb km key b p).
Proof. revert p. induction n as [|n IH]; intros p; cbn [overlap_maps]; unfold when; repeat halts_step. Qed.
#[export] Hint Resolve halts_overlap_maps : halts.
Lemma halts_overlap_blocks n t kb km key b : halts (overlap_blocks n t kb km key b).
Proof. revert b. induction n as [|n IH]; intros b; cbn [overlap_blocks]; repeat halts_step. Qed.
#[export] Hint Resolve halts_overlap_blocks : halts.
Lemma halts_overlap_keys n nb t kb km : halts (overlap_keys n nb t kb km).
Proof. revert km. induction n as [|n IH]; intros km; cbn [overlap_keys]; repeat halts_step. Qed.
#[export] Hint Resolve halts_overlap_keys : halts.
Lemma halts_check t : halts (check_mapping_overlap t).
Proof.
  unfold check_mapping_overlap. halts_step; [halts_step|]. generalize (t_blocks t). induction (Z.to_nat _) as [|k IH]; intros b; cbn [overlap_key_blocks]; repeat halts_step.
Qed.

Lemma halts_add_mappings add t block ty lst p nb :
  (forall x b, x ∈ lst -> halts (add (output_reference x) b)) -> halts (add_mappings add t block ty lst p nb).
Proof.
  revert p nb. induction lst as [|x lst IH]; intros p nb Hadd; cbn [add_mappings]; [halts_step|].
  assert (forall b, halts (add (output_reference x) b)) by (intros b; apply Hadd; left).
  assert (forall p nb, halts (add_mappings add t block ty lst p nb)) by (intros q nq; apply IH; intros y b Hy; apply Hadd; by right).
  cbv zeta. repeat halts_step.
Qed.

Lemma halts_add_node add t block node :
  (forall o b, o ∈ references node -> halts (add o b)) -> halts (add_node add t block (n_type node) node).
Proof.
  intros Hadd. unfold add_node. repeat (halts_step; [by auto with halts|]).
  apply halts_bind.
  - unfold fill_data. destruct (n_type node =? IOVIRT_NODE_ITS_GROUP); [cbv zeta; repeat halts_step|]. do 4 (halts_step; [repeat halts_step|]).
    destruct (n_type node =? IOVIRT_NODE_PMCG) eqn:Ep; [|halts_step].
    assert (forall b, halts (add (node_reference node) b)) by (intros b; apply Hadd; unfold references; rewrite Ep; left). repeat halts_step.
  - intros [c|]; [|halts_step]. do 2 (halts_step; [by auto with halts|]). halts_step; [halts_step|]. halts_step; [halts_step|]. halts_step; [unfold when; repeat halts_step|].
    halts_step; [|repeat halts_step]. destruct (n_type node =? IOVIRT_NODE_ITS_GROUP) eqn:Ei; cbn [negb]; [halts_step|].
    apply halts_add_mappings. intros x b Hx. apply Hadd. unfold references. rewrite Ei. apply elem_of_app. right. by apply list_elem_of_fmap_2.
Qed.

Lemma halts_add_block fuel iort t o b : refs_end fuel iort o = true -> halts (iort_add_block fuel iort t o b).
Proof.
  revert o b. induction fuel as [|f IH]; intros o b Hr; [discriminate Hr|]. cbn [refs_end iort_add_block] in *.
  destruct (nodes iort !! o) as [node|]; [|done].
  apply (halts_add_node (iort_add_block f iort t) t b node). intros o' b' Ho. apply IH. rewrite forallb_forall in Hr. by apply Hr, list_elem_of_In.
Qed.

Lemma halts_create_nodes n fuel iort t o b : (forall o, refs_end fuel iort o = true) -> halts (create_nodes n fuel iort t o b).
Proof.
  intros Hr. revert o b. induction n as [|n IH]; intros o b; cbn [create_nodes]; [halts_step|].
  destruct (_ <=? _); [halts_step|]. halts_step; [by apply halts_add_block|]. repeat halts_step.
Qed.

(** ** The whole run *)

Lemma halts_run fuel iort t : (forall o, refs_end fuel iort o = true) -> halts (pal_iovirt_create_info_table 0 0 fuel (Some iort) t).
Proof.
  intros Hr. unfold pal_iovirt_create_info_table. destruct (t =? 0); [halts_step|]. repeat (halts_step; [by auto with halts|]).
  cbn [Z.eqb negb]. halts_step; [by apply halts_create_nodes|]. destruct a5; cbn [when]; [apply halts_check|halts_step].
Qed.

Lemma run_lists fuel iort t m m' :
  t <> 0 -> bytes_ok m -> plain iort -> pal_iovirt_create_info_table 0 0 fuel (Some iort) t m = Done (tt, m') ->
  exists l, listed_blocks t l m'.
Proof.
  intros Ht Hm Hp E. unfold pal_iovirt_create_info_table in E. destruct (Z.eqb_spec t 0); [done|].
  apply bind_inv in E as ([] & m1 & E1 & E). apply bind_inv in E as ([] & m2 & E2 & E).
  apply bind_inv in E as ([] & m3 & E3 & E). apply bind_inv in E as ([] & m4 & E4 & E).
  apply bind_inv in E as ([] & m5 & E5 & E). apply bind_inv in E as ([] & m6 & E6 & E).
  destruct (zero_header t m m6 Hm) as [Hm6 Hh6].
  { rewrite (bind_done _ _ _ _ _ E1), (bind_done _ _ _ _ _ E2), (bind_done _ _ _ _ _ E3),
      (bind_done _ _ _ _ _ E4), (bind_done _ _ _ _ _ E5). done. }
  cbn [Z.eqb negb] in E. apply bind_inv in E as (ok & m7 & E7 & E).
  assert (H0 : header_at t m6 (tally [])).
  { intros k Hk. rewrite (Hh6 k Hk). f_equal. by assert (k = 0 \/ k = 1 \/ k = 2 \/ k = 3 \/ k = 4 \/ k = 5) as [->|[->|[->|[->|[->| ->]]]]] by lia. }
  destruct (create_nodes_append t iort Hp _ _ _ (t_blocks t) [] m6 ok m7 ltac:(unfold t_blocks; lia) Hm6 H0 E7) as (l & Hm7 & Hh7 & C7 & _).
  exists l. assert (Hl : listed_blocks t l m7) by done. destruct ok; cbn [when] in E; [|injection E as <-; exact Hl].
  by destruct (listed_check t l _ _ _ Hl E).
Qed.

(** C21: the run over an IORT with the table at [t].  It does not diverge when the
    references from every node end.  If it returns, and does not leave the memory it was given, then:
    for every IORT, also a malformed one, the number of blocks in the header is the sum of
    its five counters; and for an IORT without counter groups the memory behind the header
    holds a chain of blocks, each found from the one before it as the queries do, and the six
    words of the header are the number of its blocks and of those of each type.  With a
    counter group the counters need not fit the blocks ([Sample.group_overwrites_block]). *)
Theorem iovirt_counters fuel iort t m :
  t <> 0 -> bytes_ok m -> (forall o, refs_end fuel iort o = true) ->
  match pal_iovirt_create_info_table 0 0 fuel (Some iort) t m with
  | Diverges => False
  | Undefined => True
  | Done (_, m') =>
      counters_ok t m' /\
      (plain iort -> exists l, chain m' (t_blocks t) l /\
        load_le 4 (t_num_blocks t) m' = Some (u32 (Z.of_nat (length l))) /\
        load_le 4 (t_num_smmus t) m' = Some (u32 (of_types [IOVIRT_NODE_SMMU; IOVIRT_NODE_SMMU_V3] l)) /\
        load_le 4 (t_num_pci_rcs t) m' = Some (u32 (of_types [IOVIRT_NODE_PCI_ROOT_COMPLEX] l)) /\
        load_le 4 (t_num_named_components t) m' = Some (u32 (of_types [IOVIRT_NODE_NAMED_COMPONENT] l)) /\
        load_le 4 (t_num_its_groups t) m' = Some (u32 (of_types [IOVIRT_NODE_ITS_GROUP] l)) /\
        load_le 4 (t_num_pmcgs t) m' = Some (u32 (of_types [IOVIRT_NODE_PMCG] l)))
  end.
Proof.
  intros Ht Hm Hr. destruct (pal_iovirt_create_info_table 0 0 fuel (Some iort) t m) as [[[] m']| |] eqn:E; [|done|].
  - split; [by eapply counters_sum|]. intros Hp. destruct (run_lists fuel iort t m m' Ht Hm Hp E) as (l & _ & Hh & Hc).
    exists l. split; [done|]. unfold t_num_blocks, t_num_smmus, t_num_pci_rcs, t_num_named_components, t_num_its_groups, t_num_pmcgs.
    split_and!; [rewrite <- (Z.add_0_r t) at 1; exact (Hh 0 ltac:(lia))|exact (Hh 1 ltac:(lia))|exact (Hh 2 ltac:(lia))
      |exact (Hh 3 ltac:(lia))|exact (Hh 4 ltac:(lia))|exact (Hh 5 ltac:(lia))].
  - by apply (halts_run fuel iort t Hr m).
Qed.

(** ** Samples *)

Module Sample.
Lemma its_first_ends o : refs_end 10 (its_first windows) o = true.
Proof.
  assert (H : forall o n, nodes (its_first windows) !! o = Some n -> refs_end 10 (its_first windows) o = true).
  { apply (map_Forall_to_list (fun o _ => refs_end 10 (its_first windows) o = true)). vm_compute. repeat constructor. }
  destruct (nodes (its_first windows) !! o) as [n|] eqn:E; [by apply (H o n)|]. cbn [refs_end]. by rewrite E.
Qed.

Lemma its_first_plain : plain (its_first windows).
Proof.
  apply (map_Forall_to_list (fun _ node => n_type node <> IOVIRT_NODE_PMCG /\ Z.of_nat (length (mappings node)) < 2 ^ 32 /\
    Z.of_nat (length (identifiers node)) + 3 < 2 ^ 32)). by repeat constructor.
Qed.

(** Two windows of a root complex lead to one group: two blocks, a group and a root complex. *)
Lemma iovirt_counters_witness :
  exists m, build (its_first windows) = Done (tt, m) /\ counters_ok 0x1000 m /\
    exists l, chain m (t_blocks 0x1000) l /\ u32 (Z.of_nat (length l)) = 2 /\
      u32 (of_types [IOVIRT_NODE_PCI_ROOT_COMPLEX] l) = 1 /\ u32 (of_types [IOVIRT_NODE_ITS_GROUP] l) = 1.
Proof.
  assert (Hv : match build (its_first windows) with
    Done (_, m) => (load_le 4 0x1000 m, load_le 4 0x1008 m, load_le 4 0x1010 m) | _ => (None, None, None) end = (Some 2, Some 1, Some 1))
    by (vm_compute; reflexivity).
  assert (Hd : is_done (build (its_first windows)) = true) by (vm_compute; reflexivity).
  destruct (is_done_inv _ Hd) as [m E]. rewrite E in Hv. exists m. split; [exact E|].
  pose proof (iovirt_counters 10 (its_first windows) 0x1000 (zero_bytes 1200 0x1000) ltac:(discriminate) (zero_bytes_ok _ _) its_first_ends) as Hw.
  unfold build in E. rewrite E in Hw. destruct Hw as [Hs Hw]. split; [exact Hs|]. destruct (Hw its_first_plain) as (l & Hc & Hn & _ & Hr & _ & Hi & _).
  exists l. split; [exact Hc|].
  assert (H1 : load_le 4 0x1000 m = Some 2) by congruence. assert (H2 : load_le 4 0x1008 m = Some 1) by congruence.
  assert (H3 : load_le 4 0x1010 m = Some 1) by congruence.
  unfold t_num_blocks, t_num_pci_rcs, t_num_its_groups in *. change (0x1000 + 8) with 0x1008 in Hr. change (0x1000 + 16) with 0x1010 in Hi.
  split_and!; congruence.
Defined.

(** A counter group that refers to an SMMU and stands before it: the SMMU is added and
    counted first, the search for a block equal to the group then meets the group itself, so
    that it is not counted, and so does the search for every node after it.  The header
    counts one block, an SMMU, and the block behind it is the last root complex. *)
Definition with_group : IORT_TABLE :=
  mk_iort 400 4 48 {[ 48 := mk_node 5 40 [] [] [] 0 0 0 0x5000 [] 0 168; 88 := rc_node [];
    168 := mk_node 4 60 [] [] [] 0 0 0 0x6000 [] 0 0; 228 := mk_node 2 80 [] [] [] 1 0 1 0 [] 0 0 ]}.
Definition words (l : list Z) (i : IORT_TABLE) : list (option Z) :=
  match pal_iovirt_create_info_table 0 0 10 (Some i) 0x1000 (zero_bytes 3000 0x1000) with
  | Done (_, m) => (fun a => load_le 4 a m) <$> l
  | _ => []
  end.
Lemma group_overwrites_block :
  words [t_num_blocks 0x1000; t_num_smmus 0x1000; t_num_pci_rcs 0x1000; t_num_pmcgs 0x1000] with_group = [Some 1; Some 1; Some 0; Some 0] /\
  words [b_type (t_blocks 0x1000); d_rc_segment (t_blocks 0x1000)] with_group = [Some IOVIRT_NODE_PCI_ROOT_COMPLEX; Some 1].
Proof. split; vm_compute; reflexivity. Qed.
End Sample.
