(* ===== verification/Smmu.v ===== *)
(** * The SMMU driver

    Models [val/sys_arch_src/smmu_v3/smmu_v3.c] with its headers [smmu_v3.h] and
    [smmu_reg.h], the register accessors of [val/src/acs_smmu.c] and the two
    functions of [val/src/acs_iovirt.c] that call the driver. The queues and the
    tables that the device reads lie in a memory of 64-bit words that the device
    shares: an access to a register may let it read and write that memory. The
    structures of the driver are records; a pointer to an SMMU is its index in
    [g_smmu], a pointer to a master its number in the order of allocation. *)

From S2P Require Import Prelude Status Mmio Bytes Iovirt.

(** ** Bit fields ([smmu_reg.h]) *)

Record bitfield := BF { msb : Z; lsb : Z }.

Definition MASK (f : bitfield) : Z := 2 ^ (msb f - lsb f + 1) - 1.
Definition SHIFT (f : bitfield) : Z := lsb f.
Definition BITFIELD_GET (f : bitfield) (val : Z) : Z := Z.land (Z.shiftr val (SHIFT f)) (MASK f).
Definition BITFIELD_SET (f : bitfield) (val : Z) : Z := Z.shiftl (Z.land val (MASK f)) (SHIFT f).

Definition IDR0_ST_LEVEL : bitfield := BF 28 27.
Definition IDR0_TTF : bitfield := BF 3 2.
Definition IDR1_CMDQS : bitfield := BF 25 21.
Definition IDR1_EVNTQS : bitfield := BF 20 16.
Definition IDR1_SSIDSIZE : bitfield := BF 10 6.
Definition IDR1_SIDSIZE : bitfield := BF 5 0.
Definition IDR5_OAS : bitfield := BF 2 0.
Definition CR1_TABLE_SH : bitfield := BF 11 10.
Definition CR1_TABLE_OC : bitfield := BF 9 8.
Definition CR1_TABLE_IC : bitfield := BF 7 6.
Definition CR1_QUEUE_SH : bitfield := BF 5 4.
Definition CR1_QUEUE_OC : bitfield := BF 3 2.
Definition CR1_QUEUE_IC : bitfield := BF 1 0.
Definition STRTAB_BASE_ADDR : bitfield := BF 51 6.
Definition STRTAB_BASE_CFG_FMT : bitfield := BF 17 16.
Definition STRTAB_BASE_CFG_SPLIT : bitfield := BF 10 6.
Definition STRTAB_BASE_CFG_LOG2SIZE : bitfield := BF 5 0.
Definition EVTQ_0_ID : bitfield := BF 7 0.
Definition QUEUE_BASE_ADDR : bitfield := BF 51 5.
Definition QUEUE_BASE_LOG2SIZE : bitfield := BF 4 0.
Definition STRTAB_L1_DESC_SPAN : bitfield := BF 4 0.
Definition STRTAB_L1_DESC_L2PTR : bitfield := BF 51 6.
Definition STRTAB_STE_0_CONFIG : bitfield := BF 3 1.
Definition STRTAB_STE_0_S1FMT : bitfield := BF 5 4.
Definition STRTAB_STE_0_S1CONTEXTPTR : bitfield := BF 51 6.
Definition STRTAB_STE_0_S1CDMAX : bitfield := BF 63 59.
Definition STRTAB_STE_1_S1DSS : bitfield := BF 1 0.
Definition STRTAB_STE_1_S1CIR : bitfield := BF 3 2.
Definition STRTAB_STE_1_S1COR : bitfield := BF 5 4.
Definition STRTAB_STE_1_S1CSH : bitfield := BF 7 6.
Definition STRTAB_STE_1_EATS : bitfield := BF 29 28.
Definition STRTAB_STE_1_STRW : bitfield := BF 31 30.
Definition STRTAB_STE_1_SHCFG : bitfield := BF 45 44.
Definition STRTAB_STE_2_S2VMID : bitfield := BF 15 0.
Definition STRTAB_STE_2_VTCR : bitfield := BF 50 32.
Definition STRTAB_STE_2_VTCR_S2T0SZ : bitfield := BF 5 0.
Definition STRTAB_STE_2_VTCR_S2SL0 : bitfield := BF 7 6.
Definition STRTAB_STE_2_VTCR_S2IR0 : bitfield := BF 9 8.
Definition STRTAB_STE_2_VTCR_S2OR0 : bitfield := BF 11 10.
Definition STRTAB_STE_2_VTCR_S2SH0 : bitfield := BF 13 12.
Definition STRTAB_STE_2_VTCR_S2TG : bitfield := BF 15 14.
Definition STRTAB_STE_2_VTCR_S2PS : bitfield := BF 18 16.
Definition STRTAB_STE_3_S2TTB : bitfield := BF 51 4.
Definition CMDQ_0_OP : bitfield := BF 7 0.
Definition CMDQ_CFGI_1_RANGE : bitfield := BF 4 0.
Definition CDTAB_L1_DESC_L2PTR : bitfield := BF 51 12.
Definition CDTAB_CD_0_TCR_T0SZ : bitfield := BF 5 0.
Definition CDTAB_CD_0_TCR_TG0 : bitfield := BF 7 6.
Definition CDTAB_CD_0_TCR_IRGN0 : bitfield := BF 9 8.
Definition CDTAB_CD_0_TCR_ORGN0 : bitfield := BF 11 10.
Definition CDTAB_CD_0_TCR_SH0 : bitfield := BF 13 12.
Definition CDTAB_CD_0_TCR_IPS : bitfield := BF 34 32.
Definition CDTAB_CD_0_ASID : bitfield := BF 63 48.
Definition CDTAB_CD_1_TTB0 : bitfield := BF 51 4.

Definition SMMU_QUEUE_OVERFLOW_FLAG : Z := Z.shiftl 1 31.
Definition SMMU_QUEUE_OVF (val : Z) : Z := Z.land val SMMU_QUEUE_OVERFLOW_FLAG.

Definition IDR0_ST_LEVEL_2LVL : Z := 1.
Definition IDR0_CD2L : Z := Z.shiftl 1 19.
Definition IDR0_HYP : Z := Z.shiftl 1 9.
Definition IDR0_S1P : Z := Z.shiftl 1 1.
Definition IDR0_S2P : Z := Z.shiftl 1 0.
Definition IDR0_TTF_AARCH64 : Z := 2.
Definition IDR0_TTF_AARCH32_64 : Z := 3.
Definition IDR1_TABLES_PRESET : Z := Z.shiftl 1 30.
Definition IDR1_QUEUES_PRESET : Z := Z.shiftl 1 29.
Definition smmu_oas : list Z := [32; 36; 40; 42; 44; 48; 52].
Definition SMMU_OAS_MAX_IDX : Z := 7.

Definition SMMU_IDR0_OFFSET : Z := 0x0.
Definition SMMU_IDR1_OFFSET : Z := 0x4.
Definition SMMU_IDR5_OFFSET : Z := 0x14.
Definition SMMU_CR0_OFFSET : Z := 0x20.
Definition SMMU_CR0ACK_OFFSET : Z := 0x24.
Definition SMMU_CR1_OFFSET : Z := 0x28.
Definition SMMU_CR2_OFFSET : Z := 0x2c.
Definition SMMU_GERROR_OFFSET : Z := 0x60.
Definition SMMU_GERRORN_OFFSET : Z := 0x64.
Definition SMMU_STRTAB_BASE_OFFSET : Z := 0x80.
Definition SMMU_STRTAB_BASE_CFG_OFFSET : Z := 0x88.
Definition SMMU_CMDQ_BASE_OFFSET : Z := 0x90.
Definition SMMU_CMDQ_PROD_OFFSET : Z := 0x98.
Definition SMMU_CMDQ_CONS_OFFSET : Z := 0x9c.
Definition SMMU_EVNTQ_BASE_OFFSET : Z := 0xa0.
Definition SMMU_EVNTQ_PROD_OFFSET : Z := 0xa8.
Definition SMMU_EVNTQ_CONS_OFFSET : Z := 0xac.
Definition SMMU_PAGE1_BASE_OFFSET : Z := 0x10000.

Definition CR0_CMDQEN : Z := Z.shiftl 1 3.
Definition CR0_EVNTQEN : Z := Z.shiftl 1 2.
Definition CR0_SMMUEN : Z := Z.shiftl 1 0.
Definition CR1_CACHE_WB : Z := 1.
Definition SMMU_SH_ISH : Z := 3.
Definition SMMU_GERROR_EVTQ_ABT_ERR : Z := Z.shiftl 1 2.
Definition SMMU_GERROR_MSI_EVTQ_ABT_ERR : Z := Z.shiftl 1 5.
Definition STRTAB_BASE_RA : Z := Z.shiftl 1 62.
Definition QUEUE_BASE_RWA : Z := Z.shiftl 1 62.
Definition STRTAB_BASE_CFG_FMT_LINEAR : Z := 0.
Definition STRTAB_BASE_CFG_FMT_2LVL : Z := 1.

(** Identifiers of events; any other one is an invalid fault. *)
Definition EVT_IDS : list Z :=
  [0x01; 0x02; 0x03; 0x04; 0x05; 0x06; 0x07; 0x08; 0x09; 0x0A; 0x0B; 0x10; 0x11; 0x12; 0x13; 0x20; 0x21; 0x24; 0x25].

Definition STRTAB_SPLIT : Z := 8.
Definition STRTAB_L1_DESC_DWORDS : Z := 1.
Definition STRTAB_L1_DESC_SIZE : Z := 8.
Definition STRTAB_STE_DWORDS : Z := 8.
Definition BYTES_PER_DWORD : Z := 8.
Definition STRTAB_STE_0_V : Z := Z.shiftl 1 0.
Definition STRTAB_STE_0_CONFIG_ABORT : Z := 0.
Definition STRTAB_STE_0_CONFIG_S1_TRANS : Z := 5.
Definition STRTAB_STE_0_CONFIG_S2_TRANS : Z := 6.
Definition STRTAB_STE_0_S1FMT_LINEAR : Z := 0.
Definition STRTAB_STE_0_S1FMT_64K_L2 : Z := 2.
Definition STRTAB_STE_1_S1DSS_SSID0 : Z := 0x2.
Definition STRTAB_STE_1_S1C_CACHE_WBRA : Z := 1.
Definition STRTAB_STE_1_SHCFG_INCOMING : Z := 1.
Definition STRTAB_STE_2_S2AA64 : Z := Z.shiftl 1 51.
Definition STRTAB_STE_2_S2PTW : Z := Z.shiftl 1 54.
Definition STRTAB_STE_2_S2R : Z := Z.shiftl 1 58.

Definition CMDQ_DWORDS_PER_ENT : Z := 2.
Definition EVNTQ_DWORDS_PER_ENT : Z := 4.
Definition CMDQ_CFGI_1_ALL_STES : Z := 31.
Definition CMDQ_OP_CFGI_ALL : Z := 0x4.
Definition CMDQ_OP_TLBI_EL2_ALL : Z := 0x20.
Definition CMDQ_OP_TLBI_NSNH_ALL : Z := 0x30.
Definition CMDQ_OP_CMD_SYNC : Z := 0x46.
Definition SMMU_CMDQ_POLL_TIMEOUT : positive := 0x100000.

Definition CDTAB_SPLIT : Z := 10.
Definition CDTAB_L2_ENTRY_COUNT : Z := Z.shiftl 1 CDTAB_SPLIT.
Definition CDTAB_L1_DESC_DWORDS : Z := 1.
Definition CDTAB_L1_DESC_V : Z := Z.shiftl 1 0.
Definition CDTAB_CD_DWORDS : Z := 8.
Definition CDTAB_CD_0_TCR_EPD1 : Z := Z.shiftl 1 30.
Definition CDTAB_CD_0_V : Z := Z.shiftl 1 31.
Definition CDTAB_CD_0_AA64 : Z := Z.shiftl 1 41.
Definition CDTAB_CD_0_R : Z := Z.shiftl 1 45.
Definition CDTAB_CD_0_A : Z := Z.shiftl 1 46.
Definition CDTAB_CD_0_ASET : Z := Z.shiftl 1 47.

(** ** Data ([smmu_v3.h]) *)

Record smmu_queue_t := mk_queue {
  prod : Z;
  cons : Z;
  log2nent : Z }.

Definition set_prod (v : Z) (s : smmu_queue_t) : smmu_queue_t :=
  mk_queue v (cons s) (log2nent s).
Definition set_cons (v : Z) (s : smmu_queue_t) : smmu_queue_t :=
  mk_queue (prod s) v (log2nent s).
Definition set_log2nent (v : Z) (s : smmu_queue_t) : smmu_queue_t :=
  mk_queue (prod s) (cons s) v.

(** [smmu_cmd_queue_t] and [smmu_evnt_queue_t] have the same fields. *)
Record smmu_cmd_queue_t := mk_cmd_queue {
  queue : smmu_queue_t;
  base_ptr : Z;
  q_base : Z;
  base_phys : Z;
  queue_base : Z;
  entry_size : Z;
  prod_reg : Z;
  cons_reg : Z }.

Definition set_queue (v : smmu_queue_t) (s : smmu_cmd_queue_t) : smmu_cmd_queue_t :=
  mk_cmd_queue v (base_ptr s) (q_base s) (base_phys s) (queue_base s) (entry_size s)
    (prod_reg s) (cons_reg s).

Record smmu_strtab_l1_desc_t := mk_l1_desc { span : Z; l2ptr : Z; l2desc64 : Z; l2desc_phys : Z }.
Record smmu_stage2_config_t := mk_stage2 { vmid : Z; vttbr : Z; vtcr : Z }.
Record smmu_cdtab_ctx_desc_t := mk_cd { asid : Z; ttbr : Z; tcr : Z; mair : Z }.
Record smmu_cdtab_l1_ctx_desc_t := mk_l1_ctx { cd_l2ptr : Z; cd_l2desc64 : Z; cd_l2desc_phys : Z }.

(** [cd_l1_ptr] is the address of the array [cd_l1_desc]. *)
Record smmu_cdtab_config_t := mk_cdcfg {
  cdtab_ptr : Z;
  cdtab64 : Z;
  cdtab_phys : Z;
  cd_l1_ptr : Z;
  cd_l1_desc : list smmu_cdtab_l1_ctx_desc_t;
  cd_l1_ent_count : Z }.

Definition set_cdtab_ptr (v : Z) (s : smmu_cdtab_config_t) : smmu_cdtab_config_t :=
  mk_cdcfg v (cdtab64 s) (cdtab_phys s) (cd_l1_ptr s) (cd_l1_desc s) (cd_l1_ent_count s).
Definition set_cd_l1_desc (v : list smmu_cdtab_l1_ctx_desc_t) (s : smmu_cdtab_config_t) : smmu_cdtab_config_t :=
  mk_cdcfg (cdtab_ptr s) (cdtab64 s) (cdtab_phys s) (cd_l1_ptr s) v (cd_l1_ent_count s).

Record smmu_stage1_config_t := mk_stage1 {
  cdcfg : smmu_cdtab_config_t;
  cd : smmu_cdtab_ctx_desc_t;
  s1fmt : Z;
  s1cdmax : Z }.

Definition set_cdcfg (v : smmu_cdtab_config_t) (s : smmu_stage1_config_t) : smmu_stage1_config_t :=
  mk_stage1 v (cd s) (s1fmt s) (s1cdmax s).
Definition set_cd (v : smmu_cdtab_ctx_desc_t) (s : smmu_stage1_config_t) : smmu_stage1_config_t :=
  mk_stage1 (cdcfg s) v (s1fmt s) (s1cdmax s).
Definition set_s1fmt (v : Z) (s : smmu_stage1_config_t) : smmu_stage1_config_t :=
  mk_stage1 (cdcfg s) (cd s) v (s1cdmax s).
Definition set_s1cdmax (v : Z) (s : smmu_stage1_config_t) : smmu_stage1_config_t :=
  mk_stage1 (cdcfg s) (cd s) (s1fmt s) v.

(** [l1_ptr] is the address of the array [l1_desc]. *)
Record smmu_strtab_config_t := mk_strtab {
  strtab_ptr : Z;
  strtab64 : Z;
  strtab_phys : Z;
  l1_ptr : Z;
  l1_desc : list smmu_strtab_l1_desc_t;
  l1_ent_count : Z;
  strtab_base : Z;
  strtab_base_cfg : Z }.

Definition set_strtab_ptr (v : Z) (s : smmu_strtab_config_t) : smmu_strtab_config_t :=
  mk_strtab v (strtab64 s) (strtab_phys s) (l1_ptr s) (l1_desc s) (l1_ent_count s)
    (strtab_base s) (strtab_base_cfg s).
Definition set_strtab64 (v : Z) (s : smmu_strtab_config_t) : smmu_strtab_config_t :=
  mk_strtab (strtab_ptr s) v (strtab_phys s) (l1_ptr s) (l1_desc s) (l1_ent_count s)
    (strtab_base s) (strtab_base_cfg s).
Definition set_strtab_phys (v : Z) (s : smmu_strtab_config_t) : smmu_strtab_config_t :=
  mk_strtab (strtab_ptr s) (strtab64 s) v (l1_ptr s) (l1_desc s) (l1_ent_count s)
    (strtab_base s) (strtab_base_cfg s).
Definition set_l1_ptr (v : Z) (s : smmu_strtab_config_t) : smmu_strtab_config_t :=
  mk_strtab (strtab_ptr s) (strtab64 s) (strtab_phys s) v (l1_desc s) (l1_ent_count s)
    (strtab_base s) (strtab_base_cfg s).
Definition set_l1_desc (v : list smmu_strtab_l1_desc_t) (s : smmu_strtab_config_t) : smmu_strtab_config_t :=
  mk_strtab (strtab_ptr s) (strtab64 s) (strtab_phys s) (l1_ptr s) v (l1_ent_count s)
    (strtab_base s) (strtab_base_cfg s).
Definition set_l1_ent_count (v : Z) (s : smmu_strtab_config_t) : smmu_strtab_config_t :=
  mk_strtab (strtab_ptr s) (strtab64 s) (strtab_phys s) (l1_ptr s) (l1_desc s) v (strtab_base s)
    (strtab_base_cfg s).
Definition set_strtab_base (v : Z) (s : smmu_strtab_config_t) : smmu_strtab_config_t :=
  mk_strtab (strtab_ptr s) (strtab64 s) (strtab_phys s) (l1_ptr s) (l1_desc s) (l1_ent_count s)
    v (strtab_base_cfg s).
Definition set_strtab_base_cfg (v : Z) (s : smmu_strtab_config_t) : smmu_strtab_config_t :=
  mk_strtab (strtab_ptr s) (strtab64 s) (strtab_phys s) (l1_ptr s) (l1_desc s) (l1_ent_count s)
    (strtab_base s) v.

Record smmu_supported := mk_supported {
  st_level_2lvl : bool;
  cd2l : bool;
  hyp : bool;
  s1p : bool;
  s2p : bool }.

Definition set_st_level_2lvl (v : bool) (s : smmu_supported) : smmu_supported :=
  mk_supported v (cd2l s) (hyp s) (s1p s) (s2p s).

Record smmu_dev_t := mk_dev {
  base : Z;
  page1_base : Z;
  ias : Z;
  oas : Z;
  ssid_bits : Z;
  sid_bits : Z;
  cmdq : smmu_cmd_queue_t;
  evntq : smmu_cmd_queue_t;
  strtab_cfg : smmu_strtab_config_t;
  supported : smmu_supported }.

Definition set_base (v : Z) (s : smmu_dev_t) : smmu_dev_t :=
  mk_dev v (page1_base s) (ias s) (oas s) (ssid_bits s) (sid_bits s) (cmdq s) (evntq s)
    (strtab_cfg s) (supported s).
Definition set_page1_base (v : Z) (s : smmu_dev_t) : smmu_dev_t :=
  mk_dev (base s) v (ias s) (oas s) (ssid_bits s) (sid_bits s) (cmdq s) (evntq s) (strtab_cfg s)
    (supported s).
Definition set_ias (v : Z) (s : smmu_dev_t) : smmu_dev_t :=
  mk_dev (base s) (page1_base s) v (oas s) (ssid_bits s) (sid_bits s) (cmdq s) (evntq s)
    (strtab_cfg s) (supported s).
Definition set_oas (v : Z) (s : smmu_dev_t) : smmu_dev_t :=
  mk_dev (base s) (page1_base s) (ias s) v (ssid_bits s) (sid_bits s) (cmdq s) (evntq s)
    (strtab_cfg s) (supported s).
Definition set_ssid_bits (v : Z) (s : smmu_dev_t) : smmu_dev_t :=
  mk_dev (base s) (page1_base s) (ias s) (oas s) v (sid_bits s) (cmdq s) (evntq s)
    (strtab_cfg s) (supported s).
Definition set_sid_bits (v : Z) (s : smmu_dev_t) : smmu_dev_t :=
  mk_dev (base s) (page1_base s) (ias s) (oas s) (ssid_bits s) v (cmdq s) (evntq s)
    (strtab_cfg s) (supported s).
Definition set_cmdq (v : smmu_cmd_queue_t) (s : smmu_dev_t) : smmu_dev_t :=
  mk_dev (base s) (page1_base s) (ias s) (oas s) (ssid_bits s) (sid_bits s) v (evntq s)
    (strtab_cfg s) (supported s).
Definition set_evntq (v : smmu_cmd_queue_t) (s : smmu_dev_t) : smmu_dev_t :=
  mk_dev (base s) (page1_base s) (ias s) (oas s) (ssid_bits s) (sid_bits s) (cmdq s) v
    (strtab_cfg s) (supported s).
Definition set_strtab_cfg (v : smmu_strtab_config_t) (s : smmu_dev_t) : smmu_dev_t :=
  mk_dev (base s) (page1_base s) (ias s) (oas s) (ssid_bits s) (sid_bits s) (cmdq s) (evntq s) v
    (supported s).
Definition set_supported (v : smmu_supported) (s : smmu_dev_t) : smmu_dev_t :=
  mk_dev (base s) (page1_base s) (ias s) (oas s) (ssid_bits s) (sid_bits s) (cmdq s) (evntq s)
    (strtab_cfg s) v.

Inductive smmu_stage_t := SMMU_STAGE_S1 | SMMU_STAGE_S2 | SMMU_STAGE_BYPASS.

Record smmu_master_t := mk_master {
  m_smmu : option Z;
  stage : smmu_stage_t;
  stage1_config : smmu_stage1_config_t;
  stage2_config : smmu_stage2_config_t;
  sid : Z;
  ssid : Z;
  m_ssid_bits : Z }.

Definition set_m_smmu (v : option Z) (s : smmu_master_t) : smmu_master_t :=
  mk_master v (stage s) (stage1_config s) (stage2_config s) (sid s) (ssid s) (m_ssid_bits s).
Definition set_stage (v : smmu_stage_t) (s : smmu_master_t) : smmu_master_t :=
  mk_master (m_smmu s) v (stage1_config s) (stage2_config s) (sid s) (ssid s) (m_ssid_bits s).
Definition set_stage1_config (v : smmu_stage1_config_t) (s : smmu_master_t) : smmu_master_t :=
  mk_master (m_smmu s) (stage s) v (stage2_config s) (sid s) (ssid s) (m_ssid_bits s).
Definition set_stage2_config (v : smmu_stage2_config_t) (s : smmu_master_t) : smmu_master_t :=
  mk_master (m_smmu s) (stage s) (stage1_config s) v (sid s) (ssid s) (m_ssid_bits s).
Definition set_sid (v : Z) (s : smmu_master_t) : smmu_master_t :=
  mk_master (m_smmu s) (stage s) (stage1_config s) (stage2_config s) v (ssid s) (m_ssid_bits s).
Definition set_ssid (v : Z) (s : smmu_master_t) : smmu_master_t :=
  mk_master (m_smmu s) (stage s) (stage1_config s) (stage2_config s) (sid s) v (m_ssid_bits s).
Definition set_m_ssid_bits (v : Z) (s : smmu_master_t) : smmu_master_t :=
  mk_master (m_smmu s) (stage s) (stage1_config s) (stage2_config s) (sid s) (ssid s) v.

(** Memory from [val_memory_calloc]. *)
Definition queue_zero : smmu_cmd_queue_t := mk_cmd_queue (mk_queue 0 0 0) 0 0 0 0 0 0 0.
Definition dev_zero : smmu_dev_t :=
  mk_dev 0 0 0 0 0 0 queue_zero queue_zero (mk_strtab 0 0 0 0 [] 0 0 0) (mk_supported false false false false false).
Definition l1_zero : smmu_strtab_l1_desc_t := mk_l1_desc 0 0 0 0.
Definition l1_ctx_zero : smmu_cdtab_l1_ctx_desc_t := mk_l1_ctx 0 0 0.
Definition master_zero : smmu_master_t :=
  mk_master None SMMU_STAGE_S1 (mk_stage1 (mk_cdcfg 0 0 0 0 [] 0) (mk_cd 0 0 0 0) 0 0) (mk_stage2 0 0 0) 0 0 0.

Record smmu_master_attributes_t := mk_attr {
  smmu_index : Z; streamid : Z; substreamid : Z; attr_ssid_bits : Z; stage2 : Z }.
Record PE_TCR_BF := mk_tcr { tcr_ps : Z; tcr_tg : Z; tcr_sh : Z; tcr_orgn : Z; tcr_irgn : Z; tcr_tsz : Z; tcr_sl : Z }.
Record pgt_descriptor_t := mk_pgt_desc { pgt_base : Z; pgt_mair : Z; pgt_tcr : PE_TCR_BF }.

(** ** The machine *)

(** The words of memory by address, and the device. *)
Record machine (D : Type) := mk_machine { mem : gmap Z Z; dev : D }.
Arguments mk_machine {D} mem dev.
Arguments mem {D} m.
Arguments dev {D} m.

Record smmu_state (D : Type) := mk_smmu {
  mach : machine D;
  allocs : list Z;   (* answers of the allocator to come, 0 when it fails *)
  freed : list Z;   (* addresses given back, newest first *)
  g_smmu : option (Z * list smmu_dev_t);   (* address and elements of the array *)
  g_smmu_index : Z;
  g_num_smmus : Z;
  masters : list smmu_master_t;   (* the list of masters, oldest first *)
  g_iovirt_info_table : Z;
  iovirt_mem : bytes;
  reported : list (list Z) }.   (* events printed, oldest first *)
Arguments mk_smmu {D}.
Arguments mach {D} _.
Arguments allocs {D} _.
Arguments freed {D} _.
Arguments g_smmu {D} _.
Arguments g_smmu_index {D} _.
Arguments g_num_smmus {D} _.
Arguments masters {D} _.
Arguments g_iovirt_info_table {D} _.
Arguments iovirt_mem {D} _.
Arguments reported {D} _.


Definition set_mach {D} (v : machine D) (s : smmu_state D) : smmu_state D :=
  mk_smmu v (allocs s) (freed s) (g_smmu s) (g_smmu_index s) (g_num_smmus s) (masters s)
    (g_iovirt_info_table s) (iovirt_mem s) (reported s).
Definition set_allocs {D} (v : list Z) (s : smmu_state D) : smmu_state D :=
  mk_smmu (mach s) v (freed s) (g_smmu s) (g_smmu_index s) (g_num_smmus s) (masters s)
    (g_iovirt_info_table s) (iovirt_mem s) (reported s).
Definition set_freed {D} (v : list Z) (s : smmu_state D) : smmu_state D :=
  mk_smmu (mach s) (allocs s) v (g_smmu s) (g_smmu_index s) (g_num_smmus s) (masters s)
    (g_iovirt_info_table s) (iovirt_mem s) (reported s).
Definition set_g_smmu {D} (v : option (Z * list smmu_dev_t)) (s : smmu_state D) : smmu_state D :=
  mk_smmu (mach s) (allocs s) (freed s) v (g_smmu_index s) (g_num_smmus s) (masters s)
    (g_iovirt_info_table s) (iovirt_mem s) (reported s).
Definition set_g_smmu_index {D} (v : Z) (s : smmu_state D) : smmu_state D :=
  mk_smmu (mach s) (allocs s) (freed s) (g_smmu s) v (g_num_smmus s) (masters s)
    (g_iovirt_info_table s) (iovirt_mem s) (reported s).
Definition set_g_num_smmus {D} (v : Z) (s : smmu_state D) : smmu_state D :=
  mk_smmu (mach s) (allocs s) (freed s) (g_smmu s) (g_smmu_index s) v (masters s)
    (g_iovirt_info_table s) (iovirt_mem s) (reported s).
Definition set_masters {D} (v : list smmu_master_t) (s : smmu_state D) : smmu_state D :=
  mk_smmu (mach s) (allocs s) (freed s) (g_smmu s) (g_smmu_index s) (g_num_smmus s) v
    (g_iovirt_info_table s) (iovirt_mem s) (reported s).
Definition set_g_iovirt_info_table {D} (v : Z) (s : smmu_state D) : smmu_state D :=
  mk_smmu (mach s) (allocs s) (freed s) (g_smmu s) (g_smmu_index s) (g_num_smmus s) (masters s)
    v (iovirt_mem s) (reported s).
Definition set_iovirt_mem {D} (v : bytes) (s : smmu_state D) : smmu_state D :=
  mk_smmu (mach s) (allocs s) (freed s) (g_smmu s) (g_smmu_index s) (g_num_smmus s) (masters s)
    (g_iovirt_info_table s) v (reported s).
Definition set_reported {D} (v : list (list Z)) (s : smmu_state D) : smmu_state D :=
  mk_smmu (mach s) (allocs s) (freed s) (g_smmu s) (g_smmu_index s) (g_num_smmus s) (masters s)
    (g_iovirt_info_table s) (iovirt_mem s) v.

Section Driver.
Context {D : Type} `{Hardware (machine D)}.
(** The contents of memory from [val_memory_alloc], and the configured limit on
    the width of stream IDs. *)
Context (garbage : Z -> Z) (MAX_SID : Z).
Local Abbreviation P := (prog (smmu_state D)).

(** ** Registers, memory and pointers *)

Definition on_mach {A} (m : prog (machine D) A) : P A := fun s =>
  match m (mach s) with
  | Done (a, h) => Done (a, set_mach h s)
  | Undefined => Undefined
  | Diverges => Diverges
  end.

Definition val_mmio_read (addr : Z) : P Z := on_mach (pal_mmio_read (u64 addr)).
Definition val_mmio_write (addr data : Z) : P unit := on_mach (pal_mmio_write (u64 addr) data).
Definition val_mmio_write64 (addr data : Z) : P unit := on_mach (pal_mmio_write64 (u64 addr) data).

(** Loads and stores of 64-bit words. *)
Definition ld64 (a : Z) : P Z := let* h := gets mach in deref (mem h !! a).
Definition st64 (a v : Z) : P unit :=
  let* h := gets mach in
  let* _ := deref (mem h !! a) in
  modify (set_mach (mk_machine (<[a := u64 v]> (mem h)) (dev h))).
Fixpoint st_words (a : Z) (l : list Z) : P unit :=
  match l with [] => ret tt | v :: l' => st64 a v ;;; st_words (a + 8) l' end.
Fixpoint ld_words (a : Z) (n : nat) : P (list Z) :=
  match n with
  | O => ret []
  | S k => let* v := ld64 a in let* l := ld_words (a + 8) k in ret (v :: l)
  end.

Definition next_alloc : P Z :=
  let* l := gets allocs in
  match l with [] => ret 0 | p :: l' => modify (set_allocs l') ;;; ret p end.

(** An allocation of [size] bytes with contents [f]. *)
Definition alloc_words (size : Z) (f : Z -> Z) : P Z :=
  let* p := next_alloc in
  if p =? 0 then ret 0 else
  let* h := gets mach in
  modify (set_mach (mk_machine (fill_words (Z.to_nat (size / 8)) p f (mem h)) (dev h))) ;;;
  ret p.
Definition val_memory_calloc (num size : Z) : P Z := alloc_words (u32 num * u32 size) (fun _ => 0).
Definition val_memory_alloc (size : Z) : P Z := alloc_words (u32 size) garbage.
Definition val_memory_free (p : Z) : P unit := let* f := gets freed in modify (set_freed (p :: f)).
Definition val_memory_virt_to_phys (a : Z) : Z := a.

Definition dev_at (i : Z) : P smmu_dev_t :=
  let* g := gets g_smmu in
  match g with Some (_, l) => deref (at_index l i) | None => undef end.
Definition put_dev (i : Z) (d : smmu_dev_t) : P unit :=
  let* g := gets g_smmu in
  match g with
  | Some (p, l) => let* _ := deref (at_index l i) in modify (set_g_smmu (Some (p, <[Z.to_nat i := d]> l)))
  | None => undef
  end.
Definition upd_dev (i : Z) (f : smmu_dev_t -> smmu_dev_t) : P unit := let* d := dev_at i in put_dev i (f d).
Definition upd_strtab (i : Z) (f : smmu_strtab_config_t -> smmu_strtab_config_t) : P unit :=
  upd_dev i (fun d => set_strtab_cfg (f (strtab_cfg d)) d).

Definition master_ref (k : nat) : P smmu_master_t := let* l := gets masters in deref (l !! k).
Definition upd_master (k : nat) (f : smmu_master_t -> smmu_master_t) : P unit :=
  let* m := master_ref k in let* l := gets masters in modify (set_masters (<[k := f m]> l)).
Definition upd_stage1 (k : nat) (f : smmu_stage1_config_t -> smmu_stage1_config_t) : P unit :=
  upd_master k (fun m => set_stage1_config (f (stage1_config m)) m).

(** [1 << n] as an [int]. *)
Definition shl_int (n : Z) : P Z := if (0 <=? n) && (n <? 32) then ret (i32 (2 ^ n)) else undef.

(** ** Queues *)

Definition align_to_size (addr size : Z) : Z :=
  Z.land (u64 (size - Z.land addr (size - 1) + addr)) (Z.lnot (size - 1)).

Definition smmu_inc_prod (q : smmu_queue_t) : Z :=
  u32 (Z.land (u32 (prod q + 1)) (Z.shiftl 1 (log2nent q + 1) - 1)).
Definition smmu_inc_cons (q : smmu_queue_t) : Z :=
  u32 (Z.land (u32 (cons q + 1)) (Z.shiftl 1 (log2nent q + 1) - 1)).

Definition smmu_queue_full (q : smmu_queue_t) : bool :=
  let index_mask := u32 (Z.shiftl 1 (log2nent q) - 1) in
  let wrap_mask := u32 (Z.shiftl 1 (log2nent q)) in
  (Z.land (prod q) index_mask =? Z.land (cons q) index_mask) &&
  negb (Z.land (prod q) wrap_mask =? Z.land (cons q) wrap_mask).

Definition smmu_queue_empty (q : smmu_queue_t) : bool :=
  let index_mask := u32 (Z.shiftl 1 (log2nent q) - 1) in
  let wrap_mask := u32 (Z.shiftl 1 (log2nent q)) in
  (Z.land (prod q) index_mask =? Z.land (cons q) index_mask) &&
  (Z.land (prod q) wrap_mask =? Z.land (cons q) wrap_mask).

(** The command, [None] when the opcode is not supported. *)
Definition smmu_cmdq_build_cmd (opcode : Z) : option (list Z) :=
  let cmd0 := BITFIELD_SET CMDQ_0_OP opcode in
  if (opcode =? CMDQ_OP_TLBI_EL2_ALL) || (opcode =? CMDQ_OP_TLBI_NSNH_ALL) || (opcode =? CMDQ_OP_CMD_SYNC)
  then Some [cmd0; 0]
  else if opcode =? CMDQ_OP_CFGI_ALL then Some [cmd0; BITFIELD_SET CMDQ_CFGI_1_RANGE CMDQ_CFGI_1_ALL_STES]
  else None.

(** The address of entry [idx] of a queue. *)
Definition entry_addr (q : smmu_cmd_queue_t) (idx : Z) : Z :=
  u64 (q_base q + Z.land idx (Z.shiftl 1 (log2nent (queue q)) - 1) * entry_size q).

(** The first loop tests the copy [cmdq->queue] of the driver. *)
Definition smmu_cmdq_write_cmd (smmu : Z) (cmd : list Z) : P Z :=
  let* d := dev_at smmu in
  let* r := rounds SMMU_CMDQ_POLL_TIMEOUT
    (let* d := dev_at smmu in ret (if smmu_queue_full (queue (cmdq d)) then None else Some tt)) in
  match r with
  | None => ret (-1)
  | Some _ =>
      let* p := val_mmio_read (prod_reg (cmdq d)) in
      let q := mk_queue p 0 (log2nent (queue (cmdq d))) in
      st_words (entry_addr (cmdq d) p) cmd ;;;
      val_mmio_write (prod_reg (cmdq d)) (smmu_inc_prod q) ;;;
      ret 0
  end.

Definition smmu_cmdq_issue_cmd (smmu opcode : Z) : P Z :=
  match smmu_cmdq_build_cmd opcode with
  | None => ret (-1)
  | Some cmd => smmu_cmdq_write_cmd smmu cmd
  end.

(** After a time-out the registers are read again, to print them. *)
Definition smmu_cmdq_poll_until_consumed (smmu : Z) : P unit :=
  let* d := dev_at smmu in
  let* p := val_mmio_read (prod_reg (cmdq d)) in
  let* c := val_mmio_read (cons_reg (cmdq d)) in
  let* r := loop SMMU_CMDQ_POLL_TIMEOUT (fun q =>
    if smmu_queue_empty q then ret (inl tt)
    else let* c := val_mmio_read (cons_reg (cmdq d)) in ret (inr (set_cons c q)))
    (mk_queue p c (log2nent (queue (cmdq d)))) in
  match r with
  | inl _ => ret tt
  | inr _ =>
      let* _ := val_mmio_read (prod_reg (cmdq d)) in
      let* _ := val_mmio_read (cons_reg (cmdq d)) in
      let* _ := val_mmio_read (base d + SMMU_GERROR_OFFSET) in
      ret tt
  end.

(** ** Stream table entries *)

(** [ste] is an address; [None] is a NULL master. *)
Definition smmu_strtab_write_ste (master : option smmu_master_t) (ste : Z) : P unit :=
  let val := STRTAB_STE_0_V in
  match master with
  | None =>
      st64 ste (Z.lor val (BITFIELD_SET STRTAB_STE_0_CONFIG STRTAB_STE_0_CONFIG_ABORT)) ;;;
      st64 (ste + 8) (BITFIELD_SET STRTAB_STE_1_SHCFG STRTAB_STE_1_SHCFG_INCOMING) ;;;
      st64 (ste + 16) 0
  | Some m =>
      match stage m with
      | SMMU_STAGE_S2 =>
          let cfg := stage2_config m in
          let* w1 := ld64 (ste + 8) in
          st64 (ste + 8) (Z.lor w1 (Z.lor (BITFIELD_SET STRTAB_STE_1_STRW 0x2) (BITFIELD_SET STRTAB_STE_1_EATS 0x1))) ;;;
          st64 (ste + 16)
            (Z.lor (Z.lor (Z.lor (Z.lor (BITFIELD_SET STRTAB_STE_2_S2VMID (vmid cfg))
              (BITFIELD_SET STRTAB_STE_2_VTCR (vtcr cfg))) STRTAB_STE_2_S2PTW) STRTAB_STE_2_S2AA64) STRTAB_STE_2_S2R) ;;;
          st64 (ste + 24) (Z.land (vttbr cfg) (MASK STRTAB_STE_3_S2TTB)) ;;;
          st64 ste (Z.lor val (BITFIELD_SET STRTAB_STE_0_CONFIG STRTAB_STE_0_CONFIG_S2_TRANS))
      | SMMU_STAGE_S1 =>
          let cfg := stage1_config m in
          st64 (ste + 8)
            (Z.lor (Z.lor (Z.lor (Z.lor (BITFIELD_SET STRTAB_STE_1_S1DSS STRTAB_STE_1_S1DSS_SSID0)
              (BITFIELD_SET STRTAB_STE_1_S1CIR STRTAB_STE_1_S1C_CACHE_WBRA))
              (BITFIELD_SET STRTAB_STE_1_S1COR STRTAB_STE_1_S1C_CACHE_WBRA))
              (BITFIELD_SET STRTAB_STE_1_S1CSH SMMU_SH_ISH)) (BITFIELD_SET STRTAB_STE_1_EATS 0x1)) ;;;
          st64 ste
            (Z.lor val
              (Z.lor (Z.lor (Z.lor
                (Z.land (cdtab_phys (cdcfg cfg)) (Z.shiftl (MASK STRTAB_STE_0_S1CONTEXTPTR) (SHIFT STRTAB_STE_0_S1CONTEXTPTR)))
                (BITFIELD_SET STRTAB_STE_0_CONFIG STRTAB_STE_0_CONFIG_S1_TRANS))
                (BITFIELD_SET STRTAB_STE_0_S1CDMAX (s1cdmax cfg)))
                (BITFIELD_SET STRTAB_STE_0_S1FMT (s1fmt cfg))))
      | SMMU_STAGE_BYPASS => ret tt
      end
  end.

(** The entries of a table of [n] from [ste], all aborting. *)
Fixpoint abort_entries (n : nat) (ste : Z) : P unit :=
  match n with
  | O => ret tt
  | S k => smmu_strtab_write_ste None ste ;;; abort_entries k (ste + 8 * STRTAB_STE_DWORDS)
  end.

Definition smmu_strtab_init_linear (smmu : Z) : P Z :=
  let* d := dev_at smmu in
  let* ents := shl_int (sid_bits d) in
  let size := u32 (ents * Z.shiftl STRTAB_STE_DWORDS 3) in
  let* p := val_memory_calloc 2 size in
  upd_strtab smmu (set_strtab_ptr p) ;;;
  if p =? 0 then ret 0 else
  let phys := align_to_size (val_memory_virt_to_phys p) size in
  let virt := align_to_size p size in
  upd_strtab smmu (fun c => set_strtab_phys phys (set_strtab64 virt (set_l1_ent_count (u32 ents)
    (set_strtab_base_cfg (Z.lor (BITFIELD_SET STRTAB_BASE_CFG_FMT STRTAB_BASE_CFG_FMT_LINEAR)
      (BITFIELD_SET STRTAB_BASE_CFG_LOG2SIZE (sid_bits d))) c)))) ;;;
  abort_entries (Z.to_nat (u32 ents)) virt ;;;
  ret 1.

(** The fields both queue initialisers set. *)
Definition new_queue (q : smmu_cmd_queue_t) (p size prod_r cons_r esize : Z) : smmu_cmd_queue_t :=
  let phys := align_to_size (val_memory_virt_to_phys p) size in
  mk_cmd_queue (mk_queue 0 0 (log2nent (queue q))) p (align_to_size p size) phys
    (Z.lor (Z.lor QUEUE_BASE_RWA (Z.land phys (Z.shiftl (MASK QUEUE_BASE_ADDR) (SHIFT QUEUE_BASE_ADDR))))
      (BITFIELD_SET QUEUE_BASE_LOG2SIZE (log2nent (queue q))))
    esize prod_r cons_r.

Definition set_base_ptr (p : Z) (q : smmu_cmd_queue_t) : smmu_cmd_queue_t :=
  mk_cmd_queue (queue q) p (q_base q) (base_phys q) (queue_base q) (entry_size q) (prod_reg q) (cons_reg q).

Definition smmu_cmd_queue_init (smmu : Z) : P Z :=
  let* d := dev_at smmu in
  let* n := shl_int (log2nent (queue (cmdq d))) in
  let size := u64 (i32 (Z.shiftl (i32 (n * CMDQ_DWORDS_PER_ENT)) 3)) in
  let size := if size <? 32 then 32 else size in
  let* p := val_memory_calloc 2 size in
  upd_dev smmu (fun d => set_cmdq (set_base_ptr p (cmdq d)) d) ;;;
  if p =? 0 then ret 0 else
  upd_dev smmu (fun d => set_cmdq (new_queue (cmdq d) p size (u64 (base d + SMMU_CMDQ_PROD_OFFSET))
    (u64 (base d + SMMU_CMDQ_CONS_OFFSET)) (Z.shiftl CMDQ_DWORDS_PER_ENT 3)) d) ;;;
  ret 1.

Definition smmu_evnt_queue_init (smmu : Z) : P Z :=
  let* d := dev_at smmu in
  let* n := shl_int (log2nent (queue (evntq d))) in
  let size := u64 (i32 (Z.shiftl (i32 (n * EVNTQ_DWORDS_PER_ENT)) 3)) in
  let size := if size <? 64 then 64 else size in
  let* p := val_memory_calloc 1 size in
  upd_dev smmu (fun d => set_evntq (set_base_ptr p (evntq d)) d) ;;;
  if p =? 0 then ret 0 else
  upd_dev smmu (fun d => set_evntq (new_queue (evntq d) p size (u64 (page1_base d + SMMU_EVNTQ_PROD_OFFSET))
    (u64 (page1_base d + SMMU_EVNTQ_CONS_OFFSET)) (Z.shiftl EVNTQ_DWORDS_PER_ENT 3)) d) ;;;
  ret 1.

(** [n] descriptors of the first level are looked at. *)
Fixpoint free_level2 (n : nat) (l : list smmu_strtab_l1_desc_t) : P unit :=
  match n with
  | O => ret tt
  | S k => match l with
           | [] => undef
           | x :: l' => when (negb (l2ptr x =? 0)) (val_memory_free (l2ptr x)) ;;; free_level2 k l'
           end
  end.

Definition smmu_free_strtab (smmu : Z) : P unit :=
  let* d := dev_at smmu in
  let c := strtab_cfg d in
  if strtab_ptr c =? 0 then ret tt else
  when (st_level_2lvl (supported d) && negb (l1_ptr c =? 0))
    (free_level2 (Z.to_nat (l1_ent_count c)) (l1_desc c) ;;; val_memory_free (l1_ptr c)) ;;;
  val_memory_free (strtab_ptr c).

Definition smmu_strtab_write_level1_desc (dst : Z) (x : smmu_strtab_l1_desc_t) : P unit :=
  st64 dst (Z.lor (BITFIELD_SET STRTAB_L1_DESC_SPAN (span x))
    (Z.land (l2desc_phys x) (Z.shiftl (MASK STRTAB_L1_DESC_L2PTR) (SHIFT STRTAB_L1_DESC_L2PTR)))).

(** The descriptor of the first level with index [i]. *)
Definition upd_l1 (smmu i : Z) (x : smmu_strtab_l1_desc_t) : P unit :=
  upd_strtab smmu (fun c => set_l1_desc (<[Z.to_nat i := x]> (l1_desc c)) c).

Definition smmu_strtab_init_level2 (smmu sid : Z) : P Z :=
  let* d := dev_at smmu in
  let c := strtab_cfg d in
  let i := Z.shiftr sid STRTAB_SPLIT in
  let* x := deref (at_index (l1_desc c) i) in
  if negb (l2ptr x =? 0) then ret 1 else
  let size := Z.shiftl 1 STRTAB_SPLIT * STRTAB_STE_DWORDS * BYTES_PER_DWORD in
  let strtab := strtab64 c + 8 * (i * STRTAB_L1_DESC_DWORDS) in
  let* p := val_memory_calloc 2 size in
  upd_l1 smmu i (mk_l1_desc (STRTAB_SPLIT + 1) p (l2desc64 x) (l2desc_phys x)) ;;;
  if p =? 0 then ret 0 else
  let y := mk_l1_desc (STRTAB_SPLIT + 1) p (align_to_size p size) (align_to_size (val_memory_virt_to_phys p) size) in
  upd_l1 smmu i y ;;;
  abort_entries (Z.to_nat (Z.shiftl 1 STRTAB_SPLIT)) (l2desc64 y) ;;;
  smmu_strtab_write_level1_desc strtab y ;;;
  ret 1.

Definition smmu_strtab_init_level1 (smmu : Z) : P Z :=
  let* d := dev_at smmu in
  let* p := next_alloc in
  let n := l1_ent_count (strtab_cfg d) in
  upd_strtab smmu (fun c => set_l1_ptr p (set_l1_desc (if p =? 0 then [] else repeat l1_zero (Z.to_nat n)) c)) ;;;
  ret (if p =? 0 then 0 else 1).

Definition smmu_strtab_init_2level (smmu : Z) : P Z :=
  let* d := dev_at smmu in
  let* ents := shl_int (u32 (sid_bits d - STRTAB_SPLIT)) in
  let n := u32 ents in
  let log2size := u32 (u32 (sid_bits d - STRTAB_SPLIT) + STRTAB_SPLIT) in
  let l1_tbl_size := u32 (n * STRTAB_L1_DESC_SIZE) in
  upd_strtab smmu (set_l1_ent_count n) ;;;
  let* p := val_memory_alloc (u32 (2 * l1_tbl_size)) in
  upd_strtab smmu (set_strtab_ptr p) ;;;
  if p =? 0 then ret 0 else
  upd_strtab smmu (fun c => set_strtab_phys (align_to_size (val_memory_virt_to_phys p) l1_tbl_size)
    (set_strtab64 (align_to_size p l1_tbl_size)
    (set_strtab_base_cfg (Z.lor (Z.lor (BITFIELD_SET STRTAB_BASE_CFG_FMT STRTAB_BASE_CFG_FMT_2LVL)
      (BITFIELD_SET STRTAB_BASE_CFG_LOG2SIZE log2size)) (BITFIELD_SET STRTAB_BASE_CFG_SPLIT STRTAB_SPLIT)) c))) ;;;
  let* r := smmu_strtab_init_level1 smmu in
  if r =? 0 then val_memory_free p ;;; ret 0 else ret 1.

Definition smmu_strtab_init (smmu : Z) : P Z :=
  let* d := dev_at smmu in
  let* r := (if st_level_2lvl (supported d) then smmu_strtab_init_2level smmu else smmu_strtab_init_linear smmu) in
  if r =? 0 then ret r else
  upd_strtab smmu (fun c => set_strtab_base (Z.lor
    (Z.land (strtab_phys c) (Z.shiftl (MASK STRTAB_BASE_ADDR) (SHIFT STRTAB_BASE_ADDR))) STRTAB_BASE_RA) c) ;;;
  ret 1.

(** 0 when the device acknowledges the value, 1 after the time-out. *)
Definition smmu_reg_write_sync (smmu val reg_off ack_off : Z) : P Z :=
  let* d := dev_at smmu in
  val_mmio_write (base d + reg_off) val ;;;
  let* r := rounds 0x1000000
    (let* reg := val_mmio_read (base d + ack_off) in ret (if reg =? val then Some tt else None)) in
  ret (match r with Some _ => 0 | None => 1 end).

(** ** Masters *)

(** The list has the newest master first. *)
Definition find_master (s : Z) (l : list smmu_master_t) : option nat :=
  match find_first (fun m => sid m =? s) (reverse l) 0 with
  | Some (i, _) => Some (length l - 1 - Z.to_nat i)%nat
  | None => None
  end.

Definition smmu_master_at (s : Z) : P (option nat) :=
  let* l := gets masters in
  match find_master s l with
  | Some k => ret (Some k)
  | None =>
      let* node := next_alloc in
      if node =? 0 then ret None else
      let* m := next_alloc in
      if m =? 0 then val_memory_free node ;;; ret None
      else modify (set_masters (l ++ [master_zero])) ;;; ret (Some (length l))
  end.

(** ** The event queue *)

Definition smmu_handle_evt (event : list Z) : Z :=
  if int_in (BITFIELD_GET EVTQ_0_ID (hd 0 event)) EVT_IDS then 0 else 1.

Definition smmu_queue_read (evntq : smmu_cmd_queue_t) : P (list Z) :=
  ld_words (entry_addr evntq (cons (queue evntq))) (Z.to_nat EVNTQ_DWORDS_PER_ENT).

Definition upd_evntq (smmu : Z) (f : smmu_queue_t -> smmu_queue_t) : P unit :=
  upd_dev smmu (fun d => set_evntq (set_queue (f (queue (evntq d))) (evntq d)) d).

(** The event removed, [None] when the queue is empty. *)
Definition smmu_queue_remove_raw (smmu : Z) : P (option (list Z)) :=
  let* d := dev_at smmu in
  if smmu_queue_empty (queue (evntq d)) then ret None else
  let* event := smmu_queue_read (evntq d) in
  let c := smmu_inc_cons (queue (evntq d)) in
  upd_evntq smmu (set_cons c) ;;;
  val_mmio_write (cons_reg (evntq d)) c ;;;
  ret (Some event).

(** 1 when the overflow flag has changed. *)
Definition queue_sync_prod_in (smmu : Z) : P Z :=
  let* d := dev_at smmu in
  let* p := val_mmio_read (prod_reg (evntq d)) in
  upd_evntq smmu (set_prod p) ;;;
  ret (if negb (SMMU_QUEUE_OVF p =? SMMU_QUEUE_OVF (prod (queue (evntq d)))) then 1 else 0).

Definition smmu_gerror_check (smmu : Z) : P Z :=
  let* d := dev_at smmu in
  let* gerror := val_mmio_read (base d + SMMU_GERROR_OFFSET) in
  let* gerrorn := val_mmio_read (base d + SMMU_GERRORN_OFFSET) in
  let active := Z.lxor gerror gerrorn in
  if negb (Z.land active SMMU_GERROR_MSI_EVTQ_ABT_ERR =? 0) then ret 1
  else if negb (Z.land active SMMU_GERROR_EVTQ_ABT_ERR =? 0) then ret 1
  else val_mmio_write (base d + SMMU_GERRORN_OFFSET) gerror ;;; ret 0.

(** One pass of the inner loop: the event is printed with both registers. *)
Definition evtq_event (smmu : Z) : P (option unit) :=
  let* e := smmu_queue_remove_raw smmu in
  match e with
  | None => ret (Some tt)
  | Some event =>
      let* r := gets reported in
      modify (set_reported (r ++ [event])) ;;;
      let* d := dev_at smmu in
      let* _ := val_mmio_read (prod_reg (evntq d)) in
      let* _ := val_mmio_read (cons_reg (evntq d)) in
      ret None
  end.

Definition evtq_pass (fuel : nat) (smmu : Z) : P (option unit) :=
  while_fuel fuel (evtq_event smmu) ;;;
  let* _ := queue_sync_prod_in smmu in
  let* d := dev_at smmu in
  ret (if smmu_queue_empty (queue (evntq d)) then Some tt else None).

(** The consumer index kept when the thread ends. *)
Definition evtq_last_cons (q : smmu_queue_t) : Z :=
  Z.lor (Z.lor (Z.land (prod q) (Z.shiftl 1 31)) (Z.land (cons q) (Z.shiftl 1 (log2nent q))))
    (Z.land (cons q) (Z.shiftl 1 (log2nent q) - 1)).

Definition smmu_evtq_thread (fuel : nat) : P unit :=
  let* smmu := gets g_smmu_index in
  let* r := smmu_gerror_check smmu in
  if negb (r =? 0) then ret tt else
  while_fuel fuel (evtq_pass fuel smmu) ;;;
  let* d := dev_at smmu in
  let* _ := val_mmio_read (prod_reg (evntq d)) in
  let* _ := val_mmio_read (cons_reg (evntq d)) in
  upd_evntq smmu (fun q => set_cons (evtq_last_cons q) q).

(** ** Control *)

Definition smmu_dev_disable (smmu : Z) : P Z := smmu_reg_write_sync smmu 0 SMMU_CR0_OFFSET SMMU_CR0ACK_OFFSET.

Definition smmu_tlbi_cfgi (smmu : Z) : P unit :=
  let* _ := smmu_cmdq_issue_cmd smmu CMDQ_OP_CFGI_ALL in
  let* d := dev_at smmu in
  (if hyp (supported d) then let* _ := smmu_cmdq_issue_cmd smmu CMDQ_OP_TLBI_EL2_ALL in ret tt else ret tt) ;;;
  let* _ := smmu_cmdq_issue_cmd smmu CMDQ_OP_TLBI_NSNH_ALL in
  let* _ := smmu_cmdq_issue_cmd smmu CMDQ_OP_CMD_SYNC in
  smmu_cmdq_poll_until_consumed smmu.

Definition cr1_data : Z :=
  Z.lor (Z.lor (Z.lor (Z.lor (Z.lor (BITFIELD_SET CR1_TABLE_SH SMMU_SH_ISH) (BITFIELD_SET CR1_QUEUE_SH SMMU_SH_ISH))
    (BITFIELD_SET CR1_TABLE_IC CR1_CACHE_WB)) (BITFIELD_SET CR1_QUEUE_IC CR1_CACHE_WB))
    (BITFIELD_SET CR1_TABLE_OC CR1_CACHE_WB)) (BITFIELD_SET CR1_QUEUE_OC CR1_CACHE_WB).

(** 1 on every path: [smmu_reg_write_sync] returns 1 when it fails. *)
Definition smmu_reset (smmu : Z) : P Z :=
  let* r := smmu_reg_write_sync smmu 0 SMMU_CR0_OFFSET SMMU_CR0ACK_OFFSET in
  if negb (r =? 0) then ret r else
  let* d := dev_at smmu in
  val_mmio_write (base d + SMMU_CR1_OFFSET) cr1_data ;;;
  val_mmio_write (base d + SMMU_CR2_OFFSET) 0 ;;;
  val_mmio_write64 (base d + SMMU_STRTAB_BASE_OFFSET) (strtab_base (strtab_cfg d)) ;;;
  val_mmio_write (base d + SMMU_STRTAB_BASE_CFG_OFFSET) (strtab_base_cfg (strtab_cfg d)) ;;;
  val_mmio_write64 (base d + SMMU_CMDQ_BASE_OFFSET) (queue_base (cmdq d)) ;;;
  val_mmio_write (base d + SMMU_CMDQ_PROD_OFFSET) (prod (queue (cmdq d))) ;;;
  val_mmio_write (base d + SMMU_CMDQ_CONS_OFFSET) (cons (queue (cmdq d))) ;;;
  let* r := smmu_reg_write_sync smmu CR0_CMDQEN SMMU_CR0_OFFSET SMMU_CR0ACK_OFFSET in
  if negb (r =? 0) then ret r else
  smmu_tlbi_cfgi smmu ;;;
  val_mmio_write64 (base d + SMMU_EVNTQ_BASE_OFFSET) (queue_base (evntq d)) ;;;
  val_mmio_write (page1_base d + SMMU_EVNTQ_PROD_OFFSET) (prod (queue (evntq d))) ;;;
  val_mmio_write (page1_base d + SMMU_EVNTQ_CONS_OFFSET) (cons (queue (evntq d))) ;;;
  let en := Z.lor CR0_CMDQEN CR0_EVNTQEN in
  let* r := smmu_reg_write_sync smmu en SMMU_CR0_OFFSET SMMU_CR0ACK_OFFSET in
  if negb (r =? 0) then ret r else
  let en := Z.lor en CR0_SMMUEN in
  let* r := smmu_reg_write_sync smmu en SMMU_CR0_OFFSET SMMU_CR0ACK_OFFSET in
  if negb (r =? 0) then ret r else ret 1.

Definition smmu_set_state (index : Z) (en : bool) : P Z :=
  let* n := gets g_num_smmus in
  if n <=? index then ret 1 else
  let* d := dev_at index in
  if base d =? 0 then ret 1 else
  let* cr0 := val_mmio_read (base d + SMMU_CR0_OFFSET) in
  let cr0_val := if en then Z.lor cr0 CR0_SMMUEN else Z.land cr0 (Z.lnot CR0_SMMUEN) in
  smmu_reg_write_sync index cr0_val SMMU_CR0_OFFSET SMMU_CR0ACK_OFFSET.

Definition val_smmu_disable (index : Z) : P Z := smmu_set_state index false.
Definition val_smmu_enable (index : Z) : P Z := smmu_set_state index true.

Definition bit_set (data m : Z) : bool := negb (Z.land data m =? 0).

(** The device structure comes zeroed, so a flag is set or stays clear. *)
Definition smmu_probe (smmu : Z) : P Z :=
  let* d := dev_at smmu in
  let* data := val_mmio_read (base d + SMMU_IDR0_OFFSET) in
  let sup := supported d in
  upd_dev smmu (set_supported (mk_supported
    ((BITFIELD_GET IDR0_ST_LEVEL data =? IDR0_ST_LEVEL_2LVL) || st_level_2lvl sup)
    (bit_set data IDR0_CD2L || cd2l sup) (bit_set data IDR0_HYP || hyp sup)
    (bit_set data IDR0_S1P || s1p sup) (bit_set data IDR0_S2P || s2p sup))) ;;;
  if negb (bit_set data (Z.lor IDR0_S1P IDR0_S2P)) then ret 0 else
  let ttf := BITFIELD_GET IDR0_TTF data in
  when (ttf =? IDR0_TTF_AARCH32_64) (upd_dev smmu (set_ias 40)) ;;;
  if negb ((ttf =? IDR0_TTF_AARCH32_64) || (ttf =? IDR0_TTF_AARCH64)) then ret 0 else
  let* data := val_mmio_read (base d + SMMU_IDR1_OFFSET) in
  if bit_set data (Z.lor IDR1_TABLES_PRESET IDR1_QUEUES_PRESET) then ret 0 else
  let sids := if BITFIELD_GET IDR1_SIDSIZE data <? MAX_SID then BITFIELD_GET IDR1_SIDSIZE data else MAX_SID in
  upd_dev smmu (fun d => set_cmdq (set_queue (set_log2nent (BITFIELD_GET IDR1_CMDQS data) (queue (cmdq d))) (cmdq d)) d) ;;;
  upd_dev smmu (fun d => set_evntq (set_queue (set_log2nent (BITFIELD_GET IDR1_EVNTQS data) (queue (evntq d))) (evntq d)) d) ;;;
  upd_dev smmu (set_sid_bits sids) ;;;
  upd_dev smmu (set_ssid_bits (BITFIELD_GET IDR1_SSIDSIZE data)) ;;;
  when (sids <=? STRTAB_SPLIT) (upd_dev smmu (fun d => set_supported (set_st_level_2lvl false (supported d)) d)) ;;;
  let* data := val_mmio_read (base d + SMMU_IDR5_OFFSET) in
  if SMMU_OAS_MAX_IDX <=? BITFIELD_GET IDR5_OAS data then ret 0 else
  let* o := deref (at_index smmu_oas (BITFIELD_GET IDR5_OAS data)) in
  upd_dev smmu (fun d => set_ias (Z.max (ias d) o) (set_oas o d)) ;;;
  ret 1.

(** ** Context descriptors *)

Definition smmu_strtab_get_ste_for_sid (smmu sid : Z) : P Z :=
  let* d := dev_at smmu in
  if negb (st_level_2lvl (supported d)) then ret (strtab64 (strtab_cfg d) + 8 * u32 (sid * STRTAB_STE_DWORDS)) else
  let* x := deref (at_index (l1_desc (strtab_cfg d)) (Z.shiftr sid STRTAB_SPLIT * STRTAB_L1_DESC_DWORDS)) in
  ret (l2desc64 x + 8 * (Z.land sid (Z.shiftl 1 STRTAB_SPLIT - 1) * STRTAB_STE_DWORDS)).

(** The eight words are read, to print them. *)
Definition dump_strtab (ste : Z) : P unit := let* _ := ld_words ste 8 in ret tt.
Definition dump_cdtab (ctx_desc : Z) : P unit := let* _ := ld_words ctx_desc 8 in ret tt.

Definition smmu_cdtab_write_l1_desc (dst : Z) (x : smmu_cdtab_l1_ctx_desc_t) : P unit :=
  st64 dst (Z.lor (Z.land (cd_l2desc_phys x) (Z.shiftl (MASK CDTAB_L1_DESC_L2PTR) (SHIFT CDTAB_L1_DESC_L2PTR))) CDTAB_L1_DESC_V).

(** The new descriptor, [None] when memory is out (its pointer is then NULL). *)
Definition smmu_cdtab_alloc_leaf_table : P (option smmu_cdtab_l1_ctx_desc_t) :=
  let size := CDTAB_L2_ENTRY_COUNT * Z.shiftl CDTAB_CD_DWORDS 3 in
  let* p := val_memory_alloc (size * 2) in
  if p =? 0 then ret None
  else ret (Some (mk_l1_ctx p (align_to_size p size) (align_to_size (val_memory_virt_to_phys p) size))).

(** The address of the descriptor of the substream of master [k]. *)
Definition smmu_cdtab_get_ctx_desc (k : nat) : P (option Z) :=
  let* m := master_ref k in
  let c := cdcfg (stage1_config m) in
  if s1fmt (stage1_config m) =? STRTAB_STE_0_S1FMT_LINEAR
  then ret (Some (cdtab64 c + 8 * u32 (ssid m * CDTAB_CD_DWORDS))) else
  let idx := Z.shiftr (ssid m) CDTAB_SPLIT in
  let* x := deref (at_index (cd_l1_desc c) idx) in
  let low := Z.land (ssid m) (CDTAB_L2_ENTRY_COUNT - 1) in
  if cd_l2ptr x =? 0 then
    let* r := smmu_cdtab_alloc_leaf_table in
    match r with
    | None => ret None
    | Some y =>
        upd_stage1 k (fun s => set_cdcfg (set_cd_l1_desc (<[Z.to_nat idx := y]> (cd_l1_desc (cdcfg s))) (cdcfg s)) s) ;;;
        smmu_cdtab_write_l1_desc (cdtab64 c + 8 * (idx * CDTAB_L1_DESC_DWORDS)) y ;;;
        ret (Some (cd_l2desc64 y + 8 * (low * CDTAB_CD_DWORDS)))
    end
  else ret (Some (cd_l2desc64 x + 8 * (low * CDTAB_CD_DWORDS))).

Definition ctx_desc_word0 (c : smmu_cdtab_ctx_desc_t) : Z :=
  Z.lor (Z.lor (Z.lor (Z.lor (Z.lor (Z.lor (tcr c) CDTAB_CD_0_R) CDTAB_CD_0_A) CDTAB_CD_0_ASET) CDTAB_CD_0_AA64)
    (BITFIELD_SET CDTAB_CD_0_ASID (asid c))) CDTAB_CD_0_V.

Definition smmu_cdtab_write_ctx_desc (k : nat) (ssid : Z) (c : smmu_cdtab_ctx_desc_t) : P Z :=
  let* m := master_ref k in
  let* max := shl_int (s1cdmax (stage1_config m)) in
  if max <=? i32 ssid then ret 0 else
  let* r := smmu_cdtab_get_ctx_desc k in
  match r with
  | None => ret 0
  | Some cdptr =>
      st64 (cdptr + 8) (Z.land (ttbr c) (MASK CDTAB_CD_1_TTB0)) ;;;
      st64 (cdptr + 16) 0 ;;;
      st64 (cdptr + 24) (mair c) ;;;
      st64 cdptr (ctx_desc_word0 c) ;;;
      dump_cdtab cdptr ;;;
      ret 1
  end.

Fixpoint free_leaf_tables (n : nat) (l : list smmu_cdtab_l1_ctx_desc_t) : P unit :=
  match n with
  | O => ret tt
  | S k => match l with
           | [] => undef
           | x :: l' => when (negb (cd_l2ptr x =? 0)) (val_memory_free (cd_l2ptr x)) ;;; free_leaf_tables k l'
           end
  end.

Definition l1_ents (contexts : Z) : Z := u32 (u64 (contexts + CDTAB_L2_ENTRY_COUNT - 1) / CDTAB_L2_ENTRY_COUNT).

Definition smmu_cdtab_free (k : nat) : P unit :=
  let* m := master_ref k in
  let cfg := stage1_config m in
  let* max := shl_int (s1cdmax cfg) in
  let max_contexts := u64 max in
  let* i := deref (m_smmu m) in
  let* d := dev_at i in
  when (cd2l (supported d) && (CDTAB_L2_ENTRY_COUNT <? max_contexts))
    (free_leaf_tables (Z.to_nat (l1_ents max_contexts)) (cd_l1_desc (cdcfg cfg)) ;;;
     val_memory_free (cd_l1_ptr (cdcfg cfg))) ;;;
  val_memory_free (cdtab_ptr (cdcfg cfg)) ;;;
  upd_stage1 k (fun s => set_cdcfg (set_cdtab_ptr 0 (cdcfg s)) s).

(** The table once its format, its number of entries and its size are known. *)
Definition cdtab_alloc_table (k : nat) (l1_tbl_size : Z) : P Z :=
  let* p := val_memory_calloc 2 l1_tbl_size in
  upd_stage1 k (fun s => set_cdcfg (set_cdtab_ptr p (cdcfg s)) s) ;;;
  if p =? 0 then ret 0 else
  upd_stage1 k (fun s => set_cdcfg (mk_cdcfg p (align_to_size p l1_tbl_size)
    (align_to_size (val_memory_virt_to_phys p) l1_tbl_size) (cd_l1_ptr (cdcfg s)) (cd_l1_desc (cdcfg s))
    (cd_l1_ent_count (cdcfg s))) s) ;;;
  ret 1.

Definition smmu_cdtab_alloc (k : nat) : P Z :=
  let* m := master_ref k in
  let* max := shl_int (s1cdmax (stage1_config m)) in
  let cdmax := u64 max in
  let* i := deref (m_smmu m) in
  let* d := dev_at i in
  if cd2l (supported d) && (CDTAB_L2_ENTRY_COUNT <? cdmax) then
    let n := l1_ents cdmax in
    let* p := next_alloc in
    upd_stage1 k (fun s => set_s1fmt STRTAB_STE_0_S1FMT_64K_L2 (set_cdcfg
      (mk_cdcfg (cdtab_ptr (cdcfg s)) (cdtab64 (cdcfg s)) (cdtab_phys (cdcfg s)) p
        (if p =? 0 then [] else repeat l1_ctx_zero (Z.to_nat n)) n) s)) ;;;
    if p =? 0 then ret 0 else cdtab_alloc_table k (n * Z.shiftl CDTAB_L1_DESC_DWORDS 3)
  else
    upd_stage1 k (fun s => set_s1fmt STRTAB_STE_0_S1FMT_LINEAR (set_cdcfg
      (mk_cdcfg (cdtab_ptr (cdcfg s)) (cdtab64 (cdcfg s)) (cdtab_phys (cdcfg s)) (cd_l1_ptr (cdcfg s))
        (cd_l1_desc (cdcfg s)) (u32 cdmax)) s)) ;;;
    cdtab_alloc_table k (u64 (cdmax * Z.shiftl CDTAB_CD_DWORDS 3)).

(** ** Mapping and unmapping a master *)

Definition stage2_of (g : pgt_descriptor_t) : smmu_stage2_config_t :=
  let t := pgt_tcr g in
  mk_stage2 0 (pgt_base g)
    (Z.lor (Z.lor (Z.lor (Z.lor (Z.lor (Z.lor (BITFIELD_SET STRTAB_STE_2_VTCR_S2T0SZ (tcr_tsz t))
      (BITFIELD_SET STRTAB_STE_2_VTCR_S2SL0 (tcr_sl t))) (BITFIELD_SET STRTAB_STE_2_VTCR_S2IR0 (tcr_irgn t)))
      (BITFIELD_SET STRTAB_STE_2_VTCR_S2OR0 (tcr_orgn t))) (BITFIELD_SET STRTAB_STE_2_VTCR_S2SH0 (tcr_sh t)))
      (BITFIELD_SET STRTAB_STE_2_VTCR_S2TG (tcr_tg t))) (BITFIELD_SET STRTAB_STE_2_VTCR_S2PS (tcr_ps t))).

Definition ctx_desc_of (g : pgt_descriptor_t) : smmu_cdtab_ctx_desc_t :=
  let t := pgt_tcr g in
  mk_cd 0 (pgt_base g)
    (Z.lor (Z.lor (Z.lor (Z.lor (Z.lor (Z.lor (Z.lor (BITFIELD_SET CDTAB_CD_0_TCR_T0SZ (tcr_tsz t))
      (BITFIELD_SET CDTAB_CD_0_TCR_TG0 (tcr_tg t))) (BITFIELD_SET CDTAB_CD_0_TCR_IRGN0 (tcr_irgn t)))
      (BITFIELD_SET CDTAB_CD_0_TCR_ORGN0 (tcr_orgn t))) (BITFIELD_SET CDTAB_CD_0_TCR_SH0 (tcr_sh t)))
      (BITFIELD_SET CDTAB_CD_0_TCR_IPS (tcr_ps t))) CDTAB_CD_0_TCR_EPD1) CDTAB_CD_0_AA64)
    (pgt_mair g).

(** The context descriptor table and the descriptor of a stage 1 master; 0 on failure. *)
Definition map_stage1 (k : nat) (g : pgt_descriptor_t) : P Z :=
  upd_master k (fun m => set_stage1_config (set_s1cdmax (u8 (m_ssid_bits m)) (stage1_config m)) m) ;;;
  let* m := master_ref k in
  let* ok := (if cdtab_ptr (cdcfg (stage1_config m)) =? 0 then smmu_cdtab_alloc k else ret 1) in
  if ok =? 0 then ret 0 else
  upd_stage1 k (set_cd (ctx_desc_of g)) ;;;
  smmu_cdtab_write_ctx_desc k (ssid m) (ctx_desc_of g).

(** The entry of the stream is written and the caches invalidated. *)
Definition map_finish (smmu : Z) (k : nat) : P Z :=
  let* m := master_ref k in
  let* ste := smmu_strtab_get_ste_for_sid smmu (sid m) in
  smmu_strtab_write_ste (Some m) ste ;;;
  dump_strtab ste ;;;
  smmu_tlbi_cfgi smmu ;;;
  ret 0.

Definition val_smmu_map (attr : smmu_master_attributes_t) (g : pgt_descriptor_t) : P Z :=
  let* gs := gets g_smmu in
  match gs with
  | None => ret 1
  | Some _ =>
      let* n := gets g_num_smmus in
      let i := smmu_index attr in
      if n <=? i then ret 1 else
      let* d := dev_at i in
      if base d =? 0 then ret 1 else
      let* o := smmu_master_at (streamid attr) in
      match o with
      | None => ret 1
      | Some k =>
          let* m := master_ref k in
          when (match m_smmu m with None => true | Some _ => false end)
            (upd_master k (fun m => set_m_smmu (Some i) (set_sid (streamid attr) (set_m_ssid_bits (attr_ssid_bits attr) m)))) ;;;
          let s2 := negb (stage2 attr =? 0) in
          if negb (if s2 then s2p (supported d) else s1p (supported d)) then ret 1 else
          upd_master k (fun m => if s2 then set_stage SMMU_STAGE_S2 m
                                 else set_stage SMMU_STAGE_S1 (set_ssid (substreamid attr) m)) ;;;
          if Z.shiftl 1 (sid_bits d) <=? streamid attr then ret 1 else
          let* m := master_ref k in
          let* ok := (if st_level_2lvl (supported d) then smmu_strtab_init_level2 i (sid m) else ret 1) in
          if ok =? 0 then ret 1 else
          let* ok := (if s2 then upd_master k (set_stage2_config (stage2_of g)) ;;; ret 1 else map_stage1 k g) in
          if ok =? 0 then ret 1 else map_finish i k
      end
  end.

Definition val_smmu_unmap (attr : smmu_master_attributes_t) : P unit :=
  let* o := smmu_master_at (streamid attr) in
  match o with
  | None => ret tt
  | Some k =>
      let* m := master_ref k in
      match m_smmu m with
      | None => ret tt
      | Some i =>
          let* d := dev_at i in
          if Z.shiftl 1 (sid_bits d) <=? streamid attr then ret tt else
          smmu_strtab_write_ste None (strtab64 (strtab_cfg d) + 8 * u32 (streamid attr * STRTAB_STE_DWORDS)) ;;;
          smmu_cdtab_free k ;;;
          smmu_tlbi_cfgi i ;;;
          upd_master k (fun _ => master_zero)
      end
  end.

(** ** Start and stop *)

Definition smmu_init (smmu : Z) : P Z :=
  let* d := dev_at smmu in
  if base d =? 0 then ret ACS_STATUS_ERR else
  let* r := smmu_probe smmu in
  if r =? 0 then ret ACS_STATUS_ERR else
  let* r := smmu_cmd_queue_init smmu in
  if r =? 0 then ret ACS_STATUS_ERR else
  let* r := smmu_evnt_queue_init smmu in
  if r =? 0 then ret ACS_STATUS_ERR else
  let* r := smmu_strtab_init smmu in
  if r =? 0 then ret ACS_STATUS_ERR else
  let* r := smmu_reset smmu in
  if r =? 0 then ret ACS_STATUS_ERR else ret 0.

(** [for (g_smmu_index = 0; g_smmu_index < g_num_smmus; g_smmu_index++)]; a body
    that returns [Some] leaves the function. *)
Fixpoint each_smmu {R} (n : nat) (body : Z -> P (option R)) : P (option R) :=
  match n with
  | O => ret None
  | S k =>
      let* i := gets g_smmu_index in
      let* r := body i in
      match r with
      | Some _ => ret r
      | None => modify (fun s => set_g_smmu_index (u32 (g_smmu_index s + 1)) s) ;;; each_smmu k body
      end
  end.
Definition for_each_smmu {R} (body : Z -> P (option R)) : P (option R) :=
  modify (set_g_smmu_index 0) ;;;
  let* n := gets g_num_smmus in each_smmu (Z.to_nat n) body.

Definition val_smmu_stop : P unit :=
  let* _ := for_each_smmu (R := unit) (fun i =>
    let* d := dev_at i in
    if base d =? 0 then ret None else
    let* _ := smmu_dev_disable i in
    when (negb (base_ptr (cmdq d) =? 0)) (val_memory_free (base_ptr (cmdq d))) ;;;
    when (negb (base_ptr (evntq d) =? 0)) (val_memory_free (base_ptr (evntq d))) ;;;
    smmu_free_strtab i ;;;
    ret None) in
  let* g := gets g_smmu in
  val_memory_free (match g with Some (p, _) => p | None => 0 end).

(** The table of SMMUs found by the platform. *)
Definition iovirt_smmu_info (type : SMMU_INFO_e) (index : Z) : P Z := fun s =>
  match val_iovirt_get_smmu_info 1 (g_iovirt_info_table s) type index (iovirt_mem s) with
  | Done (v, _) => Done (v, s)
  | Undefined => Undefined
  | Diverges => Diverges
  end.

Definition val_smmu_init : P Z :=
  let* n := iovirt_smmu_info SMMU_NUM_CTRL 0 in
  modify (set_g_num_smmus (u32 n)) ;;;
  if u32 n =? 0 then ret ACS_STATUS_ERR else
  let* p := next_alloc in
  modify (set_g_smmu (if p =? 0 then None else Some (p, repeat dev_zero (Z.to_nat (u32 n))))) ;;;
  if p =? 0 then ret ACS_STATUS_ERR else
  let* r := for_each_smmu (fun i =>
    let* v := iovirt_smmu_info SMMU_CTRL_ARCH_MAJOR_REV i in
    if negb (u32 v =? 3) then ret None else
    let* b := iovirt_smmu_info SMMU_CTRL_BASE i in
    upd_dev i (fun d => set_page1_base (u64 (b + SMMU_PAGE1_BASE_OFFSET)) (set_base b d)) ;;;
    let* r := smmu_init i in
    if negb (r =? 0) then upd_dev i (set_base 0) ;;; ret (Some ACS_STATUS_ERR) else ret None) in
  match r with Some e => ret e | None => ret 0 end.

Definition val_smmu_get_info (type : SMMU_INFO_e) (index : Z) : P Z :=
  let* n := gets g_num_smmus in
  if n <=? index then ret 0 else
  match type with
  | SMMU_SSID_BITS => let* d := dev_at index in ret (ssid_bits d)
  | SMMU_IN_ADDR_SIZE => let* d := dev_at index in ret (ias d)
  | SMMU_OUT_ADDR_SIZE => let* d := dev_at index in ret (oas d)
  | _ => iovirt_smmu_info type index
  end.

Definition val_smmu_dump_eventq (fuel : nat) : P unit :=
  let* _ := for_each_smmu (R := unit) (fun i =>
    let* v := iovirt_smmu_info SMMU_CTRL_ARCH_MAJOR_REV i in
    if negb (v =? 3) then ret None else smmu_evtq_thread fuel ;;; ret None) in
  ret tt.

(** ** [acs_smmu.c] and the callers in [acs_iovirt.c] *)

Definition SMMUv3_AIDR : Z := 0x1C.

Definition val_smmu_read_cfg (offset index : Z) : P Z :=
  let* ctrl_base := val_smmu_get_info SMMU_CTRL_BASE index in
  if ctrl_base =? 0 then ret 0 else val_mmio_read (ctrl_base + offset).

Definition val_smmu_max_pasids (index : Z) : P Z :=
  let* smmu_base := iovirt_smmu_info SMMU_CTRL_BASE index in
  let* reg := val_mmio_read (smmu_base + 0x4) in
  ret (Z.land (Z.shiftr reg 0x6) 0x1f).

(** The versions are read, to print them. *)
Fixpoint print_versions (n : nat) (i : Z) : P unit :=
  match n with
  | O => ret tt
  | S k =>
      let* ver := val_smmu_get_info SMMU_CTRL_ARCH_MAJOR_REV i in
      (if ver =? 3 then let* _ := val_smmu_read_cfg SMMUv3_AIDR i in ret tt else ret tt) ;;;
      print_versions k (i + 1)
  end.

Definition val_iovirt_create_info_table (ov_base ov_major : Z) (fuel : nat) (iort : option IORT_TABLE) (table : Z) : P unit :=
  if table =? 0 then ret tt else
  modify (set_g_iovirt_info_table table) ;;;
  (fun s => match pal_iovirt_create_info_table ov_base ov_major fuel iort table (iovirt_mem s) with
            | Done (_, m) => Done (tt, set_iovirt_mem m s)
            | Undefined => Undefined
            | Diverges => Diverges
            end) ;;;
  let* n := iovirt_smmu_info SMMU_NUM_CTRL 0 in
  modify (set_g_num_smmus (u32 n)) ;;;
  print_versions (Z.to_nat (u32 n)) 0.

Definition val_iovirt_free_info_table : P unit :=
  let* t := gets g_iovirt_info_table in val_memory_free t.

(** The SMMUs from the last to the first. *)
Fixpoint smmu_with_base (n : nat) (smmu_base : Z) : P (option Z) :=
  match n with
  | O => ret None
  | S k =>
      let* b := val_smmu_get_info SMMU_CTRL_BASE (Z.of_nat k) in
      if smmu_base =? b then ret (Some (Z.of_nat k)) else smmu_with_base k smmu_base
  end.

Definition val_iovirt_get_rc_smmu_index (rc_seg_num rid : Z) : P Z :=
  let* t := gets g_iovirt_info_table in
  let* smmu_base := (fun s => match pal_iovirt_get_rc_smmu_base 1 t rc_seg_num rid (iovirt_mem s) with
                              | Done (v, _) => Done (v, s)
                              | Undefined => Undefined
                              | Diverges => Diverges
                              end) in
  if smmu_base =? 0 then ret ACS_INVALID_INDEX else
  let* n := val_smmu_get_info SMMU_NUM_CTRL 0 in
  let* r := smmu_with_base (Z.to_nat (u32 n)) smmu_base in
  match r with Some i => ret i | None => ret ACS_INVALID_INDEX end.
End Driver.
