(* ===== verification/SmmuQueue.v ===== *)
(** * The queues of the SMMU

    Theorems on the command and event queues of [Smmu.v]. A queue of [2 ^ n]
    entries is two indices of [n + 1] bits into a ring in memory; its abstract
    state is the list of the entries between them. The classes [CmdqDevice] and
    [EvtqDevice] state what the driver may rely on: a device that takes commands
    in order, at any time, and one that adds events, at any time, while there is
    room. The driver is proved against them, and two devices discharge them. *)

From S2P Require Import Prelude Status Mmio Bytes Iovirt Smmu.

(** ** Indices *)

(** The entries between two indices of a queue of [2 ^ n]. *)
Definition dist (n p c : Z) : Z := (p - c) mod 2 ^ (n + 1).

Lemma pow2_S n : 0 <= n -> 2 ^ (n + 1) = 2 * 2 ^ n.
Proof. intros. rewrite Z.pow_add_r by lia. lia. Qed.

Lemma pow2_pos n : 0 <= n -> 0 < 2 ^ n.
Proof. intros. by apply Z.pow_pos_nonneg. Qed.

Lemma dist_range n p c : 0 <= n -> 0 <= dist n p c < 2 ^ (n + 1).
Proof. intros. apply Z.mod_pos_bound, pow2_pos. lia. Qed.

Lemma wrap_bit n x : 0 <= n -> Z.land x (2 ^ n) = 2 ^ n * ((x / 2 ^ n) mod 2).
Proof.
  intros Hn. apply Z.bits_inj'. intros i Hi.
  rewrite Z.land_spec, testbit_pow2, Z.mul_comm, <- Z.shiftl_mul_pow2, Z.shiftl_spec by lia.
  destruct (Z.eqb_spec n i) as [->|Hne].
  - rewrite andb_true_r, Z.sub_diag, Z.bit0_odd, <- Z.shiftr_div_pow2, field_bit by lia.
    by destruct (Z.testbit x i).
  - rewrite andb_false_r. symmetry. destruct (Z.ltb_spec i n).
    + by apply Z.testbit_neg_r; lia.
    + apply (testbit_high _ 1); [|lia]. apply Z.mod_pos_bound. lia.
Qed.

Lemma split_index n x : 0 <= n -> x mod 2 ^ (n + 1) = x mod 2 ^ n + 2 ^ n * ((x / 2 ^ n) mod 2).
Proof. intros Hn. rewrite pow2_S, Z.mul_comm by done. apply Z.rem_mul_r; [pose proof (pow2_pos n Hn); lia|lia]. Qed.

Lemma index_masks n : 0 <= n <= 31 ->
  u32 (Z.shiftl 1 n - 1) = 2 ^ n - 1 /\ u32 (Z.shiftl 1 n) = 2 ^ n.
Proof.
  intros Hn. rewrite Z.shiftl_mul_pow2, Z.mul_1_l by lia.
  assert (2 ^ n <= 2 ^ 31) by (apply Z.pow_le_mono_r; lia). pose proof (pow2_pos n ltac:(lia)).
  split; apply u32_small; lia.
Qed.

Lemma land_pred_pow2 n x : 0 <= n -> Z.land x (2 ^ n - 1) = x mod 2 ^ n.
Proof. intros. rewrite <- Z.land_ones by done. by rewrite Z.ones_equiv. Qed.

(** The comparison of the low [n] bits and of the wrap bit. *)
Lemma index_compare n p c : 0 <= n ->
  dist n p c = 0 <-> p mod 2 ^ n = c mod 2 ^ n /\ 2 ^ n * ((p / 2 ^ n) mod 2) = 2 ^ n * ((c / 2 ^ n) mod 2).
Proof.
  intros Hn. unfold dist. pose proof (pow2_pos n Hn).
  assert (E : (p - c) mod 2 ^ (n + 1) = 0 <-> p mod 2 ^ (n + 1) = c mod 2 ^ (n + 1)).
  { assert (0 < 2 ^ (n + 1)) by (apply pow2_pos; lia). split; intros E.
    - rewrite Z.cong_iff_0. done.
    - rewrite <- Z.cong_iff_0. done. }
  rewrite E, !split_index by done. pose proof (Z.mod_pos_bound p (2 ^ n)). pose proof (Z.mod_pos_bound c (2 ^ n)).
  pose proof (Z.mod_pos_bound (p / 2 ^ n) 2). pose proof (Z.mod_pos_bound (c / 2 ^ n) 2).
  set (a := (p / 2 ^ n) mod 2) in *. set (b := (c / 2 ^ n) mod 2) in *.
  assert (a = 0 \/ a = 1) as [-> | ->] by lia; assert (b = 0 \/ b = 1) as [-> | ->] by lia; lia.
Qed.

Lemma dist_half n p c : 0 <= n -> dist n p c = 2 ^ n <-> dist n p (c + 2 ^ n) = 0.
Proof.
  intros Hn. unfold dist. rewrite pow2_S by done. pose proof (pow2_pos n Hn).
  replace (p - (c + 2 ^ n)) with (p - c - 2 ^ n) by lia. set (x := p - c). set (k := 2 ^ n) in *.
  pose proof (Z.mod_pos_bound x (2 * k) ltac:(lia)). split; intros E.
  - rewrite <- Zminus_mod_idemp_l, E, Z.sub_diag. by apply Z.mod_0_l; lia.
  - assert (x mod (2 * k) = (x - k + k) mod (2 * k)) as -> by (f_equal; lia).
    rewrite <- Zplus_mod_idemp_l, E. apply Z.mod_small. lia.
Qed.

Lemma empty_dist q : 0 <= log2nent q <= 31 ->
  smmu_queue_empty q = (dist (log2nent q) (prod q) (cons q) =? 0).
Proof.
  intros Hn. unfold smmu_queue_empty. destruct (index_masks _ Hn) as [-> ->].
  rewrite !land_pred_pow2, !wrap_bit by lia. pose proof (index_compare _ (prod q) (cons q) (proj1 Hn)) as Hc.
  destruct (Z.eqb_spec (prod q mod 2 ^ log2nent q) (cons q mod 2 ^ log2nent q)),
    (Z.eqb_spec (2 ^ log2nent q * ((prod q / 2 ^ log2nent q) mod 2)) (2 ^ log2nent q * ((cons q / 2 ^ log2nent q) mod 2))),
    (Z.eqb_spec (dist (log2nent q) (prod q) (cons q)) 0); try done; tauto.
Qed.

Lemma full_dist q : 0 <= log2nent q <= 31 ->
  smmu_queue_full q = (dist (log2nent q) (prod q) (cons q) =? 2 ^ log2nent q).
Proof.
  intros Hn. unfold smmu_queue_full. destruct (index_masks _ Hn) as [-> ->].
  rewrite !land_pred_pow2, !wrap_bit by lia. pose proof (pow2_pos _ (proj1 Hn)).
  pose proof (dist_half _ (prod q) (cons q) (proj1 Hn)) as Hh.
  rewrite (index_compare _ _ _ (proj1 Hn)) in Hh.
  assert (E1 : (cons q + 2 ^ log2nent q) mod 2 ^ log2nent q = cons q mod 2 ^ log2nent q).
  { replace (cons q + 2 ^ log2nent q) with (cons q + 1 * 2 ^ log2nent q) by lia. apply Z.mod_add. lia. }
  assert (E2 : (cons q + 2 ^ log2nent q) / 2 ^ log2nent q = cons q / 2 ^ log2nent q + 1).
  { replace (cons q + 2 ^ log2nent q) with (cons q + 1 * 2 ^ log2nent q) by lia. apply Z.div_add. lia. }
  rewrite E1, E2 in Hh.
  pose proof (Z.mod_pos_bound (prod q / 2 ^ log2nent q) 2 ltac:(lia)).
  assert (Hp : (cons q / 2 ^ log2nent q + 1) mod 2 = 1 - (cons q / 2 ^ log2nent q) mod 2) by lia.
  rewrite Hp in Hh. pose proof (Z.mod_pos_bound (cons q / 2 ^ log2nent q) 2 ltac:(lia)).
  set (a := (prod q / 2 ^ log2nent q) mod 2) in *. set (b := (cons q / 2 ^ log2nent q) mod 2) in *.
  destruct (Z.eqb_spec (prod q mod 2 ^ log2nent q) (cons q mod 2 ^ log2nent q)),
    (Z.eqb_spec (2 ^ log2nent q * a) (2 ^ log2nent q * b)),
    (Z.eqb_spec (dist (log2nent q) (prod q) (cons q)) (2 ^ log2nent q)) as [Hd|Hd]; try done; cbn.
  - apply Hh in Hd. assert (a = 0 \/ a = 1) as [Ha|Ha] by lia; assert (b = 0 \/ b = 1) as [Hb|Hb] by lia; rewrite Ha, Hb in *; lia.
  - destruct Hd. apply Hh. split; [done|]. assert (a = 0 \/ a = 1) as [Ha|Ha] by lia; assert (b = 0 \/ b = 1) as [Hb|Hb] by lia; rewrite Ha, Hb in *; lia.
  - apply Hh in Hd. lia.
  - apply Hh in Hd. lia.
Qed.

Lemma inc_prod_mod q : 0 <= log2nent q <= 31 -> 0 <= prod q < 2 ^ 32 ->
  smmu_inc_prod q = (prod q + 1) mod 2 ^ (log2nent q + 1).
Proof.
  intros Hn Hp. unfold smmu_inc_prod. rewrite Z.shiftl_mul_pow2, Z.mul_1_l, land_pred_pow2 by lia.
  pose proof (pow2_pos (log2nent q + 1) ltac:(lia)).
  assert (Hd : (2 ^ (log2nent q + 1) | 2 ^ 32)) by (exists (2 ^ (32 - (log2nent q + 1))); rewrite <- Z.pow_add_r by lia; f_equal; lia).
  unfold u32 at 2. rewrite Z.mod_mod_divide by done. apply u32_small.
  pose proof (Z.mod_pos_bound (prod q + 1) (2 ^ (log2nent q + 1)) ltac:(lia)).
  assert (2 ^ (log2nent q + 1) <= 2 ^ 32) by (apply Z.pow_le_mono_r; lia). lia.
Qed.

Lemma inc_cons_mod q : 0 <= log2nent q <= 31 -> 0 <= cons q < 2 ^ 32 ->
  smmu_inc_cons q = (cons q + 1) mod 2 ^ (log2nent q + 1).
Proof.
  intros Hn Hc. apply (inc_prod_mod (mk_queue (cons q) (cons q) (log2nent q))); done.
Qed.

(** Distances: adding at the producer, taking at the consumer. *)
Lemma dist_add n p c j : 0 <= n -> 0 <= j -> dist n p c + j < 2 ^ (n + 1) -> dist n ((p + j) mod 2 ^ (n + 1)) c = dist n p c + j.
Proof.
  intros Hn Hj Hd. unfold dist in *. rewrite Zminus_mod_idemp_l. replace (p + j - c) with (p - c + j) by lia.
  rewrite <- Zplus_mod_idemp_l. apply Z.mod_small. pose proof (dist_range n p c Hn) as Hr. unfold dist in Hr. lia.
Qed.

Lemma dist_sub n p c j : 0 <= n -> 0 <= j <= dist n p c -> dist n p ((c + j) mod 2 ^ (n + 1)) = dist n p c - j.
Proof.
  intros Hn Hj. unfold dist in *. rewrite Zminus_mod_idemp_r. replace (p - (c + j)) with (p - c - j) by lia.
  rewrite <- Zminus_mod_idemp_l. apply Z.mod_small. pose proof (dist_range n p c Hn) as Hr. unfold dist in Hr. lia.
Qed.

Lemma dist_end n p c : (c + dist n p c) mod 2 ^ (n + 1) = p mod 2 ^ (n + 1).
Proof. unfold dist. rewrite Zplus_mod_idemp_r. f_equal. lia. Qed.

(** The tests of a queue are exact: for every size up to [2 ^ 31] and every
    value of the 32-bit indices, also with bits above the wrap bit set, "empty" and
    "full" hold exactly when the distance of the indices is 0 and the size of the
    queue; the two increments add an entry when there is room and remove one when
    there is one, and stay within the index and its wrap bit. *)
Theorem queue_tests_exact q :
  let n := log2nent q in let k := dist n (prod q) (cons q) in
  0 <= n <= 31 -> 0 <= prod q < 2 ^ 32 -> 0 <= cons q < 2 ^ 32 ->
  smmu_queue_empty q = (k =? 0) /\ smmu_queue_full q = (k =? 2 ^ n) /\
  (k < 2 ^ n -> dist n (smmu_inc_prod q) (cons q) = k + 1 /\ 0 <= smmu_inc_prod q < 2 ^ (n + 1)) /\
  (0 < k -> dist n (prod q) (smmu_inc_cons q) = k - 1 /\ 0 <= smmu_inc_cons q < 2 ^ (n + 1)).
Proof.
  intros n k Hn Hp Hc. assert (Hm : forall x, 0 <= x mod 2 ^ (n + 1) < 2 ^ (n + 1)) by (intros; apply Z.mod_pos_bound, pow2_pos; lia).
  pose proof (pow2_pos n (proj1 Hn)). rewrite inc_prod_mod, inc_cons_mod by done. fold n.
  split_and!; [by apply empty_dist|by apply full_dist|intros Hk; split; [|apply Hm]|intros Hk; split; [|apply Hm]].
  - unfold k. apply dist_add; [lia|lia|]. fold k. rewrite pow2_S by lia. lia.
  - apply dist_sub; [lia|]. fold k. lia.
Qed.

(** ** The ring *)

Section Ring.
(** [2 ^ n] entries of [w] words from address [b]. *)
Context (b n : Z) (w : nat).
Context (Hn : 0 <= n).

Definition slot (i : Z) : Z := b + (i mod 2 ^ n) * (8 * Z.of_nat w).

Definition entry (m : gmap Z Z) (i : Z) : list Z :=
  (fun j => default 0 (m !! (slot i + 8 * Z.of_nat j))) <$> seq 0 w.

(** The [k] entries from index [c] on. *)
Definition contents (m : gmap Z Z) (c : Z) (k : nat) : list (list Z) :=
  (fun j => entry m (c + Z.of_nat j)) <$> seq 0 k.

(** Every word of the ring exists. *)
Definition ring_ok (m : gmap Z Z) : Prop :=
  forall i j, (j < w)%nat -> is_Some (m !! (slot i + 8 * Z.of_nat j)).

(** The words of entry [i] may differ, all others are equal. *)
Definition same_but (i : Z) (m m' : gmap Z Z) : Prop :=
  forall a, (forall j, (j < w)%nat -> a <> slot i + 8 * Z.of_nat j) -> m' !! a = m !! a.

Lemma slot_cong i j : i mod 2 ^ (n + 1) = j mod 2 ^ (n + 1) -> slot i = slot j.
Proof.
  intros E. unfold slot. do 2 f_equal. pose proof (pow2_pos n Hn).
  assert (Hd : (2 ^ n | 2 ^ (n + 1))) by (exists 2; rewrite pow2_S by done; lia).
  by rewrite <- (Z.mod_mod_divide i _ _ Hd), E, (Z.mod_mod_divide j _ _ Hd).
Qed.

Lemma entry_cong m i j : i mod 2 ^ (n + 1) = j mod 2 ^ (n + 1) -> entry m i = entry m j.
Proof. intros E. unfold entry. by rewrite (slot_cong i j). Qed.

Lemma contents_cong m c c' k : c mod 2 ^ (n + 1) = c' mod 2 ^ (n + 1) -> contents m c k = contents m c' k.
Proof.
  intros E. apply list_fmap_ext. intros i j _. apply entry_cong.
  by rewrite <- Zplus_mod_idemp_l, E, Zplus_mod_idemp_l.
Qed.

Lemma contents_snoc m c k : contents m c (S k) = contents m c k ++ [entry m (c + Z.of_nat k)].
Proof. unfold contents. by rewrite seq_S, fmap_app. Qed.

Lemma contents_cons m c k : contents m c (S k) = entry m c :: contents m (c + 1) k.
Proof.
  unfold contents. cbn [seq]. rewrite fmap_cons, Z.add_0_r. f_equal.
  rewrite <- fmap_S_seq, <- list_fmap_compose. apply list_fmap_ext. intros i j _. cbn. f_equal. lia.
Qed.

Lemma contents_app m c k1 k2 :
  contents m c (k1 + k2) = contents m c k1 ++ contents m (c + Z.of_nat k1) k2.
Proof.
  revert c. induction k1 as [|k1 IH]; intros c.
  - cbn. by rewrite Z.add_0_r.
  - cbn [Nat.add]. rewrite !contents_cons, IH. cbn. do 3 f_equal. lia.
Qed.

Lemma contents_length m c k : length (contents m c k) = k.
Proof. unfold contents. by rewrite length_fmap, length_seq. Qed.

Lemma slots_disjoint i j a : i mod 2 ^ n <> j mod 2 ^ n -> (a < w)%nat ->
  forall a', (a' < w)%nat -> slot i + 8 * Z.of_nat a <> slot j + 8 * Z.of_nat a'.
Proof.
  intros Hne Ha a' Ha' E. unfold slot in E.
  assert (H : (i mod 2 ^ n - j mod 2 ^ n) * Z.of_nat w = Z.of_nat a' - Z.of_nat a) by lia.
  assert (-1 < i mod 2 ^ n - j mod 2 ^ n < 1) by nia. lia.
Qed.

Lemma entry_other m m' i j : same_but i m m' -> i mod 2 ^ n <> j mod 2 ^ n -> entry m' j = entry m j.
Proof.
  intros Hs Hne. apply list_fmap_ext. intros x y Hx. apply lookup_seq in Hx as [-> Hx].
  rewrite Hs; [done|]. intros k Hk. apply slots_disjoint; [congruence|lia|done].
Qed.

(** An entry behind the [k] entries from [c] is none of them while [k < 2 ^ n]. *)
Lemma contents_other m m' c k : Z.of_nat k < 2 ^ n -> same_but (c + Z.of_nat k) m m' ->
  contents m' c k = contents m c k.
Proof.
  intros Hk Hs. apply list_fmap_ext. intros x y Hx. apply lookup_seq in Hx as [-> Hx].
  apply (entry_other _ _ _ _ Hs). intros E. cbn in E.
  assert (E' : (Z.of_nat k - Z.of_nat x) mod 2 ^ n = 0).
  { replace (Z.of_nat k - Z.of_nat x) with (c + Z.of_nat k - (c + Z.of_nat x)) by lia. by rewrite <- Z.cong_iff_0. }
  rewrite Z.mod_small in E' by lia. lia.
Qed.
End Ring.

Lemma fill_ring b n w (m : gmap Z Z) : 0 <= n ->
  ring_ok b n w (fill_words (Z.to_nat (2 ^ n) * w) b (fun _ => 0) m).
Proof.
  intros Hn i j Hj. rewrite lookup_fill_words. unfold slot. pose proof (Z.mod_pos_bound i (2 ^ n) (pow2_pos n Hn)).
  set (k := i mod 2 ^ n) in *. set (x := b + k * (8 * Z.of_nat w) + 8 * Z.of_nat j).
  replace ((b <=? x) && (x <? b + 8 * Z.of_nat (Z.to_nat (2 ^ n) * w)) && ((x - b) mod 8 =? 0)) with true; [eauto|].
  symmetry. rewrite !andb_true_iff, Z.leb_le, Z.ltb_lt, Z.eqb_eq. subst x. split_and!; [lia|nia|].
  replace (b + k * (8 * Z.of_nat w) + 8 * Z.of_nat j - b) with ((k * Z.of_nat w + Z.of_nat j) * 8) by lia.
  apply Z.mod_mul. lia.
Qed.

(** ** Steps of the driver *)

Section Steps.
Context {D : Type} `{Hardware (machine D)}.

(** SMMU number [i] is [d]. *)
Definition attached (s : smmu_state D) (i : Z) (d : smmu_dev_t) : Prop :=
  exists p l, g_smmu s = Some (p, l) /\ at_index l i = Some d.

Lemma attached_dev s i d : attached s i d -> dev_at i s = Done (d, s).
Proof.
  intros (p & l & Hg & Hl). unfold dev_at, gets. unfold bind. cbn. rewrite Hg. unfold deref. by rewrite Hl.
Qed.

Lemma attached_mach s i d h : attached s i d -> attached (set_mach h s) i d.
Proof. intros (p & l & Hg & Hl). by exists p, l. Qed.

Lemma aligned_read (a : Z) (h : machine D) : 0 <= a < 2 ^ 64 /\ a mod 4 = 0 ->
  0 <= (hw_read W32 a h).1 < 2 ^ 32 ->
  pal_mmio_read (u64 a) h = Done (hw_read W32 a h).
Proof.
  intros [Ha H4] Hr. unfold pal_mmio_read. rewrite u64_small, land_3, H4 by lia. cbn.
  rewrite u32_small by lia. by destruct (hw_read W32 a h).
Qed.

Lemma st64_done (s : smmu_state D) x v : is_Some (mem (mach s) !! x) -> 0 <= v < 2 ^ 64 ->
  st64 x v s = Done (tt, set_mach (mk_machine (<[x := v]> (mem (mach s))) (dev (mach s))) s).
Proof.
  intros [y Hy] Hv. unfold st64, bind, gets, modify, ret, deref. rewrite Hy. by rewrite u64_small by lia.
Qed.

Lemma set_mach_twice (h1 h2 : machine D) s : set_mach h2 (set_mach h1 s) = set_mach h2 s.
Proof. by destruct s. Qed.
End Steps.

(** The command queue of [d] is at [b], with the registers [rprod] and [rcons]. *)
Definition cmdq_cfg (b n rprod rcons : Z) (d : smmu_dev_t) : Prop :=
  queue (cmdq d) = mk_queue 0 0 n /\ q_base (cmdq d) = b /\ entry_size (cmdq d) = 16 /\
  prod_reg (cmdq d) = rprod /\ cons_reg (cmdq d) = rcons.

(** The two words of a command. *)
Definition is_command (cmd : list Z) : Prop :=
  exists w0 w1, cmd = [w0; w1] /\ 0 <= w0 < 2 ^ 64 /\ 0 <= w1 < 2 ^ 64.

Lemma build_cmd_command op cmd : smmu_cmdq_build_cmd op = Some cmd -> is_command cmd.
Proof.
  unfold smmu_cmdq_build_cmd. assert (Hop : 0 <= BITFIELD_SET CMDQ_0_OP op < 2 ^ 64).
  { unfold BITFIELD_SET, MASK, SHIFT. cbn. rewrite Z.shiftl_0_r. change 255 with (2 ^ 8 - 1).
    rewrite land_pred_pow2 by lia. pose proof (Z.mod_pos_bound op (2 ^ 8)). lia. }
  destruct (_ || _); [|destruct (_ =? _); [|done]]; intros [= <-]; eexists _, _; (split; [reflexivity|]); split; done.
Qed.

Section Slots.
Context {D : Type} (b n : Z) (Hn : 0 <= n <= 31) (Hb : 0 <= b /\ b + 16 * 2 ^ n <= 2 ^ 64).

Lemma ring_ok_same m m' :
  (forall i j, (j < 2)%nat -> m' !! (slot b n 2 i + 8 * Z.of_nat j) = m !! (slot b n 2 i + 8 * Z.of_nat j)) ->
  ring_ok b n 2 m -> ring_ok b n 2 m'.
Proof. intros E Hm i j Hj. rewrite E by done. by apply Hm. Qed.

Lemma contents_same m m' c k :
  (forall i j, (j < 2)%nat -> m' !! (slot b n 2 i + 8 * Z.of_nat j) = m !! (slot b n 2 i + 8 * Z.of_nat j)) ->
  contents b n 2 m' c k = contents b n 2 m c k.
Proof.
  intros E. apply list_fmap_ext. intros x y Hx. apply list_fmap_ext. intros j z Hz.
  apply lookup_seq in Hz as [-> Hz]. by rewrite E by lia.
Qed.

Lemma entry_addr_slot q i : log2nent (queue q) = n -> q_base q = b -> entry_size q = 16 ->
  entry_addr q i = slot b n 2 i.
Proof.
  intros E1 E2 E3. unfold entry_addr. rewrite E1, E2, E3, Z.shiftl_mul_pow2, Z.mul_1_l, land_pred_pow2 by lia.
  unfold slot. cbn. pose proof (Z.mod_pos_bound i (2 ^ n) (pow2_pos n (proj1 Hn))). apply u64_small. nia.
Qed.

Lemma store_command (s : smmu_state D) i cmd :
  ring_ok b n 2 (mem (mach s)) -> is_command cmd ->
  exists m', st_words (slot b n 2 i) cmd s = Done (tt, set_mach (mk_machine m' (dev (mach s))) s) /\
    same_but b n 2 i (mem (mach s)) m' /\ entry b n 2 m' i = cmd /\ ring_ok b n 2 m'.
Proof.
  intros Hm (w0 & w1 & -> & Hw0 & Hw1). set (a := slot b n 2 i).
  exists (<[a + 8 := w1]> (<[a := w0]> (mem (mach s)))).
  destruct (Hm i 0%nat ltac:(lia)) as [x0 E0]. destruct (Hm i 1%nat ltac:(lia)) as [x1 E1].
  fold a in E0, E1. rewrite Z.add_0_r in E0. change (8 * Z.of_nat 1) with 8 in E1. split_and!.
  - cbn [st_words]. rewrite (bind_done _ _ _ _ _ (st64_done s a w0 ltac:(eauto) Hw0)).
    erewrite bind_done; [|apply st64_done; [cbn; rewrite lookup_insert_ne by lia; eauto|done]]. done.
  - intros x Hx. rewrite !lookup_insert_ne; [done| |]; intros <-.
    + apply (Hx 0%nat); [lia|]. fold a. lia.
    + apply (Hx 1%nat); [lia|]. fold a. lia.
  - unfold entry. fold a. cbn [seq fmap list_fmap]. rewrite Z.add_0_r. change (8 * Z.of_nat 1) with 8.
    by rewrite lookup_insert_ne, !lookup_insert_eq by lia.
  - intros k j Hj. destruct (Hm k j Hj) as [x Hx].
    destruct (decide (a + 8 = slot b n 2 k + 8 * Z.of_nat j)) as [<-|]; [rewrite lookup_insert_eq; eauto|].
    rewrite lookup_insert_ne by done.
    destruct (decide (a = slot b n 2 k + 8 * Z.of_nat j)) as [<-|]; [rewrite lookup_insert_eq; eauto|].
    rewrite lookup_insert_ne by done. eauto.
Qed.
End Slots.

(** ** The command queue *)

Section Advance.
Context {D : Type} (kept : Z -> Prop) (cmd_prod cmd_cons : D -> Z) (executed : D -> list (list Z)) (b n : Z).

(** Between [h] and [h'], with producer index [v], the device has taken some
    commands from the front of the queue, and has left the words of [kept] alone. *)
Definition advances (v : Z) (h h' : machine D) : Prop :=
  (forall x, kept x -> mem h' !! x = mem h !! x) /\
  cmd_prod (dev h') = v /\
  exists k : nat, Z.of_nat k <= dist n v (cmd_cons (dev h)) /\
    cmd_cons (dev h') = (cmd_cons (dev h) + Z.of_nat k) mod 2 ^ (n + 1) /\
    executed (dev h') = executed (dev h) ++ contents b n 2 (mem h) (cmd_cons (dev h)) k.
End Advance.

(** A device that takes commands in order. Its registers are at [rprod] and
    [rcons]; the promises hold while the driver keeps the number of commands in
    the queue at or below its size. *)
Class CmdqDevice (D : Type) `{Hardware (machine D)} (b n rprod rcons : Z) := {
  kept : Z -> Prop;   (* words the device does not write, the ring among them *)
  cmd_prod : D -> Z;
  cmd_cons : D -> Z;
  executed : D -> list (list Z);
  kept_ring : forall i j, (j < 2)%nat -> kept (slot b n 2 i + 8 * Z.of_nat j);
  cmd_prod_range : forall d, 0 <= cmd_prod d < 2 ^ (n + 1);
  cmd_cons_range : forall d, 0 <= cmd_cons d < 2 ^ (n + 1);
  read_prod_reg : forall h, dist n (cmd_prod (dev h)) (cmd_cons (dev h)) <= 2 ^ n ->
    (hw_read W32 rprod h).1 = cmd_prod (dev h) /\
    advances kept cmd_prod cmd_cons executed b n (cmd_prod (dev h)) h (hw_read W32 rprod h).2;
  read_cons_reg : forall h, dist n (cmd_prod (dev h)) (cmd_cons (dev h)) <= 2 ^ n ->
    (hw_read W32 rcons h).1 = cmd_cons (dev (hw_read W32 rcons h).2) /\
    advances kept cmd_prod cmd_cons executed b n (cmd_prod (dev h)) h (hw_read W32 rcons h).2;
  write_prod_reg : forall h v, 0 <= v < 2 ^ (n + 1) -> dist n v (cmd_cons (dev h)) <= 2 ^ n ->
    advances kept cmd_prod cmd_cons executed b n v h (hw_write W32 rprod v h) }.

Section Cmdq.
Context {D : Type} `{CmdqDevice D b n rprod rcons}.
Context (Hn : 0 <= n <= 31) (Hb : 0 <= b /\ b + 16 * 2 ^ n <= 2 ^ 64).
Context (Hrp : 0 <= rprod < 2 ^ 64 /\ rprod mod 4 = 0) (Hrc : 0 <= rcons < 2 ^ 64 /\ rcons mod 4 = 0).

Definition pending (h : machine D) : Z := dist n (cmd_prod (dev h)) (cmd_cons (dev h)).

(** The words outside the ring that the device leaves alone. *)
Definition outside (x : Z) : Prop :=
  kept x /\ forall i j, (j < 2)%nat -> x <> slot b n 2 i + 8 * Z.of_nat j.
Definition undisturbed (h h' : machine D) : Prop := forall x, outside x -> mem h' !! x = mem h !! x.

Lemma undisturbed_trans h1 h2 h3 : undisturbed h1 h2 -> undisturbed h2 h3 -> undisturbed h1 h3.
Proof. intros H1 H2 x Hx. rewrite (H2 x Hx). by apply H1. Qed.

Lemma advances_undisturbed v h h' :
  advances kept cmd_prod cmd_cons executed b n v h h' -> undisturbed h h'.
Proof. intros (Hm & _) x [Hx _]. by apply Hm. Qed.

Lemma advances_ring v h h' : advances kept cmd_prod cmd_cons executed b n v h h' ->
  forall i j, (j < 2)%nat -> mem h' !! (slot b n 2 i + 8 * Z.of_nat j) = mem h !! (slot b n 2 i + 8 * Z.of_nat j).
Proof. intros (Hm & _) i j Hj. by apply Hm, kept_ring. Qed.

(** The abstract queue: every command the device has executed, then those that wait. *)
Definition history (h : machine D) : list (list Z) :=
  executed (dev h) ++ contents b n 2 (mem h) (cmd_cons (dev h)) (Z.to_nat (pending h)).

(** Taking commands does not change the history. *)
Lemma advances_history v h h' :
  advances kept cmd_prod cmd_cons executed b n v h h' ->
  history h' = executed (dev h) ++ contents b n 2 (mem h) (cmd_cons (dev h)) (Z.to_nat (dist n v (cmd_cons (dev h)))) /\
  0 <= pending h' <= dist n v (cmd_cons (dev h)).
Proof.
  intros Ha. pose proof (advances_ring _ _ _ Ha) as Hm. destruct Ha as (_ & Hp & k & Hk & Hc & He). unfold history, pending. rewrite Hp, Hc, He.
  pose proof (dist_range n v (cmd_cons (dev h)) (proj1 Hn)) as Hr.
  rewrite dist_sub by lia. split; [|lia]. rewrite <- app_assoc. f_equal.
  rewrite (contents_same b n _ _ _ _ Hm).
  rewrite (contents_cong b n 2 (proj1 Hn) (mem h) ((cmd_cons (dev h) + Z.of_nat k) mod 2 ^ (n + 1)) (cmd_cons (dev h) + Z.of_nat k))
    by (pose proof (pow2_pos (n + 1) ltac:(lia)); apply Z.mod_mod; lia).
  replace (Z.to_nat (dist n v (cmd_cons (dev h)))) with (k + Z.to_nat (dist n v (cmd_cons (dev h)) - Z.of_nat k))%nat by lia.
  by rewrite contents_app.
Qed.

Lemma takes_history h h' :
  advances kept cmd_prod cmd_cons executed b n (cmd_prod (dev h)) h h' ->
  history h' = history h /\ 0 <= pending h' <= pending h.
Proof. apply advances_history. Qed.

Lemma index_small v : 0 <= v < 2 ^ (n + 1) -> 0 <= v < 2 ^ 32.
Proof. intros Hv. assert (2 ^ (n + 1) <= 2 ^ 32) by (apply Z.pow_le_mono_r; lia). lia. Qed.

Lemma read_prod s : pending (mach s) <= 2 ^ n ->
  exists h', val_mmio_read rprod s = Done (cmd_prod (dev (mach s)), set_mach h' s) /\
    advances kept cmd_prod cmd_cons executed b n (cmd_prod (dev (mach s))) (mach s) h'.
Proof.
  intros Hp. destruct (read_prod_reg (mach s) Hp) as [Hv Ha]. exists (hw_read W32 rprod (mach s)).2.
  split; [|done]. unfold val_mmio_read, on_mach.
  rewrite aligned_read by (done || rewrite Hv; apply index_small, cmd_prod_range).
  by destruct (hw_read W32 rprod (mach s)); cbn in *; subst.
Qed.

Lemma read_cons s : pending (mach s) <= 2 ^ n ->
  exists h', val_mmio_read rcons s = Done (cmd_cons (dev h'), set_mach h' s) /\
    advances kept cmd_prod cmd_cons executed b n (cmd_prod (dev (mach s))) (mach s) h' /\
    h' = (hw_read W32 rcons (mach s)).2.
Proof.
  intros Hp. destruct (read_cons_reg (mach s) Hp) as [Hv Ha]. exists (hw_read W32 rcons (mach s)).2.
  split; [|done]. unfold val_mmio_read, on_mach.
  rewrite aligned_read by (done || rewrite Hv; apply index_small, cmd_cons_range).
  by destruct (hw_read W32 rcons (mach s)); cbn in *; subst.
Qed.

(** Writing a command when the queue has room appends it to the history. *)
Lemma write_cmd_fifo (s : smmu_state D) i d cmd :
  attached s i d -> cmdq_cfg b n rprod rcons d -> is_command cmd -> ring_ok b n 2 (mem (mach s)) ->
  pending (mach s) < 2 ^ n ->
  exists h', smmu_cmdq_write_cmd i cmd s = Done (0, set_mach h' s) /\
    history h' = history (mach s) ++ [cmd] /\ ring_ok b n 2 (mem h') /\ 0 <= pending h' <= pending (mach s) + 1 /\
    undisturbed (mach s) h'.
Proof.
  intros Hat (Hq & Hqb & Hes & Hpr & Hcr) Hcmd Hring Hroom.
  unfold smmu_cmdq_write_cmd. rewrite (bind_done _ _ _ _ _ (attached_dev _ _ _ Hat)).
  erewrite bind_done; [|apply rounds_first with (s' := s); rewrite (bind_done _ _ _ _ _ (attached_dev _ _ _ Hat)), Hq].
  2: { rewrite full_dist by (cbn; lia). unfold dist. cbn [log2nent prod cons]. rewrite Z.mod_0_l by (apply Z.pow_nonzero; lia).
       destruct (Z.eqb_spec 0 (2 ^ n)) as [E|]; [pose proof (pow2_pos n); lia|done]. }
  cbn beta iota. rewrite Hpr, Hq.
  destruct (read_prod s ltac:(lia)) as (h1 & E1 & Ha1). rewrite (bind_done _ _ _ _ _ E1).
  destruct (takes_history _ _ Ha1) as [Hh1 Hp1]. pose proof (advances_undisturbed _ _ _ Ha1) as Hu1.
  pose proof (advances_ring _ _ _ Ha1) as Hm1. destruct Ha1 as (_ & Hpr1 & _).
  set (p := cmd_prod (dev (mach s))) in *. pose proof (cmd_prod_range (dev (mach s))) as Hpp. fold p in Hpp.
  rewrite (entry_addr_slot b n Hn Hb (cmdq d) p) by (rewrite ?Hq; done).
  destruct (store_command b n (set_mach h1 s) p cmd (ring_ok_same b n _ _ Hm1 Hring) Hcmd) as (m2 & E2 & Hs2 & He2 & Hr2).
  rewrite (bind_done _ _ _ _ _ E2). cbn [mach set_mach dev mem] in *.
  set (h2 := mk_machine m2 (dev h1)) in *.
  rewrite inc_prod_mod by (cbn; try apply index_small; done || lia). cbn [prod log2nent].
  unfold val_mmio_write, on_mach, pal_mmio_write. rewrite u64_small by lia.
  assert (Hv : 0 <= (p + 1) mod 2 ^ (n + 1) < 2 ^ (n + 1)) by (apply Z.mod_pos_bound, pow2_pos; lia).
  rewrite u32_small by (apply index_small in Hv; lia).
  assert (Hd : dist n ((p + 1) mod 2 ^ (n + 1)) (cmd_cons (dev h2)) = pending h1 + 1).
  { unfold pending. rewrite Hpr1. unfold pending in Hp1, Hroom. rewrite Hpr1 in Hp1.
    pose proof (pow2_pos n (proj1 Hn)). apply dist_add; [lia|lia|]. rewrite pow2_S by lia. cbn. lia. }
  pose proof (write_prod_reg h2 _ Hv ltac:(lia)) as Ha3.
  destruct (advances_history _ _ _ Ha3) as [Hh3 Hp3]. rewrite Hd in Hh3, Hp3.
  assert (Hend : (cmd_cons (dev h1) + Z.of_nat (Z.to_nat (pending h1))) mod 2 ^ (n + 1) = p mod 2 ^ (n + 1)).
  { rewrite Z2Nat.id by lia. unfold pending. rewrite Hpr1. apply dist_end. }
  exists (hw_write W32 rprod ((p + 1) mod 2 ^ (n + 1)) h2). split; [reflexivity|].
  split_and!; [|apply (ring_ok_same b n m2); [apply (advances_ring _ _ _ Ha3)|done]|lia|lia|].
  2: { apply (undisturbed_trans _ h1); [done|]. apply (undisturbed_trans _ h2); [|by apply advances_undisturbed in Ha3].
       intros x [_ Hx]. apply Hs2. intros j Hj. by apply Hx. }
  rewrite Hh3, <- Hh1. unfold history. rewrite <- app_assoc. cbn [dev mem h2]. f_equal.
  replace (Z.to_nat (pending h1 + 1)) with (S (Z.to_nat (pending h1))) by lia. rewrite contents_snoc. f_equal.
  - apply contents_other; [lia|lia|]. intros x Hx. apply Hs2. intros j Hj.
    rewrite <- (slot_cong b n 2 (proj1 Hn) _ _ Hend). by apply Hx.
  - f_equal. by rewrite (entry_cong b n 2 (proj1 Hn) _ _ _ Hend).
Qed.

Lemma issue_fifo (s : smmu_state D) i d op cmd :
  smmu_cmdq_build_cmd op = Some cmd ->
  attached s i d -> cmdq_cfg b n rprod rcons d -> ring_ok b n 2 (mem (mach s)) -> pending (mach s) < 2 ^ n ->
  exists h', smmu_cmdq_issue_cmd i op s = Done (0, set_mach h' s) /\
    history h' = history (mach s) ++ [cmd] /\ ring_ok b n 2 (mem h') /\ 0 <= pending h' <= pending (mach s) + 1 /\
    undisturbed (mach s) h'.
Proof.
  intros E Hat Hc Hr Hp. unfold smmu_cmdq_issue_cmd. rewrite E. apply (write_cmd_fifo s i d); try done.
  by apply build_cmd_command in E.
Qed.

(** *** Waiting for the commands *)

(** A device that takes a command whenever its consumer index is read. *)
Definition eager : Prop :=
  forall h, 0 < pending h <= 2 ^ n -> pending (hw_read W32 rcons h).2 < pending h.

Lemma poll_drains (s : smmu_state D) i d :
  attached s i d -> cmdq_cfg b n rprod rcons d -> pending (mach s) <= 2 ^ n -> n <= 19 -> eager ->
  exists h', smmu_cmdq_poll_until_consumed i s = Done (tt, set_mach h' s) /\
    history h' = history (mach s) /\ pending h' = 0 /\ undisturbed (mach s) h'.
Proof.
  intros Hat (Hq & _ & _ & Hpr & Hcr) Hp Hn19 Heager. unfold smmu_cmdq_poll_until_consumed.
  rewrite (bind_done _ _ _ _ _ (attached_dev _ _ _ Hat)), Hpr, Hcr, Hq. cbn [log2nent].
  destruct (read_prod s Hp) as (h1 & E1 & Ha1). rewrite (bind_done _ _ _ _ _ E1).
  destruct (takes_history _ _ Ha1) as [Hh1 Hp1]. pose proof (advances_undisturbed _ _ _ Ha1) as Hu1.
  destruct Ha1 as (_ & Hpr1 & _).
  destruct (read_cons (set_mach h1 s) ltac:(cbn; lia)) as (h2 & E2 & Ha2 & _). rewrite (bind_done _ _ _ _ _ E2).
  destruct (takes_history _ _ Ha2) as [Hh2 Hp2]. pose proof (advances_undisturbed _ _ _ Ha2) as Hu2.
  destruct Ha2 as (_ & Hpr2 & _). cbn [mach set_mach] in *.
  rewrite set_mach_twice in *.
  set (Inv := fun (q : smmu_queue_t) (s' : smmu_state D) => exists h, s' = set_mach h s /\
    q = mk_queue (cmd_prod (dev h)) (cmd_cons (dev h)) n /\ history h = history (mach s) /\ 0 <= pending h <= 2 ^ n /\
    undisturbed (mach s) h).
  set (Post := fun (_ : unit) (s' : smmu_state D) => exists h, s' = set_mach h s /\
    history h = history (mach s) /\ pending h = 0 /\ undisturbed (mach s) h).
  edestruct (loop_ends Inv (fun _ s' => Z.to_nat (pending (mach s'))) Post SMMU_CMDQ_POLL_TIMEOUT)
    as (x & s' & El & (h' & -> & Hh' & Hp' & Hu')); [| | |erewrite bind_done by exact El; by exists h'].
  - intros q s' (h & -> & -> & Hh & Hph & Hu). rewrite empty_dist by (cbn; lia). cbn [log2nent prod cons].
    fold (pending h). destruct (Z.eqb_spec (pending h) 0) as [E0|Hne].
    + eexists (inl tt), _. split; [reflexivity|]. by exists h.
    + destruct (read_cons (set_mach h s) ltac:(cbn; lia)) as (h3 & E3 & Ha3 & Heq). rewrite (bind_done _ _ _ _ _ E3).
      destruct (takes_history _ _ Ha3) as [Hh3 Hp3]. pose proof (advances_undisturbed _ _ _ Ha3) as Hu3.
      destruct Ha3 as (_ & Hpr3 & _). cbn [mach set_mach] in *.
      eexists (inr _), _. split; [reflexivity|]. rewrite set_mach_twice. split.
      * exists h3. split; [done|]. unfold set_cons. cbn [prod cons log2nent]. rewrite <- Hpr3. split; [done|].
        split; [by rewrite Hh3|]. split; [lia|]. by apply (undisturbed_trans _ h).
      * cbn [mach set_mach]. assert (pending h3 < pending h) by (rewrite Heq; apply Heager; lia). lia.
  - exists h2. split; [done|]. rewrite Hpr2, Hpr1. split; [done|]. split; [by rewrite Hh2|]. split; [lia|].
    by apply (undisturbed_trans _ h1).
  - cbn [mach set_mach]. assert (2 ^ n <= 2 ^ 19) by (apply Z.pow_le_mono_r; lia).
    unfold SMMU_CMDQ_POLL_TIMEOUT. lia.
Qed.

(** The commands that invalidate the cached configuration and translations. *)
Definition invalidation (el2 : bool) : list (list Z) :=
  [[0x4; 31]] ++ (if el2 then [[0x20; 0]] else []) ++ [[0x30; 0]; [0x46; 0]].

Lemma issue_two_or_one (s : smmu_state D) i d :
  attached s i d -> cmdq_cfg b n rprod rcons d -> ring_ok b n 2 (mem (mach s)) -> pending (mach s) < 2 ^ n ->
  exists h', (if hyp (supported d) then let* _ := smmu_cmdq_issue_cmd i CMDQ_OP_TLBI_EL2_ALL in ret tt else ret tt) s
      = Done (tt, set_mach h' s) /\
    history h' = history (mach s) ++ (if hyp (supported d) then [[0x20; 0]] else []) /\
    ring_ok b n 2 (mem h') /\ 0 <= pending h' <= pending (mach s) + 1 /\ undisturbed (mach s) h'.
Proof.
  intros Hat Hc Hr Hp. destruct (hyp (supported d)).
  - destruct (issue_fifo s i d CMDQ_OP_TLBI_EL2_ALL [0x20; 0] eq_refl Hat Hc Hr Hp) as (h' & E & Hrest).
    exists h'. by rewrite (bind_done _ _ _ _ _ E).
  - exists (mach s). rewrite app_nil_r. pose proof (dist_range n (cmd_prod (dev (mach s))) (cmd_cons (dev (mach s))) (proj1 Hn)).
    split_and!; [by destruct s|done|done|unfold pending; lia|lia|done].
Qed.

(** The whole invalidation: the device has executed it when the driver goes on. *)
Lemma tlbi_cfgi_runs (s : smmu_state D) i d :
  attached s i d -> cmdq_cfg b n rprod rcons d -> ring_ok b n 2 (mem (mach s)) ->
  pending (mach s) + 4 <= 2 ^ n -> n <= 19 -> eager ->
  exists h', smmu_tlbi_cfgi i s = Done (tt, set_mach h' s) /\
    executed (dev h') = history (mach s) ++ invalidation (hyp (supported d)) /\ pending h' = 0 /\
    undisturbed (mach s) h'.
Proof.
  intros Hat Hc Hr Hp Hn19 He. unfold smmu_tlbi_cfgi.
  destruct (issue_fifo s i d CMDQ_OP_CFGI_ALL [0x4; 31] eq_refl Hat Hc Hr ltac:(lia)) as (h1 & E1 & Hh1 & Hr1 & Hp1 & Hu1).
  rewrite (bind_done _ _ _ _ _ E1). pose proof (attached_mach _ _ _ h1 Hat) as Hat1.
  rewrite (bind_done _ _ _ _ _ (attached_dev _ _ _ Hat1)).
  destruct (issue_two_or_one (set_mach h1 s) i d Hat1 Hc Hr1 ltac:(cbn; lia)) as (h2 & E2 & Hh2 & Hr2 & Hp2 & Hu2).
  rewrite (bind_done _ _ _ _ _ E2), set_mach_twice. pose proof (attached_mach _ _ _ h2 Hat) as Hat2. cbn [mach set_mach] in *.
  destruct (issue_fifo (set_mach h2 s) i d CMDQ_OP_TLBI_NSNH_ALL [0x30; 0] eq_refl Hat2 Hc Hr2 ltac:(cbn; lia))
    as (h3 & E3 & Hh3 & Hr3 & Hp3 & Hu3).
  rewrite (bind_done _ _ _ _ _ E3), set_mach_twice. pose proof (attached_mach _ _ _ h3 Hat) as Hat3. cbn [mach set_mach] in *.
  destruct (issue_fifo (set_mach h3 s) i d CMDQ_OP_CMD_SYNC [0x46; 0] eq_refl Hat3 Hc Hr3 ltac:(cbn; lia))
    as (h4 & E4 & Hh4 & Hr4 & Hp4 & Hu4).
  rewrite (bind_done _ _ _ _ _ E4), set_mach_twice. pose proof (attached_mach _ _ _ h4 Hat) as Hat4. cbn [mach set_mach] in *.
  destruct (poll_drains (set_mach h4 s) i d Hat4 Hc ltac:(cbn; lia) Hn19 He) as (h5 & E5 & Hh5 & Hp5 & Hu5).
  exists h5. rewrite E5, set_mach_twice. cbn [mach set_mach] in *. split; [done|]. split; [|split; [done|]].
  2: { do 4 (eapply undisturbed_trans; [eassumption|]). assumption. }
  rewrite Hh4, Hh3, Hh2, Hh1 in Hh5. unfold history at 1 in Hh5. rewrite Hp5 in Hh5. cbn in Hh5.
  rewrite app_nil_r in Hh5. rewrite Hh5. unfold invalidation. by rewrite <- !app_assoc.
Qed.

(** C4: Invalidating the configuration and the translations works on every device
    that takes commands in order and takes one whenever its consumer index is
    read: with room for four commands and a queue of at most [2 ^ 19] entries,
    [smmu_tlbi_cfgi] returns, and by then the device has executed every command
    that was queued before and then CFGI_ALL, TLBI_EL2_ALL when the SMMU supports
    it, TLBI_NSNH_ALL and CMD_SYNC, in this order; nothing is left in the queue,
    and memory outside the ring is as the device leaves it. *)
Theorem tlbi_cfgi_executed (s : smmu_state D) i d :
  attached s i d -> cmdq_cfg b n rprod rcons d -> ring_ok b n 2 (mem (mach s)) ->
  pending (mach s) + 4 <= 2 ^ n -> n <= 19 -> eager ->
  exists h', returns (smmu_tlbi_cfgi i) s tt (set_mach h' s) /\
    executed (dev h') = history (mach s) ++ invalidation (hyp (supported d)) /\ pending h' = 0 /\
    undisturbed (mach s) h'.
Proof. apply tlbi_cfgi_runs. Qed.
End Cmdq.

(** *** A device *)

(** It takes [speed] commands whenever its registers are accessed. *)
Record cmd_dev := mk_cmd_dev { cd_prod : Z; cd_cons : Z; cd_done : list (list Z) }.

Section CmdDevice.
Context (b n rprod rcons : Z) (speed : nat) (Hn : 0 <= n) (Hne : rprod <> rcons).

Definition take_commands (h : machine cmd_dev) : machine cmd_dev :=
  let d := dev h in
  let k := Nat.min speed (Z.to_nat (dist n (cd_prod d) (cd_cons d))) in
  mk_machine (mem h) (mk_cmd_dev (cd_prod d) ((cd_cons d + Z.of_nat k) mod 2 ^ (n + 1))
    (cd_done d ++ contents b n 2 (mem h) (cd_cons d) k)).

Definition cmd_read (_ : width) (a : Z) (h : machine cmd_dev) : Z * machine cmd_dev :=
  let h' := take_commands h in
  (if a =? rprod then cd_prod (dev h') mod 2 ^ (n + 1) else if a =? rcons then cd_cons (dev h') mod 2 ^ (n + 1) else 0, h').
Definition cmd_write (_ : width) (a v : Z) (h : machine cmd_dev) : machine cmd_dev :=
  if a =? rprod then take_commands (mk_machine (mem h) (mk_cmd_dev v (cd_cons (dev h)) (cd_done (dev h)))) else h.

#[local] Instance cmd_hw : Hardware (machine cmd_dev) := { hw_read := cmd_read; hw_write := cmd_write }.

Lemma dist_mod p c : dist n (p mod 2 ^ (n + 1)) (c mod 2 ^ (n + 1)) = dist n p c.
Proof. unfold dist. by rewrite Zminus_mod_idemp_l, Zminus_mod_idemp_r. Qed.

Lemma take_commands_advances (h h0 : machine cmd_dev) :
  mem h0 = mem h -> cd_cons (dev h0) = cd_cons (dev h) -> cd_done (dev h0) = cd_done (dev h) ->
  advances (fun _ => True) (fun d => cd_prod d mod 2 ^ (n + 1)) (fun d => cd_cons d mod 2 ^ (n + 1)) cd_done b n
    (cd_prod (dev h0) mod 2 ^ (n + 1)) h (take_commands h0).
Proof.
  intros Em Ec Ed. assert (Hpos : 2 ^ (n + 1) <> 0) by (apply Z.pow_nonzero; lia). unfold advances, take_commands. rewrite Em, Ec, Ed. cbn [mem dev cd_prod cd_cons cd_done].
  split; [done|]. split; [done|]. rewrite dist_mod.
  pose proof (dist_range n (cd_prod (dev h0)) (cd_cons (dev h)) Hn).
  exists (speed `min` Z.to_nat (dist n (cd_prod (dev h0)) (cd_cons (dev h))))%nat. split; [lia|]. split.
  - by rewrite Z.mod_mod, Zplus_mod_idemp_l.
  - f_equal. apply contents_cong; [done|]. by rewrite Z.mod_mod.
Qed.

#[local, refine] Instance cmd_device : CmdqDevice cmd_dev b n rprod rcons := {
  kept := fun _ => True;
  cmd_prod := fun d => cd_prod d mod 2 ^ (n + 1);
  cmd_cons := fun d => cd_cons d mod 2 ^ (n + 1);
  executed := cd_done }.
Proof.
  - done.
  - intros d. apply Z.mod_pos_bound, pow2_pos. lia.
  - intros d. apply Z.mod_pos_bound, pow2_pos. lia.
  - intros h _. cbn [hw_read cmd_hw]. unfold cmd_read. rewrite Z.eqb_refl. cbn [fst snd]. split; [done|].
    by apply take_commands_advances.
  - intros h _. cbn [hw_read cmd_hw]. unfold cmd_read. rewrite Z.eqb_refl. destruct (Z.eqb_spec rcons rprod); [congruence|].
    cbn [fst snd]. split; [done|]. by apply take_commands_advances.
  - intros h v Hv _. cbn [hw_write cmd_hw]. unfold cmd_write. rewrite Z.eqb_refl.
    pose proof (take_commands_advances h (mk_machine (mem h) (mk_cmd_dev v (cd_cons (dev h)) (cd_done (dev h))))
      eq_refl eq_refl eq_refl) as Ha. cbn [dev cd_prod] in Ha. by rewrite Z.mod_small in Ha.
Defined.

Lemma cmd_device_eager : (0 < speed)%nat -> eager (b := b) (n := n) (rprod := rprod) (rcons := rcons).
Proof.
  intros Hs h [Hp _]. unfold pending in *. cbn [hw_read cmd_hw cmd_read snd cmd_prod cmd_cons cmd_device] in *.
  unfold take_commands. cbn [dev cd_prod cd_cons]. rewrite !dist_mod in *.
  pose proof (dist_range n (cd_prod (dev h)) (cd_cons (dev h)) Hn). rewrite dist_sub by lia. lia.
Qed.
End CmdDevice.

(** *** A queue that is full *)

Section Stalled.
Context (b n rprod rcons : Z).
Context (Hn : 0 <= n <= 31) (Hb : 0 <= b /\ b + 16 * 2 ^ n <= 2 ^ 64).
Context (Hrp : 0 <= rprod < 2 ^ 64 /\ rprod mod 4 = 0).
#[local] Instance stalled_hw : Hardware (machine cmd_dev) := cmd_hw b n rprod rcons 0.

Lemma stalled_take (h : machine cmd_dev) : 0 <= cd_cons (dev h) < 2 ^ (n + 1) -> take_commands b n 0 h = h.
Proof.
  intros Hc. unfold take_commands. cbn [Nat.min]. rewrite Z.add_0_r, Z.mod_small by done.
  change (contents b n 2 (mem h) (cd_cons (dev h)) 0) with (@nil (list Z)). rewrite app_nil_r. by destruct h as [? []].
Qed.

(** A full command queue is not noticed: the test for fullness looks at a copy
    of the indices that the driver never updates, so with the queue full and the
    device stalled [smmu_cmdq_issue_cmd] still returns 0, overwrites the oldest
    command that waits, and moves the producer index past the size of the queue. *)
Theorem cmdq_overrun (s : smmu_state cmd_dev) i d op cmd :
  let q := dev (mach s) in
  attached s i d -> cmdq_cfg b n rprod rcons d ->
  smmu_cmdq_build_cmd op = Some cmd -> ring_ok b n 2 (mem (mach s)) ->
  0 <= cd_prod q < 2 ^ (n + 1) -> 0 <= cd_cons q < 2 ^ (n + 1) -> dist n (cd_prod q) (cd_cons q) = 2 ^ n -> 0 < n ->
  exists m', returns (smmu_cmdq_issue_cmd i op) s 0
      (set_mach (mk_machine m' (mk_cmd_dev ((cd_prod q + 1) mod 2 ^ (n + 1)) (cd_cons q) (cd_done q))) s) /\
    entry b n 2 m' (cd_cons q) = cmd /\ dist n ((cd_prod q + 1) mod 2 ^ (n + 1)) (cd_cons q) = 2 ^ n + 1.
Proof.
  intros q Hat (Hq & Hqb & Hes & Hpr & Hcr) Hcmd Hring Hp Hc Hfull Hn0. unfold returns, smmu_cmdq_issue_cmd. rewrite Hcmd.
  unfold smmu_cmdq_write_cmd. rewrite (bind_done _ _ _ _ _ (attached_dev _ _ _ Hat)).
  erewrite bind_done; [|apply rounds_first with (s' := s); rewrite (bind_done _ _ _ _ _ (attached_dev _ _ _ Hat)), Hq].
  2: { rewrite full_dist by (cbn; lia). unfold dist. cbn [log2nent prod cons]. rewrite Z.mod_0_l by (apply Z.pow_nonzero; lia).
       destruct (Z.eqb_spec 0 (2 ^ n)) as [E|]; [pose proof (pow2_pos n); lia|done]. }
  cbn beta iota. rewrite Hpr, Hq. assert (2 ^ (n + 1) <= 2 ^ 32) by (apply Z.pow_le_mono_r; lia).
  assert (E1 : val_mmio_read rprod s = Done (cd_prod q, s)).
  { assert (Er : hw_read W32 rprod (mach s) = (cd_prod q, mach s)).
    { cbn [hw_read stalled_hw cmd_hw]. unfold cmd_read. rewrite Z.eqb_refl, stalled_take by done.
      fold q. by rewrite Z.mod_small by done. }
    unfold val_mmio_read, on_mach. rewrite (aligned_read rprod (mach s) Hrp), Er by (rewrite Er; cbn; lia). by destruct s. }
  rewrite (bind_done _ _ _ _ _ E1). rewrite (entry_addr_slot b n Hn Hb (cmdq d)) by (rewrite ?Hq; done).
  destruct (store_command b n s (cd_prod q) cmd Hring (build_cmd_command _ _ Hcmd)) as (m2 & E2 & Hs2 & He2 & Hr2).
  rewrite (bind_done _ _ _ _ _ E2). exists m2. pose proof (pow2_pos n (proj1 Hn)).
  assert (Hv : 0 <= (cd_prod q + 1) mod 2 ^ (n + 1) < 2 ^ (n + 1)) by (apply Z.mod_pos_bound, pow2_pos; lia).
  split_and!.
  - rewrite inc_prod_mod by (cbn; lia). cbn [prod log2nent]. unfold val_mmio_write, on_mach, pal_mmio_write.
    rewrite u64_small, u32_small by lia. unfold bind.
    cbn [mach set_mach hw_write stalled_hw cmd_hw]. unfold cmd_write. rewrite Z.eqb_refl. by rewrite stalled_take by done.
  - rewrite <- He2. unfold entry. replace (slot b n 2 (cd_cons q)) with (slot b n 2 (cd_prod q)); [done|].
    unfold slot. do 2 f_equal. pose proof (dist_end n (cd_prod q) (cd_cons q)) as He. rewrite Hfull in He.
    assert (Hd : (2 ^ n | 2 ^ (n + 1))) by (exists 2; rewrite pow2_S by lia; lia).
    rewrite <- (Z.mod_mod_divide (cd_prod q) _ _ Hd), <- He, (Z.mod_mod_divide _ _ _ Hd).
    replace (cd_cons q + 2 ^ n) with (cd_cons q + 1 * 2 ^ n) by lia. by rewrite Z.mod_add by lia.
  - rewrite dist_add; [lia|lia|lia|]. rewrite Hfull, pow2_S by lia.
    assert (2 ^ 1 <= 2 ^ n) by (apply Z.pow_le_mono_r; lia). lia.
Qed.
End Stalled.

(** *** Examples: a queue of four commands at 0x1000 *)

Definition cmdq0 : smmu_cmd_queue_t := mk_cmd_queue (mk_queue 0 0 2) 0x1000 0x1000 0x1000 0 16 0x40000098 0x4000009c.
Definition smmu0 : smmu_dev_t :=
  mk_dev 0x40000000 0x40010000 40 40 0 4 cmdq0 queue_zero (mk_strtab 0 0 0 0 [] 0 0 0) (mk_supported false false true true true).
Definition words0 : gmap Z Z := fill_words 8 0x1000 (fun _ => 0) ∅.
Definition state0 {D} (d : D) : smmu_state D :=
  mk_smmu (mk_machine words0 d) [] [] (Some (0x500, [smmu0])) 0 1 [] 0 ∅ [].

Lemma words0_ring : ring_ok 0x1000 2 2 words0.
Proof. apply (fill_ring 0x1000 2 2). lia. Qed.

Lemma tlbi_cfgi_executed_witness :
  exists h', @smmu_tlbi_cfgi cmd_dev (cmd_hw 0x1000 2 0x40000098 0x4000009c 1) 0 (state0 (mk_cmd_dev 0 0 [])) =
      Done (tt, set_mach h' (state0 (mk_cmd_dev 0 0 []))) /\
    cd_done (dev h') = [[0x4; 31]; [0x20; 0]; [0x30; 0]; [0x46; 0]].
Proof.
  destruct (@tlbi_cfgi_executed cmd_dev (cmd_hw 0x1000 2 0x40000098 0x4000009c 1) 0x1000 2 0x40000098 0x4000009c
    (cmd_device 0x1000 2 0x40000098 0x4000009c 1 ltac:(lia) ltac:(discriminate)) ltac:(lia) ltac:(lia)
    ltac:(split; [lia|reflexivity]) ltac:(split; [lia|reflexivity])
    (state0 (mk_cmd_dev 0 0 [])) 0 smmu0) as (h' & E & Hx & _).
  - by exists 0x500, [smmu0].
  - split_and!; reflexivity.
  - apply words0_ring.
  - vm_compute. discriminate.
  - lia.
  - apply cmd_device_eager. lia.
  - exists h'. split; [exact E|exact Hx].
Defined.

Lemma cmdq_overrun_witness :
  exists m', @smmu_cmdq_issue_cmd cmd_dev (stalled_hw 0x1000 2 0x40000098 0x4000009c) 0 CMDQ_OP_CMD_SYNC (state0 (mk_cmd_dev 4 0 [])) =
      Done (0, set_mach (mk_machine m' (mk_cmd_dev 5 0 [])) (state0 (mk_cmd_dev 4 0 []))) /\
    entry 0x1000 2 2 m' 0 = [0x46; 0].
Proof.
  destruct (cmdq_overrun 0x1000 2 0x40000098 0x4000009c ltac:(lia) ltac:(lia) ltac:(split; [lia|reflexivity])
    (state0 (mk_cmd_dev 4 0 [])) 0 smmu0 CMDQ_OP_CMD_SYNC [0x46; 0]) as (m' & E & He & _).
  - by exists 0x500, [smmu0].
  - split_and!; reflexivity.
  - reflexivity.
  - apply words0_ring.
  - cbn. lia.
  - cbn. lia.
  - reflexivity.
  - lia.
  - exists m'. split; [exact E|exact He].
Defined.

(** ** The event queue *)

Section Emit.
Context {D : Type} (ev_prod ev_cons : D -> Z) (produced : D -> list (list Z)) (budget : D -> nat) (b n : Z).

(** Between [h] and [h'], with consumer index [c], the device has added some
    events behind those that wait, within the room of the queue. [budget] bounds
    the events it will still add. *)
Definition emits (c : Z) (h h' : machine D) : Prop :=
  ev_cons (dev h') = c /\ (ring_ok b n 4 (mem h) -> ring_ok b n 4 (mem h')) /\
  exists es : list (list Z),
    dist n (ev_prod (dev h')) c = dist n (ev_prod (dev h)) c + Z.of_nat (length es) /\
    dist n (ev_prod (dev h')) c <= 2 ^ n /\
    contents b n 4 (mem h') c (Z.to_nat (dist n (ev_prod (dev h')) c)) =
      contents b n 4 (mem h) c (Z.to_nat (dist n (ev_prod (dev h)) c)) ++ es /\
    produced (dev h') = produced (dev h) ++ es /\
    (budget (dev h') + length es <= budget (dev h))%nat.
End Emit.

(** A device that adds events, does not overflow its queue and reports no global
    error: both error registers hold [errors]. *)
Class EvtqDevice (D : Type) `{Hardware (machine D)} (b n rprod rcons rgerror rgerrorn errors : Z) := {
  ev_prod : D -> Z;
  ev_cons : D -> Z;
  produced : D -> list (list Z);
  budget : D -> nat;
  ev_prod_range : forall d, 0 <= ev_prod d < 2 ^ (n + 1);
  any_read : forall a h, dist n (ev_prod (dev h)) (ev_cons (dev h)) <= 2 ^ n ->
    emits ev_prod ev_cons produced budget b n (ev_cons (dev h)) h (hw_read W32 a h).2;
  read_ev_prod : forall h, (hw_read W32 rprod h).1 = ev_prod (dev (hw_read W32 rprod h).2);
  read_gerror : forall h, (hw_read W32 rgerror h).1 = errors;
  read_gerrorn : forall h, (hw_read W32 rgerrorn h).1 = errors;
  write_ev_cons : forall h v, 0 <= v < 2 ^ (n + 1) -> dist n (ev_prod (dev h)) v <= 2 ^ n ->
    emits ev_prod ev_cons produced budget b n v h (hw_write W32 rcons v h);
  write_gerrorn : forall h v, dist n (ev_prod (dev h)) (ev_cons (dev h)) <= 2 ^ n ->
    emits ev_prod ev_cons produced budget b n (ev_cons (dev h)) h (hw_write W32 rgerrorn v h) }.

Section Evtq.
Context {D : Type} `{EvtqDevice D b n rprod rcons rgerror rgerrorn errors}.
Context (Hn : 0 <= n <= 30) (Hb : 0 <= b /\ b + 32 * 2 ^ n <= 2 ^ 64).
Context (Hrp : 0 <= rprod < 2 ^ 64 /\ rprod mod 4 = 0) (Hrc : 0 <= rcons < 2 ^ 64 /\ rcons mod 4 = 0).
Context (i : Z).

Local Abbreviation emit := (emits ev_prod ev_cons produced budget b n).

(** The event queue of [d] is at [b]. *)
Definition evtq_cfg (d : smmu_dev_t) : Prop :=
  log2nent (queue (evntq d)) = n /\ q_base (evntq d) = b /\ entry_size (evntq d) = 32 /\
  prod_reg (evntq d) = rprod /\ cons_reg (evntq d) = rcons.

(** Events in the ring, and the work that is left at most. *)
Definition waiting (h : machine D) : Z := dist n (ev_prod (dev h)) (ev_cons (dev h)).
Definition work (h : machine D) : nat := (Z.to_nat (waiting h) + budget (dev h))%nat.

(** The invariant of the thread: the consumer index of the driver is the one the
    device has, its producer index lies behind, and what has been reported
    followed by what waits is what the device has produced. *)
Record evtq_inv (s : smmu_state D) (d : smmu_dev_t) : Prop := {
  ei_at : attached s i d;
  ei_cfg : evtq_cfg d;
  ei_ring : ring_ok b n 4 (mem (mach s));
  ei_cons : ev_cons (dev (mach s)) = cons (queue (evntq d));
  ei_range : 0 <= cons (queue (evntq d)) < 2 ^ (n + 1) /\ 0 <= prod (queue (evntq d)) < 2 ^ (n + 1);
  ei_size : dist n (prod (queue (evntq d))) (cons (queue (evntq d))) <= waiting (mach s) <= 2 ^ n;
  ei_events : reported s ++ contents b n 4 (mem (mach s)) (cons (queue (evntq d))) (Z.to_nat (waiting (mach s))) =
    produced (dev (mach s)) }.

(** The events the driver knows of. *)
Definition known (d : smmu_dev_t) : Z := dist n (prod (queue (evntq d))) (cons (queue (evntq d))).

(** The device has added events, which its budget pays for. *)
Definition grows (h h' : machine D) : Prop :=
  exists late, produced (dev h') = produced (dev h) ++ late /\ (budget (dev h') + length late <= budget (dev h))%nat.

(** Events that arrive keep the invariant. *)
Lemma emit_inv (s : smmu_state D) d h' :
  evtq_inv s d -> emit (ev_cons (dev (mach s))) (mach s) h' ->
  evtq_inv (set_mach h' s) d /\ (work h' <= work (mach s))%nat /\
  grows (mach s) h'.
Proof.
  intros [Hat Hc Hr Hco Hra Hs He] (Hc' & Hr' & es & Hd & Hle & Hcon & Hp & Hbu).
  unfold waiting in *. rewrite Hco in *.
  pose proof (dist_range n (ev_prod (dev (mach s))) (cons (queue (evntq d))) (proj1 Hn)).
  split_and!.
  - constructor; cbn [mach set_mach reported]; try done; try (by apply attached_mach); try (by apply Hr').
    + unfold waiting. rewrite Hc'. lia.
    + unfold waiting. rewrite Hc', Hcon, Hp, <- He. by rewrite app_assoc.
  - unfold work, waiting. rewrite Hc', Hco, Hd. lia.
  - by exists es.
Qed.

(** A read of any register, with its value. *)
Lemma read_any s d a : evtq_inv s d -> 0 <= a < 2 ^ 64 /\ a mod 4 = 0 ->
  exists v h', val_mmio_read a s = Done (v, set_mach h' s) /\ v = u32 (hw_read W32 a (mach s)).1 /\
    h' = (hw_read W32 a (mach s)).2 /\ evtq_inv (set_mach h' s) d /\ (work h' <= work (mach s))%nat /\
    grows (mach s) h'.
Proof.
  intros Hi [Ha H4]. pose proof (any_read a (mach s) ltac:(apply Hi)) as He.
  destruct (emit_inv _ _ _ Hi He) as (Hi' & Hw & Hl).
  exists (u32 (hw_read W32 a (mach s)).1), (hw_read W32 a (mach s)).2. split_and!; try done.
  unfold val_mmio_read, on_mach, pal_mmio_read. by rewrite u64_small, land_3, H4 by lia.
Qed.

Lemma upd_dev_done (s : smmu_state D) d f : attached s i d ->
  exists g, upd_dev i f s = Done (tt, set_g_smmu g s) /\ attached (set_g_smmu g s) i (f d).
Proof.
  intros Hat. unfold upd_dev. rewrite (bind_done _ _ _ _ _ (attached_dev _ _ _ Hat)).
  destruct Hat as (p & l & Hg & Hl). exists (Some (p, <[Z.to_nat i := f d]> l)). split.
  - unfold put_dev, gets, bind. rewrite Hg. unfold deref. by rewrite Hl.
  - exists p, (<[Z.to_nat i := f d]> l). split; [done|]. by rewrite (at_index_insert _ _ _ _ _ Hl), Z.eqb_refl.
Qed.

Lemma load_event (s : smmu_state D) k :
  ring_ok b n 4 (mem (mach s)) -> ld_words (slot b n 4 k) 4 s = Done (entry b n 4 (mem (mach s)) k, s).
Proof.
  intros Hr. assert (Hld : forall j, (j < 4)%nat ->
    ld64 (slot b n 4 k + 8 * Z.of_nat j) s = Done (default 0 (mem (mach s) !! (slot b n 4 k + 8 * Z.of_nat j)), s)).
  { intros j Hj. destruct (Hr k j Hj) as [v Hv]. unfold ld64, bind, gets, deref. by rewrite Hv. }
  pose proof (Hld 0%nat ltac:(lia)) as H0'. pose proof (Hld 1%nat ltac:(lia)) as H1'.
  pose proof (Hld 2%nat ltac:(lia)) as H2'. pose proof (Hld 3%nat ltac:(lia)) as H3'.
  unfold entry. cbn [seq fmap list_fmap]. cbn [ld_words].
  replace (slot b n 4 k + 8 + 8 + 8) with (slot b n 4 k + 8 * Z.of_nat 3) by lia.
  replace (slot b n 4 k + 8 + 8) with (slot b n 4 k + 8 * Z.of_nat 2) by lia.
  replace (ld64 (slot b n 4 k) : prog (smmu_state D) Z) with (ld64 (slot b n 4 k + 8 * Z.of_nat 0) : prog (smmu_state D) Z) by (do 2 f_equal; lia).
  replace (slot b n 4 k + 8) with (slot b n 4 k + 8 * Z.of_nat 1) by lia.
  rewrite (bind_done _ _ _ _ _ H0'). unfold bind at 1. rewrite (bind_done _ _ _ _ _ H1'). unfold bind at 1.
  rewrite (bind_done _ _ _ _ _ H2'). unfold bind at 1. by rewrite (bind_done _ _ _ _ _ H3').
Qed.

Lemma event_addr q k : log2nent (queue q) = n -> q_base q = b -> entry_size q = 32 -> entry_addr q k = slot b n 4 k.
Proof.
  intros E1 E2 E3. unfold entry_addr. rewrite E1, E2, E3, Z.shiftl_mul_pow2, Z.mul_1_l, land_pred_pow2 by lia.
  unfold slot. cbn. pose proof (Z.mod_pos_bound k (2 ^ n) (pow2_pos n (proj1 Hn))). apply u64_small. nia.
Qed.

Definition drop_event (d : smmu_dev_t) : smmu_dev_t :=
  set_evntq (set_queue (set_cons (smmu_inc_cons (queue (evntq d))) (queue (evntq d))) (evntq d)) d.

(** Removing an event: it is the oldest one that waits. *)
Lemma remove_event (s : smmu_state D) d :
  evtq_inv s d -> 0 < known d ->
  exists g h', smmu_queue_remove_raw i s =
      Done (Some (entry b n 4 (mem (mach s)) (cons (queue (evntq d)))), set_mach h' (set_g_smmu g s)) /\
    evtq_inv (set_reported (reported s ++ [entry b n 4 (mem (mach s)) (cons (queue (evntq d)))]) (set_mach h' (set_g_smmu g s)))
      (drop_event d) /\
    known (drop_event d) = known d - 1 /\ (work h' < work (mach s))%nat /\
    grows (mach s) h'.
Proof.
  intros Hi Hk. destruct Hi as [Hat Hc Hr Hco Hra Hs He]. pose proof Hc as (Hq & Hqb & Hes & Hpr & Hcr).
  unfold known in *. set (q := queue (evntq d)) in *. set (c := cons q) in *.
  assert (Hn31 : 0 <= log2nent q <= 31) by (rewrite Hq; lia). assert (Hp31 : 2 ^ (n + 1) <= 2 ^ 31) by (apply Z.pow_le_mono_r; lia).
  unfold smmu_queue_remove_raw. rewrite (bind_done _ _ _ _ _ (attached_dev _ _ _ Hat)). fold q.
  rewrite empty_dist by done. fold c. rewrite Hq. destruct (Z.eqb_spec (dist n (prod q) c) 0); [lia|].
  unfold smmu_queue_read. fold q c. rewrite event_addr by done. rewrite (bind_done _ _ _ _ _ (load_event s c Hr)).
  assert (Ec : smmu_inc_cons q = (c + 1) mod 2 ^ (n + 1)) .
  { rewrite inc_cons_mod by (fold c; lia). unfold c. do 2 f_equal. lia. }
  destruct (upd_dev_done s d (fun d0 => set_evntq (set_queue (set_cons (smmu_inc_cons q) (queue (evntq d0))) (evntq d0)) d0) Hat)
    as (g & Eg & Hg).
  unfold upd_evntq. rewrite (bind_done _ _ _ _ _ Eg). fold (drop_event d) in Hg. rewrite Ec, Hcr.
  set (c' := (c + 1) mod 2 ^ (n + 1)) in *.
  assert (Hc' : 0 <= c' < 2 ^ (n + 1)) by (apply Z.mod_pos_bound, pow2_pos; lia).
  assert (HW : waiting (mach s) = dist n (ev_prod (dev (mach s))) c) by (unfold waiting; by rewrite Hco).
  assert (HW' : dist n (ev_prod (dev (mach s))) c' = waiting (mach s) - 1).
  { rewrite HW. apply dist_sub; lia. }
  assert (Hk' : dist n (prod q) c' = dist n (prod q) c - 1) by (apply dist_sub; lia).
  unfold val_mmio_write, on_mach, pal_mmio_write. rewrite u64_small, u32_small by lia. cbn [mach set_g_smmu].
  pose proof (write_ev_cons (mach s) c' Hc' ltac:(lia)) as (Hco' & Hr' & es & Hd & Hle & Hcon & Hp & Hbu).
  exists g, (hw_write W32 rcons c' (mach s)). split; [reflexivity|]. split_and!.
  - assert (Hdq : queue (evntq (drop_event d)) = mk_queue (prod q) c' n) by (unfold drop_event, set_cons; cbn [evntq set_evntq queue set_queue]; fold q; by rewrite Ec, Hq).
    constructor; cbn [mach set_mach set_reported reported set_g_smmu].
    + destruct Hg as (p & l & Hg1 & Hg2). by exists p, l.
    + split_and!; [by rewrite Hdq|done..].
    + by apply Hr'.
    + by rewrite Hdq.
    + rewrite Hdq. cbn. lia.
    + rewrite Hdq. unfold waiting. rewrite Hco'. cbn [prod cons]. lia.
    + rewrite Hdq. unfold waiting. rewrite Hco'. cbn [cons]. rewrite Hcon, Hp, <- He, HW', HW.
      rewrite (contents_cong b n 4 (proj1 Hn) (mem (mach s)) c' (c + 1))
        by (unfold c'; pose proof (pow2_pos (n + 1) ltac:(lia)); apply Z.mod_mod; lia).
      replace (Z.to_nat (dist n (ev_prod (dev (mach s))) c)) with (S (Z.to_nat (dist n (ev_prod (dev (mach s))) c - 1))) by lia.
      rewrite contents_cons. by rewrite <- !app_assoc.
  - unfold known, drop_event, set_cons. cbn [evntq set_evntq queue set_queue cons prod]. fold q. by rewrite Ec.
  - unfold work, waiting at 1. rewrite Hco', Hd, HW'. lia.
  - by exists es.
Qed.

(** Time passes: the device may have produced events, the work has not grown. *)
Definition later (s s' : smmu_state D) : Prop :=
  g_smmu_index s' = g_smmu_index s /\ (work (mach s') <= work (mach s))%nat /\
  grows (mach s) (mach s').

Lemma later_refl s : later s s.
Proof. split_and!; [done..|]. exists []. rewrite app_nil_r. cbn [length]. split; [done|lia]. Qed.

Lemma later_trans s1 s2 s3 : later s1 s2 -> later s2 s3 -> later s1 s3.
Proof.
  intros (E1 & W1 & l1 & P1 & B1) (E2 & W2 & l2 & P2 & B2). split_and!; [congruence|lia|].
  exists (l1 ++ l2). rewrite length_app. split; [by rewrite P2, P1, app_assoc|lia].
Qed.

Lemma later_read s d a : evtq_inv s d -> 0 <= a < 2 ^ 64 /\ a mod 4 = 0 ->
  exists v s', val_mmio_read a s = Done (v, s') /\ evtq_inv s' d /\ later s s' /\ reported s' = reported s /\
    v = u32 (hw_read W32 a (mach s)).1 /\ mach s' = (hw_read W32 a (mach s)).2.
Proof.
  intros Hi Ha. destruct (read_any s d a Hi Ha) as (v & h' & E & Hv & Hh & Hi' & Hw & Hl).
  exists v, (set_mach h' s). split_and!; try done.
Qed.

(** One pass of the inner loop. *)
Lemma event_step s d : evtq_inv s d ->
  exists r s' d', evtq_event i s = Done (r, s') /\ evtq_inv s' d' /\ later s s' /\ base d' = base d /\
    match r with
    | Some _ => known d' = 0
    | None => known d' < known d /\ (work (mach s') < work (mach s))%nat
    end.
Proof.
  intros Hi. unfold evtq_event. pose proof (ei_cfg _ _ Hi) as (Hq & _ & _ & Hpr & Hcr).
  pose proof (dist_range n (prod (queue (evntq d))) (cons (queue (evntq d))) (proj1 Hn)) as Hr.
  destruct (Z.eqb_spec (known d) 0) as [E0|Hk].
  - assert (E : smmu_queue_remove_raw i s = Done (None, s)).
    { unfold smmu_queue_remove_raw. rewrite (bind_done _ _ _ _ _ (attached_dev _ _ _ (ei_at _ _ Hi))).
      rewrite empty_dist, Hq by (rewrite Hq; lia). fold (known d). by rewrite E0. }
    rewrite (bind_done _ _ _ _ _ E). exists (Some tt), s, d. split_and!; try done. apply later_refl.
  - destruct (remove_event s d Hi) as (g & h1 & E1 & Hi1 & Hk1 & Hw1 & Hl1); [unfold known in *; lia|].
    rewrite (bind_done _ _ _ _ _ E1). unfold gets, modify.
    set (s1 := set_mach h1 (set_g_smmu g s)) in *.
    set (s2 := set_reported (reported s ++ [entry b n 4 (mem (mach s)) (cons (queue (evntq d)))]) s1) in *.
    change (bind (fun s0 => Done (reported s0, s0)) ?k s1) with (k (reported s1) s1). cbn beta.
    change (reported s1) with (reported s). erewrite bind_done; [|reflexivity]. fold s2.
    rewrite (bind_done _ _ _ _ _ (attached_dev _ _ _ (ei_at _ _ Hi1))).
    pose proof (ei_cfg _ _ Hi1) as (_ & _ & _ & Hpr1 & Hcr1). rewrite Hpr1, Hcr1.
    destruct (later_read s2 _ rprod Hi1 Hrp) as (v3 & s3 & E3 & Hi3 & Hl3 & _). rewrite (bind_done _ _ _ _ _ E3).
    destruct (later_read s3 _ rcons Hi3 Hrc) as (v4 & s4 & E4 & Hi4 & Hl4 & _). rewrite (bind_done _ _ _ _ _ E4).
    assert (H2 : later s s2) by (split_and!; [done|cbn; lia|done]).
    exists None, s4, (drop_event d). split_and!; try done.
    + by apply (later_trans s s2), (later_trans s2 s3).
    + rewrite Hk1. lia.
    + destruct Hl3 as (_ & ? & _), Hl4 as (_ & ? & _). cbn in *. lia.
Qed.

Lemma inner_loop fuel s d : evtq_inv s d -> (Z.to_nat (known d) < fuel)%nat ->
  exists s' d', while_fuel fuel (evtq_event i) s = Done (tt, s') /\ evtq_inv s' d' /\ later s s' /\ base d' = base d /\
    known d' = 0 /\ (known d <> 0 -> (work (mach s') < work (mach s))%nat).
Proof.
  revert s d. induction fuel as [|f IH]; intros s d Hi Hf; [lia|]. cbn [while_fuel].
  destruct (event_step s d Hi) as (r & s1 & d1 & E1 & Hi1 & Hl1 & Hb1 & Hr). rewrite (bind_done _ _ _ _ _ E1).
  pose proof (dist_range n (prod (queue (evntq d))) (cons (queue (evntq d))) (proj1 Hn)) as Hd. fold (known d) in Hd.
  destruct r as [[]|].
  - exists s1, d1. split_and!; try done. intros Hk. exfalso.
    (* the queue was not empty *)
    unfold evtq_event in E1. destruct (remove_event s d Hi ltac:(lia)) as (g & h & E & _).
    rewrite (bind_done _ _ _ _ _ E) in E1.
    apply bind_inv in E1 as (? & ? & _ & E1). apply bind_inv in E1 as (? & ? & _ & E1).
    apply bind_inv in E1 as (? & ? & _ & E1). apply bind_inv in E1 as (? & ? & _ & E1).
    apply bind_inv in E1 as (? & ? & _ & E1). done.
  - destruct Hr as [Hk1 Hw1].
    pose proof (dist_range n (prod (queue (evntq d1))) (cons (queue (evntq d1))) (proj1 Hn)) as Hd1. fold (known d1) in Hd1.
    destruct (IH s1 d1 Hi1 ltac:(lia)) as (s' & d' & E' & Hi' & Hl' & Hb' & Hk' & _).
    exists s', d'. split_and!; try done; [by apply (later_trans s s1)|congruence|].
    intros _. destruct Hl' as (_ & ? & _). lia.
Qed.

Lemma sync_step s d : evtq_inv s d ->
  exists r s' d', queue_sync_prod_in i s = Done (r, s') /\ evtq_inv s' d' /\ later s s' /\ base d' = base d /\
    known d' = waiting (mach s') /\ prod (queue (evntq d')) = ev_prod (dev (mach s')).
Proof.
  intros Hi. unfold queue_sync_prod_in. rewrite (bind_done _ _ _ _ _ (attached_dev _ _ _ (ei_at _ _ Hi))).
  pose proof (ei_cfg _ _ Hi) as (Hq & Hqb & Hes & Hpr & Hcr). rewrite Hpr.
  destruct (later_read s d rprod Hi Hrp) as (v & s1 & E1 & Hi1 & Hl1 & Hrep & Hv & Hm). rewrite (bind_done _ _ _ _ _ E1).
  assert (Hv' : v = ev_prod (dev (mach s1))).
  { rewrite Hv, Hm, read_ev_prod. apply u32_small. pose proof (ev_prod_range (dev (hw_read W32 rprod (mach s)).2)).
    assert (2 ^ (n + 1) <= 2 ^ 31) by (apply Z.pow_le_mono_r; lia). lia. }
  destruct (upd_dev_done s1 d (fun d0 => set_evntq (set_queue (set_prod v (queue (evntq d0))) (evntq d0)) d0) (ei_at _ _ Hi1))
    as (g & Eg & Hg).
  unfold upd_evntq. rewrite (bind_done _ _ _ _ _ Eg). destruct Hi1 as [Hat1 _ Hr1 Hco1 Hra1 Hs1 He1].
  eexists _, _, _. split; [reflexivity|]. split_and!; [constructor|..]; try done.
  - cbn [evntq set_evntq queue set_queue cons set_prod prod log2nent]. split; [apply Hra1|]. rewrite Hv'. apply ev_prod_range.
  - cbn [evntq set_evntq queue set_queue cons set_prod prod]. split; [|apply Hs1]. unfold waiting. cbn [mach set_g_smmu].
    rewrite Hco1, Hv'. lia.
  - unfold known, waiting. cbn [evntq set_evntq queue set_queue cons set_prod prod mach set_g_smmu]. by rewrite Hco1, Hv'.
Qed.

Definition outer_measure (s : smmu_state D) (d : smmu_dev_t) : nat :=
  (2 * work (mach s) + if (known d =? 0)%Z then 1 else 0)%nat.

Lemma known_work s d : evtq_inv s d -> 0 <= known d <= waiting (mach s) /\ (Z.to_nat (known d) <= work (mach s))%nat.
Proof.
  intros Hi. pose proof (ei_size _ _ Hi). pose proof (dist_range n (prod (queue (evntq d))) (cons (queue (evntq d))) (proj1 Hn)).
  unfold known, work. lia.
Qed.

Lemma pass_step fuel s d : evtq_inv s d -> (work (mach s) < fuel)%nat ->
  exists r s' d', evtq_pass fuel i s = Done (r, s') /\ evtq_inv s' d' /\ later s s' /\ base d' = base d /\
    match r with
    | Some _ => waiting (mach s') = 0 /\ prod (queue (evntq d')) = ev_prod (dev (mach s'))
    | None => (outer_measure s' d' < outer_measure s d)%nat
    end.
Proof.
  intros Hi Hf. unfold evtq_pass. destruct (known_work s d Hi) as [_ Hkw].
  destruct (inner_loop fuel s d Hi ltac:(lia)) as (s1 & d1 & E1 & Hi1 & Hl1 & Hb1 & Hk1 & Hw1). rewrite (bind_done _ _ _ _ _ E1).
  destruct (sync_step s1 d1 Hi1) as (r & s2 & d2 & E2 & Hi2 & Hl2 & Hb2 & Hk2 & Hp2). rewrite (bind_done _ _ _ _ _ E2).
  rewrite (bind_done _ _ _ _ _ (attached_dev _ _ _ (ei_at _ _ Hi2))).
  pose proof (ei_cfg _ _ Hi2) as (Hq & _). rewrite empty_dist, Hq by (rewrite Hq; lia). fold (known d2).
  eexists _, s2, d2. split; [reflexivity|]. split_and!; try done; [by apply (later_trans s s1)|congruence|].
  destruct (Z.eqb_spec (known d2) 0) as [E0|Hne]; [split; [lia|done]|].
  unfold outer_measure. destruct Hl1 as (_ & ? & _), Hl2 as (_ & ? & _).
  destruct (Z.eqb_spec (known d2) 0); [done|]. destruct (Z.eqb_spec (known d) 0); [lia|]. specialize (Hw1 ltac:(done)). lia.
Qed.

Lemma outer_loop fuel0 fuel s d : evtq_inv s d -> (work (mach s) < fuel0)%nat -> (outer_measure s d < fuel)%nat ->
  exists s' d', while_fuel fuel (evtq_pass fuel0 i) s = Done (tt, s') /\ evtq_inv s' d' /\ later s s' /\ base d' = base d /\
    waiting (mach s') = 0 /\ prod (queue (evntq d')) = ev_prod (dev (mach s')).
Proof.
  revert s d. induction fuel as [|f IH]; intros s d Hi Hf0 Hf; [lia|]. cbn [while_fuel].
  destruct (pass_step fuel0 s d Hi Hf0) as (r & s1 & d1 & E1 & Hi1 & Hl1 & Hb1 & Hr). rewrite (bind_done _ _ _ _ _ E1).
  destruct r as [[]|]; [exists s1, d1; split_and!; tauto || done|].
  pose proof Hl1 as (_ & Hw & _).
  destruct (IH s1 d1 Hi1 ltac:(lia) ltac:(lia)) as (s' & d' & E' & Hi' & Hl' & Hb' & Hr').
  exists s', d'. split_and!; try done; try tauto; [by apply (later_trans s s1)|congruence].
Qed.

Lemma last_cons q : log2nent q = n -> 0 <= prod q < 2 ^ (n + 1) -> 0 <= cons q < 2 ^ (n + 1) -> evtq_last_cons q = cons q.
Proof.
  intros Eq Hp Hc. unfold evtq_last_cons. rewrite Eq, !Z.shiftl_mul_pow2, !Z.mul_1_l, land_pred_pow2, !wrap_bit by lia.
  assert (2 ^ (n + 1) <= 2 ^ 31) by (apply Z.pow_le_mono_r; lia). rewrite (Z.div_small (prod q)) by lia.
  rewrite Z.mod_0_l, Z.mul_0_r, Z.lor_0_l by lia. pose proof (split_index n (cons q) (proj1 Hn)) as Hs.
  rewrite (Z.mod_small (cons q) (2 ^ (n + 1))) in Hs by lia.
  pose proof (Z.mod_pos_bound (cons q) (2 ^ n) (pow2_pos n (proj1 Hn))).
  pose proof (lor_shiftl_add ((cons q / 2 ^ n) mod 2) (cons q mod 2 ^ n) n ltac:(lia) ltac:(lia)) as El.
  rewrite Z.shiftl_mul_pow2, Z.mul_comm in El by lia. lia.
Qed.

Lemma gerror_step s d : evtq_inv s d -> 0 <= base d /\ base d + 0x64 < 2 ^ 64 /\ base d mod 4 = 0 ->
  rgerror = base d + SMMU_GERROR_OFFSET -> rgerrorn = base d + SMMU_GERRORN_OFFSET ->
  exists s', smmu_gerror_check i s = Done (0, s') /\ evtq_inv s' d /\ later s s'.
Proof.
  intros Hi Hbase E1 E2. unfold smmu_gerror_check.
  rewrite (bind_done _ _ _ _ _ (attached_dev _ _ _ (ei_at _ _ Hi))). rewrite <- E1, <- E2.
  unfold SMMU_GERROR_OFFSET, SMMU_GERRORN_OFFSET in *.
  destruct (later_read s d rgerror Hi ltac:(lia)) as (v1 & s1 & R1 & Hi1 & Hl1 & _ & Hv1 & _). rewrite (bind_done _ _ _ _ _ R1).
  destruct (later_read s1 d rgerrorn Hi1 ltac:(lia)) as (v2 & s2 & R2 & Hi2 & Hl2 & _ & Hv2 & _). rewrite (bind_done _ _ _ _ _ R2).
  rewrite read_gerror in Hv1. rewrite read_gerrorn in Hv2. rewrite Hv1, Hv2, Z.lxor_nilpotent. cbn [Z.land Z.eqb negb].
  pose proof (write_gerrorn (mach s2) (u32 (u32 errors)) ltac:(apply Hi2)) as He.
  destruct (emit_inv _ _ _ Hi2 He) as (Hi3 & Hw3 & Hl3).
  eexists. split.
  { unfold val_mmio_write, on_mach, pal_mmio_write, bind. rewrite u64_small by lia. reflexivity. }
  split; [done|]. apply (later_trans s s1); [done|]. by apply (later_trans s1 s2).
Qed.

(** C9: Draining the event queue is complete and ends, also while the device goes on
    producing: from a state where the invariant holds, with fuel for twice the
    events that wait and may still come, [smmu_evtq_thread] returns with the
    invariant and with the two indices of the driver equal.  It has reported, in order and
    once, every event that had been produced when it started and every event that arrived
    before its last look at the producer index; what arrived after that look, and nothing
    else, is left in the queue of the device.  The budget of the device pays for all the
    events that arrived, so with a device that adds no more events the queue is empty. *)
Theorem evtq_thread_drains fuel s d :
  g_smmu_index s = i -> evtq_inv s d -> 0 <= base d /\ base d + 0x64 < 2 ^ 64 /\ base d mod 4 = 0 ->
  rgerror = base d + SMMU_GERROR_OFFSET -> rgerrorn = base d + SMMU_GERRORN_OFFSET ->
  (2 * work (mach s) + 1 < fuel)%nat ->
  exists s' d' early late,
    returns (smmu_evtq_thread fuel) s tt s' /\ evtq_inv s' d' /\
    reported s' = produced (dev (mach s)) ++ early /\
    produced (dev (mach s')) = reported s' ++ late /\
    known d' = 0 /\ Z.of_nat (length late) = waiting (mach s') /\
    (budget (dev (mach s')) + length early + length late <= budget (dev (mach s)))%nat.
Proof.
  intros Hidx Hi Hbase Eg Egn Hf. unfold returns, smmu_evtq_thread, gets.
  change (bind (fun s0 => Done (g_smmu_index s0, s0)) ?k s) with (k (g_smmu_index s) s). cbn beta. rewrite Hidx.
  destruct (gerror_step s d Hi Hbase Eg Egn) as (s1 & E1 & Hi1 & Hl1). rewrite (bind_done _ _ _ _ _ E1). cbn [Z.eqb negb].
  pose proof Hl1 as (_ & Hw1 & _).
  destruct (outer_loop fuel fuel s1 d Hi1 ltac:(lia)) as (s2 & d2 & E2 & Hi2 & Hl2 & Hb2 & Hw2 & Hp2).
  { unfold outer_measure. destruct (_ =? _); lia. }
  rewrite (bind_done _ _ _ _ _ E2), (bind_done _ _ _ _ _ (attached_dev _ _ _ (ei_at _ _ Hi2))).
  pose proof (ei_cfg _ _ Hi2) as (Hq2 & _ & _ & Hpr2 & Hcr2). rewrite Hpr2, Hcr2.
  destruct (later_read s2 d2 rprod Hi2 Hrp) as (v3 & s3 & R3 & Hi3 & Hl3 & Hr3 & _). rewrite (bind_done _ _ _ _ _ R3).
  destruct (later_read s3 d2 rcons Hi3 Hrc) as (v4 & s4 & R4 & Hi4 & Hl4 & Hr4 & _). rewrite (bind_done _ _ _ _ _ R4).
  unfold upd_evntq.
  destruct (upd_dev_done s4 d2 (fun d0 => set_evntq (set_queue (set_cons (evtq_last_cons (queue (evntq d0))) (queue (evntq d0)))
    (evntq d0)) d0) (ei_at _ _ Hi4)) as (g & Ew & Hat5).
  set (d5 := set_evntq _ d2) in Hat5.
  assert (Hd5 : queue (evntq d5) = queue (evntq d2)).
  { unfold d5. cbn [evntq set_evntq queue set_queue]. unfold set_cons. rewrite last_cons by (done || apply Hi4).
    by destruct (queue (evntq d2)). }
  assert (Hrep2 : reported s2 = produced (dev (mach s2))).
  { rewrite <- (ei_events _ _ Hi2), Hw2. by rewrite app_nil_r. }
  destruct (later_trans _ _ _ Hl1 Hl2) as (_ & _ & early & He & Hbe). destruct (later_trans _ _ _ Hl3 Hl4) as (_ & _ & late & Hla & Hbl).
  exists (set_g_smmu g s4), d5, early, late. split_and!; [exact Ew| | | | | |].
  - destruct Hi4 as [? (? & ? & ? & ? & ?) ? ? ? ? ?]. constructor; try done; by rewrite Hd5.
  - cbn [reported set_g_smmu]. by rewrite Hr4, Hr3, Hrep2.
  - cbn [reported set_g_smmu mach]. by rewrite Hr4, Hr3, Hrep2.
  - unfold known. rewrite Hd5, Hp2. rewrite <- Hw2. unfold waiting. by rewrite (ei_cons _ _ Hi2).
  - cbn [mach set_g_smmu]. pose proof (ei_events _ _ Hi4) as Hev. rewrite Hr4, Hr3, Hrep2, Hla in Hev. apply app_inv_head in Hev.
    rewrite <- Hev, contents_length. pose proof (dist_range n (ev_prod (dev (mach s4))) (ev_cons (dev (mach s4))) (proj1 Hn)). unfold waiting. lia.
  - cbn [mach set_g_smmu]. lia.
Qed.
End Evtq.

(** *** A device *)

(** It adds the next event of [e_todo] whenever a register is accessed and there is room. *)
Record ev_dev := mk_ev_dev { e_prod : Z; e_cons : Z; e_produced : list (list Z); e_todo : list (Z * Z * Z * Z) }.

Definition event_words (e : Z * Z * Z * Z) : list Z := let '(w0, w1, w2, w3) := e in [w0; w1; w2; w3].
Definition put_event (a : Z) (e : Z * Z * Z * Z) (m : gmap Z Z) : gmap Z Z :=
  let '(w0, w1, w2, w3) := e in <[a := w0]> (<[a + 8 := w1]> (<[a + 16 := w2]> (<[a + 24 := w3]> m))).

Section EvDevice.
Context (b n rprod rcons rgerror rgerrorn : Z).
Context (Hn : 0 <= n) (H1 : rprod <> rgerror) (H2 : rprod <> rgerrorn) (H3 : rcons <> rgerrorn).

Definition e_index (v : Z) : Z := v mod 2 ^ (n + 1).

Definition add_event (h : machine ev_dev) : machine ev_dev :=
  let d := dev h in
  match e_todo d with
  | e :: l =>
      if dist n (e_prod d) (e_cons d) <? 2 ^ n
      then mk_machine (put_event (slot b n 4 (e_prod d)) e (mem h))
             (mk_ev_dev (e_index (e_prod d + 1)) (e_cons d) (e_produced d ++ [event_words e]) l)
      else h
  | [] => h
  end.

Definition ev_read (_ : width) (a : Z) (h : machine ev_dev) : Z * machine ev_dev :=
  let h' := add_event h in (if a =? rprod then e_index (e_prod (dev h')) else 0, h').
Definition ev_write (_ : width) (a v : Z) (h : machine ev_dev) : machine ev_dev :=
  if a =? rcons then add_event (mk_machine (mem h) (mk_ev_dev (e_prod (dev h)) v (e_produced (dev h)) (e_todo (dev h))))
  else add_event h.

#[local] Instance ev_hw : Hardware (machine ev_dev) := { hw_read := ev_read; hw_write := ev_write }.

Lemma put_event_spec k e m :
  same_but b n 4 k m (put_event (slot b n 4 k) e m) /\
  entry b n 4 (put_event (slot b n 4 k) e m) k = event_words e /\
  (ring_ok b n 4 m -> ring_ok b n 4 (put_event (slot b n 4 k) e m)).
Proof.
  destruct e as [[[w0 w1] w2] w3]. cbn [put_event event_words]. set (a := slot b n 4 k). split_and!.
  - intros x Hx. pose proof (Hx 0%nat ltac:(lia)) as X0. pose proof (Hx 1%nat ltac:(lia)) as X1.
    pose proof (Hx 2%nat ltac:(lia)) as X2. pose proof (Hx 3%nat ltac:(lia)) as X3. fold a in X0, X1, X2, X3.
    by rewrite !lookup_insert_ne by lia.
  - unfold entry. fold a. cbn [seq fmap list_fmap].
    replace (a + 8 * Z.of_nat 0) with a by lia. replace (a + 8 * Z.of_nat 1) with (a + 8) by lia.
    replace (a + 8 * Z.of_nat 2) with (a + 16) by lia. replace (a + 8 * Z.of_nat 3) with (a + 24) by lia.
    repeat first [rewrite lookup_insert_eq | rewrite lookup_insert_ne by lia]. done.
  - intros Hr i j Hj. destruct (Hr i j Hj) as [v Hv].
    repeat (apply lookup_insert_is_Some'; right). by exists v.
Qed.

Lemma dist_index p c : dist n (e_index p) c = dist n p c.
Proof. unfold dist, e_index. by rewrite Zminus_mod_idemp_l. Qed.

Lemma add_event_emits (h h0 : machine ev_dev) c :
  mem h0 = mem h -> e_prod (dev h0) = e_prod (dev h) -> e_produced (dev h0) = e_produced (dev h) ->
  e_todo (dev h0) = e_todo (dev h) -> e_cons (dev h0) = c ->
  dist n (e_index (e_prod (dev h))) c <= 2 ^ n ->
  emits (fun d => e_index (e_prod d)) e_cons e_produced (fun d => length (e_todo d)) b n c h (add_event h0).
Proof.
  intros Em Ep Er Et Ec. rewrite dist_index. intros Hd. pose proof (pow2_pos n Hn).
  pose proof (dist_range n (e_prod (dev h)) c Hn). unfold add_event. rewrite Et, Ep, Ec.
  assert (Hsame : emits (fun d => e_index (e_prod d)) e_cons e_produced (fun d => length (e_todo d)) b n c h h0).
  { split; [done|]. rewrite Em. split; [done|]. exists []. rewrite Ep, Er, Et, !dist_index. cbn [length].
    split_and!; try lia; by rewrite app_nil_r. }
  destruct (e_todo (dev h)) as [|e l] eqn:Etodo; [done|]. destruct (Z.ltb_spec (dist n (e_prod (dev h)) c) (2 ^ n)); [|done].
  destruct (put_event_spec (e_prod (dev h)) e (mem h)) as (Hs & He & Hr).
  split; [done|]. rewrite Em. split; [done|]. exists [event_words e]. cbn [dev e_prod e_produced e_todo mem length].
  assert (Hadd : dist n (e_prod (dev h) + 1) c = dist n (e_prod (dev h)) c + 1).
  { rewrite <- (dist_index (e_prod (dev h) + 1)). apply dist_add; [done|lia|]. rewrite pow2_S by done. lia. }
  rewrite !dist_index, Er, Etodo, Hadd.
  split_and!; try done; try lia; [|cbn; lia].
  replace (Z.to_nat (dist n (e_prod (dev h)) c + 1)) with (S (Z.to_nat (dist n (e_prod (dev h)) c))) by lia.
  rewrite contents_snoc. pose proof (dist_end n (e_prod (dev h)) c) as Hend.
  rewrite <- (Z2Nat.id (dist n (e_prod (dev h)) c)) in Hend by lia. f_equal.
  - apply contents_other; [done|lia|]. intros x Hx. apply Hs. intros j Hj. rewrite <- (slot_cong b n 4 Hn _ _ Hend). by apply Hx.
  - f_equal. by rewrite (entry_cong b n 4 Hn _ _ _ Hend).
Qed.

#[local, refine] Instance ev_device : EvtqDevice ev_dev b n rprod rcons rgerror rgerrorn 0 := {
  ev_prod := fun d => e_index (e_prod d); ev_cons := e_cons; produced := e_produced; budget := fun d => length (e_todo d) }.
Proof.
  - intros d. apply Z.mod_pos_bound, pow2_pos. lia.
  - intros a h Hd. by apply add_event_emits.
  - intros h. cbn [hw_read ev_hw]. unfold ev_read. by rewrite Z.eqb_refl.
  - intros h. cbn [hw_read ev_hw]. unfold ev_read. destruct (Z.eqb_spec rgerror rprod); [congruence|done].
  - intros h. cbn [hw_read ev_hw]. unfold ev_read. destruct (Z.eqb_spec rgerrorn rprod); [congruence|done].
  - intros h v Hv Hd. cbn [hw_write ev_hw]. unfold ev_write. rewrite Z.eqb_refl. by apply add_event_emits.
  - intros h v Hd. cbn [hw_write ev_hw]. unfold ev_write. destruct (Z.eqb_spec rgerrorn rcons); [congruence|].
    by apply add_event_emits.
Defined.
End EvDevice.

(** *** Example: an event waits, two more arrive while the queue is drained *)

Definition evntq0 : smmu_cmd_queue_t := mk_cmd_queue (mk_queue 0 0 1) 0x2000 0x2000 0x2000 0 32 0x400100a8 0x400100ac.
Definition smmu1 : smmu_dev_t := set_evntq evntq0 smmu0.
Definition ev_dev0 : ev_dev := mk_ev_dev 1 0 [[0x10; 0; 0; 0]] [(0x2, 0, 0, 0); (0x11, 0, 0, 0)].
Definition ev_state0 : smmu_state ev_dev :=
  mk_smmu (mk_machine (put_event 0x2000 (0x10, 0, 0, 0) (fill_words 8 0x2000 (fun _ => 0) ∅)) ev_dev0)
    [] [] (Some (0x500, [smmu1])) 0 1 [] 0 ∅ [].

Lemma evtq_thread_drains_witness :
  exists s' early, @smmu_evtq_thread ev_dev (ev_hw 0x2000 1 0x400100a8 0x400100ac) 20 ev_state0 = Done (tt, s') /\
    reported s' = [0x10; 0; 0; 0] :: early.
Proof.
  destruct (@evtq_thread_drains ev_dev (ev_hw 0x2000 1 0x400100a8 0x400100ac) 0x2000 1 0x400100a8 0x400100ac 0x40000060 0x40000064 0
    (ev_device 0x2000 1 0x400100a8 0x400100ac 0x40000060 0x40000064 ltac:(lia) ltac:(discriminate) ltac:(discriminate) ltac:(discriminate))
    ltac:(lia) ltac:(lia) ltac:(split; [lia|reflexivity]) ltac:(split; [lia|reflexivity]) 0 20 ev_state0 smmu1)
    as (s' & d' & early & late & E & _ & Hr & _).
  - reflexivity.
  - constructor; try reflexivity.
    + by exists 0x500, [smmu1].
    + split_and!; reflexivity.
    + apply (put_event_spec 0x2000 1 0 (0x10, 0, 0, 0)), (fill_ring 0x2000 1 4). lia.
    + cbn. lia.
    + vm_compute. split; discriminate.
  - cbn. lia.
  - reflexivity.
  - reflexivity.
  - vm_compute. lia.
  - exists s', early. split; [exact E|exact Hr].
Defined.

Lemma queue_tests_exact_witness :
  smmu_queue_full (mk_queue 0x80000005 1 2) = true /\ dist 2 0x80000005 1 = 4.
Proof.
  destruct (queue_tests_exact (mk_queue 0x80000005 1 2)) as (_ & H & _); [cbn; lia..|].
  split; [rewrite H|]; reflexivity.
Defined.
