(* ===== verification/SmmuMap.v ===== *)
(** * The SMMU driver: tables and mappings

    What the tables of [Smmu] mean to the device that reads them: the fields it
    decodes from a stream table entry and from a context descriptor, where the
    queues and the stream table lie, and what mapping and unmapping a stream
    change. The commands run against the interface [CmdqDevice]. *)

From S2P Require Import Prelude Status Mmio Bytes Iovirt Smmu SmmuQueue.

(** ** Fields of a word *)

Definition field_ok (f : bitfield) : Prop := 0 <= lsb f <= msb f.
Definition disjoint_fields (f g : bitfield) : Prop := msb g < lsb f \/ msb f < lsb g.
(** Every bit of [c] lies outside [f]. *)
Definition clears (f : bitfield) (c : Z) : Prop := BITFIELD_GET f c = 0.

Section Fields.
Context (f : bitfield) (Hf : field_ok f).

Lemma mask_mod x : Z.land x (MASK f) = x mod 2 ^ (msb f - lsb f + 1).
Proof. unfold MASK. apply land_pred_pow2. unfold field_ok in Hf. lia. Qed.

Lemma get_lor a b : BITFIELD_GET f (Z.lor a b) = Z.lor (BITFIELD_GET f a) (BITFIELD_GET f b).
Proof. unfold BITFIELD_GET. by rewrite Z.shiftr_lor, Z.land_lor_distr_l. Qed.

Lemma get_set v : BITFIELD_GET f (BITFIELD_SET f v) = v mod 2 ^ (msb f - lsb f + 1).
Proof.
  unfold BITFIELD_GET, BITFIELD_SET, SHIFT. rewrite Z.shiftr_shiftl_l, Z.sub_diag, Z.shiftl_0_r by apply Hf.
  rewrite !mask_mod. apply Z.mod_mod. apply Z.pow_nonzero; unfold field_ok in Hf; lia.
Qed.

Lemma get_bits x i : 0 <= i ->
  Z.testbit (BITFIELD_GET f x) i = (i <? msb f - lsb f + 1) && Z.testbit x (i + lsb f).
Proof.
  intros Hi. unfold BITFIELD_GET, SHIFT. rewrite mask_mod. unfold field_ok in Hf.
  destruct (Z.ltb_spec i (msb f - lsb f + 1)).
  - rewrite Z.mod_pow2_bits_low, Z.shiftr_spec by lia. done.
  - by rewrite Z.mod_pow2_bits_high by lia.
Qed.

Lemma set_bits v i : 0 <= i ->
  Z.testbit (BITFIELD_SET f v) i = (lsb f <=? i) && (i <=? msb f) && Z.testbit v (i - lsb f).
Proof.
  intros Hi. unfold BITFIELD_SET, SHIFT. rewrite mask_mod, Z.shiftl_spec by lia. unfold field_ok in Hf.
  destruct (Z.leb_spec (lsb f) i); [|by rewrite Z.testbit_neg_r by lia].
  destruct (Z.leb_spec i (msb f)); cbn [andb].
  - rewrite Z.mod_pow2_bits_low by lia. done.
  - by rewrite Z.mod_pow2_bits_high by lia.
Qed.

Lemma set_range v : 0 <= BITFIELD_SET f v < 2 ^ (msb f + 1).
Proof.
  unfold BITFIELD_SET, SHIFT. rewrite mask_mod. unfold field_ok in Hf. rewrite Z.shiftl_mul_pow2 by lia.
  pose proof (Z.mod_pos_bound v (2 ^ (msb f - lsb f + 1)) ltac:(apply Z.pow_pos_nonneg; lia)) as Hv.
  pose proof (Z.pow_pos_nonneg 2 (lsb f) ltac:(lia) ltac:(lia)).
  replace (2 ^ (msb f + 1)) with (2 ^ ((msb f - lsb f + 1) + lsb f)) by (f_equal; lia). rewrite (Z.pow_add_r 2 (msb f - lsb f + 1) (lsb f)) by lia.
  split; [apply Z.mul_nonneg_nonneg; lia|apply Z.mul_lt_mono_pos_r; lia].
Qed.
End Fields.

Lemma get_set_other f g v : field_ok f -> field_ok g -> disjoint_fields f g -> BITFIELD_GET f (BITFIELD_SET g v) = 0.
Proof.
  intros Hf Hg Hd. apply Z.bits_inj'. intros i Hi. rewrite get_bits, Z.bits_0 by done. unfold field_ok, disjoint_fields in *.
  destruct (Z.ltb_spec i (msb f - lsb f + 1)); [|done]. rewrite set_bits by (done || lia). cbn [andb].
  destruct (Z.leb_spec (lsb g) (i + lsb f)), (Z.leb_spec (i + lsb f) (msb g)); try done. lia.
Qed.

Lemma lor_range n a b : 0 <= n -> 0 <= a < 2 ^ n -> 0 <= b < 2 ^ n -> 0 <= Z.lor a b < 2 ^ n.
Proof.
  intros Hn Ha Hb. replace (Z.lor a b) with (Z.lor a b mod 2 ^ n); [apply Z.mod_pos_bound; lia|].
  apply Z.bits_inj'. intros i Hi. destruct (Z.ltb_spec i n).
  - by rewrite Z.mod_pow2_bits_low by lia.
  - rewrite Z.mod_pow2_bits_high, Z.lor_spec by lia. by rewrite !(testbit_high _ n) by lia.
Qed.

Lemma field_range n f v : field_ok f -> msb f < n -> 0 <= BITFIELD_SET f v < 2 ^ n.
Proof.
  intros Hf Hn. pose proof (set_range f Hf v). unfold field_ok in Hf.
  assert (2 ^ (msb f + 1) <= 2 ^ n) by (apply Z.pow_le_mono_r; lia). lia.
Qed.

Ltac fields :=
  repeat match goal with
  | |- field_ok _ => split; cbn; lia
  | |- disjoint_fields _ _ => unfold disjoint_fields; cbn; lia
  end.
(** Reads a field of a word that is a disjunction of fields and constants. *)
Ltac read_field :=
  rewrite ?get_lor;
  repeat first
    [ rewrite get_set by fields
    | rewrite get_set_other by fields
    | match goal with |- context [BITFIELD_GET ?f ?c] =>
        let v := eval vm_compute in (BITFIELD_GET f c) in
        match v with 0 => idtac | Zpos _ => idtac end; change (BITFIELD_GET f c) with v end ];
  rewrite ?Z.lor_0_l, ?Z.lor_0_r.

Ltac word_range :=
  repeat (apply lor_range; [lia| |]);
  first [apply field_range; [fields|cbn; lia] | vm_compute; split; [discriminate|reflexivity] | idtac].

(** ** What the device reads

    A stream table entry and a context descriptor as the SMMU architecture
    defines them; [ssid] is the substream. *)

Record view := mk_view {
  vw_stage2 : bool; vw_ttb : Z; vw_tsz : Z; vw_tg : Z; vw_sh : Z; vw_orgn : Z; vw_irgn : Z; vw_ps : Z;
  vw_sl : Z;   (* stage 2 *)
  vw_mair : Z   (* stage 1 *) }.

Inductive translation := Invalid | Abort | Translate (v : view).

Definition word (m : gmap Z Z) (a : Z) : Z := default 0 (m !! a).

Definition stage2_view (m : gmap Z Z) (ste : Z) : view :=
  let tc := BITFIELD_GET STRTAB_STE_2_VTCR (word m (ste + 16)) in
  mk_view true (Z.shiftl (BITFIELD_GET STRTAB_STE_3_S2TTB (word m (ste + 24))) 4)
    (BITFIELD_GET STRTAB_STE_2_VTCR_S2T0SZ tc) (BITFIELD_GET STRTAB_STE_2_VTCR_S2TG tc)
    (BITFIELD_GET STRTAB_STE_2_VTCR_S2SH0 tc) (BITFIELD_GET STRTAB_STE_2_VTCR_S2OR0 tc)
    (BITFIELD_GET STRTAB_STE_2_VTCR_S2IR0 tc) (BITFIELD_GET STRTAB_STE_2_VTCR_S2PS tc)
    (BITFIELD_GET STRTAB_STE_2_VTCR_S2SL0 tc) 0.

Definition stage1_view (m : gmap Z Z) (cd : Z) : view :=
  let w := word m cd in
  mk_view false (Z.shiftl (BITFIELD_GET CDTAB_CD_1_TTB0 (word m (cd + 8))) 4)
    (BITFIELD_GET CDTAB_CD_0_TCR_T0SZ w) (BITFIELD_GET CDTAB_CD_0_TCR_TG0 w)
    (BITFIELD_GET CDTAB_CD_0_TCR_SH0 w) (BITFIELD_GET CDTAB_CD_0_TCR_ORGN0 w)
    (BITFIELD_GET CDTAB_CD_0_TCR_IRGN0 w) (BITFIELD_GET CDTAB_CD_0_TCR_IPS w) 0 (word m (cd + 24)).

(** The address of the context descriptor, [None] when it is not there. *)
Definition descriptor_of (m : gmap Z Z) (ste ssid : Z) : option Z :=
  let w := word m ste in
  let ptr := Z.shiftl (BITFIELD_GET STRTAB_STE_0_S1CONTEXTPTR w) 6 in
  if 2 ^ BITFIELD_GET STRTAB_STE_0_S1CDMAX w <=? ssid then None
  else if BITFIELD_GET STRTAB_STE_0_S1FMT w =? 0 then Some (ptr + 64 * ssid)
  else let l1 := word m (ptr + 8 * (ssid / 2 ^ 10)) in
       if Z.testbit l1 0 then Some (Z.shiftl (BITFIELD_GET CDTAB_L1_DESC_L2PTR l1) 12 + 64 * (ssid mod 2 ^ 10)) else None.

Definition translates (m : gmap Z Z) (ste ssid : Z) : translation :=
  let w := word m ste in
  if negb (Z.testbit w 0) then Invalid
  else if BITFIELD_GET STRTAB_STE_0_CONFIG w =? 0 then Abort
  else if BITFIELD_GET STRTAB_STE_0_CONFIG w =? 6 then Translate (stage2_view m ste)
  else if BITFIELD_GET STRTAB_STE_0_CONFIG w =? 5 then
    match descriptor_of m ste ssid with
    | Some cd => if Z.testbit (word m cd) 31 then Translate (stage1_view m cd) else Invalid
    | None => Invalid
    end
  else Invalid.

(** What the caller asks for, up to the bits of the table address from 48 on,
    which the masks of the driver drop. *)
Definition installed (s2 : bool) (g : pgt_descriptor_t) : view :=
  let t := pgt_tcr g in
  mk_view s2 (pgt_base g mod 2 ^ 48) (tcr_tsz t) (tcr_tg t) (tcr_sh t) (tcr_orgn t) (tcr_irgn t) (tcr_ps t)
    (if s2 then tcr_sl t else 0) (if s2 then 0 else pgt_mair g).

(** The attributes fit their fields. *)
Definition attributes_fit (g : pgt_descriptor_t) : Prop :=
  let t := pgt_tcr g in
  0 <= tcr_tsz t < 64 /\ 0 <= tcr_tg t < 4 /\ 0 <= tcr_sh t < 4 /\ 0 <= tcr_orgn t < 4 /\ 0 <= tcr_irgn t < 4 /\
  0 <= tcr_ps t < 8 /\ 0 <= tcr_sl t < 4 /\ 0 <= pgt_mair g < 2 ^ 64 /\ 0 <= pgt_base g /\ pgt_base g mod 16 = 0.

(** *** The fields of the words that the driver writes *)

Definition w0_s2 : Z := Z.lor STRTAB_STE_0_V (BITFIELD_SET STRTAB_STE_0_CONFIG STRTAB_STE_0_CONFIG_S2_TRANS).
Definition w1_s2 (w1 : Z) : Z :=
  Z.lor w1 (Z.lor (BITFIELD_SET STRTAB_STE_1_STRW 0x2) (BITFIELD_SET STRTAB_STE_1_EATS 0x1)).
Definition w2_s2 (cfg : smmu_stage2_config_t) : Z :=
  Z.lor (Z.lor (Z.lor (Z.lor (BITFIELD_SET STRTAB_STE_2_S2VMID (vmid cfg))
    (BITFIELD_SET STRTAB_STE_2_VTCR (vtcr cfg))) STRTAB_STE_2_S2PTW) STRTAB_STE_2_S2AA64) STRTAB_STE_2_S2R.
Definition w3_s2 (cfg : smmu_stage2_config_t) : Z := Z.land (vttbr cfg) (MASK STRTAB_STE_3_S2TTB).

Ltac fit := intros; rewrite Z.mod_small by (cbn; lia); done.

Lemma vtcr_fields g : attributes_fit g ->
  let c := vtcr (stage2_of g) in let t := pgt_tcr g in
  BITFIELD_GET STRTAB_STE_2_VTCR_S2T0SZ c = tcr_tsz t /\ BITFIELD_GET STRTAB_STE_2_VTCR_S2TG c = tcr_tg t /\
  BITFIELD_GET STRTAB_STE_2_VTCR_S2SH0 c = tcr_sh t /\ BITFIELD_GET STRTAB_STE_2_VTCR_S2OR0 c = tcr_orgn t /\
  BITFIELD_GET STRTAB_STE_2_VTCR_S2IR0 c = tcr_irgn t /\ BITFIELD_GET STRTAB_STE_2_VTCR_S2PS c = tcr_ps t /\
  BITFIELD_GET STRTAB_STE_2_VTCR_S2SL0 c = tcr_sl t /\ 0 <= c < 2 ^ 19.
Proof.
  unfold attributes_fit. intros (H1 & H2 & H3 & H4 & H5 & H6 & H7 & _). cbn zeta. unfold stage2_of. cbn [vtcr].
  split; [read_field; fit|]. split; [read_field; fit|]. split; [read_field; fit|]. split; [read_field; fit|].
  split; [read_field; fit|]. split; [read_field; fit|]. split; [read_field; fit|]. word_range.
Qed.

(** The table address: the mask of the field, not shifted. *)
Lemma ttb_field x : 0 <= x -> x mod 16 = 0 ->
  Z.shiftl (BITFIELD_GET (BF 51 4) (Z.land x (MASK (BF 51 4)))) 4 = x mod 2 ^ 48.
Proof.
  intros Hx H16. rewrite mask_mod by fields. cbn [msb lsb]. unfold BITFIELD_GET. rewrite mask_mod by fields.
  cbn [SHIFT msb lsb]. rewrite Z.shiftr_div_pow2, Z.shiftl_mul_pow2 by lia. cbn -[Z.div Z.modulo Z.mul]. lia.
Qed.

Lemma w2_fields g : attributes_fit g -> BITFIELD_GET STRTAB_STE_2_VTCR (w2_s2 (stage2_of g)) = vtcr (stage2_of g).
Proof.
  intros Hg. destruct (vtcr_fields g Hg) as (_ & _ & _ & _ & _ & _ & _ & Hr). unfold w2_s2. read_field.
  apply Z.mod_small, Hr.
Qed.

Lemma w2_range c : 0 <= w2_s2 c < 2 ^ 64.
Proof. unfold w2_s2. word_range. Qed.

Lemma w3_range c : 0 <= w3_s2 c < 2 ^ 64.
Proof. unfold w3_s2. rewrite mask_mod by fields. cbn. lia. Qed.

(** An entry of stage 2 means what the caller asked for. *)
Lemma stage2_entry m ste ssid g : attributes_fit g ->
  m !! ste = Some w0_s2 -> m !! (ste + 16) = Some (w2_s2 (stage2_of g)) -> m !! (ste + 24) = Some (w3_s2 (stage2_of g)) ->
  translates m ste ssid = Translate (installed true g).
Proof.
  intros Hg E0 E2 E3. unfold translates, stage2_view, word. rewrite E0, E2, E3. cbn [default from_option id].
  change (negb (Z.testbit w0_s2 0)) with false. change (BITFIELD_GET STRTAB_STE_0_CONFIG w0_s2) with 6. cbn [Z.eqb Pos.eqb].
  rewrite (w2_fields g Hg). destruct (vtcr_fields g Hg) as (-> & -> & -> & -> & -> & -> & -> & _).
  unfold w3_s2, stage2_of, STRTAB_STE_3_S2TTB. cbn [vttbr]. rewrite ttb_field by apply Hg. done.
Qed.

(** *** Context descriptors *)

Definition w0_s1 (c : smmu_stage1_config_t) : Z :=
  Z.lor STRTAB_STE_0_V (Z.lor (Z.lor (Z.lor
    (Z.land (cdtab_phys (cdcfg c)) (Z.shiftl (MASK STRTAB_STE_0_S1CONTEXTPTR) (SHIFT STRTAB_STE_0_S1CONTEXTPTR)))
    (BITFIELD_SET STRTAB_STE_0_CONFIG STRTAB_STE_0_CONFIG_S1_TRANS))
    (BITFIELD_SET STRTAB_STE_0_S1CDMAX (s1cdmax c))) (BITFIELD_SET STRTAB_STE_0_S1FMT (s1fmt c))).

(** A masked address is the field of its upper bits. *)
Lemma address_set f x : field_ok f -> msb f = 51 -> 0 <= x < 2 ^ 52 ->
  Z.land x (Z.shiftl (MASK f) (SHIFT f)) = BITFIELD_SET f (x / 2 ^ lsb f).
Proof.
  intros Hf Hm Hx. apply Z.bits_inj'. intros i Hi. rewrite Z.land_spec, set_bits by done.
  unfold SHIFT, MASK. rewrite Hm. unfold field_ok in Hf. rewrite Z.shiftl_spec by done.
  replace (2 ^ (51 - lsb f + 1) - 1) with (Z.ones (51 - lsb f + 1)) by (rewrite Z.ones_equiv; lia).
  destruct (Z.leb_spec (lsb f) i); cbn [andb].
  - rewrite Z.div_pow2_bits by lia. replace (i - lsb f + lsb f) with i by lia. destruct (Z.leb_spec i 51).
    + rewrite Z.ones_spec_low by lia. by rewrite andb_true_r.
    + rewrite (testbit_high x 52) by lia. done.
  - rewrite (Z.testbit_neg_r _ (i - lsb f)) by lia. apply andb_false_r.
Qed.

Lemma address_get f x : field_ok f -> msb f = 51 -> 0 <= x < 2 ^ 52 -> x mod 2 ^ lsb f = 0 ->
  Z.shiftl (BITFIELD_GET f (BITFIELD_SET f (x / 2 ^ lsb f))) (lsb f) = x.
Proof.
  intros Hf Hm Hx H0. rewrite get_set by done. unfold field_ok in Hf. pose proof (pow2_pos (lsb f) ltac:(lia)) as Hp.
  assert (Hd : 0 <= x / 2 ^ lsb f < 2 ^ (msb f - lsb f + 1)).
  { rewrite Hm. split; [apply Z.div_pos; lia|]. apply Z.div_lt_upper_bound; [lia|]. rewrite <- Z.pow_add_r by lia.
    replace (lsb f + (51 - lsb f + 1)) with 52 by lia. lia. }
  rewrite Z.mod_small, Z.shiftl_mul_pow2 by lia. pose proof (Z.div_mod x (2 ^ lsb f) ltac:(lia)). lia.
Qed.

Lemma ctx_word0_fields g : attributes_fit g ->
  let w := ctx_desc_word0 (ctx_desc_of g) in let t := pgt_tcr g in
  BITFIELD_GET CDTAB_CD_0_TCR_T0SZ w = tcr_tsz t /\ BITFIELD_GET CDTAB_CD_0_TCR_TG0 w = tcr_tg t /\
  BITFIELD_GET CDTAB_CD_0_TCR_SH0 w = tcr_sh t /\ BITFIELD_GET CDTAB_CD_0_TCR_ORGN0 w = tcr_orgn t /\
  BITFIELD_GET CDTAB_CD_0_TCR_IRGN0 w = tcr_irgn t /\ BITFIELD_GET CDTAB_CD_0_TCR_IPS w = tcr_ps t /\
  Z.testbit w 31 = true /\ 0 <= w < 2 ^ 64.
Proof.
  unfold attributes_fit. intros (H1 & H2 & H3 & H4 & H5 & H6 & H7 & _). cbn zeta. unfold ctx_desc_word0, ctx_desc_of.
  cbn [tcr asid].
  split; [read_field; fit|]. split; [read_field; fit|]. split; [read_field; fit|]. split; [read_field; fit|].
  split; [read_field; fit|]. split; [read_field; fit|]. split; [|word_range].
  rewrite Z.lor_spec. apply orb_true_r.
Qed.

Lemma w0_s1_fields c : 0 <= cdtab_phys (cdcfg c) < 2 ^ 52 -> cdtab_phys (cdcfg c) mod 64 = 0 ->
  0 <= s1cdmax c < 32 -> 0 <= s1fmt c < 4 ->
  BITFIELD_GET STRTAB_STE_0_CONFIG (w0_s1 c) = 5 /\ BITFIELD_GET STRTAB_STE_0_S1CDMAX (w0_s1 c) = s1cdmax c /\
  BITFIELD_GET STRTAB_STE_0_S1FMT (w0_s1 c) = s1fmt c /\
  Z.shiftl (BITFIELD_GET STRTAB_STE_0_S1CONTEXTPTR (w0_s1 c)) 6 = cdtab_phys (cdcfg c) /\
  Z.testbit (w0_s1 c) 0 = true /\ 0 <= w0_s1 c < 2 ^ 64.
Proof.
  intros Hp H64 Hm Hf. unfold w0_s1. rewrite address_set by (done || fields).
  split; [read_field; done|]. split; [read_field; fit|]. split; [read_field; fit|]. split.
  - rewrite ?get_lor. rewrite <- (address_get STRTAB_STE_0_S1CONTEXTPTR (cdtab_phys (cdcfg c))) at 2 by (done || fields).
    by read_field.
  - split; [by rewrite Z.lor_spec|]. word_range.
Qed.

(** An entry of stage 1 whose table of descriptors is linear means what the
    caller asked for. *)
Lemma stage1_entry m ste ssid c g : attributes_fit g ->
  0 <= cdtab_phys (cdcfg c) < 2 ^ 52 -> cdtab_phys (cdcfg c) mod 64 = 0 -> 0 <= s1cdmax c < 32 -> s1fmt c = 0 ->
  0 <= ssid < 2 ^ s1cdmax c ->
  let cd := cdtab_phys (cdcfg c) + 64 * ssid in
  m !! ste = Some (w0_s1 c) -> m !! cd = Some (ctx_desc_word0 (ctx_desc_of g)) ->
  m !! (cd + 8) = Some (Z.land (ttbr (ctx_desc_of g)) (MASK CDTAB_CD_1_TTB0)) ->
  m !! (cd + 24) = Some (mair (ctx_desc_of g)) ->
  translates m ste ssid = Translate (installed false g).
Proof.
  intros Hg Hp H64 Hm Hf Hs cd E0 E1 E2 E3.
  destruct (w0_s1_fields c Hp H64 Hm ltac:(lia)) as (F1 & F2 & F3 & F4 & F5 & _).
  unfold translates, descriptor_of. unfold word at 1 2 3 4 5 6 7 8. rewrite E0. cbn [default from_option id].
  rewrite F1, F2, F3, F4, F5, Hf. cbn [negb Z.eqb Pos.eqb]. destruct (Z.leb_spec (2 ^ s1cdmax c) ssid); [lia|].
  fold cd. unfold stage1_view, word. rewrite E1, E2, E3. cbn [default from_option id].
  destruct (ctx_word0_fields g Hg) as (-> & -> & -> & -> & -> & -> & -> & _).
  unfold ctx_desc_of, CDTAB_CD_1_TTB0. cbn [ttbr mair]. rewrite ttb_field by apply Hg. done.
Qed.

(** ** Allocation and alignment *)

Lemma align_up addr k : 0 <= k -> 0 <= addr -> addr + 2 ^ k < 2 ^ 64 ->
  align_to_size addr (2 ^ k) = 2 ^ k * (addr / 2 ^ k + 1).
Proof.
  intros Hk Ha Hb. pose proof (pow2_pos k Hk) as Hp. unfold align_to_size. rewrite land_pred_pow2 by done.
  pose proof (Z.mod_eq addr (2 ^ k) ltac:(lia)) as Hm. pose proof (Z.mod_pos_bound addr (2 ^ k) Hp) as Hr.
  rewrite u64_small by lia. replace (2 ^ k - addr mod 2 ^ k + addr) with ((addr / 2 ^ k + 1) * 2 ^ k) by lia.
  rewrite <- Z.ldiff_land. replace (2 ^ k - 1) with (Z.ones k) by (rewrite Z.ones_equiv; lia).
  rewrite Z.ldiff_ones_r, Z.shiftl_mul_pow2, Z.shiftr_div_pow2, Z.div_mul by lia. lia.
Qed.

(** The aligned address lies behind the allocation's, by at most the size. *)
Lemma align_bounds addr k : 0 <= k -> 0 <= addr -> addr + 2 ^ k < 2 ^ 64 ->
  let r := align_to_size addr (2 ^ k) in addr < r <= addr + 2 ^ k /\ r mod 2 ^ k = 0.
Proof.
  intros Hk Ha Hb. cbn zeta. rewrite align_up by done. pose proof (pow2_pos k Hk) as Hp.
  pose proof (Z.mod_eq addr (2 ^ k) ltac:(lia)). pose proof (Z.mod_pos_bound addr (2 ^ k) Hp).
  split; [lia|]. rewrite Z.mul_comm. apply Z.mod_mul. lia.
Qed.

Lemma pow2_div8 k x : 3 <= k -> x mod 2 ^ k = 0 -> x mod 8 = 0.
Proof.
  intros Hk Hx. change 8 with (2 ^ 3). rewrite <- (Z.mod_mod_divide x (2 ^ k) (2 ^ 3)), Hx; [done|].
  exists (2 ^ (k - 3)). rewrite <- Z.pow_add_r by lia. f_equal. lia.
Qed.

Section Alloc.
Context {D : Type} `{Hardware (machine D)}.

Lemma calloc_done (s : smmu_state D) num size p l :
  allocs s = p :: l -> p <> 0 -> 0 <= num < 2 ^ 32 -> 0 <= size < 2 ^ 32 ->
  val_memory_calloc num size s =
    Done (p, set_mach (mk_machine (fill_words (Z.to_nat (num * size / 8)) p (fun _ => 0) (mem (mach s))) (dev (mach s)))
      (set_allocs l s)).
Proof.
  intros Ha Hp Hn Hs. unfold val_memory_calloc, alloc_words, next_alloc, bind, gets, modify, ret. rewrite Ha.
  cbn [mach set_allocs]. destruct (Z.eqb_spec p 0); [done|]. by rewrite !u32_small by lia.
Qed.

(** Every word of the allocation is there and is 0. *)
Lemma filled n p (m : gmap Z Z) x : p <= x < p + 8 * Z.of_nat n -> x mod 8 = p mod 8 ->
  fill_words n p (fun _ => 0) m !! x = Some 0.
Proof.
  intros Hx H8. rewrite lookup_fill_words. replace ((x - p) mod 8) with 0 by lia.
  destruct (Z.leb_spec p x), (Z.ltb_spec x (p + 8 * Z.of_nat n)); done || lia.
Qed.

Lemma unfilled n p f (m : gmap Z Z) x : ~ (p <= x < p + 8 * Z.of_nat n) -> fill_words n p f m !! x = m !! x.
Proof.
  intros Hx. rewrite lookup_fill_words.
  destruct (Z.leb_spec p x), (Z.ltb_spec x (p + 8 * Z.of_nat n)); done || lia.
Qed.

Lemma attached_allocs (s : smmu_state D) l i d : attached s i d -> attached (set_allocs l s) i d.
Proof. intros (p & l0 & Hg & Hl). by exists p, l0. Qed.
End Alloc.

Lemma shl_int_small {S} n (s : smmu_state S) : 0 <= n < 31 -> shl_int n s = Done (2 ^ n, s).
Proof.
  intros Hn. unfold shl_int. destruct (Z.leb_spec 0 n), (Z.ltb_spec n 32); try lia. cbn [andb]. unfold ret. do 2 f_equal.
  assert (2 ^ n < 2 ^ 31) by (apply Z.pow_lt_mono_r; lia). pose proof (pow2_pos n ltac:(lia)).
  unfold i32. rewrite u32_small by lia. by destruct (Z.ltb_spec (2 ^ n) (2 ^ 31)); [|lia].
Qed.

(** The size of a queue of [2 ^ n] entries of [w] words. *)
Lemma queue_bytes n w : 0 <= n <= 19 -> w = 2 \/ w = 4 ->
  u64 (i32 (Z.shiftl (i32 (2 ^ n * w)) 3)) = 8 * w * 2 ^ n.
Proof.
  intros Hn Hw. assert (2 ^ n <= 2 ^ 19) by (apply Z.pow_le_mono_r; lia). pose proof (pow2_pos n ltac:(lia)).
  rewrite Z.shiftl_mul_pow2 by lia. unfold i32. rewrite (u32_small (2 ^ n * w)) by (destruct Hw; subst; lia).
  destruct (Z.ltb_spec (2 ^ n * w) (2 ^ 31)); [|destruct Hw; subst; lia].
  rewrite u32_small by (destruct Hw; subst; lia).
  destruct (Z.ltb_spec (2 ^ n * w * 2 ^ 3) (2 ^ 31)); [|destruct Hw; subst; lia].
  rewrite u64_small by (destruct Hw; subst; lia). lia.
Qed.

(** ** Where the queues lie *)

(** The fields of a queue once it is placed in an allocation at [p]. *)
Lemma new_queue_base q p k pr cr w : let n := log2nent (queue q) in
  0 <= n <= 19 -> 5 <= k -> 0 <= p -> p + 2 ^ k < 2 ^ 52 ->
  let q' := new_queue q p (2 ^ k) pr cr w in
  Z.shiftl (BITFIELD_GET QUEUE_BASE_ADDR (queue_base q')) 5 = q_base q' /\
  BITFIELD_GET QUEUE_BASE_LOG2SIZE (queue_base q') = n.
Proof.
  cbn zeta. intros Hn Hk Hp Hb. pose proof (align_bounds p k ltac:(lia) Hp ltac:(lia)) as [Hr Hz]. unfold new_queue, val_memory_virt_to_phys.
  cbn [queue_base q_base]. set (r := align_to_size p (2 ^ k)) in *.
  assert (Hz5 : r mod 2 ^ 5 = 0).
  { rewrite <- (Z.mod_mod_divide r (2 ^ k) (2 ^ 5)), Hz; [done|]. exists (2 ^ (k - 5)). rewrite <- Z.pow_add_r by lia. f_equal. lia. }
  rewrite address_set by (done || fields || lia). split.
  - rewrite <- (address_get QUEUE_BASE_ADDR r) at 2 by (done || fields || lia). by read_field.
  - read_field. apply Z.mod_small. cbn. lia.
Qed.

Section Placement.
Context {D : Type}.

Lemma queue_size n w k0 k : 0 <= n -> w * 8 = 2 ^ k0 -> 0 <= k0 -> k = Z.max (k0 + 1) (n + k0) ->
  (if 8 * w * 2 ^ n <? 2 ^ (k0 + 1) then 2 ^ (k0 + 1) else 8 * w * 2 ^ n) = 2 ^ k /\ Z.max (2 ^ (k0 + 1)) (8 * w * 2 ^ n) = 2 ^ k.
Proof.
  intros Hn Hw Hk0 ->. replace (8 * w) with (w * 8) by lia. rewrite Hw, <- Z.pow_add_r, (Z.add_comm k0 n) by lia.
  destruct (Z.ltb_spec (2 ^ (n + k0)) (2 ^ (k0 + 1))) as [Hlt|Hge].
  - apply Z.pow_lt_mono_r_iff in Hlt; [|lia|lia]. rewrite !Z.max_l; [done| |lia]. apply Z.pow_le_mono_r; lia.
  - apply Z.pow_le_mono_r_iff in Hge; [|lia|lia]. rewrite !Z.max_r; [done| |lia]. apply Z.pow_le_mono_r; lia.
Qed.

(** A ring inside memory that is there. *)
Lemma ring_inside b n w p k (m : gmap Z Z) : 0 <= n -> p mod 8 = 0 -> b mod 8 = 0 ->
  p <= b -> b + 8 * Z.of_nat w * 2 ^ n <= p + 8 * Z.of_nat k -> ring_ok b n w (fill_words k p (fun _ => 0) m).
Proof.
  intros Hn Hp Hb Hle Hin i j Hj. exists 0. pose proof (Z.mod_pos_bound i (2 ^ n) (pow2_pos n Hn)) as Hi.
  set (e := i mod 2 ^ n) in *. apply filled.
  - unfold slot. fold e. nia.
  - unfold slot. fold e. replace (b + e * (8 * Z.of_nat w) + 8 * Z.of_nat j) with (b + (e * Z.of_nat w + Z.of_nat j) * 8) by lia.
    rewrite Z.mod_add by lia. lia.
Qed.

Lemma last_unreadable a n j (s : smmu_state D) : (j < n)%nat -> mem (mach s) !! (a + 8 * Z.of_nat j) = None ->
  ld_words a n s = Undefined.
Proof.
  revert a j. induction n as [|n IH]; intros a j Hj Hx; [lia|]. cbn [ld_words]. unfold ld64, bind, gets, deref.
  destruct j as [|j]; [by rewrite Z.add_0_r in Hx; rewrite Hx|]. destruct (mem (mach s) !! a); [|done]. cbn.
  rewrite (IH (a + 8) j); [done|lia|]. by replace (a + 8 + 8 * Z.of_nat j) with (a + 8 * Z.of_nat (S j)) by lia.
Qed.

(** The command queue is well placed: when [smmu_cmd_queue_init] gets memory it
    returns 1, the ring of [2 ^ n] commands lies inside the allocation, aligned to
    its size, every word of it can be stored to, its indices start at 0, and the
    value for the base register gives the device this ring and this size. *)
Theorem cmd_queue_ready (s : smmu_state D) i d p l n :
  let size := Z.max 32 (16 * 2 ^ n) in
  attached s i d -> log2nent (queue (cmdq d)) = n -> 0 <= n <= 19 -> 0 <= base d < 2 ^ 64 - 0x100 ->
  allocs s = p :: l -> 0 < p -> p mod 8 = 0 -> p + 2 * size < 2 ^ 52 ->
  exists s' d' b, returns (smmu_cmd_queue_init i) s 1 s' /\ attached s' i d' /\
    cmdq_cfg b n (base d + SMMU_CMDQ_PROD_OFFSET) (base d + SMMU_CMDQ_CONS_OFFSET) d' /\
    ring_ok b n 2 (mem (mach s')) /\ p < b /\ b + size <= p + 2 * size /\ b mod size = 0 /\
    Z.shiftl (BITFIELD_GET QUEUE_BASE_ADDR (queue_base (cmdq d'))) 5 = b /\
    BITFIELD_GET QUEUE_BASE_LOG2SIZE (queue_base (cmdq d')) = n.
Proof.
  intros size Hat Hlog Hn Hbase Ha Hp H8 Hfit. destruct (queue_size n 2 4 (Z.max 5 (n + 4))) as [Hs1 Hs2]; [lia|done|lia|done|].
  set (k := Z.max 5 (n + 4)) in *. change (2 ^ (4 + 1)) with 32 in *. change (8 * 2) with 16 in *. change (Z.max 32 (16 * 2 ^ n)) with size in Hs2.
  assert (Hle : 16 * 2 ^ n <= 2 ^ k) by (rewrite <- Hs2; subst size; lia). clearbody size. subst size.
  unfold returns, smmu_cmd_queue_init. rewrite (bind_done _ _ _ _ _ (attached_dev _ _ _ Hat)), Hlog.
  rewrite (bind_done _ _ _ _ _ (shl_int_small n s ltac:(lia))). cbn zeta.
  change (2 ^ n * CMDQ_DWORDS_PER_ENT) with (2 ^ n * 2). rewrite !(queue_bytes n 2) by lia. change (8 * 2) with 16. rewrite !Hs1.
  assert (2 ^ k <= 2 ^ 23) by (apply Z.pow_le_mono_r; lia). pose proof (pow2_pos k ltac:(lia)).
  rewrite (bind_done _ _ _ _ _ (calloc_done s 2 (2 ^ k) p l Ha ltac:(lia) ltac:(lia) ltac:(lia))).
  set (m' := fill_words _ _ _ _). set (s1 := set_mach _ _).
  assert (Hat1 : attached s1 i d) by (apply attached_mach, attached_allocs, Hat).
  destruct (upd_dev_done i s1 d (fun d => set_cmdq (set_base_ptr p (cmdq d)) d) Hat1) as (g1 & E1 & Hat2). rewrite (bind_done _ _ _ _ _ E1).
  destruct (Z.eqb_spec p 0); [lia|]. set (s2 := set_g_smmu g1 s1) in *. cbn beta in Hat2.
  match goal with |- context [bind (upd_dev i ?f) _ s2] => destruct (upd_dev_done i s2 _ f Hat2) as (g2 & E2 & Hat3) end.
  rewrite (bind_done _ _ _ _ _ E2). pose proof (align_bounds p k ltac:(lia) ltac:(lia) ltac:(lia)) as [Hr Hz].
  eexists _, _, (align_to_size p (2 ^ k)). split; [reflexivity|]. split; [exact Hat3|].
  pose proof (new_queue_base (set_base_ptr p (cmdq d)) p k (base d + 0x98) (base d + 0x9c) 16) as Hq. cbn zeta in Hq.
  destruct Hq as [Hq1 Hq2]; [cbn; lia|lia|lia|lia|]. cbn [cmdq set_cmdq base] in *.
  rewrite !u64_small by (unfold SMMU_CMDQ_PROD_OFFSET, SMMU_CMDQ_CONS_OFFSET; lia).
  split_and!; try exact Hq1; try (etransitivity; [exact Hq2|exact Hlog]); try lia.
  - unfold cmdq_cfg. cbn. rewrite Hlog. done.
  - cbn [mach s1 s2 set_g_smmu set_mach mem]. subst m'.
    apply ring_inside; [lia|done|apply (pow2_div8 k); [lia|done]|lia|].
    rewrite Z2Nat.id by (apply Z.div_pos; lia).
    assert (E8 : 2 ^ k = 8 * 2 ^ (k - 3)) by (change 8 with (2 ^ 3); rewrite <- Z.pow_add_r by lia; f_equal; lia).
    rewrite E8 at 2. replace (2 * (8 * 2 ^ (k - 3))) with (2 * 2 ^ (k - 3) * 8) by lia. rewrite Z.div_mul by lia.
    lia.
Qed.

(** The event queue is not well placed: only one size is allocated, and the
    aligned address lies behind the start of the allocation, so for every queue of
    two or more events and wherever the allocator puts it, [smmu_evnt_queue_init]
    returns 1 and the last word of the ring is past the end of the allocation;
    where that memory belongs to nobody, reading the last event is undefined. *)
Theorem event_ring_overruns (s : smmu_state D) i d p l n :
  let size := 32 * 2 ^ n in
  attached s i d -> log2nent (queue (evntq d)) = n -> 1 <= n <= 19 ->
  allocs s = p :: l -> 0 < p -> p mod 8 = 0 -> p + 2 * size < 2 ^ 52 ->
  (forall x, p + size <= x < p + 2 * size -> mem (mach s) !! x = None) ->
  exists s' d', returns (smmu_evnt_queue_init i) s 1 s' /\ attached s' i d' /\
    let last := slot (q_base (evntq d')) n 4 (2 ^ n - 1) in
    p + size <= last + 24 /\ ld_words last 4 s' = Undefined.
Proof.
  intros size Hat Hlog Hn Ha Hp H8 Hfit Hfree. destruct (queue_size n 4 5 (n + 5)) as [Hs1 Hs2]; [lia|done|lia|lia|].
  set (k := n + 5) in *. change (2 ^ (5 + 1)) with 64 in *. change (8 * 4) with 32 in *.
  assert (Hsz : size = 2 ^ k). { subst size k. rewrite Z.pow_add_r by lia. lia. }
  pose proof (pow2_pos n ltac:(lia)) as Hpn. clearbody size.
  unfold returns, smmu_evnt_queue_init. rewrite (bind_done _ _ _ _ _ (attached_dev _ _ _ Hat)), Hlog.
  rewrite (bind_done _ _ _ _ _ (shl_int_small n s ltac:(lia))). cbn zeta.
  change (2 ^ n * EVNTQ_DWORDS_PER_ENT) with (2 ^ n * 4). rewrite !(queue_bytes n 4) by lia. change (8 * 4) with 32. rewrite !Hs1.
  assert (2 ^ k <= 2 ^ 24) by (apply Z.pow_le_mono_r; lia). pose proof (pow2_pos k ltac:(lia)).
  rewrite (bind_done _ _ _ _ _ (calloc_done s 1 (2 ^ k) p l Ha ltac:(lia) ltac:(lia) ltac:(lia))).
  set (m' := fill_words _ _ _ _). set (s1 := set_mach _ _).
  assert (Hat1 : attached s1 i d) by (apply attached_mach, attached_allocs, Hat).
  destruct (upd_dev_done i s1 d (fun d => set_evntq (set_base_ptr p (evntq d)) d) Hat1) as (g1 & E1 & Hat2). rewrite (bind_done _ _ _ _ _ E1).
  destruct (Z.eqb_spec p 0); [lia|]. set (s2 := set_g_smmu g1 s1) in *. cbn beta in Hat2.
  match goal with |- context [bind (upd_dev i ?f) _ s2] => destruct (upd_dev_done i s2 _ f Hat2) as (g2 & E2 & Hat3) end.
  rewrite (bind_done _ _ _ _ _ E2). pose proof (align_bounds p k ltac:(lia) ltac:(lia) ltac:(lia)) as [Hr Hz].
  eexists _, _. split; [reflexivity|]. split; [exact Hat3|]. cbn zeta. cbn [evntq set_evntq q_base new_queue].
  set (r := align_to_size p (2 ^ k)) in *. pose proof (pow2_div8 k r ltac:(lia) Hz) as Hr8.
  assert (Hlast : slot r n 4 (2 ^ n - 1) = r + size - 32). { unfold slot. rewrite Z.mod_small by lia. subst size k. rewrite Z.pow_add_r by lia. lia. }
  rewrite Hlast. split; [lia|]. apply (last_unreadable _ _ 3); [lia|].
  cbn [mach s1 s2 set_g_smmu set_mach mem]. subst m'. rewrite unfilled; [apply Hfree; lia|]. lia.
Qed.
End Placement.

(** ** The stream table *)

(** The words an aborting entry has. *)
Definition abort_words (a : Z) (m : gmap Z Z) : gmap Z Z := <[a + 16 := 0]> (<[a + 8 := 2 ^ 44]> (<[a := 1]> m)).

Definition words_at (m : gmap Z Z) (a : Z) (k : nat) : Prop := forall j, (j < k)%nat -> is_Some (m !! (a + 8 * Z.of_nat j)).

Lemma words_insert (m : gmap Z Z) x v a k : words_at m a k -> words_at (<[x := v]> m) a k.
Proof.
  intros Hw j Hj. destruct (decide (x = a + 8 * Z.of_nat j)) as [->|]; [rewrite lookup_insert_eq; eauto|].
  rewrite lookup_insert_ne by done. by apply Hw.
Qed.

Lemma words_first (m : gmap Z Z) a k j : words_at m a k -> (j < k)%nat -> is_Some (m !! (a + 8 * Z.of_nat j)).
Proof. intros Hw. apply Hw. Qed.

Section Table.
Context {D : Type}.

(** Memory replaced, nothing else. *)
Definition with_mem (m : gmap Z Z) (s : smmu_state D) : smmu_state D := set_mach (mk_machine m (dev (mach s))) s.

Lemma store_word (s : smmu_state D) a v k j x : x = a + 8 * Z.of_nat j -> words_at (mem (mach s)) a k -> (j < k)%nat ->
  0 <= v < 2 ^ 64 -> st64 x v s = Done (tt, with_mem (<[x := v]> (mem (mach s))) s).
Proof. intros -> Hw Hj Hv. apply st64_done; [by apply Hw|done]. Qed.

Lemma with_mem_twice m1 m2 (s : smmu_state D) : with_mem m2 (with_mem m1 s) = with_mem m2 s.
Proof. by destruct s. Qed.

Lemma write_abort (s : smmu_state D) a : words_at (mem (mach s)) a 8 ->
  smmu_strtab_write_ste None a s = Done (tt, with_mem (abort_words a (mem (mach s))) s).
Proof.
  intros Hw. cbn [smmu_strtab_write_ste].
  change (Z.lor STRTAB_STE_0_V (BITFIELD_SET STRTAB_STE_0_CONFIG STRTAB_STE_0_CONFIG_ABORT)) with 1.
  change (BITFIELD_SET STRTAB_STE_1_SHCFG STRTAB_STE_1_SHCFG_INCOMING) with (2 ^ 44).
  rewrite (bind_done _ _ _ _ _ (store_word s a 1 8 0 a ltac:(lia) Hw ltac:(lia) ltac:(lia))).
  erewrite bind_done; [|apply (store_word _ a _ 8 1); [lia|by apply words_insert|lia|lia]].
  erewrite (store_word _ a _ 8 2); [|lia|by repeat apply words_insert|lia|lia].
  by rewrite !with_mem_twice.
Qed.

Fixpoint abort_all (n : nat) (a : Z) (m : gmap Z Z) : gmap Z Z :=
  match n with O => m | S k => abort_all k (a + 64) (abort_words a m) end.

Lemma abort_words_other a m x : x < a \/ a + 24 <= x -> abort_words a m !! x = m !! x.
Proof. intros Hx. unfold abort_words. by rewrite !lookup_insert_ne by lia. Qed.

Lemma abort_words_words a m b k : words_at m b k -> words_at (abort_words a m) b k.
Proof. intros. unfold abort_words. by repeat apply words_insert. Qed.

Lemma abort_all_before n a m x : x < a -> abort_all n a m !! x = m !! x.
Proof.
  revert a m. induction n as [|n IH]; intros a m Hx; [done|]. cbn [abort_all]. rewrite IH by lia.
  apply abort_words_other. lia.
Qed.

Lemma abort_all_after n a m x : a + 64 * Z.of_nat n <= x -> abort_all n a m !! x = m !! x.
Proof.
  revert a m. induction n as [|n IH]; intros a m Hx; [done|]. cbn [abort_all]. rewrite IH by lia.
  apply abort_words_other. lia.
Qed.

Lemma abort_all_entry n a m k : (k < n)%nat -> abort_all n a m !! (a + 64 * Z.of_nat k) = Some 1.
Proof.
  revert a m k. induction n as [|n IH]; intros a m k Hk; [lia|]. cbn [abort_all]. destruct k as [|k].
  - rewrite Z.add_0_r, abort_all_before by lia. unfold abort_words. by rewrite !lookup_insert_ne, lookup_insert_eq by lia.
  - replace (a + 64 * Z.of_nat (S k)) with (a + 64 + 64 * Z.of_nat k) by lia. apply IH. lia.
Qed.

Lemma abort_all_words n a m b k : words_at m b k -> words_at (abort_all n a m) b k.
Proof.
  revert a m. induction n as [|n IH]; intros a m Hw; [done|]. by apply IH, abort_words_words.
Qed.

Lemma abort_entries_done n a (s : smmu_state D) :
  (forall k, (k < n)%nat -> words_at (mem (mach s)) (a + 64 * Z.of_nat k) 8) ->
  abort_entries n a s = Done (tt, with_mem (abort_all n a (mem (mach s))) s).
Proof.
  revert a s. induction n as [|n IH]; intros a s Hw; cbn [abort_entries abort_all]; [by destruct s as [[]]|].
  pose proof (Hw 0%nat ltac:(lia)) as H0. rewrite Z.add_0_r in H0. rewrite (bind_done _ _ _ _ _ (write_abort s a H0)).
  change (8 * STRTAB_STE_DWORDS) with 64. rewrite IH, with_mem_twice; [done|]. intros k Hk. cbn [mach with_mem set_mach mem].
  apply abort_words_words. replace (a + 64 + 64 * Z.of_nat k) with (a + 64 * Z.of_nat (S k)) by lia. apply Hw. lia.
Qed.

Lemma abort_entry m ste ssid : m !! ste = Some 1 -> translates m ste ssid = Abort.
Proof. intros E. unfold translates, word. by rewrite E. Qed.
End Table.

(** The entry of a stream as the device finds it from its two registers, in a
    linear table; [None] when the stream is out of range. *)
Definition lookup_stream (strtab_base strtab_base_cfg sid : Z) : option Z :=
  if (BITFIELD_GET STRTAB_BASE_CFG_FMT strtab_base_cfg =? 0) && (sid <? 2 ^ BITFIELD_GET STRTAB_BASE_CFG_LOG2SIZE strtab_base_cfg)
  then Some (Z.shiftl (BITFIELD_GET STRTAB_BASE_ADDR strtab_base) 6 + 64 * sid) else None.

Section Init.
Context {D : Type}.

(** The driver and the device agree on the entries of a linear table at [t]. *)
Definition linear_table (d : smmu_dev_t) (t : Z) : Prop :=
  st_level_2lvl (supported d) = false /\ strtab64 (strtab_cfg d) = t /\ 0 <= sid_bits d <= 24.

Lemma get_ste_linear (s : smmu_state D) i d t sid :
  attached s i d -> linear_table d t -> 0 <= sid < 2 ^ sid_bits d ->
  smmu_strtab_get_ste_for_sid i sid s = Done (t + 64 * sid, s).
Proof.
  intros Hat (H2 & Ht & Hb) Hs. unfold smmu_strtab_get_ste_for_sid. rewrite (bind_done _ _ _ _ _ (attached_dev _ _ _ Hat)), H2.
  cbn [negb]. rewrite Ht. assert (2 ^ sid_bits d <= 2 ^ 24) by (apply Z.pow_le_mono_r; lia). unfold STRTAB_STE_DWORDS.
  rewrite u32_small by lia. unfold ret. do 2 f_equal. lia.
Qed.

Lemma base_fields r b : 0 <= r < 2 ^ 52 -> r mod 2 ^ 6 = 0 -> 0 <= b <= 24 -> forall sid,
  lookup_stream (Z.lor (Z.land r (Z.shiftl (MASK STRTAB_BASE_ADDR) (SHIFT STRTAB_BASE_ADDR))) STRTAB_BASE_RA)
    (Z.lor (BITFIELD_SET STRTAB_BASE_CFG_FMT STRTAB_BASE_CFG_FMT_LINEAR) (BITFIELD_SET STRTAB_BASE_CFG_LOG2SIZE b)) sid =
  if sid <? 2 ^ b then Some (r + 64 * sid) else None.
Proof.
  intros Hr H6 Hb sid. unfold lookup_stream. rewrite address_set by (done || fields).
  replace (BITFIELD_GET STRTAB_BASE_CFG_FMT _) with 0 by (by read_field).
  replace (BITFIELD_GET STRTAB_BASE_CFG_LOG2SIZE _) with b by (read_field; rewrite Z.mod_small; [done|cbn; lia]).
  cbn [Z.eqb andb].
  destruct (sid <? 2 ^ b); [|done]. do 2 f_equal. rewrite <- (address_get STRTAB_BASE_ADDR r) at 2 by (done || fields). by read_field.
Qed.

Lemma init_linear_done (s : smmu_state D) i d p l k :
  attached s i d -> 0 <= sid_bits d <= 24 -> k = sid_bits d + 6 ->
  allocs s = p :: l -> 0 < p -> p mod 8 = 0 -> p + 2 * 2 ^ k < 2 ^ 52 ->
  let r := align_to_size p (2 ^ k) in
  exists s1 d1, smmu_strtab_init_linear i s = Done (1, s1) /\ attached s1 i d1 /\
    supported d1 = supported d /\ sid_bits d1 = sid_bits d /\ strtab64 (strtab_cfg d1) = r /\ strtab_phys (strtab_cfg d1) = r /\
    strtab_base_cfg (strtab_cfg d1) =
      Z.lor (BITFIELD_SET STRTAB_BASE_CFG_FMT STRTAB_BASE_CFG_FMT_LINEAR) (BITFIELD_SET STRTAB_BASE_CFG_LOG2SIZE (sid_bits d)) /\
    mem (mach s1) = abort_all (Z.to_nat (2 ^ sid_bits d)) r
      (fill_words (Z.to_nat (2 * 2 ^ k / 8)) p (fun _ => 0) (mem (mach s))).
Proof.
  intros Hat Hb -> Ha Hp H8 Hfit r. set (k := sid_bits d + 6) in *.
  assert (Hk : 2 ^ k <= 2 ^ 30) by (apply Z.pow_le_mono_r; lia). pose proof (pow2_pos (sid_bits d) ltac:(lia)) as Hb0.
  assert (Hsz : 2 ^ k = 64 * 2 ^ sid_bits d) by (subst k; rewrite Z.pow_add_r by lia; lia).
  pose proof (align_bounds p k ltac:(lia) ltac:(lia) ltac:(lia)) as [Hr Hz]. fold r in Hr, Hz.
  unfold smmu_strtab_init_linear. rewrite (bind_done _ _ _ _ _ (attached_dev _ _ _ Hat)).
  rewrite (bind_done _ _ _ _ _ (shl_int_small (sid_bits d) s ltac:(lia))). cbn zeta.
  change (Z.shiftl STRTAB_STE_DWORDS 3) with 64. rewrite (u32_small (_ * 64)), (u32_small (2 ^ sid_bits d)) by lia.
  replace (2 ^ sid_bits d * 64) with (2 ^ k) by lia.
  rewrite (bind_done _ _ _ _ _ (calloc_done s 2 (2 ^ k) p l Ha ltac:(lia) ltac:(lia) ltac:(lia))).
  set (m' := fill_words _ _ _ _). set (s1 := set_mach _ _). unfold upd_strtab.
  assert (Hat1 : attached s1 i d) by (apply attached_mach, attached_allocs, Hat).
  match goal with |- context [bind (upd_dev i ?f) _ s1] => destruct (upd_dev_done i s1 _ f Hat1) as (g1 & E1 & Hat2) end.
  rewrite (bind_done _ _ _ _ _ E1). destruct (Z.eqb_spec p 0); [lia|]. set (s2 := set_g_smmu g1 s1) in *. cbn beta in Hat2.
  match goal with |- context [bind (upd_dev i ?f) _ s2] => destruct (upd_dev_done i s2 _ f Hat2) as (g2 & E2 & Hat3) end.
  rewrite (bind_done _ _ _ _ _ E2). unfold val_memory_virt_to_phys. fold r. fold r in Hat3.
  erewrite bind_done; [|apply abort_entries_done].
  - eexists _, _. split; [reflexivity|]. split; [by apply attached_mach; exact Hat3|]. by repeat split.
  - intros j Hj i0 Hi0. exists 0. cbn [mach s1 s2 set_g_smmu set_mach mem]. subst m'. apply filled.
    + rewrite Z2Nat.id by (apply Z.div_pos; lia). replace (2 * 2 ^ k) with (16 * 2 ^ sid_bits d * 8) by lia. rewrite Z.div_mul by lia. lia.
    + pose proof (pow2_div8 k r ltac:(lia) Hz). lia.
Qed.

(** C24: On an SMMU without two-level tables the transactions of a stream abort until it
    is mapped: when [smmu_strtab_init] gets memory for the linear table it returns 1, and then for every stream ID in
    range the device, following the values for its two table registers, and the
    driver find the same entry; it lies inside the allocation, is valid, and
    aborts.  The memory of a two-level table is not written by the initialisation, so that
    nothing of the kind holds for it. *)
Theorem stream_table_aborts (garbage : Z -> Z) (s : smmu_state D) i d p l :
  let size := 64 * 2 ^ sid_bits d in
  attached s i d -> st_level_2lvl (supported d) = false -> 0 <= sid_bits d <= 24 ->
  allocs s = p :: l -> 0 < p -> p mod 8 = 0 -> p + 2 * size < 2 ^ 52 ->
  exists s' d', returns (smmu_strtab_init garbage i) s 1 s' /\ attached s' i d' /\
    forall sid, 0 <= sid < 2 ^ sid_bits d -> exists ste,
      lookup_stream (strtab_base (strtab_cfg d')) (strtab_base_cfg (strtab_cfg d')) sid = Some ste /\
      smmu_strtab_get_ste_for_sid i sid s' = Done (ste, s') /\
      p <= ste /\ ste + 64 <= p + 2 * size /\ (forall ssid, translates (mem (mach s')) ste ssid = Abort).
Proof.
  intros size Hat H2 Hb Ha Hp H8 Hfit. set (k := sid_bits d + 6).
  assert (Hsz : size = 2 ^ k). { subst size k. rewrite Z.pow_add_r by lia. lia. }
  assert (Hk : 2 ^ k <= 2 ^ 30) by (apply Z.pow_le_mono_r; lia). pose proof (pow2_pos k ltac:(lia)) as Hk0.
  pose proof (pow2_pos (sid_bits d) ltac:(lia)) as Hb0.
  pose proof (align_bounds p k ltac:(lia) ltac:(lia) ltac:(lia)) as [Hr Hz].
  unfold returns, smmu_strtab_init. rewrite (bind_done _ _ _ _ _ (attached_dev _ _ _ Hat)), H2.
  destruct (init_linear_done s i d p l k Hat Hb eq_refl Ha Hp H8 ltac:(lia)) as
    (s1 & d1 & E & Hat1 & Hsup & Hsb & H64 & Hph & Hcfg & Hmem). rewrite (bind_done _ _ _ _ _ E). cbn [Z.eqb].
  unfold upd_strtab at 1.
  match goal with |- context [upd_dev i ?f] => destruct (upd_dev_done i s1 _ f Hat1) as (g2 & E2 & Hat2) end.
  rewrite (bind_done _ _ _ _ _ E2). eexists _, _. split; [reflexivity|]. split; [exact Hat2|].
  intros sid Hs. set (r := align_to_size p (2 ^ k)) in *. exists (r + 64 * sid). cbn [strtab_cfg set_strtab_cfg strtab_base set_strtab_base strtab_base_cfg].
  rewrite Hph, Hcfg. rewrite (base_fields r (sid_bits d)); [|lia| |lia].
  2: { rewrite <- (Z.mod_mod_divide r (2 ^ k) (2 ^ 6)), Hz; [done|]. exists (2 ^ sid_bits d). subst k. by rewrite Z.pow_add_r by lia. }
  destruct (Z.ltb_spec sid (2 ^ sid_bits d)); [|lia]. split; [done|]. split.
  - eapply get_ste_linear; [exact Hat2| |cbn; rewrite Hsb; done]. repeat split; cbn; rewrite ?Hsup, ?Hsb; try done; lia.
  - split; [lia|]. split; [lia|]. intros ssid. apply abort_entry. cbn [mach set_g_smmu]. rewrite Hmem.
    replace sid with (Z.of_nat (Z.to_nat sid)) by lia. apply abort_all_entry. lia.
Qed.
End Init.

(** ** Mapping a stream *)

Section Map.
Context {D : Type} `{CmdqDevice D b n rprod rcons}.
Context (Hn : 0 <= n <= 19) (Hb : 0 <= b /\ b + 16 * 2 ^ n <= 2 ^ 64).
Context (Hrp : 0 <= rprod < 2 ^ 64 /\ rprod mod 4 = 0) (Hrc : 0 <= rcons < 2 ^ 64 /\ rcons mod 4 = 0).
Context (Heager : eager (D := D) (b := b) (n := n) (rprod := rprod) (rcons := rcons)).

(** SMMU [i] is [d], started with a linear table at [t]: its command queue has
    room for an invalidation, and the table is in memory that only the driver
    writes. *)
Record ready (s : smmu_state D) (i : Z) (d : smmu_dev_t) (t : Z) : Prop := {
  rd_at : attached s i d;
  rd_q : cmdq_cfg b n rprod rcons d;
  rd_ring : ring_ok b n 2 (mem (mach s));
  rd_room : pending (mach s) + 4 <= 2 ^ n;
  rd_lin : linear_table d t;
  rd_base : base d <> 0;
  rd_num : i < g_num_smmus s;
  rd_words : forall sid j, 0 <= sid < 2 ^ sid_bits d -> (j < 8)%nat ->
    is_Some (mem (mach s) !! (t + 64 * sid + 8 * Z.of_nat j)) /\ outside (t + 64 * sid + 8 * Z.of_nat j) }.

Lemma ready_ext s s' i d t : ready s i d t -> g_smmu s' = g_smmu s -> mach s' = mach s -> g_num_smmus s' = g_num_smmus s ->
  ready s' i d t.
Proof.
  intros [Hat Hq Hr Hp Hl Hba Hi Hw] Eg Em Ei. split; rewrite ?Em, ?Ei; try done.
  unfold attached. by rewrite Eg.
Qed.

(** Stores outside the ring leave the queue as it is. *)
Lemma outside_history (h : machine D) m' :
  (forall x, ~ outside x -> m' !! x = mem h !! x) ->
  history (mk_machine m' (dev h)) = history h /\ pending (mk_machine m' (dev h)) = pending h /\
  (ring_ok b n 2 (mem h) -> ring_ok b n 2 m').
Proof.
  intros Hm. assert (Hs : forall i j, (j < 2)%nat -> m' !! (slot b n 2 i + 8 * Z.of_nat j) = mem h !! (slot b n 2 i + 8 * Z.of_nat j)).
  { intros i j Hj. apply Hm. intros [_ Ho]. by apply (Ho i j Hj). }
  split; [|split; [done|apply ring_ok_same, Hs]]. unfold history, pending. cbn [mem dev]. f_equal. by apply contents_same.
Qed.

Lemma st64_any (s : smmu_state D) x v : is_Some (mem (mach s) !! x) ->
  st64 x v s = Done (tt, with_mem (<[x := u64 v]> (mem (mach s))) s).
Proof. intros [y Hy]. unfold st64, bind, gets, modify, ret, deref. by rewrite Hy. Qed.

Lemma ld_words_done a k (s : smmu_state D) : words_at (mem (mach s)) a k -> exists l, ld_words a k s = Done (l, s).
Proof.
  revert a. induction k as [|k IH]; intros a Hw; cbn [ld_words]; [by exists []|].
  destruct (Hw 0%nat ltac:(lia)) as [x Hx]. rewrite Z.add_0_r in Hx. destruct (IH (a + 8)) as [l El].
  { intros j Hj. replace (a + 8 + 8 * Z.of_nat j) with (a + 8 * Z.of_nat (S j)) by lia. apply Hw. lia. }
  exists (x :: l). unfold ld64, bind, gets, deref. rewrite Hx. cbn. by rewrite El.
Qed.

(** Memory after the entry of master [m] is written at [a]. *)
Definition entry_mem (m : smmu_master_t) (a : Z) (mm : gmap Z Z) : gmap Z Z :=
  match stage m with
  | SMMU_STAGE_S2 =>
      <[a := w0_s2]> (<[a + 24 := w3_s2 (stage2_config m)]> (<[a + 16 := w2_s2 (stage2_config m)]>
        (<[a + 8 := u64 (w1_s2 (word mm (a + 8)))]> mm)))
  | SMMU_STAGE_S1 => <[a := u64 (w0_s1 (stage1_config m))]> (<[a + 8 := 0x100000d6]> mm)
  | SMMU_STAGE_BYPASS => mm
  end.

Lemma write_entry (s : smmu_state D) m a : words_at (mem (mach s)) a 8 ->
  smmu_strtab_write_ste (Some m) a s = Done (tt, with_mem (entry_mem m a (mem (mach s))) s).
Proof.
  intros Hw. unfold entry_mem. cbn [smmu_strtab_write_ste]. destruct (stage m).
  - match goal with |- bind (st64 _ ?v) _ _ = _ => change v with 0x100000d6 end.
    erewrite bind_done; [|apply (store_word _ a _ 8 1); [lia|done|lia|lia]].
    rewrite st64_any, with_mem_twice; [done|]. rewrite <- (Z.add_0_r a). by apply (words_first _ a 8 0); [apply words_insert|lia].
  - assert (E1 : ld64 (a + 8) s = Done (word (mem (mach s)) (a + 8), s)).
    { unfold ld64, word, bind, gets, deref. destruct (Hw 1%nat ltac:(lia)) as [x Hx]. change (8 * Z.of_nat 1) with 8 in Hx. by rewrite Hx. }
    rewrite (bind_done _ _ _ _ _ E1).
    erewrite bind_done; [|apply st64_any, (words_first _ a 8 1); [done|lia]].
    erewrite bind_done; [|apply (store_word _ a _ 8 2); [lia|by apply words_insert|lia|apply w2_range]].
    erewrite bind_done; [|apply (store_word _ a _ 8 3); [lia|by repeat apply words_insert|lia|apply w3_range]].
    erewrite (store_word _ a _ 8 0); [|lia|by repeat apply words_insert|lia|done]. by rewrite !with_mem_twice.
  - by destruct s as [[]].
Qed.

Lemma entry_mem_other m a mm x : (forall j, (j < 4)%nat -> x <> a + 8 * Z.of_nat j) -> entry_mem m a mm !! x = mm !! x.
Proof.
  intros Hx. pose proof (Hx 0%nat ltac:(lia)). pose proof (Hx 1%nat ltac:(lia)). pose proof (Hx 2%nat ltac:(lia)).
  pose proof (Hx 3%nat ltac:(lia)). unfold entry_mem. destruct (stage m); rewrite ?lookup_insert_ne by lia; done.
Qed.

Lemma entry_mem_words m a mm c k : words_at mm c k -> words_at (entry_mem m a mm) c k.
Proof. intros. unfold entry_mem. destruct (stage m); by repeat apply words_insert. Qed.

Lemma master_done (s : smmu_state D) k m : masters s !! k = Some m -> master_ref k s = Done (m, s).
Proof. intros E. unfold master_ref, bind, gets, deref. by rewrite E. Qed.

Lemma upd_master_done (s : smmu_state D) k m f : masters s !! k = Some m ->
  upd_master k f s = Done (tt, set_masters (<[k := f m]> (masters s)) s).
Proof. intros E. unfold upd_master. by rewrite (bind_done _ _ _ _ _ (master_done _ _ _ E)). Qed.

(** The end of a mapping: the entry of the stream, then the invalidation. *)
Lemma finish_runs (s : smmu_state D) i d t k m :
  ready s i d t -> masters s !! k = Some m -> 0 <= sid m < 2 ^ sid_bits d ->
  exists h', map_finish i k s = Done (0, set_mach h' s) /\
    executed (dev h') = history (mach s) ++ invalidation (hyp (supported d)) /\ pending h' = 0 /\
    forall x, outside x -> mem h' !! x = entry_mem m (t + 64 * sid m) (mem (mach s)) !! x.
Proof.
  intros Hrd Em Hs. destruct Hrd as [Hat Hq Hr Hp Hl Hba Hi Hw]. unfold map_finish.
  rewrite (bind_done _ _ _ _ _ (master_done _ _ _ Em)), (bind_done _ _ _ _ _ (get_ste_linear s i d t _ Hat Hl Hs)).
  set (a := t + 64 * sid m). assert (Ha : words_at (mem (mach s)) a 8) by (intros j Hj; by apply Hw).
  rewrite (bind_done _ _ _ _ _ (write_entry s m a Ha)). set (mm := entry_mem m a (mem (mach s))).
  destruct (ld_words_done a 8 (with_mem mm s)) as [l El]; [by apply entry_mem_words|].
  unfold dump_strtab. erewrite bind_done; [|by rewrite (bind_done _ _ _ _ _ El)].
  destruct (outside_history (mach s) mm) as (Hh & Hpe & Hro).
  { intros x Hx. apply entry_mem_other. intros j Hj ->. apply Hx, Hw; [done|lia]. }
  destruct (tlbi_cfgi_runs ltac:(lia) Hb Hrp Hrc (with_mem mm s) i d) as (h' & E & Hex & Hp' & Hu).
  - by apply attached_mach.
  - done.
  - by apply Hro.
  - cbn [mach with_mem set_mach]. rewrite Hpe. lia.
  - lia.
  - exact Heager.
  - exists h'. rewrite (bind_done _ _ _ _ _ E). unfold with_mem. rewrite set_mach_twice. split; [done|].
    cbn [mach with_mem set_mach] in Hex, Hu. rewrite Hh in Hex. split; [done|]. split; [done|]. intros x Hx. by rewrite (Hu x Hx).
Qed.

(** There is a master for the stream, free or of SMMU [i], or memory for one. *)
Definition master_available (s : smmu_state D) (i streamid : Z) : Prop :=
  match find_master streamid (masters s) with
  | Some k => exists m, masters s !! k = Some m /\ (m_smmu m = None \/ m_smmu m = Some i)
  | None => exists p q l, allocs s = p :: q :: l /\ p <> 0 /\ q <> 0
  end.

Lemma find_master_sid x l k m : find_master x l = Some k -> l !! k = Some m -> sid m = x.
Proof.
  unfold find_master. destruct (find_first _ (reverse l) 0) as [[j y]|] eqn:E; [|done]. intros [= <-] Hk.
  apply find_first_Some in E as (e & -> & He & Hp & _).
  assert (Hlt : (e < length l)%nat) by (apply lookup_lt_Some in He; by rewrite length_reverse in He).
  rewrite reverse_lookup in He by lia. replace (length l - 1 - Z.to_nat (0 + Z.of_nat e))%nat with (length l - S e)%nat in Hk by lia.
  rewrite Hk in He. simplify_eq. by apply Z.eqb_eq.
Qed.

Lemma master_at_done (s : smmu_state D) i x : master_available s i x ->
  exists k m s1, smmu_master_at x s = Done (Some k, s1) /\ masters s1 !! k = Some m /\
    (m_smmu m = None \/ m_smmu m = Some i /\ sid m = x) /\
    g_smmu s1 = g_smmu s /\ mach s1 = mach s /\ g_num_smmus s1 = g_num_smmus s.
Proof.
  unfold master_available, smmu_master_at, bind, gets. destruct (find_master x (masters s)) as [k|] eqn:E.
  - intros (m & Hm & Hi). exists k, m, s. repeat split; try done. destruct Hi as [|Hi]; [by left|right]. split; [done|].
    by apply (find_master_sid _ _ _ _ E).
  - intros (p & q & l & Ha & Hp & Hq). unfold next_alloc, bind, gets, modify. rewrite Ha. cbn.
    destruct (Z.eqb_spec p 0); [done|]. cbn. destruct (Z.eqb_spec q 0); [done|]. cbn.
    exists (length (masters s)), master_zero. eexists. split; [reflexivity|]. cbn. rewrite lookup_app_r, Nat.sub_diag by lia.
    repeat split; try done. by left.
Qed.

(** The master once [val_smmu_map] has taken it for the stream. *)
Definition claimed (attr : smmu_master_attributes_t) (m : smmu_master_t) : smmu_master_t :=
  let m := match m_smmu m with
           | None => set_m_smmu (Some (smmu_index attr)) (set_sid (streamid attr) (set_m_ssid_bits (attr_ssid_bits attr) m))
           | Some _ => m
           end in
  if negb (stage2 attr =? 0) then set_stage SMMU_STAGE_S2 m else set_stage SMMU_STAGE_S1 (set_ssid (substreamid attr) m).

(** The checks of [val_smmu_map] pass and the translation of the stream is left to do. *)
Lemma map_select (garbage : Z -> Z) (s s1 : smmu_state D) attr g d t k m : let i := smmu_index attr in
  ready s i d t -> smmu_master_at (streamid attr) s = Done (Some k, s1) ->
  masters s1 !! k = Some m -> g_smmu s1 = g_smmu s ->
  (if negb (stage2 attr =? 0) then s2p (supported d) else s1p (supported d)) = true -> streamid attr < 2 ^ sid_bits d ->
  val_smmu_map garbage attr g s =
    (let* ok := (if negb (stage2 attr =? 0) then upd_master k (set_stage2_config (stage2_of g)) ;;; ret 1
                 else map_stage1 garbage k g) in
     if ok =? 0 then ret 1 else map_finish i k) (set_masters (<[k := claimed attr m]> (masters s1)) s1).
Proof.
  intros i Hrd Hma Hm Hg Hsup Hsid. destruct Hrd as [Hat Hq Hr Hp (H2 & Ht & Hsb) Hba Hi Hw]. unfold val_smmu_map.
  destruct Hat as (p & l & Eg & El). unfold bind at 1, gets at 1. rewrite Eg. unfold bind at 1, gets at 1.
  fold i. destruct (Z.leb_spec (g_num_smmus s) i); [lia|]. assert (Hat : attached s i d) by (by exists p, l).
  rewrite (bind_done _ _ _ _ _ (attached_dev _ _ _ Hat)). destruct (Z.eqb_spec (base d) 0); [done|].
  rewrite (bind_done _ _ _ _ _ Hma), (bind_done _ _ _ _ _ (master_done _ _ _ Hm)).
  set (m1 := match m_smmu m with None => set_m_smmu (Some i) (set_sid (streamid attr) (set_m_ssid_bits (attr_ssid_bits attr) m)) | Some _ => m end).
  assert (E1 : when (match m_smmu m with None => true | Some _ => false end)
      (upd_master k (fun m => set_m_smmu (Some i) (set_sid (streamid attr) (set_m_ssid_bits (attr_ssid_bits attr) m)))) s1
    = Done (tt, set_masters (<[k := m1]> (masters s1)) s1)).
  { subst m1. destruct (m_smmu m) eqn:Em; cbn [when].
    - unfold ret. rewrite list_insert_id by done. by destruct s1.
    - by rewrite (upd_master_done _ _ m). }
  rewrite (bind_done _ _ _ _ _ E1). rewrite Hsup. cbn [negb].
  assert (Hm1 : masters (set_masters (<[k := m1]> (masters s1)) s1) !! k = Some m1)
    by (cbn; apply list_lookup_insert_eq; by apply lookup_lt_Some in Hm).
  rewrite (bind_done _ _ _ _ _ (upd_master_done _ _ _ _ Hm1)).
  assert (Ec : set_masters (<[k := (if negb (stage2 attr =? 0) then set_stage SMMU_STAGE_S2 m1
      else set_stage SMMU_STAGE_S1 (set_ssid (substreamid attr) m1))]> (masters (set_masters (<[k := m1]> (masters s1)) s1)))
      (set_masters (<[k := m1]> (masters s1)) s1) = set_masters (<[k := claimed attr m]> (masters s1)) s1).
  { cbn [masters set_masters]. rewrite list_insert_insert_eq. by destruct s1. }
  rewrite Ec. rewrite Z.shiftl_mul_pow2, Z.mul_1_l by lia. destruct (Z.leb_spec (2 ^ sid_bits d) (streamid attr)); [lia|].
  assert (Hm2 : masters (set_masters (<[k := claimed attr m]> (masters s1)) s1) !! k = Some (claimed attr m))
    by (cbn; apply list_lookup_insert_eq; by apply lookup_lt_Some in Hm).
  rewrite (bind_done _ _ _ _ _ (master_done _ _ _ Hm2)), H2. done.
Qed.

Lemma claimed_sid attr m : m_smmu m = None \/ m_smmu m = Some (smmu_index attr) /\ sid m = streamid attr ->
  sid (claimed attr m) = streamid attr.
Proof. unfold claimed. intros [E|[E Es]]; rewrite E; by destruct (stage2 attr =? 0). Qed.

(** The entries of the other streams. *)
Definition others_kept (d : smmu_dev_t) (t x : Z) (s s' : smmu_state D) : Prop :=
  forall y j, 0 <= y < 2 ^ sid_bits d -> y <> x -> (j < 8)%nat ->
    mem (mach s') !! (t + 64 * y + 8 * Z.of_nat j) = mem (mach s) !! (t + 64 * y + 8 * Z.of_nat j).

Lemma entry_others (d : smmu_dev_t) t x s m h' :
  (forall y j, 0 <= y < 2 ^ sid_bits d -> (j < 8)%nat -> outside (t + 64 * y + 8 * Z.of_nat j)) ->
  (forall a, outside a -> mem h' !! a = entry_mem m (t + 64 * x) (mem (mach s)) !! a) ->
  others_kept d t x s (set_mach h' s).
Proof.
  intros Ho Hu y j Hy Hne Hj. cbn [mach set_mach]. rewrite Hu by (by apply Ho). apply entry_mem_other. intros e He. lia.
Qed.

(** C5: Mapping a stream at stage 2 works, on every device that takes commands in
    order and takes one whenever its consumer index is read: [val_smmu_map]
    returns 0; the device then translates the stream with the attributes of the
    page table that was asked for and with its address up to bit 47; the entries
    of all other streams are as before; and the device has executed the
    invalidation of its caches behind the commands that waited. *)
Theorem map_stage2_installs (garbage : Z -> Z) (s : smmu_state D) attr g d t : let i := smmu_index attr in
  ready s i d t -> master_available s i (streamid attr) -> stage2 attr <> 0 -> s2p (supported d) = true ->
  0 <= streamid attr < 2 ^ sid_bits d -> attributes_fit g ->
  exists s', returns (val_smmu_map garbage attr g) s 0 s' /\
    (forall ssid, translates (mem (mach s')) (t + 64 * streamid attr) ssid = Translate (installed true g)) /\
    others_kept d t (streamid attr) s s' /\
    executed (dev (mach s')) = history (mach s) ++ invalidation (hyp (supported d)).
Proof.
  intros i Hrd Hma Hs2 Hsup Hsid Hg. destruct (master_at_done s i _ Hma) as (k & m & s1 & E1 & Hm & Hb' & Eg & Em & En).
  assert (E2 : negb (stage2 attr =? 0) = true) by (by destruct (Z.eqb_spec (stage2 attr) 0)).
  unfold returns. rewrite (map_select garbage s s1 attr g d t k m Hrd E1 Hm Eg) by (rewrite ?E2; done || lia). rewrite E2.
  set (s2 := set_masters _ s1).
  assert (Hm2 : masters s2 !! k = Some (claimed attr m)) by (cbn; apply list_lookup_insert_eq; by apply lookup_lt_Some in Hm).
  erewrite bind_done; [|by rewrite (bind_done _ _ _ _ _ (upd_master_done _ _ _ _ Hm2))]. cbn [Z.eqb].
  set (m3 := set_stage2_config (stage2_of g) (claimed attr m)). set (s3 := set_masters _ s2).
  assert (Hm3 : masters s3 !! k = Some m3) by (cbn; apply list_lookup_insert_eq; by apply lookup_lt_Some in Hm2).
  assert (Hsid3 : sid m3 = streamid attr) by (by apply claimed_sid).
  destruct (finish_runs s3 i d t k m3) as (h' & E & Hex & _ & Hu); [|done|by rewrite Hsid3|].
  { apply (ready_ext s); [done|exact Eg|exact Em|exact En]. }
  exists (set_mach h' s3). split; [exact E|]. rewrite Hsid3 in Hu. assert (Ems : mach s3 = mach s) by exact Em. rewrite Ems in Hex, Hu.
  assert (Hst : stage m3 = SMMU_STAGE_S2) by (unfold m3, claimed; rewrite E2; done).
  assert (Ho : forall y j, 0 <= y < 2 ^ sid_bits d -> (j < 8)%nat -> outside (t + 64 * y + 8 * Z.of_nat j)) by apply Hrd.
  split; [|split; [|exact Hex]].
  - intros ssid. set (a := t + 64 * streamid attr) in *.
    assert (Ho4 : forall j, (j < 8)%nat -> outside (a + 8 * Z.of_nat j)) by (intros j Hj; by apply Ho).
    apply stage2_entry; [done| | |]; cbn [mach set_mach].
    + rewrite Hu by (rewrite <- (Z.add_0_r a); by apply (Ho4 0%nat); lia). unfold entry_mem. rewrite Hst. by rewrite lookup_insert_eq.
    + rewrite Hu by (apply (Ho4 2%nat); lia). unfold entry_mem. rewrite Hst. by rewrite !lookup_insert_ne, lookup_insert_eq by lia.
    + rewrite Hu by (apply (Ho4 3%nat); lia). unfold entry_mem. rewrite Hst. by rewrite lookup_insert_ne, lookup_insert_eq by lia.
  - exact (entry_others d t _ s m3 h' Ho Hu).
Qed.

(** *** Stage 1 *)

Lemma upd_stage1_done (s : smmu_state D) k m f : masters s !! k = Some m ->
  upd_stage1 k f s = Done (tt, set_masters (<[k := set_stage1_config (f (stage1_config m)) m]> (masters s)) s).
Proof. apply (upd_master_done s k m (fun m => set_stage1_config (f (stage1_config m)) m)). Qed.

Lemma put_master (s : smmu_state D) k m m' : masters s !! k = Some m -> <[k := m']> (masters s) !! k = Some m'.
Proof. intros E. apply list_lookup_insert_eq. by apply lookup_lt_Some in E. Qed.

(** The configuration of a master whose descriptors are in a linear table at [p]. *)
Definition linear_cdcfg (p size c : Z) (cfg : smmu_stage1_config_t) : smmu_stage1_config_t :=
  set_cdcfg (mk_cdcfg p (align_to_size p size) (align_to_size p size) (cd_l1_ptr (cdcfg cfg)) (cd_l1_desc (cdcfg cfg)) c)
    (set_s1fmt STRTAB_STE_0_S1FMT_LINEAR cfg).

Lemma cdtab_alloc_linear (s : smmu_state D) k m i d p l : let sb := s1cdmax (stage1_config m) in
  masters s !! k = Some m -> m_smmu m = Some i -> attached s i d -> 0 <= sb <= 20 -> cd2l (supported d) && (2 ^ 10 <? 2 ^ sb) = false ->
  allocs s = p :: l -> p <> 0 ->
  smmu_cdtab_alloc k s = Done (1,
    set_masters (<[k := set_stage1_config (linear_cdcfg p (64 * 2 ^ sb) (2 ^ sb) (stage1_config m)) m]> (masters s))
      (with_mem (fill_words (Z.to_nat (2 * (64 * 2 ^ sb) / 8)) p (fun _ => 0) (mem (mach s))) (set_allocs l s))).
Proof.
  intros sb Hm Hi Hat Hsb H2l Ha Hp. unfold smmu_cdtab_alloc. rewrite (bind_done _ _ _ _ _ (master_done _ _ _ Hm)). fold sb.
  rewrite (bind_done _ _ _ _ _ (shl_int_small sb s ltac:(lia))), Hi. unfold deref at 1.
  erewrite bind_done; [|reflexivity]. rewrite (bind_done _ _ _ _ _ (attached_dev _ _ _ Hat)).
  assert (2 ^ sb <= 2 ^ 20) by (apply Z.pow_le_mono_r; lia). pose proof (pow2_pos sb ltac:(lia)). rewrite !(u64_small (2 ^ sb)) by lia.
  change CDTAB_L2_ENTRY_COUNT with (2 ^ 10). rewrite H2l. rewrite (u32_small (2 ^ sb)) by lia. rewrite (bind_done _ _ _ _ _ (upd_stage1_done _ _ _ _ Hm)).
  match goal with |- context [set_masters (<[k := ?x]> (masters s)) s] => set (m1 := x) end.
  set (s1 := set_masters _ s). change (Z.shiftl CDTAB_CD_DWORDS 3) with 64. rewrite u64_small by lia.
  unfold cdtab_alloc_table. replace (2 ^ sb * 64) with (64 * 2 ^ sb) by lia.
  assert (Ha1 : allocs s1 = p :: l) by exact Ha.
  rewrite (bind_done _ _ _ _ _ (calloc_done s1 2 (64 * 2 ^ sb) p l Ha1 Hp ltac:(lia) ltac:(lia))). set (s2 := set_mach _ _).
  assert (Hm2 : masters s2 !! k = Some m1) by exact (put_master s k m m1 Hm).
  rewrite (bind_done _ _ _ _ _ (upd_stage1_done _ _ _ _ Hm2)). destruct (Z.eqb_spec p 0); [done|].
  erewrite bind_done; [|apply upd_stage1_done; exact (put_master s2 k _ _ Hm2)].
  unfold ret. do 2 f_equal. cbn [masters set_masters s2 s1 set_mach set_allocs]. rewrite !list_insert_insert_eq. by destruct s.
Qed.

(** Memory with a context descriptor at [a]. *)
Definition ctx_mem (c : smmu_cdtab_ctx_desc_t) (a : Z) (mm : gmap Z Z) : gmap Z Z :=
  <[a := ctx_desc_word0 c]> (<[a + 24 := mair c]> (<[a + 16 := 0]> (<[a + 8 := Z.land (ttbr c) (MASK CDTAB_CD_1_TTB0)]> mm))).

Lemma write_ctx_desc_linear (garbage : Z -> Z) (s : smmu_state D) k m x g : let cfg := stage1_config m in
  masters s !! k = Some m -> s1fmt cfg = 0 -> 0 <= s1cdmax cfg <= 20 -> ssid m = x -> 0 <= x < 2 ^ s1cdmax cfg -> attributes_fit g ->
  words_at (mem (mach s)) (cdtab64 (cdcfg cfg) + 64 * x) 8 ->
  smmu_cdtab_write_ctx_desc garbage k x (ctx_desc_of g) s =
    Done (1, with_mem (ctx_mem (ctx_desc_of g) (cdtab64 (cdcfg cfg) + 64 * x) (mem (mach s))) s).
Proof.
  intros cfg Hm Hf Hc <- Hx Hg Hw. unfold smmu_cdtab_write_ctx_desc. rewrite (bind_done _ _ _ _ _ (master_done _ _ _ Hm)). fold cfg.
  rewrite (bind_done _ _ _ _ _ (shl_int_small (s1cdmax cfg) s ltac:(lia))).
  assert (2 ^ s1cdmax cfg <= 2 ^ 20) by (apply Z.pow_le_mono_r; lia).
  assert (Ei : i32 (ssid m) = ssid m). { unfold i32. rewrite u32_small by lia. by destruct (Z.ltb_spec (ssid m) (2 ^ 31)); [|lia]. }
  rewrite Ei. destruct (Z.leb_spec (2 ^ s1cdmax cfg) (ssid m)); [lia|]. set (a := cdtab64 (cdcfg cfg) + 64 * ssid m) in *.
  assert (Ea : smmu_cdtab_get_ctx_desc garbage k s = Done (Some a, s)).
  { unfold smmu_cdtab_get_ctx_desc. rewrite (bind_done _ _ _ _ _ (master_done _ _ _ Hm)). fold cfg. rewrite Hf. cbn [Z.eqb STRTAB_STE_0_S1FMT_LINEAR].
    unfold ret, CDTAB_CD_DWORDS. rewrite u32_small by lia. do 3 f_equal. lia. }
  rewrite (bind_done _ _ _ _ _ Ea). destruct (ctx_word0_fields g Hg) as (_ & _ & _ & _ & _ & _ & _ & Hr0).
  erewrite bind_done; [|apply (store_word _ a _ 8 1); [lia|done|lia|rewrite mask_mod by fields; cbn; lia]].
  erewrite bind_done; [|apply (store_word _ a _ 8 2); [lia|by apply words_insert|lia|lia]].
  erewrite bind_done; [|apply (store_word _ a _ 8 3); [lia|by repeat apply words_insert|lia|apply Hg]].
  erewrite bind_done; [|apply (store_word _ a _ 8 0); [lia|by repeat apply words_insert|lia|exact Hr0]].
  rewrite !with_mem_twice. cbn [mach with_mem set_mach mem]. fold (ctx_mem (ctx_desc_of g) a (mem (mach s))).
  destruct (ld_words_done a 8 (with_mem (ctx_mem (ctx_desc_of g) a (mem (mach s))) s)) as [l El].
  { cbn. unfold ctx_mem. by repeat apply words_insert. }
  unfold dump_cdtab. erewrite bind_done; [|by rewrite (bind_done _ _ _ _ _ El)]. done.
Qed.

(** The descriptor table and the descriptor of a new master at stage 1. *)
Definition stage1_of (p sb : Z) (g : pgt_descriptor_t) (cfg : smmu_stage1_config_t) : smmu_stage1_config_t :=
  set_cd (ctx_desc_of g) (linear_cdcfg p (64 * 2 ^ sb) (2 ^ sb) (set_s1cdmax sb cfg)).

Lemma map_stage1_linear (garbage : Z -> Z) (s : smmu_state D) k m i d p l g : let sb := m_ssid_bits m in
  masters s !! k = Some m -> m_smmu m = Some i -> attached s i d -> cdtab_ptr (cdcfg (stage1_config m)) = 0 ->
  0 <= sb <= 20 -> cd2l (supported d) && (2 ^ 10 <? 2 ^ sb) = false -> 0 <= ssid m < 2 ^ sb -> attributes_fit g ->
  allocs s = p :: l -> 0 < p -> p mod 8 = 0 -> p + 2 * (64 * 2 ^ sb) < 2 ^ 52 ->
  map_stage1 garbage k g s = Done (1,
    set_masters (<[k := set_stage1_config (stage1_of p sb g (stage1_config m)) m]> (masters s))
      (with_mem (ctx_mem (ctx_desc_of g) (align_to_size p (64 * 2 ^ sb) + 64 * ssid m)
        (fill_words (Z.to_nat (2 * (64 * 2 ^ sb) / 8)) p (fun _ => 0) (mem (mach s)))) (set_allocs l s))).
Proof.
  intros sb Hm Hi Hat Hcd Hsb H2l Hss Hg Ha Hp H8 Hfit. unfold map_stage1. rewrite (bind_done _ _ _ _ _ (upd_master_done _ _ _ _ Hm)).
  fold sb. rewrite (u8_small sb) by lia. set (m1 := set_stage1_config _ m). set (s1 := set_masters _ s).
  assert (Hm1 : masters s1 !! k = Some m1) by exact (put_master s k m m1 Hm).
  rewrite (bind_done _ _ _ _ _ (master_done _ _ _ Hm1)). change (cdtab_ptr (cdcfg (stage1_config m1))) with (cdtab_ptr (cdcfg (stage1_config m))).
  rewrite Hcd. cbn [Z.eqb]. rewrite (bind_done _ _ _ _ _ (cdtab_alloc_linear s1 k m1 i d p l Hm1 Hi Hat Hsb H2l Ha ltac:(lia))).
  cbn [Z.eqb]. change (s1cdmax (stage1_config m1)) with sb. set (s2 := set_masters _ _).
  assert (Hm2 := put_master s1 k m1 (set_stage1_config (linear_cdcfg p (64 * 2 ^ sb) (2 ^ sb) (stage1_config m1)) m1) Hm1).
  rewrite (bind_done _ _ _ _ _ (upd_stage1_done s2 _ _ _ Hm2)). set (s3 := set_masters _ s2).
  assert (Hm3 := put_master s2 k _ (set_stage1_config (set_cd (ctx_desc_of g) (linear_cdcfg p (64 * 2 ^ sb) (2 ^ sb) (stage1_config m1))) (set_stage1_config (linear_cdcfg p (64 * 2 ^ sb) (2 ^ sb) (stage1_config m1)) m1)) Hm2).
  pose proof (pow2_pos sb ltac:(lia)) as Hb0. assert (Hk : 64 * 2 ^ sb = 2 ^ (sb + 6)) by (rewrite Z.pow_add_r by lia; lia).
  pose proof (align_bounds p (sb + 6) ltac:(lia) ltac:(lia) ltac:(lia)) as [Hr Hz]. rewrite <- Hk in Hr, Hz.
  change (ssid m1) with (ssid m). rewrite (write_ctx_desc_linear garbage s3 k _ (ssid m) g Hm3); try done.
  - unfold s3, s2, s1, m1. cbn. rewrite !list_insert_insert_eq. by destruct s.
  - intros j Hj. exists 0. apply filled.
    + cbn. rewrite Z2Nat.id by (apply Z.div_pos; lia). replace (2 * (64 * 2 ^ sb)) with (16 * 2 ^ sb * 8) by lia. rewrite Z.div_mul by lia. lia.
    + cbn. pose proof (pow2_div8 (sb + 6) (align_to_size p (64 * 2 ^ sb)) ltac:(lia) ltac:(by rewrite <- Hk)). lia.
Qed.

(** A state with more memory outside the ring is still ready. *)
Lemma ready_mem s s' i d t m' : ready s i d t -> g_smmu s' = g_smmu s -> g_num_smmus s' = g_num_smmus s ->
  mach s' = mk_machine m' (dev (mach s)) -> (forall x, ~ outside x -> m' !! x = mem (mach s) !! x) ->
  (forall x, is_Some (mem (mach s) !! x) -> is_Some (m' !! x)) ->
  ready s' i d t /\ history (mach s') = history (mach s).
Proof.
  intros [Hat Hq Hr Hp Hl Hba Hi Hw] Eg En Em Ho Hsome. destruct (outside_history (mach s) m' Ho) as (Hh & Hpe & Hro).
  rewrite Em. split; [|done]. split; rewrite ?Em, ?En; try done.
  - unfold attached. by rewrite Eg.
  - by apply Hro.
  - intros x j Hx Hj. destruct (Hw x j Hx Hj). split; [by apply Hsome|done].
Qed.

Lemma ctx_mem_other c a mm x : (forall j, (j < 4)%nat -> x <> a + 8 * Z.of_nat j) -> ctx_mem c a mm !! x = mm !! x.
Proof.
  intros Hx. pose proof (Hx 0%nat ltac:(lia)). pose proof (Hx 1%nat ltac:(lia)). pose proof (Hx 2%nat ltac:(lia)).
  pose proof (Hx 3%nat ltac:(lia)). unfold ctx_mem. by rewrite !lookup_insert_ne by lia.
Qed.

(** The device's walk over an entry of stage 1 and a descriptor that were written. *)
Lemma stage1_result (mf mm m0 : gmap Z Z) a x r sb m g :
  stage m = SMMU_STAGE_S1 -> cdtab_phys (cdcfg (stage1_config m)) = r -> s1cdmax (stage1_config m) = sb -> s1fmt (stage1_config m) = 0 ->
  0 <= r < 2 ^ 52 -> r mod 64 = 0 -> 0 <= sb <= 20 -> 0 <= x < 2 ^ sb -> attributes_fit g ->
  mf !! a = entry_mem m a mm !! a ->
  (forall j, (j < 4)%nat -> mf !! (r + 64 * x + 8 * Z.of_nat j) = ctx_mem (ctx_desc_of g) (r + 64 * x) m0 !! (r + 64 * x + 8 * Z.of_nat j)) ->
  translates mf a x = Translate (installed false g).
Proof.
  intros Hst G1 G2 G3 Hr G4 Hsb Hx Hg Ea Hctx.
  assert (Hw : 0 <= w0_s1 (stage1_config m) < 2 ^ 64) by (apply (w0_s1_fields (stage1_config m)); rewrite ?G1, ?G2, ?G3; lia).
  apply (stage1_entry _ _ _ (stage1_config m) g Hg); rewrite ?G1, ?G2, ?G3; try lia.
  - rewrite Ea. unfold entry_mem. rewrite Hst, lookup_insert_eq, u64_small; done.
  - rewrite <- (Z.add_0_r (_ + _)). exact (eq_trans (Hctx 0%nat ltac:(lia)) ltac:(unfold ctx_mem; by rewrite Z.add_0_r, lookup_insert_eq)).
  - exact (eq_trans (Hctx 1%nat ltac:(lia)) ltac:(unfold ctx_mem; by rewrite !lookup_insert_ne, lookup_insert_eq by lia)).
  - exact (eq_trans (Hctx 3%nat ltac:(lia)) ltac:(unfold ctx_mem; by rewrite lookup_insert_ne, lookup_insert_eq by lia)).
Qed.

(** C2: Mapping a new stream at stage 1 works on every such device: with a linear
    table of context descriptors in memory of its own, [val_smmu_map] returns 0;
    the device, following the entry of the stream and the descriptor of the
    substream, translates with the attributes and the memory attributes that were
    asked for and with the address of the table up to bit 47; the entries of all
    other streams are as before; and the device has executed the invalidation. *)
Theorem map_stage1_installs (garbage : Z -> Z) (s : smmu_state D) attr g d t p1 p2 p l :
  let i := smmu_index attr in let sb := attr_ssid_bits attr in let size := 64 * 2 ^ sb in
  ready s i d t -> find_master (streamid attr) (masters s) = None -> allocs s = p1 :: p2 :: p :: l -> p1 <> 0 -> p2 <> 0 ->
  stage2 attr = 0 -> s1p (supported d) = true -> 0 <= streamid attr < 2 ^ sid_bits d -> attributes_fit g ->
  0 <= sb <= 20 -> cd2l (supported d) && (2 ^ 10 <? 2 ^ sb) = false -> 0 <= substreamid attr < 2 ^ sb ->
  0 < p -> p mod 8 = 0 -> p + 2 * size < 2 ^ 52 ->
  (forall x, p <= x < p + 2 * size -> outside x /\ (x < t \/ t + 64 * 2 ^ sid_bits d <= x)) ->
  exists s', returns (val_smmu_map garbage attr g) s 0 s' /\
    translates (mem (mach s')) (t + 64 * streamid attr) (substreamid attr) = Translate (installed false g) /\
    others_kept d t (streamid attr) s s' /\
    executed (dev (mach s')) = history (mach s) ++ invalidation (hyp (supported d)).
Proof.
  intros i sb size Hrd Hfm Ha Hp1 Hp2 Hs2 Hsup Hsid Hg Hsb H2l Hss Hp H8 Hfit Hreg.
  assert (E2 : negb (stage2 attr =? 0) = false) by (by rewrite Hs2). set (k := length (masters s)).
  set (s1 := set_masters (masters s ++ [master_zero]) (set_allocs (p :: l) s)).
  assert (E1 : smmu_master_at (streamid attr) s = Done (Some k, s1)).
  { unfold smmu_master_at, next_alloc, bind, gets, modify. rewrite Hfm, Ha. cbn.
    destruct (Z.eqb_spec p1 0); [done|]. cbn. by destruct (Z.eqb_spec p2 0). }
  assert (Hm : masters s1 !! k = Some master_zero) by (cbn; by rewrite lookup_app_r, Nat.sub_diag by lia).
  unfold returns. rewrite (map_select garbage s s1 attr g d t k _ Hrd E1 Hm eq_refl) by (rewrite ?E2; done || lia). rewrite E2.
  set (m2 := claimed attr master_zero). set (s2 := set_masters _ s1).
  assert (Hm2 : masters s2 !! k = Some m2) by exact (put_master s1 k _ m2 Hm).
  assert (Em2 : m_smmu m2 = Some i /\ m_ssid_bits m2 = sb /\ ssid m2 = substreamid attr /\ sid m2 = streamid attr /\
    stage m2 = SMMU_STAGE_S1 /\ stage1_config m2 = stage1_config master_zero)
    by (unfold m2, claimed; rewrite E2; done).
  destruct Em2 as (F1 & F2 & F3 & F4 & F5 & F6).
  assert (Hst := map_stage1_linear garbage s2 k m2 i d p l g Hm2 F1). rewrite F2, F3 in Hst.
  rewrite (bind_done _ _ _ _ _ (Hst (rd_at _ _ _ _ Hrd) ltac:(by rewrite F6) Hsb H2l Hss Hg eq_refl Hp H8 Hfit)). cbn [Z.eqb].
  clear Hst. fold size. set (r := align_to_size p size). set (N := Z.to_nat (2 * size / 8)). set (m3 := set_stage1_config _ m2). set (s3 := set_masters _ _).
  pose proof (pow2_pos sb ltac:(lia)) as Hb0. assert (Hk : size = 2 ^ (sb + 6)) by (subst size; rewrite Z.pow_add_r by lia; lia).
  pose proof (align_bounds p (sb + 6) ltac:(lia) ltac:(lia) ltac:(lia)) as [Hr Hz]. rewrite <- Hk in Hr, Hz. fold r in Hr, Hz.
  assert (HN : 8 * Z.of_nat N = 2 * size).
  { subst N size. replace (2 * (64 * 2 ^ sb)) with (16 * 2 ^ sb * 8) by lia. rewrite Z.div_mul by lia. lia. }
  assert (Hcd : forall j, (j < 4)%nat -> p <= r + 64 * substreamid attr + 8 * Z.of_nat j < p + 2 * size) by (intros j Hj; subst size; lia).
  destruct (ready_mem s s3 i d t _ Hrd eq_refl eq_refl eq_refl) as [Hrd3 Hh3].
  { intros x Hx. rewrite ctx_mem_other by (intros j Hj ->; by apply Hx, Hreg, Hcd). apply unfilled. intros Hin.
    apply Hx, Hreg. lia. }
  { intros x Hx. set (c := r + 64 * substreamid attr). assert (Hf : is_Some (fill_words N p (fun _ => 0) (mem (mach s)) !! x)).
    { rewrite lookup_fill_words. by case_match; [eexists|]. }
    unfold ctx_mem. rewrite !lookup_insert_is_Some'. by do 4 right. }
  assert (Hm3 : masters s3 !! k = Some m3) by exact (put_master s2 k _ m3 Hm2).
  destruct (finish_runs s3 i d t k m3 Hrd3 Hm3 ltac:(change (sid m3) with (sid m2); by rewrite F4)) as (h' & E & Hex & _ & Hu).
  exists (set_mach h' s3). split; [exact E|]. rewrite Hh3 in Hex. change (sid m3) with (sid m2) in Hu. rewrite F4 in Hu.
  assert (Ho : forall y j, 0 <= y < 2 ^ sid_bits d -> (j < 8)%nat -> outside (t + 64 * y + 8 * Z.of_nat j)) by apply Hrd.
  split; [|split; [|exact Hex]].
  - assert (G4 : r mod 64 = 0).
    { change 64 with (2 ^ 6). rewrite <- (Z.mod_mod_divide r size (2 ^ 6)), Hz; [done|]. by exists (2 ^ sb); subst size; rewrite Z.mul_comm. }
    apply (stage1_result _ (mem (mach s3)) (fill_words N p (fun _ => 0) (mem (mach s))) _ _ r sb m3 g); try done; try lia; cbn [mach set_mach].
    + apply Hu. rewrite <- (Z.add_0_r (_ + _)). by apply (Ho (streamid attr) 0%nat); lia.
    + intros j Hj. destruct (Hreg _ (Hcd j Hj)) as [Hout Haway]. rewrite (Hu _ Hout). apply entry_mem_other. intros e He Heq. lia.
  - intros y j Hy Hne Hj. etransitivity; [exact (entry_others d t _ s3 m3 h' Ho Hu y j Hy Hne Hj)|].
    cbn [mach s3 set_masters with_mem set_mach mem].
    rewrite ctx_mem_other; [apply unfilled|].
    + intros Hin. destruct (Hreg (t + 64 * y + 8 * Z.of_nat j) ltac:(lia)) as [_ ?]. lia.
    + intros e He Heq. destruct (Hreg _ (Hcd e He)) as [_ ?]. lia.
Qed.

Lemma cdtab_free_linear (s : smmu_state D) k m i d : let cfg := stage1_config m in
  masters s !! k = Some m -> m_smmu m = Some i -> attached s i d -> 0 <= s1cdmax cfg <= 20 ->
  cd2l (supported d) && (2 ^ 10 <? 2 ^ s1cdmax cfg) = false ->
  exists m', smmu_cdtab_free k s = Done (tt, set_masters (<[k := m']> (masters s)) (set_freed (cdtab_ptr (cdcfg cfg) :: freed s) s)).
Proof.
  intros cfg Hm Hi Hat Hc H2l. unfold smmu_cdtab_free. rewrite (bind_done _ _ _ _ _ (master_done _ _ _ Hm)). fold cfg.
  rewrite (bind_done _ _ _ _ _ (shl_int_small (s1cdmax cfg) s ltac:(lia))), Hi. unfold deref at 1.
  erewrite bind_done; [|reflexivity]. rewrite (bind_done _ _ _ _ _ (attached_dev _ _ _ Hat)).
  assert (2 ^ s1cdmax cfg <= 2 ^ 20) by (apply Z.pow_le_mono_r; lia). pose proof (pow2_pos (s1cdmax cfg) ltac:(lia)).
  rewrite !(u64_small (2 ^ s1cdmax cfg)) by lia. change CDTAB_L2_ENTRY_COUNT with (2 ^ 10). rewrite H2l. cbn [when].
  erewrite bind_done; [|reflexivity]. erewrite bind_done; [|reflexivity]. erewrite upd_stage1_done by exact Hm. by eexists.
Qed.

(** Unmapping a stream works on every such device: for a stream of a linear
    stream table whose master has no table of descriptors or a linear one,
    [val_smmu_unmap] returns, the stream aborts, the entries of all other streams
    are as before, the table of descriptors is freed, the device has executed the
    invalidation, and the master is free for another stream. *)
Theorem unmap_aborts (s : smmu_state D) attr i d t k m :
  ready s i d t -> find_master (streamid attr) (masters s) = Some k -> masters s !! k = Some m -> m_smmu m = Some i ->
  0 <= streamid attr < 2 ^ sid_bits d -> 0 <= s1cdmax (stage1_config m) <= 20 ->
  cd2l (supported d) && (2 ^ 10 <? 2 ^ s1cdmax (stage1_config m)) = false ->
  exists s', returns (val_smmu_unmap attr) s tt s' /\
    (forall ssid, translates (mem (mach s')) (t + 64 * streamid attr) ssid = Abort) /\
    others_kept d t (streamid attr) s s' /\
    executed (dev (mach s')) = history (mach s) ++ invalidation (hyp (supported d)) /\
    freed s' = cdtab_ptr (cdcfg (stage1_config m)) :: freed s /\ masters s' = <[k := master_zero]> (masters s).
Proof.
  intros Hrd Hf Hm Hi Hs Hc H2l. destruct Hrd as [Hat Hq Hr Hp (H2 & Ht & Hsb) Hba Hnum Hw].
  unfold returns, val_smmu_unmap. assert (E1 : smmu_master_at (streamid attr) s = Done (Some k, s))
    by (unfold smmu_master_at, bind, gets; by rewrite Hf).
  rewrite (bind_done _ _ _ _ _ E1), (bind_done _ _ _ _ _ (master_done _ _ _ Hm)), Hi, (bind_done _ _ _ _ _ (attached_dev _ _ _ Hat)).
  rewrite Z.shiftl_mul_pow2, Z.mul_1_l by lia. destruct (Z.leb_spec (2 ^ sid_bits d) (streamid attr)); [lia|].
  assert (2 ^ sid_bits d <= 2 ^ 24) by (apply Z.pow_le_mono_r; lia). unfold STRTAB_STE_DWORDS. rewrite u32_small, Ht by lia.
  replace (t + 8 * (streamid attr * 8)) with (t + 64 * streamid attr) by lia. set (a := t + 64 * streamid attr) in *.
  assert (Ha : words_at (mem (mach s)) a 8) by (intros j Hj; by apply Hw).
  rewrite (bind_done _ _ _ _ _ (write_abort s a Ha)). set (mm := abort_words a (mem (mach s))).
  destruct (cdtab_free_linear (with_mem mm s) k m i d Hm Hi (attached_mach _ _ _ _ Hat) Hc H2l) as (m' & E2).
  rewrite (bind_done _ _ _ _ _ E2). set (s2 := set_masters _ _).
  assert (Hother : forall x, (forall j, (j < 3)%nat -> x <> a + 8 * Z.of_nat j) -> mm !! x = mem (mach s) !! x).
  { intros x Hx. unfold mm, abort_words. rewrite !lookup_insert_ne; [done| | |]; intros <-.
    - apply (Hx 0%nat); lia.
    - apply (Hx 1%nat); lia.
    - apply (Hx 2%nat); lia. }
  destruct (outside_history (mach s) mm) as (Hh & Hpe & Hro).
  { intros x Hx. apply Hother. intros j Hj ->. apply Hx, Hw; [done|lia]. }
  destruct (tlbi_cfgi_runs ltac:(lia) Hb Hrp Hrc s2 i d) as (h' & E & Hex & _ & Hu); try done.
  { by apply Hro. } { lia. }
  rewrite (bind_done _ _ _ _ _ E). cbn [mach s2 set_masters set_freed with_mem set_mach] in Hex, Hu. rewrite Hh in Hex.
  erewrite upd_master_done; [|exact (put_master s k m m' Hm)]. eexists. split; [reflexivity|].
  cbn [mach set_masters set_mach freed masters s2 set_freed with_mem mem]. rewrite list_insert_insert_eq.
  split; [|split; [|by repeat split]].
  - intros ssid. apply abort_entry. rewrite Hu by (rewrite <- (Z.add_0_r a); by apply (Hw (streamid attr) 0%nat); lia).
    cbn [mem]. unfold mm, abort_words. by rewrite !lookup_insert_ne, lookup_insert_eq by lia.
  - intros y j Hy Hne Hj. cbn [mach set_masters set_mach]. rewrite Hu by (by apply Hw). cbn [mem]. apply Hother. intros e He Heq. lia.
Qed.
End Map.

(** Unmapping a stream that was never mapped breaks stream 0: it puts a free
    master with stream ID 0 in front of the list, so that unmapping stream 0 next
    finds that master, returns, and leaves memory and the device as they are:
    a mapping of stream 0 stays in place. *)
Theorem unmap_unknown_hides_zero {D} `{Hardware (machine D)} (s : smmu_state D) attr attr0 p1 p2 l :
  find_master (streamid attr) (masters s) = None -> allocs s = p1 :: p2 :: l -> p1 <> 0 -> p2 <> 0 -> streamid attr0 = 0 ->
  exists s', returns (val_smmu_unmap attr ;;; val_smmu_unmap attr0) s tt s' /\ mach s' = mach s /\
    masters s' = masters s ++ [master_zero].
Proof.
  intros Hf Ha Hp1 Hp2 H0. set (s1 := set_masters (masters s ++ [master_zero]) (set_allocs l s)).
  assert (Hk : masters s1 !! length (masters s) = Some master_zero) by (cbn; by rewrite lookup_app_r, Nat.sub_diag by lia).
  assert (E1 : smmu_master_at (streamid attr) s = Done (Some (length (masters s)), s1)).
  { unfold smmu_master_at, next_alloc, bind, gets, modify. rewrite Hf, Ha. cbn.
    destruct (Z.eqb_spec p1 0); [done|]. cbn. by destruct (Z.eqb_spec p2 0). }
  assert (E2 : smmu_master_at 0 s1 = Done (Some (length (masters s)), s1)).
  { unfold smmu_master_at, find_master, bind, gets. cbn [masters s1 set_masters]. rewrite reverse_snoc. cbn.
    rewrite length_app. cbn. unfold ret. do 3 f_equal. lia. }
  exists s1. split; [|done]. unfold returns. erewrite bind_done.
  - unfold val_smmu_unmap. rewrite H0, (bind_done _ _ _ _ _ E2), (bind_done _ _ _ _ _ (master_done _ _ _ Hk)). done.
  - unfold val_smmu_unmap. rewrite (bind_done _ _ _ _ _ E1), (bind_done _ _ _ _ _ (master_done _ _ _ Hk)). done.
Qed.

(** ** Probing and reset *)

Section Probe.
Context {D : Type} `{Hardware (machine D)}.

Lemma read_some a (s : smmu_state D) : exists v h', val_mmio_read a s = Done (v, set_mach h' s) /\ 0 <= v < 2 ^ 32.
Proof. unfold val_mmio_read, on_mach, pal_mmio_read. eexists _, _. split; [reflexivity|]. apply u32_range. Qed.

Lemma get_range f v : field_ok f -> 0 <= BITFIELD_GET f v < 2 ^ (msb f - lsb f + 1).
Proof.
  intros Hf. unfold BITFIELD_GET. rewrite mask_mod by done. unfold field_ok in Hf. apply Z.mod_pos_bound, pow2_pos. lia.
Qed.

(** What the rest of the driver relies on after a successful probe. *)
Definition probed (MAX_SID : Z) (d : smmu_dev_t) : Prop :=
  0 <= log2nent (queue (cmdq d)) < 32 /\ 0 <= log2nent (queue (evntq d)) < 32 /\
  0 <= sid_bits d <= Z.min 63 MAX_SID /\ 0 <= ssid_bits d < 32 /\
  (st_level_2lvl (supported d) = true -> STRTAB_SPLIT < sid_bits d) /\
  (s1p (supported d) || s2p (supported d) = true) /\ oas d ∈ smmu_oas /\ oas d <= ias d.

Lemma two_bits data a b : bit_set data (Z.lor a b) = bit_set data a || bit_set data b.
Proof.
  unfold bit_set. rewrite Z.land_lor_distr_r. destruct (Z.eqb_spec (Z.lor (Z.land data a) (Z.land data b)) 0) as [E|E].
  - apply Z.lor_eq_0_iff in E as [-> ->]. done.
  - destruct (Z.eqb_spec (Z.land data a) 0) as [Ea|]; [|done]. destruct (Z.eqb_spec (Z.land data b) 0) as [Eb|]; [|by rewrite orb_true_r].
    by rewrite Ea, Eb in E.
Qed.

Lemma when_done (b : bool) (m : prog (smmu_state D) unit) s s' :
  m s = Done (tt, s') -> when b m s = Done (tt, if b then s' else s).
Proof. by destruct b. Qed.

(** A step of a program that updates the structure of SMMU [i], or reads a register. *)
Ltac dev_step Hat :=
  match type of Hat with attached ?s ?i _ =>
  match goal with |- context [bind (upd_dev i ?f) _ s] =>
    let g := fresh "g" in let E := fresh "E" in let Hat' := fresh "Hat" in let s' := fresh "s" in
    destruct (upd_dev_done i s _ f Hat) as (g & E & Hat'); rewrite (bind_done _ _ _ _ _ E); clear E Hat; rename Hat' into Hat;
    cbn beta in Hat; set (s' := set_g_smmu g s) in *; clearbody s'
  end end.
Ltac read_step Hat v :=
  match type of Hat with attached ?s ?i _ =>
  match goal with |- context [bind (val_mmio_read ?a) _ s] =>
    let h := fresh "h" in let E := fresh "E" in let s' := fresh "s" in
    destruct (read_some a s) as (v & h & E & _); rewrite (bind_done _ _ _ _ _ E); clear E;
    apply (attached_mach _ _ _ h) in Hat; set (s' := set_mach h s) in *; clearbody s'
  end end.
Ltac when_step Hat :=
  match type of Hat with attached ?s ?i _ =>
  match goal with |- context [bind (when ?b (upd_dev i ?f)) _ s] =>
    let g := fresh "g" in let E := fresh "E" in let Hat' := fresh "Hat" in let s' := fresh "s" in
    destruct (upd_dev_done i s _ f Hat) as (g & E & Hat'); rewrite (bind_done _ _ _ _ _ (when_done b _ _ _ E)); clear E;
    cbn beta in Hat'; set (s' := if b then set_g_smmu g s else s);
    assert (attached s' i (if b then f _ else _)) as Hat1 by (subst s'; destruct b; [exact Hat'|exact Hat]);
    clear Hat Hat'; rename Hat1 into Hat; cbn beta in Hat; clearbody s'
  end end.

(** C25: A probe that succeeds leaves a device structure that the rest of the driver
    can use: for any values of the identification registers [smmu_probe] returns 0
    or 1, and after 1 the exponents of the queues fit 5 bits, the width of stream
    IDs is at most the configured one, a two-level table is only used above the
    split, a stage of translation is supported, and the output size is one of the
    architecture's and no more than the input size. *)
Theorem probe_wf (MAX_SID : Z) (s : smmu_state D) i d : attached s i d -> 0 <= MAX_SID ->
  exists r s' d', returns (smmu_probe MAX_SID i) s r s' /\ attached s' i d' /\ (r = 0 \/ r = 1 /\ probed MAX_SID d').
Proof.
  intros Hat HM. unfold returns, smmu_probe. rewrite (bind_done _ _ _ _ _ (attached_dev _ _ _ Hat)).
  read_step Hat v0. dev_step Hat. rewrite two_bits.
  destruct (bit_set v0 IDR0_S1P || bit_set v0 IDR0_S2P) eqn:Es; cbn [negb]; [|eexists 0, _, _; eauto].
  set (ttf := BITFIELD_GET IDR0_TTF v0). clearbody ttf. when_step Hat. set (d1 := if _ =? _ then _ else _) in Hat.
  assert (Hst : s1p (supported d1) || s2p (supported d1) = true).
  { subst d1. destruct (ttf =? _), (bit_set v0 IDR0_S1P), (bit_set v0 IDR0_S2P); try done; cbn; by rewrite ?orb_true_r. }
  clearbody d1. destruct (negb _); [eexists 0, _, _; eauto|].
  read_step Hat v1. destruct (bit_set v1 _); [eexists 0, _, _; eauto|].
  assert (Hsids : 0 <= (if BITFIELD_GET IDR1_SIDSIZE v1 <? MAX_SID then BITFIELD_GET IDR1_SIDSIZE v1 else MAX_SID) <= Z.min 63 MAX_SID).
  { pose proof (get_range IDR1_SIDSIZE v1 ltac:(fields)) as Hr. cbn in Hr. destruct (Z.ltb_spec (BITFIELD_GET IDR1_SIDSIZE v1) MAX_SID); lia. }
  set (sids := if _ <? MAX_SID then _ else _) in *. clearbody sids.
  pose proof (get_range IDR1_CMDQS v1 ltac:(fields)) as Hc. pose proof (get_range IDR1_EVNTQS v1 ltac:(fields)) as He.
  pose proof (get_range IDR1_SSIDSIZE v1 ltac:(fields)) as Hss. cbn in Hc, He, Hss.
  do 4 dev_step Hat. when_step Hat. read_step Hat v5. destruct (Z.leb_spec SMMU_OAS_MAX_IDX (BITFIELD_GET IDR5_OAS v5)) as [|Hoas]; [eexists 0, _, _; eauto|].
  pose proof (get_range IDR5_OAS v5 ltac:(fields)) as [Hoas0 _].
  destruct (at_index_lt smmu_oas (BITFIELD_GET IDR5_OAS v5)) as [o Ho]; [cbn; unfold SMMU_OAS_MAX_IDX in Hoas; lia|].
  rewrite Ho. unfold deref. erewrite bind_done; [|reflexivity]. dev_step Hat. eexists 1, _, _. split; [reflexivity|]. split; [exact Hat|].
  right. split; [done|]. apply at_index_Some in Ho as [_ Ho]. apply list_elem_of_lookup_2 in Ho.
  unfold probed. destruct (Z.leb_spec sids STRTAB_SPLIT); cbn; split_and!; try done; try lia.
Qed.

(** A reset that fails looks like one that succeeds: on a device that does not
    acknowledge the first write to its control register, [smmu_reset] gives up
    after its time-out and returns 1 without having set the device up, and 1 is
    what it returns on success, so [smmu_init] goes on. *)
Theorem reset_timeout_is_success (s : smmu_state D) i d : attached s i d ->
  (forall a h, (hw_read W32 a h).1 <> 0 /\ 0 <= (hw_read W32 a h).1 < 2 ^ 32) ->
  exists h', returns (smmu_reset i) s 1 (set_mach h' s) /\
    ((let* r := smmu_reset i in if r =? 0 then ret ACS_STATUS_ERR else ret 0) s = Done (0, set_mach h' s)).
Proof.
  intros Hat Hack. assert (E : exists h', smmu_reg_write_sync i 0 SMMU_CR0_OFFSET SMMU_CR0ACK_OFFSET s = Done (1, set_mach h' s)).
  { unfold smmu_reg_write_sync. rewrite (bind_done _ _ _ _ _ (attached_dev _ _ _ Hat)).
    erewrite bind_done; [|reflexivity]. set (h1 := hw_write _ _ _ _).
    destruct (rounds_after (fun s' => exists h, s' = set_mach h s) (fun s' => exists h, s' = set_mach h s) (fun _ _ => False) 0x1000000
      (let* reg := val_mmio_read (base d + SMMU_CR0ACK_OFFSET) in ret (if reg =? 0 then Some tt else None))) with (s := set_mach h1 s)
      as (r & s' & Er & Hr).
    - done.
    - intros s' [h ->]. unfold val_mmio_read, on_mach, pal_mmio_read. unfold bind. eexists _, _. split; [reflexivity|]. cbn [mach set_mach fst].
      match goal with |- context [hw_read W32 ?a h] => destruct (Hack a h) as [H0 H1]; destruct (hw_read W32 a h) as [v h2] end.
      cbn in H0, H1 |- *. rewrite u32_small by lia. destruct (Z.eqb_spec v 0); [done|]. by exists h2.
    - by exists h1.
    - destruct r; [done|]. destruct Hr as [h2 ->]. exists h2. by rewrite (bind_done _ _ _ _ _ Er). }
  destruct E as [h' E]. exists h'. assert (E2 : smmu_reset i s = Done (1, set_mach h' s)).
  { unfold smmu_reset. by rewrite (bind_done _ _ _ _ _ E). }
  split; [exact E2|]. by rewrite (bind_done _ _ _ _ _ E2).
Qed.
End Probe.

(** ** Examples: a table of 16 streams at 0x2000 *)

Section Examples.
#[local] Instance hw2 : Hardware (machine cmd_dev) := cmd_hw 0x1000 2 0x40000098 0x4000009c 1.
#[local] Instance dev2 : CmdqDevice cmd_dev 0x1000 2 0x40000098 0x4000009c :=
  cmd_device 0x1000 2 0x40000098 0x4000009c 1 ltac:(lia) ltac:(discriminate).

Definition smmu2 : smmu_dev_t := set_strtab_cfg (mk_strtab 0x2000 0x2000 0x2000 0 [] 16 0x4000000000002000 4) smmu0.
Definition words2 : gmap Z Z := fill_words 128 0x2000 (fun _ => 0) words0.
Definition state2 (ms : list smmu_master_t) : smmu_state cmd_dev :=
  mk_smmu (mk_machine words2 (mk_cmd_dev 0 0 [])) [0x600; 0x700; 0x4000] [] (Some (0x500, [smmu2])) 0 1 ms 0 ∅ [].
Definition tables2 : pgt_descriptor_t := mk_pgt_desc 0x80000000 0xff (mk_tcr 2 0 3 1 1 24 1).
Definition master3 : smmu_master_t := set_m_smmu (Some 0) (set_sid 3 master_zero).

Lemma far_outside x : x < 0x1000 \/ 0x1040 <= x -> outside (D := cmd_dev) x.
Proof.
  intros Hx. split; [exact Logic.I|]. intros i j Hj. unfold slot. pose proof (Z.mod_pos_bound i (2 ^ 2) ltac:(lia)) as Hi.
  set (e := i mod 2 ^ 2) in *. change (2 ^ 2) with 4 in Hi. lia.
Qed.

Lemma words2_ring : ring_ok 0x1000 2 2 words2.
Proof.
  intros i j Hj. destruct (words0_ring i j Hj) as [x Hx]. exists x. rewrite <- Hx. apply unfilled. unfold slot.
  pose proof (Z.mod_pos_bound i (2 ^ 2) ltac:(lia)) as Hi. set (e := i mod 2 ^ 2) in *. change (2 ^ 2) with 4 in Hi. lia.
Qed.

Lemma ready2 ms : ready (state2 ms) 0 smmu2 0x2000.
Proof.
  split.
  - by exists 0x500, [smmu2].
  - by repeat split.
  - apply words2_ring.
  - vm_compute. discriminate.
  - repeat split; cbn; lia.
  - discriminate.
  - done.
  - intros x j Hx Hj. change (2 ^ sid_bits smmu2) with 16 in Hx. split; [|apply far_outside; lia]. exists 0. apply filled; lia.
Qed.

Lemma eager2 : eager (D := cmd_dev) (b := 0x1000) (n := 2) (rprod := 0x40000098) (rcons := 0x4000009c).
Proof. apply cmd_device_eager. lia. Qed.

Lemma fit2 : attributes_fit tables2.
Proof. unfold attributes_fit. cbn. lia. Qed.

Lemma map_stage2_installs_witness :
  exists s', val_smmu_map (fun _ => 0) (mk_attr 0 3 0 0 1) tables2 (state2 []) = Done (0, s') /\
    translates (mem (mach s')) 0x20c0 0 = Translate (mk_view true 0x80000000 24 0 3 1 1 2 1 0) /\
    cd_done (dev (mach s')) = [[0x4; 31]; [0x20; 0]; [0x30; 0]; [0x46; 0]].
Proof.
  destruct (map_stage2_installs (b := 0x1000) (n := 2) (rprod := 0x40000098) (rcons := 0x4000009c) ltac:(lia) ltac:(lia)
    ltac:(split; [lia|reflexivity]) ltac:(split; [lia|reflexivity]) eager2 (fun _ => 0)
    (state2 []) (mk_attr 0 3 0 0 1) tables2 smmu2 0x2000) as (s' & E & Ht & _ & Hx).
  - apply ready2.
  - by exists 0x600, 0x700, [0x4000].
  - discriminate.
  - reflexivity.
  - cbn. lia.
  - apply fit2.
  - exists s'. split; [exact E|]. split; [exact (Ht 0)|exact Hx].
Defined.

Lemma map_stage1_installs_witness :
  exists s', val_smmu_map (fun _ => 0) (mk_attr 0 3 0 0 0) tables2 (state2 []) = Done (0, s') /\
    translates (mem (mach s')) 0x20c0 0 = Translate (mk_view false 0x80000000 24 0 3 1 1 2 0 0xff).
Proof.
  destruct (map_stage1_installs (b := 0x1000) (n := 2) (rprod := 0x40000098) (rcons := 0x4000009c) ltac:(lia) ltac:(lia)
    ltac:(split; [lia|reflexivity]) ltac:(split; [lia|reflexivity]) eager2 (fun _ => 0)
    (state2 []) (mk_attr 0 3 0 0 0) tables2 smmu2 0x2000 0x600 0x700 0x4000 []) as (s' & E & Ht & _ & _).
  - apply ready2.
  - reflexivity.
  - reflexivity.
  - discriminate.
  - discriminate.
  - reflexivity.
  - reflexivity.
  - cbn. lia.
  - apply fit2.
  - cbn. lia.
  - reflexivity.
  - cbn. lia.
  - lia.
  - reflexivity.
  - vm_compute. reflexivity.
  - cbn. intros x Hx. split; [apply far_outside; lia|]. lia.
  - exists s'. split; [exact E|exact Ht].
Defined.

Lemma unmap_aborts_witness :
  exists s', val_smmu_unmap (mk_attr 0 3 0 0 0) (state2 [master3]) = Done (tt, s') /\
    translates (mem (mach s')) 0x20c0 0 = Abort /\ masters s' = [master_zero].
Proof.
  destruct (unmap_aborts (b := 0x1000) (n := 2) (rprod := 0x40000098) (rcons := 0x4000009c) ltac:(lia) ltac:(lia)
    ltac:(split; [lia|reflexivity]) ltac:(split; [lia|reflexivity]) eager2
    (state2 [master3]) (mk_attr 0 3 0 0 0) 0 smmu2 0x2000 0%nat master3) as (s' & E & Ht & _ & _ & _ & Hm).
  - apply ready2.
  - reflexivity.
  - reflexivity.
  - reflexivity.
  - cbn. lia.
  - cbn. lia.
  - reflexivity.
  - exists s'. split; [exact E|]. split; [exact (Ht 0)|exact Hm].
Defined.

Lemma unmap_unknown_hides_zero_witness :
  exists s', (val_smmu_unmap (mk_attr 0 5 0 0 0) ;;; val_smmu_unmap (mk_attr 0 0 0 0 0)) (state2 [set_sid 0 master3]) = Done (tt, s') /\
    mach s' = mach (state2 []).
Proof.
  destruct (unmap_unknown_hides_zero (state2 [set_sid 0 master3]) (mk_attr 0 5 0 0 0) (mk_attr 0 0 0 0 0) 0x600 0x700 [0x4000])
    as (s' & E & Hm & _).
  - reflexivity.
  - reflexivity.
  - discriminate.
  - discriminate.
  - reflexivity.
  - exists s'. split; [exact E|exact Hm].
Defined.

Lemma cmd_queue_ready_witness :
  exists s' d' b, smmu_cmd_queue_init 0 (set_allocs [0x8008] (state2 [])) = Done (1, s') /\ attached s' 0 d' /\
    q_base (cmdq d') = b /\ b = 0x8040 /\ ring_ok b 2 2 (mem (mach s')).
Proof.
  destruct (cmd_queue_ready (set_allocs [0x8008] (state2 [])) 0 smmu2 0x8008 [] 2) as (s' & d' & b & E & Hat & Hq & Hr & Hlo & Hhi & Hz & _).
  - by exists 0x500, [smmu2].
  - reflexivity.
  - lia.
  - cbn. lia.
  - reflexivity.
  - lia.
  - reflexivity.
  - vm_compute. reflexivity.
  - exists s', d', b. split; [exact E|]. split; [exact Hat|]. split; [apply Hq|]. split; [|exact Hr].
    change (32 `max` (16 * 2 ^ 2)) with 64 in Hhi, Hz. lia.
Defined.

Lemma event_ring_overruns_witness :
  exists s' d', smmu_evnt_queue_init 0 (mk_smmu (mk_machine words2 tt) [0x8008] [] (Some (0x500, [smmu1])) 0 1 [] 0 ∅ []) = Done (1, s') /\
    attached s' 0 d' /\ ld_words (slot (q_base (evntq d')) 1 4 1) 4 s' = Undefined.
Proof.
  destruct (event_ring_overruns (mk_smmu (mk_machine words2 tt) [0x8008] [] (Some (0x500, [smmu1])) 0 1 [] 0 ∅ []) 0 smmu1 0x8008 [] 1)
    as (s' & d' & E & Hat & _ & Hu).
  - by exists 0x500, [smmu1].
  - reflexivity.
  - lia.
  - reflexivity.
  - lia.
  - reflexivity.
  - vm_compute. reflexivity.
  - intros x Hx. cbn in Hx. change (words2 !! x = None). unfold words2, words0. rewrite !unfilled by lia. reflexivity.
  - exists s', d'. split; [exact E|]. split; [exact Hat|exact Hu].
Defined.

Lemma stream_table_aborts_witness :
  exists s' d' ste, smmu_strtab_init (fun _ => 0) 0 (set_allocs [0x8008] (state2 [])) = Done (1, s') /\ attached s' 0 d' /\
    lookup_stream (strtab_base (strtab_cfg d')) (strtab_base_cfg (strtab_cfg d')) 15 = Some ste /\
    translates (mem (mach s')) ste 0 = Abort.
Proof.
  destruct (stream_table_aborts (fun _ => 0) (set_allocs [0x8008] (state2 [])) 0 smmu2 0x8008 []) as (s' & d' & E & Hat & Hall).
  - by exists 0x500, [smmu2].
  - reflexivity.
  - cbn. lia.
  - reflexivity.
  - lia.
  - reflexivity.
  - vm_compute. reflexivity.
  - destruct (Hall 15 ltac:(cbn; lia)) as (ste & Hl & _ & _ & _ & Ht).
    exists s', d', ste. split; [exact E|]. split; [exact Hat|]. split; [exact Hl|exact (Ht 0)].
Defined.

End Examples.

(** A device whose registers read 1 whatever is written. *)
Definition stuck : Hardware (machine unit) := {| hw_read := fun _ _ h => (1, h); hw_write := fun _ _ _ h => h |}.

(** A device with both stages in the format of AArch64, 16 bits of stream ID, queues of
    2^8 and 2^7 entries and an output size of 48 bits. *)
Definition identified : Hardware (machine unit) := {|
  hw_read := fun _ a h => (if a =? base smmu2 + SMMU_IDR0_OFFSET then 0xB else if a =? base smmu2 + SMMU_IDR1_OFFSET then 0x01070010
                           else if a =? base smmu2 + SMMU_IDR5_OFFSET then 5 else 0, h);
  hw_write := fun _ _ _ h => h |}.
Definition state_id : smmu_state unit := mk_smmu (mk_machine words2 tt) [] [] (Some (0x500, [smmu2])) 0 1 [] 0 ∅ [].

Lemma probe_wf_witness :
  exists s' d', @smmu_probe unit identified 12 0 state_id = Done (1, s') /\ attached s' 0 d' /\ probed 12 d'.
Proof.
  destruct (@probe_wf unit identified 12 state_id 0 smmu2) as (r & s' & d' & E & Hat & Hr); [by exists 0x500, [smmu2]|lia|].
  assert (E1 : match @smmu_probe unit identified 12 0 state_id with Done (r, _) => r | _ => 0 end = 1) by (vm_compute; reflexivity).
  unfold returns in E. rewrite E in E1. subst r. exists s', d'. split; [exact E|]. split; [exact Hat|]. by destruct Hr as [[=]|[_ Hp]].
Defined.

Lemma reset_timeout_is_success_witness :
  exists h', @smmu_reset unit stuck 0 (mk_smmu (mk_machine words2 tt) [] [] (Some (0x500, [smmu2])) 0 1 [] 0 ∅ []) =
    Done (1, set_mach h' (mk_smmu (mk_machine words2 tt) [] [] (Some (0x500, [smmu2])) 0 1 [] 0 ∅ [])).
Proof.
  destruct (@reset_timeout_is_success unit stuck (mk_smmu (mk_machine words2 tt) [] [] (Some (0x500, [smmu2])) 0 1 [] 0 ∅ []) 0 smmu2)
    as (h' & E & _).
  - by exists 0x500, [smmu2].
  - intros a h. cbn. lia.
  - exists h'. exact E.
Defined.
