(* ===== verification/PcieEnum.v ===== *)
(** * PCIe enumeration of the bare-metal port

    Models [platform/pal_baremetal/common/src/pal_pcie_enumeration.c]: the
    configuration accesses of the port, the programming of the BARs and of the
    bridge windows, the recursive numbering of the buses and the searches. The
    theorems run it on a tree of functions whose bridges route accesses by their
    bus number registers. *)

From S2P Require Import Prelude Mmio PcieCfg.

(** ** Constants ([pal_pcie_enum.h], [pal_common_support.h]) *)

Definition PCIE_CFG_SIZE : Z := 4096.
Definition HEADER_OFFSET : Z := 0xC.
Definition TYPE0_HEADER : Z := 0.
Definition TYPE1_HEADER : Z := 1.
Definition TYPE01_RIDR : Z := 0x8.
Definition PCIE_HEADER_TYPE (header_value : Z) : Z := Z.land (Z.shiftr header_value 16) 0x3.
(** The third argument of the macro is not used, [bus] is. *)
Definition BUS_NUM_REG_CFG (sub_bus sec_bus bus : Z) : Z :=
  u32 (Z.lor (Z.lor (Z.shiftl sub_bus 16) (Z.shiftl sec_bus 8)) bus).
Definition BUS_NUM_REG_OFFSET : Z := 0x18.
Definition BAR0_OFFSET : Z := 0x10.
Definition TYPE1_BAR_MAX_OFF : Z := 0x14.
Definition TYPE0_BAR_MAX_OFF : Z := 0x24.
Definition BAR_64_BIT : Z := 1.
Definition BAR_32_BIT : Z := 0.
Definition BAR_PRE_MEM : Z := 0x1.
Definition MEM_BASE32_LIM_MASK : Z := 0xFFF00000.
Definition MEM_BASE64_LIM_MASK : Z := 0xFFFFFFFFFFF00000.
Definition NON_PRE_FET_OFFSET : Z := 0x20.
Definition PRE_FET_OFFSET : Z := 0x24.
Definition BAR_INCREMENT : Z := 0x100000.
Definition PRI_BUS_CLEAR_MASK : Z := 0xFFFFFF00.
Definition BAR_REG (v : Z) : Z := Z.land (Z.shiftr v 2) 0x1.
Definition BAR_MEM (v : Z) : Z := Z.shiftr (Z.land v 0xF) 3.
Definition REG_MASK_SHIFT (v : Z) : Z := Z.shiftr (Z.land v MEM_BASE32_LIM_MASK) 16.
Definition BAR_MASK : Z := 0xFFFFFFF0.
Definition COMMAND_REG_OFFSET : Z := 0x04.
Definition REG_ACC_DATA : Z := 0x7.
Definition CC_SUB_MASK : Z := 0xFF.
Definition CC_BASE_MASK : Z := 0xFF.
Definition CC_SUB_SHIFT : Z := 16.
Definition CC_BASE_SHIFT : Z := 24.
Definition HB_BASE_CLASS : Z := 0x06.
Definition HB_SUB_CLASS : Z := 0x00.

(** The macro of this port masks nothing. *)
Definition bm_create_bdf (Seg Bus Dev Func : Z) : Z :=
  u32 (Z.lor (Z.lor (Z.lor (Z.shiftl Seg 24) (Z.shiftl Bus 16)) (Z.shiftl Dev 8)) Func).

(** ** State *)

(** The allocation of one kind of BAR: the next address, the size of the last BAR
    and its bus, and the address reached ([g_bar32_np_start], [g_np_bar_size],
    [g_np_bus], [g_bar32_np_max] and the like). *)
Record pool := mk_pool { start : Z; last_size : Z; last_bus : Z; pool_max : Z }.

Definition set_start (v : Z) (q : pool) : pool := mk_pool v (last_size q) (last_bus q) (pool_max q).
Definition close_pool (q : pool) : pool := mk_pool (start q) (last_size q) (last_bus q) (start q).

Record enum_state (H : Type) := mk_enum {
  bus_hw : H;
  info : PCIE_INFO_TABLE;
  pcie_index : Z;
  enumerate : Z;
  np : pool;        (* 32 bits, not prefetchable *)
  pre : pool;       (* 32 bits, prefetchable *)
  pre64 : pool;     (* 64 bits *)
  g_rp_bar32_value : Z;
  g_rp_bar64_value : Z }.
Arguments mk_enum {H}.
Arguments bus_hw {H} _.
Arguments info {H} _.
Arguments pcie_index {H} _.
Arguments enumerate {H} _.
Arguments np {H} _.
Arguments pre {H} _.
Arguments pre64 {H} _.
Arguments g_rp_bar32_value {H} _.
Arguments g_rp_bar64_value {H} _.

Section Enum.
Context {H : Type} `{Hardware H}.
Local Abbreviation P := (prog (enum_state H)).

Definition set_bus_hw (h : H) (s : enum_state H) : enum_state H :=
  mk_enum h (info s) (pcie_index s) (enumerate s) (np s) (pre s) (pre64 s) (g_rp_bar32_value s) (g_rp_bar64_value s).
Definition set_pcie_index (v : Z) (s : enum_state H) : enum_state H :=
  mk_enum (bus_hw s) (info s) v (enumerate s) (np s) (pre s) (pre64 s) (g_rp_bar32_value s) (g_rp_bar64_value s).
Definition set_enumerate (v : Z) (s : enum_state H) : enum_state H :=
  mk_enum (bus_hw s) (info s) (pcie_index s) v (np s) (pre s) (pre64 s) (g_rp_bar32_value s) (g_rp_bar64_value s).
Definition set_np (q : pool) (s : enum_state H) : enum_state H :=
  mk_enum (bus_hw s) (info s) (pcie_index s) (enumerate s) q (pre s) (pre64 s) (g_rp_bar32_value s) (g_rp_bar64_value s).
Definition set_pre (q : pool) (s : enum_state H) : enum_state H :=
  mk_enum (bus_hw s) (info s) (pcie_index s) (enumerate s) (np s) q (pre64 s) (g_rp_bar32_value s) (g_rp_bar64_value s).
Definition set_pre64 (q : pool) (s : enum_state H) : enum_state H :=
  mk_enum (bus_hw s) (info s) (pcie_index s) (enumerate s) (np s) (pre s) q (g_rp_bar32_value s) (g_rp_bar64_value s).
Definition set_rp32 (v : Z) (s : enum_state H) : enum_state H :=
  mk_enum (bus_hw s) (info s) (pcie_index s) (enumerate s) (np s) (pre s) (pre64 s) v (g_rp_bar64_value s).

(** ** Configuration accesses *)

(** The accessors of this port: the write masks the last two bits of an unaligned address
    and the read does not. *)
Definition on_bus_hw {A} (p : prog H A) : P A := fun s =>
  match p (bus_hw s) with
  | Done (a, h) => Done (a, set_bus_hw h s)
  | Undefined => Undefined
  | Diverges => Diverges
  end.
Definition bm_mmio_read (addr : Z) : P Z := on_bus_hw (bm_pal_mmio_read (u64 addr)).
Definition bm_mmio_write (addr data : Z) : P unit := on_bus_hw (bm_pal_mmio_write (u64 addr) data).

Definition bm_cfg_addr (bus dev func : Z) : Z :=
  u32 (bus * PCIE_MAX_DEV * PCIE_MAX_FUNC * PCIE_CFG_SIZE + dev * PCIE_MAX_FUNC * PCIE_CFG_SIZE + func * PCIE_CFG_SIZE).

Definition info_block : P PCIE_INFO_BLOCK :=
  let* t := gets info in let* i := gets pcie_index in deref (at_index (block t) i).

(** After the enumeration the ECAM is looked for by the bus, whatever the segment. *)
Definition find_index (bus : Z) : P unit :=
  let* t := gets info in
  match find_first (fun b => (start_bus_num b <=? bus) && (bus <=? end_bus_num b))
          (take (Z.to_nat (info_num_entries t)) (block t)) 0 with
  | Some (i, _) => modify (set_pcie_index i)
  | None => ret tt
  end.

Definition pal_pci_cfg_read (bus dev func offset : Z) : P Z :=
  let* e := gets enumerate in
  when (e =? 0) (find_index bus) ;;;
  let* b := info_block in
  bm_mmio_read (u64 (ecam_base b + bm_cfg_addr bus dev func + offset)).

Definition pal_pci_cfg_write (bus dev func offset data : Z) : P unit :=
  let* b := info_block in
  bm_mmio_write (u64 (ecam_base b + bm_cfg_addr bus dev func + offset)) data.

(** ** Bridge windows *)

Section Function_.
Context (bus dev func : Z).
Local Abbreviation rd off := (pal_pci_cfg_read bus dev func off).
Local Abbreviation wr off v := (pal_pci_cfg_write bus dev func off v).

(** One of the two windows of [get_resource_base_32]. *)
Definition window32 (get : enum_state H -> pool) (put : pool -> enum_state H -> enum_state H) (offset base limit : Z) : P unit :=
  let* q := gets get in
  if base =? start q then ret tt else
  when (negb (u32 (Z.shiftl (start q) 12) =? 0))
    (modify (put (set_start (u32 (Z.land (start q) MEM_BASE32_LIM_MASK + BAR_INCREMENT)) q))) ;;;
  let* q := gets get in
  let limit := if limit =? start q then u32 (limit - BAR_INCREMENT) else limit in
  let* v := rd offset in
  wr offset (Z.lor (Z.land limit MEM_BASE32_LIM_MASK) v).

Definition get_resource_base_32 (p_base np_base p_limit np_limit : Z) : P unit :=
  window32 np set_np NON_PRE_FET_OFFSET np_base np_limit ;;;
  window32 pre set_pre PRE_FET_OFFSET p_base p_limit.

(** The limit is taken before it is adjusted. *)
Definition get_resource_base_64 (p_base p_max : Z) : P unit :=
  let mem_bar_p := u32 (Z.lor (Z.shiftl (REG_MASK_SHIFT (u32 p_max)) 16) (REG_MASK_SHIFT (u32 p_base))) in
  let* q := gets pre64 in
  if negb (p_base =? p_max) && (start q <=? p_max) then
    when (negb (u64 (Z.shiftl (start q) 12) =? 0))
      (modify (set_pre64 (set_start (u64 (Z.land (start q) MEM_BASE64_LIM_MASK + BAR_INCREMENT)) q))) ;;;
    let* q := gets pre64 in
    modify (set_pre64 (set_start (u64 (Z.land (start q) MEM_BASE64_LIM_MASK + BAR_INCREMENT)) q)) ;;;
    wr PRE_FET_OFFSET mem_bar_p ;;;
    wr (PRE_FET_OFFSET + 4) (Z.shiftr p_base 32) ;;;
    wr (PRE_FET_OFFSET + 8) (Z.shiftr p_max 32)
  else ret tt.

(** ** BARs *)

(** The size of a BAR of 32 or 64 bits: all ones are written and what sticks is
    negated. The lower word as read comes with it. *)
Definition probe32 (offset : Z) : P (Z * Z) :=
  wr offset 0xFFFFFFF0 ;;;
  let* lower := rd offset in
  ret (lower, u32 (Z.lnot (Z.land lower BAR_MASK) + 1)).

Definition probe64 (offset : Z) : P Z :=
  wr offset 0xFFFFFFF0 ;;;
  wr (offset + 4) 0xFFFFFFFF ;;;
  let* lower := rd offset in
  let* upper := rd (offset + 4) in
  ret (u64 (Z.lnot (Z.lor (Z.land lower BAR_MASK) (Z.shiftl upper 32)) + 1)).

(** Each pass moves the offset on by 4 or 8, so two passes are enough. *)
Fixpoint rp_bars (fuel : nat) (offset : Z) : P unit :=
  if TYPE1_BAR_MAX_OFF <? offset then ret tt else
  match fuel with
  | O => diverge
  | S k =>
      let* v := rd offset in
      if BAR_REG v =? BAR_64_BIT then
        let* size := probe64 offset in
        if size =? 0 then rp_bars k (offset + 8) else
        let* base := gets g_rp_bar64_value in
        wr offset base ;;;
        wr (offset + 4) (Z.shiftr base 32) ;;;
        rp_bars k (offset + 8)
      else
        let* r := probe32 offset in
        if r.2 =? 0 then rp_bars k (offset + 4) else
        let* base := gets g_rp_bar32_value in
        wr offset base ;;;
        modify (set_rp32 (u32 (base + r.2))) ;;;
        rp_bars k (offset + 4)
  end.
Definition pal_pcie_rp_program_bar : P unit := rp_bars 2 BAR0_OFFSET.

(** Where the next BAR goes; [mine] is the size of the last BAR of this function,
    0 for the first. *)
Definition next_start (mine size : Z) (q : pool) : Z :=
  if (mine =? 0) && (last_bus q =? bus) then
    (if last_size q <? size then start q + size else start q + last_size q)
  else if (last_size q <? size) && negb (mine =? 0) then start q + size
  else start q + mine.

(** The sizes are kept in 32 bits. *)
Definition placed (width : Z -> Z) (mine size : Z) (q : pool) : pool :=
  mk_pool (width (next_start mine size q)) (u32 size) bus (pool_max q).

(** Each pass moves the offset on by 4 or 8, so six passes are enough; [n], [p] and
    [p64] are [np_bar_size], [p_bar_size] and [p_bar64_size]. *)
Fixpoint ep_bars (fuel : nat) (offset n p p64 : Z) : P unit :=
  if TYPE0_BAR_MAX_OFF <? offset then ret tt else
  match fuel with
  | O => diverge
  | S k =>
      let* v := rd offset in
      if BAR_MEM v =? BAR_PRE_MEM then
        if BAR_REG v =? BAR_64_BIT then
          let* size := probe64 offset in
          if size =? 0 then ep_bars k (offset + 8) n p p64 else
          let* q := gets pre64 in
          modify (set_pre64 (placed u64 p64 size q)) ;;;
          let* q := gets pre64 in
          wr offset (start q) ;;;
          wr (offset + 4) (Z.shiftr (start q) 32) ;;;
          ep_bars k (offset + 8) n p (u32 size)
        else
          let* r := probe32 offset in
          if r.2 =? 0 then ep_bars k (offset + 4) n p p64 else
          let* q := gets pre in
          modify (set_pre (placed u32 p r.2 q)) ;;;
          let* q := gets pre in
          wr offset (start q) ;;;
          ep_bars k (offset + 4) n (u32 r.2) p64
      else
        let* r := probe32 offset in
        if r.2 =? 0 then ep_bars k (if BAR_REG r.1 =? BAR_64_BIT then offset + 8 else offset + 4) n p p64 else
        let* q := gets np in
        modify (set_np (placed u32 n r.2 q)) ;;;
        let* q := gets np in
        wr offset (start q) ;;;
        let* v := rd offset in
        if BAR_REG v =? BAR_64_BIT then wr (offset + 4) 0 ;;; ep_bars k (offset + 8) (u32 r.2) p p64
        else ep_bars k (offset + 4) (u32 r.2) p p64
  end.

Definition pal_pcie_program_bar_reg : P unit :=
  ep_bars 6 BAR0_OFFSET 0 0 0 ;;;
  modify (fun s => set_np (close_pool (np s)) (set_pre (close_pool (pre s)) (set_pre64 (close_pool (pre64 s)) s))).
End Function_.

(** ** Numbering the buses *)

(** The local variables of [pal_pcie_enumerate_device]. *)
Record locals := mk_locals { sub_bus : Z; sec_bus : Z; p_base : Z; np_base : Z; p64_base : Z }.

Definition host_bridge (class_code : Z) : bool :=
  (Z.land (Z.shiftr class_code CC_BASE_SHIFT) CC_BASE_MASK =? HB_BASE_CLASS) &&
  (Z.land (Z.shiftr class_code CC_SUB_SHIFT) CC_SUB_MASK =? HB_SUB_CLASS).
Definition no_function (vendor_id : Z) : bool := (vendor_id =? 0) || (vendor_id =? 0xFFFFFFFF).

(** A bridge before the buses below it are numbered, and after. *)
Definition open_bridge (bus dev func sec_bus : Z) : P unit :=
  let* c := pal_pci_cfg_read bus dev func COMMAND_REG_OFFSET in
  pal_pci_cfg_write bus dev func COMMAND_REG_OFFSET (Z.lor c REG_ACC_DATA) ;;;
  pal_pci_cfg_write bus dev func BUS_NUM_REG_OFFSET (BUS_NUM_REG_CFG 0xFF sec_bus bus) ;;;
  let* qn := gets np in
  pal_pci_cfg_write bus dev func NON_PRE_FET_OFFSET (Z.land (Z.shiftr (start qn) 16) 0xFFF0) ;;;
  let* qp := gets pre in
  pal_pci_cfg_write bus dev func PRE_FET_OFFSET (Z.land (Z.shiftr (start qp) 16) 0xFFF0).

Definition close_bridge (bus dev func sub : Z) (l : locals) : P locals :=
  pal_pci_cfg_write bus dev func BUS_NUM_REG_OFFSET (BUS_NUM_REG_CFG sub (sec_bus l) bus) ;;;
  let* qp := gets pre in
  let* qn := gets np in
  get_resource_base_32 bus dev func (p_base l) (np_base l) (pool_max qp) (pool_max qn) ;;;
  let* q := gets pre64 in
  get_resource_base_64 bus dev func (p64_base l) (pool_max q) ;;;
  pal_pcie_rp_program_bar bus dev func ;;;
  let* qp := gets pre in
  let* qn := gets np in
  let* q := gets pre64 in
  ret (mk_locals sub (u32 (sub + 1)) (start qp) (start qn) (start q)).

Section Scan.
(** The recursive call. *)
Context (rec : Z -> Z -> P Z) (bus : Z).

Definition enum_bridge (dev func : Z) (l : locals) : P locals :=
  open_bridge bus dev func (sec_bus l) ;;;
  let* sub := rec (sec_bus l) (u32 (sec_bus l + 1)) in
  close_bridge bus dev func sub l.

Definition enum_function (slot : Z) (l : locals) : P locals :=
  let dev := slot / PCIE_MAX_FUNC in
  let func := slot mod PCIE_MAX_FUNC in
  let* vendor_id := pal_pci_cfg_read bus dev func 0 in
  if no_function vendor_id then ret l else
  let* class_code := pal_pci_cfg_read bus dev func TYPE01_RIDR in
  if host_bridge class_code then ret l else
  let* header_value := pal_pci_cfg_read bus dev func HEADER_OFFSET in
  if PCIE_HEADER_TYPE header_value =? TYPE1_HEADER then enum_bridge dev func l
  else if PCIE_HEADER_TYPE header_value =? TYPE0_HEADER then
    pal_pcie_program_bar_reg bus dev func ;;;
    ret (mk_locals (u32 (sec_bus l - 1)) (sec_bus l) (p_base l) (np_base l) (p64_base l))
  else ret l.

(** The functions from [slot] on: eight for each of the 32 devices. *)
Fixpoint enum_slots (n : nat) (slot : Z) (l : locals) : P locals :=
  match n with
  | O => ret l
  | S k => let* l' := enum_function slot l in enum_slots k (slot + 1) l'
  end.
End Scan.

Fixpoint pal_pcie_enumerate_device (fuel : nat) (bus sec_bus : Z) : P Z :=
  match fuel with
  | O => diverge
  | S k =>
      let* b := info_block in
      if bus =? u32 (end_bus_num b + 1) then ret bus else
      let* qp := gets pre in
      let* qn := gets np in
      let* q := gets pre64 in
      let* l := enum_slots (pal_pcie_enumerate_device k) bus (Z.to_nat (PCIE_MAX_DEV * PCIE_MAX_FUNC)) 0
                  (mk_locals bus sec_bus (start qp) (start qn) (start q)) in
      ret (sub_bus l)
  end.

Definition clear_function (bus slot : Z) : P unit :=
  let dev := slot / PCIE_MAX_FUNC in
  let func := slot mod PCIE_MAX_FUNC in
  let* vendor_id := pal_pci_cfg_read bus dev func 0 in
  if no_function vendor_id then ret tt else
  let* header_value := pal_pci_cfg_read bus dev func HEADER_OFFSET in
  if PCIE_HEADER_TYPE header_value =? TYPE1_HEADER then
    let* v := pal_pci_cfg_read bus dev func BUS_NUM_REG_OFFSET in
    pal_pci_cfg_write bus dev func BUS_NUM_REG_OFFSET (Z.land v PRI_BUS_CLEAR_MASK)
  else ret tt.

Definition pal_clear_pri_bus : P unit :=
  let* b := info_block in
  foreach (seqZ 0 (end_bus_num b + 1)) (fun bus =>
    foreach (seqZ 0 (PCIE_MAX_DEV * PCIE_MAX_FUNC)) (clear_function bus)).

(** The rest of the ECAM list, [n] entries. *)
Fixpoint enum_ecams (fuel : nat) (n : nat) : P unit :=
  match n with
  | O => ret tt
  | S k =>
      let* b := info_block in
      let* _ := pal_pcie_enumerate_device fuel (start_bus_num b) (u32 (start_bus_num b + 1)) in
      pal_clear_pri_bus ;;;
      modify (fun s => set_pcie_index (u32 (pcie_index s + 1)) s) ;;;
      enum_ecams fuel k
  end.

Definition pal_pcie_enumerate (fuel : nat) : P unit :=
  let* t := gets info in
  if info_num_entries t =? 0 then ret tt else
  let* i := gets pcie_index in
  enum_ecams fuel (Z.to_nat (info_num_entries t - i)) ;;;
  modify (fun s => set_pcie_index 0 (set_enumerate 0 s)).

(** ** Searches *)

(** [PLATFORM_BM_OVERRIDE_PCIE_MAX_BUS] is a constant of the board. *)
Definition find_class (MAX_BUS ClassCode InputBus InputDev InputFunc : Z) : P (option Z) :=
  search (seqZ InputBus (MAX_BUS - InputBus)) (fun Bus =>
    search (seqZ InputDev (PCIE_MAX_DEV - InputDev)) (fun Dev =>
      search (seqZ InputFunc (PCIE_MAX_FUNC - InputFunc)) (fun Func =>
        let* class_code := pal_pci_cfg_read Bus Dev Func TYPE01_RIDR in
        ret (if (Z.shiftr class_code CC_BASE_SHIFT =? Z.shiftr ClassCode 16) &&
                (Z.shiftr class_code CC_SUB_SHIFT =? Z.shiftr ClassCode 8)
             then Some (bm_create_bdf 0 Bus Dev Func) else None)))).

Definition pal_pcie_get_bdf (MAX_BUS ClassCode StartBdf : Z) : P Z :=
  let* r := find_class MAX_BUS ClassCode (PCIE_EXTRACT_BDF_BUS StartBdf) (PCIE_EXTRACT_BDF_DEV StartBdf)
              (PCIE_EXTRACT_BDF_FUNC StartBdf) in
  ret (default 0 r).

Definition pal_pcie_get_bdf_wrapper (MAX_BUS class_code start_bdf : Z) : P Z := pal_pcie_get_bdf MAX_BUS class_code start_bdf.

Definition pal_increment_bus_dev (StartBdf : Z) : Z :=
  let Seg := PCIE_EXTRACT_BDF_SEG StartBdf in
  let Bus := PCIE_EXTRACT_BDF_BUS StartBdf in
  let Dev := PCIE_EXTRACT_BDF_DEV StartBdf in
  if negb (Dev =? PCIE_MAX_DEV - 1) then bm_create_bdf Seg Bus (Dev + 1) 0 else bm_create_bdf Seg (Bus + 1) 0 0.

Definition pal_pcie_get_base (bdf bar_index : Z) : P Z :=
  let Bus := PCIE_EXTRACT_BDF_BUS bdf in
  let Dev := PCIE_EXTRACT_BDF_DEV bdf in
  let Func := PCIE_EXTRACT_BDF_FUNC bdf in
  let offset := u32 (BAR0_OFFSET + 4 * bar_index) in
  let* lower := pal_pci_cfg_read Bus Dev Func offset in
  if BAR_REG lower =? BAR_64_BIT then
    let* upper := pal_pci_cfg_read Bus Dev Func (u32 (offset + 4)) in
    ret (Z.lor (Z.land lower BAR_MASK) (Z.shiftl upper 32))
  else ret (Z.land lower BAR_MASK).
End Enum.
