(* ===== verification/PcieTree.v ===== *)
(** * Enumerating a tree of functions

    A hierarchy of PCIe functions as a configuration access sees it: a bridge
    forwards an access by its bus number registers, a function that is not
    reached answers all ones. The theorems run [PcieEnum] on it. *)

From S2P Require Import Prelude Mmio PcieCfg PcieEnum.

(** ** The registers of a function *)

(** The words of the configuration space and the bits of them that can be written. *)
Record regs := mk_regs { words : gmap Z Z; masks : gmap Z Z }.

Definition word (r : regs) (o : Z) : Z := u32 (default 0 (words r !! o)).
Definition mask (r : regs) (o : Z) : Z := default 0 (masks r !! o).
Definition put (o v : Z) (r : regs) : regs :=
  mk_regs (<[o := after (mask r o) 0 (word r o) v]> (words r)) (masks r).

Definition secondary (r : regs) : Z := Z.land (Z.shiftr (word r BUS_NUM_REG_OFFSET) 8) 0xFF.
Definition subordinate (r : regs) : Z := Z.land (Z.shiftr (word r BUS_NUM_REG_OFFSET) 16) 0xFF.
Definition type1 (r : regs) : bool := PCIE_HEADER_TYPE (word r HEADER_OFFSET) =? TYPE1_HEADER.
(** A bridge with no secondary bus forwards nothing. *)
Definition routes (r : regs) (b : Z) : bool :=
  type1 r && (0 <? secondary r) && (secondary r <=? b) && (b <=? subordinate r).

(** ** The hierarchy *)

(** The functions of a bus in the order of their slots, each with the functions below it. *)
Inductive fns := Nil | Cons (slot : Z) (r : regs) (below rest : fns).

(** The function that answers at a bus and slot, from the functions of [bus]. *)
Fixpoint find (bus b slot : Z) (t : fns) : option regs :=
  match t with
  | Nil => None
  | Cons s r below rest =>
      if b =? bus then (if s =? slot then Some r else find bus b slot rest)
      else if routes r b then find (secondary r) b slot below
      else find bus b slot rest
  end.

Fixpoint upd (bus b slot : Z) (f : regs -> regs) (t : fns) : fns :=
  match t with
  | Nil => Nil
  | Cons s r below rest =>
      if b =? bus then
        (if s =? slot then Cons s (f r) below rest else Cons s r below (upd bus b slot f rest))
      else if routes r b then Cons s r (upd (secondary r) b slot f below) rest
      else Cons s r below (upd bus b slot f rest)
  end.

(** The ECAM window of a block: 2^20 bytes for a bus, 2^12 for a slot.  A function has
    words, so the last two bits of an address are not decoded. *)
Definition ecam_word (b : PCIE_INFO_BLOCK) (a : Z) : Z := 4 * (a / 4 - ecam_base b / 4).

Definition tree_hw (b : PCIE_INFO_BLOCK) : Hardware fns := {|
  hw_read := fun _ a t =>
    let d := ecam_word b a in
    (match find (start_bus_num b) (d / 2 ^ 20) (d / 2 ^ 12 mod 256) t with
     | Some r => word r (d mod 2 ^ 12)
     | None => 0xFFFFFFFF
     end, t);
  hw_write := fun _ a v t =>
    let d := ecam_word b a in
    upd (start_bus_num b) (d / 2 ^ 20) (d / 2 ^ 12 mod 256) (put (d mod 2 ^ 12) v) t |}.

(** What enumeration takes a function for. *)
Definition is_bridge (r : regs) : bool :=
  negb (no_function (word r 0)) && negb (host_bridge (word r TYPE01_RIDR)) && type1 r.

Fixpoint bridges (t : fns) : Z :=
  match t with
  | Nil => 0
  | Cons _ r below rest => (if is_bridge r then 1 + bridges below else 0) + bridges rest
  end.

Fixpoint depth (t : fns) : nat :=
  match t with
  | Nil => 0
  | Cons _ r below rest => Nat.max (if is_bridge r then S (depth below) else 0) (depth rest)
  end.

(** A second BAR of a bridge has 32 bits, unless it is the upper half of the first. *)
Definition bars_fit (r : regs) : Prop :=
  BAR_REG (word r BAR0_OFFSET) = BAR_64_BIT \/ BAR_REG (word r TYPE1_BAR_MAX_OFF) <> BAR_64_BIT.

(** Out of reset the bus numbers of a bridge are 0, and all 24 bits can be written. *)
Definition fresh (r : regs) : Prop :=
  type1 r = true -> word r BUS_NUM_REG_OFFSET = 0 /\ mask r BUS_NUM_REG_OFFSET = 0xFFFFFF /\ bars_fit r.

Fixpoint well (cur : Z) (t : fns) : Prop :=
  match t with
  | Nil => True
  | Cons s r below rest =>
      cur <= s < 256 /\ fresh r /\ (is_bridge r = true -> well 0 below) /\ well (s + 1) rest
  end.

(** Where a walk that numbers each bridge before what is below it and after what is
    below the bridges before it expects the functions. *)
Fixpoint places (bus sec : Z) (t : fns) : list (Z * Z * regs) :=
  match t with
  | Nil => []
  | Cons s r below rest =>
      (bus, s, r) ::
      if is_bridge r then places sec (sec + 1) below ++ places bus (sec + 1 + bridges below) rest
      else places bus sec rest
  end.

(** The offsets that enumeration writes. *)
Definition touched (o : Z) : bool := (o =? COMMAND_REG_OFFSET) || (BAR0_OFFSET <=? o).

Definition same (D : Z -> bool) (r r' : regs) : Prop :=
  masks r' = masks r /\ forall o, D o = false -> word r' o = word r o.

(** The three numbers of a bus number register. *)
Definition bus_numbers (sub sec p : Z) : Z := sub * 2 ^ 16 + sec * 2 ^ 8 + p.

(** The same tree with the buses numbered by that walk; [pri] is the primary bus in
    the register of the bridge at a bus and slot. *)
Inductive numbered (pri : Z -> Z -> Z) : Z -> Z -> fns -> fns -> Prop :=
| numbered_nil bus sec : numbered pri bus sec Nil Nil
| numbered_other bus sec s r r' below rest rest' :
    is_bridge r = false -> same touched r r' ->
    (type1 r = true -> word r' BUS_NUM_REG_OFFSET = 0) ->
    numbered pri bus sec rest rest' ->
    numbered pri bus sec (Cons s r below rest) (Cons s r' below rest')
| numbered_bridge bus sec s r r' below below' rest rest' :
    is_bridge r = true -> same touched r r' ->
    word r' BUS_NUM_REG_OFFSET = bus_numbers (sec + bridges below) sec (pri bus s) ->
    numbered pri sec (sec + 1) below below' ->
    numbered pri bus (sec + 1 + bridges below) rest rest' ->
    numbered pri bus sec (Cons s r below rest) (Cons s r' below' rest').

(** ** Registers: lemmas *)

Lemma put_same o v r : word (put o v r) o = u32 (after (mask r o) 0 (word r o) v).
Proof. unfold word, put. cbn [words]. by rewrite lookup_insert_eq. Qed.

Lemma put_other o v r o' : o <> o' -> word (put o v r) o' = word r o'.
Proof. intros. unfold word, put. cbn [words]. by rewrite lookup_insert_ne. Qed.

Lemma same_refl D r : same D r r.
Proof. done. Qed.

Lemma same_trans D r1 r2 r3 : same D r1 r2 -> same D r2 r3 -> same D r1 r3.
Proof. intros [M1 W1] [M2 W2]. split; [congruence|]. intros o Ho. by rewrite W2, W1. Qed.

Lemma same_weaken (D D' : Z -> bool) r r' :
  (forall o, D' o = false -> D o = false) -> same D r r' -> same D' r r'.
Proof. intros HD [M W]. split; eauto. Qed.

Lemma same_put (D : Z -> bool) o v r : D o = true -> same D r (put o v r).
Proof. intros Ho. split; [done|]. intros o' Ho'. apply put_other. congruence. Qed.

Lemma same_type1 D r r' : D HEADER_OFFSET = false -> same D r r' -> type1 r' = type1 r.
Proof. intros Hd [_ W]. unfold type1. by rewrite W. Qed.

Lemma same_bridge r r' : same touched r r' -> is_bridge r' = is_bridge r.
Proof. intros S. unfold is_bridge. rewrite (same_type1 touched r r') by done. destruct S as [_ W]. by rewrite !W. Qed.

Lemma BUS_NUM_REG_CFG_arith sub sec p :
  0 <= sub < 256 -> 0 <= sec < 256 -> 0 <= p < 256 -> BUS_NUM_REG_CFG sub sec p = bus_numbers sub sec p.
Proof.
  intros. unfold BUS_NUM_REG_CFG, bus_numbers.
  rewrite <- Z.lor_assoc, (lor_shiftl_add sec p), (lor_shiftl_add sub) by lia.
  rewrite u32_small; lia.
Qed.

Lemma bus_numbers_read r sub sec p :
  0 <= sub < 256 -> 0 <= sec < 256 -> 0 <= p < 256 -> word r BUS_NUM_REG_OFFSET = bus_numbers sub sec p ->
  secondary r = sec /\ subordinate r = sub.
Proof.
  intros ??? W. unfold secondary, subordinate. rewrite W, !land_255, !Z.shiftr_div_pow2 by lia.
  unfold bus_numbers. lia.
Qed.

(** A written bus number register holds what was written. *)
Lemma put_bus_numbers r v :
  mask r BUS_NUM_REG_OFFSET = 0xFFFFFF -> word r BUS_NUM_REG_OFFSET < 2 ^ 24 -> 0 <= v < 2 ^ 24 ->
  word (put BUS_NUM_REG_OFFSET v r) BUS_NUM_REG_OFFSET = v.
Proof.
  intros M W V. pose proof (u32_range (default 0 (words r !! BUS_NUM_REG_OFFSET))) as R.
  fold (word r BUS_NUM_REG_OFFSET) in R.
  rewrite put_same, M. unfold after. change 0xFFFFFF with (Z.ones 24).
  rewrite Z.land_ones, Z.mod_small by lia.
  replace (Z.land (word r BUS_NUM_REG_OFFSET) (Z.lnot (Z.ones 24))) with 0.
  - rewrite Z.land_0_l, Z.lor_0_r. apply u32_small. lia.
  - rewrite <- Z.ldiff_land, Z.ldiff_ones_r, Z.shiftr_div_pow2, Z.div_small by lia. by rewrite Z.shiftl_0_l.
Qed.

Lemma not_routed r b sub sec p :
  0 <= sub < b -> sub < 256 -> 0 <= sec < 256 -> 0 <= p < 256 ->
  word r BUS_NUM_REG_OFFSET = bus_numbers sub sec p -> routes r b = false.
Proof.
  intros ???? W. unfold routes. destruct (bus_numbers_read r sub sec p) as [_ ->]; [lia..|].
  rewrite (proj2 (Z.leb_gt b sub)) by lia. apply andb_false_r.
Qed.

Lemma not_routed_before r b sub sec p :
  b < sec < 256 -> 0 <= sub < 256 -> 0 <= sec -> 0 <= p < 256 ->
  word r BUS_NUM_REG_OFFSET = bus_numbers sub sec p -> routes r b = false.
Proof.
  intros ???? W. unfold routes. destruct (bus_numbers_read r sub sec p) as [-> _]; [lia..|].
  rewrite (proj2 (Z.leb_gt sec b)) by lia. by rewrite andb_false_r.
Qed.

Lemma not_routed_zero r b : (type1 r = true -> word r BUS_NUM_REG_OFFSET = 0) -> routes r b = false.
Proof.
  intros W. unfold routes. destruct (type1 r); [|done].
  by destruct (bus_numbers_read r 0 0 0) as [-> _]; [done..|apply W|].
Qed.

Lemma routed r b sub sec p :
  type1 r = true -> sec <= b <= sub -> sub < 256 -> 0 < sec -> 0 <= p < 256 ->
  word r BUS_NUM_REG_OFFSET = bus_numbers sub sec p -> routes r b = true.
Proof.
  intros T ???? W. unfold routes. destruct (bus_numbers_read r sub sec p) as [-> ->]; [lia..|].
  rewrite T. cbn [andb]. lia.
Qed.

(** ** Programs that work on one function *)

Section Tree.
Context (b : PCIE_INFO_BLOCK).
Local Abbreviation root := (start_bus_num b).
Local Abbreviation state := (enum_state fns).
Local Abbreviation P := (prog state).
#[local] Instance here_hw : Hardware fns := tree_hw b.

(** The enumeration is in progress, on this block of the table. *)
Definition ready (s : state) : Prop :=
  enumerate s <> 0 /\ at_index (block (info s)) (pcie_index s) = Some b.
Definition frame (s s' : state) : Prop :=
  info s' = info s /\ pcie_index s' = pcie_index s /\ enumerate s' = enumerate s.

Context (Hbase : 0 <= ecam_base b /\ ecam_base b + 2 ^ 28 <= 2 ^ 64).

Lemma frame_refl s : frame s s.
Proof. done. Qed.

Lemma frame_trans s1 s2 s3 : frame s1 s2 -> frame s2 s3 -> frame s1 s3.
Proof. intros (?&?&?) (?&?&?). repeat split; congruence. Qed.

Lemma frame_ready s s' : frame s s' -> ready s -> ready s'.
Proof. intros (E1&E2&E3) [R1 R2]. unfold ready. by rewrite E1, E2, E3. Qed.

Lemma cfg_address bus slot off :
  0 <= bus < 256 -> 0 <= slot < 256 -> 0 <= off < 4096 ->
  u64 (u64 (ecam_base b + bm_cfg_addr bus (slot / 8) (slot mod 8) + off))
  = ecam_base b + (bus * 2 ^ 20 + slot * 2 ^ 12 + off).
Proof.
  intros. unfold bm_cfg_addr, PCIE_MAX_DEV, PCIE_MAX_FUNC, PCIE_CFG_SIZE.
  rewrite (u32_small (_ + _)) by lia. rewrite (u64_small (_ + _)) by lia. rewrite u64_small by lia. lia.
Qed.

(** The word at a configuration address, whether the last two bits are masked or not. *)
Lemma ecam_word_cfg a d : a = ecam_base b + d -> d mod 4 = 0 -> ecam_word b a = d /\ ecam_word b (Z.land a (Z.lnot 0x3)) = d.
Proof. intros -> Hd. unfold ecam_word. rewrite mask_unaligned. split; lia. Qed.

Lemma cfg_address_fields bus slot off :
  0 <= slot < 256 -> 0 <= off < 4096 ->
  let d := bus * 2 ^ 20 + slot * 2 ^ 12 + off in
  d / 2 ^ 20 = bus /\ d / 2 ^ 12 mod 256 = slot /\ d mod 2 ^ 12 = off.
Proof. intros ? ? d. unfold d. lia. Qed.

Lemma info_block_done s : ready s -> info_block s = Done (b, s).
Proof. intros [_ R]. unfold info_block, gets, bind, deref. by rewrite R. Qed.

Lemma cfg_read_done s bus slot off :
  ready s -> 0 <= bus < 256 -> 0 <= slot < 256 -> 0 <= off < 4096 /\ off mod 4 = 0 ->
  pal_pci_cfg_read bus (slot / 8) (slot mod 8) off s =
    Done (match find root bus slot (bus_hw s) with Some r => word r off | None => 0xFFFFFFFF end, s).
Proof.
  intros R ???. unfold pal_pci_cfg_read. unfold gets at 1. erewrite bind_done by done.
  destruct R as [Re Rb]. rewrite (proj2 (Z.eqb_neq _ _) Re). erewrite bind_done by done.
  erewrite bind_done by (by apply info_block_done).
  unfold bm_mmio_read, on_bus_hw, bm_pal_mmio_read. cbn [hw_read here_hw tree_hw fst snd].
  destruct (ecam_word_cfg _ _ (cfg_address bus slot off ltac:(lia) ltac:(lia) ltac:(lia)) ltac:(lia)) as [-> _].
  destruct (cfg_address_fields bus slot off) as (->&->&->); [done|lia|].
  replace (set_bus_hw (bus_hw s) s) with s by (by destruct s).
  destruct (find root bus slot (bus_hw s)); [|done]. do 2 f_equal. unfold word. apply u32_idem.
Qed.

Lemma cfg_write_done s bus slot off v :
  ready s -> 0 <= bus < 256 -> 0 <= slot < 256 -> 0 <= off < 4096 /\ off mod 4 = 0 ->
  pal_pci_cfg_write bus (slot / 8) (slot mod 8) off v s =
    Done (tt, set_bus_hw (upd root bus slot (put off (u32 v)) (bus_hw s)) s).
Proof.
  intros R ???. unfold pal_pci_cfg_write. erewrite bind_done by (by apply info_block_done).
  unfold bm_mmio_write, on_bus_hw, bm_pal_mmio_write. cbn [hw_write here_hw tree_hw].
  destruct (ecam_word_cfg _ _ (cfg_address bus slot off ltac:(lia) ltac:(lia) ltac:(lia)) ltac:(lia)) as [Eu Em].
  destruct (cfg_address_fields bus slot off) as (E1&E2&E3); [done|lia|].
  case_match; rewrite ?Em, ?Eu, E1, E2, E3; done.
Qed.

(** [K] puts the registers of the function at a bus and slot into the tree. *)
Definition port (bus slot : Z) (K : regs -> fns) : Prop :=
  forall r, find root bus slot (K r) = Some r /\ forall f, upd root bus slot f (K r) = K (f r).

Section Function_.
Context (bus slot : Z) (Hbus : 0 <= bus < 256) (Hslot : 0 <= slot < 256).
Local Abbreviation rd off := (pal_pci_cfg_read bus (slot / 8) (slot mod 8) off).
Local Abbreviation wr off v := (pal_pci_cfg_write bus (slot / 8) (slot mod 8) off v).

(** The program returns, and changes this function only, at offsets of [D] only. *)
Definition does {A} (Pre : regs -> Prop) (D : Z -> bool) (m : P A) : Prop :=
  forall K s r, port bus slot K -> ready s -> bus_hw s = K r -> Pre r ->
  exists a s' r', m s = Done (a, s') /\ frame s s' /\ bus_hw s' = K r' /\ same D r r'.
Local Abbreviation any := (fun _ => True).

Lemma port_read K s r off :
  port bus slot K -> ready s -> bus_hw s = K r -> 0 <= off < 4096 /\ off mod 4 = 0 -> rd off s = Done (word r off, s).
Proof. intros HK R E ?. rewrite cfg_read_done, E by done. by rewrite (proj1 (HK r)). Qed.

Lemma port_write K s r off v :
  port bus slot K -> ready s -> bus_hw s = K r -> 0 <= off < 4096 /\ off mod 4 = 0 ->
  wr off v s = Done (tt, set_bus_hw (K (put off (u32 v) r)) s).
Proof. intros HK R E ?. rewrite cfg_write_done, E by done. by rewrite (proj2 (HK r)). Qed.

Lemma does_ret {A} Pre D (a : A) : does Pre D (ret a).
Proof. intros K s r _ _ E _. by exists a, s, r. Qed.

Lemma does_gets {A} Pre D (f : state -> A) : does Pre D (gets f).
Proof. intros K s r _ _ E _. by exists (f s), s, r. Qed.

Lemma does_modify Pre D f :
  (forall s, frame s (f s) /\ bus_hw (f s) = bus_hw s) -> does Pre D (modify f).
Proof. intros F K s r _ _ E _. destruct (F s) as [? Eh]. exists tt, (f s), r. rewrite Eh. done. Qed.

Lemma does_read Pre D off : 0 <= off < 4096 /\ off mod 4 = 0 -> does Pre D (rd off).
Proof. intros Ho K s r HK R E _. exists (word r off), s, r. by rewrite (port_read K s r). Qed.

Lemma does_write Pre (D : Z -> bool) off v : 0 <= off < 4096 /\ off mod 4 = 0 -> D off = true -> does Pre D (wr off v).
Proof.
  intros Ho HD K s r HK R E _. exists tt, (set_bus_hw (K (put off (u32 v) r)) s), (put off (u32 v) r).
  rewrite (port_write K s r) by done. repeat split. by apply same_put.
Qed.

(** What a first program leaves alone is known to the second. *)
Lemma does_bind {A B} (Pre Q : regs -> Prop) (D1 D2 D : Z -> bool) (m : P A) (k : A -> P B) :
  does Pre D1 m -> (forall a, does Q D2 (k a)) ->
  (forall r r', Pre r -> same D1 r r' -> Q r') ->
  (forall o, D o = false -> D1 o = false /\ D2 o = false) -> does Pre D (bind m k).
Proof.
  intros Hm Hk HQ HD K s r HK R E Hp. destruct (Hm K s r HK R E Hp) as (a&s1&r1&E1&F1&H1&S1).
  destruct (Hk a K s1 r1 HK) as (c&s2&r2&E2&F2&H2&S2); [by eapply frame_ready|done|by eapply HQ|].
  exists c, s2, r2. rewrite (bind_done _ _ _ _ _ E1). split_and!; [done|by eapply frame_trans|done|].
  eapply same_trans; [eapply same_weaken, S1|eapply same_weaken, S2]; intros o Ho; by apply HD.
Qed.

Lemma does_seq {A B} (D : Z -> bool) (m : P A) (k : A -> P B) :
  does any D m -> (forall a, does any D (k a)) -> does any D (bind m k).
Proof. intros Hm Hk. eapply (does_bind any any D D D); eauto. Qed.

Lemma does_read_bind {B} (Pre : regs -> Prop) D off (k : Z -> P B) :
  0 <= off < 4096 /\ off mod 4 = 0 -> (forall v, does (fun r => Pre r /\ word r off = v) D (k v)) ->
  does Pre D (bind (rd off) k).
Proof.
  intros Ho Hk K s r HK R E Hp. rewrite (bind_done _ _ _ _ _ (port_read K s r off HK R E Ho)).
  by apply (Hk (word r off) K s r).
Qed.

Lemma does_weaken {A} (Pre Q : regs -> Prop) (D D' : Z -> bool) (m : P A) :
  (forall r, Pre r -> Q r) -> (forall o, D' o = false -> D o = false) -> does Q D m -> does Pre D' m.
Proof.
  intros HP HD Hm K s r HK R E Hp. destruct (Hm K s r HK R E (HP r Hp)) as (a&s1&r1&E1&F1&H1&S1).
  exists a, s1, r1. split_and!; eauto using same_weaken.
Qed.

Lemma does_when D c m : does any D m -> does any D (when c m).
Proof. intros Hm. destruct c; [exact Hm|apply does_ret]. Qed.

Ltac offsets := unfold BAR0_OFFSET, TYPE0_BAR_MAX_OFF, TYPE1_BAR_MAX_OFF, NON_PRE_FET_OFFSET, PRE_FET_OFFSET in *; lia.
Ltac straight :=
  repeat first
    [ apply does_ret | apply does_gets | apply does_read; offsets | apply does_write; first [done|offsets]
    | apply does_modify; intros; by split | apply does_when | apply does_seq; [|intros] | case_match ].

Definition window_offs (o : Z) : bool := 0x20 <=? o.
Definition bar_offs (o : Z) : bool := BAR0_OFFSET <=? o.

Lemma window32_does (get : state -> pool) put off base limit :
  (forall q s, frame s (put q s) /\ bus_hw (put q s) = bus_hw s) -> 0x20 <= off < 4096 /\ off mod 4 = 0 ->
  does any window_offs (window32 bus (slot / 8) (slot mod 8) get put off base limit).
Proof.
  intros Hput Ho. unfold window32, window_offs. apply does_seq; [apply does_gets|intros q].
  case_match; [apply does_ret|].
  apply does_seq; [apply does_when, does_modify; intros; apply Hput|intros _]. straight.
Qed.

Lemma resource_32_does p_base np_base p_limit np_limit :
  does any window_offs (get_resource_base_32 bus (slot / 8) (slot mod 8) p_base np_base p_limit np_limit).
Proof. unfold get_resource_base_32. apply does_seq; intros; apply window32_does; done. Qed.

Lemma resource_64_does p_base p_max :
  does any window_offs (get_resource_base_64 bus (slot / 8) (slot mod 8) p_base p_max).
Proof. unfold get_resource_base_64, window_offs. straight. Qed.

Lemma probe32_does D off : 0 <= off < 4096 /\ off mod 4 = 0 -> D off = true -> does any D (probe32 bus (slot / 8) (slot mod 8) off).
Proof. intros. unfold probe32. straight. Qed.

Lemma probe64_does D off :
  0 <= off < 4092 /\ off mod 4 = 0 -> D off = true -> D (off + 4) = true -> does any D (probe64 bus (slot / 8) (slot mod 8) off).
Proof. intros. unfold probe64. straight. Qed.

Lemma ep_bars_does fuel off n p p64 :
  0x10 <= off < 0x100 /\ off mod 4 = 0 -> 0x28 <= off + 4 * Z.of_nat fuel ->
  does any bar_offs (ep_bars bus (slot / 8) (slot mod 8) fuel off n p p64).
Proof.
  revert off n p p64. induction fuel as [|k IH]; intros off n p p64 Ho Hf; cbn [ep_bars].
  - rewrite (proj2 (Z.ltb_lt _ _)) by offsets. apply does_ret.
  - destruct (Z.ltb_spec TYPE0_BAR_MAX_OFF off) as [|Hm]; [apply does_ret|].
    assert (forall o, off + 4 <= o <= off + 8 /\ o mod 4 = 0 -> forall n p p64,
      does any bar_offs (ep_bars bus (slot / 8) (slot mod 8) k o n p p64)) as IH'
      by (intros; apply IH; offsets).
    assert (bar_offs off = true) by (unfold bar_offs; offsets).
    assert (bar_offs (off + 4) = true) by (unfold bar_offs; offsets).
    repeat first [ apply probe32_does; [offsets|done] | apply probe64_does; [offsets|done..]
                 | apply IH'; case_match; lia | apply IH'; lia | progress straight ].
Qed.

Lemma program_bar_does : does any bar_offs (pal_pcie_program_bar_reg bus (slot / 8) (slot mod 8)).
Proof. unfold pal_pcie_program_bar_reg. apply does_seq; [by apply ep_bars_does|intros]. straight. Qed.

Definition rp_offs (o : Z) : bool := (o =? BAR0_OFFSET) || (o =? TYPE1_BAR_MAX_OFF).

(** The 32-bit case of [rp_bars] without what follows it. *)
Lemma rp_bar32_does {A} off (Pre : regs -> Prop) (D : Z -> bool) (m : P A) :
  0 <= off < 4096 /\ off mod 4 = 0 -> does Pre D m -> D off = true ->
  (forall r r', Pre r -> same (Z.eqb off) r r' -> Pre r') ->
  does Pre D (bind (probe32 bus (slot / 8) (slot mod 8) off) (fun r =>
    if r.2 =? 0 then m else
    let* base := gets g_rp_bar32_value in
    wr off base ;;; modify (set_rp32 (u32 (base + r.2))) ;;; m)).
Proof.
  intros Ho Hm HD Hst.
  assert (forall o, D o = false -> (off =? o) = false /\ D o = false) as HD1.
  { intros o Eo. split; [|done]. destruct (Z.eqb_spec off o); congruence. }
  eapply (does_bind Pre Pre (Z.eqb off) D D); [|intros v|exact Hst|exact HD1].
  - apply (does_weaken _ any (Z.eqb off)); [done..|]. apply probe32_does; lia.
  - destruct (v.2 =? 0); [done|].
    eapply (does_bind Pre Pre (Z.eqb off) D D); [apply does_gets|intros base|exact Hst|exact HD1].
    eapply (does_bind Pre Pre (Z.eqb off) D D); [apply does_write; lia|intros _|exact Hst|exact HD1].
    eapply (does_bind Pre Pre (Z.eqb off) D D); [|intros _; exact Hm|exact Hst|exact HD1].
    by apply does_modify.
Qed.

Lemma rp_program_bar_does : does bars_fit rp_offs (pal_pcie_rp_program_bar bus (slot / 8) (slot mod 8)).
Proof.
  unfold pal_pcie_rp_program_bar. cbn [rp_bars]. change (TYPE1_BAR_MAX_OFF <? BAR0_OFFSET) with false. cbv iota.
  apply does_read_bind; [done|]. intros v. destruct (Z.eqb_spec (BAR_REG v) BAR_64_BIT) as [E64|N64].
  - apply (does_weaken _ any rp_offs); [done..|].
    apply does_seq; [by apply probe64_does|intros size]. straight.
  - change (TYPE1_BAR_MAX_OFF <? BAR0_OFFSET + 4) with false. cbv iota.
    apply (does_weaken _ (fun r => BAR_REG (word r TYPE1_BAR_MAX_OFF) <> BAR_64_BIT) rp_offs); [|done|].
    { intros r [[F|F] <-]; [done|exact F]. }
    apply rp_bar32_does; [done| |done|].
    + apply does_read_bind; [done|]. intros w. destruct (Z.eqb_spec (BAR_REG w) BAR_64_BIT) as [W|W].
      * intros K s r _ _ _ [F Ew]. by rewrite <- Ew in W.
      * apply (does_weaken _ any rp_offs); [done..|].
        apply rp_bar32_does; [done| |done|done]. straight.
    + intros r r' F [_ S]. by rewrite S.
Qed.

(** ** One function of a bus *)

Lemma open_bridge_done K s r sec :
  port bus slot K -> ready s -> bus_hw s = K r -> type1 r = true -> fresh r -> 0 <= sec < 256 ->
  exists s' r', open_bridge bus (slot / 8) (slot mod 8) sec s = Done (tt, s') /\ frame s s' /\
    bus_hw s' = K r' /\ same (fun o => (o =? COMMAND_REG_OFFSET) || (o =? BUS_NUM_REG_OFFSET) || window_offs o) r r' /\
    word r' BUS_NUM_REG_OFFSET = bus_numbers 255 sec bus.
Proof.
  intros HK R E T F Hs. destruct (F T) as (W0 & M & _). unfold open_bridge.
  rewrite (bind_done _ _ _ _ _ (port_read K s r COMMAND_REG_OFFSET HK R E ltac:(done))).
  rewrite (bind_done _ _ _ _ _ (port_write K s r COMMAND_REG_OFFSET _ HK R E ltac:(done))).
  set (r1 := put COMMAND_REG_OFFSET _ r). set (s1 := set_bus_hw _ s).
  assert (R1 : ready s1) by done. assert (E1 : bus_hw s1 = K r1) by done.
  rewrite (bind_done _ _ _ _ _ (port_write K s1 r1 BUS_NUM_REG_OFFSET _ HK R1 E1 ltac:(done))).
  rewrite BUS_NUM_REG_CFG_arith, (u32_small (bus_numbers _ _ _)) by (unfold bus_numbers; lia).
  set (r2 := put BUS_NUM_REG_OFFSET _ r1). set (s2 := set_bus_hw _ s1).
  assert (R2 : ready s2) by done. assert (E2 : bus_hw s2 = K r2) by done.
  assert (W2 : word r2 BUS_NUM_REG_OFFSET = bus_numbers 255 sec bus).
  { apply put_bus_numbers; [exact M| |unfold bus_numbers; lia]. unfold r1. rewrite put_other, W0 by done. done. }
  erewrite bind_done by done.
  rewrite (bind_done _ _ _ _ _ (port_write K s2 r2 NON_PRE_FET_OFFSET _ HK R2 E2 ltac:(done))).
  set (r3 := put NON_PRE_FET_OFFSET _ r2). set (s3 := set_bus_hw _ s2).
  assert (R3 : ready s3) by done. assert (E3 : bus_hw s3 = K r3) by done.
  erewrite bind_done by done.
  rewrite (port_write K s3 r3 PRE_FET_OFFSET _ HK R3 E3 ltac:(done)).
  eexists _, _. split_and!; [done|done|done| |by unfold r3; rewrite !put_other].
  split; [done|]. intros o Ho. unfold r3, r2, r1. rewrite !put_other; [done|..]; intros <-; by vm_compute in Ho.
Qed.

Lemma close_bridge_done K s r sub l :
  port bus slot K -> ready s -> bus_hw s = K r -> mask r BUS_NUM_REG_OFFSET = 0xFFFFFF ->
  word r BUS_NUM_REG_OFFSET < 2 ^ 24 -> bars_fit r -> 0 <= sub < 256 -> 0 <= sec_bus l < 256 ->
  exists l' s' r', close_bridge bus (slot / 8) (slot mod 8) sub l s = Done (l', s') /\ frame s s' /\
    bus_hw s' = K r' /\ same bar_offs r r' /\ sub_bus l' = sub /\ sec_bus l' = sub + 1 /\
    word r' BUS_NUM_REG_OFFSET = bus_numbers sub (sec_bus l) bus.
Proof.
  intros HK R E M W F Hsub Hsec. unfold close_bridge.
  rewrite (bind_done _ _ _ _ _ (port_write K s r BUS_NUM_REG_OFFSET _ HK R E ltac:(done))).
  rewrite BUS_NUM_REG_CFG_arith, (u32_small (bus_numbers _ _ _)) by (unfold bus_numbers; lia).
  set (r1 := put BUS_NUM_REG_OFFSET _ r). set (s1 := set_bus_hw _ s).
  assert (W1 : word r1 BUS_NUM_REG_OFFSET = bus_numbers sub (sec_bus l) bus)
    by (apply put_bus_numbers; [done|done|unfold bus_numbers; lia]).
  do 2 erewrite bind_done by done.
  destruct (resource_32_does (p_base l) (np_base l) (pool_max (pre s1)) (pool_max (np s1)) K s1 r1)
    as (? & s2 & r2 & E2 & F2 & H2 & S2); [done..|]. rewrite (bind_done _ _ _ _ _ E2). clear E2.
  erewrite bind_done by done.
  destruct (resource_64_does (p64_base l) (pool_max (pre64 s2)) K s2 r2)
    as (? & s3 & r3 & E3 & F3 & H3 & S3); [done|by eapply frame_ready|done..|]. rewrite (bind_done _ _ _ _ _ E3). clear E3.
  pose proof (same_trans _ _ _ _ S2 S3) as [M3 W3].
  destruct (rp_program_bar_does K s3 r3) as (? & s4 & r4 & E4 & F4 & H4 & [M4 W4]);
    [done|by eapply frame_ready, frame_ready|done| |].
  { unfold bars_fit. rewrite !W3 by done. unfold r1. by rewrite !put_other. }
  rewrite (bind_done _ _ _ _ _ E4). clear E4. do 3 erewrite bind_done by done.
  eexists _, s4, r4. split_and!; [done| |done| |done|cbn; apply u32_small; lia|].
  - by eapply (frame_trans _ s1), (frame_trans _ s2), (frame_trans _ s3).
  - split; [by rewrite M4, M3|]. intros o Ho. unfold bar_offs in Ho.
    rewrite W4, W3 by (unfold rp_offs, window_offs; offsets). unfold r1. apply put_other. intros <-. done.
  - by rewrite W4, W3 by done.
Qed.

(** A function that is not a bridge: an endpoint has its BARs programmed. *)
Lemma function_other rec K s r l :
  port bus slot K -> ready s -> bus_hw s = K r -> is_bridge r = false ->
  1 <= sec_bus l <= 256 -> sub_bus l = sec_bus l - 1 ->
  exists l' s' r', enum_function rec bus slot l s = Done (l', s') /\ frame s s' /\ bus_hw s' = K r' /\
    same touched r r' /\ (type1 r = true -> r' = r) /\ sec_bus l' = sec_bus l /\ sub_bus l' = sec_bus l - 1.
Proof.
  intros HK R E B Hl Hs. unfold enum_function. unfold is_bridge in B.
  change PCIE_MAX_FUNC with 8.
  rewrite (bind_done _ _ _ _ _ (port_read K s r 0 HK R E ltac:(done))).
  destruct (no_function (word r 0)); [by exists l, s, r|].
  rewrite (bind_done _ _ _ _ _ (port_read K s r TYPE01_RIDR HK R E ltac:(done))).
  destruct (host_bridge (word r TYPE01_RIDR)); [by exists l, s, r|].
  rewrite (bind_done _ _ _ _ _ (port_read K s r HEADER_OFFSET HK R E ltac:(done))).
  cbn [negb andb] in B. fold (type1 r). rewrite B.
  destruct (PCIE_HEADER_TYPE (word r HEADER_OFFSET) =? TYPE0_HEADER); [|by exists l, s, r].
  destruct (program_bar_does K s r HK R E I) as (u & s1 & r1 & E1 & F1 & H1 & S1).
  rewrite (bind_done _ _ _ _ _ E1). eexists _, s1, r1. split_and!; [done..| |done|done|].
  - eapply same_weaken, S1. intros o. unfold touched, bar_offs. lia.
  - cbn. apply u32_small. lia.
Qed.

(** A bridge, given what the walk below it does once the bridge routes to it. *)
Lemma function_bridge rec (K : regs -> fns -> fns) s r l below sub (Q : fns -> Prop) :
  (forall y, port bus slot (fun r => K r y)) -> ready s -> bus_hw s = K r below -> is_bridge r = true -> fresh r ->
  0 <= sec_bus l < 256 -> 0 <= sub < 256 ->
  (forall s1 r1, ready s1 -> bus_hw s1 = K r1 below -> type1 r1 = true ->
    word r1 BUS_NUM_REG_OFFSET = bus_numbers 255 (sec_bus l) bus ->
    exists s2 below', rec (sec_bus l) (sec_bus l + 1) s1 = Done (sub, s2) /\ frame s1 s2 /\
      bus_hw s2 = K r1 below' /\ Q below') ->
  exists l' s' r' below', enum_function rec bus slot l s = Done (l', s') /\ frame s s' /\
    bus_hw s' = K r' below' /\ same touched r r' /\ Q below' /\ sub_bus l' = sub /\ sec_bus l' = sub + 1 /\
    word r' BUS_NUM_REG_OFFSET = bus_numbers sub (sec_bus l) bus.
Proof.
  intros HK R E B F Hl Hsub Hrec. unfold is_bridge in B. apply andb_true_iff in B as [B T].
  apply andb_true_iff in B as [Bv Bh]. apply negb_true_iff in Bv, Bh. destruct (F T) as (_ & M & Hb).
  pose proof (fun off => port_read (fun r => K r below) s r off (HK below) R E) as Rd.
  unfold enum_function. change PCIE_MAX_FUNC with 8.
  rewrite (bind_done _ _ _ _ _ (Rd 0 ltac:(done))), Bv.
  rewrite (bind_done _ _ _ _ _ (Rd TYPE01_RIDR ltac:(done))), Bh.
  rewrite (bind_done _ _ _ _ _ (Rd HEADER_OFFSET ltac:(done))). fold (type1 r). rewrite T. unfold enum_bridge.
  destruct (open_bridge_done (fun r => K r below) s r (sec_bus l)) as (s1 & r1 & E1 & F1 & H1 & S1 & W1); [done..|].
  rewrite (bind_done _ _ _ _ _ E1), (u32_small (sec_bus l + 1)) by lia.
  destruct (Hrec s1 r1) as (s2 & below' & E2 & F2 & H2 & HQ); [by eapply frame_ready|done| |done|].
  { eapply eq_trans, T. by eapply same_type1, S1. }
  rewrite (bind_done _ _ _ _ _ E2). destruct S1 as [M1 S1].
  destruct (close_bridge_done (fun r => K r below') s2 r1 sub l) as (l' & s3 & r3 & E3 & F3 & H3 & S3 & L1 & L2 & W3).
  - done.
  - by eapply frame_ready, frame_ready.
  - done.
  - unfold mask. by rewrite M1.
  - rewrite W1. unfold bus_numbers. lia.
  - unfold bars_fit. by rewrite !S1.
  - done.
  - done.
  - exists l', s3, r3, below'. split_and!; [done| |done| |done..].
    + by eapply (frame_trans _ s1), (frame_trans _ s2).
    + eapply same_trans; [split; [exact M1|]|eapply same_weaken, S3]; intros o Ho.
      * apply S1. unfold touched, window_offs, COMMAND_REG_OFFSET, BAR0_OFFSET, BUS_NUM_REG_OFFSET in *. lia.
      * unfold touched, bar_offs in *. lia.
Qed.
End Function_.

(** ** A bus *)

(** [C] puts the rest of a bus, from slot [cur] on, into the tree: accesses to that
    bus from that slot on and to the buses from [sec] on are decided there. *)
Definition focus (C : fns -> fns) (bus cur sec : Z) : Prop :=
  forall c sl x, c = bus /\ cur <= sl \/ sec <= c < 256 ->
    find root c sl (C x) = find bus c sl x /\ forall f, upd root c sl f (C x) = C (upd bus c sl f x).

Lemma focus_root : focus (fun x => x) root 0 (root + 1).
Proof. done. Qed.

Lemma focus_skip C bus cur sec : focus C bus cur sec -> focus C bus (cur + 1) sec.
Proof. intros HC c sl x Hx. apply HC. lia. Qed.

Lemma focus_port C bus cur sec s below rest :
  focus C bus cur sec -> cur <= s -> port bus s (fun r => C (Cons s r below rest)).
Proof.
  intros HC Hs r. destruct (HC bus s (Cons s r below rest)) as [Hf Hu]; [lia|].
  split; [rewrite Hf|intros f; rewrite Hu]; cbn [find upd]; by rewrite !Z.eqb_refl.
Qed.

Lemma focus_rest C bus cur sec s r below sec' :
  focus C bus cur sec -> cur <= s -> bus < sec -> sec <= sec' -> (forall c, sec' <= c < 256 -> routes r c = false) ->
  focus (fun y => C (Cons s r below y)) bus (s + 1) sec'.
Proof.
  intros HC Hs Hb Hsec Hr c sl x Hx. destruct (HC c sl (Cons s r below x)) as [Hf Hu]; [lia|].
  split; [rewrite Hf|intros f; rewrite Hu]; cbn [find upd].
  all: destruct (Z.eqb_spec c bus); [rewrite (proj2 (Z.eqb_neq s sl)) by lia; done|by rewrite Hr by lia].
Qed.

Lemma focus_below C bus cur sec s r rest p :
  focus C bus cur sec -> cur <= s -> bus < sec -> 0 < sec < 256 -> 0 <= p < 256 -> type1 r = true ->
  word r BUS_NUM_REG_OFFSET = bus_numbers 255 sec p ->
  focus (fun y => C (Cons s r y rest)) sec 0 (sec + 1).
Proof.
  intros HC Hs Hb Hsec Hp T W c sl x Hx. destruct (HC c sl (Cons s r x rest)) as [Hf Hu]; [lia|].
  destruct (bus_numbers_read r 255 sec p) as [Es _]; [lia..|done|].
  split; [rewrite Hf|intros f; rewrite Hu]; cbn [find upd].
  all: rewrite (proj2 (Z.eqb_neq c bus)), (routed r c 255 sec p) by (done || lia); by rewrite Es.
Qed.

Context (Hend : end_bus_num b <= 255).
Local Abbreviation own := (fun bus _ => bus).

Lemma bridges_nonneg x : 0 <= bridges x.
Proof. induction x as [|? r]; cbn [bridges]; [lia|]. destruct (is_bridge r); lia. Qed.

Lemma bridge_type1 r : is_bridge r = true -> type1 r = true.
Proof. intros B. by apply andb_true_iff in B as [_ T]. Qed.

Lemma well_later cur s x : cur <= s -> well s x -> well cur x.
Proof. destruct x; [done|]. cbn [well]. intros. intuition lia. Qed.

(** What the recursive call promises. *)
Definition numbers (k : nat) : Prop := forall C x bus s,
  focus C bus 0 (bus + 1) -> well 0 x -> (depth x < k)%nat -> 0 <= bus -> bus + bridges x <= end_bus_num b ->
  bus_hw s = C x -> ready s ->
  exists s' x', pal_pcie_enumerate_device k bus (bus + 1) s = Done (bus + bridges x, s') /\ frame s s' /\
    bus_hw s' = C x' /\ numbered own bus (bus + 1) x x'.

(** A slot with no function. *)
Lemma function_absent rec bus slot l s :
  ready s -> 0 <= bus < 256 -> 0 <= slot < 256 -> find root bus slot (bus_hw s) = None ->
  enum_function rec bus slot l s = Done (l, s).
Proof.
  intros R ?? E. unfold enum_function. change PCIE_MAX_FUNC with 8.
  erewrite bind_done by (by apply cfg_read_done). by rewrite E.
Qed.

Lemma find_later bus slot x : well (slot + 1) x -> find bus bus slot x = None.
Proof.
  enough (forall cur, slot < cur -> well cur x -> find bus bus slot x = None) as G by (apply G; lia).
  induction x as [|s r below _ rest IH]; [done|]. cbn [well find]. intros cur Hc (Hs & _ & _ & Hr).
  rewrite Z.eqb_refl, (proj2 (Z.eqb_neq s slot)) by lia. apply (IH (s + 1)); [lia|done].
Qed.

Section Walk.
Context (k : nat) (IHk : numbers k).
Local Abbreviation rec := (pal_pcie_enumerate_device k).

(** What is left of a bus when the walk has reached a slot. *)
Record left_at (C : fns -> fns) (bus cur : Z) (x : fns) (l : locals) (s : state) : Prop := {
  left_focus : focus C bus cur (sec_bus l);
  left_well : well cur x;
  left_depth : (depth x <= k)%nat;
  left_bus : 0 <= bus < sec_bus l;
  left_fits : sec_bus l + bridges x <= end_bus_num b + 1;
  left_sub : sub_bus l = sec_bus l - 1;
  left_hw : bus_hw s = C x;
  left_ready : ready s }.

(** One slot: a function of it is numbered, and the rest of the bus is left. *)
Lemma slot_step C bus slot x l s :
  left_at C bus slot x l s -> 0 <= slot < 256 ->
  exists l' s' C' y, enum_function rec bus slot l s = Done (l', s') /\ frame s s' /\ left_at C' bus (slot + 1) y l' s' /\
    sec_bus l' + bridges y = sec_bus l + bridges x /\
    forall y', numbered own bus (sec_bus l') y y' -> exists x', C' y' = C x' /\ numbered own bus (sec_bus l) x x'.
Proof.
  intros [HC Hw Hd Hb Hfit Hsub E R] Hslot. pose proof (bridges_nonneg x).
  destruct x as [|s0 r below rest]; [|destruct (decide (s0 = slot)) as [->|Hne]].
  1: exists l, s, C, Nil. 3: exists l, s, C, (Cons s0 r below rest).
  1,3: cbn [well] in Hw; split_and!; [|done| |done|intros y' N; by exists y'];
    [ apply function_absent; [done|lia..|]; rewrite E; rewrite (proj1 (HC bus slot _ ltac:(lia)));
      apply find_later; cbn [well]; intuition lia
    | split; [by apply focus_skip|cbn [well]; intuition lia|done..] ].
  cbn [well] in Hw. destruct Hw as (_ & F & Hbelow & Hrest). cbn [bridges depth] in *.
  pose proof (bridges_nonneg below). pose proof (bridges_nonneg rest).
  pose proof (fun y => focus_port C bus slot (sec_bus l) slot y rest HC ltac:(lia)) as HK.
  destruct (is_bridge r) eqn:B.
  - destruct (function_bridge bus slot ltac:(lia) Hslot rec (fun r y => C (Cons slot r y rest)) s r l below (sec_bus l + bridges below)
      (numbered own (sec_bus l) (sec_bus l + 1) below))
      as (l' & s' & r' & below' & E' & F' & H' & S' & N' & L1 & L2 & W'); [done..|lia|lia| |].
    { intros s1 r1 R1 E1 T1 W1. apply IHk; [|by apply Hbelow|lia..|done|done].
      apply (focus_below C bus slot (sec_bus l) slot r1 rest bus); [done|lia|lia|lia|lia|done|exact W1]. }
    exists l', s', (fun y => C (Cons slot r' below' y)), rest. split_and!; [done|done| |lia|].
    + split; [|done|lia|lia|lia|lia|done|by eapply frame_ready]. eapply focus_rest; [done|lia|lia|lia|].
      intros c Hc. eapply (not_routed r' c _ (sec_bus l)); [..|exact W']; lia.
    + intros y' Hy. exists (Cons slot r' below' y'). split; [done|].
      apply numbered_bridge; [done..|]. by replace (sec_bus l + 1 + bridges below) with (sec_bus l') by lia.
  - destruct (function_other bus slot ltac:(lia) Hslot rec (fun r => C (Cons slot r below rest)) s r l)
      as (l' & s' & r' & E' & F' & H' & S' & T' & L1 & L2); [done..|lia|lia|].
    assert (type1 r = true -> word r' BUS_NUM_REG_OFFSET = 0) as Z' by (intros T; rewrite (T' T); by apply F).
    exists l', s', (fun y => C (Cons slot r' below y)), rest. split_and!; [done|done| |lia|].
    + split; [|done|lia|lia|lia|lia|done|by eapply frame_ready]. rewrite L1. eapply focus_rest; [done|lia..|].
      intros c Hc. apply not_routed_zero. by rewrite (same_type1 touched r r') by done.
    + intros y' Hy. exists (Cons slot r' below y'). split; [done|]. apply numbered_other; [done..|]. by rewrite <- L1.
Qed.

Lemma slots_number bus n : forall cur C x l s,
  left_at C bus cur x l s -> 0 <= cur -> cur + Z.of_nat n = 256 ->
  exists l' s' x', enum_slots rec bus n cur l s = Done (l', s') /\ frame s s' /\ bus_hw s' = C x' /\
    numbered own bus (sec_bus l) x x' /\ sub_bus l' = sec_bus l - 1 + bridges x.
Proof.
  induction n as [|n IHn]; intros cur C x l s L Hc Hn; cbn [enum_slots].
  - destruct L. destruct x as [|s0]; [|cbn [well] in *; lia].
    exists l, s, Nil. split_and!; [done..|constructor|cbn [bridges]; lia].
  - destruct (slot_step C bus cur x l s) as (l1 & s1 & C1 & y & E1 & F1 & L1 & B1 & N1); [done|lia|].
    rewrite (bind_done _ _ _ _ _ E1).
    destruct (IHn (cur + 1) C1 y l1 s1) as (l2 & s2 & y' & E2 & F2 & H2 & N2 & B2); [done|lia..|].
    destruct (N1 y' N2) as (x' & Ex & Nx). exists l2, s2, x'.
    split_and!; [done|by eapply frame_trans|by rewrite H2|done|lia].
Qed.
End Walk.

Lemma device_numbers k : numbers k.
Proof.
  induction k as [|k IHk]; intros C x bus s HC Hw Hd Hb Hfit E R; [lia|].
  pose proof (bridges_nonneg x). cbn [pal_pcie_enumerate_device].
  erewrite bind_done by (by apply info_block_done).
  rewrite (u32_small (end_bus_num b + 1)), (proj2 (Z.eqb_neq bus (end_bus_num b + 1))) by lia.
  do 3 erewrite bind_done by done. change (Z.to_nat (PCIE_MAX_DEV * PCIE_MAX_FUNC)) with 256%nat.
  set (l := mk_locals _ _ _ _ _).
  destruct (slots_number k IHk bus 256 0 C x l s) as (l' & s' & x' & E' & F' & H' & N' & B'); [|lia..|].
  { split; unfold l; cbn [sec_bus sub_bus]; done || lia. }
  rewrite (bind_done _ _ _ _ _ E'). exists s', x'. cbn [sec_bus l] in *. split_and!; [|done..].
  unfold ret. do 2 f_equal. lia.
Qed.

(** ** A numbered tree *)

Definition bus_sized (pri : Z -> Z -> Z) : Prop := forall c sl, 0 <= pri c sl < 256.

Lemma places_range bus sec cur x c sl r :
  well cur x -> 0 <= cur -> (c, sl, r) ∈ places bus sec x ->
  (c = bus /\ cur <= sl < 256) \/ (sec <= c < sec + bridges x /\ 0 <= sl < 256).
Proof.
  revert bus sec cur. induction x as [|s r0 below IHb rest IHr]; cbn [well places bridges]; intros bus sec cur.
  { by intros _ _ ?%not_elem_of_nil. }
  intros (Hs & _ & Hb & Hr) Hc [E|Hin]%elem_of_cons; [simplify_eq; lia|].
  pose proof (bridges_nonneg below). destruct (is_bridge r0).
  - apply elem_of_app in Hin as [Hin|Hin].
    + specialize (IHb sec (sec + 1) 0 (Hb eq_refl) ltac:(lia) Hin). pose proof (bridges_nonneg rest). lia.
    + specialize (IHr bus _ (s + 1) Hr ltac:(lia) Hin). lia.
  - specialize (IHr bus sec (s + 1) Hr ltac:(lia) Hin). lia.
Qed.

(** How a bridge of a numbered tree routes. *)
Lemma numbered_routes r r' below sec p c :
  is_bridge r = true -> same touched r r' -> 0 < sec -> sec + bridges below < 256 -> 0 <= p < 256 ->
  word r' BUS_NUM_REG_OFFSET = bus_numbers (sec + bridges below) sec p ->
  secondary r' = sec /\ routes r' c = bool_decide (sec <= c <= sec + bridges below).
Proof.
  intros B S Hs Hf Hp W. pose proof (bridges_nonneg below).
  split; [eapply (bus_numbers_read r'), W; lia|].
  case_bool_decide.
  - eapply (routed r' c), W; [|lia..]. rewrite (same_type1 touched r r') by done. by apply bridge_type1.
  - destruct (decide (c < sec)); [eapply (not_routed_before r' c), W; lia|eapply (not_routed r' c), W; lia].
Qed.

(** The function of each place answers there. *)
Lemma numbered_found pri bus sec x x' : numbered pri bus sec x x' -> bus_sized pri ->
  forall cur c sl r, well cur x -> 0 <= cur -> 0 <= bus < sec -> sec + bridges x <= 256 ->
  (c, sl, r) ∈ places bus sec x -> exists r', find bus c sl x' = Some r' /\ same touched r r'.
Proof.
  intros N Hp. induction N as [bus sec|bus sec s r0 r' below rest rest' B S T N IH
    |bus sec s r0 r' below below' rest rest' B S W N1 IH1 N2 IH2]; intros cur c sl r Hw Hc Hb Hf Hin.
  - by apply not_elem_of_nil in Hin.
  - cbn [well places bridges find] in *. destruct Hw as (Hs & _ & _ & Hr). rewrite B in Hin, Hf.
    apply elem_of_cons in Hin as [E|Hin]; [simplify_eq; rewrite !Z.eqb_refl; by exists r'|].
    rewrite (not_routed_zero r' c) by (by rewrite (same_type1 touched r0 r')).
    pose proof (places_range bus sec (s + 1) rest c sl r Hr ltac:(lia) Hin).
    destruct (Z.eqb_spec c bus); [rewrite (proj2 (Z.eqb_neq s sl)) by lia|]; by apply (IH (s + 1)); [|lia..|].
  - cbn [well places bridges find] in *. destruct Hw as (Hs & _ & Hbl & Hr). rewrite B in Hin, Hf.
    pose proof (bridges_nonneg below). pose proof (bridges_nonneg rest).
    destruct (numbered_routes r0 r' below sec (pri bus s) c) as [Es ->]; [done..|lia|lia|apply Hp|done|]. rewrite Es.
    apply elem_of_cons in Hin as [E|[Hin|Hin]%elem_of_app]; [simplify_eq; rewrite !Z.eqb_refl; by exists r'|..].
    + pose proof (places_range _ _ 0 below c sl r (Hbl B) ltac:(lia) Hin).
      rewrite (proj2 (Z.eqb_neq c bus)), bool_decide_true by lia. apply (IH1 0); [by apply Hbl|lia..|done].
    + pose proof (places_range _ _ (s + 1) rest c sl r Hr ltac:(lia) Hin).
      destruct (Z.eqb_spec c bus); [rewrite (proj2 (Z.eqb_neq s sl)) by lia|rewrite bool_decide_false by lia];
        by apply (IH2 (s + 1)); [|lia..|].
Qed.

(** Nothing answers elsewhere. *)
Lemma numbered_only pri bus sec x x' : numbered pri bus sec x x' -> bus_sized pri ->
  forall cur c sl r', well cur x -> 0 <= bus < sec -> sec + bridges x <= 256 ->
  find bus c sl x' = Some r' -> exists r, (c, sl, r) ∈ places bus sec x /\ same touched r r'.
Proof.
  intros N Hp. induction N as [bus sec|bus sec s r0 r1 below rest rest' B S T N IH
    |bus sec s r0 r1 below below' rest rest' B S W N1 IH1 N2 IH2]; intros cur c sl r' Hw Hb Hf E; [done|..];
    cbn [well places bridges find] in *; destruct Hw as (Hs & _ & Hbl & Hr); rewrite B in Hf |- *.
  - rewrite (not_routed_zero r1 c) in E by (by rewrite (same_type1 touched r0 r1)).
    destruct (Z.eqb_spec c bus) as [->|]; [destruct (Z.eqb_spec s sl) as [->|]|].
    { simplify_eq. exists r0. by split; [left|]. }
    all: destruct (IH (s + 1) _ sl r' Hr Hb ltac:(lia) E) as (r & Hin & Sr); exists r; by split; [right|].
  - pose proof (bridges_nonneg below). pose proof (bridges_nonneg rest).
    destruct (numbered_routes r0 r1 below sec (pri bus s) c) as [Es Er]; [done..|lia|lia|apply Hp|done|]. rewrite Es, Er in E.
    destruct (Z.eqb_spec c bus) as [->|]; [destruct (Z.eqb_spec s sl) as [->|]|case_bool_decide].
    { simplify_eq. exists r0. by split; [left|]. }
    2: { destruct (IH1 0 c sl r' (Hbl B) ltac:(lia) ltac:(lia) E) as (r & Hin & Sr). exists r.
         split; [right; by apply elem_of_app; left|done]. }
    all: destruct (IH2 (s + 1) _ sl r' Hr ltac:(lia) ltac:(lia) E) as (r & Hin & Sr); exists r;
      split; [right; apply elem_of_app; by right|done].
Qed.

(** No two functions share a place. *)
Lemma places_distinct bus sec cur x :
  well cur x -> 0 <= cur -> bus < sec -> NoDup (map fst (places bus sec x)).
Proof.
  revert bus sec cur. induction x as [|s r below IHb rest IHr]; intros bus sec cur; cbn [well places]; [constructor|].
  intros (Hs & _ & Hb & Hr) Hc Hbus. cbn [map fst]. pose proof (bridges_nonneg below).
  assert (forall (c sl : Z) (l : list (Z * Z * regs)), (c, sl) ∈ map fst l -> exists r, (c, sl, r) ∈ l) as Hmap.
  { intros c sl l ([[c' sl'] r'] & E & Hin)%list_elem_of_fmap. cbn in E. simplify_eq. by exists r'. }
  constructor.
  - intros (r' & Hin)%Hmap. destruct (is_bridge r).
    + apply elem_of_app in Hin as [Hin|Hin].
      * pose proof (places_range _ _ 0 below _ _ _ (Hb eq_refl) ltac:(lia) Hin). lia.
      * pose proof (places_range _ _ (s + 1) rest _ _ _ Hr ltac:(lia) Hin). lia.
    + pose proof (places_range _ _ (s + 1) rest _ _ _ Hr ltac:(lia) Hin). lia.
  - destruct (is_bridge r); [|apply (IHr _ _ (s + 1)); [done|lia..]].
    rewrite map_app. apply NoDup_app. split_and!.
    + apply (IHb _ _ 0); [by apply Hb|lia..].
    + intros [c sl] (r1 & H1)%Hmap (r2 & H2)%Hmap.
      pose proof (places_range _ _ 0 below _ _ _ (Hb eq_refl) ltac:(lia) H1).
      pose proof (places_range _ _ (s + 1) rest _ _ _ Hr ltac:(lia) H2). lia.
    + apply (IHr _ _ (s + 1)); [done|lia..].
Qed.

(** ** Clearing the primary buses *)

Definition clear (r : regs) : regs :=
  if no_function (word r 0) then r
  else if type1 r then put BUS_NUM_REG_OFFSET (u32 (Z.land (word r BUS_NUM_REG_OFFSET) PRI_BUS_CLEAR_MASK)) r
  else r.

Definition cleared (pri : Z -> Z -> Z) (c sl : Z) : Z -> Z -> Z :=
  fun c' sl' => if (c' =? c) && (sl' =? sl) then 0 else pri c' sl'.

Lemma upd_none bus c sl f t : find bus c sl t = None -> upd bus c sl f t = t.
Proof.
  revert bus. induction t as [|s r below IHb rest IHr]; intros bus; [done|]. cbn [find upd].
  destruct (c =? bus); [destruct (s =? sl)|destruct (routes r c)]; intros E; [done|f_equal; eauto..].
Qed.

Lemma upd_ext bus c sl f g t r : find bus c sl t = Some r -> f r = g r -> upd bus c sl f t = upd bus c sl g t.
Proof.
  revert bus. induction t as [|s r0 below IHb rest IHr]; intros bus; [done|]. cbn [find upd].
  destruct (c =? bus); [destruct (s =? sl)|destruct (routes r0 c)]; intros E Hf; [congruence|f_equal; eauto..].
Qed.

Lemma upd_id bus c sl t : upd bus c sl (fun r => r) t = t.
Proof.
  revert bus. induction t as [|s r below IHb rest IHr]; intros bus; [done|]. cbn [upd].
  by destruct (c =? bus); [destruct (s =? sl)|destruct (routes r c)]; rewrite ?IHb, ?IHr.
Qed.

Lemma clear_function_done s bus slot :
  ready s -> 0 <= bus < 256 -> 0 <= slot < 256 ->
  exists s', clear_function bus slot s = Done (tt, s') /\ frame s s' /\
    bus_hw s' = upd root bus slot clear (bus_hw s).
Proof.
  intros R ??. unfold clear_function. change PCIE_MAX_FUNC with 8.
  pose proof (fun off => cfg_read_done s bus slot off R) as Rd.
  rewrite (bind_done _ _ _ _ _ (Rd 0 ltac:(done) ltac:(done) ltac:(done))).
  destruct (find root bus slot (bus_hw s)) as [r|] eqn:E.
  2: { exists s. by rewrite (upd_none _ _ _ _ _ E). }
  destruct (no_function (word r 0)) eqn:V; [|rewrite (bind_done _ _ _ _ _ (Rd HEADER_OFFSET ltac:(done) ltac:(done) ltac:(done)));
    fold (type1 r); destruct (type1 r) eqn:T].
  2: { rewrite (bind_done _ _ _ _ _ (Rd BUS_NUM_REG_OFFSET ltac:(done) ltac:(done) ltac:(done))).
       rewrite cfg_write_done by done. eexists. split_and!; [done|done|]. cbn [bus_hw set_bus_hw].
       apply (upd_ext _ _ _ _ _ _ r E). unfold clear. by rewrite V, T. }
  all: exists s; split_and!; [done|done|].
  all: rewrite (upd_ext _ _ _ clear (fun r => r) _ r E) by (unfold clear; by rewrite V, ?T); by rewrite upd_id.
Qed.

Lemma clear_same r : same touched r (clear r).
Proof. unfold clear. repeat case_match; [done|by apply same_put|done]. Qed.

Lemma clear_zero r : word r BUS_NUM_REG_OFFSET = 0 -> word (clear r) BUS_NUM_REG_OFFSET = 0.
Proof.
  intros E. unfold clear. repeat case_match; [done| |done]. rewrite put_same, E. unfold after.
  by rewrite !Z.land_0_l.
Qed.

Lemma clear_numbers r sub sec p :
  is_bridge r = true -> mask r BUS_NUM_REG_OFFSET = 0xFFFFFF -> 0 <= sub < 256 -> 0 <= sec < 256 -> 0 <= p < 256 ->
  word r BUS_NUM_REG_OFFSET = bus_numbers sub sec p -> word (clear r) BUS_NUM_REG_OFFSET = bus_numbers sub sec 0.
Proof.
  intros B M ??? W. unfold is_bridge in B. apply andb_true_iff in B as [[B _]%andb_true_iff T].
  apply negb_true_iff in B. unfold clear. rewrite B, T, W.
  assert (Z.land (bus_numbers sub sec p) PRI_BUS_CLEAR_MASK = bus_numbers sub sec 0) as ->.
  { change PRI_BUS_CLEAR_MASK with (Z.ldiff (Z.ones 32) (Z.ones 8)). rewrite Z.ldiff_land, Z.land_assoc.
    rewrite Z.land_ones, Z.mod_small by (unfold bus_numbers; lia).
    rewrite <- Z.ldiff_land, Z.ldiff_ones_r, Z.shiftr_div_pow2, Z.shiftl_mul_pow2 by lia. unfold bus_numbers. lia. }
  rewrite u32_small by (unfold bus_numbers; lia).
  apply put_bus_numbers; [done|rewrite W|]; unfold bus_numbers; lia.
Qed.

(** What is numbered elsewhere stays numbered. *)
Lemma numbered_far pri bus sec x x' c sl : numbered pri bus sec x x' ->
  forall cur, well cur x -> 0 <= cur -> (c <> bus \/ sl < cur) -> ~ (sec <= c < sec + bridges x) ->
  numbered (cleared pri c sl) bus sec x x'.
Proof.
  induction 1 as [bus sec|bus sec s r0 r1 below rest rest' B S T N IH
    |bus sec s r0 r1 below below' rest rest' B S W N1 IH1 N2 IH2]; intros cur Hw Hc H1 H2; [constructor|..];
    cbn [well bridges] in *; destruct Hw as (Hs & _ & Hbl & Hr); rewrite B in H2.
  - constructor; [done..|]. apply (IH (s + 1)); [done|lia..].
  - pose proof (bridges_nonneg below). pose proof (bridges_nonneg rest). constructor; [done|done| | |].
    + unfold cleared. rewrite (proj2 (andb_false_iff _ _)); [done|]. rewrite !Z.eqb_neq. lia.
    + apply (IH1 0); [by apply Hbl|lia..].
    + apply (IH2 (s + 1)); [done|lia..].
Qed.

Lemma numbered_clear pri bus sec x x' c sl : numbered pri bus sec x x' -> bus_sized pri ->
  forall cur, well cur x -> 0 <= cur -> 0 <= bus < sec -> sec + bridges x <= 256 ->
  numbered (cleared pri c sl) bus sec x (upd bus c sl clear x').
Proof.
  intros N Hp. induction N as [bus sec|bus sec s r0 r1 below rest rest' B S T N IH
    |bus sec s r0 r1 below below' rest rest' B S W N1 IH1 N2 IH2]; intros cur Hw Hc Hb Hf; [constructor|..];
    cbn [well bridges upd] in *; destruct Hw as (Hs & F & Hbl & Hr); rewrite B in Hf.
  - rewrite (not_routed_zero r1 c) by (by rewrite (same_type1 touched r0 r1)).
    destruct (Z.eqb_spec c bus) as [->|]; [destruct (Z.eqb_spec s sl) as [->|]|].
    { constructor; [done|eapply same_trans, clear_same; done|intros ?; by apply clear_zero, T|].
      apply (numbered_far _ _ _ _ _ _ _ N (sl + 1)); [done|lia..]. }
    all: constructor; [done..|]; by apply (IH (s + 1)); [|lia..].
  - pose proof (bridges_nonneg below). pose proof (bridges_nonneg rest).
    pose proof (same_bridge r0 r1 S) as B1. pose proof (Hp bus s).
    destruct (numbered_routes r0 r1 below sec (pri bus s) c) as [Es ->]; [done..|lia|lia|done|done|]. rewrite Es.
    assert (forall c' sl', c' <> bus \/ sl' <> s -> cleared pri c' sl' bus s = pri bus s) as Hfar.
    { intros c' sl' ?. unfold cleared. rewrite (proj2 (andb_false_iff _ _)); [done|]. rewrite !Z.eqb_neq. lia. }
    destruct (Z.eqb_spec c bus) as [->|]; [destruct (Z.eqb_spec s sl) as [->|]|case_bool_decide].
    + apply numbered_bridge; [done|eapply same_trans, clear_same; done| | |].
      * unfold cleared. rewrite !Z.eqb_refl. eapply clear_numbers, W; [by rewrite B1| |lia..].
        unfold mask. rewrite (proj1 S). by apply F, bridge_type1.
      * apply (numbered_far _ _ _ _ _ _ _ N1 0); [by apply Hbl|lia..].
      * apply (numbered_far _ _ _ _ _ _ _ N2 (sl + 1)); [done|lia..].
    + apply numbered_bridge; [done|done|rewrite Hfar; [done|lia]| |by apply (IH2 (s + 1)); [|lia..]].
      apply (numbered_far _ _ _ _ _ _ _ N1 0); [by apply Hbl|lia..].
    + apply numbered_bridge; [done|done|rewrite Hfar; [done|lia]|apply (IH1 0); [by apply Hbl|lia..]|].
      apply (numbered_far _ _ _ _ _ _ _ N2 (s + 1)); [done|lia..].
    + apply numbered_bridge; [done|done|rewrite Hfar; [done|lia]| |by apply (IH2 (s + 1)); [|lia..]].
      apply (numbered_far _ _ _ _ _ _ _ N1 0); [by apply Hbl|lia..].
Qed.

Lemma numbered_ext pri pri' bus sec x x' :
  numbered pri bus sec x x' -> (forall c sl r, (c, sl, r) ∈ places bus sec x -> pri c sl = pri' c sl) ->
  numbered pri' bus sec x x'.
Proof.
  induction 1 as [bus sec|bus sec s r0 r1 below rest rest' B S T N IH
    |bus sec s r0 r1 below below' rest rest' B S W N1 IH1 N2 IH2]; intros Hx; [constructor|..];
    cbn [places] in Hx; rewrite B in Hx.
  - constructor; [done..|]. apply IH. intros. eapply Hx. by right.
  - constructor; [done|done|by rewrite <- (Hx bus s r0) by left| |].
    + apply IH1. intros. eapply Hx. right. apply elem_of_app. by left.
    + apply IH2. intros. eapply Hx. right. apply elem_of_app. by right.
Qed.

Section Clear.
Context (x : fns) (Hwell : well 0 x) (Hroot : 0 <= root) (Hfits : root + bridges x <= 255).

(** The program returns and clears the primary buses of the places of [V]. *)
Definition clears (V : Z -> Z -> Prop) (m : P unit) : Prop := forall pri s,
  ready s -> bus_sized pri -> numbered pri root (root + 1) x (bus_hw s) ->
  exists s' pri', m s = Done (tt, s') /\ frame s s' /\ bus_sized pri' /\
    numbered pri' root (root + 1) x (bus_hw s') /\
    (forall c sl, pri c sl = 0 \/ V c sl -> pri' c sl = 0).

Lemma clears_foreach {A} (V : A -> Z -> Z -> Prop) l body :
  (forall a, a ∈ l -> clears (V a) (body a)) -> clears (fun c sl => exists a, a ∈ l /\ V a c sl) (foreach l body).
Proof.
  intros Hb pri s R Hp N. revert pri s R Hp N. induction l as [|a l IH]; intros pri s R Hp N; cbn [foreach].
  - exists s, pri. split_and!; [done..|]. intros c sl [?|(a & Ha%not_elem_of_nil & _)]; done.
  - destruct (Hb a ltac:(by left) pri s R Hp N) as (s1 & p1 & E1 & F1 & Hp1 & N1 & Z1).
    rewrite (bind_done _ _ _ _ _ E1).
    destruct (IH ltac:(intros; apply Hb; by right) p1 s1 (frame_ready _ _ F1 R) Hp1 N1) as (s2 & p2 & E2 & F2 & Hp2 & N2 & Z2).
    exists s2, p2. split_and!; [done|by eapply frame_trans|done|done|].
    intros c sl [H0|(a' & [->|Ha]%elem_of_cons & HV)].
    + apply Z2. left. apply Z1. by left.
    + apply Z2. left. apply Z1. by right.
    + apply Z2. right. by exists a'.
Qed.

Lemma clears_function c sl : 0 <= c < 256 -> 0 <= sl < 256 -> clears (fun c' sl' => c' = c /\ sl' = sl) (clear_function c sl).
Proof.
  intros Hc Hsl pri s R Hp N. destruct (clear_function_done s c sl) as (s' & E & F & H'); [done..|].
  exists s', (cleared pri c sl). split_and!; [done|done| | |].
  - intros c' sl'. unfold cleared. case_match; [done|apply Hp].
  - rewrite H'. apply (numbered_clear _ _ _ _ _ c sl N Hp 0); [done|lia..].
  - intros c' sl' [E0|[-> ->]]; unfold cleared; [by case_match|by rewrite !Z.eqb_refl].
Qed.

Lemma clears_all : 0 <= end_bus_num b -> clears (fun c sl => 0 <= c <= end_bus_num b /\ 0 <= sl < 256) pal_clear_pri_bus.
Proof.
  intros He pri s R Hp N. unfold pal_clear_pri_bus. erewrite bind_done by (by apply info_block_done).
  edestruct (clears_foreach (fun c c' sl => c' = c /\ exists a, a ∈ seqZ 0 256 /\ (c' = c /\ sl = a))
    (seqZ 0 (end_bus_num b + 1)) (fun bus => foreach (seqZ 0 256) (clear_function bus))) as (s' & p' & E & F & Hp' & N' & Z').
  - intros c Hc%elem_of_seqZ pri' s' R' Hp' N'.
    destruct (clears_foreach (fun a c' sl => c' = c /\ sl = a) (seqZ 0 256) (clear_function c)) with (pri := pri') (s := s')
      as (s2 & p2 & E2 & F2 & Hp2 & N2 & Z2); [|done..|].
    { intros a Ha%elem_of_seqZ. apply clears_function; lia. }
    exists s2, p2. split_and!; [done..|]. intros c' sl [?|[_ ?]]; apply Z2; auto.
  - exact R.
  - exact Hp.
  - exact N.
  - exists s', p'. split_and!; [exact E|done..|]. intros c sl [?|[Hc Hsl]]; apply Z'; [by left|right].
    exists c. split; [apply elem_of_seqZ; lia|]. split; [done|]. exists sl. split; [apply elem_of_seqZ; lia|done].
Qed.
End Clear.

(** The whole enumeration of a table with one block. *)
Lemma enumerate_done fuel x s :
  well 0 x -> (depth x < fuel)%nat -> 0 <= root -> root + bridges x <= end_bus_num b ->
  ready s -> pcie_index s = 0 -> info_num_entries (info s) = 1 -> bus_hw s = x ->
  exists s', pal_pcie_enumerate fuel s = Done (tt, s') /\ enumerate s' = 0 /\ pcie_index s' = 0 /\
    numbered (fun _ _ => 0) root (root + 1) x (bus_hw s').
Proof.
  intros Hw Hd Hr Hf R Ei En E. pose proof (bridges_nonneg x).
  destruct (device_numbers fuel (fun x => x) x root s) as (s1 & x1 & E1 & F1 & H1 & N1); [apply focus_root|done..|].
  pose proof (fun c sl r => places_range root (root + 1) 0 x c sl r Hw ltac:(lia)) as Hpl.
  destruct (clears_all x Hw Hr ltac:(lia) ltac:(lia) (fun c _ => if bool_decide (0 <= c < 256) then c else 0) s1)
    as (s2 & p2 & E2 & F2 & Hp2 & N2 & Z2); [by eapply frame_ready| | |].
  { intros c sl. case_bool_decide; lia. }
  { rewrite H1. eapply numbered_ext; [exact N1|]. intros c sl r Hin%Hpl. rewrite bool_decide_true; lia. }
  unfold pal_pcie_enumerate. erewrite bind_done by done. rewrite En. cbn [Z.eqb]. erewrite bind_done by done. rewrite Ei.
  change (Z.to_nat (1 - 0)) with 1%nat. cbn [enum_ecams].
  erewrite bind_done.
  2: { erewrite bind_done by (by apply info_block_done). rewrite (u32_small (root + 1)) by lia.
       rewrite (bind_done _ _ _ _ _ E1), (bind_done _ _ _ _ _ E2). by erewrite bind_done by done. }
  eexists. split_and!; [done..|]. cbn [bus_hw set_pcie_index set_enumerate].
  eapply numbered_ext; [exact N2|]. intros c sl r Hin%Hpl. apply Z2. right. lia.
Qed.
End Tree.

(** ** The theorem *)

(** C6: [pal_pcie_enumerate] on any hierarchy whose bridges fit in the bus range of
    the block returns (the recursion needs a fuel above the depth of the tree). Each
    bridge then has the bus numbers of a depth-first walk with its primary bus
    cleared; the function of each place of that walk answers configuration accesses
    there, with its registers below the BARs unchanged but the command register;
    nothing answers anywhere else; no two functions share a place. *)
Theorem enumeration_reaches_all (b : PCIE_INFO_BLOCK) (fuel : nat) (x : fns) (s : enum_state fns) :
  0 <= ecam_base b /\ ecam_base b + 2 ^ 28 <= 2 ^ 64 ->
  0 <= start_bus_num b /\ start_bus_num b + bridges x <= end_bus_num b <= 255 ->
  well 0 x -> (depth x < fuel)%nat ->
  enumerate s <> 0 -> pcie_index s = 0 -> info s = {| info_num_entries := 1; block := [b] |} -> bus_hw s = x ->
  let root := start_bus_num b in
  exists s', pal_pcie_enumerate (H := fns) (H0 := tree_hw b) fuel s = Done (tt, s') /\ enumerate s' = 0 /\
    numbered (fun _ _ => 0) root (root + 1) x (bus_hw s') /\
    (forall c sl r, (c, sl, r) ∈ places root (root + 1) x ->
       exists r', find root c sl (bus_hw s') = Some r' /\ same touched r r') /\
    (forall c sl r', find root c sl (bus_hw s') = Some r' ->
       exists r, (c, sl, r) ∈ places root (root + 1) x /\ same touched r r') /\
    NoDup (map fst (places root (root + 1) x)).
Proof.
  intros Hbase Hbus Hw Hd He Hi Hinfo E root.
  destruct (enumerate_done b Hbase ltac:(lia) fuel x s) as (s' & E' & En & _ & N); [done..|lia|lia| |done|by rewrite Hinfo|done|].
  { split; [done|]. by rewrite Hinfo, Hi. }
  assert (bus_sized (fun _ _ => 0)) as Hp by done.
  exists s'. split_and!; [done..| | |by apply (places_distinct _ _ 0); [|lia..]].
  - intros c sl r. apply (numbered_found _ _ _ _ _ N Hp 0); [done|lia..].
  - intros c sl r'. apply (numbered_only _ _ _ _ _ N Hp 0); [done|lia..].
Qed.

(** ** A small hierarchy *)

Definition block0 : PCIE_INFO_BLOCK := mk_block 0x40000000 0 0 4.
(** An endpoint with a 64 KB BAR, a 4 KB one and a 64-bit prefetchable one of 1 MB. *)
Definition endpoint0 : regs := mk_regs
  {[ 0 := 0x56781234; 0x8 := 0x01080200; 0xC := 0; 0x18 := 0xC ]}
  {[ 0x4 := 0x7; 0x10 := 0xFFFF0000; 0x14 := 0xFFFFF000; 0x18 := 0xFFF00000; 0x1C := 0xFFFFFFFF ]}.
Definition bridge0 : regs := mk_regs
  {[ 0 := 0x00011234; 0x8 := 0x06040000; 0xC := 0x10000 ]}
  {[ 0x4 := 0x7; 0x18 := 0xFFFFFF; 0x20 := 0xFFF0FFF0; 0x24 := 0xFFF0FFF0 ]}.
(** An endpoint, and a switch with two endpoints below it. *)
Definition tree0 : fns :=
  Cons 0 endpoint0 Nil
    (Cons 8 bridge0 (Cons 0 bridge0 (Cons 0 endpoint0 Nil Nil) (Cons 8 endpoint0 Nil Nil)) Nil).
Definition start0 (t : fns) : enum_state fns :=
  let q a := mk_pool a 0 0 0 in
  mk_enum t (mk_info 1 [block0]) 0 1 (q 0x60000000) (q 0x70000000) (q 0x500000000) 0x6F000000 0x6000000000.

Lemma well0 : well 0 tree0.
Proof.
  assert (fresh endpoint0) by (intros F; by vm_compute in F).
  assert (fresh bridge0) by (intros _; split_and!; [done|done|right; by vm_compute]).
  cbn [well tree0]. repeat first [assumption | lia | split | intros _ | done].
Qed.

Lemma enumeration_reaches_all_witness :
  exists s', pal_pcie_enumerate (H := fns) (H0 := tree_hw block0) 3 (start0 tree0) = Done (tt, s') /\ enumerate s' = 0 /\
    numbered (fun _ _ => 0) 0 1 tree0 (bus_hw s').
Proof.
  edestruct (enumeration_reaches_all block0 3 tree0 (start0 tree0)) as (s' & E & En & N & _).
  - split; [done|]. by vm_compute.
  - split; [done|]. split; by vm_compute.
  - exact well0.
  - vm_compute. lia.
  - done.
  - done.
  - done.
  - done.
  - exists s'. split; [exact E|]. split; [exact En|exact N].
Defined.
