(* ===== verification/PcieBars.v ===== *)
(** * Placing the BARs of a function

    What [pal_pcie_program_bar_reg] leaves in the BARs of an endpoint, for a function
    whose BARs decode as the PCI specification says: the low bits of a BAR of 2^k
    bytes are read only. The ranges of one pool do not overlap. *)

From S2P Require Import Prelude Mmio PcieCfg PcieEnum PcieTree.

(** ** The BARs of a function *)

Inductive bar := Empty | Mem (wide pref : bool) (k : Z).

Definition bar_width (d : bar) : Z := match d with Mem true _ _ => 8 | _ => 4 end.
Definition type_bits (wide pref : bool) : Z := (if wide then 4 else 0) + (if pref then 8 else 0).

Definition has_bar (r : regs) (off : Z) (d : bar) : Prop :=
  match d with
  | Empty => word r off = 0 /\ mask r off = 0
  | Mem wide pref k =>
      4 <= k < 32 /\ mask r off = 2 ^ 32 - 2 ^ k /\ word r off mod 2 ^ k = type_bits wide pref /\
      (wide = true -> mask r (off + 4) = 2 ^ 32 - 1)
  end.

(** The BARs of the registers from [off] to 0x24. *)
Fixpoint laid (off : Z) (l : list bar) (r : regs) : Prop :=
  match l with
  | [] => off = 0x28
  | d :: l => off + bar_width d <= 0x28 /\ has_bar r off d /\ laid (off + bar_width d) l r
  end.

(** The address that a BAR decodes. *)
Definition bar_base (r : regs) (off : Z) (wide : bool) : Z :=
  Z.land (word r off) BAR_MASK + (if wide then word r (off + 4) * 2 ^ 32 else 0).

(** The pool that a BAR is placed from. *)
Inductive kind := Np | Pre | Pre64.
#[export] Instance kind_eq_dec : EqDecision kind.
Proof. solve_decision. Defined.

Definition kind_of (wide pref : bool) : kind := if pref then if wide then Pre64 else Pre else Np.
Definition pool_at (c : kind) {H} (s : enum_state H) : pool :=
  match c with Np => np s | Pre => pre s | Pre64 => pre64 s end.
Definition addr_bits (c : kind) : Z := match c with Pre64 => 64 | _ => 32 end.

Definition floor (k a : Z) : Z := a / 2 ^ k * 2 ^ k.

(** Where the last BAR of a pool ends. *)
Definition reach (q : pool) : Z :=
  if last_size q =? 0 then start q else start q / last_size q * last_size q + last_size q.

(** The BARs of a function from [off] on that come from a pool, as offset, width and size. *)
Fixpoint bars_of (c : kind) (off : Z) (l : list bar) : list (Z * bool * Z) :=
  match l with
  | [] => []
  | Mem wide pref k :: l =>
      if decide (kind_of wide pref = c) then (off, wide, k) :: bars_of c (off + bar_width (Mem wide pref k)) l
      else bars_of c (off + bar_width (Mem wide pref k)) l
  | Empty :: l => bars_of c (off + 4) l
  end.

(** The ranges lie in order between two bounds. *)
Fixpoint in_order (r : regs) (lo hi : Z) (l : list (Z * bool * Z)) : Prop :=
  match l with
  | [] => lo <= hi
  | (off, wide, k) :: l => lo <= bar_base r off wide /\ in_order r (bar_base r off wide + 2 ^ k) hi l
  end.

(** ** A write to a BAR *)

Lemma high_mask k : 0 <= k < 32 -> 2 ^ 32 - 2 ^ k = Z.ldiff (Z.ones 32) (Z.ones k).
Proof.
  intros. rewrite Z.ldiff_ones_r, Z.shiftr_div_pow2, Z.shiftl_mul_pow2, Z.ones_equiv by lia.
  assert (2 ^ 32 = 2 ^ (32 - k) * 2 ^ k) as E by (rewrite <- Z.pow_add_r by lia; f_equal; lia).
  rewrite E at 2. assert (0 < 2 ^ k) by lia.
  replace (Z.pred (2 ^ (32 - k) * 2 ^ k)) with ((2 ^ (32 - k) - 1) * 2 ^ k + (2 ^ k - 1)) by lia.
  rewrite Z.div_add_l, (Z.div_small (2 ^ k - 1)) by lia. lia.
Qed.

Lemma floor_ldiff k a : 0 <= k -> floor k a = Z.ldiff a (Z.ones k).
Proof. intros. unfold floor. by rewrite Z.ldiff_ones_r, Z.shiftr_div_pow2, Z.shiftl_mul_pow2 by lia. Qed.

(** The register keeps its low bits and takes the others. *)
Lemma bar_written r off v k :
  0 <= k < 32 -> mask r off = 2 ^ 32 - 2 ^ k ->
  word (put off (u32 v) r) off = floor k (u32 v) + word r off mod 2 ^ k.
Proof.
  intros Hk M. pose proof (u32_range v). pose proof (u32_range (default 0 (words r !! off))) as W.
  fold (word r off) in W. rewrite put_same, M, high_mask by lia. unfold after.
  rewrite Z.land_0_l, Z.lnot_0, Z.land_m1_r.
  assert (Z.land (u32 v) (Z.ldiff (Z.ones 32) (Z.ones k)) = floor k (u32 v)) as ->.
  { rewrite Z.ldiff_land, Z.land_assoc, Z.land_ones, Z.mod_small by lia. by rewrite <- Z.ldiff_land, floor_ldiff by lia. }
  assert (Z.land (word r off) (Z.lnot (Z.ldiff (Z.ones 32) (Z.ones k))) = word r off mod 2 ^ k) as ->.
  { apply Z.bits_inj'. intros i Hi. rewrite Z.land_spec, Z.lnot_spec, Z.ldiff_spec, !Z.testbit_ones_nonneg by lia.
    destruct (Z.ltb_spec i k).
    - rewrite Z.mod_pow2_bits_low by lia. destruct (i <? 32); cbn; by rewrite andb_true_r.
    - rewrite Z.mod_pow2_bits_high by lia. destruct (Z.ltb_spec i 32); cbn; [by rewrite andb_false_r|].
      rewrite andb_true_r. apply (testbit_high _ 32); lia. }
  unfold floor in *. assert (0 < 2 ^ k) by lia.
  rewrite <- Z.shiftl_mul_pow2 at 1 by lia. rewrite lor_shiftl_add by lia. apply u32_small.
  assert (2 ^ 32 = 2 ^ (32 - k) * 2 ^ k) as E by (rewrite <- Z.pow_add_r by lia; f_equal; lia).
  assert (u32 v / 2 ^ k < 2 ^ (32 - k)) by (apply Z.div_lt_upper_bound; lia).
  assert (0 <= u32 v / 2 ^ k) by (apply Z.div_pos; lia). nia.
Qed.

(** The 32 bits of a masked address above the low bits. *)
Lemma floor_range k a : 0 <= k < 32 -> 0 <= a < 2 ^ 32 -> 0 <= floor k a <= 2 ^ 32 - 2 ^ k.
Proof.
  intros. unfold floor. assert (0 < 2 ^ k) by lia.
  assert (2 ^ 32 = 2 ^ (32 - k) * 2 ^ k) as E by (rewrite <- Z.pow_add_r by lia; f_equal; lia).
  assert (a / 2 ^ k < 2 ^ (32 - k)) by (apply Z.div_lt_upper_bound; lia).
  assert (0 <= a / 2 ^ k) by (apply Z.div_pos; lia). nia.
Qed.

(** Written all ones, a BAR reads its mask. *)
Lemma floor_ones k : 4 <= k < 32 -> floor k 0xFFFFFFF0 = 2 ^ 32 - 2 ^ k.
Proof.
  intros. rewrite floor_ldiff, high_mask by lia. change 0xFFFFFFF0 with (Z.ldiff (Z.ones 32) (Z.ones 4)).
  rewrite !Z.ldiff_land, <- Z.land_assoc, <- Z.lnot_lor. do 2 f_equal.
  apply Z.bits_inj'. intros i Hi. rewrite Z.lor_spec, !Z.testbit_ones_nonneg by lia. lia.
Qed.

Lemma floor_mod4 k a : 4 <= k -> floor k a mod 16 = 0.
Proof.
  intros. unfold floor. replace (2 ^ k) with (2 ^ (k - 4) * 16) at 2 by (rewrite Z.mul_comm; change 16 with (2 ^ 4); rewrite <- Z.pow_add_r by lia; f_equal; lia).
  rewrite Z.mul_assoc. by apply Z.mod_mul.
Qed.

Lemma bar_mask_floor a t : 0 <= a < 2 ^ 32 -> a mod 16 = 0 -> 0 <= t < 16 -> a + t < 2 ^ 32 -> Z.land (a + t) BAR_MASK = a.
Proof.
  intros. change BAR_MASK with (Z.ldiff (Z.ones 32) (Z.ones 4)).
  rewrite Z.ldiff_land, Z.land_assoc, Z.land_ones, Z.mod_small by lia.
  rewrite <- Z.ldiff_land, <- floor_ldiff by lia. unfold floor. change (2 ^ 4) with 16. lia.
Qed.

Lemma type_bits_range w p : 0 <= type_bits w p < 16.
Proof. by destruct w, p. Qed.

(** What the code takes a BAR for. *)
Lemma bar_kind a w p : a mod 16 = type_bits w p ->
  BAR_MEM a = (if p then BAR_PRE_MEM else 0) /\ BAR_REG a = (if w then BAR_64_BIT else BAR_32_BIT).
Proof.
  intros E. unfold BAR_MEM, BAR_REG. rewrite land_15, land_1, E.
  replace (Z.shiftr a 2 mod 2) with (Z.shiftr (a mod 16) 2 mod 2) by (rewrite !Z.shiftr_div_pow2 by lia; lia).
  rewrite E. by destruct w, p.
Qed.

Lemma mod_pow_16 a k w p : 4 <= k -> a mod 2 ^ k = type_bits w p -> a mod 16 = type_bits w p.
Proof.
  intros Hk E. rewrite <- (Z.mod_small (type_bits w p) 16) by apply type_bits_range. rewrite <- E.
  replace (2 ^ k) with (16 * 2 ^ (k - 4)) by (change 16 with (2 ^ 4); rewrite <- Z.pow_add_r by lia; f_equal; lia).
  rewrite Z.rem_mul_r by lia. rewrite (Z.mul_comm 16), Z_mod_plus_full. symmetry. apply Z.mod_mod. lia.
Qed.

Lemma bar_set r off v w p k : has_bar r off (Mem w p k) ->
  word (put off (u32 v) r) off = floor k (u32 v) + type_bits w p.
Proof. intros (Hk & M & T & _). rewrite bar_written with (k := k) by (done || lia). by rewrite T. Qed.

Lemma bar_keeps r off d o v : has_bar r off d -> has_bar (put o (u32 v) r) off d.
Proof.
  intros Hd. destruct (decide (o = off)) as [->|Hne].
  - destruct d as [|w p k].
    + destruct Hd as [E M]. split; [|done]. rewrite put_same, M, E. unfold after. by rewrite Z.land_0_r, Z.land_0_l.
    + pose proof (bar_set r off v w p k Hd) as W. destruct Hd as (Hk & M & T & U). split_and!; [lia..|done| |done].
      assert (type_bits w p < 2 ^ k) by (rewrite <- T; apply Z.mod_pos_bound; lia).
      rewrite W. unfold floor. rewrite Z.add_comm, Z_mod_plus_full. apply Z.mod_small. pose proof (type_bits_range w p). lia.
  - unfold has_bar. by rewrite put_other.
Qed.

Lemma bar_decodes r off v w p k : has_bar r off (Mem w p k) ->
  Z.land (word (put off (u32 v) r) off) BAR_MASK = floor k (u32 v).
Proof.
  intros Hb. pose proof (type_bits_range w p). pose proof (u32_range v).
  pose proof (u32_range (default 0 (words (put off (u32 v) r) !! off))) as W. fold (word (put off (u32 v) r) off) in W.
  rewrite (bar_set r off v w p k Hb) in *. destruct Hb as (Hk & _).
  pose proof (floor_range k (u32 v) ltac:(lia) ltac:(lia)). assert (0 < 2 ^ k) by lia.
  apply bar_mask_floor; [lia| |lia..]. apply floor_mod4. lia.
Qed.

Lemma upper_set r off v : mask r off = 2 ^ 32 - 1 -> word (put off (u32 v) r) off = u32 v.
Proof. intros M. rewrite (bar_written r off v 0) by (done || lia). unfold floor. change (2 ^ 0) with 1. rewrite Z.mod_1_r. lia. Qed.

Section Placing.
Context (b : PCIE_INFO_BLOCK) (Hbase : 0 <= ecam_base b /\ ecam_base b + 2 ^ 28 <= 2 ^ 64).
Context (bus slot : Z) (Hbus : 0 <= bus < 256) (Hslot : 0 <= slot < 256) (K : regs -> fns) (HK : port b bus slot K).
Local Hint Extern 0 (Hardware fns) => exact (here_hw b) : typeclass_instances.
Local Abbreviation state := (enum_state fns).
Local Abbreviation dev := (slot / 8).
Local Abbreviation func := (slot mod 8).

Lemma wr_K s r off v : ready b s -> bus_hw s = K r -> 0 <= off < 4096 /\ off mod 4 = 0 ->
  pal_pci_cfg_write bus dev func off v s = Done (tt, set_bus_hw (K (put off (u32 v) r)) s).
Proof. intros. by apply port_write. Qed.

Lemma rd_K s r off : ready b s -> bus_hw s = K r -> 0 <= off < 4096 /\ off mod 4 = 0 ->
  pal_pci_cfg_read bus dev func off s = Done (word r off, s).
Proof. intros. by apply (port_read b Hbase bus slot Hbus Hslot K). Qed.

Lemma probe32_empty s r off : ready b s -> bus_hw s = K r -> 0 <= off < 4096 /\ off mod 4 = 0 -> has_bar r off Empty ->
  exists s' r', probe32 bus dev func off s = Done ((0, 0), s') /\ frame s s' /\ bus_hw s' = K r' /\ same (Z.eqb off) r r' /\
    (forall c, pool_at c s' = pool_at c s).
Proof.
  intros R E Ho Hb. unfold probe32. rewrite (bind_done _ _ _ _ _ (wr_K s r off _ R E Ho)).
  erewrite bind_done by (apply rd_K; [exact R|done|done]). pose proof (bar_keeps r off Empty off 0xFFFFFFF0 Hb) as [W _].
  rewrite W. eexists _, _. split_and!; [done|done|done|apply same_put; lia|by intros []].
Qed.

Lemma probe32_mem s r off w p k : ready b s -> bus_hw s = K r -> 0 <= off < 4096 /\ off mod 4 = 0 -> has_bar r off (Mem w p k) ->
  let r' := put off (u32 0xFFFFFFF0) r in
  probe32 bus dev func off s = Done ((word r' off, 2 ^ k), set_bus_hw (K r') s).
Proof.
  intros R E Ho Hb r'. unfold probe32. rewrite (bind_done _ _ _ _ _ (wr_K s r off _ R E Ho)).
  erewrite bind_done by (apply rd_K; [exact R|done|done]). unfold ret. do 3 f_equal. fold r'.
  unfold r'. rewrite (bar_decodes r off _ w p k Hb). destruct Hb as (Hk & _).
  rewrite (u32_small 0xFFFFFFF0), floor_ones by lia. assert (2 ^ k <= 2 ^ 31) by (apply Z.pow_le_mono_r; lia). assert (0 < 2 ^ k) by lia.
  rewrite <- (u32_small (2 ^ k)) by lia. unfold Z.lnot, u32. lia.
Qed.

Lemma probe64_mem s r off p k : ready b s -> bus_hw s = K r -> 0 <= off < 4092 /\ off mod 4 = 0 -> has_bar r off (Mem true p k) ->
  let r' := put (off + 4) (u32 0xFFFFFFFF) (put off (u32 0xFFFFFFF0) r) in
  probe64 bus dev func off s = Done (2 ^ k, set_bus_hw (K r') s).
Proof.
  intros R E Ho Hb r'. unfold probe64. rewrite (bind_done _ _ _ _ _ (wr_K s r off _ R E ltac:(lia))).
  erewrite bind_done by (apply wr_K; [exact R|done|lia]).
  erewrite bind_done by (apply rd_K; [exact R|done|lia]). erewrite bind_done by (apply rd_K; [exact R|done|lia]).
  unfold ret. f_equal. f_equal. rewrite upper_set by (by apply Hb). rewrite put_other by lia.
  rewrite (bar_decodes r off _ true p k Hb). destruct Hb as (Hk & _).
  rewrite (u32_small 0xFFFFFFF0), floor_ones by lia. assert (2 ^ k <= 2 ^ 31) by (apply Z.pow_le_mono_r; lia). assert (0 < 2 ^ k) by lia.
  rewrite Z.lor_comm, lor_shiftl_add, (u32_small 0xFFFFFFFF) by lia.
  rewrite <- (u64_small (2 ^ k)) by lia. unfold Z.lnot, u64. lia.
Qed.

(** ** One pass of the loop *)

Definition wrap (c : kind) : Z -> Z := match c with Pre64 => u64 | _ => u32 end.
Definition record (m : kind -> Z) (c : kind) (size : Z) : kind -> Z := fun c' => if decide (c' = c) then size else m c'.
Definition own_offs (off : Z) (d : bar) (o : Z) : bool := (off <=? o) && (o <? off + bar_width d).
Local Abbreviation bars fuel off m := (ep_bars bus dev func fuel off (m Np) (m Pre) (m Pre64)).

(** The pass moved on: the BAR has its address, the other pools are unchanged. *)
Definition passed (fuel : nat) (off : Z) (m : kind -> Z) (s : state) (r : regs) (w p : bool) (k : Z) : Prop :=
  let c := kind_of w p in
  exists s1 r1,
    bars (S fuel) off m s = bars fuel (off + bar_width (Mem w p k)) (record m c (2 ^ k)) s1 /\ frame s s1 /\
    bus_hw s1 = K r1 /\ same (own_offs off (Mem w p k)) r r1 /\
    (forall c', pool_at c' s1 = if decide (c' = c) then placed bus (wrap c) (m c) (2 ^ k) (pool_at c s) else pool_at c' s) /\
    bar_base r1 off w = floor k (start (pool_at c s1)).

Lemma floor_split k a : 0 <= k < 32 -> 0 <= a < 2 ^ 64 ->
  floor k (u32 a) + u32 (Z.shiftr a 32) * 2 ^ 32 = floor k a.
Proof.
  intros. rewrite Z.shiftr_div_pow2, (u32_small (a / 2 ^ 32)) by lia. unfold floor, u32.
  assert (0 < 2 ^ k) by lia.
  assert (2 ^ 32 = 2 ^ (32 - k) * 2 ^ k) as E by (rewrite <- Z.pow_add_r by lia; f_equal; lia).
  assert (a / 2 ^ k = (a mod 2 ^ 32) / 2 ^ k + a / 2 ^ 32 * 2 ^ (32 - k)) as ->; [|rewrite E at 3; lia].
  rewrite <- Z.div_add by lia. f_equal. rewrite <- Z.mul_assoc, <- E. lia.
Qed.

Lemma same_own off w p k o v r r1 :
  same (own_offs off (Mem w p k)) r r1 -> own_offs off (Mem w p k) o = true ->
  same (own_offs off (Mem w p k)) r (put o v r1).
Proof. intros. eapply same_trans; [done|]. by apply same_put. Qed.

Lemma u32_pow k : 0 <= k < 32 -> u32 (2 ^ k) = 2 ^ k.
Proof. intros. assert (2 ^ k <= 2 ^ 31) by (apply Z.pow_le_mono_r; lia). apply u32_small. lia. Qed.

Lemma u32_wrapped a : u32 (u32 a) = u32 a.
Proof. apply u32_idem. Qed.

Lemma pass_pre64 fuel off m s r k :
  ready b s -> bus_hw s = K r -> 0x10 <= off <= 0x24 /\ off mod 4 = 0 -> has_bar r off (Mem true true k) -> passed fuel off m s r true true k.
Proof.
  intros R E Ho Hb. pose proof Hb as (Hk & M & T & U). unfold passed. cbn [ep_bars].
  rewrite (proj2 (Z.ltb_ge TYPE0_BAR_MAX_OFF off)) by (unfold TYPE0_BAR_MAX_OFF; lia).
  erewrite bind_done by (apply rd_K; [done|done|lia]).
  destruct (bar_kind (word r off) true true) as [-> ->]; [by eapply mod_pow_16, T; lia|]. cbn [Z.eqb BAR_PRE_MEM BAR_64_BIT Pos.eqb].
  erewrite bind_done by (apply probe64_mem with (p := true) (k := k); [done|done|lia|done]).
  set (r1 := put (off + 4) _ _). set (s1 := set_bus_hw (K r1) s).
  rewrite (proj2 (Z.eqb_neq (2 ^ k) 0)) by lia.
  erewrite (bind_done (gets pre64) _ s1) by done. erewrite (bind_done (modify _)) by done.
  set (s2 := set_pre64 _ s1). erewrite (bind_done (gets pre64) _ s2) by done.
  erewrite bind_done by (apply wr_K with (r := r1); [exact R|done|lia]).
  set (s3 := set_bus_hw _ s2). erewrite bind_done by (eapply wr_K; [exact R|done|lia]).
  rewrite (u32_pow k) by lia. eexists _, _. split_and!; [done|done|done| | |].
  - repeat apply same_own; unfold own_offs; cbn [bar_width]; done || lia.
  - intros c'. by destruct c'.
  - unfold bar_base. rewrite upper_set by (by apply U). rewrite put_other, (bar_decodes r1 off _ true true k) by (lia || by repeat apply bar_keeps).
    apply floor_split; [lia|]. apply u64_range.
Qed.

Lemma pass_pre fuel off m s r k :
  ready b s -> bus_hw s = K r -> 0x10 <= off <= 0x24 /\ off mod 4 = 0 -> has_bar r off (Mem false true k) -> passed fuel off m s r false true k.
Proof.
  intros R E Ho Hb. pose proof Hb as (Hk & M & T & U). unfold passed. cbn [ep_bars].
  rewrite (proj2 (Z.ltb_ge TYPE0_BAR_MAX_OFF off)) by (unfold TYPE0_BAR_MAX_OFF; lia).
  erewrite bind_done by (apply rd_K; [done|done|lia]).
  destruct (bar_kind (word r off) false true) as [-> ->]; [by eapply mod_pow_16, T; lia|]. cbn [Z.eqb BAR_PRE_MEM BAR_64_BIT BAR_32_BIT Pos.eqb].
  erewrite bind_done by (apply probe32_mem with (w := false) (p := true) (k := k); [done|done|lia|done]).
  set (r1 := put off _ _). set (s1 := set_bus_hw (K r1) s). cbn [snd].
  rewrite (proj2 (Z.eqb_neq (2 ^ k) 0)) by lia.
  erewrite (bind_done (gets pre) _ s1) by done. erewrite (bind_done (modify _)) by done.
  set (s2 := set_pre _ s1). erewrite (bind_done (gets pre) _ s2) by done.
  erewrite bind_done by (apply wr_K with (r := r1); [exact R|done|lia]).
  rewrite (u32_pow k) by lia. eexists _, _. split_and!; [done|done|done| | |].
  - repeat apply same_own; unfold own_offs; cbn [bar_width]; done || lia.
  - intros c'. by destruct c'.
  - unfold bar_base. rewrite (bar_decodes r1 off _ false true k), Z.add_0_r by (by apply bar_keeps).
    f_equal. apply u32_wrapped.
Qed.

Lemma pass_np fuel off m s r w k :
  ready b s -> bus_hw s = K r -> 0x10 <= off <= 0x24 /\ off mod 4 = 0 -> has_bar r off (Mem w false k) -> passed fuel off m s r w false k.
Proof.
  intros R E Ho Hb. pose proof Hb as (Hk & M & T & U). unfold passed. cbn [ep_bars].
  rewrite (proj2 (Z.ltb_ge TYPE0_BAR_MAX_OFF off)) by (unfold TYPE0_BAR_MAX_OFF; lia).
  erewrite bind_done by (apply rd_K; [done|done|lia]).
  destruct (bar_kind (word r off) w false) as [-> _]; [by eapply mod_pow_16, T; lia|]. cbn [Z.eqb BAR_PRE_MEM].
  erewrite bind_done by (apply probe32_mem with (w := w) (p := false) (k := k); [done|done|lia|done]).
  set (r1 := put off _ _). set (s1 := set_bus_hw (K r1) s). cbn [snd].
  rewrite (proj2 (Z.eqb_neq (2 ^ k) 0)) by lia.
  erewrite (bind_done (gets np) _ s1) by done. erewrite (bind_done (modify _)) by done.
  set (s2 := set_np _ s1). erewrite (bind_done (gets np) _ s2) by done.
  erewrite bind_done by (apply wr_K with (r := r1); [exact R|done|lia]).
  set (r2 := put off _ r1). set (s3 := set_bus_hw _ s2).
  assert (has_bar r2 off (Mem w false k)) as (_ & _ & T2 & _) by (by repeat apply bar_keeps).
  assert (Z.land (word r2 off) BAR_MASK = floor k (start (np s2))) as D2.
  { unfold r2. rewrite (bar_decodes r1 off _ w false k) by (by apply bar_keeps). f_equal. apply u32_wrapped. }
  erewrite bind_done by (apply rd_K with (r := r2); [exact R|done|lia]).
  destruct (bar_kind (word r2 off) w false) as [_ ->]; [by eapply mod_pow_16, T2; lia|].
  rewrite (u32_pow k) by lia. destruct w; cbn [Z.eqb BAR_64_BIT BAR_32_BIT Pos.eqb].
  - erewrite bind_done by (apply wr_K with (r := r2); [exact R|done|lia]).
    eexists _, _. split_and!; [done|done|done| | |].
    + repeat apply same_own; unfold own_offs; cbn [bar_width]; done || lia.
    + intros c'. by destruct c'.
    + unfold bar_base. rewrite upper_set by (by apply U). rewrite put_other, D2 by lia. change (u32 0) with 0. by rewrite Z.mul_0_l, Z.add_0_r.
  - eexists _, _. split_and!; [done|done|done| | |].
    + repeat apply same_own; unfold own_offs; cbn [bar_width]; done || lia.
    + intros c'. by destruct c'.
    + unfold bar_base. by rewrite D2, Z.add_0_r.
Qed.

Lemma pass_mem fuel off m s r w p k :
  ready b s -> bus_hw s = K r -> 0x10 <= off <= 0x24 /\ off mod 4 = 0 -> has_bar r off (Mem w p k) -> passed fuel off m s r w p k.
Proof. destruct p; [destruct w; [apply pass_pre64|apply pass_pre]|apply pass_np]. Qed.

Lemma pass_empty fuel off m s r :
  ready b s -> bus_hw s = K r -> 0x10 <= off <= 0x24 /\ off mod 4 = 0 -> has_bar r off Empty ->
  exists s1 r1, bars (S fuel) off m s = bars fuel (off + 4) m s1 /\ frame s s1 /\ bus_hw s1 = K r1 /\
    same (own_offs off Empty) r r1 /\ (forall c, pool_at c s1 = pool_at c s).
Proof.
  intros R E Ho Hb. cbn [ep_bars].
  rewrite (proj2 (Z.ltb_ge TYPE0_BAR_MAX_OFF off)) by (unfold TYPE0_BAR_MAX_OFF; lia).
  erewrite bind_done by (apply rd_K; [done|done|lia]). rewrite (proj1 Hb). change (BAR_MEM 0 =? BAR_PRE_MEM) with false. cbv iota.
  destruct (probe32_empty s r off) as (s1 & r1 & E1 & F1 & H1 & S1 & P1); [done|done|lia|done|].
  rewrite (bind_done _ _ _ _ _ E1). exists s1, r1. split_and!; [done..| |done].
  eapply same_weaken, S1. intros o. unfold own_offs. cbn [bar_width]. lia.
Qed.

(** ** The allocation *)

(** The last BAR of a pool has a power of two bytes, at most 2^t. *)
Definition sized (t : Z) (q : pool) : Prop :=
  0 <= start q /\ (last_size q = 0 \/ exists j, 0 <= j <= t /\ last_size q = 2 ^ j).

Lemma floor_le j k a : 0 <= j <= k -> floor k a <= floor j a.
Proof.
  intros. unfold floor. assert (0 < 2 ^ j) by lia. assert (0 < 2 ^ (k - j)) by lia.
  replace (2 ^ k) with (2 ^ j * 2 ^ (k - j)) by (rewrite <- Z.pow_add_r by lia; f_equal; lia).
  rewrite <- Z.div_div by lia. nia.
Qed.

(** The aligned range after one of [a] with an advance of at least both sizes. *)
Lemma next_apart j k a : 0 <= j -> 0 <= k -> floor j a + 2 ^ j <= floor k (a + Z.max (2 ^ j) (2 ^ k)).
Proof.
  intros. assert (0 < 2 ^ j) by lia. assert (0 < 2 ^ k) by lia.
  assert (forall i, 0 <= i -> floor i (a + 2 ^ i) = floor i a + 2 ^ i) as Hs.
  { intros i Hi. assert (0 < 2 ^ i) by lia. unfold floor. replace (a + 2 ^ i) with (a + 1 * 2 ^ i) by lia. rewrite Z.div_add by lia. lia. }
  destruct (Z.le_gt_cases j k).
  - rewrite Z.max_r by (apply Z.pow_le_mono_r; lia). rewrite Hs by lia.
    unfold floor. assert (0 < 2 ^ (k - j)) by lia.
    replace (2 ^ k) with (2 ^ j * 2 ^ (k - j)) by (rewrite <- Z.pow_add_r by lia; f_equal; lia).
    rewrite <- Z.div_div by lia. set (u := a / 2 ^ j). set (D := 2 ^ (k - j)) in *.
    assert (u + 1 <= (u / D + 1) * D) as Hu
      by (pose proof (Z.div_mod u D ltac:(lia)); pose proof (Z.mod_pos_bound u D ltac:(lia)); lia).
    pose proof (Z.mul_le_mono_nonneg_r _ _ (2 ^ j) ltac:(lia) Hu). lia.
  - rewrite Z.max_l by (apply Z.pow_le_mono_r; lia).
    etransitivity; [|apply (floor_le k j); lia]. by rewrite Hs by lia.
Qed.

Lemma placed_next c mine k t q :
  sized t q -> 0 <= k <= t -> t < 32 -> (mine <> 0 -> mine = last_size q) -> start q + 2 ^ t < 2 ^ addr_bits c ->
  let q' := placed bus (wrap c) mine (2 ^ k) q in
  sized t q' /\ start q' <= start q + 2 ^ t /\ last_size q' = 2 ^ k /\
  reach q' = floor k (start q') + 2 ^ k /\ (mine <> 0 \/ last_bus q = bus -> reach q <= floor k (start q')).
Proof.
  intros (H0 & Hl) Hk Ht Hm Hr q'. assert (0 < 2 ^ k) by lia.
  assert (2 ^ k <= 2 ^ t) by (apply Z.pow_le_mono_r; lia).
  assert (0 <= last_size q <= 2 ^ t).
  { destruct Hl as [->|(j & Hj & ->)]; [lia|]. assert (2 ^ j <= 2 ^ t) by (apply Z.pow_le_mono_r; lia). lia. }
  assert (next_start bus mine (2 ^ k) q = if decide (mine <> 0 \/ last_bus q = bus) then start q + Z.max (last_size q) (2 ^ k) else start q) as En.
  { unfold next_start. destruct (decide (mine <> 0 \/ last_bus q = bus)), (Z.eqb_spec mine 0), (Z.eqb_spec (last_bus q) bus),
      (Z.ltb_spec (last_size q) (2 ^ k)); cbn [andb negb]; try lia; rewrite ?Hm by done; lia. }
  assert (start q' = next_start bus mine (2 ^ k) q) as Es.
  { unfold q', placed. cbn [start]. assert (0 <= next_start bus mine (2 ^ k) q <= start q + 2 ^ t) by (rewrite En; case_decide; lia).
    destruct c; cbn [wrap addr_bits] in *; first [apply u64_small; lia|apply u32_small; lia]. }
  assert (last_size q' = 2 ^ k) as El by (apply u32_pow; lia).
  split_and!; [split; [|right; by exists k]| |done| |].
  - rewrite Es, En. case_decide; lia.
  - rewrite Es, En. case_decide; lia.
  - unfold reach. by rewrite El, (proj2 (Z.eqb_neq (2 ^ k) 0)) by lia.
  - intros Hc. rewrite Es, En, decide_True by done. unfold reach. destruct Hl as [El0|(j & Hj & Elj)].
    + rewrite El0. cbn [Z.eqb]. rewrite Z.max_r by lia. pose proof (next_apart k k (start q) ltac:(lia) ltac:(lia)) as Hn.
      rewrite Z.max_id in Hn. unfold floor in *. pose proof (Z.div_mod (start q) (2 ^ k) ltac:(lia)). pose proof (Z.mod_pos_bound (start q) (2 ^ k) ltac:(lia)). lia.
    + rewrite Elj, (proj2 (Z.eqb_neq (2 ^ j) 0)) by lia. apply (next_apart j k); lia.
Qed.

Lemma laid_same D off l r r' :
  same D r r' -> (forall o, off <= o -> D o = false) -> laid off l r -> laid off l r'.
Proof.
  intros S. revert off. induction l as [|d l IH]; intros off HD; [done|]. cbn [laid].
  intros (H1 & H2 & H3). split_and!; [done| |apply IH; [|done]; intros; apply HD; destruct d as [|[]]; cbn [bar_width] in *; lia].
  destruct S as [M W]. unfold has_bar, mask in *. rewrite !M, W by (apply HD; lia). done.
Qed.

Lemma reach_above t q : 0 <= t -> sized t q -> start q <= reach q /\ floor t (start q) <= reach q.
Proof.
  intros Ht [H0 Hl]. assert (0 < 2 ^ t) by lia.
  assert (floor t (start q) <= start q) by (unfold floor; pose proof (Z.mul_div_le (start q) (2 ^ t)); lia).
  unfold reach. destruct Hl as [->|(j & Hj & ->)]; [cbn [Z.eqb]; lia|]. assert (0 < 2 ^ j) by lia.
  rewrite (proj2 (Z.eqb_neq (2 ^ j) 0)) by lia.
  pose proof (Z.div_mod (start q) (2 ^ j) ltac:(lia)). pose proof (Z.mod_pos_bound (start q) (2 ^ j) ltac:(lia)). lia.
Qed.

(** A pool that has room for [n] BARs of at most 2^t bytes, and where they go from. *)
Definition room (t : Z) (n : nat) (c : kind) (mine : Z) (q : pool) : Prop :=
  sized t q /\ (mine <> 0 -> mine = last_size q) /\ start q + Z.of_nat n * 2 ^ t < 2 ^ addr_bits c.
Definition from (t mine : Z) (q : pool) : Z :=
  if decide (mine <> 0 \/ last_bus q = bus) then reach q else floor t (start q).

(** What a walk over the BARs of [l] leaves. *)
Definition spaced (t : Z) (off : Z) (l : list bar) (m : kind -> Z) (s s' : state) (r' : regs) : Prop :=
  forall c, in_order r' (from t (m c) (pool_at c s)) (reach (pool_at c s')) (bars_of c off l) /\
    sized t (pool_at c s') /\ start (pool_at c s') <= start (pool_at c s) + Z.of_nat (length l) * 2 ^ t /\
    (close_pool (pool_at c s') = close_pool (pool_at c s) \/ last_bus (pool_at c s') = bus).

Lemma room_step t n c m k q :
  room t (S n) c (m c) q -> 0 <= k <= t -> t < 32 ->
  let q' := placed bus (wrap c) (m c) (2 ^ k) q in
  room t n c (2 ^ k) q' /\ from t (m c) q <= floor k (start q') /\ from t (2 ^ k) q' = floor k (start q') + 2 ^ k /\
  start q' <= start q + 2 ^ t.
Proof.
  intros (Hs & Hm & Hr) Hk Ht q'. assert (0 < 2 ^ t) by lia. assert (0 < 2 ^ k) by lia. assert (0 <= Z.of_nat n * 2 ^ t) by lia.
  destruct (placed_next c (m c) k t q) as (Ps & Pst & Pl & Pr & Pf); [done|done|done|done|lia|]. fold q' in Ps, Pst, Pl, Pr, Pf.
  split_and!; [split_and!; [done|done|lia]| | |done].
  - unfold from. case_decide as Hc; [by apply Pf|]. unfold q', placed. cbn [start]. unfold next_start.
    rewrite (proj2 (Z.eqb_neq (last_bus q) bus)), andb_false_r by tauto.
    destruct (Z.eqb_spec (m c) 0) as [E0|]; [|tauto]. rewrite E0, Z.add_0_r. cbn [negb]. rewrite andb_false_r.
    assert (wrap c (start q) = start q) as ->.
    { destruct c; cbn [wrap addr_bits] in *; destruct Hs; first [apply u64_small; lia|apply u32_small; lia]. }
    apply floor_le. lia.
  - unfold from. rewrite decide_True by lia. done.
Qed.

Lemma bars_spaced l : forall fuel off m s r t,
  ready b s -> bus_hw s = K r -> laid off l r -> 0x10 <= off /\ off mod 4 = 0 -> (length l <= fuel)%nat -> 0 <= t < 32 ->
  Forall (fun d => match d with Mem _ _ k => k <= t | Empty => True end) l ->
  (forall c, room t (length l) c (m c) (pool_at c s)) ->
  exists s' r', bars fuel off m s = Done (tt, s') /\ frame s s' /\ bus_hw s' = K r' /\
    same (fun o => (off <=? o) && (o <? 0x28)) r r' /\ spaced t off l m s s' r'.
Proof.
  induction l as [|d l IH]; intros fuel off m s r t R E L Ho Hf Ht Hk Hroom; cbn [laid length] in *.
  { exists s, r. subst off. split_and!; [by destruct fuel|done..|]. intros c. destruct (Hroom c) as (Hs & _ & _).
    pose proof (reach_above t _ ltac:(lia) Hs). split_and!; [|done|lia|by left].
    cbn [bars_of in_order]. unfold from. case_decide; lia. }
  destruct L as (Lw & Lb & Lr), fuel as [|fuel]; [lia|]. apply Forall_cons in Hk as [Hd Hk].
  assert (0 < 2 ^ t) as Hpos by lia.
  destruct d as [|w p k].
  - destruct (pass_empty fuel off m s r) as (s1 & r1 & E1 & F1 & H1 & S1 & P1); [done|done|cbn [bar_width] in *; lia|done|].
    cbn [bar_width] in *. destruct (IH fuel (off + 4) m s1 r1 t) as (s2 & r2 & E2 & F2 & H2 & S2 & Sp);
      [by eapply frame_ready|done| |lia|lia|lia|done| |].
    { eapply laid_same; [done| |done]. intros o. unfold own_offs. cbn [bar_width]. lia. }
    { intros c. rewrite P1. destruct (Hroom c) as (? & ? & ?). split_and!; [done|done|lia]. }
    exists s2, r2. split_and!; [by rewrite E1|by eapply frame_trans|done| |].
    + eapply same_trans; [eapply same_weaken, S1|eapply same_weaken, S2]; intros o; unfold own_offs; cbn [bar_width]; lia.
    + intros c. destruct (Sp c) as (I1 & I2 & I3 & I4). rewrite P1 in I1, I3, I4. split_and!; [done|done|cbn [length]; lia|done].
  - assert (4 <= k) as Hk4 by apply Lb. assert (4 <= bar_width (Mem w p k) /\ bar_width (Mem w p k) mod 4 = 0) as Hw4 by (by destruct w).
    destruct (pass_mem fuel off m s r w p k) as (s1 & r1 & E1 & F1 & H1 & S1 & P1 & B1); [done|done|lia|done|].
    set (c0 := kind_of w p) in *. destruct (room_step t (length l) c0 m k (pool_at c0 s)) as (Q1 & Q2 & Q3 & Q4); [done|lia|lia|].
    assert (pool_at c0 s1 = placed bus (wrap c0) (m c0) (2 ^ k) (pool_at c0 s)) as Ec by (rewrite P1; by rewrite decide_True).
    destruct (IH fuel (off + bar_width (Mem w p k)) (record m c0 (2 ^ k)) s1 r1 t) as (s2 & r2 & E2 & F2 & H2 & S2 & Sp);
      [by eapply frame_ready|done| |lia|lia|lia|done| |].
    { eapply laid_same; [done| |done]. intros o. unfold own_offs. lia. }
    { intros c. rewrite P1. unfold record. case_decide as Hc; [by subst c|].
      destruct (Hroom c) as (? & ? & ?). split_and!; [done|done|lia]. }
    exists s2, r2. split_and!; [by rewrite E1|by eapply frame_trans|done| |].
    + eapply same_trans; [eapply same_weaken, S1|eapply same_weaken, S2]; intros o; unfold own_offs; lia.
    + intros c. destruct (Sp c) as (I1 & I2 & I3 & I4). cbn [bars_of length]. unfold record in I1.
      fold c0. destruct (decide (c0 = c)) as [<-|Hc].
      * rewrite decide_True in I1 by done. rewrite Ec in I1, I3, I4. rewrite Q3 in I1.
        assert (bar_base r2 off w = bar_base r1 off w) as Eb.
        { unfold bar_base. destruct S2 as [_ W2]. rewrite !W2 by (destruct w; cbn [bar_width]; lia).
          destruct w; [|done]. by rewrite W2 by (cbn [bar_width]; lia). }
        rewrite Ec in B1. split_and!; [cbn [in_order]; rewrite Eb, B1; done|done|lia|right].
        destruct I4 as [[= _ _ ->] | ->]; done.
      * rewrite decide_False in I1 by congruence. rewrite P1, decide_False in I1, I3, I4 by congruence.
        split_and!; [done|done|lia|done].
Qed.
End Placing.

Lemma laid_length off l r : laid off l r -> off + 4 * Z.of_nat (length l) <= 0x28.
Proof.
  revert off. induction l as [|d l IH]; intros off; cbn [laid length]; [lia|].
  intros (_ & _ & L%IH). assert (4 <= bar_width d) by (by destruct d as [|[]]). lia.
Qed.

(** ** The theorem *)

(** C22: [pal_pcie_program_bar_reg] on a function whose BARs have at most 2^t bytes
    and whose pools have room for six such BARs returns. The ranges that the BARs of
    one pool then decode lie one after the other, whatever the alignment of the pool:
    after the last range of the pool when that was placed on the same bus, and up to
    where the pool says its last range ends. Only BARs are written. *)
Theorem bars_apart (b : PCIE_INFO_BLOCK) (bus slot : Z) (K : regs -> fns) (s : enum_state fns) (r : regs)
    (l : list bar) (t : Z) :
  0 <= ecam_base b /\ ecam_base b + 2 ^ 28 <= 2 ^ 64 -> 0 <= bus < 256 -> 0 <= slot < 256 ->
  port b bus slot K -> ready b s -> bus_hw s = K r -> laid BAR0_OFFSET l r -> 0 <= t < 32 ->
  Forall (fun d => match d with Mem _ _ k => k <= t | Empty => True end) l ->
  (forall c, sized t (pool_at c s) /\ start (pool_at c s) + 6 * 2 ^ t < 2 ^ addr_bits c) ->
  exists s' r', pal_pcie_program_bar_reg (H0 := tree_hw b) bus (slot / 8) (slot mod 8) s = Done (tt, s') /\
    bus_hw s' = K r' /\ same (fun o => (0x10 <=? o) && (o <? 0x28)) r r' /\
    spaced bus t BAR0_OFFSET l (fun _ => 0) s s' r'.
Proof.
  intros Hbase Hb Hs HK R E L Ht Hk Hroom. pose proof (laid_length _ _ _ L) as Hl. unfold BAR0_OFFSET in Hl.
  destruct (bars_spaced b Hbase bus slot Hb Hs K HK l 6 BAR0_OFFSET (fun _ => 0) s r t) as (s1 & r1 & E1 & F1 & H1 & S1 & Sp);
    [done..|lia|lia|done| |].
  { intros c. destruct (Hroom c) as [Z1 Z2]. assert (0 < 2 ^ t) by lia. split_and!; [done|lia|].
    assert (Z.of_nat (length l) * 2 ^ t <= 6 * 2 ^ t) by (apply Z.mul_le_mono_nonneg_r; lia). lia. }
  unfold pal_pcie_program_bar_reg. rewrite (bind_done _ _ _ _ _ E1). eexists _, r1. split_and!; [done..|].
  intros c. destruct (Sp c) as (I1 & I2 & I3 & I4).
  set (s2 := set_np _ _). assert (pool_at c s2 = close_pool (pool_at c s1)) as Ep by (by destruct c).
  rewrite Ep. split_and!; [exact I1|exact I2|exact I3|exact I4].
Qed.

(** ** The BARs of the endpoint *)

Definition bars0 : list bar := [Mem false false 16; Mem false false 12; Mem true true 20; Empty; Empty].

Lemma laid0 : laid BAR0_OFFSET bars0 endpoint0.
Proof. cbn [laid bars0]. repeat split; by vm_compute. Qed.

Lemma bars_apart_witness :
  let K r := Cons 0 r Nil Nil in
  exists s' r', pal_pcie_program_bar_reg (H0 := tree_hw block0) 0 0 0 (start0 (K endpoint0)) = Done (tt, s') /\
    bus_hw s' = K r' /\ spaced 0 20 BAR0_OFFSET bars0 (fun _ => 0) (start0 (K endpoint0)) s' r'.
Proof.
  intros K. destruct (bars_apart block0 0 0 K (start0 (K endpoint0)) endpoint0 bars0 20) as (s' & r' & E & H & _ & S).
  - split; [done|]. by vm_compute.
  - done.
  - done.
  - intros r. split; [done|]. done.
  - split; done.
  - done.
  - exact laid0.
  - done.
  - repeat constructor; by vm_compute.
  - intros c. split; [split; [by destruct c|left; by destruct c]|by destruct c].
  - exists s', r'. split; [exact E|]. split; [exact H|exact S].
Defined.

(** ** Addresses given twice *)

(** The words at some offsets of the functions at some places after an enumeration. *)
Definition words_after (b : PCIE_INFO_BLOCK) (fuel : nat) (s : enum_state fns) (l : list (Z * Z * Z)) : option (list Z) :=
  match pal_pcie_enumerate (H := fns) (H0 := tree_hw b) fuel s with
  | Done (_, s') =>
      mapM (fun p => (fun r => word r p.2) <$> find (start_bus_num b) p.1.1 p.1.2 (bus_hw s')) l
  | _ => None
  end.

Definition one_bar : regs := mk_regs
  {[ 0 := 0x56781234; 0x8 := 0x01080200; 0xC := 0 ]} {[ 0x4 := 0x7; 0x10 := 0xFFFF0000 ]}.
Definition two_ports : fns :=
  Cons 0 bridge0 (Cons 0 one_bar Nil Nil) (Cons 8 bridge0 (Cons 0 one_bar Nil Nil) Nil).

(** A pool does not move on at the first BAR of a function on another bus, and the
    window of a bridge with one BAR below it does not move it either: the endpoints
    below two root ports, each with one BAR of 64 KB, both get 0x60000000. *)
Lemma single_bars_collide :
  words_after block0 3 (start0 two_ports) [(1, 0, 0x10); (2, 0, 0x10)] = Some [0x60000000; 0x60000000].
Proof. by vm_compute. Qed.

(** The last BAR of an endpoint of the root bus, 4 KB, and the first BAR of one below a
    bridge after it, 64 KB, both get 0x60020000. *)
Lemma bars_collide_below :
  words_after block0 3 (start0 tree0) [(0, 0, 0x14); (2, 0, 0x10)] = Some [0x60020000; 0x60020000].
Proof. by vm_compute. Qed.

(** The guard on the last bus is an equality: with a block that ends at bus 0, the
    second of two bridges gets bus 2 as its secondary and subordinate bus and the
    endpoint below it is programmed. *)
Lemma numbering_past_end :
  let b := mk_block 0x40000000 0 0 0 in
  let s := start0 (Cons 0 bridge0 Nil (Cons 8 bridge0 (Cons 0 one_bar Nil Nil) Nil)) in
  let s' := mk_enum (bus_hw s) (mk_info 1 [b]) 0 1 (np s) (pre s) (pre64 s) (g_rp_bar32_value s) (g_rp_bar64_value s) in
  words_after b 3 s' [(0, 0, 0x18); (0, 8, 0x18); (2, 0, 0x10)] = Some [0x10100; 0x20200; 0x60000000].
Proof. by vm_compute. Qed.
