(* ===== verification/Aia.v ===== *)
(** * The incoming MSI controller of a hart

    Models [val/sys_arch_src/aia/aia.c]: the interrupt file of the IMSIC behind the
    indirect CSRs [siselect] and [sireg]. The theorem says which bits of the file an
    update of a range of interrupt identities changes. *)

From S2P Require Import Prelude Mmio.

Definition IMSIC_EIPx_BITS : Z := 32.
Definition IMSIC_EIDELIVERY : Z := 0x70.
Definition IMSIC_EITHRESHOLD : Z := 0x72.
Definition IMSIC_EIP0 : Z := 0x80.
Definition IMSIC_EIE0 : Z := 0xc0.
Definition BIT (nr : Z) : Z := u64 (Z.shiftl 1 nr).

(** [__riscv_xlen] of the compiler. *)
Definition riscv_xlen : Z := 64.

(** [siselect], and the registers behind [sireg] by number. *)
Record csrs := mk_csrs { siselect : Z; indirect : gmap Z Z }.

Definition ireg_at (s : csrs) (r : Z) : Z := u64 (default 0 (indirect s !! r)).

Section Imsic.
(** The bits of an indirect register that can be written. *)
Context (writable : Z -> Z).
Local Abbreviation P := (prog csrs).

Definition csr_select (c : Z) : P unit := modify (fun s => mk_csrs c (indirect s)).
Definition sireg_write (v : Z) : P unit := modify (fun s =>
  mk_csrs (siselect s) (<[siselect s := after (writable (siselect s)) 0 (ireg_at s (siselect s)) (u64 v)]> (indirect s))).
Definition sireg_read : P Z := gets (fun s => ireg_at s (siselect s)).

Definition imsic_csr_write (c v : Z) : P unit := csr_select c ;;; sireg_write v.
Definition imsic_csr_read (c : Z) : P Z := csr_select c ;;; sireg_read.
Definition imsic_csr_set (c v : Z) : P unit :=
  csr_select c ;;; let* x := sireg_read in sireg_write (Z.lor x v).
Definition imsic_csr_clear (c v : Z) : P unit :=
  csr_select c ;;; let* x := sireg_read in sireg_write (Z.land x (Z.lnot v)).

(** The register that holds the bit of an interrupt identity. *)
Definition eix_isel (id : Z) (pend : bool) : Z :=
  u32 (id / riscv_xlen * (riscv_xlen / IMSIC_EIPx_BITS) + (if pend then IMSIC_EIP0 else IMSIC_EIE0)).

(** The inner loop; [ireg] has 32 bits. *)
Fixpoint eix_bits (fuel : nat) (i id last_id ireg : Z) : Z * Z :=
  match fuel with
  | O => (id, ireg)
  | S k => if (id <? last_id) && (i <? riscv_xlen)
           then eix_bits k (i + 1) (u32 (id + 1)) last_id (u32 (Z.lor ireg (BIT i))) else (id, ireg)
  end.

(** A round ends at a multiple of [riscv_xlen] or at the last identity. *)
Fixpoint eix_rounds (fuel : nat) (id last_id : Z) (pend val : bool) : P unit :=
  if negb (id <? last_id) then ret tt else
  match fuel with
  | O => diverge
  | S k =>
      let r := eix_bits (Z.to_nat riscv_xlen) (Z.land id (riscv_xlen - 1)) id last_id 0 in
      (if val then imsic_csr_set (eix_isel id pend) r.2 else imsic_csr_clear (eix_isel id pend) r.2) ;;;
      eix_rounds k r.1 last_id pend val
  end.

Definition val_iic_imsic_eix_array_update (base_id num_id : Z) (pend val : bool) : P unit :=
  eix_rounds (Z.to_nat (num_id / riscv_xlen + 2)) base_id (u32 (base_id + num_id)) pend val.

Definition val_iic_imsic_eix_update (id : Z) (pend val : bool) : P unit :=
  let ireg := u32 (Z.lor 0 (BIT (Z.land id (riscv_xlen - 1)))) in
  if val then imsic_csr_set (eix_isel id pend) ireg else imsic_csr_clear (eix_isel id pend) ireg.

Definition val_iic_imsic_eix_read (id : Z) (pend : bool) : P Z := imsic_csr_read (eix_isel id pend).

Definition val_iic_imsic_eidelivery_update (val : Z) : P Z :=
  imsic_csr_write IMSIC_EIDELIVERY val ;;; let* v := imsic_csr_read IMSIC_EIDELIVERY in ret (u32 v).
Definition val_iic_imsic_eithreshold_update (val : Z) : P Z :=
  imsic_csr_write IMSIC_EITHRESHOLD val ;;; let* v := imsic_csr_read IMSIC_EITHRESHOLD in ret (u32 v).

(** ** The interrupt file *)

(** The pending or enable bit of an identity. *)
Definition eix (s : csrs) (pend : bool) (id : Z) : bool :=
  Z.testbit (ireg_at s (eix_isel id pend)) (id mod 64).
Definition can_write (pend : bool) (id : Z) : bool := Z.testbit (writable (eix_isel id pend)) (id mod 64).

Lemma isel_arith id pend : 0 <= id < 2048 -> eix_isel id pend = (if pend then 0x80 else 0xc0) + 2 * (id / 64).
Proof.
  intros. unfold eix_isel, riscv_xlen, IMSIC_EIPx_BITS, IMSIC_EIP0, IMSIC_EIE0. change (64 / 32) with 2.
  rewrite u32_small by (destruct pend; lia). destruct pend; lia.
Qed.

(** Two identities share a register when they are in the same block of 64. *)
Lemma isel_eq id id' pend pend' : 0 <= id < 2048 -> 0 <= id' < 2048 ->
  eix_isel id pend = eix_isel id' pend' <-> pend = pend' /\ id / 64 = id' / 64.
Proof. intros. rewrite !isel_arith by lia. destruct pend, pend'; split; (intros [? ?] || intros ?); try done; lia. Qed.

(** What an update with mask [v] does to the bits of the file. *)
Lemma update_bits (val : bool) c v s : 0 <= v ->
  exists s', (if val then imsic_csr_set c v else imsic_csr_clear c v) s = Done (tt, s') /\
    forall r b, 0 <= b < 64 -> Z.testbit (ireg_at s' r) b =
      if bool_decide (r = c) && Z.testbit v b && Z.testbit (writable c) b then val else Z.testbit (ireg_at s r) b.
Proof.
  intros Hv. set (new := u64 (if val then Z.lor (ireg_at s c) v else Z.land (ireg_at s c) (Z.lnot v))).
  exists (mk_csrs c (<[c := after (writable c) 0 (ireg_at s c) new]> (indirect s))).
  split; [by destruct val|]. intros r b Hb. unfold ireg_at at 1. cbn [indirect].
  destruct (decide (r = c)) as [->|Hne].
  - rewrite lookup_insert_eq, bool_decide_true by done. cbn [from_option id andb]. unfold u64 at 1.
    rewrite Z.mod_pow2_bits_low, testbit_after by lia. rewrite Z.testbit_0_l. cbn [andb negb]. rewrite andb_true_r.
    unfold new, u64. rewrite Z.mod_pow2_bits_low by lia.
    destruct (Z.testbit (writable c) b); [|by rewrite andb_false_r]. rewrite andb_true_r.
    destruct val; [rewrite Z.lor_spec|rewrite Z.land_spec, Z.lnot_spec by lia];
      destruct (Z.testbit v b), (Z.testbit (ireg_at s c) b); done.
  - by rewrite lookup_insert_ne, bool_decide_false by congruence.
Qed.

Lemma bit_trunc i b : 0 <= i < 64 -> 0 <= b -> Z.testbit (u32 (BIT i)) b = bool_decide (b = i /\ b < 32).
Proof.
  intros. unfold BIT, u64, u32. destruct (Z.lt_ge_cases b 32).
  - rewrite !Z.mod_pow2_bits_low, testbit_shiftl_1 by lia. destruct (Z.eqb_spec b i), (decide (b = i /\ b < 32));
      case_bool_decide; try lia; done.
  - rewrite Z.mod_pow2_bits_high by lia. case_bool_decide; [lia|done].
Qed.

Lemma eix_bits_spec fuel last : forall i id ireg,
  0 <= i <= 64 -> 64 - i <= Z.of_nat fuel -> 0 <= id <= last -> last < 2 ^ 32 -> 0 <= ireg < 2 ^ 32 ->
  let n := Z.min (last - id) (64 - i) in
  exists r, eix_bits fuel i id last ireg = (id + n, r) /\ 0 <= r < 2 ^ 32 /\
    forall b, 0 <= b -> Z.testbit r b = Z.testbit ireg b || bool_decide (i <= b < i + n /\ b < 32).
Proof.
  induction fuel as [|k IH]; intros i id ireg Hi Hf Hid Hl Hr n; cbn [eix_bits].
  - exists ireg. split_and!; [f_equal; lia|lia|lia|]. intros b Hb. rewrite bool_decide_false by lia. by rewrite orb_false_r.
  - unfold riscv_xlen. destruct (Z.ltb_spec id last), (Z.ltb_spec i 64); cbn [andb].
    2-4: exists ireg; split_and!; [f_equal; lia|lia|lia|]; intros b Hb; rewrite bool_decide_false by lia; by rewrite orb_false_r.
    destruct (IH (i + 1) (u32 (id + 1)) (u32 (Z.lor ireg (BIT i)))) as (r & E & R & B);
      rewrite ?(u32_small (id + 1)) in * by lia; [lia|lia|lia|lia|apply u32_range|].
    exists r. split_and!; [rewrite E; f_equal; lia|lia|lia|]. intros b Hb. rewrite B by lia.
    assert (Z.testbit (u32 (Z.lor ireg (BIT i))) b = Z.testbit ireg b || bool_decide (b = i /\ b < 32)) as ->.
    { rewrite <- (bit_trunc i b) by lia. unfold u32. destruct (Z.lt_ge_cases b 32).
      - by rewrite !Z.mod_pow2_bits_low, Z.lor_spec by lia.
      - rewrite !Z.mod_pow2_bits_high by lia. by rewrite (testbit_high ireg 32) by lia. }
    rewrite <- orb_assoc. f_equal. repeat case_bool_decide; try done; lia.
Qed.

Lemma eix_rounds_spec fuel last pend val : forall id s,
  0 <= id <= last -> last <= 2048 -> last - id <= 64 * (Z.of_nat fuel - 1) + (64 - id mod 64) \/ id = last ->
  exists s', eix_rounds fuel id last pend val s = Done (tt, s') /\
    forall pend' x, 0 <= x < 2048 -> eix s' pend' x =
      if bool_decide (pend' = pend /\ id <= x < last /\ x mod 64 < 32) && can_write pend x then val else eix s pend' x.
Proof.
  induction fuel as [|k IH]; intros id s Hid Hl Hf; cbn [eix_rounds].
  all: destruct (Z.ltb_spec id last) as [Hlt|Hge]; cbn [negb].
  2, 4: exists s; split; [done|]; intros pend' x Hx; by rewrite bool_decide_false by lia.
  { lia. }
  change (Z.land id (riscv_xlen - 1)) with (Z.land id (Z.ones 6)). rewrite Z.land_ones by lia. change (2 ^ 6) with 64.
  destruct (eix_bits_spec (Z.to_nat riscv_xlen) last (id mod 64) id 0) as (r & E & R & B); [lia|unfold riscv_xlen; lia|lia..|].
  rewrite E. cbn [fst snd]. set (n := Z.min _ _) in *.
  destruct (update_bits val (eix_isel id pend) r s) as (s1 & E1 & U1); [lia|].
  rewrite (bind_done _ _ _ _ _ E1).
  destruct (IH (id + n) s1) as (s' & E' & U'); [lia|lia|lia|].
  exists s'. split; [done|]. intros pend' x Hx. rewrite U' by lia.
  assert (eix s1 pend' x = if bool_decide (pend' = pend /\ id <= x < id + n /\ x mod 64 < 32) && can_write pend x then val else eix s pend' x) as ->.
  { unfold eix at 1. rewrite U1, B by lia. rewrite Z.testbit_0_l. cbn [orb].
    destruct (decide (eix_isel x pend' = eix_isel id pend)) as [Es|Es].
    - apply isel_eq in Es as Es'; [|lia..]. destruct Es' as [-> Ed]. rewrite (bool_decide_true (_ = _)) by done. cbn [andb].
      unfold can_write, eix. rewrite Es.
      by rewrite (bool_decide_ext (id mod 64 <= x mod 64 < id mod 64 + n /\ x mod 64 < 32) (pend = pend /\ id <= x < id + n /\ x mod 64 < 32))
        by (split; [intros; split; [done|lia]|intros (_ & ? & ?); lia]).
    - rewrite bool_decide_false by done. cbn [andb]. rewrite bool_decide_false; [done|]. intros (-> & Hr & _).
      apply Es. apply isel_eq; [lia..|]. split; [done|lia]. }
  destruct (can_write pend x); rewrite ?andb_false_r; [|done]. rewrite !andb_true_r.
  destruct (decide (pend' = pend)) as [->|]; [|by rewrite !bool_decide_false by tauto].
  assert (forall A : Prop, pend = pend /\ A <-> A) as Hp by tauto.
  rewrite !(bool_decide_ext _ _ (Hp _)). clear - Hlt. repeat case_bool_decide; try done; lia.
Qed.

(** C18: Updating the identities [base_id] to [base_id + num_id - 1] returns and sets
    their pending or enable bits to [val], as far as the interrupt file implements
    them, but only those whose number is below 32 modulo 64: the mask is kept in 32
    bits while a register has 64. Every other bit of the file is unchanged. *)
Theorem eix_update_low_half (base_id num_id : Z) (pend val : bool) (s : csrs) :
  0 <= base_id -> 0 <= num_id -> base_id + num_id <= 2048 ->
  exists s', val_iic_imsic_eix_array_update base_id num_id pend val s = Done (tt, s') /\
    forall pend' id, 0 <= id < 2048 -> eix s' pend' id =
      if bool_decide (pend' = pend /\ base_id <= id < base_id + num_id /\ id mod 64 < 32) && can_write pend id
      then val else eix s pend' id.
Proof.
  intros Hb Hn Hl. unfold val_iic_imsic_eix_array_update. rewrite (u32_small (base_id + num_id)) by lia.
  apply eix_rounds_spec; [lia|lia|]. left. unfold riscv_xlen. lia.
Qed.
End Imsic.

Lemma eix_update_low_half_witness :
  let w := fun _ => 2 ^ 64 - 1 in
  exists s', val_iic_imsic_eix_array_update w 30 4 false true (mk_csrs 0 ∅) = Done (tt, s') /\
    eix s' false 31 = true /\ eix s' false 33 = false.
Proof.
  intros w. destruct (eix_update_low_half w 30 4 false true (mk_csrs 0 ∅)) as (s' & E & U); [lia..|].
  exists s'. split; [exact E|]. split; [rewrite (U false 31) by lia|rewrite (U false 33) by lia]; by vm_compute.
Defined.

(** One identity: nothing happens from 32 to 63. *)
Lemma eix_update_lost w pend val s id : 0 <= id < 2048 -> 32 <= id mod 64 ->
  exists s', val_iic_imsic_eix_update w id pend val s = Done (tt, s') /\
    forall pend' x, 0 <= x < 2048 -> eix s' pend' x = eix s pend' x.
Proof.
  intros Hid Hm. unfold val_iic_imsic_eix_update. rewrite Z.lor_0_l.
  change (Z.land id (riscv_xlen - 1)) with (Z.land id (Z.ones 6)). rewrite Z.land_ones by lia. change (2 ^ 6) with 64.
  destruct (update_bits w val (eix_isel id pend) (u32 (BIT (id mod 64))) s) as (s' & E & U); [apply u32_range|].
  exists s'. split; [done|]. intros pend' x Hx. unfold eix at 1. rewrite U by lia. rewrite (bit_trunc w (id mod 64) (x mod 64)) by lia.
  rewrite (bool_decide_false (_ /\ _)) by lia. by rewrite andb_false_r.
Qed.
