(* ===== verification/Gic.v ===== *)
(** * Interrupt controller

    Models the interrupt tables and the drivers of the distributor and the
    redistributors: [val/src/acs_gic.c], [val/src/acs_gic_v2m.c], the interrupt
    functions of [val/src/acs_gic_support.c], [val/sys_arch_src/gic/gic.c],
    [v2/gic_v2.c], [v3/gic_v3.c], [v3/gic_v3_extended.c] and [bsa_exception.c], and
    the table that [platform/pal_uefi_acpi/src/pal_gic.c] fills. The theorems are in
    [GicIrq.v]. *)

From S2P Require Import Prelude Status Mmio PcieCfg.

(** ** Constants *)

Definition ENTRY_TYPE_CPUIF : Z := 0x1000.
Definition ENTRY_TYPE_GICD : Z := 0x1001.
Definition ENTRY_TYPE_GICC_GICRD : Z := 0x1002.
Definition ENTRY_TYPE_GICR_GICRD : Z := 0x1003.
Definition ENTRY_TYPE_GICITS : Z := 0x1004.
Definition ENTRY_TYPE_GIC_MSI_FRAME : Z := 0x1005.
Definition ENTRY_TYPE_GICH : Z := 0x1006.
Definition ENTRY_TYPE_PLIC : Z := 0x1008.

Definition GICD_CTLR : Z := 0x0000.
Definition GICD_TYPER : Z := 0x0004.
Definition GICD_ISENABLER : Z := 0x100.
Definition GICD_ICENABLER : Z := 0x180.
Definition GICD_ISPENDR : Z := 0x200.
Definition GICD_ISACTIVER0 : Z := 0x300.
Definition GICD_ICPENDR0 : Z := 0x280.
Definition GICD_ICACTIVER0 : Z := 0x380.
Definition GICD_ICFGR : Z := 0xC00.
Definition GICD_IROUTER : Z := 0x6000.
Definition GICD_PIDR2 : Z := 0xFFE8.
Definition GICD_ICENABLERE : Z := 0x1400.
Definition GICD_ICPENDRE0 : Z := 0x1800.
Definition GICD_ICACTIVERE0 : Z := 0x1C00.
Definition GICD_IPRIORITYRE : Z := 0x2000.
Definition GICD_ICFGRE : Z := 0x3000.
Definition GICR_ISENABLER : Z := 0x100.
Definition GICD_ICFGR_INTR_STRIDE : Z := 16.
(** The argument of the macro is not used, [int_id] is. *)
Definition GICD_ICFGR_INTR_CONFIG1 (int_id : Z) : Z := (1 + int_id * 2) mod 32.
Definition GICv2m_MSI_TYPER : Z := 0x008.
Definition GICD_CTRL : Z := 0x0000.
Definition GICD_IPRIORITYR : Z := 0x0400.
Definition GICD_IROUTERn : Z := 0x6100.
Definition GICR_TYPER : Z := 0x0008.
Definition GICR_IPRIORITYR : Z := 0x0400.
Definition GICR_ICENABLER : Z := 0x0180.
Definition GICR_WAKER : Z := 0x0014.
Definition GIC_ARE_ENABLE : Z := Z.shiftl 1 4.
Definition GIC_DEFAULT_PRIORITY : Z := 0x80.
Definition GICR_CTLR_FRAME_SIZE : Z := 0x10000.
Definition GICR_SGI_PPI_FRAME_SIZE : Z := 0x10000.
Definition GICR_TYPER_AFF : Z := Z.shiftl 0xFFFFFFFF 32.
Definition GIC_ICDIPTR : Z := 0x800.
Definition GIC_ICCICR : Z := 0x00.
Definition GIC_ICCBPR : Z := 0x08.
Definition GIC_ICCPMR : Z := 0x04.
Definition GIC_ICCIAR : Z := 0x0C.
Definition GIC_ICCEIOR : Z := 0x10.
Definition PE_AFF0 : Z := 0xFF.
Definition PE_AFF1 : Z := Z.shiftl 0xFF 8.
Definition PE_AFF2 : Z := Z.shiftl 0xFF 16.
Definition PE_AFF3 : Z := Z.shiftl 0xFF 32.
Definition GICD_TYPER_ESPI_SHIFT : Z := 8.
Definition GICD_TYPER_ESPI_MASK : Z := 0x01.
Definition GICD_TYPER_ESPI_RANGE_SHIFT : Z := 27.
Definition GICD_TYPER_ESPI_RANGE_MASK : Z := 0x1F.
Definition GICD_TYPER_EPPI_NUM_SHIFT : Z := 27.
Definition GICD_TYPER_EPPI_NUM_MASK : Z := 0x1F.
Definition EXTENDED_SPI_START_INTID : Z := 4096.
Definition EXTENDED_PPI_START_INTID : Z := 1056.
Definition EXTENDED_PPI_REG_OFFSET : Z := 1024.
Definition NUM_ARM_MAX_INTERRUPT : Z := 16384.
Definition EXCEPT_AARCH64_SYNCHRONOUS_EXCEPTIONS : Z := 0.
Definition EXCEPT_AARCH64_IRQ : Z := 1.
Definition AARCH64_EL2 : Z := 0x8.
Definition LPI_MIN_ID : Z := 8192.
Definition MEM_ALIGN_4K : Z := 0x1000.
Definition VAL_EXTRACT_BITS (data first last : Z) : Z := Z.land (Z.shiftr data first) (2 ^ (last - first + 1) - 1).

(** ** State *)

Record GIC_INFO_HDR := mk_gic_hdr {
  gic_version : Z; num_gicd : Z; num_gicc_rd : Z; num_gicr_rd : Z; num_its : Z; num_msi_frame : Z; num_gich : Z;
  supervisor_intr_num : Z; guest_intr_num : Z }.
Record GIC_INFO_ENTRY := mk_gic_entry {
  e_type : Z; e_base : Z; e_entry_id : Z; e_length : Z; e_flags : Z; e_spi_count : Z; e_spi_base : Z }.
(** [gic_info] is the memory of the table. *)
Record GIC_INFO_TABLE := mk_gic_table { header : GIC_INFO_HDR; gic_info : list GIC_INFO_ENTRY }.

Record MSI_FRAME_ENTRY := mk_frame { f_base : Z; f_entry_id : Z; f_flags : Z; f_spi_count : Z; f_spi_base : Z }.
Record GICv2m_MSI_FRAME_INFO := mk_frames { v2m_num_msi_frame : Z; msi_info : list MSI_FRAME_ENTRY }.

Record GIC_ITS_BLOCK := mk_its { ID : Z; Base : Z; CommandQBase : Z; IDBits : Z; ITTBase : Z }.
(** [GicIts] is the memory of the blocks, [GicNumIts] of them are in use. *)
Record GIC_ITS_INFO := mk_its_info { GicDBase : Z; GicRdBase : Z; GicNumIts : Z; GicIts : list GIC_ITS_BLOCK }.

(** What an interrupt led to: a handler called, none found, the end-of-interrupt
    register of version 3 written. *)
Inductive irq_event := Called (handler : Z) | Unregistered (int_id : Z) | EndOfInterrupt (int_id : Z).

Inductive BSA_ACS_GIC_REGS := ICH_HCR_EL2 | ICH_MISR_EL2 | ICC_IGRPEN1_EL1 | ICC_BPR1_EL1 | ICC_PMR_EL1.

(** The handlers are addresses, 0 when there is none. *)
Record gic_state (H : Type) := mk_gic {
  pcie : pcie_state H;
  g_gic_info_table : option GIC_INFO_TABLE;
  g_v2m_msi_info : option GICv2m_MSI_FRAME_INFO;
  g_intr_handler : list Z;
  g_esr_handler : list Z;
  sys_writes : list (BSA_ACS_GIC_REGS * Z);   (* system register writes, newest first *)
  hcr_writes : list Z;   (* writes of HCR_EL2, newest first *)
  irq_log : list irq_event;   (* newest first *)
  gic_allocs : list Z;   (* answers of the allocator to come, 0 when it fails *)
  gic_freed : list Z;
  g_gic_its_info : option GIC_ITS_INFO;
  g_cwriter_ptr : list Z;
  g_its_setup_done : Z;
  ConfigBase : Z }.
Arguments mk_gic {H}.
Arguments pcie {H} _.
Arguments g_gic_info_table {H} _.
Arguments g_v2m_msi_info {H} _.
Arguments g_intr_handler {H} _.
Arguments g_esr_handler {H} _.
Arguments sys_writes {H} _.
Arguments hcr_writes {H} _.
Arguments irq_log {H} _.
Arguments gic_allocs {H} _.
Arguments gic_freed {H} _.
Arguments g_gic_its_info {H} _.
Arguments g_cwriter_ptr {H} _.
Arguments g_its_setup_done {H} _.
Arguments ConfigBase {H} _.

Definition set_pcie {H} (v : (pcie_state H)) (s : gic_state H) : gic_state H :=
  mk_gic v (g_gic_info_table s) (g_v2m_msi_info s) (g_intr_handler s) (g_esr_handler s) (sys_writes s)
    (hcr_writes s) (irq_log s) (gic_allocs s) (gic_freed s) (g_gic_its_info s) (g_cwriter_ptr s) (g_its_setup_done s) (ConfigBase s).
Definition set_g_gic_info_table {H} (v : (option GIC_INFO_TABLE)) (s : gic_state H) : gic_state H :=
  mk_gic (pcie s) v (g_v2m_msi_info s) (g_intr_handler s) (g_esr_handler s) (sys_writes s) (hcr_writes
    s) (irq_log s) (gic_allocs s) (gic_freed s) (g_gic_its_info s) (g_cwriter_ptr s) (g_its_setup_done s) (ConfigBase s).
Definition set_g_v2m_msi_info {H} (v : (option GICv2m_MSI_FRAME_INFO)) (s : gic_state H) : gic_state H :=
  mk_gic (pcie s) (g_gic_info_table s) v (g_intr_handler s) (g_esr_handler s) (sys_writes s)
    (hcr_writes s) (irq_log s) (gic_allocs s) (gic_freed s) (g_gic_its_info s) (g_cwriter_ptr s) (g_its_setup_done s) (ConfigBase s).
Definition set_g_intr_handler {H} (v : (list Z)) (s : gic_state H) : gic_state H :=
  mk_gic (pcie s) (g_gic_info_table s) (g_v2m_msi_info s) v (g_esr_handler s) (sys_writes s)
    (hcr_writes s) (irq_log s) (gic_allocs s) (gic_freed s) (g_gic_its_info s) (g_cwriter_ptr s) (g_its_setup_done s) (ConfigBase s).
Definition set_g_esr_handler {H} (v : (list Z)) (s : gic_state H) : gic_state H :=
  mk_gic (pcie s) (g_gic_info_table s) (g_v2m_msi_info s) (g_intr_handler s) v (sys_writes s)
    (hcr_writes s) (irq_log s) (gic_allocs s) (gic_freed s) (g_gic_its_info s) (g_cwriter_ptr s) (g_its_setup_done s) (ConfigBase s).
Definition set_sys_writes {H} (v : (list (BSA_ACS_GIC_REGS * Z))) (s : gic_state H) : gic_state H :=
  mk_gic (pcie s) (g_gic_info_table s) (g_v2m_msi_info s) (g_intr_handler s) (g_esr_handler s) v
    (hcr_writes s) (irq_log s) (gic_allocs s) (gic_freed s) (g_gic_its_info s) (g_cwriter_ptr s) (g_its_setup_done s) (ConfigBase s).
Definition set_hcr_writes {H} (v : (list Z)) (s : gic_state H) : gic_state H :=
  mk_gic (pcie s) (g_gic_info_table s) (g_v2m_msi_info s) (g_intr_handler s) (g_esr_handler s)
    (sys_writes s) v (irq_log s) (gic_allocs s) (gic_freed s) (g_gic_its_info s) (g_cwriter_ptr s) (g_its_setup_done s) (ConfigBase s).
Definition set_irq_log {H} (v : (list irq_event)) (s : gic_state H) : gic_state H :=
  mk_gic (pcie s) (g_gic_info_table s) (g_v2m_msi_info s) (g_intr_handler s) (g_esr_handler s)
    (sys_writes s) (hcr_writes s) v (gic_allocs s) (gic_freed s) (g_gic_its_info s) (g_cwriter_ptr s) (g_its_setup_done s) (ConfigBase s).
Definition set_gic_allocs {H} (v : (list Z)) (s : gic_state H) : gic_state H :=
  mk_gic (pcie s) (g_gic_info_table s) (g_v2m_msi_info s) (g_intr_handler s) (g_esr_handler s)
    (sys_writes s) (hcr_writes s) (irq_log s) v (gic_freed s) (g_gic_its_info s) (g_cwriter_ptr s) (g_its_setup_done s) (ConfigBase s).
Definition set_gic_freed {H} (v : (list Z)) (s : gic_state H) : gic_state H :=
  mk_gic (pcie s) (g_gic_info_table s) (g_v2m_msi_info s) (g_intr_handler s) (g_esr_handler s)
    (sys_writes s) (hcr_writes s) (irq_log s) (gic_allocs s) v (g_gic_its_info s) (g_cwriter_ptr s) (g_its_setup_done s) (ConfigBase s).
Definition set_g_gic_its_info {H} (v : (option GIC_ITS_INFO)) (s : gic_state H) : gic_state H :=
  mk_gic (pcie s) (g_gic_info_table s) (g_v2m_msi_info s) (g_intr_handler s) (g_esr_handler s)
    (sys_writes s) (hcr_writes s) (irq_log s) (gic_allocs s) (gic_freed s) v (g_cwriter_ptr s) (g_its_setup_done s) (ConfigBase s).
Definition set_g_cwriter_ptr {H} (v : (list Z)) (s : gic_state H) : gic_state H :=
  mk_gic (pcie s) (g_gic_info_table s) (g_v2m_msi_info s) (g_intr_handler s) (g_esr_handler s)
    (sys_writes s) (hcr_writes s) (irq_log s) (gic_allocs s) (gic_freed s) (g_gic_its_info s) v (g_its_setup_done s) (ConfigBase s).
Definition set_g_its_setup_done {H} (v : Z) (s : gic_state H) : gic_state H :=
  mk_gic (pcie s) (g_gic_info_table s) (g_v2m_msi_info s) (g_intr_handler s) (g_esr_handler s)
    (sys_writes s) (hcr_writes s) (irq_log s) (gic_allocs s) (gic_freed s) (g_gic_its_info s) (g_cwriter_ptr s) v (ConfigBase s).
Definition set_ConfigBase {H} (v : Z) (s : gic_state H) : gic_state H :=
  mk_gic (pcie s) (g_gic_info_table s) (g_v2m_msi_info s) (g_intr_handler s) (g_esr_handler s)
    (sys_writes s) (hcr_writes s) (irq_log s) (gic_allocs s) (gic_freed s) (g_gic_its_info s) (g_cwriter_ptr s) (g_its_setup_done s) v.

Section Gic.
Context {H : Type} `{Hardware H} `{Uninit}.
(** The affinity register and the exception level of the running hart, and which
    port the program is built for ([pal_target_is_dt], [pal_target_is_bm]). *)
Context (mpidr current_el : Z) (target_is_dt target_is_bm : bool).
Local Abbreviation P := (prog (gic_state H)).

Definition on_pcie {A} (m : prog (pcie_state H) A) : P A := fun s =>
  match m (pcie s) with
  | Done (a, p) => Done (a, set_pcie p s)
  | Undefined => Undefined
  | Diverges => Diverges
  end.
Definition rd32 (addr : Z) : P Z := on_pcie (on_hw (pal_mmio_read (u64 addr))).
Definition rd64 (addr : Z) : P Z := on_pcie (on_hw (pal_mmio_read64 (u64 addr))).
Definition wr8 (addr data : Z) : P unit := on_pcie (on_hw (pal_mmio_write8 (u64 addr) data)).
Definition wr32 (addr data : Z) : P unit := on_pcie (on_hw (pal_mmio_write (u64 addr) data)).
Definition wr64 (addr data : Z) : P unit := on_pcie (on_hw (pal_mmio_write64 (u64 addr) data)).

Definition aligned_alloc : P Z :=
  let* l := gets gic_allocs in
  match l with [] => ret 0 | p :: l' => modify (set_gic_allocs l') ;;; ret p end.

(** ** The tables *)

(** The walk over the entries up to the one of type 0xFF. *)
Fixpoint find_entry (p : GIC_INFO_ENTRY -> bool) (l : list GIC_INFO_ENTRY) : P (option GIC_INFO_ENTRY) :=
  match l with
  | [] => undef
  | e :: l' => if e_type e =? 0xFF then ret None else if p e then ret (Some e) else find_entry p l'
  end.

Definition base_of_type (t : Z) : P Z :=
  let* o := gets g_gic_info_table in
  match o with
  | None => ret 0
  | Some g => let* e := find_entry (fun e => e_type e =? t) (gic_info g) in
              ret (match e with Some e => e_base e | None => 0 end)
  end.
Definition val_get_gicd_base : P Z := base_of_type ENTRY_TYPE_GICD.
Definition val_get_gich_base : P Z := base_of_type ENTRY_TYPE_GICH.
Definition val_get_cpuif_base : P Z := base_of_type ENTRY_TYPE_CPUIF.

(** The address and [*rdbase_len], [None] when that is not written. *)
Fixpoint gicr_walk (l : list GIC_INFO_ENTRY) (index gicr_rd_index : Z) : P (Z * option Z) :=
  match l with
  | [] => undef
  | e :: l' =>
      if e_type e =? 0xFF then ret (0, Some 0)
      else if (e_type e =? ENTRY_TYPE_GICR_GICRD) && (index =? gicr_rd_index) then ret (e_base e, Some (u32 (e_length e)))
      else if e_type e =? ENTRY_TYPE_GICC_GICRD then ret (e_base e, Some 0)
      else gicr_walk l' (if e_type e =? ENTRY_TYPE_GICR_GICRD then u32 (index + 1) else index) gicr_rd_index
  end.
Definition val_get_gicr_base (gicr_rd_index : Z) : P (Z * option Z) :=
  let* o := gets g_gic_info_table in
  match o with None => ret (0, None) | Some g => gicr_walk (gic_info g) 0 gicr_rd_index end.

(** The affinity fields of an affinity register, as [GICR_TYPER] has them. *)
Definition affinity_of (m : Z) : Z :=
  Z.lor (Z.land m (Z.lor (Z.lor PE_AFF0 PE_AFF1) PE_AFF2)) (Z.shiftr (Z.land m PE_AFF3) 8).
Definition rd_affinity (frame : Z) : P Z :=
  let* t := rd64 (frame + GICR_TYPER) in ret (Z.shiftr (Z.land t GICR_TYPER_AFF) 32).
Definition gicrd_granularity : Z := GICR_CTLR_FRAME_SIZE + GICR_SGI_PPI_FRAME_SIZE.

(** The frames of a region of redistributors; [pre] is what a round reads first.
    One round for each frame and the last test are enough. *)
Fixpoint rd_scan (fuel : nat) (pre : Z -> P unit) (frame limit affinity : Z) : P (option Z) :=
  if negb (frame <? limit) then ret None else
  match fuel with
  | O => diverge
  | S k =>
      pre frame ;;;
      let* a := rd_affinity frame in
      if a =? affinity then ret (Some frame) else rd_scan k pre (u64 (frame + gicrd_granularity)) limit affinity
  end.
Definition rd_fuel (len : Z) : nat := Z.to_nat (len / gicrd_granularity + 2).

(** The rounds of [val_gic_get_hart_rdbase] over the regions; each prints the type register. *)
Fixpoint rd_regions (n : nat) (gicr_rdindex affinity : Z) : P Z :=
  match n with
  | O => ret 0
  | S k =>
      let* r := val_get_gicr_base gicr_rdindex in
      let len := default (uninit "gicrd_baselen") r.2 in
      let* f := rd_scan (rd_fuel len) (fun f => let* _ := rd64 (f + GICR_TYPER) in ret tt) r.1 (u64 (r.1 + len)) affinity in
      match f with Some f => ret f | None => rd_regions k (gicr_rdindex + 1) affinity end
  end.

Definition val_gic_get_hart_rdbase (m : Z) : P Z :=
  let* o := gets g_gic_info_table in
  match o with
  | None => undef
  | Some g =>
      let n := num_gicr_rd (header g) in
      if n =? 0 then
        let* r := val_get_gicr_base 0 in
        if default (uninit "gicrd_baselen") r.2 =? 0 then
          let* a := rd_affinity r.1 in ret (if a =? affinity_of m then r.1 else 0)
        else ret 0
      else rd_regions (Z.to_nat n) 0 (affinity_of m)
  end.

Inductive GIC_INFO_e := GIC_INFO_VERSION | GIC_INFO_SEC_STATES | GIC_INFO_AFFINITY_NS | GIC_INFO_ENABLE_GROUP1NS
  | GIC_INFO_SGI_NON_SECURE | GIC_INFO_SGI_NON_SECURE_LEGACY | GIC_INFO_DIST_BASE | GIC_INFO_CITF_BASE
  | GIC_INFO_NUM_RDIST | GIC_INFO_RDIST_BASE | GIC_INFO_NUM_ITS | GIC_INFO_ITS_BASE | GIC_INFO_NUM_MSI_FRAME.

Definition gicd_read (off : Z) : P Z := let* b := val_get_gicd_base in rd32 (b + off).
Definition gicd_write (off data : Z) : P unit := let* b := val_get_gicd_base in wr32 (b + off) data.

Definition val_gic_get_info (type : GIC_INFO_e) : P Z :=
  let* o := gets g_gic_info_table in
  match o with
  | None => ret 0
  | Some g =>
      match type with
      | GIC_INFO_VERSION =>
          if negb (gic_version (header g) =? 0) then ret (gic_version (header g))
          else let* v := gicd_read GICD_PIDR2 in ret (VAL_EXTRACT_BITS v 4 7)
      | GIC_INFO_SEC_STATES => let* v := gicd_read GICD_CTLR in ret (VAL_EXTRACT_BITS v 6 6)
      | GIC_INFO_AFFINITY_NS => let* v := gicd_read GICD_CTLR in ret (VAL_EXTRACT_BITS v 4 4)
      | GIC_INFO_ENABLE_GROUP1NS => let* v := gicd_read GICD_CTLR in ret (VAL_EXTRACT_BITS v 0 1)
      | GIC_INFO_SGI_NON_SECURE_LEGACY => gicd_read GICD_ISENABLER
      | GIC_INFO_NUM_ITS => ret (num_its (header g))
      | GIC_INFO_NUM_MSI_FRAME => ret (num_msi_frame (header g))
      | _ => ret ACS_STATUS_ERR
      end
  end.

Definition val_get_max_intid : P Z :=
  let* v := gicd_read GICD_TYPER in ret (u32 (32 * (Z.land v 0x1F + 1))).

(** ** Version 3: the current redistributor *)

Definition v3_read_gicdTyper : P Z := gicd_read GICD_TYPER.

Definition CurrentCpuRDBase (rd len : Z) : P Z :=
  if len =? 0 then let* a := rd_affinity rd in ret (if a =? affinity_of mpidr then rd else 0)
  else let* f := rd_scan (rd_fuel len) (fun _ => ret tt) rd (u64 (rd + len)) (affinity_of mpidr) in ret (default 0 f).

Definition v3_get_hart_gicr_base : P Z :=
  let* r := val_get_gicr_base 0 in CurrentCpuRDBase r.1 (default (uninit "rdbase_len") r.2).

Definition v3_read_gicr_typer : P Z := let* f := v3_get_hart_gicr_base in rd64 (f + GICR_TYPER).

(** ** Extended interrupts *)

Definition val_bsa_gic_espi_support : P Z :=
  let* v := val_gic_get_info GIC_INFO_VERSION in
  if 3 <=? v then let* t := v3_read_gicdTyper in ret (Z.land (Z.shiftr t GICD_TYPER_ESPI_SHIFT) GICD_TYPER_ESPI_MASK)
  else ret 0.
Definition val_bsa_gic_max_espi_val : P Z :=
  let* v := val_gic_get_info GIC_INFO_VERSION in
  if 3 <=? v then
    let* t := v3_read_gicdTyper in
    ret (32 * (Z.land (Z.shiftr t GICD_TYPER_ESPI_RANGE_SHIFT) GICD_TYPER_ESPI_RANGE_MASK + 1) + 4095)
  else ret 0.
Definition eppi_range : P Z :=
  let* t := v3_read_gicr_typer in ret (Z.land (Z.shiftr t GICD_TYPER_EPPI_NUM_SHIFT) GICD_TYPER_EPPI_NUM_MASK).
Definition val_bsa_gic_eppi_support : P Z :=
  let* v := val_gic_get_info GIC_INFO_VERSION in
  if 3 <=? v then let* r := eppi_range in ret (if negb (r =? 0) then 1 else 0) else ret 0.
Definition val_bsa_gic_max_eppi_val : P Z :=
  let* v := val_gic_get_info GIC_INFO_VERSION in
  if 3 <=? v then let* r := eppi_range in ret (if r =? 1 then 1087 else if r =? 2 then 1119 else 0) else ret 0.

Definition v3_is_extended_spi (int_id : Z) : P bool :=
  if EXTENDED_SPI_START_INTID <=? int_id then let* m := val_bsa_gic_max_espi_val in ret (int_id <=? m) else ret false.
Definition v3_is_extended_ppi (int_id : Z) : P bool :=
  if EXTENDED_PPI_START_INTID <=? int_id then let* m := val_bsa_gic_max_eppi_val in ret (int_id <=? m) else ret false.
Definition orP (a b : P bool) : P bool := let* x := a in if x then ret true else b.
Definition andP (a b : P bool) : P bool := let* x := a in if x then b else ret false.
Definition positive (a : P Z) : P bool := let* x := a in ret (negb (x =? 0)).
Definition val_bsa_gic_check_espi_interrupt (int_id : Z) : P bool :=
  andP (positive val_bsa_gic_espi_support) (v3_is_extended_spi int_id).
Definition val_bsa_gic_check_eppi_interrupt (int_id : Z) : P bool :=
  andP (positive val_bsa_gic_eppi_support) (v3_is_extended_ppi int_id).

Definition v3_clear_extended_spi_interrupt (int_id : Z) : P unit :=
  let o := u32 (int_id - EXTENDED_SPI_START_INTID) in
  gicd_write (GICD_ICPENDRE0 + 4 * (o / 32)) (Z.shiftl 1 (o mod 32)) ;;;
  gicd_write (GICD_ICACTIVERE0 + 4 * (o / 32)) (Z.shiftl 1 (o mod 32)).

(** A write to the frame of the current redistributor, if there is one. *)
Definition gicr_write (off data : Z) : P unit :=
  let* f := v3_get_hart_gicr_base in if f =? 0 then ret tt else wr32 (f + off) data.

Definition v3_disable_extended_interrupt_source (int_id : Z) : P unit :=
  let* e := v3_is_extended_spi int_id in
  if e then
    let o := u32 (int_id - EXTENDED_SPI_START_INTID) in
    gicd_write (GICD_ICENABLERE + 4 * (o / 32)) (Z.shiftl 1 (o mod 32))
  else
    let o := u32 (int_id - EXTENDED_PPI_REG_OFFSET) in
    gicr_write (GICR_CTLR_FRAME_SIZE + GICR_ICENABLER + 4 * (o / 32)) (Z.shiftl 1 (o mod 32)).

(** As written, the extended SPIs are disabled here too. *)
Definition v3_enable_extended_interrupt_source (int_id : Z) : P unit :=
  let* e := v3_is_extended_spi int_id in
  if e then
    let o := u32 (int_id - EXTENDED_SPI_START_INTID) in
    gicd_write (GICD_ICENABLERE + 4 * (o / 32)) (Z.shiftl 1 (o mod 32))
  else
    let o := u32 (int_id - EXTENDED_PPI_REG_OFFSET) in
    gicr_write (GICR_CTLR_FRAME_SIZE + GICR_ISENABLER + 4 * (o / 32)) (Z.shiftl 1 (o mod 32)).

(** A byte of a register replaced. *)
Definition set_byte (old shift priority : Z) : Z :=
  u32 (Z.lor (Z.land old (Z.lnot (Z.shiftl 0xff shift))) (Z.shiftl priority shift)).

Definition update_priority (addr shift priority : Z) : P unit :=
  let* old := rd32 addr in wr32 addr (set_byte old shift priority).

Definition v3_set_extended_interrupt_priority (int_id priority : Z) : P unit :=
  let* e := v3_is_extended_spi int_id in
  if e then
    let o := u32 (int_id - EXTENDED_SPI_START_INTID) in
    let* b := val_get_gicd_base in
    update_priority (b + GICD_IPRIORITYRE + 4 * (o / 4)) (o mod 4 * 8) priority
  else
    let o := u32 (int_id - EXTENDED_PPI_REG_OFFSET) in
    let* f := v3_get_hart_gicr_base in
    if f =? 0 then ret tt else update_priority (f + GICR_IPRIORITYR + 4 * (o / 4)) (o mod 4 * 8) priority.

Definition all_affinity : Z := Z.land mpidr (Z.lor (Z.lor (Z.lor PE_AFF0 PE_AFF1) PE_AFF2) PE_AFF3).

Definition v3_route_extended_interrupt (int_id : Z) : P unit :=
  let* b := val_get_gicd_base in wr64 (b + GICD_IROUTERn + u32 (int_id * 8)) all_affinity.

(** The identities from [first] to [last]. *)
Definition upto (first last : Z) : list Z := seqZ first (last - first + 1).

Definition v3_extended_init : P unit :=
  let* espi := val_bsa_gic_max_espi_val in
  let* eppi := val_bsa_gic_max_eppi_val in
  foreach (upto EXTENDED_SPI_START_INTID espi) v3_disable_extended_interrupt_source ;;;
  foreach (upto EXTENDED_PPI_START_INTID eppi) v3_disable_extended_interrupt_source ;;;
  foreach (upto EXTENDED_SPI_START_INTID espi) (fun i => v3_set_extended_interrupt_priority i GIC_DEFAULT_PRIORITY) ;;;
  foreach (upto EXTENDED_PPI_START_INTID eppi) (fun i => v3_set_extended_interrupt_priority i GIC_DEFAULT_PRIORITY) ;;;
  foreach (upto EXTENDED_SPI_START_INTID espi) v3_route_extended_interrupt.

(** ** Version 3 *)

Definition IsSpi (int_id : Z) : bool := (32 <=? int_id) && (int_id <? 1020).

Definition is_extended (int_id : Z) : P bool := orP (v3_is_extended_spi int_id) (v3_is_extended_ppi int_id).

Definition v3_DisableInterruptSource (int_id : Z) : P unit :=
  let* e := is_extended int_id in
  if e then v3_disable_extended_interrupt_source int_id
  else if IsSpi int_id then gicd_write (GICD_ICENABLER + 4 * (int_id / 32)) (Z.shiftl 1 (int_id mod 32))
  else gicr_write (GICR_CTLR_FRAME_SIZE + GICR_ICENABLER + 4 * (int_id / 32)) (Z.shiftl 1 (int_id mod 32)).

Definition v3_EnableInterruptSource (int_id : Z) : P unit :=
  let* e := is_extended int_id in
  if e then v3_enable_extended_interrupt_source int_id
  else if IsSpi int_id then gicd_write (GICD_ISENABLER + 4 * (int_id / 32)) (Z.shiftl 1 (int_id mod 32))
  else gicr_write (GICR_CTLR_FRAME_SIZE + GICR_ISENABLER + 4 * (int_id / 32)) (Z.shiftl 1 (int_id mod 32)).

Definition v3_SetInterruptPriority (int_id priority : Z) : P unit :=
  let* e := is_extended int_id in
  if e then v3_set_extended_interrupt_priority int_id priority
  else if IsSpi int_id then
    let* b := val_get_gicd_base in
    update_priority (b + GICD_IPRIORITYR + 4 * (int_id / 4)) (int_id mod 4 * 8) priority
  else
    let* f := v3_get_hart_gicr_base in
    if f =? 0 then ret tt else update_priority (f + GICR_IPRIORITYR + 4 * (int_id / 4)) (int_id mod 4 * 8) priority.

(** The wait for the redistributor to wake up, with a bound on the reads. *)
Fixpoint wait_awake (fuel : nat) (f : Z) : P unit :=
  match fuel with
  | O => diverge
  | S k => let* w := rd32 (f + GICR_WAKER) in
           if Z.land (Z.shiftr w 2) 0x01 =? 0 then ret tt else wait_awake k f
  end.
Definition WakeUpRD (fuel : nat) : P unit :=
  let* f := v3_get_hart_gicr_base in
  if f =? 0 then ret tt else
  let* tmp := rd32 (f + GICR_WAKER) in
  when (negb (Z.land (Z.shiftr tmp 1) 0x01 =? 0)) (wr32 (f + GICR_WAKER) (Z.land tmp (Z.lnot 0x02))) ;;;
  wait_awake fuel f.

(** ** System registers *)

Definition sys_write (r : BSA_ACS_GIC_REGS) (v : Z) : P unit :=
  modify (fun s => set_sys_writes ((r, v) :: sys_writes s) s).
(** [None] is the default branch, where the test is reported as failed. *)
Definition val_gic_reg_write (reg_id : BSA_ACS_GIC_REGS) (write_data : Z) : P (option unit) :=
  match reg_id with
  | ICH_HCR_EL2 =>
      let* v := val_gic_get_info GIC_INFO_VERSION in
      (if 3 <=? v then sys_write ICH_HCR_EL2 write_data else let* b := val_get_gich_base in wr64 b write_data) ;;;
      ret (Some tt)
  | ICC_IGRPEN1_EL1 | ICC_BPR1_EL1 | ICC_PMR_EL1 => sys_write reg_id write_data ;;; ret (Some tt)
  | ICH_MISR_EL2 => ret None
  end.
Definition val_gic_cpuif_init : P unit :=
  let* _ := val_gic_reg_write ICC_BPR1_EL1 0x7 in
  let* _ := val_gic_reg_write ICC_PMR_EL1 0xff in
  let* _ := val_gic_reg_write ICC_IGRPEN1_EL1 0x1 in
  ret tt.

(** ** Exceptions *)

(** The address of [default_irq_handler]. *)
Context (default_irq_handler_addr : Z).

Definition store_handler (get : gic_state H -> list Z) (put : list Z -> gic_state H -> gic_state H) (i v : Z) : P unit :=
  let* l := gets get in
  let* _ := deref (at_index l i) in
  modify (put (<[Z.to_nat i := v]> l)).

Definition val_gic_bsa_install_esr (exception_type esr : Z) : P unit :=
  store_handler g_esr_handler set_g_esr_handler exception_type esr.
Definition bsa_gic_vector_table_init : P unit := val_gic_bsa_install_esr EXCEPT_AARCH64_IRQ default_irq_handler_addr.

(** Routing the exceptions to EL2. *)
Definition route_el2 : P unit :=
  when (current_el =? AARCH64_EL2) (modify (fun s => set_hcr_writes (Z.shiftl 1 27 :: hcr_writes s) s)).

Definition v3_Init (fuel : nat) : P unit :=
  let* x := orP (positive val_bsa_gic_espi_support) (positive val_bsa_gic_eppi_support) in
  when x v3_extended_init ;;;
  let* gicd_base := val_get_gicd_base in
  let* max := val_get_max_intid in
  foreach (seqZ 0 max) v3_DisableInterruptSource ;;;
  bsa_gic_vector_table_init ;;;
  route_el2 ;;;
  foreach (seqZ 0 max) (fun i => v3_SetInterruptPriority i GIC_DEFAULT_PRIORITY) ;;;
  let* c := rd32 (gicd_base + GICD_CTLR) in
  wr32 (gicd_base + GICD_CTLR) (Z.lor c GIC_ARE_ENABLE) ;;;
  let* c := rd32 (gicd_base + GICD_CTLR) in
  wr32 (gicd_base + GICD_CTLR) (Z.lor c 0x2) ;;;
  let* _ := rd32 (gicd_base + GICD_CTLR) in
  WakeUpRD fuel ;;;
  foreach (seqZ 0 max) (fun i => v3_SetInterruptPriority i GIC_DEFAULT_PRIORITY) ;;;
  foreach (seqZ 0 (u32 (max - 32))) (fun i => wr64 (gicd_base + GICD_IROUTERn + i * 8) all_affinity) ;;;
  val_gic_cpuif_init.

(** ** Version 2 *)

Definition v2_AcknowledgeInterrupt : P Z := let* b := val_get_cpuif_base in rd32 (b + GIC_ICCIAR).
Definition v2_EndofInterrupt (int_id : Z) : P unit := let* b := val_get_cpuif_base in wr32 (b + GIC_ICCEIOR) int_id.
Definition v2_DisableInterruptSource (int_id : Z) : P unit :=
  gicd_write (GICD_ICENABLER + 4 * (int_id / 32)) (Z.shiftl 1 (int_id mod 32)).
Definition v2_EnableInterruptSource (int_id : Z) : P unit :=
  gicd_write (GICD_ISENABLER + 4 * (int_id / 32)) (Z.shiftl 1 (int_id mod 32)).

(** The address of the CPU interface is kept in 32 bits. *)
Definition v2_Init : P unit :=
  let* gicd_base := val_get_gicd_base in
  let* c := val_get_cpuif_base in
  let cpuif_base := u32 c in
  let* max := val_get_max_intid in
  foreach (seqZ 0 max) v2_DisableInterruptSource ;;;
  bsa_gic_vector_table_init ;;;
  route_el2 ;;;
  foreach (seqZ 0 max) (fun i =>
    let* b := val_get_gicd_base in
    update_priority (b + GICD_IPRIORITYR + 4 * (i / 4)) (i mod 4 * 8) GIC_DEFAULT_PRIORITY) ;;;
  let* cpuTarget := gicd_read GIC_ICDIPTR in
  when (negb (cpuTarget =? 0))
    (foreach (seqZ 8 (max / 4 - 8)) (fun i => wr32 (gicd_base + GIC_ICDIPTR + i * 4) cpuTarget)) ;;;
  wr32 (u32 (cpuif_base + GIC_ICCBPR)) 0x7 ;;;
  wr32 (u32 (cpuif_base + GIC_ICCPMR)) 0xff ;;;
  wr32 (u32 (cpuif_base + GIC_ICCICR)) 0x1 ;;;
  gicd_write GICD_CTRL 0x1.

(** ** Dispatch on the version *)

Definition is_v3 : P bool :=
  let* v := val_gic_get_info GIC_INFO_VERSION in ret ((v =? 3) || (v =? 4)).

Definition val_bsa_gic_init (fuel : nat) : P unit := let* b := is_v3 in if b then v3_Init fuel else v2_Init.
Definition val_bsa_gic_enableInterruptSource (int_id : Z) : P unit :=
  let* b := is_v3 in if b then v3_EnableInterruptSource int_id else v2_EnableInterruptSource int_id.
Definition val_bsa_gic_disableInterruptSource (int_id : Z) : P unit :=
  let* b := is_v3 in if b then v3_DisableInterruptSource int_id else v2_DisableInterruptSource int_id.

(** The acknowledge and end-of-interrupt registers of version 3 are system
    registers; [iar] is what the first reads. *)
Context (iar : Z).
Definition val_bsa_gic_acknowledgeInterrupt : P Z := let* b := is_v3 in if b then ret iar else v2_AcknowledgeInterrupt.
Definition log_irq (e : irq_event) : P unit := modify (fun s => set_irq_log (e :: irq_log s) s).
Definition val_bsa_gic_endofInterrupt (int_id : Z) : P unit :=
  let* b := is_v3 in if b then log_irq (EndOfInterrupt int_id) else v2_EndofInterrupt int_id.

(** The index into the handlers is not checked. *)
Definition default_irq_handler : P unit :=
  let* v := val_bsa_gic_acknowledgeInterrupt in
  let n := Z.land v 0xFFFFFF in
  let* l := gets g_intr_handler in
  let* h := deref (at_index l n) in
  log_irq (if h =? 0 then Unregistered n else Called h) ;;;
  val_bsa_gic_endofInterrupt n.

(** The handler of an exception is called whether or not one is installed; 1 tells the
    assembly code that the handler has updated the return address. *)
Definition common_exception_handler (exception_type : Z) : P Z :=
  let* l := gets g_esr_handler in
  let* h := deref (at_index l exception_type) in
  if h =? 0 then undef else
  (if h =? default_irq_handler_addr then default_irq_handler else log_irq (Called h)) ;;;
  ret (if exception_type =? EXCEPT_AARCH64_SYNCHRONOUS_EXCEPTIONS then 1 else 0).

Definition val_gic_bsa_install_isr (interrupt_id isr : Z) : P Z :=
  val_bsa_gic_disableInterruptSource interrupt_id ;;;
  store_handler g_intr_handler set_g_intr_handler interrupt_id isr ;;;
  val_bsa_gic_enableInterruptSource interrupt_id ;;;
  ret 0.

(** ** Interrupts of the distributor *)

Definition val_gic_route_interrupt_to_pe (int_id m : Z) : P Z :=
  when (31 <? int_id)
    (let* b := val_get_gicd_base in
     wr64 (b + GICD_IROUTER + u32 (8 * int_id)) (Z.land m (Z.lor (Z.lor (Z.lor PE_AFF0 PE_AFF1) PE_AFF2) PE_AFF3))) ;;;
  ret 0.

Definition val_gic_get_interrupt_state (int_id : Z) : P Z :=
  let mask := Z.shiftl 1 (int_id mod 32) in
  let* pending := gicd_read (GICD_ISPENDR + 4 * (int_id / 32)) in
  let* active := gicd_read (GICD_ISACTIVER0 + 4 * (int_id / 32)) in
  ret (if negb (Z.land mask active =? 0) || negb (Z.land mask pending =? 0) then 1 else 0).

Definition val_gic_clear_interrupt (int_id : Z) : P unit :=
  let* e := val_bsa_gic_check_espi_interrupt int_id in
  if e then v3_clear_extended_spi_interrupt int_id
  else if (31 <? int_id) && (int_id <? 1020) then
    gicd_write (GICD_ICPENDR0 + 4 * (int_id / 32)) (Z.shiftl 1 (int_id mod 32)) ;;;
    gicd_write (GICD_ICACTIVER0 + 4 * (int_id / 32)) (Z.shiftl 1 (int_id mod 32))
  else ret tt.

Inductive INTR_TRIGGER_INFO_TYPE_e := INTR_TRIGGER_INFO_LEVEL_LOW | INTR_TRIGGER_INFO_LEVEL_HIGH
  | INTR_TRIGGER_INFO_EDGE_FALLING | INTR_TRIGGER_INFO_EDGE_RISING.

(** The status, and [*trigger_type] when it is written. *)
Definition trigger_at (off int_id : Z) : P (Z * option INTR_TRIGGER_INFO_TYPE_e) :=
  let* v := gicd_read (off + 4 * (int_id / GICD_ICFGR_INTR_STRIDE)) in
  ret (0, Some (if Z.land v (Z.shiftl 1 (GICD_ICFGR_INTR_CONFIG1 int_id)) =? 0
                then INTR_TRIGGER_INFO_LEVEL_HIGH else INTR_TRIGGER_INFO_EDGE_RISING)).
Definition val_gic_get_intr_trigger_type (int_id : Z) : P (Z * option INTR_TRIGGER_INFO_TYPE_e) :=
  let* m := val_get_max_intid in
  if m <? int_id then ret (ACS_STATUS_ERR, None) else trigger_at GICD_ICFGR int_id.
(** The shift is that of [int_id] itself, since the macro does not use its argument. *)
Definition val_gic_get_espi_intr_trigger_type (int_id : Z) : P (Z * option INTR_TRIGGER_INFO_TYPE_e) :=
  let* ok := andP (ret (4096 <=? int_id)) (let* m := val_bsa_gic_max_espi_val in ret (int_id <=? m)) in
  if negb ok then ret (ACS_STATUS_ERR, None) else
  let* v := gicd_read (GICD_ICFGRE + 4 * ((int_id - 4096) / GICD_ICFGR_INTR_STRIDE)) in
  ret (0, Some (if Z.land v (Z.shiftl 1 (GICD_ICFGR_INTR_CONFIG1 int_id)) =? 0
                then INTR_TRIGGER_INFO_LEVEL_HIGH else INTR_TRIGGER_INFO_EDGE_RISING)).

Definition header_field (f : GIC_INFO_HDR -> Z) : P Z :=
  let* o := gets g_gic_info_table in match o with None => undef | Some g => ret (f (header g)) end.
Definition val_gic_max_supervisor_intr_num : P Z := header_field supervisor_intr_num.
Definition val_gic_max_guest_intr_num : P Z := header_field guest_intr_num.

(** ** Creating the table *)

(** The structures of the MADT as the walk reads them. *)
Inductive madt_structure := IMSIC (supervisor guest : Z) | PLIC | OTHER_STRUCTURE.

Definition set_first_type (t : Z) (l : list GIC_INFO_ENTRY) : P (list GIC_INFO_ENTRY) :=
  match l with
  | [] => undef
  | e :: l' => ret (mk_gic_entry t (e_base e) (e_entry_id e) (e_length e) (e_flags e) (e_spi_count e) (e_spi_base e) :: l')
  end.
Fixpoint madt_gic (m : list madt_structure) (h : GIC_INFO_HDR) (l : list GIC_INFO_ENTRY) : P (GIC_INFO_HDR * list GIC_INFO_ENTRY) :=
  match m with
  | [] => ret (h, l)
  | IMSIC su gu :: m' =>
      madt_gic m' (mk_gic_hdr (gic_version h) (num_gicd h) (num_gicc_rd h) (num_gicr_rd h) (num_its h) (num_msi_frame h) (num_gich h) su gu) l
  | PLIC :: m' => let* l' := set_first_type ENTRY_TYPE_PLIC l in madt_gic m' h l'
  | OTHER_STRUCTURE :: m' => madt_gic m' h l
  end.
Definition pal_gic_create_info_table (madt : option (list madt_structure)) : P unit :=
  let* o := gets g_gic_info_table in
  match o with
  | None => ret tt
  | Some g =>
      let h := header g in
      let h := mk_gic_hdr 0 0 0 0 0 0 (num_gich h) (supervisor_intr_num h) (guest_intr_num h) in
      modify (set_g_gic_info_table (Some (mk_gic_table h (gic_info g)))) ;;;
      match madt with
      | None => ret tt
      | Some [] => undef   (* the walk reads one structure before it tests the length *)
      | Some m =>
          let* r := madt_gic m h (gic_info g) in
          let* l := set_first_type 0xFF r.2 in
          modify (set_g_gic_info_table (Some (mk_gic_table r.1 l)))
      end
  end.
Definition val_gic_create_info_table (fuel : nat) (madt : option (list madt_structure)) (table : option GIC_INFO_TABLE) : P Z :=
  match table with
  | None => ret ACS_STATUS_ERR
  | Some _ =>
      modify (set_g_gic_info_table table) ;;;
      pal_gic_create_info_table madt ;;;
      when target_is_dt (val_bsa_gic_init fuel) ;;;
      when target_is_bm (val_bsa_gic_init fuel) ;;;
      ret ACS_STATUS_PASS
  end.

(** ** Frames of version 2m *)

(** The frames the 1024 bytes hold, and what they hold before they are written. *)
Definition raw_frames : list MSI_FRAME_ENTRY :=
  let u := uninit "g_v2m_msi_info" in replicate 42 (mk_frame u u u u u).

Fixpoint copy_frames (l : list GIC_INFO_ENTRY) (i : nat) (fs : list MSI_FRAME_ENTRY) : P (list MSI_FRAME_ENTRY) :=
  match l with
  | [] => undef
  | e :: l' =>
      if e_type e =? 0xFF then ret fs
      else if e_type e =? ENTRY_TYPE_GIC_MSI_FRAME then
        let* _ := deref (fs !! i) in
        copy_frames l' (S i) (<[i := mk_frame (e_base e) (e_entry_id e) (e_flags e) (e_spi_count e) (e_spi_base e)]> fs)
      else copy_frames l' i fs
  end.
Definition val_gic_v2m_parse_info : P Z :=
  let* o := gets g_gic_info_table in
  match o with
  | None => ret ACS_STATUS_SKIP
  | Some g =>
      let* p := aligned_alloc in
      if p =? 0 then modify (set_g_v2m_msi_info None) ;;; ret ACS_STATUS_SKIP else
      let* fs := copy_frames (gic_info g) 0 raw_frames in
      modify (set_g_v2m_msi_info (Some (mk_frames (num_msi_frame (header g)) fs))) ;;;
      ret 0
  end.

Inductive V2M_MSI_INFO_e := V2M_MSI_FRAME_ID | V2M_MSI_SPI_BASE | V2M_MSI_SPI_NUM | V2M_MSI_FRAME_BASE | V2M_MSI_FLAGS.

Definition val_gic_v2m_get_info (type : V2M_MSI_INFO_e) (instance : Z) : P Z :=
  let* o := gets g_v2m_msi_info in
  match o with
  | None => ret 0
  | Some m =>
      let* f := deref (at_index (msi_info m) instance) in
      match type with
      | V2M_MSI_FRAME_ID => ret (f_entry_id f)
      | V2M_MSI_FRAME_BASE => ret (f_base f)
      | V2M_MSI_SPI_BASE =>
          if negb (f_spi_base f =? 0) then ret (f_spi_base f)
          else let* t := rd32 (f_base f + GICv2m_MSI_TYPER) in ret (VAL_EXTRACT_BITS t 16 25)
      | V2M_MSI_SPI_NUM =>
          if negb (f_spi_count f =? 0) then ret (f_spi_count f)
          else let* t := rd32 (f_base f + GICv2m_MSI_TYPER) in ret (VAL_EXTRACT_BITS t 0 9)
      | V2M_MSI_FLAGS => ret (f_flags f)
      end
  end.
End Gic.
