(* ===== verification/GicIrq.v ===== *)
(** * Installing interrupt handlers

    What [val_gic_bsa_install_isr] of [val/sys_arch_src/gic/bsa_exception.c] leaves
    behind, on every distributor that implements the set-enable and clear-enable
    registers: the handler that the next interrupt reaches and the interrupts that
    are enabled. *)

From S2P Require Import Prelude Status Mmio PcieCfg Gic.

(** ** The distributor *)

(** The bit of an interrupt in a bank of registers that starts with interrupt [first]. *)
Definition in_bank (first k v n : Z) : bool :=
  (first <=? n) && ((n - first) / 32 =? k) && Z.testbit v ((n - first) mod 32).

(** A distributor at [base]: [on] says which interrupts are enabled, and [typer] is
    its type register. *)
Class Distributor (H : Type) `{Hardware H} (base : Z) := {
  on : H -> Z -> bool;
  typer : Z;
  typer_range : 0 <= typer < 2 ^ 32;
  read_typer : forall h, hw_read W32 (base + GICD_TYPER) h = (typer, h);
  write_isenabler : forall h k v n, 0 <= k < 32 ->
    on (hw_write W32 (base + GICD_ISENABLER + 4 * k) v h) n = in_bank 0 k v n || on h n;
  write_icenabler : forall h k v n, 0 <= k < 32 ->
    on (hw_write W32 (base + GICD_ICENABLER + 4 * k) v h) n = negb (in_bank 0 k v n) && on h n;
  write_icenablere : forall h k v n, 0 <= k < 32 ->
    on (hw_write W32 (base + GICD_ICENABLERE + 4 * k) v h) n = negb (in_bank EXTENDED_SPI_START_INTID k v n) && on h n }.

Lemma in_bank_one first id n : first <= id ->
  in_bank first ((id - first) / 32) (Z.shiftl 1 ((id - first) mod 32)) n = (n =? id).
Proof.
  intros. unfold in_bank. rewrite testbit_shiftl_1 by lia.
  destruct (Z.leb_spec first n), (Z.eqb_spec ((n - first) / 32) ((id - first) / 32)),
    (Z.eqb_spec ((id - first) mod 32) ((n - first) mod 32)), (Z.eqb_spec n id); cbn [andb]; try done; lia.
Qed.

Section Install.
Context {H : Type} `{Distributor H base} `{Uninit}.
Context (mpidr : Z) (Hbase : 0 <= base /\ base + 2 ^ 16 <= 2 ^ 64) (Hal : base mod 4 = 0).
Local Abbreviation state := (gic_state H).
Local Abbreviation P := (prog state).

Definition device (s : state) : H := hw (pcie s).
Definition with_device (h : H) (s : state) : state := set_pcie (set_hw h (pcie s)) s.

(** The table names the distributor before it ends, and gives the version. *)
Record described (s : state) (g : GIC_INFO_TABLE) : Prop := {
  d_table : g_gic_info_table s = Some g;
  d_entry : exists pre e post, gic_info g = pre ++ e :: post /\ e_type e = ENTRY_TYPE_GICD /\ e_base e = base /\
    Forall (fun x => e_type x <> 0xFF /\ e_type x <> ENTRY_TYPE_GICD) pre;
  d_version : gic_version (header g) <> 0 }.

Lemma find_entry_first (p : GIC_INFO_ENTRY -> bool) pre e post (s : state) :
  Forall (fun x => e_type x <> 0xFF /\ p x = false) pre -> e_type e <> 0xFF -> p e = true ->
  find_entry p (pre ++ e :: post) s = Done (Some e, s).
Proof.
  intros Hpre He Hp. induction Hpre as [|x pre [Hx Hpx] _ IH]; cbn [app find_entry].
  - destruct (Z.eqb_spec (e_type e) 0xFF); [done|]. by rewrite Hp.
  - destruct (Z.eqb_spec (e_type x) 0xFF); [done|]. by rewrite Hpx.
Qed.

Lemma gicd_base_done s g : described s g -> val_get_gicd_base s = Done (base, s).
Proof.
  intros [Et (pre & e & post & El & Ty & Eb & Hpre) _]. unfold val_get_gicd_base, base_of_type.
  erewrite bind_done by done. rewrite Et, El.
  erewrite bind_done; [|apply find_entry_first]; [cbn beta iota; by rewrite Eb|..].
  - eapply Forall_impl; [exact Hpre|]. cbn beta. intros x [? ?]. split; [done|]. by apply Z.eqb_neq.
  - by rewrite Ty.
  - by rewrite Ty.
Qed.

Lemma gicd_write_done s g off v : described s g -> 0 <= off < 2 ^ 16 -> 0 <= v < 2 ^ 32 ->
  gicd_write off v s = Done (tt, with_device (hw_write W32 (base + off) v (device s)) s).
Proof.
  intros Hd Ho Hv. unfold gicd_write. rewrite (bind_done _ _ _ _ _ (gicd_base_done s g Hd)).
  unfold wr32. rewrite u64_small by lia. unfold on_pcie, on_hw, pal_mmio_write. by rewrite u32_small by lia.
Qed.

Lemma gicd_typer_done s g : described s g -> gicd_read GICD_TYPER s = Done (typer, s).
Proof.
  intros Hd. unfold gicd_read. rewrite (bind_done _ _ _ _ _ (gicd_base_done s g Hd)).
  unfold rd32. unfold GICD_TYPER in *. rewrite u64_small by lia. unfold on_pcie, on_hw, pal_mmio_read.
  rewrite (u32_mask_aligned (base + 4)) by lia. cbn [Z.eqb negb]. rewrite (read_typer (hw (pcie s))). cbn [fst snd].
  rewrite u32_small by apply typer_range. by destruct s as [[]].
Qed.

Lemma version_done s g : described s g -> val_gic_get_info GIC_INFO_VERSION s = Done (gic_version (header g), s).
Proof.
  intros [Et _ Hv]. unfold val_gic_get_info. erewrite bind_done by done. rewrite Et.
  by destruct (Z.eqb_spec (gic_version (header g)) 0).
Qed.

Lemma described_device h s g : described s g -> described (with_device h s) g.
Proof. by intros []. Qed.

(** ** Interrupts of the distributor *)

Lemma not_extended s g id : described s g -> id < EXTENDED_PPI_START_INTID -> is_extended mpidr id s = Done (false, s).
Proof.
  unfold EXTENDED_PPI_START_INTID. intros Hd Hid. unfold is_extended, orP, v3_is_extended_spi, v3_is_extended_ppi.
  unfold EXTENDED_SPI_START_INTID, EXTENDED_PPI_START_INTID.
  destruct (Z.leb_spec 4096 id); [lia|]. erewrite bind_done by done. by destruct (Z.leb_spec 1056 id); [lia|].
Qed.

Lemma one_bit i : 0 <= i < 32 -> 0 <= Z.shiftl 1 i < 2 ^ 32.
Proof.
  intros. rewrite Z.shiftl_mul_pow2, Z.mul_1_l by lia. split; [apply Z.pow_nonneg; lia|apply Z.pow_lt_mono_r; lia].
Qed.

Lemma spi_write off s g id : off = GICD_ISENABLER \/ off = GICD_ICENABLER -> described s g -> 32 <= id < 1020 ->
  gicd_write (off + 4 * (id / 32)) (Z.shiftl 1 (id mod 32)) s =
    Done (tt, with_device (hw_write W32 (base + off + 4 * (id / 32)) (Z.shiftl 1 (id mod 32)) (device s)) s).
Proof.
  intros Ho Hd Hid. erewrite gicd_write_done; [|exact Hd| |apply one_bit; lia].
  - by rewrite Z.add_assoc.
  - unfold GICD_ISENABLER, GICD_ICENABLER in Ho. lia.
Qed.

Lemma disable_spi s g id : described s g -> 32 <= id < 1020 ->
  exists h, val_bsa_gic_disableInterruptSource mpidr id s = Done (tt, with_device h s) /\
    forall n, on h n = negb (n =? id) && on (device s) n.
Proof.
  intros Hd Hid. unfold val_bsa_gic_disableInterruptSource, is_v3.
  erewrite bind_done by (erewrite bind_done by (exact (version_done s g Hd)); done).
  assert (forall n, on (hw_write W32 (base + GICD_ICENABLER + 4 * (id / 32)) (Z.shiftl 1 (id mod 32)) (device s)) n
    = negb (n =? id) && on (device s) n) as Hon.
  { intros n. rewrite write_icenabler by lia. pose proof (in_bank_one 0 id n) as E. rewrite !Z.sub_0_r in E. by rewrite E by lia. }
  eexists. split; [|exact Hon].
  assert (IsSpi id = true) as Espi by (unfold IsSpi; destruct (Z.leb_spec 32 id), (Z.ltb_spec id 1020); done || lia).
  destruct (_ || _).
  - unfold v3_DisableInterruptSource. erewrite bind_done by (apply (not_extended s g); [done|unfold EXTENDED_PPI_START_INTID; lia]).
    rewrite Espi. apply (spi_write _ s g); [by right|done|done].
  - apply (spi_write _ s g); [by right|done|done].
Qed.

Lemma enable_spi s g id : described s g -> 32 <= id < 1020 ->
  exists h, val_bsa_gic_enableInterruptSource mpidr id s = Done (tt, with_device h s) /\
    forall n, on h n = (n =? id) || on (device s) n.
Proof.
  intros Hd Hid. unfold val_bsa_gic_enableInterruptSource, is_v3.
  erewrite bind_done by (erewrite bind_done by (exact (version_done s g Hd)); done).
  assert (forall n, on (hw_write W32 (base + GICD_ISENABLER + 4 * (id / 32)) (Z.shiftl 1 (id mod 32)) (device s)) n
    = (n =? id) || on (device s) n) as Hon.
  { intros n. rewrite write_isenabler by lia. pose proof (in_bank_one 0 id n) as E. rewrite !Z.sub_0_r in E. by rewrite E by lia. }
  eexists. split; [|exact Hon].
  assert (IsSpi id = true) as Espi by (unfold IsSpi; destruct (Z.leb_spec 32 id), (Z.ltb_spec id 1020); done || lia).
  destruct (_ || _).
  - unfold v3_EnableInterruptSource. erewrite bind_done by (apply (not_extended s g); [done|unfold EXTENDED_PPI_START_INTID; lia]).
    rewrite Espi. apply (spi_write _ s g); [by left|done|done].
  - apply (spi_write _ s g); [by left|done|done].
Qed.

Lemma store_handler_done (s : state) id isr : 0 <= id < Z.of_nat (length (g_intr_handler s)) ->
  store_handler g_intr_handler set_g_intr_handler id isr s =
    Done (tt, set_g_intr_handler (<[Z.to_nat id := isr]> (g_intr_handler s)) s).
Proof.
  intros Hid. unfold store_handler. erewrite bind_done by done. destruct (at_index_lt (g_intr_handler s) id Hid) as [x Ex].
  erewrite bind_done by (rewrite Ex; done). done.
Qed.

(** The handler reached by an interrupt of version 3. *)
Lemma handler_reached (s : state) g id isr :
  described s g -> gic_version (header g) = 3 -> at_index (g_intr_handler s) id = Some isr -> isr <> 0 -> 0 <= id < 2 ^ 24 ->
  exists s', default_irq_handler id s = Done (tt, s') /\ irq_log s' = EndOfInterrupt id :: Called isr :: irq_log s.
Proof.
  intros Hd Hv Eh Hne Hid. unfold default_irq_handler, val_bsa_gic_acknowledgeInterrupt, is_v3.
  erewrite bind_done by (erewrite bind_done by (erewrite bind_done by (exact (version_done s g Hd)); done); rewrite Hv; done).
  change 0xFFFFFF with (Z.ones 24). rewrite Z.land_ones, Z.mod_small by lia.
  erewrite bind_done by done. erewrite bind_done by (rewrite Eh; done).
  destruct (Z.eqb_spec isr 0); [done|]. erewrite bind_done by done. unfold val_bsa_gic_endofInterrupt, is_v3.
  assert (described (set_irq_log (Called isr :: irq_log s) s) g) as Hd' by (by destruct Hd).
  erewrite bind_done by (erewrite bind_done by (exact (version_done _ g Hd')); rewrite Hv; done).
  eexists. split; [done|]. done.
Qed.

(** C17: installing a handler for a shared peripheral interrupt returns success, the
    interrupts enabled are then those of before and this one, no other handler
    changes, and when the interrupt arrives the handler is called and the interrupt
    is ended. *)
Theorem install_isr_enables s g id isr :
  described s g -> gic_version (header g) = 3 -> length (g_intr_handler s) = Z.to_nat NUM_ARM_MAX_INTERRUPT ->
  32 <= id < 1020 -> isr <> 0 ->
  exists s', val_gic_bsa_install_isr mpidr id isr s = Done (0, s') /\
    (forall n, on (device s') n = (n =? id) || on (device s) n) /\
    (forall n, at_index (g_intr_handler s') n = if id =? n then Some isr else at_index (g_intr_handler s) n) /\
    exists s'', default_irq_handler id s' = Done (tt, s'') /\ irq_log s'' = EndOfInterrupt id :: Called isr :: irq_log s.
Proof.
  intros Hd Hv Hlen Hid Hne. unfold val_gic_bsa_install_isr.
  destruct (disable_spi s g id Hd Hid) as (h1 & E1 & O1). rewrite (bind_done _ _ _ _ _ E1).
  assert (0 <= id < Z.of_nat (length (g_intr_handler s))) as Hi by (rewrite Hlen; change NUM_ARM_MAX_INTERRUPT with 16384; lia).
  erewrite bind_done by (apply store_handler_done; exact Hi). set (s2 := set_g_intr_handler _ _).
  assert (described s2 g) as Hd2 by (by destruct Hd).
  destruct (enable_spi s2 g id Hd2 Hid) as (h3 & E3 & O3). rewrite (bind_done _ _ _ _ _ E3).
  destruct (at_index_lt (g_intr_handler s) id Hi) as [old Eo].
  assert (forall n, at_index (g_intr_handler (with_device h3 s2)) n = if id =? n then Some isr else at_index (g_intr_handler s) n) as Hh.
  { intros n. exact (at_index_insert _ id n isr old Eo). }
  exists (with_device h3 s2). split_and!; [done| |exact Hh|].
  - intros n. change (device (with_device h3 s2)) with h3. rewrite O3. change (device s2) with h1. rewrite O1.
    destruct (n =? id), (on (device s) n); done.
  - destruct (handler_reached (with_device h3 s2) g id isr) as (s'' & E'' & L''); [by destruct Hd2|done| |done|lia|].
    + by rewrite Hh, Z.eqb_refl.
    + exists s''. split; [exact E''|exact L''].
Qed.

(** ** Extended interrupts *)

(** The number of the last extended SPI. *)
Definition last_espi : Z := 32 * (Z.land (Z.shiftr typer GICD_TYPER_ESPI_RANGE_SHIFT) GICD_TYPER_ESPI_RANGE_MASK + 1) + 4095.

Lemma is_espi s g id : described s g -> 3 <= gic_version (header g) -> EXTENDED_SPI_START_INTID <= id <= last_espi ->
  v3_is_extended_spi id s = Done (true, s).
Proof.
  intros Hd Hv Hid. unfold v3_is_extended_spi. destruct (Z.leb_spec EXTENDED_SPI_START_INTID id); [|lia].
  unfold val_bsa_gic_max_espi_val. erewrite bind_done; [|erewrite bind_done by (exact (version_done s g Hd))].
  2: { destruct (Z.leb_spec 3 (gic_version (header g))); [|lia]. erewrite bind_done by (exact (gicd_typer_done s g Hd)). done. }
  fold last_espi. by destruct (Z.leb_spec id last_espi); [|lia].
Qed.

(** Both the disabling and the enabling of an extended SPI clear its enable bit. *)
Lemma espi_cleared s g id : described s g -> EXTENDED_SPI_START_INTID <= id <= last_espi ->
  exists h, gicd_write (GICD_ICENABLERE + 4 * (u32 (id - EXTENDED_SPI_START_INTID) / 32))
      (Z.shiftl 1 (u32 (id - EXTENDED_SPI_START_INTID) mod 32)) s = Done (tt, with_device h s) /\
    forall n, on h n = negb (n =? id) && on (device s) n.
Proof.
  intros Hd Hid. assert (last_espi <= 4095 + 32 * 32).
  { unfold last_espi. change GICD_TYPER_ESPI_RANGE_MASK with (Z.ones 5). rewrite Z.land_ones by lia. lia. }
  unfold EXTENDED_SPI_START_INTID in *. rewrite u32_small by lia.
  erewrite gicd_write_done; [|exact Hd|unfold GICD_ICENABLERE; lia|apply one_bit; lia].
  eexists. split; [done|]. intros n. rewrite Z.add_assoc, write_icenablere by lia.
  unfold EXTENDED_SPI_START_INTID. by rewrite (in_bank_one 4096 id n) by lia.
Qed.

Lemma espi_extended s g id : described s g -> gic_version (header g) = 3 -> EXTENDED_SPI_START_INTID <= id <= last_espi ->
  is_extended mpidr id s = Done (true, s).
Proof.
  intros Hd Hv Hid. unfold is_extended, orP. erewrite bind_done by (apply (is_espi s g); [done|lia|done]). done.
Qed.

(** installing a handler for an extended shared peripheral interrupt returns
    success with the interrupt disabled: the function that should enable it writes
    the clear-enable register. Every other interrupt is as before. *)
Theorem install_espi_disabled s g id isr :
  described s g -> gic_version (header g) = 3 -> length (g_intr_handler s) = Z.to_nat NUM_ARM_MAX_INTERRUPT ->
  EXTENDED_SPI_START_INTID <= id <= last_espi ->
  exists s', val_gic_bsa_install_isr mpidr id isr s = Done (0, s') /\
    at_index (g_intr_handler s') id = Some isr /\ forall n, on (device s') n = negb (n =? id) && on (device s) n.
Proof.
  intros Hd Hv Hlen Hid. assert (0 <= id < Z.of_nat (length (g_intr_handler s))) as Hi.
  { rewrite Hlen. change (Z.of_nat (Z.to_nat NUM_ARM_MAX_INTERRUPT)) with 16384. unfold last_espi, EXTENDED_SPI_START_INTID in Hid.
    change GICD_TYPER_ESPI_RANGE_MASK with (Z.ones 5) in Hid. rewrite Z.land_ones in Hid by lia. lia. }
  unfold val_gic_bsa_install_isr, val_bsa_gic_disableInterruptSource, val_bsa_gic_enableInterruptSource, is_v3.
  assert (forall s, described s g -> (let* v := val_gic_get_info GIC_INFO_VERSION in ret ((v =? 3) || (v =? 4))) s = Done (true, s)) as Ev.
  { intros t Ht. erewrite bind_done by (exact (version_done t g Ht)). by rewrite Hv. }
  destruct (espi_cleared s g id Hd Hid) as (h1 & E1 & O1).
  erewrite bind_done.
  2: { erewrite bind_done by (apply Ev; done). unfold v3_DisableInterruptSource.
       erewrite bind_done by (apply (espi_extended s g); done). unfold v3_disable_extended_interrupt_source.
       erewrite bind_done by (apply (is_espi s g); [done|lia|done]). exact E1. }
  erewrite bind_done by (apply store_handler_done; exact Hi). set (s2 := set_g_intr_handler _ _).
  assert (described s2 g) as Hd2 by (by destruct Hd).
  destruct (espi_cleared s2 g id Hd2 Hid) as (h3 & E3 & O3).
  erewrite bind_done.
  2: { erewrite bind_done by (apply Ev; done). unfold v3_EnableInterruptSource.
       erewrite bind_done by (apply (espi_extended s2 g); done). unfold v3_enable_extended_interrupt_source.
       erewrite bind_done by (apply (is_espi s2 g); [done|lia|done]). exact E3. }
  destruct (at_index_lt (g_intr_handler s) id Hi) as [old Eo].
  exists (with_device h3 s2). split_and!; [done| |].
  - rewrite (at_index_insert _ id id isr old Eo : at_index (g_intr_handler (with_device h3 s2)) id = _). by rewrite Z.eqb_refl.
  - intros n. change (device (with_device h3 s2)) with h3. rewrite O3. change (device s2) with h1. rewrite O1.
    destruct (n =? id), (on (device s) n); done.
Qed.
End Install.

(** ** A distributor that has these registers only *)

Module Sample.
Definition dist : Z := 0x8000000.
Definition enabled : Type := Z -> bool.
(** The bank and the register an address lies in. *)
Definition bank (start a : Z) : bool := (dist + start <=? a) && (a <? dist + start + 128).
Definition write (a v : Z) (h : enabled) : enabled :=
  if bank GICD_ISENABLER a then fun n => in_bank 0 ((a - dist - GICD_ISENABLER) / 4) v n || h n
  else if bank GICD_ICENABLER a then fun n => negb (in_bank 0 ((a - dist - GICD_ICENABLER) / 4) v n) && h n
  else if bank GICD_ICENABLERE a then
    fun n => negb (in_bank EXTENDED_SPI_START_INTID ((a - dist - GICD_ICENABLERE) / 4) v n) && h n
  else h.
#[local] Instance dist_hw : Hardware enabled := {
  hw_read := fun _ a h => (if a =? dist + GICD_TYPER then 0x100 else 0, h);
  hw_write := fun _ a v h => write a v h }.

Lemma bank_at start a : dist + start <= a < dist + start + 128 -> bank start a = true.
Proof. intros. unfold bank. destruct (Z.leb_spec (dist + start) a), (Z.ltb_spec a (dist + start + 128)); done || lia. Qed.

Lemma bank_off start a : a < dist + start \/ dist + start + 128 <= a -> bank start a = false.
Proof. intros. unfold bank. destruct (Z.leb_spec (dist + start) a), (Z.ltb_spec a (dist + start + 128)); done || lia. Qed.

#[local, refine] Instance dist_regs : Distributor enabled dist := { on := fun h n => h n; typer := 0x100 }.
Proof.
  - done.
  - done.
  - intros h k v n Hk. cbn [hw_write dist_hw]. unfold write. rewrite bank_at by lia. do 2 f_equal. lia.
  - intros h k v n Hk. cbn [hw_write dist_hw]. unfold write, GICD_ISENABLER, GICD_ICENABLER.
    rewrite bank_off, bank_at by lia. do 3 f_equal. lia.
  - intros h k v n Hk. cbn [hw_write dist_hw]. unfold write, GICD_ISENABLER, GICD_ICENABLER, GICD_ICENABLERE.
    rewrite !bank_off, bank_at by lia. do 3 f_equal. lia.
Defined.

#[local] Instance zeroes : Uninit := fun _ => 0.
Definition entry (t b : Z) : GIC_INFO_ENTRY := mk_gic_entry t b 0 0 0 0 0.
Definition table : GIC_INFO_TABLE :=
  mk_gic_table (mk_gic_hdr 3 1 0 1 0 0 0 0 0) [entry ENTRY_TYPE_CPUIF 0x7000000; entry ENTRY_TYPE_GICD dist; entry 0xFF 0].
Definition start : gic_state enabled :=
  mk_gic (mk_pcie None None 0 (fun _ => false)) (Some table) None (replicate (Z.to_nat NUM_ARM_MAX_INTERRUPT) 0) [] [] [] [] [] [] None [] 0 0.

Lemma start_described : described (base := dist) start table.
Proof.
  split; [done| |done]. exists [entry ENTRY_TYPE_CPUIF 0x7000000], (entry ENTRY_TYPE_GICD dist), [entry 0xFF 0].
  split_and!; [done..|]. by repeat constructor.
Qed.

Lemma gicd_range : 0 <= dist /\ dist + 2 ^ 16 <= 2 ^ 64.
Proof. by split. Qed.

Lemma install_isr_enables_witness :
  exists s', val_gic_bsa_install_isr 0 42 0x80001000 start = Done (0, s') /\
    on (device s') 42 = true /\ on (device s') 43 = false /\ at_index (g_intr_handler s') 42 = Some 0x80001000.
Proof.
  destruct (install_isr_enables (base := dist) 0 gicd_range eq_refl start table 42 0x80001000) as (s' & E & O & T & _).
  - exact start_described.
  - done.
  - apply length_replicate.
  - done.
  - done.
  - exists s'. split_and!; [exact E|rewrite O; done|rewrite O; done|rewrite T; done].
Defined.

Lemma install_espi_disabled_witness :
  exists s', val_gic_bsa_install_isr 0 4100 0x80001000 start = Done (0, s') /\
    on (device s') 4100 = false /\ at_index (g_intr_handler s') 4100 = Some 0x80001000.
Proof.
  destruct (install_espi_disabled (base := dist) 0 gicd_range eq_refl start table 4100 0x80001000) as (s' & E & T & O).
  - exact start_described.
  - done.
  - apply length_replicate.
  - done.
  - exists s'. split_and!; [exact E|rewrite O; done|exact T].
Defined.
End Sample.
