(* ===== verification/Its.v ===== *)
(** * Interrupt translation service

    Models [val/sys_arch_src/gic/its/bsa_gic_its.c] and [bsa_gic_redistributor.c],
    and the functions of [val/src/acs_gic_support.c] that configure the ITS, install
    handlers and program MSI-X tables. The commands of the queue and the
    configuration table are written with the same accessors as registers. *)

From S2P Require Import Prelude Status Mmio PcieCfg PcieCap Gic.

(** ** Constants ([bsa_gic_its.h]) *)

Definition SIZE_4KB : Z := 0x1000.
Definition SIZE_64KB : Z := 0x10000.
Definition PAGE_MASK : Z := 0xFFF.
Definition PAGE_SHIFT : Z := 12.
Definition SIZE_TO_PAGES (Size : Z) : Z :=
  Z.shiftr Size PAGE_SHIFT + (if negb (Z.land Size PAGE_MASK =? 0) then 1 else 0).
Definition PAGES_TO_SIZE (Pages : Z) : Z := u32 (Z.shiftl Pages PAGE_SHIFT).
Definition ARM_LPI_MINID : Z := 8192.
Definition ARM_LPI_MIN_IDBITS : Z := 14.
Definition ARM_LPI_MAX_IDBITS : Z := 31.
Definition WAIT_ITS_COMMAND_DONE : Z := 10000.
Definition ARM_GICD_TYPER : Z := 0x0004.
Definition ARM_GICD_TYPER_LPIS : Z := Z.shiftl 1 17.
Definition ARM_GICD_TYPER_IDbits (v : Z) : Z := Z.land (Z.shiftr v 19) 0x1F.
Definition ARM_GICR_CTLR : Z := 0x0000.
Definition ARM_GICR_PROPBASER : Z := 0x0070.
Definition ARM_GICR_PENDBASER : Z := 0x0078.
Definition ARM_GICR_CTLR_ENABLE_LPIS : Z := Z.shiftl 1 0.
Definition ARM_GICR_TYPER : Z := 0x0008.
Definition ARM_GICR_CTLR_FRAME_SIZE : Z := SIZE_64KB.
Definition ARM_GICR_SGI_PPI_FRAME_SIZE : Z := SIZE_64KB.
Definition ARM_GICR_VLPI_FRAME_SIZE : Z := SIZE_64KB.
Definition ARM_GICR_RESERVED_PAGE_SIZE : Z := SIZE_64KB.
Definition NEXT_DW_OFFSET : Z := 0x4.
Definition ARM_GICR_TYPER_PLPIS : Z := Z.shiftl 1 0.
Definition ARM_GICR_TYPER_VLPIS : Z := Z.shiftl 1 1.
Definition ARM_GICR_TYPER_PN_MASK : Z := 0xFFFF00.
Definition ARM_GICR_TYPER_PN_SHIFT : Z := 8.
Definition ARM_GICR_PROPBASER_IDbits (v : Z) : Z := Z.land v 0x1F.
Definition ARM_GICR_PROPBASER_PA_MASK : Z := Z.shiftl (2 ^ 40 - 1) 12.
Definition ARM_GICR_PENDBASER_PA_MASK : Z := Z.shiftl (2 ^ 36 - 1) 16.
Definition ARM_GITS_CTLR : Z := 0x0000.
Definition ARM_GITS_TYPER : Z := 0x0008.
Definition ARM_GITS_CBASER : Z := 0x0080.
Definition ARM_GITS_CWRITER : Z := 0x0088.
Definition ARM_GITS_CREADR : Z := 0x0090.
Definition ARM_GITS_BASER (n : Z) : Z := 0x0100 + 8 * n.
Definition ARM_GITS_TRANSLATER : Z := 0x10040.
Definition ARM_GITS_CTLR_ENABLE : Z := Z.shiftl 1 0.
Definition ARM_NUM_GITS_BASER : Z := 8.
Definition ARM_GITS_BASER_GET_TYPE (v : Z) : Z := Z.land (Z.shiftr v 56) 0x7.
Definition ARM_GITS_BASER_GET_ENTRY_SIZE (v : Z) : Z := Z.land (Z.shiftr v 48) 0x1F.
Definition ARM_GITS_BASER_PA_MASK : Z := Z.shiftl (2 ^ 36 - 1) 12.
Definition ARM_GITS_BASER_VALID : Z := Z.shiftl 1 63.
Definition ARM_GITS_TBL_TYPE_DEVICE : Z := 0x1.
Definition ARM_GITS_TBL_TYPE_CLCN : Z := 0x4.
Definition ARM_GITS_TYPER_DevBits (v : Z) : Z := Z.land (Z.shiftr v 13) 0x1F.
Definition ARM_GITS_TYPER_CIDBits (v : Z) : Z := Z.land (Z.shiftr v 32) 0xF.
Definition ARM_GITS_TYPER_IDbits (v : Z) : Z := Z.land (Z.shiftr v 8) 0x1F.
Definition ARM_GITS_TYPER_PTA : Z := Z.shiftl 1 19.
Definition ARM_GITS_CREADR_STALL : Z := Z.shiftl 1 0.
Definition ARM_GITS_CWRITER_RETRY : Z := Z.shiftl 1 0.
Definition ARM_GITS_CBASER_VALID : Z := Z.shiftl 1 63.
Definition ARM_GITS_CBASER_PA_MASK : Z := Z.shiftl (2 ^ 40 - 1) 12.
Definition ITT_PAR_MASK : Z := Z.shiftl (2 ^ 44 - 1) 8.
Definition GET_MIN (a b : Z) : Z := if a <? b then a else b.
Definition LPI_PRIORITY1 : Z := 0x50.
Definition LPI_PRIORITY_MASK : Z := 0xFC.
Definition LPI_ENABLE : Z := Z.shiftl 1 0.
Definition LPI_DISABLE : Z := 0x0.
Definition ARM_ITS_CMD_MAPD : Z := 0x8.
Definition ARM_ITS_CMD_MAPC : Z := 0x9.
Definition ARM_ITS_CMD_MAPI : Z := 0xB.
Definition ARM_ITS_CMD_INV : Z := 0xC.
Definition ARM_ITS_CMD_DISCARD : Z := 0xF.
Definition ARM_ITS_CMD_SYNC : Z := 0x5.
Definition RD_BASE_SHIFT : Z := 16.
Definition NUM_PAGES_8 : Z := 8.
Definition ITS_CMD_SHIFT_DEVID : Z := 32.
Definition ITS_CMD_SHIFT_VALID : Z := 63.
Definition ITS_NEXT_CMD_PTR : Z := 4.
Definition NUM_BYTES_IN_DW : Z := 8.

Definition CID_MSIX : Z := 0x11.
Definition MSI_X_ENABLE_SHIFT : Z := 31.
Definition MSI_X_TOR_OFFSET : Z := 0x4.
Definition MSI_X_MSG_TBL_LOWER_ADDR_OFFSET : Z := 0x0.
Definition MSI_X_MSG_TBL_HIGHER_ADDR_OFFSET : Z := 0x4.
Definition MSI_X_MSG_TBL_DATA_OFFSET : Z := 0x8.
Definition MSI_X_MSG_TBL_MVC_OFFSET : Z := 0xC.
Definition MSI_X_TABLE_BIR_MASK : Z := 0x7.
Definition MSI_X_ENTRY_SIZE : Z := 16.
Definition MSI_X_ADDR_SHIFT : Z := 32.
Definition MSI_BIR_MASK : Z := 0xFFFFFFF8.

Section Its.
Context {H : Type} `{Hardware H} `{Uninit}.
Context (mpidr : Z) (target_is_dt target_is_bm : bool).
Local Abbreviation P := (prog (gic_state H)).

(** ** The blocks *)

Definition its_info : P GIC_ITS_INFO := let* o := gets g_gic_its_info in deref o.
Definition its_block (i : Z) : P GIC_ITS_BLOCK := let* g := its_info in deref (at_index (GicIts g) i).
Definition set_blocks (l : list GIC_ITS_BLOCK) (g : GIC_ITS_INFO) : GIC_ITS_INFO :=
  mk_its_info (GicDBase g) (GicRdBase g) (GicNumIts g) l.
Definition upd_block (i : Z) (f : GIC_ITS_BLOCK -> GIC_ITS_BLOCK) : P unit :=
  let* g := its_info in
  let* x := deref (at_index (GicIts g) i) in
  modify (set_g_gic_its_info (Some (set_blocks (<[Z.to_nat i := f x]> (GicIts g)) g))).

(** [val_memory_set] of zeros, as far as the hardware reads the memory. *)
Definition clear_memory (addr size : Z) : P unit :=
  foreach (seqZ 0 (size / 8)) (fun i => wr64 (addr + 8 * i) 0).

(** ** Redistributors *)

(** The frame of the running hart; the scan has one round for each frame. *)
Fixpoint its_rd_scan (fuel : nat) (frame limit gran affinity : Z) : P Z :=
  if negb (frame <? limit) then ret 0 else
  match fuel with
  | O => diverge
  | S k =>
      let* a := rd32 (frame + ARM_GICR_TYPER + NEXT_DW_OFFSET) in
      if a =? affinity then ret frame else its_rd_scan k (u64 (frame + gran)) limit gran affinity
  end.
Definition val_its_get_curr_rdbase (rd_base len : Z) : P Z :=
  let affinity := affinity_of mpidr in
  let* typer := rd32 (rd_base + ARM_GICR_TYPER) in
  let gran := ARM_GICR_CTLR_FRAME_SIZE + ARM_GICR_SGI_PPI_FRAME_SIZE +
    (if negb (Z.land typer ARM_GICR_TYPER_VLPIS =? 0) then ARM_GICR_VLPI_FRAME_SIZE + ARM_GICR_RESERVED_PAGE_SIZE else 0) in
  if len =? 0 then
    let* a := rd32 (rd_base + ARM_GICR_TYPER + NEXT_DW_OFFSET) in
    ret (if a =? affinity then rd_base else 0)
  else its_rd_scan (Z.to_nat (len / gran + 2)) rd_base (u64 (rd_base + len)) gran affinity.

Definition val_its_gicd_lpi_support (gicd_base : Z) : P Z :=
  let* v := rd32 (gicd_base + ARM_GICD_TYPER) in ret (Z.land v ARM_GICD_TYPER_LPIS).
Definition val_its_gicr_lpi_support (rd_base : Z) : P Z :=
  let* v := rd32 (rd_base + ARM_GICR_TYPER) in ret (Z.land v ARM_GICR_TYPER_PLPIS).

(** A table of some pages put into a base register: the bits of [mask] are the address. *)
Definition set_base_register (reg mask address extra : Z) : P unit :=
  let* v := rd64 reg in
  wr64 reg (Z.lor (Z.lor (Z.land v (Z.lnot mask)) (Z.land address mask)) extra).

Definition shl1 (n : Z) : Z := i32 (Z.shiftl 1 n).

Definition ArmGicSetItsConfigTableBase (rd : Z) : P Z :=
  let* v := rd64 (rd + ARM_GICR_PROPBASER) in
  let Pages := u32 (SIZE_TO_PAGES (u32 (shl1 (ARM_GICR_PROPBASER_IDbits v + 1) - ARM_LPI_MINID)) + 1) in
  let* Address := aligned_alloc in
  if Address =? 0 then ret 1 else
  clear_memory Address (PAGES_TO_SIZE Pages) ;;;
  set_base_register (rd + ARM_GICR_PROPBASER) ARM_GICR_PROPBASER_PA_MASK Address 0 ;;;
  modify (set_ConfigBase Address) ;;;
  ret 0.

Definition ArmGicSetItsPendingTableBase (rd : Z) : P Z :=
  let* v := rd64 (rd + ARM_GICR_PROPBASER) in
  let Pages := u32 (SIZE_TO_PAGES (u32 (Z.quot (shl1 (ARM_GICR_PROPBASER_IDbits v + 1)) 8)) + 1) in
  let* Address := aligned_alloc in
  if Address =? 0 then ret 1 else
  clear_memory Address (PAGES_TO_SIZE Pages) ;;;
  set_base_register (rd + ARM_GICR_PENDBASER) ARM_GICR_PENDBASER_PA_MASK Address 0 ;;;
  ret 0.

Definition ArmGicRedistributorConfigurationForLPI (rd : Z) : P Z :=
  let* st := ArmGicSetItsConfigTableBase rd in
  if negb (st =? 0) then ret st else ArmGicSetItsPendingTableBase rd.

Definition ClearConfigTable (IntID : Z) : P unit :=
  let* c := gets ConfigBase in wr8 (c + u32 (IntID - ARM_LPI_MINID)) LPI_DISABLE.
Definition SetConfigTable (IntID Priority : Z) : P unit :=
  let* c := gets ConfigBase in
  wr8 (c + u32 (IntID - ARM_LPI_MINID)) (Z.lor (Z.land Priority LPI_PRIORITY_MASK) LPI_ENABLE).
Definition EnableLPIsRD (rd : Z) : P unit :=
  let* v := rd32 (rd + ARM_GICR_CTLR) in wr32 (rd + ARM_GICR_CTLR) (Z.lor v ARM_GICR_CTLR_ENABLE_LPIS).

(** ** Setting up an ITS *)

Definition set_queue (v : Z) (x : GIC_ITS_BLOCK) : GIC_ITS_BLOCK := mk_its (ID x) (Base x) v (IDBits x) (ITTBase x).
Definition set_idbits (v : Z) (x : GIC_ITS_BLOCK) : GIC_ITS_BLOCK := mk_its (ID x) (Base x) (CommandQBase x) v (ITTBase x).
Definition set_itt (v : Z) (x : GIC_ITS_BLOCK) : GIC_ITS_BLOCK := mk_its (ID x) (Base x) (CommandQBase x) (IDBits x) v.

Definition ArmGicSetItsCommandQueueBase (i : Z) : P Z :=
  let* x := its_block i in
  let* Address := aligned_alloc in
  if Address =? 0 then ret 1 else
  clear_memory Address (NUM_PAGES_8 * SIZE_4KB) ;;;
  upd_block i (set_queue Address) ;;;
  set_base_register (Base x + ARM_GITS_CBASER) ARM_GITS_CBASER_PA_MASK Address
    (Z.lor ARM_GITS_CBASER_VALID (NUM_PAGES_8 - 1)) ;;;
  ret 0.

(** One of the eight table registers; [Some] is an early return. *)
Definition set_table (its it : Z) : P (option Z) :=
  let* baser := rd64 (its + ARM_GITS_BASER it) in
  let entry_size := ARM_GITS_BASER_GET_ENTRY_SIZE baser in
  let* typer := rd64 (its + ARM_GITS_TYPER) in
  let table (bits : Z) : P (option Z) :=
    let Pages := u32 (SIZE_TO_PAGES (u32 (shl1 (bits + 1) * (entry_size + 1)))) in
    let* Address := aligned_alloc in
    if Address =? 0 then ret (Some 1) else
    clear_memory Address (PAGES_TO_SIZE Pages) ;;;
    set_base_register (its + ARM_GITS_BASER it) ARM_GITS_BASER_PA_MASK Address
      (Z.lor ARM_GITS_BASER_VALID (u32 (Pages - 1))) ;;;
    ret None in
  if ARM_GITS_BASER_GET_TYPE baser =? ARM_GITS_TBL_TYPE_DEVICE then table (ARM_GITS_TYPER_DevBits typer)
  else if ARM_GITS_BASER_GET_TYPE baser =? ARM_GITS_TBL_TYPE_CLCN then table (ARM_GITS_TYPER_CIDBits typer)
  else ret None.

Definition ArmGicSetItsTables (i : Z) : P Z :=
  let* x := its_block i in
  let* r := search (seqZ 0 ARM_NUM_GITS_BASER) (set_table (Base x)) in
  match r with
  | Some e => ret e
  | None =>
      let* Address := aligned_alloc in
      if Address =? 0 then ret 1 else
      clear_memory Address (NUM_PAGES_8 * SIZE_4KB) ;;;
      upd_block i (set_itt Address) ;;;
      ret 0
  end.

Definition EnableITS (its : Z) : P unit :=
  let* v := rd32 (its + ARM_GITS_CTLR) in wr32 (its + ARM_GITS_CTLR) (Z.lor v ARM_GITS_CTLR_ENABLE).

(** ** The command queue *)

Definition cwriter (i : Z) : P Z := let* l := gets g_cwriter_ptr in deref (at_index l i).

(** Four words at the write pointer, which counts words and is moved on. *)
Definition write_command (i queue w0 w1 w2 w3 : Z) : P unit :=
  let* p := cwriter i in
  wr64 (queue + 8 * p) w0 ;;;
  wr64 (queue + 8 * (p + 1)) w1 ;;;
  wr64 (queue + 8 * (p + 2)) w2 ;;;
  wr64 (queue + 8 * (p + 3)) w3 ;;;
  modify (fun s => set_g_cwriter_ptr (<[Z.to_nat i := u32 (p + ITS_NEXT_CMD_PTR)]> (g_cwriter_ptr s)) s).

Definition dev_op (device_id op : Z) : Z := u64 (Z.lor (Z.shiftl device_id ITS_CMD_SHIFT_DEVID) op).
Definition WriteCmdQMAPD (i queue device_id ITT_BASE Size Valid : Z) : P unit :=
  write_command i queue (dev_op device_id ARM_ITS_CMD_MAPD) Size
    (u64 (Z.lor (Z.shiftl Valid ITS_CMD_SHIFT_VALID) (Z.land ITT_BASE ITT_PAR_MASK))) 0.
(** The address of the redistributor is passed in 32 bits. *)
Definition WriteCmdQMAPC (i queue Clctn_ID RDBase Valid : Z) : P unit :=
  write_command i queue ARM_ITS_CMD_MAPC 0
    (u64 (Z.lor (Z.lor (Z.shiftl Valid ITS_CMD_SHIFT_VALID) (u32 RDBase)) Clctn_ID)) 0.
Definition WriteCmdQMAPI (i queue device_id int_id Clctn_ID : Z) : P unit :=
  write_command i queue (dev_op device_id ARM_ITS_CMD_MAPI) int_id Clctn_ID 0.
Definition WriteCmdQINV (i queue device_id int_id : Z) : P unit :=
  write_command i queue (dev_op device_id ARM_ITS_CMD_INV) int_id 0 0.
Definition WriteCmdQDISCARD (i queue device_id int_id : Z) : P unit :=
  write_command i queue (dev_op device_id ARM_ITS_CMD_DISCARD) int_id 0 0.
Definition WriteCmdQSYNC (i queue RDBase : Z) : P unit :=
  write_command i queue ARM_ITS_CMD_SYNC 0 (u32 RDBase) 0.

(** The polls; the loop gives up after [WAIT_ITS_COMMAND_DONE] of them. *)
Fixpoint poll_queue (fuel : nat) (its cwriter_value creadr_value : Z) : P unit :=
  if creadr_value =? cwriter_value then ret tt else
  when (negb (Z.land creadr_value ARM_GITS_CREADR_STALL =? 0))
    (wr64 (its + ARM_GITS_CWRITER) (Z.lor cwriter_value ARM_GITS_CWRITER_RETRY)) ;;;
  match fuel with
  | O => ret tt
  | S k => let* v := rd64 (its + ARM_GITS_CREADR) in poll_queue k its cwriter_value v
  end.
Definition PollTillCommandQueueDone (i : Z) : P unit :=
  let* x := its_block i in
  let* w := rd64 (Base x + ARM_GITS_CWRITER) in
  let* r := rd64 (Base x + ARM_GITS_CREADR) in
  poll_queue (Z.to_nat WAIT_ITS_COMMAND_DONE) (Base x) w r.

Definition GetRDBaseFormat (i : Z) : P Z :=
  let* x := its_block i in
  let* g := its_info in
  let* v := rd64 (Base x + ARM_GITS_TYPER) in
  if negb (Z.land (u32 v) ARM_GITS_TYPER_PTA =? 0) then ret (GicRdBase g) else
  let* v := rd64 (GicRdBase g + ARM_GICR_TYPER) in
  ret (Z.shiftl (Z.shiftr (Z.land (u32 v) ARM_GICR_TYPER_PN_MASK) ARM_GICR_TYPER_PN_SHIFT) RD_BASE_SHIFT).

(** The write register, and the wait. *)
Definition submit (i its : Z) : P unit :=
  let* p := cwriter i in
  wr64 (its + ARM_GITS_CWRITER) (u32 (p * NUM_BYTES_IN_DW)) ;;;
  PollTillCommandQueueDone i.

Definition val_its_clear_lpi_map (i device_id int_id : Z) : P unit :=
  let* d := gets g_its_setup_done in
  if d =? 0 then ret tt else
  let* x := its_block i in
  ClearConfigTable int_id ;;;
  let* RDBase := GetRDBaseFormat i in
  WriteCmdQDISCARD i (CommandQBase x) device_id int_id ;;;
  let* y := its_block i in
  WriteCmdQMAPD i (CommandQBase x) device_id (ITTBase y) 0 0 ;;;
  WriteCmdQSYNC i (CommandQBase x) RDBase ;;;
  submit i (Base x).

Definition val_its_create_lpi_map (i device_id int_id Priority : Z) : P unit :=
  let* d := gets g_its_setup_done in
  if d =? 0 then ret tt else
  let* x := its_block i in
  SetConfigTable int_id Priority ;;;
  let* g := its_info in
  EnableLPIsRD (GicRdBase g) ;;;
  EnableITS (Base x) ;;;
  let* RDBase := GetRDBaseFormat i in
  let* y := its_block i in
  WriteCmdQMAPD i (CommandQBase x) device_id (ITTBase y) (IDBits y) 0x1 ;;;
  WriteCmdQMAPC i (CommandQBase x) 0x1 RDBase 0x1 ;;;
  WriteCmdQMAPI i (CommandQBase x) device_id int_id 0x1 ;;;
  WriteCmdQINV i (CommandQBase x) device_id int_id ;;;
  WriteCmdQSYNC i (CommandQBase x) RDBase ;;;
  submit i (Base x).

Definition val_its_get_translater_addr (i : Z) : P Z := let* x := its_block i in ret (u64 (Base x + ARM_GITS_TRANSLATER)).

(** ** Initialisation *)

Definition SetInitialConfiguration (i : Z) : P Z :=
  let* x := its_block i in
  let* g := its_info in
  let* d := rd32 (GicDBase g + ARM_GICD_TYPER) in
  let* t := rd64 (Base x + ARM_GITS_TYPER) in
  let bits := GET_MIN (ARM_GICD_TYPER_IDbits d) (ARM_GITS_TYPER_IDbits t) in
  if bits <? ARM_LPI_MIN_IDBITS then ret 1 else
  let* v := rd64 (GicRdBase g + ARM_GICR_PROPBASER) in
  upd_block i (set_idbits bits) ;;;
  wr64 (GicRdBase g + ARM_GICR_PROPBASER) (Z.lor v bits) ;;;
  ret 0.

(** Some function for each ITS up to the first status that is not 0. *)
Definition each_its (n : Z) (f : Z -> P Z) : P Z :=
  let* r := search (seqZ 0 n) (fun i => let* st := f i in ret (if st =? 0 then None else Some st)) in
  ret (default 0 r).

Definition val_its_init : P Z :=
  let* g := its_info in
  let n := GicNumIts g in
  let* p := aligned_alloc in
  if p =? 0 then ret 0 else
  modify (set_g_cwriter_ptr (replicate (Z.to_nat n) 0)) ;;;
  let* st := each_its n SetInitialConfiguration in
  if negb (st =? 0) then ret st else
  let* st := ArmGicRedistributorConfigurationForLPI (GicRdBase g) in
  if negb (st =? 0) then ret st else
  let* st := each_its n (fun i =>
    let* st := ArmGicSetItsCommandQueueBase i in if negb (st =? 0) then ret st else ArmGicSetItsTables i) in
  if negb (st =? 0) then ret st else
  modify (set_g_its_setup_done 1) ;;;
  ret 0.

Definition val_its_get_max_lpi : P Z :=
  let* o := gets g_gic_its_info in
  match o with
  | None => ret 0
  | Some g =>
      if GicNumIts g =? 0 then ret 0 else
      let* d := gets g_its_setup_done in
      if d =? 0 then ret 0 else
      let l := take (Z.to_nat (GicNumIts g)) (GicIts g) in
      ret (u32 (shl1 (foldl (fun m x => GET_MIN m (IDBits x)) ARM_LPI_MAX_IDBITS l + 1) - 1))
  end.

(** ** [acs_gic_support.c] *)

(** The blocks that 1024 bytes hold. *)
Definition raw_blocks : list GIC_ITS_BLOCK :=
  let u := uninit "g_gic_its_info" in replicate 25 (mk_its u u u u u).

Definition set_rd (v : Z) (g : GIC_ITS_INFO) : GIC_ITS_INFO := mk_its_info (GicDBase g) v (GicNumIts g) (GicIts g).
Definition set_dist (v : Z) (g : GIC_ITS_INFO) : GIC_ITS_INFO := mk_its_info v (GicRdBase g) (GicNumIts g) (GicIts g).

(** One entry of the table. *)
Definition collect_entry (e : GIC_INFO_ENTRY) (g : GIC_ITS_INFO) : P GIC_ITS_INFO :=
  if e_type e =? ENTRY_TYPE_GICD then ret (set_dist (e_base e) g)
  else if (e_type e =? ENTRY_TYPE_GICR_GICRD) || (e_type e =? ENTRY_TYPE_GICC_GICRD) then
    if negb (GicRdBase g =? 0) then ret g else
    let* r := val_its_get_curr_rdbase (e_base e) (if e_type e =? ENTRY_TYPE_GICR_GICRD then u32 (e_length e) else 0) in
    ret (set_rd r g)
  else if e_type e =? ENTRY_TYPE_GICITS then
    let* x := deref (at_index (GicIts g) (GicNumIts g)) in
    ret (mk_its_info (GicDBase g) (GicRdBase g) (u32 (GicNumIts g + 1))
           (<[Z.to_nat (GicNumIts g) := mk_its (e_entry_id e) (e_base e) (CommandQBase x) (IDBits x) (ITTBase x)]> (GicIts g)))
  else ret g.
Fixpoint collect_its (l : list GIC_INFO_ENTRY) (g : GIC_ITS_INFO) : P GIC_ITS_INFO :=
  match l with
  | [] => undef
  | e :: l' => if e_type e =? 0xFF then ret g else let* g' := collect_entry e g in collect_its l' g'
  end.

Definition free_aligned (p : Z) : P unit := modify (fun s => set_gic_freed (p :: gic_freed s) s).

(** On failure the block is freed and the pointer to it kept. *)
Definition val_gic_its_configure : P Z :=
  if target_is_dt then ret ACS_STATUS_SKIP else
  let* o := gets g_gic_info_table in
  let* t := deref o in
  let* p := aligned_alloc in
  if p =? 0 then modify (set_g_gic_its_info None) ;;; ret ACS_STATUS_ERR else
  let* g := collect_its (gic_info t) (mk_its_info 0 0 0 raw_blocks) in
  modify (set_g_gic_its_info (Some g)) ;;;
  let fail := free_aligned p ;;; ret ACS_STATUS_ERR in
  if GicNumIts g =? 0 then fail else
  if (GicRdBase g =? 0) || (GicDBase g =? 0) then fail else
  let* ok := andP (positive (val_its_gicd_lpi_support (GicDBase g))) (positive (val_its_gicr_lpi_support (GicRdBase g))) in
  if negb ok then fail else
  let* st := val_its_init in
  if negb (st =? 0) then fail else ret 0.

Definition get_its_index (its_id : Z) : P Z :=
  let* g := its_info in
  ret (match find_first (fun x => ID x =? its_id) (take (Z.to_nat (GicNumIts g)) (GicIts g)) 0 with
       | Some (i, _) => i
       | None => ACS_INVALID_INDEX
       end).

Definition val_gic_is_valid_lpi (int_id : Z) : P bool :=
  let* m := val_its_get_max_lpi in ret (negb ((int_id <? LPI_MIN_ID) || (m <? int_id))).

(** The address of the MSI-X table of a function, with MSI-X switched on or off. *)
Definition msi_x_table (bdf cap : Z) (on : bool) : P Z :=
  let* r := on_pcie (val_pcie_read_cfg bdf cap (uninit "read_value")) in
  on_pcie (val_pcie_write_cfg bdf cap
    (if on then Z.lor r.2 (Z.shiftl 1 MSI_X_ENABLE_SHIFT) else Z.land r.2 (2 ^ MSI_X_ENABLE_SHIFT - 1))) ;;;
  let* t := on_pcie (val_pcie_read_cfg bdf (u32 (cap + MSI_X_TOR_OFFSET)) (uninit "table_offset_reg")) in
  let bir := Z.land t.2 MSI_X_TABLE_BIR_MASK in
  let* v := on_pcie (val_pcie_read_cfg bdf (TYPE01_BAR + bir * 4) r.2) in
  let lower := Z.land v.2 0xFFFFFFF0 in
  let* a := (if Z.land (Z.shiftr v.2 2) 0x1 =? 0x1
             then let* u := on_pcie (val_pcie_read_cfg bdf (TYPE01_BAR + bir * 4 + 4) v.2) in ret (Z.lor lower (Z.shiftl u.2 32))
             else ret lower) in
  ret (u64 (a + Z.land t.2 MSI_BIR_MASK)).

Definition write_msi_x_entry (table msi_index lower upper data mask : Z) : P unit :=
  let e := table + u32 (msi_index * MSI_X_ENTRY_SIZE) in
  wr32 (e + MSI_X_MSG_TBL_LOWER_ADDR_OFFSET) lower ;;;
  wr32 (e + MSI_X_MSG_TBL_HIGHER_ADDR_OFFSET) upper ;;;
  wr32 (e + MSI_X_MSG_TBL_DATA_OFFSET) data ;;;
  wr32 (e + MSI_X_MSG_TBL_MVC_OFFSET) mask.

Definition clear_msi_x_table (bdf msi_index : Z) : P unit :=
  let* c := on_pcie (val_pcie_find_capability bdf PCIE_CAP CID_MSIX) in
  if negb (c.1 =? 0) then ret tt else
  let* t := msi_x_table bdf (default (uninit "msi_cap_offset") c.2) false in
  write_msi_x_entry t msi_index 0 0 0 0x1.

Definition fill_msi_x_table (bdf msi_index msi_addr msi_data : Z) : P Z :=
  let* r := on_pcie (val_pcie_read_cfg bdf TYPE01_CR (uninit "command_data")) in
  on_pcie (val_pcie_write_cfg bdf TYPE01_CR (Z.lor (Z.lor r.2 (Z.shiftl 1 1)) (Z.shiftl 1 2))) ;;;
  let* c := on_pcie (val_pcie_find_capability bdf PCIE_CAP CID_MSIX) in
  if negb (c.1 =? 0) then ret ACS_STATUS_SKIP else
  let* t := msi_x_table bdf (default (uninit "msi_cap_offset") c.2) true in
  write_msi_x_entry t msi_index (u32 msi_addr) (Z.shiftr msi_addr MSI_X_ADDR_SHIFT) msi_data 0 ;;;
  ret ACS_STATUS_PASS.

Definition val_gic_free_msi (bdf device_id its_id int_id msi_index : Z) : P unit :=
  let* i := get_its_index its_id in
  let* g := its_info in
  if GicNumIts g <=? i then ret tt else
  if (GicRdBase g =? 0) || (GicDBase g =? 0) then ret tt else
  val_its_clear_lpi_map i device_id int_id ;;;
  clear_msi_x_table bdf msi_index.

(** What precedes the work in [val_gic_request_msi] and [val_gic_its_get_base]. *)
Definition its_index_of (its_id : Z) : P (option Z) :=
  let* o := gets g_gic_its_info in
  match o with
  | None => ret None
  | Some g => if GicNumIts g =? 0 then ret None else
              let* i := get_its_index its_id in ret (if GicNumIts g <=? i then None else Some i)
  end.

Definition val_gic_request_msi (bdf device_id its_id int_id msi_index : Z) : P Z :=
  let* oi := its_index_of its_id in
  match oi with
  | None => ret ACS_STATUS_ERR
  | Some i =>
      let* g := its_info in
      if (GicRdBase g =? 0) || (GicDBase g =? 0) then ret ACS_STATUS_ERR else
      val_its_create_lpi_map i device_id int_id LPI_PRIORITY1 ;;;
      let* a := val_its_get_translater_addr i in
      fill_msi_x_table bdf msi_index a int_id
  end.

(** The status, and [*its_base] when it is written. *)
Definition val_gic_its_get_base (its_id : Z) : P (Z * option Z) :=
  let* oi := its_index_of its_id in
  match oi with
  | None => ret (ACS_STATUS_ERR, None)
  | Some i => let* x := its_block i in ret (0, Some (Base x))
  end.

(** [pal_gic_install_isr] is what the platform does on the UEFI port. *)
Definition val_gic_install_isr (pal_gic_install_isr : Z -> Z -> P Z) (int_id isr : Z) : P Z :=
  let* m := val_get_max_intid in
  let* bad :=
    andP (ret (m <? int_id))
      (andP (let* l := val_gic_is_valid_lpi int_id in ret (negb l))
        (andP (let* e := val_bsa_gic_check_espi_interrupt int_id in ret (negb e))
              (let* e := val_bsa_gic_check_eppi_interrupt mpidr int_id in ret (negb e)))) in
  if bad || (int_id =? 0) then ret ACS_STATUS_ERR else
  if target_is_dt || target_is_bm then val_gic_bsa_install_isr mpidr int_id isr else
  let* r := pal_gic_install_isr int_id isr in
  when ((31 <? int_id) && (int_id <? 1024))
    (gicd_write (GICD_ISENABLER + 4 * (int_id / 32)) (Z.shiftl 1 (int_id mod 32))) ;;;
  ret r.
End Its.
