(* ===== verification/ItsMap.v ===== *)
(** * What the ITS translates

    The tables of an ITS as its commands build them, a device that executes the
    commands of its queue in order, and the theorems on mapping and unmapping an
    interrupt: what the device then does with an event. *)

From S2P Require Import Prelude Status Mmio PcieCfg Gic Its.

(** ** The commands *)

(** Devices with the address of their interrupt translation table (ITT) and the width
    of their events, collections with their redistributor, and the entries of the
    ITTs, by address and event: the interrupt and the collection. *)
Record tables := mk_tables { devs : gmap Z (Z * Z); colls : gmap Z Z; events : gmap (Z * Z) (Z * Z) }.

Definition cmd_device (w0 : Z) : Z := Z.shiftr w0 32.
Definition cmd_collection (w2 : Z) : Z := Z.land w2 0xFFFF.
(** Bits 16 to 51. *)
Definition cmd_target (w2 : Z) : Z := Z.shiftl (Z.land (Z.shiftr w2 16) (2 ^ 36 - 1)) 16.

Definition exec (t : tables) (c : list Z) : tables :=
  match c with
  | [w0; w1; w2; _] =>
      let op := Z.land w0 0xFF in
      let d := cmd_device w0 in
      if op =? ARM_ITS_CMD_MAPD then
        mk_tables (if Z.testbit w2 63 then <[d := (Z.land w2 ITT_PAR_MASK, Z.land w1 0x1F)]> (devs t) else delete d (devs t))
          (colls t) (events t)
      else if op =? ARM_ITS_CMD_MAPC then
        mk_tables (devs t)
          (if Z.testbit w2 63 then <[cmd_collection w2 := cmd_target w2]> (colls t) else delete (cmd_collection w2) (colls t))
          (events t)
      else if op =? ARM_ITS_CMD_MAPI then
        match devs t !! d with
        | Some (itt, n) => if u32 w1 <? 2 ^ (n + 1)
                           then mk_tables (devs t) (colls t) (<[(itt, u32 w1) := (u32 w1, cmd_collection w2)]> (events t)) else t
        | None => t
        end
      else if op =? ARM_ITS_CMD_DISCARD then
        match devs t !! d with
        | Some (itt, _) => mk_tables (devs t) (colls t) (delete (itt, u32 w1) (events t))
        | None => t
        end
      else t
  | _ => t
  end.

(** The interrupt that an event of a device raises, and where. *)
Definition translate (t : tables) (d ev : Z) : option (Z * Z) :=
  match devs t !! d with
  | Some (itt, _) =>
      match events t !! (itt, ev) with
      | Some (lpi, c) => match colls t !! c with Some rd => Some (lpi, rd) | None => None end
      | None => None
      end
  | None => None
  end.

(** ** The device *)

Definition queue_bytes : Z := NUM_PAGES_8 * SIZE_4KB.

(** The command at a byte offset of the queue. *)
Definition command_at (w : Z -> Z) (o : Z) : list Z := [w (o / 8); w (o / 8 + 1); w (o / 8 + 2); w (o / 8 + 3)].
Definition commands (w : Z -> Z) (o : Z) (k : nat) : list (list Z) := map (fun j => command_at w (o + 32 * Z.of_nat j)) (seq 0 k).

(** An ITS with registers at [its], its queue at [q] and a configuration table at
    [c]; [rd] is the redistributor. The promises are made while the offsets of the
    queue have not wrapped. *)
Class ItsDevice (H : Type) `{Hardware H} (its q c rd : Z) := {
  qword : H -> Z -> Z;
  cfg : H -> Z -> Z;
  creadr : H -> Z;
  cwriter_reg : H -> Z;
  executed : H -> list (list Z);
  its_typer : Z;
  rd_typer : Z;
  (** With nothing to execute, an access has its own effect only. *)
  quiet (h h' : H) : Prop :=
    cwriter_reg h' = cwriter_reg h /\ creadr h' = creadr h /\ executed h' = executed h;
  idle_read : forall w a h, creadr h = cwriter_reg h ->
    let h' := (hw_read w a h).2 in quiet h h' /\ qword h' = qword h /\ cfg h' = cfg h;
  idle_write_ctlr : forall a v h, creadr h = cwriter_reg h -> a = its + ARM_GITS_CTLR \/ a = rd + ARM_GICR_CTLR ->
    let h' := hw_write W32 a v h in quiet h h' /\ qword h' = qword h /\ cfg h' = cfg h;
  idle_write_cfg : forall j v h, creadr h = cwriter_reg h -> 0 <= j < 2 ^ 32 - ARM_LPI_MINID ->
    let h' := hw_write W8 (c + j) v h in
    quiet h h' /\ qword h' = qword h /\ forall x, cfg h' x = if x =? j then v else cfg h x;
  idle_write_queue : forall j v h, creadr h = cwriter_reg h -> 0 <= j < queue_bytes / 8 ->
    let h' := hw_write W64 (q + 8 * j) v h in
    quiet h h' /\ cfg h' = cfg h /\ forall x, qword h' x = if x =? j then v else qword h x;
  (** The device executes some of the commands up to the write offset. *)
  advances (v : Z) (h h' : H) : Prop :=
    qword h' = qword h /\ cfg h' = cfg h /\ cwriter_reg h' = v /\
    exists k : nat, creadr h' = creadr h + 32 * Z.of_nat k /\ creadr h' <= v /\
      executed h' = executed h ++ commands (qword h) (creadr h) k;
  write_cwriter : forall v h, creadr h = cwriter_reg h -> creadr h <= v < queue_bytes -> v mod 32 = 0 ->
    advances v h (hw_write W64 (its + ARM_GITS_CWRITER) v h);
  read_cwriter : forall h, creadr h <= cwriter_reg h ->
    (hw_read W64 (its + ARM_GITS_CWRITER) h).1 = cwriter_reg h /\
    advances (cwriter_reg h) h (hw_read W64 (its + ARM_GITS_CWRITER) h).2;
  (** A poll sees progress. *)
  read_creadr : forall h, creadr h <= cwriter_reg h ->
    let h' := (hw_read W64 (its + ARM_GITS_CREADR) h).2 in
    (hw_read W64 (its + ARM_GITS_CREADR) h).1 = creadr h' /\ advances (cwriter_reg h) h h' /\
    (creadr h < cwriter_reg h -> creadr h < creadr h');
  read_its_typer : forall h, (hw_read W64 (its + ARM_GITS_TYPER) h).1 = its_typer;
  read_rd_typer : forall h, (hw_read W64 (rd + ARM_GICR_TYPER) h).1 = rd_typer }.

(** ** Commands in memory *)

Lemma commands_ext w w' o k :
  (forall j, o / 8 <= j < o / 8 + 4 * Z.of_nat k -> w' j = w j) -> o mod 8 = 0 -> 0 <= o -> commands w' o k = commands w o k.
Proof.
  intros Hw Hm Ho. unfold commands. apply map_ext_in. intros j Hj%in_seq. unfold command_at.
  replace ((o + 32 * Z.of_nat j) / 8) with (o / 8 + 4 * Z.of_nat j) by lia. repeat f_equal; apply Hw; lia.
Qed.

Lemma commands_snoc w o k : commands w o (S k) = commands w o k ++ [command_at w (o + 32 * Z.of_nat k)].
Proof. unfold commands. by rewrite seq_S, map_app. Qed.

Lemma commands_app w o k l : commands w o (k + l) = commands w o k ++ commands w (o + 32 * Z.of_nat k) l.
Proof.
  induction l as [|l IH].
  - by rewrite Nat.add_0_r, app_nil_r.
  - rewrite Nat.add_succ_r, !commands_snoc, IH, <- app_assoc. do 4 f_equal. lia.
Qed.

(** ** The words of the commands *)

Lemma dev_op_fields d op : 0 <= d < 2 ^ 32 -> 0 <= op < 256 ->
  0 <= dev_op d op < 2 ^ 64 /\ Z.land (dev_op d op) 0xFF = op /\ cmd_device (dev_op d op) = d.
Proof.
  intros. unfold dev_op, cmd_device, ITS_CMD_SHIFT_DEVID. rewrite lor_shiftl_add by lia.
  rewrite (u64_small (d * 2 ^ 32 + op)) by lia. rewrite land_255, Z.shiftr_div_pow2 by lia. lia.
Qed.

Lemma valid_word x : 0 <= x < 2 ^ 63 -> u64 (Z.lor (Z.shiftl 1 ITS_CMD_SHIFT_VALID) x) = 2 ^ 63 + x.
Proof. intros. unfold ITS_CMD_SHIFT_VALID. rewrite lor_shiftl_add, u64_small by lia. lia. Qed.

Lemma valid_bit x : 0 <= x < 2 ^ 63 -> Z.testbit (2 ^ 63 + x) 63 = true.
Proof. intros. rewrite Z.testbit_eqb by lia. lia. Qed.

Lemma itt_range b : 0 <= Z.land b ITT_PAR_MASK < 2 ^ 63.
Proof.
  assert (Z.land b ITT_PAR_MASK = Z.land b ITT_PAR_MASK mod 2 ^ 63) as ->; [|lia].
  rewrite <- Z.land_ones, <- Z.land_assoc by lia. by f_equal.
Qed.

Lemma itt_of b : Z.land (2 ^ 63 + Z.land b ITT_PAR_MASK) ITT_PAR_MASK = Z.land b ITT_PAR_MASK.
Proof.
  pose proof (itt_range b). rewrite <- (Z.mul_1_l (2 ^ 63)), <- lor_shiftl_add by lia.
  rewrite Z.land_lor_distr_l, <- Z.land_assoc, Z.land_diag. by rewrite Z.lor_0_l.
Qed.

Lemma priority_byte v : 0 <= Z.lor (Z.land v LPI_PRIORITY_MASK) LPI_ENABLE < 256.
Proof.
  assert (Z.lor (Z.land v LPI_PRIORITY_MASK) LPI_ENABLE = Z.lor (Z.land v LPI_PRIORITY_MASK) LPI_ENABLE mod 2 ^ 8) as ->; [|lia].
  rewrite <- Z.land_ones, Z.land_lor_distr_l, <- Z.land_assoc by lia. done.
Qed.

Lemma mapc_word r : 0 <= r < 2 ^ 32 -> r mod 2 ^ 16 = 0 ->
  let w := u64 (Z.lor (Z.lor (Z.shiftl 1 ITS_CMD_SHIFT_VALID) (u32 r)) 1) in
  0 <= w < 2 ^ 64 /\ Z.testbit w 63 = true /\ cmd_collection w = 1 /\ cmd_target w = r.
Proof.
  intros Hr Hm w. assert (Z.lor r 1 = r + 1) as E1.
  { apply lor_add. rewrite Z.land_comm. apply Z.bits_inj'. intros j Hj. rewrite Z.land_spec, Z.bits_0.
    destruct (Z.eqb_spec j 0) as [-> |]; [|by rewrite (testbit_high 1 1) by lia].
    rewrite !Z.bit0_odd, (Zodd_mod r). lia. }
  assert (w = 2 ^ 63 + (r + 1)) as ->.
  { unfold w. rewrite u32_small, <- Z.lor_assoc, E1, valid_word by lia. done. }
  split_and!; [lia|lia|apply valid_bit; lia| |].
  - unfold cmd_collection. rewrite land_65535. lia.
  - unfold cmd_target. change (2 ^ 36 - 1) with (Z.ones 36).
    rewrite Z.land_ones, Z.shiftl_mul_pow2, Z.shiftr_div_pow2 by lia. lia.
Qed.

(** The tables after some commands. *)
Definition tables_of (l : list (list Z)) : tables := foldl exec (mk_tables ∅ ∅ ∅) l.

(** ** What the commands of the driver do to the tables *)

(** The specification of mapping and of unmapping an event. *)
Definition map_event (d itt n ev target : Z) (t : tables) : tables :=
  mk_tables (<[d := (itt, n)]> (devs t)) (<[1 := target]> (colls t)) (<[(itt, ev) := (ev, 1)]> (events t)).
Definition unmap_event (d ev : Z) (t : tables) : tables :=
  mk_tables (delete d (devs t)) (colls t)
    (match devs t !! d with Some (itt, _) => delete (itt, ev) (events t) | None => events t end).

(** The commands of the driver, as the words it writes. *)
Definition cmd_mapd (d itt n valid : Z) : list Z :=
  [dev_op d ARM_ITS_CMD_MAPD; n; u64 (Z.lor (Z.shiftl valid ITS_CMD_SHIFT_VALID) (Z.land itt ITT_PAR_MASK)); 0].
Definition cmd_mapc (r : Z) : list Z :=
  [ARM_ITS_CMD_MAPC; 0; u64 (Z.lor (Z.lor (Z.shiftl 1 ITS_CMD_SHIFT_VALID) (u32 r)) 1); 0].
Definition cmd_event (op d ev w2 : Z) : list Z := [dev_op d op; ev; w2; 0].
Definition cmd_sync (r : Z) : list Z := [ARM_ITS_CMD_SYNC; 0; u32 r; 0].

Lemma exec_create t d itt n ev r :
  0 <= d < 2 ^ 32 -> 0 <= n <= 31 -> 0 <= ev < 2 ^ (n + 1) -> 0 <= r < 2 ^ 32 -> r mod 2 ^ 16 = 0 ->
  foldl exec t [cmd_mapd d itt n 1; cmd_mapc r; cmd_event ARM_ITS_CMD_MAPI d ev 1; cmd_event ARM_ITS_CMD_INV d ev 0; cmd_sync r]
  = map_event d (Z.land itt ITT_PAR_MASK) n ev r t.
Proof.
  intros Hd Hn Hev Hr Hm. assert (ev < 2 ^ 32) as Hev32.
  { eapply Z.lt_le_trans; [apply Hev|]. apply Z.pow_le_mono_r; lia. }
  destruct (dev_op_fields d ARM_ITS_CMD_MAPD) as (_ & O1 & D1); [done|done|].
  destruct (dev_op_fields d ARM_ITS_CMD_MAPI) as (_ & O2 & D2); [done|done|].
  destruct (dev_op_fields d ARM_ITS_CMD_INV) as (_ & O3 & _); [done|done|].
  destruct (mapc_word r Hr Hm) as (_ & B & C & T).
  cbn [foldl]. unfold cmd_mapd, exec at 5. rewrite O1, D1, Z.eqb_refl.
  rewrite valid_word, valid_bit, itt_of by apply itt_range.
  unfold cmd_mapc, exec at 4. change (Z.land ARM_ITS_CMD_MAPC 0xFF) with 9. cbn [Z.eqb ARM_ITS_CMD_MAPD ARM_ITS_CMD_MAPC Pos.eqb].
  rewrite B, C, T. unfold cmd_event, exec at 3. rewrite O2, D2. cbn [Z.eqb ARM_ITS_CMD_MAPD ARM_ITS_CMD_MAPC ARM_ITS_CMD_MAPI Pos.eqb].
  cbn [devs]. rewrite lookup_insert_eq. rewrite (u32_small ev) by lia.
  replace (Z.land n 0x1F) with n by (change 0x1F with (Z.ones 5); rewrite Z.land_ones by lia; lia).
  destruct (Z.ltb_spec ev (2 ^ (n + 1))) as [_|]; [|lia].
  unfold exec at 2. rewrite O3. done.
Qed.

Lemma exec_clear t d itt ev r :
  0 <= d < 2 ^ 32 -> 0 <= ev < 2 ^ 32 ->
  foldl exec t [cmd_event ARM_ITS_CMD_DISCARD d ev 0; cmd_mapd d itt 0 0; cmd_sync r] = unmap_event d ev t.
Proof.
  intros Hd Hev.
  destruct (dev_op_fields d ARM_ITS_CMD_DISCARD) as (_ & O1 & D1); [done|done|].
  destruct (dev_op_fields d ARM_ITS_CMD_MAPD) as (_ & O2 & D2); [done|done|].
  pose proof (itt_range itt) as Ri.
  assert (u64 (Z.lor (Z.shiftl 0 ITS_CMD_SHIFT_VALID) (Z.land itt ITT_PAR_MASK)) = Z.land itt ITT_PAR_MASK) as Ew.
  { rewrite Z.shiftl_0_l, Z.lor_0_l. apply u64_small. lia. }
  cbn [foldl]. unfold cmd_event, exec at 3. rewrite O1, D1, (u32_small ev) by lia.
  cbn [Z.eqb ARM_ITS_CMD_MAPD ARM_ITS_CMD_MAPC ARM_ITS_CMD_MAPI ARM_ITS_CMD_DISCARD Pos.eqb].
  unfold cmd_mapd, exec at 2. rewrite O2, D2, Z.eqb_refl, Ew, (testbit_high _ 63 63 Ri) by lia.
  unfold unmap_event. destruct t as [D C E]. cbn [devs colls events]. by destruct (D !! d) as [[]|].
Qed.

Lemma map_event_translates d itt n ev r t : translate (map_event d itt n ev r t) d ev = Some (ev, r).
Proof. unfold translate, map_event. cbn [devs colls events]. by rewrite !lookup_insert_eq. Qed.

Lemma unmap_event_translates d ev e t : translate (unmap_event d ev t) d e = None.
Proof. unfold translate, unmap_event. cbn [devs]. by rewrite lookup_delete_eq. Qed.

Section Map.
Context {H : Type} `{ItsDevice H its q c rd}.
Context (Hits : 0 <= its /\ its + 2 ^ 17 <= 2 ^ 64) (Hq : 0 <= q /\ q + queue_bytes <= 2 ^ 64).
Context (Hc : 0 <= c /\ c + 2 ^ 32 <= 2 ^ 64) (Hrd : 0 <= rd /\ rd + 2 ^ 17 <= 2 ^ 64).
Local Abbreviation state := (gic_state H).
Local Abbreviation P := (prog state).

Definition hw_of (s : state) : H := hw (pcie s).
Definition with_hw (h : H) (s : state) : state := set_pcie (set_hw h (pcie s)) s.

Lemma rd64_done a s : 0 <= a < 2 ^ 64 ->
  rd64 a s = Done (u64 (hw_read W64 a (hw_of s)).1, with_hw (hw_read W64 a (hw_of s)).2 s).
Proof. intros. unfold rd64. by rewrite u64_small. Qed.

Lemma wr64_done a v s : 0 <= a < 2 ^ 64 -> 0 <= v < 2 ^ 64 ->
  wr64 a v s = Done (tt, with_hw (hw_write W64 a v (hw_of s)) s).
Proof. intros. unfold wr64, on_pcie, on_hw, pal_mmio_write64. by rewrite (u64_small a), (u64_small v). Qed.

(** A state between two others: nothing but the hardware and the write pointers differ. *)
Definition same_driver (s s' : state) : Prop :=
  g_gic_its_info s' = g_gic_its_info s /\ g_its_setup_done s' = g_its_setup_done s /\ ConfigBase s' = ConfigBase s /\
  length (g_cwriter_ptr s') = length (g_cwriter_ptr s).

Lemma same_driver_trans s1 s2 s3 : same_driver s1 s2 -> same_driver s2 s3 -> same_driver s1 s3.
Proof. intros (?&?&?&?) (?&?&?&?). repeat split; congruence. Qed.

(** Nothing left to execute, with the write pointer of ITS [i] at word [p]. *)
Definition idle (i : Z) (s : state) (o p : Z) : Prop :=
  creadr (hw_of s) = o /\ cwriter_reg (hw_of s) = o /\ at_index (g_cwriter_ptr s) i = Some p.

(** The commands [cs] have been written from word [p] on. *)
Record queued (i p : Z) (s0 s : state) (cs : list (list Z)) : Prop := {
  q_idle : idle i s (8 * p) (p + 4 * Z.of_nat (length cs));
  q_driver : same_driver s0 s;
  q_executed : executed (hw_of s) = executed (hw_of s0);
  q_cfg : cfg (hw_of s) = cfg (hw_of s0);
  q_commands : commands (qword (hw_of s)) (8 * p) (length cs) = cs }.

Lemma queue_store s o j v : creadr (hw_of s) = o -> cwriter_reg (hw_of s) = o -> 0 <= j < queue_bytes / 8 -> 0 <= v < 2 ^ 64 ->
  exists s', wr64 (q + 8 * j) v s = Done (tt, s') /\ s' = with_hw (hw_of s') s /\
    creadr (hw_of s') = o /\ cwriter_reg (hw_of s') = o /\ executed (hw_of s') = executed (hw_of s) /\
    cfg (hw_of s') = cfg (hw_of s) /\ forall x, qword (hw_of s') x = if x =? j then v else qword (hw_of s) x.
Proof.
  intros Er Ew Hj Hv. change (queue_bytes / 8) with 4096 in Hj. unfold queue_bytes in Hq.
  exists (with_hw (hw_write W64 (q + 8 * j) v (hw_of s)) s). rewrite wr64_done by (unfold NUM_PAGES_8, SIZE_4KB in Hq; lia).
  destruct (idle_write_queue j v (hw_of s)) as ((?&?&?) & ? & ?); [congruence|done|].
  split_and!; try done; cbn [hw_of with_hw pcie set_pcie hw set_hw]; congruence.
Qed.

Lemma write_command_queued i p s0 s cs w0 w1 w2 w3 :
  queued i p s0 s cs -> 0 <= p -> p + 4 * Z.of_nat (length cs) + 4 <= queue_bytes / 8 ->
  0 <= w0 < 2 ^ 64 -> 0 <= w1 < 2 ^ 64 -> 0 <= w2 < 2 ^ 64 -> 0 <= w3 < 2 ^ 64 ->
  exists s', write_command i q w0 w1 w2 w3 s = Done (tt, s') /\ queued i p s0 s' (cs ++ [[w0; w1; w2; w3]]).
Proof.
  intros [(Er & Ew & Ep) Hd Hx Hcfg Hcs] Hp Hroom V0 V1 V2 V3. set (n := p + 4 * Z.of_nat (length cs)) in *.
  unfold write_command, cwriter. erewrite bind_done by (unfold gets, bind, deref; by rewrite Ep).
  destruct (queue_store s (8 * p) n w0) as (s1 & E1 & S1 & R1 & W1 & X1 & C1 & Q1); [done..|lia|done|].
  rewrite (bind_done _ _ _ _ _ E1).
  destruct (queue_store s1 (8 * p) (n + 1) w1) as (s2 & E2 & S2 & R2 & W2 & X2 & C2 & Q2); [done..|lia|done|].
  rewrite (bind_done _ _ _ _ _ E2).
  destruct (queue_store s2 (8 * p) (n + 2) w2) as (s3 & E3 & S3 & R3 & W3 & X3 & C3 & Q3); [done..|lia|done|].
  rewrite (bind_done _ _ _ _ _ E3).
  destruct (queue_store s3 (8 * p) (n + 3) w3) as (s4 & E4 & S4 & R4 & W4 & X4 & C4 & Q4); [done..|lia|done|].
  rewrite (bind_done _ _ _ _ _ E4). eexists. split; [done|]. set (s5 := set_g_cwriter_ptr _ s4).
  assert (hw_of s5 = hw_of s4) as Eh by done.
  assert (g_cwriter_ptr s4 = g_cwriter_ptr s) as Eptr by (by rewrite S4, S3, S2, S1).
  assert (forall x, qword (hw_of s4) x = if x =? n + 3 then w3 else if x =? n + 2 then w2 else if x =? n + 1 then w1
                    else if x =? n then w0 else qword (hw_of s) x) as Qx by (intros x; by rewrite Q4, Q3, Q2, Q1).
  apply at_index_Some in Ep as Ei. destruct Ei as [Hi Ei]. change (queue_bytes / 8) with 4096 in Hroom.
  split; unfold idle; rewrite ?Eh.
  - split_and!; [done..|]. cbn [g_cwriter_ptr set_g_cwriter_ptr s5]. unfold ITS_NEXT_CMD_PTR.
    rewrite Eptr, (at_index_insert _ i i _ _ Ep), Z.eqb_refl. rewrite length_app. cbn [length]. rewrite u32_small by lia. f_equal. lia.
  - eapply same_driver_trans; [exact Hd|].
    assert (same_driver s s4) as (?&?&?&El) by (by rewrite S4, S3, S2, S1). split_and!; [done..|].
    cbn [g_cwriter_ptr set_g_cwriter_ptr s5]. by rewrite length_insert.
  - by rewrite X4, X3, X2, X1.
  - by rewrite C4, C3, C2, C1.
  - rewrite length_app. cbn [length]. rewrite Nat.add_1_r, commands_snoc. f_equal.
    + rewrite <- Hcs at 2. apply commands_ext; [|lia..]. intros j Hj. rewrite Qx.
      rewrite !(proj2 (Z.eqb_neq j _)) by lia. done.
    + unfold command_at. replace ((8 * p + 32 * Z.of_nat (length cs)) / 8) with n by lia. rewrite !Qx.
      repeat match goal with |- context [?a =? ?b] => destruct (Z.eqb_spec a b); try lia end. done.
Qed.

(** ** The wait *)

Lemma advances_refl h : creadr h <= cwriter_reg h -> advances (cwriter_reg h) h h.
Proof. intros. split_and!; [done..|]. exists 0%nat. split_and!; [lia|lia|]. by rewrite app_nil_r. Qed.

Lemma advances_trans v h1 h2 h3 : creadr h1 mod 8 = 0 -> advances v h1 h2 -> advances v h2 h3 -> advances v h1 h3.
Proof.
  intros Hm (Q1 & C1 & W1 & k1 & R1 & L1 & X1) (Q2 & C2 & W2 & k2 & R2 & L2 & X2).
  split_and!; [congruence..|]. exists (k1 + k2)%nat. split_and!; [lia|lia|].
  by rewrite X2, X1, Q1, R1, commands_app, app_assoc.
Qed.

(** A state whose device has moved on. *)
Definition moved (v : Z) (s s' : state) : Prop := s' = with_hw (hw_of s') s /\ advances v (hw_of s) (hw_of s').

Lemma poll_done fuel : forall v s,
  cwriter_reg (hw_of s) = v -> creadr (hw_of s) <= v -> 0 <= creadr (hw_of s) -> v < queue_bytes -> creadr (hw_of s) mod 32 = 0 ->
  v - creadr (hw_of s) <= 32 * Z.of_nat fuel ->
  exists s', poll_queue fuel its v (creadr (hw_of s)) s = Done (tt, s') /\ moved v s s' /\ creadr (hw_of s') = v.
Proof.
  induction fuel as [|k IH]; intros v s Ew Hle H0r Hv Hm Hf; cbn [poll_queue].
  all: destruct (Z.eqb_spec (creadr (hw_of s)) v) as [E|Hne].
  1, 3: exists s; split_and!; [done| |done]; split; [by destruct s as [[]]|rewrite <- Ew; apply advances_refl; lia].
  { lia. }
  assert (Z.land (creadr (hw_of s)) ARM_GITS_CREADR_STALL = 0) as ->.
  { change ARM_GITS_CREADR_STALL with 1. rewrite land_1. lia. }
  cbn [Z.eqb negb when]. erewrite (bind_done (ret tt)) by done.
  unfold queue_bytes, NUM_PAGES_8, SIZE_4KB in Hv.
  erewrite bind_done by (apply rd64_done; unfold ARM_GITS_CREADR; lia).
  set (s1 := with_hw _ s).
  pose proof (read_creadr (hw_of s)) as Rc. cbv zeta in Rc.
  change ((hw_read W64 (its + ARM_GITS_CREADR) (hw_of s)).2) with (hw_of s1) in Rc.
  destruct Rc as (Ev & Adv & Prog); [lia|]. specialize (Prog ltac:(lia)).
  rewrite Ev. destruct Adv as (Q1 & C1 & W1 & k1 & R1 & L1 & X1). rewrite Ew in W1, L1.
  rewrite (u64_small (creadr (hw_of s1))) by lia.
  destruct (IH v s1) as (s' & E' & [M1 M2] & Er); [done|lia|lia|done|lia|lia|].
  exists s'. split_and!; [done| |done]. split; [by rewrite M1|].
  eapply advances_trans; [lia| |exact M2]. split_and!; [done..|by exists k1].
Qed.

Lemma its_block_done (s : state) g i x : g_gic_its_info s = Some g -> at_index (GicIts g) i = Some x -> its_block i s = Done (x, s).
Proof.
  intros E1 E2. unfold its_block. erewrite bind_done by (unfold its_info, gets, bind; rewrite E1; done). unfold deref. by rewrite E2.
Qed.

Lemma submit_done i p s0 s cs g x :
  queued i p s0 s cs -> g_gic_its_info s0 = Some g -> at_index (GicIts g) i = Some x -> Base x = its ->
  0 <= p -> p mod 4 = 0 -> p + 4 * Z.of_nat (length cs) < queue_bytes / 8 ->
  exists s', submit i its s = Done (tt, s') /\ same_driver s0 s' /\
    idle i s' (8 * (p + 4 * Z.of_nat (length cs))) (p + 4 * Z.of_nat (length cs)) /\
    executed (hw_of s') = executed (hw_of s0) ++ cs /\ cfg (hw_of s') = cfg (hw_of s0).
Proof.
  intros [(Er & Ew & Ep) Hd Hx Hcfg Hcs] Eg Ex Eb Hp Hp4 Hroom. set (n := p + 4 * Z.of_nat (length cs)) in *.
  change (queue_bytes / 8) with 4096 in Hroom. unfold submit, cwriter.
  erewrite bind_done by (unfold gets, bind, deref; by rewrite Ep).
  unfold NUM_BYTES_IN_DW. rewrite (u32_small (n * 8)) by lia.
  erewrite bind_done by (apply wr64_done; unfold ARM_GITS_CWRITER; lia). set (s1 := with_hw _ s).
  pose proof (write_cwriter (n * 8) (hw_of s)) as Wc.
  change (hw_write W64 (its + ARM_GITS_CWRITER) (n * 8) (hw_of s)) with (hw_of s1) in Wc.
  destruct Wc as (Q1 & C1 & W1 & k1 & R1 & L1 & X1); [congruence|rewrite Er; change queue_bytes with 32768; lia|lia|].
  unfold PollTillCommandQueueDone.
  assert (g_gic_its_info s1 = Some g) as Eg1 by (destruct Hd as (Hg & _); change (g_gic_its_info s = Some g); congruence).
  rewrite (bind_done _ _ _ _ _ (its_block_done s1 g i x Eg1 Ex)), Eb.
  erewrite bind_done by (apply rd64_done; unfold ARM_GITS_CWRITER; lia). set (s2 := with_hw _ s1).
  pose proof (read_cwriter (hw_of s1)) as Rw.
  change ((hw_read W64 (its + ARM_GITS_CWRITER) (hw_of s1)).2) with (hw_of s2) in Rw.
  destruct Rw as (Ev2 & Q2 & C2 & W2 & k2 & R2 & L2 & X2); [lia|]. rewrite Ev2, W1, (u64_small (n * 8)) by lia.
  erewrite bind_done by (apply rd64_done; unfold ARM_GITS_CREADR; lia). set (s3 := with_hw _ s2).
  pose proof (read_creadr (hw_of s2)) as Rc. cbv zeta in Rc.
  change ((hw_read W64 (its + ARM_GITS_CREADR) (hw_of s2)).2) with (hw_of s3) in Rc.
  destruct Rc as (Ev3 & (Q3 & C3 & W3 & k3 & R3 & L3 & X3) & _); [lia|]. rewrite Ev3, (u64_small (creadr (hw_of s3))) by lia.
  destruct (poll_done (Z.to_nat WAIT_ITS_COMMAND_DONE) (n * 8) s3) as (s4 & E4 & [M4 (Q4 & C4 & W4 & k4 & R4 & L4 & X4)] & Er4);
    [lia|lia|lia|change queue_bytes with 32768; lia|lia|change (Z.of_nat (Z.to_nat WAIT_ITS_COMMAND_DONE)) with 10000; lia|].
  exists s4. split_and!; [done| | | |].
  - eapply same_driver_trans; [exact Hd|]. by rewrite M4.
  - split_and!; [lia|lia|]. by rewrite M4.
  - assert (advances (n * 8) (hw_of s) (hw_of s1)) as A1 by (split_and!; [done..|by exists k1]).
    assert (advances (n * 8) (hw_of s1) (hw_of s2)) as A2 by (split_and!; [done..|lia|exists k2; split_and!; [lia|lia|done]]).
    assert (advances (n * 8) (hw_of s2) (hw_of s3)) as A3 by (split_and!; [done..|lia|exists k3; split_and!; [lia|lia|done]]).
    assert (advances (n * 8) (hw_of s3) (hw_of s4)) as A4 by (split_and!; [done..|exists k4; split_and!; [lia|lia|done]]).
    assert (creadr (hw_of s) mod 8 = 0) as Hm by lia.
    destruct (advances_trans _ _ _ _ Hm (advances_trans _ _ _ _ Hm (advances_trans _ _ _ _ Hm A1 A2) A3) A4)
      as (_ & _ & _ & k & Rk & _ & Xk).
    rewrite Xk, Hx, Er. replace k with (length cs) by lia. by rewrite Hcs.
  - congruence.
Qed.
(** ** The steps before the commands *)

(** The format of the target of a collection: the address of the redistributor or
    its processor number. *)
Definition rd_target : Z :=
  if negb (Z.land (u32 its_typer) ARM_GITS_TYPER_PTA =? 0) then rd
  else Z.shiftl (Z.shiftr (Z.land (u32 rd_typer) ARM_GICR_TYPER_PN_MASK) ARM_GICR_TYPER_PN_SHIFT) RD_BASE_SHIFT.

(** The ITS [i] is set up with this device. *)
Record ready (i : Z) (s : state) (g : GIC_ITS_INFO) (x : GIC_ITS_BLOCK) : Prop := {
  r_done : g_its_setup_done s <> 0;
  r_info : g_gic_its_info s = Some g;
  r_block : at_index (GicIts g) i = Some x;
  r_base : Base x = its;
  r_queue : CommandQBase x = q;
  r_config : ConfigBase s = c;
  r_rd : GicRdBase g = rd }.

Lemma ready_driver i s s' g x : ready i s g x -> same_driver s s' -> ready i s' g x.
Proof. intros [] (?&?&?&?). split; congruence. Qed.

Lemma queued_start i p s : idle i s (8 * p) p -> queued i p s s [].
Proof. intros (?&?&?). split; [split_and!; [done..|]|done..]. by rewrite Z.add_0_r. Qed.

Lemma queued_read w a i p s0 s cs :
  queued i p s0 s cs -> queued i p s0 (with_hw (hw_read w a (hw_of s)).2 s) cs.
Proof.
  intros [(Er & Ew & Ep) Hd Hx Hcfg Hcs]. destruct (idle_read w a (hw_of s)) as ((E1 & E2 & E3) & E4 & E5); [congruence|].
  split; [split_and!; cbn [hw_of with_hw pcie set_pcie hw set_hw]; [congruence..|done]|exact Hd|..];
    cbn [hw_of with_hw pcie set_pcie hw set_hw]; congruence.
Qed.

Lemma queued_ctlr a v i p s0 s cs :
  queued i p s0 s cs -> a = its + ARM_GITS_CTLR \/ a = rd + ARM_GICR_CTLR -> queued i p s0 (with_hw (hw_write W32 a v (hw_of s)) s) cs.
Proof.
  intros [(Er & Ew & Ep) Hd Hx Hcfg Hcs] Ha.
  destruct (idle_write_ctlr a v (hw_of s)) as ((E1 & E2 & E3) & E4 & E5); [congruence|done|].
  split; [split_and!; cbn [hw_of with_hw pcie set_pcie hw set_hw]; [congruence..|done]|exact Hd|..];
    cbn [hw_of with_hw pcie set_pcie hw set_hw]; congruence.
Qed.

(** Setting a bit of one of the two control registers. *)
Lemma set_ctlr_queued a b i p s0 s cs :
  queued i p s0 s cs -> a = its + ARM_GITS_CTLR \/ a = rd + ARM_GICR_CTLR -> 0 <= a < 2 ^ 64 ->
  exists s', (let* v := rd32 a in wr32 a (Z.lor v b)) s = Done (tt, s') /\ queued i p s0 s' cs.
Proof.
  intros Hs Ha Hr. unfold rd32. rewrite (u64_small a) by lia.
  eexists. split.
  - unfold bind at 1, on_pcie at 1, on_hw at 1, pal_mmio_read. cbv beta iota zeta.
    unfold wr32. rewrite (u64_small a) by lia. done.
  - apply (queued_ctlr a _ i p s0 (with_hw _ s) cs); [|done]. by apply queued_read.
Qed.

Lemma rd_format_queued i p s0 s cs g x :
  queued i p s0 s cs -> ready i s0 g x ->
  exists s', GetRDBaseFormat i s = Done (rd_target, s') /\ queued i p s0 s' cs.
Proof.
  intros Hs Hr. destruct (ready_driver _ _ _ _ _ Hr (q_driver _ _ _ _ _ Hs)) as [_ Eg Ex Eb _ _ Ed].
  unfold GetRDBaseFormat, rd_target. rewrite (bind_done _ _ _ _ _ (its_block_done s g i x Eg Ex)).
  erewrite bind_done by (unfold its_info, gets, bind; rewrite Eg; done). rewrite Eb, Ed.
  erewrite bind_done by (apply rd64_done; unfold ARM_GITS_TYPER; lia). rewrite read_its_typer.
  assert (forall v, u32 (u64 v) = u32 v) as Eu by (intros v; unfold u32, u64; lia). rewrite Eu.
  apply (queued_read W64 (its + ARM_GITS_TYPER)) in Hs.
  destruct (negb _); [by eexists|].
  erewrite bind_done by (apply rd64_done; unfold ARM_GICR_TYPER; lia). rewrite read_rd_typer, Eu.
  eexists. split; [done|]. by apply queued_read.
Qed.

(** A byte of the configuration table. *)
Lemma config_stored i p s v int_id :
  idle i s (8 * p) p -> ConfigBase s = c -> ARM_LPI_MINID <= int_id < 2 ^ 32 -> 0 <= v < 256 ->
  exists s', (let* c := gets ConfigBase in wr8 (c + u32 (int_id - ARM_LPI_MINID)) v) s = Done (tt, s') /\
    queued i p s' s' [] /\ same_driver s s' /\ executed (hw_of s') = executed (hw_of s) /\
    forall y, cfg (hw_of s') y = if y =? int_id - ARM_LPI_MINID then v else cfg (hw_of s) y.
Proof.
  intros (Er & Ew & Ep) Ec Hi Hv. unfold ARM_LPI_MINID in *.
  destruct (idle_write_cfg (int_id - 8192) v (hw_of s)) as ((E1 & E2 & E3) & E4 & E5); [congruence|unfold ARM_LPI_MINID; lia|].
  exists (with_hw (hw_write W8 (c + (int_id - 8192)) v (hw_of s)) s). split_and!.
  - erewrite bind_done by done. unfold wr8. rewrite Ec, (u32_small (int_id - 8192)), u64_small by lia.
    unfold on_pcie, on_hw, pal_mmio_write8. by rewrite u8_small.
  - apply queued_start. split_and!; cbn [hw_of with_hw pcie set_pcie hw set_hw]; [congruence..|done].
  - done.
  - done.
  - done.
Qed.

Lemma rd_target_range : rd < 2 ^ 32 -> rd mod 2 ^ 16 = 0 -> 0 <= rd_target < 2 ^ 32 /\ rd_target mod 2 ^ 16 = 0.
Proof.
  intros. unfold rd_target. destruct (negb _); [lia|]. change ARM_GICR_TYPER_PN_MASK with (Z.shiftl (Z.ones 16) 8).
  unfold ARM_GICR_TYPER_PN_SHIFT, RD_BASE_SHIFT.
  rewrite Z.shiftr_land, Z.shiftr_shiftl_l, Z.shiftl_0_r, Z.land_ones, Z.shiftl_mul_pow2 by lia. lia.
Qed.
(** ** Mapping and unmapping *)

(** A run of [write_command] with the state after it. *)
Ltac write_next Hs :=
  match goal with
  | |- context [write_command ?i q ?w0 ?w1 ?w2 ?w3] =>
      let s' := fresh "s" in let E := fresh "E" in let Hq := fresh "Hq" in
      destruct (write_command_queued i _ _ _ _ w0 w1 w2 w3 Hs) as (s' & E & Hq);
      [lia|cbn [length app]; change (queue_bytes / 8) with 4096; lia|try lia..|]
  end.

(** C15: mapping an interrupt on an ITS that is set up returns with the queue empty
    again, and the device then implements the abstract mapping: the tables are those
    of [map_event], so that the event raises exactly this interrupt at the
    redistributor of the running hart, and the configuration byte of the interrupt,
    and no other, holds its priority with the enable bit. *)
Theorem create_lpi_map_installs i p s g x device_id int_id Priority :
  ready i s g x -> idle i s (8 * p) p -> 0 <= p -> p mod 4 = 0 -> p + 20 < queue_bytes / 8 ->
  0 <= device_id < 2 ^ 32 -> 0 <= IDBits x <= 31 -> ARM_LPI_MINID <= int_id < 2 ^ (IDBits x + 1) ->
  rd < 2 ^ 32 -> rd mod 2 ^ 16 = 0 ->
  exists s', val_its_create_lpi_map i device_id int_id Priority s = Done (tt, s') /\
    ready i s' g x /\ idle i s' (8 * (p + 20)) (p + 20) /\
    tables_of (executed (hw_of s')) =
      map_event device_id (Z.land (ITTBase x) ITT_PAR_MASK) (IDBits x) int_id rd_target (tables_of (executed (hw_of s))) /\
    translate (tables_of (executed (hw_of s'))) device_id int_id = Some (int_id, rd_target) /\
    forall y, cfg (hw_of s') y = if y =? int_id - ARM_LPI_MINID then Z.lor (Z.land Priority LPI_PRIORITY_MASK) LPI_ENABLE
                                 else cfg (hw_of s) y.
Proof.
  intros Hr Hi Hp Hp4 Hroom Hd Hn Hev Hrd32 Hrd16. destruct (rd_target_range Hrd32 Hrd16) as [Rt Rm].
  assert (2 ^ (IDBits x + 1) <= 2 ^ 32) as Hpow by (apply Z.pow_le_mono_r; lia).
  unfold val_its_create_lpi_map. erewrite bind_done by done.
  destruct (Z.eqb_spec (g_its_setup_done s) 0) as [Hz|_]; [by destruct (r_done _ _ _ _ Hr)|].
  rewrite (bind_done _ _ _ _ _ (its_block_done s g i x (r_info _ _ _ _ Hr) (r_block _ _ _ _ Hr))).
  unfold ARM_LPI_MINID in Hev. change (queue_bytes / 8) with 4096 in Hroom.
  destruct (config_stored i p s _ int_id Hi (r_config _ _ _ _ Hr) ltac:(unfold ARM_LPI_MINID; lia) (priority_byte Priority))
    as (s1 & E1 & Q1 & D1 & X1 & C1). rewrite (bind_done _ _ _ _ _ E1).
  pose proof (ready_driver _ _ _ _ _ Hr D1) as Hr1.
  erewrite bind_done by (unfold its_info, gets, bind; rewrite (r_info _ _ _ _ Hr1); done).
  rewrite (r_rd _ _ _ _ Hr), (r_base _ _ _ _ Hr), (r_queue _ _ _ _ Hr).
  destruct (set_ctlr_queued (rd + ARM_GICR_CTLR) ARM_GICR_CTLR_ENABLE_LPIS _ _ _ _ _ Q1) as (s2 & E2 & Q2);
    [by right|unfold ARM_GICR_CTLR; lia|]. rewrite (bind_done _ _ _ _ _ E2).
  destruct (set_ctlr_queued (its + ARM_GITS_CTLR) ARM_GITS_CTLR_ENABLE _ _ _ _ _ Q2) as (s3 & E3 & Q3);
    [by left|unfold ARM_GITS_CTLR; lia|]. rewrite (bind_done _ _ _ _ _ E3).
  destruct (rd_format_queued _ _ _ _ _ _ _ Q3 Hr1) as (s4 & E4 & Q4). rewrite (bind_done _ _ _ _ _ E4).
  pose proof (ready_driver _ _ _ _ _ Hr1 (q_driver _ _ _ _ _ Q4)) as Hr4.
  rewrite (bind_done _ _ _ _ _ (its_block_done s4 g i x (r_info _ _ _ _ Hr4) (r_block _ _ _ _ Hr4))).
  unfold WriteCmdQMAPD, WriteCmdQMAPC, WriteCmdQMAPI, WriteCmdQINV, WriteCmdQSYNC.
  pose proof (proj1 (dev_op_fields device_id ARM_ITS_CMD_MAPD Hd ltac:(done))).
  pose proof (proj1 (dev_op_fields device_id ARM_ITS_CMD_MAPI Hd ltac:(done))).
  pose proof (proj1 (dev_op_fields device_id ARM_ITS_CMD_INV Hd ltac:(done))).
  write_next Q4; [apply u64_range|]. rewrite (bind_done _ _ _ _ _ E).
  write_next Hq0; [by unfold ARM_ITS_CMD_MAPC; lia|apply u64_range|]. rewrite (bind_done _ _ _ _ _ E0).
  write_next Hq1. rewrite (bind_done _ _ _ _ _ E5).
  write_next Hq2. rewrite (bind_done _ _ _ _ _ E6).
  write_next Hq3; [by unfold ARM_ITS_CMD_SYNC; lia|pose proof (u32_range rd_target); lia|]. rewrite (bind_done _ _ _ _ _ E7).
  destruct (submit_done _ _ _ _ _ _ _ Hq4 (r_info _ _ _ _ Hr1) (r_block _ _ _ _ Hr1) (r_base _ _ _ _ Hr1))
    as (s' & E' & D' & I' & X' & C'); [done|done|cbn [length app]; change (queue_bytes / 8) with 4096; lia|].
  assert (tables_of (executed (hw_of s')) = map_event device_id (Z.land (ITTBase x) ITT_PAR_MASK) (IDBits x) int_id rd_target
            (tables_of (executed (hw_of s)))) as Et.
  { rewrite X', X1. unfold tables_of at 1. rewrite foldl_app. apply exec_create; [lia..|done]. }
  exists s'. split_and!; [done|exact (ready_driver _ _ _ _ _ Hr1 D')|exact I'|exact Et| |].
  - rewrite Et. apply map_event_translates.
  - intros y. by rewrite C', C1.
Qed.

(** C19: unmapping an interrupt returns with the queue empty again, and the device
    then implements [unmap_event]: no event of the device is translated any longer,
    also the events that were mapped by other requests, and the interrupt is disabled. *)
Theorem clear_lpi_map_removes i p s g x device_id int_id :
  ready i s g x -> idle i s (8 * p) p -> 0 <= p -> p mod 4 = 0 -> p + 12 < queue_bytes / 8 ->
  0 <= device_id < 2 ^ 32 -> ARM_LPI_MINID <= int_id < 2 ^ 32 ->
  exists s', val_its_clear_lpi_map i device_id int_id s = Done (tt, s') /\
    ready i s' g x /\ idle i s' (8 * (p + 12)) (p + 12) /\
    tables_of (executed (hw_of s')) = unmap_event device_id int_id (tables_of (executed (hw_of s))) /\
    (forall ev, translate (tables_of (executed (hw_of s'))) device_id ev = None) /\
    forall y, cfg (hw_of s') y = if y =? int_id - ARM_LPI_MINID then LPI_DISABLE else cfg (hw_of s) y.
Proof.
  intros Hr Hi Hp Hp4 Hroom Hd Hev.
  unfold val_its_clear_lpi_map. erewrite bind_done by done.
  destruct (Z.eqb_spec (g_its_setup_done s) 0) as [Hz|_]; [by destruct (r_done _ _ _ _ Hr)|].
  rewrite (bind_done _ _ _ _ _ (its_block_done s g i x (r_info _ _ _ _ Hr) (r_block _ _ _ _ Hr))).
  unfold ARM_LPI_MINID in Hev. change (queue_bytes / 8) with 4096 in Hroom.
  destruct (config_stored i p s LPI_DISABLE int_id Hi (r_config _ _ _ _ Hr) ltac:(unfold ARM_LPI_MINID; lia) ltac:(done))
    as (s1 & E1 & Q1 & D1 & X1 & C1). rewrite (bind_done _ _ _ _ _ E1).
  pose proof (ready_driver _ _ _ _ _ Hr D1) as Hr1.
  destruct (rd_format_queued _ _ _ _ _ _ _ Q1 Hr1) as (s4 & E4 & Q4). rewrite (bind_done _ _ _ _ _ E4).
  rewrite (r_base _ _ _ _ Hr), (r_queue _ _ _ _ Hr).
  unfold WriteCmdQMAPD, WriteCmdQDISCARD, WriteCmdQSYNC.
  pose proof (proj1 (dev_op_fields device_id ARM_ITS_CMD_MAPD Hd ltac:(done))).
  pose proof (proj1 (dev_op_fields device_id ARM_ITS_CMD_DISCARD Hd ltac:(done))).
  write_next Q4. rewrite (bind_done _ _ _ _ _ E).
  pose proof (ready_driver _ _ _ _ _ Hr1 (q_driver _ _ _ _ _ Hq0)) as Hr4.
  rewrite (bind_done _ _ _ _ _ (its_block_done s0 g i x (r_info _ _ _ _ Hr4) (r_block _ _ _ _ Hr4))).
  write_next Hq0; [apply u64_range|]. rewrite (bind_done _ _ _ _ _ E0).
  write_next Hq1; [by unfold ARM_ITS_CMD_SYNC; lia|pose proof (u32_range rd_target); lia|]. rewrite (bind_done _ _ _ _ _ E2).
  destruct (submit_done _ _ _ _ _ _ _ Hq2 (r_info _ _ _ _ Hr1) (r_block _ _ _ _ Hr1) (r_base _ _ _ _ Hr1))
    as (s' & E' & D' & I' & X' & C'); [done|done|cbn [length app]; change (queue_bytes / 8) with 4096; lia|].
  assert (tables_of (executed (hw_of s')) = unmap_event device_id int_id (tables_of (executed (hw_of s)))) as Et.
  { rewrite X', X1. unfold tables_of at 1. rewrite foldl_app. apply exec_clear; lia. }
  exists s'. split_and!; [done|exact (ready_driver _ _ _ _ _ Hr1 D')|exact I'|exact Et| |].
  - intros ev. rewrite Et. apply unmap_event_translates.
  - intros y. by rewrite C', C1.
Qed.
End Map.

(** ** The limits of the driver *)

Section Limits.
Context {H : Type} `{Hardware H}.

Lemma write_command_pointer i queue w0 w1 w2 w3 (s : gic_state H) p :
  at_index (g_cwriter_ptr s) i = Some p -> 0 <= p -> p + 4 < 2 ^ 32 ->
  exists s', write_command i queue w0 w1 w2 w3 s = Done (tt, s') /\ at_index (g_cwriter_ptr s') i = Some (p + 4).
Proof.
  intros Ep Hp Hlt. eexists. split.
  - unfold write_command, cwriter. erewrite bind_done by (unfold gets, bind, deref; by rewrite Ep). done.
  - cbn [g_cwriter_ptr set_g_cwriter_ptr set_pcie]. rewrite (at_index_insert _ i i _ _ Ep), Z.eqb_refl.
    unfold ITS_NEXT_CMD_PTR. by rewrite u32_small by lia.
Qed.

(** The write pointer only grows: after [n] commands it is at word [4 * n], also past
    the end of the queue, which holds 1024 of them. *)
Lemma queue_pointer_never_wraps (n : nat) i queue w0 w1 w2 w3 (s : gic_state H) p :
  at_index (g_cwriter_ptr s) i = Some p -> 0 <= p -> p + 4 * Z.of_nat n < 2 ^ 32 ->
  exists s', foreach (seqZ 0 (Z.of_nat n)) (fun _ => write_command i queue w0 w1 w2 w3) s = Done (tt, s') /\
    at_index (g_cwriter_ptr s') i = Some (p + 4 * Z.of_nat n).
Proof.
  assert (forall k s p, at_index (g_cwriter_ptr s) i = Some p -> 0 <= p -> p + 4 * Z.of_nat n < 2 ^ 32 ->
    exists s', foreach (seqZ k (Z.of_nat n)) (fun _ => write_command i queue w0 w1 w2 w3) s = Done (tt, s') /\
      at_index (g_cwriter_ptr s') i = Some (p + 4 * Z.of_nat n)) as Hk; [|by apply Hk].
  clear s p. induction n as [|n IH]; intros k s p Ep Hp Hn.
  - exists s. split; [done|]. by rewrite Z.add_0_r.
  - rewrite seqZ_cons by lia. cbn [foreach].
    destruct (write_command_pointer i queue w0 w1 w2 w3 s p Ep) as (s1 & E1 & P1); [lia..|].
    rewrite (bind_done _ _ _ _ _ E1). replace (Z.pred (Z.of_nat (S n))) with (Z.of_nat n) by lia.
    destruct (IH (Z.succ k) s1 (p + 4) P1) as (s' & E' & P'); [lia..|]. exists s'. split; [done|].
    rewrite P'. f_equal. lia.
Qed.
End Limits.

(** All devices of an ITS have the same table: mapping an event of one device makes
    every device that was mapped before translate it. *)
Lemma devices_share_events d d' itt n ev ev' r t :
  d <> d' -> translate (map_event d' itt n ev' r (map_event d itt n ev r t)) d ev' = Some (ev', r).
Proof.
  intros Hne. unfold translate, map_event. cbn [devs colls events].
  rewrite lookup_insert_ne by done. by rewrite !lookup_insert_eq.
Qed.

(** ** A device that executes one command with each poll *)

Module Sample.
Definition base : Z := 0x20000000.
Definition queue : Z := 0x40000000.
Definition config : Z := 0x200000000.
Definition redist : Z := 0x10000000.
(** The two offsets are counted in commands. *)
Record device := mk_device { words : Z -> Z; bytes : Z -> Z; rcmd : Z; wcmd : Z; log : list (list Z) }.

Definition step (h : device) : device :=
  if rcmd h <? wcmd h
  then mk_device (words h) (bytes h) (rcmd h + 1) (wcmd h) (log h ++ [command_at (words h) (32 * rcmd h)]) else h.

Definition read (w : width) (a : Z) (h : device) : Z * device :=
  match w with
  | W64 =>
      if a =? base + ARM_GITS_CREADR then (32 * rcmd (step h), step h)
      else if a =? base + ARM_GITS_CWRITER then (32 * wcmd h, h)
      else if a =? base + ARM_GITS_TYPER then (ARM_GITS_TYPER_PTA, h)
      else (0, h)
  | _ => (0, h)
  end.
Definition write (w : width) (a v : Z) (h : device) : device :=
  match w with
  | W64 =>
      if a =? base + ARM_GITS_CWRITER then mk_device (words h) (bytes h) (rcmd h) (v / 32) (log h)
      else if (queue <=? a) && (a <? queue + queue_bytes) then
        mk_device (fun x => if x =? (a - queue) / 8 then v else words h x) (bytes h) (rcmd h) (wcmd h) (log h)
      else h
  | W8 =>
      if (config <=? a) && (a <? config + 2 ^ 32) then
        mk_device (words h) (fun x => if x =? a - config then v else bytes h x) (rcmd h) (wcmd h) (log h)
      else h
  | _ => h
  end.
#[local] Instance device_hw : Hardware device := { hw_read := read; hw_write := write }.

Lemma step_idle h : rcmd h = wcmd h -> step h = h.
Proof. intros E. unfold step. by rewrite E, Z.ltb_irrefl. Qed.

#[local, refine] Instance device_its : ItsDevice device base queue config redist := {
  qword := words; cfg := bytes; creadr := fun h => 32 * rcmd h; cwriter_reg := fun h => 32 * wcmd h;
  executed := log; its_typer := ARM_GITS_TYPER_PTA; rd_typer := 0 }.
Proof.
  - intros w a h E. assert ((hw_read w a h).2 = h) as ->; [|done]. cbn [hw_read device_hw].
    destruct w; cbn [read]; try done. repeat zcase; try done. cbn [snd]. apply step_idle. lia.
  - done.
  - intros j v h _ Hj. cbn [hw_write device_hw write]. unfold config, ARM_LPI_MINID in *. repeat zcase; try lia.
    cbn [andb]. split_and!; try done. cbn [bytes]. intros x. by replace (0x200000000 + j - 0x200000000) with j by lia.
  - intros j v h _ Hj. change (queue_bytes / 8) with 4096 in Hj. cbn [hw_write device_hw write].
    unfold queue, base, ARM_GITS_CWRITER. change queue_bytes with 32768. repeat zcase; try lia. cbn [andb].
    split_and!; try done. cbn [words]. intros x. by replace ((0x40000000 + 8 * j - 0x40000000) / 8) with j by lia.
  - intros v h E Hv Hm. cbn [hw_write device_hw write]. rewrite Z.eqb_refl. split_and!; [done..|cbn [wcmd]; lia|].
    exists 0%nat. cbn [rcmd log]. split_and!; [lia|lia|]. by rewrite app_nil_r.
  - intros h Hle. change (hw_read W64 (base + ARM_GITS_CWRITER) h) with (32 * wcmd h, h). cbn [fst snd].
    split_and!; [done..|]. exists 0%nat. split_and!; [lia|lia|]. by rewrite app_nil_r.
  - intros h Hle. cbn [hw_read device_hw read]. rewrite Z.eqb_refl. cbn [fst snd]. unfold step.
    destruct (Z.ltb_spec (rcmd h) (wcmd h)); cbn [rcmd wcmd words bytes log]; split_and!; try done; try lia.
    + exists 1%nat. cbn [rcmd wcmd words bytes log]. split_and!; [lia|lia|]. unfold commands. cbn [seq map]. by rewrite Z.add_0_r.
    + exists 0%nat. split_and!; [lia|lia|]. by rewrite app_nil_r.
  - done.
  - done.
Defined.

(** One ITS at the start, with its queue empty. *)
Definition block : GIC_ITS_BLOCK := mk_its 0 base queue 15 0x30000000.
Definition info : GIC_ITS_INFO := mk_its_info 0x8000000 redist 1 [block].
Definition start : gic_state device :=
  mk_gic (mk_pcie None None 0 (mk_device (fun _ => 0) (fun _ => 0) 0 0 [])) None None [] [] [] [] [] [] [] (Some info) [0] 1 config.

Lemma base_range : 0 <= base /\ base + 2 ^ 17 <= 2 ^ 64.
Proof. by split. Qed.
Lemma queue_range : 0 <= queue /\ queue + queue_bytes <= 2 ^ 64.
Proof. by split. Qed.
Lemma config_range : 0 <= config /\ config + 2 ^ 32 <= 2 ^ 64.
Proof. by split. Qed.
Lemma redist_range : 0 <= redist /\ redist + 2 ^ 17 <= 2 ^ 64.
Proof. by split. Qed.

Lemma create_lpi_map_installs_witness :
  exists s', val_its_create_lpi_map 0 0x42 8200 LPI_PRIORITY1 start = Done (tt, s') /\
    translate (tables_of (executed (hw_of s'))) 0x42 8200 = Some (8200, redist) /\
    cfg (hw_of s') 8 = 0x51.
Proof.
  destruct (create_lpi_map_installs (H := device) (its := base) (q := queue) (c := config) (rd := redist)
    base_range queue_range config_range redist_range 0 0 start info block 0x42 8200 LPI_PRIORITY1) as (s' & E & _ & _ & _ & T & C).
  - by split.
  - by split_and!.
  - done.
  - done.
  - by vm_compute.
  - by vm_compute.
  - by vm_compute.
  - by vm_compute.
  - by vm_compute.
  - by vm_compute.
  - exists s'. split_and!; [exact E|exact T|]. exact (C 8).
Defined.

Lemma clear_lpi_map_removes_witness :
  exists s', val_its_clear_lpi_map 0 0x42 8200 start = Done (tt, s') /\
    translate (tables_of (executed (hw_of s'))) 0x42 8200 = None /\ cfg (hw_of s') 8 = 0.
Proof.
  destruct (clear_lpi_map_removes (H := device) (its := base) (q := queue) (c := config) (rd := redist)
    base_range queue_range config_range redist_range 0 0 start info block 0x42 8200) as (s' & E & _ & _ & _ & T & C).
  - by split.
  - by split_and!.
  - done.
  - done.
  - by vm_compute.
  - by vm_compute.
  - by vm_compute.
  - exists s'. split_and!; [exact E|exact (T 8200)|]. exact (C 8).
Defined.
End Sample.
