(* ===== verification/Timer.v ===== *)
(** * Timers, watchdogs and low-power states

    Models [val/src/acs_timer.c], [val/src/acs_timer_support.c], [val/src/acs_wd.c]
    and [val/src/acs_wakeup.c] without their test runners (see [Suite.v]), and the
    tables filled by [platform/pal_uefi_acpi/src/pal_timer_wd.c] and
    [platform/pal_baremetal/common/src/pal_timer_wd.c]. The theorems say which
    platform timer an instance number selects, that the watchdog table lists the
    watchdogs of the firmware, and what arming a watchdog programs. *)

From S2P Require Import Prelude Status Mmio.

(** ** Data *)

Definition ARM_ARCH_TIMER_ENABLE : Z := Z.shiftl 1 0.
Definition ARM_ARCH_TIMER_IMASK : Z := Z.shiftl 1 1.
Definition CNTACR : Z := 0x40.
Definition CNTP_TVAL : Z := 0x28.
Definition CNTP_CTL : Z := 0x2C.
Definition WD_IIDR_OFFSET : Z := 0xFCC.
Definition WD_CS_OFFSET : Z := 0x0.

Inductive ARM_ARCH_TIMER_REGS :=
  | CntFrq | CntPct | CntkCtl | CntpTval | CntpCtl | CntvTval | CntvCtl | CntvCt | CntpCval | CntvCval | CntvOff
  | CnthCtl | CnthpTval | CnthpCtl | CnthpCval | CnthvTval | CnthvCtl | CnthvCval | RegMaximum.

#[export] Instance timer_regs_eq_dec : EqDecision ARM_ARCH_TIMER_REGS.
Proof. solve_decision. Defined.

Record TIMER_INFO_HDR := mk_timer_hdr {
  s_el1_timer_flag : Z; ns_el1_timer_flag : Z; el2_timer_flag : Z; el2_virt_timer_flag : Z;
  s_el1_timer_gsiv : Z; ns_el1_timer_gsiv : Z; el2_timer_gsiv : Z; virtual_timer_flag : Z; virtual_timer_gsiv : Z;
  el2_virt_timer_gsiv : Z; num_platform_timer : Z; num_watchdog : Z; sys_timer_status : Z; time_base_frequency : Z }.
(** The arrays have eight elements. *)
Record TIMER_INFO_GTBLOCK := mk_gtblock {
  gt_type : Z; timer_count : Z; block_cntl_base : Z;
  frame_num : list Z; GtCntBase : list Z; GtCntEl0Base : list Z; gsiv : list Z; virt_gsiv : list Z; gt_flags : list Z }.
(** [gt_info] is the memory behind the header. *)
Record TIMER_INFO_TABLE := mk_timer_table { t_header : TIMER_INFO_HDR; gt_info : list TIMER_INFO_GTBLOCK }.

Record WD_INFO_BLOCK := mk_wd { wd_ctrl_base : Z; wd_refresh_base : Z; wd_gsiv : Z; wd_flags : Z }.
Record WD_INFO_TABLE := mk_wd_table { num_wd : Z; wd_info : list WD_INFO_BLOCK }.

(** ** State *)

(** The system registers of the timers, which assembly code accesses. *)
Class TimerRegs (H : Type) := {
  treg_read : ARM_ARCH_TIMER_REGS -> H -> Z * H;
  treg_write : ARM_ARCH_TIMER_REGS -> Z -> H -> H }.

Record timer_state {H : Type} := mk_timer {
  t_hw : H;
  g_timer_info_table : option TIMER_INFO_TABLE;
  g_wd_info_table : option WD_INFO_TABLE }.
Arguments timer_state : clear implicits.
Arguments mk_timer {H}.

Section Timer.
Context {H : Type} `{Hardware H} `{TimerRegs H}.
Local Abbreviation P := (prog (timer_state H)).

Definition on_device {A} (m : prog H A) : P A := fun s =>
  match m (t_hw s) with
  | Done (a, h) => Done (a, mk_timer h (g_timer_info_table s) (g_wd_info_table s))
  | Undefined => Undefined
  | Diverges => Diverges
  end.
Definition mmio_read (a : Z) : P Z := on_device (pal_mmio_read (u64 a)).
Definition mmio_write (a v : Z) : P unit := on_device (pal_mmio_write (u64 a) v).
Definition set_timer_table (t : option TIMER_INFO_TABLE) (s : timer_state H) : timer_state H :=
  mk_timer (t_hw s) t (g_wd_info_table s).
Definition set_wd_table (t : option WD_INFO_TABLE) (s : timer_state H) : timer_state H :=
  mk_timer (t_hw s) (g_timer_info_table s) t.

(** ** The registers of the timers *)

Definition ArmArchTimerReadReg (Reg : ARM_ARCH_TIMER_REGS) : P Z :=
  match Reg with
  | CnthCtl | CnthpCval | CnthvCval | RegMaximum => ret 0xFFFFFFFF
  | _ => on_device (fun h => let r := treg_read Reg h in Done (u64 r.1, r.2))
  end.
Definition ArmArchTimerWriteReg (Reg : ARM_ARCH_TIMER_REGS) (data : Z) : P unit :=
  match Reg with
  | CntPct | CntvCt | CnthCtl | CnthpCval | CntFrq | CnthvCval | RegMaximum => ret tt
  | _ => on_device (fun h => Done (tt, treg_write Reg data h))
  end.

Definition ArmGenericTimerEnableTimer (reg : ARM_ARCH_TIMER_REGS) : P unit :=
  let* v := ArmArchTimerReadReg reg in
  ArmArchTimerWriteReg reg (Z.lor (Z.land v (Z.lnot ARM_ARCH_TIMER_IMASK)) ARM_ARCH_TIMER_ENABLE).
Definition ArmGenericTimerDisableTimer (reg : ARM_ARCH_TIMER_REGS) : P unit :=
  let* v := ArmArchTimerReadReg reg in
  ArmArchTimerWriteReg reg (Z.land (Z.lor v ARM_ARCH_TIMER_IMASK) (Z.lnot ARM_ARCH_TIMER_ENABLE)).

(** The four functions that follow differ in the registers only. *)
Definition set_timer (ctl tval : ARM_ARCH_TIMER_REGS) (timeout : Z) : P unit :=
  if negb (timeout =? 0) then
    ArmGenericTimerDisableTimer ctl ;;; ArmArchTimerWriteReg tval timeout ;;; ArmGenericTimerEnableTimer ctl
  else ArmGenericTimerDisableTimer ctl.
Definition val_timer_set_phy_el1 : Z -> P unit := set_timer CntpCtl CntpTval.
Definition val_timer_set_vir_el1 : Z -> P unit := set_timer CntvCtl CntvTval.
Definition val_timer_set_phy_el2 : Z -> P unit := set_timer CnthpCtl CnthpTval.
Definition val_timer_set_vir_el2 : Z -> P unit := set_timer CnthvCtl CnthvTval.
Definition val_get_phy_el2_timer_count : P Z := ArmArchTimerReadReg CnthpTval.
Definition val_get_phy_el1_timer_count : P Z := ArmArchTimerReadReg CntpTval.

(** ** The table of timers *)

(** The loop over the blocks: block and index within it. *)
Fixpoint timer_entry_loop (l : list TIMER_INFO_GTBLOCK) (instance block index : Z) : P (Z * option Z) :=
  match l with
  | [] => undef
  | b :: l' =>
      if timer_count b <? instance
      then timer_entry_loop l' (instance - timer_count b) (u32 (block + 1)) (u32 (instance - timer_count b))
      else ret (block, Some index)
  end.
(** [*block] and [*index], which is not written when there is no such timer. *)
Definition val_platform_timer_get_entry_index (instance : Z) : P (Z * option Z) :=
  let* o := gets g_timer_info_table in
  let* t := deref o in
  if num_platform_timer (t_header t) <? instance then ret (0xFFFF, None)
  else timer_entry_loop (gt_info t) instance 0 (u32 instance).

Inductive TIMER_INFO_e :=
  | TIMER_INFO_CNTFREQ | TIMER_INFO_PHY_EL1_INTID | TIMER_INFO_PHY_EL1_FLAGS | TIMER_INFO_VIR_EL1_INTID
  | TIMER_INFO_VIR_EL1_FLAGS | TIMER_INFO_PHY_EL2_INTID | TIMER_INFO_PHY_EL2_FLAGS | TIMER_INFO_VIR_EL2_INTID
  | TIMER_INFO_VIR_EL2_FLAGS | TIMER_INFO_NUM_PLATFORM_TIMERS | TIMER_INFO_IS_PLATFORM_TIMER_SECURE
  | TIMER_INFO_SYS_CNTL_BASE | TIMER_INFO_SYS_CNT_BASE_N | TIMER_INFO_FRAME_NUM | TIMER_INFO_SYS_INTID
  | TIMER_INFO_SYS_TIMER_STATUS.

(** What a platform timer has at its place, 0 when there is no such timer. *)
Definition of_entry (instance : Z) (f : TIMER_INFO_GTBLOCK -> Z -> P Z) : P Z :=
  let* r := val_platform_timer_get_entry_index instance in
  if negb (r.1 =? 0xFFFF) then
    let* o := gets g_timer_info_table in
    let* t := deref o in
    let* b := deref (at_index (gt_info t) r.1) in
    let* i := deref r.2 in
    f b i
  else ret 0.
Definition val_timer_get_info (info_type : TIMER_INFO_e) (instance : Z) : P Z :=
  let* o := gets g_timer_info_table in
  match o with
  | None => ret 0
  | Some t =>
      match info_type with
      | TIMER_INFO_CNTFREQ => ret (time_base_frequency (t_header t))
      | TIMER_INFO_PHY_EL1_INTID => ret (ns_el1_timer_gsiv (t_header t))
      | TIMER_INFO_VIR_EL1_INTID => ret (virtual_timer_gsiv (t_header t))
      | TIMER_INFO_PHY_EL2_INTID => ret (el2_timer_gsiv (t_header t))
      | TIMER_INFO_VIR_EL2_INTID => ret (el2_virt_timer_gsiv (t_header t))
      | TIMER_INFO_NUM_PLATFORM_TIMERS => ret (num_platform_timer (t_header t))
      | TIMER_INFO_IS_PLATFORM_TIMER_SECURE =>
          of_entry instance (fun b i => let* v := deref (at_index (gt_flags b) i) in ret (Z.land (Z.shiftr v 16) 1))
      | TIMER_INFO_SYS_CNTL_BASE => of_entry instance (fun b i => ret (block_cntl_base b))
      | TIMER_INFO_SYS_CNT_BASE_N => of_entry instance (fun b i => deref (at_index (GtCntBase b) i))
      | TIMER_INFO_FRAME_NUM => of_entry instance (fun b i => deref (at_index (frame_num b) i))
      | TIMER_INFO_SYS_INTID => of_entry instance (fun b i => deref (at_index (gsiv b) i))
      | TIMER_INFO_PHY_EL1_FLAGS => ret (ns_el1_timer_flag (t_header t))
      | TIMER_INFO_VIR_EL1_FLAGS => ret (virtual_timer_flag (t_header t))
      | TIMER_INFO_PHY_EL2_FLAGS => ret (el2_timer_flag (t_header t))
      | TIMER_INFO_SYS_TIMER_STATUS => ret (sys_timer_status (t_header t))
      | TIMER_INFO_VIR_EL2_FLAGS => ret 0
      end
  end.

Definition set_counts (n f : Z) (h : TIMER_INFO_HDR) : TIMER_INFO_HDR :=
  mk_timer_hdr (s_el1_timer_flag h) (ns_el1_timer_flag h) (el2_timer_flag h) (el2_virt_timer_flag h) (s_el1_timer_gsiv h)
    (ns_el1_timer_gsiv h) (el2_timer_gsiv h) (virtual_timer_flag h) (virtual_timer_gsiv h) (el2_virt_timer_gsiv h)
    n (num_watchdog h) (sys_timer_status h) f.
(** The UEFI port: [rhct] is the time base frequency of the RHCT, if there is one. *)
Definition pal_timer_create_info_table (rhct : option Z) (t : TIMER_INFO_TABLE) : TIMER_INFO_TABLE :=
  let h := t_header t in
  mk_timer_table (set_counts 0 (match rhct with Some f => u64 f | None => time_base_frequency h end) h) (gt_info t).

(** [el1physkip] is the option that leaves the physical timer alone. *)
Definition val_timer_create_info_table (el1physkip : bool) (rhct : option Z) (table : option TIMER_INFO_TABLE) : P unit :=
  match table with
  | None => ret tt
  | Some t =>
      modify (set_timer_table (Some (pal_timer_create_info_table rhct t))) ;;;
      when (negb el1physkip) (val_timer_set_phy_el1 0 ;;; val_timer_set_vir_el1 0)
  end.

(** The bare-metal port copies the configuration of the platform: its header and the
    frames of its one block. *)
Definition copy_upto (n : nat) (src dst : list Z) : P (list Z) :=
  if (n <=? length src)%nat && (n <=? length dst)%nat then ret (take n src ++ drop n dst) else undef.
Definition bm_timer_create_info_table (cfg_header : TIMER_INFO_HDR) (cfg : TIMER_INFO_GTBLOCK) (t : TIMER_INFO_TABLE) : P TIMER_INFO_TABLE :=
  let n := Z.to_nat (timer_count cfg) in
  let* b := deref (head (gt_info t)) in
  let* fr := copy_upto n (frame_num cfg) (frame_num b) in
  let* cb := copy_upto n (GtCntBase cfg) (GtCntBase b) in
  let* eb := copy_upto n (GtCntEl0Base cfg) (GtCntEl0Base b) in
  let* gs := copy_upto n (gsiv cfg) (gsiv b) in
  let* vg := copy_upto n (virt_gsiv cfg) (virt_gsiv b) in
  let* fl := copy_upto n (gt_flags cfg) (gt_flags b) in
  let h := t_header t in
  ret (mk_timer_table
    (mk_timer_hdr (s_el1_timer_flag cfg_header) (ns_el1_timer_flag cfg_header) (el2_timer_flag cfg_header) (el2_virt_timer_flag h)
       (s_el1_timer_gsiv cfg_header) (ns_el1_timer_gsiv cfg_header) (el2_timer_gsiv cfg_header) (virtual_timer_flag cfg_header)
       (virtual_timer_gsiv cfg_header) (el2_virt_timer_gsiv cfg_header) (timer_count cfg) (num_watchdog h) (sys_timer_status h)
       (time_base_frequency h))
    (mk_gtblock (gt_type cfg) (timer_count cfg) (block_cntl_base cfg) fr cb eb gs vg fl :: tail (gt_info t))).

(** ** System timers *)

Definition val_timer_set_system_timer (cnt_base_n timeout : Z) : P unit :=
  mmio_write (cnt_base_n + CNTP_TVAL) timeout ;;; mmio_write (cnt_base_n + CNTP_CTL) 1.
Definition val_timer_disable_system_timer (cnt_base_n : Z) : P unit := mmio_write (cnt_base_n + CNTP_CTL) 0.

Definition val_timer_skip_if_cntbase_access_not_allowed (index : Z) : P Z :=
  let* cnt_ctl_base := val_timer_get_info TIMER_INFO_SYS_CNTL_BASE index in
  let* f := val_timer_get_info TIMER_INFO_FRAME_NUM index in
  let a := cnt_ctl_base + CNTACR + u32 (u32 f * 4) in
  if negb (cnt_ctl_base =? 0) then
    let* data := mmio_read a in
    if Z.land data 0x1 =? 0x1 then ret 0 else
    mmio_write a (Z.lor data 0x1) ;;;
    let* data := mmio_read a in
    if Z.land data 0x1 =? 1 then ret 0 else ret ACS_STATUS_SKIP
  else ret ACS_STATUS_SKIP.

(** ** Watchdogs *)

Inductive WD_INFO_TYPE_e :=
  | WD_INFO_COUNT | WD_INFO_CTRL_BASE | WD_INFO_REFRESH_BASE | WD_INFO_GSIV | WD_INFO_ISSECURE | WD_INFO_IS_EDGE.

Definition wd_block (index : Z) : P WD_INFO_BLOCK :=
  let* o := gets g_wd_info_table in let* t := deref o in deref (at_index (wd_info t) index).
Definition val_wd_get_info (index : Z) (info_type : WD_INFO_TYPE_e) : P Z :=
  let* o := gets g_wd_info_table in
  match o with
  | None => ret 0
  | Some t =>
      match info_type with
      | WD_INFO_COUNT => ret (num_wd t)
      | WD_INFO_CTRL_BASE => let* b := wd_block index in ret (wd_ctrl_base b)
      | WD_INFO_REFRESH_BASE => let* b := wd_block index in ret (wd_refresh_base b)
      | WD_INFO_GSIV => let* b := wd_block index in ret (wd_gsiv b)
      | WD_INFO_ISSECURE => let* b := wd_block index in ret (Z.land (Z.shiftr (wd_flags b) 2) 1)
      | WD_INFO_IS_EDGE => let* b := wd_block index in ret (Z.land (wd_flags b) 1)
      end
  end.

(** The structures of the GTDT as the walk reads them. *)
Inductive gtdt_structure := GT_BLOCK | WATCHDOG (refresh ctrl gsiv flags : Z) | GTDT_OTHER.

Definition PLATFORM_OVERRIDE_WD : Z := 0.
Definition PLATFORM_OVERRIDE_WD_REFRESH_BASE : Z := 0x2A450000.
Definition PLATFORM_OVERRIDE_WD_CTRL_BASE : Z := 0x2A440000.
Definition PLATFORM_OVERRIDE_WD_GSIV : Z := 93.
Definition PLATFORM_OVERRIDE_TIMER_CNTFRQ : Z := 0x0.

(** A block of the memory of the table; the table has room for as many as the list. *)
Definition put_wd (t : WD_INFO_TABLE) (i : Z) (b : WD_INFO_BLOCK) : P WD_INFO_TABLE :=
  let* _ := deref (at_index (wd_info t) i) in ret (mk_wd_table (num_wd t) (<[Z.to_nat i := b]> (wd_info t))).

Fixpoint wd_walk (l : list gtdt_structure) (t : WD_INFO_TABLE) : P WD_INFO_TABLE :=
  match l with
  | [] => ret t
  | WATCHDOG refresh ctrl g f :: l' =>
      let* t' := put_wd t (num_wd t) (mk_wd ctrl refresh g f) in
      wd_walk l' (mk_wd_table (u32 (num_wd t' + 1)) (wd_info t'))
  | _ :: l' => wd_walk l' t
  end.
Definition pal_wd_platform_override (t : WD_INFO_TABLE) : P WD_INFO_TABLE :=
  if PLATFORM_OVERRIDE_WD =? 1
  then put_wd (mk_wd_table 1 (wd_info t)) 0
         (mk_wd PLATFORM_OVERRIDE_WD_CTRL_BASE PLATFORM_OVERRIDE_WD_REFRESH_BASE PLATFORM_OVERRIDE_WD_GSIV 0)
  else ret t.
Definition pal_wd_create_info_table (gtdt : option (list gtdt_structure)) (t : WD_INFO_TABLE) : P WD_INFO_TABLE :=
  let t := mk_wd_table 0 (wd_info t) in
  match gtdt with
  | None => ret t
  | Some l => let* t' := wd_walk l t in pal_wd_platform_override t'
  end.
Definition val_wd_create_info_table (gtdt : option (list gtdt_structure)) (table : option WD_INFO_TABLE) : P unit :=
  match table with
  | None => ret tt
  | Some t => let* t' := pal_wd_create_info_table gtdt t in modify (set_wd_table (Some t'))
  end.
(** The bare-metal port copies the blocks of the configuration. *)
Definition bm_wd_create_info_table (cfg t : WD_INFO_TABLE) : P WD_INFO_TABLE :=
  let n := Z.to_nat (num_wd cfg) in
  if (n <=? length (wd_info cfg))%nat && (n <=? length (wd_info t))%nat
  then ret (mk_wd_table (num_wd cfg) (take n (wd_info cfg) ++ drop n (wd_info t))) else undef.

Definition val_wd_enable (index : Z) : P unit := let* b := wd_block index in mmio_write (wd_ctrl_base b + WD_CS_OFFSET) 1.
Definition val_wd_disable (index : Z) : P unit := let* b := wd_block index in mmio_write (wd_ctrl_base b + WD_CS_OFFSET) 0.

Definition pal_timer_get_counter_frequency : Z := PLATFORM_OVERRIDE_TIMER_CNTFRQ.
Definition val_get_counter_frequency : P Z :=
  let f := pal_timer_get_counter_frequency in
  if f =? 0 then val_timer_get_info TIMER_INFO_CNTFREQ 0 else ret f.

(** The revision of the watchdog is in bits 16 to 19 of [W_IIDR]. *)
Definition val_wd_set_ws0 (index timeout : Z) : P Z :=
  if timeout =? 0 then val_wd_disable index ;;; ret 0 else
  let* ctrl_base := val_wd_get_info index WD_INFO_CTRL_BASE in
  let* v := mmio_read (ctrl_base + WD_IIDR_OFFSET) in
  let data := Z.land (Z.shiftr v 16) 0xF in
  let* counter_freq := val_get_counter_frequency in
  let ticks := u64 (counter_freq * timeout) in
  if (data =? 0) && negb (Z.shiftr ticks 32 =? 0) then ret 1 else
  let* b := wd_block index in
  mmio_write (wd_ctrl_base b + 8) (u32 ticks) ;;;
  when (data =? 1) (let* b := wd_block index in mmio_write (wd_ctrl_base b + 12) (u32 (Z.shiftr ticks 32))) ;;;
  val_wd_enable index ;;;
  ret 0.
End Timer.

(** ** Low-power states *)

Definition ARM_SMC_ID_PSCI_VERSION : Z := 0x84000000.
Definition ARM_SMC_ID_PSCI_FEATURES : Z := 0x8400000A.
Definition ARM_SMC_ID_PSCI_CPU_SUSPEND_AARCH64 : Z := 0xc4000001.
Definition ARM_SMC_ID_PSCI_POWER_STATE_FMT_ORIGINAL : Z := 0.

Inductive BSA_POWER_SEM_e :=
  | BSA_POWER_SEM_B | BSA_POWER_SEM_c | BSA_POWER_SEM_D | BSA_POWER_SEM_E | BSA_POWER_SEM_F | BSA_POWER_SEM_G
  | BSA_POWER_SEM_H | BSA_POWER_SEM_I.

Section Wakeup.
(** [F] is the firmware: a call with its arguments returns [Arg0]. [wfi] waits for an
    interrupt. *)
Context {F : Type} (pal_hart_call_smc : list Z -> F -> Z * F) (ArmCallWFI : F -> F).
Local Abbreviation P := (prog F).

Definition call_smc (args : list Z) : P Z := fun f => let r := pal_hart_call_smc args f in Done (u64 r.1, r.2).
Definition val_get_psci_ver : P Z := let* v := call_smc [ARM_SMC_ID_PSCI_VERSION] in ret (u32 v).
Definition val_get_psci_features (psci_func_id : Z) : P Z :=
  let* v := call_smc [ARM_SMC_ID_PSCI_FEATURES; psci_func_id] in ret (u32 v).
Definition val_suspend_pe (entry context_id : Z) : P Z :=
  let* v := val_get_psci_ver in
  let* power_state :=
    (if Z.shiftr v 16 <? 1 then ret 0 else
     let* f := val_get_psci_features ARM_SMC_ID_PSCI_CPU_SUSPEND_AARCH64 in
     ret (if Z.shiftr f 1 =? ARM_SMC_ID_PSCI_POWER_STATE_FMT_ORIGINAL then 0 else 1)) in
  let* r := call_smc [ARM_SMC_ID_PSCI_CPU_SUSPEND_AARCH64; power_state; entry; context_id] in
  ret (i32 r).
Definition val_power_enter_semantic (semantic : BSA_POWER_SEM_e) : P Z :=
  match semantic with
  | BSA_POWER_SEM_B => modify ArmCallWFI ;;; ret 0
  | _ => ret 0
  end.
End Wakeup.

(** ** Which platform timer an instance selects *)

Definition counts (t : TIMER_INFO_TABLE) : list Z := map timer_count (gt_info t).
Definition sum (l : list Z) : Z := foldr Z.add 0 l.
(** The timers of the blocks before block [b]. *)
Definition before (t : TIMER_INFO_TABLE) (b : nat) : Z := sum (take b (counts t)).

Lemma sum_app l l' : sum (l ++ l') = sum l + sum l'.
Proof. unfold sum. rewrite foldr_app. induction l as [|x l IH]; simpl in *; lia. Qed.

Lemma sum_nonneg l : Forall (fun x => 0 <= x) l -> 0 <= sum l.
Proof. induction 1; simpl in *; lia. Qed.

Lemma before_step t b blk : gt_info t !! b = Some blk -> before t (S b) = before t b + timer_count blk.
Proof.
  intros E. unfold before. assert (counts t !! b = Some (timer_count blk)) as Ec by (unfold counts; by rewrite list_lookup_fmap, E).
  rewrite (take_S_r _ _ _ Ec), sum_app. simpl. lia.
Qed.

Lemma before_mono t b b' : Forall (fun x => 0 <= timer_count x) (gt_info t) -> (b <= b')%nat -> before t b <= before t b'.
Proof.
  intros Hc Hb. unfold before. replace b' with (b + (b' - b))%nat by lia. rewrite <- take_take_drop, sum_app.
  assert (0 <= sum (take (b' - b) (drop b (counts t)))); [|lia].
  apply sum_nonneg, Forall_take, Forall_drop. unfold counts. rewrite Forall_map. exact Hc.
Qed.

Section TimerIndex.
Context {H : Type}.
Local Abbreviation state := (timer_state H).

Lemma timer_entry_loop_spec (l : list TIMER_INFO_GTBLOCK) : forall n k (s : state),
  Forall (fun x => 0 <= timer_count x) l -> 0 <= n <= sum (map timer_count l) -> l <> [] -> n < 2 ^ 32 ->
  0 <= k -> k + Z.of_nat (length l) < 2 ^ 32 ->
  exists (b : nat) i blk, timer_entry_loop l n k (u32 n) s = Done ((k + Z.of_nat b, Some i), s) /\
    l !! b = Some blk /\ n = sum (take b (map timer_count l)) + i /\ 0 <= i <= timer_count blk /\ (b = 0%nat \/ 0 < i).
Proof.
  induction l as [|x l IH]; intros n k s Hc Hn Hne Hn32 Hk Hkl; [done|]. apply Forall_cons in Hc as [Hx Hc].
  cbn [timer_entry_loop map sum foldr] in *. fold (sum (map timer_count l)) in Hn.
  destruct (Z.ltb_spec (timer_count x) n).
  - destruct (decide (l = [])) as [->|Hl]; [simpl in Hn; lia|]. rewrite (u32_small (k + 1)) by (simpl in Hkl; lia).
    destruct (IH (n - timer_count x) (k + 1) s) as (b & i & blk & E & Eb & En & Hi & Hz); [done|lia|done|lia|lia|simpl in Hkl; lia|].
    exists (S b), i, blk. rewrite E. split_and!; [do 3 f_equal; lia|done|cbn [take sum foldr]; fold (sum (take b (map timer_count l))); lia|lia|lia|].
    right. destruct Hz as [-> |]; [simpl in En; lia|done].
  - exists 0%nat, n, x. rewrite u32_small, Z.add_0_r by lia. split_and!; [done|done|simpl; lia|lia|lia|by left].
Qed.

(** a number up to the number of platform timers selects a block and an index with
    the right number of timers before them. The entry is the timer of that number
    except exactly when the number is that of the first timer of a later block (or one
    past the last timer): then the index is one past the end of the block before. *)
Theorem timer_entry_index_exact (t : TIMER_INFO_TABLE) (n : Z) (s : state) :
  g_timer_info_table s = Some t -> Forall (fun x => 0 <= timer_count x) (gt_info t) -> gt_info t <> [] ->
  num_platform_timer (t_header t) = sum (counts t) -> sum (counts t) < 2 ^ 32 -> Z.of_nat (length (gt_info t)) < 2 ^ 32 ->
  0 <= n <= num_platform_timer (t_header t) ->
  exists (b : nat) i blk, val_platform_timer_get_entry_index n s = Done ((Z.of_nat b, Some i), s) /\
    gt_info t !! b = Some blk /\ n = before t b + i /\ 0 <= i <= timer_count blk /\
    (i = timer_count blk <-> exists b', (0 < b' <= length (gt_info t))%nat /\ n = before t b').
Proof.
  intros Et Hc Hne Hnum H32 Hl Hn.
  destruct (timer_entry_loop_spec (gt_info t) n 0 s) as (b & i & blk & E & Eb & En & Hi & Hz); [done| |done|lia|lia|lia|].
  { fold (counts t). lia. }
  fold (counts t) in En. fold (before t b) in En. pose proof (before_step t b blk Eb) as Hs.
  exists b, i, blk. split_and!; [|done|done|lia|lia|split].
  - unfold val_platform_timer_get_entry_index. erewrite bind_done by done. rewrite Et. erewrite bind_done by done.
    destruct (Z.ltb_spec (num_platform_timer (t_header t)) n); [lia|]. exact E.
  - intros Ei. exists (S b). apply lookup_lt_Some in Eb. split; lia.
  - intros (b' & Hb' & En'). destruct (decide (i = timer_count blk)) as [|Hlt]; [done|].
    destruct (decide (b' <= b)%nat) as [Hle|Hgt].
    + pose proof (before_mono t b' b Hc Hle). lia.
    + pose proof (before_mono t (S b) b' Hc ltac:(lia)). lia.
Qed.
End TimerIndex.

Lemma timer_entry_index_exact_witness :
  let block n := mk_gtblock 0x2001 n 0x2a810000 [0; 1; 2; 3] [1; 2; 3; 4] [] [90; 91; 92; 93] [] [0; 0; 0; 0] in
  let t := mk_timer_table (mk_timer_hdr 0 0 0 0 0 0 0 0 0 0 5 0 0 0) [block 2; block 3] in
  let s := mk_timer tt (Some t) None in
  exists (b : nat) i, val_platform_timer_get_entry_index 2 s = Done ((Z.of_nat b, Some i), s) /\ b = 0%nat /\ i = 2.
Proof.
  intros block t s. destruct (timer_entry_index_exact t 2 s) as (b & i & blk & E & _).
  - done.
  - by repeat constructor.
  - done.
  - done.
  - done.
  - done.
  - done.
  - exists b, i. split; [exact E|]. assert (val_platform_timer_get_entry_index 2 s = Done ((0, Some 2), s)) as E2 by done.
    rewrite E2 in E. injection E as Eb Ei. split; lia.
Defined.

(** ** The watchdogs *)

Definition watchdogs (l : list gtdt_structure) : list WD_INFO_BLOCK :=
  omap (fun x => match x with WATCHDOG refresh ctrl g f => Some (mk_wd ctrl refresh g f) | _ => None end) l.

Section WdTable.
Context {H : Type} `{Hardware H}.
Local Abbreviation state := (timer_state H).

Lemma wd_walk_spec l : forall t (s : state),
  0 <= num_wd t -> num_wd t + Z.of_nat (length (watchdogs l)) <= Z.of_nat (length (wd_info t)) -> Z.of_nat (length (wd_info t)) < 2 ^ 32 ->
  exists t', wd_walk l t s = Done (t', s) /\ num_wd t' = num_wd t + Z.of_nat (length (watchdogs l)) /\
    wd_info t' = take (Z.to_nat (num_wd t)) (wd_info t) ++ watchdogs l ++ drop (Z.to_nat (num_wd t') ) (wd_info t).
Proof.
  induction l as [|x l IH]; intros t s Hnn Hroom H32; cbn [wd_walk watchdogs omap list_omap].
  - exists t. split_and!; [done|simpl; lia|]. by rewrite app_nil_l, take_drop.
  - destruct x as [|refresh ctrl g f|]; [by apply IH| |by apply IH].
    cbn [watchdogs omap list_omap length] in Hroom |- *. fold (watchdogs l) in *.
    destruct (at_index_lt (wd_info t) (num_wd t)) as [old Eo]; [lia|]. destruct (at_index_Some _ _ _ Eo) as [Hn _].
    erewrite bind_done by (unfold put_wd; erewrite bind_done by (rewrite Eo; done); done). cbn [num_wd wd_info].
    rewrite u32_small by lia. set (t1 := mk_wd_table _ _).
    destruct (IH t1 s) as (t' & E & En & El); [simpl; lia|unfold t1; cbn [num_wd wd_info]; rewrite length_insert; lia|unfold t1; cbn [wd_info]; by rewrite length_insert|].
    unfold t1 in En, El. cbn [num_wd wd_info] in En, El.
    exists t'. split_and!; [done|lia|]. rewrite El.
    replace (Z.to_nat (num_wd t + 1)) with (S (Z.to_nat (num_wd t))) by lia.
    rewrite (take_S_r _ _ (mk_wd ctrl refresh g f)) by (apply list_lookup_insert_eq; lia).
    rewrite take_insert_ge by lia. rewrite drop_insert_lt by lia. by rewrite <- app_assoc.
Qed.

(** creating the watchdog table returns, and the table lists exactly the watchdogs
    of the GTDT, in its order, with their number; the queries give their addresses. *)
Theorem wd_table_exact (l : list gtdt_structure) (t : WD_INFO_TABLE) (s : state) :
  Z.of_nat (length (watchdogs l)) <= Z.of_nat (length (wd_info t)) -> Z.of_nat (length (wd_info t)) < 2 ^ 32 ->
  exists s', val_wd_create_info_table (Some l) (Some t) s = Done (tt, s') /\ t_hw s' = t_hw s /\
    val_wd_get_info 0 WD_INFO_COUNT s' = Done (Z.of_nat (length (watchdogs l)), s') /\
    forall i w, watchdogs l !! i = Some w ->
      val_wd_get_info (Z.of_nat i) WD_INFO_CTRL_BASE s' = Done (wd_ctrl_base w, s') /\
      val_wd_get_info (Z.of_nat i) WD_INFO_REFRESH_BASE s' = Done (wd_refresh_base w, s') /\
      val_wd_get_info (Z.of_nat i) WD_INFO_GSIV s' = Done (wd_gsiv w, s').
Proof.
  intros Hroom H32. destruct (wd_walk_spec l (mk_wd_table 0 (wd_info t)) s) as (t' & E & En & El); [done|simpl; lia|done|].
  cbn [num_wd wd_info] in En, El. rewrite Z.add_0_l in En.
  exists (set_wd_table (Some t') s). split_and!; [|done| |].
  - unfold val_wd_create_info_table, pal_wd_create_info_table. erewrite bind_done; [done|].
    rewrite (bind_done _ _ _ _ _ E). done.
  - unfold val_wd_get_info. erewrite bind_done by done. cbn [g_wd_info_table set_wd_table]. by rewrite En.
  - intros i w Ew. assert (wd_block (Z.of_nat i) (set_wd_table (Some t') s) = Done (w, set_wd_table (Some t') s)) as Eb.
    { unfold wd_block. erewrite bind_done by done. cbn [g_wd_info_table set_wd_table deref].
      erewrite bind_done by done. unfold at_index. destruct (Z.leb_spec 0 (Z.of_nat i)); [|lia]. rewrite Nat2Z.id, El.
      change (Z.to_nat 0) with 0%nat. rewrite take_0, app_nil_l, lookup_app_l by (by eapply lookup_lt_Some). by rewrite Ew. }
    unfold val_wd_get_info.
    split_and!; erewrite bind_done by done; cbn [g_wd_info_table set_wd_table]; rewrite (bind_done _ _ _ _ _ Eb); done.
Qed.
End WdTable.

Lemma wd_table_exact_witness :
  let l := [GT_BLOCK; WATCHDOG 0x2A450000 0x2A440000 93 0; GTDT_OTHER; WATCHDOG 0x2A470000 0x2A460000 94 1] in
  let h := {| hw_read := fun _ _ u => (0, u); hw_write := fun _ _ _ u => u |} : Hardware unit in
  exists s', val_wd_create_info_table (Some l) (Some (mk_wd_table 7 (replicate 4 (mk_wd 0 0 0 0)))) (mk_timer tt None None) = Done (tt, s') /\
    val_wd_get_info 0 WD_INFO_COUNT s' = Done (2, s') /\ val_wd_get_info 1 WD_INFO_CTRL_BASE s' = Done (0x2A460000, s').
Proof.
  intros l h. destruct (wd_table_exact l (mk_wd_table 7 (replicate 4 (mk_wd 0 0 0 0))) (mk_timer tt None None)) as (s' & E & _ & C & G).
  - done.
  - done.
  - exists s'. split_and!; [exact E|exact C|]. exact (proj1 (G 1%nat (mk_wd 0x2A460000 0x2A470000 94 1) eq_refl)).
Defined.

(** ** Arming a watchdog *)

(** The control frame of a watchdog at [base]: the offset register of 48 or 32 bits in
    two words, and the enable bit. *)
Class Watchdog (H : Type) `{Hardware H} (base : Z) := {
  wor_low : H -> Z;
  wor_high : H -> Z;
  armed : H -> bool;
  iidr : Z;
  iidr_range : 0 <= iidr < 2 ^ 32;
  read_iidr : forall h, hw_read W32 (base + WD_IIDR_OFFSET) h = (iidr, h);
  write_low : forall h v, let h' := hw_write W32 (base + 8) v h in
    wor_low h' = v /\ wor_high h' = wor_high h /\ armed h' = armed h;
  write_high : forall h v, let h' := hw_write W32 (base + 12) v h in
    wor_low h' = wor_low h /\ wor_high h' = v /\ armed h' = armed h;
  write_wcs : forall h v, let h' := hw_write W32 (base + WD_CS_OFFSET) v h in
    wor_low h' = wor_low h /\ wor_high h' = wor_high h /\ armed h' = Z.testbit v 0 }.

Section Arm.
Context {H : Type} `{Watchdog H base}.
Context (Hbase : 0 <= base /\ base + 2 ^ 12 <= 2 ^ 64) (Hal : base mod 4 = 0).
Local Abbreviation state := (timer_state H).

Definition with_hw (h : H) (s : state) : state := mk_timer h (g_timer_info_table s) (g_wd_info_table s).

Lemma mmio_write_done a v (s : state) : 0 <= a < 2 ^ 64 -> 0 <= v < 2 ^ 32 ->
  mmio_write a v s = Done (tt, with_hw (hw_write W32 a v (t_hw s)) s).
Proof. intros. unfold mmio_write, on_device, pal_mmio_write. by rewrite u64_small, u32_small by lia. Qed.

(** The revision of the watchdog. *)
Definition revision : Z := Z.land (Z.shiftr iidr 16) 0xF.

(** Watchdog [index] of the table is the one at [base]. *)
Definition placed (index : Z) (s : state) : Prop :=
  exists t b, g_wd_info_table s = Some t /\ at_index (wd_info t) index = Some b /\ wd_ctrl_base b = base.

Lemma placed_block index s : placed index s -> exists b, wd_block index s = Done (b, s) /\ wd_ctrl_base b = base.
Proof.
  intros (t & b & Et & Eb & Ec). exists b. split; [|done]. unfold wd_block. erewrite bind_done by done. rewrite Et.
  erewrite bind_done by done. by rewrite Eb.
Qed.

Lemma enable_done index s : placed index s ->
  val_wd_enable index s = Done (tt, with_hw (hw_write W32 (base + WD_CS_OFFSET) 1 (t_hw s)) s).
Proof.
  intros Hp. destruct (placed_block index s Hp) as (b & Eb & Ec). unfold val_wd_enable. rewrite (bind_done _ _ _ _ _ Eb), Ec.
  apply mmio_write_done; unfold WD_CS_OFFSET; lia.
Qed.

Lemma iidr_done (s : state) : mmio_read (base + WD_IIDR_OFFSET) s = Done (iidr, s).
Proof.
  pose proof iidr_range. unfold mmio_read, on_device, pal_mmio_read. unfold WD_IIDR_OFFSET in *. rewrite u64_small by lia.
  rewrite (u32_mask_aligned (base + 0xFCC)) by lia. cbn [Z.eqb negb]. rewrite (read_iidr (t_hw s)). cbn [fst snd].
  rewrite u32_small by lia. by destruct s.
Qed.

Lemma frequency_done t (s : state) : g_timer_info_table s = Some t -> val_get_counter_frequency s = Done (time_base_frequency (t_header t), s).
Proof.
  intros Et. unfold val_get_counter_frequency, val_timer_get_info.
  cbn [Z.eqb pal_timer_get_counter_frequency PLATFORM_OVERRIDE_TIMER_CNTFRQ]. erewrite bind_done by done. by rewrite Et.
Qed.

(** arming a watchdog with a time-out returns. With revision 0 and more ticks than
    32 bits hold it returns 1 and changes nothing; otherwise it returns 0 with the
    watchdog enabled and the low word of its offset at the low half of the ticks, and
    with revision 1 the high word at the high half, so that the offset is the number
    of ticks; another revision keeps its high word. *)
Theorem wd_set_ws0_arms index timeout freq t s :
  placed index s -> g_timer_info_table s = Some t -> time_base_frequency (t_header t) = freq ->
  0 <= freq -> 0 < timeout -> freq * timeout < 2 ^ 64 ->
  let ticks := freq * timeout in
  if (revision =? 0) && (2 ^ 32 <=? ticks) then val_wd_set_ws0 index timeout s = Done (1, s)
  else exists s', val_wd_set_ws0 index timeout s = Done (0, s') /\ armed (t_hw s') = true /\ wor_low (t_hw s') = ticks mod 2 ^ 32 /\
    wor_high (t_hw s') = if revision =? 1 then ticks / 2 ^ 32 else wor_high (t_hw s).
Proof.
  intros Hp Et Ef Hf Ht Hm ticks. destruct (placed_block index s Hp) as (b & Eb & Ec). 
  unfold val_wd_set_ws0. destruct (Z.eqb_spec timeout 0); [lia|].
  assert (val_wd_get_info index WD_INFO_CTRL_BASE s = Done (base, s)) as Ei.
  { destruct Hp as (tt0 & b0 & Etab & _ & _). unfold val_wd_get_info. erewrite bind_done by done. rewrite Etab.
    by rewrite (bind_done _ _ _ _ _ Eb), Ec. }
  rewrite (bind_done _ _ _ _ _ Ei).
  rewrite (bind_done _ _ _ _ _ (iidr_done s)). fold revision.
  rewrite (bind_done _ _ _ _ _ (frequency_done t s Et)), Ef. fold ticks. rewrite (u64_small ticks) by (unfold ticks; nia).
  assert (0 <= ticks) as Hnn by (unfold ticks; nia). rewrite Z.shiftr_div_pow2 by lia.
  assert (negb (ticks / 2 ^ 32 =? 0) = (2 ^ 32 <=? ticks)) as ->.
  { destruct (Z.eqb_spec (ticks / 2 ^ 32) 0), (Z.leb_spec (2 ^ 32) ticks); done || lia. }
  destruct ((revision =? 0) && (2 ^ 32 <=? ticks)); [done|].
  rewrite (bind_done _ _ _ _ _ Eb), Ec. pose proof (u32_range ticks).
  erewrite bind_done by (apply mmio_write_done; lia). set (s1 := with_hw _ s).
  assert (placed index s1) as Hp1 by exact Hp.
  pose proof (write_low (t_hw s) (u32 ticks)) as W1. cbv zeta in W1.
  change (hw_write W32 (base + 8) (u32 ticks) (t_hw s)) with (t_hw s1) in W1. destruct W1 as (L1 & G1 & A1).
  destruct (Z.eqb_spec revision 1) as [Hr|Hr]; cbn [when].
  - destruct (placed_block index s1 Hp1) as (b1 & Eb1 & Ec1). pose proof (u32_range (ticks / 2 ^ 32)).
    erewrite bind_done by (rewrite (bind_done _ _ _ _ _ Eb1), Ec1; apply mmio_write_done; lia). set (s2 := with_hw _ s1).
    pose proof (write_high (t_hw s1) (u32 (ticks / 2 ^ 32))) as W2. cbv zeta in W2.
    change (hw_write W32 (base + 12) (u32 (ticks / 2 ^ 32)) (t_hw s1)) with (t_hw s2) in W2. destruct W2 as (L2 & G2 & A2).
    erewrite bind_done by (apply enable_done; exact Hp). eexists. split; [done|]. cbn [t_hw with_hw].
    destruct (write_wcs (t_hw s2) 1) as (L3 & G3 & A3). rewrite L3, G3, A3, L2, G2, L1. split_and!; [done|done|]. apply u32_small. lia.
  - erewrite bind_done by done. erewrite bind_done by (apply enable_done; exact Hp). eexists. split; [done|]. cbn [t_hw with_hw].
    destruct (write_wcs (t_hw s1) 1) as (L3 & G3 & A3). rewrite L3, G3, A3, L1, G1. done.
Qed.
End Arm.

(** A watchdog of revision 1 at [wd0]. *)
Module SampleWatchdog.
Definition wd0 : Z := 0x2A440000.
Record regs := mk_regs { low : Z; high : Z; enabled : bool }.
Definition store (a v : Z) (r : regs) : regs :=
  if a =? wd0 + 8 then mk_regs v (high r) (enabled r)
  else if a =? wd0 + 12 then mk_regs (low r) v (enabled r)
  else if a =? wd0 + WD_CS_OFFSET then mk_regs (low r) (high r) (Z.testbit v 0) else r.
#[local] Instance regs_hw : Hardware regs := {
  hw_read := fun _ a r => (if a =? wd0 + WD_IIDR_OFFSET then 0x10000 else 0, r);
  hw_write := fun _ a v r => store a v r }.
#[local, refine] Instance regs_wd : Watchdog regs wd0 := {
  wor_low := low; wor_high := high; armed := enabled; iidr := 0x10000 }.
Proof. all: done. Defined.

Definition timers : TIMER_INFO_TABLE := mk_timer_table (mk_timer_hdr 0 0 0 0 0 0 0 0 0 0 0 0 0 1000000000) [].
Definition start : timer_state regs :=
  mk_timer (mk_regs 0 0 false) (Some timers) (Some (mk_wd_table 1 [mk_wd wd0 0x2A450000 93 0])).

Lemma wd0_range : 0 <= wd0 /\ wd0 + 2 ^ 12 <= 2 ^ 64.
Proof. by split. Qed.

Lemma wd_set_ws0_arms_witness :
  exists s', val_wd_set_ws0 0 5 start = Done (0, s') /\ armed (t_hw s') = true /\
    wor_low (t_hw s') = 705032704 /\ wor_high (t_hw s') = 1.
Proof.
  pose proof (wd_set_ws0_arms (base := wd0) wd0_range eq_refl 0 5 1000000000 timers start) as T.
  destruct T as (s' & E & A & L & G).
  - by exists (mk_wd_table 1 [mk_wd wd0 0x2A450000 93 0]), (mk_wd wd0 0x2A450000 93 0).
  - done.
  - done.
  - done.
  - done.
  - done.
  - exists s'. split_and!; [exact E|exact A|exact L|exact G].
Defined.
End SampleWatchdog.
