(* ===== verification/Suite.v ===== *)
(** * The suite: options, modules and the sequence of a run

    Models the applications [uefi_app/BsaAcsMain.c] and [baremetal_app/BsaAcsMain.c]
    and the functions [val_*_execute_tests] of [val/src/]. A test of [test_pool/] and
    what other components do for a module are the fields of the class [World]; the
    theorems say which numbers an option gives, which tests run, in which order, and
    what the status of a run means. *)

From S2P Require Import Prelude Status Hart Infra.

(** ** The command line *)

Definition G_PRINT_LEVEL : Z := ACS_PRINT_TEST.

Section Options.
(** The shell: flags and values of the command line, and two library functions. *)
Context (GetFlag : string -> bool) (GetValue : string -> option string).
Context (StrDecimalToUintn : string -> Z) (ShellIsDecimalDigitCharacter : Ascii.ascii -> bool).
Context (AllocatePool : Z -> bool) (SHELL_INVALID_PARAMETER : Z).

(** What follows each comma. *)
Fixpoint after_commas (s : string) : list string :=
  match s with
  | EmptyString => []
  | String c s' => if bool_decide (c = Ascii.ascii_of_nat 44) then s' :: after_commas s' else after_commas s'
  end.

(** The stores of the numbers into the block, which has as many bytes as the argument
    has characters; a number takes four. *)
Fixpoint store_numbers (room : Z) (stored : list Z) (l : list string) : outcome (list Z) :=
  match l with
  | [] => Done stored
  | x :: l' =>
      if 4 * (Z.of_nat (length stored) + 1) <=? room
      then store_numbers room (stored ++ [u32 (StrDecimalToUintn x)]) l' else Undefined
  end.
Definition number_list (arg : string) : outcome (list Z) :=
  store_numbers (Z.of_nat (String.length arg)) [] (arg :: after_commas arg).

Record settings := mk_settings {
  o_skip : list Z; o_tests : list Z; o_modules : list Z;
  g_wakeup_timeout : Z; o_print_level : Z; g_enable_module : Z; g_print_mmio : bool;
  view_os : bool; view_hyp : bool; view_ps : bool;
  g_build_sbsa : bool; g_pcie_p2p : bool; g_pcie_cache_present : bool; g_el1physkip : bool }.

(** The digits of the verbosity but the first one enable modules. *)
Fixpoint verbosity (fuel : nat) (v modules : Z) : Z * Z :=
  match fuel with
  | O => (v, modules)
  | S k => if v / 10 =? 0 then (v, modules) else verbosity k (v / 10) (Z.lor modules (u32 (Z.shiftl 1 (v mod 10))))
  end.
Definition print_level (v : Z) : Z := if 5 <? v then G_PRINT_LEVEL else v.

(** An option with a list of numbers: [inl] leaves the program with a value. [strict]
    asks for a digit at the start. *)
Definition list_option (strict : bool) (name : string) : outcome (Z + list Z) :=
  if negb (GetFlag name) then Done (inr []) else
  match GetValue name with
  | None => Done (inl SHELL_INVALID_PARAMETER)
  | Some arg =>
      if negb (AllocatePool (Z.of_nat (String.length arg))) then Done (inl 0) else
      if strict && negb (match arg with EmptyString => false | String c _ => ShellIsDecimalDigitCharacter c end)
      then Done (inl SHELL_INVALID_PARAMETER) else
      match number_list arg with
      | Done l => Done (inr l)
      | Undefined => Undefined
      | Diverges => Diverges
      end
  end.

(** The part of [ShellAppMain] that reads the options, in its order; [ParseError] is
    the answer of [ShellCommandLineParse]. *)
Definition read_options (ParseError : bool) : outcome (Z + settings) :=
  if ParseError then Done (inl SHELL_INVALID_PARAMETER) else
  match list_option false "-skip" with
  | Done (inl e) => Done (inl e)
  | Done (inr skips) =>
      let timeout := match GetValue "-timeout" with
                     | None => 1
                     | Some a => let t := u32 (StrDecimalToUintn a) in if 5 <? t then 5 else t
                     end in
      let r := match GetValue "-v" with
               | None => (G_PRINT_LEVEL, 0)
               | Some a => let r := verbosity 10 (u32 (StrDecimalToUintn a)) 0 in (print_level r.1, r.2)
               end in
      let chosen := GetFlag "-os" || GetFlag "-hyp" || GetFlag "-ps" in
      if GetFlag "-help" || GetFlag "-h" then Done (inl 0) else
      match list_option true "-t" with
      | Done (inl e) => Done (inl e)
      | Done (inr tests) =>
          match list_option true "-m" with
          | Done (inl e) => Done (inl e)
          | Done (inr modules) =>
              Done (inr (mk_settings skips tests modules timeout r.1 r.2 (GetFlag "-mmio")
                (if chosen then GetFlag "-os" else true) (if chosen then GetFlag "-hyp" else true)
                (if chosen then GetFlag "-ps" else true) (GetFlag "-sbsa") (GetFlag "-p2p") (GetFlag "-cache")
                (GetFlag "-el1physkip")))
          | Undefined => Undefined
          | Diverges => Diverges
          end
      | Undefined => Undefined
      | Diverges => Diverges
      end
  | Undefined => Undefined
  | Diverges => Diverges
  end.
End Options.

(** ** The state of a run *)

Record suite {W : Type} := mk_suite { vs : val_state; world : W }.
Arguments suite : clear implicits.
Arguments mk_suite {W}.

(** Tests by the name of their entry function, and what the modules ask of the rest of
    the program. *)
Class World (W : Type) := {
  entry : string -> Z -> prog (suite W) Z;
  w_bdf_table_list_flag : W -> Z;   (* pcie_bdf_table_list_flag *)
  w_num_ecam : W -> Z;   (* val_pcie_get_info(PCIE_INFO_NUM_ECAM, 0) *)
  w_num_wd : W -> Z;   (* val_wd_get_info(0, WD_INFO_COUNT) *)
  w_num_smmu : W -> Z;   (* val_iovirt_get_smmu_info(SMMU_NUM_CTRL, 0) *)
  w_smmu_major : W -> Z;   (* val_smmu_get_info(SMMU_CTRL_ARCH_MAJOR_REV, 0) *)
  w_num_exercisers : W -> Z;   (* val_exerciser_get_info(EXERCISER_NUM_CARDS) *)
  w_exerciser_create_info_table : prog (suite W) Z;
  w_smmu_init : prog (suite W) unit;
  w_smmu_disable : Z -> prog (suite W) unit;
  w_gic_its_configure : prog (suite W) unit;
  w_smmu_stop : prog (suite W) unit;
  w_allocate : string -> prog (suite W) Z;   (* the status of an allocation *)
  w_create : string -> prog (suite W) Z;   (* a table built by its component *)
  w_call : string -> prog (suite W) unit }.   (* the other calls of the applications *)

Definition ACS_PE_TEST_NUM_BASE : Z := 0.
Definition ACS_MEMORY_MAP_TEST_BASE : Z := 100.
Definition ACS_GIC_TEST_NUM_BASE : Z := 200.
Definition ACS_SMMU_TEST_NUM_BASE : Z := 300.
Definition ACS_TIMER_TEST_NUM_BASE : Z := 400.
Definition ACS_WAKEUP_TEST_NUM_BASE : Z := 500.
Definition ACS_PER_TEST_NUM_BASE : Z := 600.
Definition ACS_WD_TEST_NUM_BASE : Z := 700.
Definition ACS_PCIE_TEST_NUM_BASE : Z := 800.
Definition ACS_EXERCISER_TEST_NUM_BASE : Z := 900.
Definition ACS_QOS_TEST_NUM_BASE : Z := 1000.
Definition ACS_MNG_TEST_NUM_BASE : Z := 1100.
Definition ACS_IOMMU_TEST_NUM_BASE : Z := 1200.
Inductive MODULE_ID_e :=
  | PE_MODULE | MEM_MODULE | GIC_MODULE | SMMU_MODULE | TIMER_MODULE | WAKEUP_MODULE | PERIPHERAL_MODULE | WD_MODULE
  | PCIE_MODULE | EXERCISER_MODULE | IOMMU_MODULE.
Definition module_bit (m : MODULE_ID_e) : Z :=
  Z.shiftl 1 (match m with
              | PE_MODULE => 0 | MEM_MODULE => 1 | GIC_MODULE => 2 | SMMU_MODULE => 3 | TIMER_MODULE => 4
              | WAKEUP_MODULE => 5 | PERIPHERAL_MODULE => 6 | WD_MODULE => 7 | PCIE_MODULE => 8
              | EXERCISER_MODULE => 9 | IOMMU_MODULE => 10
              end).

Definition set_g_print_level (n : Z) (v : val_state) : val_state :=
  mk_val n (console v) (g_override_skip v) (g_skip_test_num v) (g_execute_tests v) (g_execute_modules v)
    (g_bsa_tests_total v) (g_bsa_tests_pass v) (g_bsa_tests_fail v) (g_curr_module v) (g_hart_info_table v)
    (g_primary_hart_index v) (gPsciConduit v) (g_smc_args v) (smc_calls v) (handlers v) (shared_mem v) (tick v)
    (MPIDR v) (CTR v).

Section Modules.
Context {W : Type} `{World W}.
(** The views to run, the options read by the modules, and the build. *)
Context (sw_os sw_hyp sw_ps build_sbsa target_is_dt : bool).
Local Abbreviation P := (prog (suite W)).

Definition on_val {A} (m : prog val_state A) : P A := fun s =>
  match m (vs s) with
  | Done (a, v) => Done (a, mk_suite v (world s))
  | Undefined => Undefined
  | Diverges => Diverges
  end.
Definition print (level : Z) (str : string) (data : Z) : P unit := on_val (val_print level str data).

(** The start of every module: the loop over the tests to skip, then the options. *)
Definition unless_skipped (base : Z) (msg : string) (body : P Z) : P Z :=
  let* skips := gets (fun s => g_skip_test_num (vs s)) in
  if existsb (fun k => k =? base) skips then print ACS_PRINT_INFO msg 0 ;;; ret ACS_STATUS_SKIP else
  let* st := on_val (val_check_skip_module base) in
  if negb (st =? 0) then print ACS_PRINT_INFO msg 0 ;;; ret ACS_STATUS_SKIP else
  body.

(** [status |= entry(num_hart)] for some tests. *)
Fixpoint run_tests (l : list string) (num_hart status : Z) : P Z :=
  match l with
  | [] => ret status
  | t :: l' => let* r := entry t num_hart in run_tests l' num_hart (u32 (Z.lor status r))
  end.
(** A view: its title and its tests. *)
Definition view (on : bool) (title : string) (l : list string) (num_hart status : Z) : P Z :=
  if on then print ACS_PRINT_ERR title 0 ;;; run_tests l num_hart status else ret status.
Definition os_view : list string -> Z -> Z -> P Z := view sw_os "\nOperating System View:\n".
Definition hyp_view : list string -> Z -> Z -> P Z := view sw_hyp "\nHypervisor View:\n".
Definition ps_view : list string -> Z -> Z -> P Z := view sw_ps "\nPlatform Security View:\n".

Definition start (title : string) (m : MODULE_ID_e) : P unit :=
  on_val (val_print_test_start title) ;;; on_val (modify (set_g_curr_module (module_bit m))).
Definition finish (status : Z) (title : string) : P Z := on_val (val_print_test_end status title) ;;; ret status.

Definition val_hart_execute_tests (num_hart : Z) : P Z :=
  unless_skipped ACS_PE_TEST_NUM_BASE "\n       USER Override - Skipping all HART tests\n" (
  start "HART" PE_MODULE ;;;
  let* st := os_view ["os_c001"] num_hart ACS_STATUS_PASS in
  let* st := hyp_view [] num_hart st in
  let* st := ps_view [] num_hart st in
  finish st "HART").

(** The build for a shipped UEFI application: neither Linux nor emulation. *)
Definition val_memory_execute_tests (num_hart : Z) : P Z :=
  unless_skipped ACS_MEMORY_MAP_TEST_BASE "\n       USER Override - Skipping all Memory tests\n" (
  start "Memory Map" MEM_MODULE ;;;
  let* st := os_view ["os_m002"; "os_m003"] num_hart ACS_STATUS_PASS in
  finish st "Memory").

Definition val_iic_execute_tests (num_hart : Z) : P Z :=
  unless_skipped ACS_GIC_TEST_NUM_BASE "\n       USER Override - Skipping all IIC tests\n" (
  start "IIC" GIC_MODULE ;;;
  let* st := os_view ["os_i001"; "os_i002"; "os_i003"; "os_i004"; "os_i005"] num_hart ACS_STATUS_PASS in
  finish st "IIC").

Definition val_smmu_execute_tests (num_hart : Z) : P Z :=
  unless_skipped ACS_SMMU_TEST_NUM_BASE "\n       USER Override - Skipping all SMMU tests\n" (
  let* n := gets (fun s => w_num_smmu (world s)) in
  if n =? 0 then print ACS_PRINT_WARN "\n       No SMMU Controller Found, Skipping SMMU tests...\n" 0 ;;; ret ACS_STATUS_SKIP else
  start "SMMU" SMMU_MODULE ;;;
  let* ver := gets (fun s => w_smmu_major (world s)) in
  let* st := os_view ["os_i001"; "os_i002"; "os_i003"; "os_i004"] num_hart ACS_STATUS_PASS in
  let* st := hyp_view (["hyp_i002"] ++ (if ver =? 2 then ["hyp_i003"] else []) ++ ["hyp_i004"]) num_hart st in
  finish st "SMMU").

Definition val_timer_execute_tests (num_hart : Z) : P Z :=
  unless_skipped ACS_TIMER_TEST_NUM_BASE "\n       USER Override - Skipping all Timer tests\n" (
  start "Timer" TIMER_MODULE ;;;
  let* st := os_view ["os_t001"; "os_t002"] num_hart ACS_STATUS_PASS in
  finish st "Timer").

Definition val_wakeup_execute_tests (num_hart : Z) : P Z :=
  unless_skipped ACS_WAKEUP_TEST_NUM_BASE "\n       USER Override - Skipping all Wakeup tests\n" (
  start "Wakeup semantic" WAKEUP_MODULE ;;;
  let* st := os_view ["os_u001"] num_hart ACS_STATUS_PASS in
  finish st "Wakeup").

Definition val_peripheral_execute_tests (num_hart : Z) : P Z :=
  unless_skipped ACS_PER_TEST_NUM_BASE "\n       USER Override - Skipping all Peripheral tests\n" (
  start "Peripheral" PERIPHERAL_MODULE ;;;
  let* st := os_view ["os_d001"; "os_d002"; "os_d003"; "os_d005"] num_hart ACS_STATUS_PASS in
  finish st "Peripheral").

Definition val_wd_execute_tests (num_hart : Z) : P Z :=
  unless_skipped ACS_WD_TEST_NUM_BASE "\n       USER Override - Skipping all Watchdog tests\n" (
  let* n := gets (fun s => w_num_wd (world s)) in
  if negb build_sbsa && (n =? 0)
  then print ACS_PRINT_WARN "\n       No Watchdog Found, Skipping Watchdog tests...\n" 0 ;;; ret ACS_STATUS_SKIP else
  start "Watchdog" WD_MODULE ;;;
  let* st := os_view ["os_w001"; "os_w002"] num_hart ACS_STATUS_PASS in
  finish st "Watchdog").

Definition val_pcie_execute_tests (num_hart : Z) : P Z :=
  unless_skipped ACS_PCIE_TEST_NUM_BASE "\n       USER Override - Skipping all PCIe tests\n" (
  let* flag := gets (fun s => w_bdf_table_list_flag (world s)) in
  if flag =? 1 then print ACS_PRINT_WARN "\n     *** Created device list with valid bdf doesn't match" 0 ;;; ret ACS_STATUS_SKIP else
  let* n := gets (fun s => w_num_ecam (world s)) in
  if n =? 0 then print ACS_PRINT_WARN "\n      *** No ECAM region found, Skipping PCIE tests ***\n" 0 ;;; ret ACS_STATUS_SKIP else
  start "PCIe" PCIE_MODULE ;;;
  let* st := os_view ["os_p001"; "os_p002"; "os_p003"; "os_p004"; "os_p005"; "os_p006"; "os_p007"; "os_p008"; "os_p009";
    "os_p010"; "os_p011"; "os_p012"; "os_p013"; "os_p014"; "os_p015"; "os_p016"; "os_p017"; "os_p018"; "os_p019"; "os_p020";
    "os_p021"; "os_p022"; "os_p023"; "os_p024"; "os_p025"] num_hart ACS_STATUS_PASS in
  finish st "PCIe").

(** The tests of the exerciser take no argument. *)
Definition val_exerciser_execute_tests : P Z :=
  unless_skipped ACS_EXERCISER_TEST_NUM_BASE "\n       USER Override - Skipping all Exerciser tests\n" (
  let* r := w_exerciser_create_info_table in
  if negb (r =? 0) then print ACS_PRINT_WARN "\n     Create BDF Table Failed, Skipping Exerciser tests...\n" 0 ;;; ret ACS_STATUS_SKIP else
  let* n := gets (fun s => w_num_exercisers (world s)) in
  if n =? 0 then print ACS_PRINT_WARN "\n       No Exerciser Devices Found, Skipping tests...\n" 0 ;;; ret ACS_STATUS_SKIP else
  print ACS_PRINT_INFO "  Initializing SMMU\n" 0 ;;;
  let* num_smmu := gets (fun s => w_num_smmu (world s)) in
  w_smmu_init ;;;
  foreach (seqZ 0 num_smmu) w_smmu_disable ;;;
  print ACS_PRINT_INFO "  Initializing ITS\n" 0 ;;;
  w_gic_its_configure ;;;
  start "Exerciser" EXERCISER_MODULE ;;;
  let* st := os_view (["os_e001"; "os_e002"; "os_e003"; "os_e004"; "os_e005"; "os_e006"; "os_e007"; "os_e008"; "os_e010"] ++
    (if target_is_dt then [] else ["os_e011"; "os_e012"; "os_e013"]) ++ ["os_e014"; "os_e015"; "os_e016"; "os_e017"]) 0 ACS_STATUS_PASS in
  w_smmu_stop ;;;
  finish st "Exerciser").

(** The next two set the module of the harts. *)
Definition val_qos_execute_tests (num_hart : Z) : P Z :=
  unless_skipped ACS_QOS_TEST_NUM_BASE "\n       USER Override - Skipping all QoS tests\n" (
  start "QoS" PE_MODULE ;;;
  let* st := os_view ["os_q001"] num_hart ACS_STATUS_PASS in
  let* st := hyp_view [] num_hart st in
  let* st := ps_view [] num_hart st in
  finish st "QoS").

Definition val_mng_execute_tests (num_hart : Z) : P Z :=
  unless_skipped ACS_MNG_TEST_NUM_BASE "\n       USER Override - Skipping all MNG tests\n" (
  start "MNG" PE_MODULE ;;;
  let* st := os_view ["os_m001"; "os_m002"] num_hart ACS_STATUS_PASS in
  let* st := hyp_view [] num_hart st in
  let* st := ps_view [] num_hart st in
  finish st "MNG").

Definition val_iommu_execute_tests (num_hart : Z) : P Z :=
  unless_skipped ACS_IOMMU_TEST_NUM_BASE "\n       USER Override - Skipping all IOMMU tests\n" (
  start "IOMMU" IOMMU_MODULE ;;;
  let* st := os_view ["os_iom001"; "os_iom002"; "os_iom003"; "os_iom004"; "os_iom005"; "os_iom008"; "os_iom011"; "os_iom013";
    "os_iom014"; "os_iom017"; "os_iom019"; "os_iom022"; "os_iom024"; "os_iom026"] num_hart ACS_STATUS_PASS in
  finish st "IOMMU").

(** ** The applications *)

(** A table: memory for it, then its component. *)
Definition create_table (name : string) : P Z :=
  let* st := w_allocate name in if negb (st =? 0) then ret st else w_create name.
(** The same where the status of the component is not used. *)
Definition create_table_void (name : string) : P Z :=
  let* st := w_allocate name in if negb (st =? 0) then ret st else let* _ := w_create name in ret st.
Definition createPeInfoTable : P Z := create_table "hart".
Definition createIommuInfoTable : P Z := create_table "iommu".
Definition createGicInfoTable : P Z := create_table "gic".
Definition createMngInfoTable : P Z := create_table_void "mng".
Definition createTimerInfoTable : P Z := create_table_void "timer".
Definition createPcieVirtInfoTable : P Z := create_table_void "pcie".

Definition reset_counters : P unit := on_val (modify (fun v => set_g_bsa_tests_fail 0 (set_g_bsa_tests_pass 0 (set_g_bsa_tests_total 0 v)))).
Definition BSA_ACS_MAJOR_VER : Z := 1.
Definition BSA_ACS_MINOR_VER : Z := 0.
Definition BSA_ACS_SUBMINOR_VER : Z := 7.
Definition print_version (title : string) : P unit :=
  print ACS_PRINT_TEST title 0 ;;;
  print ACS_PRINT_TEST "\n          Version %d." BSA_ACS_MAJOR_VER ;;;
  print ACS_PRINT_TEST "%d." BSA_ACS_MINOR_VER ;;;
  print ACS_PRINT_TEST "%d\n" BSA_ACS_SUBMINOR_VER.
Definition print_counters (line_before total pass fail line_after : string) : P unit :=
  print ACS_PRINT_TEST line_before 0 ;;;
  let* v := gets vs in
  print ACS_PRINT_TEST total (g_bsa_tests_total v) ;;;
  print ACS_PRINT_TEST pass (g_bsa_tests_pass v) ;;;
  print ACS_PRINT_TEST fail (g_bsa_tests_fail v) ;;;
  print ACS_PRINT_TEST line_after 0.

(** [Status |= module(val_hart_get_num(), g_sw_view)] *)
Fixpoint run_modules (l : list (Z -> P Z)) (status : Z) : P Z :=
  match l with
  | [] => ret status
  | m :: l' => let* n := on_val val_hart_get_num in let* r := m n in run_modules l' (u32 (Z.lor status r))
  end.

(** The modules that the UEFI application runs. *)
Definition uefi_modules : list (Z -> P Z) :=
  [val_iic_execute_tests; val_timer_execute_tests; val_pcie_execute_tests; val_qos_execute_tests; val_mng_execute_tests;
   val_iommu_execute_tests].

Definition freeBsaAcsMem : P unit :=
  foreach ["val_hart_free_info_table"; "val_iommu_free_info_table"; "val_gic_free_info_table"; "val_timer_free_info_table";
    "val_wd_free_info_table"; "val_pcie_free_info_table"; "val_free_shared_mem"] w_call.
Definition FlushImage : P unit := w_call "FlushImage".

(** [ShellAppMain] after the options: the value it returns. The label that an
    unexpected exception would return to, and the files, are left out. *)
Definition uefi_main : P Z :=
  reset_counters ;;;
  print_version "\n\n BSA Architecture Compliance Suite" ;;;
  let* level := gets (fun s => g_print_level (vs s)) in
  print ACS_PRINT_TEST "\n Starting tests with print level : %2d\n\n" level ;;;
  print ACS_PRINT_TEST "\n Creating Platform Information Tables\n" 0 ;;;
  let* st := createPeInfoTable in if negb (st =? 0) then ret st else
  let* st := createIommuInfoTable in if negb (st =? 0) then ret st else
  let* st := createGicInfoTable in if negb (st =? 0) then ret st else
  let* st := createMngInfoTable in if negb (st =? 0) then ret st else
  print ACS_PRINT_TEST "\n Allocate shared mem and flush image\n" 0 ;;;
  w_call "val_allocate_shared_mem" ;;;
  w_call "val_hart_context_save" ;;;
  w_call "val_hart_initialize_default_exception_handler" ;;;
  let* _ := createTimerInfoTable in
  let* _ := createPcieVirtInfoTable in
  FlushImage ;;;
  let* _ := run_modules uefi_modules st in
  print_counters "\n     -------------------------------------------------------" "\n     Total Tests run  = %4d"
    "\n     Tests Passed  = %4d" "\n     Tests Failed = %4d\n" "\n     -------------------------------------------------------" ;;;
  freeBsaAcsMem ;;;
  print ACS_PRINT_TEST "\n      *** BSA tests complete. Reset the system. ***\n\n" 0 ;;;
  w_call "val_hart_context_restore" ;;;
  print ACS_PRINT_TEST "\n      *** BSA tests exit ***\n\n" 0 ;;;
  ret 0.

(** The modules of the bare-metal application. *)
Definition bm_modules : list (Z -> P Z) :=
  [val_hart_execute_tests; val_memory_execute_tests; val_iic_execute_tests; val_smmu_execute_tests; val_timer_execute_tests;
   val_wakeup_execute_tests; val_peripheral_execute_tests; val_wd_execute_tests; val_pcie_execute_tests;
   (fun _ => val_exerciser_execute_tests)].
Definition bm_print_level (v : Z) : Z := if v <? ACS_PRINT_INFO then ACS_PRINT_INFO else if ACS_PRINT_ERR <? v then ACS_PRINT_ERR else v.
Definition bm_freeBsaAcsMem : P unit :=
  foreach ["val_hart_free_info_table"; "val_gic_free_info_table"; "val_timer_free_info_table"; "val_wd_free_info_table";
    "val_pcie_free_info_table"; "val_iovirt_free_info_table"; "val_peripheral_free_info_table"; "val_free_shared_mem"] w_call.
(** [ShellAppMainbsa], built without its own boot code, up to the endless loop at its
    end; the lists of tests are those of the platform. *)
Definition bm_main (PLATFORM_OVERRIDE_PRINT_LEVEL : Z) : P Z :=
  on_val (modify (set_g_print_level PLATFORM_OVERRIDE_PRINT_LEVEL)) ;;;
  (let new := bm_print_level PLATFORM_OVERRIDE_PRINT_LEVEL in
   when (negb (new =? PLATFORM_OVERRIDE_PRINT_LEVEL))
     (print ACS_PRINT_ERR "Print Level %d is not supported.\n" PLATFORM_OVERRIDE_PRINT_LEVEL ;;;
      print ACS_PRINT_ERR "Setting Print level to %d\n" new ;;;
      on_val (modify (set_g_print_level new)))) ;;;
  reset_counters ;;;
  print_version "\n\n BSA Architecture Compliance Suite\n" ;;;
  print ACS_PRINT_TEST " Starting tests with print level : %2d\n\n" ACS_PRINT_TEST ;;;
  print ACS_PRINT_TEST " Creating Platform Information Tables\n" 0 ;;;
  let* st := w_create "hart" in if negb (st =? 0) then ret st else
  let* st := w_create "gic" in if negb (st =? 0) then ret st else
  let* _ := w_create "timer" in
  let* _ := w_create "wd" in
  let* _ := w_create "pcie" in
  let* _ := w_create "iovirt" in
  let* _ := w_create "peripheral" in
  let* _ := w_create "memory" in
  w_call "val_allocate_shared_mem" ;;;
  w_call "val_hart_context_save" ;;;
  w_call "val_hart_initialize_default_exception_handler" ;;;
  let* r := run_modules bm_modules 0 in
  print_counters "\n     -------------------------------------------------------\n" "     Total Tests run  = %4d"
    "  Tests Passed  = %4d" "  Tests Failed = %4d\n" "     -------------------------------------------------------\n" ;;;
  bm_freeBsaAcsMem ;;;
  print ACS_PRINT_TEST "\n      *** BSA tests complete. Reset the system. ***\n\n" 0 ;;;
  w_call "val_hart_context_restore" ;;;
  ret r.
End Modules.

(** ** A list of numbers on the command line *)

Definition comma : Ascii.ascii := Ascii.ascii_of_nat 44.
Definition is_digit (c : Ascii.ascii) : bool :=
  let n := Ascii.nat_of_ascii c in (48 <=? n)%nat && (n <=? 57)%nat.
Fixpoint all_digits (s : string) : bool :=
  match s with EmptyString => true | String c s' => is_digit c && all_digits s' end.
Fixpoint value_from (acc : Z) (s : string) : Z :=
  match s with
  | EmptyString => acc
  | String c s' => value_from (acc * 10 + (Z.of_nat (Ascii.nat_of_ascii c) - 48)) s'
  end.
Definition value : string -> Z := value_from 0.
(** The fields of an option, with a comma between two. *)
Fixpoint fields (d : string) (l : list string) : string :=
  match l with [] => d | e :: l' => d +:+ String comma (fields e l') end.
Definition ends_field (s : string) : Prop := s = EmptyString \/ exists s', s = String comma s'.

Lemma digit_not_comma c : is_digit c = true -> c <> comma.
Proof. intros Hd ->. vm_compute in Hd. done. Qed.

Lemma append_cons c d s : String c d +:+ s = String c (d +:+ s).
Proof. done. Qed.

Lemma append_empty d : d +:+ EmptyString = d.
Proof. induction d as [|c d IH]; [done|]. by rewrite append_cons, IH. Qed.

Lemma after_commas_digits d s : all_digits d = true -> after_commas (d +:+ s) = after_commas s.
Proof.
  induction d as [|c d IH]; [done|]. cbn [all_digits]. intros [Hc Hd]%andb_true_iff.
  rewrite append_cons. cbn [after_commas]. rewrite bool_decide_eq_false_2 by by apply digit_not_comma. by apply IH.
Qed.

Section Numbers.
Context (StrDecimalToUintn : string -> Z).
(** The library function reads the digits at the start, up to another character. *)
Definition reads_digits : Prop :=
  forall d rest, all_digits d = true -> ends_field rest -> value d < 2 ^ 64 -> StrDecimalToUintn (d +:+ rest) = value d.

Definition well_formed (d : string) : Prop := all_digits d = true /\ value d < 2 ^ 64.

Lemma fields_read l : reads_digits -> forall d, well_formed d -> Forall well_formed l ->
  map StrDecimalToUintn (fields d l :: after_commas (fields d l)) = map value (d :: l).
Proof.
  intros HR. induction l as [|e l IH]; intros d [Hd Hv] Hl.
  - pose proof (after_commas_digits d EmptyString Hd) as E. pose proof (HR d EmptyString Hd (or_introl eq_refl) Hv) as Ev.
    rewrite append_empty in E, Ev. simpl. by rewrite E, Ev.
  - apply Forall_cons in Hl as [He Hl]. cbn [fields map]. rewrite HR; [|done|right; by eexists|done].
    rewrite after_commas_digits by done. cbn [after_commas]. rewrite bool_decide_eq_true_2 by done.
    f_equal. by apply IH.
Qed.

Lemma store_numbers_spec room l stored :
  4 * Z.of_nat (length stored) <= room ->
  store_numbers StrDecimalToUintn room stored l =
  if 4 * Z.of_nat (length stored + length l) <=? room
  then Done (stored ++ map u32 (map StrDecimalToUintn l)) else Undefined.
Proof.
  revert stored. induction l as [|x l IH]; intros stored Hs; simpl.
  - rewrite Nat.add_0_r, app_nil_r. by destruct (Z.leb_spec (4 * Z.of_nat (length stored)) room); [|lia].
  - destruct (Z.leb_spec (4 * (Z.of_nat (length stored) + 1)) room) as [Hle|Hgt].
    + rewrite IH by (rewrite length_app; simpl; lia). rewrite length_app. simpl.
      replace (length stored + 1 + length l)%nat with (length stored + S (length l))%nat by lia.
      by rewrite <- app_assoc.
    + destruct (Z.leb_spec (4 * Z.of_nat (length stored + S (length l))) room); [lia|done].
Qed.

(** C29: [-skip], [-t] and [-m] with decimal fields give the numbers of the fields, in
    order and as 32-bit values, exactly when the text has at least four characters for
    each number; otherwise a number is stored behind the block, whose size is the length
    of the text. *)
Theorem option_list_parsed d l :
  reads_digits -> well_formed d -> Forall well_formed l ->
  number_list StrDecimalToUintn (fields d l) =
  if 4 * Z.of_nat (length (d :: l)) <=? Z.of_nat (String.length (fields d l))
  then Done (map (fun x => u32 (value x)) (d :: l)) else Undefined.
Proof.
  intros HR Hd Hl. unfold number_list. rewrite store_numbers_spec by (simpl; lia).
  rewrite fields_read by done. rewrite map_map. cbn [length app]. rewrite Nat.add_0_l.
  assert (length (after_commas (fields d l)) = length l) as ->; [|done].
  pose proof (f_equal length (fields_read l HR d Hd Hl)) as E. rewrite !length_map in E. simpl in E. lia.
Qed.
End Numbers.

(** A function that reads the digits at the start. *)
Fixpoint decimal_from (acc : Z) (s : string) : Z :=
  match s with
  | EmptyString => acc
  | String c s' =>
      if is_digit c then decimal_from (acc * 10 + (Z.of_nat (Ascii.nat_of_ascii c) - 48)) s' else acc
  end.

Lemma decimal_reads_digits : reads_digits (decimal_from 0).
Proof.
  intros d rest Hd Hr _. unfold value. generalize 0. revert Hd.
  induction d as [|c d IH]; intros Hd acc.
  - destruct Hr as [->|[s' ->]]; done.
  - cbn [all_digits] in Hd. apply andb_true_iff in Hd as [Hc Hd]. rewrite append_cons. cbn [decimal_from value_from].
    rewrite Hc. by apply IH.
Qed.

(** Numbers of three digits, which most tests have, never fit. *)
Lemma three_digits_overflow StrDecimalToUintn d l :
  reads_digits StrDecimalToUintn -> Forall well_formed (d :: l) ->
  Forall (fun x => String.length x = 3%nat) (d :: l) -> number_list StrDecimalToUintn (fields d l) = Undefined.
Proof.
  intros HR [Hd Hl]%Forall_cons H3. unfold number_list. rewrite store_numbers_spec by (simpl; lia).
  pose proof (f_equal length (fields_read _ l HR d Hd Hl)) as E. rewrite !length_map in E.
  cbn [length app]. rewrite Nat.add_0_l. cbn [length] in E. rewrite E.
  assert (String.length (fields d l) = 4 * length l + 3)%nat as ->; [|by destruct (Z.leb_spec (4 * Z.of_nat (S (length l))) (Z.of_nat (4 * length l + 3))); [lia|]].
  clear -H3. revert d H3. induction l as [|e l IH]; intros d [Hd H3]%Forall_cons; cbn [fields length]; [by rewrite Hd|].
  assert (HA : forall a b, String.length (a +:+ b) = (String.length a + String.length b)%nat).
  { intros a b. induction a as [|c a IHa]; [done|]. rewrite append_cons. cbn [String.length]. by rewrite IHa. }
  rewrite HA. cbn [String.length]. rewrite IH by done. lia.
Qed.

Lemma option_list_parsed_witness :
  number_list (decimal_from 0) (fields "1001" ["1103"; "12"]) = Done [1001; 1103; 12] /\
  number_list (decimal_from 0) (fields "801" ["802"]) = Undefined.
Proof.
  split.
  - rewrite (option_list_parsed (decimal_from 0) "1001" ["1103"; "12"]); [by vm_compute|apply decimal_reads_digits| |].
    + split; by vm_compute.
    + repeat constructor.
  - rewrite (option_list_parsed (decimal_from 0) "801" ["802"]); [by vm_compute|apply decimal_reads_digits| |].
    + split; by vm_compute.
    + repeat constructor.
Defined.

(** ** Which tests a run executes *)

(** The options select a module: it is not skipped, and it is named, has a named test,
    or nothing is named. *)
Definition module_selected (v : val_state) (base : Z) : bool :=
  negb (existsb (fun k => k =? base) (g_skip_test_num v)) &&
  (negb (nonempty (g_execute_tests v) || nonempty (g_execute_modules v)) ||
   existsb (fun m => m =? base) (g_execute_modules v) ||
   existsb (fun t => u32 (t - base) <? 100) (g_execute_tests v)).

(** The status words of some tests, joined. *)
Definition or_all (l : list Z) : Z := foldr (fun r a => Z.lor (u32 r) a) 0 l.

Lemma u32_lor a b : u32 (Z.lor a b) = Z.lor (u32 a) (u32 b).
Proof.
  apply Z.bits_inj. intros i. rewrite Z.lor_spec, !testbit_u32, Z.lor_spec. by destruct (i <? 32).
Qed.

Lemma or_all_app a b : or_all (a ++ b) = Z.lor (or_all a) (or_all b).
Proof. induction a as [|x a IH]; [done|]. simpl. by rewrite IH, Z.lor_assoc. Qed.

Lemma u32_or_all l : u32 (or_all l) = or_all l.
Proof. induction l as [|x l IH]; [done|]. simpl. by rewrite u32_lor, u32_idem, IH. Qed.

Section Run.
Context {W : Type} `{World W}.
Context (sw_os sw_hyp sw_ps : bool).

(** What a test leaves alone: the options, the hart table and what the modules ask. *)
Definition kept (s s' : suite W) : Prop :=
  g_skip_test_num (vs s') = g_skip_test_num (vs s) /\ g_execute_tests (vs s') = g_execute_tests (vs s) /\
  g_execute_modules (vs s') = g_execute_modules (vs s) /\ g_hart_info_table (vs s') = g_hart_info_table (vs s) /\
  w_bdf_table_list_flag (world s') = w_bdf_table_list_flag (world s) /\ w_num_ecam (world s') = w_num_ecam (world s).

#[export] Instance kept_preorder : PreOrder kept.
Proof. split; [done|]. intros a b c (?&?&?&?&?&?) (?&?&?&?&?&?). unfold kept. repeat split; congruence. Qed.

(** Tests that return, with a log of the calls: the test, its argument and its answer. *)
Context (ran : W -> list (string * Z * Z)).
Definition tests_return : Prop := forall t n (s : suite W), exists r s',
  entry t n s = Done (r, s') /\ kept s s' /\ ran (world s') = ran (world s) ++ [(t, n, r)].
Context (HT : tests_return).

Lemma run_tests_log l n : forall st s, u32 st = st -> exists log s',
  run_tests l n st s = Done (Z.lor st (or_all log.*2), s') /\ kept s s' /\
  ran (world s') = ran (world s) ++ log /\ log.*1 = (fun t => (t, n)) <$> l.
Proof.
  induction l as [|t l IH]; intros st s Hst.
  - exists [], s. simpl. rewrite Z.lor_0_r, app_nil_r. done.
  - destruct (HT t n s) as (r & s1 & E & K & R). simpl. rewrite (bind_done _ _ _ _ _ E).
    destruct (IH (u32 (Z.lor st r)) s1 (u32_idem _)) as (log & s2 & E2 & K2 & R2 & L2).
    exists ((t, n, r) :: log), s2. split_and!.
    + rewrite E2. do 2 f_equal. simpl. by rewrite u32_lor, Hst, Z.lor_assoc.
    + by etransitivity.
    + by rewrite R2, R, <- app_assoc.
    + by rewrite !fmap_cons, L2.
Qed.

(** A step of the suite that only prints, or sets the module. *)
Definition silent {A} (m : prog (suite W) A) : Prop := forall s, exists a s',
  m s = Done (a, s') /\ kept s s' /\ world s' = world s.

Lemma silent_quiet {A} (m : prog val_state A) : quiet m -> silent (on_val m).
Proof.
  intros Hq s. destruct (Hq (vs s)) as (a & c & E). exists a, (mk_suite (set_console c (vs s)) (world s)).
  unfold on_val. rewrite E. done.
Qed.

Lemma silent_print level str data : silent (print level str data).
Proof. apply silent_quiet, quiet_val_print. Qed.

Lemma silent_start title m : silent (start title m).
Proof.
  intros s. destruct (silent_quiet (val_print_test_start title) ltac:(unfold val_print_test_start; auto with quiet) s)
    as (a & s1 & E & K & Wo).
  exists tt, (mk_suite (set_g_curr_module (module_bit m) (vs s1)) (world s1)).
  unfold start. rewrite (bind_done _ _ _ _ _ E). done.
Qed.

Lemma silent_test_end st title : silent (on_val (val_print_test_end st title)).
Proof. apply silent_quiet. unfold val_print_test_end. auto 10 with quiet. Qed.

(** A step that answers its argument. *)
Definition echoes (k : Z -> prog (suite W) Z) : Prop := forall st s, exists s',
  k st s = Done (st, s') /\ kept s s' /\ world s' = world s.

Lemma echoes_finish title : echoes (fun st => finish st title).
Proof.
  intros st s. destruct (silent_test_end st title s) as (a & s' & E & K & Wo).
  exists s'. unfold finish. by rewrite (bind_done _ _ _ _ _ E).
Qed.

(** A view without tests, and then the rest. *)
Lemma echoes_view on title n k : echoes k -> echoes (fun st => bind (view on title [] n st) k).
Proof.
  intros Hk st s. unfold view. destruct on; [|apply Hk].
  destruct (silent_print ACS_PRINT_ERR title 0 s) as (a & s1 & E & K & Wo).
  destruct (Hk st s1) as (s2 & E2 & K2 & Wo2). exists s2.
  erewrite bind_done by (rewrite (bind_done _ _ _ _ _ E); done).
  split_and!; [done|by etransitivity|congruence].
Qed.

(** What a module does: the tests that it runs, when it is due, and its status. *)
Definition follows (due : bool) (tests : list string) (n st : Z) (s s' : suite W) : Prop :=
  kept s s' /\ exists log, ran (world s') = ran (world s) ++ log /\
    log.*1 = (if due && sw_os then (fun t => (t, n)) <$> tests else []) /\
    st = (if due then or_all log.*2 else ACS_STATUS_SKIP).
Definition performs (m : prog (suite W) Z) (due : bool) (tests : list string) (n : Z) (s : suite W) : Prop :=
  exists st s', m s = Done (st, s') /\ follows due tests n st s s'.

Lemma skip_performs level msg tests n s : performs (print level msg 0 ;;; ret ACS_STATUS_SKIP) false tests n s.
Proof.
  destruct (silent_print level msg 0 s) as (a & s1 & E & K & Wo). exists ACS_STATUS_SKIP, s1.
  rewrite (bind_done _ _ _ _ _ E). split; [done|]. split; [done|]. exists []. by rewrite Wo, app_nil_r.
Qed.

Lemma os_view_log tests n s : exists log s',
  os_view sw_os tests n ACS_STATUS_PASS s = Done (or_all log.*2, s') /\ kept s s' /\
  ran (world s') = ran (world s) ++ log /\ log.*1 = (if sw_os then (fun t => (t, n)) <$> tests else []).
Proof.
  unfold os_view, view. destruct sw_os; [|by exists [], s; rewrite app_nil_r].
  destruct (silent_print ACS_PRINT_ERR "\nOperating System View:\n" 0 s) as (a & s1 & E & K & Wo).
  rewrite (bind_done _ _ _ _ _ E).
  destruct (run_tests_log tests n ACS_STATUS_PASS s1 eq_refl) as (log & s2 & E2 & K2 & R2 & L2).
  exists log, s2. rewrite E2. split_and!; [done|by etransitivity|congruence|done].
Qed.

Lemma body_performs title md tests n k s : echoes k ->
  performs (start title md ;;; (let* st := os_view sw_os tests n ACS_STATUS_PASS in k st)) true tests n s.
Proof.
  intros Hk. destruct (silent_start title md s) as (a & s1 & E & K & Wo).
  destruct (os_view_log tests n s1) as (log & s2 & E2 & K2 & R2 & L2).
  destruct (Hk (or_all log.*2) s2) as (s3 & E3 & K3 & Wo3).
  exists (or_all log.*2), s3. split.
  - by rewrite (bind_done _ _ _ _ _ E), (bind_done _ _ _ _ _ E2).
  - split; [by transitivity s1; [|transitivity s2]|]. exists log. split_and!; [congruence|done|done].
Qed.

(** Performing depends on the run from the state only. *)
Lemma performs_at m m' due tests n s : m s = m' s -> performs m' due tests n s -> performs m due tests n s.
Proof. intros E (st & s' & E' & F). exists st, s'. by rewrite E. Qed.

(** A guard of a module. *)
Lemma guard_performs {A} (f : suite W -> A) (b : A -> bool) level msg body ready tests n s :
  performs body ready tests n s ->
  performs (let* x := gets f in if b x then print level msg 0 ;;; ret ACS_STATUS_SKIP else body)
    (negb (b (f s)) && ready) tests n s.
Proof.
  intros Hb. eapply (performs_at _ (if b (f s) then print level msg 0 ;;; ret ACS_STATUS_SKIP else body)); [done|].
  destruct (b (f s)); [apply skip_performs|exact Hb].
Qed.

Lemma unless_performs base msg body ready tests n s :
  options_small (vs s) -> performs body ready tests n s ->
  performs (unless_skipped base msg body) (module_selected (vs s) base && ready) tests n s.
Proof.
  intros Hs Hb. unfold unless_skipped, module_selected. rewrite <- andb_assoc.
  apply (guard_performs (fun s => g_skip_test_num (vs s)) (existsb (fun k => k =? base))).
  assert (E := check_skip_module_spec base (vs s) Hs). unfold returns in E. revert E.
  destruct (negb _ || _ || _); intros E.
  - eapply (performs_at _ body); [|exact Hb]. erewrite bind_done; [|unfold on_val; by rewrite E]. by destruct s.
  - eapply (performs_at _ (print ACS_PRINT_INFO msg 0 ;;; ret ACS_STATUS_SKIP)); [|apply skip_performs].
    erewrite bind_done; [|unfold on_val; by rewrite E]. by destruct s.
Qed.

(** A module of the plan: its number, what it needs besides its selection, its tests. *)
Record planned := mk_planned { p_base : Z; p_ready : W -> bool; p_tests : list string }.
Definition due (s : suite W) (p : planned) : bool := module_selected (vs s) (p_base p) && p_ready p (world s).
Definition stable (p : planned) : Prop := forall s s', kept s s' -> p_ready p (world s') = p_ready p (world s).
Definition implements (m : Z -> prog (suite W) Z) (p : planned) : Prop :=
  stable p /\ forall n s, options_small (vs s) -> performs (m n) (due s p) (p_tests p) n s.

Lemma kept_due p s s' : stable p -> kept s s' -> due s' p = due s p.
Proof.
  intros Hp K. unfold due. rewrite (Hp s s' K). destruct K as (E1 & E2 & E3 & _).
  unfold module_selected. by rewrite E1, E2, E3.
Qed.

Definition num_harts (s : suite W) : Z :=
  match g_hart_info_table (vs s) with None => 0 | Some t => num_of_hart t end.
(** The calls that a plan makes from a state, and its status for some answers. *)
Definition calls (s : suite W) (plan : list planned) : list (string * Z) :=
  flat_map (fun p => if due s p && sw_os then (fun t => (t, num_harts s)) <$> p_tests p else []) plan.
Definition plan_status (s : suite W) (plan : list planned) (answers : list Z) : Z :=
  Z.lor (if forallb (due s) plan then 0 else ACS_STATUS_SKIP) (or_all answers).

Lemma calls_kept s s' plan : Forall stable plan -> kept s s' -> calls s' plan = calls s plan /\
  forallb (due s') plan = forallb (due s) plan.
Proof.
  intros HF K. assert (num_harts s' = num_harts s) as En by (unfold num_harts; by destruct K as (_ & _ & _ & -> & _)).
  unfold calls. induction HF as [|p plan Hp HF [IH1 IH2]]; [done|]. simpl.
  by rewrite (kept_due p s s' Hp K), En, IH2, <- IH1, En.
Qed.

Lemma run_modules_log ms plan : Forall2 implements ms plan -> forall st s, u32 st = st -> options_small (vs s) ->
  exists log s', run_modules ms st s = Done (Z.lor st (plan_status s plan log.*2), s') /\ kept s s' /\
    ran (world s') = ran (world s) ++ log /\ log.*1 = calls s plan.
Proof.
  induction 1 as [|m p ms plan [Hst Hm] HF IH]; intros st s Hu Ho.
  - exists [], s. cbn. rewrite Z.lor_0_r, app_nil_r. done.
  - assert (Forall stable plan) as HS by (eapply Forall2_Forall_r; [exact HF|apply Forall_true; by intros ? ? []]).
    destruct (Hm (num_harts s) s Ho) as (r & s1 & E & K & log1 & R1 & L1 & ->).
    destruct (calls_kept s s1 plan HS K) as [Ec Ed].
    set (r := if due s p then _ else _) in *.
    destruct (IH (u32 (Z.lor st r)) s1) as (log & s2 & E2 & K2 & R2 & L2).
    { apply u32_idem. }
    { unfold options_small. by destruct K as (_ & -> & -> & _). }
    exists (log1 ++ log), s2. split_and!.
    + cbn [run_modules]. erewrite bind_done by (unfold on_val, val_hart_get_num, gets; by destruct s).
      unfold num_harts in E. rewrite (bind_done _ _ _ _ _ E), E2. do 2 f_equal.
      unfold plan_status. rewrite Ed, fmap_app, or_all_app. cbn [forallb]. rewrite u32_lor, Hu.
      unfold r. destruct (due s p); cbn [andb].
      * rewrite u32_or_all. rewrite <- !Z.lor_assoc. f_equal. by rewrite !Z.lor_assoc, (Z.lor_comm (or_all _)).
      * assert (or_all log1.*2 = 0) as -> by (by destruct log1).
        rewrite <- !Z.lor_assoc. f_equal. rewrite Z.lor_0_l, Z.lor_assoc. f_equal. by destruct (forallb (due s) plan).
    + by etransitivity.
    + by rewrite R2, R1, <- app_assoc.
    + rewrite fmap_app, L1, L2, Ec. done.
Qed.

(** The modules of the UEFI application; the PCIe tests need a consistent device list
    and an ECAM region. *)
Definition always (_ : W) : bool := true.
Definition pcie_ready (w : W) : bool := negb (w_bdf_table_list_flag w =? 1) && (negb (w_num_ecam w =? 0) && true).
Definition uefi_plan : list planned :=
  [mk_planned 200 always ["os_i001"; "os_i002"; "os_i003"; "os_i004"; "os_i005"];
   mk_planned 400 always ["os_t001"; "os_t002"];
   mk_planned 800 pcie_ready ((fun n => "os_p0" +:+ n) <$>
     ["01"; "02"; "03"; "04"; "05"; "06"; "07"; "08"; "09"; "10"; "11"; "12"; "13"; "14"; "15"; "16"; "17"; "18"; "19";
      "20"; "21"; "22"; "23"; "24"; "25"]);
   mk_planned 1000 always ["os_q001"];
   mk_planned 1100 always ["os_m001"; "os_m002"];
   mk_planned 1200 always ((fun n => "os_iom0" +:+ n) <$>
     ["01"; "02"; "03"; "04"; "05"; "08"; "11"; "13"; "14"; "17"; "19"; "22"; "24"; "26"])].

Lemma uefi_modules_implement : Forall2 implements (uefi_modules sw_os sw_hyp sw_ps) uefi_plan.
Proof.
  repeat apply Forall2_cons_2; [..|constructor]; (split; [intros s s' (_ & _ & _ & _ & E1 & E2); try done; simpl; unfold pcie_ready; by rewrite E1, E2|]);
    intros n s Hs; apply unless_performs; try done.
  - apply body_performs, echoes_finish.
  - apply body_performs, echoes_finish.
  - apply (guard_performs (fun s => w_bdf_table_list_flag (world s)) (fun f => f =? 1)).
    apply (guard_performs (fun s => w_num_ecam (world s)) (fun f => f =? 0)).
    apply body_performs, echoes_finish.
  - apply body_performs, echoes_view, echoes_view, echoes_finish.
  - apply body_performs, echoes_view, echoes_view, echoes_finish.
  - apply body_performs, echoes_finish.
Qed.
End Run.

(** C11: when the tests return and leave the options alone, the UEFI application calls,
    in the order of the modules, exactly the tests of the modules that the options
    select (the PCIe tests only with an ECAM region and a consistent device list), each
    with the number of harts, and not one without the operating-system view; its status
    joins their answers, with the skip status if a module was left out. *)
Theorem suite_runs_selected {W : Type} `{World W} (ran : W -> list (string * Z * Z)) (sw_os sw_hyp sw_ps : bool) (s : suite W) :
  tests_return ran -> options_small (vs s) ->
  exists log s', run_modules (uefi_modules sw_os sw_hyp sw_ps) 0 s = Done (plan_status s uefi_plan log.*2, s') /\
    ran (world s') = ran (world s) ++ log /\ log.*1 = calls sw_os s uefi_plan.
Proof.
  intros HT Ho. destruct (run_modules_log sw_os ran _ _ (uefi_modules_implement sw_os sw_hyp sw_ps ran HT) 0 s eq_refl Ho)
    as (log & s' & E & K & R & L). by exists log, s'.
Qed.

(** A world that records the calls; the second timer test fails. *)
Definition answer (t : string) : Z := if bool_decide (t = "os_t002") then ACS_STATUS_FAIL else ACS_STATUS_PASS.
#[export] Instance recording_world : World (list (string * Z * Z)) := {|
  entry t n s := Done (answer t, mk_suite (vs s) (world s ++ [(t, n, answer t)]));
  w_bdf_table_list_flag _ := 0; w_num_ecam _ := 0; w_num_wd _ := 1; w_num_smmu _ := 0; w_smmu_major _ := 3;
  w_num_exercisers _ := 0; w_exerciser_create_info_table := ret 0; w_smmu_init := ret tt; w_smmu_disable _ := ret tt;
  w_gic_its_configure := ret tt; w_smmu_stop := ret tt; w_allocate _ := ret 0; w_create _ := ret 0; w_call _ := ret tt |}.

(** A selection: the timer module, a test of the PCIe module, which has no ECAM here. *)
Definition options_timer (v : val_state) : val_state :=
  mk_val (g_print_level v) (console v) (g_override_skip v) [1100] [803] [400] (g_bsa_tests_total v) (g_bsa_tests_pass v)
    (g_bsa_tests_fail v) (g_curr_module v) (g_hart_info_table v) (g_primary_hart_index v) (gPsciConduit v) (g_smc_args v)
    (smc_calls v) (handlers v) (shared_mem v) (tick v) (MPIDR v) (CTR v).

Lemma suite_runs_selected_witness :
  let s := mk_suite (options_timer state2) [] in
  calls true s uefi_plan = [("os_t001", 2); ("os_t002", 2)] /\
  exists log s', run_modules (uefi_modules true true true) 0 s = Done (plan_status s uefi_plan log.*2, s') /\
    world s' = [] ++ log /\ log.*1 = calls true s uefi_plan.
Proof.
  intros s. split; [by vm_compute|].
  apply (suite_runs_selected id true true true s); [|by vm_compute].
  intros t n s0. eexists _, _. split; [reflexivity|]. done.
Defined.
