(* ===== verification/UefiPci.v ===== *)
(** * PCIe services of the UEFI port

    Models [platform/pal_uefi_acpi/src/pal_pcie.c]: the table of ECAM regions from the
    ACPI MCFG table, and configuration and memory accesses through the protocols of the
    firmware, whose handles are the class [PciProtocols]. *)

From S2P Require Import Prelude Mmio PcieCfg.

(** ** The MCFG table *)

Record mcfg_entry := mk_mcfg_entry {
  BaseAddress : Z; PciSegmentGroupNumber : Z; StartBusNumber : Z; EndBusNumber : Z }.
(** The length field of the header and the structures in memory behind the header. *)
Record mcfg := mk_mcfg { mcfg_length : Z; mcfg_memory : list mcfg_entry }.
(** Sizes of the header and of a structure. *)
Definition MCFG_HEADER_SIZE : Z := 44.
Definition MCFG_ENTRY_SIZE : Z := 16.
Definition PLATFORM_OVERRIDE_PCIE_ECAM_BASE : Z := 0.
Definition PLATFORM_OVERRIDE_PCIE_START_BUS_NUM : Z := 0.

Definition pal_pcie_get_mcfg_ecam (ptr : option mcfg) : outcome Z :=
  match ptr with
  | None => Done 0
  | Some m => match mcfg_memory m with e :: _ => Done (BaseAddress e) | [] => Undefined end
  end.

Section Table.
(** The state is the table being filled: its memory and the number of entries. *)
Local Abbreviation P := (prog PCIE_INFO_TABLE).

Definition put_block (i : Z) (f : PCIE_INFO_BLOCK -> PCIE_INFO_BLOCK) : P unit :=
  let* b := gets block in
  let* x := deref (at_index b i) in
  modify (fun t => mk_info (info_num_entries t) (<[Z.to_nat i := f x]> b)).
Definition set_num (n : Z) : P unit := modify (fun t => mk_info n (block t)).
Definition block_of (e : mcfg_entry) : PCIE_INFO_BLOCK :=
  mk_block (BaseAddress e) (PciSegmentGroupNumber e) (StartBusNumber e) (EndBusNumber e).

(** The [do ... while] loop over the structures from index [i]. *)
Fixpoint mcfg_loop (fuel : nat) (m : mcfg) (i length : Z) : P unit :=
  match fuel with
  | O => diverge
  | S k =>
      let* e := deref (at_index (mcfg_memory m) i) in
      put_block i (fun _ => block_of e) ;;;
      let length := u32 (length + MCFG_ENTRY_SIZE) in
      let* n := gets info_num_entries in
      set_num (u32 (n + 1)) ;;;
      if length <? mcfg_length m then mcfg_loop k m (u32 (i + 1)) length else ret tt
  end.

(** One round per 16 bytes of the length, and the first. *)
Definition mcfg_fuel (m : mcfg) : nat := S (Z.to_nat (mcfg_length m / MCFG_ENTRY_SIZE)).

Definition pal_pcie_create_info_table (ptr : option mcfg) : P unit :=
  set_num 0 ;;;
  match ptr with
  | None => ret tt
  | Some m =>
      if negb (PLATFORM_OVERRIDE_PCIE_ECAM_BASE =? 0) then
        put_block 0 (fun b => mk_block PLATFORM_OVERRIDE_PCIE_ECAM_BASE 0 PLATFORM_OVERRIDE_PCIE_START_BUS_NUM (end_bus_num b)) ;;;
        set_num 1
      else mcfg_loop (mcfg_fuel m) m 0 MCFG_HEADER_SIZE
  end.
End Table.

(** ** Accesses through the firmware *)

(** What [LocateHandleBuffer] finds for the two protocols ([None]: an error), whether
    [HandleProtocol] succeeds, where a function is, and the accesses, which answer
    whether they succeed. *)
Class PciProtocols (F : Type) := {
  pci_handles : F -> option (list Z);
  bridge_handles : F -> option (list Z);
  handle_protocol : Z -> F -> bool;
  get_location : Z -> Z * Z * Z * Z;   (* segment, bus, device, function *)
  segment_number : Z -> Z;
  pci_read : Z -> Z -> prog F (bool * Z);
  pci_write : Z -> Z -> Z -> prog F bool;
  mem_read : Z -> Z -> prog F (bool * Z);
  mem_write : Z -> Z -> Z -> prog F bool }.

Section Io.
Context {F : Type} `{PciProtocols F}.
Local Abbreviation P := (prog F).

Definition here (Bdf h : Z) : bool :=
  bool_decide (get_location h = (PCIE_EXTRACT_BDF_SEG Bdf, PCIE_EXTRACT_BDF_BUS Bdf, PCIE_EXTRACT_BDF_DEV Bdf, PCIE_EXTRACT_BDF_FUNC Bdf)).

(** The status, and the new value of [*data]. *)
Definition pal_pcie_io_read_cfg (Bdf offset data : Z) : P (Z * Z) :=
  let* o := gets pci_handles in
  match o with
  | None => ret (PCIE_NO_MAPPING, data)
  | Some l =>
      let* r := search l (fun h =>
        let* ok := gets (handle_protocol h) in
        if ok && here Bdf h then
          let* r := pci_read h offset in
          ret (Some (if r.1 then (0, r.2) else (PCIE_NO_MAPPING, data)))
        else ret None) in
      ret (default (PCIE_NO_MAPPING, data) r)
  end.

(** This loop has no exit. *)
Definition pal_pcie_io_write_cfg (Bdf offset data : Z) : P unit :=
  let* o := gets pci_handles in
  match o with
  | None => ret tt
  | Some l =>
      foreach l (fun h =>
        let* ok := gets (handle_protocol h) in
        if ok && here Bdf h then let* _ := pci_write h offset (u32 data) in ret tt else ret tt)
  end.

Definition in_segment (Bdf h : Z) : bool := segment_number h =? PCIE_EXTRACT_BDF_SEG Bdf.

Definition pal_pcie_bar_mem_read (Bdf address data : Z) : P (Z * Z) :=
  let* o := gets bridge_handles in
  match o with
  | None => ret (PCIE_NO_MAPPING, data)
  | Some l =>
      let* r := search l (fun h =>
        let* ok := gets (handle_protocol h) in
        if ok && in_segment Bdf h then
          let* r := mem_read h address in
          ret (Some (if r.1 then (0, r.2) else (PCIE_NO_MAPPING, data)))
        else ret None) in
      ret (default (PCIE_NO_MAPPING, data) r)
  end.

Definition pal_pcie_bar_mem_write (Bdf address data : Z) : P Z :=
  let* o := gets bridge_handles in
  match o with
  | None => ret PCIE_NO_MAPPING
  | Some l =>
      let* r := search l (fun h =>
        let* ok := gets (handle_protocol h) in
        if ok && in_segment Bdf h then
          let* ok := mem_write h address (u32 data) in
          ret (Some (if ok then 0 else PCIE_NO_MAPPING))
        else ret None) in
      ret (default PCIE_NO_MAPPING r)
  end.
End Io.

(** ** What the platform reports *)

Definition NOT_IMPLEMENTED : Z := 0x4B1D.
Definition MEM_OFFSET_SMALL : Z := 0x10.
Definition pal_pcie_p2p_support (g_pcie_p2p : bool) : Z := if g_pcie_p2p then 0 else NOT_IMPLEMENTED.
Definition pal_pcie_dev_p2p_support (Seg Bus Dev Fn : Z) : Z := 1.
Definition pal_pcie_is_cache_present (g_pcie_cache_present : bool) (Seg Bus Dev Fn : Z) : Z :=
  if g_pcie_cache_present then 1 else NOT_IMPLEMENTED.
Definition pal_pcie_get_rp_transaction_frwd_support (seg bus dev fn : Z) : Z := 1.
Definition pal_pcie_mem_get_offset (bdf mem_type : Z) : Z := MEM_OFFSET_SMALL.

(** ** The table holds the structures of MCFG *)

Lemma put_block_at l x r n f :
  put_block (Z.of_nat (length l)) f (mk_info n (l ++ x :: r)) = Done (tt, mk_info n (l ++ f x :: r)).
Proof.
  unfold put_block. prog_step. rewrite at_index_nat, list_lookup_middle by done.
  unfold bind, modify. cbn. rewrite Nat2Z.id. rewrite insert_app_r_alt by done. by rewrite Nat.sub_diag.
Qed.

Section Mcfg.
Context (entries rest : list mcfg_entry) (Hsmall : Z.of_nat (length entries) < 2 ^ 27).
Definition mcfg_of : mcfg := mk_mcfg (MCFG_HEADER_SIZE + MCFG_ENTRY_SIZE * Z.of_nat (length entries)) (entries ++ rest).

Lemma mcfg_loop_spec todo : forall fuel before e (bl : list PCIE_INFO_BLOCK),
  entries = before ++ e :: todo -> (length todo < fuel)%nat -> (length todo < length bl)%nat ->
  mcfg_loop fuel mcfg_of (Z.of_nat (length before)) (MCFG_HEADER_SIZE + MCFG_ENTRY_SIZE * Z.of_nat (length before))
    (mk_info (Z.of_nat (length before)) (map block_of before ++ bl)) =
  Done (tt, mk_info (Z.of_nat (length entries)) (map block_of entries ++ drop (S (length todo)) bl)).
Proof.
  induction todo as [|e' todo IH]; intros [|fuel] before e [|b bl] E Hf Hb; simpl in Hf, Hb; try lia.
  all: cbn [mcfg_loop]; erewrite bind_done by
    (unfold deref, mcfg_of; cbn [mcfg_memory]; rewrite at_index_nat, E, <- app_assoc; simpl;
     rewrite list_lookup_middle by done; done).
  all: assert (Hl : forall n, put_block (Z.of_nat (length before)) (fun _ => block_of e) (mk_info n (map block_of before ++ b :: bl)) =
    Done (tt, mk_info n (map block_of before ++ block_of e :: bl)))
    by (intros n; rewrite <- (length_map block_of before); apply put_block_at).
  all: rewrite (bind_done _ _ _ _ _ (Hl _)); unfold set_num, modify; unfold bind at 1 2, gets; simpl info_num_entries;
    simpl block; unfold mcfg_of at 1; cbn [mcfg_length]; unfold MCFG_HEADER_SIZE, MCFG_ENTRY_SIZE in *.
  - rewrite E in *. rewrite length_app in *. cbn [length] in *. rewrite !u32_small by lia.
    destruct (Z.ltb_spec (44 + 16 * Z.of_nat (length before) + 16) (44 + 16 * Z.of_nat (length before + 1))); [lia|].
    replace (Z.of_nat (length before) + 1) with (Z.of_nat (length before + 1)) by lia. by rewrite map_app, <- app_assoc.
  - assert (Hl2 : length entries = (length before + S (S (length todo)))%nat) by (rewrite E, length_app; simpl; lia).
    rewrite !u32_small by lia.
    destruct (Z.ltb_spec (44 + 16 * Z.of_nat (length before) + 16) (44 + 16 * Z.of_nat (length entries))); [|lia].
    specialize (IH fuel (before ++ [e]) e' bl). rewrite length_app in IH. simpl length in IH.
    replace (Z.of_nat (length before + 1)) with (Z.of_nat (length before) + 1) in IH by lia.
    replace (44 + 16 * (Z.of_nat (length before) + 1)) with (44 + 16 * Z.of_nat (length before) + 16) in IH by lia.
    rewrite map_app, <- !app_assoc in IH. cbn [app map] in IH. apply IH; [done|lia|lia].
Qed.
End Mcfg.

(** from an MCFG table with [n >= 1] structures, and memory for [n] entries, the
    port fills exactly [n] entries, in the order of the structures and with their base,
    segment and bus range; it leaves the memory behind them alone. *)
Theorem mcfg_table_exact (entries rest : list mcfg_entry) (t : PCIE_INFO_TABLE) :
  entries <> [] -> Z.of_nat (length entries) < 2 ^ 27 -> (length entries <= length (block t))%nat ->
  pal_pcie_create_info_table (Some (mcfg_of entries rest)) t =
  Done (tt, mk_info (Z.of_nat (length entries)) (map block_of entries ++ drop (length entries) (block t))).
Proof.
  intros Hne Hs Hc. destruct entries as [|e entries]; [done|].
  unfold pal_pcie_create_info_table, set_num. cbn [Z.eqb PLATFORM_OVERRIDE_PCIE_ECAM_BASE negb].
  unfold bind at 1, modify. apply (mcfg_loop_spec (e :: entries) rest Hs entries _ [] e (block t)); [done| |done].
  unfold mcfg_fuel, mcfg_of. cbn [mcfg_length length]. unfold MCFG_HEADER_SIZE, MCFG_ENTRY_SIZE. lia.
Qed.

Lemma mcfg_table_exact_witness :
  pal_pcie_create_info_table
    (Some (mcfg_of [mk_mcfg_entry 0x40000000 0 0 127; mk_mcfg_entry 0x50000000 1 0 255] []))
    (mk_info 7 [mk_block 1 1 1 1; mk_block 2 2 2 2; mk_block 3 3 3 3]) =
  Done (tt, mk_info 2 [mk_block 0x40000000 0 0 127; mk_block 0x50000000 1 0 255; mk_block 3 3 3 3]).
Proof. apply mcfg_table_exact; [done|simpl; lia|simpl; lia]. Defined.

(** A table without structures: the loop reads one behind it. *)
Lemma mcfg_empty_reads_behind e t : (0 < length (block t))%nat ->
  pal_pcie_create_info_table (Some (mcfg_of [] [e])) t = Done (tt, mk_info 1 (block_of e :: drop 1 (block t))).
Proof. intros Hb. destruct t as [n [|b l]]; [simpl in Hb; lia|]. done. Qed.

(** ** Which handle an access uses *)

Section Handles.
Context {F : Type} `{PciProtocols F}.
(** A usable handle of the function. *)
Definition usable (f : F) (Bdf h : Z) : bool := handle_protocol h f && here Bdf h.

(** A read goes to the first usable handle of the function and to no other. *)
Lemma io_read_first Bdf offset data f l h :
  pci_handles f = Some l -> find_first (usable f Bdf) l 0 = Some h ->
  pal_pcie_io_read_cfg Bdf offset data f =
  match pci_read h.2 offset f with
  | Done (r, f') => Done (if r.1 then (0, r.2) else (PCIE_NO_MAPPING, data), f')
  | Undefined => Undefined
  | Diverges => Diverges
  end.
Proof.
  intros Hl. unfold pal_pcie_io_read_cfg. unfold bind at 1, gets at 1. rewrite Hl. clear Hl.
  set (z := 0) at 1. generalize z. clear z. induction l as [|x l IH]; intros i; cbn [find_first]; [done|].
  cbn [search]. unfold usable at 1. intros Hf.
  unfold bind at 1 2 3, gets at 1. destruct (handle_protocol x f && here Bdf x).
  - injection Hf as <-. unfold bind at 1, ret. cbn [snd]. by destruct (pci_read x offset f) as [[r f']| |].
  - apply (IH _ Hf).
Qed.
End Handles.
