(* ===== verification/Exerciser.v ===== *)
(** * The exerciser: PCIe stimulus hardware, and DMA controllers

    Models [val/src/acs_exerciser.c], [platform/pal_uefi_acpi/src/pal_exerciser.c] and
    the table of [val/src/acs_dma.c].  The exerciser is reached through its
    configuration space (at the first ECAM region of MCFG) and the registers behind its
    BAR 0, both over the hardware of [Mmio]; messages on the console are left out. *)

From S2P Require Import Prelude Mmio Peripherals PcieCfg PcieCap PcieTable UefiPci.

(** ** Constants ([pal_exerciser.h], [bsa_acs_exerciser.h]) *)

Definition EXERCISER_ID : Z := 0xED0113B5.
Definition TEST_REG_COUNT : Z := 10.
Definition BUS_MEM_EN_MASK : Z := 0x06.
Definition COMMAND_REG_OFFSET : Z := 0x04.
Definition CAP_PTR_OFFSET : Z := 0x34.
Definition PCIE_CAP_OFFSET : Z := 0x100.
Definition PCIE_CAP_CTRL_OFFSET : Z := 0x4.
Definition INTXCTL : Z := 0x004.
Definition MSICTL : Z := 0x000.
Definition DMACTL1 : Z := 0x08.
Definition DMA_BUS_ADDR : Z := 0x010.
Definition DMA_LEN : Z := 0x018.
Definition DMASTATUS : Z := 0x01C.
Definition PASID_VAL : Z := 0x020.
Definition ATSCTL : Z := 0x024.
Definition ATS_ADDR : Z := 0x028.
Definition TXN_TRACE : Z := 0x40.
Definition TXN_CTRL_BASE : Z := 0x44.
Definition DVSEC_CTRL : Z := 0x8.
Definition PASID : Z := 0x1B.
Definition DVSEC : Z := 0x0023.
Definition PCIE_NXT_CAP_PTR_MASK : Z := 0x0FFF.
Definition PCIE_CAP_ID_MASK : Z := 0xFFFF.
Definition PCI_CAP_ID_MASK : Z := 0x00FF.
Definition PCI_NXT_CAP_PTR_MASK : Z := 0x00FF.
Definition CAP_PTR_MASK : Z := 0x00FF.
Definition CLR_INTR_MASK : Z := 0xFFFFFFFE.
Definition PASID_TLP_STOP_MASK : Z := 0xFFFFFFBF.
Definition PASID_LEN_SHIFT : Z := 7.
Definition PASID_EN_SHIFT : Z := 6.
Definition DMA_TO_DEVICE_MASK : Z := 0xFFFFFFEF.
Definition SHIFT_4BIT : Z := 4.
Definition MASK_BIT : Z := 1.
Definition PREFETCHABLE_BIT_SHIFT : Z := 3.
Definition ERR_CODE_SHIFT : Z := 20.
Definition FATAL_SHIFT : Z := 31.
Definition ERROR_INJECT_BIT : Z := 17.
Definition PCI_CAP_PTR_OFFSET : Z := 8.
Definition PCIE_CAP_PTR_OFFSET : Z := 20.
Definition NO_SNOOP_START_MASK : Z := 0x20.
Definition NO_SNOOP_STOP_MASK : Z := 0xFFFFFFDF.
Definition PCIE_CAP_DIS_MASK : Z := 0xFFFEFFFF.
Definition RID_CTL_REG : Z := 0x3C.
Definition RID_VALUE_MASK : Z := 0xFFFF.
Definition RID_VALID : Z := 1.
Definition RID_NOT_VALID : Z := 0.
Definition ATS_TRIGGER : Z := 1.
Definition TXN_INVALID : Z := 0xFFFFFFFF.
Definition TXN_START : Z := 1.
Definition TXN_STOP : Z := 0.
Definition MAX_EXERCISER_CARDS : Z := 20.
Definition PASID_LEN_MASK : Z := 0x7.
Definition PASID_VAL_MASK : Z := Z.shiftl 1 20 - 1.
Definition MSI_GENERATION_MASK : Z := Z.shiftl 1 31.
Definition PCIE_CAP_EN_MASK : Z := Z.shiftl 1 16.
Definition RID_VALID_MASK : Z := Z.shiftl 1 31.
Definition ATS_STATUS : Z := Z.shiftl 1 7.
Definition TYPE0_MAX_BARS : Z := 6.

Inductive EXERCISER_DMA_ATTR := EDMA_NO_SUPPORT | EDMA_COHERENT | EDMA_NOT_COHERENT | EDMA_FROM_DEVICE | EDMA_TO_DEVICE.
Inductive EXERCISER_PARAM_TYPE := SNOOP_ATTRIBUTES | LEGACY_IRQ | MSIX_ATTRIBUTES | DMA_ATTRIBUTES | P2P_ATTRIBUTES
  | PASID_ATTRIBUTES | CFG_TXN_ATTRIBUTES | ATS_RES_ATTRIBUTES | TRANSACTION_TYPE | NUM_TRANSACTIONS | ADDRESS_ATTRIBUTES
  | DATA_ATTRIBUTES | ERROR_INJECT_TYPE.
(** The values that the switches on 64-bit numbers compare with. *)
Definition TXN_REQ_ID : Z := 0.
Definition TXN_ADDR_TYPE : Z := 1.
Definition TXN_REQ_ID_VALID : Z := 2.
Definition AT_UNTRANSLATED : Z := 0.
Definition AT_TRANSLATED : Z := 2.
Definition AT_RESERVED : Z := 3.
Definition CFG_READ : Z := 0.
Definition CFG_WRITE : Z := 1.
Inductive EXERCISER_STATE := EXERCISER_RESET | EXERCISER_ON | EXERCISER_OFF | EXERCISER_ERROR.
Inductive EXERCISER_OPS := START_DMA | GENERATE_MSI | GENERATE_L_INTR | MEM_READ | MEM_WRITE | CLEAR_INTR | PASID_TLP_START
  | PASID_TLP_STOP | TXN_NO_SNOOP_ENABLE | TXN_NO_SNOOP_DISABLE | START_TXN_MONITOR | STOP_TXN_MONITOR | ATS_TXN_REQ
  | INJECT_ERROR.
Inductive EXERCISER_DATA_TYPE := EXERCISER_DATA_CFG_SPACE | EXERCISER_DATA_BAR0_SPACE | EXERCISER_DATA_MMIO_SPACE.
Inductive BAR_MEM_TYPE := MMIO_PREFETCHABLE | MMIO_NON_PREFETCHABLE.
Inductive ECAM_REG_ATTRIBUTE := ACCESS_TYPE_RD | ACCESS_TYPE_RW.
Record ecam_reg_data := mk_reg_data { r_offset : Z; r_attribute : ECAM_REG_ATTRIBUTE; r_value : Z }.
(** The union: the member that was written. *)
Inductive exerciser_data := cfg_space (reg : list ecam_reg_data) | bar_space (base_addr : Z) (type : option BAR_MEM_TYPE).

#[export] Instance exerciser_state_eq_dec : EqDecision EXERCISER_STATE.
Proof. solve_decision. Defined.

(** ** The platform layer *)

Section Pal.
Context {H : Type} `{Hardware H}.
(** The devices that the firmware knows, and the answer of [pal_pcie_get_mcfg_ecam]. *)
Context (handles : list pci_handle) (Ecam : Z).
Local Abbreviation P := (prog (pcie_state H)).

Definition mmio_read (addr : Z) : P Z := on_hw (pal_mmio_read (u64 addr)).
Definition mmio_write (addr data : Z) : P unit := on_hw (pal_mmio_write (u64 addr) data).
(** Read, change, write back. *)
Definition mmio_update (addr : Z) (f : Z -> Z) : P unit := let* v := mmio_read addr in mmio_write addr (f v).

Definition pal_increment_bus_dev (Bdf : Z) : Z :=
  let Seg := PCIE_EXTRACT_BDF_SEG Bdf in
  let Bus := PCIE_EXTRACT_BDF_BUS Bdf in
  let Dev := PCIE_EXTRACT_BDF_DEV Bdf in
  if negb (Dev =? PCI_MAX_DEVICE) then pal_create_bdf Seg Bus (Dev + 1) 0 else pal_create_bdf Seg (Bus + 1) 0 0.

Definition pal_exerciser_get_ecsr_base (Bdf BarIndex : Z) : P Z := fun s =>
  match palPcieGetBase handles Bdf BarIndex with
  | Done v => Done (v, s)
  | Undefined => Undefined
  | Diverges => Diverges
  end.

Definition pal_exerciser_get_pcie_config_offset (Bdf : Z) : Z :=
  let bus := PCIE_EXTRACT_BDF_BUS Bdf in
  let dev := PCIE_EXTRACT_BDF_DEV Bdf in
  let func := PCIE_EXTRACT_BDF_FUNC Bdf in
  u32 (bus * PCIE_MAX_DEV * PCIE_MAX_FUNC * 4096 + dev * PCIE_MAX_FUNC * 4096 + func * 4096).

Definition pal_is_bdf_exerciser (bdf : Z) : P Z :=
  let* vendor_dev_id := mmio_read (Ecam + pal_exerciser_get_pcie_config_offset bdf) in
  ret (if vendor_dev_id =? EXERCISER_ID then 1 else 0).

Definition pal_exerciser_start_dma_direction (Base : Z) (Direction : EXERCISER_DMA_ATTR) : P Z :=
  (match Direction with
   | EDMA_TO_DEVICE => mmio_update (Base + DMACTL1) (fun v => Z.land v DMA_TO_DEVICE_MASK)
   | _ => ret tt
   end) ;;;
  (match Direction with
   | EDMA_FROM_DEVICE => mmio_update (Base + DMACTL1) (fun v => Z.lor v (Z.shiftl MASK_BIT SHIFT_4BIT))
   | _ => ret tt
   end) ;;;
  mmio_update (Base + DMACTL1) (fun v => Z.lor v MASK_BIT) ;;;
  let* st := mmio_read (Base + DMASTATUS) in
  ret (Z.land st (Z.lor (Z.shiftl MASK_BIT 1) MASK_BIT)).

(** The loop over a capability list from [NxtPtr]; the status and the offset. *)
Fixpoint exer_cap_walk (fuel : nat) (ID Bdf IdMask PtrMask PtrOffset NxtPtr : Z) : P (Z * option Z) :=
  match fuel with
  | O => diverge
  | S k =>
      if NxtPtr =? 0 then ret (1, None) else
      let* Data := mmio_read (Ecam + pal_exerciser_get_pcie_config_offset Bdf + NxtPtr) in
      if Z.land Data IdMask =? ID then ret (0, Some NxtPtr)
      else exer_cap_walk k ID Bdf IdMask PtrMask PtrOffset (Z.land (Z.shiftr Data PtrOffset) PtrMask)
  end.

(** [pcie] is [Value == 1]. *)
Definition pal_exerciser_find_pcie_capability (ID Bdf : Z) (pcie : bool) : P (Z * option Z) :=
  if pcie then exer_cap_walk (cap_fuel PCIE_ECAP) ID Bdf PCIE_CAP_ID_MASK PCIE_NXT_CAP_PTR_MASK PCIE_CAP_PTR_OFFSET PCIE_CAP_OFFSET
  else
    let* v := mmio_read (Ecam + CAP_PTR_OFFSET + pal_exerciser_get_pcie_config_offset Bdf) in
    exer_cap_walk (cap_fuel PCIE_CAP) ID Bdf PCI_CAP_ID_MASK PCI_NXT_CAP_PTR_MASK PCI_CAP_PTR_OFFSET (Z.land v CAP_PTR_MASK).

(** [CapabilityOffset], which is 0 when the search fails. *)
Definition offset_or_zero (r : Z * option Z) : Z := default 0 r.2.

(** The field of the address type, which is only ORed. *)
Definition set_address_type (Base Data : Z) : P unit :=
  mmio_update (Base + DMACTL1) (fun v => Z.lor v (Z.shiftl Data 10)).
Definition txn_addr_type (Base Value2 : Z) : P Z :=
  (if Value2 =? AT_UNTRANSLATED then set_address_type Base 1
   else if Value2 =? AT_TRANSLATED then set_address_type Base 2
   else if Value2 =? AT_RESERVED then set_address_type Base 3 else ret tt) ;;;
  ret 0.

Definition pal_exerciser_set_param (Type' : EXERCISER_PARAM_TYPE) (Value1 Value2 Bdf : Z) : P Z :=
  let* Base := pal_exerciser_get_ecsr_base Bdf 0 in
  match Type' with
  | SNOOP_ATTRIBUTES | LEGACY_IRQ | P2P_ATTRIBUTES | MSIX_ATTRIBUTES => ret 0
  | DMA_ATTRIBUTES => mmio_write (Base + DMA_BUS_ADDR) Value1 ;;; mmio_write (Base + DMA_LEN) Value2 ;;; ret 0
  | PASID_ATTRIBUTES =>
      mmio_update (Base + DMACTL1) (fun Data =>
        Z.lor (Z.land Data (Z.lnot (Z.shiftl PASID_LEN_MASK PASID_LEN_SHIFT)))
          (Z.shiftl (Z.land (u64 (Value1 - 16)) PASID_LEN_MASK) PASID_LEN_SHIFT)) ;;;
      ret 0
  | CFG_TXN_ATTRIBUTES =>
      if Value1 =? TXN_REQ_ID then
        mmio_write (Base + RID_CTL_REG) (Z.lor (Z.land Value2 RID_VALUE_MASK) RID_VALID_MASK) ;;; ret 0
      else if Value1 =? TXN_REQ_ID_VALID then
        if Value2 =? RID_VALID then mmio_update (Base + RID_CTL_REG) (fun Data => Z.lor Data RID_VALID_MASK) ;;; ret 0
        else if Value2 =? RID_NOT_VALID then mmio_write (Base + RID_CTL_REG) 0 ;;; ret 0
        else txn_addr_type Base Value2
      else if Value1 =? TXN_ADDR_TYPE then txn_addr_type Base Value2
      else ret 1
  | ERROR_INJECT_TYPE =>
      let* r := pal_exerciser_find_pcie_capability DVSEC Bdf true in
      let off := offset_or_zero r in
      let* _ := mmio_read (Ecam + off + pal_exerciser_get_pcie_config_offset Bdf + DVSEC_CTRL) in
      mmio_write (Ecam + off + DVSEC_CTRL + pal_exerciser_get_pcie_config_offset Bdf)
        (Z.lor (Z.shiftl Value1 ERR_CODE_SHIFT) (Z.shiftl Value2 FATAL_SHIFT)) ;;;
      ret (if Value1 <=? 7 then 2 else 3)
  | ATS_RES_ATTRIBUTES | TRANSACTION_TYPE | NUM_TRANSACTIONS | ADDRESS_ATTRIBUTES | DATA_ATTRIBUTES => ret 1
  end.

(** The five words that the monitor recorded for a transaction, [None] at the end. *)
Definition read_trace (Base : Z) : P (option (Z * Z * Z * Z * Z)) :=
  let* tx_attr := mmio_read (Base + TXN_TRACE) in
  if tx_attr =? TXN_INVALID then ret None else
  let* addr_low := mmio_read (Base + TXN_TRACE) in
  let* addr_high := mmio_read (Base + TXN_TRACE) in
  let* data_low := mmio_read (Base + TXN_TRACE) in
  let* data_high := mmio_read (Base + TXN_TRACE) in
  ret (Some (tx_attr, addr_low, addr_high, data_low, data_high)).

(** The status and the new values of the variables. *)
Definition pal_exerciser_get_param (Type' : EXERCISER_PARAM_TYPE) (Value1 Value2 Bdf : Z) : P (Z * Z * Z) :=
  let* Base := pal_exerciser_get_ecsr_base Bdf 0 in
  match Type' with
  | SNOOP_ATTRIBUTES | P2P_ATTRIBUTES => ret (0, Value1, Value2)
  | LEGACY_IRQ =>
      let* v := mmio_read (Base + INTXCTL) in let* w := mmio_read (Base + INTXCTL) in ret (Z.lor w MASK_BIT, v, Value2)
  | DMA_ATTRIBUTES =>
      let* v1 := mmio_read (Base + DMA_BUS_ADDR) in
      let* v2 := mmio_read (Base + DMA_LEN) in
      let* st := mmio_read (Base + DMASTATUS) in
      ret (Z.land st MASK_BIT, v1, v2)
  | PASID_ATTRIBUTES =>
      let* v := mmio_read (Base + DMACTL1) in
      ret (0, Z.land (Z.shiftr v PASID_LEN_SHIFT) PASID_LEN_MASK + 16, Value2)
  | MSIX_ATTRIBUTES =>
      let* v := mmio_read (Base + MSICTL) in let* w := mmio_read (Base + MSICTL) in ret (Z.lor w MASK_BIT, v, Value2)
  | ATS_RES_ATTRIBUTES => let* v := mmio_read (Base + ATS_ADDR) in ret (0, v, Value2)
  | CFG_TXN_ATTRIBUTES | TRANSACTION_TYPE | ADDRESS_ATTRIBUTES | DATA_ATTRIBUTES =>
      let* t := read_trace Base in
      match t with
      | None => ret (1, Value1, Value2)
      | Some (tx_attr, addr_low, addr_high, data_low, data_high) =>
          ret match Type' with
              | CFG_TXN_ATTRIBUTES => (0, Z.land tx_attr MASK_BIT, Value2)
              | TRANSACTION_TYPE => (0, Value1, if negb (Z.land tx_attr 2 =? 0) then CFG_READ else CFG_WRITE)
              | ADDRESS_ATTRIBUTES => (0, Z.lor addr_low (Z.shiftl addr_high 32), Value2)
              | _ => (0, Z.lor data_low (Z.shiftl data_high 32), Value2)
              end
      end
  | NUM_TRANSACTIONS | ERROR_INJECT_TYPE => ret (1, Value1, Value2)
  end.

Definition pal_exerciser_set_state (State : EXERCISER_STATE) (Instance : Z) : P Z := ret 0.
Definition pal_exerciser_get_state (Bdf : Z) : P (Z * EXERCISER_STATE) := ret (0, EXERCISER_ON).

(** The control register of the PASID capability, when there is one. *)
Definition pasid_control (Bdf : Z) (f : Z -> Z) : P Z :=
  let* r := pal_exerciser_find_pcie_capability PASID Bdf true in
  if r.1 =? 0 then
    mmio_update (Ecam + pal_exerciser_get_pcie_config_offset Bdf + offset_or_zero r + PCIE_CAP_CTRL_OFFSET) f ;;; ret 0
  else ret 1.

Definition pal_exerciser_ops (Ops : EXERCISER_OPS) (Param Bdf : Z) : P Z :=
  let* Base := pal_exerciser_get_ecsr_base Bdf 0 in
  match Ops with
  | START_DMA =>
      if (Param =? 0) || (Param =? 1) || (Param =? 2) then ret 0
      else if Param =? 3 then pal_exerciser_start_dma_direction Base EDMA_FROM_DEVICE
      else if Param =? 4 then pal_exerciser_start_dma_direction Base EDMA_TO_DEVICE
      else ret 1
  | GENERATE_MSI => mmio_update (Base + MSICTL) (fun v => Z.lor (Z.lor v MSI_GENERATION_MASK) Param) ;;; ret 0
  | GENERATE_L_INTR => mmio_update (Base + INTXCTL) (fun v => Z.lor v MASK_BIT) ;;; ret 0
  | MEM_READ | MEM_WRITE => ret 0
  | CLEAR_INTR => mmio_update (Base + INTXCTL) (fun v => Z.land v CLR_INTR_MASK) ;;; ret 0
  | PASID_TLP_START =>
      mmio_update (Base + DMACTL1) (fun v => Z.lor v (Z.shiftl MASK_BIT PASID_EN_SHIFT)) ;;;
      mmio_write (Base + PASID_VAL) (Z.land Param PASID_VAL_MASK) ;;;
      pasid_control Bdf (fun v => Z.lor v PCIE_CAP_EN_MASK)
  | PASID_TLP_STOP =>
      mmio_update (Base + DMACTL1) (fun v => Z.land v PASID_TLP_STOP_MASK) ;;;
      pasid_control Bdf (fun v => Z.land v PCIE_CAP_DIS_MASK)
  | TXN_NO_SNOOP_ENABLE => mmio_update (Base + DMACTL1) (fun v => Z.lor v NO_SNOOP_START_MASK) ;;; ret 0
  | TXN_NO_SNOOP_DISABLE => mmio_update (Base + DMACTL1) (fun v => Z.land v NO_SNOOP_STOP_MASK) ;;; ret 0
  | ATS_TXN_REQ =>
      mmio_write (Base + DMA_BUS_ADDR) Param ;;;
      mmio_write (Base + ATSCTL) ATS_TRIGGER ;;;
      let* v := mmio_read (Base + ATSCTL) in
      ret (if Z.land v ATS_STATUS =? 0 then 1 else 0)
  | START_TXN_MONITOR => mmio_write (Base + TXN_CTRL_BASE) TXN_START ;;; ret 0
  | STOP_TXN_MONITOR => mmio_write (Base + TXN_CTRL_BASE) TXN_STOP ;;; ret 0
  | INJECT_ERROR =>
      let* r := pal_exerciser_find_pcie_capability DVSEC Bdf true in
      mmio_update (Ecam + pal_exerciser_get_pcie_config_offset Bdf + offset_or_zero r + DVSEC_CTRL)
        (fun v => Z.lor v (Z.shiftl 1 ERROR_INJECT_BIT)) ;;;
      ret (u32 Param)
  end.

Definition offset_table : list Z := [0x00; 0x08; 0x00; 0x08; 0x00; 0x08; 0x00; 0x08; 0x00; 0x08].
Definition memory_type (bar : Z) : BAR_MEM_TYPE :=
  if Z.land (Z.shiftr bar PREFETCHABLE_BIT_SHIFT) MASK_BIT =? 1 then MMIO_PREFETCHABLE else MMIO_NON_PREFETCHABLE.

Fixpoint read_config (EcamBase Bdf : Z) (l : list Z) : P (list ecam_reg_data) :=
  match l with
  | [] => ret []
  | o :: l' =>
      let* v := mmio_read (EcamBase + o) in
      let* r := read_config EcamBase Bdf l' in
      ret (mk_reg_data (u32 (o + pal_exerciser_get_pcie_config_offset Bdf)) ACCESS_TYPE_RD v :: r)
  end.

(** The loop over the BARs. *)
Fixpoint find_mmio_bar (fuel : nat) (Bdf Index : Z) : P (Z * option exerciser_data) :=
  match fuel with
  | O => diverge
  | S k =>
      if TYPE0_MAX_BARS <=? Index then ret (1, Some (bar_space 0 None)) else
      let* bar := pal_exerciser_get_ecsr_base Bdf (Index * 4) in
      if Z.land (Z.shiftr bar 0) 1 =? 0 then ret (0, Some (bar_space bar (Some (memory_type bar)))) else
      find_mmio_bar k Bdf (if Z.land (Z.shiftr bar 1) 3 =? 2 then Index + 2 else Index + 1)
  end.

(** The status and the data, [None] when nothing is written. *)
Definition pal_exerciser_get_data (Type' : EXERCISER_DATA_TYPE) (Bdf ecam : Z) : P (Z * option exerciser_data) :=
  let EcamBase := ecam + pal_exerciser_get_pcie_config_offset Bdf in
  match Type' with
  | EXERCISER_DATA_CFG_SPACE => let* l := read_config EcamBase Bdf offset_table in ret (0, Some (cfg_space l))
  | EXERCISER_DATA_BAR0_SPACE =>
      let* EcamBAR0 := pal_exerciser_get_ecsr_base Bdf 0 in
      ret (0, Some (bar_space EcamBAR0 (Some (memory_type EcamBAR0))))
  | EXERCISER_DATA_MMIO_SPACE => find_mmio_bar 7 Bdf 0
  end.
End Pal.

(** ** The validation layer *)

Record EXERCISER_INFO_BLOCK := mk_exerciser { e_bdf : Z; initialized : Z }.
(** [e_info] is the array of [MAX_EXERCISER_CARDS] blocks. *)
Record exer_state {H : Type} := mk_exer { pcie : pcie_state H; num_exerciser : Z; e_info : list EXERCISER_INFO_BLOCK }.
Arguments exer_state : clear implicits.
Arguments mk_exer {H}.

Inductive EXERCISER_ERROR_CODE := CORR_RCVR_ERR | CORR_BAD_TLP | CORR_BAD_DLLP | CORR_RPL_NUM_ROLL | CORR_RPL_TMR_TIMEOUT
  | CORR_ADV_NF_ERR | CORR_INT_ERR | CORR_HDR_LOG_OVRFL | UNCORR_DL_ERROR | UNCORR_SD_ERROR | UNCORR_PTLP_REC
  | UNCORR_FL_CTRL_ERR | UNCORR_CMPT_TO | UNCORR_AMPT_ABORT | UNCORR_UNEXP_CMPT | UNCORR_RCVR_ERR | UNCORR_MAL_TLP
  | UNCORR_ECRC_ERR | UNCORR_UR | UNCORR_ACS_VIOL | UNCORR_INT_ERR | UNCORR_MC_BLK_TLP | UNCORR_ATOP_EGR_BLK
  | UNCORR_TLP_PFX_EGR_BLK | UNCORR_PTLP_EGR_BLK | INVALID_CFG.
(** The bit of the error in its AER status register. *)
Definition val_get_exerciser_err_info (type : EXERCISER_ERROR_CODE) : Z :=
  match type with
  | CORR_RCVR_ERR => 0 | CORR_BAD_TLP => 6 | CORR_BAD_DLLP => 7 | CORR_RPL_NUM_ROLL => 8 | CORR_RPL_TMR_TIMEOUT => 12
  | CORR_ADV_NF_ERR => 13 | CORR_INT_ERR => 14 | CORR_HDR_LOG_OVRFL => 15 | UNCORR_DL_ERROR => 4 | UNCORR_SD_ERROR => 5
  | UNCORR_PTLP_REC => 12 | UNCORR_FL_CTRL_ERR => 13 | UNCORR_CMPT_TO => 14 | UNCORR_AMPT_ABORT => 15
  | UNCORR_UNEXP_CMPT => 16 | UNCORR_RCVR_ERR => 17 | UNCORR_MAL_TLP => 18 | UNCORR_ECRC_ERR => 19 | UNCORR_UR => 20
  | UNCORR_ACS_VIOL => 21 | UNCORR_INT_ERR => 22 | UNCORR_MC_BLK_TLP => 23 | UNCORR_ATOP_EGR_BLK => 24
  | UNCORR_TLP_PFX_EGR_BLK => 25 | UNCORR_PTLP_EGR_BLK => 26
  | INVALID_CFG => 0
  end.

Section Val.
Context {H : Type} `{Hardware H, Uninit, Platform} (handles : list pci_handle) (Ecam : Z).
Local Abbreviation P := (prog (exer_state H)).

Definition on_pcie {A} (m : prog (pcie_state H) A) : P A := fun s =>
  match m (pcie s) with
  | Done (a, p) => Done (a, mk_exer p (num_exerciser s) (e_info s))
  | Undefined => Undefined
  | Diverges => Diverges
  end.

(** [e_info[i] = b]: outside the array it is undefined. *)
Definition put_info (i : Z) (b : EXERCISER_INFO_BLOCK) : P unit :=
  let* l := gets e_info in
  let* _ := deref (at_index l i) in
  modify (fun s => mk_exer (pcie s) (num_exerciser s) (<[Z.to_nat i := b]> (e_info s))).

(** The loop from the last entry of the device list down; [Some] leaves the function. *)
Definition add_exerciser (d : pcie_device_attr) : P (option Z) :=
  let Bdf := PcieCfg.bdf d in
  let* r := on_pcie (val_pcie_read_cfg Bdf TYPE01_VIDR (uninit "reg_value")) in
  if r.1 =? PCIE_NO_MAPPING then ret (Some 1) else
  let* x := on_pcie (pal_is_bdf_exerciser Ecam Bdf) in
  if x =? 0 then ret None else
  let* n := gets num_exerciser in
  put_info n (mk_exerciser Bdf 0) ;;;
  modify (fun s => mk_exer (pcie s) (u32 (n + 1)) (e_info s)) ;;;
  ret None.

Definition val_exerciser_create_info_table : P Z :=
  let* num_ecam := on_pcie (val_pcie_get_info PCIE_INFO_NUM_ECAM 0) in
  if u32 num_ecam =? 0 then ret 1 else
  let* o := gets (fun s => g_pcie_bdf_table (pcie s)) in
  let* t := deref o in
  if num_entries t =? 0 then ret 1 else
  let* _ := deref (at_index (device t) (num_entries t - 1)) in
  let* r := search (rev (take (Z.to_nat (num_entries t)) (device t))) add_exerciser in
  ret (default 0 r).

Definition val_exerciser_get_info : P Z := gets num_exerciser.
Definition val_exerciser_get_bdf (instance : Z) : P Z :=
  let* l := gets e_info in let* b := deref (at_index l instance) in ret (e_bdf b).
Definition val_exerciser_set_param (type : EXERCISER_PARAM_TYPE) (value1 value2 instance : Z) : P Z :=
  let* b := val_exerciser_get_bdf instance in on_pcie (pal_exerciser_set_param handles Ecam type value1 value2 b).
Definition val_exerciser_get_param (type : EXERCISER_PARAM_TYPE) (value1 value2 instance : Z) : P (Z * Z * Z) :=
  let* b := val_exerciser_get_bdf instance in on_pcie (pal_exerciser_get_param handles type value1 value2 b).
Definition val_exerciser_set_state (state : EXERCISER_STATE) (instance : Z) : P Z :=
  let* b := val_exerciser_get_bdf instance in on_pcie (pal_exerciser_set_state state b).
Definition val_exerciser_get_state (instance : Z) : P (Z * EXERCISER_STATE) :=
  let* b := val_exerciser_get_bdf instance in on_pcie (pal_exerciser_get_state b).
Definition val_exerciser_ops (ops : EXERCISER_OPS) (param instance : Z) : P Z :=
  let* b := val_exerciser_get_bdf instance in on_pcie (pal_exerciser_ops handles Ecam ops param b).
Definition val_exerciser_get_data (type : EXERCISER_DATA_TYPE) (instance : Z) : P (Z * option exerciser_data) :=
  let* b := val_exerciser_get_bdf instance in
  let* ecam := on_pcie (val_pcie_get_ecam_base b) in
  on_pcie (pal_exerciser_get_data handles type b ecam).

Definition val_exerciser_init (instance : Z) : P Z :=
  let* l := gets e_info in
  let* e := deref (at_index l instance) in
  if negb (initialized e =? 0) then ret 0 else
  let Bdf := e_bdf e in
  let* st := on_pcie (pal_exerciser_get_state Bdf) in
  if negb (st.1 =? 0) || negb (bool_decide (st.2 = EXERCISER_ON)) then ret 1 else
  let* base := on_pcie (val_pcie_get_ecam_base Bdf) in
  on_pcie (mmio_update (base + cfg_offset Bdf + COMMAND_REG_OFFSET) (fun v => Z.lor v BUS_MEM_EN_MASK)) ;;;
  put_info instance (mk_exerciser Bdf 1) ;;;
  ret 0.
End Val.

(** ** DMA controllers *)

Record DMA_INFO_BLOCK := mk_dma { d_type : Z; target : Z; port : Z; host : Z; d_flags : Z }.
Record DMA_INFO_TABLE := mk_dma_table { num_dma_ctrls : Z; dma_info : list DMA_INFO_BLOCK }.
Definition DMA_COHERENT_MASK : Z := 0xF.
Definition IOMMU_ATTACHED_MASK : Z := 0xF0.
Definition PCI_EP_MASK : Z := 0xF00.
Inductive DMA_INFO_e := DMA_NUM_CTRL | DMA_HOST_INFO | DMA_PORT_INFO | DMA_TARGET_INFO | DMA_HOST_COHERENT
  | DMA_HOST_IOMMU_ATTACHED | DMA_HOST_PCI.

Section Dma.
(** The table, and the calls of the port with their arguments. *)
Local Abbreviation P := (prog (option DMA_INFO_TABLE)).
Context (pal_dma_mem_alloc : Z -> Z -> Z -> Z * Z) (pal_dma_scsi_get_dma_addr : Z -> Z * Z).

Definition val_dma_get_info (type : DMA_INFO_e) (index : Z) : P Z :=
  let* o := gets id in
  match o with
  | None => ret 0
  | Some t =>
      if num_dma_ctrls t <? index then ret 0 else
      match type with
      | DMA_NUM_CTRL => ret (num_dma_ctrls t)
      | _ =>
          let* b := deref (at_index (dma_info t) index) in
          ret match type with
              | DMA_HOST_INFO => host b
              | DMA_PORT_INFO => port b
              | DMA_TARGET_INFO => target b
              | DMA_HOST_COHERENT => Z.land (d_flags b) DMA_COHERENT_MASK
              | DMA_HOST_IOMMU_ATTACHED => Z.land (d_flags b) IOMMU_ATTACHED_MASK
              | DMA_HOST_PCI => Z.land (d_flags b) PCI_EP_MASK
              | DMA_NUM_CTRL => 0
              end
      end
  end.
(** The buffer and the address of the device. *)
Definition val_dma_mem_alloc (size dev_index flags : Z) : P (Z * Z) :=
  let* ap := val_dma_get_info DMA_PORT_INFO dev_index in ret (pal_dma_mem_alloc size ap flags).
Definition val_dma_device_get_dma_addr (ctrl_index : Z) : P (Z * Z) :=
  let* ap := val_dma_get_info DMA_PORT_INFO ctrl_index in ret (pal_dma_scsi_get_dma_addr ap).
Definition val_dma_create_info_table (pal_dma_create_info_table : DMA_INFO_TABLE -> DMA_INFO_TABLE) (t : DMA_INFO_TABLE) : P unit :=
  modify (fun _ => Some (pal_dma_create_info_table t)) ;;;
  let* _ := val_dma_get_info DMA_NUM_CTRL 0 in ret tt.
End Dma.

(** ** Registers of the exerciser *)

Section Regs.
Context {H : Type} `{RegisterFile H}.
Implicit Types (s : pcie_state H).

Lemma set_hw_same s : set_hw (hw s) s = s.
Proof. by destruct s. Qed.

Lemma mmio_read_at a s : 0 <= a < 2 ^ 64 -> a mod 4 = 0 -> mmio_read a s = Done (reg (hw s) a, s).
Proof.
  intros Ha Hm. unfold mmio_read, on_hw. rewrite u64_small by lia. rewrite read_reg.
  replace (a - a mod 4) with a by lia. by rewrite set_hw_same.
Qed.

(** A register whose bits are all writable. *)
Definition plain (a : Z) : Prop := 0 <= a < 2 ^ 64 /\ a mod 4 = 0 /\ rw_bits a = 0xFFFFFFFF.

Lemma mmio_write_plain a v s : plain a -> exists h, mmio_write a v s = Done (tt, set_hw h s) /\
  reg h a = u32 v /\ forall b, b mod 4 = 0 -> b <> a -> reg h b = reg (hw s) b.
Proof.
  intros (Ha & Hm & Hr). exists (hw_write W32 a (u32 v) (hw s)). split.
  { unfold mmio_write, on_hw, pal_mmio_write. by rewrite u64_small by lia. }
  pose proof (u32_range v). split.
  - rewrite reg_write by done. rewrite Z.eqb_refl, Hr. apply bits_eq32; [apply u32_range|done|].
    intros i Hi. rewrite testbit_u32. destruct (Z.ltb_spec i 32); [|lia]. rewrite testbit_after by lia.
    replace (Z.testbit 0xFFFFFFFF i) with true; [done|].
    change 0xFFFFFFFF with (Z.ones 32). by rewrite Z.ones_spec_low by lia.
  - intros b Hb Hne. rewrite reg_write by done. by destruct (Z.eqb_spec a b); [congruence|].
Qed.

Lemma mmio_update_plain a f s : plain a -> exists h, mmio_update a f s = Done (tt, set_hw h s) /\
  reg h a = u32 (f (reg (hw s) a)) /\ forall b, b mod 4 = 0 -> b <> a -> reg h b = reg (hw s) b.
Proof.
  intros Hp. pose proof Hp as (Ha & Hm & _). unfold mmio_update.
  rewrite (bind_done _ _ _ _ _ (mmio_read_at a s Ha Hm)). by apply mmio_write_plain.
Qed.

(** An exerciser whose first BAR is a 32-bit non-prefetchable one, with plain control registers. *)
Record exerciser_at (handles : list pci_handle) (Bdf Base : Z) : Prop := {
  ea_base : palPcieGetBase handles Bdf 0 = Done Base;
  ea_aligned : Base mod 0x1000 = 0;
  ea_range : 0 <= Base < 2 ^ 32;
  ea_control : rw_bits (Base + DMACTL1) = 0xFFFFFFFF;
  ea_addr : rw_bits (Base + DMA_BUS_ADDR) = 0xFFFFFFFF;
  ea_len : rw_bits (Base + DMA_LEN) = 0xFFFFFFFF }.

Context (handles : list pci_handle) (Ecam Bdf Base : Z) (He : exerciser_at handles Bdf Base).

Lemma ecsr_base s : pal_exerciser_get_ecsr_base handles Bdf 0 s = Done (Base, s).
Proof. unfold pal_exerciser_get_ecsr_base. by rewrite (ea_base _ _ _ He). Qed.

Lemma control_plain : plain (Base + DMACTL1) /\ plain (Base + DMA_BUS_ADDR) /\ plain (Base + DMA_LEN).
Proof.
  pose proof (ea_aligned _ _ _ He). pose proof (ea_range _ _ _ He). unfold plain, DMACTL1, DMA_BUS_ADDR, DMA_LEN.
  split_and!; try lia; apply He.
Qed.

(** The field of the PASID length: three bits from bit 7. *)
Lemma pasid_field old v : 16 <= v < 24 ->
  let new := u32 (Z.lor (Z.land old (Z.lnot (Z.shiftl PASID_LEN_MASK PASID_LEN_SHIFT)))
    (Z.shiftl (Z.land (u64 (v - 16)) PASID_LEN_MASK) PASID_LEN_SHIFT)) in
  Z.land (Z.shiftr new PASID_LEN_SHIFT) PASID_LEN_MASK + 16 = v /\
  forall i, 0 <= i < 32 -> i < 7 \/ 10 <= i -> Z.testbit new i = Z.testbit old i.
Proof.
  intros Hv. cbv zeta. rewrite u64_small by lia. unfold PASID_LEN_MASK, PASID_LEN_SHIFT.
  assert (Hm : Z.land (v - 16) 7 = v - 16) by (change 7 with (Z.ones 3); rewrite land_ones_mod by lia; lia).
  rewrite Hm. split.
  - assert (E : Z.land (Z.shiftr (u32 (Z.lor (Z.land old (Z.lnot (Z.shiftl 7 7))) (Z.shiftl (v - 16) 7))) 7) 7 = v - 16); [|lia].
    assert (T7 : forall j, 0 <= j -> Z.testbit 7 j = (j <? 3))
      by (intros j Hj; change 7 with (Z.ones 3); by rewrite Z.testbit_ones_nonneg by lia).
    apply Z.bits_inj'. intros i Hi. rewrite Z.land_spec, T7 by lia. destruct (Z.ltb_spec i 3).
    + rewrite andb_true_r, Z.shiftr_spec, testbit_u32, Z.lor_spec, Z.land_spec, Z.lnot_spec, !Z.shiftl_spec by lia.
      destruct (Z.ltb_spec (i + 7) 32); [|lia]. replace (i + 7 - 7) with i by lia. rewrite T7 by lia.
      destruct (Z.ltb_spec i 3); [|lia]. by rewrite andb_false_r.
    + rewrite andb_false_r. symmetry. apply (testbit_high _ 3); lia.
  - intros i Hi Ho. rewrite testbit_u32, Z.lor_spec, Z.land_spec, Z.lnot_spec, !Z.shiftl_spec by lia.
    destruct (Z.ltb_spec i 32); [|lia]. cbn [andb].
    assert (F : forall x, 0 <= x < 2 ^ 3 -> Z.testbit x (i - 7) = false).
    { intros x Hx. destruct (Z.ltb_spec i 7); [by rewrite Z.testbit_neg_r by lia|]. apply (testbit_high _ 3); lia. }
    rewrite (F 7), (F (v - 16)) by lia. by rewrite andb_true_r, orb_false_r.
Qed.

(** parameters read back as they were set: the PASID width, for the widths 16 to 23
    that the field can hold, and the bus address and length of a DMA, as 32-bit values;
    setting one leaves the other bits and registers alone. *)
Theorem param_roundtrip v len w1 w2 s :
  16 <= v < 24 ->
  (exists s', pal_exerciser_set_param handles Ecam PASID_ATTRIBUTES v w1 Bdf s = Done (0, s') /\
     pal_exerciser_get_param handles PASID_ATTRIBUTES w1 w2 Bdf s' = Done ((0, v, w2), s') /\
     (forall i, 0 <= i < 32 -> i < 7 \/ 10 <= i ->
        Z.testbit (reg (hw s') (Base + DMACTL1)) i = Z.testbit (reg (hw s) (Base + DMACTL1)) i) /\
     (forall b, b mod 4 = 0 -> b <> Base + DMACTL1 -> reg (hw s') b = reg (hw s) b)) /\
  (exists s', pal_exerciser_set_param handles Ecam DMA_ATTRIBUTES v len Bdf s = Done (0, s') /\
     pal_exerciser_get_param handles DMA_ATTRIBUTES w1 w2 Bdf s' =
       Done ((Z.land (reg (hw s) (Base + DMASTATUS)) 1, u32 v, u32 len), s')).
Proof.
  intros Hv. destruct control_plain as (Pc & Pa & Pl).
  pose proof (ea_aligned _ _ _ He). pose proof (ea_range _ _ _ He). split.
  - unfold pal_exerciser_set_param, pal_exerciser_get_param. rewrite (bind_done _ _ _ _ _ (ecsr_base s)).
    destruct (mmio_update_plain (Base + DMACTL1) (fun Data =>
        Z.lor (Z.land Data (Z.lnot (Z.shiftl PASID_LEN_MASK PASID_LEN_SHIFT)))
          (Z.shiftl (Z.land (u64 (v - 16)) PASID_LEN_MASK) PASID_LEN_SHIFT)) s Pc) as (h & E & R & O).
    destruct (pasid_field (reg (hw s) (Base + DMACTL1)) v Hv) as [F1 F2].
    exists (set_hw h s). rewrite (bind_done _ _ _ _ _ E). split; [done|]. split; [|split].
    + rewrite (bind_done _ _ _ _ _ (ecsr_base _)). erewrite bind_done by (apply mmio_read_at; apply Pc).
      cbn [hw set_hw]. rewrite R, F1. done.
    + intros i Hi Ho. cbn [hw set_hw]. rewrite R. by apply F2.
    + done.
  - unfold pal_exerciser_set_param, pal_exerciser_get_param. rewrite (bind_done _ _ _ _ _ (ecsr_base s)).
    destruct (mmio_write_plain (Base + DMA_BUS_ADDR) v s Pa) as (h1 & E1 & R1 & O1).
    rewrite (bind_done _ _ _ _ _ E1).
    destruct (mmio_write_plain (Base + DMA_LEN) len (set_hw h1 s) Pl) as (h2 & E2 & R2 & O2).
    exists (set_hw h2 (set_hw h1 s)). rewrite (bind_done _ _ _ _ _ E2). split; [done|].
    rewrite (bind_done _ _ _ _ _ (ecsr_base _)).
    do 3 (erewrite bind_done by (apply mmio_read_at; unfold DMA_BUS_ADDR, DMA_LEN, DMASTATUS; lia)). cbn [hw set_hw] in *.
    unfold ret, MASK_BIT. rewrite R2, (O2 (Base + DMA_BUS_ADDR)), R1, (O2 (Base + DMASTATUS)), (O1 (Base + DMASTATUS));
      [done|unfold DMASTATUS, DMA_BUS_ADDR, DMA_LEN; lia..].
Qed.

(** The address type is ORed into its field: after a translated one, an untranslated
    one gives the reserved value. *)
Lemma address_type_sticky s :
  exists s1 s2, pal_exerciser_set_param handles Ecam CFG_TXN_ATTRIBUTES TXN_ADDR_TYPE AT_TRANSLATED Bdf s = Done (0, s1) /\
    pal_exerciser_set_param handles Ecam CFG_TXN_ATTRIBUTES TXN_ADDR_TYPE AT_UNTRANSLATED Bdf s1 = Done (0, s2) /\
    Z.testbit (reg (hw s2) (Base + DMACTL1)) 10 = true /\ Z.testbit (reg (hw s2) (Base + DMACTL1)) 11 = true.
Proof.
  destruct control_plain as (Pc & _ & _). unfold pal_exerciser_set_param.
  rewrite (bind_done _ _ _ _ _ (ecsr_base s)). cbn [Z.eqb Pos.eqb TXN_ADDR_TYPE TXN_REQ_ID TXN_REQ_ID_VALID].
  destruct (mmio_update_plain (Base + DMACTL1) (fun v => Z.lor v (Z.shiftl 2 10)) s Pc) as (h1 & E1 & R1 & _).
  destruct (mmio_update_plain (Base + DMACTL1) (fun v => Z.lor v (Z.shiftl 1 10)) (set_hw h1 s) Pc) as (h2 & E2 & R2 & _).
  exists (set_hw h1 s), (set_hw h2 (set_hw h1 s)). unfold txn_addr_type, set_address_type.
  cbn [Z.eqb Pos.eqb AT_TRANSLATED AT_UNTRANSLATED].
  rewrite (bind_done _ _ _ _ _ E1). split; [done|]. rewrite (bind_done _ _ _ _ _ (ecsr_base _)).
  cbn [Z.eqb Pos.eqb]. rewrite (bind_done _ _ _ _ _ E2).
  cbn [hw set_hw] in *. rewrite R2, R1.
  assert (B : forall i, 10 <= i <= 11 -> Z.testbit (u32 (Z.lor (u32 (Z.lor (reg (hw s) (Base + DMACTL1)) (Z.shiftl 2 10))) (Z.shiftl 1 10))) i = true).
  { intros i Hi. rewrite testbit_u32, Z.lor_spec, testbit_u32, Z.lor_spec. destruct (Z.ltb_spec i 32); [|lia].
    assert (i = 10 \/ i = 11) as [-> | ->] by lia; by rewrite ?orb_true_r. }
  split; [done|]. by split; apply B.
Qed.
End Regs.

(** ** The list of exercisers *)

Section List.
Context {H : Type} `{RegisterFile H, Uninit, Platform} (Ecam : Z) (bs : list PCIE_INFO_BLOCK).

(** The function lies in the region that starts at [Ecam]. *)
Definition in_first_region (b : Z) : Prop := cfg_lookup bs b = Some (u64 (Ecam + cfg_offset b)).
Definition is_exerciser (h : H) (d : pcie_device_attr) : bool := creg h bs (PcieCfg.bdf d) 0 =? EXERCISER_ID.

Lemma is_bdf_exerciser_spec (s : pcie_state H) b : has_ecams s bs -> in_first_region b ->
  pal_is_bdf_exerciser Ecam b s = Done (if creg (hw s) bs b 0 =? EXERCISER_ID then 1 else 0, s).
Proof.
  intros (_ & _ & Hok) Hf. destruct (cfg_lookup_Some _ _ _ Hok Hf) as (_ & _ & _ & _ & _ & _ & _ & _ & _ & Ha0 & Ha1 & Ham).
  unfold pal_is_bdf_exerciser, mmio_read, on_hw. change (pal_exerciser_get_pcie_config_offset b) with (cfg_offset b).
  unfold bind. rewrite read_reg. unfold creg. rewrite Hf.
  replace (u64 (Ecam + cfg_offset b) - u64 (Ecam + cfg_offset b) mod 4) with (u64 (Ecam + cfg_offset b) + (0 - 0 mod 4)) by lia.
  by rewrite set_hw_same.
Qed.

(** The table holds [fs] after its first [n] entries. *)
Definition listed (p : pcie_state H) (n : nat) (l0 : list EXERCISER_INFO_BLOCK) (s : exer_state H) (fs : list EXERCISER_INFO_BLOCK) : Prop :=
  pcie s = p /\ num_exerciser s = Z.of_nat (n + length fs) /\ e_info s = take n l0 ++ fs ++ drop (n + length fs) l0.

Definition entry_of (d : pcie_device_attr) : EXERCISER_INFO_BLOCK := mk_exerciser (PcieCfg.bdf d) 0.
Definition exercisers (h : H) (l : list pcie_device_attr) : list EXERCISER_INFO_BLOCK :=
  flat_map (fun d => if is_exerciser h d then [entry_of d] else []) l.

Lemma add_exerciser_spec p n l0 (s : exer_state H) fs d :
  has_ecams p bs -> in_first_region (PcieCfg.bdf d) -> Z.of_nat (length l0) < 2 ^ 32 -> (n <= length l0)%nat ->
  listed p n l0 s fs -> (length (fs ++ if is_exerciser (hw p) d then [entry_of d] else []) <= length l0 - n)%nat ->
  exists s', add_exerciser Ecam d s = Done (None, s') /\ listed p n l0 s' (fs ++ if is_exerciser (hw p) d then [entry_of d] else []).
Proof.
  intros He Hf Hl0 Hn (Hp & Hnum & Hinfo) Hc. unfold add_exerciser. unfold bind at 1, on_pcie at 1.
  rewrite Hp, (read_cfg_spec p bs); [|done|by eexists|unfold TYPE01_VIDR; lia].
  cbn [fst Z.eqb PCIE_NO_MAPPING]. unfold bind at 1, on_pcie at 1. cbn [pcie num_exerciser e_info].
  rewrite (is_bdf_exerciser_spec p _ He Hf). unfold is_exerciser in *.
  destruct (creg (hw p) bs (PcieCfg.bdf d) 0 =? EXERCISER_ID); cbn [Z.eqb].
  - rewrite length_app in Hc. simpl in Hc. unfold put_info, bind, gets, deref, modify. cbn [e_info num_exerciser pcie].
    rewrite Hnum, Hinfo, at_index_nat.
    assert (Hlen : length (take n l0 ++ fs) = (n + length fs)%nat) by (rewrite length_app, length_take; lia).
    destruct (lookup_lt_is_Some_2 l0 (n + length fs)) as [x Hx]; [lia|].
    assert (Hd : take n l0 ++ fs ++ drop (n + length fs) l0 = (take n l0 ++ fs) ++ x :: drop (S (n + length fs)) l0)
      by (by rewrite <- app_assoc, (drop_S l0 x (n + length fs) Hx)).
    rewrite Hd, <- Hlen, list_lookup_middle by done. eexists. split; [reflexivity|].
    split; [done|]. cbn [num_exerciser e_info]. split.
    + rewrite Hlen, length_app. cbn [length]. rewrite u32_small by lia. lia.
    + rewrite Nat2Z.id, insert_app_r_alt, Nat.sub_diag by done. cbn [list_insert insert]. rewrite <- !app_assoc. cbn [app].
      rewrite Hlen. rewrite length_app. cbn [length]. do 3 f_equal. f_equal. lia.
  - rewrite app_nil_r. eexists. split; [reflexivity|]. split; [done|]. by rewrite Hnum, Hinfo.
Qed.

(** for a device list whose functions all lie in the first ECAM region, the table
    gets one entry, not initialised, for every function whose vendor and device
    identity is the exerciser's and for no other, from the last function of the list to
    the first, behind the entries that it had; the call returns 0 and leaves the
    hardware alone. *)
Theorem exerciser_table_exact (s : exer_state H) (t : pcie_device_bdf_table) :
  has_ecams (pcie s) bs -> g_pcie_bdf_table (pcie s) = Some t ->
  num_entries t = Z.of_nat (length (device t)) -> device t <> [] ->
  Forall (fun d => in_first_region (PcieCfg.bdf d)) (device t) ->
  let n := Z.to_nat (num_exerciser s) in
  let found := exercisers (hw (pcie s)) (rev (device t)) in
  0 <= num_exerciser s -> Z.of_nat (length (e_info s)) < 2 ^ 32 -> (n + length found <= length (e_info s))%nat ->
  val_exerciser_create_info_table Ecam s =
  Done (0, mk_exer (pcie s) (num_exerciser s + Z.of_nat (length found)) (take n (e_info s) ++ found ++ drop (n + length found) (e_info s))).
Proof.
  intros He Ht Hn Hne Hall n found Hnum Hl Hc. pose proof He as (Hi & Hbs & Hok).
  unfold val_exerciser_create_info_table. unfold bind at 1, on_pcie at 1. rewrite (get_info_num _ bs He).
  assert (Hpos : (0 < length bs)%nat).
  { destruct (device t) as [|d l]; [done|]. apply Forall_cons in Hall as [Hd _].
    destruct (cfg_lookup_Some _ _ _ Hok Hd) as (_ & j & e & Hj & _). apply lookup_lt_Some in Hj. lia. }
  rewrite u32_small by lia. destruct (Z.eqb_spec (Z.of_nat (length bs)) 0); [lia|].
  unfold bind at 1, gets. cbn [pcie]. rewrite Ht. unfold bind at 1, deref at 1, ret at 1.
  assert (Hd : (0 < length (device t))%nat) by (destruct (device t); [done|simpl; lia]).
  rewrite Hn. destruct (Z.eqb_spec (Z.of_nat (length (device t))) 0); [lia|].
  destruct (at_index_lt (device t) (Z.of_nat (length (device t)) - 1)) as [x Hx]; [lia|].
  rewrite Hx. unfold bind at 1, deref, ret at 1. rewrite Nat2Z.id, firstn_all.
  destruct (search_grow (listed (pcie s) n (e_info s)) (length (e_info s) - n)
    (fun d => if is_exerciser (hw (pcie s)) d then [entry_of d] else []) (rev (device t)) (add_exerciser Ecam)
    (mk_exer (pcie s) (num_exerciser s) (e_info s)) []) as (s' & E & (P1 & P2 & P3)).
  - intros d s1 fs Hd1 Hs1 Hc1. apply add_exerciser_spec; [done| |done|unfold n; lia|done|done].
    apply list_elem_of_In, in_rev, list_elem_of_In in Hd1. by apply (proj1 (Forall_forall _ _) Hall).
  - split; [done|]. cbn [num_exerciser e_info app length]. rewrite Nat.add_0_r. split; [unfold n; lia|]. by rewrite take_drop.
  - change (length found <= length (e_info s) - n)%nat. lia.
  - rewrite (bind_done _ _ _ _ _ E). unfold ret. cbn [default].
    change ([] ++ flat_map _ (rev (device t))) with found in P2, P3.
    destruct s' as [p' n' l']. cbn [pcie num_exerciser e_info] in *. subst p' n' l'. do 3 f_equal. unfold n. lia.
Qed.
End List.

(** ** Two searches for a capability *)

Section Caps.
Context {H : Type} `{RegisterFile H, Uninit, Platform} (Ecam : Z) (bs : list PCIE_INFO_BLOCK) (s : pcie_state H) (b : Z).
Context (Hecam : has_ecams s bs) (Hfirst : in_first_region Ecam bs b).

Lemma first_region_read off : 0 <= off < 4096 ->
  mmio_read (Ecam + cfg_offset b + off) s = Done (word s bs b off, s).
Proof.
  intros Ho. pose proof Hecam as (_ & _ & Hok).
  destruct (cfg_lookup_Some _ _ _ Hok Hfirst) as (_ & _ & _ & _ & _ & _ & _ & _ & _ & Ha0 & Ha1 & Ham).
  set (a := u64 (Ecam + cfg_offset b)) in *. unfold mmio_read, on_hw.
  assert (u64 (Ecam + cfg_offset b + off) = a + off) as -> by (unfold a, u64 in *; lia).
  rewrite read_reg, set_hw_same. unfold word, creg. rewrite Hfirst. fold a. do 4 f_equal. lia.
Qed.

(** The masks and shifts of the two kinds of list. *)
Definition walk_of (t : BITFIELD_REGISTER_TYPE) (fuel : nat) (cid off : Z) : prog (pcie_state H) (Z * option Z) :=
  match t with
  | PCIE_CAP => exer_cap_walk Ecam fuel cid b PCI_CAP_ID_MASK PCI_NXT_CAP_PTR_MASK PCI_CAP_PTR_OFFSET off
  | _ => exer_cap_walk Ecam fuel cid b PCIE_CAP_ID_MASK PCIE_NXT_CAP_PTR_MASK PCIE_CAP_PTR_OFFSET off
  end.

Lemma walk_of_step t fuel cid off : off <> 0 -> 0 <= off < 4096 ->
  walk_of t (S fuel) cid off s =
  if cap_id t (word s bs b off) =? cid then Done ((0, Some off), s) else walk_of t fuel cid (cap_next t (word s bs b off)) s.
Proof.
  intros Hne Ho. destruct t; cbn [walk_of exer_cap_walk]; (destruct (Z.eqb_spec off 0); [done|]);
    rewrite (bind_done _ _ _ _ _ (first_region_read off Ho)); unfold cap_id, cap_next;
    by destruct (_ =? cid).
Qed.

Definition pal_answer (r : Z * option Z) : Z * option Z := (if r.1 =? PCIE_SUCCESS then 0 else 1, r.2).

Lemma walk_of_spec t cid off l fuel :
  cap_chain s bs b t off l -> 0 <= off < cap_limit t -> (length l < fuel)%nat ->
  walk_of t fuel cid off s = Done (pal_answer (search_result s bs b t cid l), s).
Proof.
  intros Hl. revert fuel. induction Hl as [|off l Hne Hl IH]; intros [|fuel] Ho Hf; simpl in Hf; try lia.
  - by destruct t.
  - rewrite walk_of_step; [|done|destruct t; unfold cap_limit in Ho; lia].
    unfold search_result. cbn [find_first]. destruct (cap_id t (word s bs b off) =? cid); [done|].
    rewrite IH; [|apply cap_next_range|lia]. unfold search_result.
    pose proof (find_first_shift (fun o => cap_id t (word s bs b o) =? cid) l 0 (0 + 1)) as E.
    destruct (find_first _ l 0) as [[]|], (find_first _ l (0 + 1)) as [[]|]; simplify_eq/=; done.
Qed.

(** on a function of the first ECAM region whose list of (extended) capabilities
    ends, the search of the port and the search of the validation layer return the same
    offset, or both report that there is none; neither changes anything. *)
Theorem capability_searches_agree t cid l :
  t <> HEADER -> (t = PCIE_CAP -> word s bs b TYPE01_CPR <> PCIE_UNKNOWN_RESPONSE) ->
  cap_chain s bs b t (cap_start s bs b t) l ->
  exists r, val_pcie_find_capability b t cid s = Done (r, s) /\
    pal_exerciser_find_pcie_capability Ecam cid b (match t with PCIE_CAP => false | _ => true end) s =
      Done ((if r.1 =? PCIE_SUCCESS then 0 else 1, r.2), s).
Proof.
  intros Ht Hw Hl. exists (search_result s bs b t cid l).
  split; [apply find_cap_chain; [done|by eexists|done..]|].
  assert (Hr : 0 <= cap_start s bs b t < cap_limit t).
  { destruct t; [done| |vm_compute; by split]. unfold cap_start, cap_limit. rewrite land_255. lia. }
  pose proof (chain_length _ _ _ _ _ _ Hl Hr) as Hf.
  unfold pal_exerciser_find_pcie_capability. destruct t; [done| |].
  - replace (Ecam + CAP_PTR_OFFSET + pal_exerciser_get_pcie_config_offset b) with (Ecam + cfg_offset b + TYPE01_CPR)
      by (change (pal_exerciser_get_pcie_config_offset b) with (cfg_offset b); unfold CAP_PTR_OFFSET, TYPE01_CPR; lia).
    rewrite (bind_done _ _ _ _ _ (first_region_read TYPE01_CPR ltac:(unfold TYPE01_CPR; lia))).
    by apply (walk_of_spec PCIE_CAP).
  - by apply (walk_of_spec PCIE_ECAP).
Qed.
End Caps.

(** ** A board with an exerciser at 0:01:02.0 *)

Module Sample.
Definition Ecam0 : Z := 0x30000000.
Definition board2 : board := <[0x30110000 := EXERCISER_ID]> board1.
Definition devices : pcie_device_bdf_table :=
  mk_bdf_table 3 [mk_attr 0x00000000 0; mk_attr ep1 0; mk_attr 0x00010300 0].
Definition pcie2 : pcie_state board := set_bdf_table (Some devices) (set_hw board2 pcie0).
Definition cards : list EXERCISER_INFO_BLOCK := repeat (mk_exerciser 0 0) 20.
Definition start : exer_state board := mk_exer pcie2 0 cards.

Lemma exerciser_table_exact_witness :
  val_exerciser_create_info_table Ecam0 start =
  Done (0, mk_exer pcie2 1 (mk_exerciser ep1 0 :: repeat (mk_exerciser 0 0) 19)).
Proof.
  etransitivity; [apply (exerciser_table_exact Ecam0 ecams0 start devices)|].
  - apply (pcie0_ecams board2).
  - done.
  - done.
  - done.
  - repeat constructor; by vm_compute.
  - done.
  - done.
  - apply Nat.leb_le. by vm_compute.
  - by vm_compute.
Defined.

Lemma capability_searches_agree_witness :
  exists r, val_pcie_find_capability ep1 PCIE_CAP CID_PCIECS (set_hw board2 pcie0) = Done (r, set_hw board2 pcie0) /\
    pal_exerciser_find_pcie_capability Ecam0 CID_PCIECS ep1 false (set_hw board2 pcie0) =
      Done ((if r.1 =? PCIE_SUCCESS then 0 else 1, r.2), set_hw board2 pcie0).
Proof.
  refine (capability_searches_agree Ecam0 ecams0 (set_hw board2 pcie0) ep1 (pcie0_ecams board2) _ PCIE_CAP CID_PCIECS [0x40; 0x60] _ _ _).
  - by vm_compute.
  - discriminate.
  - intros _. vm_compute. discriminate.
  - apply chain_next; [vm_compute; discriminate|]. apply chain_next; [vm_compute; discriminate|]. apply chain_end.
Defined.

(** Its first BAR is at 0x50001000; the first word of a page is not writable here. *)
Definition handles0 : list pci_handle := [mk_pci 0 1 2 0 0xFF 0 [0x50001000; 0; 0; 0; 0; 0]].

Lemma exerciser0 : exerciser_at handles0 ep1 0x50001000.
Proof. by split; vm_compute. Qed.

Lemma param_roundtrip_witness :
  exists s', pal_exerciser_set_param handles0 Ecam0 PASID_ATTRIBUTES 20 0 ep1 pcie2 = Done (0, s') /\
    pal_exerciser_get_param handles0 PASID_ATTRIBUTES 0 0 ep1 s' = Done ((0, 20, 0), s').
Proof.
  destruct (param_roundtrip handles0 Ecam0 ep1 0x50001000 exerciser0 20 64 0 0 pcie2) as [(s' & E & R & _) _].
  - split; [by apply Z.leb_le|by apply Z.ltb_lt].
  - exists s'. by split.
Defined.

(** The type bits stay in the base: behind a 64-bit BAR the monitor is started with a
    write to the register after its own. *)
Lemma base_keeps_type_bits :
  exists s', pal_exerciser_ops [mk_pci 0 1 2 0 0xFF 0 [0x50001004; 0; 0; 0; 0; 0]] Ecam0 START_TXN_MONITOR 0 ep1 pcie2 = Done (0, s') /\
    reg (hw s') 0x50001044 = reg (hw pcie2) 0x50001044 /\ reg (hw s') 0x50001048 = TXN_START.
Proof. eexists. split; [vm_compute; reflexivity|]. by vm_compute. Qed.

(** The search for a memory BAR counts in steps of four: with an I/O BAR first, a memory
    BAR at index 1 is not found and the read leaves the array. *)
Lemma memory_bar_missed :
  pal_exerciser_get_data [mk_pci 0 1 2 0 0xFF 0 [0x1001; 0x50000000; 0; 0; 0x2001; 0]] EXERCISER_DATA_MMIO_SPACE ep1 Ecam0 pcie2 = Undefined.
Proof. by vm_compute. Qed.
End Sample.
