(* ===== verification/Firmware.v ===== *)
(** * What the firmware describes: ACPI tables and SMBIOS structures

    Models [platform/pal_uefi_acpi/src/pal_acpi.c], which finds the ACPI tables through
    the XSDT, and the management information of [platform/pal_uefi_acpi/src/pal_mng.c]
    and [val/src/acs_mng.c].  Memory is the bytes of [Bytes]; the table of the firmware
    and the walk over the SMBIOS structures are parameters. *)

From S2P Require Import Prelude Status Bytes.

(** ** ACPI tables *)

(** Sizes and offsets of the ACPI structures. *)
Definition DESCRIPTION_HEADER_SIZE : Z := 36.
Definition HEADER_LENGTH : Z := 4.
Definition RSDP_XSDT_ADDRESS : Z := 24.
Definition FADT_DSDT : Z := 40.

Section Acpi.
(** [gST->ConfigurationTable]: the identifier of a table and its address; the two
    identifiers of ACPI tables; the signatures of the tables. *)
Context (Guid : Type) (ConfigurationTable : list (Guid * Z)) (is_acpi_guid is_acpi20_guid : Guid -> bool).
Context (MADT_SIGNATURE RIMT_SIGNATURE GTDT_SIGNATURE RHCT_SIGNATURE MCFG_SIGNATURE SPCR_SIGNATURE IORT_SIGNATURE FADT_SIGNATURE : Z).
Local Abbreviation P := (prog bytes).

Definition rsdp : Z :=
  match find_first (fun e => is_acpi_guid e.1 || is_acpi20_guid e.1) ConfigurationTable 0 with
  | Some (_, e) => e.2
  | None => 0
  end.
Definition pal_get_xsdt_ptr : P Z := if rsdp =? 0 then ret 0 else ld 8 (rsdp + RSDP_XSDT_ADDRESS).

(** The loop over the entries from index [Idx]. *)
Fixpoint xsdt_loop (n : nat) (Xsdt Idx signature : Z) : P Z :=
  match n with
  | O => ret 0
  | S k =>
      let* entry := ld 8 (Xsdt + DESCRIPTION_HEADER_SIZE + 8 * Idx) in
      let* sig := ld 4 entry in
      if sig =? signature then ret entry else xsdt_loop k Xsdt (Idx + 1) signature
  end.

(** The function that the searches share. *)
Definition get_table_ptr (signature : Z) : P Z :=
  let* Xsdt := pal_get_xsdt_ptr in
  if Xsdt =? 0 then ret 0 else
  let* len := ld 4 (Xsdt + HEADER_LENGTH) in
  let Entry64Num := u32 (Z.shiftr (u64 (len - DESCRIPTION_HEADER_SIZE)) 3) in
  xsdt_loop (Z.to_nat Entry64Num) Xsdt 0 signature.

Definition pal_get_madt_ptr : P Z := get_table_ptr MADT_SIGNATURE.
Definition pal_get_rimt_ptr : P Z := get_table_ptr RIMT_SIGNATURE.
Definition pal_get_gtdt_ptr : P Z := get_table_ptr GTDT_SIGNATURE.
Definition pal_get_rhct_ptr : P Z := get_table_ptr RHCT_SIGNATURE.
Definition pal_get_mcfg_ptr : P Z := get_table_ptr MCFG_SIGNATURE.
Definition pal_get_spcr_ptr : P Z := get_table_ptr SPCR_SIGNATURE.
Definition pal_get_iort_ptr : P Z := get_table_ptr IORT_SIGNATURE.
Definition pal_get_fadt_ptr : P Z := get_table_ptr FADT_SIGNATURE.
(** The 32-bit field; the table is not checked. *)
Definition pal_get_dsdt_ptr : P Z := let* Fadt := pal_get_fadt_ptr in ld 4 (Fadt + FADT_DSDT).

(** ** The first table with a signature is found *)

(** An XSDT at [x] whose entries point to tables with the given signatures. *)
Record xsdt_at (m : bytes) (x : Z) (tables : list (Z * Z)) : Prop := {
  xa_length : load_le 4 (x + HEADER_LENGTH) m = Some (DESCRIPTION_HEADER_SIZE + 8 * Z.of_nat (length tables));
  xa_small : Z.of_nat (length tables) < 2 ^ 29 - 5;
  xa_entry : forall i t, tables !! i = Some t ->
    load_le 8 (x + DESCRIPTION_HEADER_SIZE + 8 * Z.of_nat i) m = Some t.1 /\ load_le 4 t.1 m = Some t.2 }.

Definition table_with (signature : Z) (tables : list (Z * Z)) : Z :=
  match find_first (fun t => t.2 =? signature) tables 0 with Some (_, t) => t.1 | None => 0 end.

Lemma field_ld_done n a m v : load_le n a m = Some v -> ld n a m = Done (v, m).
Proof. unfold ld. by intros ->. Qed.

Lemma xsdt_loop_spec m x tables signature : forall l k, drop k tables = l -> xsdt_at m x tables ->
  xsdt_loop (length l) x (Z.of_nat k) signature m = Done (table_with signature l, m).
Proof.
  induction l as [|t l IH]; intros k Hd Hx; [done|].
  assert (Ht : tables !! k = Some t).
  { replace k with (k + 0)%nat by lia. rewrite <- lookup_drop, Hd. done. }
  destruct (xa_entry _ _ _ Hx k t Ht) as [E1 E2]. cbn [length xsdt_loop].
  rewrite (bind_done _ _ _ _ _ (field_ld_done _ _ _ _ E1)), (bind_done _ _ _ _ _ (field_ld_done _ _ _ _ E2)).
  unfold table_with. cbn [find_first]. destruct (t.2 =? signature); [done|].
  replace (Z.of_nat k + 1) with (Z.of_nat (S k)) by lia.
  rewrite (IH (S k)); [|by rewrite (drop_S tables t k Ht) in Hd; injection Hd|done].
  unfold table_with. pose proof (find_first_shift (fun t => t.2 =? signature) l 0 (0 + 1)) as E.
  destruct (find_first _ l 0) as [[]|], (find_first _ l (0 + 1)) as [[]|]; simplify_eq/=; done.
Qed.

(** when the configuration table of the firmware has an ACPI entry, a search for a
    table returns the address of the first table of the XSDT with the signature, and 0
    when there is none; it ends whatever the tables hold and changes nothing. *)
Theorem acpi_table_found m x tables signature i g p :
  find_first (fun e => is_acpi_guid e.1 || is_acpi20_guid e.1) ConfigurationTable 0 = Some (i, (g, p)) -> p <> 0 ->
  load_le 8 (p + RSDP_XSDT_ADDRESS) m = Some x -> x <> 0 -> xsdt_at m x tables ->
  get_table_ptr signature m = Done (table_with signature tables, m).
Proof.
  intros Hf Hp Hr Hx0 Hx. unfold get_table_ptr, pal_get_xsdt_ptr, rsdp. rewrite Hf. cbn [snd].
  destruct (Z.eqb_spec p 0); [done|]. rewrite (bind_done _ _ _ _ _ (field_ld_done _ _ _ _ Hr)).
  destruct (Z.eqb_spec x 0); [done|]. rewrite (bind_done _ _ _ _ _ (field_ld_done _ _ _ _ (xa_length _ _ _ Hx))).
  pose proof (xa_small _ _ _ Hx). unfold DESCRIPTION_HEADER_SIZE.
  rewrite u64_small by lia. rewrite Z.shiftr_div_pow2 by lia.
  replace ((36 + 8 * Z.of_nat (length tables) - 36) / 2 ^ 3) with (Z.of_nat (length tables)) by lia.
  rewrite u32_small, Nat2Z.id by lia. apply (xsdt_loop_spec m x tables signature tables 0); [done|done].
Qed.
End Acpi.

(** ** Management: SMBIOS *)

Record MNG_INFO_TABLE := mk_mng {
  num_smbios_structure : Z; mc_host_if_tbl_addr : Z; mc_host_if_type : Z; ipmi_device_info_tbl_addr : Z; ipmi_device_if_type : Z }.
Definition zero_mng : MNG_INFO_TABLE := mk_mng 0 0 0 0 0.
(** A structure that [GetNext] returns: its type, its address and its interface type. *)
Record smbios_structure := mk_smbios { sm_type : Z; sm_addr : Z; InterfaceType : Z }.

Section Mng.
Context (SMBIOS_TYPE_MANAGEMENT_CONTROLLER_HOST_INTERFACE SMBIOS_TYPE_IPMI_DEVICE_INFORMATION : Z).

Definition add_structure (t : MNG_INFO_TABLE) (x : smbios_structure) : MNG_INFO_TABLE :=
  if sm_type x =? SMBIOS_TYPE_MANAGEMENT_CONTROLLER_HOST_INTERFACE then
    mk_mng (num_smbios_structure t) (sm_addr x) (InterfaceType x) (ipmi_device_info_tbl_addr t) (ipmi_device_if_type t)
  else if sm_type x =? SMBIOS_TYPE_IPMI_DEVICE_INFORMATION then
    mk_mng (num_smbios_structure t) (mc_host_if_tbl_addr t) (mc_host_if_type t) (sm_addr x) (InterfaceType x)
  else t.
(** [smbios] is what the walk returns, [None] when there is no SMBIOS protocol. *)
Definition pal_mng_create_info_table (smbios : option (list smbios_structure)) (t : MNG_INFO_TABLE) : MNG_INFO_TABLE :=
  match smbios with None => zero_mng | Some l => fold_left add_structure l zero_mng end.

Record mng_state := mk_mng_state { g_mng_info_table : option MNG_INFO_TABLE }.
Definition val_mng_create_info_table (smbios : option (list smbios_structure)) (table : option MNG_INFO_TABLE) : prog mng_state unit :=
  match table with
  | None => ret tt
  | Some t => modify (fun _ => mk_mng_state (Some (pal_mng_create_info_table smbios t)))
  end.

Inductive MNG_INFO_e := MNG_MC_HOST_IF_TABLE | MNG_MC_DEVICE_TYPE | MNG_IPMI_DEVICE_INFO_TABLE | MNG_IPMI_IF_TYPE.
(** The value is returned as 32 bits. *)
Definition val_mng_get_info (type : MNG_INFO_e) : prog mng_state Z :=
  let* o := gets g_mng_info_table in
  match o with
  | None => ret 0
  | Some t =>
      ret (u32 match type with
               | MNG_MC_HOST_IF_TABLE => mc_host_if_tbl_addr t
               | MNG_MC_DEVICE_TYPE => mc_host_if_type t
               | MNG_IPMI_DEVICE_INFO_TABLE => ipmi_device_info_tbl_addr t
               | MNG_IPMI_IF_TYPE => ipmi_device_if_type t
               end)
  end.

(** The last structure of a type. *)
Definition last_of (ty : Z) (l : list smbios_structure) : option smbios_structure :=
  last (filter (fun x => sm_type x = ty) l).

Definition host_of (t : MNG_INFO_TABLE) : Z * Z := (mc_host_if_tbl_addr t, mc_host_if_type t).
Definition ipmi_of (t : MNG_INFO_TABLE) : Z * Z := (ipmi_device_info_tbl_addr t, ipmi_device_if_type t).
Definition described (o : option smbios_structure) : Z * Z := match o with Some x => (sm_addr x, InterfaceType x) | None => (0, 0) end.

(** the table describes the last management controller interface and the last IPMI
    device of the SMBIOS structures, and holds zeros where there is none. *)
Theorem mng_table_last l t :
  SMBIOS_TYPE_MANAGEMENT_CONTROLLER_HOST_INTERFACE <> SMBIOS_TYPE_IPMI_DEVICE_INFORMATION ->
  host_of (pal_mng_create_info_table (Some l) t) = described (last_of SMBIOS_TYPE_MANAGEMENT_CONTROLLER_HOST_INTERFACE l) /\
  ipmi_of (pal_mng_create_info_table (Some l) t) = described (last_of SMBIOS_TYPE_IPMI_DEVICE_INFORMATION l).
Proof.
  intros Hne. unfold pal_mng_create_info_table, last_of.
  induction l as [|x l IH] using rev_ind; [done|]. rewrite fold_left_app, !filter_app. simpl.
  set (r := fold_left add_structure l zero_mng) in *. unfold add_structure.
  destruct (Z.eqb_spec (sm_type x) SMBIOS_TYPE_MANAGEMENT_CONTROLLER_HOST_INTERFACE) as [E1|N1].
  - rewrite !filter_cons, !filter_nil. rewrite decide_True by done. rewrite decide_False by congruence.
    rewrite last_snoc, app_nil_r. by split; [|apply IH].
  - rewrite !filter_cons, !filter_nil. rewrite (decide_False (P := sm_type x = SMBIOS_TYPE_MANAGEMENT_CONTROLLER_HOST_INTERFACE)) by done.
    destruct (Z.eqb_spec (sm_type x) SMBIOS_TYPE_IPMI_DEVICE_INFORMATION) as [E2|N2].
    + rewrite decide_True by done. rewrite last_snoc, app_nil_r. by split; [apply IH|].
    + rewrite decide_False by done. rewrite !app_nil_r. apply IH.
Qed.
End Mng.

(** ** A firmware with two tables *)

Module Sample.
Fixpoint place (a : Z) (l : list Z) (m : bytes) : bytes :=
  match l with [] => m | b :: l' => <[a := b]> (place (a + 1) l' m) end.
(** The pointer at 0x100, the XSDT at 0x200, tables at 0x300 and 0x400. *)
Definition memory0 : bytes :=
  place 0x118 [0; 2; 0; 0; 0; 0; 0; 0] (place 0x204 [52; 0; 0; 0] (place 0x224 [0; 3; 0; 0; 0; 0; 0; 0; 0; 4; 0; 0; 0; 0; 0; 0]
    (place 0x300 [0x41; 0x50; 0x49; 0x43] (place 0x400 [0x4D; 0x43; 0x46; 0x47] ∅)))).

Lemma acpi_table_found_witness :
  get_table_ptr Z [(1, 0x50); (7, 0x100)] (Z.eqb 5) (Z.eqb 7) 0x4746434D memory0 = Done (0x400, memory0) /\
  get_table_ptr Z [(1, 0x50); (7, 0x100)] (Z.eqb 5) (Z.eqb 7) 0x12345678 memory0 = Done (0, memory0).
Proof.
  assert (Hx : xsdt_at memory0 0x200 [(0x300, 0x43495041); (0x400, 0x4746434D)]).
  { split; [by vm_compute|by vm_compute|]. intros [|[|i]] t Ht; [injection Ht as <-; by vm_compute|injection Ht as <-; by vm_compute|discriminate Ht]. }
  split.
  - rewrite (acpi_table_found Z [(1, 0x50); (7, 0x100)] (Z.eqb 5) (Z.eqb 7) memory0 0x200
      [(0x300, 0x43495041); (0x400, 0x4746434D)] 0x4746434D 1 7 0x100); [done|done|done|by vm_compute|done|exact Hx].
  - rewrite (acpi_table_found Z [(1, 0x50); (7, 0x100)] (Z.eqb 5) (Z.eqb 7) memory0 0x200
      [(0x300, 0x43495041); (0x400, 0x4746434D)] 0x12345678 1 7 0x100); [done|done|done|by vm_compute|done|exact Hx].
Defined.

(** Two management controllers: the second is the one described. *)
Lemma mng_table_last_witness :
  host_of (pal_mng_create_info_table 42 38 (Some [mk_smbios 42 0x1000 2; mk_smbios 38 0x1100 4; mk_smbios 42 0x1200 3]) zero_mng) = (0x1200, 3).
Proof.
  etransitivity; [apply (mng_table_last 42 38 [mk_smbios 42 0x1000 2; mk_smbios 38 0x1100 4; mk_smbios 42 0x1200 3] zero_mng)|].
  - done.
  - done.
Defined.
End Sample.
