(* ===== verification/BmPcie.v ===== *)
(** * PCIe services of the bare-metal port

    Models [platform/pal_baremetal/common/src/pal_pcie.c]: configuration accesses by the
    ECAM table of the platform, searches of capability lists, the root port of a
    function, and the comparison of the discovered functions with the hierarchy that the
    platform describes.  The two tables of the platform are parameters; messages on the
    console are left out. *)

From S2P Require Import Prelude Mmio PcieCfg PcieCap.

Definition TYPE01_CPR_MASK : Z := 0xff.
Definition PCIE_CIDR_MASK : Z := 0xff.
Definition PCIE_NCPR_MASK : Z := 0xff.
Definition PCIE_ECAP_CIDR_MASK : Z := 0xffff.
Definition PCIE_ECAP_NCPR_MASK : Z := 0xfff.
Definition PCIE_DEVICE_TYPE_SHIFT : Z := 20.
Definition PCIE_DEVICE_TYPE_MASK : Z := 0xf.
Definition PCI_EXP_DEVCTL : Z := 8.
Definition DEVCTL_SNOOP_BIT : Z := 11.
Definition PCIECR_DPT_MASK : Z := 0xf.
Definition SECBN_MASK : Z := 0xff.
Definition SUBBN_MASK : Z := 0xff.
Definition BUS_NUM_REG_OFFSET : Z := 0x18.
Definition CC_SHIFT : Z := 8.
Definition DEVICE_ID_OFFSET : Z := 16.
Definition PCIE_INTERRUPT_LINE : Z := 0x3c.
Definition PCIE_INTERRUPT_PIN_SHIFT : Z := 0x8.
Definition PCIE_INTERRUPT_PIN_MASK : Z := 0xFF.

(** The interrupts of a pin, and their number. *)
Record PERIPHERAL_IRQ_MAP := mk_irq_map { legacy_irq_map : list (list Z * Z) }.
Record PCIE_READ_BLOCK := mk_read_block {
  class_code : Z; device_id : Z; vendor_id : Z; d_bus : Z; d_dev : Z; d_func : Z; d_seg : Z;
  dma_support : Z; dma_coherent : Z; p2p_support : Z; dma_64bit : Z; behind_smmu : Z; atc_present : Z;
  irq_map : PERIPHERAL_IRQ_MAP }.
Record PCIE_READ_TABLE := mk_read_table { platform_entries : Z; platform_device : list PCIE_READ_BLOCK }.

(** A loop over the first [n] entries of an array that may leave early; reading past the
    end of the array is undefined. *)
Fixpoint search_table {S A R} (n : nat) (l : list A) (body : A -> prog S (option R)) : prog S (option R) :=
  match n with
  | O => ret None
  | Datatypes.S k =>
      match l with
      | [] => fun _ => Undefined
      | x :: l' => let* r := body x in match r with Some _ => ret r | None => search_table k l' body end
      end
  end.

Section Bm.
Context {H : Type} `{Hardware H}.
(** [platform_pcie_cfg] and [platform_pcie_device_hierarchy]. *)
Context (platform_pcie_cfg : PCIE_INFO_TABLE) (hierarchy : PCIE_READ_TABLE).
Local Abbreviation P := (prog (pcie_state H)).

Definition mmio_read (addr : Z) : P Z := on_hw (bm_pal_mmio_read (u64 addr)).
Definition mmio_write (addr data : Z) : P unit := on_hw (bm_pal_mmio_write (u64 addr) data).

(** ** The table of ECAM regions *)

Definition pal_pcie_get_mcfg_ecam : P Z :=
  let* b := deref (at_index (block platform_pcie_cfg) 0) in ret (ecam_base b).

(** Copying [n] blocks of the platform into the memory [t]. *)
Fixpoint copy_blocks (n : nat) (l : list PCIE_INFO_BLOCK) (t : PCIE_INFO_TABLE) : outcome PCIE_INFO_TABLE :=
  match n, l with
  | O, _ => Done t
  | S k, b :: l' =>
      let i := Z.to_nat (info_num_entries t) in
      if (i <? length (block t))%nat then copy_blocks k l' (mk_info (u32 (info_num_entries t + 1)) (<[i := b]> (block t))) else Undefined
  | S k, [] => Undefined
  end.
Definition pal_pcie_create_info_table (t : PCIE_INFO_TABLE) : outcome PCIE_INFO_TABLE :=
  if info_num_entries platform_pcie_cfg =? 0 then Done (mk_info 0 (block t))
  else copy_blocks (Z.to_nat (info_num_entries platform_pcie_cfg)) (block platform_pcie_cfg) (mk_info 0 (block t)).

(** The index has eight bits. *)
Fixpoint ecam_loop (fuel : nat) (seg bus ecam_index : Z) : P Z :=
  match fuel with
  | O => diverge
  | S k =>
      if ecam_index <? info_num_entries platform_pcie_cfg then
        let* b := deref (at_index (block platform_pcie_cfg) ecam_index) in
        if (start_bus_num b <=? bus) && (bus <=? end_bus_num b) && (seg =? segment_num b) then ret (ecam_base b)
        else ecam_loop k seg bus (u8 (ecam_index + 1))
      else ret 0
  end.
Definition pal_pcie_ecam_base (seg bus dev func : Z) : P Z := ecam_loop 257 seg bus 0.

(** ** Configuration accesses *)

Definition function_offset (bus dev func : Z) : Z :=
  u32 (bus * PCIE_MAX_DEV * PCIE_MAX_FUNC * 4096 + dev * PCIE_MAX_FUNC * 4096 + func * 4096).

Definition pal_pcie_read_cfg (seg bus dev func offset : Z) : P Z :=
  let* _ := pal_pcie_ecam_base seg bus dev func in
  let* base := pal_pcie_ecam_base seg bus dev func in
  mmio_read (base + function_offset bus dev func + offset).

Definition at_bdf (seg bus dev func : Z) (d : PCIE_READ_BLOCK) : bool :=
  (seg =? d_seg d) && (bus =? d_bus d) && (dev =? d_dev d) && (func =? d_func d).

(** The first entry of the hierarchy that satisfies [p]. *)
Definition look_up (p : PCIE_READ_BLOCK -> bool) : P (option PCIE_READ_BLOCK) :=
  search_table (Z.to_nat (platform_entries hierarchy)) (platform_device hierarchy) (fun d => ret (if p d then Some d else None)).

(** The status, and the new value of [*data]: only the class code is known. *)
Definition pal_pcie_io_read_cfg (Bdf offset data : Z) : P (Z * Z) :=
  let* found := look_up (fun d => at_bdf (PCIE_EXTRACT_BDF_SEG Bdf) (PCIE_EXTRACT_BDF_BUS Bdf) (PCIE_EXTRACT_BDF_DEV Bdf)
    (PCIE_EXTRACT_BDF_FUNC Bdf) d && (offset =? TYPE01_RIDR)) in
  ret match found with Some d => (0, u32 (class_code d)) | None => (PCIE_NO_MAPPING, data) end.

Definition pal_pcie_io_write_cfg (bdf offset data : Z) : P unit :=
  let bus := PCIE_EXTRACT_BDF_BUS bdf in
  let dev := PCIE_EXTRACT_BDF_DEV bdf in
  let func := PCIE_EXTRACT_BDF_FUNC bdf in
  let seg := PCIE_EXTRACT_BDF_SEG bdf in
  let* base := pal_pcie_ecam_base seg bus dev func in
  mmio_write (base + function_offset bus dev func + offset) data.

Definition pal_pcie_bar_mem_read (Bdf address : Z) : P (Z * Z) := let* v := mmio_read address in ret (0, v).
Definition pal_pcie_bar_mem_write (Bdf address data : Z) : P Z := mmio_write address data ;;; ret 0.

(** ** Capabilities *)

(** The [while] loop over the capability list: the offset and the word of the PCI
    Express capability. *)
Fixpoint pciecs_loop (fuel : nat) (seg bus dev fn next : Z) : P (option (Z * Z)) :=
  match fuel with
  | O => diverge
  | S k =>
      if next =? 0 then ret None else
      let* v := pal_pcie_read_cfg seg bus dev fn next in
      if Z.land v PCIE_CIDR_MASK =? CID_PCIECS then ret (Some (next, v))
      else pciecs_loop k seg bus dev fn (Z.land (Z.shiftr v PCIE_NCPR_SHIFT) PCIE_NCPR_MASK)
  end.
Definition find_pciecs_bm (seg bus dev fn : Z) : P (option (Z * Z)) :=
  let* v := pal_pcie_read_cfg seg bus dev fn TYPE01_CPR in
  pciecs_loop 257 seg bus dev fn (Z.land v TYPE01_CPR_MASK).

Definition pal_pcie_get_pcie_type (seg bus dev fn : Z) : P Z :=
  let* r := find_pciecs_bm seg bus dev fn in
  ret match r with Some (_, v) => Z.land (Z.shiftr v PCIE_DEVICE_TYPE_SHIFT) PCIE_DEVICE_TYPE_MASK | None => 0 end.

Definition pal_pcie_get_snoop_bit (seg bus dev fn : Z) : P Z :=
  let* r := find_pciecs_bm seg bus dev fn in
  match r with
  | Some (off, _) =>
      let* v := pal_pcie_read_cfg seg bus dev fn (off + PCI_EXP_DEVCTL) in
      ret (Z.land (Z.shiftr v DEVCTL_SNOOP_BIT) 1)
  | None => ret 2
  end.

(** The new value of [*val]; the next pointer is taken from the word read last. *)
Fixpoint ext_cap_loop (fuel : nat) (seg bus dev fn ext_cap_id offset next val : Z) : P Z :=
  match fuel with
  | O => diverge
  | S k =>
      if next =? 0 then ret val else
      let* v := pal_pcie_read_cfg seg bus dev fn next in
      if Z.land v PCIE_ECAP_CIDR_MASK =? ext_cap_id then
        let* w := pal_pcie_read_cfg seg bus dev fn (next + offset) in
        ext_cap_loop k seg bus dev fn ext_cap_id offset (Z.land (Z.shiftr w PCIE_ECAP_NCPR_SHIFT) PCIE_ECAP_NCPR_MASK) (Z.land w 0xffff)
      else ext_cap_loop k seg bus dev fn ext_cap_id offset (Z.land (Z.shiftr v PCIE_ECAP_NCPR_SHIFT) PCIE_ECAP_NCPR_MASK) val
  end.
Definition pal_pcie_read_ext_cap_word (fuel : nat) (seg bus dev fn ext_cap_id offset val : Z) : P Z :=
  ext_cap_loop fuel seg bus dev fn ext_cap_id offset PCIE_ECAP_START val.

(** ** What the platform says of a function *)

(** The field of the first entry at the place, or an answer without one. *)
Definition field_at (f : PCIE_READ_BLOCK -> Z) (none seg bus dev fn : Z) : P Z :=
  let* r := look_up (at_bdf seg bus dev fn) in ret match r with Some d => f d | None => none end.
Definition pal_pcie_is_device_behind_smmu : Z -> Z -> Z -> Z -> P Z := field_at behind_smmu 0.
Definition pal_pcie_get_dma_support : Z -> Z -> Z -> Z -> P Z := field_at dma_support 2.
Definition pal_pcie_get_dma_coherent : Z -> Z -> Z -> Z -> P Z := field_at dma_coherent 2.
Definition pal_pcie_dev_p2p_support : Z -> Z -> Z -> Z -> P Z := field_at p2p_support 1.
Definition pal_pcie_is_devicedma_64bit : Z -> Z -> Z -> Z -> P Z := field_at dma_64bit 0.
Definition pal_pcie_is_cache_present : Z -> Z -> Z -> Z -> P Z := field_at atc_present 0.

(** The status and the map; the pin is not checked before it is used as an index. *)
Definition pal_pcie_get_legacy_irq_map (Seg Bus Dev Fn : Z) : P (Z * option PERIPHERAL_IRQ_MAP) :=
  let* r := look_up (at_bdf Seg Bus Dev Fn) in
  match r with
  | None => ret (PCIE_NO_MAPPING, None)
  | Some d =>
      let* v := pal_pcie_read_cfg Seg Bus Dev Fn PCIE_INTERRUPT_LINE in
      let pin := Z.land (Z.shiftr v PCIE_INTERRUPT_PIN_SHIFT) PCIE_INTERRUPT_PIN_MASK in
      let* x := deref (at_index (legacy_irq_map (irq_map d)) (u32 (pin - 1))) in
      ret (if negb (x.2 =? 0) then (0, Some (irq_map d)) else (1, None))
  end.

(** ** The root port of a function *)

(** One entry of the device list: [Some] leaves the function with its status. *)
Definition root_port_of_entry (Bus : Z) (e : pcie_device_attr) : P (option (Z * option Z)) :=
  let b := bdf e in
  let seg := PCIE_EXTRACT_BDF_SEG b in
  let bus := PCIE_EXTRACT_BDF_BUS b in
  let dev := PCIE_EXTRACT_BDF_DEV b in
  let func := PCIE_EXTRACT_BDF_FUNC b in
  let* r := find_pciecs_bm seg bus dev func in
  match r with
  | None => ret None
  | Some (off, _) =>
      let* v := pal_pcie_read_cfg seg bus dev func (off + CIDR_OFFSET) in
      let dp_type := Z.shiftl 1 (Z.land (Z.shiftr v ((PCIECR_OFFSET - CIDR_OFFSET) * 8 + PCIECR_DPT_SHIFT)) PCIECR_DPT_MASK) in
      if (dp_type =? RP) || (dp_type =? iEP_RP) then
        let* w := pal_pcie_read_cfg seg bus dev func BUS_NUM_REG_OFFSET in
        if (Z.land (Z.shiftr w SECBN_SHIFT) SECBN_MASK <=? Bus) && (Bus <=? Z.land (Z.shiftr w SUBBN_SHIFT) SUBBN_MASK)
        then ret (Some (0, Some b)) else ret (Some (2, None))
      else ret (Some (2, None))
  end.

(** The status, and the BDF of the root port on success. *)
Definition pal_pcie_get_root_port_bdf (Bus : Z) : P (Z * option Z) :=
  let* o := gets g_pcie_bdf_table in
  let* t := deref o in
  let* r := search_table (Z.to_nat (num_entries t)) (device t) (root_port_of_entry Bus) in
  ret (default (1, None) r).

(** ** The discovered functions and the hierarchy of the platform *)

Definition platform_bdf (d : PCIE_READ_BLOCK) : Z := PCIE_CREATE_BDF (d_seg d) (d_bus d) (d_dev d) (d_func d).

(** The inner loop over the device list: the entry with the BDF of the platform is
    compared; [Some] tells whether it agrees. *)
Definition compare_entry (d : PCIE_READ_BLOCK) (e : pcie_device_attr) : P (option bool) :=
  if negb (platform_bdf d =? bdf e) then ret None else
  let seg := PCIE_EXTRACT_BDF_SEG (bdf e) in
  let bus := PCIE_EXTRACT_BDF_BUS (bdf e) in
  let dev := PCIE_EXTRACT_BDF_DEV (bdf e) in
  let func := PCIE_EXTRACT_BDF_FUNC (bdf e) in
  let* data := pal_pcie_read_cfg seg bus dev func TYPE0_HEADER in
  if negb (Z.land data 0xFFFF =? vendor_id d) then ret (Some false) else
  if negb (Z.shiftr data DEVICE_ID_OFFSET =? device_id d) then ret (Some false) else
  let* cc := pal_pcie_read_cfg seg bus dev func TYPE01_RIDR in
  ret (Some (Z.shiftr cc CC_SHIFT =? u32 (Z.shiftr (class_code d) CC_SHIFT))).

Definition pal_pcie_check_device_list : P Z :=
  let* o := gets g_pcie_bdf_table in
  let* t := deref o in
  if negb (platform_entries hierarchy =? num_entries t) then ret 1 else
  let n := Z.to_nat (num_entries t) in
  let* r := search_table n (platform_device hierarchy) (fun d =>
    let* x := search_table n (device t) (compare_entry d) in
    ret match x with Some true => None | _ => Some 1 end) in
  ret (default 0 r).
End Bm.

(** ** The comparison is exact *)

Section BmTheorems.
(** A read of a configuration register has no side effect. *)
Context {H : Type} `{Hardware H} (read_pure : forall a h, (hw_read W32 a h).2 = h).
Context (cfg : PCIE_INFO_TABLE) (hierarchy : PCIE_READ_TABLE).
Context (Hcfg : info_num_entries cfg = Z.of_nat (length (block cfg))) (Hsmall : (length (block cfg) <= 255)%nat).
Implicit Types (s : pcie_state H).

Definition ecam_of (seg bus : Z) : Z :=
  match find_first (covers bus seg) (block cfg) 0 with Some (_, b) => ecam_base b | None => 0 end.

Lemma ecam_loop_spec seg bus s : forall fuel i l, drop i (block cfg) = l -> (length l < fuel)%nat ->
  (i + length l = length (block cfg))%nat ->
  ecam_loop cfg fuel seg bus (Z.of_nat i) s =
  Done (match find_first (covers bus seg) l (Z.of_nat i) with Some (_, b) => ecam_base b | None => 0 end, s).
Proof.
  induction fuel as [|fuel IH]; intros i l Hd Hf Hl; [lia|]. cbn [ecam_loop]. rewrite Hcfg.
  destruct l as [|b l].
  - simpl in Hl. destruct (Z.ltb_spec (Z.of_nat i) (Z.of_nat (length (block cfg)))); [lia|done].
  - simpl in Hl, Hf. destruct (Z.ltb_spec (Z.of_nat i) (Z.of_nat (length (block cfg)))); [|lia].
    assert (Hb : block cfg !! i = Some b) by (rewrite <- (Nat.add_0_r i), <- lookup_drop, Hd; done).
    rewrite at_index_nat, Hb. unfold deref. unfold bind at 1, ret at 1. cbn [find_first]. unfold covers at 1.
    destruct (_ && _ && _); [done|]. rewrite u8_small by lia. replace (Z.of_nat i + 1) with (Z.of_nat (S i)) by lia.
    apply IH; [by rewrite (drop_S _ b i Hb) in Hd; injection Hd|lia|lia].
Qed.

Lemma ecam_base_spec seg bus dev func s : pal_pcie_ecam_base cfg seg bus dev func s = Done (ecam_of seg bus, s).
Proof. apply (ecam_loop_spec seg bus s 257 0 (block cfg)); [done|lia|done]. Qed.

(** The word that a configuration read returns. *)
Definition config_word (h : H) (seg bus dev func off : Z) : Z :=
  u32 (hw_read W32 (u64 (ecam_of seg bus + function_offset bus dev func + off)) h).1.

Lemma read_cfg_word seg bus dev func off s :
  pal_pcie_read_cfg cfg seg bus dev func off s = Done (config_word (hw s) seg bus dev func off, s).
Proof.
  unfold pal_pcie_read_cfg. rewrite !(bind_done _ _ _ _ _ (ecam_base_spec seg bus dev func s)).
  unfold mmio_read, on_hw, bm_pal_mmio_read. rewrite read_pure. by destruct s.
Qed.

(** The identity and the class code that the platform gives are those of the function. *)
Definition agrees (h : H) (d : PCIE_READ_BLOCK) : bool :=
  let b := platform_bdf d in
  let word := config_word h (PCIE_EXTRACT_BDF_SEG b) (PCIE_EXTRACT_BDF_BUS b) (PCIE_EXTRACT_BDF_DEV b) (PCIE_EXTRACT_BDF_FUNC b) in
  (Z.land (word TYPE0_HEADER) 0xFFFF =? vendor_id d) && (Z.shiftr (word TYPE0_HEADER) DEVICE_ID_OFFSET =? device_id d) &&
  (Z.shiftr (word TYPE01_RIDR) CC_SHIFT =? u32 (Z.shiftr (class_code d) CC_SHIFT)).
Definition discovered (l : list pcie_device_attr) (d : PCIE_READ_BLOCK) : bool := existsb (fun e => platform_bdf d =? bdf e) l.

Lemma compare_entry_same d e s : platform_bdf d = bdf e -> compare_entry cfg d e s = Done (Some (agrees (hw s) d), s).
Proof.
  intros Eb. unfold compare_entry, agrees. rewrite Eb, Z.eqb_refl. cbn [negb].
  rewrite (bind_done _ _ _ _ _ (read_cfg_word _ _ _ _ _ _)).
  destruct (Z.land _ 0xFFFF =? vendor_id d); cbn [negb andb]; [|done].
  destruct (Z.shiftr _ DEVICE_ID_OFFSET =? device_id d); cbn [negb andb]; [|done].
  by rewrite (bind_done _ _ _ _ _ (read_cfg_word _ _ _ _ _ _)).
Qed.

Lemma compare_entries d n l s :
  search_table n l (compare_entry cfg d) s =
  if discovered (take n l) d then Done (Some (agrees (hw s) d), s)
  else if (n <=? length l)%nat then Done (None, s) else Undefined.
Proof.
  revert l. induction n as [|n IH]; intros l; [done|]. destruct l as [|e l]; [done|].
  unfold discovered. cbn [search_table take existsb length].
  destruct (Z.eqb_spec (platform_bdf d) (bdf e)) as [Eb|Nb]; cbn [orb].
  - by rewrite (bind_done _ _ _ _ _ (compare_entry_same d e s Eb)).
  - assert (E : compare_entry cfg d e s = Done (None, s))
      by (unfold compare_entry; by destruct (Z.eqb_spec (platform_bdf d) (bdf e))).
    by rewrite (bind_done _ _ _ _ _ E).
Qed.

(** The comparison of one function of the platform, with [n] functions in the list [l]. *)
Definition matches (n : nat) (l : list pcie_device_attr) (h : H) (d : PCIE_READ_BLOCK) : bool :=
  discovered (take n l) d && agrees h d.

Lemma compare_all n l (hs : list PCIE_READ_BLOCK) s : forall m,
  search_table m hs (fun d =>
    let* x := search_table n l (compare_entry cfg d) in ret match x with Some true => None | _ => Some 1 end) s =
  match List.find (fun d => negb (matches n l (hw s) d)) (take m hs) with
  | None => if (m <=? length hs)%nat then Done (None, s) else Undefined
  | Some d => if discovered (take n l) d || (n <=? length l)%nat then Done (Some 1, s) else Undefined
  end.
Proof.
  induction hs as [|d hs IH]; intros [|m]; [done..|]. cbn [search_table take List.find length].
  unfold bind at 1, bind at 1. rewrite compare_entries. unfold matches at 1.
  destruct (discovered (take n l) d) eqn:Ed; cbn [andb orb].
  - destruct (agrees (hw s) d); cbn [negb]; [exact (IH m)|by rewrite Ed].
  - cbn [negb]. rewrite Ed. by destruct (n <=? length l)%nat.
Qed.

(** C30: the check of the device list returns 1 when the platform does not describe as
    many functions as were discovered.  Otherwise it returns 0 exactly when every function
    that the platform describes was discovered with the vendor, the device and the class
    that it gives, and 1 at the first that was not.  Nothing is changed.  The numbers of
    entries are those that the two tables give: where a table is shorter, a run that comes
    to its end is undefined. *)
Theorem device_list_verdict s (t : pcie_device_bdf_table) :
  g_pcie_bdf_table s = Some t ->
  let n := Z.to_nat (num_entries t) in
  pal_pcie_check_device_list cfg hierarchy s =
  if negb (platform_entries hierarchy =? num_entries t) then Done (1, s) else
  match List.find (fun d => negb (matches n (device t) (hw s) d)) (take n (platform_device hierarchy)) with
  | None => if (n <=? length (platform_device hierarchy))%nat then Done (0, s) else Undefined
  | Some d => if discovered (take n (device t)) d || (n <=? length (device t))%nat then Done (1, s) else Undefined
  end.
Proof.
  intros Ht n. unfold pal_pcie_check_device_list. unfold bind at 1, gets. rewrite Ht. unfold bind at 1, deref, ret at 1.
  destruct (negb _); [done|]. unfold bind at 1. rewrite compare_all.
  destruct (List.find _ _) as [d|]; [by destruct (_ || _)|by destruct (_ <=? _)%nat].
Qed.

(** A search for a root port looks at the first function with a PCI Express capability
    only: if that is no root port of the bus, the answer is 2 whatever the other
    functions are. *)
Lemma root_port_first_only s t e off v l Bus :
  g_pcie_bdf_table s = Some t -> 0 < num_entries t -> device t = e :: l ->
  find_pciecs_bm cfg (PCIE_EXTRACT_BDF_SEG (bdf e)) (PCIE_EXTRACT_BDF_BUS (bdf e)) (PCIE_EXTRACT_BDF_DEV (bdf e))
    (PCIE_EXTRACT_BDF_FUNC (bdf e)) s = Done (Some (off, v), s) ->
  root_port_of_entry cfg Bus e s <> Done (Some (0, Some (bdf e)), s) ->
  pal_pcie_get_root_port_bdf cfg Bus s = Done ((2, None), s).
Proof.
  intros Ht Hn Hl Hf Hno. unfold pal_pcie_get_root_port_bdf. unfold bind at 1, gets. rewrite Ht. unfold bind at 1, deref, ret at 1.
  rewrite Hl. destruct (Z.to_nat (num_entries t)) as [|n] eqn:En; [lia|]. cbn [search_table]. assert (E : root_port_of_entry cfg Bus e s = Done (Some (2, None), s)).
  { revert Hno. unfold root_port_of_entry. rewrite (bind_done _ _ _ _ _ Hf), (bind_done _ _ _ _ _ (read_cfg_word _ _ _ _ _ _)).
    destruct (_ || _); [|done]. rewrite (bind_done _ _ _ _ _ (read_cfg_word _ _ _ _ _ _)). by destruct (_ && _). }
  unfold bind at 1. by rewrite (bind_done _ _ _ _ _ E).
Qed.
End BmTheorems.

(** ** A platform with one endpoint *)

Module Sample.
Definition cfg0 : PCIE_INFO_TABLE := mk_info 2 ecams0.
Definition board3 : board := <[0x30110000 := 0xED0113B5]> (<[0x30110008 := 0xFF000001]> board1).
Definition state3 : pcie_state board := set_bdf_table (Some (mk_bdf_table 1 [mk_attr ep1 0])) (set_hw board3 pcie0).
Definition described (vendor : Z) : PCIE_READ_BLOCK :=
  mk_read_block 0xFF000000 0xED01 vendor 1 2 0 0 1 1 0 1 0 0 (mk_irq_map []).

Lemma board_pure a (h : board) : (hw_read W32 a h).2 = h.
Proof. done. Qed.

(** The function as it is, one with another vendor, and a table of the platform that says
    that it has an entry and has none. *)
Lemma device_list_verdict_witness :
  pal_pcie_check_device_list cfg0 (mk_read_table 1 [described 0x13B5]) state3 = Done (0, state3) /\
  pal_pcie_check_device_list cfg0 (mk_read_table 1 [described 0x1234]) state3 = Done (1, state3) /\
  pal_pcie_check_device_list cfg0 (mk_read_table 1 []) state3 = Undefined.
Proof.
  assert (Hl : (length (block cfg0) <= 255)%nat) by (simpl; lia). split_and!.
  - etransitivity; [apply (device_list_verdict board_pure cfg0 (mk_read_table 1 [described 0x13B5]) eq_refl Hl state3 (mk_bdf_table 1 [mk_attr ep1 0]) eq_refl)|].
    by vm_compute.
  - etransitivity; [apply (device_list_verdict board_pure cfg0 (mk_read_table 1 [described 0x1234]) eq_refl Hl state3 (mk_bdf_table 1 [mk_attr ep1 0]) eq_refl)|].
    by vm_compute.
  - etransitivity; [apply (device_list_verdict board_pure cfg0 (mk_read_table 1 []) eq_refl Hl state3 (mk_bdf_table 1 [mk_attr ep1 0]) eq_refl)|].
    by vm_compute.
Defined.

(** An extended capability list with one capability, 0x23, at 0x100: its register at
    offset 8 has the bits of a next pointer set, and the search for the capability goes
    on there and never ends. *)
Definition board4 : board := {[ 0x30110100 := 0x00010023; 0x30110108 := 0x10000005 ]}.
Lemma ext_cap_word_follows_register : forall fuel val,
  pal_pcie_read_ext_cap_word cfg0 fuel 0 1 2 0 0x23 8 val (set_hw board4 pcie0) = Diverges.
Proof.
  unfold pal_pcie_read_ext_cap_word. induction fuel as [|fuel IH]; intros val; [done|].
  cbn [ext_cap_loop]. change (PCIE_ECAP_START =? 0) with false. cbv iota.
  assert (Hs : (length (block cfg0) <= 255)%nat) by (simpl; lia).
  rewrite (bind_done _ _ _ _ _ (read_cfg_word board_pure cfg0 eq_refl Hs 0 1 2 0 PCIE_ECAP_START _)).
  replace (config_word cfg0 _ 0 1 2 0 PCIE_ECAP_START) with 0x00010023 by (by vm_compute).
  change (Z.land 0x00010023 PCIE_ECAP_CIDR_MASK =? 0x23) with true. cbv iota.
  rewrite (bind_done _ _ _ _ _ (read_cfg_word board_pure cfg0 eq_refl Hs 0 1 2 0 (PCIE_ECAP_START + 8) _)).
  replace (config_word cfg0 _ 0 1 2 0 (PCIE_ECAP_START + 8)) with 0x10000005 by (by vm_compute).
  apply IH.
Qed.
End Sample.
