(* ===== verification/Tests.v ===== *)
(** * A test around its payload

    Every test of [test_pool/] that runs on one hart has the same entry function, which
    is modelled here once ([test_pool/pcie/operating_system/riscv/test_os_p010.c],
    [os_p010_entry]): the test is initialised, its payload runs if the options select
    it, the status word of the hart becomes the verdict, and the verdict is returned.
    The state pairs that of the test infrastructure with the PCIe state and the
    hardware.  The theorem [entry_verdict] reduces a test to the status word that its
    payload leaves. *)

From S2P Require Import Prelude Status Hart Infra Mmio PcieCfg.

Record test_state {H : Type} := mk_test { tval : val_state; tpcie : pcie_state H }.
Arguments test_state : clear implicits.
Arguments mk_test {H} tval tpcie.

Lemma bind_ext {S A B} (m : prog S A) (k k' : A -> prog S B) s :
  (forall a s', k a s' = k' a s') -> bind m k s = bind m k' s.
Proof. intros Hk. unfold bind. destruct (m s) as [[a s']| |]; [apply Hk|done|done]. Qed.

Lemma bind_bind {S A B C} (m : prog S A) (k : A -> prog S B) (k' : B -> prog S C) s :
  bind (bind m k) k' s = bind m (fun a => bind (k a) k') s.
Proof. unfold bind. by destruct (m s) as [[a s']| |]. Qed.

(** A loop over a list that carries local variables: [inl] leaves it. *)
Fixpoint search_with {S A B R} (l : list B) (body : B -> A -> prog S (R + A)) (a : A) : prog S (R + A) :=
  match l with
  | [] => ret (inr a)
  | x :: l' => let* r := body x a in match r with inl _ => ret r | inr a' => search_with l' body a' end
  end.

(** The same without an exit. *)
Fixpoint thread {S A B} (l : list B) (body : B -> A -> prog S A) (a : A) : prog S A :=
  match l with [] => ret a | x :: l' => let* a' := body x a in thread l' body a' end.

Section Frame.
Context {H : Type}.
Local Abbreviation T := (prog (test_state H)).

(** A program of one part of the state. *)
Definition on_val {A} (m : prog val_state A) : T A := fun s =>
  match m (tval s) with
  | Done (a, v) => Done (a, mk_test v (tpcie s)) | Undefined => Undefined | Diverges => Diverges
  end.
Definition on_pcie {A} (m : prog (pcie_state H) A) : T A := fun s =>
  match m (tpcie s) with
  | Done (a, p) => Done (a, mk_test (tval s) p) | Undefined => Undefined | Diverges => Diverges
  end.

(** [val_run_test_payload] on one hart. *)
Definition run_payload (payload : T unit) : T unit := let* _ := on_val my_index in payload.

(** The entry function of a test. *)
Definition os_entry `{SecondaryHarts, CpuArchProtocol} (TEST_NUM : Z) (TEST_DESC TEST_RULE : string)
    (payload : T unit) : T Z :=
  let num_hart := 1 in
  let* st := on_val (val_initialize_test TEST_NUM TEST_DESC num_hart) in
  when (negb (st =? ACS_STATUS_SKIP)) (run_payload payload) ;;;
  let* st := on_val (val_check_for_error TEST_NUM num_hart (Some TEST_RULE)) in
  on_val (val_report_status 0 (BSA_ACS_END TEST_NUM) None) ;;;
  ret st.

Lemma on_val_done {A} (m : prog val_state A) v p a v' :
  m v = Done (a, v') -> on_val m (mk_test v p) = Done (a, mk_test v' p).
Proof. intros E. unfold on_val. cbn [tval tpcie]. by rewrite E. Qed.
Lemma on_pcie_done {A} (m : prog (pcie_state H) A) v p a p' :
  m p = Done (a, p') -> on_pcie m (mk_test v p) = Done (a, mk_test v p').
Proof. intros E. unfold on_pcie. cbn [tval tpcie]. by rewrite E. Qed.

(** On one hart the infrastructure runs the payload and nothing else. *)
Lemma run_payload_val `{SecondaryHarts, Firmware} t payload addr input s :
  on_val (val_run_test_payload t 1 payload addr input) s = run_payload (on_val payload) s.
Proof.
  destruct s as [v p]. unfold run_payload, val_run_test_payload, on_val, bind. cbn [tval tpcie].
  destruct (my_index v) as [[me v']| |]; [|done|done]. cbn [tval tpcie]. rewrite Z.eqb_refl.
  by destruct (payload v') as [[[] v'']| |].
Qed.
End Frame.

(** ** The verdict of a test *)

(** The index of the running hart depends on its id and the table of harts only. *)
Lemma my_index_same s s' me :
  MPIDR s' = MPIDR s -> g_hart_info_table s' = g_hart_info_table s ->
  my_index s = Done (me, s) -> my_index s' = Done (me, s').
Proof.
  intros Em Et. unfold my_index, val_hart_get_mpid, val_hart_get_index_mpid, hart_table, bind, gets, deref.
  rewrite Em, Et. destruct (g_hart_info_table s) as [t|]; [|done]. unfold ret.
  by destruct (index_loop _ _ _) as [i| |]; intros [= <-].
Qed.

(** What the status word of the hart stands for. *)
Definition verdict_code (w : Z) : Z :=
  if IS_TEST_PASS w then ACS_STATUS_PASS else if IS_TEST_SKIP w then ACS_STATUS_SKIP else ACS_STATUS_FAIL.

Section Entry.
Context `{LawfulHarts, CpuArchProtocol}.

Lemma check_one_hart t rule me w v :
  my_index v = Done (me, v) -> hart_is (Z.eqb w) (shared_mem v) me -> concluded w = true ->
  exists v', val_check_for_error t 1 (Some rule) v = Done (verdict_code w, v') /\
    counted (verdict_code w) v v' /\ g_override_skip v' = g_override_skip v /\ hart_is (Z.eqb w) (shared_mem v') me.
Proof.
  intros Hme Hw Hc. unfold val_check_for_error. rewrite (bind_done _ _ _ _ _ Hme), Z.eqb_refl.
  assert (Hk : hart_is known (shared_mem v) me).
  { destruct Hw as (e & He & Ew%Z.eqb_eq). exists e. split; [done|]. unfold known. by rewrite <- Ew, Hc, orb_true_r. }
  destruct (get_status_spec v me Hk) as (k & m & e & E & Hev & He & _).
  assert (Es : status e = w).
  { destruct (hart_is_stable (Z.eqb w) _ m me Hev) as (e' & He' & Ew%Z.eqb_eq); [|done|congruence].
    intros st <-%Z.eqb_eq. by apply concluded_not_pending. }
  rewrite (bind_done _ _ _ _ _ E), Es.
  destruct (quiet_report me w (Some rule) ltac:(left; by eexists) (upd k m (console v) v)) as ([] & c & Eq).
  rewrite (bind_done _ _ _ _ _ Eq). unfold settle, verdict_code, counted, upd.
  assert (Hm : hart_is (Z.eqb w) m me) by (exists e; by rewrite Es, Z.eqb_refl).
  destruct (IS_TEST_PASS w), (IS_TEST_SKIP w); eexists; (split; [reflexivity|]); by destruct v.
Qed.

(** A payload that leaves the word [w] for its hart and the PCIe state [p']. *)
Definition leaves {W : Type} (payload : prog (test_state W) unit) (p p' : pcie_state W) (me w : Z) : Prop :=
  forall v, my_index v = Done (me, v) -> 0 <= me < Z.of_nat (length (shared_mem v)) ->
    exists v', payload (mk_test v p) = Done (tt, mk_test v' p') /\ same_run v v' /\
      g_bsa_tests_total v' = g_bsa_tests_total v /\ hart_is (Z.eqb w) (shared_mem v') me.

(** The last step of a payload. *)
Lemma set_status_leaves v me w : 0 <= me < Z.of_nat (length (shared_mem v)) ->
  exists v', val_set_status me w v = Done (tt, v') /\ same_run v v' /\
    g_bsa_tests_total v' = g_bsa_tests_total v /\ hart_is (Z.eqb w) (shared_mem v') me.
Proof.
  intros Hme. destruct (at_index_lt (shared_mem v) me Hme) as [e He]. eexists.
  split; [apply (set_status_spec v me w e He)|]. split; [by destruct v|]. split; [by destruct v|].
  exists (with_status w e). cbn [upd set_tick shared_mem set_shared_mem].
  rewrite (at_index_insert _ _ _ _ e He), Z.eqb_refl. split; [done|]. apply Z.eqb_refl.
Qed.

#[export] Instance same_run_preorder : PreOrder same_run.
Proof. split; [by intros v|]. intros a b c (?&?&?&?) (?&?&?&?). unfold same_run. split_and!; congruence. Qed.

Lemma end_quiet t : 0 <= t < 65536 -> quiet (val_report_status 0 (BSA_ACS_END t) None).
Proof.
  intros Ht. apply quiet_report. right. unfold IS_TEST_PASS, BSA_ACS_END.
  by rewrite (state_of_word TEST_END_VAL t 0) by (unfold TEST_END_VAL; lia).
Qed.

(** The outcome of a test: what is returned, what is counted, what the hardware is. *)
Definition test_outcome {W : Type} (t w : Z) (v v' : val_state) (p p' q : pcie_state W) (r : Z) : Prop :=
  r = (if runs v t then verdict_code w else ACS_STATUS_SKIP) /\ q = (if runs v t then p' else p) /\
  g_bsa_tests_total v' = (if runs v t then u32 (g_bsa_tests_total v + 1) else g_bsa_tests_total v) /\
  g_bsa_tests_pass v' = (if r =? ACS_STATUS_PASS then u32 (g_bsa_tests_pass v + 1) else g_bsa_tests_pass v) /\
  g_bsa_tests_fail v' = (if r =? ACS_STATUS_FAIL then u32 (g_bsa_tests_fail v + 1) else g_bsa_tests_fail v).

Lemma skip_concluded t : 0 <= t < 65536 -> concluded (RESULT_SKIP t 0) = true /\ verdict_code (RESULT_SKIP t 0) = ACS_STATUS_SKIP.
Proof.
  intros Ht. unfold concluded, verdict_code, IS_TEST_PASS, IS_TEST_FAIL, IS_TEST_SKIP, RESULT_SKIP.
  by rewrite (state_of_word TEST_SKIP_VAL t 0) by (unfold TEST_SKIP_VAL; lia).
Qed.

Lemma result_concluded (ok : bool) t : 0 <= t < 65536 ->
  concluded (if ok then RESULT_PASS t 1 else RESULT_FAIL t 1) = true /\
  verdict_code (if ok then RESULT_PASS t 1 else RESULT_FAIL t 1) = if ok then ACS_STATUS_PASS else ACS_STATUS_FAIL.
Proof.
  intros Ht. unfold concluded, verdict_code, IS_TEST_PASS, IS_TEST_FAIL, IS_TEST_SKIP, RESULT_PASS, RESULT_FAIL.
  destruct ok; [rewrite (state_of_word TEST_PASS_VAL t 1)|rewrite (state_of_word TEST_FAIL_VAL t 1)];
    unfold TEST_PASS_VAL, TEST_FAIL_VAL; try lia; done.
Qed.

(** After the payload, or without it: the check and the last report. *)
Lemma entry_tail {W : Type} t rule me w v v0 (p p' q : pcie_state W) :
  0 <= t < 65536 -> my_index v0 = Done (me, v0) -> hart_is (Z.eqb w) (shared_mem v0) me -> concluded w = true ->
  same_run v v0 -> verdict_code w = verdict_code (if runs v t then w else RESULT_SKIP t 0) ->
  q = (if runs v t then p' else p) ->
  g_bsa_tests_total v0 = (if runs v t then u32 (g_bsa_tests_total v + 1) else g_bsa_tests_total v) ->
  exists r v', (let* st := on_val (val_check_for_error t 1 (Some rule)) in
     on_val (val_report_status 0 (BSA_ACS_END t) None) ;;; ret st) (mk_test v0 q) = Done (r, mk_test v' q) /\
    test_outcome t w v v' p p' q r /\ hart_is (Z.eqb w) (shared_mem v') me.
Proof.
  intros Ht Hme Hw Hc (_ & _ & Hp & Hf) Hcode Hq Htot.
  destruct (check_one_hart t rule me w v0 Hme Hw Hc) as (v1 & E1 & (Ct & Cp & Cf) & _ & Hm).
  rewrite (bind_done _ _ _ _ _ (on_val_done _ _ q _ _ E1)).
  destruct (end_quiet t Ht v1) as ([] & c & E2).
  rewrite (bind_done _ _ _ _ _ (on_val_done _ _ q _ _ E2)).
  eexists _, _. split; [reflexivity|]. unfold test_outcome.
  assert (Er : verdict_code w = (if runs v t then verdict_code w else ACS_STATUS_SKIP)).
  { destruct (runs v t); [done|]. rewrite Hcode. by apply skip_concluded. }
  cbn [set_console g_bsa_tests_total g_bsa_tests_pass g_bsa_tests_fail].
  split_and!; [done|done|by rewrite Ct|by rewrite Cp, Hp|by rewrite Cf, Hf|done].
Qed.

(** The word that the hart has after a test. *)
Definition word_after (t w : Z) (v : val_state) : Z := if runs v t then w else RESULT_SKIP t 0.

(** A test returns; a test that the options select runs its payload, returns the verdict
    of the status word that the payload leaves and counts it, and a test that they
    exclude touches no hardware, counts nothing and returns SKIP. *)
Lemma entry_word {W : Type} t desc rule (payload : prog (test_state W) unit) v p p' me w :
  0 <= t < 65536 -> options_small v -> 0 <= me < Z.of_nat (length (shared_mem v)) ->
  my_index v = Done (me, v) -> leaves payload p p' me w -> concluded w = true -> (0 < length (shared_mem v))%nat ->
  exists r v' q, os_entry t desc rule payload (mk_test v p) = Done (r, mk_test v' q) /\
    test_outcome t w v v' p p' q r /\ hart_is (Z.eqb (word_after t w v)) (shared_mem v') me.
Proof. unfold word_after.
  intros Ht Ho Hme Hmy Hl Hc Hpos. unfold os_entry.
  destruct (initialize_test_selects t desc 1 me v Ho Hme ltac:(lia) Hmy) as (v0 & E0 & Hi).
  rewrite (bind_done _ _ _ _ _ (on_val_done _ _ p _ _ E0)).
  destruct Hi as (_ & Htot & Hlen & Hskip & _ & Hsame). pose proof Hsame as (Em & Et & _).
  pose proof (my_index_same v v0 me Em Et Hmy) as Hmy0.
  destruct (runs v t) eqn:Er; cbn [Z.eqb negb when ACS_STATUS_PASS ACS_STATUS_SKIP].
  - destruct (Hl v0 Hmy0) as (v1 & E1 & Hs1 & Ht1 & Hw1); [lia|].
    assert (Erun : run_payload payload (mk_test v0 p) = Done (tt, mk_test v1 p')).
    { unfold run_payload. by rewrite (bind_done _ _ _ _ _ (on_val_done _ _ p _ _ Hmy0)). }
    rewrite (bind_done _ _ _ _ _ Erun). pose proof Hs1 as (Em1 & Et1 & _).
    destruct (entry_tail t rule me w v v1 p p' p' Ht) as (r & v' & E & Ho' & Hm'); rewrite ?Er; try done.
    + by apply (my_index_same v0 v1).
    + by transitivity v0.
    + congruence.
    + by exists r, v', p'.
  - destruct (Hskip eq_refl) as [_ Hs]. destruct (skip_concluded t Ht) as [Hc0 Hc1]. cbn [bind ret].
    destruct (entry_tail t rule me (RESULT_SKIP t 0) v v0 p p p Ht) as (r & v' & E & (R1 & R2 & R3) & Hm'); rewrite ?Er; try done.
    exists r, v', p. split; [exact E|]. unfold test_outcome in *. rewrite Er in *. done.
Qed.

Lemma entry_verdict {W : Type} t desc rule (payload : prog (test_state W) unit) v p p' me w :
  0 <= t < 65536 -> options_small v -> 0 <= me < Z.of_nat (length (shared_mem v)) ->
  my_index v = Done (me, v) -> leaves payload p p' me w -> concluded w = true -> (0 < length (shared_mem v))%nat ->
  exists r v' q, os_entry t desc rule payload (mk_test v p) = Done (r, mk_test v' q) /\
    test_outcome t w v v' p p' q r.
Proof.
  intros Ht Ho Hme Hmy Hl Hc Hpos.
  destruct (entry_word t desc rule payload v p p' me w Ht Ho Hme Hmy Hl Hc Hpos) as (r & v' & q & E & Hq & _). by exists r, v', q.
Qed.

(** ** Tests that may stop anywhere

    For a payload that need not return: what a run that returns has left behind.  The
    run itself (options, counters, harts) is the same, and the hart has one of some
    words. *)
Definition same_test {W : Type} (s s' : test_state W) : Prop :=
  same_run (tval s) (tval s') /\ g_bsa_tests_total (tval s') = g_bsa_tests_total (tval s) /\
  length (shared_mem (tval s')) = length (shared_mem (tval s)).
Definition calm {W A : Type} (m : prog (test_state W) A) : Prop := forall s a s', m s = Done (a, s') -> same_test s s'.
Definition has_word {W : Type} (me : Z) (ws : list Z) (s : test_state W) : Prop :=
  exists w, w ∈ ws /\ hart_is (Z.eqb w) (shared_mem (tval s)) me.
Definition ends_with {W A : Type} (me : Z) (ws : list Z) (m : prog (test_state W) A) : Prop :=
  forall s a s', my_index (tval s) = Done (me, tval s) -> m s = Done (a, s') -> same_test s s' /\ has_word me ws s'.

#[export] Instance same_test_preorder {W} : PreOrder (@same_test W).
Proof.
  split; [by intros s; split; [reflexivity|]|]. intros a b c (A1 & A2 & A3) (B1 & B2 & B3).
  split; [by transitivity (tval b)|]. by rewrite B2, B3.
Qed.

Lemma same_test_index {W} (s s' : test_state W) me :
  same_test s s' -> my_index (tval s) = Done (me, tval s) -> my_index (tval s') = Done (me, tval s').
Proof. intros ((Em & Et & _) & _). by apply my_index_same. Qed.

Lemma my_index_pure v i v' : my_index v = Done (i, v') -> v' = v.
Proof.
  unfold my_index, val_hart_get_mpid, val_hart_get_index_mpid, hart_table, bind, gets, deref.
  destruct (g_hart_info_table v) as [t|]; [|done]. unfold ret. by destruct (index_loop _ _ _) as [x| |]; intros [= _ <-].
Qed.

Lemma calm_ret {W A} (a : A) : calm (W := W) (ret a).
Proof. intros s b s' [= _ <-]. reflexivity. Qed.
Lemma calm_bind {W A B} (m : prog (test_state W) A) (k : A -> prog (test_state W) B) :
  calm m -> (forall a, calm (k a)) -> calm (bind m k).
Proof. intros Hm Hk s b s' (a & s1 & E1 & E2)%bind_inv. transitivity s1; [by eapply Hm|by eapply Hk]. Qed.
Lemma calm_pcie {W A} (m : prog (pcie_state W) A) : calm (on_pcie m).
Proof.
  intros [v p] a s' E. unfold on_pcie in E. cbn [tval tpcie] in E. destruct (m p) as [[x q]| |]; [|done|done].
  injection E as _ <-. by split_and!.
Qed.
Lemma calm_index {W} : calm (W := W) (on_val my_index).
Proof.
  intros [v p] a s' E. unfold on_val in E. cbn [tval tpcie] in E. destruct (my_index v) as [[x v']| |] eqn:Ei; [|done|done].
  injection E as _ <-. rewrite (my_index_pure v x v' Ei). reflexivity.
Qed.
Lemma set_status_inv i w v v' : val_set_status i w v = Done (tt, v') -> 0 <= i < Z.of_nat (length (shared_mem v)) ->
  same_run v v' /\ g_bsa_tests_total v' = g_bsa_tests_total v /\ length (shared_mem v') = length (shared_mem v) /\
  hart_is (Z.eqb w) (shared_mem v') i.
Proof.
  intros E Hi. destruct (at_index_lt (shared_mem v) i Hi) as [e He]. rewrite (set_status_spec v i w e He) in E.
  injection E as <-. cbn [upd set_tick shared_mem set_shared_mem]. rewrite length_insert.
  split_and!; [by destruct v|by destruct v|done|]. exists (with_status w e).
  rewrite (at_index_insert _ _ _ _ e He), Z.eqb_refl. split; [done|apply Z.eqb_refl].
Qed.
Lemma set_status_index i w v r : val_set_status i w v = Done r -> 0 <= i < Z.of_nat (length (shared_mem v)).
Proof.
  unfold val_set_status, bind, gets. destruct (at_index (shared_mem v) i) as [e|] eqn:He; [|done].
  intros _. by apply at_index_Some in He as [? _].
Qed.
Lemma calm_set {W} i w : calm (W := W) (on_val (val_set_status i w)).
Proof.
  intros [v p] [] s' E. unfold on_val in E. cbn [tval tpcie] in E.
  destruct (val_set_status i w v) as [[[] v']| |] eqn:Es; [|done|done]. injection E as <-.
  destruct (set_status_inv i w v v' Es (set_status_index i w v _ Es)) as (? & ? & ? & _). by split_and!.
Qed.
Lemma calm_when {W} (b : bool) (m : prog (test_state W) unit) : calm m -> calm (when b m).
Proof. destruct b; [done|intros _; apply calm_ret]. Qed.
Lemma calm_thread {W A B} (l : list B) (body : B -> A -> prog (test_state W) A) a : (forall b x, calm (body b x)) -> calm (thread l body a).
Proof. intros Hb. revert a. induction l as [|b l IH]; intros a; [apply calm_ret|]. by apply calm_bind. Qed.

Lemma ends_bind {W A B} me ws (m : prog (test_state W) A) (k : A -> prog (test_state W) B) :
  calm m -> (forall a, ends_with me ws (k a)) -> ends_with me ws (bind m k).
Proof.
  intros Hm Hk s b s' Hi (a & s1 & E1 & E2)%bind_inv. pose proof (Hm _ _ _ E1) as Hs1.
  destruct (Hk a s1 b s' (same_test_index s s1 me Hs1 Hi) E2) as [Hs2 Hw]. split; [by transitivity s1|done].
Qed.
Lemma ends_index {W B} me ws (k : Z -> prog (test_state W) B) : ends_with me ws (k me) -> ends_with me ws (bind (on_val my_index) k).
Proof.
  intros Hk s b s' Hi (a & s1 & E1 & E2)%bind_inv. destruct s as [v p]. cbn [tval] in Hi.
  rewrite (on_val_done my_index v p me v Hi) in E1. injection E1 as <- <-. by apply (Hk (mk_test v p) b).
Qed.
Lemma ends_set {W} me ws w : w ∈ ws -> ends_with (W := W) me ws (on_val (val_set_status me w)).
Proof.
  intros Hw [v p] [] s' _ E. pose proof (calm_set me w _ _ _ E) as Hs. split; [done|]. exists w. split; [done|].
  unfold on_val in E. cbn [tval tpcie] in E. destruct (val_set_status me w v) as [[[] v']| |] eqn:Es; [|done|done].
  injection E as <-. cbn [tval]. by apply (set_status_inv me w v v' Es (set_status_index me w v _ Es)).
Qed.

(** A loop that is left only after a word was set. *)
Lemma search_with_word {W A B R} me ws (body : B -> A -> prog (test_state W) (R + A)) :
  (forall b x s r s', my_index (tval s) = Done (me, tval s) -> body b x s = Done (r, s') ->
    same_test s s' /\ match r with inl _ => has_word me ws s' | inr _ => True end) ->
  forall l a s r s', my_index (tval s) = Done (me, tval s) -> search_with l body a s = Done (r, s') ->
    same_test s s' /\ match r with inl _ => has_word me ws s' | inr _ => True end.
Proof.
  intros Hb. induction l as [|b l IH]; intros a s r s' Hi E.
  - injection E as <- <-. by split; [reflexivity|].
  - cbn [search_with] in E. apply bind_inv in E as (x & s1 & E1 & E2). destruct (Hb _ _ _ _ _ Hi E1) as [Hs1 Hx].
    destruct x as [y|x]; [by injection E2 as <- <-|].
    destruct (IH x s1 r s' (same_test_index s s1 me Hs1 Hi) E2) as [Hs2 Hr]. split; [by transitivity s1|done].
Qed.

(** A test that returns returns the verdict of one of the words. *)
Lemma entry_words {W : Type} t desc rule (payload : prog (test_state W) unit) v p me ws r s' :
  0 <= t < 65536 -> options_small v -> 0 <= me < Z.of_nat (length (shared_mem v)) -> my_index v = Done (me, v) ->
  ends_with me ws payload -> Forall (fun w => concluded w = true) ws ->
  os_entry t desc rule payload (mk_test v p) = Done (r, s') ->
  if runs v t then exists w, w ∈ ws /\ r = verdict_code w else r = ACS_STATUS_SKIP.
Proof.
  intros Ht Ho Hme Hmy Hl Hc E. unfold os_entry in E.
  destruct (initialize_test_selects t desc 1 me v Ho Hme ltac:(lia) Hmy) as (v0 & E0 & Hi).
  rewrite (bind_done _ _ _ _ _ (on_val_done _ _ p _ _ E0)) in E. destruct Hi as (_ & _ & Hlen & Hskip & _ & Hsame).
  pose proof (my_index_same v v0 me (proj1 Hsame) (proj1 (proj2 Hsame)) Hmy) as Hmy0.
  assert (Hend : forall w s1 q, my_index s1 = Done (me, s1) -> hart_is (Z.eqb w) (shared_mem s1) me -> concluded w = true ->
    (let* st := on_val (val_check_for_error t 1 (Some rule)) in
     on_val (val_report_status 0 (BSA_ACS_END t) None) ;;; ret st) (mk_test s1 q) = Done (r, s') -> r = verdict_code w).
  { intros w s1 q Hm Hw Hcw Ew. destruct (check_one_hart t rule me w s1 Hm Hw Hcw) as (v1 & E1 & _).
    rewrite (bind_done _ _ _ _ _ (on_val_done _ _ q _ _ E1)) in Ew. destruct (end_quiet t Ht v1) as ([] & c & E2).
    rewrite (bind_done _ _ _ _ _ (on_val_done _ _ q _ _ E2)) in Ew. by injection Ew. }
  destruct (runs v t) eqn:Er; cbn [Z.eqb negb when ACS_STATUS_PASS ACS_STATUS_SKIP] in E.
  - apply bind_inv in E as ([] & s1 & E1 & E). unfold run_payload in E1.
    rewrite (bind_done _ _ _ _ _ (on_val_done _ _ p _ _ Hmy0)) in E1.
    destruct (Hl (mk_test v0 p) _ _ Hmy0 E1) as [Hs (w & Hw & Hh)]. exists w. split; [done|]. destruct s1 as [v1 q].
    apply (Hend w v1 q (same_test_index (mk_test v0 p) _ me Hs Hmy0) Hh); [|exact E]. rewrite Forall_forall in Hc. by apply Hc.
  - destruct (Hskip eq_refl) as [_ Hs]. destruct (skip_concluded t Ht) as [Hc0 <-]. cbn [bind ret] in E. by apply (Hend _ v0 p).
Qed.
End Entry.
