(* ===== verification/PcieTests.v ===== *)
(** * The PCIe tests that look at every function

    Models the tests [test_os_p009.c] to [test_os_p025.c] of
    [test_pool/pcie/operating_system/riscv/], which the UEFI application runs: each
    goes through the device table, decides which functions its rule applies to and
    counts the violations.  A check is a program on the PCIe state; [scan] is the loop
    that the tests share, [conclude] their last lines.  Messages are left out; their
    arguments that read registers are kept.  The theorems compare the tests with rules
    stated on the registers of the functions. *)

From S2P Require Import Prelude Status Hart Infra Mmio PcieCfg PcieCap PcieRegs Tests.

Definition ACS_PCIE_TEST_NUM_BASE : Z := 800.
Definition ECID_AER : Z := 0x0001.
Definition ECID_RCECEA : Z := 0x0007.
Definition ECID_ACS : Z := 0x000D.
Definition ECID_SRIOV : Z := 0x0010.
Definition ECID_DPC : Z := 0x001D.
Definition ECID_PTM : Z := 0x001E.
Definition CID_MSI : Z := 0x05.
Definition CID_MSIX : Z := 0x11.
Definition CID_EA : Z := 0x14.
Definition ACSCR_OFFSET : Z := 0x4.
Definition DPC_CTRL_OFFSET : Z := 0x4.
Definition DPC_RP_EXT_OFFSET : Z := 0x5.
Definition DPC_RP_EXT_MASK : Z := 0x1.
Definition EA_ENTRY_TYPE_OFFSET : Z := 8.
Definition EA_ENTRY_TYPE_ENABLE_SHIFT : Z := 31.
Definition EA_ENTRY_TYPE_ENABLE_MASK : Z := 1.
Definition TYPE01_ILR : Z := 0x3c.
Definition TYPE01_IPR_SHIFT : Z := 8.
Definition TYPE1_MAX_BARS : Z := 2.
Definition BAR_MIT_SHIFT : Z := 0.
Definition BAR_MIT_MASK : Z := 0x1.
Definition BAR_MDT_SHIFT : Z := 1.
Definition BAR_MDT_MASK : Z := 0x3.
Definition MMIO : Z := 0.
Definition IO : Z := 1.
Definition BITS_32 : Z := 0.
Definition BITS_64 : Z := 2.
Definition BAR_64_BIT : Z := 0x1.
Definition BAR_32_BIT : Z := 0x0.
Definition RCEC_EA_CAP_OFFSET : Z := 0x0.
Definition RCEC_EA_CAP_VER_SHIFT : Z := 16.
Definition RCEC_EA_BITMAP_OFFSET : Z := 0x4.
Definition RCEC_EA_BUS_OFFSET : Z := 0x8.
Definition RCEC_EA_NEXT_BUS_SHIFT : Z := 8.
Definition RCEC_EA_LAST_BUS_SHIFT : Z := 16.
Definition MIN_PASID_SUPPORT : Z := 20.
Definition PCIE_CAP_ID_END : Z := 0x15.
Definition PCIE_ECAP_ID_END : Z := 0x34.
Definition HB_CLASSCODE : Z := 0x0600.
Definition IOMMU_CLASSCODE : Z := 0x0806.

Definition VAL_EXTRACT_BITS (data start fin : Z) : Z :=
  Z.land (Z.shiftr data start) (Z.shiftl 1 (fin - start + 1) - 1).

Section Checks.
Context {H : Type} `{Hardware H, Uninit, Platform}.
Local Abbreviation P := (prog (pcie_state H)).

(** The functions of the device table. *)
Definition device_list : P (list Z) :=
  let* o := gets g_pcie_bdf_table in
  let* t := deref o in
  let* l := table_entries t in
  ret (bdf <$> l).

(** The loop over the functions: the local variables [L] live on from one function to
    the next; a check tells whether the test runs for the function and how many
    failures it counts. *)
Fixpoint scan {L} (check : Z -> L -> P (L * (bool * Z))) (devs : list Z) (l : L) (test_skip test_fails : Z) : P (Z * Z) :=
  match devs with
  | [] => ret (test_skip, test_fails)
  | b :: devs' =>
      let* r := check b l in
      scan check devs' r.1 (if r.2.1 then 0 else test_skip) (u32 (test_fails + r.2.2))
  end.

(** The status word that a test ends with. *)
Definition conclude (TEST_NUM skip : Z) (r : Z * Z) : Z :=
  if r.1 =? 1 then RESULT_SKIP TEST_NUM skip
  else if negb (r.2 =? 0) then RESULT_FAIL TEST_NUM r.2
  else RESULT_PASS TEST_NUM 1.

Definition device_payload {L} (TEST_NUM skip : Z) (check : Z -> L -> P (L * (bool * Z))) (l0 : L)
    : prog (test_state H) unit :=
  let* hart_index := on_val my_index in
  let* devs := on_pcie device_list in
  let* r := on_pcie (scan check devs l0 1 0) in
  on_val (val_set_status hart_index (conclude TEST_NUM skip r)).

(** A check without variables that live on. *)
Definition no_locals (check : Z -> P (bool * Z)) (b : Z) (_ : unit) : P (unit * (bool * Z)) :=
  let* r := check b in ret (tt, r).

Definition find_ecap (b cid : Z) : P (Z * option Z) := val_pcie_find_capability b PCIE_ECAP cid.
Definition find_cap (b cid : Z) : P (Z * option Z) := val_pcie_find_capability b PCIE_CAP cid.

(** *** Root ports *)

(** [cap_base] is 0 before the first search. *)
Definition check_p010 (bdf : Z) : P (bool * Z) :=
  let* dp_type := val_pcie_device_port_type bdf in
  if negb (dp_type =? RP) then ret (false, 0) else
  let* r := find_ecap bdf ECID_ACS in
  if negb (r.1 =? PCIE_SUCCESS) then ret (true, 1) else
  let* a := val_pcie_read_cfg bdf (u32 (default 0 r.2 + ACSCR_OFFSET)) (uninit "acs_data") in
  let curr_bdf_failed := (if VAL_EXTRACT_BITS a.2 0 0 =? 0 then 1 else 0) + (if VAL_EXTRACT_BITS a.2 1 1 =? 0 then 1 else 0) in
  ret (true, if 0 <? curr_bdf_failed then 1 else 0).

(** The BAR at [index] from the [while] loop: the first memory BAR ends it. *)
Fixpoint has_bar_loop (n : nat) (bdf index : Z) : P Z :=
  match n with
  | O => ret 0
  | S k =>
      if index <? TYPE1_MAX_BARS then
        let* low := val_pcie_read_cfg bdf (TYPE01_BAR + index * 4) 0 in
        if Z.land (Z.shiftr low.2 BAR_MIT_SHIFT) BAR_MIT_MASK =? MMIO then
          (if Z.land (Z.shiftr low.2 BAR_MDT_SHIFT) BAR_MDT_MASK =? BITS_64
           then let* _ := val_pcie_read_cfg bdf (TYPE01_BAR + (index + 1) * 4) 0 in ret 1
           else ret 1)
        else has_bar_loop k bdf (index + 1)
      else ret 0
  end.
Definition check_pcie_rp_has_bar (bdf : Z) : P Z := has_bar_loop 3 bdf 0.

Definition check_p011 (bdf : Z) : P (bool * Z) :=
  let* dp_type := val_pcie_device_port_type bdf in
  if negb (dp_type =? RP) then ret (false, 0) else
  let* has := check_pcie_rp_has_bar bdf in
  if has =? 0 then ret (false, 0) else
  let* r := find_ecap bdf ECID_ACS in
  if negb (r.1 =? PCIE_SUCCESS) then ret (true, 1) else
  let* a := val_pcie_read_cfg bdf (u32 (default 0 r.2 + ACSCR_OFFSET)) (uninit "acs_data") in
  ret (true, if VAL_EXTRACT_BITS a.2 7 7 =? 0 then 1 else 0).

Definition check_p012 (bdf : Z) : P (bool * Z) :=
  let* dp_type := val_pcie_device_port_type bdf in
  if negb ((dp_type =? RP) || (dp_type =? RCiEP)) then ret (false, 0) else
  let* v := val_pcie_read_cfg bdf TYPE01_ILR (uninit "reg_value") in
  let int_pin := VAL_EXTRACT_BITS v.2 TYPE01_IPR_SHIFT (TYPE01_IPR_SHIFT + 7) in
  let* f :=
    if dp_type =? RP then
      find_cap bdf CID_MSI ;;; find_cap bdf CID_MSIX ;;;
      let* r := find_cap bdf CID_MSI in
      if r.1 =? PCIE_CAP_NOT_FOUND then
        let* r := find_cap bdf CID_MSIX in ret (if r.1 =? PCIE_CAP_NOT_FOUND then 1 else 0)
      else ret 0
    else ret 0 in
  ret (true, f + (if (1 <=? int_pin) && (int_pin <=? 4) then 1 else 0)).

Definition check_p013 (bdf : Z) : P (bool * Z) :=
  let* dp_type := val_pcie_device_port_type bdf in
  if negb (dp_type =? RP) then ret (false, 0) else
  let* r := find_ecap bdf ECID_PTM in
  ret (negb (r.1 =? PCIE_CAP_NOT_FOUND), 0).

(** Tests p014 and p015: a capability that every root port must have. *)
Definition check_rp_has (cid bdf : Z) : P (bool * Z) :=
  let* dp_type := val_pcie_device_port_type bdf in
  if negb (dp_type =? RP) then ret (false, 0) else
  let* r := find_ecap bdf cid in
  ret (true, if negb (r.1 =? PCIE_SUCCESS) then 1 else 0).
Definition check_p014 : Z -> P (bool * Z) := check_rp_has ECID_AER.
Definition check_p015 : Z -> P (bool * Z) := check_rp_has ECID_DPC.

Definition check_p016 (bdf : Z) : P (bool * Z) :=
  let* dp_type := val_pcie_device_port_type bdf in
  if negb (dp_type =? RP) then ret (false, 0) else
  let* r := find_ecap bdf ECID_DPC in
  if r.1 =? PCIE_CAP_NOT_FOUND then ret (false, 0) else
  let* v := val_pcie_read_cfg bdf (u32 (default 0 r.2 + DPC_CTRL_OFFSET)) (uninit "reg_value") in
  let dpc_supported := Z.land (Z.shiftr v.2 DPC_RP_EXT_OFFSET) DPC_RP_EXT_MASK in
  ret (true, if negb (dpc_supported =? 1) then 1 else 0).

(** *** Root complex integrated endpoints *)

Definition check_p017 (bdf : Z) : P (bool * Z) :=
  let* dp_type := val_pcie_device_port_type bdf in
  if negb (dp_type =? RCiEP) then ret (false, 0) else
  find_ecap bdf ECID_AER ;;; ret (true, 0).

(** Tests p018, p019 and p023: with one capability there must be another. *)
Definition check_rciep_needs (first : Z) (t : BITFIELD_REGISTER_TYPE) (second bdf : Z) : P (bool * Z) :=
  let* dp_type := val_pcie_device_port_type bdf in
  if negb (dp_type =? RCiEP) then ret (false, 0) else
  let* r := find_ecap bdf first in
  if negb (r.1 =? PCIE_SUCCESS) then ret (false, 0) else
  let* r := val_pcie_find_capability bdf t second in
  ret (true, if negb (r.1 =? PCIE_SUCCESS) then 1 else 0).
Definition check_p018 : Z -> P (bool * Z) := check_rciep_needs ECID_ACS PCIE_ECAP ECID_AER.
Definition check_p019 : Z -> P (bool * Z) := check_rciep_needs ECID_AER PCIE_ECAP ECID_RCECEA.
Definition check_p023 : Z -> P (bool * Z) := check_rciep_needs ECID_SRIOV PCIE_CAP CID_MSIX.

(** The largest PASID width lives on. *)
Definition check_p024 (bdf max_pasids : Z) : P (Z * (bool * Z)) :=
  let* dp_type := val_pcie_device_port_type bdf in
  if negb (dp_type =? RCiEP) then ret (max_pasids, (false, 0)) else
  let* r := val_pcie_get_max_pasid_width bdf max_pasids in
  if r.1 =? PCIE_CAP_NOT_FOUND then ret (r.2, (false, 0)) else
  if negb (r.1 =? 0) then ret (r.2, (true, 1)) else
  ret (r.2, (true, if (0 <? r.2) && (r.2 <? MIN_PASID_SUPPORT) then 1 else 0)).

(** The answer and [*bar_type]. *)
Fixpoint bar_type_loop (n : nat) (bdf index bar_type : Z) : P (Z * Z) :=
  match n with
  | O => ret (0, bar_type)
  | S k =>
      if index <? TYPE1_MAX_BARS then
        let* low := val_pcie_read_cfg bdf (TYPE01_BAR + index * 4) 0 in
        if Z.land (Z.shiftr low.2 BAR_MIT_SHIFT) BAR_MIT_MASK =? MMIO then
          let mdt := Z.land (Z.shiftr low.2 BAR_MDT_SHIFT) BAR_MDT_MASK in
          if mdt =? BITS_64 then
            let* _ := val_pcie_read_cfg bdf (TYPE01_BAR + (index + 1) * 4) 0 in ret (1, BAR_64_BIT)
          else if mdt =? BITS_32 then ret (1, BAR_32_BIT)
          else ret (1, bar_type)
        else bar_type_loop k bdf (index + 1) bar_type
      else ret (0, bar_type)
  end.
Definition check_pcie_has_bar (bdf bar_type : Z) : P (Z * Z) := bar_type_loop 3 bdf 0 bar_type.

(** [bar_type] lives on. *)
Definition check_p025 (bdf bar_type : Z) : P (Z * (bool * Z)) :=
  let* dp_type := val_pcie_device_port_type bdf in
  if negb (dp_type =? RCiEP) then ret (bar_type, (false, 0)) else
  let* r := check_pcie_has_bar bdf bar_type in
  if r.1 =? 0 then ret (r.2, (false, 0)) else
  ret (r.2, (true, if negb (r.2 =? BAR_64_BIT) then 1 else 0)).

(** *** Root ports and integrated endpoints *)

Fixpoint iobar_loop (n : nat) (bdf index : Z) : P Z :=
  match n with
  | O => ret 0
  | S k =>
      if index <? TYPE1_MAX_BARS then
        let* low := val_pcie_read_cfg bdf (TYPE01_BAR + index * 4) 0 in
        if Z.land (Z.shiftr low.2 BAR_MIT_SHIFT) BAR_MIT_MASK =? IO then ret 1 else iobar_loop k bdf (index + 1)
      else ret 0
  end.
Definition check_pcie_has_iobar (bdf : Z) : P Z := iobar_loop 3 bdf 0.

Definition check_p022 (bdf : Z) : P (bool * Z) :=
  let* dp_type := val_pcie_device_port_type bdf in
  if negb ((dp_type =? RCiEP) || (dp_type =? RP)) then ret (false, 0) else
  let* io := check_pcie_has_iobar bdf in
  if negb (io =? 0) then ret (true, 1) else
  let* r := find_cap bdf CID_EA in
  if r.1 =? PCIE_SUCCESS then ret (true, 1) else
  let* v := val_pcie_read_cfg bdf TYPE01_ILR (uninit "reg_value") in
  let int_pin := VAL_EXTRACT_BITS v.2 TYPE01_IPR_SHIFT (TYPE01_IPR_SHIFT + 7) in
  ret (true, if negb (int_pin =? 0) then 1 else 0).

(** The two loops of [check_pcie_cfg_space]: [hi] is the last valid identifier. *)
Fixpoint cid_loop (fuel : nat) (t : BITFIELD_REGISTER_TYPE) (bdf hi next_cap reg_value err : Z) : P Z :=
  match fuel with
  | O => diverge
  | S k =>
      if next_cap =? 0 then ret err else
      let* r := val_pcie_read_cfg bdf next_cap reg_value in
      let next := match t with PCIE_CAP => VAL_EXTRACT_BITS r.2 8 15 | _ => VAL_EXTRACT_BITS r.2 20 31 end in
      let cid := match t with PCIE_CAP => VAL_EXTRACT_BITS r.2 0 7 | _ => VAL_EXTRACT_BITS r.2 0 15 end in
      cid_loop k t bdf hi next r.2 (if hi <? cid then 1 else err)
  end.
Definition check_pcie_cfg_space (bdf : Z) : P Z :=
  let* r := val_pcie_read_cfg bdf TYPE01_CPR (uninit "reg_value") in
  let next_cap := Z.shiftl (VAL_EXTRACT_BITS r.2 2 7) 2 in
  let* err := cid_loop (cap_fuel PCIE_CAP) PCIE_CAP bdf PCIE_CAP_ID_END next_cap r.2 0 in
  cid_loop (cap_fuel PCIE_ECAP) PCIE_ECAP bdf PCIE_ECAP_ID_END PCIE_ECAP_START (uninit "reg_value") err.

Definition check_p021 (bdf : Z) : P (bool * Z) :=
  let* dp_type := val_pcie_device_port_type bdf in
  let* r := val_pcie_read_cfg bdf TYPE01_RIDR (uninit "reg_value") in
  let class_code := VAL_EXTRACT_BITS r.2 16 31 in
  if (dp_type =? RP) || (dp_type =? RCiEP) || (class_code =? HB_CLASSCODE) || (class_code =? IOMMU_CLASSCODE) then
    let* bad := check_pcie_cfg_space bdf in
    ret (true, if negb (bad =? 0) then 1 else 0)
  else ret (false, 0).

(** *** Event collectors *)

(** One associated function: [Some 0] is the [return 0]. *)
Definition check_associated (dev_bdf : Z) : P (option Z) :=
  let* dp := val_pcie_device_port_type dev_bdf in
  if dp =? RCiEP then
    let* r := find_ecap dev_bdf ECID_AER in
    ret (if negb (r.1 =? PCIE_SUCCESS) then Some 0 else None)
  else ret None.

Definition check_associated_rciep_support_aer (bdf bit_map next_bus last_bus : Z) : P Z :=
  let rcec_seg_num := PCIE_EXTRACT_BDF_SEG bdf in
  let rcec_bus_num := PCIE_EXTRACT_BDF_BUS bdf in
  let devs := Z.of_nat <$> seq 0 (Z.to_nat PCIE_MAX_DEV) in
  let* r := search devs (fun index =>
    if negb (Z.land (u32 (Z.shiftl 1 index)) bit_map =? 0)
    then check_associated (PCIE_CREATE_BDF rcec_seg_num rcec_bus_num index 0) else ret None) in
  match r with
  | Some x => ret x
  | None =>
      if next_bus <=? last_bus then
        let* r := search ((fun k => next_bus + Z.of_nat k) <$> seq 0 (Z.to_nat (last_bus - next_bus + 1))) (fun bus_num =>
          search devs (fun index => check_associated (PCIE_CREATE_BDF rcec_seg_num bus_num index 0))) in
        ret (default 1 r)
      else ret 1
  end.

(** The two bus numbers live on; the registers of the capability are read at offsets
    of the configuration space. *)
Definition check_p020 (bdf : Z) (buses : Z * Z) : P ((Z * Z) * (bool * Z)) :=
  let* dp_type := val_pcie_device_port_type bdf in
  if negb (dp_type =? RCEC) then ret (buses, (false, 0)) else
  let* r := find_ecap bdf ECID_RCECEA in
  if negb (r.1 =? PCIE_SUCCESS) then ret (buses, (true, 1)) else
  let* v := val_pcie_read_cfg bdf RCEC_EA_CAP_OFFSET (uninit "reg_value") in
  let rcec_ver := VAL_EXTRACT_BITS v.2 RCEC_EA_CAP_VER_SHIFT (RCEC_EA_CAP_VER_SHIFT + 4) in
  let* bitmap := val_pcie_read_cfg bdf RCEC_EA_BITMAP_OFFSET (uninit "rcec_bitmap") in
  let* buses :=
    if 2 <? rcec_ver then
      let* w := val_pcie_read_cfg bdf RCEC_EA_BUS_OFFSET v.2 in
      ret (VAL_EXTRACT_BITS w.2 RCEC_EA_NEXT_BUS_SHIFT (RCEC_EA_NEXT_BUS_SHIFT + 8),
           VAL_EXTRACT_BITS w.2 RCEC_EA_LAST_BUS_SHIFT (RCEC_EA_LAST_BUS_SHIFT + 8))
    else ret buses in
  if (u32 (Z.shiftl 1 (PCIE_EXTRACT_BDF_DEV bdf)) =? bitmap.2) && (buses.1 =? 0xFF) && (buses.2 =? 0) then ret (buses, (true, 0))
  else
    let* ok := check_associated_rciep_support_aer bdf bitmap.2 buses.1 buses.2 in
    ret (buses, (true, if ok =? 0 then 1 else 0)).

(** *** The test that skips every second function *)

(** Both reads of the table advance the index; [cap_base] lives on. *)
Fixpoint loop_p009 (fuel : nat) (t : pcie_device_bdf_table) (tbl_index cap_base test_skip test_fails : Z) : P (Z * Z) :=
  match fuel with
  | O => diverge
  | S k =>
      if tbl_index <? num_entries t then
        let* _ := deref (at_index (device t) tbl_index) in
        let* e := deref (at_index (device t) (tbl_index + 1)) in
        let tbl_index := u32 (tbl_index + 2) in
        let* dp_type := val_pcie_device_port_type (bdf e) in
        if negb (dp_type =? RP) then loop_p009 k t tbl_index cap_base test_skip test_fails else
        let* r := find_cap (bdf e) CID_EA in
        let cap_base := default cap_base r.2 in
        if r.1 =? PCIE_CAP_NOT_FOUND then loop_p009 k t tbl_index cap_base 0 test_fails else
        let* v := val_pcie_read_cfg (bdf e) (u32 (cap_base + EA_ENTRY_TYPE_OFFSET)) (uninit "reg_value") in
        let enable_value := Z.land (Z.shiftr v.2 EA_ENTRY_TYPE_ENABLE_SHIFT) EA_ENTRY_TYPE_ENABLE_MASK in
        loop_p009 k t tbl_index cap_base 0 (if negb (enable_value =? 0) then u32 (test_fails + 1) else test_fails)
      else ret (test_skip, test_fails)
  end.

Definition payload_p009 : prog (test_state H) unit :=
  let TEST_NUM := ACS_PCIE_TEST_NUM_BASE + 9 in
  let* hart_index := on_val my_index in
  let* o := on_pcie (gets g_pcie_bdf_table) in
  let* num_ecam := on_pcie (val_pcie_get_info PCIE_INFO_NUM_ECAM 0) in
  if num_ecam =? 0 then on_val (val_set_status hart_index (RESULT_SKIP TEST_NUM 1)) else
  let* t := deref o in
  let* r := on_pcie (loop_p009 (S (Z.to_nat (num_entries t))) t 0 (uninit "cap_base") 1 0) in
  on_val (val_set_status hart_index (conclude TEST_NUM 1 r)).
(** *** The tests *)

Definition payload_p010 : prog (test_state H) unit := device_payload (ACS_PCIE_TEST_NUM_BASE + 10) 2 (no_locals check_p010) tt.
Definition payload_p011 : prog (test_state H) unit := device_payload (ACS_PCIE_TEST_NUM_BASE + 11) 2 (no_locals check_p011) tt.
Definition payload_p012 : prog (test_state H) unit := device_payload (ACS_PCIE_TEST_NUM_BASE + 12) 2 (no_locals check_p012) tt.
Definition payload_p013 : prog (test_state H) unit := device_payload (ACS_PCIE_TEST_NUM_BASE + 13) 0 (no_locals check_p013) tt.
Definition payload_p014 : prog (test_state H) unit := device_payload (ACS_PCIE_TEST_NUM_BASE + 14) 2 (no_locals check_p014) tt.
Definition payload_p015 : prog (test_state H) unit := device_payload (ACS_PCIE_TEST_NUM_BASE + 15) 2 (no_locals check_p015) tt.
Definition payload_p016 : prog (test_state H) unit := device_payload (ACS_PCIE_TEST_NUM_BASE + 16) 2 (no_locals check_p016) tt.
Definition payload_p017 : prog (test_state H) unit := device_payload (ACS_PCIE_TEST_NUM_BASE + 17) 2 (no_locals check_p017) tt.
Definition payload_p018 : prog (test_state H) unit := device_payload (ACS_PCIE_TEST_NUM_BASE + 18) 2 (no_locals check_p018) tt.
Definition payload_p019 : prog (test_state H) unit := device_payload (ACS_PCIE_TEST_NUM_BASE + 19) 2 (no_locals check_p019) tt.
Definition payload_p020 : prog (test_state H) unit := device_payload (ACS_PCIE_TEST_NUM_BASE + 20) 2 check_p020 (uninit "rcec_next_bus", uninit "rcec_last_bus").
Definition payload_p021 : prog (test_state H) unit := device_payload (ACS_PCIE_TEST_NUM_BASE + 21) 1 (no_locals check_p021) tt.
Definition payload_p022 : prog (test_state H) unit := device_payload (ACS_PCIE_TEST_NUM_BASE + 22) 2 (no_locals check_p022) tt.
Definition payload_p023 : prog (test_state H) unit := device_payload (ACS_PCIE_TEST_NUM_BASE + 23) 2 (no_locals check_p023) tt.
Definition payload_p024 : prog (test_state H) unit := device_payload (ACS_PCIE_TEST_NUM_BASE + 24) 2 check_p024 0.
Definition payload_p025 : prog (test_state H) unit := device_payload (ACS_PCIE_TEST_NUM_BASE + 25) 2 check_p025 (uninit "bar_type").

Context `{SecondaryHarts, CpuArchProtocol}.
Definition os_p009_entry : prog (test_state H) Z :=
  os_entry (ACS_PCIE_TEST_NUM_BASE + 9) "Check EA Capability                   " "ME_MMS_080_010" payload_p009.
Definition os_p010_entry : prog (test_state H) Z :=
  os_entry (ACS_PCIE_TEST_NUM_BASE + 10) "Check RP support ACS......" "ME_ACS_010_010" payload_p010.
Definition os_p011_entry : prog (test_state H) Z :=
  os_entry (ACS_PCIE_TEST_NUM_BASE + 11) "Check RP support Enhanced ACS......" "ME_ACS_020_010" payload_p011.
Definition os_p012_entry : prog (test_state H) Z :=
  os_entry (ACS_PCIE_TEST_NUM_BASE + 12) "Check MSI support for PCIe RP and RCiEP......" "ME_MSI_010_010" payload_p012.
Definition os_p013_entry : prog (test_state H) Z :=
  os_entry (ACS_PCIE_TEST_NUM_BASE + 13) "Check PTM support for PCIe RP......" "OE_PTM_010_010" payload_p013.
Definition os_p014_entry : prog (test_state H) Z :=
  os_entry (ACS_PCIE_TEST_NUM_BASE + 14) "Check RP Adv Error Report......" "ME_AER_010_010" payload_p014.
Definition os_p015_entry : prog (test_state H) Z :=
  os_entry (ACS_PCIE_TEST_NUM_BASE + 15) "Check RP DPC capability......" "ME_AER_020_010" payload_p015.
Definition os_p016_entry : prog (test_state H) Z :=
  os_entry (ACS_PCIE_TEST_NUM_BASE + 16) "Check RP Extensions for DPC......" "ME_AER_030_010" payload_p016.
Definition os_p017_entry : prog (test_state H) Z :=
  os_entry (ACS_PCIE_TEST_NUM_BASE + 17) "Check RCiEP Adv Error Report......" "OE_AER_040_010" payload_p017.
Definition os_p018_entry : prog (test_state H) Z :=
  os_entry (ACS_PCIE_TEST_NUM_BASE + 18) "Check RCiEP support ACS and AER capability       " "ME_AER_050_010, ME_SID_090_010" payload_p018.
Definition os_p019_entry : prog (test_state H) Z :=
  os_entry (ACS_PCIE_TEST_NUM_BASE + 19) "Check RCiEP support AER and RCEC capability......" "ME_AER_060_010" payload_p019.
Definition os_p020_entry : prog (test_state H) Z :=
  os_entry (ACS_PCIE_TEST_NUM_BASE + 20) "Check RCEC device is fully function and correctly associated to RCiEP          " "ME_AER_070_010, ME_SID_100_010" payload_p020.
Definition os_p021_entry : prog (test_state H) Z :=
  os_entry (ACS_PCIE_TEST_NUM_BASE + 21) "Vendor specific data is PCIe compliant      " "MF_VSR_010_010" payload_p021.
Definition os_p022_entry : prog (test_state H) Z :=
  os_entry (ACS_PCIE_TEST_NUM_BASE + 22) "Check RP and RCiEP disable I/O BAR and int pin      " "MF_SID_020_010" payload_p022.
Definition os_p023_entry : prog (test_state H) Z :=
  os_entry (ACS_PCIE_TEST_NUM_BASE + 23) "Check RCiEP support SR-IOV and MSI-X capability       " "ME_SID_040_010" payload_p023.
Definition os_p024_entry : prog (test_state H) Z :=
  os_entry (ACS_PCIE_TEST_NUM_BASE + 24) "Check RCiEP PASID capability          " "ME_SID_050_010" payload_p024.
Definition os_p025_entry : prog (test_state H) Z :=
  os_entry (ACS_PCIE_TEST_NUM_BASE + 25) "Check RCiEP support 64 bit MMIO bar          " "ME_SID_070_010" payload_p025.
End Checks.

(** ** The rules, on the registers of a function *)

(** Which functions a rule is about, and how many violations it finds at one. *)
Record rule := mk_rule { applies : Z -> bool; violations : Z -> Z }.

Definition unless (c : bool) : Z := if c then 0 else 1.

(** The verdict that a rule gives for a list of functions. *)
Definition satisfied (r : rule) (devs : list Z) : bool :=
  forallb (fun b => negb (applies r b) || (violations r b =? 0)) devs.
Definition rule_code (r : rule) (devs : list Z) : Z :=
  if negb (existsb (applies r) devs) then ACS_STATUS_SKIP else if satisfied r devs then ACS_STATUS_PASS else ACS_STATUS_FAIL.
Definition found_at (r : rule) (b : Z) : Z := if applies r b then violations r b else 0.
Definition total (r : rule) (devs : list Z) : Z := foldr (fun b n => found_at r b + n) 0 devs.

Lemma total_nonneg r devs : (forall b, 0 <= found_at r b <= 2) -> 0 <= total r devs <= 2 * Z.of_nat (length devs).
Proof. intros Hr. induction devs as [|b devs IH]; simpl; [lia|]. specialize (Hr b). lia. Qed.

Lemma satisfied_total r devs : (forall b, 0 <= found_at r b <= 2) -> satisfied r devs = (total r devs =? 0).
Proof.
  intros Hr. induction devs as [|b devs IH]; [done|]. unfold satisfied in *. cbn [forallb total foldr]. rewrite IH.
  pose proof (total_nonneg r devs Hr). specialize (Hr b). unfold total in *. unfold found_at in *. destruct (applies r b); cbn [negb orb].
  - destruct (Z.eqb_spec (violations r b) 0), (Z.eqb_spec (foldr (fun b n => (if applies r b then violations r b else 0) + n) 0 devs) 0);
      cbn [andb]; symmetry; first [apply Z.eqb_eq; lia|apply Z.eqb_neq; lia].
  - by rewrite Z.add_0_l.
Qed.

Definition word_of (n skip : Z) (r : rule) (devs : list Z) : Z :=
  conclude n skip (if existsb (applies r) devs then 0 else 1, total r devs).

Lemma word_of_code n skip r devs : (forall b, 0 <= found_at r b <= 2) -> 0 <= n < 65536 -> 0 <= skip < 4096 ->
  2 * Z.of_nat (length devs) < 4096 ->
  concluded (word_of n skip r devs) = true /\ verdict_code (word_of n skip r devs) = rule_code r devs.
Proof.
  intros Hr Hn Hs Hd. pose proof (total_nonneg r devs Hr). unfold word_of, conclude, rule_code. rewrite (satisfied_total r devs Hr). cbn [fst snd].
  unfold concluded, verdict_code, IS_TEST_PASS, IS_TEST_FAIL, IS_TEST_SKIP, RESULT_SKIP, RESULT_FAIL, RESULT_PASS.
  destruct (existsb (applies r) devs); cbn [negb]; [change (0 =? 1) with false|rewrite Z.eqb_refl]; cbv iota.
  - destruct (total r devs =? 0); cbn [negb].
    + by rewrite (state_of_word TEST_PASS_VAL n 1) by (unfold TEST_PASS_VAL; lia).
    + by rewrite (state_of_word TEST_FAIL_VAL n (total r devs)) by (unfold TEST_FAIL_VAL; lia).
  - by rewrite (state_of_word TEST_SKIP_VAL n skip) by (unfold TEST_SKIP_VAL; lia).
Qed.

Section Rules.
Context {H : Type} `{RegisterFile H, Uninit, Platform}.
(** The capability lists of the functions: the offsets in order. *)
Context (s : pcie_state H) (bs : list PCIE_INFO_BLOCK) (chain : BITFIELD_REGISTER_TYPE -> Z -> list Z).

Definition dword (b off : Z) : Z := word s bs b off.
Definition cap (t : BITFIELD_REGISTER_TYPE) (cid b : Z) : option Z := (search_result s bs b t cid (chain t b)).2.
Definition has (t : BITFIELD_REGISTER_TYPE) (cid b : Z) : bool := match cap t cid b with Some _ => true | None => false end.
(** Bit [i] of the register at [off] of an extended capability. *)
Definition ext_bit (cid off i b : Z) : bool :=
  match cap PCIE_ECAP cid b with Some o => Z.testbit (dword b (o + off)) i | None => false end.
(** The type of the device or port, from the PCI Express capability. *)
Definition port (b : Z) : Z :=
  let kind := 2 ^ (dword b (default 0 (cap PCIE_CAP CID_PCIECS b)) / 2 ^ 20 mod 16) in
  if pal_pcie_is_onchip_peripheral b =? 0 then kind
  else if kind =? EP then iEP_EP else if kind =? RP then iEP_RP else kind.
Definition is_rp (b : Z) : bool := port b =? RP.
Definition is_rciep (b : Z) : bool := port b =? RCiEP.
Definition pin (b : Z) : Z := dword b 0x3c / 2 ^ 8 mod 2 ^ 8.
Definition bar (b i : Z) : Z := dword b (0x10 + i * 4).
Definition memory_bar (b i : Z) : bool := negb (Z.testbit (bar b i) 0).
Definition has_memory_bar (b : Z) : bool := memory_bar b 0 || memory_bar b 1.
Definition bar_kind (b i : Z) : Z := bar b i / 2 mod 4.
Definition first_memory_bar (b : Z) : Z := if memory_bar b 0 then 0 else 1.
Definition pasid_width (b : Z) : Z :=
  match cap PCIE_ECAP ECID_PASID b with Some o => dword b (o + 4) / 2 ^ 8 mod 2 ^ 5 | None => 0 end.
(** Every identifier of a list is at most [hi]. *)
Definition ids_below (t : BITFIELD_REGISTER_TYPE) (hi b : Z) : bool := forallb (fun o => cap_id t (dword b o) <=? hi) (chain t b).
Definition class_of (b : Z) : Z := dword b 8 / 2 ^ 16.

(** A root port has ACS with source validation and translation blocking. *)
Definition rule_p010 : rule := mk_rule is_rp (fun b => unless (ext_bit ECID_ACS 4 0 b && ext_bit ECID_ACS 4 1 b)).
(** A root port with a memory BAR has enhanced ACS. *)
Definition rule_p011 : rule := mk_rule (fun b => is_rp b && has_memory_bar b) (fun b => unless (ext_bit ECID_ACS 4 7 b)).
(** A root port has MSI or MSI-X; neither it nor an integrated endpoint has a pin. *)
Definition rule_p012 : rule := mk_rule (fun b => is_rp b || is_rciep b)
  (fun b => unless (negb (is_rp b) || has PCIE_CAP CID_MSI b || has PCIE_CAP CID_MSIX b) + unless (negb ((1 <=? pin b) && (pin b <=? 4)))).
(** A root port may have PTM. *)
Definition rule_p013 : rule := mk_rule (fun b => is_rp b && has PCIE_ECAP ECID_PTM b) (fun _ => 0).
Definition rule_p014 : rule := mk_rule is_rp (fun b => unless (has PCIE_ECAP ECID_AER b)).
Definition rule_p015 : rule := mk_rule is_rp (fun b => unless (has PCIE_ECAP ECID_DPC b)).
(** A root port with DPC has the extensions. *)
Definition rule_p016 : rule := mk_rule (fun b => is_rp b && has PCIE_ECAP ECID_DPC b) (fun b => unless (ext_bit ECID_DPC 4 5 b)).
(** An integrated endpoint: nothing is asked of it.  The comment in the loop of the test,
    "If AER Not Supported, Fail.", asks for AER. *)
Definition rule_p017 : rule := mk_rule is_rciep (fun _ => 0).
Definition comment_p017 : rule := mk_rule is_rciep (fun b => unless (has PCIE_ECAP ECID_AER b)).
Definition rule_p018 : rule := mk_rule (fun b => is_rciep b && has PCIE_ECAP ECID_ACS b) (fun b => unless (has PCIE_ECAP ECID_AER b)).
Definition rule_p019 : rule := mk_rule (fun b => is_rciep b && has PCIE_ECAP ECID_AER b) (fun b => unless (has PCIE_ECAP ECID_RCECEA b)).
(** Ports, integrated endpoints, host bridges and IOMMUs have known capabilities only. *)
Definition rule_p021 : rule := mk_rule (fun b => is_rp b || is_rciep b || (class_of b =? HB_CLASSCODE) || (class_of b =? IOMMU_CLASSCODE))
  (fun b => unless (ids_below PCIE_CAP 0x15 b && ids_below PCIE_ECAP 0x34 b)).
(** No I/O BAR among the first two, no enhanced allocation, no pin. *)
Definition rule_p022 : rule := mk_rule (fun b => is_rciep b || is_rp b)
  (fun b => unless (memory_bar b 0 && memory_bar b 1 && negb (has PCIE_CAP CID_EA b) && (pin b =? 0))).
Definition rule_p023 : rule := mk_rule (fun b => is_rciep b && has PCIE_ECAP ECID_SRIOV b) (fun b => unless (has PCIE_CAP CID_MSIX b)).
(** A PASID width that is not 0 is at least 20. *)
Definition rule_p024 : rule := mk_rule (fun b => is_rciep b && has PCIE_ECAP ECID_PASID b)
  (fun b => unless ((pasid_width b =? 0) || (20 <=? pasid_width b))).
(** The first memory BAR, of the first two BARs, has 64 bits. *)
Definition rule_p025 : rule := mk_rule (fun b => is_rciep b && has_memory_bar b)
  (fun b => unless (bar_kind b (first_memory_bar b) =? 2)).

(** A function that answers: its capability lists end, it has the PCI Express
    capability, its registers lie in the configuration space, and a memory BAR has 32
    or 64 bits. *)
Record function_ok (b : Z) : Prop := {
  fo_mapped : mapped bs b;
  fo_answers : dword b TYPE01_CPR <> PCIE_UNKNOWN_RESPONSE;
  fo_aligned : dword b TYPE01_CPR mod 4 = 0;
  fo_chain : forall t, t <> HEADER -> cap_chain s bs b t (cap_start s bs b t) (chain t b);
  fo_express : is_Some (cap PCIE_CAP CID_PCIECS b);
  fo_room : forall o, o ∈ chain PCIE_ECAP b -> o <= 4080;
  fo_bars : forall i, i = 0 \/ i = 1 -> memory_bar b i = true -> bar_kind b i = 0 \/ bar_kind b i = 2 }.

(** ** What the steps of a check return *)

Context (Hecam : has_ecams s bs).

Definition found (o : option Z) : Z := match o with Some _ => PCIE_SUCCESS | None => PCIE_CAP_NOT_FOUND end.

Lemma find_done b t cid : function_ok b -> t <> HEADER ->
  val_pcie_find_capability b t cid s = Done ((found (cap t cid b), cap t cid b), s).
Proof.
  intros Hb Ht. rewrite (find_cap_chain s bs b Hecam (fo_mapped b Hb) t cid (chain t b) Ht);
    [|intros _; apply (fo_answers b Hb)|by apply (fo_chain b Hb)].
  unfold cap, search_result. by destruct (find_first _ _ _) as [[]|].
Qed.

Lemma read_done b off d : function_ok b -> 0 <= off < 4096 -> val_pcie_read_cfg b off d s = Done ((0, dword b off), s).
Proof. intros Hb Ho. apply (read_cfg_spec s bs b off d Hecam (fo_mapped b Hb) Ho). Qed.

Lemma cap_in t cid b o : cap t cid b = Some o -> o ∈ chain t b.
Proof.
  unfold cap. destruct (search_result s bs b t cid (chain t b)) as [st x] eqn:E. cbn. intros ->.
  by eapply search_result_in.
Qed.

Lemma cap_range t cid b o : function_ok b -> t <> HEADER -> cap t cid b = Some o -> 0 < o < cap_limit t.
Proof.
  intros Hb Ht Ho%cap_in. apply (chain_range s bs b t _ _ (fo_chain b Hb t Ht)); [|done].
  destruct t; [done| |vm_compute; by split]. unfold cap_start, cap_limit. rewrite land_255. lia.
Qed.

Lemma ecap_read b cid o off d : function_ok b -> cap PCIE_ECAP cid b = Some o -> 0 <= off <= 12 ->
  val_pcie_read_cfg b (u32 (o + off)) d s = Done ((0, dword b (o + off)), s).
Proof.
  intros Hb Ho Hoff. pose proof (cap_range PCIE_ECAP cid b o Hb ltac:(discriminate) Ho) as Hr. unfold cap_limit in Hr. pose proof (fo_room b Hb o (cap_in _ _ _ _ Ho)).
  rewrite u32_small by lia. apply read_done; [done|lia].
Qed.

Lemma port_done b : function_ok b -> val_pcie_device_port_type b s = Done (port b, s).
Proof.
  intros Hb. unfold val_pcie_device_port_type, port. destruct (fo_express b Hb) as [o Ho].
  pose proof (cap_range PCIE_CAP CID_PCIECS b o Hb ltac:(discriminate) Ho) as Hr. unfold cap_limit in Hr.
  assert (E : find_pciecs b s = Done (o, s)).
  { unfold find_pciecs. by rewrite (bind_done _ _ _ _ _ (find_done b PCIE_CAP CID_PCIECS Hb ltac:(discriminate))), Ho. }
  rewrite (bind_done _ _ _ _ _ E), Ho. cbn [default].
  unfold CIDR_OFFSET. rewrite u32_small by lia. rewrite (bind_done _ _ _ _ _ (read_done b (o + 0) _ Hb ltac:(lia))).
  rewrite Z.add_0_r. cbn [fst snd]. rewrite Z.eqb_refl. cbn [negb].
  change ((PCIECR_OFFSET - 0) * 8 + PCIECR_DPT_SHIFT) with 20.
  change 0xf with (Z.ones 4). rewrite Z.land_ones, Z.shiftr_div_pow2, Z.shiftl_1_l by lia.
  change (2 ^ 4) with 16. destruct (pal_pcie_is_onchip_peripheral b =? 0); cbn [negb]; [done|].
  set (k := 2 ^ _). by destruct (k =? EP), (k =? RP).
Qed.

Lemma extract_one w i : 0 <= i -> (VAL_EXTRACT_BITS w i i =? 0) = negb (Z.testbit w i).
Proof.
  intros Hi. unfold VAL_EXTRACT_BITS. replace (i - i + 1) with 1 by lia. change (Z.shiftl 1 1 - 1) with (Z.ones 1).
  rewrite Z.land_ones, Z.shiftr_div_pow2, Z.testbit_eqb by lia. change (2 ^ 1) with 2.
  pose proof (Z.mod_pos_bound (w / 2 ^ i) 2). destruct (Z.eqb_spec (w / 2 ^ i mod 2) 0), (Z.eqb_spec (w / 2 ^ i mod 2) 1); lia.
Qed.

Lemma land_one w i : 0 <= i -> Z.land (Z.shiftr w i) 1 = Z.b2z (Z.testbit w i).
Proof.
  intros Hi. change 1 with (Z.ones 1). rewrite Z.land_ones, Z.shiftr_div_pow2 by lia. by rewrite Z.testbit_spec' by lia.
Qed.

Lemma extract_field w lo hi : 0 <= lo <= hi -> VAL_EXTRACT_BITS w lo hi = w / 2 ^ lo mod 2 ^ (hi - lo + 1).
Proof.
  intros Hl. unfold VAL_EXTRACT_BITS. rewrite Z.shiftl_1_l. replace (2 ^ (hi - lo + 1) - 1) with (Z.ones (hi - lo + 1)).
  - by rewrite Z.land_ones, Z.shiftr_div_pow2 by lia.
  - rewrite Z.ones_equiv. lia.
Qed.

Lemma found_success t cid b : (found (cap t cid b) =? PCIE_SUCCESS) = has t cid b.
Proof. unfold has. by destruct (cap t cid b). Qed.
Lemma found_missing t cid b : (found (cap t cid b) =? PCIE_CAP_NOT_FOUND) = negb (has t cid b).
Proof. unfold has. by destruct (cap t cid b). Qed.

(** ** The checks decide the rules *)

(** On a function that answers, the check finds what the rule says and changes nothing. *)
Definition decides {L} (check : Z -> L -> prog (pcie_state H) (L * (bool * Z))) (r : rule) : Prop :=
  forall b l, function_ok b -> exists l', check b l s = Done ((l', (applies r b, found_at r b)), s).
Definition decides0 (check : Z -> prog (pcie_state H) (bool * Z)) (r : rule) : Prop :=
  forall b, function_ok b -> check b s = Done ((applies r b, found_at r b), s).

Lemma decides_no_locals check r : decides0 check r -> decides (no_locals check) r.
Proof. intros Hc b [] Hb. exists tt. unfold no_locals. by rewrite (bind_done _ _ _ _ _ (Hc b Hb)). Qed.

(** One step of a check. *)
Ltac step Hb :=
  lazymatch goal with
  | |- bind (val_pcie_device_port_type _) _ _ = _ => rewrite (bind_done _ _ _ _ _ (port_done _ Hb))
  | |- bind (find_ecap _ ?c) _ _ = _ => rewrite (bind_done _ _ _ _ _ (find_done _ PCIE_ECAP c Hb ltac:(discriminate)))
  | |- bind (find_cap _ ?c) _ _ = _ => rewrite (bind_done _ _ _ _ _ (find_done _ PCIE_CAP c Hb ltac:(discriminate)))
  | |- bind (val_pcie_find_capability _ ?t ?c) _ _ = _ => rewrite (bind_done _ _ _ _ _ (find_done _ t c Hb ltac:(discriminate)))
  | |- bind (val_pcie_read_cfg _ ?o _) _ _ = _ => rewrite (bind_done _ _ _ _ _ (read_done _ o _ Hb ltac:(vm_compute; by split)))
  end; cbn [fst snd]; rewrite ?found_success, ?found_missing.
Ltac begin_check Hb := intros ? Hb; unfold found_at; cbn [applies violations].

Lemma p010_decides : decides0 check_p010 rule_p010.
Proof.
  begin_check Hb. unfold check_p010, rule_p010, is_rp, ext_bit. cbn [applies violations]. step Hb.
  destruct (port _ =? RP); cbn [negb]; [|done]. step Hb. unfold has.
  destruct (cap PCIE_ECAP ECID_ACS _) as [o|] eqn:Eo; cbn [negb]; [|done].
  rewrite (bind_done _ _ _ _ _ (ecap_read _ ECID_ACS o ACSCR_OFFSET _ Hb Eo ltac:(vm_compute; by split))). cbn [snd].
  rewrite !extract_one by lia. change (o + ACSCR_OFFSET) with (o + 4). by destruct (Z.testbit _ 0), (Z.testbit _ 1).
Qed.

Lemma p013_decides : decides0 check_p013 rule_p013.
Proof.
  begin_check Hb. unfold check_p013, rule_p013, is_rp. cbn [applies violations]. step Hb.
  destruct (port _ =? RP); cbn [negb andb]; [|done]. step Hb. rewrite negb_involutive. by destruct (has _ _ _).
Qed.

Lemma rp_has_decides cid : decides0 (check_rp_has cid) (mk_rule is_rp (fun b => unless (has PCIE_ECAP cid b))).
Proof.
  begin_check Hb. unfold check_rp_has, is_rp. step Hb.
  destruct (port _ =? RP); cbn [negb]; [|done]. step Hb. by destruct (has _ _ _).
Qed.

Lemma p016_decides : decides0 check_p016 rule_p016.
Proof.
  begin_check Hb. unfold check_p016, rule_p016, is_rp, ext_bit. cbn [applies violations]. step Hb.
  destruct (port _ =? RP); cbn [negb andb]; [|done]. step Hb. unfold has.
  destruct (cap PCIE_ECAP ECID_DPC _) as [o|] eqn:Eo; cbn [negb]; [|done].
  rewrite (bind_done _ _ _ _ _ (ecap_read _ ECID_DPC o DPC_CTRL_OFFSET _ Hb Eo ltac:(vm_compute; by split))). cbn [snd].
  change (o + DPC_CTRL_OFFSET) with (o + 4). unfold DPC_RP_EXT_OFFSET, DPC_RP_EXT_MASK.
  rewrite land_one by lia. by destruct (Z.testbit _ 5).
Qed.

Lemma p017_decides : decides0 check_p017 rule_p017.
Proof.
  begin_check Hb. unfold check_p017, rule_p017, is_rciep. cbn [applies violations]. step Hb.
  destruct (port _ =? RCiEP); cbn [negb]; [|done]. by step Hb.
Qed.

Lemma rciep_needs_decides c t c' : t <> HEADER ->
  decides0 (check_rciep_needs c t c') (mk_rule (fun b => is_rciep b && has PCIE_ECAP c b) (fun b => unless (has t c' b))).
Proof.
  intros Ht. begin_check Hb. unfold check_rciep_needs, is_rciep. step Hb.
  destruct (port _ =? RCiEP); cbn [negb andb]; [|done]. step Hb. destruct (has PCIE_ECAP c _); cbn [negb]; [|done].
  rewrite (bind_done _ _ _ _ _ (find_done _ t c' Hb Ht)). cbn [fst]. rewrite found_success. by destruct (has _ _ _).
Qed.

(** A BAR register: the kind of its space and its width. *)
Lemma bar_space b i : (Z.land (Z.shiftr (bar b i) BAR_MIT_SHIFT) BAR_MIT_MASK =? MMIO) = memory_bar b i /\
  (Z.land (Z.shiftr (bar b i) BAR_MIT_SHIFT) BAR_MIT_MASK =? IO) = negb (memory_bar b i).
Proof. unfold BAR_MIT_SHIFT, BAR_MIT_MASK, memory_bar. rewrite land_one by lia. by destruct (Z.testbit _ 0). Qed.
Lemma bar_width b i : Z.land (Z.shiftr (bar b i) BAR_MDT_SHIFT) BAR_MDT_MASK = bar_kind b i.
Proof.
  unfold BAR_MDT_SHIFT, BAR_MDT_MASK, bar_kind. change 0x3 with (Z.ones 2).
  by rewrite Z.land_ones, Z.shiftr_div_pow2 by lia.
Qed.
Lemma bar_read b i : function_ok b -> 0 <= i <= 2 -> val_pcie_read_cfg b (TYPE01_BAR + i * 4) 0 s = Done ((0, bar b i), s).
Proof. intros Hb Hi. apply read_done; [done|]. unfold TYPE01_BAR. lia. Qed.

Ltac bar_step Hb i :=
  rewrite (bind_done _ _ _ _ _ (bar_read _ i Hb ltac:(lia))); cbn [snd];
  rewrite ?(proj1 (bar_space _ _)), ?(proj2 (bar_space _ _)), ?bar_width.

Lemma has_bar_done b : function_ok b -> check_pcie_rp_has_bar b s = Done (if has_memory_bar b then 1 else 0, s).
Proof.
  intros Hb. unfold check_pcie_rp_has_bar, has_memory_bar. cbn [has_bar_loop]. change (0 <? TYPE1_MAX_BARS) with true.
  cbv iota. bar_step Hb 0. change (0 + 1) with 1. change (1 <? TYPE1_MAX_BARS) with true. change (1 + 1 <? TYPE1_MAX_BARS) with false.
  cbv iota. destruct (memory_bar b 0); cbn [orb].
  - destruct (_ =? BITS_64); [|done]. by bar_step Hb 1.
  - bar_step Hb 1. destruct (memory_bar b 1); [|done]. destruct (_ =? BITS_64); [|done]. change (1 + 1) with 2. by bar_step Hb 2.
Qed.

Lemma iobar_done b : function_ok b -> check_pcie_has_iobar b s = Done (if memory_bar b 0 && memory_bar b 1 then 0 else 1, s).
Proof.
  intros Hb. unfold check_pcie_has_iobar. cbn [iobar_loop]. change (0 <? TYPE1_MAX_BARS) with true.
  cbv iota. bar_step Hb 0. change (0 + 1) with 1. change (1 <? TYPE1_MAX_BARS) with true. change (1 + 1 <? TYPE1_MAX_BARS) with false.
  cbv iota. destruct (memory_bar b 0); cbn [negb andb]; [|done]. bar_step Hb 1. by destruct (memory_bar b 1).
Qed.

Lemma bar_type_done b old : function_ok b -> exists x, check_pcie_has_bar b old s =
    Done ((if has_memory_bar b then 1 else 0, x), s) /\
  (has_memory_bar b = true -> (x =? BAR_64_BIT) = (bar_kind b (first_memory_bar b) =? 2)).
Proof.
  intros Hb. unfold check_pcie_has_bar, has_memory_bar, first_memory_bar. cbn [bar_type_loop]. change (0 <? TYPE1_MAX_BARS) with true.
  cbv iota. bar_step Hb 0. change (0 + 1) with 1. change (1 <? TYPE1_MAX_BARS) with true. change (1 + 1 <? TYPE1_MAX_BARS) with false.
  cbv iota. pose proof (fo_bars b Hb) as Hk. destruct (memory_bar b 0) eqn:E0; cbn [orb].
  - destruct (Hk 0 ltac:(by left) E0) as [-> | ->]; [by eexists|]. change (2 =? BITS_64) with true. cbv iota. bar_step Hb 1. by eexists.
  - bar_step Hb 1. destruct (memory_bar b 1) eqn:E1; [|by eexists]. destruct (Hk 1 ltac:(by right) E1) as [-> | ->]; [by eexists|].
    change (2 =? BITS_64) with true. cbv iota. change (1 + 1) with 2. bar_step Hb 2. by eexists.
Qed.

Lemma p011_decides : decides0 check_p011 rule_p011.
Proof.
  intros b Hb. unfold found_at, check_p011, rule_p011, is_rp, ext_bit. cbn [applies violations]. step Hb.
  destruct (port b =? RP); cbn [negb andb]; [|done]. rewrite (bind_done _ _ _ _ _ (has_bar_done b Hb)).
  destruct (has_memory_bar b); [|done]. change (1 =? 0) with false. cbv iota. step Hb. unfold has.
  destruct (cap PCIE_ECAP ECID_ACS b) as [o|] eqn:Eo; cbn [negb]; [|done].
  rewrite (bind_done _ _ _ _ _ (ecap_read _ ECID_ACS o ACSCR_OFFSET _ Hb Eo ltac:(vm_compute; by split))). cbn [snd].
  rewrite extract_one by lia. change (o + ACSCR_OFFSET) with (o + 4). by destruct (Z.testbit _ 7).
Qed.

Lemma pin_field b : VAL_EXTRACT_BITS (dword b TYPE01_ILR) TYPE01_IPR_SHIFT (TYPE01_IPR_SHIFT + 7) = pin b.
Proof. unfold pin. by rewrite extract_field by (vm_compute; by split). Qed.

Lemma p012_decides : decides0 check_p012 rule_p012.
Proof.
  intros b Hb. unfold found_at, check_p012, rule_p012, is_rp, is_rciep. cbn [applies violations]. step Hb.
  destruct (port b =? RP) eqn:Erp; cbn [orb negb].
  - step Hb. rewrite pin_field. set (f := unless (negb _)).
    assert (E : (find_cap b CID_MSI ;;; find_cap b CID_MSIX ;;;
      let* r := find_cap b CID_MSI in
      if r.1 =? PCIE_CAP_NOT_FOUND then
        let* r := find_cap b CID_MSIX in ret (if r.1 =? PCIE_CAP_NOT_FOUND then 1 else 0)
      else ret 0) s = Done (unless (has PCIE_CAP CID_MSI b || has PCIE_CAP CID_MSIX b), s)).
    { step Hb. step Hb. step Hb. destruct (has PCIE_CAP CID_MSI b); cbn [negb orb]; [done|]. step Hb. by destruct (has _ _ _). }
    rewrite (bind_done _ _ _ _ _ E). subst f. unfold unless. by destruct ((1 <=? pin b) && (pin b <=? 4)).
  - destruct (port b =? RCiEP); cbn [negb]; [|done]. step Hb. rewrite pin_field. unfold bind, ret, unless.
    by destruct ((1 <=? pin b) && (pin b <=? 4)).
Qed.

Lemma p022_decides : decides0 check_p022 rule_p022.
Proof.
  intros b Hb. unfold found_at, check_p022, rule_p022, is_rp, is_rciep. cbn [applies violations]. step Hb.
  destruct ((port b =? RCiEP) || (port b =? RP)); cbn [negb]; [|done].
  rewrite (bind_done _ _ _ _ _ (iobar_done b Hb)). destruct (memory_bar b 0 && memory_bar b 1); cbn [andb]; [|done].
  rewrite Z.eqb_refl. cbn [negb]. step Hb. destruct (has PCIE_CAP CID_EA b); cbn [negb andb]; [done|].
  step Hb. rewrite pin_field. by destruct (pin b =? 0).
Qed.

Lemma p024_decides : decides check_p024 rule_p024.
Proof.
  intros b l Hb. unfold found_at, check_p024, rule_p024, is_rciep, pasid_width. cbn [applies violations].
  rewrite (bind_done _ _ _ _ _ (port_done b Hb)). destruct (port b =? RCiEP); cbn [negb andb]; [|by eexists].
  assert (E : val_pcie_get_max_pasid_width b l s = Done (match cap PCIE_ECAP ECID_PASID b with
    | Some o => (0, dword b (o + 4) / 2 ^ 8 mod 2 ^ 5) | None => (PCIE_CAP_NOT_FOUND, l) end, s)).
  { unfold val_pcie_get_max_pasid_width. step Hb. unfold has. destruct (cap PCIE_ECAP ECID_PASID b) as [o|] eqn:Eo; [|done].
    cbn [default negb].
    rewrite (bind_done _ _ _ _ _ (ecap_read _ ECID_PASID o PASID_CAPABILITY_OFFSET _ Hb Eo ltac:(vm_compute; by split))). cbn [snd].
    do 3 f_equal. unfold MAX_PASID_MASK, MAX_PASID_SHIFT. rewrite Z.shiftr_land. change (Z.shiftr 0x1F00 8) with (Z.ones 5).
    by rewrite Z.land_ones, Z.shiftr_div_pow2 by lia. }
  rewrite (bind_done _ _ _ _ _ E). unfold has. destruct (cap PCIE_ECAP ECID_PASID b) as [o|]; [|by eexists].
  cbn [fst snd]. change (0 =? PCIE_CAP_NOT_FOUND) with false. rewrite Z.eqb_refl. cbn [negb]. set (w := _ mod 2 ^ 5).
  assert (0 <= w) by (apply Z.mod_pos_bound; lia). eexists. unfold ret, unless, MIN_PASID_SUPPORT. do 4 f_equal.
  destruct (Z.ltb_spec 0 w), (Z.ltb_spec w 20), (Z.eqb_spec w 0), (Z.leb_spec 20 w); try done; lia.
Qed.

Lemma p025_decides : decides check_p025 rule_p025.
Proof.
  intros b l Hb. unfold found_at, check_p025, rule_p025, is_rciep. cbn [applies violations].
  rewrite (bind_done _ _ _ _ _ (port_done b Hb)). destruct (port b =? RCiEP); cbn [negb andb]; [|by eexists].
  destruct (bar_type_done b l Hb) as (x & E & Hx). rewrite (bind_done _ _ _ _ _ E). cbn [fst snd].
  destruct (has_memory_bar b); [|by eexists]. change (1 =? 0) with false. cbv iota. rewrite (Hx eq_refl).
  eexists. by destruct (_ =? 2).
Qed.

(** The loop over a capability list. *)
Lemma cid_loop_done t b hi off l : t <> HEADER -> function_ok b -> cap_chain s bs b t off l -> 0 <= off < cap_limit t ->
  forall fuel d err, (length l < fuel)%nat ->
  cid_loop fuel t b hi off d err s = Done (if forallb (fun o => cap_id t (dword b o) <=? hi) l then err else 1, s).
Proof.
  intros Ht Hb Hl. induction Hl as [|off l Hne Hl IH]; intros Ho fuel d err Hf;
    (destruct fuel as [|fuel]; [simpl in Hf; lia|]); cbn [cid_loop forallb]; [done|].
  destruct (Z.eqb_spec off 0); [done|].
  rewrite (bind_done _ _ _ _ _ (read_done b off d Hb ltac:(destruct t; simpl in Ho; lia))). cbn [snd].
  assert (En : (match t with PCIE_CAP => VAL_EXTRACT_BITS (dword b off) 8 15 | _ => VAL_EXTRACT_BITS (dword b off) 20 31 end)
    = cap_next t (word s bs b off)) by (by destruct t).
  assert (Ei : (match t with PCIE_CAP => VAL_EXTRACT_BITS (dword b off) 0 7 | _ => VAL_EXTRACT_BITS (dword b off) 0 15 end)
    = cap_id t (dword b off)) by (unfold VAL_EXTRACT_BITS; rewrite Z.shiftr_0_r; by destruct t).
  rewrite En, Ei, IH by (first [apply cap_next_range|simpl in Hf; lia]).
  rewrite Z.ltb_antisym. destruct (cap_id t (dword b off) <=? hi); cbn [andb negb]; [done|]. by destruct (forallb _ l).
Qed.

Lemma cfg_space_done b : function_ok b ->
  check_pcie_cfg_space b s = Done (unless (ids_below PCIE_CAP 0x15 b && ids_below PCIE_ECAP 0x34 b), s).
Proof.
  intros Hb. unfold check_pcie_cfg_space. rewrite (bind_done _ _ _ _ _ (read_done b TYPE01_CPR _ Hb ltac:(vm_compute; by split))). cbn [snd].
  assert (Es : Z.shiftl (VAL_EXTRACT_BITS (dword b TYPE01_CPR) 2 7) 2 = cap_start s bs b PCIE_CAP).
  { unfold cap_start. change (word s bs b TYPE01_CPR) with (dword b TYPE01_CPR). pose proof (fo_aligned b Hb).
    rewrite extract_field, Z.shiftl_mul_pow2, land_255 by lia. change (2 ^ (7 - 2 + 1)) with 64. change (2 ^ 2) with 4. lia. }
  assert (Hr : 0 <= cap_start s bs b PCIE_CAP < cap_limit PCIE_CAP) by (unfold cap_start, cap_limit; rewrite land_255; lia).
  assert (Hr' : 0 <= cap_start s bs b PCIE_ECAP < cap_limit PCIE_ECAP) by (vm_compute; by split).
  pose proof (fo_chain b Hb PCIE_CAP ltac:(discriminate)) as C1. pose proof (fo_chain b Hb PCIE_ECAP ltac:(discriminate)) as C2.
  rewrite Es, (bind_done _ _ _ _ _ (cid_loop_done PCIE_CAP b PCIE_CAP_ID_END _ _ ltac:(discriminate) Hb C1 Hr _ _ _ (chain_length _ _ _ _ _ _ C1 Hr))).
  change PCIE_ECAP_START with (cap_start s bs b PCIE_ECAP).
  rewrite (cid_loop_done PCIE_ECAP b PCIE_ECAP_ID_END _ _ ltac:(discriminate) Hb C2 Hr' _ _ _ (chain_length _ _ _ _ _ _ C2 Hr')).
  unfold ids_below, PCIE_CAP_ID_END, PCIE_ECAP_ID_END, unless. by destruct (forallb _ (chain PCIE_CAP b)), (forallb _ (chain PCIE_ECAP b)).
Qed.

Lemma p021_decides : decides0 check_p021 rule_p021.
Proof.
  intros b Hb. unfold found_at, check_p021, rule_p021, is_rp, is_rciep. cbn [applies violations]. step Hb. step Hb.
  assert (E : VAL_EXTRACT_BITS (dword b TYPE01_RIDR) 16 31 = class_of b).
  { rewrite extract_field by lia. unfold class_of. change TYPE01_RIDR with 8. change (31 - 16 + 1) with 16.
    assert (0 <= dword b 8 < 2 ^ 32) by (unfold dword, word, creg; destruct (cfg_lookup bs b); [apply reg_range|lia]). lia. }
  rewrite E. destruct (_ || _ || _ || _); [|done]. rewrite (bind_done _ _ _ _ _ (cfg_space_done b Hb)).
  by destruct (ids_below PCIE_CAP 0x15 b && _).
Qed.

(** ** From the checks to the verdict *)

Lemma scan_done {L} (check : Z -> L -> _) r : decides check r -> (forall b, 0 <= found_at r b <= 2) ->
  forall devs l sk f, Forall function_ok devs -> 0 <= f -> f + 2 * Z.of_nat (length devs) < 2 ^ 32 ->
  scan check devs l sk f s = Done ((if existsb (applies r) devs then 0 else sk, f + total r devs), s).
Proof.
  intros Hd Hr. induction devs as [|b devs IH]; intros l sk f Hok Hf Hlen; cbn [scan existsb total foldr].
  - by rewrite Z.add_0_r.
  - inversion_clear Hok as [|? ? Hb Hok']. destruct (Hd b l Hb) as (l' & E). rewrite (bind_done _ _ _ _ _ E). cbn [fst snd].
    simpl in Hlen. pose proof (Hr b). rewrite u32_small by lia. rewrite IH by (done || lia). unfold total.
    rewrite Z.add_assoc. destruct (applies r b); cbn [orb]; [|done]. by destruct (existsb _ devs).
Qed.

(** The table lists the functions [devs], which all answer. *)
Definition listed_functions (devs : list Z) : Prop :=
  exists t, g_pcie_bdf_table s = Some t /\ num_entries t = Z.of_nat (length (device t)) /\ devs = bdf <$> device t /\
    Forall function_ok devs /\ 2 * Z.of_nat (length devs) < 4096.

Lemma device_payload_leaves {L} (check : Z -> L -> _) r l0 n skip devs me :
  decides check r -> (forall b, 0 <= found_at r b <= 2) -> listed_functions devs ->
  leaves (device_payload n skip check l0) s s me (word_of n skip r devs).
Proof.
  intros Hd Hr (t & Ht & Hn & Ed & Hok & Hlen) v Hme Hpos. unfold device_payload.
  rewrite (bind_done _ _ _ _ _ (on_val_done _ _ s _ _ Hme)).
  assert (El : device_list s = Done (devs, s)).
  { unfold device_list. unfold bind at 1, gets. rewrite Ht. unfold bind at 1, deref, ret at 1. unfold table_entries, bind.
    rewrite Hn, Z.ltb_irrefl, Nat2Z.id, firstn_all. unfold ret. by rewrite Ed. }
  rewrite (bind_done _ _ _ _ _ (on_pcie_done _ v _ _ _ El)).
  rewrite (bind_done _ _ _ _ _ (on_pcie_done _ v _ _ _ (scan_done check r Hd Hr devs l0 1 0 Hok ltac:(lia) ltac:(lia)))).
  destruct (set_status_leaves v me (word_of n skip r devs) Hpos) as (v' & E & Hs & Hw). exists v'.
  rewrite Z.add_0_l. fold (word_of n skip r devs). by rewrite (on_val_done _ _ s _ _ E).
Qed.
End Rules.

(** ** The tests decide their rules *)

Section Family.
Context {H : Type} `{RegisterFile H, Uninit, Platform} `{LawfulHarts, CpuArchProtocol}.
Context (s : pcie_state H) (bs : list PCIE_INFO_BLOCK) (chain : BITFIELD_REGISTER_TYPE -> Z -> list Z).

(** The number of a test, its entry function and its rule. *)
Definition device_tests : list (Z * prog (test_state H) Z * rule) :=
  [(810, os_p010_entry, rule_p010 s bs chain); (811, os_p011_entry, rule_p011 s bs chain);
   (812, os_p012_entry, rule_p012 s bs chain); (813, os_p013_entry, rule_p013 s bs chain);
   (814, os_p014_entry, rule_p014 s bs chain); (815, os_p015_entry, rule_p015 s bs chain);
   (816, os_p016_entry, rule_p016 s bs chain);
   (818, os_p018_entry, rule_p018 s bs chain); (819, os_p019_entry, rule_p019 s bs chain);
   (821, os_p021_entry, rule_p021 s bs chain); (822, os_p022_entry, rule_p022 s bs chain);
   (823, os_p023_entry, rule_p023 s bs chain); (824, os_p024_entry, rule_p024 s bs chain);
   (825, os_p025_entry, rule_p025 s bs chain)].

(** The counters of the run after a test that returns [code]. *)
Definition counts (n code : Z) (v v' : val_state) : Prop :=
  g_bsa_tests_total v' = (if runs v n then u32 (g_bsa_tests_total v + 1) else g_bsa_tests_total v) /\
  g_bsa_tests_pass v' = (if code =? ACS_STATUS_PASS then u32 (g_bsa_tests_pass v + 1) else g_bsa_tests_pass v) /\
  g_bsa_tests_fail v' = (if code =? ACS_STATUS_FAIL then u32 (g_bsa_tests_fail v + 1) else g_bsa_tests_fail v).

Definition decided (n : Z) (entry : prog (test_state H) Z) (r : rule) (devs : list Z) (v : val_state) : Prop :=
  let code := if runs v n then rule_code r devs else ACS_STATUS_SKIP in
  exists v', entry (mk_test v s) = Done (code, mk_test v' s) /\ counts n code v v'.

Lemma device_test_decided {L} (check : Z -> L -> _) r l0 n skip desc txt devs v me :
  0 <= n < 65536 -> 0 <= skip < 4096 -> (forall b, 0 <= found_at r b <= 2) ->
  decides s bs chain check r -> listed_functions s bs chain devs -> options_small v ->
  0 <= me < Z.of_nat (length (shared_mem v)) -> my_index v = Done (me, v) ->
  decided n (os_entry n desc txt (device_payload n skip check l0)) r devs v.
Proof.
  intros Hn Hs Hr Hd Hl Ho Hme Hmy. pose proof Hl as (_ & _ & _ & _ & _ & Hlen).
  destruct (word_of_code n skip r devs Hr Hn Hs Hlen) as [Hc Hcode].
  destruct (entry_verdict n desc txt _ v s s me _ Hn Ho Hme Hmy (device_payload_leaves s bs chain check r l0 n skip devs me Hd Hr Hl) Hc ltac:(lia))
    as (x & v' & q & E & -> & Hq & Hcnt).
  exists v'. rewrite E, Hcode. assert (q = s) as -> by (by destruct (runs v n)). split; [done|].
  unfold counts. by rewrite Hcode in Hcnt.
Qed.

Lemma unless_range c : 0 <= unless c <= 1.
Proof. by destruct c. Qed.

Lemma rules_bounded x b : x ∈ device_tests -> 0 <= found_at x.2 b <= 2.
Proof.
  intros Hx. repeat (apply elem_of_cons in Hx as [->|Hx]); [..|by apply not_elem_of_nil in Hx];
    unfold found_at; cbn [snd]; destruct (applies _ b); cbn -[unless]; try lia;
    repeat match goal with |- context [unless ?c] => pose proof (unless_range c); generalize dependent (unless c); intros end; lia.
Qed.

(** C8: fourteen PCIe tests, p010 to p016, p018, p019 and p021 to p025, decide their
    rules.  On a table of functions that answer, a test
    of the list returns: if the options select it, SKIP when its rule is about no
    function, PASS when every function that it is about satisfies it and FAIL
    otherwise, whatever the other harts do; if they do not, SKIP.  The test is counted
    accordingly, and neither the device table nor the hardware is changed.  The rules are
    those of the code, on the first two BARs of a function only; p017, whose code asks less than
    its comment, is not in the list ([p017_never_fails]). *)
Theorem device_tests_verdict n entry r v me devs :
  (n, entry, r) ∈ device_tests -> has_ecams s bs -> listed_functions s bs chain devs -> options_small v ->
  0 <= me < Z.of_nat (length (shared_mem v)) -> my_index v = Done (me, v) ->
  decided n entry r devs v.
Proof.
  intros Hin He Hl Ho Hme Hmy. pose proof (fun b => rules_bounded (n, entry, r) b Hin) as Hr. cbn [snd] in Hr.
  assert (Hgo : forall L (check : Z -> L -> _) l0 skip desc txt, entry = os_entry n desc txt (device_payload n skip check l0) ->
    0 <= n < 65536 -> 0 <= skip < 4096 -> decides s bs chain check r -> decided n entry r devs v)
    by (intros; subst entry; by eapply device_test_decided).
  repeat (apply elem_of_cons in Hin as [[= -> -> ->]|Hin]); [..|by apply not_elem_of_nil in Hin];
    (eapply Hgo; [reflexivity|lia|lia|]); first [apply decides_no_locals|idtac].
  - by apply p010_decides.
  - by apply p011_decides.
  - by apply p012_decides.
  - by apply p013_decides.
  - by apply rp_has_decides.
  - by apply rp_has_decides.
  - by apply p016_decides.
  - by apply rciep_needs_decides.
  - by apply rciep_needs_decides.
  - by apply p021_decides.
  - by apply p022_decides.
  - by apply rciep_needs_decides.
  - by apply p024_decides.
  - by apply p025_decides.
Qed.
(** test p017 never fails: it returns, when selected, PASS if there is an integrated
    endpoint and else SKIP; the rule of its comment, that the endpoint has AER, is not
    what it decides. *)
Theorem p017_never_fails v me devs :
  has_ecams s bs -> listed_functions s bs chain devs -> options_small v ->
  0 <= me < Z.of_nat (length (shared_mem v)) -> my_index v = Done (me, v) ->
  decided 817 os_p017_entry (rule_p017 s bs chain) devs v /\
  rule_code (rule_p017 s bs chain) devs = if existsb (is_rciep s bs chain) devs then ACS_STATUS_PASS else ACS_STATUS_SKIP.
Proof.
  intros He Hl Ho Hme Hmy. split.
  - assert (Hgo : forall skip desc txt, os_p017_entry = os_entry 817 desc txt (device_payload 817 skip (no_locals check_p017) tt) ->
      0 <= skip < 4096 -> decided 817 os_p017_entry (rule_p017 s bs chain) devs v); [|by eapply Hgo; [reflexivity|lia]].
    intros skip desc txt -> Hs. eapply device_test_decided; [lia|exact Hs| | |exact Hl|exact Ho|exact Hme|exact Hmy].
    + intros b. unfold found_at. cbn. destruct (is_rciep _ _ _ b); lia.
    + apply decides_no_locals. by apply p017_decides.
  - unfold rule_code, rule_p017. cbn [applies]. destruct (existsb _ devs); [|done]. cbn [negb].
    assert (satisfied (mk_rule (is_rciep s bs chain) (fun _ => 0)) devs = true) as ->; [|done].
    unfold satisfied. apply forallb_forall. intros b _. cbn. by rewrite orb_true_r.
Qed.
End Family.

(** ** Test p009 *)

Section Alternate.
Context {H : Type} `{Hardware H, Uninit, Platform}.

Lemma odd_u32_next i : Z.odd (u32 (i + 2)) = Z.odd i.
Proof.
  unfold u32. rewrite <- !Z.bit0_odd, Z.mod_pow2_bits_low, !Z.bit0_odd, Z.odd_add by lia. by rewrite xorb_false_r.
Qed.

(** The verdict depends on every second function only: of two tables of the same size
    that agree on the functions with an odd index, the loop makes the same. *)
Lemma p009_ignores_even (t t' : pcie_device_bdf_table) :
  num_entries t = num_entries t' -> length (device t) = length (device t') ->
  (forall j, Z.odd j = true -> at_index (device t) j = at_index (device t') j) ->
  forall fuel i c sk f (s : pcie_state H), Z.odd i = false -> loop_p009 fuel t i c sk f s = loop_p009 fuel t' i c sk f s.
Proof.
  intros Hn Hlen Hodd. induction fuel as [|fuel IH]; intros i c sk f s Hi; [done|]. cbn [loop_p009]. rewrite Hn.
  destruct (i <? num_entries t'); [|done].
  assert (Hs : is_Some (at_index (device t) i) <-> is_Some (at_index (device t') i)).
  { unfold at_index. destruct (0 <=? i); [|done]. by rewrite !lookup_lt_is_Some, Hlen. }
  rewrite (Hodd (i + 1)) by (rewrite Z.odd_add, Hi; done).
  destruct (at_index (device t) i) as [x|], (at_index (device t') i) as [y|];
    [|by destruct (proj1 Hs ltac:(by eexists))|by destruct (proj2 Hs ltac:(by eexists))|done].
  destruct (at_index (device t') (i + 1)) as [e|]; [|done].
  cbn [deref]. unfold bind at 1 2, ret at 1 2. symmetry. unfold bind at 1 2, ret at 1 2. symmetry.
  assert (Hi' : Z.odd (u32 (i + 2)) = false) by (by rewrite odd_u32_next).
  apply bind_ext. intros dp s1. destruct (negb (dp =? RP)); [by apply IH|].
  apply bind_ext. intros r s2. destruct (r.1 =? PCIE_CAP_NOT_FOUND); [by apply IH|].
  apply bind_ext. intros w s3. by apply IH.
Qed.

(** A table with one function is read behind its end. *)
Lemma p009_overruns e fuel c sk f (s : pcie_state H) : loop_p009 (S fuel) (mk_bdf_table 1 [e]) 0 c sk f s = Undefined.
Proof. done. Qed.
End Alternate.

(** ** A root port with ACS and without AER *)

Module Sample.
(** The root port at 0:01:02.0: PCI Express at 0x40, ACS at 0x100. *)
Definition board_rp : board :=
  {[ 0x30110034 := 0x40; 0x30110040 := 0x00420010; 0x30110100 := 0x0001000D; 0x30110104 := 0x3 ]}.
Definition pcie_rp : pcie_state board := set_bdf_table (Some (mk_bdf_table 1 [mk_attr ep1 0])) (set_hw board_rp pcie0).
Definition chain_rp (t : BITFIELD_REGISTER_TYPE) (_ : Z) : list Z := match t with PCIE_CAP => [0x40] | _ => [0x100] end.

#[export] Instance quiet_harts : SecondaryHarts := fun _ m => m.
#[export] Instance quiet_harts_lawful : LawfulHarts.
Proof. intros n m. reflexivity. Qed.

Lemma rp_answers : function_ok pcie_rp ecams0 chain_rp ep1.
Proof.
  split.
  - apply ep1_mapped.
  - by vm_compute.
  - by vm_compute.
  - intros [] Ht; [done| |].
    + apply chain_next; [by vm_compute|]. replace (cap_next _ _) with 0 by (by vm_compute). apply chain_end.
    + apply chain_next; [by vm_compute|]. replace (cap_next _ _) with 0 by (by vm_compute). apply chain_end.
  - by eexists.
  - intros o ->%list_elem_of_singleton. lia.
  - intros i [-> | ->]; by vm_compute.
Qed.

Lemma rp_listed : listed_functions pcie_rp ecams0 chain_rp [ep1].
Proof.
  exists (mk_bdf_table 1 [mk_attr ep1 0]). split_and!; [done|done|done| |by vm_compute]. by apply Forall_singleton, rp_answers.
Qed.

Lemma device_tests_verdict_witness :
  decided pcie_rp 810 os_p010_entry (rule_p010 pcie_rp ecams0 chain_rp) [ep1] state_run /\
  runs state_run 810 = true /\ rule_code (rule_p010 pcie_rp ecams0 chain_rp) [ep1] = ACS_STATUS_PASS /\
  rule_code (rule_p014 pcie_rp ecams0 chain_rp) [ep1] = ACS_STATUS_FAIL.
Proof.
  split_and!; [|by vm_compute|by vm_compute|by vm_compute].
  apply (device_tests_verdict pcie_rp ecams0 chain_rp 810 os_p010_entry _ state_run 0 [ep1]).
  - left.
  - apply (pcie0_ecams board_rp).
  - apply rp_listed.
  - by vm_compute.
  - by vm_compute.
  - by vm_compute.
Defined.

(** An integrated endpoint without AER: test p017 passes, and by its comment it would fail. *)
Definition board_rciep : board :=
  {[ 0x30110034 := 0x40; 0x30110040 := 0x00920010; 0x30110100 := 0x0001000D ]}.
Definition pcie_rciep : pcie_state board := set_bdf_table (Some (mk_bdf_table 1 [mk_attr ep1 0])) (set_hw board_rciep pcie0).

Lemma p017_never_fails_witness :
  (exists v', os_p017_entry (mk_test state_run pcie_rciep) = Done (ACS_STATUS_PASS, mk_test v' pcie_rciep)) /\
  rule_code (comment_p017 pcie_rciep ecams0 chain_rp) [ep1] = ACS_STATUS_FAIL.
Proof.
  split; [|by vm_compute].
  destruct (p017_never_fails pcie_rciep ecams0 chain_rp state_run 0 [ep1]) as [(v' & E & _) Hr].
  - apply (pcie0_ecams board_rciep).
  - exists (mk_bdf_table 1 [mk_attr ep1 0]). split_and!; [done|done|done| |by vm_compute]. apply Forall_singleton. split.
    + apply ep1_mapped.
    + by vm_compute.
    + by vm_compute.
    + intros [] Ht; [done| |]; (apply chain_next; [by vm_compute|]); (replace (cap_next _ _) with 0 by (by vm_compute)); apply chain_end.
    + by eexists.
    + intros o ->%list_elem_of_singleton. lia.
    + intros i [-> | ->]; by vm_compute.
  - by vm_compute.
  - by vm_compute.
  - by vm_compute.
  - exists v'. rewrite E. by vm_compute.
Defined.
End Sample.
