(* ===== verification/PcieBusTests.v ===== *)
(** * The PCIe tests that access the configuration space and the memory windows

    Models the tests [test_os_p001.c] of [test_pool/pcie/operating_system/] and
    [test_os_p002.c] to [test_os_p005.c], [test_os_p007.c] and [test_os_p008.c] of its
    directory [riscv/].  Messages are left out, and so are exceptions: the handlers are
    installed, and every access returns.  What the port says of a memory window is a
    parameter. *)

From Stdlib Require Import Sorting.Sorted.
From S2P Require Import Prelude Status Hart Infra Mmio PcieCfg PcieCap PcieRegs Tests PcieTests.

Definition EXCEPT_AARCH64_SYNCHRONOUS_EXCEPTIONS : Z := 0.
Definition EXCEPT_AARCH64_SERROR : Z := 3.
Definition DEVICE_NUM_PER_BUS : Z := 256.
Definition MEM_SIZE_PER_DEVICE : Z := 4096.
Definition MAX_ECAM_NUM : Z := 20.
Definition SECBN_MASK : Z := 0xff.
Definition SUBBN_MASK : Z := 0xff.
Definition TYPE01_BCC_SHIFT : Z := 24.
Definition MAS_CC : Z := 0x1.
Definition CNTRL_CC : Z := 0x2.
Definition DP_CNTRL_CC : Z := 0x3.
Definition LINK_DISABLE_SHIFT : Z := Z.shiftl 1 4.
Definition LINK_DISABLE : Z := Z.shiftl 1 4.
Definition CSR_EN_SHIFT : Z := Z.shiftl 1 4.
Definition CSR_ENABLE : Z := Z.shiftl 1 4.
Definition ROOTCP_OFFSET : Z := 0x1E.
Definition RTCTRL_OFFSET : Z := 0x1C.
Definition ECID_AF : Z := 0x0013.
Definition AF_CAPABILITY_OFFSET : Z := 0x3.
Definition FLR_CAP_EN : Z := Z.shiftl 1 1.
Definition AF_CTRL : Z := 0x4.
Definition FLR_EN : Z := Z.shiftl 1 0.
Definition TYPE1_NP_MEM : Z := 0x20.
Definition TYPE1_P_MEM : Z := 0x24.
Definition TYPE1_P_MEM_BU : Z := 0x28.
Definition TYPE1_P_MEM_LU : Z := 0x2C.
Definition MEM_BA_SHIFT : Z := 16.
Definition MEM_BA_MASK : Z := 0xFFF0.
Definition MEM_LIM_LOWER_BITS : Z := Z.shiftl 1 20 - 1.
Definition MEM_LIM_MASK : Z := 0xFFF00000.
Definition MEM_SHIFT : Z := 20.
Definition MEM_OFFSET_LARGE : Z := 0x100000.
Definition MEM_OFFSET_SMALL : Z := 0x10.
Definition P_MEM_PAC_MASK : Z := 0xF.
Definition P_MEM_BU_SHIFT : Z := 32.
Definition P_MEM_LU_SHIFT : Z := 32.
Definition NON_PREFETCH_MEMORY : Z := 0x0.
Definition PREFETCH_MEMORY : Z := 0x1.

(** The loops over buses, devices and functions. *)
Definition upto (a b : Z) : list Z := (fun k => a + Z.of_nat k) <$> seq 0 (Z.to_nat (b - a + 1)).
Definition device_functions : list (Z * Z) :=
  d ← upto 0 (PCIE_MAX_DEV - 1); f ← upto 0 (PCIE_MAX_FUNC - 1); [(d, f)].
Definition bus_functions (first last : Z) : list (Z * Z * Z) :=
  b ← upto first last; df ← device_functions; [(b, df.1, df.2)].

Section BusTests.
Context {H : Type} `{Hardware H, Uninit, Platform, SecondaryHarts, CpuArchProtocol}.
(** [val_pcie_mem_get_offset] and [val_pcie_bar_mem_read], which forward to the port;
    the read gets the value that the result variable has before. *)
Context (val_pcie_mem_get_offset : Z -> Z -> Z) (val_pcie_bar_mem_read : Z -> Z -> Z -> prog (pcie_state H) Z).
Local Abbreviation P := (prog (pcie_state H)).
Local Abbreviation T := (prog (test_state H)).

(** The two handlers of a test: the status. *)
Definition install_handlers : prog val_state Z :=
  let* st := val_hart_install_esr EXCEPT_AARCH64_SYNCHRONOUS_EXCEPTIONS "esr" in
  let* st' := val_hart_install_esr EXCEPT_AARCH64_SERROR "esr" in
  ret (Z.lor st st').

(** *** p001: every function of every region answers *)

(** The three reads of a function: do they succeed? *)
Definition read_ids (bdf : Z) : P bool :=
  let* r := val_pcie_read_cfg_width bdf TYPE01_VIDR (uninit "data32") W32 in
  if (r.1 =? PCIE_NO_MAPPING) || (r.2 =? 0) then ret false else
  let* r := val_pcie_read_cfg_width bdf TYPE01_VIDR (uninit "data16") W16 in
  if (r.1 =? PCIE_NO_MAPPING) || (r.2 =? 0) then ret false else
  let* r := val_pcie_read_cfg_width bdf TYPE01_RIDR (uninit "data8") W8 in
  ret (negb (r.1 =? PCIE_NO_MAPPING)).

(** One region: [Some] is the status word of an early return. *)
Definition check_region (TEST_NUM num_ecam : Z) : P (option Z) :=
  let* ecam_base := val_pcie_get_info PCIE_INFO_ECAM num_ecam in
  if ecam_base =? 0 then ret (Some (RESULT_SKIP TEST_NUM 1)) else
  let* segment := val_pcie_get_info PCIE_INFO_SEGMENT num_ecam in
  let* bus := val_pcie_get_info PCIE_INFO_START_BUS num_ecam in
  let* end_bus := val_pcie_get_info PCIE_INFO_END_BUS num_ecam in
  search (bus_functions bus end_bus) (fun '(bus_index, dev_index, func_index) =>
    let* ok := read_ids (PCIE_CREATE_BDF segment bus_index dev_index func_index) in
    ret (if ok : bool then None else Some (RESULT_FAIL TEST_NUM (Z.lor (Z.shiftl bus_index 8) dev_index)))).

Definition payload_p001 : T unit :=
  let TEST_NUM := ACS_PCIE_TEST_NUM_BASE + 1 in
  let* index := on_val my_index in
  let* st := on_val install_handlers in
  if negb (st =? 0) then on_val (val_set_status index (RESULT_FAIL TEST_NUM 1)) else
  let* num_ecam := on_pcie (val_pcie_get_info PCIE_INFO_NUM_ECAM 0) in
  if num_ecam =? 0 then on_val (val_set_status index (RESULT_SKIP TEST_NUM 1)) else
  let* r := on_pcie (search (rev (indices num_ecam)) (check_region TEST_NUM)) in
  on_val (val_set_status index (default (RESULT_PASS TEST_NUM 1) r)).

(** *** p002: the regions are continuous and apart *)

Record ecam_space := mk_space { base : Z; size : Z; segment : Z; start_bus : Z; end_bus : Z }.

(** Are two neighbours in the wrong order? *)
Definition out_of_order (a b : ecam_space) : bool :=
  (segment b <? segment a) || ((segment a =? segment b) && (start_bus b <? start_bus a)).
(** The exchange of [ecam_data[j]] and [ecam_data[j + 1]]. *)
Definition sort_step (j : nat) (ecam_data : list ecam_space) : outcome (list ecam_space) :=
  match ecam_data !! j, ecam_data !! S j with
  | Some a, Some b => Done (if out_of_order a b then <[j := b]> (<[S j := a]> ecam_data) else ecam_data)
  | _, _ => Undefined
  end.
Fixpoint sort_inner (l : list nat) (ecam_data : list ecam_space) : outcome (list ecam_space) :=
  match l with
  | [] => Done ecam_data
  | j :: l' => match sort_step j ecam_data with Done d => sort_inner l' d | _ => Undefined end
  end.
Fixpoint sort_outer (n : nat) (l : list nat) (ecam_data : list ecam_space) : outcome (list ecam_space) :=
  match l with
  | [] => Done ecam_data
  | i :: l' => match sort_inner (seq 0 (n - 1 - i)) ecam_data with Done d => sort_outer n l' d | _ => Undefined end
  end.
(** The indices have eight bits, the number of regions is at most 20. *)
Definition sort_ecam_data (num_ecam : Z) (ecam_data : list ecam_space) : outcome (list ecam_space) :=
  let n := Z.to_nat num_ecam in sort_outer n (seq 0 (n - 1)) ecam_data.

Definition collect_region (TEST_NUM num_ecam : Z) (ecam_data : list ecam_space) : P (Z * list ecam_space + list ecam_space) :=
  let* ecam_base := val_pcie_get_info PCIE_INFO_ECAM num_ecam in
  if ecam_base =? 0 then ret (inl (RESULT_SKIP TEST_NUM 1, ecam_data)) else
  let* segment := val_pcie_get_info PCIE_INFO_SEGMENT num_ecam in
  let* bus := val_pcie_get_info PCIE_INFO_START_BUS num_ecam in
  let* end_bus := val_pcie_get_info PCIE_INFO_END_BUS num_ecam in
  let ecam_size := u32 ((end_bus - bus + 1) * DEVICE_NUM_PER_BUS * MEM_SIZE_PER_DEVICE) in
  if num_ecam <? Z.of_nat (length ecam_data)
  then ret (inr (<[Z.to_nat num_ecam := mk_space ecam_base ecam_size segment bus end_bus]> ecam_data)) else undef.

(** The last loop: [Some] is the status word of an early return. *)
Definition check_neighbours (TEST_NUM num_ecam : Z) (ecam_data : list ecam_space) (ecam_index : Z) : P (option Z) :=
  let* cur := deref (at_index ecam_data ecam_index) in
  let* bad :=
    if ecam_index + 1 <? num_ecam then
      let* next := deref (at_index ecam_data (ecam_index + 1)) in
      ret (if segment cur =? segment next
           then negb (u32 (end_bus cur + 1) =? start_bus next) || negb (u64 (base cur + size cur) =? base next)
           else (base next <=? u64 (base cur + size cur)) && (base cur <=? u64 (base next + size next)))
    else ret false in
  if bad : bool then ret (Some (RESULT_FAIL TEST_NUM 1)) else
  if size cur =? 0 then undef else
  ret (if negb (base cur mod size cur =? 0) then Some (RESULT_FAIL TEST_NUM 1) else None).

(** [num_ecam] is 0 when the regions have been collected. *)
Definition payload_p002 (ecam_data : list ecam_space) : T (list ecam_space) :=
  let TEST_NUM := ACS_PCIE_TEST_NUM_BASE + 2 in
  let* index := on_val my_index in
  let* st := on_val install_handlers in
  if negb (st =? 0) then on_val (val_set_status index (RESULT_FAIL TEST_NUM 1)) ;;; ret ecam_data else
  let* num := on_pcie (val_pcie_get_info PCIE_INFO_NUM_ECAM 0) in
  if num =? 0 then on_val (val_set_status index (RESULT_SKIP TEST_NUM 1)) ;;; ret ecam_data else
  let* r := on_pcie (search_with (rev (indices num)) (collect_region TEST_NUM) ecam_data) in
  match r with
  | inl (w, ecam_data) => on_val (val_set_status index w) ;;; ret ecam_data
  | inr ecam_data =>
      let num_ecam := 0 in
      let* ecam_data := (fun s => if 1 <? num_ecam then
        match sort_ecam_data num_ecam ecam_data with Done d => Done (d, s) | Undefined => Undefined | Diverges => Diverges end
        else Done (ecam_data, s)) in
      let* r := on_pcie (search (indices num_ecam) (check_neighbours TEST_NUM num_ecam ecam_data)) in
      on_val (val_set_status index (default (RESULT_PASS TEST_NUM 1) r)) ;;; ret ecam_data
  end.

(** *** Functions behind a root port *)

(** The loop over the functions behind the port: a function that answers and whose base
    class is not one of three is handed to [accept]; the last word read lives on. *)
Definition under_rp (accept : Z -> P (option Z)) (rp_bdf : Z) : P Z :=
  let rp_seg := PCIE_EXTRACT_BDF_SEG rp_bdf in
  let* r := val_pcie_read_cfg rp_bdf TYPE1_PBN (uninit "reg_value") in
  let rp_sec_bus := Z.land (Z.shiftr r.2 SECBN_SHIFT) SECBN_MASK in
  let rp_sub_bus := Z.land (Z.shiftr r.2 SUBBN_SHIFT) SUBBN_MASK in
  let* x := search_with (bus_functions rp_sec_bus rp_sub_bus) (fun '(dev_sec_bus, dev_num, func_num) reg_value =>
    let dev_bdf := PCIE_CREATE_BDF rp_seg dev_sec_bus dev_num func_num in
    let* v := val_pcie_read_cfg dev_bdf TYPE01_VIDR reg_value in
    if v.2 =? PCIE_UNKNOWN_RESPONSE then ret (inr v.2) else
    let dev_bus := PCIE_EXTRACT_BDF_BUS dev_bdf in
    if (PCIE_EXTRACT_BDF_SEG dev_bdf =? rp_seg) && (rp_sec_bus <=? dev_bus) && (dev_bus <=? rp_sub_bus) then
      let* c := val_pcie_read_cfg dev_bdf TYPE01_RIDR v.2 in
      let base_cc := Z.shiftr c.2 TYPE01_BCC_SHIFT in
      if negb (base_cc =? CNTRL_CC) && negb (base_cc =? DP_CNTRL_CC) && negb (base_cc =? MAS_CC) then
        let* a := accept dev_bdf in
        ret match a with Some y => inl y | None => inr c.2 end
      else ret (inr c.2)
    else ret (inr v.2)) r.2 in
  ret match x with inl y => y | inr _ => 0 end.

(** Tests p003, p007 and p008 take any such function, p005 one that can be reset. *)
Definition check_bdf_under_rp : Z -> P Z := under_rp (fun _ => ret (Some 1)).
Definition flr_capable (dev_bdf : Z) : P (option Z) :=
  let* r := val_pcie_find_capability dev_bdf PCIE_ECAP ECID_AF in
  if r.1 =? PCIE_SUCCESS then
    let* v := val_pcie_read_cfg_width dev_bdf (u32 (default (uninit "cap_base") r.2 + AF_CAPABILITY_OFFSET)) (uninit "af_cap") W8 in
    ret (if Z.land v.2 FLR_CAP_EN =? FLR_CAP_EN then Some dev_bdf else None)
  else ret None.
Definition check_flr_under_rp : Z -> P Z := under_rp flr_capable.

(** *** p003: the bus of a root port while the link is down *)

(** [original_vendor] holds the words of the first round. *)
Definition enumerate_pcie_device (segment_num bus_num first : Z) (original_vendor : gmap (Z * Z) Z)
    : P (Z * gmap (Z * Z) Z) :=
  let* r := search_with device_functions (fun df '(vendor, orig) =>
    let* v := val_pcie_read_cfg_width (PCIE_CREATE_BDF segment_num bus_num df.1 df.2) TYPE01_VIDR vendor W32 in
    ret (if negb (first =? 0) then inr (v.2, <[df := v.2]> orig)
         else if negb (v.2 =? default 0 (orig !! df)) then inl orig
         else inr (v.2, orig))) (uninit "vendor", original_vendor) in
  ret match r with inl orig => (0, orig) | inr (_, orig) => (1, orig) end.

(** The first root port with a function behind it. *)
Definition find_rp (bdf : Z) : P (option Z) :=
  let* dp_type := val_pcie_device_port_type bdf in
  if negb (dp_type =? RP) then ret None else
  let* n := check_bdf_under_rp bdf in
  ret (if n =? 0 then None else Some bdf).

Definition link_down (bdf cap_base reg_value : Z) : P Z :=
  if negb (Z.land reg_value LINK_DISABLE_SHIFT =? LINK_DISABLE) then
    let reg_value := Z.lor reg_value LINK_DISABLE in
    val_pcie_write_cfg bdf (u32 (cap_base + LCTRLR_OFFSET)) reg_value ;;; ret reg_value
  else ret reg_value.
Definition link_up (bdf cap_base reg_value : Z) : P unit :=
  when (Z.land reg_value LINK_DISABLE_SHIFT =? LINK_DISABLE)
    (val_pcie_write_cfg bdf (u32 (cap_base + LCTRLR_OFFSET)) (Z.land reg_value (u32 (Z.lnot LINK_DISABLE)))).

Definition payload_p003 (original_vendor : gmap (Z * Z) Z) : T (gmap (Z * Z) Z) :=
  let TEST_NUM := ACS_PCIE_TEST_NUM_BASE + 3 in
  let* devs := on_pcie device_list in
  let* hart_index := on_val my_index in
  let* found := on_pcie (search devs find_rp) in
  match found with
  | None => on_val (val_set_status hart_index (RESULT_SKIP TEST_NUM 1)) ;;; ret original_vendor
  | Some bdf =>
      let p_seg := u8 (PCIE_EXTRACT_BDF_SEG bdf) in
      let p_bus := u8 (PCIE_EXTRACT_BDF_BUS bdf) in
      let* e := on_pcie (enumerate_pcie_device p_seg p_bus 1 original_vendor) in
      let* c := on_pcie (val_pcie_find_capability bdf PCIE_CAP CID_PCIECS) in
      let cap_base := default (uninit "cap_base") c.2 in
      let* r := on_pcie (val_pcie_read_cfg bdf (u32 (cap_base + LCTRLR_OFFSET)) 0xFFFFFFFF) in
      let* reg_value := on_pcie (link_down bdf cap_base r.2) in
      let* e := on_pcie (enumerate_pcie_device p_seg p_bus 0 e.2) in
      on_val (val_set_status hart_index (if e.1 =? 0 then RESULT_FAIL TEST_NUM 1 else RESULT_PASS TEST_NUM 1)) ;;;
      on_pcie (link_up bdf cap_base reg_value) ;;;
      ret e.2
  end.

(** *** p004: retry status of the root ports *)

(** [cap_base] and [reg_value] live on. *)
Definition check_p004 (bdf : Z) (locals : Z * Z * bool) : P (Z + Z * Z * bool) :=
  let '(cap_base, reg_value, test_skip) := locals in
  let* dp_type := val_pcie_device_port_type bdf in
  if negb (dp_type =? RP) then ret (inr locals) else
  let* c := val_pcie_find_capability bdf PCIE_CAP CID_PCIECS in
  let cap_base := default cap_base c.2 in
  let* r := val_pcie_read_cfg_width bdf (u32 (cap_base + ROOTCP_OFFSET)) reg_value W16 in
  ret (if negb (Z.land r.2 0x01 =? 0x01) then inl (RESULT_FAIL (ACS_PCIE_TEST_NUM_BASE + 4) 1) else inr (cap_base, r.2, false)).

Definition payload_p004 : T unit :=
  let TEST_NUM := ACS_PCIE_TEST_NUM_BASE + 4 in
  let* devs := on_pcie device_list in
  let* hart_index := on_val my_index in
  let* r := on_pcie (search_with devs check_p004 (uninit "cap_base", uninit "reg_value", true)) in
  on_val (val_set_status hart_index
    match r with
    | inl w => w
    | inr (_, test_skip) => if test_skip : bool then RESULT_SKIP TEST_NUM 1 else RESULT_PASS TEST_NUM 1
    end).

(** *** p005: functions that are absent, being reset, or behind a link that is down *)

(** A read of 16 bits into a variable of 32 keeps its upper half. *)
Definition read16 (bdf offset reg_value : Z) : P Z :=
  let* r := val_pcie_read_cfg_width bdf offset reg_value W16 in
  ret (if r.1 =? PCIE_NO_MAPPING then reg_value else Z.lor (Z.land reg_value 0xFFFF0000) r.2).
Definition write16 (bdf offset reg_value : Z) : P unit := val_pcie_write_cfg_width bdf offset (u16 reg_value) W16.

(** The largest number that a function of the list has, of those selected. *)
Definition largest (p : Z -> bool) (f : Z -> Z) (devs : list Z) : Z :=
  fold_left (fun m b => if p b && (m <? f b) then f b else m) devs 0.
Definition get_nf_bdf (segment bus : Z) : P Z :=
  let* devs := device_list in
  let on_bus b := (segment =? PCIE_EXTRACT_BDF_SEG b) && (PCIE_EXTRACT_BDF_BUS b =? bus) in
  let max_dev_num := largest on_bus PCIE_EXTRACT_BDF_DEV devs in
  let max_func_num :=
    if max_dev_num =? PCIE_MAX_DEV - 1
    then largest (fun b => on_bus b && (PCIE_EXTRACT_BDF_DEV b =? max_dev_num)) PCIE_EXTRACT_BDF_FUNC devs else 0 in
  ret (if negb (max_dev_num =? PCIE_MAX_DEV - 1) then PCIE_CREATE_BDF segment bus (max_dev_num + 1) max_func_num
       else if negb (max_func_num =? PCIE_MAX_FUNC - 1) then PCIE_CREATE_BDF segment bus max_dev_num (max_func_num + 1)
       else 0).

(** The loop of 1000 reads; the delays between them are left out. *)
Definition wait_device_discovery (bdf : Z) : P Z :=
  let* r := search_with (indices 1000) (fun _ reg_value =>
    let* v := val_pcie_read_cfg_width bdf TYPE01_VIDR reg_value W32 in
    ret (if negb (v.2 =? 0xFFFFFFFF) then inl 1 else inr v.2)) 0 in
  ret match r with inl x => x | inr _ => 0 end.

(** The request of a function level reset. *)
Definition request_flr (dev_bdf af_cap_base : Z) : P unit :=
  let* f := val_pcie_read_cfg_width dev_bdf (u32 (af_cap_base + AF_CTRL)) (uninit "flr_reg") W8 in
  val_pcie_write_cfg_width dev_bdf (u32 (af_cap_base + AF_CTRL)) (Z.lor f.2 FLR_EN) W8.

Definition p005_fail (code : Z) {A} : P (Z + A) := ret (inl (RESULT_FAIL (ACS_PCIE_TEST_NUM_BASE + 5) code)).

(** Steps 1 to 3: the header, a function that is not there, unaligned reads. *)
Definition p005_absent (bdf reg_value : Z) : P (Z + Z) :=
  let rp_seg := PCIE_EXTRACT_BDF_SEG bdf in
  let rp_bus := PCIE_EXTRACT_BDF_BUS bdf in
  let* ty := val_pcie_function_header_type bdf in
  if negb (ty =? TYPE1_HEADER) then p005_fail 1 else
  let* nf_bdf := get_nf_bdf rp_seg rp_bus in
  let* x :=
    if nf_bdf =? 0 then ret (Some reg_value) else
    let* r := val_pcie_read_cfg_width nf_bdf TYPE01_VIDR reg_value W32 in
    if (r.1 =? PCIE_NO_MAPPING) || negb (r.2 =? 0xFFFFFFFF) then ret None else
    val_pcie_enable_bme nf_bdf ;;; ret (Some r.2) in
  match x with
  | None => p005_fail 2
  | Some reg_value =>
      let* h := val_pcie_read_cfg_width bdf (TYPE01_VIDR + 1) (uninit "reg_value16") W16 in
      if negb (h.2 =? 0xFFFF) then p005_fail 3 else
      let* r := val_pcie_read_cfg_width bdf (TYPE01_VIDR + 3) reg_value W32 in
      if negb (r.2 =? 0xFFFFFFFF) then p005_fail 4 else ret (inr r.2)
  end.

(** Step 7: reset with retry status invisible. *)
Definition p005_invisible (bdf dev_bdf cap_base af_cap_base reg_value : Z) : P (Z + Z) :=
  let* reg_value := read16 bdf (u32 (cap_base + RTCTRL_OFFSET)) reg_value in
  let* reg_value :=
    if Z.land reg_value CSR_EN_SHIFT =? CSR_ENABLE then
      let reg_value := Z.land reg_value (u32 (Z.lnot CSR_ENABLE)) in
      write16 bdf (u32 (cap_base + RTCTRL_OFFSET)) reg_value ;;; ret reg_value
    else ret reg_value in
  request_flr dev_bdf af_cap_base ;;;
  let* reg_value := read16 bdf TYPE01_VIDR reg_value in
  if negb (reg_value =? 0xFFFF) then p005_fail 6 else
  let* found := wait_device_discovery dev_bdf in
  if found =? 0 then p005_fail 6 else ret (inr reg_value).

(** Step 8: reset with retry status visible. *)
Definition p005_visible (bdf dev_bdf cap_base af_cap_base reg_value : Z) : P (Z + Z) :=
  let* reg_value := read16 bdf (u32 (cap_base + RTCTRL_OFFSET)) reg_value in
  let* reg_value :=
    if negb (Z.land reg_value CSR_EN_SHIFT =? CSR_ENABLE) then
      let reg_value := Z.lor reg_value CSR_ENABLE in
      write16 bdf (u32 (cap_base + RTCTRL_OFFSET)) reg_value ;;; ret reg_value
    else ret reg_value in
  request_flr dev_bdf af_cap_base ;;;
  let* reg_value := read16 bdf TYPE01_VIDR reg_value in
  if negb (reg_value =? 0x0001) then p005_fail 7 else
  let* reg_value := read16 bdf (TYPE01_VIDR + 2) reg_value in
  if negb (reg_value =? 0xFFFF) then p005_fail 7 else
  let* found := wait_device_discovery dev_bdf in
  if found =? 0 then p005_fail 11 else ret (inr reg_value).

(** Step 9: the link is taken down and up. *)
Definition p005_link (bdf cap_base reg_value : Z) : P (Z + Z * Z) :=
  let* c := val_pcie_find_capability bdf PCIE_CAP CID_PCIECS in
  let cap_base := default cap_base c.2 in
  let* r := val_pcie_read_cfg bdf (u32 (cap_base + LCTRLR_OFFSET)) reg_value in
  let* reg_value := link_down bdf cap_base r.2 in
  let* reg_value := read16 bdf TYPE01_VIDR reg_value in
  if negb (reg_value =? 0xFFFF) then p005_fail 12 else
  link_up bdf cap_base reg_value ;;;
  ret (inr (if Z.land reg_value LINK_DISABLE_SHIFT =? LINK_DISABLE then Z.land reg_value (u32 (Z.lnot LINK_DISABLE)) else reg_value, cap_base)).

(** A root port: [inl] is a failure, [inr (false, _)] a [continue]; [reg_value] and
    [cap_base] live on. *)
Definition p005_port (bdf reg_value cap_base : Z) : P (Z + bool * (Z * Z)) :=
  let* x := p005_absent bdf reg_value in
  match x with inl w => ret (inl w) | inr reg_value =>
  let* dev_bdf := check_flr_under_rp bdf in
  if dev_bdf =? 0 then ret (inr (false, (reg_value, cap_base))) else
  let* c := val_pcie_find_capability bdf PCIE_CAP CID_PCIECS in
  let cap_base := default cap_base c.2 in
  let* reg_value := read16 bdf (u32 (cap_base + ROOTCP_OFFSET)) reg_value in
  if negb (Z.land reg_value 0x01 =? 0x01) then ret (inr (false, (reg_value, cap_base))) else
  let* ty := val_pcie_function_header_type dev_bdf in
  if negb (ty =? TYPE0_HEADER) then p005_fail 5 else
  let* a := val_pcie_find_capability dev_bdf PCIE_ECAP ECID_AF in
  let af_cap_base := default (uninit "af_cap_base") a.2 in
  let* x := p005_invisible bdf dev_bdf cap_base af_cap_base reg_value in
  match x with inl w => ret (inl w) | inr reg_value =>
  let* x := p005_visible bdf dev_bdf cap_base af_cap_base reg_value in
  match x with inl w => ret (inl w) | inr reg_value =>
  let* x := p005_link bdf cap_base reg_value in
  ret match x with inl w => inl w | inr l => inr (true, l) end
  end end end.

(** The end of a round, also the target of the exception handler: a failure is final. *)
Definition exception_return (hart_index bdf : Z) : T bool :=
  let* st := on_val (val_get_status hart_index) in
  if IS_TEST_FAIL st then on_pcie (val_pcie_clear_urd bdf) ;;; ret true else ret false.

Definition p005_round (hart_index bdf : Z) (locals : Z * Z * bool) : T (unit + Z * Z * bool) :=
  let '(reg_value, cap_base, test_skip) := locals in
  let* dp_type := on_pcie (val_pcie_device_port_type bdf) in
  let* x := if dp_type =? RP then on_pcie (p005_port bdf reg_value cap_base) else ret (inr (true, (reg_value, cap_base))) in
  let test_skip := test_skip && negb (dp_type =? RP) in
  match x with
  | inl w => on_val (val_set_status hart_index w) ;;; ret (inl tt)
  | inr (false, l) => ret (inr (l, test_skip))
  | inr (true, l) => let* failed := exception_return hart_index bdf in
                     ret (if failed : bool then inl tt else inr (l, test_skip))
  end.

Definition payload_p005 : T unit :=
  let TEST_NUM := ACS_PCIE_TEST_NUM_BASE + 5 in
  let* devs := on_pcie device_list in
  let* hart_index := on_val my_index in
  let* st := on_val install_handlers in
  if negb (st =? 0) then on_val (val_set_status hart_index (RESULT_FAIL TEST_NUM 1)) else
  let* r := search_with devs (p005_round hart_index) (uninit "reg_value", uninit "cap_base", true) in
  match r with
  | inl _ => ret tt
  | inr (_, test_skip) =>
      on_val (val_set_status hart_index (if test_skip : bool then RESULT_SKIP TEST_NUM 1 else RESULT_PASS TEST_NUM 1))
  end.

(** *** p007 and p008: accesses outside the memory window of a port *)

(** A read outside the window must return all ones; the value read lives on. *)
Definition read_outside (TEST_NUM hart_index bdf addr value : Z) : T Z :=
  let* value := on_pcie (val_pcie_bar_mem_read bdf addr value) in
  when (negb (value =? PCIE_UNKNOWN_RESPONSE)) (on_val (val_set_status hart_index (RESULT_FAIL TEST_NUM 3))) ;;;
  ret value.

(** The second check: the link is taken down first, and stays down. *)
Definition read_link_down (TEST_NUM hart_index bdf addr cap_base value : Z) : T (Z * Z) :=
  let* c := on_pcie (val_pcie_find_capability bdf PCIE_CAP CID_PCIECS) in
  let cap_base := default cap_base c.2 in
  let* r := on_pcie (val_pcie_read_cfg bdf (u32 (cap_base + LCTRLR_OFFSET)) (uninit "reg_value")) in
  if negb (Z.land r.2 LINK_DISABLE_SHIFT =? LINK_DISABLE) then
    on_pcie (val_pcie_write_cfg bdf (u32 (cap_base + LCTRLR_OFFSET)) (Z.lor r.2 LINK_DISABLE)) ;;;
    let* value := read_outside TEST_NUM hart_index bdf addr value in ret (cap_base, value)
  else ret (cap_base, value).

(** What is written back. *)
Definition restore_window (bdf mem_lim ori_mem_base : Z) : P unit :=
  when (Z.shiftr ori_mem_base MEM_SHIFT <? Z.shiftr mem_lim MEM_SHIFT)
    (val_pcie_write_cfg bdf TYPE1_P_MEM (u32 (Z.lor (Z.land mem_lim MEM_LIM_MASK) (Z.shiftr ori_mem_base 16))) ;;;
     val_pcie_write_cfg bdf TYPE1_P_MEM_LU (u32 (Z.shiftr mem_lim 32))).

Definition prepare_port (bdf : Z) : P unit :=
  val_pcie_enable_bme bdf ;;; val_pcie_enable_msa bdf ;;; val_pcie_clear_urd bdf.

(** One function: [cap_base] and [value] live on; [inl] ends the test. *)
Definition p007_round (hart_index bdf : Z) (locals : Z * Z * bool) : T (unit + Z * Z * bool) :=
  let TEST_NUM := ACS_PCIE_TEST_NUM_BASE + 7 in
  let '(cap_base, value, test_skip) := locals in
  let* dp_type := on_pcie (val_pcie_device_port_type bdf) in
  if negb (dp_type =? RP) then ret (inr locals) else
  let* n := on_pcie (check_bdf_under_rp bdf) in
  if n =? 0 then ret (inr locals) else
  on_pcie (prepare_port bdf) ;;;
  let* r := on_pcie (val_pcie_read_cfg bdf TYPE1_NP_MEM (uninit "reg_value")) in
  if r.2 =? 0 then ret (inr locals) else
  let mem_base := Z.shiftl (Z.land r.2 MEM_BA_MASK) MEM_BA_SHIFT in
  let mem_lim := Z.lor (Z.land r.2 MEM_LIM_MASK) MEM_LIM_LOWER_BITS in
  if mem_lim <? mem_base then ret (inr locals) else
  let mem_offset := val_pcie_mem_get_offset bdf NON_PREFETCH_MEMORY in
  if mem_lim <? u64 (mem_base + mem_offset) then on_val (val_set_status hart_index (RESULT_FAIL TEST_NUM 2)) ;;; ret (inl tt) else
  let* l :=
    if Z.shiftr mem_base MEM_SHIFT <? Z.shiftr mem_lim MEM_SHIFT then
      let new_mem_lim := mem_base + MEM_OFFSET_LARGE in
      on_pcie (val_pcie_write_cfg bdf TYPE1_NP_MEM (Z.lor mem_base (Z.shiftr mem_base 16))) ;;;
      on_pcie (val_pcie_read_cfg bdf TYPE1_NP_MEM r.2) ;;;
      let* value := read_outside TEST_NUM hart_index bdf (new_mem_lim + MEM_OFFSET_SMALL) value in
      read_link_down TEST_NUM hart_index bdf (new_mem_lim + MEM_OFFSET_SMALL) cap_base value
    else ret (cap_base, value) in
  on_pcie (restore_window bdf mem_lim mem_base) ;;;
  let* failed := exception_return hart_index bdf in
  ret (if failed : bool then inl tt else inr (l, false)).

(** The words of the upper halves live on too, from one port to the next. *)
Definition read_upper (bdf reg_value mem_base_upper mem_lim_upper : Z) : P (Z * Z) :=
  if Z.land reg_value P_MEM_PAC_MASK =? 0x1 then
    let* b := val_pcie_read_cfg bdf TYPE1_P_MEM_BU reg_value in
    let* l := val_pcie_read_cfg bdf TYPE1_P_MEM_LU b.2 in
    ret (b.2, l.2)
  else ret (mem_base_upper, mem_lim_upper).

Definition p008_check (TEST_NUM hart_index bdf mem_base cap_base value mem_base_upper mem_lim_upper : Z) : T (Z * Z * (Z * Z)) :=
  let new_mem_lim := u64 (mem_base + MEM_OFFSET_LARGE) in
  let* w := on_pcie (val_pcie_read_cfg bdf TYPE1_P_MEM (uninit "new_value")) in
  when (Z.land w.2 P_MEM_PAC_MASK =? 0x1) (on_pcie (val_pcie_write_cfg bdf TYPE1_P_MEM_LU (u32 (Z.shiftr mem_base 32)))) ;;;
  on_pcie (val_pcie_write_cfg bdf TYPE1_P_MEM (Z.lor (u32 mem_base) (Z.shiftr (u32 mem_base) 16))) ;;;
  let* r := on_pcie (val_pcie_read_cfg bdf TYPE1_P_MEM w.2) in
  let* up := on_pcie (read_upper bdf r.2 mem_base_upper mem_lim_upper) in
  let* value := read_outside TEST_NUM hart_index bdf (u64 (new_mem_lim + MEM_OFFSET_SMALL)) value in
  let* l := read_link_down TEST_NUM hart_index bdf (u64 (new_mem_lim + MEM_OFFSET_SMALL)) cap_base value in
  ret (l, up).

Definition p008_round (hart_index bdf : Z) (locals : Z * Z * (Z * Z) * bool) : T (unit + Z * Z * (Z * Z) * bool) :=
  let TEST_NUM := ACS_PCIE_TEST_NUM_BASE + 8 in
  let '(cap_base, value, up, test_skip) := locals in
  let* dp_type := on_pcie (val_pcie_device_port_type bdf) in
  if negb (dp_type =? RP) then ret (inr locals) else
  let* n := on_pcie (check_bdf_under_rp bdf) in
  if n =? 0 then ret (inr locals) else
  on_pcie (prepare_port bdf) ;;;
  let* r := on_pcie (val_pcie_read_cfg bdf TYPE1_P_MEM (uninit "reg_value")) in
  if r.2 =? 0 then ret (inr locals) else
  let* up := on_pcie (read_upper bdf r.2 up.1 up.2) in
  let mem_base := Z.lor (Z.shiftl (Z.land r.2 MEM_BA_MASK) MEM_BA_SHIFT) (Z.shiftl up.1 P_MEM_BU_SHIFT) in
  let mem_lim := Z.lor (Z.lor (Z.land r.2 MEM_LIM_MASK) MEM_LIM_LOWER_BITS) (Z.shiftl up.2 P_MEM_LU_SHIFT) in
  if mem_lim <? mem_base then ret (inr (cap_base, value, up, test_skip)) else
  let mem_offset := val_pcie_mem_get_offset bdf PREFETCH_MEMORY in
  if mem_lim <? u64 (mem_base + mem_offset) then on_val (val_set_status hart_index (RESULT_FAIL TEST_NUM 2)) ;;; ret (inl tt) else
  let* l :=
    if Z.shiftr mem_base MEM_SHIFT <? Z.shiftr mem_lim MEM_SHIFT
    then p008_check TEST_NUM hart_index bdf mem_base cap_base value up.1 up.2 else ret (cap_base, value, up) in
  on_pcie (restore_window bdf mem_lim mem_base) ;;;
  let* failed := exception_return hart_index bdf in
  ret (if failed : bool then inl tt else inr (l, false)).

(** The frame of the two tests. *)
Definition window_payload {L} (TEST_NUM : Z) (round : Z -> Z -> L * bool -> T (unit + L * bool)) (l0 : L) : T unit :=
  let* devs := on_pcie device_list in
  let* hart_index := on_val my_index in
  let* st := on_val install_handlers in
  if negb (st =? 0) then on_val (val_set_status hart_index (RESULT_FAIL TEST_NUM 1)) else
  let* r := search_with devs (round hart_index) (l0, true) in
  match r with
  | inl _ => ret tt
  | inr (_, test_skip) =>
      on_val (val_set_status hart_index (if test_skip : bool then RESULT_SKIP TEST_NUM 1 else RESULT_PASS TEST_NUM 1))
  end.
Definition payload_p007 : T unit := window_payload (ACS_PCIE_TEST_NUM_BASE + 7) p007_round (0, uninit "value").
Definition payload_p008 : T unit := window_payload (ACS_PCIE_TEST_NUM_BASE + 8) p008_round (0, uninit "value", (0, 0)).

(** *** The tests *)

Definition os_p001_entry : T Z := os_entry (ACS_PCIE_TEST_NUM_BASE + 1) "ECAM Region accessibility check  " "MF_ECM_010_010" payload_p001.
Definition os_p002_entry (ecam_data : list ecam_space) : T Z :=
  os_entry (ACS_PCIE_TEST_NUM_BASE + 2) "Check the continuity and non-overlapping of ECAM at different hierarchies  "
    "MF_ECM_030_010, MF_ECM_040_010" (payload_p002 ecam_data ;;; ret tt).
Definition os_p003_entry (original_vendor : gmap (Z * Z) Z) : T Z :=
  os_entry (ACS_PCIE_TEST_NUM_BASE + 3) "Check access the configuration space when PCIe link down" "MF_ECAM_060_010"
    (payload_p003 original_vendor ;;; ret tt).
Definition os_p004_entry : T Z :=
  os_entry (ACS_PCIE_TEST_NUM_BASE + 4) "Check RootPort configuration RRS software visibility       " "MF_ECM_070_010" payload_p004.
Definition os_p005_entry : T Z :=
  os_entry (ACS_PCIE_TEST_NUM_BASE + 5) 
    "Check configuration space access behavior under scenarios including:             non-existent devices, post-FLR (Function Level Reset) devices,             CRS (Configuration Request Retry Status) states, and link-down conditions......"
    "MF_ECM_090_010, MF_ECM_100_010" payload_p005.
Definition os_p007_entry : T Z :=
  os_entry (ACS_PCIE_TEST_NUM_BASE + 7) "Check all 1's for accesses memory outside the PCIe bus range or when the link is down..."
    "MF_MMS_040_010, MF_MMS_050_010" payload_p007.
Definition os_p008_entry : T Z :=
  os_entry (ACS_PCIE_TEST_NUM_BASE + 8) "Check all 1's for accesses prefetchable memory outside the PCIe bus range or when the link is down..."
    "MF_MMS_040_010, MF_MMS_050_010" payload_p008.
End BusTests.

(** ** The sort of test p002 *)

(** [a] may come before [b]. *)
Definition before (a b : ecam_space) : Prop := out_of_order a b = false.

#[export] Instance before_trans : Transitive before.
Proof. intros a b c. unfold before, out_of_order. lia. Qed.
Lemma before_total a b : out_of_order a b = true -> before b a.
Proof. unfold before, out_of_order. lia. Qed.

(** One round over the first [m + 1] elements, on the structure of the list. *)
Fixpoint bubble (m : nat) (l : list ecam_space) : list ecam_space :=
  match m, l with
  | S k, x :: y :: l' => if out_of_order x y then y :: bubble k (x :: l') else x :: bubble k (y :: l')
  | _, _ => l
  end.

Lemma sort_step_app pre x y l :
  sort_step (length pre) (pre ++ x :: y :: l) = Done (pre ++ (if out_of_order x y then y :: x :: l else x :: y :: l)).
Proof.
  unfold sort_step. rewrite list_lookup_middle by done.
  replace (pre ++ x :: y :: l) with ((pre ++ [x]) ++ y :: l) by (by rewrite <- app_assoc).
  rewrite list_lookup_middle by (rewrite length_app; simpl; lia). destruct (out_of_order x y); [|by rewrite <- app_assoc].
  f_equal. rewrite (insert_app_r_alt (pre ++ [x])) by (rewrite length_app; simpl; lia).
  rewrite length_app. simpl. replace (S (length pre) - (length pre + 1))%nat with 0%nat by lia. simpl.
  rewrite <- app_assoc. rewrite insert_app_r_alt by lia. by rewrite Nat.sub_diag.
Qed.

Lemma sort_inner_bubble m : forall pre l, (m < length l)%nat ->
  sort_inner (seq (length pre) m) (pre ++ l) = Done (pre ++ bubble m l).
Proof.
  induction m as [|m IH]; intros pre l Hl; [by destruct l|]. destruct l as [|x [|y l]]; simpl in Hl; [lia|lia|].
  cbn [seq sort_inner]. rewrite sort_step_app. cbn [bubble].
  assert (Hgo : forall a b, sort_inner (seq (S (length pre)) m) (pre ++ a :: b :: l) = Done (pre ++ a :: bubble m (b :: l))).
  { intros a b. specialize (IH (pre ++ [a]) (b :: l)). rewrite length_app in IH. simpl in IH.
    replace (length pre + 1)%nat with (S (length pre)) in IH by lia. rewrite <- !app_assoc in IH. apply IH. simpl. lia. }
  destruct (out_of_order x y); apply Hgo.
Qed.

(** The round carries a last element to the end of the first [m + 1]. *)
Lemma bubble_spec m : forall l, (m < length l)%nat -> exists p z,
  bubble m l = p ++ z :: drop (S m) l /\ length p = m /\ p ++ [z] ≡ₚ take (S m) l /\ Forall (fun x => before x z) p.
Proof.
  induction m as [|m IH]; intros l Hl.
  { destruct l as [|x l]; [simpl in Hl; lia|]. exists [], x. simpl. split_and!; try done. }
  destruct l as [|x [|y l]]; simpl in Hl; [lia|lia|]. cbn [bubble].
  assert (Hgo : forall a b, a :: [b] ≡ₚ [x; y] -> before a b -> exists p z,
    a :: bubble m (b :: l) = p ++ z :: drop (S (S m)) (x :: y :: l) /\ length p = S m /\
    p ++ [z] ≡ₚ take (S (S m)) (x :: y :: l) /\ Forall (fun x => before x z) p).
  { intros a b Hp Hab. destruct (IH (b :: l)) as (p & z & E & Hlp & Hperm & Hall); [simpl; lia|].
    exists (a :: p), z. cbn [drop take] in *. split; [by rewrite E|]. split; [simpl; lia|]. split.
    - rewrite <- app_comm_cons, Hperm. change (x :: y :: take m l) with ([x; y] ++ take m l).
      change (a :: b :: take m l) with ([a; b] ++ take m l). by rewrite Hp.
    - constructor; [|done]. assert (Hb : b ∈ p ++ [z]) by (rewrite Hperm; left).
      apply elem_of_app in Hb as [Hb | ->%list_elem_of_singleton]; [|done].
      transitivity b; [done|]. by apply (Forall_forall (fun x => before x z) p). }
  destruct (out_of_order x y) eqn:Ex; [apply Hgo; [apply Permutation_swap|by apply before_total]|by apply Hgo].
Qed.

(** After the rounds, from round [i]: the elements behind the first [n - i] are in order
    and come last. *)
Lemma sort_outer_spec n : forall k i p q rest, (i + k = n - 1)%nat -> (length p = n - i)%nat -> (0 < n)%nat ->
  StronglySorted before q -> (forall x y, x ∈ p -> y ∈ q -> before x y) ->
  exists d, sort_outer n (seq i k) (p ++ q ++ rest) = Done (d ++ rest) /\ d ≡ₚ p ++ q /\ StronglySorted before d.
Proof.
  induction k as [|k IH]; intros i p q rest Hi Hp Hn Hq Hpq; cbn [seq sort_outer].
  - destruct p as [|x [|y p]]; simpl in Hp; [lia| |lia]. exists (x :: q). split; [done|]. split; [done|].
    constructor; [done|]. apply Forall_forall. intros y Hy. apply Hpq; [left|done].
  - pose proof (sort_inner_bubble (n - 1 - i) [] (p ++ q ++ rest)) as E. rewrite length_app in E. simpl in E.
    rewrite E by lia. destruct (bubble_spec (n - 1 - i) (p ++ q ++ rest)) as (p' & z & E' & Hl' & Hperm & Hall); [rewrite length_app; lia|].
    replace (S (n - 1 - i)) with (length p) in E', Hperm by lia. rewrite drop_app_length in E'. rewrite take_app_length in Hperm.
    rewrite E'. change (z :: q ++ rest) with ((z :: q) ++ rest).
    assert (Hz : z ∈ p) by (rewrite <- Hperm; apply elem_of_app; right; left).
    assert (Hp' : forall x, x ∈ p' -> x ∈ p) by (intros x Hx; rewrite <- Hperm; apply elem_of_app; by left).
    destruct (IH (S i) p' (z :: q) rest) as (d & Ed & Hd & Hs); [lia|lia|done| | |].
    + constructor; [done|]. apply Forall_forall. intros y Hy. by apply Hpq.
    + intros x y Hx [->|Hy]%elem_of_cons; [by apply (Forall_forall (fun x => before x z) p')|]. apply Hpq; [by apply Hp'|done].
    + exists d. split; [done|]. split; [|done]. rewrite Hd. rewrite <- Hperm, <- app_assoc. done.
Qed.

(** the regions are sorted: of an array with at least [n] entries the sort returns,
    orders the first [n] by segment and first bus, permutes them, and leaves the others. *)
Theorem sort_ecam_sorts n ecam_data :
  0 < n <= Z.of_nat (length ecam_data) ->
  exists d, sort_ecam_data n ecam_data = Done (d ++ drop (Z.to_nat n) ecam_data) /\
    d ≡ₚ take (Z.to_nat n) ecam_data /\ StronglySorted before d.
Proof.
  intros Hn. unfold sort_ecam_data.
  destruct (sort_outer_spec (Z.to_nat n) (Z.to_nat n - 1) 0 (take (Z.to_nat n) ecam_data) [] (drop (Z.to_nat n) ecam_data))
    as (d & E & Hd & Hs); [lia|rewrite length_take; lia|lia|constructor| |].
  - intros x y _ Hy. by apply not_elem_of_nil in Hy.
  - cbn [app] in E. rewrite take_drop in E. exists d. rewrite app_nil_r in Hd. done.
Qed.

Lemma sort_ecam_sorts_witness :
  let a := mk_space 1 1 0 2 3 in let b := mk_space 2 1 0 0 1 in let c := mk_space 3 1 1 0 1 in
  exists d, sort_ecam_data 3 [c; a; b; a] = Done (d ++ [a]) /\ d ≡ₚ [c; a; b] /\ StronglySorted before d.
Proof. intros a b c. apply (sort_ecam_sorts 3 [c; a; b; a]). simpl. lia. Defined.

(** ** Test p002 checks nothing *)

Section Unchecked.
Context {H : Type} `{RegisterFile H, Uninit, Platform} `{LawfulHarts, CpuArchProtocol}.
Context (s : pcie_state H) (bs : list PCIE_INFO_BLOCK) (Hecam : has_ecams s bs).

Lemma install_zero t esr v : t <= EXCEPT_RISCV_MAX_EXCEPTIONS -> exists h, val_hart_install_esr t esr v = Done (0, set_handlers h v).
Proof.
  intros Ht. destruct (install_esr_frame t esr v Ht) as (r & h & E). exists h. rewrite E.
  unfold val_hart_install_esr in E. destruct (Z.ltb_spec EXCEPT_RISCV_MAX_EXCEPTIONS t); [lia|].
  apply bind_inv in E as (x & v1 & _ & E). by injection E as <- _.
Qed.

Lemma handlers_installed v : exists h, install_handlers v = Done (0, set_handlers h v).
Proof.
  unfold install_handlers.
  destruct (install_zero EXCEPT_AARCH64_SYNCHRONOUS_EXCEPTIONS "esr" v) as (h & E); [by vm_compute|].
  rewrite (bind_done _ _ _ _ _ E).
  destruct (install_zero EXCEPT_AARCH64_SERROR "esr" (set_handlers h v)) as (h' & E'); [by vm_compute|].
  rewrite (bind_done _ _ _ _ _ E'). exists h'. by destruct v.
Qed.

Lemma set_handlers_same h v : same_run v (set_handlers h v).
Proof. by destruct v. Qed.

Lemma region_info i : 0 <= i < Z.of_nat (length bs) -> exists b, bs !! Z.to_nat i = Some b /\
  val_pcie_get_info PCIE_INFO_ECAM i s = Done (ecam_base b, s) /\ val_pcie_get_info PCIE_INFO_START_BUS i s = Done (start_bus_num b, s) /\
  val_pcie_get_info PCIE_INFO_END_BUS i s = Done (end_bus_num b, s) /\ val_pcie_get_info PCIE_INFO_SEGMENT i s = Done (segment_num b, s).
Proof.
  intros Hi. destruct (lookup_lt_is_Some_2 bs (Z.to_nat i)) as [b Hb]; [lia|]. exists b. split; [done|].
  pose proof (get_info_block s bs (Z.to_nat i) b Hecam Hb) as Hg. by rewrite Z2Nat.id in Hg by lia.
Qed.

Context (Hbase : Forall (fun b => ecam_base b <> 0) bs).

Lemma base_nonzero i b : bs !! i = Some b -> (ecam_base b =? 0) = false.
Proof. intros Hb. apply Z.eqb_neq. by apply (Forall_lookup_1 _ _ _ _ Hbase Hb). Qed.

Lemma collect_all n l : forall ed, (forall i, i ∈ l -> 0 <= i < Z.of_nat (length bs)) -> (length bs <= length ed)%nat ->
  exists ed', search_with l (collect_region n) ed s = Done (inr ed', s) /\ length ed' = length ed.
Proof.
  induction l as [|i l IH]; intros ed Hl Hlen; [by exists ed|]. cbn [search_with].
  assert (Hi : 0 <= i < Z.of_nat (length bs)) by (apply Hl; left).
  destruct (region_info i Hi) as (b & Hb & E1 & E2 & E3 & E4).
  assert (E : exists x, collect_region n i ed s = Done (inr (<[Z.to_nat i := x]> ed), s)).
  { unfold collect_region. rewrite (bind_done _ _ _ _ _ E1), (base_nonzero _ b Hb), (bind_done _ _ _ _ _ E4),
      (bind_done _ _ _ _ _ E2), (bind_done _ _ _ _ _ E3). destruct (Z.ltb_spec i (Z.of_nat (length ed))); [by eexists|lia]. }
  destruct E as (x & E). rewrite (bind_done _ _ _ _ _ E).
  destruct (IH (<[Z.to_nat i := x]> ed)) as (ed' & E' & Hl'); [intros j Hj; apply Hl; by right|by rewrite length_insert|].
  exists ed'. by rewrite length_insert in Hl'.
Qed.

Lemma rev_indices_range n i : i ∈ rev (indices n) -> 0 <= i < n.
Proof. rewrite list_elem_of_In, <- in_rev, <- list_elem_of_In. apply elem_of_indices. Qed.

Lemma pass_code n : 0 <= n < 65536 -> concluded (RESULT_PASS n 1) = true /\ verdict_code (RESULT_PASS n 1) = ACS_STATUS_PASS.
Proof.
  intros Hn. unfold concluded, verdict_code, IS_TEST_PASS, IS_TEST_FAIL, IS_TEST_SKIP, RESULT_PASS.
  by rewrite (state_of_word TEST_PASS_VAL n 1) by (unfold TEST_PASS_VAL; lia).
Qed.

Lemma p002_leaves ed me : bs <> [] -> (length bs <= length ed)%nat ->
  leaves (payload_p002 ed ;;; ret tt) s s me (RESULT_PASS (ACS_PCIE_TEST_NUM_BASE + 2) 1).
Proof.
  intros Hne Hlen v Hme Hpos. unfold payload_p002. unfold bind at 1.
  rewrite (bind_done _ _ _ _ _ (on_val_done _ _ s _ _ Hme)).
  destruct (handlers_installed v) as (h & Eh). rewrite (bind_done _ _ _ _ _ (on_val_done _ _ s _ _ Eh)). rewrite Z.eqb_refl. cbn [negb].
  rewrite (bind_done _ _ _ _ _ (on_pcie_done _ (set_handlers h v) _ _ _ (get_info_num s bs Hecam))).
  destruct (Z.eqb_spec (Z.of_nat (length bs)) 0) as [E0|_]; [destruct bs; simpl in E0; [done|lia]|].
  destruct (collect_all (ACS_PCIE_TEST_NUM_BASE + 2) (rev (indices (Z.of_nat (length bs)))) ed) as (ed' & Ec & _);
    [apply rev_indices_range|done|].
  rewrite (bind_done _ _ _ _ _ (on_pcie_done _ (set_handlers h v) _ _ _ Ec)). cbn [indices].
  destruct (set_status_leaves (set_handlers h v) me (RESULT_PASS (ACS_PCIE_TEST_NUM_BASE + 2) 1)) as (v' & E & Hs & Ht & Hw); [by destruct v|].
  exists v'. split.
  - unfold bind at 1. change (1 <? 0) with false. cbv iota.
    change (indices 0) with (@nil Z). cbn [search]. unfold bind at 1, on_pcie, ret at 1. cbn [tpcie tval default].
    by rewrite (bind_done _ _ _ _ _ (on_val_done _ _ s _ _ E)).
  - split; [by transitivity (set_handlers h v); [apply set_handlers_same|]|]. split; [by rewrite Ht; destruct v|done].
Qed.

(** the test of the continuity and the overlap of the ECAM regions checks nothing:
    with at least one and at most 20 regions, whatever they are, it passes. *)
Theorem p002_passes_always ed v me :
  bs <> [] -> (length bs <= 20)%nat -> length ed = 20%nat -> runs v (ACS_PCIE_TEST_NUM_BASE + 2) = true -> options_small v ->
  0 <= me < Z.of_nat (length (shared_mem v)) -> my_index v = Done (me, v) ->
  exists v', os_p002_entry ed (mk_test v s) = Done (ACS_STATUS_PASS, mk_test v' s).
Proof.
  intros Hne Hl Hed Hr Ho Hme Hmy. destruct (pass_code (ACS_PCIE_TEST_NUM_BASE + 2)) as [Hc Hcode]; [by vm_compute|].
  destruct (entry_verdict (ACS_PCIE_TEST_NUM_BASE + 2)
    "Check the continuity and non-overlapping of ECAM at different hierarchies  " "MF_ECM_030_010, MF_ECM_040_010" _ v s s me _
    ltac:(by vm_compute) Ho Hme Hmy (p002_leaves ed me Hne ltac:(lia)) Hc ltac:(lia)) as (r & v' & q & E & -> & Hq & _).
  rewrite Hr in *. subst q. exists v'. unfold os_p002_entry. by rewrite E, Hcode.
Qed.

(** ** Test p001 reads every function of every region *)

(** The first answer of a pure body. *)
Fixpoint first_some {A R} (g : A -> option R) (l : list A) : option R :=
  match l with [] => None | x :: l' => match g x with Some r => Some r | None => first_some g l' end end.

Lemma search_pure {A R} (body : A -> prog (pcie_state H) (option R)) g l :
  (forall x, x ∈ l -> body x s = Done (g x, s)) -> search l body s = Done (first_some g l, s).
Proof.
  induction l as [|x l IH]; intros Hg; [done|]. cbn [search first_some]. rewrite (bind_done _ _ _ _ _ (Hg x ltac:(left))).
  destruct (g x); [done|]. apply IH. intros y Hy. apply Hg. by right.
Qed.

Lemma first_some_cases {A R} (g : A -> option R) l :
  (first_some g l = None /\ forall x, x ∈ l -> g x = None) \/ exists x r, x ∈ l /\ g x = Some r /\ first_some g l = Some r.
Proof.
  induction l as [|x l IH]; [left; split; [done|]; by intros x ?%not_elem_of_nil|]. cbn [first_some].
  destruct (g x) as [r|] eqn:Ex; [right; exists x, r; split; [left|done]|].
  destruct IH as [[E Hn]|(y & r & Hy & Ey & E)]; [left|right; exists y, r; split; [by right|done]].
  split; [done|]. by intros y [->|Hy]%elem_of_cons; [|apply Hn].
Qed.

(** The narrow reads return the low bytes of the register and change nothing. *)
Context (Hread16 : forall h a, a mod 4 = 0 -> (hw_read W16 a h).2 = h /\ u16 (hw_read W16 a h).1 = reg h a mod 2 ^ 16).
Context (Hread8 : forall h a, a mod 4 = 0 -> (hw_read W8 a h).2 = h).

(** The ECAM of a function is known and its vendor is not 0; a function that is not there
    answers all ones. *)
Definition bdf_answers (b : Z) : bool :=
  match cfg_lookup bs b with Some _ => negb (creg (hw s) bs b 0 mod 2 ^ 16 =? 0) | None => false end.
Definition answers (e : PCIE_INFO_BLOCK) (f : Z * Z * Z) : bool :=
  bdf_answers (PCIE_CREATE_BDF (segment_num e) f.1.1 f.1.2 f.2).

Lemma elem_of_upto a b x : x ∈ upto a b <-> a <= x <= b.
Proof.
  unfold upto. rewrite list_elem_of_fmap. split.
  - intros (k & -> & Hk%elem_of_seq). lia.
  - intros Hx. exists (Z.to_nat (x - a)). split; [lia|]. apply elem_of_seq. lia.
Qed.

Lemma elem_of_bus_functions a b x d f : (x, d, f) ∈ bus_functions a b -> a <= x <= b /\ 0 <= d < 32 /\ 0 <= f < 8.
Proof.
  unfold bus_functions. intros (y & [(d' & f') [E1 E2]]%list_elem_of_bind & Hy%elem_of_upto)%list_elem_of_bind.
  apply list_elem_of_singleton in E1. injection E1 as -> -> ->. unfold device_functions in E2.
  apply list_elem_of_bind in E2 as (d0 & (f0 & E3%list_elem_of_singleton & Hf%elem_of_upto)%list_elem_of_bind & Hd%elem_of_upto).
  injection E3 as -> ->. unfold PCIE_MAX_DEV, PCIE_MAX_FUNC in *. cbn [fst snd]. lia.
Qed.

Lemma read_ids_unmapped b : cfg_lookup bs b = None -> read_ids b s = Done (false, s).
Proof.
  intros Hb. pose proof (cfg_addr_spec s bs b Hecam) as Ea. rewrite Hb in Ea. unfold read_ids.
  erewrite bind_done; [|unfold val_pcie_read_cfg_width; by rewrite (bind_done _ _ _ _ _ Ea)]. done.
Qed.

Lemma read_ids_mapped b : mapped bs b -> read_ids b s = Done (negb (creg (hw s) bs b 0 mod 2 ^ 16 =? 0), s).
Proof.
  intros Hm. pose proof Hm as [a Ha]. pose proof Hecam as (_ & _ & Hok).
  destruct (cfg_lookup_Some _ _ _ Hok Ha) as (_ & _ & _ & _ & _ & _ & _ & _ & _ & Ha0 & Ha1 & Ham).
  pose proof (cfg_addr_spec s bs b Hecam) as Ea. rewrite Ha in Ea. unfold read_ids.
  pose proof (read_cfg_spec s bs b TYPE01_VIDR (uninit "data32") Hecam Hm ltac:(by vm_compute)) as E32. unfold val_pcie_read_cfg in E32.
  rewrite (bind_done _ _ _ _ _ E32). cbn [fst snd]. change (0 =? PCIE_NO_MAPPING) with false. cbn [orb]. change TYPE01_VIDR with 0.
  set (w := creg (hw s) bs b 0).
  assert (E16 : val_pcie_read_cfg_width b 0 (uninit "data16") W16 s = Done ((0, w mod 2 ^ 16), s)).
  { unfold val_pcie_read_cfg_width. rewrite (bind_done _ _ _ _ _ Ea), Z.add_0_r, u64_small by lia.
    unfold on_hw, mmio_read_width, pal_mmio_read16, bind. destruct (Hread16 (hw s) a) as [E1 E2]; [lia|].
    rewrite E1, E2. subst w. unfold creg. rewrite Ha. change (0 - 0 mod 4) with 0. rewrite Z.add_0_r. by destruct s. }
  assert (E8 : exists x, val_pcie_read_cfg_width b TYPE01_RIDR (uninit "data8") W8 s = Done ((0, x), s)).
  { unfold val_pcie_read_cfg_width. rewrite (bind_done _ _ _ _ _ Ea). change TYPE01_RIDR with 8. rewrite u64_small by lia.
    unfold on_hw, mmio_read_width, pal_mmio_read8, bind. rewrite (Hread8 (hw s) (a + 8)) by lia. eexists. by destruct s. }
  destruct E8 as [x E8]. destruct (Z.eqb_spec w 0) as [->|Hw]; [done|].
  rewrite (bind_done _ _ _ _ _ E16). cbn [fst snd]. change (0 =? PCIE_NO_MAPPING) with false. cbn [orb].
  destruct (w mod 2 ^ 16 =? 0); [done|]. by rewrite (bind_done _ _ _ _ _ E8).
Qed.

Lemma read_ids_done b : read_ids b s = Done (bdf_answers b, s).
Proof.
  unfold bdf_answers. destruct (cfg_lookup bs b) as [a|] eqn:E; [|by apply read_ids_unmapped].
  apply read_ids_mapped. by exists a.
Qed.

(** The words of a region, in the order of its functions: one without a base gives one,
    and every function that does not answer gives one with its bus and device. *)
Definition region_words (n : Z) (e : PCIE_INFO_BLOCK) : list Z :=
  if ecam_base e =? 0 then [RESULT_SKIP n 1]
  else (fun f : Z * Z * Z => RESULT_FAIL n (f.1.1 * 256 + f.1.2)) <$> List.filter (fun f => negb (answers e f)) (bus_functions (start_bus_num e) (end_bus_num e)).

(** The word that the test leaves: the first of all regions, from the last region on. *)
Definition p001_word (n : Z) : Z :=
  match bs with [] => RESULT_SKIP n 1 | _ => default (RESULT_PASS n 1) (head (rev bs ≫= region_words n)) end.

Lemma first_some_head {A R} (g : A -> option R) (k : A -> list R) l :
  (forall x, x ∈ l -> g x = head (k x)) -> first_some g l = head (l ≫= k).
Proof.
  induction l as [|x l IH]; intros Hg; [done|]. cbn [first_some]. rewrite (Hg x ltac:(left)). cbn [mbind list_bind].
  destruct (k x) as [|r t]; [|done]. cbn [head app]. apply IH. intros y Hy. apply Hg. by right.
Qed.

Lemma head_filter {A R} (p : A -> bool) (g : A -> R) l :
  first_some (fun x => if p x then None else Some (g x)) l = head (g <$> List.filter (fun x => negb (p x)) l).
Proof. induction l as [|x l IH]; [done|]. cbn [first_some List.filter]. by destruct (p x). Qed.

Lemma check_region_done n i e : 0 <= i -> bs !! Z.to_nat i = Some e -> check_region n i s = Done (head (region_words n e), s).
Proof.
  intros Hi He. pose proof (lookup_lt_Some _ _ _ He). destruct (region_info i) as (e' & He' & E1 & E2 & E3 & E4); [lia|].
  assert (e' = e) as -> by congruence. unfold check_region, region_words.
  rewrite (bind_done _ _ _ _ _ E1). destruct (ecam_base e =? 0); [done|].
  rewrite (bind_done _ _ _ _ _ E4), (bind_done _ _ _ _ _ E2), (bind_done _ _ _ _ _ E3).
  rewrite <- head_filter. apply search_pure. intros [[x d] f] (Hx & Hd & _)%elem_of_bus_functions.
  rewrite (bind_done _ _ _ _ _ (read_ids_done _)). unfold answers. cbn [fst snd].
  replace (Z.lor (Z.shiftl x 8) d) with (x * 256 + d); [by destruct (bdf_answers _)|].
  pose proof Hecam as (_ & _ & Hok). pose proof (Forall_lookup_1 _ _ _ _ Hok He) as (_ & Hse & _).
  rewrite lor_shiftl_add by lia. lia.
Qed.

Lemma lor_small n a b : 0 <= n -> 0 <= a < 2 ^ n -> 0 <= b < 2 ^ n -> 0 <= Z.lor a b < 2 ^ n.
Proof.
  intros Hn Ha Hb. assert (E : Z.lor a b mod 2 ^ n = Z.lor a b).
  { rewrite <- Z.land_ones by lia. rewrite Z.land_lor_distr_l, !Z.land_ones, !Z.mod_small by lia. done. }
  rewrite <- E. apply Z.mod_pos_bound. lia.
Qed.

(** The place of a function may reach into the bits of the test number, not into the verdict. *)
Lemma place_code n x d : 0 <= n < 65536 -> 0 <= x < 256 -> 0 <= d < 32 ->
  let w := RESULT_FAIL n (Z.lor (Z.shiftl x 8) d) in concluded w = true /\ verdict_code w = ACS_STATUS_FAIL.
Proof.
  intros Hn Hx Hd w. assert (E : state_of w = TEST_FAIL_VAL).
  { subst w. unfold RESULT_FAIL, status_word, state_of, STATE_BIT, STATE_MASK, TEST_NUM_BIT. rewrite <- Z.lor_assoc.
    set (y := Z.lor (Z.shiftl n 12) _). assert (Hy : 0 <= y < 2 ^ 28).
    { apply lor_small; [lia|rewrite Z.shiftl_mul_pow2; lia|]. apply lor_small; [lia|rewrite Z.shiftl_mul_pow2; lia|lia]. }
    rewrite lor_shiftl_add by lia. unfold TEST_FAIL_VAL. rewrite u32_small by lia.
    change 0xF with (Z.ones 4). rewrite Z.land_ones, Z.shiftr_div_pow2 by lia. lia. }
  unfold concluded, verdict_code, IS_TEST_PASS, IS_TEST_FAIL, IS_TEST_SKIP. by rewrite E.
Qed.

(** Every function of a region answers. *)
Definition region_answers (e : PCIE_INFO_BLOCK) : Prop :=
  ecam_base e <> 0 /\ forall f, f ∈ bus_functions (start_bus_num e) (end_bus_num e) -> answers e f = true.

Lemma region_words_code n e w : 0 <= n < 65536 -> e ∈ bs -> w ∈ region_words n e ->
  concluded w = true /\ verdict_code w <> ACS_STATUS_PASS.
Proof.
  intros Hn He. pose proof Hecam as (_ & _ & Hok). pose proof (proj1 (Forall_forall _ _) Hok e He) as (_ & Hse & Hend & _).
  unfold region_words. destruct (ecam_base e =? 0).
  - intros ->%list_elem_of_singleton. unfold concluded, verdict_code, IS_TEST_PASS, IS_TEST_FAIL, IS_TEST_SKIP, RESULT_SKIP.
    by rewrite (state_of_word TEST_SKIP_VAL n 1) by (unfold TEST_SKIP_VAL; lia).
  - intros ([[x d] f] & -> & Hf%list_elem_of_In%filter_In)%list_elem_of_fmap. destruct Hf as [Hf _].
    apply list_elem_of_In, elem_of_bus_functions in Hf as (Hx & Hd & _). cbn [fst snd].
    destruct (place_code n x d) as [Hc Hv]; [lia|lia|lia|]. rewrite lor_shiftl_add in Hc, Hv by lia.
    replace (x * 2 ^ 8 + d) with (x * 256 + d) in * by lia. split; [done|]. by rewrite Hv.
Qed.

Lemma region_words_none n e : region_words n e = [] <-> region_answers e.
Proof.
  unfold region_words, region_answers. destruct (Z.eqb_spec (ecam_base e) 0) as [E|E]; [split; [done|by intros [? _]]|].
  split.
  - intros Hn. split; [done|]. intros f Hf. apply fmap_nil_inv in Hn.
    destruct (answers e f) eqn:Ef; [done|]. exfalso.
    assert (Hin : f ∈ List.filter (fun f => negb (answers e f)) (bus_functions (start_bus_num e) (end_bus_num e))).
    { apply list_elem_of_In, filter_In. split; [by apply list_elem_of_In|by rewrite Ef]. }
    rewrite Hn in Hin. by apply not_elem_of_nil in Hin.
  - intros [_ Hall]. induction (bus_functions _ _) as [|f l IH]; [done|]. cbn [List.filter].
    rewrite (Hall f) by left. cbn [negb]. apply IH. intros g Hg. apply Hall. by right.
Qed.

Lemma p001_word_code n : 0 <= n < 65536 ->
  concluded (p001_word n) = true /\
  (verdict_code (p001_word n) = ACS_STATUS_PASS <-> bs <> [] /\ forall e, e ∈ bs -> region_answers e).
Proof.
  clear Hbase. intros Hn. destruct (decide (bs = [])) as [Ebs|Hne].
  { unfold p001_word. rewrite Ebs. unfold concluded, verdict_code, IS_TEST_PASS, IS_TEST_FAIL, IS_TEST_SKIP, RESULT_SKIP.
    rewrite (state_of_word TEST_SKIP_VAL n 1) by (unfold TEST_SKIP_VAL; lia). split; [done|]. split; [done|by intros [? _]]. }
  assert (p001_word n = default (RESULT_PASS n 1) (head (rev bs ≫= region_words n))) as -> by (unfold p001_word; by destruct bs).
  assert (Hin : forall e, e ∈ rev bs <-> e ∈ bs) by (intros e; by rewrite !list_elem_of_In, <- in_rev).
  destruct (rev bs ≫= region_words n) as [|w ws] eqn:E; cbn [head from_option].
  - destruct (pass_code n Hn) as [Hc Hp]. split; [done|]. split; [|done]. intros _. split; [done|].
    intros e He. apply (region_words_none n). destruct (region_words n e) as [|w ws] eqn:Ew; [done|]. exfalso.
    assert (Hw : w ∈ rev bs ≫= region_words n). { apply list_elem_of_bind. exists e. rewrite Ew. split; [left|by apply Hin]. }
    rewrite E in Hw. by apply not_elem_of_nil in Hw.
  - assert (Hw : w ∈ rev bs ≫= region_words n) by (rewrite E; left).
    apply list_elem_of_bind in Hw as (e & Hw & He%Hin). destruct (region_words_code n e w Hn He Hw) as [Hc Hv].
    split; [done|]. split; [done|]. intros [_ Hall]. apply Hall, (region_words_none n) in He. rewrite He in Hw.
    by apply not_elem_of_nil in Hw.
Qed.

Lemma regions_searched n : search (rev (indices (Z.of_nat (length bs)))) (check_region n) s = Done (head (rev bs ≫= region_words n), s).
Proof.
  clear Hbase. assert (El : bs ≫= (fun e => [Some e]) = (fun i => bs !! Z.to_nat i) <$> indices (Z.of_nat (length bs))).
  { apply list_eq. intros i. rewrite list_lookup_fmap.
    replace (bs ≫= (fun e => [Some e])) with (Some <$> bs) by (induction bs as [|e l IH]; [done|]; cbn; by f_equal).
    rewrite list_lookup_fmap. unfold indices. rewrite list_lookup_fmap.
    destruct (bs !! i) as [e|] eqn:He.
    - rewrite lookup_seq_lt by (rewrite Nat2Z.id; by eapply lookup_lt_Some). cbn. by rewrite Nat2Z.id, He.
    - rewrite lookup_seq_ge; [done|]. rewrite Nat2Z.id. by apply lookup_ge_None. }
  rewrite (search_pure _ (fun i => bs !! Z.to_nat i ≫= (fun e => head (region_words n e)))).
  2: { intros i Hi%rev_indices_range. destruct (lookup_lt_is_Some_2 bs (Z.to_nat i)) as [e He]; [lia|].
       rewrite He. apply check_region_done; [lia|done]. }
  f_equal. f_equal. transitivity (first_some (fun e => head (region_words n e)) (rev bs)); [|by apply first_some_head].
  transitivity (first_some (fun o : option PCIE_INFO_BLOCK => o ≫= (fun e => head (region_words n e)))
    (rev ((fun i => bs !! Z.to_nat i) <$> indices (Z.of_nat (length bs))))).
  - rewrite <- map_rev. induction (rev (indices _)) as [|i l IH]; [done|]. cbn. destruct (bs !! Z.to_nat i) as [e|]; cbn; [|exact IH]. destruct (head _); [done|exact IH].
  - rewrite <- El. replace (bs ≫= (fun e => [Some e])) with (map Some bs) by (clear; induction bs as [|e l IH]; [done|]; cbn; by f_equal).
    rewrite <- map_rev. induction (rev bs) as [|e l IH]; [done|]. cbn. destruct (head _); [done|exact IH].
Qed.

Lemma p001_leaves me : leaves payload_p001 s s me (p001_word (ACS_PCIE_TEST_NUM_BASE + 1)).
Proof.
  clear Hbase. intros v Hme Hpos. unfold payload_p001. rewrite (bind_done _ _ _ _ _ (on_val_done _ _ s _ _ Hme)).
  destruct (handlers_installed v) as (h & Eh). rewrite (bind_done _ _ _ _ _ (on_val_done _ _ s _ _ Eh)). rewrite Z.eqb_refl. cbn [negb].
  rewrite (bind_done _ _ _ _ _ (on_pcie_done _ (set_handlers h v) _ _ _ (get_info_num s bs Hecam))).
  destruct (set_status_leaves (set_handlers h v) me (p001_word (ACS_PCIE_TEST_NUM_BASE + 1))) as (v' & E & Hs & Ht & Hw); [by destruct v|].
  exists v'. split.
  - pose proof (regions_searched (ACS_PCIE_TEST_NUM_BASE + 1)) as Es. unfold p001_word in E.
    destruct bs as [|e0 bs'] eqn:Ebs; [exact (on_val_done _ _ s _ _ E)|].
    destruct (Z.eqb_spec (Z.of_nat (length (e0 :: bs'))) 0) as [E0|_]; [simpl in E0; lia|].
    rewrite (bind_done _ _ _ _ _ (on_pcie_done _ (set_handlers h v) _ _ _ Es)). exact (on_val_done _ _ s _ _ E).
  - split; [by transitivity (set_handlers h v); [apply set_handlers_same|]|]. split; [by rewrite Ht; destruct v|done].
Qed.

(** C12: the test of the ECAM regions returns and leaves the hardware as it is.  When the
    options select it, its hart ends with the first word of the regions, taken from the last
    region on: SKIP for a region without a base, or FAIL with the bus and the device of the
    first function of a region that is not reached or whose vendor reads 0; PASS if there is no
    such word, and SKIP without regions.  The answer of the test is the verdict of that word,
    and it is PASS exactly when there are regions, all with a base, and every function of
    every one answers. *)
Theorem ecam_test_verdict v me :
  let t := ACS_PCIE_TEST_NUM_BASE + 1 in
  options_small v -> 0 <= me < Z.of_nat (length (shared_mem v)) -> my_index v = Done (me, v) ->
  (verdict_code (p001_word t) = ACS_STATUS_PASS <-> bs <> [] /\ forall e, e ∈ bs -> region_answers e) /\
  exists v', os_p001_entry (mk_test v s) =
    Done (if runs v t then verdict_code (p001_word t) else ACS_STATUS_SKIP, mk_test v' s) /\
    hart_is (Z.eqb (if runs v t then p001_word t else RESULT_SKIP t 0)) (shared_mem v') me.
Proof.
  intros t Ho Hme Hmy. destruct (p001_word_code t) as [Hc Hcode]; [by vm_compute|]. split; [exact Hcode|].
  destruct (entry_word t "ECAM Region accessibility check  " "MF_ECM_010_010" _ v s s me _
    ltac:(by vm_compute) Ho Hme Hmy (p001_leaves me) Hc ltac:(lia)) as (r & v' & q & E & (-> & -> & _) & Hw).
  exists v'. unfold os_p001_entry. fold t. split; [|exact Hw]. rewrite E. by destruct (runs v t).
Qed.
End Unchecked.

(** ** Test p005 never gets past the first reset *)

Section Reset.
Context {H : Type} `{Hardware H, Uninit, Platform}.

Definition high (x : Z) : Z := Z.land x 0xFFFF0000.

Lemma high_low x y : 0 <= y < 2 ^ 16 -> high (Z.lor (high x) y) = high x.
Proof.
  intros Hy. unfold high. rewrite Z.land_lor_distr_l, <- Z.land_assoc, Z.land_diag.
  replace (Z.land y 0xFFFF0000) with 0; [by rewrite Z.lor_0_r|].
  symmetry. change 0xFFFF0000 with (Z.shiftl 0xFFFF 16). replace y with (Z.land y (Z.ones 16)) by (rewrite Z.land_ones by lia; apply Z.mod_small; lia).
  rewrite <- Z.land_assoc. change (Z.land (Z.ones 16) (Z.shiftl 0xFFFF 16)) with 0. apply Z.land_0_r.
Qed.

Lemma read16_high b off r (s s' : pcie_state H) v : read16 b off r s = Done (v, s') -> high v = high r.
Proof.
  unfold read16, val_pcie_read_cfg_width. intros E. apply bind_inv in E as (x & s1 & E & Ev). injection Ev as <- _.
  apply bind_inv in E as ([a|] & s2 & _ & E); [|injection E as <- _; done].
  apply bind_inv in E as (y & s3 & E & Ey). injection Ey as <- _. cbn [fst snd]. change (0 =? PCIE_NO_MAPPING) with false. cbv iota.
  apply high_low. unfold on_hw, mmio_read_width, pal_mmio_read16 in E. injection E as <- _. apply Z.mod_pos_bound. lia.
Qed.

(** The unaligned read of step 3 leaves all ones in the variable, and the reads of 16
    bits of the next steps keep its upper half: the vendor never compares equal to 0xFFFF. *)
Lemma invisible_fails b dev c a r (s s' : pcie_state H) x :
  high r = 0xFFFF0000 -> p005_invisible b dev c a r s <> Done (inr x, s').
Proof.
  intros Hr E. unfold p005_invisible in E. apply bind_inv in E as (r1 & s1 & E1 & E). apply read16_high in E1.
  apply bind_inv in E as (r2 & s2 & E2 & E).
  assert (Hh : high r2 = 0xFFFF0000).
  { destruct (Z.land r1 CSR_EN_SHIFT =? CSR_ENABLE); [|injection E2 as <- _; congruence].
    apply bind_inv in E2 as (_ & s3 & _ & E2). injection E2 as <- _. unfold high in *. rewrite <- Z.land_assoc.
    change (Z.land (u32 (Z.lnot CSR_ENABLE)) 0xFFFF0000) with 0xFFFF0000. congruence. }
  apply bind_inv in E as (_ & s4 & _ & E). apply bind_inv in E as (r3 & s5 & E3 & E). apply read16_high in E3.
  destruct (Z.eqb_spec r3 0xFFFF) as [->|]; cbn [negb] in E; [|discriminate E].
  rewrite Hh in E3. discriminate E3.
Qed.

(** No root port passes the resets: the test ends a port with a failure, or leaves it
    before them. *)
Lemma p005_resets_fail b r c (s s' : pcie_state H) l : p005_port b r c s <> Done (inr (true, l), s').
Proof.
  intros E. unfold p005_port in E. apply bind_inv in E as ([w|r1] & s1 & E1 & E); [discriminate E|].
  assert (Hr1 : r1 = 0xFFFFFFFF).
  { unfold p005_absent in E1. apply bind_inv in E1 as (ty & s2 & _ & E1). destruct (negb _); [discriminate E1|].
    apply bind_inv in E1 as (nf & s3 & _ & E1). apply bind_inv in E1 as ([x|] & s4 & _ & E1); [|discriminate E1].
    apply bind_inv in E1 as (h & s5 & _ & E1). destruct (negb _); [discriminate E1|].
    apply bind_inv in E1 as (y & s6 & _ & E1). destruct (Z.eqb_spec y.2 0xFFFFFFFF) as [Ey|]; cbn [negb] in E1; [|discriminate E1].
    injection E1 as <- _. done. }
  apply bind_inv in E as (dev & s2 & _ & E). destruct (dev =? 0); [discriminate E|].
  apply bind_inv in E as (cp & s3 & _ & E). apply bind_inv in E as (r2 & s4 & E2 & E). apply read16_high in E2.
  destruct (negb _); [discriminate E|]. apply bind_inv in E as (ty & s5 & _ & E). destruct (negb _); [discriminate E|].
  apply bind_inv in E as (af & s6 & _ & E). apply bind_inv in E as ([w|r3] & s7 & E7 & E); [discriminate E|].
  apply invisible_fails in E7; [done|]. rewrite E2, Hr1. done.
Qed.
End Reset.

(** ** Samples *)

Module Sample.
Import PcieTests.Sample.

(** Two regions at the same place. *)
Definition overlapping : list PCIE_INFO_BLOCK := [mk_block 0x30000000 0 0 1; mk_block 0x30000000 1 0 1].
Definition pcie_overlapping : pcie_state board := set_info_table (Some (mk_info 2 overlapping)) pcie0.
Definition no_space : ecam_space := mk_space 0 0 0 0 0.

Lemma overlapping_ecams : has_ecams pcie_overlapping overlapping.
Proof. split; [done|]. split; [done|]. unfold overlapping, block_ok. repeat constructor; simpl; lia. Qed.

Lemma p002_passes_always_witness :
  exists v', os_p002_entry (replicate 20 no_space) (mk_test state_run pcie_overlapping) = Done (ACS_STATUS_PASS, mk_test v' pcie_overlapping).
Proof.
  apply (p002_passes_always pcie_overlapping overlapping overlapping_ecams ltac:(by repeat constructor) (replicate 20 no_space) state_run 0);
    first [done|simpl; lia|by vm_compute].
Defined.

(** At 0:01:01.0 the vendor reads 0. *)
Definition pcie_mute : pcie_state board := set_hw {[ 0x30108000 := 0xFFFF0000 ]} pcie0.

(** Where nothing is there every function answers all ones; the mute function is found,
    with its bus and device. *)
Lemma ecam_test_verdict_witness :
  (exists v', os_p001_entry (mk_test state_run pcie0) = Done (ACS_STATUS_PASS, mk_test v' pcie0) /\
    hart_is (Z.eqb (RESULT_PASS 801 1)) (shared_mem v') 0) /\
  (exists v', os_p001_entry (mk_test state_run pcie_mute) = Done (ACS_STATUS_FAIL, mk_test v' pcie_mute) /\
    hart_is (Z.eqb (RESULT_FAIL 801 0x101)) (shared_mem v') 0).
Proof.
  split.
  - destruct (ecam_test_verdict pcie0 ecams0 (pcie0_ecams ∅) ltac:(done) ltac:(done) state_run 0
      ltac:(by vm_compute) ltac:(by vm_compute) ltac:(by vm_compute)) as (_ & v' & E & Hw).
    exists v'. rewrite E. split; [by vm_compute|]. by vm_compute in Hw.
  - destruct (ecam_test_verdict pcie_mute ecams0 (pcie0_ecams _) ltac:(done) ltac:(done) state_run 0
      ltac:(by vm_compute) ltac:(by vm_compute) ltac:(by vm_compute)) as (_ & v' & E & Hw).
    exists v'. rewrite E. split; [by vm_compute|]. by vm_compute in Hw.
Defined.

(** A root port at 0:00:00.0 with a function behind it and a window of 3 MB at 0x80000000. *)
Definition board_window : board :=
  list_to_map [(0x30000034, 0x40); (0x30000040, 0x00420010); (0x30000018, 0x00010100); (0x30000020, 0x80208000); (0x30000004, 0);
    (0x30000048, 0); (0x30000050, 0); (0x30000024, 0); (0x3000002C, 0); (0x30100000, 0x12345678); (0x30100008, 0xFF000000)].
Definition pcie_window : pcie_state board := set_bdf_table (Some (mk_bdf_table 1 [mk_attr 0 0])) (set_hw board_window pcie0).

(** The test passes.  Afterwards the window of the port is not what it was, its
    prefetchable window holds the old value of the other, and the link is down. *)
Lemma p007_leaves_port_changed :
  match payload_p007 (fun _ _ => 0x10) (fun _ _ _ => ret PCIE_UNKNOWN_RESPONSE) (mk_test state_run pcie_window) with
  | Done (_, s') => (status <$> shared_mem (tval s') !! 0%nat, hw (tpcie s') !! 0x30000020, hw (tpcie s') !! 0x30000024, hw (tpcie s') !! 0x30000050) =
      (Some (RESULT_PASS 807 1), Some 0x80008000, Some 0x80208000, Some 0x10)
  | _ => False
  end.
Proof. by vm_compute. Qed.
End Sample.
