(* ===== verification/AmlTest.v ===== *)
(** * The test that looks for host bridges in the DSDT

    Models [test_pool/pcie/operating_system/riscv/test_os_p006.c]: the AML code of the
    DSDT is searched for devices with a name that starts with PCI, and their resources
    for a 32-bit and a 64-bit memory range.  The table is read only: it is an argument
    of the programs, whose state is the static variables of the test.  Messages are left
    out. *)

From S2P Require Import Prelude Status Hart Infra Mmio Bytes PcieCfg PcieTests Tests.

Definition AML_DEVICE_OP_BYTE0 : Z := 0x5B.
Definition AML_DEVICE_OP_BYTE1 : Z := 0x82.
Definition AML_END_TAG : Z := 0x79.
Definition AML_QWORD_MEM_OP : Z := 0x8A.
Definition AML_DWORD_MEM_OP : Z := 0x87.
Definition AML_DWORD_MEM_BYTE_OP : Z := 0x01.
Definition AML_CRS_BUFFER_OP : Z := 0x11.
Definition PCIE_CRS_LEN : Z := 100.
Definition CRS_MEM_FLAG_LEN : Z := 4.
Definition MAX_MMIO_RANGE_NUM : Z := 10.

Record pcie_mmio_range := mk_range { mem32_start : Z; mem32_len : Z; mem64_start : Z; mem64_len : Z }.
Record hosts := mk_hosts { host_num : Z; mmio_range : list pcie_mmio_range }.

Section Aml.
Context (m : bytes).
Local Abbreviation P := (prog hosts).

Definition load (n : nat) (a : Z) : P Z := deref (load_le n a m).
Definition byte (a : Z) : P Z := deref (m !! a).

(** The comparison of at most [len] characters with a constant, whose end is a zero. *)
Fixpoint strncmp_loop (fuel : nat) (str1 : Z) (str2 : list Z) (len : Z) : P Z :=
  match fuel with
  | O => diverge
  | S k =>
      let c2 := default 0 (head str2) in
      if 1 <? len then
        let* c1 := byte str1 in
        if negb (c1 =? 0) && negb (c2 =? 0) && (c1 =? c2) then strncmp_loop k (str1 + 1) (tail str2) (len - 1)
        else ret (u8 (c1 - c2))
      else let* c1 := byte str1 in ret (u8 (c1 - c2))
  end.
Definition strncmp (str1 : Z) (str2 : list Z) (len : Z) : P Z :=
  if (str1 =? 0) || (len =? 0) then ret 1 else strncmp_loop (S (length str2)) str1 str2 len.

(** The length and the pointer behind it. *)
Definition parse_pkg_length (ptr : Z) : P (Z * Z) :=
  let* b0 := byte ptr in
  if Z.land b0 0xC0 =? 0x00 then ret (Z.land b0 0x3F, ptr + 1)
  else if Z.land b0 0xC0 =? 0x40 then
    let* b1 := byte (ptr + 1) in ret (Z.lor (Z.shiftl b1 4) (Z.land b0 0x0F), ptr + 2)
  else if Z.land b0 0xC0 =? 0x80 then
    let* b2 := byte (ptr + 2) in
    let* b1 := byte (ptr + 1) in
    ret (Z.lor (Z.lor (Z.shiftl b2 12) (Z.shiftl b1 4)) (Z.land b0 0x0F), ptr + 3)
  else ret (0, ptr).

(** A store into the entry of the current host bridge. *)
Definition set_range (f : pcie_mmio_range -> pcie_mmio_range) : P unit :=
  let* h := gets host_num in
  let* l := gets mmio_range in
  let* r := deref (at_index l h) in
  modify (fun s => mk_hosts (host_num s) (<[Z.to_nat h := f r]> l)).

Definition qword_range (ptr : Z) : P unit :=
  let offset := 1 + 1 + CRS_MEM_FLAG_LEN + 8 in
  let* v := load 8 (ptr + offset) in
  set_range (fun r => mk_range (mem32_start r) (mem32_len r) v (mem64_len r)) ;;;
  let* v := load 8 (ptr + offset + 24) in
  set_range (fun r => mk_range (mem32_start r) (mem32_len r) (mem64_start r) v).
Definition dword_range (ptr : Z) : P unit :=
  let offset := 1 + 1 + CRS_MEM_FLAG_LEN + 4 in
  let* v := load 4 (ptr + offset) in
  set_range (fun r => mk_range v (mem32_len r) (mem64_start r) (mem64_len r)) ;;;
  let* v := load 4 (ptr + offset + 12) in
  set_range (fun r => mk_range (mem32_start r) v (mem64_start r) (mem64_len r)).

(** The resources from [ptr] to [crs_end]; every round goes at least one byte on. *)
Fixpoint parse_crs_loop (fuel : nat) (ptr crs_end : Z) : P unit :=
  match fuel with
  | O => diverge
  | S k =>
      if ptr <? crs_end then
        let* op := byte ptr in
        if op =? AML_END_TAG then ret tt
        else if op =? AML_QWORD_MEM_OP then qword_range ptr ;;; parse_crs_loop k (ptr + 0x2B) crs_end
        else if op =? AML_DWORD_MEM_OP then
          let offset := 1 + 1 + 3 in
          let* b := byte (ptr + offset) in
          if negb (b =? AML_DWORD_MEM_BYTE_OP) then parse_crs_loop k (ptr + offset) crs_end
          else dword_range ptr ;;; parse_crs_loop k (ptr + 0x17) crs_end
        else parse_crs_loop k (ptr + 1) crs_end
      else ret tt
  end.
(** The ranges of the bridges found so far are printed in the end. *)
Definition parse_crs (crs_start crs_end : Z) : P unit :=
  parse_crs_loop (S (Z.to_nat (crs_end - crs_start))) crs_start crs_end ;;;
  let* n := gets host_num in
  let* l := gets mmio_range in
  let* _ := deref (mapM (fun i => at_index l i) (indices (n + 1))) in
  ret tt.

(** The characters of the names. *)
Definition PCI : list Z := [0x50; 0x43; 0x49].
Definition CRS : list Z := [0x5F; 0x43; 0x52; 0x53].

(** The search for the resources of a device. *)
Fixpoint device_loop (fuel : nat) (cur_ptr device_end : Z) : P unit :=
  match fuel with
  | O => diverge
  | S k =>
      if cur_ptr <? device_end then
        let* c := strncmp cur_ptr CRS 4 in
        let* is_crs := if c =? 0 then let* b := byte (cur_ptr + 4) in ret (b =? AML_CRS_BUFFER_OP) else ret false in
        if is_crs : bool then
          let* x := parse_pkg_length (cur_ptr + 5) in
          when (PCIE_CRS_LEN <? x.1) (parse_crs x.2 (x.2 + x.1)) ;;;
          device_loop k (x.2 + x.1) device_end
        else device_loop k (cur_ptr + 1) device_end
      else ret tt
  end.

(** The search for devices: a device is skipped by its length. *)
Fixpoint bridges_loop (fuel : nat) (aml_start table_end : Z) : P Z :=
  match fuel with
  | O => diverge
  | S k =>
      if aml_start <? table_end then
        let* b0 := byte aml_start in
        let* is_device := if b0 =? AML_DEVICE_OP_BYTE0 then let* b1 := byte (aml_start + 1) in ret (b1 =? AML_DEVICE_OP_BYTE1) else ret false in
        if is_device : bool then
          let* x := parse_pkg_length (aml_start + 2) in
          let '(pkg_length, cur_ptr) := x in
          let* c := strncmp cur_ptr PCI 3 in
          (if c =? 0 then
             let device_end := cur_ptr + pkg_length in
             device_loop (S (Z.to_nat (device_end - (cur_ptr + 4)))) (cur_ptr + 4) device_end ;;;
             modify (fun s => mk_hosts (u8 (host_num s + 1)) (mmio_range s))
           else ret tt) ;;;
          bridges_loop k (aml_start + pkg_length) table_end
        else bridges_loop k (aml_start + 1) table_end
      else ret 0
  end.
Definition find_pci_host_bridges (fuel : nat) (ptr : Z) : P Z :=
  modify (fun s => mk_hosts 0 (mmio_range s)) ;;;
  let* table_length := load 4 (ptr + 4) in
  bridges_loop fuel ptr (ptr + table_length).

(** The status words that the payload sets, in order; the last one stays. *)
Definition payload_p006 (fuel : nat) (dsdt_ptr : Z) : P (list Z) :=
  let TEST_NUM := ACS_PCIE_TEST_NUM_BASE + 6 in
  when (negb (dsdt_ptr =? 0)) (find_pci_host_bridges fuel dsdt_ptr ;;; ret tt) ;;;
  let* n := gets host_num in
  let* l := gets mmio_range in
  let* words :=
    if negb (n =? 0) then
      let* rs := deref (mapM (fun i => at_index l i) (indices n)) in
      ret ((fun _ => RESULT_SKIP TEST_NUM 1) <$> filter (fun r => mem64_len r = 0 \/ mem32_len r = 0) rs)
    else ret [] in
  ret (words ++ [if n =? 0 then RESULT_SKIP TEST_NUM 1 else RESULT_PASS TEST_NUM 1]).

(** The test: [pal_get_dsdt_ptr] is the answer of the port, which is asked only when
    there is an ECAM region. *)
Context {H : Type} `{Hardware H, SecondaryHarts, CpuArchProtocol} (pal_get_dsdt_ptr : Z).
Definition set_words (fuel : nat) (h : hosts) : prog (test_state H) unit :=
  let* hart_index := on_val my_index in
  let* num_ecam := on_pcie (val_pcie_get_info PCIE_INFO_NUM_ECAM 0) in
  match payload_p006 fuel (if num_ecam =? 0 then 0 else pal_get_dsdt_ptr) h with
  | Done (words, _) => on_val (foldr (fun w k => val_set_status hart_index w ;;; k) (ret tt) words)
  | Undefined => undef
  | Diverges => diverge
  end.
Definition os_p006_entry (fuel : nat) (h : hosts) : prog (test_state H) Z :=
  os_entry (ACS_PCIE_TEST_NUM_BASE + 6) "Verify each host bridge has a memory range available for 64-bit BARs and 32-bit BARs"
    "ME_MMS_010_010, ME_MMS_020_010" (set_words fuel h).
End Aml.

(** ** Lengths are read back *)

(** The AML encoding of a package length below 2^20. *)
Definition encode_length (n : Z) : list Z :=
  if n <? 64 then [n]
  else if n <? 2 ^ 12 then [0x40 + n mod 16; n / 16]
  else [0x80 + n mod 16; n / 16 mod 256; n / 2 ^ 12].

Definition bytes_at (m : bytes) (a : Z) (l : list Z) : Prop := forall i b, l !! i = Some b -> m !! (a + Z.of_nat i) = Some b.

Lemma byte_at m a l i b s : bytes_at m a l -> l !! i = Some b -> byte m (a + Z.of_nat i) s = Done (b, s).
Proof. intros Hm Hi. unfold byte. by rewrite (Hm i b Hi). Qed.

(** The two top bits and the six others of a byte. *)
Lemma top_bits b : 0 <= b < 256 -> Z.land b 0xC0 = 64 * (b / 64) /\ Z.land b 0x3F = b mod 64.
Proof.
  intros Hb. split; [|change 0x3F with (Z.ones 6); by rewrite Z.land_ones by lia].
  assert (Hall : forallb (fun k => Z.land (Z.of_nat k) 0xC0 =? 64 * (Z.of_nat k / 64)) (seq 0 256) = true) by (by vm_compute).
  rewrite forallb_forall in Hall. specialize (Hall (Z.to_nat b)). rewrite Z2Nat.id in Hall by lia.
  apply Z.eqb_eq, Hall, in_seq. lia.
Qed.

(** a package length is read back: for a length below 2^20 in its AML encoding the
    parser returns the length and the address behind it. *)
Theorem pkg_length_roundtrip m a n s :
  0 <= n < 2 ^ 20 -> bytes_at m a (encode_length n) ->
  parse_pkg_length m a s = Done ((n, a + Z.of_nat (length (encode_length n))), s).
Proof.
  intros Hn Hm. unfold encode_length in *. unfold parse_pkg_length.
  assert (Hb0 : forall b l, bytes_at m a (b :: l) -> byte m a s = Done (b, s)).
  { intros b l Hb. rewrite <- (Z.add_0_r a) at 1. apply (byte_at m a (b :: l) 0 b s Hb). done. }
  destruct (Z.ltb_spec n 64); [|destruct (Z.ltb_spec n (2 ^ 12))]; rewrite (bind_done _ _ _ _ _ (Hb0 _ _ Hm)).
  - destruct (top_bits n) as [-> ->]; [lia|]. replace (64 * (n / 64) =? 0x00) with true by (symmetry; apply Z.eqb_eq; lia).
    unfold ret. simpl. do 3 f_equal; lia.
  - destruct (top_bits (0x40 + n mod 16)) as [-> _]; [lia|]. replace (64 * ((0x40 + n mod 16) / 64)) with 0x40 by lia.
    change (0x40 =? 0x00) with false. rewrite Z.eqb_refl.
    rewrite (bind_done _ _ _ _ _ (byte_at m a _ 1 (n / 16) s Hm eq_refl)), land_15.
    rewrite lor_shiftl_add by lia. unfold ret. simpl. do 3 f_equal; lia.
  - destruct (top_bits (0x80 + n mod 16)) as [-> _]; [lia|]. replace (64 * ((0x80 + n mod 16) / 64)) with 0x80 by lia.
    change (0x80 =? 0x00) with false. change (0x80 =? 0x40) with false. rewrite Z.eqb_refl.
    rewrite (bind_done _ _ _ _ _ (byte_at m a _ 2 (n / 2 ^ 12) s Hm eq_refl)), (bind_done _ _ _ _ _ (byte_at m a _ 1 (n / 16 mod 256) s Hm eq_refl)), land_15.
    replace (Z.lor (Z.shiftl (n / 2 ^ 12) 12) (Z.shiftl (n / 16 mod 256) 4)) with (Z.shiftl (n / 16) 4).
    + rewrite lor_shiftl_add by lia. unfold ret. simpl. do 3 f_equal; lia.
    + rewrite lor_shiftl_add by (rewrite ?Z.shiftl_mul_pow2; lia). rewrite !Z.shiftl_mul_pow2 by lia. lia.
Qed.

(** A device whose length takes four bytes is never left: its length is read as 0, and
    the search stays where it is. *)
Lemma long_device_hangs m a b table_end s :
  m !! a = Some 0x5B -> m !! (a + 1) = Some 0x82 -> m !! (a + 2) = Some b -> 0xC0 <= b < 256 -> a < table_end -> 0 < a ->
  forall fuel, bridges_loop m fuel a table_end s = Diverges.
Proof.
  intros E0 E1 E2 Hb Ht Ha. induction fuel as [|fuel IH]; [done|]. cbn [bridges_loop].
  destruct (Z.ltb_spec a table_end); [|lia].
  assert (Eb : forall x y, m !! x = Some y -> byte m x s = Done (y, s)) by (intros x y Hx; unfold byte; by rewrite Hx).
  rewrite (bind_done _ _ _ _ _ (Eb _ _ E0)).
  assert (Ed : (if 0x5B =? AML_DEVICE_OP_BYTE0 then let* b1 := byte m (a + 1) in ret (b1 =? AML_DEVICE_OP_BYTE1) else ret false) s = Done (true, s))
    by (change (0x5B =? AML_DEVICE_OP_BYTE0) with true; cbv iota; by rewrite (bind_done _ _ _ _ _ (Eb _ _ E1))).
  rewrite (bind_done _ _ _ _ _ Ed).
  assert (Ep : parse_pkg_length m (a + 2) s = Done ((0, a + 2), s)).
  { unfold parse_pkg_length. rewrite (bind_done _ _ _ _ _ (Eb _ _ E2)). destruct (top_bits b) as [-> _]; [lia|].
    replace (64 * (b / 64)) with 0xC0 by lia. done. }
  rewrite (bind_done _ _ _ _ _ Ep).
  assert (Es : strncmp m (a + 2) PCI 3 s = Done (u8 (b - 0x50), s)).
  { unfold strncmp. destruct (Z.eqb_spec (a + 2) 0); [lia|]. change (false || (3 =? 0)) with false. cbv iota. cbn [strncmp_loop length PCI].
    change (1 <? 3) with true. cbv iota. rewrite (bind_done _ _ _ _ _ (Eb _ _ E2)). cbn -[u8 Z.eqb Z.sub].
    destruct (Z.eqb_spec b 0x50); [lia|]. by rewrite andb_false_r. }
  rewrite (bind_done _ _ _ _ _ Es). rewrite u8_small by lia. destruct (Z.eqb_spec (b - 0x50) 0); [lia|].
  unfold bind at 1, ret at 1. rewrite Z.add_0_r. apply IH.
Qed.

(** The verdict says only whether a host bridge was found: the word set for a bridge
    without a range is overwritten. *)
Lemma p006_verdict m fuel dsdt_ptr s ws s' :
  payload_p006 m fuel dsdt_ptr s = Done (ws, s') ->
  last ws = Some (if host_num s' =? 0 then RESULT_SKIP (ACS_PCIE_TEST_NUM_BASE + 6) 1 else RESULT_PASS (ACS_PCIE_TEST_NUM_BASE + 6) 1).
Proof.
  unfold payload_p006. intros E. apply bind_inv in E as (_ & s1 & _ & E). unfold bind at 1 2, gets in E.
  apply bind_inv in E as (words & s2 & E2 & E). injection E as <- <-. rewrite last_snoc.
  assert (s2 = s1) as ->; [|done]. destruct (negb (host_num s1 =? 0)); [|by injection E2].
  apply bind_inv in E2 as (rs & s3 & E3 & E2). injection E2 as _ <-. unfold deref in E3. destruct (mapM _ _); [|discriminate E3]. by injection E3.
Qed.

Module Sample.
Definition memory1 : bytes := {[ 0x100 := 0x4B; 0x101 := 0x12 ]}.
Lemma pkg_length_roundtrip_witness :
  parse_pkg_length memory1 0x100 (mk_hosts 0 []) = Done ((0x12B, 0x102), mk_hosts 0 []).
Proof. apply (pkg_length_roundtrip memory1 0x100 0x12B (mk_hosts 0 [])); [lia|]. intros [|[|i]] b; [by intros [= <-]..|done]. Defined.
End Sample.
