(* ===== verification/IommuTests.v ===== *)
(** * IOMMU tests

    Models [test_pool/iommu/operating_system/]: tests iom001 to iom026.  Most read a
    register of every IOMMU of the table and stop at the first one that breaks the
    rule; the others start from the functions of the device table and ask which IOMMU
    governs them.  The port's root bridge accesses and the hart's CSRs are parameters.
    Messages are left out. *)

From S2P Require Import Prelude Status Hart Infra Mmio Bytes PcieCfg PcieCap PcieTable Iommu BmPcie PcieTests Tests.

Definition ACS_IOMMU_TEST_NUM_BASE : Z := 1200.
Definition RISCV_IOMMU_REG_CAP : Z := 0x0.
Definition RISCV_IOMMU_REG_FCTL : Z := 0x8.
Definition RISCV_IOMMU_REG_DDTP : Z := 0x10.
Definition RISCV_IOMMU_CAP_VERSION_MSK : Z := 0xFF.
Definition RISCV_IOMMU_CAP_VERSION_1_0 : Z := 0x10.
Definition RISCV_IOMMU_CAP_MSIFLAT_MSK : Z := Z.shiftl 1 22.
Definition MSIFLAT_ENABLE : Z := Z.shiftl 1 22.
Definition RISCV_IOMMU_DDTP_LVL_MSK : Z := 0xf.
Definition RISCV_IOMMU_DDTP_LVL_1 : Z := 2.
Definition RISCV_IOMMU_DDTP_LVL_2 : Z := 3.
Definition RISCV_IOMMU_DDTP_LVL_3 : Z := 4.
Definition DDTP_LVL_1_BASE_WIDTH : Z := 7.
Definition DDTP_LVL_2_BASE_WIDTH : Z := 16.
Definition DDTP_LVL_3_BASE_WIDTH : Z := 24.
Definition DDTP_LVL_1_EXTENDED_WIDTH : Z := 6.
Definition DDTP_LVL_2_EXTENDED_WIDTH : Z := 15.
Definition DDTP_LVL_3_EXTENDED_WIDTH : Z := 24.
Definition RISCV_IOMMU_CAP_SV39_MSK : Z := Z.shiftl 1 9.
Definition RISCV_IOMMU_CAP_SV48_MSK : Z := Z.shiftl 1 10.
Definition RISCV_IOMMU_CAP_SV57_MSK : Z := Z.shiftl 1 11.
Definition SATP_MODE_SV39 : Z := 0.
Definition SATP_MODE_SV48 : Z := 1.
Definition SATP_MODE_SV57 : Z := 2.
Definition RISCV_IOMMU_CAP_MSI_MRIF_MSK : Z := Z.shiftl 1 23.
Definition RISCV_IOMMU_CAP_AMO_MRIF_MSK : Z := Z.shiftl 1 21.
Definition RISCV_IOMMU_CAP_MSI_MRIF_BIT : Z := 23.
Definition RISCV_IOMMU_CAP_AMO_MRIF_BIT : Z := 21.
Definition RISCV_IOMMU_CAP_ATS_MSK : Z := Z.shiftl 1 25.
Definition ATS_CAP_ID : Z := 0xF.
Definition RISCV_IOMMU_CAP_IGS_MSK : Z := Z.shiftl 3 28.
Definition RISCV_IOMMU_CAP_IGS_BIT : Z := 28.
Definition RISCV_IOMMU_CAP_IGS_MSI : Z := 0.
Definition RISCV_IOMMU_CAP_IGS_BOTH : Z := 2.
Definition RISCV_IOMMU_FCTL_BE_MSK : Z := 1.
Definition RISCV_IOMMU_FCTL_BE_RO_0 : Z := 1.
Definition RISCV_IOMMU_FCTL_BE_W : Z := 2.
Definition RISCV_IOMMU_CAP_PD8_MSK : Z := Z.shiftl 1 38.
Definition RISCV_IOMMU_CAP_PD17_MSK : Z := Z.shiftl 1 39.
Definition RISCV_IOMMU_CAP_PD20_MSK : Z := Z.shiftl 1 40.
Definition RISCV_IOMMU_CAP_PD8_BIT : Z := 38.
Definition RISCV_IOMMU_CAP_PD17_BIT : Z := 39.
Definition RISCV_IOMMU_CAP_PD20_BIT : Z := 40.
Definition RISCV_IOMMU_CAP_HPM_MSK : Z := Z.shiftl 1 30.
Definition RISCV_IOMMU_CAP_HPM_BIT : Z := 30.
Definition RISCV_IOMMU_REG_IOCOUNTOVF : Z := 88.
Definition RISCV_IOMMU_REG_IOCOUNTINH : Z := 92.
Definition RISCV_IOMMU_REG_IOCOUNT_HPM_MSK : Z := 0xFFFFFFFE.
Definition RISCV_IOMMU_REG_IOHPMCYCLES : Z := 96.
Definition RISCV_IOMMU_REG_COUNTER_MSK : Z := 0xFFFFFFFFFF.
Definition RISCV_IOMMU_REG_IOHPMCTRL1 : Z := 104.
Definition RISCV_IOMMU_CAP_PAS_MSK : Z := Z.shiftl 0x3F 32.
Definition RISCV_IOMMU_CAP_PAS_BIT : Z := 32.
Definition CSR_REG_HGATP : Z := 0x680.
Definition CSR_HGATP_MODE_MSK : Z := Z.shiftl 3 30.
Definition CSR_HGATP_MODE_BIT : Z := 30.
Definition PCIE_BASECLASS_IOMMU : Z := 0x08.
Definition PCIE_SUBCLASS_IOMMU : Z := 0x06.
Definition CC_BASE_MASK : Z := 0xFF.
Definition CC_SUB_MASK : Z := 0xFF.
Definition IOMMU_MAP_MAX : Z := 30.

(** ** Rules of the capability register *)

(** A field: [(reg & mask) >> bit]. *)
Definition field (reg mask bit : Z) : Z := Z.shiftr (Z.land reg mask) bit.

Definition cap_iom001 (reg_cap : Z) : bool := Z.land reg_cap RISCV_IOMMU_CAP_VERSION_MSK =? RISCV_IOMMU_CAP_VERSION_1_0.
(** For the mode of the hart; any other mode is accepted. *)
Definition cap_iom005 (mmu_type reg_cap : Z) : bool :=
  let has m := Z.land reg_cap m =? m in
  if (mmu_type =? SATP_MODE_SV39) && negb (has RISCV_IOMMU_CAP_SV39_MSK) then false
  else if (mmu_type =? SATP_MODE_SV48) && negb (has RISCV_IOMMU_CAP_SV48_MSK) then false
  else negb ((mmu_type =? SATP_MODE_SV57) && negb (has RISCV_IOMMU_CAP_SV57_MSK)).
Definition cap_iom008 (reg_cap : Z) : bool :=
  field reg_cap RISCV_IOMMU_CAP_MSI_MRIF_MSK RISCV_IOMMU_CAP_MSI_MRIF_BIT =? field reg_cap RISCV_IOMMU_CAP_AMO_MRIF_MSK RISCV_IOMMU_CAP_AMO_MRIF_BIT.
Definition cap_iom013 (reg_cap : Z) : bool :=
  let igs := field reg_cap RISCV_IOMMU_CAP_IGS_MSK RISCV_IOMMU_CAP_IGS_BIT in
  negb (negb (igs =? RISCV_IOMMU_CAP_IGS_MSI) && negb (igs =? RISCV_IOMMU_CAP_IGS_BOTH)).
Definition cap_iom017 (reg_cap : Z) : bool :=
  let pd20 := field reg_cap RISCV_IOMMU_CAP_PD20_MSK RISCV_IOMMU_CAP_PD20_BIT in
  if (field reg_cap RISCV_IOMMU_CAP_PD8_MSK RISCV_IOMMU_CAP_PD8_BIT =? 1) || (field reg_cap RISCV_IOMMU_CAP_PD17_MSK RISCV_IOMMU_CAP_PD17_BIT =? 1) || (pd20 =? 1)
  then pd20 =? 1 else true.
(** [pa_bits * 4096] is compared with a field of six bits. *)
Definition cap_iom022 (pa_bits reg_cap : Z) : bool :=
  negb (u8 (field reg_cap RISCV_IOMMU_CAP_PAS_MSK RISCV_IOMMU_CAP_PAS_BIT) <=? pa_bits * 4096).

Section IommuTests.
Context {H : Type} `{Hardware H, Uninit, Platform, SecondaryHarts, CpuArchProtocol}.
Context (tbl : iommu_state) (exerciser : Z -> option Z).
Context (bar_read : Z -> Z -> prog (pcie_state H) (option Z)) (bar_write : Z -> Z -> Z -> prog (pcie_state H) unit).
(** [csr_read]: a CSR of the hart. [val_strstr str sub]: does [sub] occur in [str]? *)
Context (csr_read : Z -> Z) (val_strstr : string -> string -> bool).
Local Abbreviation P := (prog (pcie_state H)).
Local Abbreviation T := (prog (test_state H)).
Local Abbreviation read_reg := (val_iommu_read_iommu_reg tbl exerciser bar_read).
Local Abbreviation write_reg := (val_iommu_write_iommu_reg tbl exerciser bar_write).

(** ** Every IOMMU *)

(** The loop over the table: is every IOMMU accepted?  It stops at the first that is not. *)
Definition each_iommu (check : Z -> P bool) (iommu_num : Z) : P bool :=
  let* r := search (range 0 (iommu_num - 1)) (fun index =>
    let* ty := val_iommu_get_info tbl index IOMMU_INFO_TYPE in
    if ty =? RIMT_IOMMU then let* ok := check index in ret (if ok : bool then None else Some tt) else ret None) in
  ret match r with Some _ => false | None => true end.

(** Failure at once, or success. *)
Definition verdict (TEST_NUM hart_index : Z) (ok : bool) : T unit :=
  on_val (val_set_status hart_index (if ok then RESULT_PASS TEST_NUM 1 else RESULT_FAIL TEST_NUM 1)).

(** Tests of one field of the capability register. *)
Definition check_cap (rule : Z -> bool) (index : Z) : P bool :=
  let* reg_cap := read_reg index RISCV_IOMMU_REG_CAP 2 in ret (rule reg_cap).
Definition cap_payload (TEST_NUM : Z) (rule : Z -> bool) : T unit :=
  let* hart_index := on_val my_index in
  let* iommu_num := on_pcie (val_iommu_get_num tbl) in
  let* ok := on_pcie (each_iommu (check_cap rule) iommu_num) in
  verdict TEST_NUM hart_index ok.

Definition payload_iom001 : T unit := cap_payload (ACS_IOMMU_TEST_NUM_BASE + 1) cap_iom001.
Definition payload_iom008 : T unit := cap_payload (ACS_IOMMU_TEST_NUM_BASE + 8) cap_iom008.
Definition payload_iom013 : T unit := cap_payload (ACS_IOMMU_TEST_NUM_BASE + 13) cap_iom013.
Definition payload_iom017 : T unit := cap_payload (ACS_IOMMU_TEST_NUM_BASE + 17) cap_iom017.

(** The mode of the hart: the first of three that its ISA string names. *)
Definition hart_mode (hart_index : Z) : prog val_state Z :=
  let* o := val_hart_get_isa_string hart_index in
  let* isa_string := deref o in
  if val_strstr isa_string "sv39" then ret SATP_MODE_SV39
  else if val_strstr isa_string "sv48" then ret SATP_MODE_SV48
  else if val_strstr isa_string "sv57" then ret SATP_MODE_SV57
  else let* t := val_hart_get_mmu_type hart_index in ret (u8 t).
Definition payload_iom005 : T unit :=
  let TEST_NUM := ACS_IOMMU_TEST_NUM_BASE + 5 in
  let* hart_index := on_val my_index in
  let* iommu_num := on_pcie (val_iommu_get_num tbl) in
  let* mmu_type := on_val (hart_mode hart_index) in
  if mmu_type =? 0xff then on_val (val_set_status hart_index (RESULT_SKIP TEST_NUM 1)) else
  let* ok := on_pcie (each_iommu (check_cap (cap_iom005 mmu_type)) iommu_num) in
  verdict TEST_NUM hart_index ok.

(** The mode field is two bits wide here; modes 2 and 3 leave [pa_bits] unset. *)
Definition payload_iom022 : T unit :=
  let TEST_NUM := ACS_IOMMU_TEST_NUM_BASE + 22 in
  let* hart_index := on_val my_index in
  let* iommu_num := on_pcie (val_iommu_get_num tbl) in
  let hgatp_mode := u8 (field (csr_read CSR_REG_HGATP) CSR_HGATP_MODE_MSK CSR_HGATP_MODE_BIT) in
  if hgatp_mode =? 0 then on_val (val_set_status hart_index (RESULT_SKIP TEST_NUM 1)) else
  let pa_bits :=
    if (hgatp_mode =? 0x8) || (hgatp_mode =? 0x9) || (hgatp_mode =? 0xA) then 56 - 12
    else if hgatp_mode =? 0x1 then 34 - 12 else u8 (uninit "pa_bits") in
  let* ok := on_pcie (each_iommu (check_cap (cap_iom022 pa_bits)) iommu_num) in
  verdict TEST_NUM hart_index ok.

(** *** iom014: the byte order bit; the two modes are static variables *)

Definition check_iom014 (index : Z) (modes : Z * Z) : P (Z * Z + Z * Z) :=
  let '(be_mode, be_mode_next) := modes in
  let* reg_fctl_old := read_reg index RISCV_IOMMU_REG_FCTL 1 in
  let clear := Z.land reg_fctl_old RISCV_IOMMU_FCTL_BE_MSK =? 0 in
  let be_mode_next := if clear then RISCV_IOMMU_FCTL_BE_RO_0 else be_mode_next in
  let reg_fctl := if clear then Z.lor reg_fctl_old RISCV_IOMMU_FCTL_BE_MSK
                  else Z.land reg_fctl_old (u64 (Z.lnot RISCV_IOMMU_FCTL_BE_MSK)) in
  write_reg index RISCV_IOMMU_REG_FCTL 1 reg_fctl ;;;
  let* reg_fctl_new := read_reg index RISCV_IOMMU_REG_FCTL 1 in
  let* be_mode_next :=
    if reg_fctl_new =? reg_fctl then write_reg index RISCV_IOMMU_REG_FCTL 1 reg_fctl_old ;;; ret RISCV_IOMMU_FCTL_BE_W
    else ret be_mode_next in
  if negb (be_mode_next =? RISCV_IOMMU_FCTL_BE_RO_0) && negb (be_mode_next =? RISCV_IOMMU_FCTL_BE_W) then ret (inl (be_mode, be_mode_next))
  else if (0 <? index) && negb (be_mode_next =? be_mode) then ret (inl (be_mode, be_mode_next))
  else ret (inr (be_mode_next, be_mode_next)).
Definition payload_iom014 (modes : Z * Z) : T (Z * Z) :=
  let* hart_index := on_val my_index in
  let* iommu_num := on_pcie (val_iommu_get_num tbl) in
  let* r := on_pcie (search_with (range 0 (iommu_num - 1)) (fun index l =>
    let* ty := val_iommu_get_info tbl index IOMMU_INFO_TYPE in
    if ty =? RIMT_IOMMU then check_iom014 index l else ret (inr l)) modes) in
  verdict (ACS_IOMMU_TEST_NUM_BASE + 14) hart_index (match r with inl _ => false | inr _ => true end) ;;;
  ret match r with inl l | inr l => l end.

(** *** iom019: the performance counters *)

(** A register gets all ones in the field [mask] and must keep them. *)
Definition set_ones (index offset num mask : Z) (kept : Z -> Z -> bool) : P (Z * bool) :=
  let* old := read_reg index offset num in
  let new := Z.lor old mask in
  write_reg index offset num new ;;;
  let* back := read_reg index offset num in
  ret (old, kept back new).

(** One of the four counters; in the end the value of the cycle counter is written. *)
Definition check_hpm (index reg_iohpmcycles_old count : Z) : P (option unit) :=
  let offset := RISCV_IOMMU_REG_IOHPMCTRL1 + 8 * count in
  let* reg_iohpmctrl_old := read_reg index offset 2 in
  let reg_iohpmctrl := Z.land reg_iohpmctrl_old (u64 (Z.lnot RISCV_IOMMU_REG_COUNTER_MSK)) in
  write_reg index offset 2 reg_iohpmctrl ;;;
  let* reg_iohpmctrl_new := read_reg index offset 2 in
  if negb (reg_iohpmctrl_new =? reg_iohpmctrl) then ret (Some tt) else
  let reg_iohpmctrl := Z.lor reg_iohpmctrl_old RISCV_IOMMU_REG_COUNTER_MSK in
  write_reg index offset 2 reg_iohpmctrl ;;;
  let* reg_iohpmctrl_new := read_reg index offset 2 in
  if negb (reg_iohpmctrl_new =? reg_iohpmctrl) then ret (Some tt) else
  write_reg index offset 2 reg_iohpmcycles_old ;;; ret None.

(** The values with the overflow or cycle bit inverted are overwritten before they are
    written to the device. *)
Definition check_iom019 (index : Z) : P bool :=
  let* reg_cap := read_reg index RISCV_IOMMU_REG_CAP 2 in
  if field reg_cap RISCV_IOMMU_CAP_HPM_MSK RISCV_IOMMU_CAP_HPM_BIT =? 0 then ret true else
  let* c := set_ones index RISCV_IOMMU_REG_IOHPMCYCLES 2 RISCV_IOMMU_REG_COUNTER_MSK (fun back new => negb (back <? new)) in
  if negb c.2 then ret false else
  write_reg index RISCV_IOMMU_REG_IOHPMCYCLES 2 c.1 ;;;
  let* r := search (indices 4) (check_hpm index c.1) in
  match r with
  | Some _ => ret false
  | None =>
      let* o := set_ones index RISCV_IOMMU_REG_IOCOUNTOVF 1 RISCV_IOMMU_REG_IOCOUNT_HPM_MSK Z.eqb in
      if negb o.2 then ret false else
      write_reg index RISCV_IOMMU_REG_IOCOUNTOVF 1 o.1 ;;;
      let* i := set_ones index RISCV_IOMMU_REG_IOCOUNTINH 1 RISCV_IOMMU_REG_IOCOUNT_HPM_MSK Z.eqb in
      if negb i.2 then ret false else
      write_reg index RISCV_IOMMU_REG_IOCOUNTINH 1 i.1 ;;; ret true
  end.
Definition payload_iom019 : T unit :=
  let* hart_index := on_val my_index in
  let* iommu_num := on_pcie (val_iommu_get_num tbl) in
  let* ok := on_pcie (each_iommu check_iom019 iommu_num) in
  verdict (ACS_IOMMU_TEST_NUM_BASE + 19) hart_index ok.

(** ** The IOMMUs that govern functions *)

(** [ret] lives on; 0xff means that no function was concerned. *)
Definition check_iom002 (bdf ret_ : Z) : P (Z + Z) :=
  let* dp_type := val_pcie_device_port_type bdf in
  if (dp_type =? RCiEP) || (dp_type =? RP) then
    let* r := val_iommu_check_governing_iommu tbl bdf in
    ret (if r.1 =? 0 then inl (RESULT_FAIL (ACS_IOMMU_TEST_NUM_BASE + 2) 1) else inr r.1)
  else ret (inr ret_).
(** The word at the end of tests iom002, iom003, iom004 and iom026. *)
Definition last_word (TEST_NUM ret_ : Z) : Z := if ret_ =? 1 then RESULT_PASS TEST_NUM 1 else RESULT_SKIP TEST_NUM 1.
Definition payload_iom002 : T unit :=
  let* hart_index := on_val my_index in
  let* devs := on_pcie device_list in
  let* r := on_pcie (search_with devs check_iom002 0xff) in
  on_val (val_set_status hart_index (match r with inl w => w | inr ret_ => last_word (ACS_IOMMU_TEST_NUM_BASE + 2) ret_ end)).

(** *** iom003: the levels of the device directory *)

Definition ddtp_level (reg_ddtp : Z) : Z := Z.land reg_ddtp RISCV_IOMMU_DDTP_LVL_MSK.
Definition msi_flat (reg_cap : Z) : bool := Z.land reg_cap RISCV_IOMMU_CAP_MSIFLAT_MSK =? MSIFLAT_ENABLE.
Definition check_iommu_cap_ddtp_reg (index : Z) : P Z :=
  let* iommu_num := val_iommu_get_num tbl in
  if iommu_num <=? index then ret 0 else
  let* ty := val_iommu_get_info tbl index IOMMU_INFO_TYPE in
  if ty =? RIMT_IOMMU then
    let* reg_cap := read_reg index RISCV_IOMMU_REG_CAP 2 in
    let* reg_ddtp := read_reg index RISCV_IOMMU_REG_DDTP 2 in
    ret (if negb (msi_flat reg_cap)
         then if (ddtp_level reg_ddtp =? RISCV_IOMMU_DDTP_LVL_2) || (ddtp_level reg_ddtp =? RISCV_IOMMU_DDTP_LVL_3) then 1 else 0
         else if ddtp_level reg_ddtp =? RISCV_IOMMU_DDTP_LVL_3 then 1 else 0)
  else ret 0.
Definition check_iom003 (bdf : Z) (locals : Z * Z) : P (Z + Z * Z) :=
  let fail := RESULT_FAIL (ACS_IOMMU_TEST_NUM_BASE + 3) 1 in
  let* dp_type := val_pcie_device_port_type bdf in
  if dp_type =? RP then
    let* r := val_iommu_check_governing_iommu tbl bdf in
    if r.1 =? 0 then ret (inl fail) else
    let iommu_index := default locals.2 r.2 in
    let* ret_ := check_iommu_cap_ddtp_reg iommu_index in
    ret (if ret_ =? 0 then inl fail else inr (ret_, iommu_index))
  else ret (inr locals).
Definition payload_iom003 : T unit :=
  let* hart_index := on_val my_index in
  let* devs := on_pcie device_list in
  let* r := on_pcie (search_with devs check_iom003 (0xff, 0)) in
  on_val (val_set_status hart_index (match r with inl w => w | inr l => last_word (ACS_IOMMU_TEST_NUM_BASE + 3) l.1 end)).

(** *** iom004: the width of device identities *)

Definition check_ddtp_width (reg_cap reg_ddtp max_deviceid : Z) : Z :=
  let '(lvl1, lvl2, lvl3) :=
    if negb (msi_flat reg_cap) then (DDTP_LVL_1_BASE_WIDTH, DDTP_LVL_2_BASE_WIDTH, DDTP_LVL_3_BASE_WIDTH)
    else (DDTP_LVL_1_EXTENDED_WIDTH, DDTP_LVL_2_EXTENDED_WIDTH, DDTP_LVL_3_EXTENDED_WIDTH) in
  let lvl_bit :=
    if ddtp_level reg_ddtp =? RISCV_IOMMU_DDTP_LVL_1 then lvl1
    else if ddtp_level reg_ddtp =? RISCV_IOMMU_DDTP_LVL_2 then lvl2
    else if ddtp_level reg_ddtp =? RISCV_IOMMU_DDTP_LVL_3 then lvl3 else 0 in
  if Z.shiftl 2 lvl_bit <? max_deviceid then 0 else 1.

(** One mapping of entry [index]: [Some] is the [return]. *)
Definition check_mapping (iommu_index iommu_offset index idmap_index : Z) : P (option Z) :=
  let* destiommu_offset := val_iommu_get_pcierc_platform_info tbl index idmap_index IOMMU_INFO_DEST_IOMMU_OFFSET in
  if u32 destiommu_offset =? iommu_offset then
    let* destid_base := val_iommu_get_pcierc_platform_info tbl index idmap_index IOMMU_INFO_DEST_ID_BASE in
    let* numids := val_iommu_get_pcierc_platform_info tbl index idmap_index IOMMU_INFO_NUM_IDS in
    let* reg_cap := read_reg iommu_index RISCV_IOMMU_REG_CAP 2 in
    let* reg_ddtp := read_reg iommu_index RISCV_IOMMU_REG_DDTP 2 in
    ret (Some (check_ddtp_width reg_cap reg_ddtp (u32 (u32 destid_base + u32 numids))))
  else ret None.
Definition check_governing_iommu_info (iommu_index iommu_offset : Z) : P Z :=
  let* iommu_num := val_iommu_get_num tbl in
  if iommu_num <=? iommu_index then ret 0 else
  let* r := search (range 0 (iommu_num - 1)) (fun index =>
    let* ty := val_iommu_get_info tbl index IOMMU_INFO_TYPE in
    if negb (ty =? RIMT_IOMMU) then
      let* idmap_num := val_iommu_get_idmap_num tbl index in
      search (range 0 (idmap_num - 1)) (check_mapping iommu_index iommu_offset index)
    else ret None) in
  ret (default 0xff r).

(** The first loop: which IOMMUs govern a root port? *)
Definition flag_iom004 (bdf : Z) (locals : list Z * Z) : P (list Z * Z) :=
  let '(iommu_rp_flag, ret_) := locals in
  let* dp_type := val_pcie_device_port_type bdf in
  if dp_type =? RP then
    let* r := val_iommu_check_governing_iommu tbl bdf in
    if r.1 =? 1 then
      let iommu_index := default (uninit "iommu_index") r.2 in
      let* _ := deref (at_index iommu_rp_flag iommu_index) in
      ret (<[Z.to_nat iommu_index := 1]> iommu_rp_flag, r.1)
    else ret (iommu_rp_flag, r.1)
  else ret locals.
(** The second loop, over the others: a failure is recorded and the loop goes on. *)
Definition round_iom004 (hart_index : Z) (iommu_rp_flag : list Z) (index ret_ : Z) : T Z :=
  let* f := deref (at_index iommu_rp_flag index) in
  if f =? 1 then ret ret_ else
  let* iommu_offset := on_pcie (val_iommu_get_info tbl index IOMMU_INFO_IOMMU_OFFSET) in
  let* ret_ := on_pcie (check_governing_iommu_info index (u32 iommu_offset)) in
  when (ret_ =? 0) (on_val (val_set_status hart_index (RESULT_FAIL (ACS_IOMMU_TEST_NUM_BASE + 4) 1))) ;;;
  ret ret_.
Definition payload_iom004 : T unit :=
  let* hart_index := on_val my_index in
  let* iommu_num := on_pcie (val_iommu_get_num tbl) in
  let* devs := on_pcie device_list in
  let* l := on_pcie (thread devs flag_iom004 (replicate (Z.to_nat iommu_num) 0, 0xff)) in
  let* ret_ := thread (range 0 (iommu_num - 1)) (round_iom004 hart_index l.1) l.2 in
  on_val (val_set_status hart_index (last_word (ACS_IOMMU_TEST_NUM_BASE + 4) ret_)).

(** *** iom011: address translation services *)

(** The walk of the extended capabilities, with the last word read. *)
Fixpoint ats_loop (fuel : nat) (bdf ext_cap_id next_cap_offset reg_value : Z) : P Z :=
  match fuel with
  | O => diverge
  | S k =>
      if next_cap_offset =? 0 then ret 0 else
      let* r := val_pcie_read_cfg bdf next_cap_offset reg_value in
      if Z.land r.2 PCIE_ECAP_CIDR_MASK =? ext_cap_id then ret 1
      else ats_loop k bdf ext_cap_id (Z.land (Z.shiftr r.2 PCIE_ECAP_NCPR_SHIFT) PCIE_ECAP_NCPR_MASK) r.2
  end.
(** Without a loop in the list there are at most 4096 offsets. *)
Definition check_pcie_ext_cap_ats (bdf ext_cap_id : Z) : P Z :=
  ats_loop 4097 bdf ext_cap_id PCIE_ECAP_START (uninit "reg_value").

(** One function: [inl] is a return after the failure was set. *)
Definition round_iom011 (hart_index iommu_num bdf iommu_index : Z) : T (unit + Z) :=
  let TEST_NUM := ACS_IOMMU_TEST_NUM_BASE + 11 in
  let fail : T (unit + Z) := on_val (val_set_status hart_index (RESULT_FAIL TEST_NUM 1)) ;;; ret (inl tt) in
  let* dp_type := on_pcie (val_pcie_device_port_type bdf) in
  if dp_type =? RCiEP then
    let* ats_support := on_pcie (check_pcie_ext_cap_ats bdf ATS_CAP_ID) in
    if ats_support =? 1 then
      let* r := on_pcie (val_iommu_check_governing_iommu tbl bdf) in
      if r.1 =? 1 then
        let iommu_index := default iommu_index r.2 in
        if iommu_num <? iommu_index then fail else
        let* reg_cap := on_pcie (read_reg iommu_index RISCV_IOMMU_REG_CAP 2) in
        if negb (Z.land reg_cap RISCV_IOMMU_CAP_ATS_MSK =? 0)
        then on_val (val_set_status hart_index (RESULT_PASS TEST_NUM 0)) ;;; ret (inr iommu_index)
        else fail
      else fail
    else ret (inr iommu_index)
  else ret (inr iommu_index).
Definition payload_iom011 : T unit :=
  let* hart_index := on_val my_index in
  let* iommu_num := on_pcie (val_iommu_get_num tbl) in
  let* devs := on_pcie device_list in
  let* r := search_with devs (round_iom011 hart_index iommu_num) 0xff in
  match r with
  | inl _ => ret tt
  | inr _ => on_val (val_set_status hart_index (RESULT_SKIP (ACS_IOMMU_TEST_NUM_BASE + 11) 1))
  end.

(** *** iom024: an IOMMU that is a PCIe function *)

Definition check_iom024 (bdf class_code : Z) : P (unit + Z) :=
  let* dp_type := val_pcie_device_port_type bdf in
  if dp_type =? RCiEP then
    let* r := val_pcie_read_cfg bdf TYPE01_RIDR class_code in
    ret (if (Z.land (Z.shiftr r.2 CC_BASE_SHIFT) CC_BASE_MASK =? PCIE_BASECLASS_IOMMU) &&
            (Z.land (Z.shiftr r.2 CC_SUB_SHIFT) CC_SUB_MASK =? PCIE_SUBCLASS_IOMMU) then inl tt else inr r.2)
  else ret (inr class_code).
Definition payload_iom024 : T unit :=
  let TEST_NUM := ACS_IOMMU_TEST_NUM_BASE + 24 in
  let* hart_index := on_val my_index in
  let* devs := on_pcie device_list in
  let* r := on_pcie (search_with devs check_iom024 (uninit "class_code")) in
  on_val (val_set_status hart_index (match r with inl _ => RESULT_PASS TEST_NUM 1 | inr _ => RESULT_SKIP TEST_NUM 1 end)).

(** *** iom026: IOMMUs of several segments *)

Record IOMMU_MAP := mk_map { map_iommu_index : Z; map_pcierc_index : Z; map_pcierc_seg : Z }.

Definition check_iommu_ddtp_level (iommu_index : Z) : P Z :=
  let* iommu_num := val_iommu_get_num tbl in
  if iommu_num <=? iommu_index then ret 0 else
  let* reg_ddtp := read_reg iommu_index RISCV_IOMMU_REG_DDTP 2 in
  ret (if negb (ddtp_level reg_ddtp =? RISCV_IOMMU_DDTP_LVL_3) then 0 else 1).

(** [check_governing_iommu] is the search of [Iommu].  The local variables of the loop:
    the index found last, the next place of the map and the map. *)
Definition add_map (iommu_num index idmap_index : Z) (locals : Z * Z * list IOMMU_MAP) : P (Z * Z * list IOMMU_MAP) :=
  let '(iommu_index, map_index, iommu_map) := locals in
  let* iommu_offset := val_iommu_get_pcierc_platform_info tbl index idmap_index IOMMU_INFO_DEST_IOMMU_OFFSET in
  let* r := val_iommu_check_governing_iommu_offset tbl (u32 iommu_offset) in
  match r with
  | None => ret locals
  | Some iommu_index =>
      if (iommu_index <? iommu_num) && (map_index <? IOMMU_MAP_MAX) then
        let* seg := val_iommu_get_pcierc_platform_info tbl index 0 IOMMU_INFO_PCIE_RC_SEG in
        let* _ := deref (at_index iommu_map map_index) in
        ret (iommu_index, u8 (map_index + 1), <[Z.to_nat map_index := mk_map iommu_index index (u32 seg)]> iommu_map)
      else ret (iommu_index, map_index, iommu_map)
  end.
Definition collect_entry (iommu_num index : Z) (locals : Z * Z * list IOMMU_MAP) : P (Z * Z * list IOMMU_MAP) :=
  let* ty := val_iommu_get_info tbl index IOMMU_INFO_TYPE in
  if ty =? RIMT_PCIE_ROOT_COMPLEX then
    let* idmap_num := val_iommu_get_idmap_num tbl index in
    thread (range 0 (u8 idmap_num - 1)) (add_map iommu_num index) locals
  else ret locals.
Definition no_map : IOMMU_MAP := mk_map 0xff (uninit "pcierc_index") (uninit "pcierc_seg").

(** Two entries of the map with one IOMMU and two segments mark the IOMMU that was
    found last. *)
Definition mark_pair (iommu_index : Z) (iommu_map : list IOMMU_MAP) (ij : Z * Z) (iommu_multi_list : list Z) : P (list Z) :=
  let* a := deref (at_index iommu_map ij.1) in
  let* b := deref (at_index iommu_map ij.2) in
  if negb (map_iommu_index a =? 0xFF) && (map_iommu_index a =? map_iommu_index b) && negb (map_pcierc_seg a =? map_pcierc_seg b) then
    let* _ := deref (at_index iommu_multi_list iommu_index) in
    ret (<[Z.to_nat iommu_index := 1]> iommu_multi_list)
  else ret iommu_multi_list.
Definition map_pairs : list (Z * Z) :=
  i ← range 0 (IOMMU_MAP_MAX - 2); j ← range (i + 1) (IOMMU_MAP_MAX - 1); [(i, j)].
Definition round_iom026 (hart_index : Z) (iommu_multi_list : list Z) (index ret_ : Z) : T Z :=
  let* f := deref (at_index iommu_multi_list index) in
  if f =? 1 then
    let* ret_ := on_pcie (check_iommu_ddtp_level index) in
    when (ret_ =? 0) (on_val (val_set_status hart_index (RESULT_FAIL (ACS_IOMMU_TEST_NUM_BASE + 26) 1))) ;;;
    ret ret_
  else ret ret_.
Definition payload_iom026 : T unit :=
  let* hart_index := on_val my_index in
  let* iommu_num := on_pcie (val_iommu_get_num tbl) in
  let* l := on_pcie (thread (range 0 (iommu_num - 1)) (collect_entry iommu_num)
                            (uninit "iommu_index", 0, replicate (Z.to_nat IOMMU_MAP_MAX) no_map)) in
  let '(iommu_index, _, iommu_map) := l in
  let* iommu_multi_list := on_pcie (thread map_pairs (mark_pair iommu_index iommu_map) (replicate (Z.to_nat iommu_num) 0xff)) in
  let* ret_ := thread (range 0 (iommu_num - 1)) (round_iom026 hart_index iommu_multi_list) 0xff in
  on_val (val_set_status hart_index (last_word (ACS_IOMMU_TEST_NUM_BASE + 26) ret_)).

(** ** The tests *)

Definition os_iom001_entry : T Z := os_entry (ACS_IOMMU_TEST_NUM_BASE + 1) "Check IOMMU capabilities register               " "ME_IOM_010_010" payload_iom001.
Definition os_iom002_entry : T Z := os_entry (ACS_IOMMU_TEST_NUM_BASE + 2) "Verify RCiEP and RP exit governing IOMMU               " "ME_IOM_020_010" payload_iom002.
Definition os_iom003_entry : T Z :=
  os_entry (ACS_IOMMU_TEST_NUM_BASE + 3) "Check IOMMUs which governing PCIe root ports capabilities and ddtp register               " "ME_IOM_030_010" payload_iom003.
Definition os_iom004_entry : T Z :=
  os_entry (ACS_IOMMU_TEST_NUM_BASE + 4) "Check IOMMUs which governing platform device ddtp mode and ddtp context width               " "ME_IOM_040_010" payload_iom004.
Definition os_iom005_entry : T Z := os_entry (ACS_IOMMU_TEST_NUM_BASE + 5) "Check IOMMU supported page mmu mode               " "ME_IOM_050_010" payload_iom005.
Definition os_iom008_entry : T Z := os_entry (ACS_IOMMU_TEST_NUM_BASE + 8) "Check IOMMU MSI MRIF AND AMO MRIF               " "ME_IOM_080_010" payload_iom008.
Definition os_iom011_entry : T Z := os_entry (ACS_IOMMU_TEST_NUM_BASE + 11) "Check RCiEP and Governing IOMMU ATS capability               " "ME_IOM_110_010" payload_iom011.
Definition os_iom013_entry : T Z := os_entry (ACS_IOMMU_TEST_NUM_BASE + 13) "Check IOMMU interrupt generation support               " "ME_IOM_130_010" payload_iom013.
Definition os_iom014_entry (modes : Z * Z) : T Z :=
  os_entry (ACS_IOMMU_TEST_NUM_BASE + 14) "Check IOMMU BIG-ENDIAN               " "ME_IOM_140_010, OE_IOM_150_010" (payload_iom014 modes ;;; ret tt).
Definition os_iom017_entry : T Z := os_entry (ACS_IOMMU_TEST_NUM_BASE + 17) "Check IOMMU PDT support               " "ME_IOM_170_010" payload_iom017.
Definition os_iom019_entry : T Z := os_entry (ACS_IOMMU_TEST_NUM_BASE + 19) "Check IOMMU HPM and cycles counter support               " "ME_IOM_190_010" payload_iom019.
Definition os_iom022_entry : T Z := os_entry (ACS_IOMMU_TEST_NUM_BASE + 22) "Check IOMMU PPN width               " "ME_IOM_220_010" payload_iom022.
Definition os_iom024_entry : T Z := os_entry (ACS_IOMMU_TEST_NUM_BASE + 24) "Check RCiEP IOMMU device               " "ME_IOM_240_010" payload_iom024.
Definition os_iom026_entry : T Z :=
  os_entry (ACS_IOMMU_TEST_NUM_BASE + 26) "Check IOMMU DDTP which governing multiple segment PCIe RC               " "ME_IOM_260_010" payload_iom026.
End IommuTests.

(** ** The tests of the capability register decide their rules *)

Lemma land_bit c k : 0 <= k -> Z.land c (Z.shiftl 1 k) = if Z.testbit c k then Z.shiftl 1 k else 0.
Proof.
  intros Hk. apply Z.bits_inj'. intros i Hi. rewrite Z.land_spec, testbit_shiftl_1 by lia.
  destruct (Z.eqb_spec k i) as [->|Hne].
  - destruct (Z.testbit c i); [|by rewrite Z.testbit_0_l]. by rewrite testbit_shiftl_1, Z.eqb_refl by lia.
  - rewrite andb_false_r. destruct (Z.testbit c k); [|by rewrite Z.testbit_0_l]. rewrite testbit_shiftl_1 by lia. by destruct (Z.eqb_spec k i).
Qed.

Lemma field_b2z c k : 0 <= k -> field c (Z.shiftl 1 k) k = Z.b2z (Z.testbit c k).
Proof.
  intros Hk. unfold field. rewrite land_bit by done. destruct (Z.testbit c k).
  - rewrite Z.shiftr_shiftl_l, Z.sub_diag by lia. done.
  - apply Z.shiftr_0_l.
Qed.

(** The rules, bit by bit. *)
Definition version_1_0 (c : Z) : bool := c mod 256 =? 0x10.
Definition mrif_alike (c : Z) : bool := Bool.eqb (Z.testbit c 23) (Z.testbit c 21).
Definition msi_generated (c : Z) : bool := negb (Z.testbit c 28).
Definition pasid_20 (c : Z) : bool := implb (Z.testbit c 38 || Z.testbit c 39) (Z.testbit c 40).

Lemma cap_iom001_rule c : cap_iom001 c = version_1_0 c.
Proof. unfold cap_iom001, version_1_0. change RISCV_IOMMU_CAP_VERSION_MSK with (Z.ones 8). by rewrite Z.land_ones. Qed.
Lemma cap_iom008_rule c : cap_iom008 c = mrif_alike c.
Proof.
  unfold cap_iom008, mrif_alike, RISCV_IOMMU_CAP_MSI_MRIF_MSK, RISCV_IOMMU_CAP_AMO_MRIF_MSK, RISCV_IOMMU_CAP_MSI_MRIF_BIT, RISCV_IOMMU_CAP_AMO_MRIF_BIT.
  rewrite !field_b2z by done. by destruct (Z.testbit c 23), (Z.testbit c 21).
Qed.
Lemma cap_iom013_rule c : cap_iom013 c = msi_generated c.
Proof.
  unfold cap_iom013, msi_generated, field, RISCV_IOMMU_CAP_IGS_BIT, RISCV_IOMMU_CAP_IGS_MSK.
  assert (E : Z.shiftr (Z.land c (Z.shiftl 3 28)) 28 = Z.b2z (Z.testbit c 28) + 2 * Z.b2z (Z.testbit c 29)).
  { rewrite Z.shiftr_land, Z.shiftr_shiftl_l by lia. change (Z.shiftl 3 (28 - 28)) with (Z.ones 2).
    rewrite Z.land_ones by lia. rewrite (Z.testbit_spec' c 28), (Z.testbit_spec' c 29), Z.shiftr_div_pow2 by lia.
    change (2 ^ 29) with (2 ^ 28 * 2). rewrite <- Z.div_div by lia. lia. }
  rewrite E. by destruct (Z.testbit c 28), (Z.testbit c 29).
Qed.
Lemma cap_iom017_rule c : cap_iom017 c = pasid_20 c.
Proof.
  unfold cap_iom017, pasid_20, RISCV_IOMMU_CAP_PD8_MSK, RISCV_IOMMU_CAP_PD17_MSK, RISCV_IOMMU_CAP_PD20_MSK,
    RISCV_IOMMU_CAP_PD8_BIT, RISCV_IOMMU_CAP_PD17_BIT, RISCV_IOMMU_CAP_PD20_BIT.
  rewrite !field_b2z by done.
  by destruct (Z.testbit c 38), (Z.testbit c 39), (Z.testbit c 40).
Qed.

(** A physical address size of six bits never reaches a number of pages times 4096:
    test iom022 accepts no IOMMU, whatever it answers. *)
Lemma iom022_rejects_all pa_bits c : 1 <= pa_bits -> cap_iom022 pa_bits c = false.
Proof. intros Hp. unfold cap_iom022. pose proof (u8_range (field c RISCV_IOMMU_CAP_PAS_MSK RISCV_IOMMU_CAP_PAS_BIT)). apply negb_false_iff, Z.leb_le. lia. Qed.

Section Verdicts.
Context {H : Type} `{Hardware H, Uninit, Platform} `{LawfulHarts, CpuArchProtocol}.
Context (tbl : iommu_state) (exerciser : Z -> option Z).
Context (bar_read : Z -> Z -> prog (pcie_state H) (option Z)).

(** A table of [n] entries, which of them are IOMMUs, and the capability registers that
    these answer with, without a side effect. *)
Record iommus (s : pcie_state H) (n : Z) (iommu : Z -> bool) (cap : Z -> Z) : Prop := {
  iommus_num : val_iommu_get_num tbl s = Done (n, s);
  iommus_type : forall i, 0 <= i < n -> exists ty, val_iommu_get_info tbl i IOMMU_INFO_TYPE s = Done (ty, s) /\ (ty =? RIMT_IOMMU) = iommu i;
  iommus_cap : forall i, 0 <= i < n -> iommu i = true ->
    val_iommu_read_iommu_reg tbl exerciser bar_read i RISCV_IOMMU_REG_CAP 2 s = Done (cap i, s) }.

(** Does every IOMMU satisfy a rule? *)
Definition all_satisfy (n : Z) (iommu : Z -> bool) (cap : Z -> Z) (rule : Z -> bool) : bool :=
  forallb (fun i => implb (iommu i) (rule (cap i))) (range 0 (n - 1)).

Lemma forallb_same {A} (f g : A -> bool) l : (forall x, f x = g x) -> forallb f l = forallb g l.
Proof. intros Hf. induction l as [|x l IH]; [done|]. cbn [forallb]. by rewrite Hf, IH. Qed.
Lemma find_first_none {A} (p : A -> bool) l i : match find_first p l i with Some _ => false | None => true end = forallb (fun x => negb (p x)) l.
Proof. revert i. induction l as [|x l IH]; intros i; [done|]. cbn [find_first forallb]. destruct (p x); [done|]. apply IH. Qed.

Lemma each_iommu_caps s n iommu cap rule :
  iommus s n iommu cap ->
  each_iommu tbl (check_cap tbl exerciser bar_read rule) n s = Done (all_satisfy n iommu cap rule, s).
Proof.
  intros [_ Hty Hcap]. unfold each_iommu.
  assert (Hb : forall i, i ∈ range 0 (n - 1) -> (let* ty := val_iommu_get_info tbl i IOMMU_INFO_TYPE in
      if ty =? RIMT_IOMMU then let* ok := check_cap tbl exerciser bar_read rule i in ret (if ok : bool then None else Some tt) else ret None) s =
    Done (if iommu i && negb (rule (cap i)) then Some tt else None, s)).
  { intros i Hi%elem_of_range. destruct (Hty i ltac:(lia)) as (ty & E & Et). rewrite (bind_done _ _ _ _ _ E), Et.
    destruct (iommu i) eqn:Ei; [|done]. unfold check_cap. rewrite bind_bind, (bind_done _ _ _ _ _ (Hcap i ltac:(lia) Ei)).
    by destruct (rule (cap i)). }
  rewrite (bind_done _ _ _ _ _ (search_find _ (fun _ => tt) _ _ s 0 Hb)). unfold ret, all_satisfy. do 2 f_equal.
  rewrite <- (forallb_same (fun i => negb (iommu i && negb (rule (cap i))))) by (intros x; by destruct (iommu x), (rule (cap x))).
  rewrite <- (find_first_none _ _ 0). by destruct (find_first _ _ _) as [[]|].
Qed.

(** The number of a test, its entry function and the rule it stands for. *)
Definition cap_tests : list (Z * prog (test_state H) Z * (Z -> bool)) :=
  [(1201, os_iom001_entry tbl exerciser bar_read, version_1_0); (1208, os_iom008_entry tbl exerciser bar_read, mrif_alike);
   (1213, os_iom013_entry tbl exerciser bar_read, msi_generated); (1217, os_iom017_entry tbl exerciser bar_read, pasid_20)].

Lemma cap_payload_leaves s n iommu cap t rule me :
  iommus s n iommu cap ->
  leaves (cap_payload tbl exerciser bar_read t rule) s s me
    (if all_satisfy n iommu cap rule then RESULT_PASS t 1 else RESULT_FAIL t 1).
Proof.
  intros Hs v Hmy Hme. unfold cap_payload.
  rewrite (bind_done _ _ _ _ _ (on_val_done _ _ s _ _ Hmy)), (bind_done _ _ _ _ _ (on_pcie_done _ v s _ _ (iommus_num _ _ _ _ Hs))),
    (bind_done _ _ _ _ _ (on_pcie_done _ v s _ _ (each_iommu_caps s n iommu cap rule Hs))).
  destruct (set_status_leaves v me (if all_satisfy n iommu cap rule then RESULT_PASS t 1 else RESULT_FAIL t 1) Hme) as (v' & E & Hv).
  exists v'. split; [|done]. unfold verdict. by rewrite (on_val_done _ _ s _ _ E).
Qed.

Lemma cap_test_decided s n iommu cap t desc txt rule v me :
  0 <= t < 65536 -> iommus s n iommu cap -> options_small v ->
  0 <= me < Z.of_nat (length (shared_mem v)) -> my_index v = Done (me, v) ->
  let code := if runs v t then if all_satisfy n iommu cap rule then ACS_STATUS_PASS else ACS_STATUS_FAIL else ACS_STATUS_SKIP in
  exists v', os_entry t desc txt (cap_payload tbl exerciser bar_read t rule) (mk_test v s) = Done (code, mk_test v' s) /\ counts t code v v'.
Proof.
  intros Ht Hs Ho Hme Hmy. destruct (result_concluded (all_satisfy n iommu cap rule) t Ht) as [Hc Hcode].
  destruct (entry_verdict t desc txt _ v s s me _ Ht Ho Hme Hmy (cap_payload_leaves s n iommu cap t rule me Hs) Hc ltac:(lia))
    as (x & v' & q & E & -> & Hq & Hcnt).
  exists v'. rewrite E, Hcode. assert (q = s) as -> by (by destruct (runs v t)). split; [done|].
  unfold counts. by rewrite Hcode in Hcnt.
Qed.

Lemma all_satisfy_ext n iommu cap rule rule' : (forall c, rule c = rule' c) -> all_satisfy n iommu cap rule = all_satisfy n iommu cap rule'.
Proof. intros Hr. apply forallb_same. intros i. by rewrite Hr. Qed.

(** C10: the tests of the capability register decide their rules.  Each returns, if the
    options select it, PASS when the register of every IOMMU of the table satisfies
    the rule and FAIL otherwise, whatever the other harts do, and SKIP if they do not;
    it is counted accordingly and changes neither the table nor the hardware. *)
Theorem iommu_caps_verdict s n iommu cap t entry rule v me :
  (t, entry, rule) ∈ cap_tests -> iommus s n iommu cap -> options_small v ->
  0 <= me < Z.of_nat (length (shared_mem v)) -> my_index v = Done (me, v) ->
  let code := if runs v t then if all_satisfy n iommu cap rule then ACS_STATUS_PASS else ACS_STATUS_FAIL else ACS_STATUS_SKIP in
  exists v', entry (mk_test v s) = Done (code, mk_test v' s) /\ counts t code v v'.
Proof.
  intros Hin Hs Ho Hme Hmy.
  assert (Hgo : forall rule' desc txt, entry = os_entry t desc txt (cap_payload tbl exerciser bar_read t rule') ->
    (forall c, rule' c = rule c) -> 0 <= t < 65536 ->
    let code := if runs v t then if all_satisfy n iommu cap rule then ACS_STATUS_PASS else ACS_STATUS_FAIL else ACS_STATUS_SKIP in
    exists v', entry (mk_test v s) = Done (code, mk_test v' s) /\ counts t code v v').
  { intros rule' desc txt -> Hr Ht. rewrite <- (all_satisfy_ext n iommu cap rule' rule Hr). by apply cap_test_decided with (me := me). }
  repeat (apply elem_of_cons in Hin as [[= -> -> ->]|Hin]); [..|by apply not_elem_of_nil in Hin]; (eapply Hgo; [reflexivity| |lia]).
  - apply cap_iom001_rule.
  - apply cap_iom008_rule.
  - apply cap_iom013_rule.
  - apply cap_iom017_rule.
Qed.
End Verdicts.

(** ** Verdicts that cannot occur *)

Section Blind.
Context {H : Type} `{Hardware H, Uninit, Platform} `{LawfulHarts, CpuArchProtocol}.
Context (tbl : iommu_state) (exerciser : Z -> option Z).
Context (bar_read : Z -> Z -> prog (pcie_state H) (option Z)).

Lemma calm_deref {W A} (o : option A) : calm (W := W) (deref o).
Proof. destruct o as [a|]; [apply calm_ret|]. by intros s a s'. Qed.

(** What is set while the table is scanned is overwritten in the end. *)
Lemma last_word_in t r : last_word t r ∈ [RESULT_PASS t 1; RESULT_SKIP t 1].
Proof. unfold last_word. destruct (r =? 1); set_solver. Qed.
Lemma iom004_ends me : ends_with me [RESULT_PASS 1204 1; RESULT_SKIP 1204 1] (payload_iom004 tbl exerciser bar_read).
Proof.
  unfold payload_iom004. apply ends_index. do 3 (apply ends_bind; [apply calm_pcie|intros ?]).
  apply ends_bind; [|intros r; apply ends_set, last_word_in].
  apply calm_thread. intros i x. unfold round_iom004. apply calm_bind; [apply calm_deref|]. intros f.
  destruct (f =? 1); [apply calm_ret|]. do 2 (apply calm_bind; [apply calm_pcie|intros ?]).
  apply calm_bind; [apply calm_when, calm_set|]. intros _. apply calm_ret.
Qed.
Lemma iom026_ends me : ends_with me [RESULT_PASS 1226 1; RESULT_SKIP 1226 1] (payload_iom026 tbl exerciser bar_read).
Proof.
  unfold payload_iom026. apply ends_index. do 2 (apply ends_bind; [apply calm_pcie|intros ?]). destruct a0 as [[i k] m].
  apply ends_bind; [apply calm_pcie|]. intros multi.
  apply ends_bind; [|intros r; apply ends_set, last_word_in].
  apply calm_thread. intros j x. unfold round_iom026. apply calm_bind; [apply calm_deref|]. intros f.
  destruct (f =? 1); [|apply calm_ret]. apply calm_bind; [apply calm_pcie|]. intros r.
  apply calm_bind; [apply calm_when, calm_set|]. intros _. apply calm_ret.
Qed.

(** A round of iom011 ends the test only with a failure. *)
Lemma iom011_round me n b x s r s' :
  my_index (tval s) = Done (me, tval s) -> round_iom011 tbl exerciser bar_read me n b x s = Done (r, s') ->
  same_test s s' /\ match r with inl _ => has_word me [RESULT_FAIL 1211 1; RESULT_SKIP 1211 1] s' | inr _ => True end.
Proof.
  intros Hi E. unfold round_iom011 in E.
  set (fail := on_val (val_set_status me (RESULT_FAIL (ACS_IOMMU_TEST_NUM_BASE + 11) 1)) ;;; ret (inl tt)) in E.
  assert (Hfail : forall s1, same_test s s1 -> fail s1 = Done (r, s') ->
    same_test s s' /\ match r with inl _ => has_word me [RESULT_FAIL 1211 1; RESULT_SKIP 1211 1] s' | inr _ => True end).
  { intros s1 Hs1 (u & s2 & E1 & E2)%bind_inv. injection E2 as <- <-.
    destruct (ends_set me [RESULT_FAIL 1211 1; RESULT_SKIP 1211 1] (RESULT_FAIL 1211 1) ltac:(set_solver) s1 u s2
      (same_test_index s s1 me Hs1 Hi) E1) as [Hs2 Hw]. split; [by transitivity s1|done]. }
  apply bind_inv in E as (dp & s1 & E1%calm_pcie & E). destruct (dp =? RCiEP); [|by injection E as <- <-].
  apply bind_inv in E as (ats & s2 & E2%calm_pcie & E). pose proof (transitivity E1 E2) as Hs2.
  destruct (ats =? 1); [|by injection E as <- <-].
  apply bind_inv in E as (g & s3 & E3%calm_pcie & E). pose proof (transitivity Hs2 E3) as Hs3.
  destruct (g.1 =? 1); [|by apply (Hfail s3)]. destruct (n <? _); [by apply (Hfail s3)|].
  apply bind_inv in E as (cap & s4 & E4%calm_pcie & E). pose proof (transitivity Hs3 E4) as Hs4.
  destruct (negb _); [|by apply (Hfail s4)].
  apply bind_inv in E as (u & s5 & E5%calm_set & E). injection E as <- <-. split; [by transitivity s4|done].
Qed.
Lemma iom011_ends me : ends_with me [RESULT_FAIL 1211 1; RESULT_SKIP 1211 1] (payload_iom011 tbl exerciser bar_read).
Proof.
  unfold payload_iom011. apply ends_index. do 2 (apply ends_bind; [apply calm_pcie|intros ?]).
  intros s u s' Hi (r & s1 & E1 & E2)%bind_inv.
  assert (Hr : same_test s s1 /\ match r with inl _ => has_word me [RESULT_FAIL 1211 1; RESULT_SKIP 1211 1] s1 | inr _ => True end).
  { apply (search_with_word me _ _ (iom011_round me a) a0 0xff s r s1 Hi E1). }
  destruct Hr as [Hs1 Hw], r as [[]|x]; [by injection E2 as _ <-|].
  destruct (ends_set me [RESULT_FAIL 1211 1; RESULT_SKIP 1211 1] (RESULT_SKIP 1211 1) ltac:(set_solver) s1 u s' (same_test_index s s1 me Hs1 Hi) E2) as [Hs2 Hw2].
  split; [by transitivity s1|done].
Qed.

(** C13: three tests cannot return every verdict.  Whatever the table, the functions and
    the registers are, test iom004 and test iom026 never return FAIL, although they set
    it, and test iom011 never returns PASS. *)
Theorem verdicts_impossible v p me :
  options_small v -> 0 <= me < Z.of_nat (length (shared_mem v)) -> my_index v = Done (me, v) ->
  (forall r s', os_iom004_entry tbl exerciser bar_read (mk_test v p) = Done (r, s') -> r <> ACS_STATUS_FAIL) /\
  (forall r s', os_iom026_entry tbl exerciser bar_read (mk_test v p) = Done (r, s') -> r <> ACS_STATUS_FAIL) /\
  (forall r s', os_iom011_entry tbl exerciser bar_read (mk_test v p) = Done (r, s') -> r <> ACS_STATUS_PASS).
Proof.
  intros Ho Hme Hmy.
  assert (Hgo : forall t desc txt payload ws bad, 0 <= t < 65536 -> (forall m, ends_with m ws payload) ->
    forallb (fun w => concluded w && negb (verdict_code w =? bad)) ws = true -> bad <> ACS_STATUS_SKIP ->
    forall r s', os_entry t desc txt payload (mk_test v p) = Done (r, s') -> r <> bad).
  { intros t desc txt payload ws bad Ht Hend Hws Hb r s' E. rewrite forallb_forall in Hws.
    pose proof (entry_words t desc txt payload v p me ws r s' Ht Ho Hme Hmy (Hend me)
      ltac:(apply Forall_forall; intros w Hw%list_elem_of_In; by specialize (Hws w Hw) as [? _]%andb_true_iff) E) as Hr.
    destruct (runs v t); [|by rewrite Hr]. destruct Hr as (w & Hw%list_elem_of_In & ->).
    by apply Hws, andb_true_iff in Hw as [_ Hw%negb_true_iff%Z.eqb_neq]. }
  split_and!.
  - apply (Hgo 1204 _ _ _ _ _ ltac:(lia) iom004_ends); [by vm_compute|done].
  - apply (Hgo 1226 _ _ _ _ _ ltac:(lia) iom026_ends); [by vm_compute|done].
  - apply (Hgo 1211 _ _ _ _ _ ltac:(lia) iom011_ends); [by vm_compute|done].
Qed.
End Blind.

(** ** A table with one IOMMU *)

Module Sample.
Import PcieTests.Sample.
(** Version 1.0 with both of the message features. *)
Definition board_iommu : board := {[ 0x10008000 := 0x00A00010 ]}.
Definition pcie_iommu : pcie_state board := set_hw board_iommu pcie0.
Definition table1 : iommu_state := Some (created rimt_rc_last).
Definition no_bar (_ _ : Z) : prog (pcie_state board) (option Z) := ret None.
Definition no_exerciser (_ : Z) : option Z := None.

Lemma iommu_caps_verdict_witness :
  (exists v', os_iom008_entry table1 no_exerciser no_bar (mk_test state_run pcie_iommu) = Done (ACS_STATUS_PASS, mk_test v' pcie_iommu)) /\
  version_1_0 0x00A00010 = true /\ mrif_alike 0x00800010 = false.
Proof.
  split; [|by vm_compute].
  destruct (iommu_caps_verdict table1 no_exerciser no_bar pcie_iommu 2 (fun i => i =? 0) (fun _ => 0x00A00010)
    1208 (os_iom008_entry table1 no_exerciser no_bar) mrif_alike state_run 0) as (v' & E & _).
  - right. left.
  - split; [by vm_compute| |].
    + intros i Hi. assert (Hc : i = 0 \/ i = 1) by lia. destruct Hc as [-> | ->]; eexists; (split; [by vm_compute|done]).
    + intros i Hi ->%Z.eqb_eq. by vm_compute.
  - by vm_compute.
  - by vm_compute.
  - by vm_compute.
  - exists v'. rewrite E. by vm_compute.
Defined.

(** An integrated endpoint with ATS, behind an IOMMU with ATS. *)
Definition board_ats : board :=
  {[ 0x30110034 := 0x40; 0x30110040 := 0x00920010; 0x30110100 := 0x0001000F; 0x10008000 := 0x02000000 ]}.
Definition pcie_ats : pcie_state board := set_bdf_table (Some (mk_bdf_table 1 [mk_attr ep1 0])) (set_hw board_ats pcie0).
Definition word_of_me (s : test_state board) : option Z := status <$> shared_mem (tval s) !! 0%nat.

Lemma returned_inv {S A} (e : prog S A) s : match e s with Done _ => true | _ => false end = true -> exists r s', e s = Done (r, s').
Proof. destruct (e s) as [[r s']| |]; [intros _; by exists r, s'|done|done]. Qed.

(** The three tests return.  The first round of iom004 sets FAIL and that of iom011 sets
    PASS, and both are overwritten by SKIP. *)
Lemma verdicts_impossible_witness :
  (exists r s', os_iom004_entry table1 no_exerciser no_bar (mk_test state_run pcie_ats) = Done (r, s') /\ r <> ACS_STATUS_FAIL) /\
  (exists r s', os_iom026_entry table1 no_exerciser no_bar (mk_test state_run pcie_ats) = Done (r, s') /\ r <> ACS_STATUS_FAIL) /\
  (exists r s', os_iom011_entry table1 no_exerciser no_bar (mk_test state_run pcie_ats) = Done (r, s') /\ r <> ACS_STATUS_PASS) /\
  match round_iom004 table1 no_exerciser no_bar 0 [0; 0] 0 0xff (mk_test state_run pcie_ats),
        round_iom011 table1 no_exerciser no_bar 0 2 ep1 0xff (mk_test state_run pcie_ats) with
  | Done (_, s4), Done (_, s11) => word_of_me s4 = Some (RESULT_FAIL 1204 1) /\ word_of_me s11 = Some (RESULT_PASS 1211 0)
  | _, _ => False
  end.
Proof.
  destruct (verdicts_impossible table1 no_exerciser no_bar state_run pcie_ats 0) as (H4 & H26 & H11); [by vm_compute..|].
  split_and!; [| | |by vm_compute].
  - destruct (returned_inv (os_iom004_entry table1 no_exerciser no_bar) (mk_test state_run pcie_ats)) as (r & s' & E); [by vm_compute|].
    exists r, s'. split; [exact E|exact (H4 r s' E)].
  - destruct (returned_inv (os_iom026_entry table1 no_exerciser no_bar) (mk_test state_run pcie_ats)) as (r & s' & E); [by vm_compute|].
    exists r, s'. split; [exact E|exact (H26 r s' E)].
  - destruct (returned_inv (os_iom011_entry table1 no_exerciser no_bar) (mk_test state_run pcie_ats)) as (r & s' & E); [by vm_compute|].
    exists r, s'. split; [exact E|exact (H11 r s' E)].
Defined.
End Sample.
