(* ===== verification/IicTests.v ===== *)
(** * Tests of the interrupt controller of a hart, and of quality of service

    Models [test_pool/iic/operating_system/] (tests i001 to i005) and
    [test_pool/qos/operating_system/test_os_q001.c].  The CSRs of the hart are part of
    the hardware: the class [HartCsrs] gives the hypervisor status register and the
    interrupt file of [Aia].  The table of interrupts is an argument, since these tests
    only read it.  Messages are left out. *)

From S2P Require Import Prelude Aia Gic Status Hart Infra Mmio PcieCfg PcieTests PcieBusTests Tests.

Definition ACS_GIC_TEST_NUM_BASE : Z := 200.
Definition ACS_QOS_TEST_NUM_BASE : Z := 1000.
Definition TEST_EXT_IRQ_ID : Z := 2.
Definition IMSIC_TOPEI_ID_SHIFT : Z := 16.
Definition IMSIC_MMIO_PAGE_LE : Z := 0x00.
Definition HSTATUS_VGEIN_SHIFT : Z := 12.
Definition HSTATUS_VGEIN : Z := 0x0003f000.

(** The CSRs of the hart: [hstatus], the interrupt file behind [siselect] and [sireg]
    with the bits that can be written, and [stopei]. *)
Class HartCsrs (H : Type) := {
  hstatus : H -> Z;
  write_hstatus : Z -> H -> H;
  imsic : H -> csrs;
  set_imsic : csrs -> H -> H;
  imsic_writable : Z -> Z;
  stopei : H -> Z }.

Section IicTests.
Context {H G : Type} `{Hardware H, HartCsrs H, SecondaryHarts, CpuArchProtocol}.
Context (gic : gic_state G) (val_strstr : string -> string -> bool).
Local Abbreviation P := (prog (pcie_state H)).
Local Abbreviation T := (prog (test_state H)).

(** ** i001 and q001: the ISA string *)

Definition isa_has (index : Z) (sub : string) : prog val_state bool :=
  let* o := val_hart_get_isa_string index in
  let* isa_string := deref o in
  ret (val_strstr isa_string sub).

Definition payload_i001 : T unit :=
  let TEST_NUM := ACS_GIC_TEST_NUM_BASE + 1 in
  let* index := on_val my_index in
  let* ok := on_val (isa_has index "ssaia") in
  if negb ok then on_val (val_set_status index (RESULT_FAIL TEST_NUM 1)) else
  let* imsic_base := on_val (val_hart_get_imsic_base index) in
  if imsic_base =? 0 then on_val (val_set_status index (RESULT_FAIL TEST_NUM 2)) else
  on_val (val_set_status index (RESULT_PASS TEST_NUM 1)).

Definition payload_q001 : T unit :=
  let TEST_NUM := ACS_QOS_TEST_NUM_BASE + 1 in
  let* index := on_val my_index in
  let* ok := on_val (isa_has index "ssqosid") in
  on_val (val_set_status index (if ok : bool then RESULT_PASS TEST_NUM 1 else RESULT_FAIL TEST_NUM 1)).

(** ** i002: external interrupts *)

Definition on_imsic {A} (m : prog csrs A) : T A := on_pcie (on_hw (fun h =>
  match m (imsic h) with
  | Done (a, c) => Done (a, set_imsic c h) | Undefined => Undefined | Diverges => Diverges
  end)).
Definition eix_update (id : Z) (pend val : bool) : T unit := on_imsic (val_iic_imsic_eix_update imsic_writable id pend val).
Definition eix_set (id : Z) (pend : bool) : T bool :=
  let* v := on_imsic (val_iic_imsic_eix_read id pend) in
  ret (negb (Z.land v (BIT (id mod riscv_xlen)) =? 0)).

(** One identity: the enable and the pending bit can be set; [Some] is the code of a failure. *)
Definition check_identity (i : Z) : T (option Z) :=
  eix_update i false true ;;;
  let* e := eix_set i false in
  if negb e then ret (Some 1) else
  eix_update i false false ;;;
  eix_update i true true ;;;
  let* p := eix_set i true in
  if negb p then ret (Some 2) else
  eix_update i true false ;;; ret None.

(** Checkpoints 5 to 10: an interrupt is raised through the memory of the interrupt file. *)
Definition raise_interrupt (imsic_base : Z) : T (option Z) :=
  on_imsic (val_iic_imsic_eithreshold_update imsic_writable 0) ;;;
  eix_update TEST_EXT_IRQ_ID false true ;;;
  on_pcie (on_hw (pal_mmio_write (u64 (imsic_base + IMSIC_MMIO_PAGE_LE)) TEST_EXT_IRQ_ID)) ;;;
  let* v := on_pcie (on_hw (pal_mmio_read (u64 (imsic_base + IMSIC_MMIO_PAGE_LE)))) in
  if negb (v =? 0) then ret (Some 3) else
  let* p := eix_set TEST_EXT_IRQ_ID true in
  if negb p then ret (Some 4) else
  let* v := on_pcie (on_hw (gets stopei)) in
  if negb (v =? Z.lor TEST_EXT_IRQ_ID (Z.shiftl TEST_EXT_IRQ_ID IMSIC_TOPEI_ID_SHIFT)) then ret (Some 5) else
  eix_update TEST_EXT_IRQ_ID false false ;;;
  eix_update TEST_EXT_IRQ_ID true false ;;; ret None.

(** The failures are those of the running hart, the success is that of hart 0. *)
Definition payload_i002 : T unit :=
  let TEST_NUM := ACS_GIC_TEST_NUM_BASE + 2 in
  let* index := on_val my_index in
  let fail code := on_val (val_set_status index (RESULT_FAIL TEST_NUM code)) in
  on_imsic (csr_select 0x30) ;;;
  let* r := search (upto 1 31) check_identity in
  match r with
  | Some code => fail code
  | None =>
      on_imsic (val_iic_imsic_eidelivery_update imsic_writable 0) ;;;
      on_imsic (val_iic_imsic_eidelivery_update imsic_writable 1) ;;;
      let* imsic_base := on_val (val_hart_get_imsic_base index) in
      if imsic_base =? 0 then fail 2 else
      let* r := raise_interrupt imsic_base in
      match r with
      | Some code => fail code
      | None => on_val (val_set_status 0 (RESULT_PASS TEST_NUM 1))
      end
  end.

(** ** i003: guest interrupt files *)

Definition val_hart_get_hstatus : T Z := on_pcie (on_hw (gets hstatus)).
Definition val_hart_set_hstatus (v : Z) : T unit := on_pcie (on_hw (modify (write_hstatus (u64 v)))).

(** [inl] is the [break]. *)
Definition try_vgein (vgein : Z) (_ : unit) : T (Z + unit) :=
  let* v := val_hart_get_hstatus in
  let val_w := Z.lor (Z.land v (Z.lnot HSTATUS_VGEIN)) (u32 (Z.shiftl vgein HSTATUS_VGEIN_SHIFT)) in
  val_hart_set_hstatus val_w ;;;
  let* val_r := val_hart_get_hstatus in
  ret (if negb (Z.land val_w HSTATUS_VGEIN =? Z.land val_r HSTATUS_VGEIN) then inl vgein else inr tt).
Definition payload_i003 : T unit :=
  let TEST_NUM := ACS_GIC_TEST_NUM_BASE + 3 in
  let* index := on_val my_index in
  let* r := search_with (upto 1 0x3F) try_vgein tt in
  let vgein := match r with inl v => v | inr _ => 0x40 end in
  on_val (val_set_status index (if vgein <? 5 then RESULT_FAIL TEST_NUM 1 else RESULT_PASS TEST_NUM 1)).

(** ** i004 and i005: numbers of identities *)

Definition on_gic {A} (m : prog (gic_state G) A) : T A := fun s =>
  match m gic with Done (a, _) => Done (a, s) | Undefined => Undefined | Diverges => Diverges end.
Definition number_payload (TEST_NUM least : Z) (number : prog (gic_state G) Z) : T unit :=
  let* index := on_val my_index in
  let* n := on_gic number in
  on_val (val_set_status index (if n <? least then RESULT_FAIL TEST_NUM 1 else RESULT_PASS TEST_NUM 1)).
Definition payload_i004 : T unit := number_payload (ACS_GIC_TEST_NUM_BASE + 4) 255 val_gic_max_supervisor_intr_num.
Definition payload_i005 : T unit := number_payload (ACS_GIC_TEST_NUM_BASE + 5) 63 val_gic_max_guest_intr_num.

Definition os_i001_entry : T Z := os_entry (ACS_GIC_TEST_NUM_BASE + 1) "Check Ssaia extension and IMSIC controller               " "ME_IIC_010_010, ME_IIC_020_010" payload_i001.
Definition os_i002_entry : T Z := os_entry (ACS_GIC_TEST_NUM_BASE + 2) "External interrupt functionality                     " "MF_IIC_030_010" payload_i002.
Definition os_i003_entry : T Z := os_entry (ACS_GIC_TEST_NUM_BASE + 3) "Check maximum hstatus.VGEIN                     " "ME_IIC_040_010" payload_i003.
Definition os_i004_entry : T Z := os_entry (ACS_GIC_TEST_NUM_BASE + 4) "Check supported supervisor mode interrupt identities          " "ME_IIC_050_010" payload_i004.
Definition os_i005_entry : T Z := os_entry (ACS_GIC_TEST_NUM_BASE + 5) "Check supported guest mode interrupt identities          " "ME_IIC_060_010" payload_i005.
Definition os_q001_entry : T Z := os_entry (ACS_QOS_TEST_NUM_BASE + 1) "Check Ssqosid extension               " "OE_QOS_010_010" payload_q001.
End IicTests.

(** ** Guest interrupt files *)

(** A hart with [geilen] guest interrupt files: the field VGEIN of [hstatus] keeps the
    numbers up to [geilen] and no other. *)
Class GuestFiles (H : Type) `{HartCsrs H} (geilen : Z) := {
  geilen_range : 0 <= geilen <= 63;
  vgein_kept : forall v h, Z.land (hstatus (write_hstatus v h)) HSTATUS_VGEIN = Z.land v HSTATUS_VGEIN <->
    Z.shiftr (Z.land v HSTATUS_VGEIN) HSTATUS_VGEIN_SHIFT <= geilen }.

Lemma vgein_written v g : 1 <= g <= 63 ->
  Z.land (u64 (Z.lor (Z.land v (Z.lnot HSTATUS_VGEIN)) (u32 (Z.shiftl g HSTATUS_VGEIN_SHIFT)))) HSTATUS_VGEIN = Z.shiftl g HSTATUS_VGEIN_SHIFT.
Proof.
  intros Hg. assert (E : Z.shiftl g 12 = g * 4096) by (by rewrite Z.shiftl_mul_pow2).
  unfold HSTATUS_VGEIN_SHIFT. rewrite u32_small by lia. change HSTATUS_VGEIN with (Z.shiftl (Z.ones 6) 12).
  apply Z.bits_inj'. intros i Hi. rewrite Z.land_spec. unfold u64.
  destruct (Z.lt_ge_cases i 12) as [Hlow|Hhigh].
  { rewrite !Z.shiftl_spec_low by lia. by rewrite andb_false_r. }
  rewrite !Z.shiftl_spec_high by lia. destruct (Z.lt_ge_cases (i - 12) 6) as [Hin|Hout].
  - rewrite Z.ones_spec_low, andb_true_r, Z.mod_pow2_bits_low, Z.lor_spec, Z.land_spec, Z.lnot_spec by lia.
    rewrite !Z.shiftl_spec_high, Z.ones_spec_low by lia. by rewrite andb_false_r.
  - rewrite Z.ones_spec_high, andb_false_r by lia. symmetry. apply (Z.bits_above_log2 g); [lia|].
    apply Z.lt_le_trans with 6; [|lia]. apply Z.log2_lt_pow2; lia.
Qed.

Section Guests.
Context {H : Type} {geilen : Z} `{Hardware H, GuestFiles H geilen} `{LawfulHarts, CpuArchProtocol}.

Lemma try_vgein_spec g p : 1 <= g <= 63 ->
  exists p', forall v, try_vgein g tt (mk_test v p) = Done (if geilen <? g then inl g else inr tt, mk_test v p' : test_state H).
Proof.
  intros Hg. set (w := Z.lor (Z.land (hstatus (hw p)) (Z.lnot HSTATUS_VGEIN)) (u32 (Z.shiftl g HSTATUS_VGEIN_SHIFT))).
  exists (set_hw (write_hstatus (u64 w) (hw p)) p). intros v.
  assert (E : try_vgein g tt (mk_test v p) = Done (if negb (Z.land w HSTATUS_VGEIN =? Z.land (hstatus (write_hstatus (u64 w) (hw p))) HSTATUS_VGEIN)
    then inl g else inr tt, mk_test v (set_hw (write_hstatus (u64 w) (hw p)) p))) by (by destruct p).
  rewrite E. pose proof (vgein_written (hstatus (hw p)) g Hg) as Hw. fold w in Hw.
  pose proof (vgein_kept (u64 w) (hw p)) as Hk. rewrite Hw in Hk.
  assert (Hww : Z.land w HSTATUS_VGEIN = Z.shiftl g HSTATUS_VGEIN_SHIFT).
  { rewrite <- Hw. apply Z.bits_inj'. intros i Hi. rewrite !Z.land_spec. unfold u64. destruct (Z.lt_ge_cases i 64).
    - by rewrite Z.mod_pow2_bits_low by lia.
    - change HSTATUS_VGEIN with (Z.shiftl (Z.ones 6) 12). rewrite Z.shiftl_spec_high, Z.ones_spec_high, !andb_false_r by lia. done. }
  rewrite Hww. rewrite Z.shiftr_shiftl_l in Hk by done. change (Z.shiftl g (HSTATUS_VGEIN_SHIFT - HSTATUS_VGEIN_SHIFT)) with (Z.shiftl g 0) in Hk.
  rewrite Z.shiftl_0_r in Hk.
  destruct (Z.ltb_spec geilen g), (Z.eqb_spec (Z.shiftl g HSTATUS_VGEIN_SHIFT) (Z.land (hstatus (write_hstatus (u64 w) (hw p))) HSTATUS_VGEIN)) as [Eq|Ne];
    [symmetry in Eq; apply Hk in Eq; lia|done|done|]. exfalso. apply Ne. symmetry. apply Hk. lia.
Qed.

(** The loop stops at the first number above [geilen]. *)
Lemma vgein_loop k g p : (k <= 63)%nat -> g = 64 - Z.of_nat k -> 1 <= g -> g <= geilen + 1 ->
  exists p', forall v, search_with ((fun j => g + Z.of_nat j) <$> seq 0 k) try_vgein tt (mk_test v p) =
    Done (if geilen <? 63 then inl (geilen + 1) else inr tt, mk_test v p' : test_state H).
Proof.
  pose proof geilen_range as Hr. revert g p. induction k as [|k IH]; intros g p Hk Hg H1g Hle.
  - exists p. intros v. destruct (Z.ltb_spec geilen 63); [lia|done].
  - destruct (try_vgein_spec g p ltac:(lia)) as [p1 E1]. destruct (Z.ltb_spec geilen g).
    + exists p1. intros v. cbn [seq fmap list_fmap search_with]. rewrite Z.add_0_r, (bind_done _ _ _ _ _ (E1 v)).
      destruct (Z.ltb_spec geilen g), (Z.ltb_spec geilen 63); try lia. by replace (geilen + 1) with g by lia.
    + destruct (IH (g + 1) p1 ltac:(lia) ltac:(lia) ltac:(lia) ltac:(lia)) as [p' E']. exists p'. intros v.
      cbn [seq fmap list_fmap search_with]. rewrite Z.add_0_r, (bind_done _ _ _ _ _ (E1 v)).
      destruct (Z.ltb_spec geilen g); [lia|]. rewrite <- E'. f_equal.
      rewrite <- fmap_S_seq, <- list_fmap_compose. apply list_fmap_ext. intros j ? _. simpl. lia.
Qed.

Lemma i003_leaves me p : exists p',
  leaves (payload_i003 : prog (test_state H) unit) p p' me (if 4 <=? geilen then RESULT_PASS 203 1 else RESULT_FAIL 203 1).
Proof.
  pose proof geilen_range as Hr. destruct (vgein_loop 63 1 p ltac:(done) eq_refl ltac:(lia) ltac:(lia)) as [p' E]. exists p'.
  intros v Hmy Hme. unfold payload_i003. rewrite (bind_done _ _ _ _ _ (on_val_done _ _ p _ _ Hmy)), (bind_done _ _ _ _ _ (E v)).
  set (word := if 4 <=? geilen then RESULT_PASS 203 1 else RESULT_FAIL 203 1).
  assert (Ew : (if match (if geilen <? 63 then inl (geilen + 1) else inr tt : Z + unit) with inl x => x | inr _ => 0x40 end <? 5
                then RESULT_FAIL 203 1 else RESULT_PASS 203 1) = word).
  { unfold word. destruct (Z.ltb_spec geilen 63), (Z.leb_spec 4 geilen); try lia;
      [destruct (Z.ltb_spec (geilen + 1) 5)..|]; try lia; done. }
  change (ACS_GIC_TEST_NUM_BASE + 3) with 203. rewrite Ew.
  destruct (set_status_leaves v me word Hme) as (v' & Es & Hv). exists v'. split; [by rewrite (on_val_done _ _ p' _ _ Es)|done].
Qed.

(** C14: the test of guest interrupt files passes with one file less than it asks for.  On a
    hart with [geilen] of them test i003, when selected, returns PASS exactly when [geilen]
    is at least 4, and FAIL otherwise.  The brief of the test and its message ask for at
    least 5; the verdict differs from that exactly on a hart with 4, because the loop leaves
    in [vgein] the first number that the hart does not take. *)
Theorem guest_files_verdict v p me :
  options_small v -> 0 <= me < Z.of_nat (length (shared_mem v)) -> my_index v = Done (me, v) ->
  let code := if runs v 203 then if 4 <=? geilen then ACS_STATUS_PASS else ACS_STATUS_FAIL else ACS_STATUS_SKIP in
  (exists v' p', os_i003_entry (mk_test v p) = Done (code, mk_test v' p' : test_state H) /\ counts 203 code v v') /\
  (runs v 203 = true -> (code = ACS_STATUS_PASS <-> 5 <= geilen) <-> geilen <> 4).
Proof.
  intros Ho Hme Hmy. split.
  - destruct (i003_leaves me p) as [p' Hl].
    destruct (result_concluded (4 <=? geilen) 203 ltac:(lia)) as [Hc Hcode].
    destruct (entry_verdict 203 "Check maximum hstatus.VGEIN                     " "ME_IIC_040_010" _ v p p' me _ ltac:(lia) Ho Hme Hmy Hl Hc ltac:(lia))
      as (x & v' & q & E & -> & Hq & Hcnt).
    exists v', q. split; [by rewrite <- Hcode; exact E|]. unfold counts. by rewrite Hcode in Hcnt.
  - intros ->. destruct (Z.leb_spec 4 geilen) as [Hg|Hg]; (split; [|]); unfold ACS_STATUS_PASS, ACS_STATUS_FAIL; intros; lia.
Qed.
End Guests.

(** ** A hart with four guest interrupt files *)

Module Sample.
Import PcieTests.Sample.
#[export] Instance csr_hw : Hardware Z := {| hw_read := fun _ _ h => (0, h); hw_write := fun _ _ _ h => h |}.
Definition keep_four (v : Z) : Z :=
  if Z.shiftr (Z.land v HSTATUS_VGEIN) HSTATUS_VGEIN_SHIFT <=? 4 then v else Z.land v (Z.lnot HSTATUS_VGEIN).
#[export] Instance four_csrs : HartCsrs Z := {|
  hstatus := id; write_hstatus := fun v _ => keep_four v; imsic := fun _ => mk_csrs 0 ∅; set_imsic := fun _ h => h;
  imsic_writable := fun _ => 0; stopei := fun _ => 0 |}.
#[export] Instance four_files : GuestFiles Z 4.
Proof.
  split; [lia|]. intros v h. cbn [hstatus write_hstatus four_csrs id]. unfold keep_four, id.
  destruct (Z.leb_spec (Z.shiftr (Z.land v HSTATUS_VGEIN) HSTATUS_VGEIN_SHIFT) 4) as [Hle|Hgt]; [done|].
  split; [|lia]. rewrite <- Z.land_assoc. change (Z.land (Z.lnot HSTATUS_VGEIN) HSTATUS_VGEIN) with 0. rewrite Z.land_0_r.
  intros E. rewrite <- E in Hgt. by vm_compute in Hgt.
Qed.
Definition pcie_csr : pcie_state Z := mk_pcie None None 0 0.

Lemma guest_files_verdict_witness :
  exists v' p', os_i003_entry (mk_test state_run pcie_csr) = Done (ACS_STATUS_PASS, mk_test v' p').
Proof.
  destruct (guest_files_verdict (geilen := 4) state_run pcie_csr 0) as ((v' & p' & E & _) & _); [by vm_compute..|].
  exists v', p'. rewrite E. by vm_compute.
Defined.
End Sample.
