(* ===== verification/SystemTests.v ===== *)
(** * Tests of harts, timers and the management controller

    Models [test_pool/hart/operating_system/test_os_c001.c], the test that compares the
    registers of the harts and runs on all of them, and the small tests t001 and t002 of
    [test_pool/timer/] and m001 and m002 of [test_pool/mng/].  The identification
    registers are a parameter: their value depends on the register and, for one of
    them, on the cache that is selected.  Messages are left out. *)

From S2P Require Import Prelude Firmware Timer Status Hart Infra Mmio PcieCfg PcieTests Tests.

Definition ACS_PE_TEST_NUM_BASE : Z := 0.
Definition ACS_TIMER_TEST_NUM_BASE : Z := 400.
Definition ACS_MNG_TEST_NUM_BASE : Z := 1100.
Definition NUM_OF_REGISTERS : Z := 32.
Definition RAS : Z := 1.
Definition SPE : Z := 2.
Definition LOR : Z := 3.
Definition AA32 : Z := 4.
Definition MASK_AA64MMFR0 : Z := 0xF.
Definition MASK_MIDR : Z := 0x00F0FFFF.
Definition MASK_MPIDR : Z := 0xFF3FFFFFFF.
Definition MASK_CTR : Z := 0xC000.
Definition MASK_CCSIDR : Z := 0xFFFFFF8.
Definition MASK_PMCR : Z := 0xFFFF.
Definition MAX_CACHE_LEVEL : Z := 7.

(** The registers that the test reads. *)
Inductive BSA_ACS_PE_REGS :=
  MPIDR_EL1 | ID_AA64PFR0_EL1 | ID_AA64PFR1_EL1 | ID_AA64MMFR0_EL1 | ID_AA64MMFR1_EL1 | ID_AA64DFR0_EL1 | ID_AA64DFR1_EL1
| CTR_EL0 | ID_AA64ISAR0_EL1 | ID_AA64ISAR1_EL1 | PMCR_EL0 | CCSIDR_EL1 | CLIDR_EL1 | ID_DFR0_EL1
| ID_ISAR0_EL1 | ID_ISAR1_EL1 | ID_ISAR2_EL1 | ID_ISAR3_EL1 | ID_ISAR4_EL1 | ID_ISAR5_EL1
| ID_MMFR0_EL1 | ID_MMFR1_EL1 | ID_MMFR2_EL1 | ID_MMFR3_EL1 | ID_MMFR4_EL1 | ID_PFR0_EL1 | ID_PFR1_EL1 | MIDR_EL1
| MVFR0_EL1 | MVFR1_EL1 | MVFR2_EL1 | PMCEID0_EL0 | PMCEID1_EL0 | PMBIDR_EL1 | PMSIDR_EL1 | LORID_EL1
| ERRIDR_EL1 | ERR0FR_EL1 | ERR1FR_EL1 | ERR2FR_EL1 | ERR3FR_EL1.

#[export] Instance pe_regs_dec : EqDecision BSA_ACS_PE_REGS.
Proof. solve_decision. Defined.
Record reg_details := mk_reg { reg_name : BSA_ACS_PE_REGS; reg_mask : Z; dependency : Z }.
Definition reg_list : list reg_details := [
  mk_reg CCSIDR_EL1 MASK_CCSIDR 0; mk_reg ID_AA64PFR0_EL1 0 0; mk_reg ID_AA64PFR1_EL1 0 0; mk_reg ID_AA64DFR0_EL1 0 0;
  mk_reg ID_AA64DFR1_EL1 0 0; mk_reg ID_AA64MMFR0_EL1 MASK_AA64MMFR0 0; mk_reg ID_AA64MMFR1_EL1 0 0; mk_reg CTR_EL0 MASK_CTR 0;
  mk_reg ID_AA64ISAR0_EL1 0 0; mk_reg ID_AA64ISAR1_EL1 0 0; mk_reg MPIDR_EL1 MASK_MPIDR 0; mk_reg MIDR_EL1 MASK_MIDR 0;
  mk_reg ID_DFR0_EL1 0 AA32; mk_reg ID_ISAR0_EL1 0 AA32; mk_reg ID_ISAR1_EL1 0 AA32; mk_reg ID_ISAR2_EL1 0 AA32;
  mk_reg ID_ISAR3_EL1 0 AA32; mk_reg ID_ISAR4_EL1 0 AA32; mk_reg ID_ISAR5_EL1 0 AA32; mk_reg ID_MMFR0_EL1 0 AA32;
  mk_reg ID_MMFR1_EL1 0 AA32; mk_reg ID_MMFR2_EL1 0 AA32; mk_reg ID_MMFR3_EL1 0 AA32; mk_reg ID_MMFR4_EL1 0 AA32;
  mk_reg ID_PFR0_EL1 0 AA32; mk_reg ID_PFR1_EL1 0 AA32; mk_reg MVFR0_EL1 0 AA32; mk_reg MVFR1_EL1 0 AA32; mk_reg MVFR2_EL1 0 AA32;
  mk_reg PMCEID0_EL0 0 0; mk_reg PMCEID1_EL0 0 0; mk_reg PMCR_EL0 MASK_PMCR 0; mk_reg PMBIDR_EL1 0 SPE; mk_reg PMSIDR_EL1 0 SPE;
  mk_reg ERRIDR_EL1 0 RAS; mk_reg ERR0FR_EL1 0 RAS; mk_reg ERR1FR_EL1 0 RAS; mk_reg ERR2FR_EL1 0 RAS; mk_reg ERR3FR_EL1 0 RAS;
  mk_reg LORID_EL1 0 LOR].

(** The two arrays that the running hart fills and the others compare with. *)
Record reference_values := mk_reference { rd_data_array : list Z; cache_list : list Z }.

(** [regs csselr r]: register [r] of a hart while [csselr] selects a cache. *)
Definition hart_regs := Z -> BSA_ACS_PE_REGS -> Z.

Definition return_reg_value (val_hart_reg_read : BSA_ACS_PE_REGS -> Z) (reg : BSA_ACS_PE_REGS) (dependency : Z) : Z :=
  if dependency =? 0 then val_hart_reg_read reg
  else if dependency =? RAS then
    if Z.land (Z.shiftr (val_hart_reg_read ID_AA64PFR0_EL1) 28) 0xf =? 1 then val_hart_reg_read reg else 0
  else if dependency =? SPE then
    if Z.land (Z.shiftr (val_hart_reg_read ID_AA64DFR0_EL1) 32) 0xf =? 1 then val_hart_reg_read reg else 0
  else if dependency =? LOR then
    if Z.land (Z.shiftr (val_hart_reg_read ID_AA64MMFR1_EL1) 16) 0xf =? 1 then val_hart_reg_read reg else 0
  else if dependency =? AA32 then
    if Z.land (val_hart_reg_read ID_AA64PFR0_EL1) 1 =? 0 then val_hart_reg_read reg else 0
  else 0.
Definition reg_value (regs : hart_regs) (csselr : Z) (r : reg_details) : Z := return_reg_value (regs csselr) (reg_name r) (dependency r).
Definition unmasked (r : reg_details) (v : Z) : Z := Z.land v (u64 (Z.lnot (reg_mask r))).

(** Is cache level [i] implemented? *)
Definition cache_at (regs : hart_regs) (csselr i : Z) : bool := negb (Z.land (regs csselr CLIDR_EL1) (Z.shiftl 0x7 (i * 3)) =? 0).

Section Symmetry.
Context `{SecondaryHarts, Firmware, CpuArchProtocol}.
Local Abbreviation P := (prog val_state).

(** *** On the other harts *)

(** A cache level; the selected cache lives on. [inl]: the value that differs. *)
Definition check_cache (regs : hart_regs) (ref : reference_values) (r0 : reg_details) (i csselr : Z) : P (Z + Z) :=
  if cache_at regs csselr i then
    let csselr := Z.shiftl i 1 in
    let reg_read_data := reg_value regs csselr r0 in
    let* c := deref (at_index (cache_list ref) i) in
    ret (if negb (unmasked r0 reg_read_data =? unmasked r0 c) then inl (unmasked r0 reg_read_data) else inr csselr)
  else ret (inr csselr).
Definition check_reg (regs : hart_regs) (ref : reference_values) (csselr i : Z) : P (option Z) :=
  let* r := deref (at_index reg_list i) in
  let reg_read_data := reg_value regs csselr r in
  let* d := deref (at_index (rd_data_array ref) i) in
  ret (if negb (unmasked r reg_read_data =? unmasked r d) then Some (unmasked r reg_read_data) else None).
Definition reg_indices : list Z := (fun k => 1 + Z.of_nat k) <$> seq 0 (Z.to_nat (NUM_OF_REGISTERS - 1)).

Definition id_regs_check (regs : hart_regs) (csselr : Z) (ref : reference_values) : P unit :=
  let TEST_NUM := ACS_PE_TEST_NUM_BASE + 1 in
  let* index := my_index in
  let fail data i := val_set_test_data index data i ;;; val_set_status index (RESULT_FAIL TEST_NUM 1) in
  let* r0 := deref (at_index reg_list 0) in
  let* c := search_with (indices MAX_CACHE_LEVEL) (check_cache regs ref r0) csselr in
  match c with
  | inl data => fail data 0
  | inr csselr =>
      let* r := search reg_indices (fun i => let* x := check_reg regs ref csselr i in ret ((fun d => (d, i)) <$> x)) in
      match r with
      | Some (data, i) => fail data i
      | None => val_set_status index (RESULT_PASS TEST_NUM 1)
      end
  end.

(** *** On the running hart *)

Definition record_cache (regs : hart_regs) (r0 : reg_details) (i : Z) (locals : Z * list Z) : P (Z * list Z) :=
  let '(csselr, cache_list) := locals in
  if cache_at regs csselr i then
    let csselr := Z.shiftl i 1 in
    let* _ := deref (at_index cache_list i) in
    ret (csselr, <[Z.to_nat i := reg_value regs csselr r0]> cache_list)
  else ret (csselr, cache_list).
Definition record_reg (regs : hart_regs) (csselr i : Z) (rd_data_array : list Z) : P (list Z) :=
  let* r := deref (at_index reg_list i) in
  let* _ := deref (at_index rd_data_array i) in
  ret (<[Z.to_nat i := reg_value regs csselr r]> rd_data_array).
Definition record_reference (regs : hart_regs) (csselr : Z) (ref : reference_values) : P reference_values :=
  let* r0 := deref (at_index reg_list 0) in
  let* c := thread (indices MAX_CACHE_LEVEL) (record_cache regs r0) (csselr, cache_list ref) in
  let* d := thread reg_indices (record_reg regs c.1) (rd_data_array ref) in
  ret (mk_reference d c.2).

(** One other hart: [Some] is the [return]. [id_regs_check_addr] is the address of
    [id_regs_check]. *)
Definition compare_hart (id_regs_check_addr : Z) (ref : reference_values) (i : Z) : P (option unit) :=
  let TEST_NUM := ACS_PE_TEST_NUM_BASE + 1 in
  val_execute_on_pe i id_regs_check_addr 0 ;;;
  let* done := rounds (Pos.pred TIMEOUT_LARGE) (let* st := val_get_status i in ret (if IS_RESULT_PENDING st then None else Some tt)) in
  match done with
  | None => val_set_status i (RESULT_FAIL TEST_NUM 2) ;;; ret (Some tt)
  | Some _ =>
      let* st := val_get_status i in
      if IS_TEST_FAIL st then
        let* d := val_get_test_data i in
        let array_index := match d with Some (_, x) => x | None => 0 end in
        let* _ := deref (at_index reg_list array_index) in
        let* _ := deref (at_index (rd_data_array ref) array_index) in
        ret (Some tt)
      else ret None
  end.
(** The status of the running hart is not set when there is another one. *)
Definition payload_c001 (regs : hart_regs) (csselr id_regs_check_addr num_hart : Z) (ref : reference_values) : P reference_values :=
  let* me := my_index in
  if num_hart =? 1 then val_set_status me (RESULT_SKIP (ACS_PE_TEST_NUM_BASE + 1) 1) ;;; ret ref else
  let* ref := record_reference regs csselr ref in
  let* _ := search (indices num_hart) (fun i => if negb (i =? me) then compare_hart id_regs_check_addr ref i else ret None) in
  ret ref.
Definition os_c001_entry (regs : hart_regs) (csselr id_regs_check_addr num_hart : Z) (ref : reference_values) : P Z :=
  let TEST_NUM := ACS_PE_TEST_NUM_BASE + 1 in
  let* n := val_hart_get_num in
  let* st := val_initialize_test TEST_NUM "Check Arch symmetry across HART         " n in
  when (negb (st =? ACS_STATUS_SKIP)) (payload_c001 regs csselr id_regs_check_addr num_hart ref ;;; ret tt) ;;;
  let* st := val_check_for_error TEST_NUM num_hart (Some "B_PE_01"%string) in
  val_report_status 0 (BSA_ACS_END TEST_NUM) None ;;;
  ret st.
End Symmetry.

(** ** Timers and management *)

Section Small.
Context {H G : Type} `{Hardware G, TimerRegs G} `{SecondaryHarts, CpuArchProtocol} (timers : timer_state G) (mng : mng_state).
Local Abbreviation T := (prog (test_state H)).

(** A read of a table of another component, which does not change. *)
Definition look {S A} (m : prog S A) (s : S) : T A := fun t =>
  match m s with Done (a, _) => Done (a, t) | Undefined => Undefined | Diverges => Diverges end.

Definition payload_t001 : T unit :=
  let TEST_NUM := ACS_TIMER_TEST_NUM_BASE + 1 in
  let* index := on_val my_index in
  let* f := look (val_timer_get_info TIMER_INFO_CNTFREQ 0) timers in
  let counter_freq := u32 f in
  on_val (val_set_status index (if counter_freq =? 1000 * 1000 * 1000 then RESULT_PASS TEST_NUM 1 else RESULT_FAIL TEST_NUM 1)).
Definition payload_t002 : T unit := on_val (val_set_status 0 (RESULT_SKIP (ACS_TIMER_TEST_NUM_BASE + 2) 1)).

(** The type of the interface is read for a message. *)
Definition mng_payload (TEST_NUM : Z) (address type : MNG_INFO_e) : T unit :=
  let* index := on_val my_index in
  let* a := look (val_mng_get_info address) mng in
  if a =? 0 then on_val (val_set_status index (RESULT_FAIL TEST_NUM 1)) else
  let* _ := look (val_mng_get_info type) mng in
  on_val (val_set_status index (RESULT_PASS TEST_NUM 1)).
Definition payload_m001 : T unit := mng_payload (ACS_MNG_TEST_NUM_BASE + 1) MNG_MC_HOST_IF_TABLE MNG_MC_DEVICE_TYPE.
Definition payload_m002 : T unit := mng_payload (ACS_MNG_TEST_NUM_BASE + 2) MNG_IPMI_DEVICE_INFO_TABLE MNG_IPMI_IF_TYPE.

Definition os_t001_entry : T Z := os_entry (ACS_TIMER_TEST_NUM_BASE + 1) "Check Counter Frequency               " "ME_CTI_010_010" payload_t001.
Definition os_t002_entry : T Z := os_entry (ACS_TIMER_TEST_NUM_BASE + 2) "Arch Context Lost Flags          " "ME_CTI_020_010" payload_t002.
Definition os_m001_entry : T Z := os_entry (ACS_MNG_TEST_NUM_BASE + 1) "SMBIOS Type 42 - Management Controller Host Interface        " "OE_MNG_010_010" payload_m001.
Definition os_m002_entry : T Z := os_entry (ACS_MNG_TEST_NUM_BASE + 2) "SMBIOS Type 38 - IPMI Device Information         " "OE_MNG_020_010" payload_m002.
End Small.

(** ** What the symmetry test compares *)

(** Only the cache size register depends on the cache that is selected. *)
Definition plain (regs : hart_regs) : Prop := forall c c' r, r <> CCSIDR_EL1 -> regs c r = regs c' r.

Definition r0 : reg_details := mk_reg CCSIDR_EL1 MASK_CCSIDR 0.
Definition compared : list reg_details := take 31 (drop 1 reg_list).
Definition same_reg (regs regs' : hart_regs) (r : reg_details) : bool :=
  unmasked r (reg_value regs 0 r) =? unmasked r (reg_value regs' 0 r).
(** A level that the checked hart implements; a level that the running hart lacks
    counts as 0. *)
Definition same_cache (regs0 regs : hart_regs) (i : Z) : bool :=
  implb (cache_at regs 0 i) (unmasked r0 (reg_value regs (2 * i) r0) =? unmasked r0 (if cache_at regs0 0 i then reg_value regs0 (2 * i) r0 else 0)).
(** Do the registers of a hart agree with those of the running one? *)
Definition symmetric (regs0 regs : hart_regs) : bool :=
  forallb (same_cache regs0 regs) (indices MAX_CACHE_LEVEL) && forallb (same_reg regs regs0) compared.

Lemma cache_at_plain regs c i : plain regs -> cache_at regs c i = cache_at regs 0 i.
Proof. intros Hp. unfold cache_at. by rewrite (Hp c 0 CLIDR_EL1). Qed.

Lemma reg_value_plain regs c r : plain regs -> r ∈ compared -> reg_value regs c r = reg_value regs 0 r.
Proof.
  intros Hp Hr. assert (Hn : reg_name r <> CCSIDR_EL1).
  { unfold compared in Hr. vm_compute in Hr. repeat (apply elem_of_cons in Hr as [->|Hr]; [cbn; discriminate|]). by apply not_elem_of_nil in Hr. }
  unfold reg_value, return_reg_value. by rewrite (Hp c 0 (reg_name r) Hn), !(Hp c 0 ID_AA64PFR0_EL1), !(Hp c 0 ID_AA64DFR0_EL1), !(Hp c 0 ID_AA64MMFR1_EL1).
Qed.

Lemma reg_indices_compared i : i ∈ reg_indices -> exists r, at_index reg_list i = Some r /\ r ∈ compared.
Proof.
  intros Hi. unfold reg_indices in Hi. apply list_elem_of_fmap in Hi as (k & -> & Hk%elem_of_seq).
  change (Z.to_nat (NUM_OF_REGISTERS - 1)) with 31%nat in Hk.
  assert (Hall : forallb (fun k => match at_index reg_list (1 + Z.of_nat k), compared !! k with Some _, Some _ => true | _, _ => false end) (seq 0 31) = true) by (by vm_compute).
  assert (Hsame : compared !! k = at_index reg_list (1 + Z.of_nat k)).
  { unfold compared. rewrite lookup_take, lookup_drop. replace (1 + Z.of_nat k) with (Z.of_nat (1 + k)) by lia. rewrite at_index_nat. by destruct (decide _); [|lia]. }
  rewrite forallb_forall in Hall. specialize (Hall k ltac:(apply in_seq; lia)). rewrite <- Hsame in *.
  destruct (compared !! k) as [r|] eqn:E; [|done]. exists r. split; [done|]. by apply list_elem_of_lookup_2 in E.
Qed.

(** *** The reference *)

Lemma elem_of_other {A} `{EqDecision A} (i j : A) idx : j <> i -> bool_decide (j ∈ i :: idx) = bool_decide (j ∈ idx).
Proof. intros Hne. apply bool_decide_ext. rewrite elem_of_cons. by split; [intros [|]|right]. Qed.

Lemma record_caches regs s : plain regs -> forall idx c l, (forall i, i ∈ idx -> 0 <= i < Z.of_nat (length l)) ->
  exists c' l', thread idx (record_cache regs r0) (c, l) s = Done ((c', l'), s) /\ length l' = length l /\
    forall j, at_index l' j = if bool_decide (j ∈ idx) && cache_at regs 0 j then Some (reg_value regs (2 * j) r0) else at_index l j.
Proof.
  intros Hp. induction idx as [|i idx IH]; intros c l Hin.
  - by exists c, l.
  - cbn [thread]. destruct (at_index_lt l i (Hin i ltac:(left))) as [x Hx].
    assert (E1 : record_cache regs r0 i (c, l) s =
      Done (if cache_at regs 0 i then (Z.shiftl i 1, <[Z.to_nat i := reg_value regs (2 * i) r0]> l) else (c, l), s)).
    { unfold record_cache. rewrite (cache_at_plain regs c i Hp). destruct (cache_at regs 0 i); [|done].
      unfold bind. rewrite Hx. cbn [deref ret]. unfold ret. replace (Z.shiftl i 1) with (2 * i) by (rewrite Z.shiftl_mul_pow2 by lia; lia). done. }
    rewrite (bind_done _ _ _ _ _ E1).
    destruct (cache_at regs 0 i) eqn:Ec.
    + destruct (IH (Z.shiftl i 1) (<[Z.to_nat i := reg_value regs (2 * i) r0]> l)) as (c' & l' & E & Hl & Hj).
      { intros j Hj. rewrite length_insert. apply Hin. by right. }
      exists c', l'. rewrite E, Hl, length_insert. split_and!; [done|done|]. intros j. rewrite Hj, (at_index_insert _ _ _ _ x Hx).
      destruct (Z.eqb_spec i j) as [->|Hne]; [|by rewrite elem_of_other].
      rewrite Ec, !andb_true_r. rewrite (bool_decide_true (j ∈ j :: idx)) by left. by destruct (bool_decide _).
    + destruct (IH c l) as (c' & l' & E & Hl & Hj); [intros j Hj; apply Hin; by right|].
      exists c', l'. split_and!; [done|done|]. intros j. rewrite Hj. destruct (decide (j = i)) as [->|Hne]; [by rewrite Ec, !andb_false_r|]. by rewrite elem_of_other.
Qed.

Lemma record_regs regs c s : plain regs -> forall idx l, (forall i, i ∈ idx -> i ∈ reg_indices /\ 0 <= i < Z.of_nat (length l)) ->
  exists l', thread idx (record_reg regs c) l s = Done (l', s) /\
    forall j, at_index l' j = if bool_decide (j ∈ idx) then reg_value regs 0 <$> at_index reg_list j else at_index l j.
Proof.
  intros Hp. induction idx as [|i idx IH]; intros l Hin.
  - by exists l.
  - destruct (Hin i ltac:(left)) as [Hi Hlt]. destruct (reg_indices_compared i Hi) as (r & Hr & Hc).
    destruct (at_index_lt l i Hlt) as [x Hx]. cbn [thread].
    assert (E1 : record_reg regs c i l s = Done (<[Z.to_nat i := reg_value regs 0 r]> l, s)).
    { unfold record_reg, bind. rewrite Hr, Hx. cbn [deref ret]. unfold ret. by rewrite (reg_value_plain regs c r Hp Hc). }
    rewrite (bind_done _ _ _ _ _ E1).
    destruct (IH (<[Z.to_nat i := reg_value regs 0 r]> l)) as (l' & E & Hj).
    { intros j Hj. rewrite length_insert. apply Hin. by right. }
    exists l'. split; [done|]. intros j. rewrite Hj, (at_index_insert _ _ _ _ x Hx).
    destruct (Z.eqb_spec i j) as [->|Hne]; [|by rewrite elem_of_other].
    rewrite (bool_decide_true (j ∈ j :: idx)) by left. rewrite Hr. by destruct (bool_decide _).
Qed.

(** The reference holds what the running hart reads. *)
Definition refers (regs0 : hart_regs) (ref : reference_values) : Prop :=
  (forall i, 0 <= i < MAX_CACHE_LEVEL -> at_index (cache_list ref) i = Some (if cache_at regs0 0 i then reg_value regs0 (2 * i) r0 else 0)) /\
  (forall i, i ∈ reg_indices -> at_index (rd_data_array ref) i = reg_value regs0 0 <$> at_index reg_list i).

Lemma record_reference_spec regs0 c s ref :
  plain regs0 -> length (rd_data_array ref) = 32%nat -> cache_list ref = replicate 7 0 ->
  exists ref', record_reference regs0 c ref s = Done (ref', s) /\ refers regs0 ref'.
Proof.
  intros Hp Hr Hc. unfold record_reference. change (at_index reg_list 0) with (Some r0). unfold bind at 1. cbn [deref ret]. unfold ret at 1.
  rewrite Hc. destruct (record_caches regs0 s Hp (indices MAX_CACHE_LEVEL) c (replicate 7 0)) as (c' & l' & E & Hl & Hj).
  { intros i Hi%elem_of_indices. rewrite length_replicate. unfold MAX_CACHE_LEVEL in Hi. lia. }
  rewrite (bind_done _ _ _ _ _ E). cbn [fst snd].
  destruct (record_regs regs0 c' s Hp reg_indices (rd_data_array ref)) as (d & Ed & Hd).
  { intros i Hi. split; [done|]. unfold reg_indices in Hi. apply list_elem_of_fmap in Hi as (k & -> & Hk%elem_of_seq).
    change (Z.to_nat (NUM_OF_REGISTERS - 1)) with 31%nat in Hk. rewrite Hr. lia. }
  rewrite (bind_done _ _ _ _ _ Ed). eexists. split; [reflexivity|]. split.
  - intros i Hi. cbn [cache_list]. rewrite Hj, bool_decide_true by (by apply elem_of_indices). destruct (cache_at regs0 0 i); [done|].
    unfold at_index. destruct (Z.leb_spec 0 i); [|lia]. apply lookup_replicate_2. unfold MAX_CACHE_LEVEL in Hi. lia.
  - intros i Hi. cbn [rd_data_array]. by rewrite Hd, bool_decide_true.
Qed.

(** *** The comparison *)

Lemma check_caches regs0 regs ref s : plain regs -> refers regs0 ref -> forall idx c, (forall i, i ∈ idx -> 0 <= i < MAX_CACHE_LEVEL) ->
  exists x, search_with idx (check_cache regs ref r0) c s = Done (x, s) /\
    match x with inl _ => false | inr _ => true end = forallb (same_cache regs0 regs) idx.
Proof.
  intros Hp [Hc _]. induction idx as [|i idx IH]; intros c Hin; [by exists (inr c)|].
  cbn [search_with forallb].
  set (v := unmasked r0 (reg_value regs (2 * i) r0)).
  assert (E1 : check_cache regs ref r0 i c s = Done (if same_cache regs0 regs i then inr (if cache_at regs 0 i then Z.shiftl i 1 else c) else inl v, s)).
  { unfold check_cache, same_cache. rewrite (cache_at_plain regs c i Hp). destruct (cache_at regs 0 i); [|done].
    replace (Z.shiftl i 1) with (2 * i) by (rewrite Z.shiftl_mul_pow2 by lia; lia). unfold bind. rewrite (Hc i (Hin i ltac:(left))).
    cbn [deref ret]. unfold ret. fold v. cbn [implb]. by destruct (v =? _). }
  rewrite (bind_done _ _ _ _ _ E1). destruct (same_cache regs0 regs i); [|by exists (inl v)].
  apply IH. intros j Hj. apply Hin. by right.
Qed.

Lemma check_regs regs0 regs ref c s : plain regs -> refers regs0 ref ->
  exists x, search reg_indices (fun i => let* x := check_reg regs ref c i in ret ((fun d => (d, i)) <$> x)) s = Done (x, s) /\
    match x with Some _ => false | None => true end = forallb (same_reg regs regs0) compared.
Proof.
  intros Hp [_ Hd].
  assert (Hgo : forall idx, (forall i, i ∈ idx -> i ∈ reg_indices) ->
    exists x, search idx (fun i => let* x := check_reg regs ref c i in ret ((fun d => (d, i)) <$> x)) s = Done (x, s) /\
      match x with Some _ => false | None => true end = forallb (fun i => from_option (same_reg regs regs0) true (at_index reg_list i)) idx).
  { induction idx as [|i idx IH]; intros Hin; [by exists None|]. cbn [search forallb].
    destruct (reg_indices_compared i (Hin i ltac:(left))) as (r & Hr & Hcr).
    set (v := unmasked r (reg_value regs 0 r)).
    assert (E1 : (let* x := check_reg regs ref c i in ret ((fun d => (d, i)) <$> x)) s = Done (if same_reg regs regs0 r then None else Some (v, i), s)).
    { unfold check_reg, bind. rewrite Hr, (Hd i (Hin i ltac:(left))), Hr. cbn [deref ret fmap option_fmap option_map]. unfold ret.
      rewrite (reg_value_plain regs c r Hp Hcr). unfold same_reg. fold v. by destruct (v =? _). }
    rewrite (bind_done _ _ _ _ _ E1), Hr. cbn [from_option]. destruct (same_reg regs regs0 r); [|by exists (Some (v, i))].
    apply IH. intros j Hj. apply Hin. by right. }
  destruct (Hgo reg_indices (fun i Hi => Hi)) as (x & E & Hx). exists x. split; [done|]. rewrite Hx. done.
Qed.

(** The data of a message, then the word. *)
Lemma data_then_status me data i w v :
  0 <= me < Z.of_nat (length (shared_mem v)) -> (exists n, val_hart_get_num v = Done (n, v) /\ me <= n) ->
  exists v', (val_set_test_data me data i ;;; val_set_status me w) v = Done (tt, v') /\ hart_is (Z.eqb w) (shared_mem v') me.
Proof.
  intros Hme (n & Hn & Hle). destruct (at_index_lt (shared_mem v) me Hme) as [e He].
  set (m := <[Z.to_nat me := set_data data i e]> (shared_mem v)).
  assert (E : val_set_test_data me data i v = Done (tt, set_shared_mem m v)).
  { unfold val_set_test_data. rewrite (bind_done _ _ _ _ _ Hn). destruct (Z.ltb_spec n me); [lia|].
    unfold bind, gets. rewrite He. cbn [deref ret]. unfold ret, modify. done. }
  rewrite (bind_done _ _ _ _ _ E).
  destruct (set_status_leaves (set_shared_mem m v) me w) as (v' & Es & _ & _ & Hw).
  { replace (shared_mem (set_shared_mem m v)) with m by (by destruct v). unfold m. by rewrite length_insert. }
  by exists v'.
Qed.

Lemma id_regs_check_spec regs0 regs c ref me v :
  plain regs -> refers regs0 ref -> my_index v = Done (me, v) ->
  0 <= me < Z.of_nat (length (shared_mem v)) -> (exists n, val_hart_get_num v = Done (n, v) /\ me <= n) ->
  exists v', id_regs_check regs c ref v = Done (tt, v') /\
    hart_is (Z.eqb (if symmetric regs0 regs then RESULT_PASS 1 1 else RESULT_FAIL 1 1)) (shared_mem v') me.
Proof.
  intros Hp Hr Hmy Hme Hn. unfold id_regs_check, symmetric. rewrite (bind_done _ _ _ _ _ Hmy).
  change (at_index reg_list 0) with (Some r0). unfold bind at 1. cbn [deref ret]. unfold ret at 1.
  destruct (check_caches regs0 regs ref v Hp Hr (indices MAX_CACHE_LEVEL) c) as (x & Ex & Hx); [by intros i Hi%elem_of_indices|].
  rewrite (bind_done _ _ _ _ _ Ex), <- Hx. destruct x as [data|c']; [by apply data_then_status|].
  destruct (check_regs regs0 regs ref c' v Hp Hr) as (y & Ey & Hy).
  rewrite (bind_done _ _ _ _ _ Ey), <- Hy. destruct y as [[data i]|]; [by apply data_then_status|].
  destruct (set_status_leaves v me (RESULT_PASS 1 1) Hme) as (v' & Es & _ & _ & Hw). by exists v'.
Qed.

(** C31: what the symmetry test compares.  Let only the cache size register depend on the
    selected cache.  The running hart records a reference without fault, and another hart
    that checks itself against it stores PASS exactly when it agrees with the running hart
    on the size of every cache level it implements (a level the running hart lacks counts
    as 0) and on registers 1 to 31 of the list under their masks, and FAIL otherwise. *)
Theorem symmetry_checked regs0 regs c0 c ref0 v0 v me :
  plain regs0 -> plain regs -> length (rd_data_array ref0) = 32%nat -> cache_list ref0 = replicate 7 0 ->
  my_index v = Done (me, v) -> 0 <= me < Z.of_nat (length (shared_mem v)) ->
  (exists n, val_hart_get_num v = Done (n, v) /\ me <= n) ->
  exists ref v', record_reference regs0 c0 ref0 v0 = Done (ref, v0) /\ id_regs_check regs c ref v = Done (tt, v') /\
    hart_is (Z.eqb (if symmetric regs0 regs then RESULT_PASS 1 1 else RESULT_FAIL 1 1)) (shared_mem v') me.
Proof.
  intros Hp0 Hp Hl Hc Hmy Hme Hn. destruct (record_reference_spec regs0 c0 v0 ref0 Hp0 Hl Hc) as (ref & Er & Href).
  destruct (id_regs_check_spec regs0 regs c ref me v Hp Href Hmy Hme Hn) as (v' & Ev & Hv). by exists ref, v'.
Qed.

(** A hart whose register differs only behind the 32nd place passes. *)
Lemma last_registers_ignored regs0 regs :
  (forall c r, r ∉ [PMBIDR_EL1; PMSIDR_EL1; ERRIDR_EL1; ERR0FR_EL1; ERR1FR_EL1; ERR2FR_EL1; ERR3FR_EL1; LORID_EL1] -> regs c r = regs0 c r) ->
  symmetric regs0 regs = true.
Proof.
  intros Hsame. unfold symmetric. apply andb_true_iff; split; apply forallb_forall.
  - intros i _. unfold same_cache, cache_at, reg_value, return_reg_value. cbn [dependency r0 reg_name].
    rewrite (Hsame 0 CLIDR_EL1), (Hsame (2 * i) CCSIDR_EL1) by (apply (bool_decide_unpack _); by vm_compute).
    destruct (negb _); [|done]. cbn [implb]. apply Z.eqb_refl.
  - intros r Hr%list_elem_of_In. unfold same_reg, reg_value. apply Z.eqb_eq. f_equal. unfold return_reg_value.
    rewrite !(Hsame 0 ID_AA64PFR0_EL1), !(Hsame 0 ID_AA64DFR0_EL1), !(Hsame 0 ID_AA64MMFR1_EL1) by (apply (bool_decide_unpack _); by vm_compute).
    rewrite (Hsame 0 (reg_name r)); [done|]. unfold compared in Hr. vm_compute in Hr.
    repeat (apply elem_of_cons in Hr as [->|Hr]; [apply (bool_decide_unpack _); by vm_compute|]). by apply not_elem_of_nil in Hr.
Qed.

Module Sample.
Import PcieTests.Sample.
Definition zero_regs : hart_regs := fun _ _ => 0.
Definition odd_midr : hart_regs := fun _ r => match r with MIDR_EL1 => 0x41000000 | _ => 0 end.
Definition ref0 : reference_values := mk_reference (replicate 32 0) (replicate 7 0).

Lemma symmetry_checked_witness :
  exists ref v', record_reference zero_regs 0 ref0 state_run = Done (ref, state_run) /\
    id_regs_check odd_midr 0 ref state_run = Done (tt, v') /\ hart_is (Z.eqb (RESULT_FAIL 1 1)) (shared_mem v') 0.
Proof.
  apply (symmetry_checked zero_regs odd_midr 0 0 ref0 state_run state_run 0); [by intros ? ? []..|done|done|by vm_compute|by vm_compute|].
  exists 2. split; [by vm_compute|lia].
Defined.

(** Two harts that agree, and a firmware that starts a hart at once.  The status of the
    running hart stays PENDING, so the verdict, which is about the last word, depends on
    which of the two harts runs the test. *)
Definition other_passes (i : nat) : SecondaryHarts := fun _ m =>
  match m !! i with
  | Some e => if IS_RESULT_PENDING (status e) then <[i := with_status (RESULT_PASS 1 1) e]> m else m
  | None => m
  end.
Definition starts : Firmware := fun _ _ => 0.
Definition at_hart (id : Z) : val_state :=
  mk_val 3 [] 1 [] [] [] 0 0 0 0 (Some table2) 0 0 (mk_smc 0 0) 0 ∅ (shared_mem state_run) 0 id 0.
Definition verdict_of (i : nat) (v : val_state) : outcome Z :=
  match @os_c001_entry (other_passes i) starts no_protocol zero_regs 0 0x1000 2 ref0 v with
  | Done (x, _) => Done x | Undefined => Undefined | Diverges => Diverges end.

Lemma c001_running_hart_pending :
  verdict_of 1 (at_hart 5) = Done ACS_STATUS_PASS /\ verdict_of 0 (at_hart 9) = Done ACS_STATUS_FAIL.
Proof. by split; vm_compute. Qed.
End Sample.
