(* ===== verification/Heap.v ===== *)
(** * Memory of the platform layers

    Models the allocator of the bare-metal port
    ([platform/pal_baremetal/RDN2/src/pal_bm_misc.c]: [heap_alloc], [mem_alloc] and the
    functions on top of it), the memory and string functions of
    [pal_baremetal/common/src/pal_misc.c] (built with TARGET_BM_BOOT), and the aligned
    allocation of the UEFI port ([pal_uefi_acpi/src/pal_misc.c]) over a pool that the
    firmware owns.  A pointer is an address, NULL is 0; memory is bytes ([Bytes.v]). *)

From S2P Require Import Prelude Bytes.

(** ** The bare-metal heap *)

Definition PLATFORM_NORMAL_WORLD_IMAGE_SIZE : Z := 0x4000000.
Definition PLATFORM_MEMORY_POOL_SIZE : Z := 250 * 0x100000.
Definition PLATFORM_SHARED_REGION_SIZE : Z := 0x100000.
Definition PLATFORM_HEAP_REGION_SIZE : Z := PLATFORM_MEMORY_POOL_SIZE - PLATFORM_SHARED_REGION_SIZE.
Definition PLATFORM_NORMAL_WORLD_IMAGE_BASE : Z := 0xE0000000.
Definition PLATFORM_MEMORY_POOL_BASE : Z := PLATFORM_NORMAL_WORLD_IMAGE_BASE + PLATFORM_NORMAL_WORLD_IMAGE_SIZE.
Definition PLATFORM_SHARED_REGION_BASE : Z := PLATFORM_MEMORY_POOL_BASE.
Definition PLATFORM_HEAP_REGION_BASE : Z := PLATFORM_SHARED_REGION_BASE + PLATFORM_SHARED_REGION_SIZE.
Definition PLATFORM_PAGE_SIZE : Z := 0x1000.
Definition MEM_ALIGN_4K : Z := 0x1000.

Record heap := mk_heap { heap_base : Z; heap_top : Z; heap_init_done : Z }.

Definition ADDR_ALIGN (a b : Z) : Z := Z.land (u64 (a + u64 (b - 1))) (u64 (Z.lnot (u64 (b - 1)))).
Definition is_power_of_2 (n : Z) : bool := negb (n =? 0) && (Z.land n (u32 (n - 1)) =? 0).

Definition heap_alloc (alignment size : Z) : prog heap Z := fun h =>
  let addr := ADDR_ALIGN (heap_base h) alignment in
  let size := u64 (size + u64 (addr - heap_base h)) in
  if u64 (heap_top h - heap_base h) <? size then Done (0, h)
  else Done (addr, mk_heap (u64 (heap_base h + size)) (heap_top h) (heap_init_done h)).

Definition mem_alloc_init : prog heap unit := fun _ =>
  Done (tt, mk_heap PLATFORM_HEAP_REGION_BASE (PLATFORM_HEAP_REGION_BASE + PLATFORM_HEAP_REGION_SIZE) 1).

Definition mem_alloc (alignment size : Z) : prog heap Z :=
  let* d := gets heap_init_done in
  when (negb (d =? 1)) mem_alloc_init ;;;
  if size <=? 0 then ret 0
  else if negb (is_power_of_2 (u32 alignment)) then ret 0
  else heap_alloc alignment (u64 (size + u64 (alignment - 1))).

(** Nothing is given back. *)
Definition mem_free (ptr : Z) : prog heap unit := if ptr =? 0 then ret tt else ret tt.

Definition pal_mem_alloc (Size : Z) : prog heap Z := mem_alloc 0x08 Size.
Definition pal_aligned_alloc (alignment size : Z) : prog heap Z := mem_alloc alignment size.
Definition pal_mem_alloc_pages (NumPages : Z) : prog heap Z := mem_alloc MEM_ALIGN_4K (u32 (NumPages * PLATFORM_PAGE_SIZE)).
(** The address, which is also stored in [*Pa]. *)
Definition pal_mem_alloc_cacheable (Bdf Size : Z) : prog heap (Z * Z) := let* address := mem_alloc 0x08 Size in ret (address, address).
Definition pal_mem_free_aligned (Buffer : Z) : prog heap unit := mem_free Buffer.
Definition pal_mem_free (Buffer : Z) : prog heap unit := pal_mem_free_aligned Buffer.
Definition pal_mem_page_size : Z := PLATFORM_PAGE_SIZE.

(** *** What an allocation promises *)

(** The heap has been set up and its bounds are those of the platform. *)
Definition heap_ok (h : heap) : Prop :=
  heap_init_done h = 1 /\ heap_top h = PLATFORM_HEAP_REGION_BASE + PLATFORM_HEAP_REGION_SIZE /\
  PLATFORM_HEAP_REGION_BASE <= heap_base h <= heap_top h.
Definition ready (h : heap) : heap :=
  if heap_init_done h =? 1 then h
  else mk_heap PLATFORM_HEAP_REGION_BASE (PLATFORM_HEAP_REGION_BASE + PLATFORM_HEAP_REGION_SIZE) 1.

(** The first multiple of [2 ^ k] from [a] on. *)
Definition align_up (a k : Z) : Z := (a + (2 ^ k - 1)) / 2 ^ k * 2 ^ k.

Lemma align_up_spec a k : 0 <= k -> (2 ^ k | align_up a k) /\ a <= align_up a k < a + 2 ^ k.
Proof.
  intros Hk. assert (0 < 2 ^ k) by (apply Z.pow_pos_nonneg; lia). split; [by exists ((a + (2 ^ k - 1)) / 2 ^ k)|]. unfold align_up.
  pose proof (Z.mod_pos_bound (a + (2 ^ k - 1)) (2 ^ k) ltac:(lia)). pose proof (Z.div_mod (a + (2 ^ k - 1)) (2 ^ k) ltac:(lia)). lia.
Qed.

Lemma land_lnot_ones a k : 0 <= k < 64 -> 0 <= a < 2 ^ 64 -> Z.land a (u64 (Z.lnot (2 ^ k - 1))) = a / 2 ^ k * 2 ^ k.
Proof.
  intros Hk Ha. replace (2 ^ k - 1) with (Z.ones k) by (rewrite Z.ones_equiv; lia).
  assert (E : u64 (Z.lnot (Z.ones k)) = Z.land (Z.ones 64) (Z.lnot (Z.ones k))).
  { unfold u64. by rewrite <- (Z.land_ones _ 64), Z.land_comm by lia. }
  rewrite E, Z.land_assoc, (Z.land_ones a 64), (Z.mod_small a) by lia.
  rewrite <- Z.ldiff_land, Z.ldiff_ones_r by lia. by rewrite Z.shiftl_mul_pow2, Z.shiftr_div_pow2 by lia.
Qed.

Lemma ADDR_ALIGN_pow a k : 0 <= k < 32 -> 0 <= a -> a + 2 ^ 32 < 2 ^ 64 -> ADDR_ALIGN a (2 ^ k) = align_up a k.
Proof.
  intros Hk Ha Hb. assert (0 < 2 ^ k) by (apply Z.pow_pos_nonneg; lia). assert (2 ^ k < 2 ^ 32) by (apply Z.pow_lt_mono_r; lia).
  unfold ADDR_ALIGN. rewrite (u64_small (2 ^ k - 1)), u64_small, land_lnot_ones by lia. done.
Qed.

Lemma is_power_of_2_pow k : 0 <= k < 32 -> is_power_of_2 (u32 (2 ^ k)) = true.
Proof.
  intros Hk. assert (0 < 2 ^ k) by (apply Z.pow_pos_nonneg; lia). assert (2 ^ k < 2 ^ 32) by (apply Z.pow_lt_mono_r; lia).
  rewrite u32_small by lia. unfold is_power_of_2. apply andb_true_iff. split; [apply negb_true_iff; lia|]. apply Z.eqb_eq.
  rewrite u32_small by lia. replace (2 ^ k - 1) with (Z.ones k) by (rewrite Z.ones_equiv; lia). rewrite Z.land_ones by lia. apply Z.mod_same. lia.
Qed.

Lemma ready_ok h : (heap_init_done h = 1 -> heap_ok h) -> heap_ok (ready h).
Proof. intros Hh. unfold ready. destruct (Z.eqb_spec (heap_init_done h) 1); [by apply Hh|]. by vm_compute. Qed.

Lemma power_of_2_is_pow n : 0 <= n < 2 ^ 32 -> is_power_of_2 n = true -> exists k, 0 <= k < 32 /\ n = 2 ^ k.
Proof.
  intros Hn Hp. apply andb_true_iff in Hp as [Hz%negb_true_iff Hl%Z.eqb_eq]. apply Z.eqb_neq in Hz.
  rewrite u32_small in Hl by lia. exists (Z.log2 n). pose proof (Z.log2_spec n ltac:(lia)) as Hs. pose proof (Z.log2_nonneg n).
  assert (Z.log2 n < 32) by (apply Z.log2_lt_pow2; lia). split; [lia|].
  destruct (Z.eq_dec n (2 ^ Z.log2 n)) as [|Hne]; [done|exfalso].
  assert (Hb : Z.testbit (Z.land n (n - 1)) (Z.log2 n) = true).
  { rewrite Z.land_spec, (Z.bit_log2 n) by lia. replace (Z.log2 n) with (Z.log2 (n - 1)); [by rewrite Z.bit_log2 by lia|].
    apply Z.log2_unique; [lia|]. rewrite Z.pow_succ_r in * by lia. lia. }
  rewrite Hl, Z.bits_0 in Hb. done.
Qed.

(** An allocation, in terms of what is left. *)
Lemma mem_alloc_spec k size h :
  0 <= k < 32 -> 0 <= size < 2 ^ 32 -> (heap_init_done h = 1 -> heap_ok h) ->
  let h1 := ready h in let a := align_up (heap_base h1) k in
  mem_alloc (2 ^ k) size h =
    if (size =? 0) || (heap_top h1 <? a + size + (2 ^ k - 1)) then Done (0, h1)
    else Done (a, mk_heap (a + size + (2 ^ k - 1)) (heap_top h1) 1).
Proof.
  intros Hk Hs Hh h1 a. pose proof (ready_ok h Hh) as (Hd & Ht & Hb). fold h1 in Hd, Ht, Hb.
  assert (E : when (negb (heap_init_done h =? 1)) mem_alloc_init h = Done (tt, h1)).
  { unfold h1, ready. by destruct (heap_init_done h =? 1). }
  assert (Hgo : mem_alloc (2 ^ k) size h = (if size <=? 0 then ret 0 else if negb (is_power_of_2 (u32 (2 ^ k))) then ret 0 else heap_alloc (2 ^ k) (u64 (size + u64 (2 ^ k - 1)))) h1).
  { unfold mem_alloc, bind at 1, gets. rewrite (bind_done _ _ _ _ _ E). done. }
  rewrite Hgo, is_power_of_2_pow by lia. destruct (Z.leb_spec size 0), (Z.eqb_spec size 0); try lia; [done|]. cbn [negb orb].
  assert (Hv : PLATFORM_HEAP_REGION_BASE = 3826253824 /\ PLATFORM_HEAP_REGION_SIZE = 261095424) by (by vm_compute). destruct Hv as [Hvb Hvs].
  assert (0 < 2 ^ k) by (apply Z.pow_pos_nonneg; lia). assert (2 ^ k < 2 ^ 32) by (apply Z.pow_lt_mono_r; lia).
  destruct (align_up_spec (heap_base h1) k ltac:(lia)) as [_ Ha]. fold a in Ha.
  unfold heap_alloc. rewrite ADDR_ALIGN_pow by lia. fold a.
  rewrite !(u64_small (2 ^ k - 1)), !(u64_small (size + _)), !(u64_small (a - _)), !u64_small by lia. rewrite Hd.
  destruct (Z.ltb_spec (heap_top h1) (a + size + (2 ^ k - 1))), (Z.ltb_spec (heap_top h1 - heap_base h1) (size + (2 ^ k - 1) + (a - heap_base h1))); try lia; [done|].
  do 3 f_equal. lia.
Qed.

Lemma mem_alloc_odd alignment size h : is_power_of_2 (u32 alignment) = false -> mem_alloc alignment size h = Done (0, ready h).
Proof.
  intros Hp. unfold mem_alloc, bind, gets, when, ready. rewrite Hp. by destruct (heap_init_done h =? 1), (size <=? 0).
Qed.

(** One allocation: NULL and the heap as it was, or a block of the asked size. *)
Lemma mem_alloc_block alignment size h :
  0 <= alignment < 2 ^ 32 -> 0 <= size < 2 ^ 32 -> (heap_init_done h = 1 -> heap_ok h) ->
  exists a h', mem_alloc alignment size h = Done (a, h') /\ heap_ok h' /\ heap_base (ready h) <= heap_base h' /\
    (a <> 0 -> (alignment | a) /\ heap_base (ready h) <= a /\ 0 < size /\ a + size <= heap_base h').
Proof.
  intros Hal Hs Hh. pose proof (ready_ok h Hh) as Hok. destruct (is_power_of_2 alignment) eqn:Hp.
  - destruct (power_of_2_is_pow alignment Hal Hp) as (k & Hk & ->). rewrite (mem_alloc_spec k size h Hk Hs Hh).
    assert (0 < 2 ^ k) by (apply Z.pow_pos_nonneg; lia). destruct Hok as (Hd & Ht & Hb).
    destruct (align_up_spec (heap_base (ready h)) k ltac:(lia)) as [Hdiv Ha].
    destruct ((size =? 0) || _) eqn:Ec; [by eexists 0, _|]. apply orb_false_iff in Ec as [Hz%Z.eqb_neq Hlt%Z.ltb_ge].
    eexists _, _. split; [done|]. cbn [heap_ok heap_init_done heap_top heap_base]. unfold heap_ok. cbn [heap_init_done heap_top heap_base].
    split_and!; [done|done|lia|lia|lia|]. intros _. split_and!; [done|lia|lia|lia].
  - rewrite mem_alloc_odd by (by rewrite u32_small by lia). by eexists 0, _.
Qed.

(** *** A run of allocations *)

Fixpoint serve (requests : list (Z * Z)) : prog heap (list Z) :=
  match requests with
  | [] => ret []
  | (alignment, size) :: r => let* a := pal_aligned_alloc alignment size in let* l := serve r in ret (a :: l)
  end.

(** C32: the heap hands out disjoint blocks.  Any sequence of requests is served without
    fault; every answer that is not NULL is a multiple of its alignment, its block lies
    in the heap region of the platform, and the blocks of two answers do not overlap,
    whether or not the heap was set up before. *)
Theorem heap_blocks_disjoint requests h :
  (forall r, r ∈ requests -> 0 <= r.1 < 2 ^ 32 /\ 0 <= r.2 < 2 ^ 32) -> (heap_init_done h = 1 -> heap_ok h) ->
  exists l h', serve requests h = Done (l, h') /\ length l = length requests /\ (heap_init_done h' = 1 -> heap_ok h') /\
    (forall i a al size, l !! i = Some a -> requests !! i = Some (al, size) -> a <> 0 ->
       (al | a) /\ heap_base (ready h) <= a /\ a + size <= PLATFORM_HEAP_REGION_BASE + PLATFORM_HEAP_REGION_SIZE) /\
    (forall i j a b al size, (i < j)%nat -> l !! i = Some a -> l !! j = Some b -> requests !! i = Some (al, size) ->
       a <> 0 -> b <> 0 -> a + size <= b).
Proof.
  revert h. induction requests as [|[al size] r IH]; intros h Hr Hh; [by exists [], h|].
  destruct (Hr (al, size) ltac:(left)) as [Hal Hs]. cbn [fst snd] in Hal, Hs.
  destruct (mem_alloc_block al size h Hal Hs Hh) as (a & h1 & E & Hok & Hmon & Hblk).
  destruct (IH h1) as (l & h' & El & Hlen & Hok' & Hin & Hdis); [by intros x Hx; apply Hr; right|done|].
  assert (Hrd : ready h1 = h1) by (unfold ready; destruct Hok as [-> _]; done). rewrite Hrd in *.
  exists (a :: l), h'. cbn [serve]. unfold pal_aligned_alloc. rewrite (bind_done _ _ _ _ _ E), (bind_done _ _ _ _ _ El).
  destruct Hok as (_ & Ht & Hb1). split_and!; [done|by simpl; rewrite Hlen|done|..].
  - intros [|i] a' al' size' Ha' Hq Hnz; simpl in *.
    + injection Ha' as <-. injection Hq as <- <-. destruct (Hblk Hnz) as (? & ? & ? & ?). split_and!; [done|lia|lia].
    + destruct (Hin i a' al' size' Ha' Hq Hnz) as (? & ? & ?). split_and!; [done|lia|lia].
  - intros [|i] [|j] a' b' al' size' Hij Ha' Hb' Hq Hna Hnb; simpl in *; [lia| |lia|by apply (Hdis i j a' b' al' size'); [lia|..]].
    injection Ha' as <-. injection Hq as <- <-. destruct (Hblk Hna) as (_ & _ & _ & Hle).
    destruct (r !! j) as [[al2 size2]|] eqn:Hj.
    + destruct (Hin j b' al2 size2 Hb' Hj Hnb) as (_ & ? & _). lia.
    + apply lookup_ge_None in Hj. apply lookup_lt_Some in Hb'. lia.
Qed.

Lemma heap_blocks_disjoint_witness :
  exists l h', serve [(8, 100); (0x1000, 0x3000); (3, 5)] (mk_heap 0 0 0) = Done (l, h') /\ length l = 3%nat.
Proof.
  destruct (heap_blocks_disjoint [(8, 100); (0x1000, 0x3000); (3, 5)] (mk_heap 0 0 0)) as (l & h' & E & Hl & _); [|done|by exists l, h'].
  intros r Hr. repeat (apply elem_of_cons in Hr as [->|Hr]; [cbn; lia|]). by apply not_elem_of_nil in Hr.
Defined.

(** ** Memory and strings *)

Local Abbreviation B := (prog bytes).

Fixpoint mem_set_loop (size : nat) (ptr value : Z) : B unit :=
  match size with O => ret tt | S n => st 1 ptr value ;;; mem_set_loop n (ptr + 1) value end.
Definition pal_mem_set (buf size value : Z) : B unit := mem_set_loop (Z.to_nat size) buf value.

(** [n] more bytes, from offset [i]. *)
Fixpoint memcpy_loop (n : nat) (i d s : Z) : B unit :=
  match n with O => ret tt | S n => let* c := ld 1 (s + i) in st 1 (d + i) c ;;; memcpy_loop n (i + 1) d s end.
Definition pal_memcpy (DestinationBuffer SourceBuffer Length : Z) : B Z :=
  memcpy_loop (Z.to_nat Length) 0 DestinationBuffer SourceBuffer ;;; ret DestinationBuffer.

Fixpoint pal_strncmp_loop (len : nat) (str1 str2 : Z) : B Z :=
  match len with
  | O => ret 0
  | S n =>
      let* c1 := ld 1 str1 in
      if c1 =? 0 then let* c2 := ld 1 str2 in ret (u32 (c1 - c2)) else
      let* c2 := ld 1 str2 in
      if c1 =? c2 then pal_strncmp_loop n (str1 + 1) (str2 + 1) else ret (u32 (c1 - c2))
  end.
Definition pal_strncmp (str1 str2 len : Z) : B Z := pal_strncmp_loop (Z.to_nat len) str1 str2.

(** The terminator is written behind the [Length] characters. *)
Fixpoint strncpy_loop (Length : nat) (d s : Z) : B unit :=
  let* c := ld 1 s in
  if c =? 0 then st 1 d 0 else
  match Length with
  | O => st 1 d 0
  | S n => st 1 d c ;;; strncpy_loop n (d + 1) (s + 1)
  end.
Definition pal_strncpy (DestinationStr SourceStr Length : Z) : B Z :=
  if DestinationStr =? 0 then ret 0 else
  strncpy_loop (Z.to_nat Length) DestinationStr SourceStr ;;; ret DestinationStr.

Fixpoint compare_loop (Len : nat) (p1 p2 : Z) : B Z :=
  match Len with
  | O => ret 0
  | S n => let* c1 := ld 1 p1 in let* c2 := ld 1 p2 in if negb (c1 =? c2) then ret (c1 - c2) else compare_loop n (p1 + 1) (p2 + 1)
  end.
Definition pal_mem_compare (Src Dest Len : Z) : B Z := compare_loop (Z.to_nat Len) Dest Src.

(** *** Zeroed and shared memory *)

Record memory := mk_memory { the_heap : heap; the_bytes : bytes; gSharedMemory : Z }.
Definition on_heap {A} (p : prog heap A) : prog memory A := fun m =>
  match p (the_heap m) with Done (a, h) => Done (a, mk_memory h (the_bytes m) (gSharedMemory m)) | Undefined => Undefined | Diverges => Diverges end.
Definition on_bytes {A} (p : B A) : prog memory A := fun m =>
  match p (the_bytes m) with Done (a, b) => Done (a, mk_memory (the_heap m) b (gSharedMemory m)) | Undefined => Undefined | Diverges => Diverges end.

Definition pal_mem_calloc (num Size : Z) : prog memory Z :=
  let* ptr := on_heap (mem_alloc 0x08 (u32 (num * Size))) in
  when (negb (ptr =? 0)) (on_bytes (pal_mem_set ptr (u32 (num * Size)) 0)) ;;;
  ret ptr.
(** The cache maintenance of the pointer is left out. *)
Definition pal_mem_allocate_shared (num_hart sizeofentry : Z) : prog memory unit :=
  modify (fun m => mk_memory (the_heap m) (the_bytes m) 0) ;;;
  let* p := on_heap (pal_mem_alloc (u32 (num_hart * sizeofentry))) in
  modify (fun m => mk_memory (the_heap m) (the_bytes m) p).
Definition pal_mem_get_shared_addr : prog memory Z := gets gSharedMemory.
Definition pal_mem_free_shared : prog memory unit := let* p := gets gSharedMemory in on_heap (pal_mem_free_aligned p).

(** *** What they do *)

(** The bytes at [a], [a + 1], ... are [l]. *)
Fixpoint holds (m : bytes) (a : Z) (l : list Z) : Prop :=
  match l with [] => True | c :: l' => m !! a = Some c /\ holds m (a + 1) l' end.

Lemma ld1 m a c : m !! a = Some c -> ld 1 a m = Done (c, m).
Proof. intros E. unfold ld. cbn [load_le]. rewrite E. do 2 f_equal. lia. Qed.
Lemma st1 m a c v : m !! a = Some c -> 0 <= v < 256 -> st 1 a v m = Done (tt, <[a := v]> m).
Proof. intros E Hv. unfold st. cbn [store_le]. rewrite E. by rewrite Z.mod_small by lia. Qed.
Lemma ld1_none m a : m !! a = None -> ld 1 a m = Undefined.
Proof. intros E. unfold ld. cbn [load_le]. by rewrite E. Qed.
Lemma st1_none m a v : m !! a = None -> st 1 a v m = Undefined.
Proof. intros E. unfold st. cbn [store_le]. by rewrite E. Qed.

(** Writing outside a run of bytes keeps it. *)
Lemma holds_ext m m' a l : (forall x, a <= x < a + Z.of_nat (length l) -> m' !! x = m !! x) -> holds m a l -> holds m' a l.
Proof.
  revert a. induction l as [|c l IH]; intros a Hx Hm; [done|]. cbn [holds length] in *. destruct Hm as [Hc Hm].
  split; [by rewrite Hx by lia|]. apply IH; [|done]. intros x Hr. apply Hx. lia.
Qed.
Lemma holds_insert m a l x v : x < a \/ a + Z.of_nat (length l) <= x -> holds m a l -> holds (<[x := v]> m) a l.
Proof. intros Hx. apply holds_ext. intros y Hy. apply lookup_insert_ne. lia. Qed.
Lemma holds_Forall2 m a l : holds m a l -> bytes_ok m -> Forall (fun c => 0 <= c < 256) l.
Proof. intros Hh Hok. revert a Hh. induction l as [|c l IH]; intros a Hh; [done|]. destruct Hh as [Hc Hh]. constructor; [by eapply Hok|by eapply IH]. Qed.

Lemma memcpy_loop_spec s d l old : forall m i,
  bytes_ok m -> holds m (s + i) l -> holds m (d + i) old -> length old = length l ->
  d + i + Z.of_nat (length l) <= s + i \/ s + i + Z.of_nat (length l) <= d + i ->
  exists m', memcpy_loop (length l) i d s m = Done (tt, m') /\ bytes_ok m' /\ holds m' (d + i) l /\
    forall x, x < d + i \/ d + i + Z.of_nat (length l) <= x -> m' !! x = m !! x.
Proof.
  revert old. induction l as [|c l IH]; intros [|o old] m i Hok Hs Hd Hl Hsep; try done; [by exists m|].
  cbn [holds length memcpy_loop] in *. destruct Hs as [Hc Hs], Hd as [Ho Hd]. pose proof (Hok _ _ Hc) as Hr.
  rewrite (bind_done _ _ _ _ _ (ld1 _ _ _ Hc)), (bind_done _ _ _ _ _ (st1 _ _ _ _ Ho Hr)).
  destruct (IH old (<[d + i := c]> m) (i + 1)) as (m' & E & Hok' & Hh & Hfr).
  - intros x v. destruct (decide (x = d + i)) as [->|Hne]; [rewrite lookup_insert_eq; by intros [= <-]|]. rewrite lookup_insert_ne by done. apply Hok.
  - apply holds_insert; [lia|]. by replace (s + (i + 1)) with (s + i + 1) by lia.
  - apply holds_insert; [lia|]. by replace (d + (i + 1)) with (d + i + 1) by lia.
  - lia.
  - lia.
  - exists m'. split_and!; [done|done|..].
    + rewrite Hfr by lia. apply lookup_insert_eq.
    + by replace (d + i + 1) with (d + (i + 1)) by lia.
    + intros x Hx. rewrite Hfr by lia. apply lookup_insert_ne. lia.
Qed.

(** Where source and destination do not overlap, the destination gets the bytes of
    the source and nothing else changes. *)
Lemma memcpy_copies d s l old m :
  bytes_ok m -> holds m s l -> holds m d old -> length old = length l -> d + Z.of_nat (length l) <= s \/ s + Z.of_nat (length l) <= d ->
  exists m', pal_memcpy d s (Z.of_nat (length l)) m = Done (d, m') /\ holds m' d l /\
    forall x, x < d \/ d + Z.of_nat (length l) <= x -> m' !! x = m !! x.
Proof.
  intros Hok Hs Hd Hl Hsep. destruct (memcpy_loop_spec s d l old m 0) as (m' & E & _ & Hh & Hfr); rewrite ?Z.add_0_r in *; try done.
  exists m'. unfold pal_memcpy. rewrite Nat2Z.id, (bind_done _ _ _ _ _ E). done.
Qed.

Lemma strncpy_loop_overruns l : forall old m d s c,
  bytes_ok m -> Forall (fun x => x <> 0) l -> holds m s l -> m !! (s + Z.of_nat (length l)) = Some c ->
  holds m d old -> length old = length l -> m !! (d + Z.of_nat (length l)) = None ->
  d + Z.of_nat (length l) < s \/ s + Z.of_nat (length l) < d ->
  strncpy_loop (length l) d s m = Undefined.
Proof.
  induction l as [|x l IH]; intros [|o old] m d s c Hok Hnz Hs Hc Hd Hl Hend Hsep; try done; cbn [holds length strncpy_loop] in *.
  - rewrite Z.add_0_r in *. rewrite (bind_done _ _ _ _ _ (ld1 _ _ _ Hc)). destruct (c =? 0); by apply st1_none.
  - apply Forall_cons in Hnz as [Hx Hnz]. destruct Hs as [Hsx Hs], Hd as [Hdo Hd].
    rewrite (bind_done _ _ _ _ _ (ld1 _ _ _ Hsx)). destruct (Z.eqb_spec x 0); [lia|].
    pose proof (Hok _ _ Hsx) as Hr. rewrite (bind_done _ _ _ _ _ (st1 _ _ _ _ Hdo Hr)).
    apply (IH old _ _ _ c); [|done|apply holds_insert; [lia|done]|..].
    + intros y v. destruct (decide (y = d)) as [->|Hne]; [rewrite lookup_insert_eq; by intros [= <-]|]. rewrite lookup_insert_ne by done. apply Hok.
    + rewrite lookup_insert_ne by lia. by replace (s + 1 + Z.of_nat (length l)) with (s + Z.of_nat (S (length l))) by lia.
    + apply holds_insert; [lia|done].
    + lia.
    + rewrite lookup_insert_ne by lia. by replace (d + 1 + Z.of_nat (length l)) with (d + Z.of_nat (S (length l))) by lia.
    + lia.
Qed.

(** A string that is at least as long as the bound does not fit a buffer of that size:
    the terminator is written behind it. *)
Lemma strncpy_overruns l old m d s c :
  bytes_ok m -> Forall (fun x => x <> 0) l -> holds m s l -> m !! (s + Z.of_nat (length l)) = Some c ->
  holds m d old -> length old = length l -> m !! (d + Z.of_nat (length l)) = None -> d <> 0 ->
  d + Z.of_nat (length l) < s \/ s + Z.of_nat (length l) < d ->
  pal_strncpy d s (Z.of_nat (length l)) m = Undefined.
Proof.
  intros. unfold pal_strncpy. destruct (Z.eqb_spec d 0); [done|]. rewrite Nat2Z.id. unfold bind. by erewrite strncpy_loop_overruns.
Qed.

(** Equal exactly when every byte is. *)
Lemma compare_zero l1 : forall l2 m a b, holds m a l1 -> holds m b l2 -> length l1 = length l2 ->
  exists r, compare_loop (length l1) a b m = Done (r, m) /\ (r = 0 <-> l1 = l2).
Proof.
  induction l1 as [|x l1 IH]; intros [|y l2] m a b Ha Hb Hl; try done; [by exists 0|].
  cbn [holds length compare_loop] in *. destruct Ha as [Hx Ha], Hb as [Hy Hb].
  rewrite (bind_done _ _ _ _ _ (ld1 _ _ _ Hx)), (bind_done _ _ _ _ _ (ld1 _ _ _ Hy)).
  destruct (Z.eqb_spec x y) as [->|Hne]; cbn [negb].
  - destruct (IH l2 m (a + 1) (b + 1) Ha Hb ltac:(lia)) as (r & E & Hr). exists r. split; [done|]. rewrite Hr. split; congruence.
  - exists (x - y). split; [done|]. split; [lia|congruence].
Qed.

Lemma mem_set_spec v n : forall old m a, 0 <= v < 256 -> holds m a old -> length old = n ->
  exists m', mem_set_loop n a v m = Done (tt, m') /\ holds m' a (replicate n v) /\ forall x, x < a \/ a + Z.of_nat n <= x -> m' !! x = m !! x.
Proof.
  induction n as [|n IH]; intros [|o old] m a Hv Hm Hl; try done; [by exists m|]. cbn [holds mem_set_loop replicate length] in *. destruct Hm as [Ho Hm].
  rewrite (bind_done _ _ _ _ _ (st1 _ _ _ _ Ho Hv)).
  destruct (IH old (<[a := v]> m) (a + 1) Hv) as (m' & E & Hh & Hfr); [apply holds_insert; [lia|done]|lia|].
  exists m'. split_and!; [done|rewrite Hfr by lia; apply lookup_insert_eq|done|].
  intros x Hx. rewrite Hfr by lia. apply lookup_insert_ne. lia.
Qed.

(** Every byte of the heap region is there. *)
Definition heap_mapped (m : bytes) : Prop :=
  forall x, PLATFORM_HEAP_REGION_BASE <= x < PLATFORM_HEAP_REGION_BASE + PLATFORM_HEAP_REGION_SIZE -> is_Some (m !! x).

Lemma mapped_holds m n : forall a, (forall x, a <= x < a + Z.of_nat n -> is_Some (m !! x)) -> exists l, holds m a l /\ length l = n.
Proof.
  induction n as [|n IH]; intros a Ha; [by exists []|]. destruct (Ha a ltac:(lia)) as [c Hc].
  destruct (IH (a + 1)) as (l & Hl & Hn); [intros x Hx; apply Ha; lia|]. exists (c :: l). cbn. by rewrite Hn.
Qed.

(** An allocation with zeros: NULL, or a zeroed block of [num * Size] bytes, computed in
    32 bits. *)
Lemma calloc_zeroed num Size m :
  (heap_init_done (the_heap m) = 1 -> heap_ok (the_heap m)) -> heap_mapped (the_bytes m) ->
  exists p m', pal_mem_calloc num Size m = Done (p, m') /\
    (p <> 0 -> holds (the_bytes m') p (replicate (Z.to_nat (u32 (num * Size))) 0) /\
       forall x, x < p \/ p + u32 (num * Size) <= x -> the_bytes m' !! x = the_bytes m !! x).
Proof.
  intros Hh Hm. set (n := u32 (num * Size)). assert (Hn : 0 <= n < 2 ^ 32) by apply Z.mod_pos_bound, eq_refl.
  destruct (mem_alloc_block 8 n (the_heap m) ltac:(lia) Hn Hh) as (p & h' & E & Hok & _ & Hblk).
  assert (E1 : on_heap (mem_alloc 0x08 n) m = Done (p, mk_memory h' (the_bytes m) (gSharedMemory m))) by (unfold on_heap; by rewrite E).
  unfold pal_mem_calloc. fold n. rewrite (bind_done _ _ _ _ _ E1). destruct (Z.eqb_spec p 0) as [->|Hp]; cbn [negb when].
  { by eexists _, _. }
  destruct (Hblk Hp) as (_ & Hlo & _ & Hhi). destruct Hok as (Hd & Ht & Hb). destruct (ready_ok _ Hh) as (_ & _ & Hb').
  destruct (mapped_holds (the_bytes m) (Z.to_nat n) p) as (old & Hold & Hlen); [intros x Hx; apply Hm; lia|].
  destruct (mem_set_spec 0 (Z.to_nat n) old (the_bytes m) p ltac:(lia) Hold Hlen) as (b' & Es & Hz & Hfr).
  assert (E2 : on_bytes (pal_mem_set p n 0) (mk_memory h' (the_bytes m) (gSharedMemory m)) = Done (tt, mk_memory h' b' (gSharedMemory m))).
  { unfold on_bytes, pal_mem_set. cbn [the_bytes the_heap gSharedMemory]. by rewrite Es. }
  rewrite (bind_done _ _ _ _ _ E2). eexists p, _. split; [reflexivity|]. intros _. cbn [the_bytes]. split; [done|]. intros x Hx. apply Hfr. lia.
Qed.
