(* ===== verification/Console.v ===== *)
(** * Printing on a serial port

    Models the console of the bare-metal port: the PL011 driver
    ([platform/pal_baremetal/common/src/pal_pl011_uart.c]), [vprintf] and its helpers and
    [pal_print_raw] of [pal_baremetal/common/src/pal_misc.c].  [vprintf] is proved against
    an interface, [Console], that says what sending a character does; the driver
    implements it for a device that becomes ready ([Pl011]).

    A string is the list of its characters up to the terminator.  The arguments of
    [vprintf] are 64-bit slots; an [int] is the lower half of one. *)

From S2P Require Import Prelude Bytes Mmio.

(** ** Digits *)

(** The digits of [n], the last one first; [fuel] bounds their number. *)
Fixpoint digits_rev (fuel : nat) (base n : Z) : list Z :=
  match fuel with
  | O => []
  | S f => n mod base :: (if n / base =? 0 then [] else digits_rev f base (n / base))
  end.
Definition digits (base n : Z) : list Z := rev (digits_rev 64 base n).
Definition from_digits (base : Z) (l : list Z) : Z := fold_left (fun a d => a * base + d) l 0.

Fixpoint value_rev (base : Z) (l : list Z) : Z := match l with [] => 0 | d :: l' => d + base * value_rev base l' end.

Lemma from_digits_app base l d : from_digits base (l ++ [d]) = from_digits base l * base + d.
Proof. unfold from_digits. by rewrite fold_left_app. Qed.
Lemma from_digits_rev base l : from_digits base (rev l) = value_rev base l.
Proof. induction l as [|d l IH]; [done|]. cbn [rev value_rev]. rewrite from_digits_app, IH. lia. Qed.

Lemma digits_rev_value fuel base : 2 <= base -> forall n, 0 <= n < base ^ Z.of_nat fuel -> (0 < fuel)%nat -> value_rev base (digits_rev fuel base n) = n.
Proof.
  intros Hb. induction fuel as [|f IH]; intros n Hn Hf; [lia|]. cbn [digits_rev value_rev].
  pose proof (Z.div_mod n base ltac:(lia)). destruct (Z.eqb_spec (n / base) 0) as [E|E]; [cbn; lia|].
  assert (Hq : 0 <= n / base < base ^ Z.of_nat f).
  { split; [apply Z.div_pos; lia|]. apply Z.div_lt_upper_bound; [lia|]. rewrite Nat2Z.inj_succ, Z.pow_succ_r in Hn by lia. lia. }
  rewrite IH; [lia|done|]. destruct f; [|lia]. change (base ^ Z.of_nat 0) with 1 in Hq. lia.
Qed.

Lemma digits_rev_length fuel base : 2 <= base -> forall k n, 0 <= n < base ^ Z.of_nat k -> (0 < k)%nat -> (length (digits_rev fuel base n) <= k)%nat.
Proof.
  intros Hb. induction fuel as [|f IH]; intros k n Hn Hk; cbn [digits_rev length]; [lia|].
  destruct (Z.eqb_spec (n / base) 0) as [E|E]; [cbn; lia|]. destruct k as [|k]; [lia|].
  assert (Hq : 0 <= n / base < base ^ Z.of_nat k).
  { split; [apply Z.div_pos; lia|]. apply Z.div_lt_upper_bound; [lia|]. rewrite Nat2Z.inj_succ, Z.pow_succ_r in Hn by lia. lia. }
  assert (k <> 0%nat) by (intros ->; change (base ^ Z.of_nat 0) with 1 in Hq; lia). specialize (IH k (n / base) Hq ltac:(lia)). lia.
Qed.

(** Fewer digits than [k] only for a number below [base ^ k]. *)
Lemma digits_rev_long fuel base : 2 <= base -> forall k n, base ^ Z.of_nat k <= n -> (k < fuel)%nat -> (k < length (digits_rev fuel base n))%nat.
Proof.
  intros Hb. induction fuel as [|f IH]; intros k n Hn Hk; [lia|]. cbn [digits_rev length]. destruct k as [|k]; [lia|].
  assert (Hq : base ^ Z.of_nat k <= n / base).
  { apply Z.div_le_lower_bound; [lia|]. rewrite Nat2Z.inj_succ, Z.pow_succ_r in Hn by lia. lia. }
  assert (0 < base ^ Z.of_nat k) by (apply Z.pow_pos_nonneg; lia).
  destruct (Z.eqb_spec (n / base) 0) as [E|E]; [lia|]. specialize (IH k (n / base) Hq ltac:(lia)). lia.
Qed.

Lemma digits_rev_range fuel base n : 0 < base -> Forall (fun d => 0 <= d < base) (digits_rev fuel base n).
Proof.
  intros Hb. revert n. induction fuel as [|f IH]; intros n; [done|]. cbn [digits_rev].
  constructor; [by apply Z.mod_pos_bound|]. by destruct (n / base =? 0).
Qed.

(** The digits of a number read back as the number. *)
Lemma digits_roundtrip base n : 2 <= base -> 0 <= n < 2 ^ 64 -> from_digits base (digits base n) = n.
Proof.
  intros Hb Hn. unfold digits. rewrite from_digits_rev. apply digits_rev_value; [done| |lia].
  split; [lia|]. apply (Z.lt_le_trans _ (2 ^ 64)); [lia|]. apply Z.pow_le_mono_l. lia.
Qed.

(** ** The interface of a console *)

(** [pal_uart_putc] sends the low byte of its argument. *)
Class Console (S : Type) := pal_uart_putc : Z -> prog S unit.

(** [sent] is what has been sent so far, oldest first, in the states [live]. *)
Class ConsoleLaws (S : Type) `{Console S} (live : S -> Prop) (sent : S -> list Z) :=
  putc_sends : forall c s, live s -> exists s', pal_uart_putc c s = Done (tt, s') /\ live s' /\ sent s' = sent s ++ [u8 c].

(** ** Formatted output *)

Section Vprintf.
Context {S : Type} `{Console S} (mem : bytes).
Local Abbreviation P := (prog S).

(** The string at [str]; the fuel is above the number of bytes there are. *)
Fixpoint string_loop (fuel : nat) (str count : Z) : P Z :=
  match fuel with
  | O => diverge
  | Datatypes.S f =>
      let* c := deref (mem !! str) in
      if c =? 0 then ret count else pal_uart_putc c ;;; string_loop f (str + 1) (count + 1)
  end.
Definition string_print (str : Z) : P Z := string_loop (Datatypes.S (size mem)) str 0.

(** The loop that fills [num_buf], 20 characters from [i] on. *)
Fixpoint num_digits (fuel : nat) (unum radix : Z) (num_buf : list Z) (i : Z) : P (list Z * Z) :=
  match fuel with
  | O => diverge
  | Datatypes.S f =>
      let rem := unum mod radix in
      let c := if rem <? 0xa then 48 + rem else 97 + (rem - 0xa) in
      let* _ := deref (at_index num_buf i) in
      let num_buf := <[Z.to_nat i := c]> num_buf in
      let unum := unum / radix in
      if 0 <? unum then num_digits f unum radix num_buf (i + 1) else ret (num_buf, i + 1)
  end.
Fixpoint pad_loop (n : nat) (padc : Z) : P unit := match n with O => ret tt | Datatypes.S n => pal_uart_putc padc ;;; pad_loop n padc end.
(** [while (--i >= 0)], from [i]. *)
Fixpoint num_loop (num_buf : list Z) (i : nat) : P unit :=
  match i with O => ret tt | Datatypes.S j => let* c := deref (num_buf !! j) in pal_uart_putc c ;;; num_loop num_buf j end.

Definition unsigned_num_print `{Uninit} (unum radix padc padn : Z) : P Z :=
  let num_buf := replicate 20 (uninit "num_buf") in
  if radix <? 10 then ret 0 else
  let* d := num_digits 64 unum radix num_buf 0 in
  let '(num_buf, i) := d in
  let pads := if 0 <? padn then Z.max 0 (padn - i) else 0 in
  pad_loop (Z.to_nat pads) padc ;;;
  num_loop num_buf (Z.to_nat i) ;;;
  ret (pads + i).

Definition i64 (z : Z) : Z := let m := u64 z in if m <? 2 ^ 63 then m else m - 2 ^ 64.
Definition get_num_va_args (slot l_count : Z) : Z := if 1 <? l_count then i64 slot else if l_count =? 1 then i64 slot else i32 slot.
Definition get_unum_va_args (slot l_count : Z) : Z := if 1 <? l_count then u64 slot else if l_count =? 1 then u64 slot else u32 slot.
(** The next argument: [va_arg] behind the last one is undefined. *)
Definition va_next (args : list Z) : P (Z * list Z) := match args with a :: r => ret (a, r) | [] => undef end.

(** The digits that follow the first one of a width. *)
Fixpoint width_loop (fmt : list Z) (padn : Z) : P (Z * list Z) :=
  match fmt with
  | ch :: r =>
      if (ch <? 48) || (57 <? ch) then ret (padn, fmt)
      else if 2 ^ 31 <=? padn * 10 + (ch - 48) then undef
      else width_loop r (padn * 10 + (ch - 48))
  | [] => ret (padn, [])
  end.

(** What a directive leaves: the rest of the format, the arguments, the padding
    character and the characters it counts; [None] is the [return -1]. *)
Definition directive_result : Type := option (list Z * list Z * Z * Z).

(** From the label [loop] on; every pass consumes a character of the format. *)
Fixpoint directive `{Uninit} (fuel : nat) (fmt args : list Z) (l_count padc padn : Z) : P directive_result :=
  match fuel, fmt with
  | O, _ => diverge
  | _, [] => ret None
  | Datatypes.S f, c :: r =>
      if c =? 37 then pal_uart_putc 37 ;;; ret (Some (r, args, padc, 0))
      else if (c =? 105) || (c =? 100) then
        let* a := va_next args in
        let num := get_num_va_args a.1 l_count in
        if num =? - 2 ^ 63 then undef else
        when (num <? 0) (pal_uart_putc 45) ;;;
        let* n := unsigned_num_print (Z.abs num) 10 padc (if num <? 0 then padn - 1 else padn) in
        ret (Some (r, a.2, padc, n))
      else if c =? 115 then
        let* a := va_next args in
        let* n := string_print (u64 a.1) in
        ret (Some (r, a.2, padc, n))
      else if c =? 112 then
        let* a := va_next args in
        let unum := u64 a.1 in
        when (0 <? unum) (pal_uart_putc 48 ;;; pal_uart_putc 120) ;;;
        let* n := unsigned_num_print unum 16 padc (if 0 <? unum then padn - 2 else padn) in
        ret (Some (r, a.2, padc, (if 0 <? unum then 2 else 0) + n))
      else if c =? 120 then
        let* a := va_next args in
        let* n := unsigned_num_print (get_unum_va_args a.1 l_count) 16 padc padn in
        ret (Some (r, a.2, padc, n))
      else if c =? 122 then directive f r args 2 padc padn
      else if c =? 108 then directive f r args (l_count + 1) padc padn
      else if c =? 117 then
        let* a := va_next args in
        let* n := unsigned_num_print (get_unum_va_args a.1 l_count) 10 padc padn in
        ret (Some (r, a.2, padc, n))
      else if (48 <=? c) && (c <=? 57) then
        let* w := width_loop r 0 in
        directive f w.2 args l_count 48 w.1
      else ret None
  end.

Fixpoint vprintf_loop `{Uninit} (fuel : nat) (fmt args : list Z) (padc count : Z) : P Z :=
  match fuel, fmt with
  | O, _ => diverge
  | _, [] => ret count
  | Datatypes.S f, c :: r =>
      if c =? 37 then
        let* d := directive f r args 0 padc 0 in
        match d with
        | None => ret (-1)
        | Some (r, args, padc, n) => vprintf_loop f r args padc (count + n)
        end
      else
        pal_uart_putc c ;;;
        when (c =? 10) (pal_uart_putc 13) ;;;
        vprintf_loop f r args padc (count + 1)
  end.
Definition vprintf `{Uninit} (fmt args : list Z) : P Z := vprintf_loop (Datatypes.S (length fmt)) fmt args 0 0.

Definition prefix_str : list (list Z) := [[]; []; []; []; []].
Definition log_get_prefix (log_level : Z) : P (list Z) :=
  let level := if 5 <? log_level then 5 else if log_level <? 1 then 3 else log_level in
  deref (at_index prefix_str (level - 1)).
Definition pal_uart_print `{Uninit} (log : Z) (fmt args : list Z) : P unit :=
  let* prefix := log_get_prefix log in
  foreach prefix pal_uart_putc ;;;
  vprintf fmt args ;;;
  ret tt.
End Vprintf.

(** ** What is printed *)

Lemma fmap_reverse_rev {A B} (f : A -> B) l : f <$> rev l = rev (f <$> l).
Proof. induction l as [|x l IH]; [done|]. cbn. by rewrite fmap_app, IH. Qed.

Definition digit_char (d : Z) : Z := if d <? 0xa then 48 + d else 97 + (d - 0xa).
Definition number (base n : Z) : list Z := digit_char <$> digits base n.
(** [n] in at least [w] characters, filled with [c]. *)
Definition padded (w c : Z) (l : list Z) : list Z := replicate (Z.to_nat (w - Z.of_nat (length l))) c ++ l.

Lemma digit_char_byte d : 0 <= d < 16 -> u8 (digit_char d) = digit_char d.
Proof. intros Hd. unfold digit_char. destruct (Z.ltb_spec d 0xa); apply u8_small; lia. Qed.

Lemma digit_chars_bytes base l : base <= 16 -> Forall (fun d => 0 <= d < base) l -> Forall (fun c => 0 <= c < 256) (digit_char <$> l).
Proof.
  intros Hb. induction 1 as [|d l Hd _ IH]; [constructor|]. cbn. constructor; [|done]. unfold digit_char. destruct (Z.ltb_spec d 0xa); lia.
Qed.

Section Printing.
Context {S : Type} {live : S -> Prop} {sent : S -> list Z} `{ConsoleLaws S live sent} `{Uninit} (mem : bytes).

(** [prints p r text]: from a live state [p] returns [r] and sends [text]. *)
Definition prints {A} (p : prog S A) (r : A) (text : list Z) : Prop :=
  forall s, live s -> exists s', p s = Done (r, s') /\ live s' /\ sent s' = sent s ++ text.

Lemma prints_ret {A} (a : A) : prints (ret a) a [].
Proof. intros s Hs. exists s. by rewrite app_nil_r. Qed.
Lemma prints_bind {A B} (p : prog S A) (k : A -> prog S B) a b t1 t2 : prints p a t1 -> prints (k a) b t2 -> prints (bind p k) b (t1 ++ t2).
Proof.
  intros Hp Hk s Hs. destruct (Hp s Hs) as (s1 & E1 & Hl1 & Hs1). destruct (Hk s1 Hl1) as (s2 & E2 & Hl2 & Hs2).
  exists s2. rewrite (bind_done _ _ _ _ _ E1), E2, Hs2, Hs1, app_assoc. done.
Qed.
Lemma prints_quiet {A B} (p : prog S A) (k : A -> prog S B) a b t : prints p a [] -> prints (k a) b t -> prints (bind p k) b t.
Proof. intros Hp Hk. by apply (prints_bind p k a b [] t). Qed.
Lemma prints_putc c : 0 <= c < 256 -> prints (pal_uart_putc c) tt [c].
Proof. intros Hc s Hs. destruct (putc_sends c s Hs) as (s' & E & Hl & Hsent). exists s'. by rewrite Hsent, u8_small by lia. Qed.
Lemma prints_deref {A} (o : option A) a : o = Some a -> prints (deref o) a [].
Proof. intros ->. apply prints_ret. Qed.

Lemma prints_pad c n : 0 <= c < 256 -> prints (pad_loop n c) tt (replicate n c).
Proof.
  intros Hc. induction n as [|n IH]; [apply prints_ret|]. cbn [pad_loop replicate].
  apply (prints_bind _ _ tt tt [c]); [by apply prints_putc|done].
Qed.

Lemma num_digits_spec radix : 10 <= radix <= 16 -> forall fuel unum done rest,
  0 <= unum < radix ^ Z.of_nat fuel -> (0 < fuel)%nat -> (length (digits_rev fuel radix unum) <= length rest)%nat ->
  prints (num_digits fuel unum radix (done ++ rest) (Z.of_nat (length done)))
    (done ++ (digit_char <$> digits_rev fuel radix unum) ++ drop (length (digits_rev fuel radix unum)) rest,
     Z.of_nat (length done + length (digits_rev fuel radix unum))) [].
Proof.
  intros Hr. induction fuel as [|f IH]; intros unum done rest Hu Hf Hlen; [lia|]. cbn [digits_rev num_digits length] in *.
  destruct rest as [|x rest]; [simpl in Hlen; lia|].
  apply (prints_quiet _ _ x); [apply prints_deref; rewrite at_index_nat, lookup_app_r, Nat.sub_diag by lia; done|].
  assert (Hq : 0 <= unum / radix < radix ^ Z.of_nat f).
  { split; [apply Z.div_pos; lia|]. apply Z.div_lt_upper_bound; [lia|]. rewrite Nat2Z.inj_succ, Z.pow_succ_r in Hu by lia. lia. }
  rewrite Nat2Z.id, insert_app_r_alt, Nat.sub_diag by lia. cbn [insert list_insert]. fold (digit_char (unum mod radix)).
  destruct (Z.eqb_spec (unum / radix) 0) as [E|E], (Z.ltb_spec 0 (unum / radix)); try lia.
  - cbn [fmap list_fmap length drop app]. replace (Z.of_nat (length done + 1)) with (Z.of_nat (length done) + 1) by lia.
    rewrite drop_0. apply prints_ret.
  - replace (Z.of_nat (length done) + 1) with (Z.of_nat (length done + 1)) by lia.
    assert (Hf' : (0 < f)%nat) by (destruct f; [change (radix ^ Z.of_nat 0) with 1 in Hq; lia|lia]).
    simpl in Hlen. pose proof (IH (unum / radix) (done ++ [digit_char (unum mod radix)]) rest Hq Hf' ltac:(lia)) as Hp.
    rewrite <- !app_assoc, length_app in Hp. cbn [fmap list_fmap length drop app] in *.
    replace (length done + Datatypes.S (length (digits_rev f radix (unum / radix))))%nat with (length done + 1 + length (digits_rev f radix (unum / radix)))%nat by lia.
    exact Hp.
Qed.

Lemma prints_num_loop l rest : Forall (fun c => 0 <= c < 256) l -> prints (num_loop (l ++ rest) (length l)) tt (rev l).
Proof.
  revert rest. induction l as [|c l IH] using rev_ind; intros rest Hl; [apply prints_ret|].
  rewrite rev_app_distr, length_app, Nat.add_comm. cbn [length num_loop rev app Nat.add]. apply Forall_app in Hl as [Hl Hc]. apply Forall_cons in Hc as [Hc _].
  apply (prints_quiet _ _ c); [apply prints_deref; rewrite <- app_assoc, lookup_app_r, Nat.sub_diag by lia; done|].
  apply (prints_bind _ _ tt tt [c]); [apply prints_putc; exact Hc|]. rewrite <- app_assoc. by apply IH.
Qed.

(** A number is printed in its digits, filled up to the width, and the characters are
    counted; the buffer of 20 characters is enough. *)
Lemma prints_number unum radix padc padn :
  10 <= radix <= 16 -> 0 <= unum < 2 ^ 64 -> 0 <= padc < 256 ->
  prints (unsigned_num_print unum radix padc padn) (Z.max padn (Z.of_nat (length (digits radix unum)))) (padded padn padc (number radix unum)).
Proof.
  intros Hr Hu Hc. unfold unsigned_num_print, padded, number. destruct (Z.ltb_spec radix 10); [lia|].
  set (ds := digits_rev 64 radix unum).
  assert (Hk : (length ds <= 20)%nat).
  { apply digits_rev_length; [lia| |lia]. split; [lia|]. apply (Z.lt_le_trans _ (10 ^ 20)); [lia|]. apply Z.pow_le_mono_l. lia. }
  pose proof (digits_rev_range 64 radix unum ltac:(lia)) as Hrange. fold ds in Hrange.
  assert (Hlt : 0 <= unum < radix ^ Z.of_nat 64).
  { split; [lia|]. apply (Z.lt_le_trans _ (10 ^ 64)); [lia|]. apply Z.pow_le_mono_l. lia. }
  pose proof (num_digits_spec radix Hr 64 unum [] (replicate 20 (uninit "num_buf")) Hlt ltac:(lia)) as Hd. fold ds in Hd.
  rewrite length_replicate in Hd. specialize (Hd Hk). cbn [app length Nat.add] in Hd.
  apply (prints_quiet _ _ _ _ _ Hd). unfold digits. fold ds. clearbody ds. rewrite fmap_reverse_rev, Nat2Z.id.
  assert (E : (if 0 <? padn then Z.max 0 (padn - Z.of_nat (length ds)) else 0) = Z.max 0 (padn - Z.of_nat (length ds))) by (destruct (Z.ltb_spec 0 padn); lia).
  rewrite E, (length_rev (digit_char <$> ds)), length_fmap. replace (Z.to_nat (Z.max 0 (padn - Z.of_nat (length ds)))) with (Z.to_nat (padn - Z.of_nat (length ds))) by lia.
  apply (prints_bind _ _ tt); [by apply prints_pad|]. rewrite <- (app_nil_r (rev (digit_char <$> ds))).
  apply (prints_bind _ _ tt).
  - rewrite <- (length_fmap digit_char ds). apply prints_num_loop. apply (digit_chars_bytes radix); [lia|done].
  - replace (Z.max padn (Z.of_nat (length (rev ds)))) with (Z.max 0 (padn - Z.of_nat (length ds)) + Z.of_nat (length ds)) by (rewrite length_rev; lia). apply prints_ret.
Qed.

(** A string is printed up to its terminator. *)
Lemma prints_string_loop l : forall fuel str count,
  Forall (fun c => 0 < c < 256) l -> (forall i c, (l ++ [0]) !! i = Some c -> mem !! (str + Z.of_nat i) = Some c) -> (length l < fuel)%nat ->
  prints (string_loop mem fuel str count) (count + Z.of_nat (length l)) l.
Proof.
  induction l as [|c l IH]; intros [|f] str count Hl Hm Hf; try (simpl in Hf; lia); cbn [string_loop].
  - apply (prints_quiet _ _ 0); [apply prints_deref; rewrite <- (Hm 0%nat 0 eq_refl); f_equal; lia|]. cbn. rewrite Z.add_0_r. apply prints_ret.
  - apply Forall_cons in Hl as [Hc Hl].
    apply (prints_quiet _ _ c); [apply prints_deref; rewrite <- (Hm 0%nat c eq_refl); f_equal; lia|]. destruct (Z.eqb_spec c 0); [lia|].
    apply (prints_bind _ _ tt _ [c] l); [apply prints_putc; lia|]. cbn [length]. replace (count + Z.of_nat (Datatypes.S (length l))) with (count + 1 + Z.of_nat (length l)) by lia.
    apply IH; [done| |simpl in Hf; lia]. intros i x Hx. rewrite <- (Hm (Datatypes.S i) x Hx). f_equal. lia.
Qed.

(** *** Formats *)

Lemma padded_none w c c' l : w <= 0 -> padded w c l = padded w c' l.
Proof. intros Hw. unfold padded. by replace (Z.to_nat (w - Z.of_nat (length l))) with 0%nat by lia. Qed.

Inductive conv := CInt | CUns | CHex | CPtr | CStr.
Inductive piece := Lit (c : Z) | Percent | Dir (w : option Z) (longs : nat) (cv : conv).

(** How a piece is written in a format: a width is preceded by a 0. *)
Definition conv_char (cv : conv) : Z := match cv with CInt => 100 | CUns => 117 | CHex => 120 | CPtr => 112 | CStr => 115 end.
Definition show_width (w : option Z) : list Z := match w with None => [] | Some w => 48 :: ((fun d => 48 + d) <$> digits 10 w) end.
Definition show (p : piece) : list Z :=
  match p with
  | Lit c => [c]
  | Percent => [37; 37]
  | Dir w n cv => 37 :: show_width w ++ replicate n 108 ++ [conv_char cv]
  end.

(** The text of a directive for an argument and the characters that are counted. *)
Inductive converts (w : Z) (longs : nat) (a : Z) : conv -> list Z -> Z -> Prop :=
| converts_int num : num = get_num_va_args a (Z.of_nat longs) -> 0 <= num -> converts w longs a CInt (padded w 48 (number 10 num)) (Z.max w (Z.of_nat (length (digits 10 num))))
| converts_neg num : num = get_num_va_args a (Z.of_nat longs) -> - 2 ^ 63 < num < 0 ->
    converts w longs a CInt (45 :: padded (w - 1) 48 (number 10 (- num))) (Z.max (w - 1) (Z.of_nat (length (digits 10 (- num)))))
| converts_uns num : num = get_unum_va_args a (Z.of_nat longs) -> converts w longs a CUns (padded w 48 (number 10 num)) (Z.max w (Z.of_nat (length (digits 10 num))))
| converts_hex num : num = get_unum_va_args a (Z.of_nat longs) -> converts w longs a CHex (padded w 48 (number 16 num)) (Z.max w (Z.of_nat (length (digits 16 num))))
| converts_null : u64 a = 0 -> converts w longs a CPtr (padded w 48 (number 16 0)) (Z.max w 1)
| converts_ptr : 0 < u64 a ->
    converts w longs a CPtr (48 :: 120 :: padded (w - 2) 48 (number 16 (u64 a))) (2 + Z.max (w - 2) (Z.of_nat (length (digits 16 (u64 a)))))
| converts_str l : Forall (fun c => 0 < c < 256) l -> (forall i c, (l ++ [0]) !! i = Some c -> mem !! (u64 a + Z.of_nat i) = Some c) ->
    (length l <= size mem)%nat -> converts w longs a CStr l (Z.of_nat (length l)).

(** The pieces of a format with their arguments, text and count. *)
Inductive renders : list piece -> list Z -> list Z -> Z -> Prop :=
| renders_nil : renders [] [] [] 0
| renders_lit c ps args text n : 0 < c < 256 -> c <> 37 -> renders ps args text n -> renders (Lit c :: ps) args ((if c =? 10 then [10; 13] else [c]) ++ text) (1 + n)
| renders_percent ps args text n : renders ps args text n -> renders (Percent :: ps) args ([37] ++ text) (0 + n)
| renders_dir w longs cv a ps args t k text n : match w with None => True | Some w => 0 <= w < 2 ^ 31 end -> converts (default 0 w) longs a cv t k ->
    renders ps args text n -> renders (Dir w longs cv :: ps) (a :: args) (t ++ text) (k + n).

Lemma get_num_range a l : - 2 ^ 63 <= get_num_va_args a l < 2 ^ 63.
Proof.
  assert (H64 : - 2 ^ 63 <= i64 a < 2 ^ 63).
  { unfold i64. assert (0 <= u64 a < 2 ^ 64) by (apply Z.mod_pos_bound; lia). destruct (Z.ltb_spec (u64 a) (2 ^ 63)); lia. }
  assert (H32 : - 2 ^ 31 <= i32 a < 2 ^ 31).
  { unfold i32. assert (0 <= u32 a < 2 ^ 32) by (apply Z.mod_pos_bound; lia). destruct (Z.ltb_spec (u32 a) (2 ^ 31)); lia. }
  unfold get_num_va_args. destruct (1 <? l), (l =? 1); lia.
Qed.
Lemma get_unum_range a l : 0 <= get_unum_va_args a l < 2 ^ 64.
Proof.
  assert (0 <= u64 a < 2 ^ 64) by (apply Z.mod_pos_bound; lia). assert (0 <= u32 a < 2 ^ 32) by (apply Z.mod_pos_bound; lia).
  unfold get_unum_va_args. destruct (1 <? l), (l =? 1); lia.
Qed.

(** The number is printed with the padding character of the format so far, which
    matters only behind a width. *)
Lemma prints_number_at unum radix padc padn : 10 <= radix <= 16 -> 0 <= unum < 2 ^ 64 -> 0 <= padc < 256 -> (padc = 48 \/ padn <= 0) ->
  prints (unsigned_num_print unum radix padc padn) (Z.max padn (Z.of_nat (length (digits radix unum)))) (padded padn 48 (number radix unum)).
Proof.
  intros Hr Hu Hc [->|Hp]; [by apply prints_number|]. rewrite (padded_none padn 48 padc) by done. by apply prints_number.
Qed.

Lemma prints_directive f w longs a cv t k r args padc : converts w longs a cv t k -> 0 <= padc < 256 -> (padc = 48 \/ w <= 0) ->
  prints (directive mem (Datatypes.S f) (conv_char cv :: r) (a :: args) (Z.of_nat longs) padc w) (Some (r, args, padc, k)) t.
Proof.
  assert (Hfin : forall (p : prog S Z) n t', prints p n t' -> prints (let* n := p in ret (Some (r, args, padc, n))) (Some (r, args, padc, n)) t').
  { intros p n t' Hp. rewrite <- (app_nil_r t'). apply (prints_bind _ _ n); [done|apply prints_ret]. }
  intros Hc Hpad Hw. pose proof (get_num_range a (Z.of_nat longs)) as Hnum. pose proof (get_unum_range a (Z.of_nat longs)) as Hun.
  assert (Hu64 : 0 <= u64 a < 2 ^ 64) by (apply Z.mod_pos_bound; lia).
  destruct Hc as [num -> Hn|num -> Hn|num ->|num ->|Hz|Hz|l Hl Hm Hlen]; cbn [directive conv_char Z.eqb Pos.eqb orb];
    (apply (prints_quiet _ _ (a, args)); [apply prints_ret|]); cbn [fst snd].
  - destruct (Z.eqb_spec (get_num_va_args a (Z.of_nat longs)) (- 2 ^ 63)); [lia|]. destruct (Z.ltb_spec (get_num_va_args a (Z.of_nat longs)) 0); [lia|].
    apply (prints_quiet _ _ tt); [apply prints_ret|]. rewrite Z.abs_eq by lia. apply Hfin, prints_number_at; lia.
  - destruct (Z.eqb_spec (get_num_va_args a (Z.of_nat longs)) (- 2 ^ 63)); [lia|]. destruct (Z.ltb_spec (get_num_va_args a (Z.of_nat longs)) 0); [|lia].
    apply (prints_bind _ _ tt _ [45]); [apply prints_putc; lia|]. rewrite Z.abs_neq by lia. apply Hfin, prints_number_at; lia.
  - apply Hfin, prints_number_at; lia.
  - apply Hfin, prints_number_at; lia.
  - rewrite Hz. apply (prints_quiet _ _ tt); [apply prints_ret|].
    rewrite <- (app_nil_r (padded _ _ _)). apply (prints_bind _ _ (Z.max w 1)); [by apply prints_number_at; try lia|apply prints_ret].
  - destruct (Z.ltb_spec 0 (u64 a)); [|lia].
    apply (prints_bind _ _ tt _ [48; 120]); [apply (prints_bind _ _ tt _ [48] [120]); apply prints_putc; lia|].
    rewrite <- (app_nil_r (padded _ _ _)). eapply prints_bind; [apply prints_number_at; lia|apply prints_ret].
  - apply Hfin. unfold string_print. rewrite <- (Z.add_0_l (Z.of_nat (length l))). apply prints_string_loop; [done|done|lia].
Qed.

Lemma directive_longs n : forall f fmt args l padc padn,
  directive mem (n + f) (replicate n 108 ++ fmt) args l padc padn = directive mem f fmt args (l + Z.of_nat n) padc padn.
Proof.
  induction n as [|n IH]; intros f fmt args l padc padn; [by rewrite Z.add_0_r|].
  cbn [Nat.add replicate app directive Z.eqb Pos.eqb orb]. rewrite IH. f_equal. lia.
Qed.

Lemma fold_digits_le l : Forall (fun d => 0 <= d < 10) l -> forall acc, 0 <= acc -> acc <= fold_left (fun a d => a * 10 + d) l acc.
Proof. induction 1 as [|d l Hd _ IH]; intros acc Ha; cbn; [lia|]. specialize (IH (acc * 10 + d) ltac:(lia)). lia. Qed.

Lemma width_loop_spec l c r : Forall (fun d => 0 <= d < 10) l -> 57 < c -> forall acc, 0 <= acc -> fold_left (fun a d => a * 10 + d) l acc < 2 ^ 31 ->
  prints (width_loop (((fun d => 48 + d) <$> l) ++ c :: r) acc) (fold_left (fun a d => a * 10 + d) l acc, c :: r) [].
Proof.
  intros Hl Hc. induction Hl as [|d l Hd Hl IH]; intros acc Ha Hlt; cbn [fmap list_fmap app width_loop fold_left] in *.
  - destruct (Z.ltb_spec c 48), (Z.ltb_spec 57 c); try lia. apply prints_ret.
  - destruct (Z.ltb_spec (48 + d) 48), (Z.ltb_spec 57 (48 + d)); try lia. cbn [orb]. replace (48 + d - 48) with d by lia.
    pose proof (fold_digits_le l Hl (acc * 10 + d) ltac:(lia)). destruct (Z.leb_spec (2 ^ 31) (acc * 10 + d)); [lia|]. apply IH; lia.
Qed.

Lemma digits_range base n : 0 < base -> Forall (fun d => 0 <= d < base) (digits base n).
Proof. intros Hb. apply Forall_rev. by apply digits_rev_range. Qed.

(** A whole directive, behind the percent sign. *)
Lemma prints_dir f w longs cv a args t k r padc : match w with None => True | Some w => 0 <= w < 2 ^ 31 end ->
  converts (default 0 w) longs a cv t k -> (padc = 0 \/ padc = 48) -> (longs + 2 <= f)%nat ->
  exists padc', (padc' = 0 \/ padc' = 48) /\
  prints (directive mem f (show_width w ++ replicate longs 108 ++ conv_char cv :: r) (a :: args) 0 padc 0) (Some (r, args, padc', k)) t.
Proof.
  intros Hw Hc Hp Hf. destruct w as [w|]; cbn [show_width default app id] in *.
  - exists 48. split; [by right|]. destruct f as [|f]; [lia|]. cbn [directive Z.eqb Pos.eqb orb Z.leb Z.compare Pos.compare Pos.compare_cont andb].
    assert (Hnext : exists c r', replicate longs 108 ++ conv_char cv :: r = c :: r' /\ 57 < c).
    { destruct longs; cbn; [exists (conv_char cv), r; split; [done|by destruct cv]|by eexists 108, _]. }
    destruct Hnext as (c & r' & En & Hgt).
    apply (prints_quiet _ _ (w, replicate longs 108 ++ conv_char cv :: r)).
    + pose proof (width_loop_spec (digits 10 w) c r' (digits_range 10 w ltac:(lia)) Hgt 0 ltac:(lia)) as Hloop. rewrite En.
      pose proof (digits_roundtrip 10 w ltac:(lia) ltac:(lia)) as Hv. unfold from_digits in Hv. rewrite Hv in Hloop. apply Hloop. lia.
    + cbn [fst snd]. replace f with (longs + Datatypes.S (f - longs - 1))%nat by lia. rewrite directive_longs.
      apply (prints_directive _ w longs a cv t k); [done|lia|by left].
  - exists padc. split; [done|]. replace f with (longs + Datatypes.S (f - longs - 1))%nat by lia. rewrite directive_longs.
    apply (prints_directive _ 0 longs a cv t k); [done|lia|right; lia].
Qed.

Lemma prints_vprintf ps args text n : renders ps args text n -> forall fuel padc count extra,
  (length (flat_map show ps) < fuel)%nat -> (padc = 0 \/ padc = 48) ->
  prints (vprintf_loop mem fuel (flat_map show ps) (args ++ extra) padc count) (count + n) text.
Proof.
  induction 1 as [|c ps args text n Hc Hne _ IH|ps args text n _ IH|w longs cv a ps args t k text n Hw Hcv _ IH];
    intros [|f] padc count extra Hf Hp; try lia; cbn [flat_map show app vprintf_loop length] in *.
  - rewrite Z.add_0_r. apply prints_ret.
  - destruct (Z.eqb_spec c 37); [lia|]. replace (count + (1 + n)) with (count + 1 + n) by lia.
    destruct (Z.eqb_spec c 10) as [->|]; cbn [when].
    + apply (prints_bind _ _ tt _ [10]); [apply prints_putc; lia|]. apply (prints_bind _ _ tt _ [13]); [apply prints_putc; lia|]. apply IH; [lia|done].
    + apply (prints_bind _ _ tt _ [c]); [apply prints_putc; lia|]. apply (prints_quiet _ _ tt); [apply prints_ret|]. apply IH; [lia|done].
  - cbn [Z.eqb Pos.eqb]. destruct f as [|f]; [lia|].
    apply (prints_bind _ _ (Some (flat_map show ps, args ++ extra, padc, 0)) _ [37]).
    + cbn [directive Z.eqb Pos.eqb]. change [37] with ([37] ++ @nil Z). apply (prints_bind _ _ tt); [apply prints_putc; lia|apply prints_ret].
    + replace (count + (0 + n)) with (count + 0 + n) by lia. apply IH; [lia|done].
  - cbn [Z.eqb Pos.eqb]. rewrite <- !app_assoc. cbn [app]. rewrite !length_app, length_replicate in Hf. cbn [length] in Hf.
    destruct (prints_dir f w longs cv a (args ++ extra) t k (flat_map show ps) padc Hw Hcv Hp) as (padc' & Hp' & Hd).
    { destruct w; cbn [show_width length] in Hf; lia. }
    apply (prints_bind _ _ _ _ _ _ Hd). cbv beta iota. replace (count + (k + n)) with (count + k + n) by lia. apply IH; [lia|done].
Qed.
End Printing.

(** On a console that sends what it is given, a format made of text, percent signs and
    directives is printed as its pieces say. *)
Lemma vprintf_formats {S} {live : S -> Prop} {sent : S -> list Z} `{ConsoleLaws S live sent} `{Uninit} mem ps args extra text n :
  renders mem ps args text n -> prints (live := live) (sent := sent) (vprintf mem (flat_map show ps) (args ++ extra)) n text.
Proof. intros Hr. exact (prints_vprintf mem ps args text n Hr _ 0 0 extra (Nat.lt_succ_diag_r _) (or_introl eq_refl)). Qed.

Lemma uart_print_formats {S} {live : S -> Prop} {sent : S -> list Z} `{ConsoleLaws S live sent} `{Uninit} mem log ps args extra text n :
  renders mem ps args text n -> prints (live := live) (sent := sent) (pal_uart_print mem log (flat_map show ps) (args ++ extra)) tt text.
Proof.
  intros Hr. unfold pal_uart_print. apply (prints_quiet _ _ []).
  - apply prints_deref. set (level := if 5 <? log then 5 else if log <? 1 then 3 else log).
    assert (Hl : 0 <= level - 1 < 5) by (unfold level; destruct (Z.ltb_spec 5 log), (Z.ltb_spec log 1); lia).
    assert (Hc : level - 1 = 0 \/ level - 1 = 1 \/ level - 1 = 2 \/ level - 1 = 3 \/ level - 1 = 4) by lia.
    by destruct Hc as [->|[->|[->|[->| ->]]]].
  - apply (prints_quiet _ _ tt); [apply prints_ret|]. rewrite <- (app_nil_r text). apply (prints_bind _ _ n); [by apply vprintf_formats|apply prints_ret].
Qed.

(** A width is decimal digits of which the first is dropped, so a width of one digit,
    as in [%4x], does nothing. *)
Lemma one_digit_width_ignored {S} `{Console S, Uninit} mem f c r args l padc padn :
  49 <= c <= 57 -> directive (S := S) mem (Datatypes.S f) (c :: 120 :: r) args l padc padn = directive mem f (120 :: r) args l 48 0.
Proof.
  intros Hc. cbn [directive]. destruct (Z.eqb_spec c 37), (Z.eqb_spec c 105), (Z.eqb_spec c 100), (Z.eqb_spec c 115), (Z.eqb_spec c 112),
    (Z.eqb_spec c 120), (Z.eqb_spec c 122), (Z.eqb_spec c 108), (Z.eqb_spec c 117), (Z.leb_spec 48 c), (Z.leb_spec c 57); try lia. done.
Qed.

(** ** The PL011 driver *)

Definition PLATFORM_UART_BASE : Z := 0x2A400000.
Definition UART_PL011_CLK_IN_HZ : Z := 24000000.
Definition UART_PL011_BAUDRATE : Z := 115200.
Definition UART_PL011_UARTCR_EN_MASK : Z := 1.
Definition UART_PL011_UARTCR_TX_EN_MASK : Z := Z.shiftl 1 0x8.
Definition UART_PL011_UARTFR_TX_FIFO_FULL : Z := Z.shiftl 1 0x5.
Definition UART_PL011_UARTLCR_H_FEN_MASK : Z := Z.shiftl 1 0x4.
Definition UART_PL011_UARTLCR_H_WLEN_8_MASK : Z := Z.shiftl 3 0x5.
Definition UART_PL011_LINE_CONTROL : Z := Z.lor UART_PL011_UARTLCR_H_FEN_MASK UART_PL011_UARTLCR_H_WLEN_8_MASK.

(** Offsets of the registers in [pal_uart_t]. *)
Definition uartdr : Z := 0.
Definition uartecr : Z := 0x4.
Definition uartfr : Z := 0x18.
Definition uartibrd : Z := 0x24.
Definition uartfbrd : Z := 0x28.
Definition uartlcr_h : Z := 0x2C.
Definition uartcr : Z := 0x30.

Record uart_state (H : Type) := mk_uart { is_uart_init_done : Z; uart_dev : H }.
Arguments mk_uart {H}. Arguments is_uart_init_done {H}. Arguments uart_dev {H}.

Section Driver.
Context {H : Type} `{Hardware H} (patience : positive).
Local Abbreviation U := (prog (uart_state H)).

Definition uart_read (reg : Z) : U Z := fun u =>
  let r := hw_read W32 (PLATFORM_UART_BASE + reg) (uart_dev u) in Done (u32 r.1, mk_uart (is_uart_init_done u) r.2).
Definition uart_write (reg v : Z) : U unit := fun u =>
  Done (tt, mk_uart (is_uart_init_done u) (hw_write W32 (PLATFORM_UART_BASE + reg) (u32 v) (uart_dev u))).

Definition pal_driver_uart_pl011_init : U unit :=
  let bauddiv := UART_PL011_CLK_IN_HZ * 4 / UART_PL011_BAUDRATE in
  let* cr := uart_read uartcr in
  uart_write uartcr (Z.land cr (u32 (Z.lnot UART_PL011_UARTCR_EN_MASK))) ;;;
  uart_write uartibrd (Z.shiftr bauddiv 6) ;;;
  uart_write uartfbrd (Z.land bauddiv 0x3F) ;;;
  uart_write uartlcr_h UART_PL011_LINE_CONTROL ;;;
  uart_write uartecr 0 ;;;
  uart_write uartcr (Z.lor UART_PL011_UARTCR_EN_MASK UART_PL011_UARTCR_TX_EN_MASK).

Definition pal_driver_uart_pl011_is_tx_empty : U bool :=
  let* cr := uart_read uartcr in
  if Z.land cr UART_PL011_UARTCR_EN_MASK =? 0 then ret false else
  let* cr := uart_read uartcr in
  if Z.land cr UART_PL011_UARTCR_TX_EN_MASK =? 0 then ret false else
  let* fr := uart_read uartfr in
  ret (Z.land fr UART_PL011_UARTFR_TX_FIFO_FULL =? 0).

(** The polling loop is cut after [patience] rounds. *)
Definition pal_driver_uart_pl011_putc (c : Z) : U unit :=
  let pdata := u8 c in
  let* d := gets is_uart_init_done in
  when (d =? 0) (pal_driver_uart_pl011_init ;;; modify (fun u => mk_uart 1 (uart_dev u))) ;;;
  let* r := rounds patience (let* e := pal_driver_uart_pl011_is_tx_empty in ret (if e then Some tt else None)) in
  match r with
  | None => diverge
  | Some _ => uart_write uartdr pdata
  end.
End Driver.

(** What the manual of the device says: the control register keeps what is written,
    the FIFO is full for [busy] more reads of the flag register, and a character that is
    written while transmission is enabled and the FIFO has room is sent; afterwards the
    FIFO is full for at most [limit] reads. *)
Class Pl011 (H : Type) `{Hardware H} (limit : nat) := {
  cr : H -> Z; busy : H -> nat; out : H -> list Z;
  pl_read_cr h : exists h', hw_read W32 (PLATFORM_UART_BASE + uartcr) h = (cr h, h') /\ cr h' = cr h /\ busy h' = busy h /\ out h' = out h;
  pl_read_fr h : exists v h', hw_read W32 (PLATFORM_UART_BASE + uartfr) h = (v, h') /\
    (Z.land (u32 v) UART_PL011_UARTFR_TX_FIFO_FULL = 0 <-> busy h = 0%nat) /\ cr h' = cr h /\ busy h' = pred (busy h) /\ out h' = out h;
  pl_write_cr h v : 0 <= v < 2 ^ 32 -> let h' := hw_write W32 (PLATFORM_UART_BASE + uartcr) v h in cr h' = v /\ busy h' = busy h /\ out h' = out h;
  pl_write_setup h reg v : reg ∈ [uartibrd; uartfbrd; uartlcr_h; uartecr] ->
    let h' := hw_write W32 (PLATFORM_UART_BASE + reg) v h in cr h' = cr h /\ busy h' = busy h /\ out h' = out h;
  pl_write_dr h v : Z.land (cr h) UART_PL011_UARTCR_EN_MASK <> 0 -> Z.land (cr h) UART_PL011_UARTCR_TX_EN_MASK <> 0 -> busy h = 0%nat ->
    let h' := hw_write W32 (PLATFORM_UART_BASE + uartdr) v h in cr h' = cr h /\ (busy h' <= limit)%nat /\ out h' = out h ++ [u8 v] }.

Section DriverLaws.
Context {H : Type} `{Hardware H} {limit : nat} `{!Pl011 H limit} (patience : positive) (Henough : (limit < Pos.to_nat patience)%nat).
Local Abbreviation U := (uart_state H).
Local Abbreviation enabled := (Z.lor UART_PL011_UARTCR_EN_MASK UART_PL011_UARTCR_TX_EN_MASK).

Definition uart_sent (u : U) : list Z := out (uart_dev u).
Definition uart_live (u : U) : Prop := (is_uart_init_done u = 0 \/ cr (uart_dev u) = enabled) /\ (busy (uart_dev u) <= limit)%nat.

(** The same device, as far as the driver can tell. *)
Definition alike (u u' : U) : Prop :=
  is_uart_init_done u' = is_uart_init_done u /\ busy (uart_dev u') = busy (uart_dev u) /\ uart_sent u' = uart_sent u.

Lemma uart_setup reg v u : reg ∈ [uartibrd; uartfbrd; uartlcr_h; uartecr] -> exists u', uart_write reg v u = Done (tt, u') /\ alike u u' /\ cr (uart_dev u') = cr (uart_dev u).
Proof.
  intros Hr. eexists. split; [reflexivity|]. destruct (pl_write_setup (uart_dev u) reg (u32 v) Hr) as (? & ? & ?). by unfold alike, uart_sent.
Qed.
Lemma uart_write_cr v u : exists u', uart_write uartcr v u = Done (tt, u') /\ alike u u' /\ cr (uart_dev u') = u32 v.
Proof.
  eexists. split; [reflexivity|]. cbn [uart_dev]. destruct (pl_write_cr (uart_dev u) (u32 v)) as (? & ? & ?); [by apply Z.mod_pos_bound|]. by unfold alike, uart_sent.
Qed.
Lemma uart_read_cr u : exists u', uart_read uartcr u = Done (u32 (cr (uart_dev u)), u') /\ alike u u' /\ cr (uart_dev u') = cr (uart_dev u).
Proof.
  destruct (pl_read_cr (uart_dev u)) as (h' & E & ? & ? & ?). unfold uart_read. rewrite E. eexists. split; [reflexivity|]. by unfold alike, uart_sent.
Qed.

Lemma alike_trans u v w : alike u v -> alike v w -> alike u w.
Proof. unfold alike. intros (?&?&?) (?&?&?). split_and!; congruence. Qed.

(** One write of the set-up. *)
Local Ltac uart_step u u' E A :=
  match goal with |- context [bind (uart_write ?r ?v) _ u] =>
    destruct (uart_setup r v u ltac:(apply (bool_decide_unpack _); by vm_compute)) as (u' & E & A & _) end;
  rewrite (bind_done _ _ _ _ _ E).

Lemma uart_init u : exists u', pal_driver_uart_pl011_init u = Done (tt, u') /\ alike u u' /\ cr (uart_dev u') = enabled.
Proof.
  unfold pal_driver_uart_pl011_init.
  destruct (uart_read_cr u) as (u1 & E1 & A1 & _). rewrite (bind_done _ _ _ _ _ E1).
  match goal with |- context [bind (uart_write uartcr ?v) _ u1] => destruct (uart_write_cr v u1) as (u2 & E2 & A2 & _) end. rewrite (bind_done _ _ _ _ _ E2).
  uart_step u2 u3 E3 A3. uart_step u3 u4 E4 A4. uart_step u4 u5 E5 A5. uart_step u5 u6 E6 A6.
  destruct (uart_write_cr enabled u6) as (u7 & E7 & A7 & C7). exists u7. split; [done|]. split; [|done].
  by eapply alike_trans, alike_trans, alike_trans, alike_trans, alike_trans, alike_trans; [exact A1|exact A2|exact A3|exact A4|exact A5|exact A6|exact A7].
Qed.

Lemma uart_tx_empty u : cr (uart_dev u) = enabled -> exists u', pal_driver_uart_pl011_is_tx_empty u = Done (bool_decide (busy (uart_dev u) = 0%nat), u') /\
  cr (uart_dev u') = enabled /\ is_uart_init_done u' = is_uart_init_done u /\ busy (uart_dev u') = pred (busy (uart_dev u)) /\ uart_sent u' = uart_sent u.
Proof.
  intros Hcr. unfold pal_driver_uart_pl011_is_tx_empty.
  destruct (uart_read_cr u) as (u1 & E1 & (D1 & B1 & S1) & C1). rewrite (bind_done _ _ _ _ _ E1), Hcr.
  change (Z.land (u32 enabled) UART_PL011_UARTCR_EN_MASK =? 0) with false. cbv iota.
  destruct (uart_read_cr u1) as (u2 & E2 & (D2 & B2 & S2) & C2). rewrite (bind_done _ _ _ _ _ E2), C1, Hcr.
  change (Z.land (u32 enabled) UART_PL011_UARTCR_TX_EN_MASK =? 0) with false. cbv iota.
  destruct (pl_read_fr (uart_dev u2)) as (v & h' & E & Hf & Hc & Hb & Ho).
  assert (E3 : uart_read uartfr u2 = Done (u32 v, mk_uart (is_uart_init_done u2) h')) by (unfold uart_read; by rewrite E).
  rewrite (bind_done _ _ _ _ _ E3). eexists. split.
  - unfold ret. do 2 f_equal. rewrite <- B1, <- B2. destruct (Z.eqb_spec (Z.land (u32 v) UART_PL011_UARTFR_TX_FIFO_FULL) 0) as [Hz|Hz]; symmetry.
    + by apply bool_decide_true, Hf.
    + apply bool_decide_false. by intros Hb0%Hf.
  - unfold uart_sent in *. cbn [uart_dev is_uart_init_done]. split_and!; congruence.
Qed.

(** On a device that follows its manual the first call sets it up, every call waits
    until there is room in the FIFO, returns, and sends the byte it was given. *)
Lemma putc_sends_byte c u : uart_live u ->
  exists u', pal_driver_uart_pl011_putc patience c u = Done (tt, u') /\ uart_live u' /\ uart_sent u' = uart_sent u ++ [u8 c].
Proof.
  intros [Hinit Hbusy]. unfold pal_driver_uart_pl011_putc. unfold bind at 1, gets.
  assert (Hset : exists u1, when (is_uart_init_done u =? 0) (pal_driver_uart_pl011_init ;;; modify (fun u => mk_uart 1 (uart_dev u))) u = Done (tt, u1) /\
    cr (uart_dev u1) = enabled /\ is_uart_init_done u1 <> 0 /\ busy (uart_dev u1) = busy (uart_dev u) /\ uart_sent u1 = uart_sent u).
  { destruct (Z.eqb_spec (is_uart_init_done u) 0) as [E0|E0]; cbn [when].
    - destruct (uart_init u) as (u1 & E & (_ & B & S) & C). rewrite (bind_done _ _ _ _ _ E). eexists. split; [reflexivity|]. done.
    - exists u. split; [done|]. destruct Hinit; [done|]. done. }
  destruct Hset as (u1 & E1 & C1 & D1 & B1 & S1). rewrite (bind_done _ _ _ _ _ E1).
  set (body := let* e := pal_driver_uart_pl011_is_tx_empty in ret (if e then Some tt else None)).
  set (Inv := fun w : U => cr (uart_dev w) = enabled /\ uart_sent w = uart_sent u /\ (busy (uart_dev w) <= limit)%nat).
  destruct (rounds_decrease Inv (fun w => busy (uart_dev w)) (fun _ w => Inv w /\ busy (uart_dev w) = 0%nat) patience body) with (s := u1) as (r & u2 & E2 & H2).
  { intros w (Cw & Sw & Bw). destruct (uart_tx_empty w Cw) as (w' & E & C' & _ & B' & S'). unfold body. rewrite (bind_done _ _ _ _ _ E).
    eexists _, w'. split; [reflexivity|]. unfold Inv. case_bool_decide as Hb; split_and!; try congruence; lia. }
  { unfold Inv. split_and!; [done|done|lia]. }
  rewrite (bind_done _ _ _ _ _ E2). destruct r as [[]|]; [|destruct H2 as [_ H2]; exfalso; lia].
  destruct H2 as ((C2 & S2 & _) & B2). eexists. split; [reflexivity|].
  destruct (pl_write_dr (uart_dev u2) (u32 (u8 c))) as (C3 & B3 & O3); [by rewrite C2|by rewrite C2|done|].
  unfold uart_live, uart_sent in *. cbn [uart_dev is_uart_init_done]. split; [split; [right; by rewrite C3|done]|].
  rewrite O3, S2. do 2 f_equal. pose proof (u8_range c). rewrite (u32_small (u8 c)) by lia. by rewrite u8_small by lia.
Qed.
End DriverLaws.

(** ** The driver is a console *)

#[export] Instance pl011_console {H} `{Hardware H} (patience : positive) : Console (uart_state H) := pal_driver_uart_pl011_putc patience.

Lemma pl011_laws {H} `{Hardware H} {limit} `{!Pl011 H limit} patience :
  (limit < Pos.to_nat patience)%nat -> @ConsoleLaws (uart_state H) (pl011_console patience) uart_live uart_sent.
Proof. intros He c u. by apply putc_sends_byte. Qed.

(** C33: formatted output on the serial port.  Let a format be text, percent signs and
    directives (signed, unsigned, hexadecimal, pointer, string, with [l] modifiers and a
    width written behind a 0).  On a PL011 that follows its manual, [pal_uart_print]
    returns and sends exactly the text of the pieces, behind what was sent before: every
    number in its digits, filled with zeros up to the width, and a carriage return behind
    a newline, whether or not the device was set up before. *)
Theorem uart_print_sends {H} `{Hardware H} {limit} `{!Pl011 H limit} `{Uninit} patience mem log ps args extra text n u :
  (limit < Pos.to_nat patience)%nat -> renders mem ps args text n -> uart_live u ->
  exists u', @pal_uart_print _ (pl011_console patience) mem _ log (flat_map show ps) (args ++ extra) u = Done (tt, u') /\
    uart_live u' /\ uart_sent u' = uart_sent u ++ text.
Proof.
  intros He Hr. pose proof (pl011_laws (H := H) patience He) as Hlaws. exact (uart_print_formats mem log ps args extra text n Hr u).
Qed.

(** ** Raw output *)

Section Raw.
Context {H : Type} `{Hardware H, Uninit}.
Local Abbreviation P := (prog H).

Definition raw_char (addr c : Z) : P unit := modify (hw_write W8 addr (u8 c)).

(** The digits of [data] into [buffer], from [i] on, the last one first. *)
Fixpoint raw_digits (fuel : nat) (hex : bool) (data : Z) (buffer : list Z) (i : Z) : P (list Z * Z) :=
  match fuel with
  | O => diverge
  | S f =>
      if data =? 0 then ret (buffer, i) else
      let j := if hex then Z.land data 0xf else data mod 10 in
      let data := if hex then Z.shiftr data 4 else data / 10 in
      let c := if hex then j + (if 9 <? j then 55 else 48) else j + 48 in
      let* _ := deref (at_index buffer i) in
      raw_digits f hex data (<[Z.to_nat i := c]> buffer) (i + 1)
  end.
(** The conversion behind a percent sign: any other character converts nothing. *)
Definition raw_convert (d data : Z) (buffer : list Z) (i : Z) : P (list Z * Z * Z) :=
  if d =? 100 then let* r := raw_digits 65 false data buffer i in ret (r, 0)
  else if (d =? 120) || (d =? 88) then let* r := raw_digits 65 true data buffer i in ret (r, 0)
  else ret (buffer, i, data).

(** [while (i != 0)], from [i]. *)
Fixpoint raw_send (addr : Z) (buffer : list Z) (i : nat) : P unit :=
  match i with O => ret tt | S j => let* c := deref (buffer !! j) in raw_char addr c ;;; raw_send addr buffer j end.

(** A percent sign at the end moves the pointer behind the terminator. *)
Fixpoint raw_loop (addr : Z) (string : list Z) (data : Z) (buffer : list Z) (i : Z) : P unit :=
  match string with
  | [] => ret tt
  | c :: r =>
      if c =? 37 then
        match r with
        | [] => undef
        | d :: r =>
            let* x := raw_convert d data buffer i in
            let '(buffer, i, data) := x in
            (if 0 <? i then raw_send addr buffer (Z.to_nat i) else raw_char addr 48) ;;;
            raw_loop addr r data buffer 0
        end
      else raw_char addr c ;;; raw_loop addr r data buffer i
  end.
Definition pal_print_raw (addr : Z) (string : list Z) (data : Z) : P unit :=
  raw_loop addr string data (replicate 16 (uninit "buffer")) 0.
End Raw.

Definition raw_base (hex : bool) : Z := if hex then 16 else 10.
Definition raw_digit_char (d : Z) : Z := d + (if 9 <? d then 55 else 48).
(** No digit for 0. *)
Definition raw_rev (fuel : nat) (hex : bool) (n : Z) : list Z := if n =? 0 then [] else digits_rev fuel (raw_base hex) n.

Section RawLemmas.
Context {H : Type} `{Hardware H, Uninit}.

Definition sends (addr : Z) (l : list Z) (h : H) : H := fold_left (fun h c => hw_write W8 addr (u8 c) h) l h.

Lemma raw_digits_S f hex data buffer i :
  raw_digits (H := H) (S f) hex data buffer i =
    if data =? 0 then ret (buffer, i) else
    let* _ := deref (at_index buffer i) in
    raw_digits f hex (if hex then Z.shiftr data 4 else data / 10)
      (<[Z.to_nat i := (let j := if hex then Z.land data 0xf else data mod 10 in if hex then j + (if 9 <? j then 55 else 48) else j + 48)]> buffer) (i + 1).
Proof. done. Qed.

Lemma raw_digits_spec hex f : forall data done rest h, 0 <= data < raw_base hex ^ Z.of_nat f ->
  raw_digits (H := H) (S f) hex data (done ++ rest) (Z.of_nat (length done)) h =
  let ds := raw_rev f hex data in
  if decide (length ds <= length rest)%nat
  then Done ((done ++ (raw_digit_char <$> ds) ++ drop (length ds) rest, Z.of_nat (length done + length ds)), h) else Undefined.
Proof.
  induction f as [|f IH]; intros data done rest h Hd; unfold raw_rev.
  { change (raw_base hex ^ Z.of_nat 0) with 1 in Hd. replace data with 0 by lia. cbn. by rewrite Nat.add_0_r. }
  rewrite raw_digits_S. destruct (Z.eqb_spec data 0) as [->|Hne]; [cbn; by rewrite Nat.add_0_r|].
  assert (Hb : 2 <= raw_base hex) by (unfold raw_base; destruct hex; lia).
  set (q := data / raw_base hex). set (j := data mod raw_base hex).
  assert (Hj : (if hex then Z.land data 0xf else data mod 10) = j) by (unfold j, raw_base; destruct hex; [apply land_15|done]).
  assert (Hqd : (if hex then Z.shiftr data 4 else data / 10) = q) by (unfold q, raw_base; destruct hex; [by rewrite Z.shiftr_div_pow2 by lia|done]).
  assert (Hjr : 0 <= j < raw_base hex) by (apply Z.mod_pos_bound; lia).
  assert (Hc : (if hex then j + (if 9 <? j then 55 else 48) else j + 48) = raw_digit_char j).
  { unfold raw_digit_char. destruct hex; [done|]. unfold raw_base in Hjr. destruct (Z.ltb_spec 9 j); lia. }
  cbn zeta. rewrite Hj, Hqd, Hc. cbn [digits_rev length]. fold q j. fold (raw_rev f hex q).
  assert (Hq : 0 <= q < raw_base hex ^ Z.of_nat f).
  { split; [apply Z.div_pos; lia|]. apply Z.div_lt_upper_bound; [lia|]. rewrite Nat2Z.inj_succ, Z.pow_succ_r in Hd by lia. lia. }
  destruct rest as [|x rest]; cbn [length].
  - unfold bind. rewrite at_index_nat, app_nil_r. rewrite (proj2 (lookup_ge_None _ _)) by lia. cbn. by destruct (decide _); [lia|].
  - assert (Ex : at_index (done ++ x :: rest) (Z.of_nat (length done)) = Some x) by (by rewrite at_index_nat, lookup_app_r, Nat.sub_diag by lia).
    unfold bind. rewrite Ex. cbn [deref]. unfold ret. rewrite Nat2Z.id, insert_app_r_alt, Nat.sub_diag by lia. cbn [insert list_insert].
    pose proof (IH q (done ++ [raw_digit_char j]) rest h Hq) as E. rewrite <- app_assoc, length_app in E. cbn [app length] in E.
    replace (Z.of_nat (length done) + 1) with (Z.of_nat (length done + 1)) by lia. rewrite E. cbn zeta.
    destruct (decide (length (raw_rev f hex q) <= length rest)%nat), (decide (S (length (raw_rev f hex q)) <= S (length rest))%nat); try lia; [|done].
    rewrite <- app_assoc. cbn [fmap list_fmap app drop]. do 2 f_equal. f_equal. lia.
Qed.

Lemma raw_send_spec addr l rest h : raw_send addr (l ++ rest) (length l) h = Done (tt, sends addr (rev l) h).
Proof.
  revert h rest. induction l as [|c l IH] using rev_ind; intros h rest; [done|].
  rewrite rev_app_distr, length_app, Nat.add_comm. cbn [length raw_send rev app Nat.add]. rewrite <- app_assoc.
  assert (Ec : (l ++ [c] ++ rest) !! length l = Some c) by (by rewrite lookup_app_r, Nat.sub_diag by lia).
  unfold bind at 1. rewrite Ec. cbn [deref]. unfold ret at 1. unfold bind, raw_char, modify. by rewrite IH.
Qed.

(** Plain text in front. *)
Lemma raw_text addr pre r data buffer i h : 37 ∉ pre -> raw_loop addr (pre ++ r) data buffer i h = raw_loop addr r data buffer i (sends addr pre h).
Proof.
  revert h. induction pre as [|c pre IH]; intros h Hp; [done|]. apply not_elem_of_cons in Hp as [Hc Hp]. cbn [app raw_loop].
  destruct (Z.eqb_spec c 37); [congruence|]. unfold bind, raw_char, modify. by rewrite IH.
Qed.

(** raw output of a number.  For a string with one directive the bare-metal port
    writes the text and the digits of the number to the port, most significant first,
    every hexadecimal number and every decimal one below 10^16; a larger decimal number
    overruns its buffer of 16 digits. *)
Theorem print_raw_number addr pre d post data h :
  37 ∉ pre -> 37 ∉ post -> d = 100 \/ d = 120 \/ d = 88 -> 0 <= data < 2 ^ 64 ->
  let hex := negb (d =? 100) in
  pal_print_raw addr (pre ++ 37 :: d :: post) data h =
    if hex || (data <? 10 ^ 16) then Done (tt, sends addr (pre ++ (raw_digit_char <$> digits (raw_base hex) data) ++ post) h) else Undefined.
Proof.
  intros Hpre Hpost Hd Hdata hex. unfold pal_print_raw. rewrite raw_text by done. cbn [raw_loop Z.eqb Pos.eqb].
  assert (Hb : 10 <= raw_base hex <= 16) by (unfold raw_base; destruct hex; lia).
  set (ds := raw_rev 64 hex data). set (buf := replicate 16 (uninit "buffer")). set (h1 := sends addr pre h).
  assert (Hlt : 0 <= data < raw_base hex ^ Z.of_nat 64) by (split; [lia|]; apply (Z.lt_le_trans _ (10 ^ 64)); [lia|apply Z.pow_le_mono_l; lia]).
  assert (Elen : (length ds <= 16)%nat <-> hex || (data <? 10 ^ 16) = true).
  { unfold ds, raw_rev. destruct (Z.eqb_spec data 0) as [->|Hne]; [cbn; destruct hex; split; intros; try done; lia|]. unfold raw_base. destruct hex; cbn [orb].
    - split; [done|]. intros _. apply digits_rev_length; lia.
    - destruct (Z.ltb_spec data (10 ^ 16)) as [Hs|Hs]; split; intros Hx; try done; [apply digits_rev_length; lia|].
      pose proof (digits_rev_long 64 10 ltac:(lia) 16 data Hs ltac:(lia)). lia. }
  assert (Econv : raw_convert d data buf 0 h1 = if decide (length ds <= 16)%nat then Done ((((raw_digit_char <$> ds) ++ drop (length ds) buf, Z.of_nat (length ds)), 0), h1) else Undefined).
  { pose proof (raw_digits_spec hex 64 data [] buf h1 Hlt) as E. cbn zeta in E. fold ds in E. change (length buf) with 16%nat in E. cbn [app length Nat.add] in E.
    assert (Ex : raw_convert d data buf 0 h1 = (let* r := raw_digits 65 hex data buf 0 in ret (r, 0)) h1) by (unfold hex; by destruct Hd as [->|[-> | ->]]).
    change (Z.of_nat 0) with 0 in E. rewrite Ex. unfold bind. rewrite E. by destruct (decide _). }
  unfold bind at 1. rewrite Econv. destruct (decide (length ds <= 16)%nat) as [Hle|Hgt]; [|by destruct (hex || _); [exfalso; apply Hgt, Elen|]].
  rewrite (proj1 Elen Hle). cbv iota beta.
  assert (Esend : (if 0 <? Z.of_nat (length ds) then raw_send addr ((raw_digit_char <$> ds) ++ drop (length ds) buf) (Z.to_nat (Z.of_nat (length ds))) else raw_char addr 48) h1
                  = Done (tt, sends addr (raw_digit_char <$> digits (raw_base hex) data) h1)).
  { unfold digits. rewrite fmap_reverse_rev, Nat2Z.id. unfold ds, raw_rev. destruct (Z.eqb_spec data 0) as [->|Hne]; [destruct hex; done|].
    pose proof (raw_send_spec addr (raw_digit_char <$> digits_rev 64 (raw_base hex) data) (drop (length (digits_rev 64 (raw_base hex) data)) buf) h1) as E.
    rewrite length_fmap in E. destruct (Z.ltb_spec 0 (Z.of_nat (length (digits_rev 64 (raw_base hex) data)))) as [_|Hz]; [exact E|].
    cbn [digits_rev length] in Hz. lia. }
  rewrite (bind_done _ _ _ _ _ Esend). rewrite <- (app_nil_r post), raw_text by done. cbn [raw_loop]. unfold ret, sends, h1. unfold sends. by rewrite app_nil_r, !fold_left_app.
Qed.
End RawLemmas.

(** ** A device that is full for one read after every character *)

Module Sample.
Record pl011_dev := mk_pl011 { d_cr : Z; d_busy : nat; d_out : list Z }.
#[export] Instance pl011_hw : Hardware pl011_dev := {|
  hw_read := fun _ a h =>
    if a =? PLATFORM_UART_BASE + uartcr then (d_cr h, h)
    else if a =? PLATFORM_UART_BASE + uartfr then (match d_busy h with O => 0 | S _ => UART_PL011_UARTFR_TX_FIFO_FULL end, mk_pl011 (d_cr h) (pred (d_busy h)) (d_out h))
    else (0, h);
  hw_write := fun _ a v h =>
    if a =? PLATFORM_UART_BASE + uartcr then mk_pl011 v (d_busy h) (d_out h)
    else if a =? PLATFORM_UART_BASE + uartdr then mk_pl011 (d_cr h) 1 (d_out h ++ [u8 v])
    else h |}.
#[export] Instance pl011_sample : Pl011 pl011_dev 1.
Proof.
  refine {| cr := d_cr; busy := d_busy; out := d_out |}.
  - intros h. by exists h.
  - intros h. eexists _, _. split; [reflexivity|]. cbn [d_cr d_busy d_out]. split; [|done]. by destruct (d_busy h).
  - by intros h v _.
  - intros h reg v Hr. repeat (apply elem_of_cons in Hr as [->|Hr]; [done|]). by apply not_elem_of_nil in Hr.
  - by intros h v _ _ _.
Defined.
#[export] Instance no_uninit : Uninit := fun _ => 0.

(** "n=%04d %x" and a newline for -7 and 255. *)
Definition sample_format : list piece := [Lit 110; Lit 61; Dir (Some 4) 0 CInt; Lit 32; Dir None 0 CHex; Lit 10].
Definition sample_text : list Z := [110; 61; 45; 48; 48; 55; 32; 102; 102; 10; 13].

Lemma uart_print_sends_witness :
  exists u', @pal_uart_print _ (pl011_console 5) ∅ _ 3 (flat_map show sample_format) ([2 ^ 32 - 7; 255] ++ []) (mk_uart 0 (mk_pl011 0 0 [])) = Done (tt, u') /\
    uart_sent u' = sample_text.
Proof.
  assert (Hr : renders ∅ sample_format [2 ^ 32 - 7; 255] sample_text 9).
  { unfold sample_format, sample_text. apply (renders_lit _ 110 _ _ [61; 45; 48; 48; 55; 32; 102; 102; 10; 13] 8); [done|done|].
    apply (renders_lit _ 61 _ _ [45; 48; 48; 55; 32; 102; 102; 10; 13] 7); [done|done|].
    apply (renders_dir _ (Some 4) 0 CInt (2 ^ 32 - 7) _ [255] [45; 48; 48; 55] 3 [32; 102; 102; 10; 13] 4); [done|apply (converts_neg _ 4 0 (2 ^ 32 - 7) (-7)); [reflexivity|lia]|].
    apply (renders_lit _ 32 _ _ [102; 102; 10; 13] 3); [done|done|]. apply (renders_dir _ None 0 CHex 255 _ [] [102; 102] 2 [10; 13] 1); [done|apply (converts_hex _ 0 0 255 255); reflexivity|].
    apply (renders_lit _ 10 [] [] [] 0); [done|done|constructor]. }
  assert (Hl : uart_live (mk_uart 0 (mk_pl011 0 0 []))) by (split; [by left|cbn; lia]).
  assert (He : (1 < Pos.to_nat 5)%nat) by (vm_compute; lia).
  destruct (uart_print_sends 5 ∅ 3 sample_format [2 ^ 32 - 7; 255] [] sample_text 9 _ He Hr Hl) as (u' & E & _ & Hs).
  exists u'. split; [exact E|exact Hs].
Defined.

Lemma print_raw_number_witness :
  pal_print_raw (H := pl011_dev) PLATFORM_UART_BASE [37; 100] (10 ^ 16) (mk_pl011 0 0 []) = Undefined.
Proof. exact (print_raw_number PLATFORM_UART_BASE [] 100 [] (10 ^ 16) (mk_pl011 0 0 []) (not_elem_of_nil _) (not_elem_of_nil _) (or_introl eq_refl) ltac:(lia)). Defined.
End Sample.
