(* ===== verification/DeviceTree.v ===== *)
(** * The device-tree port

    Models how [platform/pal_uefi_dt/] reads the device tree: the helpers of
    [src/pal_dt.c], the PSCI conduit ([src/pal_hart.c]), and the tables of PCIe
    ([src/pal_pcie.c]), watchdogs and timers ([src/pal_timer_wd.c]) and of the interrupt
    controller ([src/pal_gic.c]).  The library libfdt is a parameter ([Fdt]): its functions
    over the blob, which does not change.  A property is its bytes; a cell outside it is
    undefined.  Messages are left out.  The table of harts is not modelled: it writes
    fields that the entry of this port does not have. *)

From S2P Require Import Prelude Hart PcieCfg Timer Gic.

(** ** libfdt *)

(** A node is an offset; a negative one is an error. [fdt_getprop] gives the length, or
    an error, and the value, or NULL. *)
Class Fdt := {
  fdt_node_offset_by_compatible : Z -> string -> Z;
  fdt_node_offset_by_prop_value : Z -> string -> string -> Z;
  fdt_node_offset_by_phandle : Z -> Z;
  fdt_parent_offset : Z -> Z;
  fdt_next_node : Z -> Z;
  fdt_subnode_offset : Z -> string -> Z;
  fdt_next_subnode : Z -> Z;
  fdt_size_cells : Z -> Z;
  fdt_address_cells : Z -> Z;
  fdt_getprop : Z -> string -> Z * option (list Z) }.

Definition FDT_ERR_NOTFOUND : Z := 1.
Definition FDT_ERR_BADNCELLS : Z := 14.
Definition PPI_OFFSET : Z := 16.
Definition SPI_OFFSET : Z := 32.
Definition INTERRUPT_CELLS_MAX : Z := 4.
Definition INTERRUPT_CELLS_MIN : Z := 1.
Definition GIC_SPI : Z := 0.
Definition GIC_PPI : Z := 1.
Definition IRQ_TYPE_NONE : Z := 0.
Definition IRQ_TYPE_EDGE_RISING : Z := 1.
Definition IRQ_TYPE_EDGE_FALLING : Z := 2.
Definition IRQ_TYPE_LEVEL_HIGH : Z := 4.
Definition IRQ_TYPE_LEVEL_LOW : Z := 8.
Definition INTERRUPT_IS_LEVEL_TRIGGERED : Z := 0.
Definition INTERRUPT_IS_EDGE_TRIGGERED : Z := 1.
Definition INTERRUPT_IS_ACTIVE_HIGH : Z := 0.
Definition INTERRUPT_IS_ACTIVE_LOW : Z := 1.

(** The system table of the firmware: GUIDs and tables. *)
Definition pal_get_dt_ptr (gFdtTableGuid : Z) (fdt_check_header : Z -> Z) (tables : list (Z * Z)) : Z :=
  match find_first (fun t => t.1 =? gFdtTableGuid) tables 0 with
  | Some (_, (_, DTB)) => if DTB =? 0 then 0 else if negb (fdt_check_header DTB =? 0) then 0 else DTB
  | None => 0
  end.

(** ** Functions that return early *)

(** [None]: the C function has returned. *)
Definition obind {S A B} (m : prog S (option A)) (k : A -> prog S (option B)) : prog S (option B) :=
  let* r := m in match r with None => ret None | Some a => k a end.
Notation "'let?' p := m 'in' k" := (obind m (fun p => k)) (at level 10, p pattern, m at level 200, k at level 200) : prog_scope.
Definition guard_or_return {S} (b : bool) : prog S (option unit) := ret (if b then Some tt else None).
Definition go_on {S A} (m : prog S A) : prog S (option A) := let* a := m in ret (Some a).

(** [while (offset != -FDT_ERR_NOTFOUND)]: the body gives the next offset and the locals. *)
Fixpoint nodes_loop {S L} (fuel : nat) (body : Z -> L -> prog S (option (Z * L))) (offset : Z) (locals : L) : prog S (option L) :=
  match fuel with
  | O => diverge
  | Datatypes.S f =>
      if offset =? - FDT_ERR_NOTFOUND then ret (Some locals)
      else let? r := body offset locals in nodes_loop f body r.1 r.2
  end.
(** A [for] over the strings of an array, with [continue] and [return]. *)
Fixpoint each_string {S L} (l : list string) (body : string -> L -> prog S (option L)) (locals : L) : prog S (option L) :=
  match l with [] => ret (Some locals) | c :: r => let? locals := body c locals in each_string r body locals end.

Section Dt.
Context `{Fdt} {S : Type}.
Local Abbreviation P := (prog S).

(** [fdt32_to_cpu(p[i])]. *)
Definition fdt32 (p : list Z) (i : Z) : P Z :=
  let* a := deref (at_index p (4 * i)) in
  let* b := deref (at_index p (4 * i + 1)) in
  let* c := deref (at_index p (4 * i + 2)) in
  let* d := deref (at_index p (4 * i + 3)) in
  ret (((a * 256 + b) * 256 + c) * 256 + d).
(** An address or a size of [cells] cells at [i]; only 2 is treated as a pair. *)
Definition fdt_number (p : list Z) (i cells : Z) : P (Z * Z) :=
  if cells =? 2 then
    let* h := fdt32 p i in let* l := fdt32 p (i + 1) in ret (u64 (Z.lor (Z.shiftl h 32) l), i + 2)
  else let* v := fdt32 p i in ret (v, i + 1).

(** A property that must be there: its length and its value. *)
Definition need_prop (offset : Z) (name : string) : P (option (Z * list Z)) :=
  let '(prop_len, p) := fdt_getprop offset name in
  ret (match p with Some v => if prop_len <? 0 then None else Some (prop_len, v) | None => None end).
(** The cells of a bus, checked. *)
Definition need_cells (parent : Z) (size_ok addr_ok : Z -> bool) : P (option (Z * Z)) :=
  let size_cell := fdt_size_cells parent in
  let? _ := guard_or_return (size_ok size_cell) in
  let addr_cell := fdt_address_cells parent in
  let? _ := guard_or_return (addr_ok addr_cell) in
  ret (Some (size_cell, addr_cell)).

Definition fdt_frame_number (nodeoffset : Z) : P Z :=
  let '(len, ic) := fdt_getprop nodeoffset "frame-number" in
  match ic with
  | None => ret 2
  | Some p =>
      if negb (len =? 4) then ret (- FDT_ERR_BADNCELLS) else
      let* v := fdt32 p 0 in
      let val := i32 v in
      ret (if val <? 0 then - FDT_ERR_BADNCELLS else val)
  end.

(** The walk to the parents is cut after [fuel] nodes. *)
Fixpoint interrupt_cells_loop (fuel : nat) (nodeoffset : Z) : P Z :=
  match fuel with
  | O => diverge
  | Datatypes.S f =>
      match (fdt_getprop nodeoffset "#interrupt-cells").2 with
      | Some ic => let* v := fdt32 ic 0 in ret (i32 v)
      | None =>
          let* nodeoffset :=
            match (fdt_getprop nodeoffset "interrupt-parent").2 with
            | Some ic => let* h := fdt32 ic 0 in ret (fdt_node_offset_by_phandle h)
            | None => ret (fdt_parent_offset nodeoffset)
            end in
          if 0 <=? nodeoffset then interrupt_cells_loop f nodeoffset else ret 3
      end
  end.
Definition fdt_interrupt_cells (fuel : nat) (nodeoffset : Z) : P Z := interrupt_cells_loop fuel nodeoffset.
Definition need_interrupt_cells (fuel : nat) (offset : Z) : P (option Z) :=
  let* interrupt_cell := fdt_interrupt_cells fuel offset in
  ret (if (interrupt_cell <? INTERRUPT_CELLS_MIN) || (INTERRUPT_CELLS_MAX <? interrupt_cell) then None else Some interrupt_cell).

Fixpoint prop_name_loop (fuel : nat) (offset : Z) (propname : string) : P Z :=
  match fuel with
  | O => diverge
  | Datatypes.S f =>
      if offset <? 0 then ret offset
      else match (fdt_getprop offset propname).2 with Some _ => ret offset | None => prop_name_loop f (fdt_next_node offset) propname end
  end.
Definition fdt_node_offset_by_prop_name (fuel : nat) (startoffset : Z) (propname : string) : P Z :=
  prop_name_loop fuel (fdt_next_node startoffset) propname.

(** The first of the strings that a node is compatible with; the last answer otherwise. *)
Fixpoint first_compatible (l : list string) (offset : Z) : Z :=
  match l with
  | [] => offset
  | c :: r => let offset := fdt_node_offset_by_compatible (-1) c in if 0 <=? offset then offset else first_compatible r offset
  end.
End Dt.

(** ** The PSCI conduit *)

Definition psci_dt_arr : list string := ["arm,psci-1.0"; "arm,psci"; "arm,psci-0.2"]%string.
(** [pal_strncmp] of the firmware, by what it returns for a property and a string. *)
Definition pal_psci_get_conduit `{Fdt} (pal_strncmp : list Z -> string -> Z) (dt_ptr : Z) : Z :=
  if dt_ptr =? 0 then CONDUIT_NONE else
  let offset := first_compatible psci_dt_arr 0 in
  if offset <? 0 then CONDUIT_UNKNOWN else
  let '(prop_len, Pmethod) := fdt_getprop offset "method" in
  match Pmethod with
  | Some p =>
      if 0 <? prop_len then
        if pal_strncmp p "hvc"%string =? 0 then CONDUIT_HVC else if pal_strncmp p "smc"%string =? 0 then CONDUIT_SMC else CONDUIT_NONE
      else CONDUIT_NONE
  | None => CONDUIT_NONE
  end.

(** ** PCIe *)

Section Pcie.
Context `{Fdt} (fuel : nat).
Local Abbreviation P := (prog PCIE_INFO_TABLE).

Definition pci_dt_arr : list string := ["pci-host-ecam-generic"]%string.
(** A block of the memory of the table. *)
Definition set_block (f : PCIE_INFO_BLOCK -> PCIE_INFO_BLOCK) : P unit := fun t =>
  match at_index (block t) (info_num_entries t) with
  | Some b => Done (tt, mk_info (info_num_entries t) (<[Z.to_nat (info_num_entries t) := f b]> (block t)))
  | None => Undefined
  end.

Definition pcie_node_dt (addr_cell : Z) (c : string) (offset : Z) (_ : unit) : P (option (Z * unit)) :=
  let? reg := need_prop offset "reg" in
  let* h := fdt32 reg.2 0 in
  set_block (fun b => mk_block h (segment_num b) (start_bus_num b) (end_bus_num b)) ;;;
  when (addr_cell =? 2)
    (let* l := fdt32 reg.2 1 in set_block (fun b => mk_block (u64 (Z.lor (Z.shiftl (ecam_base b) 32) l)) (segment_num b) (start_bus_num b) (end_bus_num b))) ;;;
  let? bus := need_prop offset "bus-range" in
  let* lo := fdt32 bus.2 0 in
  let* hi := fdt32 bus.2 1 in
  set_block (fun b => mk_block (ecam_base b) 0 lo hi) ;;;
  modify (fun t => mk_info (u32 (info_num_entries t + 1)) (block t)) ;;;
  ret (Some (fdt_node_offset_by_compatible offset c, tt)).
Definition pcie_compatible_dt (c : string) (_ : unit) : P (option unit) :=
  let offset := fdt_node_offset_by_compatible (-1) c in
  if offset <? 0 then ret (Some tt) else
  let? cells := need_cells (fdt_parent_offset offset) (fun s => negb (s <? 0)) (fun a => negb ((a <=? 0) || (2 <? a))) in
  nodes_loop fuel (pcie_node_dt cells.2 c) offset tt.
Definition pal_pcie_create_info_table_dt (dt_ptr : Z) : P unit :=
  if dt_ptr =? 0 then ret tt else
  modify (fun t => mk_info 0 (block t)) ;;;
  let* _ := each_string pci_dt_arr pcie_compatible_dt tt in
  ret tt.
End Pcie.

(** ** Watchdogs *)

Section Wd.
Context `{Fdt} (fuel : nat).
Local Abbreviation P := (prog WD_INFO_TABLE).

Definition wd_dt_arr : list string := ["arm,sbsa-gwdt"]%string.
Definition set_wd_entry (i : Z) (f : WD_INFO_BLOCK -> WD_INFO_BLOCK) : P unit := fun t =>
  match at_index (wd_info t) i with
  | Some b => Done (tt, mk_wd_table (num_wd t) (<[Z.to_nat i := f b]> (wd_info t)))
  | None => Undefined
  end.

(** The two frames, from cell [index] on. *)
Definition wd_frames (reg : list Z) (index addr_cell size_cell : Z) : P (Z * Z) :=
  if addr_cell =? 1 then
    let* ctrl := fdt32 reg index in
    let* refresh := fdt32 reg (index + 1 + size_cell) in
    ret (ctrl, refresh)
  else
    let* c := fdt_number reg index 2 in
    let* r := fdt_number reg (c.2 + size_cell) 2 in
    ret (c.1, r.1).
(** The interrupt, its flag and the index that is left. *)
Definition wd_interrupt (intr : list Z) (interrupt_cell : Z) : P (Z * Z * Z) :=
  if (interrupt_cell =? 3) || (interrupt_cell =? 4) then
    let* ty := fdt32 intr 0 in
    let* n := fdt32 intr 1 in
    let* fl := fdt32 intr 2 in
    ret (u32 (n + (if ty =? 0 then SPI_OFFSET else PPI_OFFSET)), i32 fl, 2)
  else if interrupt_cell =? 2 then
    let* n := fdt32 intr 0 in let* fl := fdt32 intr 1 in ret (n, i32 fl, 1)
  else let* n := fdt32 intr 0 in ret (n, IRQ_TYPE_NONE, 0).
(** Mode and polarity; [None] is the default case, which returns. *)
Definition wd_trigger (intr_flg : Z) : option (Z * Z) :=
  if intr_flg =? IRQ_TYPE_NONE then Some (INTERRUPT_IS_LEVEL_TRIGGERED, INTERRUPT_IS_ACTIVE_HIGH)
  else if intr_flg =? IRQ_TYPE_EDGE_RISING then Some (INTERRUPT_IS_EDGE_TRIGGERED, INTERRUPT_IS_ACTIVE_HIGH)
  else if intr_flg =? IRQ_TYPE_EDGE_FALLING then Some (INTERRUPT_IS_EDGE_TRIGGERED, INTERRUPT_IS_ACTIVE_LOW)
  else if intr_flg =? IRQ_TYPE_LEVEL_HIGH then Some (INTERRUPT_IS_LEVEL_TRIGGERED, INTERRUPT_IS_ACTIVE_HIGH)
  else if intr_flg =? IRQ_TYPE_LEVEL_LOW then Some (INTERRUPT_IS_LEVEL_TRIGGERED, INTERRUPT_IS_ACTIVE_LOW)
  else None.

(** The locals are the entry and [index], which lives on from the interrupt of one node
    to the registers of the next. *)
Definition wd_node_dt (size_cell addr_cell : Z) (c : string) (offset : Z) (locals : Z * Z) : P (option (Z * (Z * Z))) :=
  let '(entry, index) := locals in
  let? reg := need_prop offset "reg" in
  let? intr := need_prop offset "interrupts" in
  let? interrupt_cell := need_interrupt_cells fuel offset in
  modify (fun t => mk_wd_table (u32 (num_wd t + 1)) (wd_info t)) ;;;
  let* frames := wd_frames reg.2 index addr_cell size_cell in
  set_wd_entry entry (fun b => mk_wd frames.1 frames.2 (wd_gsiv b) (wd_flags b)) ;;;
  let* i := wd_interrupt intr.2 interrupt_cell in
  set_wd_entry entry (fun b => mk_wd (wd_ctrl_base b) (wd_refresh_base b) i.1.1 (wd_flags b)) ;;;
  match wd_trigger i.1.2 with
  | None => ret None
  | Some (wd_mode, wd_polarity) =>
      set_wd_entry entry (fun b => mk_wd (wd_ctrl_base b) (wd_refresh_base b) (wd_gsiv b) (Z.lor (Z.shiftl wd_polarity 1) wd_mode)) ;;;
      ret (Some (fdt_node_offset_by_compatible offset c, (entry + 1, i.2)))
  end.
Definition wd_compatible_dt (c : string) (locals : Z * Z) : P (option (Z * Z)) :=
  let offset := fdt_node_offset_by_compatible (-1) c in
  if offset <? 0 then ret (Some locals) else
  let one_or_two x := negb ((x <? 1) || (2 <? x)) in
  let? cells := need_cells (fdt_parent_offset offset) one_or_two one_or_two in
  nodes_loop fuel (wd_node_dt cells.1 cells.2 c) offset locals.
(** The override of the platform is off ([Timer.v]). *)
Definition pal_wd_create_info_table_dt (dt_ptr : Z) : P unit :=
  modify (fun t => mk_wd_table 0 (wd_info t)) ;;;
  if dt_ptr =? 0 then ret tt else
  let* _ := each_string wd_dt_arr wd_compatible_dt (0, 0) in
  ret tt.
End Wd.

(** ** Interrupt controller *)

Section GicDt.
Context `{Fdt} (fuel : nat) (pal_hart_get_num : Z).
Local Abbreviation P := (prog GIC_INFO_TABLE).

Definition gicv3_dt_arr : list string := ["arm,gic-v3"]%string.
Definition gicv2_dt_arr : list string :=
  ["arm,cortex-a15-gic"; "arm,cortex-a9-gic"; "arm,cortex-a7-gic"; "arm,cortex-a5-gic"; "arm,eb11mp-gic"; "arm,arm11mp-gic"; "arm,gic-400";
   "arm,pl390"; "qcom,msm-8660-qgic"; "qcom,msm-qgic2"]%string.
Definition gicv2m_frame_dt : string := "arm,gic-v2m-frame".
Definition its_dt : string := "arm,gic-v3-its".

Definition set_gic_entry (i : Z) (f : GIC_INFO_ENTRY -> GIC_INFO_ENTRY) : P unit := fun t =>
  match at_index (gic_info t) i with
  | Some e => Done (tt, mk_gic_table (header t) (<[Z.to_nat i := f e]> (gic_info t)))
  | None => Undefined
  end.
Definition set_gic_header (f : GIC_INFO_HDR -> GIC_INFO_HDR) : P unit := modify (fun t => mk_gic_table (f (header t)) (gic_info t)).
Definition with_type (ty : Z) (e : GIC_INFO_ENTRY) : GIC_INFO_ENTRY :=
  mk_gic_entry ty (e_base e) (e_entry_id e) (e_length e) (e_flags e) (e_spi_count e) (e_spi_base e).
Definition with_frame (ty base len : Z) (e : GIC_INFO_ENTRY) : GIC_INFO_ENTRY :=
  mk_gic_entry ty base (e_entry_id e) len (e_flags e) (e_spi_count e) (e_spi_base e).
Definition with_spis (base count : Z) (e : GIC_INFO_ENTRY) : GIC_INFO_ENTRY :=
  mk_gic_entry (e_type e) (e_base e) (e_entry_id e) (e_length e) (e_flags e) count base.
Definition hdr_version (v : Z) (h : GIC_INFO_HDR) : GIC_INFO_HDR :=
  mk_gic_hdr v (num_gicd h) (num_gicc_rd h) (num_gicr_rd h) (num_its h) (num_msi_frame h) (num_gich h) (supervisor_intr_num h) (guest_intr_num h).
(** Increments of the counters. *)
Definition hdr_counts (gicd gicr its frame : Z) (h : GIC_INFO_HDR) : GIC_INFO_HDR :=
  mk_gic_hdr (gic_version h) (u32 (num_gicd h + gicd)) (num_gicc_rd h) (u32 (num_gicr_rd h + gicr)) (u32 (num_its h + its)) (u32 (num_msi_frame h + frame))
    (num_gich h) (supervisor_intr_num h) (guest_intr_num h).

(** Base and length at cell [Index]. *)
Definition gic_region (reg : list Z) (Index addr_cell size_cell : Z) : P (Z * Z * Z) :=
  let* b := fdt_number reg Index addr_cell in
  let* l := fdt_number reg b.2 size_cell in
  ret (b.1, l.1, l.2).

(** [while (i--)], for [n] redistributors; the locals are the entry and [Index]. *)
Fixpoint gic_rd_loop (n : nat) (reg : list Z) (addr_cell size_cell : Z) (locals : Z * Z) : P (Z * Z) :=
  match n with
  | O => ret locals
  | S k =>
      let* r := gic_region reg locals.2 addr_cell size_cell in
      set_gic_entry locals.1 (with_frame ENTRY_TYPE_GICR_GICRD r.1.1 r.1.2) ;;;
      set_gic_header (hdr_counts 0 1 0 0) ;;;
      gic_rd_loop k reg addr_cell size_cell (locals.1 + 1, r.2)
  end.
Fixpoint gic_cpuif_loop (n : nat) (base len entry : Z) : P Z :=
  match n with O => ret entry | S k => set_gic_entry entry (with_frame ENTRY_TYPE_CPUIF base len) ;;; gic_cpuif_loop k base len (entry + 1) end.

(** The number of redistributors. *)
Definition gic_redistributors (offset : Z) : P Z :=
  let '(prop_len, p) := fdt_getprop offset "redistributor-regions" in
  if prop_len <? 0 then ret 1 else let* v := deref p in fdt32 v 0.

(** A frame of the v2m controller; the locals are the entry. *)
Definition gic_v2m_node (addr_cell size_cell : Z) (offset entry : Z) : P (option (Z * Z)) :=
  let? reg := need_prop offset "reg" in
  set_gic_entry entry (with_type ENTRY_TYPE_GIC_MSI_FRAME) ;;;
  set_gic_header (hdr_counts 0 0 0 1) ;;;
  let* r := gic_region reg.2 0 addr_cell size_cell in
  set_gic_entry entry (with_frame ENTRY_TYPE_GIC_MSI_FRAME r.1.1 r.1.2) ;;;
  let* base := need_prop offset "arm,msi-base-spi" in
  let* spi_base := match base with None => ret 0 | Some p => fdt32 p.2 0 end in
  let* num := need_prop offset "arm,msi-num-spis" in
  let* spi_count := match num with None => ret 0 | Some p => fdt32 p.2 0 end in
  set_gic_entry entry (with_spis spi_base spi_count) ;;;
  ret (Some (fdt_node_offset_by_compatible offset gicv2m_frame_dt, entry + 1)).
Definition not_negative (x : Z) : bool := negb (x <? 0).
Definition gic_v2m (entry : Z) : P (option Z) :=
  let offset := fdt_node_offset_by_compatible (-1) gicv2m_frame_dt in
  if offset <? 0 then set_gic_entry entry (with_type 0xFF) ;;; ret None else
  let? cells := need_cells (fdt_parent_offset offset) not_negative not_negative in
  nodes_loop fuel (gic_v2m_node cells.2 cells.1) offset entry.
(** The ITS nodes are counted, not entered. *)
Definition gic_its_node (offset : Z) (_ : unit) : P (option (Z * unit)) :=
  set_gic_header (hdr_counts 0 0 1 0) ;;; ret (Some (fdt_node_offset_by_compatible offset its_dt, tt)).
Definition gic_its (entry : Z) : P (option Z) :=
  let offset := fdt_node_offset_by_compatible (-1) its_dt in
  if offset <? 0 then set_gic_entry entry (with_type 0xFF) ;;; ret None else
  let? _ := nodes_loop fuel gic_its_node offset tt in
  ret (Some entry).

(** The version and the node. *)
Definition gic_find : P Z :=
  let offset := first_compatible gicv3_dt_arr (-1) in
  if 0 <=? offset then set_gic_header (hdr_version 3) ;;; ret offset else
  let offset := first_compatible gicv2_dt_arr offset in
  if 0 <=? offset then set_gic_header (hdr_version 2) ;;; ret offset else ret offset.

(** The frames of the node itself: the entry behind them and the end of [reg]. *)
Definition gic_frames (offset : Z) (reg : Z * list Z) (addr_cell size_cell : Z) : P (option Z) :=
  let* _ := if addr_cell + size_cell =? 0 then undef else ret tt in
  let num_gic_interfaces := reg.1 / 4 / (addr_cell + size_cell) in
  let* r := gic_region reg.2 0 addr_cell size_cell in
  set_gic_entry 0 (with_frame ENTRY_TYPE_GICD r.1.1 r.1.2) ;;;
  set_gic_header (hdr_counts 1 0 0 0) ;;;
  let* v := gets (fun t => gic_version (header t)) in
  let* num_of_rd := if v =? 3 then gic_redistributors offset else ret 0 in
  let* l := gic_rd_loop (Z.to_nat num_of_rd) reg.2 addr_cell size_cell (1, r.2) in
  let cpuif := 1 <? u32 (num_gic_interfaces - num_of_rd) in
  let* l := if cpuif then
              let* r := gic_region reg.2 l.2 addr_cell size_cell in
              let* e := gic_cpuif_loop (Z.to_nat pal_hart_get_num) r.1.1 r.1.2 l.1 in ret (e, r.2)
            else ret l in
  let* l := if (v =? 2) && (1 <? i32 (num_gic_interfaces - (num_of_rd + 1))) then
              let* r := gic_region reg.2 l.2 addr_cell size_cell in
              set_gic_entry l.1 (with_frame ENTRY_TYPE_GICH r.1.1 r.1.2) ;;; ret (l.1 + 1, r.2)
            else ret l in
  if v =? 2 then gic_v2m l.1 else if v =? 3 then gic_its l.1 else ret (Some l.1).

Definition pal_gic_create_info_table_dt (dt_ptr : Z) : P unit :=
  if dt_ptr =? 0 then ret tt else
  set_gic_entry 0 (with_type 0xFF) ;;;
  let* offset := gic_find in
  if offset <? 0 then ret tt else
  let* r :=
    (let? cells := need_cells (fdt_parent_offset offset) not_negative not_negative in
     let? reg := need_prop offset "reg" in
     gic_frames offset reg cells.2 cells.1) in
  match r with
  | None => ret tt
  | Some entry => set_gic_entry entry (with_type 0xFF)
  end.
End GicDt.

(** ** Timers *)

Section TimerDt.
Context `{Fdt} (fuel : nat).
Local Abbreviation P := (prog TIMER_INFO_TABLE).

Definition systimer_dt_arr : list string := ["arm,armv8-timer"; "arm,armv7-timer"]%string.
Definition memtimer_dt_arr : list string := ["arm,armv7-timer-mem"]%string.
Definition TIMER_TYPE_SYS_TIMER : Z := 0x2001.
Definition TIMER_FLAG_ALWAYS_ON : Z := 0x04.

Definition set_t_header (f : TIMER_INFO_HDR -> TIMER_INFO_HDR) : P unit := modify (fun t => mk_timer_table (f (t_header t)) (gt_info t)).
(** The first block of the table. *)
Definition set_gt (f : TIMER_INFO_GTBLOCK -> option TIMER_INFO_GTBLOCK) : P unit := fun t =>
  match gt_info t with
  | [] => Undefined
  | g :: r => match f g with Some g => Done (tt, mk_timer_table (t_header t) (g :: r)) | None => Undefined end
  end.
(** The header with the flag of the timers and the interrupts of the secure, the
    non-secure, the virtual and the hypervisor timer. *)
Definition hdr_timers (flag s ns v e : Z) (h : TIMER_INFO_HDR) : TIMER_INFO_HDR :=
  mk_timer_hdr flag flag flag (el2_virt_timer_flag h) s ns e flag v (el2_virt_timer_gsiv h) (num_platform_timer h) (num_watchdog h) (sys_timer_status h) (time_base_frequency h).
Definition hdr_reset (h : TIMER_INFO_HDR) : TIMER_INFO_HDR :=
  mk_timer_hdr 0 0 0 0 0 0 0 0 0 0 0 (num_watchdog h) (sys_timer_status h) (time_base_frequency h).
Definition hdr_count (n : Z) (h : TIMER_INFO_HDR) : TIMER_INFO_HDR :=
  mk_timer_hdr (s_el1_timer_flag h) (ns_el1_timer_flag h) (el2_timer_flag h) (el2_virt_timer_flag h) (s_el1_timer_gsiv h) (ns_el1_timer_gsiv h)
    (el2_timer_gsiv h) (virtual_timer_flag h) (virtual_timer_gsiv h) (el2_virt_timer_gsiv h) n (num_watchdog h) (sys_timer_status h) (time_base_frequency h).

(** The next of the four interrupts, 0 if it is none of its hart, and the index behind
    it; the number of such an interrupt is not skipped. *)
Definition timer_intr (intr : list Z) (interrupt_cell index : Z) : P (Z * Z) :=
  if 3 <=? interrupt_cell then
    let* ty := fdt32 intr index in
    let* r := if ty =? GIC_PPI then let* n := fdt32 intr (index + 1) in ret (u32 (n + PPI_OFFSET), index + 2) else ret (0, index + 1) in
    ret (r.1, r.2 + 1 + (if interrupt_cell =? 4 then 1 else 0))
  else let* n := fdt32 intr index in ret (n, index + 1 + (interrupt_cell - 1)).
Definition timer_system (offset : Z) : P (option unit) :=
  let? interrupt_cell := need_interrupt_cells fuel offset in
  let? intr := need_prop offset "interrupts" in
  let* s := timer_intr intr.2 interrupt_cell 0 in
  let* ns := timer_intr intr.2 interrupt_cell s.2 in
  let* v := timer_intr intr.2 interrupt_cell ns.2 in
  let* e := timer_intr intr.2 interrupt_cell v.2 in
  let flag := match (fdt_getprop offset "always-on").2 with Some _ => TIMER_FLAG_ALWAYS_ON | None => 0 end in
  set_t_header (hdr_timers flag s.1 ns.1 v.1 e.1) ;;;
  ret (Some tt).

(** The interrupts of a frame: the second one is optional. *)
Definition frame_intrs (intr : Z * list Z) (interrupt_cell : Z) : P (Z * Z) :=
  let more := interrupt_cell <? intr.1 / 4 in
  if 3 <=? interrupt_cell then
    let* ty := fdt32 intr.2 0 in
    let* g := if ty =? GIC_SPI then let* n := fdt32 intr.2 1 in ret (u32 (n + SPI_OFFSET), 2) else ret (0, 1) in
    let index := g.2 + 1 + (if interrupt_cell =? 4 then 1 else 0) in
    if more then
      let* ty := fdt32 intr.2 index in
      if ty =? GIC_SPI then let* n := fdt32 intr.2 (index + 1) in ret (g.1, u32 (n + SPI_OFFSET)) else ret (g.1, 0)
    else ret (g.1, 0)
  else
    let* g := fdt32 intr.2 0 in
    if more then let* v := fdt32 intr.2 (1 + (interrupt_cell - 1)) in ret (g, v) else ret (g, 0).
(** The element of the arrays of eight for the next timer, and the count. *)
Definition add_timer (base frame g v : Z) (b : TIMER_INFO_GTBLOCK) : option TIMER_INFO_GTBLOCK :=
  let n := timer_count b in
  if (0 <=? n) && (n <? 8) then
    let i := Z.to_nat n in
    Some (mk_gtblock (gt_type b) (u32 (n + 1)) (block_cntl_base b) (<[i := u8 frame]> (frame_num b)) (<[i := base]> (GtCntBase b)) (<[i := 0]> (GtCntEl0Base b))
            (<[i := g]> (gsiv b)) (<[i := v]> (virt_gsiv b)) (<[i := 0]> (gt_flags b)))
  else None.
Definition timer_frame (addr_cell : Z) (offset : Z) (_ : unit) : P (option (Z * unit)) :=
  let* frame_number := fdt_frame_number offset in
  let? reg := need_prop offset "reg" in
  let? intr := need_prop offset "interrupts" in
  let? interrupt_cell := need_interrupt_cells fuel offset in
  let* base := fdt_number reg.2 0 addr_cell in
  let* i := frame_intrs intr interrupt_cell in
  set_gt (add_timer base.1 frame_number i.1 i.2) ;;;
  ret (Some (fdt_next_subnode offset, tt)).
Definition timer_memory (offset : Z) : P (option unit) :=
  let one_or_two x := negb ((x <? 1) || (2 <? x)) in
  let? cells := need_cells (fdt_parent_offset offset) not_negative one_or_two in
  let? reg := need_prop offset "reg" in
  set_gt (fun b => Some (mk_gtblock TIMER_TYPE_SYS_TIMER (timer_count b) (block_cntl_base b) (frame_num b) (GtCntBase b) (GtCntEl0Base b) (gsiv b) (virt_gsiv b) (gt_flags b))) ;;;
  let* base := fdt_number reg.2 0 cells.2 in
  set_gt (fun b => Some (mk_gtblock (gt_type b) (timer_count b) base.1 (frame_num b) (GtCntBase b) (GtCntEl0Base b) (gsiv b) (virt_gsiv b) (gt_flags b))) ;;;
  let? cells := need_cells offset not_negative one_or_two in
  let subnode_offset := fdt_subnode_offset offset "frame" in
  if subnode_offset <? 0 then ret None else nodes_loop fuel (timer_frame cells.2) subnode_offset tt.
Definition pal_timer_create_info_table_dt (dt_ptr : Z) : P unit :=
  if dt_ptr =? 0 then ret tt else
  set_t_header (hdr_count 0) ;;;
  set_gt (fun b => Some (mk_gtblock (gt_type b) 0 (block_cntl_base b) (frame_num b) (GtCntBase b) (GtCntEl0Base b) (gsiv b) (virt_gsiv b) (gt_flags b))) ;;;
  set_t_header hdr_reset ;;;
  let offset := first_compatible systimer_dt_arr 0 in
  if offset <? 0 then ret tt else
  let* r :=
    (let? _ := timer_system offset in
     let offset := first_compatible memtimer_dt_arr offset in
     let? _ := guard_or_return (0 <=? offset) in
     timer_memory offset) in
  match r with
  | None => ret tt
  | Some _ => fun t => match gt_info t with [] => Undefined | g :: _ => set_t_header (hdr_count (timer_count g)) t end
  end.
End TimerDt.

(** ** What the tables hold *)

(** The cells of a property. *)
Fixpoint be_cells (p : list Z) : list Z :=
  match p with a :: b :: c :: d :: r => (((a * 256 + b) * 256 + c) * 256 + d) :: be_cells r | _ => [] end.

Lemma be_cells_at p i v : be_cells p !! i = Some v ->
  exists a b c d, p !! (4 * i)%nat = Some a /\ p !! (4 * i + 1)%nat = Some b /\ p !! (4 * i + 2)%nat = Some c /\ p !! (4 * i + 3)%nat = Some d /\
    v = ((a * 256 + b) * 256 + c) * 256 + d.
Proof.
  revert p. induction i as [|i IH]; intros p Hv.
  - destruct p as [|a [|b [|c [|d r]]]]; try done. injection Hv as <-. by exists a, b, c, d.
  - destruct p as [|a [|b [|c [|d r]]]]; try done. cbn [be_cells] in Hv. destruct (IH r Hv) as (a' & b' & c' & d' & H1 & H2 & H3 & H4 & E).
    exists a', b', c', d'. replace (4 * S i)%nat with (4 + 4 * i)%nat by lia. cbn [Nat.add lookup list_lookup] in *. done.
Qed.

Lemma fdt32_done {S} p i v (s : S) : 0 <= i -> be_cells p !! Z.to_nat i = Some v -> fdt32 p i s = Done (v, s).
Proof.
  intros Hi Hv. apply be_cells_at in Hv as (a & b & c & d & H1 & H2 & H3 & H4 & ->).
  assert (E : forall k, (k < 4)%nat -> at_index p (4 * i + Z.of_nat k) = p !! (4 * Z.to_nat i + k)%nat).
  { intros k Hk. unfold at_index. destruct (Z.leb_spec 0 (4 * i + Z.of_nat k)); [|lia]. f_equal. lia. }
  unfold fdt32, bind. replace (4 * i) with (4 * i + Z.of_nat 0) at 1 by lia.
  rewrite (E 0%nat), Nat.add_0_r, H1 by lia. cbn [deref]. unfold ret at 1.
  change (4 * i + 1) with (4 * i + Z.of_nat 1). rewrite (E 1%nat), H2 by lia. cbn [deref]. unfold ret at 1.
  change (4 * i + 2) with (4 * i + Z.of_nat 2). rewrite (E 2%nat), H3 by lia. cbn [deref]. unfold ret at 1.
  change (4 * i + 3) with (4 * i + Z.of_nat 3). rewrite (E 3%nat), H4 by lia. done.
Qed.

(** The nodes that a search finds one after the other, from [o] on. *)
Fixpoint chain (next : Z -> Z) (o : Z) (l : list Z) : Prop :=
  match l with [] => o = - FDT_ERR_NOTFOUND | n :: r => o = n /\ 0 <= n /\ chain next (next n) r end.

(** A loop over such nodes: [Inv] holds for the nodes that are done, the state and the
    locals. *)
Lemma nodes_loop_chain {S L} (Inv : nat -> S -> L -> Prop) (next : Z -> Z) (body : Z -> L -> prog S (option (Z * L))) l :
  (forall k n s x, l !! k = Some n -> Inv k s x -> exists s' x', body n x s = Done (Some (next n, x'), s') /\ Inv (k + 1)%nat s' x') ->
  forall fuel o s x, chain next o l -> (length l < fuel)%nat -> Inv 0%nat s x ->
  exists s' x', nodes_loop fuel body o x s = Done (Some x', s') /\ Inv (length l) s' x'.
Proof.
  revert Inv. induction l as [|n l IH]; intros Inv Hb [|f] o s x Hc Hf H0; try (cbn in Hf; lia); cbn [nodes_loop chain] in *.
  - subst o. by exists s, x.
  - destruct Hc as (-> & Hn & Hc). destruct (Z.eqb_spec n (- FDT_ERR_NOTFOUND)); [unfold FDT_ERR_NOTFOUND in *; lia|].
    destruct (Hb 0%nat n s x eq_refl H0) as (s1 & x1 & E1 & H1). unfold obind. rewrite (bind_done _ _ _ _ _ E1). cbn [fst snd].
    destruct (IH (fun k => Inv (k + 1)%nat)) with (fuel := f) (o := next n) (s := s1) (x := x1) as (s' & x' & E & H'); [|done|cbn in Hf; lia|done|].
    { intros k m s2 x2 Hm H2. apply (Hb (k + 1)%nat); [by rewrite Nat.add_1_r|done]. }
    exists s', x'. split; [done|]. cbn [length]. by rewrite <- Nat.add_1_r.
Qed.

Lemma need_prop_done `{Fdt} {S} n name len p (s : S) : fdt_getprop n name = (len, Some p) -> 0 <= len -> need_prop n name s = Done (Some (len, p), s).
Proof. intros E Hl. unfold need_prop. rewrite E. destruct (Z.ltb_spec len 0); [lia|done]. Qed.

Definition is_byte (x : Z) : Prop := 0 <= x < 256.
Lemma be_cells_range p i v : Forall is_byte p -> be_cells p !! i = Some v -> 0 <= v < 2 ^ 32.
Proof.
  intros Hp Hv. apply be_cells_at in Hv as (a & b & c & d & H1 & H2 & H3 & H4 & ->). unfold is_byte in Hp. rewrite Forall_lookup in Hp.
  pose proof (Hp _ _ H1). pose proof (Hp _ _ H2). pose proof (Hp _ _ H3). pose proof (Hp _ _ H4). cbn in *. lia.
Qed.

(** The address of [ac] cells at cell [i] of a property. *)
Definition address_at (p : list Z) (ac : Z) (i : nat) (v : Z) : Prop :=
  if ac =? 2 then exists h l, be_cells p !! i = Some h /\ be_cells p !! (i + 1)%nat = Some l /\ v = h * 2 ^ 32 + l else be_cells p !! i = Some v.

Lemma pair_value h l : 0 <= h < 2 ^ 32 -> 0 <= l < 2 ^ 32 -> u64 (Z.lor (Z.shiftl h 32) l) = h * 2 ^ 32 + l.
Proof. intros Hh Hl. rewrite lor_shiftl_add by lia. apply u64_small. lia. Qed.

Lemma fdt_number_done {S} p i ac v (s : S) : Forall is_byte p -> address_at p ac i v ->
  fdt_number p (Z.of_nat i) ac s = Done ((v, Z.of_nat i + (if ac =? 2 then 2 else 1)), s).
Proof.
  unfold address_at, fdt_number. intros Hp. destruct (ac =? 2).
  - intros (h & l & Hh & Hl & ->). rewrite (bind_done _ _ _ _ _ (fdt32_done p (Z.of_nat i) h s ltac:(lia) ltac:(by rewrite Nat2Z.id))).
    assert (E : fdt32 p (Z.of_nat i + 1) s = Done (l, s)) by (apply fdt32_done; [lia|]; by replace (Z.to_nat (Z.of_nat i + 1)) with (i + 1)%nat by lia).
    rewrite (bind_done _ _ _ _ _ E). unfold ret. by rewrite pair_value by (by eapply be_cells_range).
  - intros Hv. rewrite (bind_done _ _ _ _ _ (fdt32_done p (Z.of_nat i) v s ltac:(lia) ltac:(by rewrite Nat2Z.id))). done.
Qed.

Section PcieTable.
Context `{Fdt} (fuel : nat).

(** The block that a node describes. *)
Definition pcie_described (ac n : Z) (b : PCIE_INFO_BLOCK) : Prop :=
  exists len reg blen bus lo hi base, fdt_getprop n "reg" = (len, Some reg) /\ 0 <= len /\ Forall is_byte reg /\ address_at reg ac 0 base /\
    fdt_getprop n "bus-range" = (blen, Some bus) /\ 0 <= blen /\ be_cells bus !! 0%nat = Some lo /\ be_cells bus !! 1%nat = Some hi /\ b = mk_block base 0 lo hi.

Lemma set_block_done f b t : at_index (block t) (info_num_entries t) = Some b ->
  set_block f t = Done (tt, mk_info (info_num_entries t) (<[Z.to_nat (info_num_entries t) := f b]> (block t))).
Proof. intros E. unfold set_block. by rewrite E. Qed.

Lemma pcie_node_done ac c n b t k : pcie_described ac n b -> ac = 1 \/ ac = 2 -> info_num_entries t = Z.of_nat k -> (k < length (block t))%nat -> Z.of_nat (length (block t)) < 2 ^ 32 ->
  pcie_node_dt ac c n tt t = Done (Some (fdt_node_offset_by_compatible n c, tt), mk_info (Z.of_nat (k + 1)) (<[k := b]> (block t))).
Proof.
  intros (len & reg & blen & bus & lo & hi & base & Er & Hlen & Hby & Ha & Eb & Hbl & Hlo & Hhi & ->) Hac Hk Hlt Hsz.
  destruct t as [ne bl]. cbn [info_num_entries block] in *. subst ne. destruct (lookup_lt_is_Some_2 bl k Hlt) as [b0 Hb0].
  unfold pcie_node_dt, obind. rewrite (bind_done _ _ _ _ _ (need_prop_done _ _ _ _ _ Er Hlen)). cbn [fst snd].
  assert (Hset : forall f l, length l = length bl -> forall x, l !! k = Some x ->
    set_block f (mk_info (Z.of_nat k) l) = Done (tt, mk_info (Z.of_nat k) (<[k := f x]> l))).
  { intros f l Hl x Hx. rewrite (set_block_done f x) by (cbn [block info_num_entries]; by rewrite at_index_nat). cbn [info_num_entries block]. by rewrite Nat2Z.id. }
  assert (Hself : forall (x : PCIE_INFO_BLOCK) l, length l = length bl -> <[k := x]> l !! k = Some x) by (intros x l Hl; apply list_lookup_insert_eq; lia).
  set (h := if ac =? 2 then base / 2 ^ 32 else base).
  assert (Ehead : be_cells reg !! 0%nat = Some h /\ (ac = 2 -> be_cells reg !! 1%nat = Some (base mod 2 ^ 32)) /\
                  (ac = 2 -> u64 (Z.lor (Z.shiftl h 32) (base mod 2 ^ 32)) = base)).
  { unfold h, address_at in *. destruct (Z.eqb_spec ac 2) as [->|Hne]; [|by split_and!; [|lia..]].
    destruct Ha as (x & l & Hx & Hl & ->). pose proof (be_cells_range _ _ _ Hby Hx). pose proof (be_cells_range _ _ _ Hby Hl).
    rewrite Z.div_add_l, Z.div_small, Z.add_0_r, Z.add_comm, Z.mod_add, Z.mod_small by lia. split_and!; [done|done|]. intros _. rewrite pair_value by done. lia. }
  destruct Ehead as (Hh & Hl & Hpair).
  rewrite (bind_done _ _ _ _ _ (fdt32_done reg 0 h _ ltac:(lia) Hh)), (bind_done _ _ _ _ _ (Hset _ bl eq_refl b0 Hb0)).
  assert (Ew : exists b1, when (ac =? 2) (let* l := fdt32 reg 1 in set_block (fun b => mk_block (u64 (Z.lor (Z.shiftl (ecam_base b) 32) l)) (segment_num b) (start_bus_num b) (end_bus_num b)))
      (mk_info (Z.of_nat k) (<[k := mk_block h (segment_num b0) (start_bus_num b0) (end_bus_num b0)]> bl)) = Done (tt, mk_info (Z.of_nat k) (<[k := b1]> bl)) /\ ecam_base b1 = base).
  { destruct (Z.eqb_spec ac 2) as [H2|H2]; cbn [when].
    - rewrite (bind_done _ _ _ _ _ (fdt32_done reg 1 _ _ ltac:(lia) (Hl H2))), (Hset _ _ (length_insert _ _ _) _ (Hself _ bl eq_refl)), list_insert_insert_eq. eexists. split; [reflexivity|]. cbn [ecam_base]. by apply Hpair.
    - eexists. split; [reflexivity|]. cbn [ecam_base]. unfold h. by destruct (Z.eqb_spec ac 2). }
  destruct Ew as (b1 & Ew & Hb1). rewrite (bind_done _ _ _ _ _ Ew), (bind_done _ _ _ _ _ (need_prop_done _ _ _ _ _ Eb Hbl)). cbn [fst snd].
  rewrite (bind_done _ _ _ _ _ (fdt32_done bus 0 lo _ ltac:(lia) Hlo)), (bind_done _ _ _ _ _ (fdt32_done bus 1 hi _ ltac:(lia) Hhi)).
  rewrite (bind_done _ _ _ _ _ (Hset _ _ (length_insert _ _ _) _ (Hself _ bl eq_refl))), list_insert_insert_eq, Hb1.
  unfold bind, modify, ret. cbn [info_num_entries block]. rewrite u32_small by lia. do 3 f_equal. lia.
Qed.

Definition pci_ecam : string := "pci-host-ecam-generic".
Definition pcie_nodes (l : list Z) : Prop :=
  chain (fun o => fdt_node_offset_by_compatible o pci_ecam) (fdt_node_offset_by_compatible (-1) pci_ecam) l.

(** C34: The PCIe table of the device-tree port is exact. Where the search for
    "pci-host-ecam-generic" finds the nodes [l] one after the other, the bus of the first has
    a size of no negative number of cells and an address of [ac], one or two, and each node
    describes a block (its [reg] an address, its [bus-range] two cells), the function ends,
    the table has one entry per node, in the order of the tree, with that block, and the
    memory behind the entries is unchanged. *)
Theorem pcie_table_dt_exact dt_ptr ac l bs t :
  dt_ptr <> 0 -> pcie_nodes l ->
  (forall n, head l = Some n -> 0 <= fdt_size_cells (fdt_parent_offset n) /\ fdt_address_cells (fdt_parent_offset n) = ac) -> ac = 1 \/ ac = 2 ->
  Forall2 (pcie_described ac) l bs -> (length l <= length (block t))%nat -> Z.of_nat (length (block t)) < 2 ^ 32 -> (length l < fuel)%nat ->
  pal_pcie_create_info_table_dt fuel dt_ptr t = Done (tt, mk_info (Z.of_nat (length l)) (bs ++ drop (length l) (block t))).
Proof.
  intros Hp Hc Hcell Hac Hbs Hroom Hsz Hfuel. unfold pal_pcie_create_info_table_dt. destruct (Z.eqb_spec dt_ptr 0) as [|_]; [done|].
  unfold bind at 1, modify at 1. cbn [each_string pci_dt_arr]. unfold obind.
  assert (E : pcie_compatible_dt fuel pci_ecam tt (mk_info 0 (block t)) = Done (Some tt, mk_info (Z.of_nat (length l)) (bs ++ drop (length l) (block t)))).
  2: { unfold bind. unfold pci_ecam in E. by rewrite E. }
  unfold pcie_compatible_dt. unfold pcie_nodes in Hc. destruct l as [|n l'].
  { cbn [chain] in Hc. rewrite Hc. inversion Hbs. done. }
  pose proof Hc as (Hn & Hn0 & _). rewrite Hn. destruct (Z.ltb_spec n 0); [lia|]. destruct (Hcell n eq_refl) as [Hs Ha].
  unfold need_cells, obind, guard_or_return, bind, ret. destruct (Z.ltb_spec (fdt_size_cells (fdt_parent_offset n)) 0); [lia|]. cbn [negb].
  rewrite Ha. replace (negb ((ac <=? 0) || (2 <? ac))) with true by (destruct Hac as [-> | ->]; done). cbn [fst snd].
  rewrite <- Hn.
  destruct (nodes_loop_chain (fun k s (_ : unit) => s = mk_info (Z.of_nat k) (take k bs ++ drop k (block t)))
              (fun o => fdt_node_offset_by_compatible o pci_ecam) (pcie_node_dt ac pci_ecam) (n :: l')) with
    (fuel := fuel) (o := fdt_node_offset_by_compatible (-1) pci_ecam) (s := mk_info 0 (block t)) (x := tt) as (s' & [] & E & ->); [|done..|].
  - intros k m s [] Hm ->. destruct (Forall2_lookup_l _ _ _ _ _ Hbs Hm) as (b & Hb & Hd). pose proof (lookup_lt_Some _ _ _ Hm). pose proof (lookup_lt_Some _ _ _ Hb).
    eexists _, tt. split; [|reflexivity]. erewrite pcie_node_done; [|done|done|done|cbn [block]; rewrite length_app, length_take, length_drop; lia..].
    cbn [block]. do 3 f_equal. rewrite Nat.add_1_r, (take_S_r _ _ _ Hb), <- app_assoc, insert_app_r_alt by (rewrite length_take; lia).
    f_equal. rewrite length_take, Nat.min_l, Nat.sub_diag by lia. destruct (lookup_lt_is_Some_2 (block t) k ltac:(lia)) as [y Hy]. by rewrite (drop_S _ _ _ Hy).
  - rewrite E. do 2 f_equal. f_equal. rewrite take_ge; [done|]. apply Forall2_length in Hbs. lia.
Qed.
End PcieTable.

(** ** A device tree *)

Module Sample.
(** Big-endian cells. *)
Definition cells (l : list Z) : list Z := flat_map (fun v => [Z.shiftr v 24; Z.land (Z.shiftr v 16) 255; Z.land (Z.shiftr v 8) 255; Z.land v 255]) l.
(** Nodes 100 and 200 are PCIe hosts, 300 and 400 watchdogs, 500 a GICv3 with the ITS 600,
    700 the timers. *)
Definition compatible : list (Z * string) :=
  [(100, "pci-host-ecam-generic"); (200, "pci-host-ecam-generic"); (300, "arm,sbsa-gwdt"); (400, "arm,sbsa-gwdt"); (500, "arm,gic-v3");
   (600, "arm,gic-v3-its"); (700, "arm,armv8-timer")]%string.
Definition props (offset : Z) (name : string) : option (list Z) :=
  if String.eqb name "reg" then
    if offset =? 100 then Some (cells [0x40; 0x10000000; 0; 0x10000000])
    else if offset =? 200 then Some (cells [0x50; 0; 0; 0x10000000])
    else if offset =? 300 then Some (cells [0; 0x2A440000; 0; 0x1000; 0; 0x2A450000; 0; 0x1000])
    else if offset =? 400 then Some (cells [0; 0x2A460000; 0; 0x1000; 0; 0x2A470000; 0; 0x1000])
    else if offset =? 500 then Some (cells [0; 0x30000000; 0; 0x10000; 0; 0x30080000; 0; 0x400000])
    else None
  else if String.eqb name "bus-range" then
    if offset =? 100 then Some (cells [0; 0xFF]) else if offset =? 200 then Some (cells [0; 0x3F]) else None
  else if String.eqb name "interrupts" then
    if (offset =? 300) || (offset =? 400) then Some (cells [0; 110 + offset / 100; 4])
    else if offset =? 700 then Some (cells [1; 13; 8; 1; 14; 8; 1; 11; 8; 1; 10; 8]) else None
  else if String.eqb name "#interrupt-cells" then if offset =? 0 then Some (cells [3]) else None
  else None.
#[local] Instance tree : Fdt := {|
  fdt_node_offset_by_compatible o c :=
    match find_first (fun x => (o <? x.1) && String.eqb x.2 c) compatible 0 with Some (_, x) => x.1 | None => - FDT_ERR_NOTFOUND end;
  fdt_node_offset_by_prop_value _ _ _ := - FDT_ERR_NOTFOUND;
  fdt_node_offset_by_phandle _ := - FDT_ERR_NOTFOUND;
  fdt_parent_offset o := if o =? 0 then - FDT_ERR_NOTFOUND else 0;
  fdt_next_node _ := - FDT_ERR_NOTFOUND;
  fdt_subnode_offset _ _ := - FDT_ERR_NOTFOUND;
  fdt_next_subnode _ := - FDT_ERR_NOTFOUND;
  fdt_size_cells _ := 2;
  fdt_address_cells _ := 2;
  fdt_getprop o name := match props o name with Some p => (Z.of_nat (length p), Some p) | None => (- FDT_ERR_NOTFOUND, None) end |}.

Definition pcie_empty : PCIE_INFO_TABLE := mk_info 9 (repeat (mk_block 7 7 7 7) 3).
Lemma pcie_node_100 : pcie_described 2 100 (mk_block 0x4010000000 0 0 0xFF).
Proof.
  eexists _, _, _, _, _, _, _. split; [reflexivity|]. split; [done|]. split; [repeat constructor; done|]. split; [by exists 0x40, 0x10000000|].
  split; [reflexivity|]. by split.
Qed.
Lemma pcie_node_200 : pcie_described 2 200 (mk_block 0x5000000000 0 0 0x3F).
Proof.
  eexists _, _, _, _, _, _, _. split; [reflexivity|]. split; [done|]. split; [repeat constructor; done|]. split; [by exists 0x50, 0|].
  split; [reflexivity|]. by split.
Qed.
(** The two hosts. *)
Lemma pcie_table_dt_exact_witness :
  pal_pcie_create_info_table_dt 3 1 pcie_empty = Done (tt, mk_info 2 [mk_block 0x4010000000 0 0 0xFF; mk_block 0x5000000000 0 0 0x3F; mk_block 7 7 7 7]).
Proof.
  apply (pcie_table_dt_exact 3 1 2 [100; 200] [mk_block 0x4010000000 0 0 0xFF; mk_block 0x5000000000 0 0 0x3F] pcie_empty);
    [done|by vm_compute|by intros n [= <-]|by right|by repeat constructor; [apply pcie_node_100|apply pcie_node_200]|cbn; lia..].
Defined.

(** The first watchdog is the one described. The second is not: its registers are read from
    cell 2 on, where the flag of the first's interrupt was. *)
Lemma wd_second_misread :
  pal_wd_create_info_table_dt 4 1 (mk_wd_table 0 (repeat (mk_wd 0 0 0 0) 2)) =
  Done (tt, mk_wd_table 2 [mk_wd 0x2A440000 0x2A450000 145 0; mk_wd 0x1000 0x1000 146 0]).
Proof. by vm_compute. Qed.

Definition gic_entry : GIC_INFO_ENTRY := mk_gic_entry 0 0 0 0 0 0 0.
(** The distributor, the redistributors and the end; the ITS is counted and has no entry. *)
Lemma gic_v3_table :
  pal_gic_create_info_table_dt 4 2 1 (mk_gic_table (mk_gic_hdr 0 0 0 0 0 0 0 0 0) (repeat gic_entry 3)) =
  Done (tt, mk_gic_table (mk_gic_hdr 3 1 0 1 1 0 0 0 0)
    [mk_gic_entry ENTRY_TYPE_GICD 0x30000000 0 0x10000 0 0 0; mk_gic_entry ENTRY_TYPE_GICR_GICRD 0x30080000 0 0x400000 0 0 0; mk_gic_entry 0xFF 0 0 0 0 0 0]).
Proof. by vm_compute. Qed.
End Sample.
