(* ===== verification/DtDevices.v ===== *)
(** * Peripherals and I/O virtualisation of the device-tree port

    Models [platform/pal_uefi_dt/src/pal_peripherals.c]: the tables of USB, SATA and UART
    controllers read from the device tree and how they are merged with the PCIe devices, and
    [pal_iovirt_create_info_table_dt] of [src/pal_iovirt.c]. libfdt is the parameter of
    [DeviceTree.v], [AsciiStrnCmp] a parameter too; messages are left out. *)

From S2P Require Import Prelude Peripherals Bytes Iovirt DeviceTree.

(** ** Peripherals *)

Definition PLATFORM_TYPE_DT : Z := 1.
Definition USB_TYPE_OHCI : Z := 1.
Definition USB_TYPE_EHCI : Z := 2.
Definition USB_TYPE_XHCI : Z := 3.
Definition SATA_TYPE_AHCI : Z := 1.
Definition COMPATIBLE_FULL_16550 : Z := 0.
Definition ARM_PL011_UART : Z := 3.

Definition usb_dt_compatible : list string := ["generic-ohci"; "generic-ehci"; "generic-xhci"]%string.
Definition sata_dt_compatible : list string := ["generic-ahci"]%string.
Definition uart_dt_compatible : list string := ["arm,sbsa-uart"; "arm,pl011"; "ns16550"; "ns16550a"; "ns8250"]%string.

(** [fdt_getprop_namelen] of a node's [reg] and [interrupts] and the interrupt cells, in the
    order of the code. *)
Section Devices.
Context `{Fdt} (fuel : nat).
(** [pal_strncmp(status, "disabled", 9)]. *)
Context (pal_strncmp : list Z -> string -> Z).
Local Abbreviation P := (prog PERIPHERAL_INFO_TABLE).

Definition set_per (i : Z) (f : PERIPHERAL_INFO_BLOCK -> PERIPHERAL_INFO_BLOCK) : P unit := fun t =>
  match at_index (info t) i with
  | Some x => Done (tt, set_entries (<[Z.to_nat i := f x]> (info t)) t)
  | None => Undefined
  end.
Definition set_base1 v (x : PERIPHERAL_INFO_BLOCK) := mk_per (type x) (bdf x) (base0 x) v (width x) (irq x)
  (flags x) (msi x) (msix x) (max_pasids x) (baud_rate x) (interface_type x) (platform_type x).
Definition set_irq q (x : PERIPHERAL_INFO_BLOCK) := mk_per (type x) (bdf x) (base0 x) (base1 x) (width x) q
  (flags x) (msi x) (msix x) (max_pasids x) (baud_rate x) (interface_type x) (platform_type x).
(** [bdf], [flags], [platform_type] and [interface_type]. *)
Definition set_controller ift (x : PERIPHERAL_INFO_BLOCK) := mk_per (type x) 0 (base0 x) (base1 x) (width x) (irq x)
  0 (msi x) (msix x) (max_pasids x) (baud_rate x) ift PLATFORM_TYPE_DT.
(** [type], [irq], [interface_type], [bdf], [flags] and [baud_rate]. *)
Definition set_uart_dt q ift (x : PERIPHERAL_INFO_BLOCK) := mk_per PERIPHERAL_TYPE_UART 0 (base0 x) (base1 x) (width x) q
  0 (msi x) (msix x) (max_pasids x) 0 ift (platform_type x).

(** [header.num_usb] and the like; [num_all] is not counted here. *)
Definition dt_usb (n : Z) (t : PERIPHERAL_INFO_TABLE) := mk_per_table n (num_sata t) (num_uart t) (num_all t) (info t).
Definition dt_sata (n : Z) (t : PERIPHERAL_INFO_TABLE) := mk_per_table (num_usb t) n (num_uart t) (num_all t) (info t).
Definition dt_uart (n : Z) (t : PERIPHERAL_INFO_TABLE) := mk_per_table (num_usb t) (num_sata t) n (num_all t) (info t).

(** The interrupt of a controller: the number of a shared one, else 0. *)
Definition controller_irq (intr : list Z) (interrupt_cell : Z) : P Z :=
  if (interrupt_cell =? 3) || (interrupt_cell =? 4) then
    let* ty := fdt32 intr 0 in if ty =? GIC_SPI then fdt32 intr 1 else ret 0
  else fdt32 intr 0.

(** A USB ([put] is [set_base0]) or SATA ([set_base1]) controller; the locals are the
    entry. *)
Definition controller_node_dt (ty : Z) (put : Z -> PERIPHERAL_INFO_BLOCK -> PERIPHERAL_INFO_BLOCK)
    (count : PERIPHERAL_INFO_TABLE -> PERIPHERAL_INFO_TABLE) (ift addr_cell : Z) (c : string) (offset per_info : Z) : P (option (Z * Z)) :=
  set_per per_info (set_type ty) ;;;
  let? reg := need_prop offset "reg" in
  let? intr := need_prop offset "interrupts" in
  let? interrupt_cell := need_interrupt_cells fuel offset in
  let* base := fdt_number reg.2 0 addr_cell in
  set_per per_info (put base.1) ;;;
  let* q := controller_irq intr.2 interrupt_cell in
  set_per per_info (set_irq q) ;;;
  set_per per_info (set_controller ift) ;;;
  modify count ;;;
  ret (Some (fdt_node_offset_by_compatible offset c, per_info + 1)).
(** The interface type by the compatible string. *)
Definition usb_type (c : string) : Z :=
  if String.eqb c "generic-ohci" then USB_TYPE_OHCI else if String.eqb c "generic-ehci" then USB_TYPE_EHCI else USB_TYPE_XHCI.

Definition one_or_two (x : Z) : bool := negb ((x <? 1) || (2 <? x)).
(** The loop over the nodes of a compatible string. *)
Definition compatible_nodes (body : Z -> string -> Z -> Z -> P (option (Z * Z))) (c : string) (per_info : Z) : P (option Z) :=
  let offset := fdt_node_offset_by_compatible (-1) c in
  if offset <? 0 then ret (Some per_info) else
  let? cells := need_cells (fdt_parent_offset offset) not_negative one_or_two in
  nodes_loop fuel (body cells.2 c) offset per_info.

Definition pal_peripheral_usb_create_info_table_dt (dt_ptr : Z) : P unit :=
  if dt_ptr =? 0 then ret tt else
  modify (dt_usb 0) ;;;
  let* _ := each_string usb_dt_compatible (compatible_nodes (fun addr_cell c =>
    controller_node_dt PERIPHERAL_TYPE_USB set_base0 (fun t => dt_usb (u32 (num_usb t + 1)) t) (usb_type c) addr_cell c)) 0 in
  ret tt.
Definition pal_peripheral_sata_create_info_table_dt (dt_ptr : Z) : P unit :=
  if dt_ptr =? 0 then ret tt else
  let* n := gets num_usb in
  modify (dt_sata 0) ;;;
  let* _ := each_string sata_dt_compatible (compatible_nodes (fun addr_cell c =>
    controller_node_dt PERIPHERAL_TYPE_SATA set_base1 (fun t => dt_sata (u32 (num_sata t + 1)) t) SATA_TYPE_AHCI addr_cell c)) n in
  ret tt.

(** [while (range_index < prop_len / 4)]: the tuple whose child address is the node's. *)
Fixpoint ranges_search (n : nat) (ranges : list Z) (cells child_addr_cell parent_addr_cell child_size_cell range_node_addr range_index : Z) : P Z :=
  match n with
  | O => diverge
  | Datatypes.S k =>
      if range_index <? cells then
        let* child := fdt_number ranges range_index child_addr_cell in
        if child.1 =? range_node_addr then let* p := fdt_number ranges child.2 parent_addr_cell in ret p.1
        else ranges_search k ranges cells child_addr_cell parent_addr_cell child_size_cell range_node_addr (child.2 + (parent_addr_cell + child_size_cell))
      else ret 0
  end.
(** [while (range_node_left > 0)]: what is added to the address of a UART. [None] is the
    return on invalid cells. *)
Fixpoint ranges_walk (range_node_left : nat) (range_parent_offset range_node_addr : Z) : P (option Z) :=
  match range_node_left with
  | O => ret (Some 0)
  | Datatypes.S k =>
      let '(prop_len, Pranges) := fdt_getprop range_parent_offset "ranges" in
      match Pranges with
      | None => ret (Some 0)
      | Some ranges =>
          if prop_len <? 0 then ret (Some 0)
          else if prop_len =? 0 then ranges_walk k (fdt_parent_offset range_parent_offset) range_node_addr
          else
            let range_node_offset := range_parent_offset in
            let range_parent_offset := fdt_parent_offset range_node_offset in
            let child_addr_cell := fdt_address_cells range_node_offset in
            let parent_addr_cell := fdt_address_cells range_parent_offset in
            let child_size_cell := fdt_size_cells range_node_offset in
            if negb (one_or_two child_addr_cell) || negb (one_or_two parent_addr_cell) || (child_size_cell <? 0) then ret None
            else if prop_len =? 4 * (child_addr_cell + parent_addr_cell + child_size_cell) then
              let* a := fdt_number ranges child_addr_cell parent_addr_cell in
              ranges_walk k range_parent_offset a.1
            else
              let* v := ranges_search (Datatypes.S (Z.to_nat (prop_len / 4))) ranges (prop_len / 4) child_addr_cell parent_addr_cell child_size_cell range_node_addr 0 in
              ret (Some v)
      end
  end.

Definition uart_type (c : string) : Z :=
  if (String.eqb c "ns16550" || String.eqb c "ns16550a" || String.eqb c "ns8250")%bool then COMPATIBLE_FULL_16550 else ARM_PL011_UART.
(** [status] is there and says that the UART is disabled. *)
Definition uart_disabled (offset : Z) : bool :=
  let '(prop_len, Pstatus) := fdt_getprop offset "status" in
  match Pstatus with Some s => (0 <? prop_len) && (pal_strncmp s "disabled"%string =? 0) | None => false end.
Definition uart_irq (intr : list Z) (interrupt_cell : Z) : P Z :=
  if (interrupt_cell =? 3) || (interrupt_cell =? 4) then
    let* ty := fdt32 intr 0 in if ty =? GIC_SPI then let* n := fdt32 intr 1 in ret (u32 (n + SPI_OFFSET)) else ret 0
  else let* n := fdt32 intr 0 in ret (u32 (n + SPI_OFFSET)).
Definition uart_node_dt (addr_cell : Z) (c : string) (offset per_info : Z) : P (option (Z * Z)) :=
  let next := fdt_node_offset_by_compatible offset c in
  if uart_disabled offset then ret (Some (next, per_info)) else
  let? reg := need_prop offset "reg" in
  let* base := fdt_number reg.2 0 addr_cell in
  set_per per_info (set_base0 base.1) ;;;
  let? parent_offset_addr := ranges_walk 3 (fdt_parent_offset offset) base.1 in
  set_per per_info (fun x => set_base0 (u64 (base0 x + parent_offset_addr)) x) ;;;
  let? intr := need_prop offset "interrupts" in
  let? interrupt_cell := need_interrupt_cells fuel offset in
  let* q := uart_irq intr.2 interrupt_cell in
  set_per per_info (set_uart_dt q (uart_type c)) ;;;
  modify (fun t => dt_uart (u32 (num_uart t + 1)) t) ;;;
  ret (Some (next, per_info + 1)).
Definition pal_peripheral_uart_create_info_table_dt (dt_ptr : Z) : P unit :=
  if dt_ptr =? 0 then ret tt else
  let* n := gets (fun t => u32 (num_usb t + num_sata t)) in
  modify (dt_uart 0) ;;;
  let* _ := each_string uart_dt_compatible (compatible_nodes uart_node_dt) n in
  ret tt.
End Devices.

(** *** The merged table *)

Section Merge.
Context `{Fdt} (fuel : nat) (pal_strncmp : list Z -> string -> Z) (dt_ptr : Z) (handles : list pci_handle).
Local Abbreviation P := (prog fill_state).

(** A function of the tree on the table, then [per_info += n]. *)
Definition from_tree (m : prog PERIPHERAL_INFO_TABLE unit) (n : PERIPHERAL_INFO_TABLE -> Z) : P unit := fun s =>
  match m (tbl s) with
  | Done (_, t) => Done (tt, mk_fill t (cur s + n t))
  | Undefined => Undefined
  | Diverges => Diverges
  end.

(** In this port [platform_type] is not written for a PCIe device. *)
Definition set_bdf b (x : PERIPHERAL_INFO_BLOCK) := mk_per (type x) b (base0 x) (base1 x) (width x) (irq x)
  (flags x) (msi x) (msix x) (max_pasids x) (baud_rate x) (interface_type x) (platform_type x).
Definition add_controller_dt (ty : Z) (count : PERIPHERAL_INFO_TABLE -> PERIPHERAL_INFO_TABLE) (DeviceBdf : Z) : P unit :=
  update (set_type ty) ;;; fill_bars handles DeviceBdf ;;; update (set_bdf DeviceBdf) ;;; header count ;;; next_entry.
Fixpoint controllers_dt (fuel : nat) (cc ty : Z) (count : PERIPHERAL_INFO_TABLE -> PERIPHERAL_INFO_TABLE) (StartBdf : Z) : P unit :=
  match fuel with
  | O => diverge
  | Datatypes.S f =>
      let DeviceBdf := palPcieGetBdf handles cc StartBdf in
      if negb (DeviceBdf =? 0) then add_controller_dt ty count DeviceBdf ;;; controllers_dt f cc ty count (incrementBusDev DeviceBdf)
      else ret tt
  end.
(** Baud rate and interface type of the SPCR table are not read in this port. *)
Definition set_spcr_dt base w q (x : PERIPHERAL_INFO_BLOCK) := mk_per PERIPHERAL_TYPE_UART (bdf x) base (base1 x) w q
  (flags x) (msi x) (msix x) (max_pasids x) (baud_rate x) (interface_type x) (platform_type x).

Definition pal_peripheral_create_info_table_dt (spcr_ptr : option spcr) (PLATFORM_GENERIC_UART_BASE PLATFORM_GENERIC_UART_INTID : Z) : P unit :=
  header (fun t => mk_per_table 0 0 0 0 (info t)) ;;;
  update (set_base0 0) ;;;
  controllers_dt (rounds_max handles) USB_CLASSCODE PERIPHERAL_TYPE_USB count_usb 0 ;;;
  let* n := gets (fun s => num_usb (tbl s)) in
  when (n =? 0) (from_tree (pal_peripheral_usb_create_info_table_dt fuel dt_ptr) num_usb) ;;;
  controllers_dt (rounds_max handles) SATA_CLASSCODE PERIPHERAL_TYPE_SATA count_sata 0 ;;;
  let* n := gets (fun s => num_sata (tbl s)) in
  when (n =? 0) (from_tree (pal_peripheral_sata_create_info_table_dt fuel dt_ptr) num_sata) ;;;
  match spcr_ptr with
  | Some u => header count_uart ;;; update (set_spcr_dt (Address u) (2 ^ (AccessSize u + 2)) (GlobalSystemInterrupt u)) ;;; next_entry
  | None => ret tt
  end ;;;
  let* n := gets (fun s => num_uart (tbl s)) in
  when (n =? 0) (from_tree (pal_peripheral_uart_create_info_table_dt fuel pal_strncmp dt_ptr) num_uart) ;;;
  when (negb (PLATFORM_GENERIC_UART_BASE =? 0))
    (header count_uart ;;; update (set_uart_generic PLATFORM_GENERIC_UART_BASE PLATFORM_GENERIC_UART_INTID) ;;; next_entry) ;;;
  update (set_type PERIPHERAL_END).
End Merge.

(** ** I/O virtualisation *)

Section IovirtDt.
Context `{Fdt} (fuel : nat).
Local Abbreviation P := (prog bytes).

Definition smmu_dt_arr : list string := ["arm,smmu-v1"]%string.
Definition smmu3_dt_arr : list string := ["arm,smmu-v3"]%string.

(** The fields every block starts with. *)
Definition start_block (block ty : Z) : P unit :=
  st 4 (b_type block) ty ;;; st 4 (b_flags block) 0 ;;; st 4 (b_num_data_map block) 0 ;;;
  set_mem (Z.to_nat MAX_NAMED_COMP_LENGTH) (b_data block) 0.
(** An SMMU; the locals are [next_block]. *)
Definition smmu_node_dt (t ty rev addr_cell : Z) (c : string) (offset next_block : Z) : P (option (Z * Z)) :=
  let? reg := need_prop offset "reg" in
  incr (t_num_smmus t) ;;; incr (t_num_blocks t) ;;;
  start_block next_block ty ;;;
  st 4 (d_smmu_arch_major_rev next_block) rev ;;;
  let* base := fdt32 reg.2 0 in
  st 8 (d_smmu_base next_block) base ;;;
  when (negb (addr_cell =? 1)) (let* l := fdt32 reg.2 1 in let* h := ld 8 (d_smmu_base next_block) in st 8 (d_smmu_base next_block) (u64 (Z.lor (Z.shiftl h 32) l))) ;;;
  ret (Some (fdt_node_offset_by_compatible offset c, b_data_map next_block)).
(** The search for a string starts at the node where the loop before it stopped. *)
Fixpoint smmus_dt (l : list string) (t ty rev offset next_block : Z) : P (option Z) :=
  match l with
  | [] => ret (Some next_block)
  | c :: r =>
      let offset := fdt_node_offset_by_compatible offset c in
      if offset <? 0 then smmus_dt r t ty rev offset next_block else
      let at_least_one x := negb (x <? 1) in
      let? cells := need_cells (fdt_parent_offset offset) at_least_one at_least_one in
      let? next_block := nodes_loop fuel (smmu_node_dt t ty rev cells.2 c) offset next_block in
      smmus_dt r t ty rev (- FDT_ERR_NOTFOUND) next_block
  end.

(** A flag that is set when the property is missing. *)
Definition missing (offset : Z) (name : string) : Z :=
  match fdt_getprop offset name with (len, Some _) => if len <? 0 then 1 else 0 | (_, None) => 1 end.
Definition next_pci (offset : Z) : Z := fdt_node_offset_by_prop_value offset "device_type" "pci".
(** A root complex; the second cell of its [iommu-map] is used as the offset of a node. *)
Definition rc_node_dt (t offset next_block : Z) : P (option (Z * Z)) :=
  let* m := need_prop offset "iommu-map" in
  match m with
  | None => ret (Some (next_pci offset, next_block))
  | Some (_, map) =>
      incr (t_num_pci_rcs t) ;;; incr (t_num_blocks t) ;;;
      start_block next_block IOVIRT_NODE_PCI_ROOT_COMPLEX ;;;
      st 4 (d_rc_segment next_block) 0 ;;;
      let* iommu_node := fdt32 map 1 in
      let* reg := deref (fdt_getprop (i32 iommu_node) "reg").2 in
      let* h := fdt32 reg 0 in
      let* l := fdt32 reg 1 in
      st 8 (d_rc_smmu_base next_block) (u64 (Z.lor (Z.shiftl h 32) l)) ;;;
      st 4 (d_rc_cca next_block) (missing offset "dma-coherent") ;;;
      st 4 (d_rc_ats_attr next_block) (missing offset "ats-supported") ;;;
      ret (Some (next_pci offset, b_data_map next_block))
  end.
Definition pal_iovirt_create_info_table_dt (dt_ptr t : Z) : P unit :=
  if t =? 0 then ret tt else if dt_ptr =? 0 then ret tt else
  (st 4 (t_num_blocks t) 0 ;;; st 4 (t_num_smmus t) 0 ;;; st 4 (t_num_pci_rcs t) 0 ;;;
   st 4 (t_num_named_components t) 0 ;;; st 4 (t_num_its_groups t) 0 ;;; st 4 (t_num_pmcgs t) 0) ;;;
  let* r :=
    (let? b := smmus_dt smmu3_dt_arr t IOVIRT_NODE_SMMU_V3 3 (-1) (t_blocks t) in
     let? b := smmus_dt smmu_dt_arr t IOVIRT_NODE_SMMU 2 (-1) b in
     let offset := next_pci (-1) in
     let? _ := guard_or_return (0 <=? offset) in
     let? _ := need_cells (fdt_parent_offset offset) not_negative one_or_two in
     nodes_loop fuel (rc_node_dt t) offset b) in
  match r with None => ret tt | Some _ => check_mapping_overlap t end.
End IovirtDt.

(** ** What the device tree gives *)

(** The nodes of a list of strings, string after string. *)
Definition nodes_of (nodes : string -> list Z) (l : list string) : list (string * Z) := flat_map (fun c => pair c <$> nodes c) l.

Section Strings.
Context `{Fdt} (fuel : nat) (ac : Z) (nodes : string -> list Z) (body : Z -> string -> Z -> Z -> prog PERIPHERAL_INFO_TABLE (option (Z * Z))).
(** The search for [c] finds [nodes c] one after the other; the bus of the first has
    addresses of [ac] cells. *)
Definition string_nodes (c : string) : Prop :=
  chain (fun o => fdt_node_offset_by_compatible o c) (fdt_node_offset_by_compatible (-1) c) (nodes c) /\ (length (nodes c) < fuel)%nat /\
  forall n, head (nodes c) = Some n -> 0 <= fdt_size_cells (fdt_parent_offset n) /\ fdt_address_cells (fdt_parent_offset n) = ac.

Lemma compatible_nodes_done (Inv : nat -> PERIPHERAL_INFO_TABLE -> Z -> Prop) c s x :
  string_nodes c -> ac = 1 \/ ac = 2 -> Inv 0%nat s x ->
  (forall k n s x, nodes c !! k = Some n -> Inv k s x -> exists s' x', body ac c n x s = Done (Some (fdt_node_offset_by_compatible n c, x'), s') /\ Inv (k + 1)%nat s' x') ->
  exists s' x', compatible_nodes fuel body c x s = Done (Some x', s') /\ Inv (length (nodes c)) s' x'.
Proof.
  intros (Hc & Hf & Hcell) Hac H0 Hb. unfold compatible_nodes. destruct (nodes c) as [|n l] eqn:En.
  { cbn [chain] in Hc. rewrite Hc. by exists s, x. }
  pose proof Hc as (Hn & Hn0 & _). destruct (Hcell n eq_refl) as [Hs Ha].
  rewrite Hn. destruct (Z.ltb_spec n 0); [lia|]. unfold need_cells, obind, guard_or_return, bind, ret, not_negative.
  destruct (Z.ltb_spec (fdt_size_cells (fdt_parent_offset n)) 0); [lia|]. cbn [negb]. rewrite Ha.
  replace (one_or_two ac) with true by (by destruct Hac as [-> | ->]). cbn [fst snd].
  rewrite Hn in Hc. exact (nodes_loop_chain Inv _ (body ac c) (n :: l) Hb fuel n s x Hc Hf H0).
Qed.

Lemma each_string_done l (Inv : nat -> PERIPHERAL_INFO_TABLE -> Z -> Prop) s x :
  Forall string_nodes l -> ac = 1 \/ ac = 2 -> Inv 0%nat s x ->
  (forall k c n s x, nodes_of nodes l !! k = Some (c, n) -> Inv k s x ->
     exists s' x', body ac c n x s = Done (Some (fdt_node_offset_by_compatible n c, x'), s') /\ Inv (k + 1)%nat s' x') ->
  exists s' x', each_string l (compatible_nodes fuel body) x s = Done (Some x', s') /\ Inv (length (nodes_of nodes l)) s' x'.
Proof.
  intros Hl Hac. revert Inv s x. induction Hl as [|c l Hc Hl IH]; intros Inv s x H0 Hb; cbn [each_string].
  { by exists s, x. }
  destruct (compatible_nodes_done Inv c s x Hc Hac H0) as (s1 & x1 & E & H1).
  { intros k n s1 x1 Hk. apply Hb. cbn [nodes_of flat_map]. rewrite lookup_app_l by (rewrite length_fmap; by eapply lookup_lt_Some). by rewrite list_lookup_fmap, Hk. }
  unfold obind. rewrite (bind_done _ _ _ _ _ E).
  destruct (IH (fun k => Inv (length (nodes c) + k)%nat) s1 x1) as (s2 & x2 & E2 & H2); [by rewrite Nat.add_0_r| |].
  - intros k d n s2 x2 Hk H2. destruct (Hb (length (nodes c) + k)%nat d n s2 x2) as (s3 & x3 & E3 & H3); [|done|].
    + cbn [nodes_of flat_map]. rewrite lookup_app_r by (rewrite length_fmap; lia). rewrite length_fmap. by replace (length (nodes c) + k - length (nodes c))%nat with k by lia.
    + exists s3, x3. by rewrite Nat.add_assoc.
  - exists s2, x2. split; [done|]. cbn [nodes_of flat_map]. by rewrite length_app, length_fmap.
Qed.
End Strings.

Section UsbTable.
Context `{Fdt} (fuel : nat) (ac : Z).

(** The interrupt number of a property: of a shared interrupt, 0 for one of a hart. *)
Definition irq_described (intr : list Z) (interrupt_cell q : Z) : Prop :=
  if (interrupt_cell =? 3) || (interrupt_cell =? 4) then
    exists ty, be_cells intr !! 0%nat = Some ty /\ (if ty =? GIC_SPI then be_cells intr !! 1%nat = Some q else q = 0)
  else be_cells intr !! 0%nat = Some q.
(** A node with a base and an interrupt. *)
Definition controller_described (n : Z) (d : Z * Z) : Prop :=
  exists len reg ilen intr ic, fdt_getprop n "reg" = (len, Some reg) /\ 0 <= len /\ Forall is_byte reg /\ address_at reg ac 0 d.1 /\
    fdt_getprop n "interrupts" = (ilen, Some intr) /\ 0 <= ilen /\ irq_described intr ic d.2 /\
    (forall t : PERIPHERAL_INFO_TABLE, need_interrupt_cells fuel n t = Done (Some ic, t)).

Lemma controller_irq_done intr ic q t : irq_described intr ic q -> controller_irq intr ic t = Done (q, t).
Proof.
  unfold irq_described, controller_irq. destruct (_ || _)%bool.
  - intros (ty & H0 & Hq). rewrite (bind_done _ _ _ _ _ (fdt32_done intr 0 ty t ltac:(lia) H0)). destruct (ty =? GIC_SPI); [by apply fdt32_done|by subst q].
  - intros Hq. by apply fdt32_done.
Qed.

(** The entry of a controller, from what was there. *)
Definition controller_entry ty (put : Z -> PERIPHERAL_INFO_BLOCK -> PERIPHERAL_INFO_BLOCK) ift (d : Z * Z) x := set_controller ift (set_irq d.2 (put d.1 (set_type ty x))).

Lemma set_per_done k f x t : info t !! k = Some x -> set_per (Z.of_nat k) f t = Done (tt, set_entries (<[k := f x]> (info t)) t).
Proof. intros Hx. unfold set_per. by rewrite at_index_nat, Hx, Nat2Z.id. Qed.
Lemma set_per_again k f x l t : (k < length l)%nat ->
  set_per (Z.of_nat k) f (set_entries (<[k := x]> l) t) = Done (tt, set_entries (<[k := f x]> l) t).
Proof. intros Hk. rewrite (set_per_done k f x) by (by apply list_lookup_insert_eq). cbn [set_entries info]. by rewrite list_insert_insert_eq. Qed.

Lemma controller_node_done ty put count ift c n d t k x : controller_described n d -> info t !! k = Some x ->
  controller_node_dt fuel ty put count ift ac c n (Z.of_nat k) t =
  Done (Some (fdt_node_offset_by_compatible n c, Z.of_nat (k + 1)), count (set_entries (<[k := controller_entry ty put ift d x]> (info t)) t)).
Proof.
  intros (len & reg & ilen & intr & ic & Er & Hlen & Hby & Ha & Ei & Hil & Hq & Hic) Hx. pose proof (lookup_lt_Some _ _ _ Hx) as Hk.
  unfold controller_node_dt, obind. rewrite (bind_done _ _ _ _ _ (set_per_done k _ x t Hx)).
  rewrite (bind_done _ _ _ _ _ (need_prop_done _ _ _ _ _ Er Hlen)), (bind_done _ _ _ _ _ (need_prop_done _ _ _ _ _ Ei Hil)). cbn [fst snd].
  rewrite (bind_done _ _ _ _ _ (Hic _)), (bind_done _ _ _ _ _ (fdt_number_done reg 0 ac d.1 _ Hby Ha)). cbn [fst snd].
  rewrite (bind_done _ _ _ _ _ (set_per_again k _ _ (info t) t Hk)), (bind_done _ _ _ _ _ (controller_irq_done _ _ _ _ Hq)).
  rewrite (bind_done _ _ _ _ _ (set_per_again k _ _ (info t) t Hk)), (bind_done _ _ _ _ _ (set_per_again k _ _ (info t) t Hk)).
  unfold bind, modify, ret. do 4 f_equal. lia.
Qed.

(** The entries of the USB controllers of the tree. *)
Definition usb_entry (all : list (string * Z)) (D : list (Z * Z)) (t : PERIPHERAL_INFO_TABLE) (i : nat) : option PERIPHERAL_INFO_BLOCK :=
  match all !! i, D !! i, info t !! i with
  | Some (c, _), Some d, Some x => Some (controller_entry PERIPHERAL_TYPE_USB set_base0 (usb_type c) d x)
  | _, _, o => o
  end.

(** C35: The USB table of the device-tree port. The nodes that are compatible with
    "generic-ohci", "generic-ehci" and "generic-xhci" get the first entries, in that order and
    each string in the order of the tree: type, base (of one or two cells), interrupt number,
    interface by the string, no bus number, no flags, platform type DT. They are counted, and
    nothing else in the table changes, [num_all] included. *)
Theorem usb_table_dt_exact (nodes : string -> list Z) D dt_ptr t :
  let all := nodes_of nodes usb_dt_compatible in
  dt_ptr <> 0 -> ac = 1 \/ ac = 2 -> Forall (string_nodes fuel ac nodes) usb_dt_compatible -> Forall2 (fun cn => controller_described cn.2) all D ->
  (length all <= length (info t))%nat -> Z.of_nat (length (info t)) < 2 ^ 32 ->
  exists t', pal_peripheral_usb_create_info_table_dt fuel dt_ptr t = Done (tt, t') /\ num_usb t' = Z.of_nat (length all) /\
    num_sata t' = num_sata t /\ num_uart t' = num_uart t /\ num_all t' = num_all t /\ forall i, info t' !! i = usb_entry all D t i.
Proof.
  intros all Hp Hac Hn HD Hroom Hsz. unfold pal_peripheral_usb_create_info_table_dt. destruct (Z.eqb_spec dt_ptr 0) as [|_]; [done|].
  unfold bind at 1, modify at 1.
  destruct (each_string_done fuel ac nodes (fun addr_cell c => controller_node_dt fuel PERIPHERAL_TYPE_USB set_base0 (fun t => dt_usb (u32 (num_usb t + 1)) t) (usb_type c) addr_cell c)
    usb_dt_compatible (fun k s x => x = Z.of_nat k /\ num_usb s = Z.of_nat k /\ num_sata s = num_sata t /\ num_uart s = num_uart t /\ num_all s = num_all t /\
       forall i, info s !! i = if (i <? k)%nat then usb_entry all D t i else info t !! i) (dt_usb 0 t) 0 Hn Hac) as (s' & x' & E & -> & Hu & Hs & Hr & Ha & Hi).
  - by split_and!.
  - intros k c n s x Hk (-> & Hu & Hs & Hr & Ha & Hi). fold all in Hk. destruct (Forall2_lookup_l _ _ _ _ _ HD Hk) as (d & Hd & Hdesc).
    pose proof (lookup_lt_Some _ _ _ Hk). destruct (lookup_lt_is_Some_2 (info t) k ltac:(lia)) as [y Hy].
    assert (Hy' : info s !! k = Some y) by (rewrite Hi; by destruct (Nat.ltb_spec k k); [lia|]).
    eexists _, _. split; [by apply controller_node_done|]. cbn [dt_usb set_entries num_usb num_sata num_uart num_all info].
    split_and!; [done|rewrite Hu, u32_small by lia; lia|done..|]. intros i. destruct (decide (i = k)) as [->|Hne].
    + rewrite list_lookup_insert_eq by (by eapply lookup_lt_Some). destruct (Nat.ltb_spec k (k + 1)); [|lia]. unfold usb_entry. by rewrite Hk, Hd, Hy.
    + rewrite list_lookup_insert_ne by done. rewrite Hi. destruct (Nat.ltb_spec i k), (Nat.ltb_spec i (k + 1)); try done; lia.
  - exists s'. fold all in Hu, Hi. split_and!; [|done..|].
    + unfold bind. by rewrite E.
    + intros i. rewrite Hi. destruct (Nat.ltb_spec i (length all)); [done|]. unfold usb_entry. by rewrite (lookup_ge_None_2 all i).
Qed.
End UsbTable.

(** ** The counters of the I/O virtualisation table *)

Section IovirtCounters.
Context `{Fdt} (fuel : nat) (t : Z).
Local Abbreviation keep m := (triple (table_inv t) m (fun _ => True)).

Lemma keep_bind {A B} (p : prog bytes A) (k : A -> prog bytes B) Q : triple (table_inv t) p (fun _ => True) -> (forall a, triple (table_inv t) (k a) Q) ->
  triple (table_inv t) (bind p k) Q.
Proof. intros Hp Hk. eapply triple_bind; [exact Hp|]. intros a _. apply Hk. Qed.
Lemma keep_ld n a : keep (ld n a).
Proof. eapply triple_weaken; [apply inv_ld|done]. Qed.
Lemma keep_deref {A} (o : option A) : keep (deref o).
Proof. eapply triple_weaken; [apply triple_deref|done]. Qed.
Lemma keep_ret {A} (a : A) : keep (ret a).
Proof. by apply triple_ret. Qed.
Lemma keep_obind {A B} (p : prog bytes (option A)) (k : A -> prog bytes (option B)) : keep p -> (forall a, keep (k a)) -> keep (obind p k).
Proof. intros Hp Hk. unfold obind. apply keep_bind; [done|]. intros [a|]; [apply Hk|apply keep_ret]. Qed.
Lemma keep_fdt32 p i : keep (fdt32 p i).
Proof. unfold fdt32. repeat (apply keep_bind; [apply keep_deref|intros ?]). apply keep_ret. Qed.
Lemma keep_need_prop offset name : keep (need_prop offset name).
Proof. unfold need_prop. destruct (fdt_getprop offset name) as [l p]. apply keep_ret. Qed.
Lemma keep_need_cells parent f g : keep (need_cells parent f g).
Proof. unfold need_cells. do 2 (apply keep_obind; [apply keep_ret|intros _]). apply keep_ret. Qed.
(** A block is counted before it is filled in. *)
Lemma keep_incr_both a : counter t a -> keep (incr a ;;; incr (t_num_blocks t)).
Proof.
  intros (k & Hk & ->) m [] m' [Hb (f & Hf & Hs)] E. apply bind_inv in E as ([] & m1 & E1 & E2).
  unfold t_num_blocks in E2. replace t with (t + 4 * 0) in E2 by lia.
  destruct (incr_header t k _ _ _ ltac:(lia) Hb Hf E1) as [Hb1 Hf1]. destruct (incr_header t 0 _ _ _ ltac:(lia) Hb1 Hf1 E2) as [Hb2 Hf2].
  split; [|done]. split; [done|]. eexists. split; [exact Hf2|]. cbn beta.
  assert (k = 1 \/ k = 2 \/ k = 3 \/ k = 4 \/ k = 5) as [-> | [-> | [-> | [-> | ->]]]] by lia; cbn [Z.eqb Pos.eqb]; rewrite Hs; unfold u32; lia.
Qed.
Lemma keep_after_counters {A} a (k : prog bytes A) Q : counter t a -> triple (table_inv t) k Q -> triple (table_inv t) (incr a ;;; (incr (t_num_blocks t) ;;; k)) Q.
Proof.
  intros Ha Hk m r m' Hi E. apply bind_inv in E as ([] & m1 & E1 & E). apply bind_inv in E as ([] & m2 & E2 & E).
  assert (E12 : (incr a ;;; incr (t_num_blocks t)) m = Done (tt, m2)) by (by rewrite (bind_done _ _ _ _ _ E1)).
  destruct (keep_incr_both a Ha _ _ _ Hi E12) as [Hi2 _]. exact (Hk _ _ _ Hi2 E).
Qed.

(** One step of a run at a block behind the header. *)
Ltac keep_step :=
  first
    [ apply keep_ret | apply keep_ld | apply keep_deref | apply keep_fdt32 | apply keep_need_prop | apply keep_need_cells
    | apply inv_set_mem; unfold b_data; lia
    | apply inv_st; unfold b_type, b_flags, b_num_data_map, d_smmu_arch_major_rev, d_smmu_base, d_rc_segment, d_rc_smmu_base, d_rc_cca, d_rc_ats_attr, b_data; lia
    | apply keep_bind; [keep_step|intros ?] ].

Lemma keep_start_block b ty : t + 24 <= b -> keep (start_block b ty).
Proof. intros Hb. unfold start_block. repeat keep_step. Qed.

(** The locals of a loop over nodes stay behind the header. *)
Definition behind (r : option (Z * Z)) : Prop := match r with Some (_, b) => t + 24 <= b | None => True end.

Lemma smmu_node_keeps ty rev ac c offset b : t + 24 <= b -> triple (table_inv t) (smmu_node_dt t ty rev ac c offset b) behind.
Proof.
  intros Hb. unfold smmu_node_dt, obind. apply keep_bind; [keep_step|]. intros [[len reg]|]; [|by apply triple_ret].
  apply keep_after_counters; [exists 1; unfold t_num_smmus; lia|]. apply keep_bind; [by apply keep_start_block|intros _].
  repeat keep_step. apply keep_bind; [|intros _; apply triple_ret; cbn; unfold b_data_map; lia].
  destruct (negb _); cbn [when]; repeat keep_step.
Qed.
Lemma rc_node_keeps offset b : t + 24 <= b -> triple (table_inv t) (rc_node_dt t offset b) behind.
Proof.
  intros Hb. unfold rc_node_dt. apply keep_bind; [keep_step|]. intros [[len map]|]; [|by apply triple_ret].
  apply keep_after_counters; [exists 2; unfold t_num_pci_rcs; lia|]. apply keep_bind; [by apply keep_start_block|intros _].
  repeat keep_step. apply triple_ret. cbn. unfold b_data_map. lia.
Qed.

Definition behind1 (r : option Z) : Prop := match r with Some b => t + 24 <= b | None => True end.
Lemma behind_obind {B} p (k : Z -> prog bytes (option B)) : triple (table_inv t) p behind1 -> (forall b, t + 24 <= b -> keep (k b)) -> keep (obind p k).
Proof. intros Hp Hk. unfold obind. eapply triple_bind; [exact Hp|]. intros [b|] Hb; [by apply Hk|apply keep_ret]. Qed.
Lemma nodes_loop_keeps body : (forall o b, t + 24 <= b -> triple (table_inv t) (body o b) behind) ->
  forall n o b, t + 24 <= b -> triple (table_inv t) (nodes_loop n body o b) behind1.
Proof.
  intros Hbody. induction n as [|n IH]; intros o b Hb; cbn [nodes_loop]; [apply triple_diverge|]. destruct (o =? _); [by apply triple_ret|].
  unfold obind. eapply triple_bind; [by apply Hbody|]. intros [[o' b']|] Hr; [by apply IH|by apply triple_ret].
Qed.
Lemma smmus_keeps l ty rev o b : t + 24 <= b -> triple (table_inv t) (smmus_dt fuel l t ty rev o b) behind1.
Proof.
  revert o b. induction l as [|c l IH]; intros o b Hb; cbn [smmus_dt]; [by apply triple_ret|]. destruct (_ <? 0); [by apply IH|].
  unfold obind. apply keep_bind; [keep_step|]. intros [cells|]; [|by apply triple_ret].
  eapply triple_bind; [apply nodes_loop_keeps; [intros; by apply smmu_node_keeps|done]|]. intros [b'|] Hr; [by apply IH|by apply triple_ret].
Qed.

(** For every device tree, a run of [pal_iovirt_create_info_table_dt] that returns, also
    one that gives up in the middle, leaves a header whose number of blocks is the sum of its
    five counters. *)
Theorem iovirt_dt_counters dt_ptr m m' :
  t <> 0 -> dt_ptr <> 0 -> bytes_ok m -> pal_iovirt_create_info_table_dt fuel dt_ptr t m = Done (tt, m') -> counters_ok t m'.
Proof.
  intros Ht Hp Hb E. unfold pal_iovirt_create_info_table_dt in E. destruct (Z.eqb_spec t 0); [done|]. destruct (Z.eqb_spec dt_ptr 0); [done|].
  apply bind_inv in E as ([] & m1 & E1 & E). destruct (zero_header t m m1 Hb E1) as [Hb1 Hh].
  assert (Hi : table_inv t m1) by (split; [done|]; by exists (fun _ => 0)).
  match type of E with ?run m1 = _ => assert (K : keep run) end; [|by destruct (K _ _ _ Hi E) as [[_ ?] _]].
  apply keep_bind; [|intros [|]; [|apply keep_ret]].
  - apply behind_obind; [apply smmus_keeps; unfold t_blocks; lia|intros b Hr]. apply behind_obind; [by apply smmus_keeps|intros b' Hr'].
    apply keep_obind; [apply keep_ret|intros _]. apply keep_obind; [keep_step|intros _].
    eapply triple_weaken; [apply nodes_loop_keeps; [apply rc_node_keeps|done]|done].
  - unfold check_mapping_overlap. apply keep_bind; [keep_step|]. intros k. eapply triple_weaken; [apply inv_overlap_key_blocks; unfold t_blocks; lia|done].
Qed.
End IovirtCounters.

(** ** A device tree *)

Module Sample.
Import DeviceTree.Sample.
(** Nodes 100 and 120 are USB controllers and 200 a SATA one. The UART 300 is on the bus 290,
    which is mapped as a whole at 0x1C000000, the UART 340 on the bus 330, which has two
    windows. 400 is an SMMU and 500 a PCIe host behind it, coherent and without ATS. *)
Definition compatible : list (Z * string) :=
  [(100, "generic-ehci"); (120, "generic-xhci"); (200, "generic-ahci"); (300, "arm,pl011"); (340, "ns16550"); (400, "arm,smmu-v3")]%string.
Definition props (offset : Z) (name : string) : option (list Z) :=
  if String.eqb name "reg" then
    if offset =? 300 then Some (DeviceTree.Sample.cells [0x100; 0x1000]) else if offset =? 340 then Some (DeviceTree.Sample.cells [0x2000; 0x1000])
    else if offset <? 500 then Some (DeviceTree.Sample.cells [0x40000000 + offset * 0x10000; 0x10000]) else None
  else if String.eqb name "interrupts" then Some (DeviceTree.Sample.cells [0; offset / 10; 4])
  else if String.eqb name "#interrupt-cells" then if offset =? 0 then Some (DeviceTree.Sample.cells [3]) else None
  else if String.eqb name "ranges" then
    if offset =? 290 then Some (DeviceTree.Sample.cells [0; 0x1C000000; 0x1000000])
    else if offset =? 330 then Some (DeviceTree.Sample.cells [0x1000; 0x20000000; 0x1000; 0x2000; 0x30000000; 0x1000]) else None
  else if String.eqb name "iommu-map" then if offset =? 500 then Some (DeviceTree.Sample.cells [0; 400; 0; 0x10000]) else None
  else if String.eqb name "dma-coherent" then if offset =? 500 then Some [] else None
  else None.
#[local] Instance tree : Fdt := {|
  fdt_node_offset_by_compatible o c :=
    match find_first (fun x => (o <? x.1) && String.eqb x.2 c) compatible 0 with Some (_, x) => x.1 | None => - FDT_ERR_NOTFOUND end;
  fdt_node_offset_by_prop_value o _ _ := if o <? 500 then 500 else - FDT_ERR_NOTFOUND;
  fdt_node_offset_by_phandle _ := - FDT_ERR_NOTFOUND;
  fdt_parent_offset o := if o =? 300 then 290 else if o =? 340 then 330 else if o =? 0 then - FDT_ERR_NOTFOUND else 0;
  fdt_next_node _ := - FDT_ERR_NOTFOUND;
  fdt_subnode_offset _ _ := - FDT_ERR_NOTFOUND;
  fdt_next_subnode _ := - FDT_ERR_NOTFOUND;
  fdt_size_cells _ := 1;
  fdt_address_cells _ := 1;
  fdt_getprop o name := match props o name with Some p => (Z.of_nat (length p), Some p) | None => (- FDT_ERR_NOTFOUND, None) end |}.

Definition entry0 : PERIPHERAL_INFO_BLOCK := mk_per 0 5 5 5 5 5 5 5 5 5 5 5 5.
Definition table : PERIPHERAL_INFO_TABLE := mk_per_table 9 9 9 9 (repeat entry0 6).
Definition usb_nodes (c : string) : list Z := if String.eqb c "generic-ehci" then [100] else if String.eqb c "generic-xhci" then [120] else [].
Definition usb_data : list (Z * Z) := [(0x40640000, 10); (0x40780000, 12)].

Lemma usb_described n d : (n, d) = (100, (0x40640000, 10)) \/ (n, d) = (120, (0x40780000, 12)) -> controller_described 4 1 n d.
Proof.
  intros [[= -> ->] | [= -> ->]]; eexists _, _, _, _, 3; (split; [reflexivity|]); (split; [done|]); (split; [repeat constructor; done|]);
    (split; [reflexivity|]); (split; [reflexivity|]); (split; [done|]); (split; [by exists 0|done]).
Qed.
Lemma usb_string c : c ∈ usb_dt_compatible -> string_nodes 4 1 usb_nodes c.
Proof. intros Hc. repeat (apply elem_of_cons in Hc as [-> | Hc]; [split_and!; [by vm_compute|cbn; lia|done]|]). by apply elem_of_nil in Hc. Qed.

Lemma usb_table_dt_exact_witness :
  exists t', pal_peripheral_usb_create_info_table_dt 4 1 table = Done (tt, t') /\ num_usb t' = 2 /\
    num_sata t' = 9 /\ num_uart t' = 9 /\ num_all t' = 9 /\
    forall i, info t' !! i = usb_entry [("generic-ehci", 100); ("generic-xhci", 120)]%string usb_data table i.
Proof.
  apply (usb_table_dt_exact 4 1 usb_nodes usb_data 1 table); [done|by left| | |cbn; lia..].
  - apply Forall_forall. exact usb_string.
  - apply Forall2_cons. split; [apply usb_described; by left|]. apply Forall2_cons. split; [apply usb_described; by right|]. by apply Forall2_nil.
Defined.

(** The merged table when there are no PCIe devices and no SPCR table: the counter of all
    devices is 0; the number of a shared interrupt is offset by 32 for a UART only. The UART
    300 is at 0x1C000100 and the UART 340 at 0x30000000: the table has 0x100, because the
    window of its bus is not applied, and 0x30002000, because the address on the bus is
    added to that of the window. *)
Lemma merged_table :
  pal_peripheral_create_info_table_dt 4 (fun _ _ => 1) 1 [] None 0 0 (mk_fill table 0) =
  Done (tt, mk_fill (mk_per_table 2 1 2 0
    [mk_per PERIPHERAL_TYPE_USB 0 0x40640000 5 5 10 0 5 5 5 5 USB_TYPE_EHCI PLATFORM_TYPE_DT;
     mk_per PERIPHERAL_TYPE_USB 0 0x40780000 5 5 12 0 5 5 5 5 USB_TYPE_XHCI PLATFORM_TYPE_DT;
     mk_per PERIPHERAL_TYPE_SATA 0 5 0x40C80000 5 20 0 5 5 5 5 SATA_TYPE_AHCI PLATFORM_TYPE_DT;
     mk_per PERIPHERAL_TYPE_UART 0 0x100 5 5 62 0 5 5 5 0 ARM_PL011_UART 5;
     mk_per PERIPHERAL_TYPE_UART 0 0x30002000 5 5 66 0 5 5 5 0 COMPATIBLE_FULL_16550 5;
     mk_per PERIPHERAL_END 5 5 5 5 5 5 5 5 5 5 5 5]) 5).
Proof. vm_compute. reflexivity. Qed.

(** The I/O virtualisation table at 0x1000. *)
Definition built_dt : option bytes := match pal_iovirt_create_info_table_dt 4 1 0x1000 (zero_bytes 1200 0x1000) with Done (_, m) => Some m | _ => None end.
(** The SMMU and the host; the host is coherent and has the attribute 0, it has no ATS and
    has the attribute 1. *)
Lemma iovirt_dt_attributes :
  (m ← built_dt; load_le 8 (d_smmu_base 0x1018) m) = Some 0x41900000 /\ (m ← built_dt; load_le 4 (t_num_blocks 0x1000) m) = Some 2 /\
  (m ← built_dt; load_le 4 (d_rc_cca (0x1018 + 268)) m) = Some 0 /\ (m ← built_dt; load_le 4 (d_rc_ats_attr (0x1018 + 268)) m) = Some 1.
Proof. split_and!; vm_compute; reflexivity. Qed.

Lemma iovirt_dt_counters_witness :
  exists m, pal_iovirt_create_info_table_dt 4 1 0x1000 (zero_bytes 1200 0x1000) = Done (tt, m) /\ counters_ok 0x1000 m.
Proof.
  assert (Hd : is_done (pal_iovirt_create_info_table_dt 4 1 0x1000 (zero_bytes 1200 0x1000)) = true) by (vm_compute; reflexivity).
  destruct (is_done_inv _ Hd) as [m E]. exists m. split; [exact E|].
  exact (iovirt_dt_counters 4 0x1000 1 (zero_bytes 1200 0x1000) m ltac:(discriminate) ltac:(discriminate) (zero_bytes_ok _ _) E).
Defined.
End Sample.
