(* ===== verification/BmTables.v ===== *)
(** * Tables of the bare-metal port

    Models how the bare-metal port fills the tables of the interrupt controller, of
    memory and of DMA controllers from the configuration of the platform
    ([platform/pal_baremetal/common/src/pal_gic.c], [pal_peripherals.c], [pal_dma.c]), and
    the memory that [baremetal_app/BsaAcsMain.c] gives them.  The configuration is a
    parameter; that of RDN2 is in [Rdn2.v]. *)

From S2P Require Import Prelude Memory Gic Exerciser.

(** ** Interrupt controller *)

Definition PLATFORM_OVERRIDE_GICC_TYPE : Z := 0x1000.
Definition PLATFORM_OVERRIDE_GICD_TYPE : Z := 0x1001.
Definition PLATFORM_OVERRIDE_GICC_GICRD_TYPE : Z := 0x1002.
Definition PLATFORM_OVERRIDE_GICR_GICRD_TYPE : Z := 0x1003.
Definition PLATFORM_OVERRIDE_GICITS_TYPE : Z := 0x1004.
Definition PLATFORM_OVERRIDE_GICMSIFRAME_TYPE : Z := 0x1005.
Definition PLATFORM_OVERRIDE_GICH_TYPE : Z := 0x1006.

(** [c_] is the prefix of the fields; the arrays have the length of the platform. *)
Record PLATFORM_OVERRIDE_GIC_INFO_TABLE := mk_gic_cfg {
  c_gic_version : Z; c_num_gicc : Z; c_num_gicd : Z; c_num_gicc_rd : Z; c_num_gicr_rd : Z; c_num_gicits : Z;
  c_num_gich : Z; c_num_msiframes : Z; c_gicc_rd_length : Z; c_gicr_rd_length : Z;
  gicc_base : list Z; gicd_base : list Z; gicc_rd_base : list Z; gicr_rd_base : list Z; gicits_base : list Z;
  gicits_id : list Z; gich_base : list Z; gicmsiframe_base : list Z; gicmsiframe_id : list Z;
  gicmsiframe_flags : list Z; gicmsiframe_spi_count : list Z; gicmsiframe_spi_base : list Z }.

(** What a round of a loop writes to the entry. *)
Definition put_base (ty base : Z) (e : GIC_INFO_ENTRY) : GIC_INFO_ENTRY :=
  mk_gic_entry ty base (e_entry_id e) (e_length e) (e_flags e) (e_spi_count e) (e_spi_base e).
Definition put_length (len : Z) (e : GIC_INFO_ENTRY) : GIC_INFO_ENTRY :=
  mk_gic_entry (e_type e) (e_base e) (e_entry_id e) len (e_flags e) (e_spi_count e) (e_spi_base e).
Definition put_id (id : Z) (e : GIC_INFO_ENTRY) : GIC_INFO_ENTRY :=
  mk_gic_entry (e_type e) (e_base e) (u32 id) (e_length e) (e_flags e) (e_spi_count e) (e_spi_base e).
Definition put_frame (flags spi_count spi_base : Z) (e : GIC_INFO_ENTRY) : GIC_INFO_ENTRY :=
  mk_gic_entry (e_type e) (e_base e) (e_entry_id e) (e_length e) flags spi_count spi_base.
Definition put_end (e : GIC_INFO_ENTRY) : GIC_INFO_ENTRY :=
  mk_gic_entry 0xFF (e_base e) (e_entry_id e) (e_length e) (e_flags e) (e_spi_count e) (e_spi_base e).

Section GicTable.
Context (cfg : PLATFORM_OVERRIDE_GIC_INFO_TABLE).
(** The state is the memory of the entries. *)
Local Abbreviation P := (prog (list GIC_INFO_ENTRY)).

(** [gic_info[InfoIndex]]: outside the memory it is undefined. *)
Definition update_entry (InfoIndex : Z) (f : GIC_INFO_ENTRY -> GIC_INFO_ENTRY) : P unit :=
  let* l := gets (fun l => l) in
  let* e := deref (at_index l InfoIndex) in
  modify (fun l => <[Z.to_nat InfoIndex := f e]> l).

(** One loop of the function: [round Index] is what it writes, [InfoIndex] goes on. *)
Fixpoint fill_entries (n : nat) (Index InfoIndex : Z) (round : Z -> option (GIC_INFO_ENTRY -> GIC_INFO_ENTRY)) : P Z :=
  match n with
  | O => ret InfoIndex
  | S k =>
      let* f := deref (round Index) in
      update_entry InfoIndex f ;;;
      fill_entries k (Index + 1) (u32 (InfoIndex + 1)) round
  end.

Definition gicc_round (Index : Z) : option (GIC_INFO_ENTRY -> GIC_INFO_ENTRY) :=
  b ← at_index (gicc_base cfg) Index; Some (put_base PLATFORM_OVERRIDE_GICC_TYPE b).
Definition gicc_rd_round (Index : Z) : option (GIC_INFO_ENTRY -> GIC_INFO_ENTRY) :=
  b ← at_index (gicc_rd_base cfg) Index;
  Some (fun e => put_length (c_gicc_rd_length cfg) (put_base PLATFORM_OVERRIDE_GICC_GICRD_TYPE b e)).
Definition gicr_rd_round (Index : Z) : option (GIC_INFO_ENTRY -> GIC_INFO_ENTRY) :=
  b ← at_index (gicr_rd_base cfg) Index;
  Some (fun e => put_length (c_gicr_rd_length cfg) (put_base PLATFORM_OVERRIDE_GICR_GICRD_TYPE b e)).
Definition gicd_round (Index : Z) : option (GIC_INFO_ENTRY -> GIC_INFO_ENTRY) :=
  b ← at_index (gicd_base cfg) Index; Some (put_base PLATFORM_OVERRIDE_GICD_TYPE b).
Definition gicits_round (Index : Z) : option (GIC_INFO_ENTRY -> GIC_INFO_ENTRY) :=
  b ← at_index (gicits_base cfg) Index;
  i ← at_index (gicits_id cfg) Index;
  Some (fun e => put_id i (put_base PLATFORM_OVERRIDE_GICITS_TYPE b e)).
Definition gich_round (Index : Z) : option (GIC_INFO_ENTRY -> GIC_INFO_ENTRY) :=
  b ← at_index (gich_base cfg) Index; Some (fun e => put_length 0 (put_base PLATFORM_OVERRIDE_GICH_TYPE b e)).
Definition msiframe_round (Index : Z) : option (GIC_INFO_ENTRY -> GIC_INFO_ENTRY) :=
  b ← at_index (gicmsiframe_base cfg) Index;
  i ← at_index (gicmsiframe_id cfg) Index;
  f ← at_index (gicmsiframe_flags cfg) Index;
  c ← at_index (gicmsiframe_spi_count cfg) Index;
  s ← at_index (gicmsiframe_spi_base cfg) Index;
  Some (fun e => put_frame f c s (put_id i (put_base PLATFORM_OVERRIDE_GICMSIFRAME_TYPE b e))).

(** The seven loops in the order of the code: how often, and what. *)
Definition gic_loops : list (Z * (Z -> option (GIC_INFO_ENTRY -> GIC_INFO_ENTRY))) :=
  [(c_num_gicc cfg, gicc_round); (c_num_gicc_rd cfg, gicc_rd_round); (c_num_gicr_rd cfg, gicr_rd_round);
   (c_num_gicd cfg, gicd_round); (c_num_gicits cfg, gicits_round); (c_num_gich cfg, gich_round);
   (c_num_msiframes cfg, msiframe_round)].
Fixpoint run_loops (ls : list (Z * (Z -> option (GIC_INFO_ENTRY -> GIC_INFO_ENTRY)))) (InfoIndex : Z) : P Z :=
  match ls with
  | [] => ret InfoIndex
  | (num, round) :: ls' => let* i := fill_entries (Z.to_nat num) 0 InfoIndex round in run_loops ls' i
  end.

Definition pal_gic_create_info_table_bm (GicTable : option GIC_INFO_TABLE) : outcome (option GIC_INFO_TABLE) :=
  match GicTable with
  | None => Done None
  | Some g =>
      let h := mk_gic_hdr (c_gic_version cfg) (c_num_gicd cfg) (c_num_gicc_rd cfg) (c_num_gicr_rd cfg) (c_num_gicits cfg)
                 (c_num_msiframes cfg) (c_num_gich cfg) (supervisor_intr_num (header g)) (guest_intr_num (header g)) in
      match (let* InfoIndex := run_loops gic_loops 0 in update_entry InfoIndex put_end) (gic_info g) with
      | Done (_, l) => Done (Some (mk_gic_table h l))
      | Undefined => Undefined
      | Diverges => Diverges
      end
  end.
End GicTable.

(** ** Memory *)

Record MEMORY_INFO := mk_minfo { m_phy_addr : Z; m_virt_addr : Z; m_size : Z; m_type : MEM_INFO_TYPE_e }.
(** [platform_mem_cfg]: the entries up to [count]. *)
Section MemoryTable.
Context (mem_cfg : list MEMORY_INFO).

Definition put_memory (c : MEMORY_INFO) (b : MEM_INFO_BLOCK) : MEM_INFO_BLOCK :=
  mk_mem (m_type c) (m_phy_addr c) (m_virt_addr c) (m_size c) (flags b).
Fixpoint fill_memory (cs : list MEMORY_INFO) (index : Z) (l : list MEM_INFO_BLOCK) : outcome (list MEM_INFO_BLOCK) :=
  match cs with
  | [] => update_block index (set_type MEMORY_TYPE_LAST_ENTRY) l
  | c :: cs' =>
      match update_block index (put_memory c) l with
      | Done l' => fill_memory cs' (index + 1) l'
      | Undefined => Undefined
      | Diverges => Diverges
      end
  end.
Definition pal_memory_create_info_table_bm (memoryInfoTable : option MEMORY_INFO_TABLE) : outcome (option MEMORY_INFO_TABLE) :=
  match memoryInfoTable with
  | None => Done None
  | Some t =>
      match fill_memory mem_cfg 0 (Memory.info t) with
      | Done l => Done (Some (set_info l t))
      | Undefined => Undefined
      | Diverges => Diverges
      end
  end.

Definition MEM_MAP_SUCCESS : Z := 0.
Definition MEM_MAP_NO_MEM : Z := 0x10000001.
(** The status, and the address on success. *)
Fixpoint unpopulated_bm (cs : list MEMORY_INFO) (memory_instance instance : Z) : Z * option Z :=
  match cs with
  | [] => (MEM_MAP_NO_MEM, None)
  | c :: cs' =>
      if bool_decide (m_type c = MEMORY_TYPE_NOT_POPULATED) then
        if memory_instance =? instance then (MEM_MAP_SUCCESS, Some (m_virt_addr c))
        else unpopulated_bm cs' (memory_instance + 1) instance
      else unpopulated_bm cs' memory_instance instance
  end.
Definition pal_memory_get_unpopulated_addr_bm (instance : Z) : Z * option Z := unpopulated_bm mem_cfg 0 instance.
End MemoryTable.

(** ** DMA controllers *)

(** The loop up to the number of controllers: the index of the configuration and of the
    table are the same. *)
Fixpoint copy_dma (n : nat) (i : Z) (cfg l : list DMA_INFO_BLOCK) : outcome (list DMA_INFO_BLOCK) :=
  match n with
  | O => Done l
  | S k =>
      match at_index cfg i, at_index l i with
      | Some c, Some _ => copy_dma k (i + 1) cfg (<[Z.to_nat i := c]> l)
      | _, _ => Undefined
      end
  end.
Definition pal_dma_create_info_table_bm (platform_dma_cfg dma_info_table : DMA_INFO_TABLE) : outcome DMA_INFO_TABLE :=
  match copy_dma (Z.to_nat (num_dma_ctrls platform_dma_cfg)) 0 (dma_info platform_dma_cfg) (dma_info dma_info_table) with
  | Done l => Done (mk_dma_table (num_dma_ctrls platform_dma_cfg) l)
  | Undefined => Undefined
  | Diverges => Diverges
  end.

(** ** The table of the interrupt controller is exact *)

(** The list [l] with its [j]-th entry changed by the [j]-th function of [fs]. *)
Definition written {A} (fs : list (A -> A)) (l : list A) : list A := imap (fun j e => default id (fs !! j) e) l.

Lemma written_length {A} (fs : list (A -> A)) l : length (written fs l) = length l.
Proof. apply length_imap. Qed.

Lemma written_lookup {A} (fs : list (A -> A)) l j : written fs l !! j = default id (fs !! j) <$> l !! j.
Proof. unfold written. by rewrite list_lookup_imap. Qed.

Lemma written_nil {A} (l : list A) : written [] l = l.
Proof. apply list_eq. intros j. rewrite written_lookup, lookup_nil. by destruct (l !! j). Qed.

(** Writing the next entry. *)
Lemma written_snoc {A} (fs : list (A -> A)) (f : A -> A) l e :
  l !! length fs = Some e -> written (fs ++ [f]) l = <[length fs := f e]> (written fs l).
Proof.
  intros He. apply list_eq. intros j. rewrite written_lookup. destruct (decide (j = length fs)) as [->|Hj].
  - rewrite list_lookup_insert_eq by (rewrite written_length; by apply lookup_lt_Some in He).
    rewrite lookup_app_r, Nat.sub_diag, He by lia. done.
  - rewrite list_lookup_insert_ne, written_lookup by done. destruct (decide (j < length fs)%nat).
    + by rewrite lookup_app_l.
    + rewrite lookup_app_r by lia. rewrite (lookup_ge_None_2 fs) by lia.
      destruct (j - length fs)%nat eqn:E; [lia|]. done.
Qed.

Section GicExact.
Context (cfg : PLATFORM_OVERRIDE_GIC_INFO_TABLE).

(** The counters are the lengths of the arrays. *)
Definition gic_cfg_ok : Prop :=
  c_num_gicc cfg = Z.of_nat (length (gicc_base cfg)) /\ c_num_gicc_rd cfg = Z.of_nat (length (gicc_rd_base cfg)) /\
  c_num_gicr_rd cfg = Z.of_nat (length (gicr_rd_base cfg)) /\ c_num_gicd cfg = Z.of_nat (length (gicd_base cfg)) /\
  c_num_gicits cfg = Z.of_nat (length (gicits_base cfg)) /\ length (gicits_id cfg) = length (gicits_base cfg) /\
  c_num_gich cfg = Z.of_nat (length (gich_base cfg)) /\ c_num_msiframes cfg = Z.of_nat (length (gicmsiframe_base cfg)) /\
  length (gicmsiframe_id cfg) = length (gicmsiframe_base cfg) /\ length (gicmsiframe_flags cfg) = length (gicmsiframe_base cfg) /\
  length (gicmsiframe_spi_count cfg) = length (gicmsiframe_base cfg) /\
  length (gicmsiframe_spi_base cfg) = length (gicmsiframe_base cfg).

(** What the configuration says of each component, in the order of the loops. *)
Definition gic_writes : list (GIC_INFO_ENTRY -> GIC_INFO_ENTRY) :=
  (put_base PLATFORM_OVERRIDE_GICC_TYPE <$> gicc_base cfg) ++
  ((fun b e => put_length (c_gicc_rd_length cfg) (put_base PLATFORM_OVERRIDE_GICC_GICRD_TYPE b e)) <$> gicc_rd_base cfg) ++
  ((fun b e => put_length (c_gicr_rd_length cfg) (put_base PLATFORM_OVERRIDE_GICR_GICRD_TYPE b e)) <$> gicr_rd_base cfg) ++
  (put_base PLATFORM_OVERRIDE_GICD_TYPE <$> gicd_base cfg) ++
  (zip_with (fun b i e => put_id i (put_base PLATFORM_OVERRIDE_GICITS_TYPE b e)) (gicits_base cfg) (gicits_id cfg)) ++
  ((fun b e => put_length 0 (put_base PLATFORM_OVERRIDE_GICH_TYPE b e)) <$> gich_base cfg) ++
  (zip_with (fun bi f_c_s e => put_frame f_c_s.1 f_c_s.2.1 f_c_s.2.2 (put_id bi.2 (put_base PLATFORM_OVERRIDE_GICMSIFRAME_TYPE bi.1 e)))
    (zip (gicmsiframe_base cfg) (gicmsiframe_id cfg))
    (zip (gicmsiframe_flags cfg) (zip (gicmsiframe_spi_count cfg) (gicmsiframe_spi_base cfg)))).

(** One loop: [gs] is what its rounds write, [fs] what was written before it. *)
Lemma fill_entries_spec round (l : list GIC_INFO_ENTRY) : Z.of_nat (length l) < 2 ^ 32 ->
  forall gs fs Index, (forall j g, gs !! j = Some g -> round (Index + Z.of_nat j) = Some g) -> (length fs <= length l)%nat ->
  fill_entries (length gs) Index (Z.of_nat (length fs)) round (written fs l) =
  if (length (fs ++ gs) <=? length l)%nat then Done (Z.of_nat (length (fs ++ gs)), written (fs ++ gs) l) else Undefined.
Proof.
  intros Hl gs. induction gs as [|g gs IH]; intros fs Index Hr Hfs.
  { rewrite app_nil_r. destruct (Nat.leb_spec (length fs) (length l)); [done|lia]. }
  cbn [length fill_entries]. assert (E0 : round Index = Some g) by (rewrite <- (Hr 0%nat g eq_refl); f_equal; lia).
  rewrite E0. unfold bind at 1, deref, ret at 1. unfold update_entry, bind at 1 2 3, gets.
  rewrite at_index_nat, written_lookup. destruct (l !! length fs) as [e|] eqn:He; cycle 1.
  { apply lookup_ge_None in He. rewrite length_app. cbn. destruct (Nat.leb_spec (length fs + S (length gs)) (length l)); [lia|done]. }
  rewrite lookup_ge_None_2 by lia. cbn -[u32 Z.of_nat fill_entries]. unfold modify. rewrite Nat2Z.id, <- written_snoc by done.
  apply lookup_lt_Some in He. rewrite u32_small by lia.
  replace (Z.of_nat (length fs) + 1) with (Z.of_nat (length (fs ++ [g]))) by (rewrite length_app; cbn; lia).
  rewrite IH; [by rewrite <- app_assoc| |rewrite length_app; cbn; lia].
  intros j g' Hj. rewrite <- (Hr (S j) g' Hj). f_equal. lia.
Qed.

Lemma run_loops_spec (l : list GIC_INFO_ENTRY) : Z.of_nat (length l) < 2 ^ 32 ->
  forall ls gss fs, Forall2 (fun lp gs => Z.to_nat lp.1 = length gs /\
    forall j g, gs !! j = Some g -> lp.2 (Z.of_nat j) = Some g) ls gss -> (length fs <= length l)%nat ->
  run_loops ls (Z.of_nat (length fs)) (written fs l) =
  if (length (fs ++ concat gss) <=? length l)%nat
  then Done (Z.of_nat (length (fs ++ concat gss)), written (fs ++ concat gss) l) else Undefined.
Proof.
  intros Hl ls gss fs HF. revert fs. induction HF as [|[num round] gs ls gss [Hn Hr] HF IH]; intros fs Hfs; cbn [run_loops concat].
  { rewrite app_nil_r. destruct (Nat.leb_spec (length fs) (length l)); [done|lia]. }
  simpl in Hn, Hr. rewrite Hn. unfold bind. rewrite fill_entries_spec by auto. rewrite app_assoc.
  destruct (Nat.leb_spec (length (fs ++ gs)) (length l)) as [Hle|Hgt]; [by rewrite IH|].
  destruct (Nat.leb_spec (length ((fs ++ gs) ++ concat gss)) (length l)); [rewrite !length_app in *; lia|done].
Qed.

Lemma gic_loops_writes : gic_cfg_ok -> exists gss, gic_writes = concat gss /\
  Forall2 (fun lp gs => Z.to_nat lp.1 = length gs /\ forall j g, gs !! j = Some g -> lp.2 (Z.of_nat j) = Some g) (gic_loops cfg) gss.
Proof.
  intros (H1 & H2 & H3 & H4 & H5 & H6 & H7 & H8 & H9 & H10 & H11 & H12).
  unfold gic_writes, gic_loops. eexists [_; _; _; _; _; _; _]. split; [cbn [concat]; by rewrite app_nil_r|].
  assert (Hmap : forall (l : list Z) (f : Z -> GIC_INFO_ENTRY -> GIC_INFO_ENTRY) j g,
    (f <$> l) !! j = Some g -> (b ← at_index l (Z.of_nat j); Some (f b)) = Some g).
  { intros l f j g Hj. rewrite at_index_nat. apply list_lookup_fmap_Some in Hj as (x & -> & ->). done. }
  repeat constructor; cbn [fst snd]; rewrite ?length_fmap, ?length_zip_with; try lia; try (apply Hmap).
  - intros j g Hj. unfold gicits_round. rewrite !at_index_nat. by apply lookup_zip_with_Some in Hj as (b & i & -> & -> & ->).
  - intros j g Hj. unfold msiframe_round. rewrite !at_index_nat.
    apply lookup_zip_with_Some in Hj as ([b i] & [f [c s]] & -> & Hx & Hy).
    apply lookup_zip_with_Some in Hx as (? & ? & [= <- <-] & -> & ->).
    apply lookup_zip_with_Some in Hy as (? & ? & [= <- <-] & -> & Hy).
    apply lookup_zip_with_Some in Hy as (? & ? & [= <- <-] & -> & ->). done.
Qed.

(** C37: the table of the interrupt controller is exactly what the configuration gives: the
    counters of the header, one entry for each component in the order of the loops, with
    only the fields of its kind written, and the end mark behind them; the other entries
    keep what they held.  It is built when the memory holds one entry more than there are
    components, and runs out of the memory otherwise. *)
Theorem gic_table_bm_exact g : gic_cfg_ok -> Z.of_nat (length (gic_info g)) < 2 ^ 32 ->
  pal_gic_create_info_table_bm cfg (Some g) =
  if (length gic_writes <? length (gic_info g))%nat then
    Done (Some (mk_gic_table
      (mk_gic_hdr (c_gic_version cfg) (c_num_gicd cfg) (c_num_gicc_rd cfg) (c_num_gicr_rd cfg) (c_num_gicits cfg)
        (c_num_msiframes cfg) (c_num_gich cfg) (supervisor_intr_num (header g)) (guest_intr_num (header g)))
      (written (gic_writes ++ [put_end]) (gic_info g))))
  else Undefined.
Proof.
  intros Hok Hl. destruct (gic_loops_writes Hok) as (gss & Hw & HF). unfold pal_gic_create_info_table_bm, bind at 1.
  pose proof (run_loops_spec (gic_info g) Hl _ _ [] HF ltac:(cbn; lia)) as E. rewrite written_nil, <- Hw in E.
  cbn [app length] in E. change (Z.of_nat 0) with 0 in E. rewrite E.
  destruct (Nat.leb_spec (length gic_writes) (length (gic_info g))), (Nat.ltb_spec (length gic_writes) (length (gic_info g)));
    try (exfalso; lia); try done.
  - unfold update_entry, bind, gets. rewrite at_index_nat, written_lookup.
    destruct (lookup_lt_is_Some_2 (gic_info g) (length gic_writes)) as [e He]; [lia|]. rewrite He, lookup_ge_None_2 by lia.
    cbn -[put_end]. unfold modify. by rewrite Nat2Z.id, <- written_snoc.
  - unfold update_entry, bind, gets. rewrite at_index_nat, written_lookup, (lookup_ge_None_2 (gic_info g)) by lia. done.
Qed.
End GicExact.

(** ** The memory table answers what the configuration says *)

Section MemoryExact.
Context (cs : list MEMORY_INFO).

Lemma fill_memory_spec pre l :
  fill_memory cs (Z.of_nat (length pre)) (pre ++ l) =
  match drop (length cs) l with
  | b :: rest => Done (pre ++ zip_with put_memory cs l ++ set_type MEMORY_TYPE_LAST_ENTRY b :: rest)
  | [] => Undefined
  end.
Proof.
  revert pre l. induction cs as [|c cs' IH]; intros pre l; cbn [fill_memory length drop]; destruct l as [|b l].
  1, 3: unfold update_block; by rewrite app_nil_r, at_index_nat, lookup_ge_None_2.
  - by rewrite update_block_app.
  - rewrite update_block_app. cbn [zip_with drop].
    replace (Z.of_nat (length pre) + 1) with (Z.of_nat (length (pre ++ [put_memory c b]))) by (rewrite length_app; cbn; lia).
    replace (pre ++ put_memory c b :: l) with ((pre ++ [put_memory c b]) ++ l) by (by rewrite <- app_assoc). rewrite IH. by destruct (drop (length cs') l); rewrite <- ?app_assoc.
Qed.

Definition in_region (addr : Z) (c : MEMORY_INFO) : bool := (m_phy_addr c <=? addr) && (addr <? u64 (m_phy_addr c + m_size c)).

Lemma find_zip_put addr l i : (length cs <= length l)%nat ->
  match find_first (in_block addr) (zip_with put_memory cs l) i with Some (_, b) => Some (type b) | None => None end =
  match find_first (in_region addr) cs i with Some (_, c) => Some (m_type c) | None => None end.
Proof.
  revert l i. induction cs as [|c cs' IH]; intros [|b l] i Hl; cbn [length] in Hl; try done; [lia|].
  cbn [zip_with find_first]. change (in_block addr (put_memory c b)) with (in_region addr c).
  destruct (in_region addr c); [done|]. apply IH. lia.
Qed.

(** with memory for one entry more than the platform has regions, the memory table is
    built, and a lookup in it gives the type of the first region of the platform that holds
    the address, or that the address is not populated; with less memory the end mark is
    written outside of it. *)
Theorem memory_bm_lookup_exact t : (forall c, c ∈ cs -> m_type c <> MEMORY_TYPE_LAST_ENTRY) ->
  if (length cs <? length (Memory.info t))%nat then
    exists t', pal_memory_create_info_table_bm cs (Some t) = Done (Some t') /\
      forall addr, exists attr, val_memory_get_info addr (Some t') =
        Done ((mem_type_code match find_first (in_region addr) cs 0 with
                             | Some (_, c) => m_type c | None => MEMORY_TYPE_NOT_POPULATED end, attr), Some t')
  else pal_memory_create_info_table_bm cs (Some t) = Undefined.
Proof.
  intros Hty. unfold pal_memory_create_info_table_bm. pose proof (fill_memory_spec [] (Memory.info t)) as E. cbn [app length] in E.
  change (Z.of_nat 0) with 0 in E. rewrite E. clear E. destruct (Nat.ltb_spec (length cs) (length (Memory.info t))) as [Hr|Hr]; cycle 1.
  { by rewrite drop_ge. }
  destruct (drop (length cs) (Memory.info t)) as [|b rest] eqn:Ed.
  { apply (f_equal length) in Ed. rewrite length_drop in Ed. cbn in Ed. lia. }
  set (bs := zip_with put_memory cs (Memory.info t)). eexists. split; [reflexivity|]. intros addr.
  exists (match find_first (in_block addr) bs 0 with Some (_, x) => Some (flags x) | None => None end).
  rewrite (get_info_spec _ bs).
  - pose proof (find_zip_put addr (Memory.info t) 0 ltac:(lia)) as F. fold bs in F.
    destruct (find_first (in_block addr) bs 0) as [[? x]|], (find_first (in_region addr) cs 0) as [[? c]|]; try done.
    injection F as ->. reflexivity.
  - eexists _, b, rest. split; [reflexivity|]. split; [done|]. intros x Hx. unfold bs in Hx.
    apply elem_of_lookup_zip_with_1 in Hx as (i & c & o & -> & Hc & _). apply Hty. by apply list_elem_of_lookup_2 in Hc.
Qed.
End MemoryExact.
