(* ===== verification/BmExerciser.v ===== *)
(** * Exerciser of the bare-metal port

    Models [platform/pal_baremetal/RDN2/src/pal_bm_exerciser.c] and
    [platform/pal_baremetal/common/src/pal_exerciser.c]: the platform layer below the
    functions of [val/src/acs_exerciser.c].  The registers and the data types are those of
    [Exerciser.v], where the port for UEFI is; a BAR is read from configuration space with
    [pal_pcie_get_base] of [PcieEnum.v]. *)

From S2P Require Import Prelude Mmio PcieCfg PcieCap PcieTable Peripherals PcieEnum Exerciser.

Section Pal.
Context {H : Type} `{Hardware H}.
Local Abbreviation P := (prog (enum_state H)).

Definition mmio_update_bm (addr : Z) (f : Z -> Z) : P unit := let* v := bm_mmio_read addr in bm_mmio_write addr (f v).

(** ** [common/src/pal_exerciser.c] *)

(** The first ECAM with the bus, whatever its segment. *)
Definition ecam_of_bus (t : PCIE_INFO_TABLE) (bus : Z) : Z :=
  match find_first (fun b => (start_bus_num b <=? bus) && (bus <=? end_bus_num b)) (take (Z.to_nat (info_num_entries t)) (block t)) 0 with
  | Some (_, b) => ecam_base b
  | None => 0
  end.
Definition pal_exerciser_get_ecam (bdf : Z) : P Z := let* t := gets PcieEnum.info in ret (ecam_of_bus t (PCIE_EXTRACT_BDF_BUS bdf)).
Definition pal_exerciser_get_pcie_config_offset_bm (Bdf : Z) : Z :=
  bm_cfg_addr (PCIE_EXTRACT_BDF_BUS Bdf) (PCIE_EXTRACT_BDF_DEV Bdf) (PCIE_EXTRACT_BDF_FUNC Bdf).
Definition pal_exerciser_get_ecsr_base_bm (Bdf BarIndex : Z) : P Z := pal_pcie_get_base Bdf BarIndex.

Fixpoint cap_walk_bm (fuel : nat) (Ecam ID Bdf IdMask PtrMask PtrOffset NxtPtr : Z) : P (Z * option Z) :=
  match fuel with
  | O => diverge
  | S k =>
      if NxtPtr =? 0 then ret (1, None) else
      let* Data := bm_mmio_read (Ecam + pal_exerciser_get_pcie_config_offset_bm Bdf + NxtPtr) in
      if Z.land Data IdMask =? ID then ret (0, Some NxtPtr)
      else cap_walk_bm k Ecam ID Bdf IdMask PtrMask PtrOffset (Z.land (Z.shiftr Data PtrOffset) PtrMask)
  end.
(** [pcie] is [Value == 1]; the status and the offset. *)
Definition pal_exerciser_find_pcie_capability_bm (ID Bdf : Z) (pcie : bool) : P (Z * option Z) :=
  let* Ecam := pal_exerciser_get_ecam Bdf in
  if pcie then cap_walk_bm (cap_fuel PCIE_ECAP) Ecam ID Bdf PCIE_CAP_ID_MASK PCIE_NXT_CAP_PTR_MASK PCIE_CAP_PTR_OFFSET PCIE_CAP_OFFSET
  else
    let* v := bm_mmio_read (Ecam + CAP_PTR_OFFSET + pal_exerciser_get_pcie_config_offset_bm Bdf) in
    cap_walk_bm (cap_fuel PCIE_CAP) Ecam ID Bdf PCI_CAP_ID_MASK PCI_NXT_CAP_PTR_MASK PCI_CAP_PTR_OFFSET (Z.land v CAP_PTR_MASK).

(** ** [RDN2/src/pal_bm_exerciser.c] *)

Definition pal_is_bdf_exerciser_bm (bdf : Z) : P Z :=
  let* Ecam := pal_exerciser_get_ecam bdf in
  let* vendor_dev_id := bm_mmio_read (Ecam + pal_exerciser_get_pcie_config_offset_bm bdf) in
  ret (if vendor_dev_id =? EXERCISER_ID then 1 else 0).

Definition set_address_type_bm (Base Data : Z) : P unit := mmio_update_bm (Base + DMACTL1) (fun v => Z.lor v (Z.shiftl Data 10)).
Definition txn_addr_type_bm (Base Value2 : Z) : P Z :=
  (if Value2 =? AT_UNTRANSLATED then set_address_type_bm Base 1
   else if Value2 =? AT_TRANSLATED then set_address_type_bm Base 2
   else if Value2 =? AT_RESERVED then set_address_type_bm Base 3 else ret tt) ;;;
  ret 0.

Definition pal_exerciser_set_param_bm (Type' : EXERCISER_PARAM_TYPE) (Value1 Value2 Bdf : Z) : P Z :=
  let* Base := pal_exerciser_get_ecsr_base_bm Bdf 0 in
  let* Ecam := pal_exerciser_get_ecam Bdf in
  match Type' with
  | SNOOP_ATTRIBUTES | LEGACY_IRQ | P2P_ATTRIBUTES | MSIX_ATTRIBUTES => ret 0
  | DMA_ATTRIBUTES => bm_mmio_write (Base + DMA_BUS_ADDR) Value1 ;;; bm_mmio_write (Base + DMA_LEN) Value2 ;;; ret 0
  | PASID_ATTRIBUTES =>
      mmio_update_bm (Base + DMACTL1) (fun Data =>
        Z.lor (Z.land Data (Z.lnot (Z.shiftl PASID_LEN_MASK PASID_LEN_SHIFT)))
          (Z.shiftl (Z.land (u64 (Value1 - 16)) PASID_LEN_MASK) PASID_LEN_SHIFT)) ;;;
      ret 0
  | CFG_TXN_ATTRIBUTES =>
      if Value1 =? TXN_REQ_ID then
        bm_mmio_write (Base + RID_CTL_REG) (Z.lor (Z.land Value2 RID_VALUE_MASK) RID_VALID_MASK) ;;; ret 0
      else if Value1 =? TXN_REQ_ID_VALID then
        if Value2 =? RID_VALID then mmio_update_bm (Base + RID_CTL_REG) (fun Data => Z.lor Data RID_VALID_MASK) ;;; ret 0
        else if Value2 =? RID_NOT_VALID then bm_mmio_write (Base + RID_CTL_REG) 0 ;;; ret 0
        else ret 0
      else if Value1 =? TXN_ADDR_TYPE then txn_addr_type_bm Base Value2
      else ret 1
  | ERROR_INJECT_TYPE =>
      let* r := pal_exerciser_find_pcie_capability_bm DVSEC Bdf true in
      let off := offset_or_zero r in
      let* _ := bm_mmio_read (Ecam + off + pal_exerciser_get_pcie_config_offset_bm Bdf + DVSEC_CTRL) in
      bm_mmio_write (Ecam + off + DVSEC_CTRL + pal_exerciser_get_pcie_config_offset_bm Bdf)
        (Z.lor (Z.shiftl Value1 ERR_CODE_SHIFT) (Z.shiftl Value2 FATAL_SHIFT)) ;;;
      ret (if Value1 <=? 7 then 2 else 3)
  | ATS_RES_ATTRIBUTES | TRANSACTION_TYPE | NUM_TRANSACTIONS | ADDRESS_ATTRIBUTES | DATA_ATTRIBUTES => ret 1
  end.

Definition pal_exerciser_start_dma_direction_bm (Base : Z) (Direction : EXERCISER_DMA_ATTR) : P Z :=
  (match Direction with
   | EDMA_TO_DEVICE => mmio_update_bm (Base + DMACTL1) (fun v => Z.land v DMA_TO_DEVICE_MASK)
   | _ => ret tt
   end) ;;;
  (match Direction with
   | EDMA_FROM_DEVICE => mmio_update_bm (Base + DMACTL1) (fun v => Z.lor v (Z.shiftl MASK_BIT SHIFT_4BIT))
   | _ => ret tt
   end) ;;;
  mmio_update_bm (Base + DMACTL1) (fun v => Z.lor v MASK_BIT) ;;;
  let* st := bm_mmio_read (Base + DMASTATUS) in
  ret (Z.land st (Z.lor (Z.shiftl MASK_BIT 1) MASK_BIT)).

Definition read_trace_bm (Base : Z) : P (option (Z * Z * Z * Z * Z)) :=
  let* tx_attr := bm_mmio_read (Base + TXN_TRACE) in
  if tx_attr =? TXN_INVALID then ret None else
  let* addr_low := bm_mmio_read (Base + TXN_TRACE) in
  let* addr_high := bm_mmio_read (Base + TXN_TRACE) in
  let* data_low := bm_mmio_read (Base + TXN_TRACE) in
  let* data_high := bm_mmio_read (Base + TXN_TRACE) in
  ret (Some (tx_attr, addr_low, addr_high, data_low, data_high)).

(** The status and the new values of the variables. *)
Definition pal_exerciser_get_param_bm (Type' : EXERCISER_PARAM_TYPE) (Value1 Value2 Bdf : Z) : P (Z * Z * Z) :=
  let* Base := pal_exerciser_get_ecsr_base_bm Bdf 0 in
  match Type' with
  | SNOOP_ATTRIBUTES | P2P_ATTRIBUTES => ret (0, Value1, Value2)
  | LEGACY_IRQ =>
      let* v := bm_mmio_read (Base + INTXCTL) in let* w := bm_mmio_read (Base + INTXCTL) in ret (Z.lor w MASK_BIT, v, Value2)
  | DMA_ATTRIBUTES =>
      let* v1 := bm_mmio_read (Base + DMA_BUS_ADDR) in
      let* v2 := bm_mmio_read (Base + DMA_LEN) in
      let* st := bm_mmio_read (Base + DMASTATUS) in
      ret (Z.land st MASK_BIT, v1, v2)
  | PASID_ATTRIBUTES =>
      let* v := bm_mmio_read (Base + DMACTL1) in
      ret (0, Z.land (Z.shiftr v PASID_LEN_SHIFT) PASID_LEN_MASK + 16, Value2)
  | MSIX_ATTRIBUTES =>
      let* v := bm_mmio_read (Base + MSICTL) in let* w := bm_mmio_read (Base + MSICTL) in ret (Z.lor w MASK_BIT, v, Value2)
  | ATS_RES_ATTRIBUTES => let* v := bm_mmio_read (Base + ATS_ADDR) in ret (0, v, Value2)
  | CFG_TXN_ATTRIBUTES | TRANSACTION_TYPE | ADDRESS_ATTRIBUTES | DATA_ATTRIBUTES =>
      let* t := read_trace_bm Base in
      match t with
      | None => ret (1, Value1, Value2)
      | Some (tx_attr, addr_low, addr_high, data_low, data_high) =>
          ret match Type' with
              | CFG_TXN_ATTRIBUTES => (0, Z.land tx_attr MASK_BIT, Value2)
              | TRANSACTION_TYPE => (0, Value1, if negb (Z.land tx_attr 2 =? 0) then CFG_READ else CFG_WRITE)
              | ADDRESS_ATTRIBUTES => (0, Z.lor addr_low (Z.shiftl addr_high 32), Value2)
              | _ => (0, Z.lor data_low (Z.shiftl data_high 32), Value2)
              end
      end
  | NUM_TRANSACTIONS | ERROR_INJECT_TYPE => ret (1, Value1, Value2)
  end.

Definition pal_exerciser_set_state_bm (State : EXERCISER_STATE) (Instance : Z) : P Z := ret 0.
Definition pal_exerciser_get_state_bm (Bdf : Z) : P (Z * EXERCISER_STATE) := ret (0, EXERCISER_ON).

Definition pasid_control_bm (Ecam Bdf : Z) (f : Z -> Z) : P Z :=
  let* r := pal_exerciser_find_pcie_capability_bm PASID Bdf true in
  if r.1 =? 0 then
    mmio_update_bm (Ecam + pal_exerciser_get_pcie_config_offset_bm Bdf + offset_or_zero r + PCIE_CAP_CTRL_OFFSET) f ;;; ret 0
  else ret 1.

Definition pal_exerciser_ops_bm (Ops : EXERCISER_OPS) (Param Bdf : Z) : P Z :=
  let* Base := pal_exerciser_get_ecsr_base_bm Bdf 0 in
  let* Ecam := pal_exerciser_get_ecam Bdf in
  match Ops with
  | START_DMA =>
      if (Param =? 0) || (Param =? 1) || (Param =? 2) then ret 0
      else if Param =? 3 then pal_exerciser_start_dma_direction_bm Base EDMA_FROM_DEVICE
      else if Param =? 4 then pal_exerciser_start_dma_direction_bm Base EDMA_TO_DEVICE
      else ret 1
  | GENERATE_MSI => mmio_update_bm (Base + MSICTL) (fun v => Z.lor (Z.lor v MSI_GENERATION_MASK) Param) ;;; ret 0
  | GENERATE_L_INTR => mmio_update_bm (Base + INTXCTL) (fun v => Z.lor v MASK_BIT) ;;; ret 0
  | MEM_READ | MEM_WRITE => ret 0
  | CLEAR_INTR => mmio_update_bm (Base + INTXCTL) (fun v => Z.land v CLR_INTR_MASK) ;;; ret 0
  | PASID_TLP_START =>
      mmio_update_bm (Base + DMACTL1) (fun v => Z.lor v (Z.shiftl MASK_BIT PASID_EN_SHIFT)) ;;;
      bm_mmio_write (Base + PASID_VAL) (Z.land Param PASID_VAL_MASK) ;;;
      pasid_control_bm Ecam Bdf (fun v => Z.lor v PCIE_CAP_EN_MASK)
  | PASID_TLP_STOP =>
      mmio_update_bm (Base + DMACTL1) (fun v => Z.land v PASID_TLP_STOP_MASK) ;;;
      pasid_control_bm Ecam Bdf (fun v => Z.land v PCIE_CAP_DIS_MASK)
  | TXN_NO_SNOOP_ENABLE => mmio_update_bm (Base + DMACTL1) (fun v => Z.lor v NO_SNOOP_START_MASK) ;;; ret 0
  | TXN_NO_SNOOP_DISABLE => mmio_update_bm (Base + DMACTL1) (fun v => Z.land v NO_SNOOP_STOP_MASK) ;;; ret 0
  | ATS_TXN_REQ =>
      bm_mmio_write (Base + DMA_BUS_ADDR) Param ;;;
      bm_mmio_write (Base + ATSCTL) ATS_TRIGGER ;;;
      let* v := bm_mmio_read (Base + ATSCTL) in
      ret (if Z.land v ATS_STATUS =? 0 then 1 else 0)
  | START_TXN_MONITOR => bm_mmio_write (Base + TXN_CTRL_BASE) TXN_START ;;; ret 0
  | STOP_TXN_MONITOR => bm_mmio_write (Base + TXN_CTRL_BASE) TXN_STOP ;;; ret 0
  | INJECT_ERROR =>
      let* r := pal_exerciser_find_pcie_capability_bm DVSEC Bdf true in
      mmio_update_bm (Ecam + pal_exerciser_get_pcie_config_offset_bm Bdf + offset_or_zero r + DVSEC_CTRL)
        (fun v => Z.lor v (Z.shiftl 1 ERROR_INJECT_BIT)) ;;;
      ret (u32 Param)
  end.

Fixpoint read_config_bm (EcamBase Bdf : Z) (l : list Z) : P (list ecam_reg_data) :=
  match l with
  | [] => ret []
  | o :: l' =>
      let* v := bm_mmio_read (EcamBase + o) in
      let* r := read_config_bm EcamBase Bdf l' in
      ret (mk_reg_data (u32 (o + pal_exerciser_get_pcie_config_offset_bm Bdf)) ACCESS_TYPE_RD v :: r)
  end.

(** The loop over the BARs; the index is multiplied by 4 here and again in
    [pal_pcie_get_base]. *)
Fixpoint find_mmio_bar_bm (fuel : nat) (Bdf Index : Z) : P (Z * option exerciser_data) :=
  match fuel with
  | O => diverge
  | S k =>
      if TYPE0_MAX_BARS <=? Index then ret (1, Some (bar_space 0 None)) else
      let* bar := pal_exerciser_get_ecsr_base_bm Bdf (Index * 4) in
      if Z.land (Z.shiftr bar 0) 1 =? 0 then ret (0, Some (bar_space bar (Some (memory_type bar)))) else
      find_mmio_bar_bm k Bdf (if Z.land (Z.shiftr bar 1) 3 =? 2 then Index + 2 else Index + 1)
  end.

(** The status and the data, [None] when nothing is written. *)
Definition pal_exerciser_get_data_bm (Type' : EXERCISER_DATA_TYPE) (Bdf ecam : Z) : P (Z * option exerciser_data) :=
  let EcamBase := ecam + pal_exerciser_get_pcie_config_offset_bm Bdf in
  match Type' with
  | EXERCISER_DATA_CFG_SPACE => let* l := read_config_bm EcamBase Bdf offset_table in ret (0, Some (cfg_space l))
  | EXERCISER_DATA_BAR0_SPACE =>
      let* EcamBAR0 := pal_exerciser_get_ecsr_base_bm Bdf 0 in
      let* again := pal_exerciser_get_ecsr_base_bm Bdf 0 in
      ret (0, Some (bar_space EcamBAR0 (Some (memory_type again))))
  | EXERCISER_DATA_MMIO_SPACE => find_mmio_bar_bm 7 Bdf 0
  end.
End Pal.

(** ** The two ports drive the exerciser alike *)

Section Agree.
Context {H : Type} `{Hardware H}.
(** A 32-bit access ignores the last two bits of the address: the port for UEFI masks them
    in a read only, this port in a write only. *)
Context (word_read : forall a h, hw_read W32 (Z.land a (Z.lnot 3)) h = hw_read W32 a h).
Context (word_write : forall a v h, hw_write W32 (Z.land a (Z.lnot 3)) v h = hw_write W32 a v h).
Context (handles : list pci_handle) (Ecam Bdf : Z).

(** The same devices, and for the device the ECAM that the UEFI port is given. *)
Definition same_devices (s : pcie_state H) (t : enum_state H) : Prop :=
  hw s = bus_hw t /\ ecam_of_bus (PcieEnum.info t) (PCIE_EXTRACT_BDF_BUS Bdf) = Ecam.

(** Two runs with the same answer that leave the devices the same. *)
Definition same_run {A} (x : outcome (A * pcie_state H)) (y : outcome (A * enum_state H)) : Prop :=
  match x, y with
  | Done (a, s), Done (b, t) => a = b /\ same_devices s t
  | Undefined, Undefined | Diverges, Diverges => True
  | _, _ => False
  end.
Definition agree {A} (p : prog (pcie_state H) A) (q : prog (enum_state H) A) : Prop :=
  forall s t, same_devices s t -> same_run (p s) (q t).

Lemma agree_ret {A} (a : A) : agree (ret a) (ret a).
Proof. by intros s t Hs. Qed.

Lemma agree_diverge {A} : agree (A := A) diverge diverge.
Proof. by intros s t Hs. Qed.

Lemma agree_bind {A B} p q (k : A -> prog (pcie_state H) B) (l : A -> prog (enum_state H) B) :
  agree p q -> (forall a, agree (k a) (l a)) -> agree (bind p k) (bind q l).
Proof.
  intros Hp Hk s t Hs. specialize (Hp s t Hs). unfold bind. destruct (p s) as [[a s']| |], (q t) as [[b t']| |]; try done.
  destruct Hp as [<- Hs']. by apply Hk.
Qed.

Lemma agree_read addr : agree (mmio_read addr) (bm_mmio_read addr).
Proof.
  intros s t [Hh He]. unfold mmio_read, bm_mmio_read, on_bus_hw, bm_pal_mmio_read, on_hw, pal_mmio_read.
  assert (E : hw_read W32 (if negb (Z.land (u64 addr) 3 =? 0) then Z.land (u64 addr) (Z.lnot 3) else u64 addr) (hw s) = hw_read W32 (u64 addr) (bus_hw t)).
  { rewrite Hh. destruct (negb _); [by rewrite word_read|done]. }
  cbn. rewrite E. by split.
Qed.

Lemma agree_write addr data : agree (mmio_write addr data) (bm_mmio_write addr data).
Proof.
  intros s t [Hh He]. unfold mmio_write, bm_mmio_write, on_bus_hw, bm_pal_mmio_write, on_hw, pal_mmio_write. cbn.
  split; [done|]. split; [|done]. cbn. rewrite Hh. destruct (negb _); [by rewrite word_write|done].
Qed.

Lemma agree_update addr f : agree (mmio_update addr f) (mmio_update_bm addr f).
Proof. apply agree_bind; [apply agree_read|intros a; apply agree_write]. Qed.

Lemma agree_if {A} (b : bool) (p p' : prog (pcie_state H) A) (q q' : prog (enum_state H) A) :
  agree p q -> agree p' q' -> agree (if b then p else p') (if b then q else q').
Proof. by destruct b. Qed.

(** The ECAM is looked up at each use. *)
Lemma agree_ecam {A} p (l : Z -> prog (enum_state H) A) : agree p (l Ecam) -> agree p (bind (pal_exerciser_get_ecam Bdf) l).
Proof. intros Hp s t [Hh He]. unfold pal_exerciser_get_ecam, bind, gets, ret. rewrite He. by apply Hp. Qed.

Lemma agree_walk fuel ID IdMask PtrMask PtrOffset : forall NxtPtr,
  agree (exer_cap_walk Ecam fuel ID Bdf IdMask PtrMask PtrOffset NxtPtr) (cap_walk_bm fuel Ecam ID Bdf IdMask PtrMask PtrOffset NxtPtr).
Proof.
  induction fuel as [|k IH]; intros NxtPtr; cbn [exer_cap_walk cap_walk_bm]; [apply agree_diverge|].
  apply agree_if; [apply agree_ret|]. apply agree_bind; [apply agree_read|intros v]. apply agree_if; [apply agree_ret|apply IH].
Qed.

Lemma agree_capability ID pcie : agree (pal_exerciser_find_pcie_capability Ecam ID Bdf pcie) (pal_exerciser_find_pcie_capability_bm ID Bdf pcie).
Proof.
  apply agree_ecam. apply agree_if; [apply agree_walk|]. apply agree_bind; [apply agree_read|intros v; apply agree_walk].
Qed.

Ltac agree_step := first
  [ apply agree_ret | apply agree_read | apply agree_write | apply agree_update | apply agree_capability
  | apply agree_if | apply agree_bind; [|intros ?] ].
Ltac agree_all := repeat agree_step.

Lemma agree_pasid f : agree (pasid_control Ecam Bdf f) (pasid_control_bm Ecam Bdf f).
Proof. unfold pasid_control, pasid_control_bm. agree_all. Qed.

Lemma agree_dma Base d : agree (pal_exerciser_start_dma_direction Base d) (pal_exerciser_start_dma_direction_bm Base d).
Proof. unfold pal_exerciser_start_dma_direction, pal_exerciser_start_dma_direction_bm. destruct d; agree_all. Qed.

Lemma agree_address_type Base v : agree (txn_addr_type Base v) (txn_addr_type_bm Base v).
Proof. unfold txn_addr_type, txn_addr_type_bm, set_address_type, set_address_type_bm. agree_all. Qed.

Lemma agree_trace Base : agree (read_trace Base) (read_trace_bm Base).
Proof. unfold read_trace, read_trace_bm. agree_all. Qed.

(** Both ports start with the address of BAR 0; [l] is the rest of the operation. *)
Lemma agree_base {A} (k : Z -> prog (pcie_state H) A) (l : Z -> prog (enum_state H) A) Base s t t' :
  palPcieGetBase handles Bdf 0 = Done Base -> pal_pcie_get_base Bdf 0 t = Done (Base, t') -> same_devices s t' ->
  agree (k Base) (l Base) ->
  same_run (bind (pal_exerciser_get_ecsr_base handles Bdf 0) k s) (bind (pal_exerciser_get_ecsr_base_bm Bdf 0) l t).
Proof.
  intros Hu Hb Hs Hk. unfold bind at 1 2, pal_exerciser_get_ecsr_base, pal_exerciser_get_ecsr_base_bm. rewrite Hu, Hb. by apply Hk.
Qed.

(** The one parameter that the ports take differently: a value for the validity of the
    requester id that is neither 0 nor 1 falls through to the address type in the port for
    UEFI. *)
Definition falls_through (Type' : EXERCISER_PARAM_TYPE) (Value1 Value2 : Z) : bool :=
  match Type' with CFG_TXN_ATTRIBUTES => (Value1 =? TXN_REQ_ID_VALID) && negb ((Value2 =? RID_VALID) || (Value2 =? RID_NOT_VALID)) | _ => false end.

(** C40: On hardware that takes 32-bit reads and writes by words, so that the last two bits
    of an address do not matter, and for a device whose BAR 0 and ECAM both ports see alike,
    every operation, every read of a parameter and every setting of one but the case that
    falls through gives the same answer in both ports and leaves the devices in the same
    state.  The condition on the hardware is needed: the port for UEFI masks the two bits in
    reads, the bare-metal port in writes ([Sample.unaligned_accesses_differ]). *)
Theorem exerciser_ports_agree Base s t t' :
  palPcieGetBase handles Bdf 0 = Done Base -> pal_pcie_get_base Bdf 0 t = Done (Base, t') -> same_devices s t' ->
  (forall ops param, same_run (pal_exerciser_ops handles Ecam ops param Bdf s) (pal_exerciser_ops_bm ops param Bdf t)) /\
  (forall ty v1 v2, same_run (pal_exerciser_get_param handles ty v1 v2 Bdf s) (pal_exerciser_get_param_bm ty v1 v2 Bdf t)) /\
  (forall ty v1 v2, falls_through ty v1 v2 = false ->
     same_run (pal_exerciser_set_param handles Ecam ty v1 v2 Bdf s) (pal_exerciser_set_param_bm ty v1 v2 Bdf t)).
Proof.
  intros Hu Hb Hs. split; [|split].
  - intros ops param. apply (agree_base _ _ Base s t t' Hu Hb Hs). apply agree_ecam. destruct ops; agree_all; (apply agree_dma || apply agree_pasid).
  - intros ty v1 v2. apply (agree_base _ _ Base s t t' Hu Hb Hs).
    destruct ty; agree_all; try apply agree_trace; destruct a as [[[[[? ?] ?] ?] ?]|]; apply agree_ret.
  - intros ty v1 v2 Hf. apply (agree_base _ _ Base s t t' Hu Hb Hs). apply agree_ecam.
    destruct ty; try solve [agree_all].
    apply agree_if; [agree_all|]. unfold falls_through in Hf. destruct (v1 =? TXN_REQ_ID_VALID); [|apply agree_if; [apply agree_address_type|agree_all]].
    destruct (v2 =? RID_VALID), (v2 =? RID_NOT_VALID); try done; agree_all.
Qed.
End Agree.

(** ** BARs are never reported as prefetchable *)

Section Bars.
Context {H : Type} `{Hardware H}.

Lemma get_base_low_bits b i s v s' : pal_pcie_get_base b i s = Done (v, s') -> Z.land v 0xF = 0.
Proof.
  unfold pal_pcie_get_base. intros (lo & s1 & _ & E)%bind_inv. destruct (BAR_REG lo =? BAR_64_BIT).
  - apply bind_inv in E as (up & s2 & _ & E). injection E as <- _. rewrite Z.land_lor_distr_l, <- Z.land_assoc.
    change (Z.land BAR_MASK 0xF) with 0. rewrite Z.land_0_r, Z.lor_0_l. change 0xF with (Z.ones 4).
    rewrite Z.land_ones by lia. rewrite Z.shiftl_mul_pow2 by lia. replace (up * 2 ^ 32) with (up * 2 ^ 28 * 2 ^ 4) by lia. apply Z.mod_mul. lia.
  - injection E as <- _. rewrite <- Z.land_assoc. change (Z.land BAR_MASK 0xF) with 0. apply Z.land_0_r.
Qed.

Lemma low_bits_zero v : Z.land v 0xF = 0 -> memory_type v = MMIO_NON_PREFETCHABLE /\ (Z.land (Z.shiftr v 0) 1 =? 0) = true.
Proof.
  intros E. assert (Hbit : forall i, 0 <= i < 4 -> Z.testbit v i = false).
  { intros i Hi. apply (f_equal (fun x => Z.testbit x i)) in E. rewrite Z.land_spec, Z.bits_0 in E. change 0xF with (Z.ones 4) in E.
    rewrite Z.ones_spec_low in E by lia. by rewrite andb_true_r in E. }
  assert (Hand : forall i, 0 <= i < 4 -> Z.land (Z.shiftr v i) 1 = 0).
  { intros i Hi. change 1 with (Z.ones 1). rewrite Z.land_ones by lia. change (2 ^ 1) with 2.
    rewrite <- Z.bit0_mod, Z.shiftr_spec, Z.add_0_l, Hbit by lia. done. }
  unfold memory_type, PREFETCHABLE_BIT_SHIFT, MASK_BIT. by rewrite !Hand by lia.
Qed.

(** Whatever the BARs hold, the data of the BARs are the address in BAR 0 and the type
    not prefetchable: the low bits, which hold the type, are masked before they are
    looked at, so the search for a memory BAR ends at the first one. *)
Theorem exerciser_bars_bm Bdf ecam Type' s data s' : Type' = EXERCISER_DATA_BAR0_SPACE \/ Type' = EXERCISER_DATA_MMIO_SPACE ->
  pal_exerciser_get_data_bm Type' Bdf ecam s = Done (data, s') ->
  exists bar s1, pal_pcie_get_base Bdf 0 s = Done (bar, s1) /\ data = (0, Some (bar_space bar (Some MMIO_NON_PREFETCHABLE))).
Proof.
  intros [-> | ->]; unfold pal_exerciser_get_data_bm, pal_exerciser_get_ecsr_base_bm.
  - intros (bar & s1 & E1 & (again & s2 & E2 & E)%bind_inv)%bind_inv. injection E as <- _. exists bar, s1. split; [done|].
    by rewrite (proj1 (low_bits_zero _ (get_base_low_bits _ _ _ _ _ E2))).
  - cbn [find_mmio_bar_bm Z.leb TYPE0_MAX_BARS Z.compare Z.mul]. unfold pal_exerciser_get_ecsr_base_bm. intros (bar & s1 & E1 & E)%bind_inv. exists bar, s1.
    destruct (low_bits_zero _ (get_base_low_bits _ _ _ _ _ E1)) as [Hm Hz]. rewrite Hz in E. injection E as <- _. split; [done|by rewrite Hm].
Qed.
End Bars.

(** ** A card at 1:02.0 *)

Module Sample.
Definition memory : Set := gmap Z Z.
(** Words, by the address without its last two bits. *)
#[local] Instance words : Hardware memory := {|
  hw_read _ a h := (default 0 (h !! Z.land a (Z.lnot 3)), h);
  hw_write _ a v h := <[Z.land a (Z.lnot 3) := v]> h |}.
Definition bar0 : Z := 0x50001000.
Definition cards : list pci_handle := [mk_pci 0 1 2 0 0xFF 0 [bar0; 0; 0; 0; 0; 0]].
Definition ecam0 : Z := 0x30000000.
(** The BAR has the bit of a prefetchable memory. *)
Definition mem0 (bar : Z) : memory := <[ecam0 + 0x110010 := bar]> ∅.
Definition uefi0 : pcie_state memory := mk_pcie None None 0 (mem0 bar0).
Definition bm0 (bar : Z) : enum_state memory :=
  mk_enum (mem0 bar) (mk_info 1 [mk_block ecam0 0 0 0xFF]) 0 0 (mk_pool 0 0 0 0) (mk_pool 0 0 0 0) (mk_pool 0 0 0 0) 0 0.
Definition Bdf0 : Z := 0x00010200.

Lemma words_read a (h : memory) : hw_read W32 (Z.land a (Z.lnot 3)) h = hw_read W32 a h.
Proof. cbn. by rewrite <- Z.land_assoc, Z.land_diag. Qed.
Lemma words_write a v (h : memory) : hw_write W32 (Z.land a (Z.lnot 3)) v h = hw_write W32 a v h.
Proof. cbn. by rewrite <- Z.land_assoc, Z.land_diag. Qed.

(** Starting the monitor, and setting the requester id. *)
Lemma exerciser_ports_agree_witness :
  same_run ecam0 Bdf0 (pal_exerciser_ops cards ecam0 START_TXN_MONITOR 0 Bdf0 uefi0) (pal_exerciser_ops_bm START_TXN_MONITOR 0 Bdf0 (bm0 bar0)) /\
  same_run ecam0 Bdf0 (pal_exerciser_set_param cards ecam0 CFG_TXN_ATTRIBUTES TXN_REQ_ID 0x55 Bdf0 uefi0)
    (pal_exerciser_set_param_bm CFG_TXN_ATTRIBUTES TXN_REQ_ID 0x55 Bdf0 (bm0 bar0)).
Proof.
  destruct (exerciser_ports_agree words_read words_write cards ecam0 Bdf0 bar0 uefi0 (bm0 bar0) (bm0 bar0)) as (H1 & _ & H3);
    [reflexivity|vm_compute; reflexivity|split; vm_compute; reflexivity|].
  split; [exact (H1 START_TXN_MONITOR 0)|exact (H3 CFG_TXN_ATTRIBUTES TXN_REQ_ID 0x55 eq_refl)].
Defined.

(** A device that tells the addresses apart, and a BAR whose address is odd by two. *)
Definition exact_words : Hardware memory := {|
  hw_read _ a h := (default 0 (h !! a), h);
  hw_write _ a v h := <[a := v]> h |}.

(** without the condition on the hardware the ports differ: a monitor is started at the
    address given by the port for UEFI and at the one before it by the bare-metal port. *)
Theorem unaligned_accesses_differ :
  exists s t,
    @mmio_write memory exact_words (bar0 + 2) TXN_START uefi0 = Done (tt, s) /\
    @bm_mmio_write memory exact_words (bar0 + 2) TXN_START (bm0 bar0) = Done (tt, t) /\
    hw uefi0 = bus_hw (bm0 bar0) /\ hw s = <[bar0 + 2 := TXN_START]> (hw uefi0) /\
    bus_hw t = <[bar0 := TXN_START]> (hw uefi0) /\ hw s <> bus_hw t.
Proof.
  eexists _, _. split; [reflexivity|]. split; [reflexivity|]. split; [reflexivity|]. split; [vm_compute; reflexivity|].
  split; [vm_compute; reflexivity|]. intros E. apply (f_equal (fun h => h !! bar0)) in E. vm_compute in E. discriminate E.
Qed.

(** The case left out: the port for UEFI changes the address type. *)
Theorem validity_falls_through :
  falls_through CFG_TXN_ATTRIBUTES TXN_REQ_ID_VALID 2 = true /\
  match pal_exerciser_set_param cards ecam0 CFG_TXN_ATTRIBUTES TXN_REQ_ID_VALID 2 Bdf0 uefi0,
        pal_exerciser_set_param_bm CFG_TXN_ATTRIBUTES TXN_REQ_ID_VALID 2 Bdf0 (bm0 bar0) with
  | Done (r, s), Done (r', t) => r = 0 /\ r' = 0 /\ hw s !! (bar0 + DMACTL1) = Some (Z.shiftl 2 10) /\ bus_hw t !! (bar0 + DMACTL1) = None
  | _, _ => False
  end.
Proof. split; [reflexivity|]. vm_compute. by split_and!. Qed.

(** A prefetchable BAR is reported as one that is not. *)
Lemma exerciser_bars_bm_witness : exists bar s1, pal_pcie_get_base Bdf0 0 (bm0 (bar0 + 8)) = Done (bar, s1) /\
  (0, Some (bar_space bar0 (Some MMIO_NON_PREFETCHABLE))) = (0, Some (bar_space bar (Some MMIO_NON_PREFETCHABLE))).
Proof.
  apply (exerciser_bars_bm Bdf0 ecam0 EXERCISER_DATA_MMIO_SPACE (bm0 (bar0 + 8)) (0, Some (bar_space bar0 (Some MMIO_NON_PREFETCHABLE))) (bm0 (bar0 + 8)));
    [by right|vm_compute; reflexivity].
Defined.
End Sample.
