(* ===== verification/BmIovirt.v ===== *)
(** * The I/O virtualisation table of the bare-metal port

    Models [platform/pal_baremetal/common/src/pal_iovirt.c]: the table is built from the
    configuration of the platform, as bytes with the layout of [Iovirt.v]; the queries are
    those of [Iovirt.v], with blocks aligned to 8 bytes when the suite boots on bare metal.
    Messages and the dump of the table are left out. *)

From S2P Require Import Prelude Mmio Bytes Iovirt.

(** ** The configuration ([platform_override_struct.h]) *)

(** The mappings of a node are an array of structures here, four arrays in the code. *)
Record PLATFORM_OVERRIDE_IOVIRT_INFO_TABLE := mk_iovirt_cfg {
  io_Address : Z; io_node_count : Z; io_type : list Z; io_num_map : list Z; io_map : list (list IORT_ID_MAPPING) }.
Record PLATFORM_OVERRIDE_SMMU_INFO_BLOCK := mk_smmu_cfg { smmu_base : Z; context_interrupt_offset : Z; context_interrupt_count : Z }.
Record PLATFORM_OVERRIDE_NODE_DATA := mk_node_data {
  rc_segment : Z; rc_ats_attr : Z; rc_cca : Z; nd_its_count : Z; nd_smmu : list PLATFORM_OVERRIDE_SMMU_INFO_BLOCK }.

Definition IOVIRT_CCA_MASK : Z := 0xFFFFFFFF.
(** The rows of [identifier], one after the other. *)
Definition identifier : list Z := [0; 1; 2; 3; 4].

Section Create.
(** [IORT_NODE_COUNT] and [NUM_ITS_COUNT] of the platform, and the alignment. *)
Context (cfg : PLATFORM_OVERRIDE_IOVIRT_INFO_TABLE) (platform_node_type : PLATFORM_OVERRIDE_NODE_DATA).
Context (NODE_COUNT : nat) (NUM_ITS_COUNT bound : Z) `{Uninit}.
Local Abbreviation P := (prog bytes).

(** The offset of the interrupts in the configuration is a single field; comparing it with
    a next one reads past it. *)
Definition smmu_ctx_int_distinct_bm (ctx_int_cnt : Z) : P bool := if u8 ctx_int_cnt <=? 1 then ret true else undef.

(** The [switch] on the type of node [i]: the new values of [m] and [k], [None] for an
    invalid type. *)
Definition fill_node (t block i ty m k : Z) : P (option (Z * Z)) :=
  let num_map := at_index (io_num_map cfg) i in
  if ty =? IOVIRT_NODE_ITS_GROUP then
    let its_count := nd_its_count platform_node_type in
    st 4 (d_its_count block) its_count ;;;
    let* ids := deref (if i + its_count <=? Z.of_nat (length identifier)
                       then Some (take (Z.to_nat its_count) (drop (Z.to_nat i) identifier)) else None) in
    copy_words ids (b_data_map block) ;;;
    st 4 (b_num_data_map block) (u32 (its_count + 3) / 4) ;;;
    incr (t_num_its_groups t) ;;; ret (Some (m, k))
  else if ty =? IOVIRT_NODE_NAMED_COMPONENT then
    let* n := deref num_map in st 4 (b_num_data_map block) n ;;;
    incr (t_num_named_components t) ;;; ret (Some (m, k))
  else if ty =? IOVIRT_NODE_PCI_ROOT_COMPLEX then
    st 4 (d_rc_segment block) (rc_segment platform_node_type) ;;;
    st 4 (d_rc_cca block) (Z.land (rc_cca platform_node_type) IOVIRT_CCA_MASK) ;;;
    st 4 (d_rc_ats_attr block) (rc_ats_attr platform_node_type) ;;;
    let* n := deref num_map in st 4 (b_num_data_map block) n ;;;
    incr (t_num_pci_rcs t) ;;; ret (Some (m, k))
  else if ty =? IOVIRT_NODE_SMMU then
    let* s := deref (at_index (nd_smmu platform_node_type) m) in
    st 8 (d_smmu_base block) (smmu_base s) ;;;
    st 4 (d_smmu_arch_major_rev block) 2 ;;;
    let* n := deref num_map in st 4 (b_num_data_map block) n ;;;
    let* distinct := smmu_ctx_int_distinct_bm (context_interrupt_count s) in
    when (negb distinct) (set_flag block IOVIRT_FLAG_SMMU_CTX_INT_SHIFT) ;;;
    incr (t_num_smmus t) ;;; ret (Some (u32 (m + 1), k))
  else if ty =? IOVIRT_NODE_SMMU_V3 then
    let* s := deref (at_index (nd_smmu platform_node_type) k) in
    st 8 (d_smmu_base block) (smmu_base s) ;;;
    st 4 (d_smmu_arch_major_rev block) 3 ;;;
    let* n := deref num_map in st 4 (b_num_data_map block) n ;;;
    incr (t_num_smmus t) ;;; ret (Some (m, u32 (k + 1)))
  else if ty =? IOVIRT_NODE_PMCG then
    let* n := deref num_map in st 4 (b_num_data_map block) n ;;;
    incr (t_num_pmcgs t) ;;; ret (Some (m, k))
  else ret None.

(** The mappings from number [j] on; the reference of an SMMU is stored twice. *)
Fixpoint fill_maps (n : nat) (i ty z : Z) (node : list Z) (j data_map : Z) : P unit :=
  match n with
  | O => ret tt
  | S c =>
      let* mp := deref (ms ← at_index (io_map cfg) i; at_index ms j) in
      st 4 (m_input_base data_map) (input_base mp) ;;;
      st 4 (m_id_count data_map) (id_count mp) ;;;
      st 4 (m_output_base data_map) (output_base mp) ;;;
      when (ty =? IOVIRT_NODE_SMMU_V3) (let* r := deref (at_index node z) in st 4 (m_output_ref data_map) r) ;;;
      (if ty =? IOVIRT_NODE_PCI_ROOT_COMPLEX
       then let* r := deref (at_index node (j + NUM_ITS_COUNT)) in st 4 (m_output_ref data_map) r
       else st 4 (m_output_ref data_map) (output_reference mp)) ;;;
      fill_maps c i ty z node (j + 1) (data_map + sizeof_NODE_DATA_MAP)
  end.

(** One round: the locals [m], [k], [z], the array [node] and the next block. *)
Definition create_node (t i m k z block : Z) (node : list Z) : P (option (Z * Z * Z * list Z * Z)) :=
  let block := ALIGN_MEMORY block bound in
  let* ty := deref (at_index (io_type cfg) i) in
  st 4 (b_type block) ty ;;;
  st 4 (b_flags block) 0 ;;;
  let* r := fill_node t block i ty m k in
  match r with
  | None => ret None
  | Some (m', k') =>
      let* _ := deref (at_index node i) in
      let node' := <[Z.to_nat i := u32 (block - t)]> node in
      (if negb (ty =? IOVIRT_NODE_ITS_GROUP) then
         let* n := ld 4 (b_num_data_map block) in fill_maps (Z.to_nat n) i ty z node' 0 (b_data_map block)
       else ret tt) ;;;
      incr (t_num_blocks t) ;;;
      let* next := IOVIRT_NEXT_BLOCK block in
      ret (Some (m', k', if negb (ty =? IOVIRT_NODE_ITS_GROUP) then z + 1 else z, node', next))
  end.
Fixpoint create_nodes_bm (n : nat) (t i m k z block : Z) (node : list Z) : P unit :=
  match n with
  | O => ret tt
  | S c =>
      let* r := create_node t i m k z block node in
      match r with
      | None => ret tt
      | Some (m', k', z', node', next) => create_nodes_bm c t (i + 1) m' k' z' next node'
      end
  end.

Definition pal_iovirt_create_info_table_bm (t : Z) : P unit :=
  if t =? 0 then ret tt else
  st 4 (t_num_blocks t) 0 ;;; st 4 (t_num_smmus t) 0 ;;; st 4 (t_num_pci_rcs t) 0 ;;;
  st 4 (t_num_named_components t) 0 ;;; st 4 (t_num_its_groups t) 0 ;;; st 4 (t_num_pmcgs t) 0 ;;;
  if io_Address cfg =? 0 then ret tt else
  create_nodes_bm (Z.to_nat (io_node_count cfg)) t 0 0 0 0 (t_blocks t) (replicate NODE_COUNT (uninit "node")).
End Create.

(** ** Words that a run leaves behind

    A fact is a width, an address and the value that a load gives there. *)

Abbreviation fact := (nat * Z * Z)%type.
Definition holds (m : bytes) (f : fact) : Prop := load_le f.1.1 f.1.2 m = Some f.2.
Definition apart (a : Z) (n : nat) (f : fact) : Prop := a + Z.of_nat n <= f.1.2 \/ f.1.2 + Z.of_nat f.1.1 <= a.

Definition runs {A} (p : prog bytes A) (m : bytes) (Q : A -> bytes -> Prop) : Prop :=
  exists r m', p m = Done (r, m') /\ Q r m'.

Lemma runs_ret {A} (a : A) m (Q : A -> bytes -> Prop) : Q a m -> runs (ret a) m Q.
Proof. intros HQ. by exists a, m. Qed.

Lemma runs_bind {A B} (p : prog bytes A) (k : A -> prog bytes B) m Q1 Q :
  runs p m Q1 -> (forall r m', Q1 r m' -> runs (k r) m' Q) -> runs (bind p k) m Q.
Proof.
  intros (r & m1 & E & H1) Hk. destruct (Hk r m1 H1) as (r' & m2 & E2 & H2). exists r', m2.
  by rewrite (bind_done _ _ _ _ _ E).
Qed.

Lemma runs_deref {A B} (o : option A) (x : A) (k : A -> prog bytes B) m Q : o = Some x -> runs (k x) m Q -> runs (bind (deref o) k) m Q.
Proof. by intros ->. Qed.

Lemma runs_assoc {B} (p q : prog bytes unit) (k : prog bytes B) Q1 m Q :
  runs (p ;;; q) m Q1 -> (forall m', Q1 tt m' -> runs k m' Q) -> runs (p ;;; q ;;; k) m Q.
Proof.
  intros (r & m1 & E & H1) Hk. destruct r. destruct (Hk m1 H1) as (r' & m2 & E2 & H2). exists r', m2. split; [|done].
  revert E. unfold bind. destruct (p m) as [[[] m3]| |]; [|done|done]. intros ->. done.
Qed.

(** Membership in lists of facts, and a place that the facts leave free. *)
Ltac in_facts := intros ?f; cbn [app]; repeat (rewrite elem_of_app || rewrite elem_of_cons || rewrite elem_of_nil); tauto.
Ltac node_cases := cbn [Z.eqb Pos.eqb orb IOVIRT_NODE_ITS_GROUP IOVIRT_NODE_NAMED_COMPONENT IOVIRT_NODE_PCI_ROOT_COMPLEX
  IOVIRT_NODE_SMMU IOVIRT_NODE_SMMU_V3 IOVIRT_NODE_PMCG] in *.
Ltac in_offsets := apply (bool_decide_unpack _); vm_compute; exact I.
Ltac facts_apart H := repeat (apply Forall_cons; split; [unfold apart; cbn; lia|]); apply H; lia.

(** Facts about the bytes in [lo, hi), which are all there. *)
Section Facts.
Context (lo hi : Z).
Definition room (m : bytes) : Prop := forall x, lo <= x < hi -> is_Some (m !! x).

Lemma load_room n a m : room m -> lo <= a -> a + Z.of_nat n <= hi -> is_Some (load_le n a m).
Proof.
  intros Hr. revert a. induction n as [|n IH]; intros a Ha He; [by exists 0|]. cbn [load_le].
  destruct (Hr a ltac:(lia)) as [b ->]. destruct (IH (a + 1) ltac:(lia) ltac:(lia)) as [r ->]. by eexists.
Qed.

Lemma store_room n a v m : room m -> lo <= a -> a + Z.of_nat n <= hi -> exists m', store_le n a v m = Some m' /\ room m'.
Proof.
  revert a v m. induction n as [|n IH]; intros a v m Hr Ha He; cbn [store_le]; [by exists m|].
  destruct (Hr a ltac:(lia)) as [b Eb]. rewrite Eb. apply IH; [|lia|lia]. intros x Hx.
  destruct (decide (a = x)) as [->|Hne]; [by rewrite lookup_insert_eq|rewrite lookup_insert_ne by done; auto].
Qed.

Lemma holds_frame m m' f : (forall x, f.1.2 <= x < f.1.2 + Z.of_nat f.1.1 -> m' !! x = m !! x) -> holds m f -> holds m' f.
Proof. intros Hx. unfold holds. by rewrite (load_le_ext _ _ _ _ Hx). Qed.
End Facts.

(** A store between the facts, in the part of the memory that may change, [inside]. *)
Section Block.
Context (lo hi : Z) (inside : Z -> Prop) (m0 : bytes).

Record state_ok (fs : list fact) (m : bytes) : Prop := {
  ok_room : room lo hi m;
  ok_frame : forall x, ~ inside x -> m !! x = m0 !! x;
  ok_facts : Forall (holds m) fs }.

Lemma store_ok n a v fs m : state_ok fs m -> lo <= a -> a + Z.of_nat n <= hi ->
  (forall x, a <= x < a + Z.of_nat n -> inside x) -> Forall (apart a n) fs ->
  exists m', store_le n a v m = Some m' /\ state_ok fs m'.
Proof.
  intros [Hr Hf Hfs] Ha He Hin Hap. destruct (store_room lo hi n a v m Hr Ha He) as (m' & E & Hr').
  exists m'. split; [done|]. split; [done| |].
  - intros x Hx. rewrite (store_le_frame _ _ _ _ _ x E); [auto|]. destruct (decide (a <= x < a + Z.of_nat n)); [exfalso; eauto|lia].
  - rewrite Forall_forall in Hfs, Hap |- *. intros f Hi. apply (holds_frame m); [|by apply Hfs].
    intros x Hx. apply (store_le_frame _ _ _ _ _ x E). destruct (Hap f Hi); lia.
Qed.

Lemma runs_st {B} n a v fs m (k : prog bytes B) Q : state_ok fs m -> lo <= a -> a + Z.of_nat n <= hi ->
  (forall x, a <= x < a + Z.of_nat n -> inside x) -> Forall (apart a n) fs -> 0 <= v < 256 ^ Z.of_nat n ->
  (forall m', state_ok ((n, a, v) :: fs) m' -> runs k m' Q) -> runs (st n a v ;;; k) m Q.
Proof.
  intros Hs Ha He Hin Hap Hv Hk. destruct (store_ok n a v fs m Hs Ha He Hin Hap) as (m' & E & [Hr' Hf' Hfs']).
  apply (runs_bind _ _ _ (fun _ x => x = m')); [exists tt, m'; unfold st; by rewrite E|].
  intros _ ? ->. apply Hk. split; [done|done|]. constructor; [|done]. unfold holds. cbn [fst snd].
  rewrite (store_le_load _ _ _ _ _ E) by lia. f_equal. apply Z.mod_small. lia.
Qed.

(** A load of a fact, and an increment of one. *)
Lemma runs_ld {B} n a v fs m (k : Z -> prog bytes B) Q : state_ok fs m -> (n, a, v) ∈ fs ->
  runs (k v) m Q -> runs (bind (ld n a) k) m Q.
Proof.
  intros [_ _ Hfs] Hin Hk. apply (runs_bind _ _ _ (fun r x => r = v /\ x = m)).
  - rewrite Forall_forall in Hfs. exists v, m. unfold ld. by rewrite (Hfs _ Hin : load_le n a m = Some v).
  - by intros ? ? [-> ->].
Qed.

Lemma state_weaken fs fs' m : state_ok fs m -> (forall f, f ∈ fs' -> f ∈ fs) -> state_ok fs' m.
Proof. intros [Hr Hf Hfs] Hi. split; [done|done|]. rewrite Forall_forall in Hfs |- *. auto. Qed.

Lemma runs_incr {B} a v fs m (k : prog bytes B) Q : state_ok ((4%nat, a, v) :: fs) m -> lo <= a -> a + 4 <= hi ->
  (forall x, a <= x < a + 4 -> inside x) -> Forall (apart a 4) fs ->
  (forall m', state_ok ((4%nat, a, u32 (v + 1)) :: fs) m' -> runs k m' Q) -> runs (incr a ;;; k) m Q.
Proof.
  intros Hs Ha He Hin Hap Hk. apply (runs_bind _ _ _ (fun _ x => state_ok ((4%nat, a, u32 (v + 1)) :: fs) x)); [|by intros _ m' Hm'; apply Hk].
  unfold incr. apply (runs_ld _ _ v ((4%nat, a, v) :: fs)); [done|left|].
  destruct (store_ok 4 a (u32 (v + 1)) fs m) as (m' & E & [Hr' Hf' Hfs']); [|done..|].
  - apply (state_weaken _ _ _ Hs). intros. by right.
  - exists tt, m'. unfold st. rewrite E. split; [done|]. split; [done|done|]. constructor; [|done]. unfold holds. cbn [fst snd].
    pose proof (u32_range (v + 1)). rewrite (store_le_load _ _ _ _ _ E) by lia. f_equal. apply Z.mod_small. cbn. lia.
Qed.
End Block.

(** ** The table lists the nodes of the platform *)

Section Listed.
Context (cfg : PLATFORM_OVERRIDE_IOVIRT_INFO_TABLE) (nd : PLATFORM_OVERRIDE_NODE_DATA).
Context (NODE_COUNT : nat) (NUM_ITS_COUNT bound : Z) `{Uninit}.
Context (t hi : Z) (Hhi : hi < 2 ^ 32).

Definition in_word (v : Z) : bool := (0 <=? v) && (v <? 2 ^ 32).
Definition in_long (v : Z) : bool := (0 <=? v) && (v <? 2 ^ 64).
Definition map_ok (mp : IORT_ID_MAPPING) : bool :=
  in_word (input_base mp) && in_word (id_count mp) && in_word (output_base mp) && in_word (output_reference mp).
Definition smmu_ok (s : PLATFORM_OVERRIDE_SMMU_INFO_BLOCK) : bool := in_long (smmu_base s) && (u8 (context_interrupt_count s) <=? 1).
Definition data_ok : bool :=
  (0 <=? nd_its_count nd) && in_word (rc_segment nd) && in_word (rc_cca nd) && in_word (rc_ats_attr nd) && (0 <=? NUM_ITS_COUNT).

(** Node [i] is one that the code handles: its arrays are long enough, the identifiers
    reach for it, and a root complex refers to nodes before it. *)
Definition node_ok (i : nat) (ty m k : Z) : bool :=
  (i <? NODE_COUNT)%nat &&
  if ty =? IOVIRT_NODE_ITS_GROUP then Z.of_nat i + nd_its_count nd <=? 5
  else match io_num_map cfg !! i, io_map cfg !! i with
       | Some n, Some ms =>
           in_word n && (n <=? Z.of_nat (length ms)) && forallb map_ok ms &&
           (if ty =? IOVIRT_NODE_NAMED_COMPONENT then true
            else if ty =? IOVIRT_NODE_PCI_ROOT_COMPLEX then n + NUM_ITS_COUNT <=? Z.of_nat i
            else if ty =? IOVIRT_NODE_SMMU then match at_index (nd_smmu nd) m with Some s => smmu_ok s | None => false end
            else if ty =? IOVIRT_NODE_SMMU_V3 then match at_index (nd_smmu nd) k with Some s => smmu_ok s | None => false end
            else ty =? IOVIRT_NODE_PMCG)
       | _, _ => false
       end.
Definition next_m (ty m : Z) : Z := if ty =? IOVIRT_NODE_SMMU then u32 (m + 1) else m.
Definition next_k (ty k : Z) : Z := if ty =? IOVIRT_NODE_SMMU_V3 then u32 (k + 1) else k.
Fixpoint nodes_ok (tys : list Z) (i : nat) (m k : Z) : bool :=
  match tys with [] => true | ty :: r => node_ok i ty m k && nodes_ok r (S i) (next_m ty m) (next_k ty k) end.

(** Where the blocks go: start and end. *)
Definition maps_of (i : nat) (ty : Z) : Z :=
  if ty =? IOVIRT_NODE_ITS_GROUP then u32 (nd_its_count nd + 3) / 4 else default 0 (io_num_map cfg !! i).
Fixpoint places (tys : list Z) (i : nat) (b : Z) : list (Z * Z) :=
  match tys with
  | [] => []
  | ty :: r => let b := ALIGN_MEMORY b bound in
               let e := b_data_map b + maps_of i ty * sizeof_NODE_DATA_MAP in (b, e) :: places r (S i) e
  end.

(** The words of a block that the configuration gives; [starts] are the offsets of the
    blocks, to which the mappings of a root complex refer. *)
Definition ref_of (ty : Z) (starts : list Z) (j : Z) (mp : IORT_ID_MAPPING) : Z :=
  if ty =? IOVIRT_NODE_PCI_ROOT_COMPLEX then default 0 (at_index starts (j + NUM_ITS_COUNT)) else output_reference mp.
Fixpoint map_facts (ty : Z) (starts : list Z) (ms : list IORT_ID_MAPPING) (j a : Z) : list fact :=
  match ms with
  | [] => []
  | mp :: r =>
      [(4%nat, m_input_base a, input_base mp); (4%nat, m_id_count a, id_count mp); (4%nat, m_output_base a, output_base mp);
       (4%nat, m_output_ref a, ref_of ty starts j mp)] ++ map_facts ty starts r (j + 1) (a + sizeof_NODE_DATA_MAP)
  end.
Fixpoint id_facts (ids : list Z) (a : Z) : list fact :=
  match ids with [] => [] | x :: r => (4%nat, a, x) :: id_facts r (a + 4) end.
Definition smmu_facts (b rev : Z) (s : option PLATFORM_OVERRIDE_SMMU_INFO_BLOCK) : list fact :=
  match s with
  | Some s => [(8%nat, d_smmu_base b, smmu_base s); (4%nat, d_smmu_arch_major_rev b, rev)]
  | None => []
  end.
Definition data_facts (b : Z) (i : nat) (ty m k : Z) : list fact :=
  if ty =? IOVIRT_NODE_ITS_GROUP then
    (4%nat, d_its_count b, nd_its_count nd) :: id_facts (take (Z.to_nat (nd_its_count nd)) (drop i identifier)) (b_data_map b)
  else if ty =? IOVIRT_NODE_NAMED_COMPONENT then []
  else if ty =? IOVIRT_NODE_PCI_ROOT_COMPLEX then
    [(4%nat, d_rc_segment b, rc_segment nd); (4%nat, d_rc_cca b, rc_cca nd); (4%nat, d_rc_ats_attr b, rc_ats_attr nd)]
  else if ty =? IOVIRT_NODE_SMMU then smmu_facts b 2 (at_index (nd_smmu nd) m)
  else if ty =? IOVIRT_NODE_SMMU_V3 then smmu_facts b 3 (at_index (nd_smmu nd) k)
  else [].
Definition node_facts (b : Z) (i : nat) (ty m k : Z) (starts : list Z) : list fact :=
  [(4%nat, b_type b, ty); (4%nat, b_num_data_map b, maps_of i ty)] ++ data_facts b i ty m k ++
  (if ty =? IOVIRT_NODE_ITS_GROUP then []
   else map_facts ty starts (take (Z.to_nat (maps_of i ty)) (default [] (io_map cfg !! i))) 0 (b_data_map b)).
Fixpoint table_facts (tys : list Z) (i : nat) (m k b : Z) (starts : list Z) : list fact :=
  match tys with
  | [] => []
  | ty :: r => let b := ALIGN_MEMORY b bound in
               let e := b_data_map b + maps_of i ty * sizeof_NODE_DATA_MAP in
               node_facts b i ty m k starts ++ table_facts r (S i) (next_m ty m) (next_k ty k) e starts
  end.

(** The counters of the header, by their offset. *)
Definition offsets : list Z := [0; 4; 8; 12; 16; 20].
Definition counters (cnt : Z -> Z) : list fact := (fun o => (4%nat, t + o, cnt o)) <$> offsets.
Definition bump (o : Z) (cnt : Z -> Z) : Z -> Z := fun x => if x =? o then u32 (cnt o + 1) else cnt x.
Definition counter_of (ty : Z) : Z :=
  if ty =? IOVIRT_NODE_ITS_GROUP then 16 else if ty =? IOVIRT_NODE_NAMED_COMPONENT then 12
  else if ty =? IOVIRT_NODE_PCI_ROOT_COMPLEX then 8 else if (ty =? IOVIRT_NODE_SMMU) || (ty =? IOVIRT_NODE_SMMU_V3) then 4 else 20.

Section OneBlock.
Context (b e : Z) (Hb : t + 24 <= b) (Hbe : b <= e) (He : e <= hi) (m0 : bytes).
Definition inside (x : Z) : Prop := t <= x < t + 24 \/ b <= x < e.
Local Abbreviation ok fs cnt := (state_ok t hi inside m0 (fs ++ counters cnt)).

Lemma counters_in o cnt : o ∈ offsets -> (4%nat, t + o, cnt o) ∈ counters cnt.
Proof. intros Ho. apply list_elem_of_fmap. by exists o. Qed.

Lemma counters_apart a n cnt : t + 24 <= a -> Forall (apart a n) (counters cnt).
Proof. intros Ha. unfold counters, offsets. repeat constructor; unfold apart; cbn; lia. Qed.

Lemma runs_put {B} n a v fs cnt m (k : prog bytes B) Q : ok fs cnt m -> b <= a -> a + Z.of_nat n <= e ->
  Forall (apart a n) fs -> 0 <= v < 256 ^ Z.of_nat n ->
  (forall m', ok ((n, a, v) :: fs) cnt m' -> runs k m' Q) -> runs (st n a v ;;; k) m Q.
Proof.
  intros Hs Ha Hn Hap Hv Hk. apply (runs_st t hi inside m0 n a v (fs ++ counters cnt)); [done|lia|lia| |apply Forall_app; split; [done|apply counters_apart; lia]|done|done].
  intros x Hx. right. lia.
Qed.

Lemma runs_count {B} o fs cnt m (k : prog bytes B) Q : o ∈ offsets -> ok fs cnt m -> Forall (fun f => t + 24 <= f.1.2) fs ->
  (forall m', ok fs (bump o cnt) m' -> runs k m' Q) -> runs (incr (t + o) ;;; k) m Q.
Proof.
  intros Ho Hs Hfs Hk. set (others := (fun x => (4%nat, t + x, cnt x)) <$> filter (fun x => x <> o) offsets).
  assert (Ho2 : 0 <= o <= 20) by (revert Ho; unfold offsets; rewrite !elem_of_cons, elem_of_nil; lia).
  apply (runs_incr t hi inside m0 (t + o) (cnt o) (fs ++ others)); [|lia|lia| | |].
  - apply (state_weaken _ _ _ _ _ _ _ Hs). intros f. rewrite elem_of_cons, !elem_of_app. intros [->|[?|Hf]]; [right|by left|right].
    + by apply counters_in.
    + apply list_elem_of_fmap in Hf as (x & -> & [_ Hx]%list_elem_of_filter). by apply counters_in.
  - intros x Hx. left. lia.
  - apply Forall_app. split; [eapply Forall_impl; [exact Hfs|]; intros f Hf; cbn in Hf; unfold apart; left; lia|].
    apply Forall_forall. intros f (x & -> & [Hne Hx]%list_elem_of_filter)%list_elem_of_fmap. unfold apart. cbn [fst snd].
    revert Ho Hx. unfold offsets. rewrite !elem_of_cons, !elem_of_nil. lia.
  - intros m' Hm'. apply Hk. apply (state_weaken _ _ _ _ _ _ _ Hm'). intros f. rewrite elem_of_cons, !elem_of_app.
    intros [?|(x & -> & Hx)%list_elem_of_fmap]; [tauto|]. unfold bump. destruct (Z.eqb_spec x o) as [->|Hne]; [by left|].
    right. right. apply list_elem_of_fmap. exists x. split; [done|]. by apply list_elem_of_filter.
Qed.

Definition clear_of (a : Z) (len : Z) (fs : list fact) : Prop := Forall (fun f => f.1.2 + Z.of_nat f.1.1 <= a \/ a + len <= f.1.2) fs.

Lemma clear_apart a len fs x n : clear_of a len fs -> a <= x -> x + Z.of_nat n <= a + len -> Forall (apart x n) fs.
Proof. intros Hc Ha Hn. eapply Forall_impl; [exact Hc|]. intros f Hf. cbn in Hf. unfold apart. lia. Qed.

Lemma clear_sub a len fs a' len' : clear_of a len fs -> a <= a' -> a' + len' <= a + len -> clear_of a' len' fs.
Proof. intros Hc Ha Hn. eapply Forall_impl; [exact Hc|]. intros f Hf. cbn in Hf |- *. lia. Qed.

Lemma copy_words_runs {B} ids (k : prog bytes B) Q : forall a fs cnt m, ok fs cnt m -> b <= a ->
  a + 4 * Z.of_nat (length ids) <= e -> clear_of a (4 * Z.of_nat (length ids)) fs -> Forall (fun x => 0 <= x < 2 ^ 32) ids ->
  (forall m', ok (id_facts ids a ++ fs) cnt m' -> runs k m' Q) -> runs (copy_words ids a ;;; k) m Q.
Proof.
  induction ids as [|x ids IH]; intros a fs cnt m Hs Ha Hn Hc Hv Hk; cbn [copy_words id_facts length] in *.
  - apply (runs_bind _ _ _ (fun _ x => x = m)); [by apply runs_ret|]. intros _ ? ->. by apply Hk.
  - apply Forall_cons in Hv as [Hx Hv].
    cut (runs (st 4 a x ;;; (copy_words ids (a + 4) ;;; k)) m Q).
    { unfold runs. intros (r & m' & E & HQ). exists r, m'. split; [|done]. rewrite <- E. unfold bind. by destruct (st 4 a x m) as [[? ?]| |]. }
    apply (runs_put 4 a x fs cnt m); [done|lia|lia|by eapply clear_apart; [exact Hc|lia|cbn; lia]|cbn; lia|].
    intros m' Hm'. apply (IH (a + 4) _ cnt m' Hm'); [lia|lia| |done|].
    + apply Forall_cons. split; [cbn; lia|]. eapply clear_sub; [exact Hc|lia|lia].
    + intros m2 Hm2. apply Hk. apply (state_weaken _ _ _ _ _ _ _ Hm2). in_facts.
Qed.

Lemma map_ok_words mp : map_ok mp = true -> 0 <= input_base mp < 2 ^ 32 /\ 0 <= id_count mp < 2 ^ 32 /\
  0 <= output_base mp < 2 ^ 32 /\ 0 <= output_reference mp < 2 ^ 32.
Proof. unfold map_ok, in_word. lia. Qed.

(** The last store of a run. *)
Lemma put_runs n a v fs cnt m : ok fs cnt m -> b <= a -> a + Z.of_nat n <= e -> Forall (apart a n) fs ->
  0 <= v < 256 ^ Z.of_nat n -> runs (st n a v) m (fun _ m' => ok ((n, a, v) :: fs) cnt m').
Proof.
  intros Hs Ha Hn Hap Hv. cut (runs (st n a v ;;; ret tt) m (fun _ m' => ok ((n, a, v) :: fs) cnt m')).
  - unfold runs, bind. intros (r & m' & E & HQ). destruct (st n a v m) as [[? m1]| |] eqn:E1; try done. injection E as <- <-. by eexists _, _.
  - apply (runs_put n a v fs cnt m); [done..|]. intros m1 H1. by apply runs_ret.
Qed.

(** The references that the mappings of the block need are in the array. *)
Definition node_refs (ty z : Z) (node starts : list Z) (j len : Z) : Prop :=
  (ty = IOVIRT_NODE_SMMU_V3 -> is_Some (at_index node z)) /\
  (ty = IOVIRT_NODE_PCI_ROOT_COMPLEX -> forall j', j <= j' < j + len -> exists r, 0 <= r < 2 ^ 32 /\
    at_index node (j' + NUM_ITS_COUNT) = Some r /\ at_index starts (j' + NUM_ITS_COUNT) = Some r).

Definition three_words (a : Z) (mp : IORT_ID_MAPPING) : list fact :=
  [(4%nat, a + 8, output_base mp); (4%nat, a + 4, id_count mp); (4%nat, a, input_base mp)].

(** The reference of a mapping, which an SMMU stores twice. *)
Lemma fill_ref_runs ty z node starts j len mp a fs cnt m : node_refs ty z node starts j len -> 0 < len -> map_ok mp = true ->
  ok fs cnt m -> b <= a -> a + 4 <= e -> Forall (apart a 4) fs ->
  runs (when (ty =? IOVIRT_NODE_SMMU_V3) (let* r := deref (at_index node z) in st 4 a r) ;;;
        (if ty =? IOVIRT_NODE_PCI_ROOT_COMPLEX
         then let* r := deref (at_index node (j + NUM_ITS_COUNT)) in st 4 a r else st 4 a (output_reference mp)))
    m (fun _ m' => ok ((4%nat, a, ref_of ty starts j mp) :: fs) cnt m').
Proof.
  intros [Hv3 Hrc] Hlen Hmp Hs Ha Hn Hap. destruct (map_ok_words mp Hmp) as (_ & _ & _ & R4).
  apply (runs_bind _ _ _ (fun _ x => ok fs cnt x)).
  { destruct (Z.eqb_spec ty IOVIRT_NODE_SMMU_V3) as [Ey|]; cbn [when]; [|by apply runs_ret].
    destruct (Hv3 Ey) as [r Hr]. apply (runs_deref _ r); [done|].
    destruct (store_ok t hi inside m0 4 a r _ m Hs) as (m' & E & H'); [lia|lia|intros; right; lia| |exists tt, m'; unfold st; by rewrite E].
    apply Forall_app. split; [done|apply counters_apart; lia]. }
  intros _ m' H'. unfold ref_of. destruct (Z.eqb_spec ty IOVIRT_NODE_PCI_ROOT_COMPLEX) as [Ey|]; [|by apply put_runs; (done || cbn; lia)].
  destruct (Hrc Ey j ltac:(lia)) as (r & Rr & Hr & ->). apply (runs_deref _ r); [done|]. apply put_runs; (done || cbn; lia).
Qed.

Lemma fill_maps_runs i ty z node starts msall ms : io_map cfg !! i = Some msall -> forall j a fs cnt m,
  (forall q mp, ms !! q = Some mp -> at_index msall (j + Z.of_nat q) = Some mp) ->
  Forall (fun mp => map_ok mp = true) ms -> node_refs ty z node starts j (Z.of_nat (length ms)) ->
  ok fs cnt m -> b <= a -> a + 16 * Z.of_nat (length ms) <= e -> clear_of a (16 * Z.of_nat (length ms)) fs ->
  runs (fill_maps cfg NUM_ITS_COUNT (length ms) (Z.of_nat i) ty z node j a) m (fun _ m' => ok (map_facts ty starts ms j a ++ fs) cnt m').
Proof.
  intros Hms. induction ms as [|mp ms IH]; intros j a fs cnt m Hnth Hok Href Hs Ha Hn Hc; cbn [fill_maps map_facts length] in *.
  { by apply runs_ret. }
  apply Forall_cons in Hok as [Hmp Hok]. destruct (map_ok_words mp Hmp) as (R1 & R2 & R3 & _).
  apply (runs_deref _ mp). { rewrite at_index_nat, Hms. cbn. rewrite <- (Hnth 0%nat mp eq_refl). f_equal. lia. }
  unfold m_input_base, m_id_count, m_output_base, m_output_ref, sizeof_NODE_DATA_MAP.
  assert (Hap : forall x n, a <= x -> x + Z.of_nat n <= a + 16 -> Forall (apart x n) fs) by (intros; eapply clear_apart; [exact Hc|lia|lia]).
  apply (runs_put 4 a (input_base mp) fs cnt m); [done|lia|lia|apply Hap; lia|cbn; lia|]. intros m1 H1.
  eapply (runs_put 4); [exact H1|lia|lia|facts_apart Hap|cbn; lia|]. intros m2 H2.
  eapply (runs_put 4); [exact H2|lia|lia|facts_apart Hap|cbn; lia|]. intros m3 H3.
  change (ok (three_words a mp ++ fs) cnt m3) in H3.
  apply (runs_assoc _ _ _ (fun _ x => ok ((4%nat, a + 12, ref_of ty starts j mp) :: three_words a mp ++ fs) cnt x)).
  { eapply fill_ref_runs; [exact Href|lia|done|exact H3|lia|lia|facts_apart Hap]. }
  intros m5 H5. destruct (IH (j + 1) (a + 16) ((4%nat, a + 12, ref_of ty starts j mp) :: three_words a mp ++ fs) cnt m5)
    as (r & m6 & E6 & H6); [..|exists r, m6; split; [exact E6|]].
  - intros q x Hq. rewrite <- (Hnth (S q) x Hq). f_equal. lia.
  - done.
  - split; [exact (proj1 Href)|]. intros Ey j' Hj'. apply (proj2 Href Ey). lia.
  - done.
  - lia.
  - lia.
  - repeat (apply Forall_cons; split; [cbn; lia|]). eapply clear_sub; [exact Hc|lia|lia].
  - unfold three_words in H6. apply (state_weaken _ _ _ _ _ _ _ H6). in_facts.
Qed.

(** The [switch]: what it leaves besides the type and the flags. *)
Definition flags_type (ty : Z) : list fact := [(4%nat, b_flags b, 0); (4%nat, b_type b, ty)].
Definition switch_facts (i : nat) (ty m k : Z) : list fact := (4%nat, b_num_data_map b, maps_of i ty) :: data_facts b i ty m k.

(** The number of mappings and the counter are written last; [fs] are the data. *)
Lemma fill_tail_runs n c o (r : option (Z * Z)) fs fs' ty cnt mem : o = t + c -> c ∈ offsets -> 0 <= n < 2 ^ 32 -> b + 268 <= e ->
  ok (fs ++ flags_type ty) cnt mem -> Forall (apart (b + 4) 4) fs -> Forall (fun f => t + 24 <= f.1.2) fs ->
  (forall f, f ∈ fs' -> f = (4%nat, b_num_data_map b, n) \/ f ∈ fs) ->
  runs (st 4 (b_num_data_map b) n ;;; incr o ;;; ret r) mem (fun r' mem' => r' = r /\ ok (fs' ++ flags_type ty) (bump c cnt) mem').
Proof.
  intros -> Hc Hn He2 Hs Hap Habove Hsub. unfold b_num_data_map, flags_type, b_flags, b_type in *.
  eapply (runs_put 4); [exact Hs|lia|lia| |cbn; lia|].
  { apply Forall_app. split; [done|]. repeat (apply Forall_cons; split; [unfold apart; cbn; lia|]). done. }
  intros m1 H1. eapply (runs_count c); [done|exact H1| |].
  { apply Forall_cons. split; [cbn; lia|]. apply Forall_app. split; [done|]. repeat (apply Forall_cons; split; [cbn; lia|]). done. }
  intros m2 H2. apply runs_ret. split; [done|]. apply (state_weaken _ _ _ _ _ _ _ H2). intros f. pose proof (Hsub f) as Hf.
  revert Hf. cbn [app]. repeat (rewrite elem_of_app || rewrite elem_of_cons). tauto.
Qed.

Lemma id_facts_above ids a : Forall (fun f => a <= f.1.2 /\ f.1.1 = 4%nat) (id_facts ids a).
Proof.
  revert a. induction ids as [|x ids IH]; intros a; cbn; [done|]. apply Forall_cons. split; [cbn; lia|].
  eapply Forall_impl; [apply IH|]. intros f Hf. cbn in *. lia.
Qed.

Lemma identifier_words i n : Forall (fun x => 0 <= x < 2 ^ 32) (take n (drop i identifier)).
Proof. apply Forall_take, Forall_drop. repeat constructor; lia. Qed.

Lemma its_runs (i : nat) m k cnt mem : data_ok = true -> Z.of_nat i + nd_its_count nd <= 5 ->
  e = b_data_map b + maps_of i IOVIRT_NODE_ITS_GROUP * 16 -> ok (flags_type IOVIRT_NODE_ITS_GROUP) cnt mem ->
  runs (fill_node cfg nd t b (Z.of_nat i) IOVIRT_NODE_ITS_GROUP m k) mem (fun r mem' => r = Some (m, k) /\
    ok (switch_facts i IOVIRT_NODE_ITS_GROUP m k ++ flags_type IOVIRT_NODE_ITS_GROUP) (bump 16 cnt) mem').
Proof.
  intros Hd Hi Ee Hs. assert (Hc : 0 <= nd_its_count nd) by (unfold data_ok in Hd; lia).
  unfold fill_node, switch_facts, data_facts. cbn [Z.eqb Pos.eqb IOVIRT_NODE_ITS_GROUP].
  unfold maps_of in *. cbn [Z.eqb Pos.eqb IOVIRT_NODE_ITS_GROUP] in *. rewrite u32_small in * by lia.
  unfold b_data_map, d_its_count, b_data in *.
  eapply (runs_put 4); [exact Hs|lia|lia| |cbn; lia|].
  { unfold flags_type, b_flags, b_type. repeat (apply Forall_cons; split; [unfold apart; cbn; lia|]). done. }
  intros m1 H1. eapply runs_deref. { change (Z.of_nat (length identifier)) with 5. destruct (Z.leb_spec (Z.of_nat i + nd_its_count nd) 5); [done|lia]. }
  rewrite Nat2Z.id. set (ids := take _ _). assert (Hlen : Z.of_nat (length ids) = nd_its_count nd).
  { unfold ids. rewrite length_take, length_drop. change (length identifier) with 5%nat. lia. }
  eapply (copy_words_runs ids); [exact H1|lia|lia| |apply identifier_words|].
  { unfold flags_type, b_flags, b_type. repeat (apply Forall_cons; split; [cbn; lia|]). done. }
  intros m2 H2. apply (fill_tail_runs _ 16 _ _ (id_facts ids (b + 268) ++ [(4%nat, b + 8, nd_its_count nd)]));
    [done|in_offsets|lia|lia| | | |].
  - apply (state_weaken _ _ _ _ _ _ _ H2). in_facts.
  - apply Forall_app. split; [|repeat constructor; unfold apart; cbn; lia].
    eapply Forall_impl; [apply id_facts_above|]. intros f Hf. cbn in Hf. unfold apart. lia.
  - apply Forall_app. split; [|repeat constructor; cbn; lia]. eapply Forall_impl; [apply id_facts_above|]. intros f Hf. cbn in *. lia.
  - in_facts.
Qed.

(** The other types, whose number of mappings is given. *)
Section Given.
Context (i : nat) (n : Z) (Hn : io_num_map cfg !! i = Some n) (Rn : 0 <= n < 2 ^ 32) (Hend : b + 268 <= e).

Lemma num_map_at : at_index (io_num_map cfg) (Z.of_nat i) = Some n.
Proof. by rewrite at_index_nat. Qed.

Lemma maps_given ty : (ty =? IOVIRT_NODE_ITS_GROUP) = false -> maps_of i ty = n.
Proof. intros E. unfold maps_of. by rewrite E, Hn. Qed.

Lemma flags_apart a len ty : b + 8 <= a -> a + Z.of_nat len <= b + 264 -> Forall (apart a len) (flags_type ty).
Proof. intros Ha Hl. unfold flags_type, b_flags, b_type. repeat (apply Forall_cons; split; [unfold apart; cbn; lia|]). done. Qed.

(** A type without data of its own. *)
Lemma plain_runs ty c o (r : option (Z * Z)) cnt mem : (ty =? IOVIRT_NODE_ITS_GROUP) = false -> o = t + c -> c ∈ offsets ->
  ok (flags_type ty) cnt mem ->
  runs (let* x := deref (at_index (io_num_map cfg) (Z.of_nat i)) in st 4 (b_num_data_map b) x ;;; incr o ;;; ret r) mem
    (fun r' mem' => r' = r /\ ok ((4%nat, b_num_data_map b, maps_of i ty) :: flags_type ty) (bump c cnt) mem').
Proof.
  intros Ety Eo Hc Hs. apply (runs_deref _ n); [exact num_map_at|]. rewrite (maps_given ty Ety).
  apply (fill_tail_runs n c o r [] [(4%nat, b_num_data_map b, n)]); [done|done|done|done|done|done|done|].
  intros f. rewrite elem_of_cons. tauto.
Qed.

Lemma rc_runs m k cnt mem : data_ok = true -> ok (flags_type IOVIRT_NODE_PCI_ROOT_COMPLEX) cnt mem ->
  runs (fill_node cfg nd t b (Z.of_nat i) IOVIRT_NODE_PCI_ROOT_COMPLEX m k) mem (fun r mem' => r = Some (m, k) /\
    ok (switch_facts i IOVIRT_NODE_PCI_ROOT_COMPLEX m k ++ flags_type IOVIRT_NODE_PCI_ROOT_COMPLEX) (bump 8 cnt) mem').
Proof.
  intros Hd Hs. unfold data_ok, in_word in Hd. unfold fill_node, switch_facts, data_facts. rewrite maps_given by done.
  cbn [Z.eqb Pos.eqb IOVIRT_NODE_ITS_GROUP IOVIRT_NODE_NAMED_COMPONENT IOVIRT_NODE_PCI_ROOT_COMPLEX].
  unfold d_rc_segment, d_rc_cca, d_rc_ats_attr, b_data.
  assert (Ecca : Z.land (rc_cca nd) IOVIRT_CCA_MASK = rc_cca nd).
  { change IOVIRT_CCA_MASK with (Z.ones 32). rewrite Z.land_ones by lia. apply Z.mod_small. lia. }
  rewrite Ecca. eapply (runs_put 4); [exact Hs|lia|lia|apply flags_apart; lia|cbn; lia|]. intros m1 H1.
  eapply (runs_put 4); [exact H1|lia|lia|facts_apart flags_apart|cbn; lia|]. intros m2 H2.
  eapply (runs_put 4); [exact H2|lia|lia|facts_apart flags_apart|cbn; lia|]. intros m3 H3.
  apply (runs_deref _ n); [exact num_map_at|].
  apply (fill_tail_runs n 8 _ _ [(4%nat, b + 8 + 4, rc_ats_attr nd); (4%nat, b + 8 + 8, rc_cca nd); (4%nat, b + 8, rc_segment nd)]);
    [done|in_offsets|done|lia|exact H3|repeat constructor; unfold apart; cbn; lia|repeat constructor; cbn; lia|in_facts].
Qed.

(** An SMMU: the entry of the configuration and the counter; [tail] comes to the last two
    steps. *)
Lemma smmu_runs ty rev s (r : option (Z * Z)) (tail : prog bytes (option (Z * Z))) cnt mem : (ty =? IOVIRT_NODE_ITS_GROUP) = false ->
  smmu_ok s = true -> 0 <= rev < 2 ^ 32 -> (forall x, tail x = (incr (t_num_smmus t) ;;; ret r) x) -> ok (flags_type ty) cnt mem ->
  runs (st 8 (d_smmu_base b) (smmu_base s) ;;; st 4 (d_smmu_arch_major_rev b) rev ;;;
        let* x := deref (at_index (io_num_map cfg) (Z.of_nat i)) in st 4 (b_num_data_map b) x ;;; tail) mem
    (fun r' mem' => r' = r /\ ok ((4%nat, b_num_data_map b, maps_of i ty) :: smmu_facts b rev (Some s) ++ flags_type ty) (bump 4 cnt) mem').
Proof.
  intros Ety Hok Hrev Htl Hs. unfold smmu_ok, in_long in Hok. rewrite (maps_given ty Ety). unfold smmu_facts, d_smmu_base, d_smmu_arch_major_rev, b_data.
  eapply (runs_put 8); [exact Hs|lia|lia|apply flags_apart; lia|cbn; lia|]. intros m1 H1.
  eapply (runs_put 4); [exact H1|lia|lia|facts_apart flags_apart|cbn; lia|]. intros m2 H2.
  apply (runs_deref _ n); [exact num_map_at|].
  destruct (fill_tail_runs n 4 (t_num_smmus t) r [(4%nat, b + 8, rev); (8%nat, b + 8 + 8, smmu_base s)]
    [(4%nat, b_num_data_map b, n); (8%nat, b + 8 + 8, smmu_base s); (4%nat, b + 8, rev)] ty cnt m2) as (r' & m3 & E & HQ);
    [done|in_offsets|done|lia|exact H2|repeat constructor; unfold apart; cbn; lia|repeat constructor; cbn; lia|in_facts|].
  exists r', m3. split; [|exact HQ]. unfold bind at 1. unfold bind at 1 in E.
  destruct (st 4 (b_num_data_map b) n m2) as [[[] m4]| |]; [by rewrite Htl|done|done].
Qed.

Lemma given_runs ty m k cnt mem : data_ok = true -> node_ok i ty m k = true -> (ty =? IOVIRT_NODE_ITS_GROUP) = false ->
  ok (flags_type ty) cnt mem ->
  runs (fill_node cfg nd t b (Z.of_nat i) ty m k) mem (fun r mem' => r = Some (next_m ty m, next_k ty k) /\
    ok (switch_facts i ty m k ++ flags_type ty) (bump (counter_of ty) cnt) mem').
Proof.
  intros Hd Hok Ety Hs. unfold node_ok in Hok. rewrite Ety, Hn in Hok. destruct (io_map cfg !! i) as [ms|]; [|lia].
  apply andb_prop in Hok as [_ [_ Hok]%andb_prop].
  destruct (Z.eqb_spec ty IOVIRT_NODE_NAMED_COMPONENT) as [->|N1].
  { apply (plain_runs _ 12); [done|done|in_offsets|done]. }
  destruct (Z.eqb_spec ty IOVIRT_NODE_PCI_ROOT_COMPLEX) as [->|N2]; [by apply rc_runs|].
  destruct (Z.eqb_spec ty IOVIRT_NODE_SMMU) as [->|N3].
  { destruct (at_index (nd_smmu nd) m) as [s|] eqn:Es; [|done].
    unfold fill_node, switch_facts, data_facts, counter_of, next_m, next_k. rewrite Es.
    node_cases. apply (runs_deref _ s); [reflexivity|]. apply smmu_runs; [done|done|done| |done].
    intros x. unfold smmu_ok in Hok. unfold smmu_ctx_int_distinct_bm. destruct (Z.leb_spec (u8 (context_interrupt_count s)) 1); [done|lia]. }
  destruct (Z.eqb_spec ty IOVIRT_NODE_SMMU_V3) as [->|N4].
  { destruct (at_index (nd_smmu nd) k) as [s|] eqn:Es; [|done].
    unfold fill_node, switch_facts, data_facts, counter_of, next_m, next_k. rewrite Es.
    node_cases. apply (runs_deref _ s); [reflexivity|]. by apply smmu_runs. }
  apply Z.eqb_eq in Hok as ->. apply (plain_runs _ 20); [done|done|in_offsets|done].
Qed.
End Given.

Lemma fill_node_runs (i : nat) ty m k cnt mem : data_ok = true -> node_ok i ty m k = true -> e = b_data_map b + maps_of i ty * 16 ->
  ok (flags_type ty) cnt mem ->
  runs (fill_node cfg nd t b (Z.of_nat i) ty m k) mem (fun r mem' => r = Some (next_m ty m, next_k ty k) /\
    ok (switch_facts i ty m k ++ flags_type ty) (bump (counter_of ty) cnt) mem').
Proof.
  intros Hd Hok Ee Hs. destruct (Z.eqb_spec ty IOVIRT_NODE_ITS_GROUP) as [->|Hne].
  { unfold node_ok in Hok. cbn [Z.eqb Pos.eqb IOVIRT_NODE_ITS_GROUP] in Hok. apply its_runs; [done|lia|done|done]. }
  apply Z.eqb_neq in Hne. pose proof Hok as Hok2. unfold node_ok in Hok2. rewrite Hne in Hok2.
  destruct (io_num_map cfg !! i) as [n|] eqn:En; [|lia]. destruct (io_map cfg !! i) as [ms|]; [|lia].
  assert (Rn : 0 <= n < 2 ^ 32) by (unfold in_word in Hok2; lia).
  apply (given_runs i n); [done|done| |done..]. unfold maps_of in Ee. rewrite Hne, En in Ee. unfold b_data_map in Ee. cbn in Ee. lia.
Qed.

Lemma node_ok_type i ty m k : node_ok i ty m k = true -> 0 <= ty < 2 ^ 32.
Proof.
  unfold node_ok. destruct (Z.eqb_spec ty IOVIRT_NODE_ITS_GROUP) as [->|]; [done|].
  destruct (io_num_map cfg !! i), (io_map cfg !! i); try (intros; lia).
  destruct (Z.eqb_spec ty IOVIRT_NODE_NAMED_COMPONENT) as [->|]; [done|].
  destruct (Z.eqb_spec ty IOVIRT_NODE_PCI_ROOT_COMPLEX) as [->|]; [done|].
  destruct (Z.eqb_spec ty IOVIRT_NODE_SMMU) as [->|]; [done|].
  destruct (Z.eqb_spec ty IOVIRT_NODE_SMMU_V3) as [->|]; [done|].
  destruct (Z.eqb_spec ty IOVIRT_NODE_PMCG) as [->|]; [done|]. intros. lia.
Qed.

(** The facts of the [switch] lie before the mappings. *)
Lemma switch_facts_below i ty m k : (ty =? IOVIRT_NODE_ITS_GROUP) = false ->
  Forall (fun f => f.1.2 + Z.of_nat f.1.1 <= b + 268) (switch_facts i ty m k ++ flags_type ty).
Proof.
  intros Ety. unfold switch_facts, data_facts, flags_type, b_flags, b_type, b_num_data_map. rewrite Ety.
  assert (Hs : forall rev s, Forall (fun f => f.1.2 + Z.of_nat f.1.1 <= b + 268) (smmu_facts b rev s)).
  { intros rev [s|]; unfold smmu_facts, d_smmu_base, d_smmu_arch_major_rev, b_data; repeat constructor; cbn; lia. }
  constructor; [cbn; lia|]. apply Forall_app. split; [|repeat constructor; cbn; lia].
  repeat case_match; auto; unfold d_rc_segment, d_rc_cca, d_rc_ats_attr, b_data; repeat constructor; cbn; lia.
Qed.

Lemma data_facts_above i ty m k f : f ∈ data_facts b i ty m k -> b <= f.1.2.
Proof.
  revert f. apply Forall_forall. unfold data_facts.
  assert (Hs : forall rev s, Forall (fun f => b <= f.1.2) (smmu_facts b rev s)).
  { intros rev [s|]; unfold smmu_facts, d_smmu_base, d_smmu_arch_major_rev, b_data; repeat constructor; cbn; lia. }
  repeat case_match; auto; unfold d_its_count, d_rc_segment, d_rc_cca, d_rc_ats_attr, b_data; try (repeat constructor; cbn; lia).
  constructor; [cbn; lia|]. eapply Forall_impl; [apply id_facts_above|]. intros f Hf. cbn in Hf. unfold b_data_map in Hf. lia.
Qed.

(** All facts of a block lie inside of it. *)
Lemma map_facts_inside ty starts ms : forall j a,
  Forall (fun f => a <= f.1.2 /\ f.1.2 + Z.of_nat f.1.1 <= a + 16 * Z.of_nat (length ms)) (map_facts ty starts ms j a).
Proof.
  induction ms as [|mp ms IH]; intros j a; cbn [map_facts length]; [done|].
  unfold m_input_base, m_id_count, m_output_base, m_output_ref, sizeof_NODE_DATA_MAP. cbn [app].
  repeat (apply Forall_cons; split; [cbn; lia|]). eapply Forall_impl; [apply IH|]. intros f Hf. cbn in *. lia.
Qed.

Lemma id_facts_inside ids : forall a, Forall (fun f => a <= f.1.2 /\ f.1.2 + Z.of_nat f.1.1 <= a + 4 * Z.of_nat (length ids)) (id_facts ids a).
Proof.
  induction ids as [|x ids IH]; intros a; cbn [id_facts length]; [done|]. apply Forall_cons. split; [cbn; lia|].
  eapply Forall_impl; [apply IH|]. intros f Hf. cbn in *. lia.
Qed.

Lemma node_facts_inside i ty m k starts : data_ok = true -> node_ok i ty m k = true -> e = b_data_map b + maps_of i ty * 16 ->
  Forall (fun f => b <= f.1.2 /\ f.1.2 + Z.of_nat f.1.1 <= e) (node_facts b i ty m k starts).
Proof.
  intros Hd Hok Ee. unfold node_facts, b_type, b_num_data_map. cbn [app]. unfold node_ok in Hok.
  destruct (ty =? IOVIRT_NODE_ITS_GROUP) eqn:Ety; cbv iota in Hok; apply andb_prop in Hok as [_ Hok].
  - assert (0 <= nd_its_count nd) by (unfold data_ok in Hd; lia). unfold maps_of in Ee |- *. rewrite Ety in Ee |- *. assert (Eu : u32 (nd_its_count nd + 3) = nd_its_count nd + 3)  by (apply Z.leb_le in Hok; apply u32_small; lia).
    rewrite Eu in Ee |- *. unfold b_data_map in Ee. do 2 (apply Forall_cons; split; [cbn; lia|]). rewrite app_nil_r. unfold data_facts. rewrite Ety.
    unfold d_its_count, b_data. apply Forall_cons. split; [cbn; lia|]. eapply Forall_impl; [apply id_facts_inside|].
    intros f Hf. cbn in Hf. rewrite length_take, length_drop in Hf. change (length identifier) with 5%nat in Hf. unfold b_data_map in *. lia.
  - destruct (io_num_map cfg !! i) as [n|] eqn:En; [|lia]. destruct (io_map cfg !! i) as [ms|] eqn:Em; [|lia].
    assert (Rn : 0 <= n) by (unfold in_word in Hok; lia). unfold maps_of in *. rewrite Ety, En in *. cbn [default from_option id] in *.
    unfold b_data_map in Ee. pose proof (switch_facts_below i ty m k Ety) as Hb2. apply Forall_app in Hb2 as [Hb2 _].
    do 2 (apply Forall_cons; split; [cbn; lia|]). apply Forall_app. split.
    + apply Forall_forall. intros f Hf. split; [by apply (data_facts_above i ty m k)|]. rewrite Forall_forall in Hb2.
      specialize (Hb2 f ltac:(unfold switch_facts; by right)). lia.
    + eapply Forall_impl; [apply map_facts_inside|]. intros f Hf. cbn in Hf. unfold b_data_map in Hf. rewrite length_take in Hf. lia.
Qed.

(** What the array of offsets holds when node [i] comes. *)
Definition offsets_known (i : nat) (node starts : list Z) : Prop :=
  length node = NODE_COUNT /\ forall q, 0 <= q < Z.of_nat i -> exists r, 0 <= r < 2 ^ 32 /\ at_index node q = Some r /\ at_index starts q = Some r.

Lemma maps_part_runs i ty m k z node starts v cnt mem : data_ok = true -> node_ok i ty m k = true -> offsets_known i node starts -> 0 <= z <= Z.of_nat i ->
  e = b_data_map b + maps_of i ty * 16 -> ok (switch_facts i ty m k ++ flags_type ty) cnt mem ->
  runs (if negb (ty =? IOVIRT_NODE_ITS_GROUP) then
          let* n := ld 4 (b_num_data_map b) in
          fill_maps cfg NUM_ITS_COUNT (Z.to_nat n) (Z.of_nat i) ty z (<[i := v]> node) 0 (b_data_map b)
        else ret tt) mem
    (fun _ mem' => ok (node_facts b i ty m k starts) cnt mem').
Proof.
  intros Hd Hok [Hlen Hknown] Hz Ee Hs. unfold node_facts. destruct (ty =? IOVIRT_NODE_ITS_GROUP) eqn:Ety; cbn [negb].
  { apply runs_ret. apply (state_weaken _ _ _ _ _ _ _ Hs). unfold switch_facts, flags_type. in_facts. }
  eapply (runs_ld t hi inside m0 4 _ (maps_of i ty)); [exact Hs|unfold switch_facts; left|].
  pose proof Hok as Hok2. unfold node_ok in Hok2. rewrite Ety in Hok2. unfold maps_of in *. rewrite Ety in *.
  destruct (io_num_map cfg !! i) as [n|] eqn:En; [|lia]. destruct (io_map cfg !! i) as [msall|] eqn:Em; [|lia]. cbn [default] in *.
  apply andb_prop in Hok2 as [Hi [[[Rn Hn]%andb_prop Hall]%andb_prop Hty]%andb_prop]. unfold in_word in Rn. cbn [from_option id] in *.
  set (ms := take (Z.to_nat n) msall). assert (Lms : length ms = Z.to_nat n) by (unfold ms; rewrite length_take; lia). rewrite <- Lms.
  destruct (fill_maps_runs i ty z (<[i := v]> node) starts msall ms Em 0 (b_data_map b) (switch_facts i ty m k ++ flags_type ty) cnt mem)
    as (r & mem' & E & H'); [..|exists r, mem'; split; [exact E|]].
  - intros q mp Hq. unfold ms in Hq. apply lookup_take_Some in Hq as [Hq _]. by rewrite Z.add_0_l, at_index_nat.
  - apply Forall_take. apply Forall_forall. intros x Hx%list_elem_of_In. rewrite forallb_forall in Hall. auto.
  - split; [intros _; apply at_index_lt; rewrite length_insert; apply Nat.ltb_lt in Hi; lia|]. intros -> j' Hj. node_cases.
    destruct (Hknown (j' + NUM_ITS_COUNT)) as (r & Rr & Hr & Hst); [unfold data_ok in Hd; lia|].
    exists r. split; [done|]. split; [|done]. rewrite <- Hr. unfold at_index. destruct (0 <=? j' + NUM_ITS_COUNT); [|done]. apply list_lookup_insert_ne. unfold data_ok in Hd. lia.
  - done.
  - unfold b_data_map. lia.
  - unfold b_data_map in *. lia.
  - eapply Forall_impl; [by apply switch_facts_below|]. intros f Hf. cbn in *. left. unfold b_data_map. lia.
  - apply (state_weaken _ _ _ _ _ _ _ H'). unfold switch_facts, flags_type. unfold maps_of. rewrite Ety, En. cbn [default]. in_facts.
Qed.

Lemma create_node_runs (i : nat) ty m k z blk node starts cnt mem : ALIGN_MEMORY blk bound = b -> io_type cfg !! i = Some ty ->
  data_ok = true -> node_ok i ty m k = true -> offsets_known i node starts -> at_index starts (Z.of_nat i) = Some (b - t) ->
  0 <= z <= Z.of_nat i -> 0 <= t -> e = b_data_map b + maps_of i ty * 16 -> b + 268 <= e -> ok [] cnt mem ->
  runs (create_node cfg nd NUM_ITS_COUNT bound t (Z.of_nat i) m k z blk node) mem (fun r mem' =>
    exists z' node', r = Some (next_m ty m, next_k ty k, z', node', e) /\ offsets_known (S i) node' starts /\ 0 <= z' <= Z.of_nat (S i) /\
      ok (node_facts b i ty m k starts) (bump 0 (bump (counter_of ty) cnt)) mem').
Proof.
  intros Eb Ety Hd Hok Hknown Hst Hz Ht Ee He2 Hs. unfold create_node. rewrite Eb. pose proof (node_ok_type i ty m k Hok) as Rty.
  apply (runs_deref _ ty); [by rewrite at_index_nat|]. unfold b_flags, b_type.
  eapply (runs_put 4); [exact Hs|lia|lia|done|done|]. intros m1 H1.
  eapply (runs_put 4); [exact H1|lia|lia|repeat constructor; unfold apart; cbn; lia|done|]. intros m2 H2.
  eapply runs_bind; [by apply (fill_node_runs i ty m k cnt m2 Hd Hok Ee)|]. cbn beta. intros r m3 [-> H3].
  assert (Hlt : (i < NODE_COUNT)%nat) by (unfold node_ok in Hok; apply andb_prop in Hok as [Hok _]; by apply Nat.ltb_lt).
  destruct Hknown as [Hlen Hknown]. destruct (at_index_lt node (Z.of_nat i)) as [old Hold]; [lia|].
  apply (runs_deref _ old); [done|]. rewrite Nat2Z.id. rewrite (u32_small (b - t)) by lia.
  eapply runs_bind; [by apply (maps_part_runs i ty m k z node starts (b - t) (bump (counter_of ty) cnt) m3 Hd Hok (conj Hlen Hknown) Hz Ee)|]. cbn beta. intros _ m4 H4.
  replace (t_num_blocks t) with (t + 0) by (unfold t_num_blocks; lia). eapply (runs_count 0); [in_offsets|exact H4| |].
  { eapply Forall_impl; [exact (node_facts_inside i ty m k starts Hd Hok Ee)|]. intros f Hf. cbn in Hf. lia. }
  intros m5 H5. unfold IOVIRT_NEXT_BLOCK. apply (runs_bind _ _ _ (fun r x => r = e /\ x = m5)).
  { eapply (runs_ld t hi inside m0 4 _ (maps_of i ty)); [exact H5|unfold node_facts; right; left|].
    apply runs_ret. split; [|done]. rewrite Ee. unfold sizeof_NODE_DATA_MAP. lia. }
  intros r m6 [-> ->]. apply runs_ret. eexists _, _. split; [reflexivity|]. split; [|split; [destruct (negb _); lia|exact H5]].
  split; [by rewrite length_insert|]. intros q Hq. destruct (decide (q = Z.of_nat i)) as [->|Hne].
  - exists (b - t). split; [lia|]. split; [|done]. rewrite at_index_nat, list_lookup_insert_eq; [done|lia].
  - destruct (Hknown q) as (r & Rr & Hr & Hst'); [lia|]. exists r. split; [done|]. split; [|done]. rewrite <- Hr.
    unfold at_index. destruct (0 <=? q) eqn:Eq; [|done]. apply list_lookup_insert_ne. lia.
Qed.
End OneBlock.

Lemma align_memory_up x : bound = 1 \/ bound = 8 -> 0 <= x -> x <= ALIGN_MEMORY x bound.
Proof.
  intros [->| ->] Hx; [rewrite ALIGN_MEMORY_1; lia|]. unfold ALIGN_MEMORY.
  change (Z.lnot (8 - 1)) with (Z.lnot (Z.ones 3)). rewrite <- Z.ldiff_land, Z.ldiff_ones_r, Z.shiftr_div_pow2, Z.shiftl_mul_pow2 by lia.
  cbn [Z.pow Z.pow_pos Pos.iter Z.mul]. pose proof (Z.div_mod (x + 8 - 1) 8). pose proof (Z.mod_pos_bound (x + 8 - 1) 8). lia.
Qed.

Lemma maps_of_nonneg i ty m k : data_ok = true -> node_ok i ty m k = true -> 0 <= maps_of i ty.
Proof.
  intros Hd Hok. unfold maps_of, node_ok in *. destruct (ty =? IOVIRT_NODE_ITS_GROUP).
  - pose proof (u32_range (nd_its_count nd + 3)). apply Z.div_pos; lia.
  - destruct (io_num_map cfg !! i), (io_map cfg !! i); try (exfalso; lia). unfold in_word in Hok. cbn. lia.
Qed.

Fixpoint bumps (tys : list Z) (cnt : Z -> Z) : Z -> Z :=
  match tys with [] => cnt | ty :: r => bumps r (bump 0 (bump (counter_of ty) cnt)) end.

Lemma create_nodes_runs starts : bound = 1 \/ bound = 8 -> data_ok = true -> 0 <= t ->
  forall tys i m k z blk node cnt mem, drop i (io_type cfg) = tys -> nodes_ok tys i m k = true -> offsets_known i node starts ->
  (forall q p, places tys i blk !! q = Some p -> at_index starts (Z.of_nat (i + q)) = Some (p.1 - t)) ->
  0 <= z <= Z.of_nat i -> t + 24 <= blk -> room t hi mem -> Forall (holds mem) (counters cnt) ->
  Forall (fun p => p.2 <= hi) (places tys i blk) ->
  runs (create_nodes_bm cfg nd NUM_ITS_COUNT bound (length tys) t (Z.of_nat i) m k z blk node) mem (fun _ mem' =>
    (forall x, t + 24 <= x < blk -> mem' !! x = mem !! x) /\ Forall (holds mem') (counters (bumps tys cnt)) /\ Forall (holds mem') (table_facts tys i m k blk starts)).
Proof.
  intros Hbound Hd Ht tys. induction tys as [|ty tys IH]; intros i m k z blk node cnt mem Hdrop Hok Hknown Hst Hz Hblk Hr Hc Hends.
  { cbn. apply runs_ret. by repeat split. }
  cbn [nodes_ok places length create_nodes_bm table_facts bumps] in *. apply andb_prop in Hok as [Hok Hrest].
  apply Forall_cons in Hends as [Hend Hends]. cbn [fst snd] in Hend.
  pose proof (align_memory_up blk Hbound ltac:(lia)) as Hal. set (b := ALIGN_MEMORY blk bound) in *.
  pose proof (maps_of_nonneg i ty m k Hd Hok) as Hmaps. set (e := b_data_map b + maps_of i ty * sizeof_NODE_DATA_MAP) in *.
  assert (Ee : b + 268 <= e) by (unfold e, b_data_map, sizeof_NODE_DATA_MAP; lia).
  eapply runs_bind.
  { apply (create_node_runs b e ltac:(lia) ltac:(lia) ltac:(lia) mem i ty m k z blk node starts cnt mem); [done| |done|done|done| |lia|lia|done|lia|split; done].
    - by apply (f_equal (fun l => l !! 0%nat)) in Hdrop; rewrite lookup_drop, Nat.add_0_r in Hdrop.
    - pose proof (Hst 0%nat (b, e) eq_refl) as E0. by rewrite Nat.add_0_r in E0. }
  cbn beta. intros r mem1 (z' & node' & -> & Hknown' & Hz' & [Hr1 Hf1 Hfs1]). cbv iota.
  apply Forall_app in Hfs1 as [Hnode Hcnt]. replace (Z.of_nat i + 1) with (Z.of_nat (S i)) by lia.
  destruct (IH (S i) (next_m ty m) (next_k ty k) z' e node' (bump 0 (bump (counter_of ty) cnt)) mem1) as (r & mem2 & E & Hf2 & Hc2 & Ht2); [..|exists r, mem2; split; [exact E|]]; try done.
  - replace (S i) with (i + 1)%nat by lia. by rewrite <- drop_drop, Hdrop.
  - intros q p Hq. rewrite Nat.add_succ_l, <- Nat.add_succ_r. by apply (Hst (S q)).
  - lia.
  - split; [|split; [done|]].
    + intros x Hx. rewrite Hf2 by lia. apply Hf1. unfold inside. lia.
    + apply Forall_app. split; [|done]. pose proof (node_facts_inside b e i ty m k starts Hd Hok eq_refl) as Hin.
      rewrite Forall_forall in Hnode, Hin |- *. intros f Hf. apply (holds_frame mem1); [|by apply Hnode].
      intros x Hx. apply Hf2. specialize (Hin f Hf). cbn in Hin. lia.
Qed.

(** How many nodes a counter of the header counts. *)
Definition counted (tys : list Z) (o : Z) : nat :=
  if o =? 0 then length tys else length (filter (fun ty => counter_of ty = o) tys).

Lemma bumps_counted tys cnt o : 0 <= cnt o < 2 ^ 32 -> bumps tys cnt o = u32 (cnt o + Z.of_nat (counted tys o)).
Proof.
  revert cnt. induction tys as [|ty tys IH]; intros cnt Hc; cbn [bumps].
  { rewrite u32_small; unfold counted; destruct (o =? 0); cbn; lia. }
  assert (Hne : counter_of ty <> 0) by (unfold counter_of; repeat case_match; done).
  assert (Es : forall a n, u32 (u32 (a + 1) + Z.of_nat n) = u32 (a + Z.of_nat (S n))) by (intros; unfold u32; lia).
  assert (E : bump 0 (bump (counter_of ty) cnt) o = if (o =? 0) || (o =? counter_of ty) then u32 (cnt o + 1) else cnt o).
  { unfold bump. destruct (Z.eqb_spec o 0) as [Ho|Ho]; cbn [orb].
    - rewrite Ho. destruct (Z.eqb_spec 0 (counter_of ty)); [congruence|done].
    - destruct (Z.eqb_spec o (counter_of ty)) as [Ho2|]; [by rewrite Ho2|done]. }
  pose proof (u32_range (cnt o + 1)) as R1. rewrite IH, E; [|rewrite E; by destruct (_ || _)].
  unfold counted. cbn [length]. rewrite filter_cons. destruct (Z.eqb_spec o 0) as [Ho|Ho]; cbn [orb]; [apply Es|].
  destruct (Z.eqb_spec o (counter_of ty)) as [Ho2|Ho2]; [rewrite decide_True by done; apply Es|by rewrite decide_False by congruence].
Qed.

Definition is_header (x : Z) : Prop := t <= x < t + 24.

Lemma header_runs {B} (k : prog bytes B) mem Q : t + 24 <= hi -> room t hi mem ->
  (forall m', state_ok t hi is_header mem (counters (fun _ => 0)) m' -> runs k m' Q) ->
  runs (st 4 (t_num_blocks t) 0 ;;; st 4 (t_num_smmus t) 0 ;;; st 4 (t_num_pci_rcs t) 0 ;;;
        st 4 (t_num_named_components t) 0 ;;; st 4 (t_num_its_groups t) 0 ;;; st 4 (t_num_pmcgs t) 0 ;;; k) mem Q.
Proof.
  intros Hh Hr Hk. unfold t_num_blocks, t_num_smmus, t_num_pci_rcs, t_num_named_components, t_num_its_groups, t_num_pmcgs.
  assert (H0 : state_ok t hi is_header mem [] mem) by done.
  assert (Hap : forall x n, t <= x -> x + Z.of_nat n <= t + 24 -> Forall (apart x n) []) by done.
  eapply (runs_st _ _ _ _ 4); [exact H0|lia|lia|unfold is_header; lia|facts_apart Hap|lia|]. intros m1 H1.
  eapply (runs_st _ _ _ _ 4); [exact H1|lia|lia|unfold is_header; lia|facts_apart Hap|lia|]. intros m2 H2.
  eapply (runs_st _ _ _ _ 4); [exact H2|lia|lia|unfold is_header; lia|facts_apart Hap|lia|]. intros m3 H3.
  eapply (runs_st _ _ _ _ 4); [exact H3|lia|lia|unfold is_header; lia|facts_apart Hap|lia|]. intros m4 H4.
  eapply (runs_st _ _ _ _ 4); [exact H4|lia|lia|unfold is_header; lia|facts_apart Hap|lia|]. intros m5 H5.
  eapply (runs_st _ _ _ _ 4); [exact H5|lia|lia|unfold is_header; lia|facts_apart Hap|lia|]. intros m6 H6.
  apply Hk. apply (state_weaken _ _ _ _ _ _ _ H6). unfold counters, offsets. cbn [fmap list_fmap]. rewrite Z.add_0_r. in_facts.
Qed.

(** The starts of the blocks, relative to the table. *)
Definition block_starts : list Z := (fun p => p.1 - t) <$> places (io_type cfg) 0 (t_blocks t).

(** C38: when the blocks fit into the memory of the table, and the configuration is one that
    the code handles, the table is built: its counters are the numbers of nodes of each
    type, and the words of every block are those of its node (the type, the number of
    mappings, the data of the type, each mapping), with the references of a root complex
    being the offsets of the blocks it refers to, wherever the alignment puts them. *)
Theorem iovirt_bm_listed mem : bound = 1 \/ bound = 8 -> data_ok = true -> nodes_ok (io_type cfg) 0 0 0 = true ->
  0 < t -> io_Address cfg <> 0 -> io_node_count cfg = Z.of_nat (length (io_type cfg)) ->
  room t hi mem -> Forall (fun p => p.2 <= hi) ((t, t_blocks t) :: places (io_type cfg) 0 (t_blocks t)) ->
  exists mem', pal_iovirt_create_info_table_bm cfg nd NODE_COUNT NUM_ITS_COUNT bound t mem = Done (tt, mem') /\
    Forall (holds mem') (counters (fun o => u32 (Z.of_nat (counted (io_type cfg) o)))) /\
    Forall (holds mem') (table_facts (io_type cfg) 0 0 0 (t_blocks t) block_starts).
Proof.
  intros Hbound Hd Hok Ht Haddr Hcount Hr [Hh Hends]%Forall_cons. unfold pal_iovirt_create_info_table_bm, t_blocks in *. cbn [fst snd] in Hh.
  destruct (Z.eqb_spec t 0) as [|_]; [lia|]. destruct (Z.eqb_spec (io_Address cfg) 0) as [|_]; [done|].
  destruct (header_runs (create_nodes_bm cfg nd NUM_ITS_COUNT bound (Z.to_nat (io_node_count cfg)) t 0 0 0 0 (t + 24) (replicate NODE_COUNT (uninit "node"))) mem
    (fun _ mem' => Forall (holds mem') (counters (bumps (io_type cfg) (fun _ => 0))) /\
       Forall (holds mem') (table_facts (io_type cfg) 0 0 0 (t + 24) block_starts))) as ([] & mem' & E & Hc & Hf); [done|done| |].
  - intros m1 [Hr1 _ Hc1]. rewrite Hcount, Nat2Z.id.
    destruct (create_nodes_runs block_starts Hbound Hd ltac:(lia) (io_type cfg) 0 0 0 0 (t + 24) (replicate NODE_COUNT (uninit "node")) (fun _ => 0) m1)
      as (r & m2 & E2 & _ & H2); [done|done| | |lia|lia|done|done|done|by exists r, m2].
    + split; [apply length_replicate|lia].
    + intros q p Hq. rewrite at_index_nat, Nat.add_0_l. unfold block_starts, t_blocks. rewrite list_lookup_fmap. by rewrite Hq.
  - exists mem'. split; [exact E|]. split; [|done]. revert Hc. unfold counters.
    assert (Ecnt : forall o, bumps (io_type cfg) (fun _ => 0) o = u32 (Z.of_nat (counted (io_type cfg) o))) by (intros; by rewrite bumps_counted).
    by setoid_rewrite Ecnt.
Qed.
End Listed.

Lemma zero_bytes_room n a : room a (a + Z.of_nat n) (zero_bytes n a).
Proof.
  revert a. induction n as [|n IH]; intros a x Hx; [lia|]. cbn [zero_bytes].
  destruct (decide (x = a)) as [->|Hne]; [by rewrite lookup_insert_eq|]. rewrite lookup_insert_ne by done. apply IH. lia.
Qed.
