(* ===== verification/BmPeripherals.v ===== *)
(** * Peripheral table of the bare-metal port

    Models [pal_peripheral_create_info_table] and [pal_peripheral_is_pcie] of
    [platform/pal_baremetal/common/src/pal_peripherals.c]: the USB and SATA controllers are
    looked for in configuration space with the searches of [PcieEnum.v], the UART is that of
    the configuration of the platform.  The table is that of [Peripherals.v]. *)

From S2P Require Import Prelude Mmio PcieCfg PcieTable PcieEnum Peripherals BmPcie.

(** What the functions read of [platform_uart_cfg]. *)
Record PLATFORM_OVERRIDE_UART_INFO_TABLE := mk_uart_cfg {
  u_Address : Z; u_BaseAddress : Z; u_InterfaceType : Z; u_GlobalSystemInterrupt : Z; u_BaudRate : Z;
  u_PciVendorId : Z; u_PciBusNumber : Z; u_PciDeviceNumber : Z; u_PciFunctionNumber : Z; u_PciSegment : Z }.

Section Create.
Context {H : Type} `{Hardware H}.
(** [PLATFORM_BM_OVERRIDE_PCIE_MAX_BUS] and [platform_pcie_cfg.num_entries]. *)
Context (MAX_BUS num_ecam : Z) (uart : PLATFORM_OVERRIDE_UART_INFO_TABLE).
(** The configuration space with its globals, and the table being filled. *)
Local Abbreviation P := (prog (enum_state H * fill_state)).

Definition on_bus {A} (p : prog (enum_state H) A) : P A := fun s =>
  match p s.1 with Done (r, b) => Done (r, (b, s.2)) | Undefined => Undefined | Diverges => Diverges end.
Definition on_table {A} (p : prog fill_state A) : P A := fun s =>
  match p s.2 with Done (r, t) => Done (r, (s.1, t)) | Undefined => Undefined | Diverges => Diverges end.

Definition fill_bars_bm (DeviceBdf : Z) : P unit :=
  let* _ := search (range 0 (TYPE0_MAX_BARS - 1)) (fun bar_index =>
    let* v := on_bus (pal_pcie_get_base DeviceBdf bar_index) in
    on_table (update (set_base0 v)) ;;; ret (if negb (v =? 0) then Some tt else None)) in ret tt.
Definition add_controller_bm (ty : Z) (count : PERIPHERAL_INFO_TABLE -> PERIPHERAL_INFO_TABLE) (DeviceBdf : Z) : P unit :=
  on_table (update (set_type ty)) ;;; fill_bars_bm DeviceBdf ;;;
  on_table (update (set_pci DeviceBdf)) ;;; on_table (header count) ;;; on_table next_entry.

(** The [do ... while] loop over the controllers of a class. *)
Fixpoint controllers_bm (fuel : nat) (cc ty : Z) (count : PERIPHERAL_INFO_TABLE -> PERIPHERAL_INFO_TABLE) (StartBdf : Z) : P unit :=
  match fuel with
  | O => diverge
  | S f =>
      let* DeviceBdf := on_bus (pal_pcie_get_bdf MAX_BUS cc StartBdf) in
      if negb (DeviceBdf =? 0) then
        add_controller_bm ty count DeviceBdf ;;; controllers_bm f cc ty count (pal_increment_bus_dev DeviceBdf)
      else ret tt
  end.
(** Every round but the last finds a later device. *)
Definition rounds_bm : nat := S (Z.to_nat (32 * MAX_BUS)).

Definition uart_bdf : Z :=
  if negb (u_PciVendorId uart =? 0xFFFF)
  then bm_create_bdf (u_PciSegment uart) (u_PciBusNumber uart) (u_PciDeviceNumber uart) (u_PciFunctionNumber uart) else 0.
Definition set_bdf_of (b : Z) (x : PERIPHERAL_INFO_BLOCK) : PERIPHERAL_INFO_BLOCK :=
  mk_per (type x) b (base0 x) (base1 x) (width x) (irq x) (flags x) (msi x) (msix x) (max_pasids x) (baud_rate x)
    (interface_type x) (platform_type x).
Definition add_uart_bm : P unit :=
  on_table (update (fun x => set_bdf_of uart_bdf (set_uart (u_BaseAddress uart) 1 (u_GlobalSystemInterrupt uart)
    (baud_of (u_BaudRate uart)) (u_InterfaceType uart) x))) ;;;
  on_table (header count_uart) ;;; on_table next_entry.

Definition pal_peripheral_create_info_table_bm : P unit :=
  on_table (header (fun t => mk_per_table 0 0 0 0 (info t))) ;;;
  on_table (update (set_base0 0)) ;;;
  when (negb (num_ecam =? 0))
    (controllers_bm rounds_bm USB_CLASSCODE PERIPHERAL_TYPE_USB count_usb 0 ;;;
     controllers_bm rounds_bm SATA_CLASSCODE PERIPHERAL_TYPE_SATA count_sata 0) ;;;
  when (negb (u_Address uart =? 0)) add_uart_bm ;;;
  on_table (update (set_type PERIPHERAL_END)).
End Create.

(** The same walk over the capability list as in [BmPcie.v]. *)
Definition pal_peripheral_is_pcie {H} `{Hardware H} (cfg : PCIE_INFO_TABLE) (seg bus dev fn : Z) : prog (pcie_state H) Z :=
  let* r := find_pciecs_bm cfg seg bus dev fn in ret match r with Some _ => 1 | None => 0 end.

(** ** The table counts the controllers, each device once *)

Section Counts.
Context {H : Type} `{Hardware H} (MAX_BUS : Z) (Hmax : 0 <= MAX_BUS <= 255).

(** The ECAM in use is one of the table. *)
Definition ecam_ok (s : enum_state H) : Prop :=
  is_Some (at_index (block (PcieEnum.info s)) (pcie_index s)) /\
  (Z.to_nat (info_num_entries (PcieEnum.info s)) <= length (block (PcieEnum.info s)))%nat.

(** *** Configuration space that stays as it is *)

(** The first region of the table that has the bus, and a word of a function in it. *)
Definition ecam_of (tab : PCIE_INFO_TABLE) (bus : Z) : option PCIE_INFO_BLOCK :=
  List.find (fun b => (start_bus_num b <=? bus) && (bus <=? end_bus_num b)) (take (Z.to_nat (info_num_entries tab)) (block tab)).
Definition word_at (h : H) (tab : PCIE_INFO_TABLE) (bus dev func off : Z) : Z :=
  match ecam_of tab bus with Some b => (hw_read W32 (ecam_base b + (bus * 256 + dev * 8 + func) * 4096 + off) h).1 mod 2 ^ 32 | None => 0 end.

(** The functions on the buses from [b0] and with the devices from [d0] on, in order, and
    the first of a base class and subclass. *)
Definition candidates (b0 d0 : Z) : list (Z * Z * Z) :=
  seqZ b0 (MAX_BUS - b0) ≫= fun bus => seqZ d0 (32 - d0) ≫= fun dev => (fun func => (bus, dev, func)) <$> seqZ 0 8.
Definition class_is (h : H) (tab : PCIE_INFO_TABLE) (cls : Z) (f : Z * Z * Z) : bool := word_at h tab f.1.1 f.1.2 f.2 8 / 2 ^ 16 =? cls.
Definition first_match (h : H) (tab : PCIE_INFO_TABLE) (cls b0 d0 : Z) : option (Z * Z * Z) := List.find (class_is h tab cls) (candidates b0 d0).

(** The functions of a class that are found: each is the first match, and the next search
    starts from the device behind it on its bus, also on every later bus.  Function 0:00.0
    ends the list.  Every match is on a later device, so that 32 rounds per bus are enough. *)
Fixpoint found (fuel : nat) (h : H) (tab : PCIE_INFO_TABLE) (cls b0 d0 : Z) : list Z :=
  match fuel with
  | O => []
  | S k =>
      match first_match h tab cls b0 d0 with
      | None => []
      | Some (bus, dev, func) =>
          if bm_create_bdf 0 bus dev func =? 0 then [] else
          bm_create_bdf 0 bus dev func :: (if dev =? 31 then found k h tab cls (bus + 1) 0 else found k h tab cls bus (dev + 1))
      end
  end.

(** Reading configuration space does not change it, the enumeration is over, and every
    bus is in a region of the table. *)
Definition quiet (h : H) : Prop := forall a, (hw_read W32 a h).2 = h.
Definition covered (tab : PCIE_INFO_TABLE) : Prop :=
  forall bus, 0 <= bus < MAX_BUS -> exists b, ecam_of tab bus = Some b /\ 0 <= ecam_base b /\ ecam_base b + 2 ^ 28 <= 2 ^ 64.
Context (h0 : H) (tab : PCIE_INFO_TABLE).
Definition steady (s : enum_state H) : Prop := quiet h0 /\ bus_hw s = h0 /\ PcieEnum.info s = tab /\ enumerate s = 0.

Lemma find_index_ok bus s : ecam_ok s -> exists s', find_index bus s = Done (tt, s') /\ ecam_ok s' /\ (steady s -> steady s').
Proof.
  intros [Hi Hn]. unfold find_index, bind, gets. destruct (find_first _ _ 0) as [[i b]|] eqn:E; [|by exists s].
  apply find_first_Some in E as (k & -> & Hk & _). eexists. split; [reflexivity|]. split; [|done]. split; [|done].
  unfold set_pcie_index. cbn [pcie_index PcieEnum.info]. rewrite Z.add_0_l, at_index_nat.
  apply lookup_take_Some in Hk as [-> _]. by eexists.
Qed.

Lemma bm_read_ok bus dev func off s : ecam_ok s -> exists v s', pal_pci_cfg_read bus dev func off s = Done (v, s') /\ ecam_ok s' /\ (steady s -> steady s').
Proof.
  intros Hs. unfold pal_pci_cfg_read, bind at 1, gets at 1.
  assert (Hw : exists s1, when (enumerate s =? 0) (find_index bus) s = Done (tt, s1) /\ ecam_ok s1 /\ (steady s -> steady s1)).
  { destruct (enumerate s =? 0); [by apply find_index_ok|by exists s]. }
  destruct Hw as (s1 & E1 & H1 & St1). rewrite (bind_done _ _ _ _ _ E1). destruct H1 as [[b Hb] Hn].
  unfold info_block, bind, gets. rewrite Hb. unfold bm_mmio_read, on_bus_hw, bm_pal_mmio_read. eexists _, _. split; [reflexivity|].
  split; [split; [by exists b|done]|]. intros Hst. destruct (St1 Hst) as (Hq & Hh & Ht & He). split; [done|]. split_and!; [cbn|done|done].
  by rewrite Hh, Hq.
Qed.

Lemma find_first_find {A} (p : A -> bool) l k i x : find_first p l k = Some (i, x) -> List.find p l = Some x.
Proof. revert k. induction l as [|y l IH]; intros k E; [done|]. cbn in *. destruct (p y); [by injection E as _ <-|by apply (IH (k + 1))]. Qed.
Lemma find_find_first {A} (p : A -> bool) l k x : List.find p l = Some x -> exists i, find_first p l k = Some (i, x).
Proof. revert k. induction l as [|y l IH]; intros k E; [done|]. cbn in *. destruct (p y); [injection E as <-; by eexists|by apply (IH (k + 1))]. Qed.

(** A read of a function on a bus that is covered. *)
Lemma bm_read_word bus dev func off s : ecam_ok s -> covered tab -> steady s -> 0 <= bus < MAX_BUS -> 0 <= dev < 32 -> 0 <= func < 8 -> 0 <= off < 4096 ->
  exists s', pal_pci_cfg_read bus dev func off s = Done (word_at h0 tab bus dev func off, s') /\ ecam_ok s' /\ steady s'.
Proof.
  intros Hs Hc Hst Hb Hd Hf Ho. pose proof Hst as (Hq & Hh & Ht & He). destruct (bm_read_ok bus dev func off s Hs) as (v & s' & E & Hs' & St').
  exists s'. split; [|by auto]. rewrite E. f_equal. f_equal. revert E. unfold pal_pci_cfg_read, bind at 1, gets at 1. rewrite He. cbn [Z.eqb when].
  destruct (Hc bus Hb) as (b & Eb & Hb0 & Hb1). destruct (find_find_first _ _ 0 _ Eb) as [i Ei].
  unfold find_index, bind at 1, bind at 1, gets at 1. rewrite Ht, Ei. unfold modify. unfold info_block, bind, gets, set_pcie_index. cbn [pcie_index PcieEnum.info].
  apply find_first_Some in Ei as (k & -> & Hk & _). rewrite Z.add_0_l, Ht, at_index_nat. apply lookup_take_Some in Hk as [-> _]. cbn [deref ret].
  unfold bm_mmio_read, on_bus_hw, bm_pal_mmio_read. cbn [bus_hw]. intros [= <- _]. unfold word_at. rewrite Eb, Hh.
  unfold bm_cfg_addr, PCIE_MAX_DEV, PCIE_MAX_FUNC, PCIE_CFG_SIZE. rewrite (u32_small (bus * _ * _ * _ + _ + _)) by lia.
  rewrite (u64_small (ecam_base b + _ + off)), u64_small by lia. replace (ecam_base b + (bus * 256 + dev * 8 + func) * 4096 + off) with
    (ecam_base b + (bus * 32 * 8 * 4096 + dev * 8 * 4096 + func * 4096) + off) by lia. done.
Qed.

(** What a search answers lies at or behind the slot it starts from. *)
Definition found_from (start : Z) (o : option Z) : Prop :=
  forall b, o = Some b -> exists bus dev func, b = bm_create_bdf 0 bus dev func /\ 0 <= bus < MAX_BUS /\ 0 <= dev < 32 /\
    0 <= func < 8 /\ start <= slot bus dev.

Lemma find_class_ok cc bus0 dev0 func0 s : 0 <= bus0 -> 0 <= dev0 -> 0 <= func0 -> ecam_ok s ->
  exists r s', find_class MAX_BUS cc bus0 dev0 func0 s = Done (r, s') /\ ecam_ok s' /\ (steady s -> steady s') /\ found_from (slot bus0 dev0) r.
Proof.
  intros Hb Hd Hf Hs. unfold find_class. set (Inv := fun s' : enum_state H => ecam_ok s' /\ (steady s -> steady s')).
  set (Post := fun (b : Z) (s' : enum_state H) => Inv s' /\ found_from (slot bus0 dev0) (Some b)).
  edestruct (search_inv Inv Post (seqZ bus0 (MAX_BUS - bus0))) as (r & s' & E & Hr); [|by split|].
  2: { exists r, s'. split; [exact E|]. destruct r as [b|]; [by destruct Hr as [[? ?] ?]|destruct Hr; split_and!; [done|done|by intros ?]]. }
  intros bus s1 Hbus%elem_of_seqZ H1. apply (search_inv Inv Post); [|done].
  intros dev s2 Hdev%elem_of_seqZ H2. apply (search_inv Inv Post); [|done].
  intros func s3 Hfunc%elem_of_seqZ [H3 St3]. destruct (bm_read_ok bus dev func TYPE01_RIDR s3 H3) as (v & s4 & E4 & H4 & St4).
  assert (H4' : Inv s4) by (split; [done|auto]).
  unfold PCIE_MAX_DEV, PCIE_MAX_FUNC in *. rewrite (bind_done _ _ _ _ _ E4). eexists _, s4. split; [reflexivity|].
  destruct (_ && _); [|done]. split; [done|]. intros b [= <-]. exists bus, dev, func. unfold slot. split; [done|lia].
Qed.

(** The first answer of a body. *)
Fixpoint first_of {A R} (g : A -> option R) (l : list A) : option R :=
  match l with [] => None | x :: l' => match g x with Some r => Some r | None => first_of g l' end end.
Lemma search_steady {A R} (body : A -> prog (enum_state H) (option R)) g l :
  (forall x s, x ∈ l -> ecam_ok s /\ steady s -> exists s', body x s = Done (g x, s') /\ ecam_ok s' /\ steady s') ->
  forall s, ecam_ok s /\ steady s -> exists s', search l body s = Done (first_of g l, s') /\ ecam_ok s' /\ steady s'.
Proof.
  induction l as [|x l IH]; intros Hg s Hs; [by exists s|]. cbn [search first_of]. destruct (Hg x s ltac:(left) Hs) as (s1 & E & H1).
  rewrite (bind_done _ _ _ _ _ E). destruct (g x); [by exists s1|]. apply IH; [|done]. intros y s' Hy. apply Hg. by right.
Qed.
Lemma first_of_bind {A B} (p : B -> bool) (k : A -> list B) l : List.find p (l ≫= k) = first_of (fun x => List.find p (k x)) l.
Proof.
  induction l as [|x l IH]; [done|]. cbn [mbind list_bind first_of]. rewrite <- IH. generalize (l ≫= k) as l'. intros l'.
  induction (k x) as [|y ys IHy]; [done|]. cbn. by destruct (p y).
Qed.
Lemma first_of_fmap {A R T} (f : R -> T) (g : A -> option R) l : first_of (fun x => f <$> g x) l = f <$> first_of g l.
Proof. induction l as [|x l IH]; [done|]. cbn. by destruct (g x). Qed.
Lemma first_of_if {A B} (p : B -> bool) (c : A -> B) l : first_of (fun x => if p (c x) then Some (c x) else None) l = List.find p (c <$> l).
Proof. induction l as [|x l IH]; [done|]. cbn. by destruct (p (c x)). Qed.

Definition bdf_of (f : Z * Z * Z) : Z := bm_create_bdf 0 f.1.1 f.1.2 f.2.

(** In a space that stays as it is the search gives the first match. *)
Lemma find_class_first cc cls bus0 dev0 s : 0 <= bus0 -> 0 <= dev0 -> cls = Z.shiftr cc 8 -> ecam_ok s -> covered tab -> steady s ->
  exists s', find_class MAX_BUS cc bus0 dev0 0 s = Done (bdf_of <$> first_match h0 tab cls bus0 dev0, s') /\ ecam_ok s' /\ steady s'.
Proof.
  intros Hb Hd -> Hs Hc Hst. unfold find_class, first_match, candidates. rewrite first_of_bind, <- first_of_fmap. apply search_steady; [|done].
  intros bus s1 Hbus%elem_of_seqZ H1. rewrite first_of_bind, <- first_of_fmap. unfold PCIE_MAX_DEV, PCIE_MAX_FUNC. apply search_steady; [|done].
  intros dev s2 Hdev%elem_of_seqZ H2. rewrite <- first_of_if, <- first_of_fmap. apply search_steady; [|done].
  intros func s3 Hfunc%elem_of_seqZ [H3 St3]. destruct (bm_read_word bus dev func TYPE01_RIDR s3 H3 Hc St3) as (s4 & E4 & H4); [lia..|done|].
  exists s4. split; [|done]. rewrite (bind_done _ _ _ _ _ E4). unfold class_is, ret. cbn [fst snd]. change TYPE01_RIDR with 8. set (w := word_at _ _ _ _ _ _).
  f_equal. f_equal. rewrite <- Z.shiftr_div_pow2 by lia. change CC_SUB_SHIFT with 16. change CC_BASE_SHIFT with 24.
  replace (Z.shiftr w 24) with (Z.shiftr (Z.shiftr w 16) 8) by (by rewrite Z.shiftr_shiftr). replace (Z.shiftr cc 16) with (Z.shiftr (Z.shiftr cc 8) 8) by (by rewrite Z.shiftr_shiftr).
  destruct (Z.eqb_spec (Z.shiftr w 16) (Z.shiftr cc 8)) as [->|]; [by rewrite Z.eqb_refl|by rewrite andb_false_r].
Qed.

Lemma get_base_ok b i s : ecam_ok s -> exists v s', pal_pcie_get_base b i s = Done (v, s') /\ ecam_ok s' /\ (steady s -> steady s').
Proof.
  intros Hs. unfold pal_pcie_get_base. edestruct bm_read_ok as (lo & s1 & E1 & H1 & St1); [exact Hs|]. rewrite (bind_done _ _ _ _ _ E1).
  destruct (BAR_REG lo =? BAR_64_BIT); [|by eexists _, s1].
  edestruct bm_read_ok as (up & s2 & E2 & H2 & St2); [exact H1|]. rewrite (bind_done _ _ _ _ _ E2). eexists _, s2. split; [done|]. by auto.
Qed.

Lemma on_bus_done {A} (p : prog (enum_state H) A) s t r s' : p s = Done (r, s') -> on_bus p (s, t) = Done (r, (s', t)).
Proof. unfold on_bus. cbn. by intros ->. Qed.

Lemma on_table_done {A} (p : prog fill_state A) (s : enum_state H) t r t' : p t = Done (r, t') -> on_table p (s, t) = Done (r, (s, t')).
Proof. unfold on_table. cbn. by intros ->. Qed.

Lemma fill_bars_bm_done b s a0 b0 c0 d0 xs y rest : ecam_ok s -> exists s' v,
  fill_bars_bm b (s, filling a0 b0 c0 d0 xs y rest) = Done (tt, (s', filling a0 b0 c0 d0 xs (set_base0 v y) rest)) /\ ecam_ok s' /\ (steady s -> steady s').
Proof.
  intros Hs. unfold fill_bars_bm.
  set (Inv := fun (z : enum_state H * fill_state) => (ecam_ok z.1 /\ (steady s -> steady z.1)) /\ exists v, z.2 = filling a0 b0 c0 d0 xs (set_base0 v y) rest).
  match goal with |- context [search ?l ?body] => edestruct (search_inv Inv (fun _ : unit => Inv) l body) as (r & z & E & Hz) end.
  - intros i z _ [[Hz St] [v Ev]]. destruct z as [s1 t1]. cbn [fst snd] in *. subst t1. destruct (get_base_ok b i s1 Hz) as (w & s2 & E2 & H2 & St2).
    rewrite (bind_done _ _ _ _ _ (on_bus_done _ _ _ _ _ E2)).
    rewrite (bind_done _ _ _ _ _ (on_table_done _ _ _ _ _ (update_current (set_base0 w) _ _ _ _ xs _ rest))).
    eexists _, _. split; [reflexivity|]. assert (Inv (s2, filling a0 b0 c0 d0 xs (set_base0 w (set_base0 v y)) rest)) by (split; [by auto|by exists w]).
    by destruct (negb (w =? 0)).
  - assert (Hi : Inv (s, filling a0 b0 c0 d0 xs y rest)) by (split; [done|exists (base0 y); by destruct y]). exact Hi.
  - assert (Hz' : Inv z) by (by destruct r). destruct z as [s' t'], Hz' as [[Hs' St'] [v Ev]]. cbn [fst snd] in *. subst t'.
    rewrite (bind_done _ _ _ _ _ E). by exists s', v.
Qed.

Lemma add_controller_bm_done ty b xs room s t : ty = PERIPHERAL_TYPE_USB \/ ty = PERIPHERAL_TYPE_SATA -> ecam_ok s -> tallied xs (S room) t ->
  exists s' t' x, add_controller_bm ty (counter ty) b (s, t) = Done (tt, (s', t')) /\ (ecam_ok s' /\ (steady s -> steady s')) /\
    type x = ty /\ bdf x = b /\ tallied (xs ++ [x]) room t'.
Proof.
  intros Hty Hs (rest & Hroom & Hlen & -> & Hne). destruct rest as [|y rest]; [simpl in Hroom; lia|].
  match goal with |- context [mk_fill (mk_per_table ?a ?c ?d ?e (xs ++ y :: rest)) _] =>
    change (mk_fill (mk_per_table a c d e (xs ++ y :: rest)) _) with (filling a c d e xs y rest); set (a0 := a); set (b0 := c); set (c0 := d); set (d0 := e) end.
  unfold add_controller_bm. destruct (fill_bars_bm_done b s a0 b0 c0 d0 xs (set_type ty y) rest Hs) as (s' & v & Ev & Hs').
  rewrite (bind_done _ _ _ _ _ (on_table_done _ _ _ _ _ (update_current (set_type ty) _ _ _ _ xs y rest))).
  rewrite (bind_done _ _ _ _ _ Ev). rewrite (bind_done _ _ _ _ _ (on_table_done _ _ _ _ _ (update_current (set_pci b) _ _ _ _ xs _ rest))).
  eexists s', _, (set_pci b (set_base0 v (set_type ty y))). split; [reflexivity|]. split; [done|]. split; [done|]. split; [done|].
  destruct (tally_one ty (set_pci b (set_base0 v (set_type ty y))) xs rest) as (rest' & H1 & H2 & H3 & H4); [tauto|done|simpl in Hlen; lia|done|].
  exists rest'. simpl in Hroom. split_and!; [lia|lia|exact H3|done].
Qed.

(** The slot of an entry; a list of controllers has them in order. *)
Definition slot_of (x : PERIPHERAL_INFO_BLOCK) : Z := slot (PCIE_EXTRACT_BDF_BUS (bdf x)) (PCIE_EXTRACT_BDF_DEV (bdf x)).
Definition in_slots (k : Z) (ty : Z) (ys : list PERIPHERAL_INFO_BLOCK) : Prop :=
  Forall (fun x => type x = ty /\ k <= slot_of x < 32 * MAX_BUS) ys /\
  forall i j x y, ys !! i = Some x -> ys !! j = Some y -> (i < j)%nat -> slot_of x < slot_of y.

Lemma next_slot bus dev func : 0 <= bus < MAX_BUS -> 0 <= dev < 32 -> 0 <= func < 8 ->
  let b := bm_create_bdf 0 bus dev func in let n := pal_increment_bus_dev b in
  slot (PCIE_EXTRACT_BDF_BUS b) (PCIE_EXTRACT_BDF_DEV b) = slot bus dev /\
  slot (PCIE_EXTRACT_BDF_BUS n) (PCIE_EXTRACT_BDF_DEV n) = slot bus dev + 1 /\
  PCIE_EXTRACT_BDF_BUS n = (if dev =? 31 then bus + 1 else bus) /\ PCIE_EXTRACT_BDF_DEV n = (if dev =? 31 then 0 else dev + 1) /\
  PCIE_EXTRACT_BDF_FUNC n = 0.
Proof.
  intros Hb Hd Hf b n. destruct (create_bdf_fields 0 bus dev func) as [E1 E2]; [lia..|].
  change (pal_create_bdf 0 bus dev func) with b in E1, E2. rewrite E1, E2. split; [done|].
  assert (Hseg : 0 <= PCIE_EXTRACT_BDF_SEG b < 256) by (unfold PCIE_EXTRACT_BDF_SEG; rewrite land_255; lia).
  assert (Hf0 : forall x y z, PCIE_EXTRACT_BDF_FUNC (bm_create_bdf x y z 0) = 0).
  { intros x y z. unfold PCIE_EXTRACT_BDF_FUNC, bm_create_bdf, pal_create_bdf. apply Z.bits_inj'. intros i Hi. rewrite Z.testbit_0_l.
    change 0xFF with (Z.ones 8). rewrite Z.land_spec, Z.testbit_ones_nonneg by lia. destruct (Z.ltb_spec i 8); [|by rewrite andb_false_r].
    unfold u32. rewrite ?Z.mod_pow2_bits_low, ?Z.lor_spec, ?Z.shiftl_spec by lia. rewrite ?Z.testbit_0_l, !(Z.testbit_neg_r) by lia. done. }
  unfold n, pal_increment_bus_dev in *. rewrite E1, E2 in *. unfold PCIE_MAX_DEV, slot in *. change (32 - 1) with 31. destruct (Z.eqb_spec dev 31); cbn [negb] in *.
  - destruct (create_bdf_fields (PCIE_EXTRACT_BDF_SEG b) (bus + 1) 0 0) as [E3 E4]; [lia..|]. rewrite Hf0. unfold bm_create_bdf, pal_create_bdf in *. rewrite E3, E4. lia.
  - destruct (create_bdf_fields (PCIE_EXTRACT_BDF_SEG b) bus (dev + 1) 0) as [E3 E4]; [lia..|]. rewrite Hf0. unfold bm_create_bdf, pal_create_bdf in *. rewrite E3, E4. lia.
Qed.

Lemma in_slots_cons k ty x ys : type x = ty -> k <= slot_of x < 32 * MAX_BUS -> in_slots (slot_of x + 1) ty ys -> in_slots k ty (x :: ys).
Proof.
  intros Hx Hk [Hys Hs]. split.
  - constructor; [done|]. eapply Forall_impl; [exact Hys|]. cbn. intros y Hy. split; [tauto|lia].
  - intros [|i] [|j] a b Ha Hb Hlt; cbn in Ha, Hb; try lia.
    + injection Ha as <-. rewrite Forall_forall in Hys. apply list_elem_of_lookup_2 in Hb. specialize (Hys b Hb). lia.
    + apply (Hs i j); [done|done|lia].
Qed.

Lemma first_match_range cls b0 d0 bus dev func : 0 <= b0 -> 0 <= d0 -> first_match h0 tab cls b0 d0 = Some (bus, dev, func) ->
  0 <= bus < MAX_BUS /\ 0 <= dev < 32 /\ 0 <= func < 8.
Proof.
  intros Hb Hd E%find_some. destruct E as [Hin%list_elem_of_In _]. unfold candidates in Hin.
  apply list_elem_of_bind in Hin as (x & (y & (z & [= -> -> ->] & Hz%elem_of_seqZ)%list_elem_of_fmap & Hy%elem_of_seqZ)%list_elem_of_bind & Hx%elem_of_seqZ). lia.
Qed.

Lemma create_bdf_inj bus dev func bus' dev' func' : 0 <= bus < MAX_BUS -> 0 <= dev < 32 -> 0 <= func < 8 ->
  0 <= bus' < MAX_BUS -> 0 <= dev' < 32 -> 0 <= func' < 8 -> bm_create_bdf 0 bus dev func = bm_create_bdf 0 bus' dev' func' -> bus = bus' /\ dev = dev'.
Proof.
  intros R1 R2 R3 R4 R5 R6 E. destruct (create_bdf_fields 0 bus dev func) as [E1 E2]; [lia..|]. destruct (create_bdf_fields 0 bus' dev' func') as [E3 E4]; [lia..|].
  change (pal_create_bdf 0 bus dev func) with (bm_create_bdf 0 bus dev func) in E1, E2.
  change (pal_create_bdf 0 bus' dev' func') with (bm_create_bdf 0 bus' dev' func') in E3, E4. rewrite E in E1, E2. split; congruence.
Qed.

Lemma controllers_bm_done cc ty fuel : ty = PERIPHERAL_TYPE_USB \/ ty = PERIPHERAL_TYPE_SATA -> forall start xs room s t,
  0 <= PCIE_EXTRACT_BDF_BUS start -> 0 <= PCIE_EXTRACT_BDF_DEV start -> PCIE_EXTRACT_BDF_FUNC start = 0 ->
  let k := slot (PCIE_EXTRACT_BDF_BUS start) (PCIE_EXTRACT_BDF_DEV start) in
  let n := Z.to_nat (32 * MAX_BUS - k) in (n < fuel)%nat -> ecam_ok s -> tallied xs (n + room) t ->
  exists s' t' ys, controllers_bm MAX_BUS fuel cc ty (counter ty) start (s, t) = Done (tt, (s', t')) /\ (ecam_ok s' /\ (steady s -> steady s')) /\
    in_slots k ty ys /\ tallied (xs ++ ys) room t' /\
    (covered tab -> steady s -> bdf <$> ys = found fuel h0 tab (Z.shiftr cc 8) (PCIE_EXTRACT_BDF_BUS start) (PCIE_EXTRACT_BDF_DEV start)).
Proof.
  intros Hty. induction fuel as [|f IH]; intros start xs room s t Hb Hd Hfn k n Hn Hs Ht; [lia|]. cbn [controllers_bm found].
  destruct (find_class_ok cc _ _ _ s Hb Hd (Z.eq_le_incl _ _ (eq_sym Hfn)) Hs) as (r & s1 & E1 & H1 & St1 & Hr). fold k in Hr.
  assert (Hfirst : covered tab -> steady s -> r = bdf_of <$> first_match h0 tab (Z.shiftr cc 8) (PCIE_EXTRACT_BDF_BUS start) (PCIE_EXTRACT_BDF_DEV start)).
  { intros Hc Hst. destruct (find_class_first cc _ _ _ s Hb Hd eq_refl Hs Hc Hst) as (s1' & E1' & _). rewrite Hfn in E1. rewrite E1 in E1'. by injection E1'. }
  assert (Ebdf : on_bus (pal_pcie_get_bdf MAX_BUS cc start) (s, t) = Done (default 0 r, (s1, t))).
  { apply on_bus_done. unfold pal_pcie_get_bdf. by rewrite (bind_done _ _ _ _ _ E1). }
  rewrite (bind_done _ _ _ _ _ Ebdf). destruct (Z.eqb_spec (default 0 r) 0) as [E0|N0]; cbn [negb].
  { exists s1, t, []. rewrite app_nil_r. split; [done|]. split; [done|]. split; [split; [done|]; intros i j x y Hx; by rewrite lookup_nil in Hx|].
    split; [by apply (tallied_less xs (n + room)); [lia|]|]. intros Hc Hst. specialize (Hfirst Hc Hst).
    destruct (first_match _ _ _ _ _) as [[[bus dev] func]|]; [|done]. subst r. cbn in E0. unfold bdf_of in E0. cbn in E0. by rewrite E0. }
  destruct r as [b|]; [|done]. cbn [default from_option id] in *. destruct (Hr b eq_refl) as (bus & dev & func & Eb & Rb & Rd & Rf & Hk).
  destruct (next_slot bus dev func Rb Rd Rf) as (Es & En & Nb & Nd & Nf). rewrite <- Eb in *.
  assert (Hslot : slot bus dev < 32 * MAX_BUS) by (unfold slot; lia).
  destruct (add_controller_bm_done ty b xs (Z.to_nat (32 * MAX_BUS - (slot bus dev + 1)) + room) s1 t Hty H1) as (s2 & t2 & x & E2 & [H2 St2] & Hx & Hbx & Ht2).
  { apply (tallied_less xs (n + room)); [lia|done]. }
  rewrite (bind_done _ _ _ _ _ E2).
  destruct (IH (pal_increment_bus_dev b) (xs ++ [x]) room s2 t2) as (s3 & t3 & ys & E3 & [H3 St3] & Hys & Ht3 & Hl3);
    [rewrite Nb; by destruct (dev =? 31); lia|rewrite Nd; by destruct (dev =? 31); lia|done|rewrite En; lia|done|by rewrite En|].
  exists s3, t3, (x :: ys). split; [exact E3|]. split; [by auto|]. rewrite <- app_assoc in Ht3.
  assert (Esx : slot_of x = slot bus dev) by (unfold slot_of; by rewrite Hbx).
  split; [apply in_slots_cons; [done|lia|]; rewrite Esx, <- En; exact Hys|]. split; [exact Ht3|]. intros Hc Hst. cbn [fmap list_fmap]. rewrite Hbx.
  specialize (Hfirst Hc Hst). destruct (first_match _ _ _ _ _) as [[[bus' dev'] func']|] eqn:Ef; [|discriminate Hfirst]. injection Hfirst as Hb'.
  unfold bdf_of in Hb'. cbn [fst snd] in Hb'. rewrite <- Hb'. destruct (Z.eqb_spec b 0); [done|]. f_equal.
  destruct (first_match_range _ _ _ _ _ _ Hb Hd Ef) as (R1 & R2 & R3). destruct (create_bdf_inj bus dev func bus' dev' func') as [<- <-]; [done..|congruence|].
  rewrite (Hl3 Hc ltac:(auto)), Nb, Nd. by destruct (dev =? 31).
Qed.

Lemma add_uart_bm_done uart xs room (s : enum_state H) t : tallied xs (S room) t ->
  exists t' x, add_uart_bm uart (s, t) = Done (tt, (s, t')) /\ type x = PERIPHERAL_TYPE_UART /\ bdf x = uart_bdf uart /\ tallied (xs ++ [x]) room t'.
Proof.
  intros (rest & Hroom & Hlen & -> & Hne). destruct rest as [|y rest]; [simpl in Hroom; lia|]. unfold add_uart_bm.
  match goal with |- context [update ?f] => set (g := f) end.
  match goal with |- context [mk_fill (mk_per_table ?a ?c ?d ?e (xs ++ y :: rest)) _] =>
    change (mk_fill (mk_per_table a c d e (xs ++ y :: rest)) _) with (filling a c d e xs y rest) end.
  rewrite (bind_done _ _ _ _ _ (on_table_done _ _ _ _ _ (update_current g _ _ _ _ xs y rest))).
  eexists _, (g y). split; [reflexivity|]. split; [done|]. split; [done|].
  destruct (tally_one PERIPHERAL_TYPE_UART (g y) xs rest) as (rest' & H1 & H2 & H3 & H4); [tauto|done|simpl in Hlen; lia|done|].
  exists rest'. simpl in Hroom. split_and!; [lia|lia|exact H3|done].
Qed.

(** The two loops, which a platform without an ECAM leaves out. *)
Lemma both_loops_done num_ecam room s t : ecam_ok s -> tallied [] (Z.to_nat (32 * MAX_BUS) + (Z.to_nat (32 * MAX_BUS) + room)) t ->
  exists s' t' us ss,
    when (negb (num_ecam =? 0))
      (controllers_bm MAX_BUS (rounds_bm MAX_BUS) USB_CLASSCODE PERIPHERAL_TYPE_USB count_usb 0 ;;;
       controllers_bm MAX_BUS (rounds_bm MAX_BUS) SATA_CLASSCODE PERIPHERAL_TYPE_SATA count_sata 0) (s, t) = Done (tt, (s', t')) /\
    in_slots 0 PERIPHERAL_TYPE_USB us /\ in_slots 0 PERIPHERAL_TYPE_SATA ss /\ tallied (us ++ ss) room t' /\
    (covered tab -> steady s -> bdf <$> us = (if num_ecam =? 0 then [] else found (rounds_bm MAX_BUS) h0 tab 0x0C03 0 0) /\
      bdf <$> ss = (if num_ecam =? 0 then [] else found (rounds_bm MAX_BUS) h0 tab 0x0106 0 0)).
Proof.
  intros Hs Ht. assert (Hnil : forall ty, in_slots 0 ty []) by (intros; split; [done|intros i j x y Hx; by rewrite lookup_nil in Hx]).
  assert (Hz : Z.to_nat (32 * MAX_BUS - 0) = Z.to_nat (32 * MAX_BUS)) by lia.
  destruct (num_ecam =? 0); cbn [when negb].
  { exists s, t, [], []. split_and!; [done|apply Hnil|apply Hnil| |done]. by apply (tallied_less [] (Z.to_nat (32 * MAX_BUS) + (Z.to_nat (32 * MAX_BUS) + room))); [lia|]. }
  destruct (controllers_bm_done USB_CLASSCODE PERIPHERAL_TYPE_USB (rounds_bm MAX_BUS) (or_introl eq_refl) 0 [] (Z.to_nat (32 * MAX_BUS) + room) s t)
    as (s1 & t1 & us & E1 & [H1 St1] & Hus & Ht1 & Hl1); [done..|unfold rounds_bm; change (slot _ _) with 0; lia|done|change (slot _ _) with 0; by rewrite Hz|].
  destruct (controllers_bm_done SATA_CLASSCODE PERIPHERAL_TYPE_SATA (rounds_bm MAX_BUS) (or_intror eq_refl) 0 us room s1 t1)
    as (s2 & t2 & ss & E2 & _ & Hss & Ht2 & Hl2); [done..|unfold rounds_bm; change (slot _ _) with 0; lia|done|change (slot _ _) with 0; by rewrite Hz|].
  exists s2, t2, us, ss. split_and!; [|done|done|done|].
  - change count_usb with (counter PERIPHERAL_TYPE_USB). change count_sata with (counter PERIPHERAL_TYPE_SATA). by rewrite (bind_done _ _ _ _ _ E1).
  - intros Hc Hst. split; [exact (Hl1 Hc Hst)|exact (Hl2 Hc (St1 Hst))].
Qed.
End Counts.

(** C39: The creation of the table returns whatever the functions in configuration space
    answer, when the memory given has room for two controllers per device of the buses below
    [MAX_BUS], the UART and the end mark.  The table is closed and its header counts it:
    first USB controllers, then SATA controllers, both at most one per device and in the
    order of the devices, then the UART when the platform has one.  When reading
    configuration space leaves it as it is, the enumeration is over and every bus is in an ECAM
    region, the controllers of a class are exactly the ones of [found], which looks for
    USB (class 0C, subclass 03) and for SATA (class 01, subclass 06) from the first device on.
    The application gives memory for three entries ([rdn2_sata_missed]). *)
Theorem peripherals_bm_counts {H : Type} `{Hardware H} MAX_BUS num_ecam uart (s : enum_state H) t c : 0 <= MAX_BUS <= 255 -> ecam_ok s ->
  (2 * Z.to_nat (32 * MAX_BUS) + 2 <= length (info t))%nat -> Z.of_nat (length (info t)) < 2 ^ 32 -> c = 0 ->
  exists s' t' us ss vs,
    pal_peripheral_create_info_table_bm MAX_BUS num_ecam uart (s, mk_fill t c) = Done (tt, (s', t')) /\
    table_counts (us ++ ss ++ vs) (tbl t') /\
    in_slots MAX_BUS 0 PERIPHERAL_TYPE_USB us /\ in_slots MAX_BUS 0 PERIPHERAL_TYPE_SATA ss /\
    (quiet (bus_hw s) -> covered MAX_BUS (PcieEnum.info s) -> enumerate s = 0 ->
      let list cls := if num_ecam =? 0 then [] else found MAX_BUS (S (Z.to_nat (32 * MAX_BUS))) (bus_hw s) (PcieEnum.info s) cls 0 0 in
      bdf <$> us = list 0x0C03 /\ bdf <$> ss = list 0x0106) /\
    length vs = (if (u_Address uart =? 0)%Z then 0 else 1)%nat /\ Forall (fun x => type x = PERIPHERAL_TYPE_UART /\ bdf x = uart_bdf uart) vs.
Proof.
  intros Hmax Hs Hroom Hlen ->. unfold pal_peripheral_create_info_table_bm. destruct (info t) as [|y rest] eqn:Ei; [simpl in Hroom; lia|].
  erewrite bind_done; [|apply on_table_done; reflexivity]. cbn [tbl cur]. rewrite Ei.
  erewrite bind_done; [|apply on_table_done; exact (update_current (set_base0 0) 0 0 0 0 [] y rest)].
  destruct (both_loops_done MAX_BUS Hmax (bus_hw s) (PcieEnum.info s) num_ecam 2 s (filling 0 0 0 0 [] (set_base0 0 y) rest) Hs)
    as (s1 & t1 & us & ss & E1 & Hus & Hss & Ht1 & Hl).
  { exists (set_base0 0 y :: rest). cbn [length app] in *. split_and!; [lia|lia|done|done]. }
  erewrite bind_done; [|exact E1].
  assert (Hu : exists t2 vs, when (negb (u_Address uart =? 0)) (add_uart_bm uart) (s1, t1) = Done (tt, (s1, t2)) /\
    length vs = (if (u_Address uart =? 0)%Z then 0 else 1)%nat /\ Forall (fun x => type x = PERIPHERAL_TYPE_UART /\ bdf x = uart_bdf uart) vs /\
    tallied (us ++ ss ++ vs) 1 t2).
  { destruct (u_Address uart =? 0); cbn [when negb].
    - exists t1, []. rewrite app_nil_r. split_and!; [done|done|done|]. by apply (tallied_less _ 2); [lia|].
    - destruct (add_uart_bm_done MAX_BUS Hmax uart (us ++ ss) 1 s1 t1 Ht1) as (t2 & x & E2 & Hx & Hbx & Ht2). exists t2, [x].
      rewrite app_assoc. split_and!; [done|done|by repeat constructor|done]. }
  destruct Hu as (t2 & vs & E2 & Hv & Hvt & Ht2). erewrite bind_done; [|exact E2].
  destruct (close_table _ t2 Ht2) as (t3 & E3 & Hc). exists s1, t3, us, ss, vs. split; [by apply on_table_done|].
  split_and!; [done|done|done| |done|done]. intros Hq Hcov He. exact (Hl Hcov (conj Hq (conj eq_refl (conj eq_refl He)))).
Qed.
