(* ===== verification/Rdn2.v ===== *)
(** * The platform RDN2

    The configuration of the bare-metal port for RDN2
    ([platform/pal_baremetal/RDN2/src/platform_cfg_fvp.c] and [include/platform_override_fvp.h]),
    the memory that [baremetal_app/BsaAcsMain.c] gives its tables, and what the functions of
    [BmTables.v] and [BmIovirt.v] make of them.  The table of harts is left out: its entries
    have fields that [HART_INFO_ENTRY] does not have. *)

From S2P Require Import Prelude Mmio PcieCfg BmPcie Timer Memory Gic Exerciser Bytes Iovirt PcieEnum Peripherals BmTables BmIovirt BmPeripherals.

(** ** Interrupt controller, timers, watchdogs *)

Definition GICITS_BASE : list Z := [0x30040000; 0x30080000; 0x300C0000; 0x30100000; 0x30140000; 0x30180000].
Definition GICITS_ID : list Z := [0; 1; 2; 3; 4; 5].
Definition platform_gic_cfg : PLATFORM_OVERRIDE_GIC_INFO_TABLE :=
  mk_gic_cfg 3 16 1 0 1 6 1 0 0 (0x20000 * 8)
    (replicate 16 0x30000000) [0x30000000] [] [0x301C0000] GICITS_BASE GICITS_ID [0x2C010000] [] [] [] [] [].

(** The polarity of the timers is active low, the mode level triggered. *)
Definition TIMER_POLARITY_MODE : Z := Z.lor (Z.shiftl 1 1) (Z.shiftl 0 0).
(** Always on; the second frame is secure. *)
Definition TIMER_CMN_FLAGS (secure : Z) : Z := Z.lor (Z.shiftl 1 1) (Z.shiftl secure 0).
Definition TIMER_FLAGS (cmn virt phy : Z) : Z := Z.lor (Z.lor (Z.shiftl cmn 16) (Z.shiftl virt 8)) phy.
Definition platform_timer_header : TIMER_INFO_HDR :=
  mk_timer_hdr TIMER_POLARITY_MODE TIMER_POLARITY_MODE TIMER_POLARITY_MODE 0 0x1D 0x1E 0x1A TIMER_POLARITY_MODE 0x1B 28 2 0 0 0.
Definition platform_timer_block : TIMER_INFO_GTBLOCK :=
  mk_gtblock 0x2001 2 0x2a810000 [0; 1] [0x2a830000; 0x2a820000] [0xFFFFFFFFFFFFFFFF; 0xFFFFFFFFFFFFFFFF] [0x6d; 0x6c] [0; 0]
    [TIMER_FLAGS (TIMER_CMN_FLAGS 0) 0 0; TIMER_FLAGS (TIMER_CMN_FLAGS 1) 0 0].
Definition WD_FLAGS (secure : Z) : Z := Z.lor (Z.lor (Z.shiftl secure 2) (Z.shiftl 0 1)) (Z.shiftl 0 0).
Definition platform_wd_cfg : WD_INFO_TABLE :=
  mk_wd_table 2 [mk_wd 0x2A440000 0x2A450000 0x6E (WD_FLAGS 0); mk_wd 0x2A440000 0x2A450000 0x6F (WD_FLAGS 1)].

(** ** Memory and DMA controllers *)

Definition platform_mem_cfg : list MEMORY_INFO :=
  [mk_minfo 0x1050000000 0x1050000000 0x4000000 MEMORY_TYPE_DEVICE; mk_minfo 0xFF600000 0xFF600000 0x10000 MEMORY_TYPE_RESERVED;
   mk_minfo 0x80000000 0x80000000 0x60000000 MEMORY_TYPE_NORMAL; mk_minfo 0xC030000 0xC030000 0x20000 MEMORY_TYPE_NOT_POPULATED].
Definition platform_uart_cfg : PLATFORM_OVERRIDE_UART_INFO_TABLE := mk_uart_cfg 0xF98DFE18 0x2A400000 8 0x70 0x7 0xFFFF 0 0 0 0.
Definition platform_dma_cfg : DMA_INFO_TABLE := mk_dma_table 0 [].

(** ** PCIe *)

Definition PCIE_MAX_BUS_RDN2 : Z := 0x9.
Definition platform_pcie_cfg : PCIE_INFO_TABLE := mk_info 1 [mk_block 0x1010000000 0 0 0x8].

(** Four pins; the interrupts behind the first of a pin are 0. *)
Definition no_irq : PERIPHERAL_IRQ_MAP := mk_irq_map (replicate 4 ([], 0)).
Definition irq_of_pin (pin : nat) : PERIPHERAL_IRQ_MAP := mk_irq_map (<[pin := ([200], 1)]> (replicate 4 ([], 0))).

Definition PLATFORM_PCIE_DEV0 : PERIPHERAL_IRQ_MAP -> PCIE_READ_BLOCK :=
  mk_read_block 0x6040000 0xDEF 0x13B5 0 1 0 0 1 0 0 0 1 0.
Definition PLATFORM_PCIE_DEV1 : PERIPHERAL_IRQ_MAP -> PCIE_READ_BLOCK :=
  mk_read_block 0x6040000 0xDEF 0x13B5 0 2 0 0 1 0 0 0 1 0.
Definition PLATFORM_PCIE_DEV2 : PERIPHERAL_IRQ_MAP -> PCIE_READ_BLOCK :=
  mk_read_block 0x6040000 0xDEF 0x13B5 0 3 0 0 1 0 0 0 1 0.
Definition PLATFORM_PCIE_DEV3 : PERIPHERAL_IRQ_MAP -> PCIE_READ_BLOCK :=
  mk_read_block 0x6040000 0x0DEF 0x13B5 0 4 0 0 1 0 0 0 1 0.
Definition PLATFORM_PCIE_DEV4 : PERIPHERAL_IRQ_MAP -> PCIE_READ_BLOCK :=
  mk_read_block 0x1060101 0xACED 0x0ABC 1 0 0 0 1 0 0 0 1 0.
Definition PLATFORM_PCIE_DEV5 : PERIPHERAL_IRQ_MAP -> PCIE_READ_BLOCK :=
  mk_read_block 0xED000000 0xED01 0x13B5 2 0 0 0 1 0 0 0 1 0.
Definition PLATFORM_PCIE_DEV6 : PERIPHERAL_IRQ_MAP -> PCIE_READ_BLOCK :=
  mk_read_block 0xED000000 0xED01 0x13B5 2 0 1 0 1 0 0 0 0 0.
Definition PLATFORM_PCIE_DEV7 : PERIPHERAL_IRQ_MAP -> PCIE_READ_BLOCK :=
  mk_read_block 0x6040000 0xDEF 0x13B5 3 0 0 0 1 0 0 0 0 0.
Definition PLATFORM_PCIE_DEV8 : PERIPHERAL_IRQ_MAP -> PCIE_READ_BLOCK :=
  mk_read_block 0x6040000 0xDEF 0x13B5 4 0 0 0 1 0 0 0 0 0.
Definition PLATFORM_PCIE_DEV9 : PERIPHERAL_IRQ_MAP -> PCIE_READ_BLOCK :=
  mk_read_block 0x6040000 0xDEF 0x13B5 4 1 0 0 1 0 0 0 0 0.
Definition PLATFORM_PCIE_DEV10 : PERIPHERAL_IRQ_MAP -> PCIE_READ_BLOCK :=
  mk_read_block 0x6040000 0xDEF 0x13B5 4 2 0 0 1 0 0 0 0 0.
Definition PLATFORM_PCIE_DEV11 : PERIPHERAL_IRQ_MAP -> PCIE_READ_BLOCK :=
  mk_read_block 0x1060101 0xACED 0x0ABC 5 0 0 0 1 0 0 0 0 0.
Definition PLATFORM_PCIE_DEV12 : PERIPHERAL_IRQ_MAP -> PCIE_READ_BLOCK :=
  mk_read_block 0xED000000 0xED01 0x13B5 6 0 0 0 1 0 0 0 0 0.
Definition PLATFORM_PCIE_DEV13 : PERIPHERAL_IRQ_MAP -> PCIE_READ_BLOCK :=
  mk_read_block 0xED000000 0xED01 0x13B5 6 0 7 0 1 0 0 0 0 0.
Definition PLATFORM_PCIE_DEV14 : PERIPHERAL_IRQ_MAP -> PCIE_READ_BLOCK :=
  mk_read_block 0xFF000000 0xFF80 0x13B5 7 0 0 0 1 0 0 0 0 0.
Definition PLATFORM_PCIE_DEV15 : PERIPHERAL_IRQ_MAP -> PCIE_READ_BLOCK :=
  mk_read_block 0xFF000000 0xFF80 0x13B5 7 0 7 0 1 0 0 0 0 0.
Definition PLATFORM_PCIE_DEV16 : PERIPHERAL_IRQ_MAP -> PCIE_READ_BLOCK :=
  mk_read_block 0xFF000000 0xFF80 0x13B5 8 0 0 0 1 0 0 0 0 0.
Definition PLATFORM_PCIE_DEV17 : PERIPHERAL_IRQ_MAP -> PCIE_READ_BLOCK :=
  mk_read_block 0xFF000000 0xFF80 0x13B5 8 0 1 0 1 0 0 0 0 0.
Definition PLATFORM_PCIE_DEV18 : PERIPHERAL_IRQ_MAP -> PCIE_READ_BLOCK :=
  mk_read_block 0xED000001 0xED01 0x13B5 0 0x0F 0 0 0 0 1 0 1 0.
Definition PLATFORM_PCIE_DEV19 : PERIPHERAL_IRQ_MAP -> PCIE_READ_BLOCK :=
  mk_read_block 0x1060101 0xACED 0x0ABC 0 0x1E 0 0 0 0 1 0 1 0.
Definition PLATFORM_PCIE_DEV20 : PERIPHERAL_IRQ_MAP -> PCIE_READ_BLOCK :=
  mk_read_block 0xED000000 0xED01 0x13B5 0 0x1F 0 0 0 0 1 0 1 0.

Definition device_0_to_9 : list PCIE_READ_BLOCK :=
  [PLATFORM_PCIE_DEV0 no_irq; PLATFORM_PCIE_DEV1 no_irq; PLATFORM_PCIE_DEV2 no_irq;
   PLATFORM_PCIE_DEV3 (irq_of_pin 2); PLATFORM_PCIE_DEV4 (irq_of_pin 0); PLATFORM_PCIE_DEV5 (irq_of_pin 2);
   PLATFORM_PCIE_DEV6 (irq_of_pin 2); PLATFORM_PCIE_DEV7 (irq_of_pin 3); PLATFORM_PCIE_DEV8 (irq_of_pin 2);
   PLATFORM_PCIE_DEV9 no_irq].
Definition device_10_to_20 : list PCIE_READ_BLOCK :=
  [PLATFORM_PCIE_DEV10 no_irq; PLATFORM_PCIE_DEV11 (irq_of_pin 0); PLATFORM_PCIE_DEV12 no_irq;
   PLATFORM_PCIE_DEV13 no_irq; PLATFORM_PCIE_DEV14 no_irq; PLATFORM_PCIE_DEV15 no_irq;
   PLATFORM_PCIE_DEV16 no_irq; PLATFORM_PCIE_DEV17 no_irq; PLATFORM_PCIE_DEV18 (irq_of_pin 3);
   PLATFORM_PCIE_DEV19 no_irq; PLATFORM_PCIE_DEV20 (irq_of_pin 3)].
Definition platform_pcie_device_hierarchy : list PCIE_READ_BLOCK := device_0_to_9 ++ device_10_to_20.

(** ** I/O virtualisation *)

Definition IORT_NODE_COUNT : nat := 13.
Definition NUM_ITS_COUNT : Z := 5.
Definition IOVIRT_MAX_NUM_MAP : nat := 33.
Definition IOVIRT_SMMUV3_BASE_ADDRESS : list Z := [0x40000000; 0x42000000; 0x44000000; 0x46000000; 0x48000000].
Definition RC_MAP : list IORT_ID_MAPPING :=
  [mk_mapping 0x0 0x8FFF 0x30000 0x5A4; mk_mapping 0x900 0xFF 0x30900 0x6D0;
   mk_mapping 0xA00 0xFF 0x30A00 0x7FC; mk_mapping 0xB00 0xFF 0x30B00 0x928].
Definition SMMUV3_0_ID_MAP : list IORT_ID_MAPPING :=
  [mk_mapping 0x0 0x0 0x80000 0x18; mk_mapping 0x30000 0x8FF 0x30000 0x18].
Definition SMMUV3_1_ID_MAP : list IORT_ID_MAPPING :=
  [mk_mapping 0x0 0x0 0x80000 0x134; mk_mapping 0x30900 0xFF 0x30900 0x134].
Definition SMMUV3_2_ID_MAP : list IORT_ID_MAPPING :=
  [mk_mapping 0x0 0x0 0x80000 0x250; mk_mapping 0x30A00 0xFF 0x30A00 0x250].
Definition SMMUV3_3_ID_MAP : list IORT_ID_MAPPING :=
  [mk_mapping 0x0 0x0 0x80000 0x36C; mk_mapping 0x30B00 0xFF 0x30B00 0x36C].
Definition SMMUV3_4_ID_MAP : list IORT_ID_MAPPING :=
  [mk_mapping 0x0 0x0 0x80000 0x488; mk_mapping 0x10000 0x9 0x10000 0x488;
   mk_mapping 0x30000 0x9 0x30000 0x488].
Definition NAMED_COMP0_MAP : list IORT_ID_MAPPING :=
  [mk_mapping 0x0 0x0 0x10000 0xA54; mk_mapping 0x1 0x0 0x10001 0xA54;
   mk_mapping 0x2 0x0 0x10002 0xA54; mk_mapping 0x3 0x0 0x10003 0xA54;
   mk_mapping 0x4 0x0 0x10004 0xA54; mk_mapping 0x5 0x0 0x10005 0xA54;
   mk_mapping 0x6 0x0 0x10006 0xA54; mk_mapping 0x7 0x0 0x10007 0xA54;
   mk_mapping 0x8 0x0 0x10008 0xA54].
Definition NAMED_COMP1_MAP : list IORT_ID_MAPPING :=
  [mk_mapping 0x0 0x0 0x30000 0xA54; mk_mapping 0x1 0x0 0x30001 0xA54;
   mk_mapping 0x2 0x0 0x30002 0xA54; mk_mapping 0x3 0x0 0x30003 0xA54;
   mk_mapping 0x4 0x0 0x30004 0xA54; mk_mapping 0x5 0x0 0x30005 0xA54;
   mk_mapping 0x6 0x0 0x30006 0xA54; mk_mapping 0x7 0x0 0x30007 0xA54;
   mk_mapping 0x8 0x0 0x30008 0xA54].
(** An array of the mappings of a node: what is not given is 0. *)
Definition map_array (l : list IORT_ID_MAPPING) : list IORT_ID_MAPPING :=
  l ++ replicate (IOVIRT_MAX_NUM_MAP - length l) (mk_mapping 0 0 0 0).
Definition platform_iovirt_cfg : PLATFORM_OVERRIDE_IOVIRT_INFO_TABLE :=
  mk_iovirt_cfg 0xF98DEB18 13
    (replicate 5 IOVIRT_NODE_ITS_GROUP ++ replicate 5 IOVIRT_NODE_SMMU_V3 ++
     [IOVIRT_NODE_PCI_ROOT_COMPLEX; IOVIRT_NODE_NAMED_COMPONENT; IOVIRT_NODE_NAMED_COMPONENT])
    [0; 0; 0; 0; 0; 2; 2; 2; 2; 3; 4; 9; 9]
    (map_array <$> [[]; []; []; []; []; SMMUV3_0_ID_MAP; SMMUV3_1_ID_MAP; SMMUV3_2_ID_MAP; SMMUV3_3_ID_MAP; SMMUV3_4_ID_MAP;
       RC_MAP; NAMED_COMP0_MAP; NAMED_COMP1_MAP]).
Definition platform_node_type : PLATFORM_OVERRIDE_NODE_DATA :=
  mk_node_data 0 1 0 1 ((fun b => mk_smmu_cfg b 0 0) <$> IOVIRT_SMMUV3_BASE_ADDRESS).

(** ** The memory that the application gives the tables ([baremetal_app/BsaAcsMain.c]) *)

Definition IOVIRT_ITS_COUNT : Z := 1.
Definition IOVIRT_SMMUV3_COUNT : Z := 5.
Definition IOVIRT_RC_COUNT : Z := 1.
Definition IOVIRT_SMMUV2_COUNT : Z := 0.
Definition IOVIRT_NAMED_COMPONENT_COUNT : Z := 2.
Definition IOVIRT_PMCG_COUNT : Z := 0.
Definition sizeof_IOVIRT_BLOCK : Z := 272.

(** The entries of the first, the bytes of the second. *)
Definition createGicInfoTable_entries : Z :=
  c_num_gicits platform_gic_cfg + c_num_gicc_rd platform_gic_cfg + c_num_gicr_rd platform_gic_cfg +
  c_num_gicc platform_gic_cfg + c_num_gicd platform_gic_cfg + 1.
Definition createPcieVirtInfoTable_bytes : Z :=
  24 + (IOVIRT_ITS_COUNT + IOVIRT_SMMUV3_COUNT + IOVIRT_RC_COUNT + IOVIRT_SMMUV2_COUNT + IOVIRT_NAMED_COMPONENT_COUNT + IOVIRT_PMCG_COUNT)
  * sizeof_IOVIRT_BLOCK + Z.of_nat IOVIRT_MAX_NUM_MAP * sizeof_NODE_DATA_MAP.
Definition PLATFORM_OVERRIDE_MEMORY_ENTRY_COUNT : nat := 4.

(** ** What they are enough for *)

(** Any entries, as the allocation leaves them. *)
Definition any_entry : GIC_INFO_ENTRY := mk_gic_entry 0 0 0 0 0 0 0.
Definition gic_memory (n : nat) : GIC_INFO_TABLE := mk_gic_table (mk_gic_hdr 0 0 0 0 0 0 0 0 0) (replicate n any_entry).

Lemma rdn2_gic_cfg_ok : gic_cfg_ok platform_gic_cfg.
Proof. vm_compute. tauto. Qed.

(** Without the hypervisor interface in the sum the end mark is behind the allocation; one
    entry more is enough. *)
Example rdn2_gic_memory : createGicInfoTable_entries = 25 /\
  pal_gic_create_info_table_bm platform_gic_cfg (Some (gic_memory 25)) = Undefined /\
  exists g, pal_gic_create_info_table_bm platform_gic_cfg (Some (gic_memory 26)) = Done (Some g) /\
    e_type <$> gic_info g = replicate 16 PLATFORM_OVERRIDE_GICC_TYPE ++ [PLATFORM_OVERRIDE_GICR_GICRD_TYPE; PLATFORM_OVERRIDE_GICD_TYPE] ++
      replicate 6 PLATFORM_OVERRIDE_GICITS_TYPE ++ [PLATFORM_OVERRIDE_GICH_TYPE; 0xFF].
Proof.
  split; [reflexivity|]. split.
  - rewrite (gic_table_bm_exact platform_gic_cfg (gic_memory 25) rdn2_gic_cfg_ok); [reflexivity|vm_compute; reflexivity].
  - eexists. split; [rewrite (gic_table_bm_exact platform_gic_cfg (gic_memory 26) rdn2_gic_cfg_ok); [reflexivity|vm_compute; reflexivity]|reflexivity].
Defined.

(** The memory table has memory for the regions only; the end mark needs one entry more. *)
Definition any_block : MEM_INFO_BLOCK := mk_mem MEMORY_TYPE_NORMAL 0 0 0 0.
Definition memory_memory (n : nat) : MEMORY_INFO_TABLE := mk_mem_table 0 0 (replicate n any_block).

Lemma rdn2_regions c : c ∈ platform_mem_cfg -> m_type c <> MEMORY_TYPE_LAST_ENTRY.
Proof. unfold platform_mem_cfg. rewrite !elem_of_cons, elem_of_nil. by intros [->|[->|[->|[->|[]]]]]. Qed.

Example rdn2_memory_memory :
  pal_memory_create_info_table_bm platform_mem_cfg (Some (memory_memory PLATFORM_OVERRIDE_MEMORY_ENTRY_COUNT)) = Undefined /\
  exists t', pal_memory_create_info_table_bm platform_mem_cfg (Some (memory_memory 5)) = Done (Some t') /\
    forall addr, exists attr, val_memory_get_info addr (Some t') =
      Done ((mem_type_code match find_first (in_region addr) platform_mem_cfg 0 with
                           | Some (_, c) => m_type c | None => MEMORY_TYPE_NOT_POPULATED end, attr), Some t').
Proof.
  split; [exact (memory_bm_lookup_exact platform_mem_cfg (memory_memory 4) rdn2_regions)|].
  exact (memory_bm_lookup_exact platform_mem_cfg (memory_memory 5) rdn2_regions).
Defined.

(** The table of the I/O virtualisation at 0x1000, with blocks aligned to 8 bytes. *)
Definition rdn2_iovirt (n : nat) : outcome (unit * bytes) :=
  let _ : Uninit := fun _ => 0 in
  pal_iovirt_create_info_table_bm platform_iovirt_cfg platform_node_type IORT_NODE_COUNT NUM_ITS_COUNT 8 0x1000 (zero_bytes n 0x1000).

(** The sum counts one of the five blocks of interrupt translation services. *)
Theorem rdn2_iovirt_memory_short : createPcieVirtInfoTable_bytes = 3000 /\ rdn2_iovirt 3000 = Undefined.
Proof. split; [reflexivity|vm_compute; reflexivity]. Qed.

Lemma rdn2_places_fit : Forall (fun p => p.2 <= 0x1000 + Z.of_nat 4200)
  ((0x1000, t_blocks 0x1000) :: places platform_iovirt_cfg platform_node_type 8 (io_type platform_iovirt_cfg) 0 (t_blocks 0x1000)).
Proof. apply (bool_decide_unpack _). vm_compute. exact I. Qed.

Example rdn2_iovirt_listed : exists mem', rdn2_iovirt 4200 = Done (tt, mem') /\
  Forall (holds mem') (counters 0x1000 (fun o => u32 (Z.of_nat (counted (io_type platform_iovirt_cfg) o)))) /\
  Forall (holds mem') (table_facts platform_iovirt_cfg platform_node_type NUM_ITS_COUNT 8 (io_type platform_iovirt_cfg) 0 0 0 (t_blocks 0x1000)
    (block_starts platform_iovirt_cfg platform_node_type 8 0x1000)).
Proof.
  pose (U := (fun _ => 0) : Uninit).
  refine (iovirt_bm_listed platform_iovirt_cfg platform_node_type IORT_NODE_COUNT NUM_ITS_COUNT 8 0x1000 (0x1000 + Z.of_nat 4200) _
    (zero_bytes 4200 0x1000) _ _ _ _ _ _ (zero_bytes_room 4200 0x1000) rdn2_places_fit).
  - reflexivity.
  - by right.
  - vm_compute. reflexivity.
  - vm_compute. reflexivity.
  - reflexivity.
  - discriminate.
  - reflexivity.
Defined.

(** The SMMU that a requester of the segment is found behind, in the table as built. *)
Definition rdn2_smmu_of (rid : Z) : option Z :=
  match rdn2_iovirt 4200 with
  | Done (_, m) => match pal_iovirt_get_rc_smmu_base 8 0x1000 0 rid m with Done (v, _) => Some v | _ => None end
  | _ => None
  end.

(** The first mapping of the root complex has [0x8FFF] for its length: it covers the three
    mappings behind it, which are never found, and no SMMU receives what it translates
    beyond [0x8FF]. *)
Theorem rdn2_requesters_lost :
  rdn2_smmu_of <$> [0; 0x8FF; 0x900; 0x9FF; 0xA00; 0xB00; 0xBFF; 0x8FFF; 0x9000] =
  Some <$> [0x40000000; 0x40000000; 0; 0; 0; 0; 0; 0; 0xFFFFFFFF].
Proof. vm_compute. reflexivity. Qed.

(** The references to the blocks of interrupt translation services in the mappings of the
    SMMUs and the named components, given as numbers, are starts of blocks of their type
    without alignment; with blocks aligned to 8 bytes only the first is. *)
Definition type_at (tys : list Z) (starts : list Z) (ref : Z) : option Z :=
  match find_first (fun s => s =? ref) starts 0 with Some (i, _) => at_index tys i | None => None end.
Definition rdn2_ref_types (bound : Z) : list (option Z) :=
  type_at (io_type platform_iovirt_cfg) (block_starts platform_iovirt_cfg platform_node_type bound 0x1000)
  <$> [0x18; 0x134; 0x250; 0x36C; 0x488; 0xA54].

Theorem rdn2_references_aligned :
  rdn2_ref_types 1 = Some <$> [IOVIRT_NODE_ITS_GROUP; IOVIRT_NODE_ITS_GROUP; IOVIRT_NODE_ITS_GROUP; IOVIRT_NODE_ITS_GROUP;
    IOVIRT_NODE_ITS_GROUP; IOVIRT_NODE_SMMU_V3] /\
  rdn2_ref_types 8 = Some IOVIRT_NODE_ITS_GROUP :: replicate 5 None.
Proof. split; vm_compute; reflexivity. Qed.

(** ** The peripheral table *)

(** A configuration space in which the functions of the hierarchy answer with their class
    codes, and the other registers read 0. *)
Definition at_class_register (addr : Z) (d : PCIE_READ_BLOCK) : bool :=
  addr =? 0x1010000000 + bm_cfg_addr (d_bus d) (d_dev d) (d_func d) + PcieEnum.TYPE01_RIDR.
#[local] Instance rdn2_space : Hardware unit := {|
  hw_read _ addr _ := (match find_first (at_class_register addr) platform_pcie_device_hierarchy 0 with Some (_, d) => class_code d | None => 0 end, tt);
  hw_write _ _ _ _ := tt |}.
Definition rdn2_bus : enum_state unit :=
  mk_enum tt platform_pcie_cfg 0 0 (mk_pool 0 0 0 0) (mk_pool 0 0 0 0) (mk_pool 0 0 0 0) 0 0.
Definition per_memory (n : nat) : PERIPHERAL_INFO_TABLE := mk_per_table 0 0 0 0 (replicate n (mk_per 0 0 0 0 0 0 0 0 0 0 0 0 0)).

Lemma rdn2_covered : covered PCIE_MAX_BUS_RDN2 platform_pcie_cfg.
Proof.
  intros bus Hb. exists (mk_block 0x1010000000 0 0 0x8). unfold PCIE_MAX_BUS_RDN2 in Hb. split; [|vm_compute; by split].
  unfold ecam_of, platform_pcie_cfg. change (Z.to_nat _) with 1%nat. cbn [block take List.find start_bus_num end_bus_num].
  by replace ((0 <=? bus) && (bus <=? 8)) with true by lia.
Qed.

(** No USB controller, and one of the SATA controllers. *)
Example rdn2_peripherals_count : exists s' t' us ss vs,
  pal_peripheral_create_info_table_bm PCIE_MAX_BUS_RDN2 1 platform_uart_cfg (rdn2_bus, mk_fill (per_memory 600) 0) = Done (tt, (s', t')) /\
  table_counts (us ++ ss ++ vs) (tbl t') /\
  in_slots PCIE_MAX_BUS_RDN2 0 PERIPHERAL_TYPE_USB us /\ in_slots PCIE_MAX_BUS_RDN2 0 PERIPHERAL_TYPE_SATA ss /\
  (Peripherals.bdf <$> us = [] /\ Peripherals.bdf <$> ss = [0x1E00]) /\
  length vs = 1%nat /\ Forall (fun x => Peripherals.type x = PERIPHERAL_TYPE_UART /\ Peripherals.bdf x = uart_bdf platform_uart_cfg) vs.
Proof.
  destruct (peripherals_bm_counts PCIE_MAX_BUS_RDN2 1 platform_uart_cfg rdn2_bus (per_memory 600) 0) as (s' & t' & us & ss & vs & E & Hc & Hu & Hs & Hl & Hv & Hf).
  - unfold PCIE_MAX_BUS_RDN2. lia.
  - split; [by eexists|apply Nat.leb_le; reflexivity].
  - apply Nat.leb_le. vm_compute. reflexivity.
  - vm_compute. reflexivity.
  - reflexivity.
  - assert (Hq : quiet (bus_hw rdn2_bus)) by (intros a; reflexivity).
    pose proof (Hl Hq rdn2_covered eq_refl) as Hb. clear Hl. cbv zeta in Hb. destruct Hb as [Eu Es]. exists s', t', us, ss, vs.
    split; [exact E|]. split; [exact Hc|]. split; [exact Hu|]. split; [exact Hs|]. split; [|by split].
    rewrite Eu, Es. split; vm_compute; reflexivity.
Defined.

(** The hierarchy has SATA controllers at 1:00.0, 5:00.0 and 0:1E.0. The search finds the
    last of these first and then looks at no device below 1F; three entries of memory, as
    the application gives it, are just enough for that. *)
Theorem rdn2_sata_missed :
  (fun d => bm_create_bdf 0 (d_bus d) (d_dev d) (d_func d)) <$> filter (fun d => Z.shiftr (class_code d) 16 = 0x0106) platform_pcie_device_hierarchy =
    [0x10000; 0x50000; 0x1E00] /\
  match pal_peripheral_create_info_table_bm PCIE_MAX_BUS_RDN2 1 platform_uart_cfg (rdn2_bus, mk_fill (per_memory 3) 0) with
  | Done (_, (_, t)) => (fun x => (Peripherals.type x, Peripherals.bdf x)) <$> Peripherals.info (tbl t) =
      [(PERIPHERAL_TYPE_SATA, 0x1E00); (PERIPHERAL_TYPE_UART, 0); (PERIPHERAL_END, 0)]
  | _ => False
  end.
Proof. split; vm_compute; reflexivity. Qed.
