(* ===== verification/Mmu.v ===== *)
(** * The MMU of the bare-metal boot

    Models the list of memory regions of the bare-metal port
    ([platform/pal_baremetal/RDN2/src/pal_bm_memory.c]) and the set-up of the translation
    tables and of the MMU before the tests run ([val/src/acs_mmu.c]). The constants of the
    platform and of the linker are the record [bm_cfg]; the registers of the system, which
    assembly code writes, are a log. *)

From S2P Require Import Prelude Status Mmio Memory PcieCfg Timer Pgt BmTables BmIovirt Rdn2.

(** ** Attributes *)

Definition ATTR_DEVICE : Z := Z.shiftl 2 2.
Definition ATTR_S1_WB_WA_RA : Z := Z.shiftl 1 2.
Definition ATTR_NS : Z := Z.shiftl 1 5.
Definition ATTR_INNER_SHARED : Z := Z.shiftl 3 8.
Definition ATTR_AF : Z := Z.shiftl 1 10.
Definition ATTR_UXN : Z := Z.shiftl 1 54.
Definition ATTR_PXN : Z := Z.shiftl 1 53.
Definition ATTR_PRIV_RO : Z := Z.shiftl 2 6.
Definition ATTR_USER_RW : Z := Z.shiftl 1 6.
Definition ATTR_USER_RO : Z := Z.shiftl 3 6.
Definition any_of (l : list Z) : Z := foldr Z.lor 0 l.
Definition ATTR_CODE : Z := any_of [ATTR_S1_WB_WA_RA; ATTR_USER_RO; ATTR_AF; ATTR_INNER_SHARED; ATTR_NS].
Definition ATTR_RO_DATA : Z := any_of [ATTR_S1_WB_WA_RA; ATTR_USER_RO; ATTR_UXN; ATTR_PXN; ATTR_AF; ATTR_INNER_SHARED; ATTR_NS].
Definition ATTR_RW_DATA : Z := any_of [ATTR_S1_WB_WA_RA; ATTR_USER_RW; ATTR_UXN; ATTR_PXN; ATTR_AF; ATTR_INNER_SHARED; ATTR_NS].
Definition ATTR_DEVICE_RW : Z := any_of [ATTR_DEVICE; ATTR_USER_RW; ATTR_UXN; ATTR_PXN; ATTR_AF; ATTR_INNER_SHARED; ATTR_NS].
Definition MEM_SIZE_64K : Z := 0x10000.
Definition MAX_MMAP_REGION_COUNT : nat := 75.

(** ** The platform *)

Record bm_cfg := mk_bm_cfg {
  TEXT_START : Z; TEXT_END : Z; RODATA_START : Z; RODATA_END : Z; DATA_START : Z; DATA_END : Z; BSS_START : Z; BSS_END : Z;
  image_base : Z; image_size : Z; mem_pool_size : Z;
  uart_address : Z;
  wd_cfg : WD_INFO_TABLE;
  timer_block : Z; timer_num : Z; timer_bases : list Z;
  gic_cfg : PLATFORM_OVERRIDE_GIC_INFO_TABLE;
  smmu_count : Z; smmu_bases : list Z;
  pcie_cfg : PCIE_INFO_TABLE;
  (** The BAR windows: 64-bit, of a root port, 32-bit non-prefetchable and prefetchable, of
      a root port. *)
  bar_bases : Z * Z * Z * Z * Z;
  mem_count : Z; mem_cfg : list MEMORY_INFO }.

(** ** The list *)

(** [mmap_region_list] and [mmap_list_curr_index]. *)
Record mmap := mk_mmap { mmap_region_list : list memory_region_descriptor_t; mmap_list_curr_index : Z }.

Section Regions.
Context `{Uninit} (c : bm_cfg).
Local Abbreviation P := (prog mmap).

(** The four assignments and the increment. *)
Definition add_region (r : memory_region_descriptor_t) : P unit := fun s =>
  match at_index (mmap_region_list s) (mmap_list_curr_index s) with
  | Some _ => Done (tt, mk_mmap (<[Z.to_nat (mmap_list_curr_index s) := r]> (mmap_region_list s)) (u32 (mmap_list_curr_index s + 1)))
  | None => Undefined
  end.
Definition flat (base len attr : Z) : memory_region_descriptor_t := mk_region base base len attr.

(** [for (i = 0; i < n; i++)] with an [i] of eight bits: 256 rounds are all there can be. *)
Fixpoint for_u8 (fuel : nat) (i n : Z) (body : Z -> P unit) : P unit :=
  match fuel with
  | O => diverge
  | S f => if i <? n then body i ;;; for_u8 f (u8 (i + 1)) n body else ret tt
  end.
Definition each_u8 (n : Z) (body : Z -> P unit) : P unit := for_u8 257 0 n body.
Definition map_bases (n : Z) (bases : list Z) (len attr : Z) : P unit :=
  each_u8 n (fun i => let* b := deref (at_index bases i) in add_region (flat b len attr)).

Definition map_text_region : P unit := add_region (flat (TEXT_START c) (u64 (TEXT_END c - TEXT_START c)) ATTR_CODE).
Definition map_rodata_region : P unit := add_region (flat (RODATA_START c) (u64 (RODATA_END c - RODATA_START c)) ATTR_RO_DATA).
Definition map_data_region : P unit := add_region (flat (DATA_START c) (u64 (DATA_END c - DATA_START c)) ATTR_RW_DATA).
Definition map_bss_region : P unit := add_region (flat (BSS_START c) (u64 (BSS_END c - BSS_START c)) ATTR_RW_DATA).
Definition map_mem_pool_region : P unit := add_region (flat (u64 (image_base c + image_size c)) (mem_pool_size c) ATTR_RW_DATA).
Definition map_uart_device_region (length attr : Z) : P unit := add_region (flat (uart_address c) length attr).
Definition map_watchdog_device_region (num_wd length attr : Z) : P unit :=
  each_u8 num_wd (fun i =>
    let* w := deref (at_index (wd_info (wd_cfg c)) i) in
    add_region (flat (wd_ctrl_base w) length attr) ;;; add_region (flat (wd_refresh_base w) length attr)).
Definition map_timer_device_region (num_timer length attr : Z) : P unit :=
  add_region (flat (timer_block c) length attr) ;;; map_bases num_timer (timer_bases c) length attr.
Definition map_gic_device_region (gicc_count gicd_count gicc_rd_count gicr_rd_count gich_count gic_its_count length attr : Z) : P unit :=
  map_bases gicc_count (gicc_base (gic_cfg c)) (u64 (0x4 * length)) attr ;;;
  map_bases gicd_count (gicd_base (gic_cfg c)) (u64 (20 * length)) attr ;;;
  map_bases gicc_rd_count (gicc_rd_base (gic_cfg c)) (u64 (0x4 * length)) attr ;;;
  map_bases gicr_rd_count (gicr_rd_base (gic_cfg c)) (u64 (0x4 * length)) attr ;;;
  map_bases gich_count (gich_base (gic_cfg c)) (u64 (0x4 * length)) attr ;;;
  map_bases gic_its_count (gicits_base (gic_cfg c)) (u64 (0x2 * length)) attr.
Definition map_smmu_device_region (num_smmu length attr : Z) : P unit := map_bases num_smmu (smmu_bases c) (u64 (0x5 * length)) attr.
Definition map_pcie_ecam_bar_region (num_ecam length attr : Z) : P unit :=
  each_u8 num_ecam (fun i => let* b := deref (at_index (block (pcie_cfg c)) i) in add_region (flat (ecam_base b) (u64 (0x1000 * length)) attr)) ;;;
  when (negb (num_ecam =? 0))
    (let '(bar64, rp64, np32, p32, rp32) := bar_bases c in
     add_region (flat bar64 (u64 (0x10 * length)) attr) ;;; add_region (flat rp64 (u64 (0x10 * length)) attr) ;;;
     add_region (flat np32 (u64 (0x60 * length)) attr) ;;; add_region (flat p32 (u64 (0x100 * length)) attr) ;;;
     add_region (flat rp32 (u64 (0x20 * length)) attr)).
Definition get_mem_attr (mem_type : Z) : Z :=
  if mem_type =? mem_type_code MEMORY_TYPE_DEVICE then ATTR_DEVICE_RW
  else if mem_type =? mem_type_code MEMORY_TYPE_NORMAL then ATTR_RW_DATA
  else if mem_type =? mem_type_code MEMORY_TYPE_NOT_POPULATED then any_of [ATTR_USER_RW; ATTR_AF; ATTR_NS]
  else if mem_type =? mem_type_code MEMORY_TYPE_RESERVED then any_of [ATTR_PRIV_RO; ATTR_AF; ATTR_NS]
  else uninit "mem_attr".
(** The virtual address is the physical one of the table and the other way round. *)
Definition mem_region (m : MEMORY_INFO) : memory_region_descriptor_t :=
  mk_region (m_phy_addr m) (m_virt_addr m) (m_size m) (get_mem_attr (mem_type_code (m_type m))).
Definition is_reserved (m : MEMORY_INFO) : bool := mem_type_code (m_type m) =? mem_type_code MEMORY_TYPE_RESERVED.
Definition map_system_mem_region (num_regions : Z) : P unit :=
  each_u8 num_regions (fun i =>
    let* m := deref (at_index (mem_cfg c) i) in
    if is_reserved m then ret tt else add_region (mem_region m)).

Definition pal_mmu_add_mmap : P unit :=
  modify (fun s => mk_mmap (mmap_region_list s) 0) ;;;
  map_text_region ;;; map_rodata_region ;;; map_data_region ;;; map_bss_region ;;; map_mem_pool_region ;;;
  map_uart_device_region MEM_SIZE_64K ATTR_DEVICE_RW ;;;
  map_watchdog_device_region (num_wd (wd_cfg c)) MEM_SIZE_64K ATTR_DEVICE_RW ;;;
  map_timer_device_region (timer_num c) MEM_SIZE_64K ATTR_DEVICE_RW ;;;
  map_gic_device_region (c_num_gicc (gic_cfg c)) (c_num_gicd (gic_cfg c)) (c_num_gicc_rd (gic_cfg c)) (c_num_gicr_rd (gic_cfg c))
    (c_num_gich (gic_cfg c)) (c_num_gicits (gic_cfg c)) MEM_SIZE_64K ATTR_DEVICE_RW ;;;
  map_smmu_device_region (smmu_count c) MEM_SIZE_64K ATTR_DEVICE_RW ;;;
  map_pcie_ecam_bar_region (info_num_entries (pcie_cfg c)) MEM_SIZE_64K ATTR_DEVICE_RW ;;;
  map_system_mem_region (mem_count c).
End Regions.

(** ** The set-up *)

(** The writes of the system registers, the last first. *)
Inductive sysreg := MAIR | TTBR0 | TCR | SCTLR.
Record boot := mk_boot { regions : mmap; tables : pgt_state; writes : list (sysreg * Z * Z) }.

Section Setup.
Context `{Uninit} (c : bm_cfg).
(** The address of [tt_l0_base], and [MMU_PGT_IAS] and [MMU_PGT_OAS]. *)
Context (tt_l0_base MMU_PGT_IAS MMU_PGT_OAS : Z).
Local Abbreviation P := (prog boot).

Definition on_regions {A} (p : prog mmap A) : P A := fun s =>
  match p (regions s) with Done (a, m) => Done (a, mk_boot m (tables s) (writes s)) | Undefined => Undefined | Diverges => Diverges end.
Definition on_tables {A} (p : prog pgt_state A) : P A := fun s =>
  match p (tables s) with Done (a, t) => Done (a, mk_boot (regions s) t (writes s)) | Undefined => Undefined | Diverges => Diverges end.

Definition val_mmu_add_mmap : P unit := on_regions (pal_mmu_add_mmap c).
Definition val_mmu_get_mmap_list : P (list memory_region_descriptor_t) := gets (fun s => mmap_region_list (regions s)).
Definition val_mmu_get_mapping_count : P Z := gets (fun s => mmap_list_curr_index (regions s)).

(** The fields that [val_pgt_create] reads. *)
Definition pgt_desc : pgt_descriptor_t := mk_pgt_desc tt_l0_base MMU_PGT_IAS MMU_PGT_OAS 0 0.
Definition no_region : memory_region_descriptor_t := mk_region 0 0 0 0.
(** [while (i < map_count)], with an [i] of eight bits. *)
Fixpoint setup_loop (fuel : nat) (i : Z) (l : list memory_region_descriptor_t) (map_count : Z) : P Z :=
  match fuel with
  | O => diverge
  | S f =>
      if i <? map_count then
        let* r := deref (at_index l i) in
        let* x := on_tables (val_pgt_create [r; no_region] pgt_desc) in
        if negb (x.1 =? 0) then ret ACS_STATUS_ERR else setup_loop f (u8 (i + 1)) l map_count
      else ret ACS_STATUS_PASS
  end.
Definition val_setup_mmu : P Z :=
  val_mmu_add_mmap ;;;
  let* l := val_mmu_get_mmap_list in
  let* map_count := val_mmu_get_mapping_count in
  setup_loop 257 0 l map_count.

Definition write_reg (r : sysreg) (value el : Z) : P unit := modify (fun s => mk_boot (regions s) (tables s) ((r, value, el) :: writes s)).
(** [current_el] is [val_read_current_el()], [sctlr] what [val_sctlr_read] gives for the level. *)
Definition val_enable_mmu (TCR_TG0 current_el : Z) (sctlr : Z -> Z) : P Z :=
  let currentEL := Z.shiftr (Z.land current_el 0xc) 2 in
  write_reg MAIR 0x00FF44 currentEL ;;;
  write_reg TTBR0 tt_l0_base currentEL ;;;
  let tcr := if currentEL =? 2 then
               any_of [Z.shiftl 1 20; Z.shiftl 5 16; Z.shiftl TCR_TG0 14; Z.shiftl 3 12; Z.shiftl 1 10; Z.shiftl 1 8; 64 - MMU_PGT_IAS]
             else uninit "tcr" in
  write_reg TCR tcr currentEL ;;;
  write_reg SCTLR (any_of [1; Z.shiftl 1 2; Z.shiftl 1 12; sctlr currentEL]) currentEL ;;;
  ret ACS_STATUS_PASS.
End Setup.

(** ** What the list holds *)

(** [m] appends [l] to the list. *)
Definition adds (l : list memory_region_descriptor_t) (m : prog mmap unit) : Prop := forall done room,
  (length l <= length room)%nat -> Z.of_nat (length (done ++ room)) < 2 ^ 32 ->
  m (mk_mmap (done ++ room) (Z.of_nat (length done))) = Done (tt, mk_mmap (done ++ l ++ drop (length l) room) (Z.of_nat (length (done ++ l)))).

Lemma adds_nil : adds [] (ret tt).
Proof. intros d room _ _. by rewrite app_nil_r. Qed.
Lemma adds_app l1 l2 m1 m2 : adds l1 m1 -> adds l2 m2 -> adds (l1 ++ l2) (m1 ;;; m2).
Proof.
  intros H1 H2 d room Hl Hs. rewrite length_app in Hl. rewrite (bind_done _ _ _ _ _ (H1 d room ltac:(lia) Hs)).
  rewrite app_assoc, H2 by (rewrite ?length_app, ?length_drop; rewrite length_app in Hs; lia).
  by rewrite drop_drop, (length_app l1 l2), <- !app_assoc.
Qed.
Lemma adds_one r : adds [r] (add_region r).
Proof.
  intros d [|x room] Hl Hs; [cbn in Hl; lia|]. unfold add_region. cbn [mmap_region_list mmap_list_curr_index length].
  rewrite at_index_nat, lookup_app_r, Nat.sub_diag by lia. cbn [lookup list_lookup]. rewrite Nat2Z.id, insert_app_r_alt, Nat.sub_diag by lia.
  cbn [app drop]. rewrite length_app in *. cbn [length] in *. rewrite u32_small by lia. do 3 f_equal. cbn. lia.
Qed.

Section Layout.
Context `{Uninit} (c : bm_cfg).

(** A loop over the elements of an array of at most 255. *)
Lemma adds_for_u8 {A} (xs : list A) (f : A -> list memory_region_descriptor_t) body k : (forall i x, xs !! i = Some x -> adds (f x) (body (Z.of_nat i))) ->
  (length xs <= 255)%nat -> (k <= length xs)%nat -> adds (flat_map f (drop k xs)) (for_u8 (257 - k) (Z.of_nat k) (Z.of_nat (length xs)) body).
Proof.
  intros Hb Hn. remember (length xs - k)%nat as j eqn:Ej. revert k Ej. induction j as [|j IH]; intros k Ej Hk.
  - rewrite drop_ge by lia. destruct (257 - k)%nat as [|n] eqn:En; [lia|]. cbn [for_u8]. destruct (Z.ltb_spec (Z.of_nat k) (Z.of_nat (length xs))); [lia|]. apply adds_nil.
  - destruct (lookup_lt_is_Some_2 xs k ltac:(lia)) as [x Hx]. rewrite (drop_S _ _ _ Hx). destruct (257 - k)%nat as [|n] eqn:En; [lia|]. cbn [for_u8 flat_map].
    destruct (Z.ltb_spec (Z.of_nat k) (Z.of_nat (length xs))); [|lia]. apply adds_app; [by apply Hb|].
    rewrite u8_small by lia. replace (Z.of_nat k + 1) with (Z.of_nat (S k)) by lia. replace n with (257 - S k)%nat by lia. apply IH; lia.
Qed.
Lemma adds_each_u8 {A} (xs : list A) (f : A -> list memory_region_descriptor_t) body n : (forall i x, xs !! i = Some x -> adds (f x) (body (Z.of_nat i))) ->
  (length xs <= 255)%nat -> n = Z.of_nat (length xs) -> adds (flat_map f xs) (each_u8 n body).
Proof. intros Hb Hl ->. exact (adds_for_u8 xs f body 0 Hb Hl ltac:(lia)). Qed.
(** The body of such a loop reads the array first. *)
Lemma adds_read {A} (xs : list A) (g : A -> prog mmap unit) l i x : xs !! i = Some x -> adds l (g x) -> adds l (let* y := deref (at_index xs (Z.of_nat i)) in g y).
Proof. intros Hx Hg d room Hl Hs. rewrite at_index_nat, Hx. exact (Hg d room Hl Hs). Qed.
Lemma adds_bases n bases len attr : (length bases <= 255)%nat -> n = Z.of_nat (length bases) -> adds ((fun b => flat b len attr) <$> bases) (map_bases n bases len attr).
Proof.
  intros Hl ->. replace ((fun b => flat b len attr) <$> bases) with (flat_map (fun b => [flat b len attr]) bases) by (induction bases as [|b l IH]; [done|]; cbn in *; by rewrite IH by lia).
  apply adds_each_u8; [|done|done]. intros i b Hb. eapply adds_read; [done|]. apply adds_one.
Qed.

(** An array with its count. *)
Definition counted {A} (n : Z) (l : list A) : Prop := n = Z.of_nat (length l) /\ (length l <= 255)%nat.
(** The sections of the image end behind their start, and so does the image. *)
Definition image_ok : Prop :=
  Forall (fun x => x.1 <= x.2 < x.1 + 2 ^ 64)
    [(TEXT_START c, TEXT_END c); (RODATA_START c, RODATA_END c); (DATA_START c, DATA_END c); (BSS_START c, BSS_END c)] /\
  0 <= image_base c + image_size c < 2 ^ 64.
Definition cfg_ok : Prop :=
  image_ok /\ Forall (fun m => m_type m <> MEMORY_TYPE_LAST_ENTRY) (mem_cfg c) /\
  counted (num_wd (wd_cfg c)) (wd_info (wd_cfg c)) /\ counted (timer_num c) (timer_bases c) /\
  counted (c_num_gicc (gic_cfg c)) (gicc_base (gic_cfg c)) /\ counted (c_num_gicd (gic_cfg c)) (gicd_base (gic_cfg c)) /\
  counted (c_num_gicc_rd (gic_cfg c)) (gicc_rd_base (gic_cfg c)) /\ counted (c_num_gicr_rd (gic_cfg c)) (gicr_rd_base (gic_cfg c)) /\
  counted (c_num_gich (gic_cfg c)) (gich_base (gic_cfg c)) /\ counted (c_num_gicits (gic_cfg c)) (gicits_base (gic_cfg c)) /\
  counted (smmu_count c) (smmu_bases c) /\ counted (info_num_entries (pcie_cfg c)) (block (pcie_cfg c)) /\ counted (mem_count c) (mem_cfg c).

(** The bits of a leaf descriptor, by their places in it: the index of the memory
    attribute (2, 3, 4), non-secure (5), the access permission (6, 7), inner shareable (8, 9),
    the access flag (10), and execute never at both levels (53, 54). *)
Definition leaf (index access : Z) (executable : bool) : Z :=
  index * 2 ^ 2 + 2 ^ 5 + access * 2 ^ 6 + 3 * 2 ^ 8 + 2 ^ 10 + (if executable then 0 else 2 ^ 53 + 2 ^ 54).
(** Index 1 is write-back memory and index 2 a device; permission 1 is to read and write
    and permission 3 to read. *)
Definition code_page : Z := leaf 1 3 true.
Definition constant_page : Z := leaf 1 3 false.
Definition data_page : Z := leaf 1 1 false.
Definition device_page : Z := leaf 2 1 false.
(** Not populated: non-secure, permission 1, the access flag. *)
Definition empty_page : Z := 2 ^ 5 + 2 ^ 6 + 2 ^ 10.

(** A device with [n] times 64 KB of registers, at its own address. *)
Definition device (n base : Z) : memory_region_descriptor_t := mk_region base base (n * 0x10000) device_page.
Definition section (start stop page : Z) : memory_region_descriptor_t := mk_region start start (stop - start) page.
Definition image_regions : list memory_region_descriptor_t :=
  [section (TEXT_START c) (TEXT_END c) code_page; section (RODATA_START c) (RODATA_END c) constant_page;
   section (DATA_START c) (DATA_END c) data_page; section (BSS_START c) (BSS_END c) data_page;
   mk_region (image_base c + image_size c) (image_base c + image_size c) (mem_pool_size c) data_page].
Definition gic_regions : list memory_region_descriptor_t :=
  (device 4 <$> gicc_base (gic_cfg c)) ++ (device 20 <$> gicd_base (gic_cfg c)) ++ (device 4 <$> gicc_rd_base (gic_cfg c)) ++
  (device 4 <$> gicr_rd_base (gic_cfg c)) ++ (device 4 <$> gich_base (gic_cfg c)) ++ (device 2 <$> gicits_base (gic_cfg c)).
(** 256 MB for a configuration space; the windows of the BARs only where there is one. *)
Definition pcie_regions : list memory_region_descriptor_t :=
  (device 0x1000 <$> (ecam_base <$> block (pcie_cfg c))) ++
  match block (pcie_cfg c) with
  | [] => []
  | _ => let '(bar64, rp64, np32, p32, rp32) := bar_bases c in
         [device 0x10 bar64; device 0x10 rp64; device 0x60 np32; device 0x100 p32; device 0x20 rp32]
  end.
(** Memory that is not reserved.  The code takes the physical address of the table for the
    virtual one and the virtual for the physical. *)
Definition memory_page (t : MEM_INFO_TYPE_e) : Z :=
  match t with MEMORY_TYPE_DEVICE => device_page | MEMORY_TYPE_NORMAL => data_page | _ => empty_page end.
Definition mem_regions : list memory_region_descriptor_t :=
  flat_map (fun m => match m_type m with
    | MEMORY_TYPE_RESERVED => []
    | ty => [ {| virtual_address := m_phy_addr m; physical_address := m_virt_addr m; length_ := m_size m; attributes := memory_page ty |} ]
    end) (mem_cfg c).
(** Every region of the platform, in order. *)
Definition layout : list memory_region_descriptor_t :=
  image_regions ++ [device 1 (uart_address c)] ++ flat_map (fun w => [device 1 (wd_ctrl_base w); device 1 (wd_refresh_base w)]) (wd_info (wd_cfg c)) ++
  (device 1 (timer_block c) :: (device 1 <$> timer_bases c)) ++ gic_regions ++ (device 5 <$> smmu_bases c) ++ pcie_regions ++ mem_regions.

Lemma adds_section start stop attr page : start <= stop < start + 2 ^ 64 -> attr = page -> adds [section start stop page] (add_region (flat start (u64 (stop - start)) attr)).
Proof. intros Hs ->. unfold flat. rewrite u64_small by lia. apply adds_one. Qed.

Lemma adds_devices k len n bases : len = k * 0x10000 -> (length bases <= 255)%nat -> n = Z.of_nat (length bases) ->
  adds (device k <$> bases) (map_bases n bases len ATTR_DEVICE_RW).
Proof.
  intros -> Hl Hn. replace (device k <$> bases) with ((fun b => flat b (k * 0x10000) ATTR_DEVICE_RW) <$> bases); [by apply adds_bases|].
  by apply list_fmap_ext.
Qed.

Lemma adds_gic : cfg_ok -> adds gic_regions (map_gic_device_region c (c_num_gicc (gic_cfg c)) (c_num_gicd (gic_cfg c)) (c_num_gicc_rd (gic_cfg c))
  (c_num_gicr_rd (gic_cfg c)) (c_num_gich (gic_cfg c)) (c_num_gicits (gic_cfg c)) MEM_SIZE_64K ATTR_DEVICE_RW).
Proof.
  intros (_ & _ & _ & _ & [? ?] & [? ?] & [? ?] & [? ?] & [? ?] & [? ?] & _).
  do 5 (apply adds_app; [by apply adds_devices|]). by apply adds_devices.
Qed.
Lemma adds_pcie : cfg_ok -> adds pcie_regions (map_pcie_ecam_bar_region c (info_num_entries (pcie_cfg c)) MEM_SIZE_64K ATTR_DEVICE_RW).
Proof.
  intros (_ & _ & _ & _ & _ & _ & _ & _ & _ & _ & _ & [Hn Hl] & _). unfold pcie_regions, map_pcie_ecam_bar_region. apply adds_app.
  - replace (device 0x1000 <$> (ecam_base <$> block (pcie_cfg c))) with (flat_map (fun b => [device 0x1000 (ecam_base b)]) (block (pcie_cfg c)))
      by (clear; induction (block (pcie_cfg c)) as [|b l IH]; [done|]; cbn; by f_equal).
    apply adds_each_u8; [|done|done]. intros i b Hb. eapply adds_read; [done|]. apply adds_one.
  - rewrite Hn. destruct (block (pcie_cfg c)) as [|x l]; [apply adds_nil|].
    replace (negb (Z.of_nat (length (x :: l)) =? 0)) with true by done. cbn [when]. destruct (bar_bases c) as [[[[b1 b2] b3] b4] b5].
    do 4 (apply (adds_app [_]); [apply adds_one|]). apply adds_one.
Qed.
Lemma adds_mem : cfg_ok -> adds mem_regions (map_system_mem_region c (mem_count c)).
Proof.
  intros (_ & Hlast & _ & _ & _ & _ & _ & _ & _ & _ & _ & _ & [Hn Hl]). apply adds_each_u8; [|done|done]. intros i m Hm. eapply adds_read; [done|].
  pose proof (Forall_lookup_1 _ _ _ _ Hlast Hm) as Hty. cbv beta in Hty. unfold is_reserved, mem_region. destruct (m_type m); try done; [apply adds_one..|apply adds_nil|apply adds_one].
Qed.

Lemma adds_layout : cfg_ok -> exists m, (forall s, pal_mmu_add_mmap c s = m (mk_mmap (mmap_region_list s) 0)) /\ adds layout m.
Proof.
  intros Hok. eexists. split; [intros s; reflexivity|]. cbn beta.
  pose proof Hok as ([Hi Hp] & _ & [Hw Hwl] & [Ht Htl] & _ & _ & _ & _ & _ & _ & [Hs Hsl] & _). unfold layout.
  repeat (apply Forall_cons in Hi as [? Hi]). unfold image_regions. cbn [app].
  do 4 (apply (adds_app [_]); [by apply adds_section|]).
  apply (adds_app [_]); [unfold map_mem_pool_region; rewrite u64_small by lia; apply adds_one|]. apply (adds_app [_]); [apply adds_one|]. apply adds_app.
  { apply adds_each_u8; [|done|done]. intros i w Hw0. eapply adds_read; [done|]. apply (adds_app [_]); apply adds_one. }
  apply (adds_app (_ :: _)); [apply (adds_app [_]); [apply adds_one|by apply adds_devices]|].
  apply adds_app; [by apply adds_gic|]. apply adds_app; [by apply adds_devices|]. apply adds_app; [by apply adds_pcie|by apply adds_mem].
Qed.
End Layout.

Section SetupLayout.
Context `{Uninit} (c : bm_cfg) (tt_l0_base MMU_PGT_IAS MMU_PGT_OAS : Z).
Local Abbreviation desc := (pgt_desc tt_l0_base MMU_PGT_IAS MMU_PGT_OAS).

(** One call of [val_pgt_create] per region, up to the first that fails. *)
Fixpoint map_all (l : list memory_region_descriptor_t) : prog pgt_state Z :=
  match l with
  | [] => ret ACS_STATUS_PASS
  | r :: l => let* x := val_pgt_create [r; no_region] desc in if negb (x.1 =? 0) then ret ACS_STATUS_ERR else map_all l
  end.

Lemma setup_loop_map_all l rest k s : (length l <= 255)%nat -> (k <= length l)%nat ->
  setup_loop tt_l0_base MMU_PGT_IAS MMU_PGT_OAS (257 - k) (Z.of_nat k) (l ++ rest) (Z.of_nat (length l)) s = on_tables (map_all (drop k l)) s.
Proof.
  intros Hl. remember (length l - k)%nat as j eqn:Ej. revert k s Ej. induction j as [|j IH]; intros k s Ej Hk; destruct (257 - k)%nat as [|n] eqn:En; try lia; cbn [setup_loop].
  - rewrite drop_ge by lia. destruct (Z.ltb_spec (Z.of_nat k) (Z.of_nat (length l))); [lia|]. by destruct s.
  - destruct (lookup_lt_is_Some_2 l k ltac:(lia)) as [r Hr]. rewrite (drop_S _ _ _ Hr). destruct (Z.ltb_spec (Z.of_nat k) (Z.of_nat (length l))); [|lia].
    rewrite at_index_nat, (lookup_app_l_Some _ _ _ _ Hr). cbn [map_all]. unfold on_tables at 2, bind at 1 3, deref, ret at 1. cbn match.
    unfold bind at 1, on_tables at 1. destruct (val_pgt_create [r; no_region] desc (tables s)) as [[x t]| |]; [|done|done]. destruct (negb (x.1 =? 0)); [done|].
    rewrite u8_small by lia. replace (Z.of_nat k + 1) with (Z.of_nat (S k)) by lia. replace n with (257 - S k)%nat by lia. by rewrite IH by lia.
Qed.

Lemma add_mmap_layout room i : cfg_ok c -> (length (layout c) <= length room)%nat -> Z.of_nat (length room) < 2 ^ 32 ->
  pal_mmu_add_mmap c (mk_mmap room i) = Done (tt, mk_mmap (layout c ++ drop (length (layout c)) room) (Z.of_nat (length (layout c)))).
Proof. intros Hok Hl Hs. destruct (adds_layout c Hok) as (m & E & Ha). rewrite E. exact (Ha [] room Hl Hs). Qed.

(** C36: The set-up of the bare-metal boot maps the [layout] of the platform: where the
    counts of the platform are those of its arrays, the image is in order and the list has room for the regions, at most
    255, [val_setup_mmu] puts the regions of the layout and no others into the list, in order:
    the sections of the image, the heap behind it, the UART, both frames of every watchdog,
    the timers, the interrupt controller, the SMMUs, the configuration spaces with the windows
    of the BARs, and the memory that is not reserved, each with its address, its size and
    the bits of its descriptors.  It then creates the tables of one after the other on the
    same base, up to the first that fails.  For a region of memory the virtual address in
    the list is the physical one of the platform, and the physical the virtual one: the
    code has them the wrong way round, which an identical map does not show. *)
Theorem setup_mmu_maps_layout s :
  cfg_ok c -> (length (layout c) <= 255)%nat -> (length (layout c) <= length (mmap_region_list (regions s)))%nat ->
  Z.of_nat (length (mmap_region_list (regions s))) < 2 ^ 32 ->
  val_setup_mmu c tt_l0_base MMU_PGT_IAS MMU_PGT_OAS s =
  on_tables (map_all (layout c)) (mk_boot (mk_mmap (layout c ++ drop (length (layout c)) (mmap_region_list (regions s))) (Z.of_nat (length (layout c)))) (tables s) (writes s)).
Proof.
  intros Hok Hn Hl Hs. destruct s as [[room i] t w]. cbn [regions tables writes mmap_region_list] in *. unfold val_setup_mmu, val_mmu_add_mmap, on_regions.
  unfold bind at 1. cbn [regions]. rewrite (add_mmap_layout room i Hok Hl Hs). unfold val_mmu_get_mmap_list, val_mmu_get_mapping_count, bind, gets.
  cbn [regions mmap_region_list mmap_list_curr_index]. exact (setup_loop_map_all (layout c) _ 0 _ Hn ltac:(lia)).
Qed.
End SetupLayout.

(** ** The platform RDN2 *)

Module Sample.
#[local] Instance zeros : Uninit := fun _ => 0.
(** An image of 704 KB, and the platform of [Rdn2.v]. *)
Definition rdn2 : bm_cfg := mk_bm_cfg
  0xE0000000 0xE0080000 0xE0080000 0xE0090000 0xE0090000 0xE0092000 0xE0092000 0xE00B0000 0xE0000000 0x4000000 (250 * 0x100000) 0x2A400000
  platform_wd_cfg (block_cntl_base platform_timer_block) 2 (GtCntBase platform_timer_block) platform_gic_cfg
  5 (smmu_base <$> nd_smmu platform_node_type) platform_pcie_cfg
  (0x4000100000, 0x4000000000, 0x60000000, 0x60600000, 0x60850000) 4 platform_mem_cfg.
Definition page (i : nat) : option Z := Some (0x100000 + 0x1000 * Z.of_nat i).
Definition tables0 : pgt_state := mk_pgt (zero_words 512 0x10000 ∅) (page <$> seq 0 60) [] 0 0 0 0 0 (mk_pgt_info 0 0 0 0 0).
Definition boot0 : boot := mk_boot (mk_mmap (repeat no_region MAX_MMAP_REGION_COUNT) 0) tables0 [].

Lemma rdn2_image : image_ok rdn2.
Proof. split; [repeat constructor; cbn -[Z.pow]; lia|by vm_compute]. Qed.
Lemma rdn2_ok : cfg_ok rdn2.
Proof. split; [exact rdn2_image|]. split; [by repeat constructor|]. unfold counted. cbn. split_and!; (done || lia). Qed.

(** The set-up of this platform maps 52 regions. *)
Lemma setup_mmu_maps_layout_witness :
  length (layout rdn2) = 52%nat /\
  val_setup_mmu rdn2 0x10000 48 48 boot0 =
  on_tables (map_all 0x10000 48 48 (layout rdn2)) (mk_boot (mk_mmap (layout rdn2 ++ repeat no_region 23) 52) tables0 []).
Proof.
  split; [by vm_compute|].
  exact (setup_mmu_maps_layout rdn2 0x10000 48 48 boot0 rdn2_ok ltac:(by apply Nat.leb_le) ltac:(by apply Nat.leb_le) ltac:(by vm_compute)).
Defined.

(** The tables after it, and the attributes of an address. *)
Definition tables_of (o : outcome (Z * boot)) : option pgt_state := match o with Done (r, s) => if r =? ACS_STATUS_PASS then Some (tables s) else None | _ => None end.
Definition rdn2_tables : option pgt_state := tables_of (val_setup_mmu rdn2 0x10000 48 48 boot0).
Definition attributes_of (v : Z) (t : pgt_state) : option Z :=
  match val_pgt_get_attributes (mk_pgt_desc 0x10000 48 48 12 16) v t with Done (inr a, _) => Some a | _ => None end.
(** The first and the last byte of a region have its attributes. *)
Definition starts_mapped (t : pgt_state) (r : memory_region_descriptor_t) : bool := bool_decide (attributes_of (virtual_address r) t = Some (attributes r)).
Definition ends_mapped (t : pgt_state) (r : memory_region_descriptor_t) : bool := bool_decide (attributes_of (virtual_address r + length_ r - 1) t = Some (attributes r)).

(** It passes, and every region is mapped at its start. The ends of three are not translated:
    of the distributor, of the third SMMU and of the BARs of the root port. The counters of
    [acs_pgt.c] are not reset between two calls of [val_pgt_create], and what they count of
    the region before is taken off. *)
Lemma rdn2_mapped :
  match rdn2_tables with
  | Some t =>
      forallb (starts_mapped t) (layout rdn2) = true /\ attributes_of 0x40000FF000 t = None /\
      filter (fun r => negb (ends_mapped t r)) (layout rdn2) = [device 20 0x30000000; device 5 0x44000000; device 0x10 0x4000000000]
  | None => False
  end.
Proof. vm_compute. by split_and!. Qed.

(** At another exception level the translation control is written with a variable that
    nothing was assigned to. *)
Lemma enable_mmu_uninit tcr : (let* r := @val_enable_mmu (fun _ => tcr) 0x10000 48 0 4 (fun _ => 0) in let* w := gets writes in ret (r, w)) boot0 =
  Done ((ACS_STATUS_PASS, [(SCTLR, 0x1005, 1); (TCR, tcr, 1); (TTBR0, 0x10000, 1); (MAIR, 0x00FF44, 1)]),
        mk_boot (regions boot0) tables0 [(SCTLR, 0x1005, 1); (TCR, tcr, 1); (TTBR0, 0x10000, 1); (MAIR, 0x00FF44, 1)]).
Proof. done. Qed.
End Sample.
